(* ===== verification/_CoqProject ===== *)
-Q . S2P
Prelude.v
Layout.v
Capture.v
CaptureInv.v
CaptureSpec.v
CaptureRun.v
CaptureLive.v
DiskTable.v
Files.v
ToDisk.v
Readers.v
Counts.v
Control.v
EndToEnd.v
MapUser.v
PbmInit.v
IrqScript.v
Hw.v
Mailbox.v
Dcb.v
DcbHw.v
Bits.v
FlowDir.v
FlowFilters.v
FdirRules.v
Eeprom.v
Spi.v
RegFile.v
Vlan.v
AddrFilter.v
MacTable.v
FlowControl.v
Sriov.v
SriovSpec.v
Queues.v
QueuesSpec.v
Vectors.v
Params.v
Irq.v
IrqSpec.v
IrqRate.v
IrqHandlers.v
IrqEvents.v
Slots.v
TxRing.v
TxRingSpec.v
TxRingRun.v
TxFifo.v
Lro.v
LroSpec.v
Fcoe.v
FcoeSpec.v
RxRing.v
RxHead.v
RxSpec.v
RxRun.v
RxDown.v
I2c.v
I2cSpec.v
Sfp.v
SfpSpec.v
