(* ===== verification/Prelude.v ===== *)
(** * Fast NIC recorder: a verification development

    The repository records 10 Gbit/s traffic to disk. A modified Intel driver
    ([src/ixgbe-3.18.7]) lets the adapter store packets directly in reserved physical memory;
    user programs ([src/application_ixgbe]) copy that memory to disk and turn recordings into
    libpcap files; a small character device ([src/map_user]) gives the programs access to
    physical memory; a script generator ([src/arrange_irq]) keeps interrupts away from the
    processors of the capture threads.

    ** How the parts interact

    Memory is divided into buckets of 1 GB, reused in a circle. A bucket has 992 MB of packet
    data, divided into 4096 slots (one per receive descriptor), and a length block: a header
    ([num_captured], [last], [stalled], [num_rx_slots], a time stamp) and a table of packet
    lengths, row by row. Slot [q] of row [r] lies behind the packets of slot [q] in the rows
    before, so the lengths are all that is needed to find a packet. Two kernel threads share
    the descriptor ring: [nlsim_alloc_thread] hands out buffers and closes a bucket when a
    slot is nearly full; [nlsim_process_thread] writes the lengths of received packets into the
    table. Writers ([todisk]) poll the headers, copy full buckets to files and free them;
    [start] and [stop] set bytes of a shared page; the readers ([to_libpcap],
    [block2libpcap], [dump_packet], [count_recorded], [block_info]) work on the files.

    ** The files of the development

    - [Prelude]: machine integers, C division, tactics, generic lemmas.
    - [Layout] ([nlsim_ixgbe.h]): constants, the bucket header as a record and as bytes, the
      shared page, and [holds], what it means that a bucket holds a list of packets.
    - [Capture] ([nlsim_pbm.c], the two threads): a thread is a record of its locals with a
      program counter; a step performs at most one access to shared state, so the relation
      [step] covers every interleaving of the threads, the adapter and the user programs. The
      adapter is the interface [Nic] (no source in the repository); the user programs are the
      relation [user_step].
    - [CaptureInv]: the invariant of the threads. Its ghost state counts the packets supplied,
      published, received, recorded and released, and the buckets opened, with the number of the
      first packet of each. [run_invariant] proves it for every reachable state.
    - [CaptureSpec]: the abstract recorder [log] (full buckets, bucket being filled, pending
      packets) and the refinement theorem [capture_fifo]; safety of the DMA addresses and of
      the descriptors; bounds of the length table; the last bucket after a stop.
    - [CaptureRun]: an adapter that satisfies [Nic], and concrete runs, for the witnesses.
    - [CaptureLive]: progress. Each thread by itself, in a bounded number of its steps, records
      everything received, refills the ring, or ends after a stop; the bounds come from measures
      that every step lowers.
    - [DiskTable] ([read_disk_table] of every program): the C library functions it uses, the
      parser with its error exits, validity and round trip.
    - [Files]: files as sizes with bytes, and the image of a bucket on disk.
    - [ToDisk] ([todisk.c]): the writer as a step function; which blocks and files it handles,
      the exact content of a finished file, disjointness of writers, termination after a stop.
    - [Readers] ([to_libpcap.c], [block2libpcap.c], [dump_packet.c]): the shared loops and the
      three programs; their output is exactly the packets asked for, in terms of a libpcap
      parser written independently of the program.
    - [Counts] ([count_recorded.c], [block_info.c]), [Control] ([start.c], [stop.c], [status.c],
      [count_then_discard.c]).
    - [EndToEnd]: from the adapter to the libpcap file: composes [CaptureSpec], the copy of each
      bucket by a writer ([ToDisk]) and [Readers].
    - [MapUser] ([map_nlsim.c]), [PbmInit] ([pbm_init_all], [pbm_destroy_all] and the hooks in
      [ixgbe_main.c]), [IrqScript] ([make_irq_script.c]).
    - [Hw]: the part of [struct ixgbe_hw] used by the next files, a state monad over it with a
      trace of register accesses, and rules about the final contents of registers.
    - [Mailbox] ([ixgbe_mbx.c]), [Dcb] ([ixgbe_dcb.c]: rules, credits, unpacking), [DcbHw]
      ([ixgbe_dcb_82598.c], [ixgbe_dcb_82599.c] and the functions of [ixgbe_dcb.c] that choose
      between them).
    - [Bits]: byte order, and functions linear for exclusive or, which single bits determine.
    - [FlowDir] ([ixgbe_82599.c]): the two hash functions of the flow director, proved equal to the
      hash of the adapter's data sheet over the whole input; [FlowFilters]: initialisation, signature
      and perfect-match filters, and the sampling of transmitted packets by [ixgbe_atr] of
      [ixgbe_main.c]; [FdirRules] ([ixgbe_ethtool.c]): the user's table of rules, as a list of
      entries with addresses, so that the use of a freed entry is an outcome.
    - [Eeprom] ([ixgbe_common.c]): semaphores, the bit by bit and the register access, the checksum.
      The checksum is proved against the interface [EepromLaws]. [Spi] decodes the writes to the
      EEC register into what a serial EEPROM sees and proves reads and writes against it.
    - [RegFile]: adapters whose registers, in a given set, are plain storage.
    - [Vlan] (VFTA and VLVF of [ixgbe_common.c]): the tables represent the set of pools of each VLAN.
    - [AddrFilter] (receive address registers, pools and the multicast table of [ixgbe_common.c]),
      [MacTable] (the driver's table of [ixgbe_main.c] in front of it).
    - [FlowControl] ([ixgbe_common.c], [ixgbe_phy.c]): pause frames, from the advertisement through
      the negotiation to the registers.
    - [Sriov] ([ixgbe_sriov.c]): virtual functions, their requests over [Mailbox] and the administrator's
      commands, down to the filters of [Vlan] and [MacTable]; [SriovSpec]: a request changes nothing of
      another function, and an address set by the administrator stays.
    - [Queues] ([ixgbe_lib.c]): the number of queues for each mode, the registers of the rings, interrupt
      vectors; an access outside the ring arrays is an outcome. [QueuesSpec], [Vectors]: every ring gets
      one vector and a register of its own, and a failed set-up leaves nothing allocated.
    - [Params] ([ixgbe_param.c]): module parameters, their bounds, and which settings the queue set-up
      accepts.
    - [Irq] ([ixgbe_main.c]): interrupts: the table that sends causes to vectors, the rate of a vector and
      its adaptation to the traffic, masks, and the handlers that the kernel keeps. [IrqSpec]: after the
      scheme of [Queues] is set up, the cause of every ring goes to the vector that serves it. [IrqRate]:
      the rate settles at that of the traffic, and the masks follow the driver. [IrqHandlers]: handlers
      are registered and taken back, also after an error. [IrqEvents]: the handlers of the other causes,
      with the requests of [Sriov]; no cause is lost.
    - [Slots]: positions in a ring, counted from the beginning, and their slots.
    - [TxRing] ([ixgbe_main.c]): transmission, from the packet with its offloads to descriptors and back
      to the release of the packet. [TxRingSpec] and [TxRingRun] have the invariant of the ring and of a
      run, with the adapter as a second party; [TxFifo]: the adapter sees the packets in order, byte by
      byte, every packet is released once, and a ring that the adapter serves is emptied.
    - [Lro] ([ixgbe_main.c]): the joining of the packets of a TCP stream in software; [LroSpec]: each
      stream reaches the stack in order, without loss and without duplicates, with correct headers.
    - [Fcoe] ([ixgbe_fcoe.c]): direct data placement; [FcoeSpec]: the programmed buffers are the bytes of
      the scatter list, and every mapping, list and pool is given back once, apart from the list of
      an exchange that is set up again before it is released.
    - [RxRing] ([ixgbe_main.c]): reception on an ordinary port, from the buffers given to the adapter to
      the packet for the stack, with socket buffers as objects in a store and DMA mappings as state.
      [RxHead]: the length of the headers. [RxSpec] has an adapter that receives packets in several
      buffers, also mixed (RSC), and the invariant of the ring for every order of the steps of adapter and
      driver; [RxRun]: the stack gets the packets complete, in order and once, the adapter writes only to
      buffers that are its own, a poll ends and takes what is complete; [RxDown]: the release of a ring
      leaves no mapping and no socket buffer behind.
    - [I2c] ([ixgbe_phy.c]): the I2C bus of the SFP module, moved line by line; [I2cSpec] has the bus, with
      a clock that both sides hold down, a module as a state machine on it, and shows that bytes are written and read back and what happens
      when no module answers. [Sfp]: the identification of the module and its initialisation sequence;
      [SfpSpec]: which modules are accepted, against the interface [SfpLaws], which [I2cSpec] and
      [Eeprom] implement.

    ** Conventions, bounds and fuel

    A C integer is a [Z] and every conversion that can change a value is written out ([u16],
    [s32], ...). Arrays and memory are functions, updated with stdpp's insert on functions.
    System calls and kernel services are arguments that say what they return. The compile-time
    configuration is the shipped one: [RX_SLOT_BITS] 12, buckets 10 to 24, no
    [IFCONFIG_PACKET_COUNT].

    Fuel appears in [dump_loop] (one more than [count], which every iteration decrements), in
    [scan_loop] and the loop of [count_recorded] (one per block: the theorems give the exact
    number that suffices), in the page loops of [MapUser] (one per byte is enough) and in
    the number formatting functions (twenty digits for 64 bits). Every theorem about a
    result proves that the fuel given yields it. In the register code, a loop that polls has the
    code's own number of attempts; [clear_vmdq] and [clear_rar] call each other at most twice, so 4
    levels are enough; the checksum takes fuel because the code need not end ([checksum_hangs]),
    and the theorems ask for the 65536 rounds that a valid image needs at most. The writer needs no fuel: [writer_stops] bounds
    its steps by 767 after a stop. A poll of a receive ring has a turn for each descriptor of the ring,
    and a list of fragments is followed for that many; [rx_poll_complete] and the invariant show that
    both are enough. The search for the sequence of an SFP module needs one round for each entry of the
    list in the EEPROM ([init_sequence_found]).

    ** Assumptions

    The capture theorems speak of runs in which the adapter never uses up its last descriptor
    ([fed]): the recording thread recognises packets by a status bit that the supply thread
    clears only when it reuses the descriptor. [block_written] needs complete writes, which
    the program does not check. [EndToEnd] takes captures of at most 13 full buckets, none of
    which is reused, and whose buckets a writer copied when their headers were complete.
    Transmission ([TxFifo]) is for packets whose fragments have at most 16 KB, because the driver
    counts one descriptor for each ([large_fragment_overrun]). The requests of virtual functions
    are handled with their records allocated, each with its array of 30 hashes; a write or
    read behind it or behind the message is an outcome of its own. A module on the I2C bus may
    stretch the clock for less than the 500 polls that the driver waits. The interrupt scheme is
    for the configurations of [config_ok], which leave out three that the sources get wrong.

    ** Not modelled

    Of the Intel driver: the receive path of ordinary ports with packet split (the Makefile builds without
    it), busy polling and hardware time stamps, NAPI polling, the service task and watchdog, probe, open, close and reset, which mostly call the kernel and the
    parts above in order; link set-up, the sequences that initialise SFP modules, firmware commands; the ethtool
    commands other than the flow director's, netlink, PTP, sysfs, procfs and debugfs, which copy values
    between the kernel's structures and the driver's; kernel compatibility, which is a copy of kernel
    functions. This is unmodified code that the capture port bypasses through the hooks in [PbmInit]. Also
    not modelled: timing (sleeps, throughput figures), locks (each operation runs alone; the capture
    threads, which use none, are interleaved), and the texts of messages.

    An end-to-end theorem in which the writers free buckets while the capture goes on is left open: it
    needs the file system's order of writes, of which the sources say nothing. *)
From stdpp Require Export base tactics list functions numbers relations strings gmap.
From Stdlib Require Export ZArith Lia Ascii.

#[global] Open Scope Z_scope.

(** ** Machine integers

    A C integer is a [Z]; the conversions of the language are written where the
    source has them. *)
Module Export MachineInts.
Definition u8 (x : Z) : Z := x mod 2 ^ 8.
Definition u16 (x : Z) : Z := x mod 2 ^ 16.
Definition u32 (x : Z) : Z := x mod 2 ^ 32.
Definition u64 (x : Z) : Z := x mod 2 ^ 64.
Definition s16 (x : Z) : Z := (x + 2 ^ 15) mod 2 ^ 16 - 2 ^ 15.
Definition s32 (x : Z) : Z := (x + 2 ^ 31) mod 2 ^ 32 - 2 ^ 31.
Definition s64 (x : Z) : Z := (x + 2 ^ 63) mod 2 ^ 64 - 2 ^ 63.
(** C truth value of a comparison and of an integer. *)
Definition truthy (x : Z) : bool := negb (x =? 0).
End MachineInts.

(** [C] division and remainder truncate towards zero. *)
Declare Scope cint_scope.
Notation "x /c y" := (Z.quot x y) (at level 40, left associativity) : cint_scope.
Notation "x %c y" := (Z.rem x y) (at level 40, left associativity) : cint_scope.

#[global] Open Scope cint_scope.

#[global] Arguments u8 : simpl never.
#[global] Arguments u16 : simpl never.
#[global] Arguments u32 : simpl never.
#[global] Arguments u64 : simpl never.
#[global] Arguments s16 : simpl never.
#[global] Arguments s32 : simpl never.
#[global] Arguments s64 : simpl never.
#[global] Arguments Z.shiftl : simpl never.
#[global] Arguments Z.shiftr : simpl never.
#[global] Arguments Z.land : simpl never.
#[global] Arguments Z.lor : simpl never.
#[global] Arguments Z.lxor : simpl never.
#[global] Arguments Z.ldiff : simpl never.
#[global] Arguments Z.testbit : simpl never.
#[global] Arguments Z.modulo : simpl never.
#[global] Arguments Z.div : simpl never.

Create HintDb nlsim discriminated.

Lemma u8_small x : 0 <= x < 2 ^ 8 -> u8 x = x.
Proof. apply Z.mod_small. Qed.
Lemma u16_small x : 0 <= x < 2 ^ 16 -> u16 x = x.
Proof. apply Z.mod_small. Qed.
Lemma u32_small x : 0 <= x < 2 ^ 32 -> u32 x = x.
Proof. apply Z.mod_small. Qed.
Lemma u64_small x : 0 <= x < 2 ^ 64 -> u64 x = x.
Proof. apply Z.mod_small. Qed.
Lemma s16_small x : - 2 ^ 15 <= x < 2 ^ 15 -> s16 x = x.
Proof. intros. unfold s16. rewrite Z.mod_small; lia. Qed.
Lemma s32_small x : - 2 ^ 31 <= x < 2 ^ 31 -> s32 x = x.
Proof. intros. unfold s32. rewrite Z.mod_small; lia. Qed.
Lemma s64_small x : - 2 ^ 63 <= x < 2 ^ 63 -> s64 x = x.
Proof. intros. unfold s64. rewrite Z.mod_small; lia. Qed.

Lemma u8_range x : 0 <= u8 x < 2 ^ 8.
Proof. apply Z.mod_pos_bound; lia. Qed.
Lemma u16_range x : 0 <= u16 x < 2 ^ 16.
Proof. apply Z.mod_pos_bound; lia. Qed.
Lemma u32_range x : 0 <= u32 x < 2 ^ 32.
Proof. apply Z.mod_pos_bound; lia. Qed.
Lemma u64_range x : 0 <= u64 x < 2 ^ 64.
Proof. apply Z.mod_pos_bound; lia. Qed.

#[export] Hint Resolve u8_range u16_range u32_range u64_range : nlsim.

(** ** Tactics shared by the components *)

(** Turn the boolean tests of the code into propositions. *)
Ltac zbool :=
  repeat match goal with
  | H : (_ =? _) = true |- _ => apply Z.eqb_eq in H
  | H : (_ =? _) = false |- _ => apply Z.eqb_neq in H
  | H : (_ <? _) = true |- _ => apply Z.ltb_lt in H
  | H : (_ <? _) = false |- _ => apply Z.ltb_ge in H
  | H : (_ <=? _) = true |- _ => apply Z.leb_le in H
  | H : (_ <=? _) = false |- _ => apply Z.leb_gt in H
  | H : (_ >? _) = _ |- _ => rewrite Z.gtb_ltb in H
  | H : (_ >=? _) = _ |- _ => rewrite Z.geb_leb in H
  | H : negb _ = true |- _ => apply negb_true_iff in H
  | H : negb _ = false |- _ => apply negb_false_iff in H
  | H : (_ && _)%bool = true |- _ => apply andb_true_iff in H; destruct H
  | H : (_ || _)%bool = false |- _ => apply orb_false_iff in H; destruct H
  end.

(** Split on the condition of the [if]s of a goal. *)
Ltac split_ifs :=
  repeat match goal with
  | |- context [if ?b then _ else _] =>
      lazymatch type of b with
      | bool => let E := fresh "E" in destruct b eqn:E
      end
  end; zbool.

(** Linear arithmetic with [mod] and [/] by constants. *)
Ltac zdm := Z.div_mod_to_equations; lia.

(** ** Integers *)
Lemma land_ones_mod x n : 0 <= n -> Z.land x (2 ^ n - 1) = x mod 2 ^ n.
Proof. intros. rewrite <- Z.land_ones by done. f_equal. rewrite Z.ones_equiv. lia. Qed.

Lemma lor_shiftl_add a x n :
  0 <= n -> 0 <= x < 2 ^ n -> Z.lor (Z.shiftl a n) x = a * 2 ^ n + x.
Proof.
  intros Hn Hx. rewrite <- Z.shiftl_mul_pow2 by done. rewrite <- (Z.add_lor_land (Z.shiftl a n) x).
  enough (Z.land (Z.shiftl a n) x = 0) as -> by lia.
  apply Z.bits_inj'. intros i Hi. rewrite Z.land_spec, Z.bits_0.
  destruct (decide (i < n)); [by rewrite Z.shiftl_spec_low|].
  rewrite <- (Z.mod_small x (2 ^ n)) by done.
  rewrite Z.mod_pow2_bits_high, andb_false_r by lia. done.
Qed.

(** Testing a bit with a mask. *)
Lemma truthy_land_bit b n : 0 <= n -> truthy (Z.land b (Z.shiftl 1 n)) = Z.testbit b n.
Proof.
  intros Hn. rewrite Z.shiftl_1_l. unfold truthy. destruct (Z.testbit b n) eqn:Eb.
  - apply negb_true_iff, Z.eqb_neq. intros H. apply (f_equal (fun z => Z.testbit z n)) in H.
    rewrite Z.land_spec, Z.pow2_bits_true, Eb, Z.bits_0 in H by lia. done.
  - apply negb_false_iff, Z.eqb_eq. apply Z.bits_inj'. intros k Hk. rewrite Z.land_spec, Z.bits_0.
    destruct (decide (k = n)) as [->|]; [by rewrite Eb|by rewrite Z.pow2_bits_false, andb_false_r by lia].
Qed.

Lemma mod_mod_divide x a b : 0 < a -> (b | a) -> 0 < b -> (x mod a) mod b = x mod b.
Proof.
  intros Ha [c ->] Hb. rewrite (Z.div_mod x (c * b)) at 2 by lia.
  rewrite (Z.mul_comm (c * b)), Z.mul_assoc, Z.add_comm, Z.mod_add by lia. done.
Qed.

(** ** Sums over an initial segment of the integers *)
Definition zsum (f : Z -> Z) (n : Z) : Z :=
  foldr Z.add 0 (map (fun i => f (Z.of_nat i)) (seq 0 (Z.to_nat n))).

Lemma foldr_add_app (l1 l2 : list Z) :
  foldr Z.add 0 (l1 ++ l2) = foldr Z.add 0 l1 + foldr Z.add 0 l2.
Proof. induction l1; simpl; lia. Qed.

Lemma zsum_0 f n : n <= 0 -> zsum f n = 0.
Proof. intros. unfold zsum. by replace (Z.to_nat n) with O by lia. Qed.

Lemma zsum_succ f n : 0 <= n -> zsum f (n + 1) = zsum f n + f n.
Proof.
  intros. unfold zsum. replace (Z.to_nat (n + 1)) with (S (Z.to_nat n)) by lia.
  rewrite seq_S, map_app, foldr_add_app. simpl. rewrite Z2Nat.id by lia. lia.
Qed.

Lemma zsum_head f n : 0 <= n -> zsum f (n + 1) = f 0 + zsum (fun i => f (1 + i)) n.
Proof.
  intros. unfold zsum. replace (Z.to_nat (n + 1)) with (S (Z.to_nat n)) by lia. cbn [seq map foldr]. f_equal. f_equal.
  rewrite <- seq_shift, map_map. apply map_ext. intros a. f_equal. lia.
Qed.

Lemma zsum_ext f g n : (forall i, 0 <= i < n -> f i = g i) -> zsum f n = zsum g n.
Proof.
  intros H. unfold zsum. f_equal. apply map_ext_in. intros a Ha%in_seq. apply H. lia.
Qed.

(** Induction over [0 .. n] in [Z], the shape of every [for] loop below. *)
Lemma zsum_ind (P : Z -> Prop) :
  P 0 -> (forall n, 0 <= n -> P n -> P (n + 1)) -> forall n, 0 <= n -> P n.
Proof. intros H0 HS n Hn. apply natlike_ind; [done| |done]. intros. by apply HS. Qed.

Lemma zsum_bounds f n lo hi :
  0 <= n -> (forall i, 0 <= i < n -> lo <= f i <= hi) -> lo * n <= zsum f n <= hi * n.
Proof.
  intros Hn. revert n Hn. refine (zsum_ind _ _ _).
  - intros _. rewrite zsum_0; lia.
  - intros n Hn IH H. rewrite zsum_succ by done.
    pose proof (H n ltac:(lia)). destruct IH as [? ?]; [intros; apply H; lia|]. lia.
Qed.

Lemma zsum_mono_add f n d :
  0 <= d -> 0 <= n -> (forall i, 0 <= i < n + d -> 0 <= f i) -> zsum f n <= zsum f (n + d).
Proof.
  intros Hd Hn. revert d Hd. refine (zsum_ind _ _ _).
  - intros _. rewrite Z.add_0_r. lia.
  - intros d Hd IH H. rewrite Z.add_assoc, zsum_succ by lia.
    pose proof (H (n + d) ltac:(lia)). specialize (IH ltac:(intros; apply H; lia)). lia.
Qed.

Lemma zsum_mono f n m :
  0 <= n <= m -> (forall i, 0 <= i < m -> 0 <= f i) -> zsum f n <= zsum f m.
Proof.
  intros Hnm H. replace m with (n + (m - n)) by lia.
  apply zsum_mono_add; [lia| lia |]. intros. apply H. lia.
Qed.

(** ** Little-endian images of integers

    [le_byte v i] is byte [i] of the in-memory image of [v]; [le_load g n] is the
    [n]-byte integer whose image is [g 0 .. g (n-1)]. *)
Definition le_byte (v i : Z) : Z := (v / 2 ^ (8 * i)) mod 2 ^ 8.
Definition le_load (g : Z -> Z) (n : Z) : Z := zsum (fun i => g i * 2 ^ (8 * i)) n.

Lemma le_byte_range v i : 0 <= le_byte v i < 256.
Proof. apply Z.mod_pos_bound. lia. Qed.

Lemma le_load_byte v n : 0 <= n -> le_load (le_byte v) n = v mod 2 ^ (8 * n).
Proof.
  revert n. refine (zsum_ind _ _ _).
  - unfold le_load. rewrite zsum_0 by lia. by rewrite Z.mod_1_r.
  - intros n Hn IH. unfold le_load in *. rewrite zsum_succ, IH by done. unfold le_byte.
    replace (8 * (n + 1)) with (8 * n + 8) by lia.
    rewrite (Z.pow_add_r 2 (8 * n) 8) by lia. rewrite Z.rem_mul_r by (lia || (apply Z.pow_nonzero; lia)).
    lia.
Qed.

Lemma le_load_ext g h n :
  (forall i, 0 <= i < n -> g i = h i) -> le_load g n = le_load h n.
Proof. intros H. apply zsum_ext. intros. by rewrite H. Qed.

(** ** Reflexive transitive closures and invariants

    An invariant that holds initially and is kept by every step holds in every
    reachable state. *)
Lemma rtc_invariant {A} (R : relation A) (P : A -> Prop) :
  (forall x y, P x -> R x y -> P y) -> forall x y, rtc R x y -> P x -> P y.
Proof. intros Hstep x y. induction 1; eauto. Qed.

(** ** Functions updated at one point (stdpp's [<[k:=v]> f]) *)
Lemma fn_insert_eq {A B} `{EqDecision A} (f : A -> B) k k' v :
  k = k' -> (<[k:=v]> f) k' = v.
Proof. intros ->. apply fn_lookup_insert. Qed.

Lemma fn_insert_dec {A B} `{EqDecision A} (f : A -> B) k k' v :
  (<[k:=v]> f) k' = if decide (k = k') then v else f k'.
Proof. done. Qed.
