(* ===== verification/Layout.v ===== *)
(** * Shared memory layout ([ixgbe-3.18.7/src/nlsim_ixgbe.h])

    The header that the driver and every application include: the configuration
    constants, the one-gigabyte buckets (992 MB of packet data, then a 32 MB block
    of packet lengths), the structure at the head of the length block, the page
    shared by the driver and the user programs, and the byte image that the disk
    writers copy out of this memory. *)
From S2P Require Import Prelude.

(** ** Configuration constants *)
Definition NLSIM_PORT_USE : Z := 0.
Definition NLSIM_MAJOR : Z := 200.
Definition RX_SLOT_BITS : Z := 12.
Definition START_1G : Z := 10.
Definition END_1G : Z := 24.
Definition CONST_1K : Z := 1024.
Definition CONST_1M : Z := 1024 * 1024.
Definition CONST_1G : Z := 1024 * 1024 * 1024.
Definition GLOBAL_ADDR : Z := Z.shiftl (START_1G + 1) 30 - 4096.
Definition LEN_BLOCK_SIZE : Z := 32 * 1024 * 1024 - 4096.
Definition MAX_WRITERS : Z := 1024.
Definition NUM_RX_SLOTS : Z := Z.shiftl 1 RX_SLOT_BITS.
Definition RX_SLOT_MASK : Z := NUM_RX_SLOTS - 1.
Definition MAGIC1 : Z := 0xDEADBABE.
Definition MAGIC2 : Z := 0xFF00AABB.
Definition USER_ISSUE_START : Z := 0.
Definition USER_ISSUE_STOP : Z := 1.
Definition RX_BUF_SIZE : Z := 1514.

(** The [#if (RX_SLOT_BITS == ..)] cascade: the slot size of each of the valid
    values of [RX_SLOT_BITS]; any other value does not compile. *)
Definition bytes_per_slot_of (bits : Z) : option Z :=
  if bits =? 12 then Some (240 * 1024)
  else if bits =? 13 then Some (120 * 1024)
  else if bits =? 14 then Some (60 * 1024)
  else if bits =? 15 then Some (30 * 1024)
  else None.

Definition BYTES_PER_SLOT : Z :=
  match bytes_per_slot_of RX_SLOT_BITS with Some b => b | None => 0 end.
Definition BYTE_LIMIT : Z := BYTES_PER_SLOT - 2 * RX_BUF_SIZE.

(** [END_1G - START_1G + 1], spelled [NUM_BUCKETS] by the applications. *)
Definition NUM_BUCKETS : Z := END_1G - START_1G + 1.

(** The values the constants have in this configuration, for the arithmetic of the
    proofs. *)
Ltac layout_consts :=
  change NUM_RX_SLOTS with 4096 in *; change RX_SLOT_MASK with 4095 in *;
  change BYTES_PER_SLOT with 245760 in *; change BYTE_LIMIT with 242732 in *;
  change RX_BUF_SIZE with 1514 in *; change RX_SLOT_BITS with 12 in *;
  change START_1G with 10 in *; change END_1G with 24 in *;
  change NUM_BUCKETS with 15 in *; change CONST_1M with 1048576 in *;
  change CONST_1G with 1073741824 in *; change CONST_1K with 1024 in *;
  change LEN_BLOCK_SIZE with 33550336 in *; change GLOBAL_ADDR with 11811155968 in *.
Ltac lay := layout_consts; lia.

(** ** [struct bucket_info_struct]

    The union of [pad1] and [real] occupies 8192 bytes: the four 32-bit fields of
    [real] follow the 64 bytes of [user_stamp], the rest of the union is padding.
    The array [len] is kept flat, entry [row * NUM_RX_SLOTS + slot], which is how
    both kernel threads address it through [u16_ptr]. *)
Record bucket_info := BucketInfo {
  user_stamp : Z -> Z;      (* byte i, 0 <= i < 64 *)
  num_captured : Z;
  last : Z;
  stalled : Z;
  num_rx_slots : Z;
  pad1 : Z -> Z;            (* byte at offset i of the union, 80 <= i < 8192 *)
  len : Z -> Z
}.

Definition set_user_stamp (v : Z -> Z) (b : bucket_info) : bucket_info :=
  BucketInfo v (num_captured b) (last b) (stalled b) (num_rx_slots b) (pad1 b) (len b).
Definition set_num_captured (v : Z) (b : bucket_info) : bucket_info :=
  BucketInfo (user_stamp b) v (last b) (stalled b) (num_rx_slots b) (pad1 b) (len b).
Definition set_last (v : Z) (b : bucket_info) : bucket_info :=
  BucketInfo (user_stamp b) (num_captured b) v (stalled b) (num_rx_slots b) (pad1 b) (len b).
Definition set_stalled (v : Z) (b : bucket_info) : bucket_info :=
  BucketInfo (user_stamp b) (num_captured b) (last b) v (num_rx_slots b) (pad1 b) (len b).
Definition set_num_rx_slots (v : Z) (b : bucket_info) : bucket_info :=
  BucketInfo (user_stamp b) (num_captured b) (last b) (stalled b) v (pad1 b) (len b).
Definition set_len (i v : Z) (b : bucket_info) : bucket_info :=
  BucketInfo (user_stamp b) (num_captured b) (last b) (stalled b) (num_rx_slots b)
    (pad1 b) (<[i:=v]> (len b)).

(** Offsets of the fields, in bytes from the start of the structure. *)
Definition off_num_captured : Z := 64.
Definition off_last : Z := 68.
Definition off_stalled : Z := 72.
Definition off_num_rx_slots : Z := 76.
Definition off_real_end : Z := 80.
Definition off_len : Z := 2 * 4096.
(** [sizeof (struct bucket_info_struct)]. *)
Definition sizeof_bucket_info : Z :=
  off_len + 2 * (Z.shiftr (4096 * 4096) RX_SLOT_BITS * NUM_RX_SLOTS).

(** Byte [o] of the structure in memory. *)
Definition bucket_byte (b : bucket_info) (o : Z) : Z :=
  if o <? off_num_captured then user_stamp b o
  else if o <? off_last then le_byte (num_captured b) (o - off_num_captured)
  else if o <? off_stalled then le_byte (last b) (o - off_last)
  else if o <? off_num_rx_slots then le_byte (stalled b) (o - off_stalled)
  else if o <? off_real_end then le_byte (num_rx_slots b) (o - off_num_rx_slots)
  else if o <? off_len then pad1 b o
  else le_byte (len b ((o - off_len) / 2)) ((o - off_len) mod 2).

(** The structure that a program sees through a pointer to the bytes [g]. *)
Definition bucket_of_bytes (g : Z -> Z) : bucket_info :=
  let load (o n : Z) := le_load (fun i => g (o + i)) n in
  BucketInfo g (load off_num_captured 4) (load off_last 4) (load off_stalled 4)
    (load off_num_rx_slots 4) g (fun i => load (off_len + 2 * i) 2).

(** ** One bucket of reserved memory

    Packet data below [992 * CONST_1M], the length block above it. *)
Definition DATA_SIZE : Z := 992 * CONST_1M.

Record bucket := Bucket { b_data : Z -> Z; b_info : bucket_info }.

(** Byte [o] of the gigabyte. *)
Definition bucket_mem (b : bucket) (o : Z) : Z :=
  if o <? DATA_SIZE then b_data b o else bucket_byte (b_info b) (o - DATA_SIZE).

(** ** The page shared with the user programs *)
Record global_share := GlobalShare {
  magic1 : Z; magic2 : Z; issue_start : Z; issue_stop : Z
}.
Definition set_issue_start (v : Z) (g : global_share) : global_share :=
  GlobalShare (magic1 g) (magic2 g) v (issue_stop g).
Definition set_issue_stop (v : Z) (g : global_share) : global_share :=
  GlobalShare (magic1 g) (magic2 g) (issue_start g) v.

(** The memory bucket that holds the [n]-th bucket of a capture. *)
Definition bi (n : Z) : Z := START_1G + n mod NUM_BUCKETS.

(** No bucket takes more rows than this when frames have at least 60 bytes: a slot of
    [BYTE_LIMIT] bytes is then full. *)
Definition MAX_ROWS : Z := 4047.

(** ** Packets and where they lie in a bucket *)
Abbreviation packet := (list Z).
Definition plen (p : packet) : Z := Z.of_nat (length p).

(** The sum of the lengths recorded for [slot] in the first [row] rows. *)
Definition slot_offset (lens : Z -> Z) (row slot : Z) : Z :=
  zsum (fun i => lens (i * NUM_RX_SLOTS + slot)) row.

(** Offset in the bucket of packet number [k] of that bucket. *)
Definition packet_offset (lens : Z -> Z) (k : Z) : Z :=
  BYTES_PER_SLOT * (k mod NUM_RX_SLOTS)
  + slot_offset lens (k / NUM_RX_SLOTS) (k mod NUM_RX_SLOTS).

(** [holds data lens pkts]: the packets [pkts] are recorded in a bucket with the
    packet data [data] and the length table [lens], each inside its slot.  This is what the capture side
    promises and what the programs that read recordings rely on. *)
Definition holds (data lens : Z -> Z) (pkts : list packet) : Prop :=
  forall k p, pkts !! k = Some p ->
    lens (Z.of_nat k) = plen p /\ plen p <= RX_BUF_SIZE /\
    slot_offset lens (Z.of_nat k / NUM_RX_SLOTS) (Z.of_nat k mod NUM_RX_SLOTS)
      <= BYTES_PER_SLOT - RX_BUF_SIZE /\
    forall i b, p !! i = Some b ->
      data (packet_offset lens (Z.of_nat k) + Z.of_nat i) = b.

(** ** Theorems *)

(** The fields of a structure survive the trip through its byte image. *)
Record bucket_info_ok (b : bucket_info) : Prop := {
  ok_num_captured : 0 <= num_captured b < 2 ^ 32;
  ok_last : 0 <= last b < 2 ^ 32;
  ok_stalled : 0 <= stalled b < 2 ^ 32;
  ok_num_rx_slots : 0 <= num_rx_slots b < 2 ^ 32;
  ok_len : forall i, 0 <= len b i < 2 ^ 16
}.

(** A 32-bit field at offset [o] of the image is the field that was stored. *)
Lemma load_field g o n v :
  0 <= n -> 0 <= v < 2 ^ (8 * n) ->
  (forall i, 0 <= i < n -> g (o + i) = le_byte v i) ->
  le_load (fun i => g (o + i)) n = v.
Proof.
  intros Hn Hv Hg. rewrite (le_load_ext _ (le_byte v)) by done.
  rewrite le_load_byte by done. by apply Z.mod_small.
Qed.

Ltac solve_field :=
  let i := fresh "i" in
  apply load_field; [lia | assumption | intros i ?;
    unfold bucket_byte, off_num_captured, off_last, off_stalled, off_num_rx_slots,
      off_real_end, off_len; split_ifs; try lia; f_equal; lia].

(** Layout: reading a bucket header back from its byte image (what a writer copied to
    disk) gives the header's counters, flags, timestamp and length table. *)
Lemma bucket_image_fields b :
  bucket_info_ok b ->
  let b' := bucket_of_bytes (bucket_byte b) in
  num_captured b' = num_captured b /\ last b' = last b /\ stalled b' = stalled b /\
  num_rx_slots b' = num_rx_slots b /\
  (forall i, 0 <= i < 64 -> user_stamp b' i = user_stamp b i) /\
  (forall i, 0 <= i -> len b' i = len b i).
Proof.
  intros []. cbn [num_captured last stalled num_rx_slots user_stamp len bucket_of_bytes].
  repeat split; try solve_field.
  - intros i Hi. unfold bucket_byte, off_num_captured. by rewrite (proj2 (Z.ltb_lt _ _)) by lia.
  - intros i Hi. apply (load_field _ _ _ (len b i)); [lia | apply ok_len0 |]. intros j Hj.
    unfold bucket_byte, off_num_captured, off_last, off_stalled, off_num_rx_slots,
      off_real_end, off_len. split_ifs; try lia. f_equal; [f_equal|]; zdm.
Qed.

(** The data slots of a bucket and its length block do not overlap, whatever valid value
    [RX_SLOT_BITS] has. *)
Lemma slots_fit_data bits bps :
  bytes_per_slot_of bits = Some bps ->
  12 <= bits <= 15 /\ Z.shiftl 1 bits * bps <= DATA_SIZE /\ 2 * RX_BUF_SIZE < bps.
Proof.
  unfold bytes_per_slot_of, DATA_SIZE. intros H. layout_consts.
  repeat case_match; zbool; simplify_eq; subst; (split; [lia|]); split; vm_compute; congruence.
Qed.

(** The shared page starts right behind the part of the first bucket's length block that
    the writers copy, and ends with the bucket. *)
Lemma global_page_placement :
  GLOBAL_ADDR = START_1G * 2 ^ 30 + DATA_SIZE + LEN_BLOCK_SIZE /\
  GLOBAL_ADDR + 4096 = (START_1G + 1) * 2 ^ 30.
Proof. split; reflexivity. Qed.

(** Where slots lie: an offset inside a slot's area determines the slot. *)
Lemma packet_offset_bounds lens k :
  0 <= k -> 0 <= slot_offset lens (k / NUM_RX_SLOTS) (k mod NUM_RX_SLOTS) ->
  slot_offset lens (k / NUM_RX_SLOTS) (k mod NUM_RX_SLOTS) <= BYTES_PER_SLOT - RX_BUF_SIZE ->
  0 <= packet_offset lens k /\ packet_offset lens k + RX_BUF_SIZE <= DATA_SIZE.
Proof.
  intros Hk H0 H1. unfold packet_offset, DATA_SIZE.
  assert (0 <= k mod NUM_RX_SLOTS < 4096) by (layout_consts; apply Z.mod_pos_bound; lia).
  generalize dependent (slot_offset lens (k / NUM_RX_SLOTS) (k mod NUM_RX_SLOTS)).
  intros o. generalize dependent (k mod NUM_RX_SLOTS). intros. lay.
Qed.

(** ** Buckets *)
Lemma bi_range n : START_1G <= bi n <= END_1G.
Proof. unfold bi. layout_consts. zdm. Qed.

Lemma bi_inj n m : 0 <= n -> 0 <= m -> n <> m -> Z.abs (n - m) < NUM_BUCKETS -> bi n <> bi m.
Proof. intros. unfold bi. layout_consts. zdm. Qed.
