(* ===== verification/Capture.v ===== *)
(** * The capture threads ([ixgbe-3.18.7/src/nlsim_pbm.c])

    [nlsim_alloc_thread] hands empty buffers to the receive ring of the adapter,
    [nlsim_process_thread] records the lengths of received packets; both run
    concurrently with each other, with the adapter and with the user programs that
    map the same memory.  Each thread is a program counter with its local variables,
    and one step of a thread performs at most one access to memory that another agent
    writes; a run interleaves the steps of all agents. *)
From S2P Require Import Prelude Layout.

(** ** Receive descriptors

    [union ixgbe_adv_rx_desc] of [ixgbe_type.h]: two 64-bit words.  The driver writes
    them as [read.pkt_addr] and [read.hdr_addr]; the adapter writes them back as
    [wb.lower] and [wb.upper], so the status word, the length and the VLAN tag overlay
    [hdr_addr]. *)
Record rx_desc := RxDesc { qw0 : Z; qw1 : Z }.

Definition read_pkt_addr (d : rx_desc) : Z := qw0 d.
Definition wb_status_error (d : rx_desc) : Z := Z.land (qw1 d) (2 ^ 32 - 1).
Definition wb_length (d : rx_desc) : Z := Z.land (Z.shiftr (qw1 d) 32) (2 ^ 16 - 1).
(** [ixgbe_test_staterr] (little-endian host) and [IXGBE_RXD_STAT_DD]. *)
Definition IXGBE_RXD_STAT_DD : Z := 0x01.
Definition ixgbe_test_staterr (d : rx_desc) (stat_err_bits : Z) : Z :=
  Z.land (wb_status_error d) stat_err_bits.

(** ** State *)

(** What more than one agent can reach: the descriptor ring and the tail register, the
    reserved memory, the shared page and the file-scope variables of [nlsim_pbm.c].
    [pbm_rx_ring] is [false] while the pointer is NULL. [rx_head] is the adapter's own
    index of the next descriptor to fill. *)
Record shared := Shared {
  pbm_rx_ring : bool;
  ring : Z -> rx_desc;
  rx_tail : Z;
  rx_head : Z;
  dram : Z -> Z;
  binfo : Z -> bucket_info;
  gshare : global_share;
  next_to_clean : Z;
  max_row : Z;
  process_start : Z;
  process_stop : Z
}.

Definition set_pbm_rx_ring v s := Shared v (ring s) (rx_tail s) (rx_head s) (dram s)
  (binfo s) (gshare s) (next_to_clean s) (max_row s) (process_start s) (process_stop s).
Definition set_ring v s := Shared (pbm_rx_ring s) v (rx_tail s) (rx_head s) (dram s)
  (binfo s) (gshare s) (next_to_clean s) (max_row s) (process_start s) (process_stop s).
Definition set_rx_tail v s := Shared (pbm_rx_ring s) (ring s) v (rx_head s) (dram s)
  (binfo s) (gshare s) (next_to_clean s) (max_row s) (process_start s) (process_stop s).
Definition set_binfo v s := Shared (pbm_rx_ring s) (ring s) (rx_tail s) (rx_head s) (dram s)
  v (gshare s) (next_to_clean s) (max_row s) (process_start s) (process_stop s).
Definition set_next_to_clean v s := Shared (pbm_rx_ring s) (ring s) (rx_tail s) (rx_head s)
  (dram s) (binfo s) (gshare s) v (max_row s) (process_start s) (process_stop s).
Definition set_max_row v s := Shared (pbm_rx_ring s) (ring s) (rx_tail s) (rx_head s)
  (dram s) (binfo s) (gshare s) (next_to_clean s) v (process_start s) (process_stop s).
Definition set_process_start v s := Shared (pbm_rx_ring s) (ring s) (rx_tail s) (rx_head s)
  (dram s) (binfo s) (gshare s) (next_to_clean s) (max_row s) v (process_stop s).
Definition set_process_stop v s := Shared (pbm_rx_ring s) (ring s) (rx_tail s) (rx_head s)
  (dram s) (binfo s) (gshare s) (next_to_clean s) (max_row s) (process_start s) v.

(** Update one field of the header of bucket [i]. *)
Definition upd_binfo (i : Z) (f : bucket_info -> bucket_info) (s : shared) : shared :=
  set_binfo (<[i := f (binfo s i)]> (binfo s)) s.

(** ** The buffer supply thread *)
Inductive alloc_pc :=
| AWaitRing     (* while (pbm_rx_ring == NULL) msleep (1) *)
| AWaitStart    (* while ( *fast_start == 0 ) *)
| AWaitStop     (*   if ( *fast_stop == 1 ) ... msleep (1) *)
| AStart        (* process_start = 1 and the initialisation of the locals *)
| ATop          (* while (1) { if ( *fast_stop ) *)
| ACount        (* count = ... next_to_clean ... *)
| ALoop         (* for (i = 0; i < count; i++) *)
| AAcc          (*   glength [sup_partial] += u16_ptr [sup_partial] *)
| AMarkCaptured (*   bucket_info->u.real.num_captured = (sup_row + 1) << RX_SLOT_BITS *)
| AMarkMaxRow   (*   max_row = the same value *)
| ADesc         (*   rx_desc->read... ; rx_desc++; sup_partial++: both words. The adapter
                     looks at the address only behind the tail, the recording thread only at
                     the other word *)
| AFirst        (*   the loop body of the else branch, first row of a bucket *)
| ARowEnd       (* if (sup_partial == NUM_RX_SLOTS) *)
| ATail         (* wmb (); writel (sup_partial, tail) *)
| ADone.        (* do_exit (0) *)

(** Local variables.  [a_rx_desc] is the index of [rx_desc] in the ring and [a_u16] the
    index of [u16_ptr] in [bucket_info->len], both relative to the array's first element. *)
Record alloc_thread := Alloc {
  a_pc : alloc_pc;
  glength : Z -> Z;
  a_rx_desc : Z;
  a_u16 : Z;
  a_cur : Z;
  cur30 : Z;
  sup_row : Z;
  sup_partial : Z;
  a_count : Z;
  a_i : Z
}.

Definition a_goto pc a := Alloc pc (glength a) (a_rx_desc a) (a_u16 a) (a_cur a) (cur30 a)
  (sup_row a) (sup_partial a) (a_count a) (a_i a).
Definition a_set_glength i v a := Alloc (a_pc a) (<[i:=v]> (glength a)) (a_rx_desc a)
  (a_u16 a) (a_cur a) (cur30 a) (sup_row a) (sup_partial a) (a_count a) (a_i a).
Definition a_set_count c a := Alloc (a_pc a) (glength a) (a_rx_desc a) (a_u16 a) (a_cur a)
  (cur30 a) (sup_row a) (sup_partial a) c 0.
(** [rx_desc++; sup_partial++;] and the [i++] of the [for]. *)
Definition a_advance a := Alloc (a_pc a) (glength a) (a_rx_desc a + 1) (a_u16 a) (a_cur a)
  (cur30 a) (sup_row a) (u16 (sup_partial a + 1)) (a_count a) (s16 (a_i a + 1)).

Definition next_bucket (cur : Z) : Z := if cur =? END_1G then START_1G else cur + 1.

(** [cur], [cur30], [sup_row], [bucket_info] and [u16_ptr] when a bucket is entered. *)
Definition a_enter_bucket (cur : Z) (a : alloc_thread) : alloc_thread :=
  Alloc (a_pc a) (glength a) (a_rx_desc a) (- NUM_RX_SLOTS) cur (u64 (Z.shiftl cur 30))
    0 (sup_partial a) (a_count a) (a_i a).

(** [sup_partial = 0; ++sup_row; rx_desc -= NUM_RX_SLOTS; u16_ptr += NUM_RX_SLOTS;] *)
Definition a_next_row (a : alloc_thread) : alloc_thread :=
  Alloc (a_pc a) (glength a) (a_rx_desc a - NUM_RX_SLOTS) (a_u16 a + NUM_RX_SLOTS) (a_cur a)
    (cur30 a) (u16 (sup_row a + 1)) 0 (a_count a) (a_i a).

(** The descriptor write of one iteration. *)
Definition a_write_desc (addr : Z) (a : alloc_thread) (s : shared) : shared :=
  set_ring (<[a_rx_desc a := RxDesc addr 0]> (ring s)) s.

Definition alloc_init : alloc_thread :=
  Alloc AWaitRing (fun _ => 0) 0 0 START_1G 0 0 0 0 0.

(** One step of [nlsim_alloc_thread]; [None] once the thread has exited. *)
Definition alloc_step (s : shared) (a : alloc_thread) : option (shared * alloc_thread) :=
  match a_pc a with
  | AWaitRing => Some (s, if pbm_rx_ring s then a_goto AWaitStart a else a)
  | AWaitStart =>
      Some (s, a_goto (if issue_start (gshare s) =? 0 then AWaitStop else AStart) a)
  | AWaitStop =>
      if issue_stop (gshare s) =? 1 then Some (set_process_stop 1 s, a_goto ADone a)
      else Some (s, a_goto AWaitStart a)
  | AStart =>
      Some (set_process_start 1 s,
            a_goto ATop (a_enter_bucket (a_cur a)
              (Alloc ATop (glength a) 0 (a_u16 a) (a_cur a) (cur30 a) 0 0 (a_count a) (a_i a))))
  | ATop =>
      if truthy (issue_stop (gshare s)) then Some (set_process_stop 1 s, a_goto ADone a)
      else Some (s, a_goto ACount a)
  | ACount =>
      let count :=
        s16 (Z.land (NUM_RX_SLOTS + next_to_clean s - sup_partial a - 1) RX_SLOT_MASK) in
      if negb (truthy count) then Some (s, a_goto ATop a)
      else
        let count := if count >? NUM_RX_SLOTS - sup_partial a
                     then s16 (NUM_RX_SLOTS - sup_partial a) else count in
        Some (s, a_goto ALoop (a_set_count count a))
  | ALoop =>
      Some (s, a_goto (if a_i a <? a_count a
                       then (if truthy (sup_row a) then AAcc else AFirst)
                       else ARowEnd) a)
  | AAcc =>
      let p := sup_partial a in
      let g := u32 (glength a p + len (binfo s (a_cur a)) (a_u16 a + p)) in
      Some (s, a_goto (if g >? BYTE_LIMIT then AMarkCaptured else ADesc) (a_set_glength p g a))
  | AMarkCaptured =>
      Some (upd_binfo (a_cur a)
              (set_num_captured (u32 (Z.shiftl (sup_row a + 1) RX_SLOT_BITS))) s,
            a_goto AMarkMaxRow a)
  | AMarkMaxRow =>
      Some (set_max_row (u32 (Z.shiftl (sup_row a + 1) RX_SLOT_BITS)) s, a_goto ADesc a)
  | ADesc =>
      let addr := Z.lor (cur30 a)
                    (u32 (BYTES_PER_SLOT * sup_partial a + glength a (sup_partial a))) in
      Some (a_write_desc addr a s, a_goto ALoop (a_advance a))
  | AFirst =>
      let a' := a_set_glength (sup_partial a) 0 a in
      let addr := Z.lor (cur30 a') (BYTES_PER_SLOT * sup_partial a') in
      Some (a_write_desc addr a' s, a_goto ALoop (a_advance a'))
  | ARowEnd =>
      if sup_partial a =? NUM_RX_SLOTS then
        let a' := a_next_row a in
        Some (s, a_goto ATail (if truthy (max_row s)
                               then a_enter_bucket (s16 (next_bucket (a_cur a'))) a' else a'))
      else Some (s, a_goto ATail a)
  | ATail => Some (set_rx_tail (sup_partial a) s, a_goto ATop a)
  | ADone => None
  end.

(** ** The recording thread *)
Inductive proc_pc :=
| PWaitRing     (* while (pbm_rx_ring == NULL) msleep (1) *)
| PWaitStart    (* while (process_start == 0) *)
| PWaitStop     (*   if (process_stop == 1) ... msleep (1) *)
| PStart        (* msleep (10) and the initialisation of the locals *)
| POuter        (* while (!process_stop) *)
| PTest         (*   if (!ixgbe_test_staterr (rx_desc, IXGBE_RXD_STAT_DD)) break *)
| PStore        (*   u16_ptr [cur_partial] = ...; rx_desc++; ++cur_partial *)
| PClean        (*   next_to_clean = cur_partial *)
| PMaxRow       (*   if (max_row == cur_partial) *)
| PReset        (*     max_row = cur_partial = 0; next bucket *)
| PFinCaptured  (* store_bucket_info->u.real.num_captured = cur_partial *)
| PFinLast      (* store_bucket_info->u.real.last = 1 *)
| PDone.        (* do_exit (0) *)

#[export] Instance alloc_pc_eq_dec : EqDecision alloc_pc.
Proof. solve_decision. Defined.
#[export] Instance proc_pc_eq_dec : EqDecision proc_pc.
Proof. solve_decision. Defined.

(** [u16_ptr] is always [&store_bucket_info->len [0][0]] of the bucket [p_cur]. *)
Record proc_thread := Proc {
  p_pc : proc_pc;
  p_rx_desc : Z;
  cur_partial : Z;
  p_cur : Z
}.

Definition p_goto pc p := Proc pc (p_rx_desc p) (cur_partial p) (p_cur p).
Definition proc_init : proc_thread := Proc PWaitRing 0 0 START_1G.

(** One step of [nlsim_process_thread] (with neither [IFCONFIG_PACKET_COUNT] nor
    [IFCONFIG_BYTE_COUNT] defined, as in the header). *)
Definition proc_step (s : shared) (p : proc_thread) : option (shared * proc_thread) :=
  match p_pc p with
  | PWaitRing => Some (s, if pbm_rx_ring s then p_goto PWaitStart p else p)
  | PWaitStart => Some (s, p_goto (if process_start s =? 0 then PWaitStop else PStart) p)
  | PWaitStop => Some (s, p_goto (if process_stop s =? 1 then PDone else PWaitStart) p)
  | PStart => Some (s, Proc POuter 0 (cur_partial p) (p_cur p))
  | POuter => Some (s, p_goto (if truthy (process_stop s) then PFinCaptured else PTest) p)
  | PTest =>
      Some (s, p_goto (if truthy (ixgbe_test_staterr (ring s (p_rx_desc p)) IXGBE_RXD_STAT_DD)
                       then PStore else POuter) p)
  | PStore =>
      let s' := upd_binfo (p_cur p)
                  (set_len (cur_partial p) (wb_length (ring s (p_rx_desc p)))) s in
      let c := u32 (cur_partial p + 1) in
      Some (s', Proc (if Z.land c 0xff =? 0 then PClean else PTest) (p_rx_desc p + 1) c (p_cur p))
  | PClean =>
      let s' := set_next_to_clean (u16 (cur_partial p)) s in
      if Z.land (cur_partial p) RX_SLOT_MASK =? 0
      then Some (s', Proc PMaxRow (p_rx_desc p - NUM_RX_SLOTS) (cur_partial p) (p_cur p))
      else Some (s', p_goto PTest p)
  | PMaxRow => Some (s, p_goto (if max_row s =? cur_partial p then PReset else PTest) p)
  | PReset => Some (set_max_row 0 s, Proc PTest (p_rx_desc p) 0 (s16 (next_bucket (p_cur p))))
  | PFinCaptured =>
      Some (upd_binfo (p_cur p) (set_num_captured (cur_partial p)) s, p_goto PFinLast p)
  | PFinLast => Some (upd_binfo (p_cur p) (set_last 1) s, p_goto PDone p)
  | PDone => None
  end.

(** ** The adapter

    The adapter is not part of the sources.  [Nic] states what the driver relies on:
    the adapter fills only descriptors between head and tail, in order, stores the
    packet at the descriptor's buffer address, writes back a descriptor with the [DD]
    bit and the packet's length, and delivers frames whose length (without checksum)
    is legal Ethernet. *)
Definition ETH_MIN : Z := 60.

(** The memory after the packet [p] has been stored at [addr]. *)
Definition dma_write (addr : Z) (p : packet) (m : Z -> Z) : Z -> Z :=
  fun a => if (addr <=? a) && (a <? addr + plen p) then nth (Z.to_nat (a - addr)) p 0 else m a.

Class Nic (rx : shared -> packet -> shared -> Prop) : Prop := {
  nic_owns s p s' : rx s p s' -> rx_head s <> rx_tail s;
  nic_frame s p s' : rx s p s' -> ETH_MIN <= plen p <= RX_BUF_SIZE;
  nic_effect s p s' : rx s p s' -> exists d,
    ixgbe_test_staterr d IXGBE_RXD_STAT_DD = IXGBE_RXD_STAT_DD /\
    wb_length d = plen p /\
    s' = Shared (pbm_rx_ring s) (<[rx_head s := d]> (ring s)) (rx_tail s)
           ((rx_head s + 1) mod NUM_RX_SLOTS)
           (dma_write (read_pkt_addr (ring s (rx_head s))) p (dram s)) (binfo s) (gshare s)
           (next_to_clean s) (max_row s) (process_start s) (process_stop s)
}.

(** ** The user programs

    They set the start and stop bytes of the shared page and write the headers of the
    buckets (timestamp, [num_captured], [stalled]); none of them writes a packet length
    or packet data of the reserved memory while the driver runs. *)
Definition user_step (s s' : shared) : Prop :=
  exists g bi, (forall i, len (bi i) = len (binfo s i)) /\
  s' = Shared (pbm_rx_ring s) (ring s) (rx_tail s) (rx_head s) (dram s) bi g
         (next_to_clean s) (max_row s) (process_start s) (process_stop s).

(** ** Runs *)
Record state := State { sh : shared; al : alloc_thread; pr : proc_thread }.

(** After [pbm_init_all]: cleared headers, zeroed flags, a descriptor ring cleared by
    [ixgbe_setup_rx_resources], head and tail at the first descriptor. *)
Definition shared_init (s : shared) : Prop :=
  pbm_rx_ring s = false /\ (forall i, ring s i = RxDesc 0 0) /\ rx_tail s = 0 /\
  rx_head s = 0 /\ next_to_clean s = 0 /\ max_row s = 0 /\ process_start s = 0 /\
  process_stop s = 0.

Section Runs.
Context (rx : shared -> packet -> shared -> Prop).

Inductive label := LAlloc | LProc | LNic (p : packet) | LUser | LOpen.

Inductive step : state -> label -> state -> Prop :=
| step_alloc s a p s' a' :
    alloc_step s a = Some (s', a') -> step (State s a p) LAlloc (State s' a' p)
| step_proc s a p s' p' :
    proc_step s p = Some (s', p') -> step (State s a p) LProc (State s' a p')
| step_nic s a p q s' : rx s q s' -> step (State s a p) (LNic q) (State s' a p)
| step_user s a p s' : user_step s s' -> step (State s a p) LUser (State s' a p)
(* ixgbe_setup_all_rx_resources publishes pbm_rx_ring *)
| step_open s a p : step (State s a p) LOpen (State (set_pbm_rx_ring true s) a p).

(** [run G tr s]: [s] can be reached, the adapter having received the packets [tr] in
    this order, each in a state that satisfies [G]. *)
Inductive run (G : shared -> Prop) : list packet -> state -> Prop :=
| run_init s : shared_init s -> run G [] (State s alloc_init proc_init)
| run_step tr s l s' :
    run G tr s -> step s l s' ->
    (match l with LNic _ => G (sh s) | _ => True end) ->
    run G (match l with LNic q => tr ++ [q] | _ => tr end) s'.

(** The receive ring is fed: the adapter is not about to use its last descriptor. *)
Definition fed (s : shared) : Prop := (rx_head s + 1) mod NUM_RX_SLOTS <> rx_tail s.
End Runs.
