(* ===== verification/CaptureInv.v ===== *)
(** * The invariant of the capture threads

    The invariant relates a state of [Capture] to the list of packets received so far
    and to six counters that the code keeps only modulo the ring size: [S] descriptors
    supplied, [T] of them published through the tail register, [P] packets recorded, [C]
    packets announced through [next_to_clean], and the sequence numbers [A] and [B] of
    the buckets the two threads work in; [base n] is the number of packets in the buckets
    before the [n]-th. It is split by component so that a step re-establishes only the
    parts it touches. *)
From S2P Require Import Prelude Layout Capture.

(** ** Derived notions *)

(** Packet number [k] of a trace, its length, and the lengths seen from packet [b] on. *)
Definition pk (tr : list packet) (k : Z) : packet := nth (Z.to_nat k) tr [].
Definition glen (tr : list packet) (k : Z) : Z := plen (pk tr k).
Definition blens (tr : list packet) (b : Z) : Z -> Z := fun k => glen tr (b + k).

(** Address of packet [k], which lies in bucket [n] starting with packet [b]. *)
Definition addr (tr : list packet) (n b k : Z) : Z :=
  bi n * 2 ^ 30 + packet_offset (blens tr b) (k - b).

(** Packet [k] lies in bucket [n], given the buckets opened so far. *)
Definition inb (A : Z) (base : Z -> Z) (n k : Z) : Prop :=
  0 <= n <= A /\ base n <= k /\ (n < A -> k < base (n + 1)).

Abbreviation N := NUM_RX_SLOTS.
Abbreviation received tr := (Z.of_nat (length tr)).
(** ** The parts of the invariant *)

(** Counters and bucket boundaries. *)
Record InvO (tr : list packet) (S T P C A B : Z) (base : Z -> Z) : Prop := {
  o_order : 0 <= C <= P /\ P <= received tr <= T /\ T <= S <= C + N - 1;
  o_fed : received tr < T \/ T = 0;
  o_base0 : base 0 = 0;
  o_bases : forall n, 0 <= n < A -> base n + N <= base (n + 1) <= base n + MAX_ROWS * N;
  o_align : forall n, 0 <= n <= A -> base n mod N = 0;
  o_buckets : 0 <= B <= A /\ A <= B + 1 /\ base A <= S /\ base B <= P;
  o_frames : Forall (fun p => ETH_MIN <= plen p <= RX_BUF_SIZE) tr
}.

(** The ring, its head and its tail. *)
Record InvR (tr : list packet) (S T P A : Z) (base : Z -> Z) (s : shared) : Prop := {
  r_tail : rx_tail s = T mod N;
  r_head : rx_head s = received tr mod N;
  r_done : forall k, P <= k < received tr ->
    ixgbe_test_staterr (ring s (k mod N)) IXGBE_RXD_STAT_DD = IXGBE_RXD_STAT_DD /\
    wb_length (ring s (k mod N)) = glen tr k;
  r_ready : forall n k, inb A base n k -> received tr <= k < S ->
    ring s (k mod N) = RxDesc (addr tr n (base n) k) 0;
  r_start : S = 0 -> ring s 0 = RxDesc 0 0
}.

(** Recorded lengths, packet data, and the place every supplied buffer leaves. *)
Record InvM (tr : list packet) (S P A B : Z) (base : Z -> Z) (s : shared) : Prop := {
  m_len : forall n k, inb A base n k -> A - NUM_BUCKETS < n <= B -> k < P ->
    len (binfo s (bi n)) (k - base n) = glen tr k;
  m_data : forall n k i, inb A base n k -> A - NUM_BUCKETS < n -> k < received tr ->
    0 <= i < glen tr k -> dram s (addr tr n (base n) k + i) = nth (Z.to_nat i) (pk tr k) 0;
  m_room : forall n k, inb A base n k -> k < S ->
    slot_offset (blens tr (base n)) ((k - base n) / N) (k mod N) <= BYTES_PER_SLOT - RX_BUF_SIZE
}.

(** The local variables of the supply thread.  [M] tells whether the current row has been
    declared the last of its bucket. *)
Definition acc_done (pc : alloc_pc) : Z :=
  match pc with AMarkCaptured | AMarkMaxRow | ADesc => 1 | _ => 0 end.
Definition in_loop (pc : alloc_pc) : bool :=
  match pc with ALoop | AAcc | AMarkCaptured | AMarkMaxRow | ADesc | AFirst => true | _ => false end.
Definition in_body (pc : alloc_pc) : bool :=
  match pc with AAcc | AMarkCaptured | AMarkMaxRow | ADesc | AFirst => true | _ => false end.
Definition waiting (pc : alloc_pc) : bool :=
  match pc with AWaitRing | AWaitStart | AWaitStop | AStart => true | _ => false end.

Record InvA (tr : list packet) (S T C A : Z) (base : Z -> Z) (M : bool) (a : alloc_thread)
  : Prop := {
  a_bucket : a_cur a = bi A;
  a_pos : S = base A + sup_row a * N + sup_partial a;
  a_range : 0 <= sup_row a /\ 0 <= sup_partial a <= N;
  a_mark_row : M = true -> 1 <= sup_row a;
  a_done : forall q, 0 <= q < sup_partial a + acc_done (a_pc a) ->
    glength a q = slot_offset (blens tr (base A)) (sup_row a) q;
  a_todo : forall q, sup_partial a + acc_done (a_pc a) <= q < N -> 1 <= sup_row a ->
    glength a q = slot_offset (blens tr (base A)) (sup_row a - 1) q;
  a_below : forall q, 0 <= q < N -> 1 <= sup_row a ->
    slot_offset (blens tr (base A)) (sup_row a - 1) q <= BYTE_LIMIT;
  a_unmarked : forall q, 0 <= q < sup_partial a -> M = false ->
    slot_offset (blens tr (base A)) (sup_row a) q <= BYTE_LIMIT;
  a_wait : waiting (a_pc a) = true ->
    S = 0 /\ T = 0 /\ sup_row a = 0 /\ sup_partial a = 0 /\ M = false;
  a_started : waiting (a_pc a) = false -> a_pc a <> ADone ->
    cur30 a = a_cur a * 2 ^ 30 /\ a_u16 a = (sup_row a - 1) * N /\ a_rx_desc a = sup_partial a;
  a_idle : (a_pc a = ATop \/ a_pc a = ACount) -> T = S /\ sup_partial a < N;
  a_loop : in_loop (a_pc a) = true ->
    1 <= a_count a <= N /\ 0 <= a_i a <= a_count a /\ sup_partial a + (a_count a - a_i a) <= N /\
    S + (a_count a - a_i a) <= C + N - 1 /\ T = S - a_i a;
  a_body : in_body (a_pc a) = true -> a_i a < a_count a /\
    (sup_row a = 0 <-> a_pc a = AFirst);
  a_desc : a_pc a = ADesc ->
    M = true \/ slot_offset (blens tr (base A)) (sup_row a) (sup_partial a) <= BYTE_LIMIT;
  a_row_end : a_pc a = ARowEnd -> 1 <= a_count a /\ T = S - a_count a;
  a_tail : a_pc a = ATail -> T < S /\ sup_partial a < N
}.

(** [max_row] tells the recording thread where its bucket ends. *)
Definition InvX (A B : Z) (base : Z -> Z) (M : bool) (row : Z) (s : shared) : Prop :=
  (B = A /\ max_row s = if M then (row + 1) * N else 0) \/
  (A = B + 1 /\ row = 0 /\ M = false /\ max_row s = base A - base B).

(** The local variables of the recording thread and [next_to_clean]. *)
Record InvP (tr : list packet) (P C A B : Z) (base : Z -> Z) (s : shared) (p : proc_thread)
  : Prop := {
  p_bucket : p_cur p = bi B;
  p_pos : P = base B + cur_partial p;
  p_limit : B < A -> P <= base A;
  p_clean : next_to_clean s mod N = C mod N /\ 0 <= next_to_clean s < 2 ^ 16 /\ C mod 256 = 0;
  p_wait : (p_pc p = PWaitRing \/ p_pc p = PWaitStart \/ p_pc p = PWaitStop \/ p_pc p = PStart) ->
    P = 0;
  p_active : (p_pc p = POuter \/ p_pc p = PTest \/ p_pc p = PStore) ->
    P < C + 256 /\ p_rx_desc p = P mod N /\ (B < A -> P < base A);
  p_store : p_pc p = PStore -> P < received tr;
  p_cleaning : p_pc p = PClean ->
    P = C + 256 /\ p_rx_desc p = (P - 1) mod N + 1 /\ base B < P;
  p_max : p_pc p = PMaxRow ->
    P = C /\ P mod N = 0 /\ base B < P /\ p_rx_desc p = 0;
  p_reset : p_pc p = PReset -> P = C /\ A = B + 1 /\ P = base A /\ p_rx_desc p = 0
}.

Record ghost := Ghost {
  gS : Z; gT : Z; gP : Z; gC : Z; gA : Z; gB : Z; gbase : Z -> Z; gM : bool
}.

Record Inv (tr : list packet) (g : ghost) (st : state) : Prop := {
  inv_o : InvO tr (gS g) (gT g) (gP g) (gC g) (gA g) (gB g) (gbase g);
  inv_r : InvR tr (gS g) (gT g) (gP g) (gA g) (gbase g) (sh st);
  inv_m : InvM tr (gS g) (gP g) (gA g) (gB g) (gbase g) (sh st);
  inv_a : InvA tr (gS g) (gT g) (gC g) (gA g) (gbase g) (gM g) (al st);
  inv_x : InvX (gA g) (gB g) (gbase g) (gM g) (sup_row (al st)) (sh st);
  inv_p : InvP tr (gP g) (gC g) (gA g) (gB g) (gbase g) (sh st) (pr st)
}.

(** ** Traces and offsets *)
Lemma plen_nonneg p : 0 <= plen p.
Proof. unfold plen. lia. Qed.

Lemma glen_nonneg tr k : 0 <= glen tr k.
Proof. apply plen_nonneg. Qed.
#[export] Hint Resolve plen_nonneg glen_nonneg : nlsim.

Lemma pk_app tr x k : 0 <= k < received tr -> pk (tr ++ [x]) k = pk tr k.
Proof. intros. unfold pk. rewrite app_nth1; [done|lia]. Qed.

Lemma pk_snoc tr x : pk (tr ++ [x]) (received tr) = x.
Proof. unfold pk. rewrite Nat2Z.id, app_nth2, Nat.sub_diag by lia. done. Qed.

Lemma glen_app tr x k : 0 <= k < received tr -> glen (tr ++ [x]) k = glen tr k.
Proof. intros. unfold glen. by rewrite pk_app. Qed.

Lemma received_app tr (x : packet) : received (tr ++ [x]) = received tr + 1.
Proof. rewrite length_app. simpl. lia. Qed.

Lemma glen_frame tr k :
  Forall (fun p => ETH_MIN <= plen p <= RX_BUF_SIZE) tr -> 0 <= k < received tr ->
  60 <= glen tr k <= 1514.
Proof.
  intros Hf Hk. unfold glen, pk. rewrite Forall_forall in Hf. apply Hf.
  apply list_elem_of_In, nth_In. lia.
Qed.

Lemma slot_offset_succ lens r q :
  0 <= r -> slot_offset lens (r + 1) q = slot_offset lens r q + lens (r * N + q).
Proof. intros. unfold slot_offset. by rewrite zsum_succ. Qed.

Lemma slot_offset_0 lens q : slot_offset lens 0 q = 0.
Proof. unfold slot_offset. by rewrite zsum_0. Qed.

(** Offsets only depend on packets received before. *)
Lemma slot_offset_stable tr x b r q :
  0 <= b -> 0 <= q -> (1 <= r -> b + (r - 1) * N + q < received tr) ->
  slot_offset (blens (tr ++ [x]) b) r q = slot_offset (blens tr b) r q.
Proof.
  intros Hb Hq Hr. apply zsum_ext. intros i Hi. unfold blens. apply glen_app. lay.
Qed.

(** Between two rows of a slot the offset grows by the packets in between. *)
Lemma slot_offset_grows tr b r r' q :
  0 <= r < r' -> slot_offset (blens tr b) r q + glen tr (b + r * N + q)
                 <= slot_offset (blens tr b) r' q.
Proof.
  intros Hr. transitivity (slot_offset (blens tr b) (r + 1) q).
  - rewrite slot_offset_succ by lia. unfold blens. rewrite Z.add_assoc. lia.
  - apply zsum_mono; [lia|]. intros. apply glen_nonneg.
Qed.

Lemma slot_offset_nonneg tr b r q : 0 <= r -> 0 <= slot_offset (blens tr b) r q.
Proof.
  intros. rewrite <- (slot_offset_0 (blens tr b) q).
  apply zsum_mono; [lia|]. intros. apply glen_nonneg.
Qed.

Lemma slot_offset_bounds tr b r q :
  Forall (fun p => ETH_MIN <= plen p <= RX_BUF_SIZE) tr -> 0 <= b -> 0 <= q -> 0 <= r ->
  (1 <= r -> b + (r - 1) * N + q < received tr) ->
  60 * r <= slot_offset (blens tr b) r q <= 1514 * r.
Proof.
  intros Hf Hb Hq Hr H. apply zsum_bounds; [done|]. intros i Hi. unfold blens.
  apply glen_frame; [done|]. lay.
Qed.

Lemma bi_next n : 0 <= n -> s16 (next_bucket (bi n)) = bi (n + 1).
Proof.
  intros Hn. pose proof (bi_range n) as Hr. unfold next_bucket, bi in *. layout_consts.
  rewrite s16_small by (split_ifs; lia). split_ifs; zdm.
Qed.

(** Buckets that are live at the same time lie in different gigabytes. *)
Section Bases.
Context (tr : list packet) (S T P C A B : Z) (base : Z -> Z).
Context (HO : InvO tr S T P C A B base).

Lemma base_mono n m : 0 <= n -> n <= m <= A -> base n + (m - n) * N <= base m.
Proof.
  intros Hn [Hnm Hm]. replace m with (n + (m - n)) by lia. revert Hm.
  replace m with (n + (m - n)) at 1 by lia. assert (0 <= m - n) as Hd by lia.
  revert Hd. generalize (m - n). refine (zsum_ind _ _ _).
  - intros _. rewrite Z.add_0_r. lia.
  - intros d Hd IH HA. pose proof (o_bases _ _ _ _ _ _ _ _ HO (n + d) ltac:(lia)) as Hb.
    rewrite Z.add_assoc. specialize (IH ltac:(lia)). layout_consts. lia.
Qed.

Lemma base_nonneg n : 0 <= n <= A -> 0 <= base n.
Proof.
  intros. pose proof (base_mono 0 n ltac:(lia) ltac:(lia)) as Hb.
  rewrite (o_base0 _ _ _ _ _ _ _ _ HO) in Hb. lay.
Qed.

Lemma inb_unique n m k : inb A base n k -> inb A base m k -> n = m.
Proof.
  intros (Hn & Hbn & Hen) (Hm & Hbm & Hem).
  assert (n < m \/ n = m \/ m < n) as [Hl|[->|Hl]] by lia; [|done|].
  - pose proof (base_mono (n + 1) m ltac:(lia) ltac:(lia)). specialize (Hen ltac:(lia)). lay.
  - pose proof (base_mono (m + 1) n ltac:(lia) ltac:(lia)). specialize (Hem ltac:(lia)). lay.
Qed.
End Bases.

(** Packet [k] of bucket [n] occupies the slot [k mod N] in row [(k - base n) / N]. *)
Lemma slot_row b k : b mod N = 0 -> (k - b) mod N = k mod N.
Proof. intros. layout_consts. zdm. Qed.

Lemma addr_eq tr n b k :
  b mod N = 0 ->
  addr tr n b k = bi n * 2 ^ 30 + BYTES_PER_SLOT * (k mod N)
                  + slot_offset (blens tr b) ((k - b) / N) (k mod N).
Proof. intros. unfold addr, packet_offset. rewrite slot_row by done. lia. Qed.

(** Every packet lies inside its slot of its bucket. *)
Lemma addr_bounds tr n b k :
  b mod N = 0 -> b <= k ->
  slot_offset (blens tr b) ((k - b) / N) (k mod N) <= BYTES_PER_SLOT - RX_BUF_SIZE ->
  bi n * 2 ^ 30 + BYTES_PER_SLOT * (k mod N) <= addr tr n b k /\
  addr tr n b k + RX_BUF_SIZE <= bi n * 2 ^ 30 + BYTES_PER_SLOT * (k mod N + 1) /\
  BYTES_PER_SLOT * (k mod N + 1) <= DATA_SIZE.
Proof.
  intros Hb Hk Hr. rewrite addr_eq by done.
  pose proof (slot_offset_nonneg tr b ((k - b) / N) (k mod N)
    ltac:(apply Z.div_pos; layout_consts; lia)).
  assert (0 <= k mod N < 4096) by (apply Z.mod_pos_bound; layout_consts; lia).
  unfold DATA_SIZE. lay.
Qed.

(** A packet ends before any later packet of the same slot begins. *)
Lemma addr_same_slot tr n b k k' :
  b mod N = 0 -> b <= k -> k < k' -> k mod N = k' mod N ->
  addr tr n b k + glen tr k <= addr tr n b k'.
Proof.
  intros Hb Hk Hkk Hm. rewrite !addr_eq by done. rewrite <- Hm.
  assert (0 <= (k - b) / N < (k' - b) / N) as Hrow by (layout_consts; zdm).
  pose proof (slot_offset_grows tr b _ _ (k mod N) Hrow) as Hg.
  replace (b + (k - b) / N * N + k mod N) with k in Hg by (layout_consts; zdm). lia.
Qed.

(** Two packets of live buckets do not overlap. *)
Lemma addr_disjoint tr S T P C A B base s n k n' k' :
  InvO tr S T P C A B base -> InvM tr S P A B base s ->
  inb A base n k -> inb A base n' k' -> A - NUM_BUCKETS < n -> A - NUM_BUCKETS < n' ->
  k < k' < S -> k < received tr ->
  addr tr n (base n) k + glen tr k <= addr tr n' (base n') k' \/
  addr tr n' (base n') k' + RX_BUF_SIZE <= addr tr n (base n) k.
Proof.
  intros HO HM Hn Hn' Hw Hw' Hk Hrcv.
  pose proof (glen_frame tr k (o_frames _ _ _ _ _ _ _ _ HO)) as Hlen.
  pose proof (base_nonneg _ _ _ _ _ _ _ _ HO n (proj1 Hn)) as Hb0.
  specialize (Hlen ltac:(destruct Hn; lia)).
  pose proof (addr_bounds tr n (base n) k (o_align _ _ _ _ _ _ _ _ HO n (proj1 Hn))
    (proj1 (proj2 Hn)) (m_room _ _ _ _ _ _ _ HM n k Hn ltac:(lia))) as (L1 & L2 & L3).
  pose proof (addr_bounds tr n' (base n') k' (o_align _ _ _ _ _ _ _ _ HO n' (proj1 Hn'))
    (proj1 (proj2 Hn')) (m_room _ _ _ _ _ _ _ HM n' k' Hn' ltac:(lia))) as (R1 & R2 & R3).
  assert (0 <= k mod N < 4096 /\ 0 <= k' mod N < 4096) as [Hm Hm']
    by (split; apply Z.mod_pos_bound; layout_consts; lia).
  unfold DATA_SIZE in *. destruct (decide (n = n')) as [<-|Hne].
  - destruct (decide (k mod N = k' mod N)) as [Heq|Hne].
    + left. apply addr_same_slot; [|destruct Hn as (?&?&?); lia | lia | done].
      by apply (o_align _ _ _ _ _ _ _ _ HO), Hn.
    + assert (k mod N < k' mod N \/ k' mod N < k mod N) as [?|?] by lia; layout_consts; lia.
  - pose proof (bi_inj n n' ltac:(destruct Hn; lia) ltac:(destruct Hn'; lia) Hne
      ltac:(destruct Hn, Hn'; layout_consts; lia)).
    assert (bi n < bi n' \/ bi n' < bi n) as [?|?] by lia; layout_consts; lia.
Qed.

(** ** Steps that leave a part untouched *)
Lemma InvR_frame tr S T P A base s s' :
  ring s' = ring s -> rx_tail s' = rx_tail s -> rx_head s' = rx_head s ->
  InvR tr S T P A base s -> InvR tr S T P A base s'.
Proof. intros E1 E2 E3 []. constructor; rewrite ?E1, ?E2, ?E3; eauto. Qed.

Lemma InvM_frame tr S P A B base s s' :
  dram s' = dram s -> (forall i, len (binfo s' i) = len (binfo s i)) ->
  InvM tr S P A B base s -> InvM tr S P A B base s'.
Proof. intros E1 E2 []. constructor; rewrite ?E1; intros; rewrite ?E2; eauto. Qed.

Lemma InvX_frame A B base M row s s' :
  max_row s' = max_row s -> InvX A B base M row s -> InvX A B base M row s'.
Proof. unfold InvX. by intros ->. Qed.

Lemma InvP_frame tr P C A B base s s' p :
  next_to_clean s' = next_to_clean s -> InvP tr P C A B base s p -> InvP tr P C A B base s' p.
Proof. intros E []. constructor; rewrite ?E; eauto. Qed.

Lemma upd_binfo_len i f s j :
  len (f (binfo s i)) = len (binfo s i) -> len (binfo (upd_binfo i f s) j) = len (binfo s j).
Proof. intros E. simpl. rewrite fn_insert_dec. case_decide; subst; done. Qed.

Ltac inv_frame :=
  match goal with
  | H : ?P |- ?P => exact H
  | H : InvR _ _ _ _ _ _ ?s |- InvR _ _ _ _ _ _ _ =>
      apply (InvR_frame _ _ _ _ _ _ s); [reflexivity | reflexivity | reflexivity | exact H]
  | H : InvM _ _ _ _ _ _ ?s |- InvM _ _ _ _ _ _ _ =>
      apply (InvM_frame _ _ _ _ _ _ s);
      [reflexivity | first [reflexivity | intros; apply upd_binfo_len; reflexivity] | exact H]
  | H : InvX _ _ _ _ _ ?s |- InvX _ _ _ _ _ _ =>
      apply (InvX_frame _ _ _ _ _ s); [reflexivity | exact H]
  | H : InvP _ _ _ _ _ _ ?s _ |- InvP _ _ _ _ _ _ _ _ =>
      apply (InvP_frame _ _ _ _ _ _ s); [reflexivity | exact H]
  end.

Ltac inv_split := constructor; simpl; try inv_frame.

(** ** The other agents *)
Lemma user_preserves tr g s a p s' :
  Inv tr g (State s a p) -> user_step s s' -> Inv tr g (State s' a p).
Proof.
  intros [] (g' & bi' & Hlen & ->). simpl in *. inv_split.
  apply (InvM_frame _ _ _ _ _ _ s); [done | exact Hlen | done].
Qed.

Lemma open_preserves tr g s a p :
  Inv tr g (State s a p) -> Inv tr g (State (set_pbm_rx_ring true s) a p).
Proof. intros []. simpl in *. inv_split. Qed.

(** Receiving a packet does not move the offsets the supply thread has computed. *)
Lemma InvA_receive tr x S T P C A B base M a :
  InvO tr S T P C A B base -> InvA tr S T C A base M a -> InvA (tr ++ [x]) S T C A base M a.
Proof.
  intros HO []. pose proof (o_order _ _ _ _ _ _ _ _ HO) as Hord.
  pose proof (base_nonneg _ _ _ _ _ _ _ _ HO A) as Hb.
  pose proof (o_buckets _ _ _ _ _ _ _ _ HO) as HAB. specialize (Hb ltac:(lia)).
  assert (acc_done (a_pc a) = 0 \/ acc_done (a_pc a) = 1) as Hacc by (destruct (a_pc a); auto).
  assert (forall r q, 0 <= q -> (1 <= r -> base A + (r - 1) * N + q <= S - N) ->
    slot_offset (blens (tr ++ [x]) (base A)) r q = slot_offset (blens tr (base A)) r q) as Hst.
  { intros r q Hq Hr. apply slot_offset_stable; [done.. |]. intros. specialize (Hr ltac:(lia)). lia. }
  constructor; try assumption; intros; rewrite Hst by (layout_consts; lia); eauto.
Qed.

Lemma addr_receive tr x S T P C A B base n k :
  InvO tr S T P C A B base -> inb A base n k -> k < S ->
  addr (tr ++ [x]) n (base n) k = addr tr n (base n) k /\
  slot_offset (blens (tr ++ [x]) (base n)) ((k - base n) / N) (k mod N)
  = slot_offset (blens tr (base n)) ((k - base n) / N) (k mod N).
Proof.
  intros HO Hn Hk. pose proof (o_order _ _ _ _ _ _ _ _ HO) as Hord.
  pose proof (base_nonneg _ _ _ _ _ _ _ _ HO n (proj1 Hn)) as Hb.
  pose proof (o_align _ _ _ _ _ _ _ _ HO n (proj1 Hn)) as Ha.
  rewrite !addr_eq by done. rewrite slot_offset_stable; [done | done | |].
  - layout_consts. zdm.
  - intros _. destruct Hn as (_ & ? & _). layout_consts. zdm.
Qed.

Lemma mod_neq k k' : k < k' < k + N -> k mod N <> k' mod N.
Proof. intros. layout_consts. zdm. Qed.

(** The next packet to be received lies in one of the two buckets in use. *)
Lemma inb_next tr S T P C A B base k :
  InvO tr S T P C A B base -> P <= k -> exists n, inb A base n k /\ A - NUM_BUCKETS < n.
Proof.
  intros HO Hk. pose proof (o_buckets _ _ _ _ _ _ _ _ HO) as Hb.
  destruct (decide (base A <= k)).
  - exists A. split; [|lay]. split; [lia|]. split; [done|lia].
  - assert (B = A - 1) as -> by (assert (B <> A) by (intros ->; lia); lia).
    exists (A - 1). split; [|lay]. split; [lia|]. split; [lia|].
    intros _. replace (A - 1 + 1) with A by lia. lia.
Qed.

Lemma dma_write_out ad x m a : a < ad \/ ad + plen x <= a -> dma_write ad x m a = m a.
Proof. intros. unfold dma_write. split_ifs; [lia|done]. Qed.

Lemma dma_write_in ad x m i :
  0 <= i < plen x -> dma_write ad x m (ad + i) = nth (Z.to_nat i) x 0.
Proof.
  intros. unfold dma_write. replace (ad + i - ad) with i by lia.
  rewrite (proj2 (Z.leb_le _ _)), (proj2 (Z.ltb_lt _ _)) by lia. done.
Qed.

Lemma InvM_receive tr x S T P C A B base s s' :
  InvO tr S T P C A B base -> InvR tr S T P A base s -> InvM tr S P A B base s ->
  received tr < S -> ETH_MIN <= plen x <= RX_BUF_SIZE -> binfo s' = binfo s ->
  dram s' = dma_write (read_pkt_addr (ring s (rx_head s))) x (dram s) ->
  InvM (tr ++ [x]) S P A B base s'.
Proof.
  intros HO HR HM HT Hfr Ebi Edr. pose proof (o_order _ _ _ _ _ _ _ _ HO) as Hord.
  destruct (inb_next _ _ _ _ _ _ _ _ (received tr) HO ltac:(lia)) as (m & Hm & Hwm).
  rewrite (r_head _ _ _ _ _ _ _ HR), (r_ready _ _ _ _ _ _ _ HR m _ Hm) in Edr by lia.
  cbn [read_pkt_addr qw0] in Edr. constructor; rewrite ?received_app, ?Ebi, ?Edr.
  - intros n k Hn Hw Hk. pose proof (base_nonneg _ _ _ _ _ _ _ _ HO n (proj1 Hn)).
    rewrite glen_app by (destruct Hn as (?&?&?); lia). by apply (m_len _ _ _ _ _ _ _ HM).
  - intros n k i Hn Hw Hk Hi. pose proof (base_nonneg _ _ _ _ _ _ _ _ HO n (proj1 Hn)) as Hb.
    rewrite (proj1 (addr_receive _ x _ _ _ _ _ _ _ _ _ HO Hn ltac:(lia))).
    destruct (decide (k = received tr)) as [->|Hne].
    + rewrite (inb_unique _ _ _ _ _ _ _ _ HO _ _ _ Hn Hm) in *.
      unfold glen in Hi. rewrite pk_snoc in *. by apply dma_write_in.
    + assert (0 <= k < received tr) as Hk' by (destruct Hn as (?&?&?); lia).
      rewrite glen_app in Hi by done. rewrite pk_app by done.
      destruct (addr_disjoint _ _ _ _ _ _ _ _ _ n k m (received tr) HO HM) as [?|?]; try done; try lia.
      all: rewrite dma_write_out by lia; apply (m_data _ _ _ _ _ _ _ HM); (done || lia).
  - intros n k Hn Hk. rewrite (proj2 (addr_receive _ x _ _ _ _ _ _ _ _ _ HO Hn Hk)).
    by apply (m_room _ _ _ _ _ _ _ HM).
Qed.

Lemma InvR_receive tr x S T P C A B base s s' d :
  InvO tr S T P C A B base -> InvR tr S T P A base s -> received tr < S ->
  ixgbe_test_staterr d IXGBE_RXD_STAT_DD = IXGBE_RXD_STAT_DD -> wb_length d = plen x ->
  ring s' = <[rx_head s := d]> (ring s) -> rx_tail s' = rx_tail s ->
  rx_head s' = (rx_head s + 1) mod N -> InvR (tr ++ [x]) S T P A base s'.
Proof.
  intros HO HR HS Hdd Hdl Er Et Eh. pose proof (o_order _ _ _ _ _ _ _ _ HO) as Hord.
  pose proof (r_head _ _ _ _ _ _ _ HR) as Hh. rewrite Hh in *.
  destruct HR. constructor; rewrite ?received_app, ?Er, ?Et, ?Eh; try done; try lia.
  - layout_consts. zdm.
  - intros k Hk. destruct (decide (k = received tr)) as [->|Hne].
    + rewrite fn_lookup_insert. unfold glen. by rewrite pk_snoc.
    + rewrite fn_lookup_insert_ne, glen_app by (try (apply not_eq_sym, mod_neq); lay).
      apply r_done0. lia.
  - intros n k Hn Hk. rewrite fn_lookup_insert_ne by (apply mod_neq; lay).
    rewrite (r_ready0 n k Hn) by lia.
    by rewrite (proj1 (addr_receive _ x _ _ _ _ _ _ _ _ _ HO Hn ltac:(lia))).
Qed.

Lemma nic_preserves rx `{!Nic rx} tr g s a p x s' :
  Inv tr g (State s a p) -> rx s x s' -> fed s -> Inv (tr ++ [x]) g (State s' a p).
Proof.
  intros [HO HR HM HA HX HP] Hrx Hfed. simpl in *.
  pose proof (nic_owns _ _ _ Hrx) as Hown. pose proof (nic_frame _ _ _ Hrx) as Hfr.
  destruct (nic_effect _ _ _ Hrx) as (d & Hdd & Hdl & ->). clear Hrx.
  pose proof (o_order _ _ _ _ _ _ _ _ HO) as Hord. unfold fed in Hfed.
  rewrite (r_tail _ _ _ _ _ _ _ HR), (r_head _ _ _ _ _ _ _ HR) in Hown, Hfed.
  assert (received tr + 1 < gT g) as HT by (clear - Hown Hfed Hord; layout_consts; zdm).
  constructor; simpl.
  - destruct HO. constructor; rewrite ?received_app; try done; try lia.
    apply Forall_app. split; [done|]. by constructor.
  - eapply InvR_receive; eauto; lia.
  - eapply InvM_receive; eauto; lia.
  - by eapply InvA_receive.
  - by inv_frame.
  - destruct HP. constructor; simpl; rewrite ?received_app; try done.
    intros Hpc. specialize (p_store0 Hpc). lia.
Qed.

(** ** The supply thread *)
Ltac pc_cases H := rewrite H in *; simpl in *.

(** Moving the program counter of the supply thread. *)
Lemma InvA_goto tr S T C A base M a pc :
  InvA tr S T C A base M a -> acc_done pc = acc_done (a_pc a) ->
  (waiting pc = true -> waiting (a_pc a) = true) ->
  (waiting pc = false -> pc <> ADone -> waiting (a_pc a) = false /\ a_pc a <> ADone) ->
  ((pc = ATop \/ pc = ACount) -> T = S /\ sup_partial a < N) ->
  (in_loop pc = true -> in_loop (a_pc a) = true) ->
  (in_body pc = true -> a_i a < a_count a /\ (sup_row a = 0 <-> pc = AFirst)) ->
  (pc = ADesc ->
    M = true \/ slot_offset (blens tr (base A)) (sup_row a) (sup_partial a) <= BYTE_LIMIT) ->
  (pc = ARowEnd -> 1 <= a_count a /\ T = S - a_count a) ->
  (pc = ATail -> T < S /\ sup_partial a < N) ->
  InvA tr S T C A base M (a_goto pc a).
Proof.
  intros [] Eacc H1 H2 H3 H4 H5 H6 H7 H8. constructor; simpl; rewrite ?Eacc; eauto.
  intros Hw Hd. destruct (H2 Hw Hd). eauto.
Qed.

Ltac goto_side :=
  simpl; intros; try discriminate; try congruence;
  repeat match goal with H : _ \/ _ |- _ => destruct H end; try discriminate; try congruence;
  eauto.

(** Steps that only test something. *)
Lemma alloc_test_preserves tr g s a p s' a' :
  Inv tr g (State s a p) -> alloc_step s a = Some (s', a') ->
  a_pc a = AWaitRing \/ a_pc a = AWaitStart \/ a_pc a = AWaitStop \/ a_pc a = ATop \/
  a_pc a = ALoop ->
  Inv tr g (State s' a' p).
Proof.
  intros [HO HR HM HA HX HP] Hs Hpc. simpl in *. unfold alloc_step in Hs.
  destruct Hpc as [E|[E|[E|[E|E]]]]; rewrite E in Hs; simplify_eq.
  - destruct (pbm_rx_ring s'); inv_split. apply InvA_goto; rewrite ?E; goto_side.
  - inv_split. case_match; apply InvA_goto; rewrite ?E; goto_side.
  - case_match; simplify_eq; inv_split; apply InvA_goto; rewrite ?E; goto_side.
  - pose proof (a_idle _ _ _ _ _ _ _ _ HA (or_introl E)).
    case_match; simplify_eq; inv_split; apply InvA_goto; rewrite ?E; goto_side.
  - pose proof (a_loop _ _ _ _ _ _ _ _ HA ltac:(by rewrite E)) as Hl.
    inv_split. unfold truthy. repeat case_match; zbool; apply InvA_goto; rewrite ?E; goto_side;
      repeat split; intros; (lia || done).
Qed.

(** The thread starts to supply the first bucket. *)
Lemma alloc_start_preserves tr g s a p s' a' :
  Inv tr g (State s a p) -> alloc_step s a = Some (s', a') -> a_pc a = AStart ->
  Inv tr g (State s' a' p).
Proof.
  intros [HO HR HM HA HX HP] Hs E. simpl in *. unfold alloc_step in Hs. rewrite E in Hs.
  simplify_eq. pose proof (a_wait _ _ _ _ _ _ _ _ HA ltac:(by rewrite E)) as (HS & HT & Hr & Hp & HM0).
  pose proof (o_buckets _ _ _ _ _ _ _ _ HO) as Hb.
  pose proof (bi_range (gA g)) as Hbi. pose proof (o_order _ _ _ _ _ _ _ _ HO) as Hord.
  inv_split; [|by rewrite <- Hr]. destruct HA.
  constructor; simpl; intros; try done; try congruence; try (lay).
  rewrite Z.shiftl_mul_pow2, u64_small by (layout_consts; lia). lay.
Qed.

(** [count] is the number of descriptors that may be refilled. *)
Lemma count_value ntc C S sp :
  ntc mod N = C mod N -> S mod N = sp mod N -> 0 <= S - C <= N - 1 ->
  s16 (Z.land (N + ntc - sp - 1) RX_SLOT_MASK) = N - 1 - (S - C).
Proof.
  intros Hn Hs Hd. replace RX_SLOT_MASK with (2 ^ 12 - 1) by done.
  rewrite land_ones_mod, s16_small by (try (apply conj || idtac); layout_consts; zdm).
  layout_consts. zdm.
Qed.

Lemma alloc_count_preserves tr g s a p s' a' :
  Inv tr g (State s a p) -> alloc_step s a = Some (s', a') -> a_pc a = ACount ->
  Inv tr g (State s' a' p).
Proof.
  intros [HO HR HM HA HX HP] Hs E. simpl in *. unfold alloc_step in Hs. rewrite E in Hs.
  pose proof (a_idle _ _ _ _ _ _ _ _ HA (or_intror E)) as [HT Hp].
  pose proof (a_pos _ _ _ _ _ _ _ _ HA) as Hpos. pose proof (a_range _ _ _ _ _ _ _ _ HA) as Hrg.
  pose proof (p_clean _ _ _ _ _ _ _ _ HP) as (Hc & _ & _).
  pose proof (o_order _ _ _ _ _ _ _ _ HO) as Hord.
  pose proof (o_align _ _ _ _ _ _ _ _ HO (gA g) ltac:(pose proof (o_buckets _ _ _ _ _ _ _ _ HO); lia)) as Ha.
  rewrite (count_value _ (gC g) (gS g)) in Hs; [| done | layout_consts; zdm | lia].
  unfold truthy in Hs. destruct (N - 1 - (gS g - gC g) =? 0) eqn:Ez; simpl in Hs; simplify_eq; zbool.
  - inv_split. apply InvA_goto; rewrite ?E; goto_side.
  - inv_split. destruct HA. split_ifs.
    + rewrite s16_small by lay. constructor; simpl; rewrite ?E in *; simpl in *; try done; try lia; eauto.
    + constructor; simpl; rewrite ?E in *; simpl in *; try done; try lia; eauto.
Qed.

(** No bucket is supplied more than [MAX_ROWS] rows. *)
Lemma row_bound tr S T P C A B base M a :
  InvO tr S T P C A B base -> InvA tr S T C A base M a -> sup_row a < MAX_ROWS.
Proof.
  intros HO HA. pose proof (o_order _ _ _ _ _ _ _ _ HO). pose proof (o_buckets _ _ _ _ _ _ _ _ HO).
  pose proof (a_pos _ _ _ _ _ _ _ _ HA). pose proof (a_range _ _ _ _ _ _ _ _ HA).
  unfold MAX_ROWS. destruct (decide (1 <= sup_row a)) as [Hr|]; [|lia].
  pose proof (a_below _ _ _ _ _ _ _ _ HA 0 ltac:(lay) Hr) as Hb.
  pose proof (slot_offset_bounds tr (base A) (sup_row a - 1) 0 (o_frames _ _ _ _ _ _ _ _ HO)
    ltac:(apply (base_nonneg _ _ _ _ _ _ _ _ HO); lia) ltac:(lia) ltac:(lia) ltac:(lay)) as Hs.
  lay.
Qed.

(** Past the first row both threads are in the same bucket. *)
Lemma same_bucket A B base M row s : InvX A B base M row s -> 1 <= row -> B = A.
Proof. intros [[? _]|(_ & ? & _)]; [done|lia]. Qed.

Lemma alloc_acc_preserves tr g s a p s' a' :
  Inv tr g (State s a p) -> alloc_step s a = Some (s', a') -> a_pc a = AAcc ->
  Inv tr g (State s' a' p).
Proof.
  intros [HO HR HM HA HX HP] Hs E. simpl in *. unfold alloc_step in Hs. rewrite E in Hs.
  pose proof (o_order _ _ _ _ _ _ _ _ HO) as Hord. pose proof (o_buckets _ _ _ _ _ _ _ _ HO) as Hbk.
  pose proof HA as []. rewrite E in *; simpl in *.
  specialize (a_loop0 eq_refl). destruct (a_body0 eq_refl) as [Hi Hrow].
  destruct (a_started0 eq_refl ltac:(done)) as (Hc30 & Hu16 & Hrxd).
  assert (1 <= sup_row a) as Hr by (assert (sup_row a <> 0) by (intros Hz%Hrow; done); lia).
  pose proof (same_bucket _ _ _ _ _ _ HX Hr) as HB.
  pose proof (a_todo0 (sup_partial a) ltac:(lia) Hr) as Hg.
  pose proof (a_below0 (sup_partial a) ltac:(lia) Hr) as Hlim.
  assert (0 <= gbase g (gA g)) as Hb0 by (apply (base_nonneg _ _ _ _ _ _ _ _ HO); lia).
  assert (len (binfo s (a_cur a)) (a_u16 a + sup_partial a) = glen tr (gS g - N)) as Hlen.
  { rewrite a_bucket0, <- (m_len _ _ _ _ _ _ _ HM (gA g) (gS g - N)); [f_equal; lia | | lay | lia].
    split; [lia|]. split; [lay|lia]. }
  pose proof (glen_frame tr (gS g - N) (o_frames _ _ _ _ _ _ _ _ HO) ltac:(lay)) as Hfr.
  pose proof (slot_offset_nonneg tr (gbase g (gA g)) (sup_row a - 1) (sup_partial a) ltac:(lia)) as Hnn.
  assert (slot_offset (blens tr (gbase g (gA g))) (sup_row a) (sup_partial a)
          = glength a (sup_partial a) + glen tr (gS g - N)) as Hoff.
  { replace (sup_row a) with (sup_row a - 1 + 1) at 1 by lia. rewrite slot_offset_succ, Hg by lia.
    f_equal. unfold blens. f_equal. lay. }
  rewrite Hlen, u32_small in Hs by lay. simplify_eq. inv_split.
  assert (forall q, q <> sup_partial a -> (<[sup_partial a := glength a (sup_partial a) + glen tr (gS g - N)]>
    (glength a)) q = glength a q) as Hne by (intros; by apply fn_lookup_insert_ne).
  split_ifs; constructor; simpl; try done; try (intros; lia); try (intros q Hq Hq'; rewrite Hne by lia; apply a_todo0; lia);
    try (intros q Hq; destruct (decide (q = sup_partial a)) as [->|]; [by rewrite fn_lookup_insert|rewrite Hne by done; apply a_done0; lia]).
  all: try (intros _; split; [lia|]; split; [lia|done]).
  all: try (intros _; right; lia).
  all: intros [?|?]; done.
Qed.

(** The value stored in [num_captured] and [max_row]. *)
Lemma mark_value row : 0 <= row < MAX_ROWS -> u32 (Z.shiftl (row + 1) RX_SLOT_BITS) = (row + 1) * N.
Proof.
  unfold MAX_ROWS. intros. rewrite Z.shiftl_mul_pow2 by (layout_consts; lia). layout_consts.
  by rewrite u32_small by lia.
Qed.

Definition mark (g : ghost) : ghost :=
  Ghost (gS g) (gT g) (gP g) (gC g) (gA g) (gB g) (gbase g) true.

Lemma body_row tr S T C A base M a :
  InvA tr S T C A base M a -> in_body (a_pc a) = true -> a_pc a <> AFirst -> 1 <= sup_row a.
Proof.
  intros HA Hb Hne. destruct (a_body _ _ _ _ _ _ _ _ HA Hb) as [_ Hrow].
  pose proof (a_range _ _ _ _ _ _ _ _ HA).
  assert (sup_row a <> 0) by (intros Hz%Hrow; done). lia.
Qed.

Lemma alloc_mark_preserves tr g s a p s' a' :
  Inv tr g (State s a p) -> alloc_step s a = Some (s', a') ->
  a_pc a = AMarkCaptured \/ a_pc a = AMarkMaxRow ->
  exists g', Inv tr g' (State s' a' p) /\ (g' = g \/ g' = mark g).
Proof.
  intros [HO HR HM HA HX HP] Hs [E|E]; simpl in *; unfold alloc_step in Hs; rewrite E in Hs; simplify_eq.
  - exists g. split; [|by left]. inv_split. apply InvA_goto; rewrite ?E; goto_side.
    destruct (a_body _ _ _ _ _ _ _ _ HA ltac:(by rewrite E)) as [? Hi]. rewrite E in Hi.
    split; [done|]. rewrite Hi. done.
  - exists (mark g). split; [|by right]. pose proof (body_row _ _ _ _ _ _ _ _ HA ltac:(by rewrite E) ltac:(by rewrite E)) as Hr.
    pose proof (row_bound _ _ _ _ _ _ _ _ _ _ HO HA) as Hrow.
    inv_split.
    + destruct (a_body _ _ _ _ _ _ _ _ HA ltac:(by rewrite E)) as [? Hi]. rewrite E in Hi.
      apply (InvA_goto _ _ _ _ _ _ _ a); rewrite ?E; goto_side.
      * destruct HA. rewrite E in *; constructor; rewrite ?E; done.
      * split; [done|]. rewrite Hi. done.
    + left. split; [by eapply same_bucket|]. simpl. apply mark_value. lia.
Qed.

(** Writing one descriptor: the next buffer of the bucket being supplied. *)
Lemma supply_one tr S T P C A B base s s' i :
  InvO tr S T P C A B base -> InvR tr S T P A base s -> InvM tr S P A B base s ->
  S + 1 <= C + N - 1 -> i = S mod N ->
  slot_offset (blens tr (base A)) ((S - base A) / N) (S mod N) <= BYTES_PER_SLOT - RX_BUF_SIZE ->
  ring s' = <[i := RxDesc (addr tr A (base A) S) 0]> (ring s) ->
  rx_tail s' = rx_tail s -> rx_head s' = rx_head s -> dram s' = dram s -> binfo s' = binfo s ->
  InvO tr (S + 1) T P C A B base /\ InvR tr (S + 1) T P A base s' /\ InvM tr (S + 1) P A B base s'.
Proof.
  intros HO HR HM HS -> Hroom Er Et Eh Ed Eb.
  pose proof (o_order _ _ _ _ _ _ _ _ HO) as Hord. pose proof (o_buckets _ _ _ _ _ _ _ _ HO) as Hbk.
  assert (inb A base A S) as HinS by (split; [lia|]; split; [lia|lia]).
  split_and!.
  - destruct HO. constructor; try done; lia.
  - destruct HR. constructor; rewrite ?Er, ?Et, ?Eh; try done; [| |lia].
    + intros k Hk. rewrite fn_lookup_insert_ne by (apply not_eq_sym, mod_neq; lay). by apply r_done0.
    + intros n k Hn Hk. destruct (decide (k = S)) as [->|].
      * rewrite fn_lookup_insert. by rewrite (inb_unique _ _ _ _ _ _ _ _ HO _ _ _ Hn HinS).
      * rewrite fn_lookup_insert_ne by (apply not_eq_sym, mod_neq; lay). apply r_ready0; [done|lia].
  - destruct HM. constructor; rewrite ?Ed, ?Eb; try done. intros n k Hn Hk.
    destruct (decide (k = S)) as [->|]; [|apply m_room0; [done|lia]].
    by rewrite (inb_unique _ _ _ _ _ _ _ _ HO _ _ _ Hn HinS).
Qed.

Definition supplied (g : ghost) : ghost :=
  Ghost (gS g + 1) (gT g) (gP g) (gC g) (gA g) (gB g) (gbase g) (gM g).

(** Row and slot of the next buffer. *)
Lemma supply_pos tr S T C A base M a :
  InvA tr S T C A base M a -> base A mod N = 0 -> sup_partial a < N ->
  S mod N = sup_partial a /\ (S - base A) / N = sup_row a.
Proof.
  intros [] Hal Hp. layout_consts. zdm.
Qed.

(** The address computed by the thread is the address of the packet. *)
Lemma desc_addr tr S T C A base M a o :
  InvA tr S T C A base M a -> base A mod N = 0 -> sup_partial a < N ->
  cur30 a = a_cur a * 2 ^ 30 -> 0 <= o <= BYTES_PER_SLOT - RX_BUF_SIZE ->
  o = slot_offset (blens tr (base A)) (sup_row a) (sup_partial a) ->
  Z.lor (cur30 a) (BYTES_PER_SLOT * sup_partial a + o) = addr tr A (base A) S.
Proof.
  intros HA Hal Hp Hc Ho ->. destruct (supply_pos _ _ _ _ _ _ _ _ HA Hal Hp) as [E1 E2].
  rewrite addr_eq by done. rewrite E1, E2, Hc, <- Z.shiftl_mul_pow2 by lia.
  pose proof (a_range _ _ _ _ _ _ _ _ HA).
  rewrite lor_shiftl_add by lay. rewrite (a_bucket _ _ _ _ _ _ _ _ HA). lia.
Qed.

Lemma InvA_advance tr S T C A base M a a' :
  InvA tr S T C A base M a -> in_body (a_pc a) = true ->
  (forall q, q <> sup_partial a -> glength a' q = glength a q) ->
  glength a' (sup_partial a) = slot_offset (blens tr (base A)) (sup_row a) (sup_partial a) ->
  (M = true \/ slot_offset (blens tr (base A)) (sup_row a) (sup_partial a) <= BYTE_LIMIT) ->
  a_rx_desc a' = a_rx_desc a -> a_u16 a' = a_u16 a -> a_cur a' = a_cur a -> cur30 a' = cur30 a ->
  sup_row a' = sup_row a -> sup_partial a' = sup_partial a -> a_count a' = a_count a ->
  a_i a' = a_i a ->
  InvA tr (S + 1) T C A base M (a_goto ALoop (a_advance a')).
Proof.
  intros [] Hb Hne Hsp Hlim E1 E2 E3 E4 E5 E6 E7 E8.
  assert (in_loop (a_pc a) = true /\ waiting (a_pc a) = false /\ a_pc a <> ADone) as (Hl & Hw & Hd)
    by (by destruct (a_pc a)).
  specialize (a_loop0 Hl). destruct (a_body0 Hb) as [Hi _]. specialize (a_started0 Hw Hd).
  assert (0 <= acc_done (a_pc a) <= 1) as Hacc by (destruct (a_pc a); simpl; lia).
  constructor; simpl; rewrite ?E1, ?E2, ?E3, ?E4, ?E5, ?E6, ?E7, ?E8, ?u16_small, ?s16_small by lay; try done.
  - lia.
  - lia.
  - intros q Hq. destruct (decide (q = sup_partial a)) as [->|]; [done|].
    rewrite Hne by done. apply a_done0. lia.
  - intros q Hq Hr. rewrite Hne by lia. apply a_todo0; lia.
  - intros q Hq HM. destruct (decide (q = sup_partial a)) as [->|]; [by destruct Hlim; congruence|].
    apply a_unmarked0; [lia|done].
  - intros _ _. lia.
  - intros [?|?]; done.
  - lia.
Qed.

Lemma supply_preserves tr g s a p a1 o :
  Inv tr g (State s a p) -> in_body (a_pc a) = true ->
  (forall q, q <> sup_partial a -> glength a1 q = glength a q) -> glength a1 (sup_partial a) = o ->
  o = slot_offset (blens tr (gbase g (gA g))) (sup_row a) (sup_partial a) ->
  0 <= o <= BYTES_PER_SLOT - RX_BUF_SIZE -> (gM g = true \/ o <= BYTE_LIMIT) ->
  a_rx_desc a1 = a_rx_desc a -> a_u16 a1 = a_u16 a -> a_cur a1 = a_cur a -> cur30 a1 = cur30 a ->
  sup_row a1 = sup_row a -> sup_partial a1 = sup_partial a -> a_count a1 = a_count a ->
  a_i a1 = a_i a ->
  Inv tr (supplied g)
    (State (a_write_desc (Z.lor (cur30 a) (BYTES_PER_SLOT * sup_partial a + o)) a s)
           (a_goto ALoop (a_advance a1)) p).
Proof.
  intros [HO HR HM HA HX HP] Hb Hne Hsp Ho Hor Hlim E1 E2 E3 E4 E5 E6 E7 E8. simpl in *.
  assert (in_loop (a_pc a) = true /\ waiting (a_pc a) = false /\ a_pc a <> ADone) as (Hl & Hw & Hd)
    by (by destruct (a_pc a)).
  pose proof (o_buckets _ _ _ _ _ _ _ _ HO) as Hbk.
  pose proof (o_align _ _ _ _ _ _ _ _ HO (gA g) ltac:(lia)) as Hal.
  destruct (a_body _ _ _ _ _ _ _ _ HA Hb) as [Hi _].
  pose proof (a_loop _ _ _ _ _ _ _ _ HA Hl) as Hlp.
  destruct (a_started _ _ _ _ _ _ _ _ HA Hw Hd) as (Hc30 & _ & Hrxd).
  destruct (supply_pos _ _ _ _ _ _ _ _ HA Hal ltac:(lia)) as [Epos Erow].
  destruct (supply_one tr _ _ _ _ _ _ _ s
    (a_write_desc (Z.lor (cur30 a) (BYTES_PER_SLOT * sup_partial a + o)) a s)
    (a_rx_desc a) HO HR HM) as (HO' & HR' & HM'); try done.
  - lia.
  - congruence.
  - rewrite Erow, Epos, <- Ho. lia.
  - simpl. do 2 f_equal. eapply desc_addr; (done || lia).
  - inv_split; [|by rewrite E5]. eapply InvA_advance; try done; congruence.
Qed.

Lemma alloc_desc_preserves tr g s a p s' a' :
  Inv tr g (State s a p) -> alloc_step s a = Some (s', a') -> a_pc a = ADesc \/ a_pc a = AFirst ->
  Inv tr (supplied g) (State s' a' p).
Proof.
  intros HI Hs E. pose proof HI as [HO _ HM HA HX _]. simpl in *. unfold alloc_step in Hs.
  pose proof (o_order _ _ _ _ _ _ _ _ HO) as Hord. pose proof (o_buckets _ _ _ _ _ _ _ _ HO) as Hbk.
  pose proof (a_range _ _ _ _ _ _ _ _ HA) as Hrg. pose proof (a_pos _ _ _ _ _ _ _ _ HA) as Hpos.
  destruct E as [E|E]; rewrite E in Hs; simplify_eq;
    pose proof (a_loop _ _ _ _ _ _ _ _ HA ltac:(by rewrite E)) as Hl;
    destruct (a_body _ _ _ _ _ _ _ _ HA ltac:(by rewrite E)) as [Hi Hrow]; rewrite E in Hrow.
  - pose proof (body_row _ _ _ _ _ _ _ _ HA ltac:(by rewrite E) ltac:(by rewrite E)) as Hr.
    pose proof (a_done _ _ _ _ _ _ _ _ HA (sup_partial a) ltac:(rewrite E; simpl; lia)) as Hg.
    pose proof (a_below _ _ _ _ _ _ _ _ HA (sup_partial a) ltac:(lia) Hr) as Hbl.
    pose proof (slot_offset_nonneg tr (gbase g (gA g)) (sup_row a - 1) (sup_partial a) ltac:(lia)).
    pose proof (base_nonneg _ _ _ _ _ _ _ _ HO (gA g) ltac:(lia)).
    assert (0 <= glength a (sup_partial a) <= BYTES_PER_SLOT - RX_BUF_SIZE) as Hb.
    { rewrite Hg. replace (sup_row a) with (sup_row a - 1 + 1) by lia. rewrite slot_offset_succ by lia.
      unfold blens at 2 4.
      pose proof (glen_frame tr (gbase g (gA g) + ((sup_row a - 1) * N + sup_partial a))
        (o_frames _ _ _ _ _ _ _ _ HO) ltac:(lay)). lay. }
    rewrite (u32_small (BYTES_PER_SLOT * _ + _)) by lay.
    apply (supply_preserves tr g s a p a); try done; [by rewrite E|].
    destruct (a_desc _ _ _ _ _ _ _ _ HA E) as [?|?]; [by left|right; congruence].
  - destruct Hrow as [_ Hr0]. specialize (Hr0 eq_refl).
    pose proof (supply_preserves tr g s a p (a_set_glength (sup_partial a) 0 a) 0 HI) as Hsup.
    rewrite Z.add_0_r in Hsup. apply Hsup; try done.
    + by rewrite E.
    + intros q Hq. by apply fn_lookup_insert_ne.
    + apply fn_lookup_insert.
    + by rewrite Hr0, slot_offset_0.
    + by right.
Qed.

(** *** End of a row *)
Definition opened (g : ghost) : ghost :=
  Ghost (gS g) (gT g) (gP g) (gC g) (gA g + 1) (gB g) (<[gA g + 1 := gS g]> (gbase g)) false.

Lemma inb_opened A base S n k :
  inb (A + 1) (<[A + 1 := S]> base) n k -> k < S ->
  inb A base n k /\ (<[A + 1 := S]> base) n = base n.
Proof.
  intros (Hn & Hb & He) Hk. destruct (decide (n = A + 1)) as [->|Hne].
  { rewrite fn_lookup_insert in Hb. lia. }
  rewrite fn_lookup_insert_ne in * by lia. split; [|done].
  split; [lia|]. split; [done|]. intros Hl. specialize (He ltac:(lia)).
  by rewrite fn_lookup_insert_ne in He by lia.
Qed.

Section OpenBucket.
Context (tr : list packet) (S T P C A B : Z) (base : Z -> Z) (s : shared).
Let base' : Z -> Z := <[A + 1 := S]> base.

Lemma InvO_open :
  InvO tr S T P C A B base -> B = A -> S mod N = 0 ->
  base A + N <= S <= base A + MAX_ROWS * N -> InvO tr S T P C (A + 1) B base'.
Proof.
  intros [] -> Hal Hb. constructor; try done; unfold base'.
  - by rewrite fn_lookup_insert_ne by lia.
  - intros n Hn. rewrite (fn_lookup_insert_ne _ _ n) by lia.
    destruct (decide (n = A)) as [->|]; [by rewrite fn_lookup_insert|].
    rewrite fn_lookup_insert_ne by lia. apply o_bases0. lia.
  - intros n Hn. destruct (decide (n = A + 1)) as [->|]; [by rewrite fn_lookup_insert|].
    rewrite fn_lookup_insert_ne by lia. apply o_align0. lia.
  - rewrite fn_lookup_insert, fn_lookup_insert_ne by lia. lia.
Qed.

Lemma InvR_open : InvR tr S T P A base s -> InvR tr S T P (A + 1) base' s.
Proof.
  unfold base'. intros []. constructor; try done. intros n k Hn Hk.
  destruct (inb_opened _ _ _ _ _ Hn ltac:(lia)) as [Hn' ->]. by apply r_ready0.
Qed.

Lemma InvM_open :
  InvM tr S P A B base s -> P <= S -> received tr <= S -> InvM tr S P (A + 1) B base' s.
Proof.
  unfold base'. intros [] HP Hrc. constructor.
  - intros n k Hn Hw Hk. destruct (inb_opened _ _ _ _ _ Hn ltac:(lia)) as [Hn' ->].
    apply m_len0; (done || lia).
  - intros n k i Hn Hw Hk Hi. destruct (inb_opened _ _ _ _ _ Hn ltac:(lia)) as [Hn' ->].
    apply m_data0; (done || lia).
  - intros n k Hn Hk. destruct (inb_opened _ _ _ _ _ Hn ltac:(lia)) as [Hn' ->]. by apply m_room0.
Qed.

Lemma InvP_open p :
  InvP tr P C A B base s p -> B = A -> P < S -> InvP tr P C (A + 1) B base' s p.
Proof.
  intros [] -> HP. unfold base' in *. constructor; rewrite ?fn_lookup_insert, ?(fn_lookup_insert_ne _ (A + 1) A) by lia; try done; try lia.
  - intros Hpc. specialize (p_active0 Hpc). lia.
  - intros Hpc. specialize (p_reset0 Hpc). lia.
Qed.
End OpenBucket.

(** At the end of the first row the recording thread has left the previous bucket. *)
Lemma row_end_bucket tr g s a p :
  Inv tr g (State s a p) -> a_pc a = ARowEnd -> sup_partial a = N -> gB g = gA g.
Proof.
  intros [HO _ _ HA HX HP] E Hp. simpl in *. destruct HX as [[? _]|(HAB & Hr & _ & _)]; [done|].
  pose proof (p_limit _ _ _ _ _ _ _ _ HP ltac:(lia)). pose proof (o_order _ _ _ _ _ _ _ _ HO).
  pose proof (a_pos _ _ _ _ _ _ _ _ HA). lia.
Qed.

Lemma alloc_row_end_preserves tr g s a p s' a' :
  Inv tr g (State s a p) -> alloc_step s a = Some (s', a') -> a_pc a = ARowEnd ->
  exists g', Inv tr g' (State s' a' p) /\ (g' = g \/ g' = opened g).
Proof.
  intros HI Hs E. pose proof HI as [HO HR HM HA HX HP]. simpl in *. unfold alloc_step in Hs.
  rewrite E in Hs. pose proof (o_order _ _ _ _ _ _ _ _ HO) as Hord.
  pose proof (a_row_end _ _ _ _ _ _ _ _ HA E) as [Hc HT].
  pose proof (a_range _ _ _ _ _ _ _ _ HA) as Hrg. pose proof (a_pos _ _ _ _ _ _ _ _ HA) as Hpos.
  pose proof (o_buckets _ _ _ _ _ _ _ _ HO) as Hbk.
  pose proof (o_align _ _ _ _ _ _ _ _ HO (gA g) ltac:(lia)) as Hal.
  destruct (sup_partial a =? N) eqn:Ep; simplify_eq; zbool.
  2:{ exists g. split; [|by left]. inv_split. apply InvA_goto; rewrite ?E; goto_side. lia. }
  pose proof (row_end_bucket _ _ _ _ _ HI E Ep) as HB.
  pose proof (row_bound _ _ _ _ _ _ _ _ _ _ HO HA) as Hrow. unfold MAX_ROWS in Hrow.
  destruct (a_started _ _ _ _ _ _ _ _ HA ltac:(by rewrite E) ltac:(by rewrite E)) as (Hc30 & Hu16 & Hrxd).
  assert (max_row s' = if gM g then (sup_row a + 1) * N else 0) as HXm
    by (destruct HX as [[_ ?]|?]; [done|lia]).
  unfold truthy. rewrite HXm. destruct (gM g) eqn:EM.
  - exists (opened g). split; [|by right]. rewrite (proj2 (Z.eqb_neq _ _)) by lay. simpl. inv_split.
    + apply InvO_open; [done|done|layout_consts; zdm|unfold MAX_ROWS; lay].
    + by apply InvR_open.
    + apply InvM_open; [done|lia|lia].
    + pose proof (bi_range (gA g + 1)). rewrite (a_bucket _ _ _ _ _ _ _ _ HA), bi_next by lia.
      constructor; simpl; rewrite ?fn_lookup_insert; intros; destruct_or?; try done; try lay.
      rewrite Z.shiftl_mul_pow2, u64_small by lay. lay.
    + right. rewrite fn_lookup_insert, fn_lookup_insert_ne, HXm, HB by lia. split_and!; (done || lay).
    + apply InvP_open; [done|done|lia].
  - exists g. split; [|by left]. simpl. inv_split.
    + destruct HA. rewrite EM in *. constructor; simpl; rewrite ?u16_small by lay; intros; destruct_or?; try done; try lay.
      * rewrite E in *. simpl in *. replace (sup_row a + 1 - 1) with (sup_row a) by lia. apply a_done0. lia.
      * replace (sup_row a + 1 - 1) with (sup_row a) by lia. apply a_unmarked0; [lia|done].
    + left. rewrite EM. split; [done|]. rewrite HXm. done.
Qed.

Definition published (g : ghost) : ghost :=
  Ghost (gS g) (gS g) (gP g) (gC g) (gA g) (gB g) (gbase g) (gM g).

Lemma alloc_tail_preserves tr g s a p s' a' :
  Inv tr g (State s a p) -> alloc_step s a = Some (s', a') -> a_pc a = ATail ->
  Inv tr (published g) (State s' a' p).
Proof.
  intros [HO HR HM HA HX HP] Hs E. simpl in *. unfold alloc_step in Hs. rewrite E in Hs. simplify_eq.
  destruct (a_tail _ _ _ _ _ _ _ _ HA E) as [HT Hp].
  pose proof (o_order _ _ _ _ _ _ _ _ HO) as Hord. pose proof (o_buckets _ _ _ _ _ _ _ _ HO) as Hbk.
  pose proof (o_align _ _ _ _ _ _ _ _ HO (gA g) ltac:(lia)) as Hal.
  inv_split.
  - destruct HO. constructor; try done; lia.
  - destruct (supply_pos _ _ _ _ _ _ _ _ HA Hal Hp) as [Epos _].
    destruct HR. constructor; simpl; done.
  - destruct HA. rewrite E in *. constructor; simpl; intros; try done; eauto.
Qed.

(** Every step of the supply thread keeps the invariant; only the descriptor writes
    supply a buffer. *)
Definition supplies (pc : alloc_pc) : Z := match pc with ADesc | AFirst => 1 | _ => 0 end.
Definition supply_effect (pc : alloc_pc) (g g' : ghost) : Prop :=
  gC g' = gC g /\ gP g' = gP g /\ gS g' = gS g + supplies pc.

Lemma alloc_preserves tr g s a p s' a' :
  Inv tr g (State s a p) -> alloc_step s a = Some (s', a') ->
  exists g', Inv tr g' (State s' a' p) /\ supply_effect (a_pc a) g g'.
Proof.
  intros HI Hs. unfold supply_effect. destruct (a_pc a) eqn:E; simpl; rewrite ?Z.add_0_r.
  all: try (exists g; split_and!; [by eapply alloc_test_preserves; eauto 6|done..]).
  all: try (exists g; split_and!; [by eapply alloc_start_preserves|done..]).
  all: try (exists g; split_and!; [by eapply alloc_count_preserves|done..]).
  all: try (exists g; split_and!; [by eapply alloc_acc_preserves|done..]).
  all: try (eexists; split_and!; [by eapply alloc_desc_preserves; eauto|done..]).
  - destruct (alloc_mark_preserves _ _ _ _ _ _ _ HI Hs (or_introl E)) as (g' & ? & [-> | ->]); eauto.
  - destruct (alloc_mark_preserves _ _ _ _ _ _ _ HI Hs (or_intror E)) as (g' & ? & [-> | ->]); eauto.
  - destruct (alloc_row_end_preserves _ _ _ _ _ _ _ HI Hs E) as (g' & ? & [-> | ->]); eauto.
  - eexists. split_and!; [by eapply alloc_tail_preserves|done..].
  - unfold alloc_step in Hs. by rewrite E in Hs.
Qed.

(** ** The recording thread *)
Ltac solve_pc :=
  constructor; simpl; intros; destruct_or?; try done; try congruence; eauto.

Lemma InvP_goto tr P C A B base s p pc :
  InvP tr P C A B base s p ->
  ((pc = PWaitRing \/ pc = PWaitStart \/ pc = PWaitStop \/ pc = PStart) -> P = 0) ->
  ((pc = POuter \/ pc = PTest \/ pc = PStore) ->
    P < C + 256 /\ p_rx_desc p = P mod N /\ (B < A -> P < base A)) ->
  (pc = PStore -> P < received tr) -> pc <> PClean -> pc <> PMaxRow ->
  (pc = PReset -> P = C /\ A = B + 1 /\ P = base A /\ p_rx_desc p = 0) ->
  InvP tr P C A B base s (p_goto pc p).
Proof. intros []. constructor; simpl; eauto; congruence. Qed.

(** A set [DD] bit means that a packet has been received and not yet recorded. *)
Lemma dd_received tr g s a p :
  Inv tr g (State s a p) ->
  ixgbe_test_staterr (ring s (gP g mod N)) IXGBE_RXD_STAT_DD <> 0 -> gP g < received tr.
Proof.
  intros [HO HR _ _ _ _] Hdd. simpl in *. pose proof (o_order _ _ _ _ _ _ _ _ HO).
  destruct (decide (gP g < received tr)) as [|Hn]; [done|]. exfalso. apply Hdd.
  assert (gP g = received tr) as HP by lia.
  destruct (decide (gP g < gS g)).
  - destruct (inb_next _ _ _ _ _ _ _ _ (gP g) HO ltac:(lia)) as (n & Hn' & _).
    by rewrite (r_ready _ _ _ _ _ _ _ HR n (gP g) Hn') by lia.
  - destruct (o_fed _ _ _ _ _ _ _ _ HO); [lia|]. replace (gP g) with 0 by lia.
    rewrite Z.mod_0_l by lay. by rewrite (r_start _ _ _ _ _ _ _ HR) by lia.
Qed.

Lemma proc_test_preserves tr g s a p s' p' :
  Inv tr g (State s a p) -> proc_step s p = Some (s', p') ->
  p_pc p = PWaitRing \/ p_pc p = PWaitStart \/ p_pc p = PWaitStop \/ p_pc p = PStart \/
  p_pc p = POuter \/ p_pc p = PTest \/ p_pc p = PFinCaptured \/ p_pc p = PFinLast ->
  Inv tr g (State s' a p').
Proof.
  intros HI Hs Hpc. pose proof HI as [HO HR HM HA HX HP]. simpl in *. unfold proc_step in Hs.
  pose proof (o_order _ _ _ _ _ _ _ _ HO) as Hord. pose proof (o_buckets _ _ _ _ _ _ _ _ HO) as Hbk.
  destruct Hpc as [E|[E|[E|[E|[E|[E|[E|E]]]]]]]; rewrite E in Hs; simplify_eq.
  1-3: pose proof (p_wait _ _ _ _ _ _ _ _ HP ltac:(rewrite E; auto)) as HP0; inv_split; try case_match;
    try done; apply InvP_goto; intros; destruct_or?; done.
  - pose proof (p_wait _ _ _ _ _ _ _ _ HP ltac:(rewrite E; auto)) as HP0. inv_split.
    destruct HP. constructor; simpl; intros; destruct_or?; try done; [by apply p_limit0|].
    split_and!; [lia| rewrite HP0; by rewrite Z.mod_0_l by lay |].
    intros HBA. pose proof (base_mono _ _ _ _ _ _ _ _ HO 0 (gA g) ltac:(lia) ltac:(lia)) as Hm.
    rewrite (o_base0 _ _ _ _ _ _ _ _ HO) in Hm. lay.
  - pose proof (p_active _ _ _ _ _ _ _ _ HP ltac:(rewrite E; auto)) as Hact. inv_split.
    case_match; apply InvP_goto; intros; destruct_or?; done.
  - pose proof (p_active _ _ _ _ _ _ _ _ HP ltac:(rewrite E; auto)) as Hact. inv_split.
    unfold truthy. case_match; zbool; apply InvP_goto; intros; destruct_or?; try done.
    eapply dd_received; [done|]. by destruct Hact as (_ & <- & _).
  - inv_split. apply (InvP_frame _ _ _ _ _ _ s); [done|]. apply InvP_goto; intros; destruct_or?; done.
  - inv_split. apply (InvP_frame _ _ _ _ _ _ s); [done|]. apply InvP_goto; intros; destruct_or?; done.
Qed.

(** The number of packets in the current bucket stays far below the width of [cur_partial]. *)
Lemma cur_partial_bound tr g s a p :
  Inv tr g (State s a p) -> 0 <= cur_partial p <= MAX_ROWS * N.
Proof.
  intros [HO _ _ HA _ HP]. simpl in *. pose proof (o_order _ _ _ _ _ _ _ _ HO).
  pose proof (o_buckets _ _ _ _ _ _ _ _ HO) as Hbk. pose proof (p_pos _ _ _ _ _ _ _ _ HP).
  pose proof (row_bound _ _ _ _ _ _ _ _ _ _ HO HA) as Hrow. unfold MAX_ROWS in *.
  pose proof (a_pos _ _ _ _ _ _ _ _ HA). pose proof (a_range _ _ _ _ _ _ _ _ HA).
  destruct (decide (gB g = gA g)) as [HBA|HBA]; [rewrite HBA in *; lay|].
  assert (gA g = gB g + 1) as HA1 by lia.
  pose proof (o_bases _ _ _ _ _ _ _ _ HO (gB g) ltac:(lia)) as Hb. rewrite <- HA1 in Hb.
  pose proof (p_limit _ _ _ _ _ _ _ _ HP ltac:(lia)). unfold MAX_ROWS in *. lay.
Qed.

Definition stored (g : ghost) : ghost :=
  Ghost (gS g) (gT g) (gP g + 1) (gC g) (gA g) (gB g) (gbase g) (gM g).

Lemma InvM_store tr S T P C A B base s p v :
  InvO tr S T P C A B base -> InvM tr S P A B base s -> InvP tr P C A B base s p ->
  v = glen tr P -> (B < A -> P < base A) ->
  InvM tr S (P + 1) A B base (upd_binfo (p_cur p) (set_len (cur_partial p) v) s).
Proof.
  intros HO [] HP -> Hlim. pose proof (o_buckets _ _ _ _ _ _ _ _ HO) as Hbk.
  constructor; [|done|done]. intros n k Hn Hw Hk. simpl. rewrite (p_bucket _ _ _ _ _ _ _ _ HP).
  pose proof (p_pos _ _ _ _ _ _ _ _ HP) as Hpos.
  rewrite fn_insert_dec. case_decide as Eb; [|].
  - assert (n = B) as ->.
    { destruct (decide (n = B)); [done|]. exfalso.
      apply (bi_inj n B); [destruct Hn; lia | lia | done | lay | done]. }
    simpl. rewrite fn_insert_dec. case_decide as Ek.
    + f_equal. lia.
    + apply m_len0; [done|lia|]. lia.
  - assert (n <> B) by (intros ->; done). apply m_len0; [done|lia|].
    destruct Hn as (Hn1 & Hn2 & Hn3). specialize (Hn3 ltac:(lia)).
    pose proof (base_mono _ _ _ _ _ _ _ _ HO (n + 1) B ltac:(lia) ltac:(lia)). lay.
Qed.

Lemma land_ff x : Z.land x 0xff = x mod 256.
Proof. exact (land_ones_mod x 8 ltac:(lia)). Qed.

Lemma land_mask x : Z.land x RX_SLOT_MASK = x mod N.
Proof. exact (land_ones_mod x 12 ltac:(lia)). Qed.

Lemma proc_store_preserves tr g s a p s' p' :
  Inv tr g (State s a p) -> proc_step s p = Some (s', p') -> p_pc p = PStore ->
  Inv tr (stored g) (State s' a p').
Proof.
  intros HI Hs E. pose proof HI as [HO HR HM HA HX HP]. simpl in *. unfold proc_step in Hs.
  rewrite E in Hs. pose proof (cur_partial_bound _ _ _ _ _ HI) as Hcp.
  pose proof (o_order _ _ _ _ _ _ _ _ HO) as Hord. pose proof (o_buckets _ _ _ _ _ _ _ _ HO) as Hbk.
  destruct (p_active _ _ _ _ _ _ _ _ HP ltac:(rewrite E; auto)) as (HC & Hrx & Hlim).
  pose proof (p_store _ _ _ _ _ _ _ _ HP E) as Hrc. pose proof (p_pos _ _ _ _ _ _ _ _ HP) as Hpos.
  destruct (p_clean _ _ _ _ _ _ _ _ HP) as (_ & _ & HC256).
  pose proof (o_align _ _ _ _ _ _ _ _ HO (gB g) ltac:(lia)) as HalB.
  pose proof (o_align _ _ _ _ _ _ _ _ HO (gA g) ltac:(lia)) as HalA.
  unfold MAX_ROWS in Hcp. rewrite u32_small in Hs by lay. rewrite land_ff in Hs. simplify_eq.
  inv_split.
  - destruct HO. constructor; try done; lia.
  - destruct HR. constructor; simpl; try done. intros k Hk. apply r_done0. lia.
  - eapply InvM_store; try done. rewrite Hrx. apply (r_done _ _ _ _ _ _ _ HR). lia.
  - destruct HP. split_ifs; constructor; simpl; intros; destruct_or?; try done; try lia.
    + split_and!; [layout_consts; zdm| |lia]. rewrite Hrx. by replace (gP g + 1 - 1) with (gP g) by lia.
    + split_and!; [layout_consts; zdm | rewrite Hrx; layout_consts; zdm | layout_consts; zdm].
Qed.

Definition cleaned (g : ghost) : ghost :=
  Ghost (gS g) (gT g) (gP g) (gP g) (gA g) (gB g) (gbase g) (gM g).

Lemma InvA_cleaned tr S T C C' A base M a :
  InvA tr S T C A base M a -> C <= C' -> InvA tr S T C' A base M a.
Proof.
  intros [] HC. constructor; try done. intros Hl. specialize (a_loop0 Hl). lia.
Qed.

Lemma proc_clean_preserves tr g s a p s' p' :
  Inv tr g (State s a p) -> proc_step s p = Some (s', p') -> p_pc p = PClean ->
  Inv tr (cleaned g) (State s' a p').
Proof.
  intros HI Hs E. pose proof HI as [HO HR HM HA HX HP]. simpl in *. unfold proc_step in Hs.
  rewrite E in Hs. pose proof (o_order _ _ _ _ _ _ _ _ HO) as Hord.
  pose proof (o_buckets _ _ _ _ _ _ _ _ HO) as Hbk.
  destruct (p_cleaning _ _ _ _ _ _ _ _ HP E) as (HC & Hrx & HBP).
  pose proof (p_pos _ _ _ _ _ _ _ _ HP) as Hpos. pose proof (p_limit _ _ _ _ _ _ _ _ HP) as Hlim.
  destruct (p_clean _ _ _ _ _ _ _ _ HP) as (_ & _ & HC256).
  pose proof (o_align _ _ _ _ _ _ _ _ HO (gB g) ltac:(lia)) as HalB.
  pose proof (o_align _ _ _ _ _ _ _ _ HO (gA g) ltac:(lia)) as HalA.
  assert (u16 (cur_partial p) mod N = gP g mod N /\ 0 <= u16 (cur_partial p) < 2 ^ 16 /\ gP g mod 256 = 0)
    as Hntc.
  { split_and!; try apply u16_range; [|zdm]. unfold u16. layout_consts.
    rewrite mod_mod_divide by (lia || by exists 16). zdm. }
  assert (gP g mod N = cur_partial p mod N) as HPN by (layout_consts; zdm).
  rewrite land_mask in Hs. destruct (cur_partial p mod N =? 0) eqn:Em; simplify_eq; zbool.
  all: inv_split; try (destruct HO; constructor; try done; lia); try (eapply InvA_cleaned; [done|lia]).
  all: destruct HP; constructor; simpl; intros; destruct_or?; try done; eauto; try lia.
  - split_and!; try lia. rewrite Hrx. layout_consts. zdm.
  - split_and!; [lia | rewrite Hrx; layout_consts; zdm |].
    intros HBA. specialize (Hlim HBA). assert (gP g <> gbase g (gA g)) by (intros Hq; rewrite Hq in *; lia). lia.
Qed.

Lemma proc_max_preserves tr g s a p s' p' :
  Inv tr g (State s a p) -> proc_step s p = Some (s', p') -> p_pc p = PMaxRow ->
  Inv tr g (State s' a p').
Proof.
  intros HI Hs E. pose proof HI as [HO HR HM HA HX HP]. simpl in *. unfold proc_step in Hs.
  rewrite E in Hs. simplify_eq. pose proof (o_order _ _ _ _ _ _ _ _ HO) as Hord.
  pose proof (o_buckets _ _ _ _ _ _ _ _ HO) as Hbk. pose proof (o_fed _ _ _ _ _ _ _ _ HO) as Hfed.
  destruct (p_max _ _ _ _ _ _ _ _ HP E) as (HC & HPN & HBP & Hrx).
  pose proof (p_pos _ _ _ _ _ _ _ _ HP) as Hpos. pose proof (p_limit _ _ _ _ _ _ _ _ HP) as Hlim.
  pose proof (a_pos _ _ _ _ _ _ _ _ HA) as Hapos. pose proof (a_range _ _ _ _ _ _ _ _ HA) as Hrg.
  pose proof (base_nonneg _ _ _ _ _ _ _ _ HO (gB g) ltac:(lia)) as HB0.
  inv_split. destruct (max_row s' =? cur_partial p) eqn:Em; zbool;
    apply InvP_goto; try (intros; done); intros Hpc; try (clear Hfed HX; destruct_or?; done).
  - destruct HX as [[HBA Hmr]|(HAB & _ & _ & Hmr)]; [exfalso|split_and!; lia].
    rewrite HBA in *. destruct (gM g); [|lia]. lay.
  - split_and!; [lia | congruence |]. intros HBA. specialize (Hlim HBA).
    destruct HX as [[? _]|(_ & _ & _ & Hmr)]; lia.
Qed.

Definition entered (g : ghost) : ghost :=
  Ghost (gS g) (gT g) (gP g) (gC g) (gA g) (gA g) (gbase g) (gM g).

Lemma proc_reset_preserves tr g s a p s' p' :
  Inv tr g (State s a p) -> proc_step s p = Some (s', p') -> p_pc p = PReset ->
  Inv tr (entered g) (State s' a p').
Proof.
  intros HI Hs E. pose proof HI as [HO HR HM HA HX HP]. simpl in *. unfold proc_step in Hs.
  rewrite E in Hs. simplify_eq. pose proof (o_order _ _ _ _ _ _ _ _ HO) as Hord.
  pose proof (o_buckets _ _ _ _ _ _ _ _ HO) as Hbk.
  pose proof (o_align _ _ _ _ _ _ _ _ HO (gA g) ltac:(lia)) as HalA.
  destruct (p_reset _ _ _ _ _ _ _ _ HP E) as (HC & HAB & HPA & Hrx).
  inv_split.
  - destruct HO. constructor; try done; lia.
  - destruct HM. constructor; simpl; try done. intros n k Hn Hw Hk.
    destruct (decide (n = gA g)) as [->|]; [destruct Hn; lia|]. apply m_len0; [done|lia|done].
  - left. split; [done|]. simpl. destruct HX as [[? _]|(_ & _ & -> & _)]; [lia|done].
  - destruct HP. constructor; simpl; intros; destruct_or?; try done; try lia.
    + rewrite p_bucket0, bi_next by lia. by rewrite HAB.
    + rewrite Hrx, HPA, HalA. split_and!; lia.
Qed.

(** Every step of the recording thread keeps the invariant; only the length stores
    record a packet. *)
Definition records (pc : proc_pc) : Z := match pc with PStore => 1 | _ => 0 end.

Lemma proc_preserves tr g s a p s' p' :
  Inv tr g (State s a p) -> proc_step s p = Some (s', p') ->
  exists g', Inv tr g' (State s' a p') /\ gP g' = gP g + records (p_pc p).
Proof.
  intros HI Hs. destruct (p_pc p) eqn:E; simpl; rewrite ?Z.add_0_r.
  all: try (exists g; split; [by eapply proc_test_preserves; eauto 9|done]).
  all: try (eexists; split; [by eapply proc_store_preserves|done]).
  all: try (eexists; split; [by eapply proc_clean_preserves|done]).
  all: try (exists g; split; [by eapply proc_max_preserves|done]).
  all: try (eexists; split; [by eapply proc_reset_preserves|done]).
  unfold proc_step in Hs. by rewrite E in Hs.
Qed.

(** ** Reachable states *)
Definition ghost_init : ghost := Ghost 0 0 0 0 0 0 (fun _ => 0) false.

Lemma init_invariant s : shared_init s -> Inv [] ghost_init (State s alloc_init proc_init).
Proof.
  intros (H1 & H2 & H3 & H4 & H5 & H6 & H7 & H8). constructor; simpl.
  - constructor; simpl; try done; intros; try lay.
  - constructor; simpl; try done; intros; try lia.
  - constructor; simpl; intros n k; intros; unfold inb in *; simpl in *; lia.
  - constructor; simpl; try done; intros; destruct_or?; try done; lay.
  - left. by rewrite H6.
  - constructor; simpl; try done; intros; destruct_or?; try done. rewrite H5. done.
Qed.

Section Reachable.
Context (rx : shared -> packet -> shared -> Prop) `{HN : !Nic rx}.

Lemma step_preserves tr g st l st' :
  Inv tr g st -> step rx st l st' -> (match l with LNic _ => fed (sh st) | _ => True end) ->
  exists g', Inv (match l with LNic q => tr ++ [q] | _ => tr end) g' st'.
Proof.
  intros HI Hs Hg. destruct Hs; simpl in *.
  - destruct (alloc_preserves _ _ _ _ _ _ _ HI H) as (g' & ? & _). by exists g'.
  - destruct (proc_preserves _ _ _ _ _ _ _ HI H) as (g' & ? & _). by exists g'.
  - exists g. by eapply nic_preserves.
  - exists g. by eapply user_preserves.
  - exists g. by apply open_preserves.
Qed.

(** The invariant holds throughout every run in which the receive ring stays fed. *)
Lemma run_invariant tr st : run rx fed tr st -> exists g, Inv tr g st.
Proof.
  induction 1 as [s Hs|tr st l st' _ [g HI] Hs Hg].
  - exists ghost_init. by apply init_invariant.
  - by eapply step_preserves.
Qed.
End Reachable.
