(* ===== verification/CaptureSpec.v ===== *)
(** * What the capture threads guarantee

    The properties of [nlsim_pbm.c] that the rest of the system relies on, derived from
    the invariant of [CaptureInv]: received packets are recorded exactly once and in
    order, packet data stays inside its slot, descriptors in use are never rewritten, and
    the length table stays inside the part of the bucket that the writers copy. *)
From S2P Require Import Prelude Layout Capture CaptureInv.

(** Packet data of the memory bucket [n]. *)
Definition bucket_data (s : shared) (n : Z) : Z -> Z := fun o => dram s (n * 2 ^ 30 + o).

(** Bucket [n] of the reserved memory holds the packets [pkts]. *)
Definition bucket_holds (s : shared) (n : Z) (pkts : list packet) : Prop :=
  holds (bucket_data s n) (len (binfo s n)) pkts.

(** Abstract view of a recorder: the full buckets in order, the packets recorded in the
    bucket being filled, and the packets received but not yet recorded. *)
Record log := Log { log_full : list (list packet); log_cur : list packet; log_pending : list packet }.
Definition log_packets (l : log) : list packet := concat (log_full l) ++ log_cur l ++ log_pending l.

(** [recorded st l]: the reserved memory and the recording thread of [st] implement [l].
    Buckets are reused in a circle, so only the last [NUM_BUCKETS - 2] full buckets are
    still in memory. *)
Record recorded (st : state) (l : log) : Prop := {
  rec_pos : cur_partial (pr st) = Z.of_nat (length (log_cur l)) /\
            p_cur (pr st) = bi (Z.of_nat (length (log_full l)));
  rec_cur : bucket_holds (sh st) (p_cur (pr st)) (log_cur l);
  rec_full : forall n c, log_full l !! n = Some c ->
    Z.of_nat (length (log_full l)) - (NUM_BUCKETS - 2) <= Z.of_nat n ->
    bucket_holds (sh st) (bi (Z.of_nat n)) c;
  rec_rows : Forall (fun c : list packet => 0 < Z.of_nat (length c) <= MAX_ROWS * NUM_RX_SLOTS /\
                      Z.of_nat (length c) mod NUM_RX_SLOTS = 0) (log_full l);
  rec_cur_rows : Z.of_nat (length (log_cur l)) <= MAX_ROWS * NUM_RX_SLOTS;
  rec_pending : Z.of_nat (length (log_pending l)) < NUM_RX_SLOTS
}.

(** ** Lists cut at the bucket boundaries *)
Definition cut (tr : list packet) (b e : Z) : list packet :=
  take (Z.to_nat (e - b)) (drop (Z.to_nat b) tr).

Lemma cut_length tr b e :
  0 <= b <= e -> e <= received tr -> Z.of_nat (length (cut tr b e)) = e - b.
Proof. intros. unfold cut. rewrite length_take, length_drop. lia. Qed.

Lemma cut_lookup tr b e j p :
  0 <= b -> cut tr b e !! j = Some p ->
  Z.of_nat j < e - b /\ b + Z.of_nat j < received tr /\ p = pk tr (b + Z.of_nat j).
Proof.
  intros Hb H. unfold cut in H. pose proof (lookup_lt_Some _ _ _ H) as Hl.
  rewrite length_take, length_drop in Hl. rewrite lookup_take_lt, lookup_drop in H by lia.
  split; [lia|]. split; [lia|]. unfold pk. apply nth_lookup_Some with (d := []) in H.
  rewrite <- H. f_equal. lia.
Qed.

Lemma take_cut tr b e : 0 <= b <= e -> take (Z.to_nat b) tr ++ cut tr b e = take (Z.to_nat e) tr.
Proof.
  intros. unfold cut. rewrite take_take_drop. f_equal. lia.
Qed.

(** The buckets before the [n]-th hold the first [base n] packets. *)
Definition cuts (tr : list packet) (base : Z -> Z) (n : nat) : list (list packet) :=
  map (fun i => cut tr (base (Z.of_nat i)) (base (Z.of_nat i + 1))) (seq 0 n).

Lemma concat_cuts tr S T P C A B base n :
  InvO tr S T P C A B base -> Z.of_nat n <= A ->
  concat (cuts tr base n) = take (Z.to_nat (base (Z.of_nat n))) tr.
Proof.
  intros HO. induction n as [|n IH]; intros Hn.
  - change (Z.of_nat 0) with 0. by rewrite (o_base0 _ _ _ _ _ _ _ _ HO).
  - unfold cuts in *. rewrite seq_S, map_app, concat_app, IH by lia. simpl. rewrite app_nil_r.
    replace (Z.of_nat (Datatypes.S n)) with (Z.of_nat n + 1) by lia. apply take_cut.
    pose proof (base_nonneg _ _ _ _ _ _ _ _ HO (Z.of_nat n) ltac:(lia)).
    pose proof (o_bases _ _ _ _ _ _ _ _ HO (Z.of_nat n) ltac:(lia)). lay.
Qed.

(** Between its boundaries, a live bucket holds the packets of the trace. *)
Lemma cut_holds tr S T P C A B base s n e :
  InvO tr S T P C A B base -> InvM tr S P A B base s ->
  0 <= n <= B -> A - NUM_BUCKETS < n -> e <= P -> (n < A -> e <= base (n + 1)) ->
  bucket_holds s (bi n) (cut tr (base n) e).
Proof.
  intros HO HM Hn Hw He Hlim j p Hj. pose proof (o_order _ _ _ _ _ _ _ _ HO) as Hord.
  pose proof (o_buckets _ _ _ _ _ _ _ _ HO) as Hbk.
  pose proof (base_nonneg _ _ _ _ _ _ _ _ HO n ltac:(lia)) as Hb0.
  pose proof (o_align _ _ _ _ _ _ _ _ HO n ltac:(lia)) as Hal.
  destruct (cut_lookup _ _ _ _ _ Hb0 Hj) as (Hje & Hjr & ->). clear Hj.
  assert (forall k, 0 <= k <= Z.of_nat j -> inb A base n (base n + k)) as Hin.
  { intros k Hk. split; [lia|]. split; [lia|]. intros Hl. specialize (Hlim Hl). lia. }
  assert (forall k, 0 <= k <= Z.of_nat j -> len (binfo s (bi n)) k = blens tr (base n) k) as Hlen.
  { intros k Hk. unfold blens. rewrite <- (m_len _ _ _ _ _ _ _ HM n _ (Hin k Hk)) by lia. f_equal. lia. }
  assert (forall k, (k = Z.of_nat j / NUM_RX_SLOTS) ->
    slot_offset (len (binfo s (bi n))) k (Z.of_nat j mod NUM_RX_SLOTS)
    = slot_offset (blens tr (base n)) k (Z.of_nat j mod NUM_RX_SLOTS)) as Hoff.
  { intros k ->. apply zsum_ext. intros r Hr. apply Hlen. layout_consts. zdm. }
  split; [by apply Hlen; lia|]. split.
  { pose proof (glen_frame tr (base n + Z.of_nat j) (o_frames _ _ _ _ _ _ _ _ HO) ltac:(lia)) as Hg.
    unfold glen in Hg. lay. }
  split.
  { rewrite Hoff by done. pose proof (m_room _ _ _ _ _ _ _ HM n _ (Hin (Z.of_nat j) ltac:(lia)) ltac:(lia)) as Hr.
    replace (base n + Z.of_nat j - base n) with (Z.of_nat j) in Hr by lia.
    replace ((base n + Z.of_nat j) mod NUM_RX_SLOTS) with (Z.of_nat j mod NUM_RX_SLOTS) in Hr
      by (clear - Hal; generalize dependent (base n); intros; layout_consts; zdm). done. }
  intros i b Hi.
  rewrite <- (nth_lookup_Some _ _ 0 _ Hi), <- (Nat2Z.id i), <- (m_data _ _ _ _ _ _ _ HM n _ _ (Hin (Z.of_nat j) ltac:(lia)));
    try done; [| apply lookup_lt_Some in Hi; unfold glen, plen; lia].
  unfold bucket_data. f_equal. unfold addr. rewrite <- Z.add_assoc. do 2 f_equal; [|lia].
  replace (base n + Z.of_nat j - base n) with (Z.of_nat j) by lia. unfold packet_offset. f_equal.
  by apply Hoff.
Qed.

(** A state that satisfies the invariant implements the log of the packets received so far,
    those from number [gP g] on being pending. *)
Lemma inv_recorded tr g st :
  Inv tr g st ->
  exists l, log_packets l = tr /\ log_pending l = drop (Z.to_nat (gP g)) tr /\ recorded st l.
Proof.
  intros HI. destruct st as [s a p].
  pose proof (cur_partial_bound _ _ _ _ _ HI) as Hcb. destruct HI as [HO _ HM HA HX HP]. simpl in *.
  pose proof (o_order _ _ _ _ _ _ _ _ HO) as Hord. pose proof (o_buckets _ _ _ _ _ _ _ _ HO) as Hbk.
  pose proof (base_nonneg _ _ _ _ _ _ _ _ HO (gB g) ltac:(lia)) as HB0.
  pose proof (p_pos _ _ _ _ _ _ _ _ HP) as Hpos. pose proof (p_bucket _ _ _ _ _ _ _ _ HP) as Hcur.
  set (full := cuts tr (gbase g) (Z.to_nat (gB g))).
  assert (length full = Z.to_nat (gB g)) as Hfl by (unfold full, cuts; by rewrite length_map, length_seq).
  exists (Log full (cut tr (gbase g (gB g)) (gP g)) (drop (Z.to_nat (gP g)) tr)). split; [|split; [done|]].
  { unfold log_packets, full. simpl.
    rewrite (concat_cuts _ _ _ _ _ _ _ _ _ HO), Z2Nat.id, app_assoc, take_cut, take_drop by lia. done. }
  constructor; simpl; rewrite ?Hfl, ?Z2Nat.id by lia.
  - rewrite cut_length by lia. split; [lia|done].
  - rewrite Hcur. eapply cut_holds; try done; try lay. intros HBA.
    replace (gB g + 1) with (gA g) by lia. by apply (p_limit _ _ _ _ _ _ _ _ HP).
  - intros n c Hc Hw. unfold full, cuts in Hc. rewrite list_lookup_fmap in Hc.
    destruct (seq 0 (Z.to_nat (gB g)) !! n) eqn:Es; simplify_eq/=. apply lookup_seq in Es as [-> Hn].
    simpl in *. eapply cut_holds; try done; try lay.
    pose proof (base_mono _ _ _ _ _ _ _ _ HO (Z.of_nat n + 1) (gB g) ltac:(lia) ltac:(lia)). lay.
  - apply Forall_forall. intros c Hc. unfold full, cuts in Hc. apply list_elem_of_fmap in Hc as (n & -> & Hn).
    apply elem_of_seq in Hn. pose proof (o_bases _ _ _ _ _ _ _ _ HO (Z.of_nat n) ltac:(lia)) as Hb.
    pose proof (base_nonneg _ _ _ _ _ _ _ _ HO (Z.of_nat n) ltac:(lia)).
    pose proof (base_mono _ _ _ _ _ _ _ _ HO (Z.of_nat n + 1) (gB g) ltac:(lia) ltac:(lia)).
    pose proof (o_align _ _ _ _ _ _ _ _ HO (Z.of_nat n) ltac:(lia)).
    pose proof (o_align _ _ _ _ _ _ _ _ HO (Z.of_nat n + 1) ltac:(lia)).
    rewrite cut_length by lay. split; [lay|]. layout_consts. zdm.
  - rewrite cut_length by lia. lia.
  - rewrite length_drop. lay.
Qed.

Lemma run_recorded (rx : shared -> packet -> shared -> Prop) `{!Nic rx} tr st :
  run rx fed tr st -> exists l, log_packets l = tr /\ recorded st l.
Proof.
  intros Hrun. destruct (run_invariant rx _ _ Hrun) as [g HI].
  destruct (inv_recorded _ _ _ HI) as (l & ? & _ & ?). by exists l.
Qed.

(** C1. Recording is a FIFO.  In every run in which the receive ring stays fed, the
    packets received by the adapter are exactly, in order and without loss or
    duplication, the packets of the full buckets, of the bucket being filled and of the
    fewer than [NUM_RX_SLOTS] descriptors not yet processed; the memory of the live
    buckets holds these packets with their lengths in the length tables. *)
Theorem capture_fifo (rx : shared -> packet -> shared -> Prop) `{!Nic rx} tr st :
  run rx fed tr st -> exists l, log_packets l = tr /\ recorded st l.
Proof. apply run_recorded, _. Qed.

(** C6. DMA stays inside its slot.  In every run in which the receive ring stays fed (the
    adapter never uses up its last descriptor), whatever frame of at most 1514 bytes the
    adapter stores next, it stores it inside the slot of the descriptor it fills, within the
    data part of a reserved bucket: never in another slot, a length table or the shared page. *)
Theorem dma_in_slot (rx : shared -> packet -> shared -> Prop) `{!Nic rx} tr st q s' :
  run rx fed tr st -> rx (sh st) q s' ->
  let slot := rx_head (sh st) in
  let a := read_pkt_addr (ring (sh st) slot) in
  exists n, START_1G <= n <= END_1G /\
    n * 2 ^ 30 + BYTES_PER_SLOT * slot <= a /\
    a + plen q <= n * 2 ^ 30 + BYTES_PER_SLOT * (slot + 1) /\
    BYTES_PER_SLOT * (slot + 1) <= DATA_SIZE.
Proof.
  intros Hrun Hrx. cbv zeta. destruct (run_invariant rx _ _ Hrun) as [g [HO HR HM _ _ _]].
  pose proof (nic_owns _ _ _ Hrx) as Hown. pose proof (nic_frame _ _ _ Hrx) as Hfr.
  pose proof (o_order _ _ _ _ _ _ _ _ HO) as Hord.
  rewrite (r_tail _ _ _ _ _ _ _ HR), (r_head _ _ _ _ _ _ _ HR) in *.
  assert (received tr < gS g) as HS by (clear - Hown Hord; layout_consts; zdm).
  destruct (inb_next _ _ _ _ _ _ _ _ (received tr) HO ltac:(lia)) as (n & Hn & _).
  rewrite (r_ready _ _ _ _ _ _ _ HR n _ Hn) by lia. cbn [read_pkt_addr qw0].
  pose proof (addr_bounds tr n (gbase g n) (received tr) (o_align _ _ _ _ _ _ _ _ HO n (proj1 Hn))
    (proj1 (proj2 Hn)) (m_room _ _ _ _ _ _ _ HM n _ Hn HS)) as (L1 & L2 & L3).
  exists (bi n). pose proof (bi_range n). lia.
Qed.

(** Descriptor [i] holds a buffer handed to the adapter or a packet not yet recorded. *)
Definition in_flight (s : shared) (p : proc_thread) (i : Z) : Prop :=
  (i - cur_partial p) mod NUM_RX_SLOTS < (rx_tail s - cur_partial p) mod NUM_RX_SLOTS.

(** C7. Descriptors in use are left alone.  In every run in which the receive ring stays fed
    (the adapter never uses up its last descriptor), the descriptor that the supply thread is
    about to overwrite is neither owned by the adapter nor waiting to be recorded. *)
Theorem supply_not_in_flight (rx : shared -> packet -> shared -> Prop) `{!Nic rx} tr st :
  run rx fed tr st -> a_pc (al st) = ADesc \/ a_pc (al st) = AFirst ->
  ~ in_flight (sh st) (pr st) (a_rx_desc (al st)).
Proof.
  intros Hrun E. destruct (run_invariant rx _ _ Hrun) as [g [HO HR _ HA _ HP]].
  destruct st as [s a p]; simpl in *. unfold in_flight.
  assert (in_loop (a_pc a) = true /\ waiting (a_pc a) = false /\ a_pc a <> ADone) as (Hl & Hw & Hd)
    by (by destruct E as [-> | ->]).
  pose proof (a_loop _ _ _ _ _ _ _ _ HA Hl) as Hlp. pose proof (o_order _ _ _ _ _ _ _ _ HO) as Hord.
  pose proof (o_buckets _ _ _ _ _ _ _ _ HO) as Hbk.
  destruct (a_started _ _ _ _ _ _ _ _ HA Hw Hd) as (_ & _ & ->).
  destruct (a_body _ _ _ _ _ _ _ _ HA ltac:(by destruct E as [-> | ->])) as [Hi _].
  pose proof (o_align _ _ _ _ _ _ _ _ HO (gA g) ltac:(lia)) as HalA.
  pose proof (o_align _ _ _ _ _ _ _ _ HO (gB g) ltac:(lia)) as HalB.
  destruct (supply_pos _ _ _ _ _ _ _ _ HA HalA ltac:(lia)) as [<- _].
  rewrite (r_tail _ _ _ _ _ _ _ HR). pose proof (p_pos _ _ _ _ _ _ _ _ HP) as Hpos.
  clear - Hpos HalB Hord Hlp. generalize dependent (gbase g (gB g)). intros. layout_consts. zdm.
Qed.


(** [num_captured] is published before the bucket is complete.  When the supply thread
    stores the bucket's packet count in its header, the recording thread is still in that
    bucket and has recorded fewer packets than the count says: a writer that sees the count
    at once copies a length table whose last row is still missing. *)
Theorem captured_published_early (rx : shared -> packet -> shared -> Prop) `{!Nic rx} tr s a p s' a' :
  run rx fed tr (State s a p) -> a_pc a = AMarkCaptured -> alloc_step s a = Some (s', a') ->
  p_cur p = a_cur a /\
  num_captured (binfo s' (p_cur p)) = (sup_row a + 1) * NUM_RX_SLOTS /\
  cur_partial p < num_captured (binfo s' (p_cur p)).
Proof.
  intros Hrun E Hs. destruct (run_invariant rx _ _ Hrun) as [g [HO HR HM HA HX HP]]. simpl in *.
  pose proof (body_row _ _ _ _ _ _ _ _ HA ltac:(by rewrite E) ltac:(by rewrite E)) as Hr.
  pose proof (same_bucket _ _ _ _ _ _ HX Hr) as HB. pose proof (row_bound _ _ _ _ _ _ _ _ _ _ HO HA) as Hrow.
  pose proof (o_order _ _ _ _ _ _ _ _ HO) as Hord. pose proof (a_pos _ _ _ _ _ _ _ _ HA) as Hpos.
  pose proof (a_loop _ _ _ _ _ _ _ _ HA ltac:(by rewrite E)) as Hl.
  destruct (a_body _ _ _ _ _ _ _ _ HA ltac:(by rewrite E)) as [Hi _].
  pose proof (p_bucket _ _ _ _ _ _ _ _ HP) as Hpc. pose proof (p_pos _ _ _ _ _ _ _ _ HP) as HPp.
  pose proof (a_bucket _ _ _ _ _ _ _ _ HA) as Hac.
  assert (num_captured (binfo s' (p_cur p)) = (sup_row a + 1) * N) as Hcap.
  { unfold alloc_step in Hs. rewrite E in Hs. simplify_eq. simpl.
    rewrite Hpc, Hac, HB, fn_lookup_insert. simpl. apply mark_value. lia. }
  rewrite Hcap. split_and!; [congruence | done |]. rewrite HB in *. lay.
Qed.

(** Stopping.  Once the recording thread has left its loop, its last two steps store in
    the header of its bucket the number of packets recorded there and the [last] flag, and
    the bucket holds exactly these packets. *)
Theorem stop_completes_bucket (rx : shared -> packet -> shared -> Prop) `{!Nic rx} tr s a p :
  run rx fed tr (State s a p) -> p_pc p = PFinCaptured ->
  exists s1 p1 s2 p2 l,
    proc_step s p = Some (s1, p1) /\ proc_step s1 p1 = Some (s2, p2) /\ p_pc p2 = PDone /\
    log_packets l = tr /\ recorded (State s2 a p2) l /\
    num_captured (binfo s2 (p_cur p)) = Z.of_nat (length (log_cur l)) /\
    last (binfo s2 (p_cur p)) = 1.
Proof.
  intros Hrun E.
  destruct (proc_step s p) as [[s1 p1]|] eqn:E1; [|unfold proc_step in E1; by rewrite E in E1].
  assert (p_pc p1 = PFinLast /\ p_cur p1 = p_cur p /\ s1 = upd_binfo (p_cur p) (set_num_captured (cur_partial p)) s)
    as (Ep1 & Ec1 & Es1) by (unfold proc_step in E1; rewrite E in E1; by simplify_eq).
  destruct (proc_step s1 p1) as [[s2 p2]|] eqn:E2; [|unfold proc_step in E2; by rewrite Ep1 in E2].
  assert (p_pc p2 = PDone /\ s2 = upd_binfo (p_cur p1) (set_last 1) s1)
    as (Ep2 & Es2) by (unfold proc_step in E2; rewrite Ep1 in E2; by simplify_eq).
  pose proof (run_step rx fed tr _ LProc _ Hrun (step_proc rx _ _ _ _ _ E1) I) as Hrun1.
  pose proof (run_step rx fed tr _ LProc _ Hrun1 (step_proc rx _ _ _ _ _ E2) I) as Hrun2.
  destruct (run_recorded rx _ _ Hrun2) as (l & Htr & Hrec). exists s1, p1, s2, p2, l.
  split_and!; try done.
  - destruct Hrec as [[Hcp _] _ _ _ _ _]. simpl in Hcp. rewrite <- Hcp, Es2, Ec1, Es1. simpl.
    rewrite !fn_lookup_insert. simpl. unfold proc_step in E1, E2. rewrite E in E1. rewrite Ep1 in E2.
    by simplify_eq.
  - rewrite Es2, Ec1. simpl. by rewrite fn_lookup_insert.
Qed.
