(* ===== verification/CaptureRun.v ===== *)
(** * Concrete captures

    An adapter that meets the interface [Nic], and concrete runs of the capture threads
    with it. They show that the hypotheses of the theorems of [CaptureSpec] can be met. *)
From S2P Require Import Prelude Layout Capture CaptureInv CaptureSpec.

(** ** An adapter *)
Definition nic_fill (p : packet) (s : shared) : shared :=
  Shared (pbm_rx_ring s) (<[rx_head s := RxDesc 0 (1 + Z.shiftl (plen p) 32)]> (ring s)) (rx_tail s)
    ((rx_head s + 1) mod NUM_RX_SLOTS)
    (dma_write (read_pkt_addr (ring s (rx_head s))) p (dram s)) (binfo s) (gshare s)
    (next_to_clean s) (max_row s) (process_start s) (process_stop s).

Definition nic_model (s : shared) (p : packet) (s' : shared) : Prop :=
  rx_head s <> rx_tail s /\ ETH_MIN <= plen p <= RX_BUF_SIZE /\ s' = nic_fill p s.

Lemma wb_fields v l :
  0 <= v < 2 ^ 32 -> 0 <= l < 2 ^ 16 ->
  wb_status_error (RxDesc 0 (v + Z.shiftl l 32)) = v /\ wb_length (RxDesc 0 (v + Z.shiftl l 32)) = l.
Proof.
  intros Hv Hl. unfold wb_status_error, wb_length. cbn [qw1].
  rewrite !land_ones_mod, Z.shiftr_div_pow2, Z.shiftl_mul_pow2 by lia. split; zdm.
Qed.

#[export] Instance nic_model_ok : Nic nic_model.
Proof.
  constructor.
  - by intros s p s' (? & _).
  - by intros s p s' (_ & ? & _).
  - intros s p s' (_ & Hl & ->). exists (RxDesc 0 (1 + Z.shiftl (plen p) 32)).
    destruct (wb_fields 1 (plen p)) as [H1 H2]; [lia | unfold ETH_MIN in Hl; lay|].
    split_and!; [|done|done]. unfold ixgbe_test_staterr. by rewrite H1.
Qed.

(** ** Runs by computation *)
Fixpoint alloc_n (n : nat) (s : shared) (a : alloc_thread) : option (shared * alloc_thread) :=
  match n with
  | O => Some (s, a)
  | S n => match alloc_step s a with Some (s', a') => alloc_n n s' a' | None => None end
  end.
Fixpoint proc_n (n : nat) (s : shared) (p : proc_thread) : option (shared * proc_thread) :=
  match n with
  | O => Some (s, p)
  | S n => match proc_step s p with Some (s', p') => proc_n n s' p' | None => None end
  end.

Section Runs.
Context (rx : shared -> packet -> shared -> Prop) (G : shared -> Prop).

Lemma run_alloc_n n tr s a p s' a' :
  run rx G tr (State s a p) -> alloc_n n s a = Some (s', a') -> run rx G tr (State s' a' p).
Proof.
  revert s a. induction n as [|n IH]; intros s a Hr H; simpl in H; [by simplify_eq|].
  destruct (alloc_step s a) as [[s1 a1]|] eqn:E; [|done]. apply (IH s1 a1); [|done].
  exact (run_step rx G tr _ LAlloc _ Hr (step_alloc rx _ _ _ _ _ E) I).
Qed.

Lemma run_proc_n n tr s a p s' p' :
  run rx G tr (State s a p) -> proc_n n s p = Some (s', p') -> run rx G tr (State s' a p').
Proof.
  revert s p. induction n as [|n IH]; intros s p Hr H; simpl in H; [by simplify_eq|].
  destruct (proc_step s p) as [[s1 p1]|] eqn:E; [|done]. apply (IH s1 p1); [|done].
  exact (run_step rx G tr _ LProc _ Hr (step_proc rx _ _ _ _ _ E) I).
Qed.

Lemma run_nic tr s a p q s' :
  run rx G tr (State s a p) -> rx s q s' -> G s -> run rx G (tr ++ [q]) (State s' a p).
Proof. intros Hr Hq HG. exact (run_step rx G tr _ (LNic q) _ Hr (step_nic rx _ _ _ _ _ Hq) HG). Qed.
End Runs.

(** The shared state when the interface has been opened and [start] has been issued. *)
Definition empty_header : bucket_info := BucketInfo (fun _ => 0) 0 0 0 NUM_RX_SLOTS (fun _ => 0) (fun _ => 0).
Definition shared0 : shared :=
  Shared false (fun _ => RxDesc 0 0) 0 0 (fun _ => 0) (fun _ => empty_header)
    (GlobalShare MAGIC1 MAGIC2 0 0) 0 0 0 0.
Definition started0 : shared :=
  Shared true (fun _ => RxDesc 0 0) 0 0 (fun _ => 0) (fun _ => empty_header)
    (GlobalShare MAGIC1 MAGIC2 1 0) 0 0 0 0.

Lemma run_started rx G : run rx G [] (State started0 alloc_init proc_init).
Proof.
  assert (run rx G [] (State shared0 alloc_init proc_init)) as H0 by (apply run_init; done).
  pose proof (run_step rx G _ _ LOpen _ H0 (step_open rx _ _ _) I) as H1. simpl in H1.
  refine (run_step rx G [] _ LUser _ H1 (step_user rx _ _ _ _ _) I).
  exists (GlobalShare MAGIC1 MAGIC2 1 0), (fun _ => empty_header). done.
Qed.

(** A run in which the ring has been filled, one frame received and recorded. *)
Definition frame0 : packet := replicate 60 7.
(** Three waiting steps, two to [count], two per descriptor, three to publish the tail. *)
Definition fill_steps : nat := 3 + 2 + (2 * 4095 + 3).
Definition filled0 : option (shared * alloc_thread) := alloc_n fill_steps started0 alloc_init.


(** The state after the steps of a thread, [st] itself when the thread exits earlier. *)
Definition after_alloc (n : nat) (st : state) : state :=
  match alloc_n n (sh st) (al st) with Some (s, a) => State s a (pr st) | None => st end.
Definition after_proc (n : nat) (st : state) : state :=
  match proc_n n (sh st) (pr st) with Some (s, p) => State s (al st) p | None => st end.

Lemma run_after_alloc rx G n tr st : run rx G tr st -> run rx G tr (after_alloc n st).
Proof.
  destruct st as [s a p]. intros H. unfold after_alloc. simpl.
  destruct (alloc_n n s a) as [[s' a']|] eqn:E; [|done]. by apply (run_alloc_n rx G n tr s a).
Qed.
Lemma run_after_proc rx G n tr st : run rx G tr st -> run rx G tr (after_proc n st).
Proof.
  destruct st as [s a p]. intros H. unfold after_proc. simpl.
  destruct (proc_n n s p) as [[s' p']|] eqn:E; [|done]. by apply (run_proc_n rx G n tr s a p).
Qed.

Definition st_started : state := State started0 alloc_init proc_init.
(** The first descriptor is about to be written. *)
Definition st_first : state := after_alloc 6 st_started.
(** The whole ring has been handed to the adapter. *)
Definition st_filled : state := after_alloc fill_steps st_started.
(** The adapter has received [frame0]. *)
Definition st_received : state :=
  State (nic_fill frame0 (sh st_filled)) (al st_filled) (pr st_filled).
(** The recording thread is about to store the length of [frame0]; has stored it and looked
    at the next descriptor. *)
Definition st_store : state := after_proc 5 st_received.
Definition st_recorded : state := after_proc 2 st_store.
(** [stop] has been issued, both threads have seen it. *)
Definition st_stop : state :=
  let s := sh st_recorded in
  State (Shared (pbm_rx_ring s) (ring s) (rx_tail s) (rx_head s) (dram s) (binfo s)
           (GlobalShare MAGIC1 MAGIC2 1 1) (next_to_clean s) (max_row s) (process_start s)
           (process_stop s)) (al st_recorded) (pr st_recorded).
Definition st_stopped : state := after_proc 1 (after_alloc 1 st_stop).

Lemma filled_head : rx_head (sh st_filled) = 0.
Proof. vm_compute. reflexivity. Qed.
Lemma filled_tail : rx_tail (sh st_filled) = 4095.
Proof. vm_compute. reflexivity. Qed.
Lemma store_pc : p_pc (pr st_store) = PStore.
Proof. vm_compute. reflexivity. Qed.
Lemma stopped_pc : p_pc (pr st_stopped) = PFinCaptured.
Proof. vm_compute. reflexivity. Qed.
Lemma run_first : run nic_model fed [] st_first.
  Proof. apply run_after_alloc, run_started. Qed.
Lemma run_filled : run nic_model fed [] st_filled.
  Proof. apply run_after_alloc, run_started. Qed.
#[global] Opaque st_filled.

Lemma nic_first : nic_model (sh st_filled) frame0 (sh st_received).
Proof.
  split; [|split; [|done]].
  - rewrite filled_head, filled_tail. done.
  - unfold ETH_MIN. change (plen frame0) with 60. lay.
Qed.

Lemma run_received : run nic_model fed [frame0] st_received.
  Proof.
    apply (run_nic _ _ [] (sh st_filled)).
    - pose proof run_filled as H. by destruct st_filled.
    - apply nic_first.
    - unfold fed. rewrite filled_head, filled_tail. done.
  Qed.
Lemma run_store : run nic_model fed [frame0] st_store.
  Proof. apply run_after_proc, run_received. Qed.
Lemma run_recorded_st : run nic_model fed [frame0] st_recorded.
  Proof. apply run_after_proc, run_store. Qed.
Lemma run_stop : run nic_model fed [frame0] st_stop.
  Proof.
    pose proof run_recorded_st as H. unfold st_stop. destruct st_recorded as [s a p]. simpl.
    refine (run_step _ _ [frame0] _ LUser _ H (step_user _ _ _ _ _ _) I).
    by exists (GlobalShare MAGIC1 MAGIC2 1 1), (binfo s).
  Qed.
Lemma run_stopped : run nic_model fed [frame0] st_stopped.
  Proof. apply run_after_proc, run_after_alloc, run_stop. Qed.

(** ** Witnesses *)
Lemma capture_fifo_witness : exists l, log_packets l = [frame0] /\ recorded st_recorded l.
Proof. apply (capture_fifo nic_model). apply run_recorded_st. Defined.

Lemma dma_in_slot_witness :
  exists n, START_1G <= n <= END_1G /\
    n * 2 ^ 30 + BYTES_PER_SLOT * rx_head (sh st_filled)
      <= read_pkt_addr (ring (sh st_filled) (rx_head (sh st_filled))) /\
    read_pkt_addr (ring (sh st_filled) (rx_head (sh st_filled))) + plen frame0
      <= n * 2 ^ 30 + BYTES_PER_SLOT * (rx_head (sh st_filled) + 1) /\
    BYTES_PER_SLOT * (rx_head (sh st_filled) + 1) <= DATA_SIZE.
Proof. exact (dma_in_slot nic_model [] st_filled frame0 (sh st_received) run_filled nic_first). Defined.

Lemma supply_not_in_flight_witness :
  a_pc (al st_first) = AFirst /\ ~ in_flight (sh st_first) (pr st_first) (a_rx_desc (al st_first)).
Proof.
  split; [reflexivity|]. apply (supply_not_in_flight nic_model []); [apply run_first|].
  right. reflexivity.
Defined.


Lemma stop_completes_bucket_witness :
  exists s1 p1 s2 p2 l,
    proc_step (sh st_stopped) (pr st_stopped) = Some (s1, p1) /\ proc_step s1 p1 = Some (s2, p2) /\
    p_pc p2 = PDone /\ log_packets l = [frame0] /\ recorded (State s2 (al st_stopped) p2) l /\
    num_captured (binfo s2 (p_cur (pr st_stopped))) = Z.of_nat (length (log_cur l)) /\
    last (binfo s2 (p_cur (pr st_stopped))) = 1.
Proof.
  apply (stop_completes_bucket nic_model); [|exact stopped_pc].
  pose proof run_stopped as H. destruct st_stopped. exact H.
Defined.
