(* ===== verification/CaptureLive.v ===== *)
(** * Progress of the capture threads

    Safety ([CaptureSpec]) speaks about the packets recorded so far; here the two threads
    are shown to get there.  Scheduled by itself, the recording thread records every
    packet received in a bounded number of its steps, and the supply thread then hands
    every free descriptor to the adapter; a stop request ends both.  Each argument is a
    measure that every step of the thread lowers until the goal is reached. *)
From S2P Require Import Prelude Layout Capture CaptureInv CaptureSpec CaptureRun.

(** ** Steps of one thread until a goal *)
Section Progress.
Context {St : Type} (next : St -> option St) (Q : St -> Prop) (R : Z -> St -> Prop).

Fixpoint iter_n (n : nat) (x : St) : option St :=
  match n with
  | O => Some x
  | S n => match next x with Some y => iter_n n y | None => None end
  end.

(** A state with measure [m] steps to the goal [Q] or to a state with a smaller measure. *)
Hypothesis lowers : forall m x, R m x ->
  0 <= m /\ exists y, next x = Some y /\ (Q y \/ exists m', m' < m /\ R m' y).

Lemma reaches m x : R m x -> exists n y, Z.of_nat n <= m + 1 /\ iter_n n x = Some y /\ Q y.
Proof.
  assert (forall k m x, R m x -> m < Z.of_nat k ->
    exists n y, Z.of_nat n <= m + 1 /\ iter_n n x = Some y /\ Q y) as Hk.
  { induction k as [|k IH]; intros l z Hz Hlt; destruct (lowers l z Hz) as (Hl & y & Hn & H); [lia|].
    destruct H as [HQ|(m' & Hm & HR)].
    - exists 1%nat, y. simpl. rewrite Hn. split_and!; [lia|done|done].
    - destruct (IH m' y HR ltac:(lia)) as (n & q & Hle & Hi & HQ). exists (S n), q. simpl.
      rewrite Hn. split_and!; [lia|done|done]. }
  intros Hx. destruct (lowers m x Hx) as [? _]. apply (Hk (Z.to_nat (m + 1))); [done|lia].
Qed.
End Progress.

Definition proc_next (x : shared * proc_thread) := proc_step x.1 x.2.
Definition alloc_next (x : shared * alloc_thread) := alloc_step x.1 x.2.

Lemma iter_proc n s p : iter_n proc_next n (s, p) = proc_n n s p.
Proof.
  revert s p. induction n as [|n IH]; intros s p; [done|]. simpl. unfold proc_next at 1. simpl.
  destruct (proc_step s p) as [[s' p']|]; [apply IH|done].
Qed.
Lemma iter_alloc n s a : iter_n alloc_next n (s, a) = alloc_n n s a.
Proof.
  revert s a. induction n as [|n IH]; intros s a; [done|]. simpl. unfold alloc_next at 1. simpl.
  destruct (alloc_step s a) as [[s' a']|]; [apply IH|done].
Qed.

(** ** The recording thread *)

(** Inside the recording loop; the outer test goes on unless a stop has been passed on. *)
Definition recording (s : shared) (p : proc_thread) : Prop :=
  match p_pc p with
  | PTest | PStore | PClean | PMaxRow | PReset => True
  | POuter => process_stop s = 0
  | _ => False
  end.
(** Steps left before the next packet is stored, at most. *)
Definition proc_rank (pc : proc_pc) : Z :=
  match pc with PTest => 1 | PReset | POuter => 2 | PMaxRow => 3 | PClean => 4 | _ => 0 end.
Definition proc_measure (tr : list packet) (g : ghost) (p : proc_thread) : Z :=
  5 * (received tr - gP g) + proc_rank (p_pc p).

(** The [DD] bit is set exactly as long as a received packet has not been recorded. *)
Lemma dd_iff tr g s a p :
  Inv tr g (State s a p) -> p_pc p = PTest ->
  truthy (ixgbe_test_staterr (ring s (p_rx_desc p)) IXGBE_RXD_STAT_DD) = (gP g <? received tr).
Proof.
  intros HI E. pose proof HI as [HO HR _ _ _ HP]. simpl in *.
  destruct (p_active _ _ _ _ _ _ _ _ HP ltac:(rewrite E; auto)) as (_ & -> & _).
  unfold truthy. destruct (gP g <? received tr) eqn:El; zbool.
  - by rewrite (proj1 (r_done _ _ _ _ _ _ _ HR (gP g) ltac:(lia))).
  - pose proof (dd_received _ _ _ _ _ HI) as Hd.
    destruct (decide (ixgbe_test_staterr (ring s (gP g mod N)) IXGBE_RXD_STAT_DD = 0)) as [->|Hn]; [done|].
    specialize (Hd Hn). lia.
Qed.

Lemma proc_lowers tr g s a p :
  Inv tr g (State s a p) -> recording s p ->
  exists s' p' g', proc_step s p = Some (s', p') /\ Inv tr g' (State s' a p') /\
    process_stop s' = process_stop s /\ gshare s' = gshare s /\
    ((p_pc p' = POuter /\ gP g' = received tr) \/
     (recording s' p' /\ proc_measure tr g' p' < proc_measure tr g p)).
Proof.
  intros HI Hr. pose proof (o_order _ _ _ _ _ _ _ _ (inv_o _ _ _ HI)) as Hord.
  destruct (proc_step s p) as [[s' p']|] eqn:Es.
  2:{ unfold proc_step, recording in *. destruct (p_pc p); try done; repeat case_match; done. }
  destruct (proc_preserves _ _ _ _ _ _ _ HI Es) as (g' & HI' & HP).
  exists s', p', g'. split; [done|]. split; [done|].
  unfold recording, proc_measure in *. pose proof Es as Es'. unfold proc_step in Es'.
  destruct (p_pc p) eqn:E; try done; simpl in HP.
  2:{ rewrite (dd_iff _ _ _ _ _ HI E) in Es'. destruct (gP g <? received tr) eqn:El; zbool; simplify_eq/=.
      - split; [done|]. split; [done|]. right. split; [done|lia].
      - split; [done|]. split; [done|]. left. split; [done|lia]. }
  - rewrite Hr in Es'. simplify_eq/=. split; [done|]. split; [done|]. right. split; [done|lia].
  - simplify_eq/=. split; [done|]. split; [done|]. right. case_match; simpl; (split; [done|lia]).
  - case_match; simplify_eq/=; (split; [done|]; split; [done|]); right; simpl; (split; [done|lia]).
  - simplify_eq/=. split; [done|]. split; [done|]. right. case_match; simpl; (split; [done|lia]).
  - simplify_eq/=. split; [done|]. split; [done|]. right. split; [done|lia].
Qed.

(** The recording thread by itself records everything received. *)
Lemma proc_drains tr g s a p :
  Inv tr g (State s a p) -> recording s p ->
  exists n s' p' g', Z.of_nat n <= 5 * NUM_RX_SLOTS /\ proc_n n s p = Some (s', p') /\
    p_pc p' = POuter /\ Inv tr g' (State s' a p') /\ gP g' = received tr /\
    process_stop s' = process_stop s /\ gshare s' = gshare s.
Proof.
  intros HI Hr.
  pose proof (reaches proc_next
    (fun y => p_pc y.2 = POuter /\ (exists g', Inv tr g' (State y.1 a y.2) /\ gP g' = received tr) /\
       process_stop y.1 = process_stop s /\ gshare y.1 = gshare s)
    (fun m x => exists g, Inv tr g (State x.1 a x.2) /\ recording x.1 x.2 /\
       m = proc_measure tr g x.2 /\ process_stop x.1 = process_stop s /\ gshare x.1 = gshare s))
    as Hre.
  destruct (fun H => Hre H (proc_measure tr g p) (s, p)) as (n & [s' p'] & Hn & Hi & HE & (g' & HI' & HP) & Hst & Hgs).
  - intros m [s1 p1] (g1 & HI1 & Hr1 & -> & Hst & Hgs). simpl in *.
    pose proof (o_order _ _ _ _ _ _ _ _ (inv_o _ _ _ HI1)).
    split; [unfold proc_measure, proc_rank; case_match; lia|].
    destruct (proc_lowers _ _ _ _ _ HI1 Hr1) as (s2 & p2 & g2 & Hs & HI2 & Hst2 & Hgs2 & Hor).
    exists (s2, p2). split; [done|]. simpl. rewrite Hst2, Hgs2.
    destruct Hor as [[? ?]|[? ?]]; [left; split_and!; eauto|].
    right. eexists. split; [done|]. exists g2. split_and!; congruence || done.
  - exists g. by split_and!.
  - exists n, s', p', g'. rewrite <- iter_proc. simpl in *.
    pose proof (o_order _ _ _ _ _ _ _ _ (inv_o _ _ _ HI)).
    assert (5 * (received tr - gP g) + 5 <= 5 * NUM_RX_SLOTS) by lay.
    assert (proc_rank (p_pc p) <= 4) by (destruct (p_pc p); simpl; lia).
    unfold proc_measure in Hn. split_and!; try done. lia.
Qed.

(** ** The supply thread *)

(** Inside the supply loop, no stop having been requested. *)
Definition supplying (s : shared) (a : alloc_thread) : Prop :=
  waiting (a_pc a) = false /\ a_pc a <> ADone /\ issue_stop (gshare s) = 0.
(** Steps left before the next descriptor has been written, at most. *)
Definition alloc_rank (a : alloc_thread) : Z :=
  match a_pc a with
  | AMarkMaxRow => 1 | AMarkCaptured => 2 | AAcc => 3
  | ALoop => if a_i a <? a_count a then 4 else 9
  | ACount => 5 | ATop => 6 | ATail => 7 | ARowEnd => 8 | _ => 0
  end.
(** Descriptors that may still be handed out. *)
Definition room (g : ghost) : Z := gC g + NUM_RX_SLOTS - 1 - gS g.
Definition alloc_measure (g : ghost) (a : alloc_thread) : Z := 10 * room g + alloc_rank a.

(** The count computed from [next_to_clean] is the room left. *)
Lemma count_room tr g s a p :
  Inv tr g (State s a p) -> a_pc a = ACount ->
  s16 (Z.land (NUM_RX_SLOTS + next_to_clean s - sup_partial a - 1) RX_SLOT_MASK) = room g.
Proof.
  intros [HO _ _ HA _ HP] E. simpl in *.
  pose proof (a_idle _ _ _ _ _ _ _ _ HA (or_intror E)) as [HT Hp].
  pose proof (a_pos _ _ _ _ _ _ _ _ HA) as Hpos.
  pose proof (p_clean _ _ _ _ _ _ _ _ HP) as (Hc & _ & _).
  pose proof (o_order _ _ _ _ _ _ _ _ HO) as Hord. pose proof (o_buckets _ _ _ _ _ _ _ _ HO) as Hbk.
  pose proof (o_align _ _ _ _ _ _ _ _ HO (gA g) ltac:(lia)) as Ha.
  rewrite (count_value _ (gC g) (gS g)); [unfold room; lia | done | layout_consts; zdm | lia].
Qed.

Lemma alloc_lowers tr g s a p :
  Inv tr g (State s a p) -> supplying s a ->
  exists s' a' g', alloc_step s a = Some (s', a') /\ Inv tr g' (State s' a' p) /\
    gP g' = gP g /\ gC g' = gC g /\ gshare s' = gshare s /\
    ((a_pc a' = ATop /\ room g' = 0) \/
     (supplying s' a' /\ alloc_measure g' a' < alloc_measure g a)).
Proof.
  intros HI (Hw & Hd & Hst). pose proof HI as [HO _ _ HA _ _]. simpl in HA.
  pose proof (o_order _ _ _ _ _ _ _ _ HO) as Hord.
  destruct (alloc_step s a) as [[s' a']|] eqn:Es.
  2:{ unfold alloc_step in Es. destruct (a_pc a); try done; repeat case_match; done. }
  destruct (alloc_preserves _ _ _ _ _ _ _ HI Es) as (g' & HI' & HC & HP & HS).
  exists s', a', g'. split; [done|]. split; [done|]. split; [done|]. split; [done|].
  unfold supplying, alloc_measure, alloc_rank, room in *. pose proof Es as Es'. unfold alloc_step in Es'.
  destruct (a_pc a) eqn:E; try done; simpl in HS.
  - rewrite Hst in Es'. simplify_eq/=. split; [done|]. right. split_and!; (done || lia).
  - rewrite (count_room _ _ _ _ _ HI E) in Es'. unfold room, truthy in Es'.
    case_match eqn:Ez; simplify_eq/=; (split; [done|]); zbool.
    + left. split; [done|lia].
    + right. split; [done|].
      pose proof (a_loop _ _ _ _ _ _ _ _ (inv_a _ _ _ HI') eq_refl) as (Hl & _). simpl in Hl.
      rewrite (proj2 (Z.ltb_lt 0 _)) by lia. lia.
  - destruct (a_i a <? a_count a); simplify_eq/=; (split; [done|]); right; [case_match|]; simpl;
      split_and!; (done || lia).
  - simplify_eq/=. split; [done|]. right. case_match; simpl; split_and!; (done || lia).
  - simplify_eq/=. split; [done|]. right. split_and!; (done || lia).
  - simplify_eq/=. split; [done|]. right. split_and!; (done || lia).
  - simplify_eq/=. split; [done|]. right. case_match; split_and!; (done || lia).
  - simplify_eq/=. split; [done|]. right. case_match; split_and!; (done || lia).
  - case_match; simplify_eq/=; (split; [done|]); right; [case_match|]; simpl; split_and!; (done || lia).
  - simplify_eq/=. split; [done|]. right. split_and!; (done || lia).
Qed.

(** The supply thread by itself hands out every free descriptor. *)
Lemma alloc_refills tr g s a p :
  Inv tr g (State s a p) -> supplying s a ->
  exists n s' a' g', Z.of_nat n <= 10 * NUM_RX_SLOTS /\ alloc_n n s a = Some (s', a') /\
    a_pc a' = ATop /\ Inv tr g' (State s' a' p) /\ gP g' = gP g /\ gC g' = gC g /\ room g' = 0 /\
    gshare s' = gshare s.
Proof.
  intros HI Hr.
  pose proof (reaches alloc_next
    (fun y => a_pc y.2 = ATop /\ gshare y.1 = gshare s /\
       exists g', Inv tr g' (State y.1 y.2 p) /\ gP g' = gP g /\ gC g' = gC g /\ room g' = 0)
    (fun m x => exists g', Inv tr g' (State x.1 x.2 p) /\ supplying x.1 x.2 /\
       m = alloc_measure g' x.2 /\ gP g' = gP g /\ gC g' = gC g /\ gshare x.1 = gshare s))
    as Hre.
  destruct (fun H => Hre H (alloc_measure g a) (s, a))
    as (n & [s' a'] & Hn & Hi & HE & Hgs & g' & HI' & HP & HC & HR).
  - intros m [s1 a1] (g1 & HI1 & Hr1 & -> & HP1 & HC1 & Hgs). simpl in *.
    pose proof (o_order _ _ _ _ _ _ _ _ (inv_o _ _ _ HI1)).
    split; [unfold alloc_measure, alloc_rank, room; repeat case_match; lia|].
    destruct (alloc_lowers _ _ _ _ _ HI1 Hr1) as (s2 & a2 & g2 & Hs & HI2 & HP2 & HC2 & Hgs2 & Hor).
    exists (s2, a2). split; [done|]. simpl.
    destruct Hor as [[? ?]|[? ?]]; [left|right; eexists; split; [done|]].
    + split_and!; [done|congruence|]. exists g2. split_and!; congruence || done.
    + exists g2. split_and!; congruence || done.
  - exists g. by split_and!.
  - exists n, s', a', g'. rewrite <- iter_alloc. simpl in *.
    pose proof (o_order _ _ _ _ _ _ _ _ (inv_o _ _ _ HI)).
    assert (alloc_rank a <= 9) by (unfold alloc_rank; repeat case_match; lia).
    assert (0 <= gS g - gC g) by lia. unfold alloc_measure, room in Hn. split_and!; try done. lia.
Qed.

(** ** A stop request *)

(** Steps left before the supply thread tests the stop byte, at most. *)
Definition alloc_stop_rank (a : alloc_thread) : Z :=
  match a_pc a with
  | AMarkMaxRow | AStart | ATail => 1 | AMarkCaptured | AWaitStart | ARowEnd => 2
  | AAcc | AWaitRing => 3 | ALoop => if a_i a <? a_count a then 4 else 3 | ACount => 5 | _ => 0
  end.
Definition alloc_stop_measure (g : ghost) (a : alloc_thread) : Z := 10 * room g + alloc_stop_rank a.

Definition stop_requested (s : shared) : Prop := pbm_rx_ring s = true /\ issue_stop (gshare s) = 1.

Lemma alloc_stop_lowers tr g s a p :
  Inv tr g (State s a p) -> stop_requested s -> a_pc a <> ADone ->
  exists s' a' g', alloc_step s a = Some (s', a') /\ Inv tr g' (State s' a' p) /\
    stop_requested s' /\
    ((a_pc a' = ADone /\ process_stop s' = 1) \/
     (a_pc a' <> ADone /\ alloc_stop_measure g' a' < alloc_stop_measure g a)).
Proof.
  intros HI [Hring Hst] Hd. pose proof HI as [HO _ _ HA _ _]. simpl in HA.
  destruct (alloc_step s a) as [[s' a']|] eqn:Es.
  2:{ unfold alloc_step in Es. destruct (a_pc a); try done; repeat case_match; done. }
  destruct (alloc_preserves _ _ _ _ _ _ _ HI Es) as (g' & HI' & HC & HP & HS).
  exists s', a', g'. split; [done|]. split; [done|].
  unfold stop_requested, alloc_stop_measure, alloc_stop_rank, room in *.
  pose proof Es as Es'. unfold alloc_step in Es'.
  destruct (a_pc a) eqn:E; try done; simpl in HS.
  all: try (rewrite ?Hring, ?Hst in Es'; simplify_eq/=; (split; [done|]);
    first [by left | right; repeat case_match; simplify_eq/=; (split; [done|lia])]).
  - case_match; simplify_eq/=; (split; [done|]); right; [split; [done|lia]|].
    pose proof (a_loop _ _ _ _ _ _ _ _ (inv_a _ _ _ HI') eq_refl) as (Hl & _). simpl in Hl.
    rewrite (proj2 (Z.ltb_lt 0 _)) by lia. split; [done|lia].
  - case_match; simplify_eq/=; (split; [done|]); right; [case_match|]; (split; [done|]); simpl; lia.
Qed.

Lemma alloc_stops tr g s a p :
  Inv tr g (State s a p) -> stop_requested s -> (a_pc a = ADone -> process_stop s = 1) ->
  exists n s' a' g', Z.of_nat n <= 10 * NUM_RX_SLOTS /\ alloc_n n s a = Some (s', a') /\
    a_pc a' = ADone /\ Inv tr g' (State s' a' p) /\ stop_requested s' /\ process_stop s' = 1.
Proof.
  intros HI Hst Hdone. destruct (decide (a_pc a = ADone)) as [E|E].
  { exists O, s, a, g. split_and!; [lay|done|done|done|done|by apply Hdone]. }
  pose proof (reaches alloc_next
    (fun y => a_pc y.2 = ADone /\ process_stop y.1 = 1 /\ stop_requested y.1 /\
       exists g', Inv tr g' (State y.1 y.2 p))
    (fun m x => exists g', Inv tr g' (State x.1 x.2 p) /\ stop_requested x.1 /\ a_pc x.2 <> ADone /\
       m = alloc_stop_measure g' x.2)) as Hre.
  destruct (fun H => Hre H (alloc_stop_measure g a) (s, a))
    as (n & [s' a'] & Hn & Hi & HE & Hps & Hst' & g' & HI').
  - intros m [s1 a1] (g1 & HI1 & Hst1 & Hd1 & ->). simpl in *.
    pose proof (o_order _ _ _ _ _ _ _ _ (inv_o _ _ _ HI1)).
    split; [unfold alloc_stop_measure, alloc_stop_rank, room; repeat case_match; lia|].
    destruct (alloc_stop_lowers _ _ _ _ _ HI1 Hst1 Hd1) as (s2 & a2 & g2 & Hs & HI2 & Hst2 & Hor).
    exists (s2, a2). split; [done|]. simpl.
    destruct Hor as [[? ?]|[? ?]]; [left; by eauto 6|right; eexists; split; [done|]].
    exists g2. by split_and!.
  - exists g. by split_and!.
  - exists n, s', a', g'. rewrite <- iter_alloc. simpl in *.
    pose proof (o_order _ _ _ _ _ _ _ _ (inv_o _ _ _ HI)).
    assert (alloc_stop_rank a <= 5) by (unfold alloc_stop_rank; repeat case_match; lia).
    unfold alloc_stop_measure, room in Hn. split_and!; try done. lia.
Qed.

(** The supply thread exits only after passing the stop on. *)
Lemma done_stopped (rx : shared -> packet -> shared -> Prop) `{!Nic rx} G tr st :
  run rx G tr st -> a_pc (al st) = ADone -> process_stop (sh st) = 1.
Proof.
  induction 1 as [s Hs|tr st l st' _ IH Hs Hg]; [done|].
  destruct Hs as [s a p s' a' Hs|s a p s' p' Hs|s a p q s' Hs|s a p s' Hs|s a p]; simpl in *.
  - unfold alloc_step in Hs. intros E. destruct (a_pc a) eqn:Ea.
    all: simplify_eq; repeat (case_match; simplify_eq/=); congruence || done.
  - intros E. rewrite <- (IH E). unfold proc_step in Hs.
    destruct (p_pc p); repeat (case_match; simplify_eq/=); simplify_eq/=; done.
  - by destruct (nic_effect _ _ _ Hs) as (d & _ & _ & ->).
  - by destruct Hs as (g & bi & _ & ->).
  - done.
Qed.

Definition proc_stop_rank (pc : proc_pc) : Z :=
  match pc with
  | PFinCaptured => 1 | POuter => 2 | PTest | PStart => 3 | PReset | PWaitStart => 4
  | PMaxRow | PWaitRing => 5 | PClean => 6 | _ => 0
  end.
Definition proc_stop_measure (tr : list packet) (g : ghost) (p : proc_thread) : Z :=
  7 * (received tr - gP g) + proc_stop_rank (p_pc p).

Definition stop_passed (s : shared) : Prop := pbm_rx_ring s = true /\ process_stop s = 1.
(** The thread has begun to record and not begun to finish. *)
Definition in_recording (pc : proc_pc) : bool :=
  match pc with PStart | POuter | PTest | PStore | PClean | PMaxRow | PReset | PFinCaptured => true
  | _ => false end.
(** What the thread leaves in the header of its last bucket: the count, then the mark. *)
Definition finishing (s : shared) (p : proc_thread) : Prop :=
  in_recording (p_pc p) = true \/
  ((p_pc p = PFinLast \/ p_pc p = PDone) /\
   num_captured (binfo s (p_cur p)) = cur_partial p /\
   (p_pc p = PDone -> last (binfo s (p_cur p)) = 1)).

Lemma finishing_step s p s' p' :
  finishing s p -> stop_passed s -> proc_step s p = Some (s', p') -> finishing s' p'.
Proof.
  unfold finishing, stop_passed, proc_step. intros Hf [_ Hst] Hs.
  destruct (p_pc p) eqn:E; simplify_eq/=; try done.
  all: try by (destruct Hf as [?|[[?|?] _]]; simplify_eq).
  all: try (left; repeat (case_match; simplify_eq/=); done).
  - right. rewrite fn_lookup_insert. split_and!; [by left|done|done].
  - destruct Hf as [?|(_ & Hn & _)]; [done|]. right. rewrite fn_lookup_insert. simpl.
    split_and!; [by right|done|done].
Qed.

Lemma proc_stop_lowers tr g s a p :
  Inv tr g (State s a p) -> stop_passed s -> p_pc p <> PDone ->
  exists s' p' g', proc_step s p = Some (s', p') /\ Inv tr g' (State s' a p') /\ stop_passed s' /\
    (p_pc p' = PDone \/ (p_pc p' <> PDone /\ proc_stop_measure tr g' p' < proc_stop_measure tr g p)).
Proof.
  intros HI [Hring Hst] Hd.
  destruct (proc_step s p) as [[s' p']|] eqn:Es.
  2:{ unfold proc_step in Es. destruct (p_pc p); try done; repeat case_match; done. }
  destruct (proc_preserves _ _ _ _ _ _ _ HI Es) as (g' & HI' & HP).
  exists s', p', g'. split; [done|]. split; [done|]. unfold stop_passed, proc_stop_measure in *.
  pose proof Es as Es'. unfold proc_step in Es'. destruct (p_pc p) eqn:E; try done; simpl in HP.
  all: rewrite ?Hring, ?Hst in Es'; simplify_eq/=.
  all: try (split; [done|]; by left).
  all: try (case_match; simplify_eq/=); (split; [done|]); right; simpl; (split; [done|lia]).
Qed.

Lemma proc_stops tr g s a p :
  Inv tr g (State s a p) -> stop_passed s ->
  exists n s' p' g', Z.of_nat n <= 7 * NUM_RX_SLOTS /\ proc_n n s p = Some (s', p') /\
    p_pc p' = PDone /\ Inv tr g' (State s' a p') /\ (finishing s p -> finishing s' p').
Proof.
  intros HI Hst. destruct (decide (p_pc p = PDone)) as [E|E].
  { exists O, s, p, g. split_and!; [lay|done..]. }
  pose proof (reaches proc_next
    (fun y => p_pc y.2 = PDone /\ (finishing s p -> finishing y.1 y.2) /\
       exists g', Inv tr g' (State y.1 a y.2))
    (fun m x => exists g', Inv tr g' (State x.1 a x.2) /\ stop_passed x.1 /\ p_pc x.2 <> PDone /\
       m = proc_stop_measure tr g' x.2 /\ (finishing s p -> finishing x.1 x.2))) as Hre.
  destruct (fun H => Hre H (proc_stop_measure tr g p) (s, p))
    as (n & [s' p'] & Hn & Hi & HE & Hf & g' & HI').
  - intros m [s1 p1] (g1 & HI1 & Hst1 & Hd1 & -> & Hf1). simpl in *.
    pose proof (o_order _ _ _ _ _ _ _ _ (inv_o _ _ _ HI1)).
    split; [unfold proc_stop_measure, proc_stop_rank; repeat case_match; lia|].
    destruct (proc_stop_lowers _ _ _ _ _ HI1 Hst1 Hd1) as (s2 & p2 & g2 & Hs & HI2 & Hst2 & Hor).
    exists (s2, p2). split; [done|]. simpl.
    assert (finishing s p -> finishing s2 p2) by eauto using finishing_step.
    destruct Hor as [?|[? ?]]; [left; by eauto 6|right; eexists; split; [done|]].
    exists g2. by split_and!.
  - exists g. by split_and!.
  - exists n, s', p', g'. rewrite <- iter_proc. simpl in *.
    pose proof (o_order _ _ _ _ _ _ _ _ (inv_o _ _ _ HI)).
    assert (7 * (received tr - gP g) + 7 <= 7 * NUM_RX_SLOTS) by lay.
    assert (proc_stop_rank (p_pc p) <= 6) by (unfold proc_stop_rank; case_match; lia).
    unfold proc_stop_measure in Hn. split_and!; try done. lia.
Qed.

(** ** The theorems *)

(** C3. Capture makes progress.  From any state that a run reaches in which the receive ring
    stays fed (the adapter never uses up its last descriptor; a ring that has run dry is not
    covered), when both threads are in their loops and no stop has been requested, at most [5 * NUM_RX_SLOTS] steps of the
    recording thread followed by at most [10 * NUM_RX_SLOTS] steps of the supply thread
    lead to a state in which every received packet has been recorded and at least
    [NUM_RX_SLOTS - 256] descriptors are ready for the adapter: no packet waits forever,
    and the receive ring has room again. *)
Theorem capture_progress (rx : shared -> packet -> shared -> Prop) `{!Nic rx} tr s a p :
  run rx fed tr (State s a p) -> recording s p -> supplying s a ->
  exists n m s1 p' s2 a' l,
    Z.of_nat n <= 5 * NUM_RX_SLOTS /\ proc_n n s p = Some (s1, p') /\
    Z.of_nat m <= 10 * NUM_RX_SLOTS /\ alloc_n m s1 a = Some (s2, a') /\
    log_packets l = tr /\ log_pending l = [] /\ recorded (State s2 a' p') l /\
    NUM_RX_SLOTS - 256 <= (rx_tail s2 - rx_head s2) mod NUM_RX_SLOTS.
Proof.
  intros Hrun Hr Hs. destruct (run_invariant rx _ _ Hrun) as [g HI].
  destruct (proc_drains _ _ _ _ _ HI Hr) as (n & s1 & p' & g1 & Hn & Hp & Hpc & HI1 & HP1 & _ & Hgs).
  assert (supplying s1 a) as Hs1 by (unfold supplying in *; by rewrite Hgs).
  destruct (alloc_refills _ _ _ _ _ HI1 Hs1)
    as (m & s2 & a' & g2 & Hm & Ha & Hapc & HI2 & HP2 & HC2 & Hroom & _).
  destruct (inv_recorded _ _ _ HI2) as (l & Hl & Hpend & Hrec).
  exists n, m, s1, p', s2, a', l. rewrite Hpend, HP2, HP1, Nat2Z.id, drop_all.
  split_and!; try done.
  destruct HI2 as [HO HR _ HA _ HP]. simpl in *.
  destruct (a_idle _ _ _ _ _ _ _ _ HA (or_introl Hapc)) as [HT _].
  destruct (p_active _ _ _ _ _ _ _ _ HP ltac:(rewrite Hpc; auto)) as (HC & _ & _).
  pose proof (o_order _ _ _ _ _ _ _ _ HO) as Hord.
  rewrite (r_tail _ _ _ _ _ _ _ HR), (r_head _ _ _ _ _ _ _ HR), <- Zminus_mod.
  unfold room in Hroom. rewrite Z.mod_small; lay.
Qed.


(** ** Witnesses *)
Lemma store_supplies : supplying (sh st_store) (al st_store).
Proof. vm_compute. by split_and!. Qed.

Lemma capture_progress_witness :
  exists n m s1 p' s2 a' l,
    Z.of_nat n <= 5 * NUM_RX_SLOTS /\ proc_n n (sh st_store) (pr st_store) = Some (s1, p') /\
    Z.of_nat m <= 10 * NUM_RX_SLOTS /\ alloc_n m s1 (al st_store) = Some (s2, a') /\
    log_packets l = [frame0] /\ log_pending l = [] /\ recorded (State s2 a' p') l /\
    NUM_RX_SLOTS - 256 <= (rx_tail s2 - rx_head s2) mod NUM_RX_SLOTS.
Proof.
  apply (capture_progress nic_model [frame0] (sh st_store) (al st_store) (pr st_store)).
  - pose proof run_store as H. destruct st_store. exact H.
  - unfold recording. rewrite store_pc. exact I.
  - exact store_supplies.
Defined.

Lemma stop_state_requested : stop_requested (sh st_stop) /\ in_recording (p_pc (pr st_stop)) = true.
Proof. vm_compute. by split_and!. Qed.

