(* ===== verification/DiskTable.v ===== *)
(** * The writer table and the recording's file names

    [read_disk_table], which [todisk.c], [to_libpcap.c], [block2libpcap.c],
    [dump_packet.c], [count_recorded.c] and [block_info.c] each contain a copy of, the
    functions of the C library that it and the programs' arguments go through ([fgets],
    [sscanf], [atoi], [atol]), and the names that [sprintf (fname, "%s/file%05d", ..)]
    gives to the files of a recording. *)
From S2P Require Import Prelude Layout.

(** ** C strings *)
Abbreviation cstring := (list ascii).
Definition str (s : string) : cstring := String.list_ascii_of_string s.
Definition code (c : ascii) : Z := Z.of_N (N_of_ascii c).
Definition NUL : ascii := ascii_of_N 0.
Definition NEWLINE : ascii := ascii_of_N 10.
Definition SPACE : ascii := ascii_of_N 32.

Definition isspace (c : ascii) : bool := (code c =? 32) || ((9 <=? code c) && (code c <=? 13)).
Definition isdigit (c : ascii) : bool := (48 <=? code c) && (code c <=? 57).

(** The string that a buffer holds: up to the first NUL. *)
Fixpoint c_str (l : cstring) : cstring :=
  match l with
  | [] => []
  | c :: l => if code c =? 0 then [] else c :: c_str l
  end.

Fixpoint skip_space (l : cstring) : cstring :=
  match l with
  | c :: l' => if isspace c then skip_space l' else l
  | [] => []
  end.

(** The digits at the head of [l], accumulated on [acc]. *)
Fixpoint take_digits (acc : Z) (l : cstring) : Z * cstring :=
  match l with
  | c :: l' => if isdigit c then take_digits (10 * acc + (code c - 48)) l' else (acc, l)
  | [] => (acc, [])
  end.

(** The characters at the head of [l] up to white space. *)
Fixpoint take_word (l : cstring) : cstring * cstring :=
  match l with
  | c :: l' => if isspace c then ([], l) else let '(w, r) := take_word l' in (c :: w, r)
  | [] => ([], [])
  end.

(** [strtol (.., 10)]: saturates at the ends of [long]; [None] when there is no number. *)
Definition clamp_long (v : Z) : Z := Z.max (- 2 ^ 63) (Z.min v (2 ^ 63 - 1)).
Definition head_digit (l : cstring) : bool := match l with c :: _ => isdigit c | [] => false end.
Definition strtol (l : cstring) : option (Z * cstring) :=
  let l := skip_space l in
  let '(sign, l) := match l with
                    | c :: l' => if code c =? 45 then (-1, l')
                                 else if code c =? 43 then (1, l') else (1, l)
                    | [] => (1, l)
                    end in
  if head_digit l then let '(v, r) := take_digits 0 l in Some (clamp_long (sign * v), r) else None.

Definition atol (l : cstring) : Z := match strtol (c_str l) with Some (v, _) => v | None => 0 end.
Definition atoi (l : cstring) : Z := s32 (atol l).

(** Conversions [%d] and [%s] of [sscanf]; a blank of the format skips white space, which
    both conversions do themselves. *)
Definition scan_d (l : cstring) : option (Z * cstring) :=
  match strtol l with Some (v, r) => Some (s32 v, r) | None => None end.
Definition scan_s (l : cstring) : option cstring :=
  match take_word (skip_space l) with ([], _) => None | (w, _) => Some w end.

(** [fgets (buffer, size, fd)]: the line read and the rest of the stream. *)
Fixpoint read_line (room : nat) (l : cstring) : cstring * cstring :=
  match room, l with
  | S room, c :: l' =>
      if code c =? 10 then ([c], l') else let '(w, r) := read_line room l' in (c :: w, r)
  | _, _ => ([], l)
  end.
Definition fgets (size : nat) (stream : cstring) : option (cstring * cstring) :=
  match stream with [] => None | _ => Some (read_line (pred size) stream) end.

(** ** [read_disk_table] *)

(** What is printed before [exit (0)]. *)
Inductive table_diag :=
| DOpen                              (* Failed to open writer_info.cfg *)
| DExpectHeader                      (* Read error, expect <num_writers> <max_blocks> *)
| DTooMany (nw buckets : Z)          (* <num_writers>=%d too many or .. too few *)
| DMaxBlocks                         (* <max_blocks> must be positive *)
| DExpectPath (i : Z)                (* Read error, expect path for writer#%d *)
| DExpectWriter (i : Z)              (* Expect <writer_num> <path of writer> for num=%d *)
| DNotInOrder (i num : Z)            (* <writer_num> is not in order *)
| DInvalidPath (p : cstring) (num : Z).

Record table := Table { num_writers : Z; max_blocks : Z; writer_path : Z -> cstring }.

(** [Overflow]: undefined behaviour, the write past the end of [path] or the signed
    overflow of [num_writers + 2]. *)
Inductive table_result := Loaded (t : table) | TableExit (d : table_diag) | Overflow.

Definition BUFFER : nat := 1199.   (* the size passed to fgets *)
Definition PATH_SIZE : Z := 1024.  (* char path [1024] *)
Definition zlen {A} (l : list A) : Z := Z.of_nat (length l).

(** [for (i = 0; i < num_writers; i++)], with [n] iterations left. *)
Fixpoint read_paths (n : nat) (i : Z) (stream : cstring) (paths : Z -> cstring)
    : (Z -> cstring) + option table_diag :=
  match n with
  | O => inl paths
  | S n =>
      match fgets BUFFER stream with
      | None => inr (Some (DExpectPath i))
      | Some (buffer, stream) =>
          match scan_d (c_str buffer) with
          | None => inr (Some (DExpectWriter i))
          | Some (num, rest) =>
              match scan_s rest with
              | None => inr (Some (DExpectWriter i))
              | Some path =>
                  if PATH_SIZE <=? zlen path then inr None
                  else if negb (i =? num) then inr (Some (DNotInOrder i num))
                  else if (zlen path =? 0) || (zlen path >? 1023)
                       then inr (Some (DInvalidPath path num))
                  else read_paths n (i + 1) stream (<[num := path]> paths)
              end
          end
      end
  end.

(** [cfg] is the content of [writer_info.cfg], [None] when it cannot be opened. *)
Definition read_disk_table (cfg : option cstring) : table_result :=
  match cfg with
  | None => TableExit DOpen
  | Some stream =>
      match fgets BUFFER stream with
      | None => TableExit DExpectHeader
      | Some (buffer, stream) =>
          match scan_d (c_str buffer) with
          | None => TableExit DExpectHeader
          | Some (nw, rest) =>
              match scan_d rest with
              | None => TableExit DExpectHeader
              | Some (mb, _) =>
                  if 2 ^ 31 <=? nw + 2 then Overflow
                  else if nw + 2 >? END_1G - START_1G + 1
                  then TableExit (DTooMany nw (END_1G - START_1G + 1))
                  else if mb <=? 0 then TableExit DMaxBlocks
                  else match read_paths (Z.to_nat nw) 0 stream (fun _ => []) with
                       | inl paths => Loaded (Table nw mb paths)
                       | inr (Some d) => TableExit d
                       | inr None => Overflow
                       end
              end
          end
      end
  end.

(** ** Formatted numbers and file names *)
Definition digit (d : Z) : ascii := ascii_of_N (Z.to_N (48 + d)).
Fixpoint dec_digits (fuel : nat) (n : Z) (acc : cstring) : cstring :=
  match fuel with
  | O => acc
  | S fuel =>
      let acc := digit (n mod 10) :: acc in
      if n / 10 =? 0 then acc else dec_digits fuel (n / 10) acc
  end.
(** [%d] of a non-negative number; 20 digits are enough for 64 bits. *)
Definition fmt_d (n : Z) : cstring := dec_digits 20 n [].
(** [%0wd], zero-padded to [w] characters. *)
Definition fmt_0d (w : nat) (n : Z) : cstring :=
  if n <? 0 then str "-" ++ replicate (w - 1 - length (fmt_d (- n))) (digit 0) ++ fmt_d (- n)
  else replicate (w - length (fmt_d n)) (digit 0) ++ fmt_d n.
Definition file_name (path : cstring) (file_count : Z) : cstring :=
  path ++ str "/file" ++ fmt_0d 5 file_count.

(** ** Theorems *)

Lemma digit_cases (P : Z -> Prop) :
  P 0 -> P 1 -> P 2 -> P 3 -> P 4 -> P 5 -> P 6 -> P 7 -> P 8 -> P 9 ->
  forall d, 0 <= d <= 9 -> P d.
Proof.
  intros. assert (d = 0 \/ d = 1 \/ d = 2 \/ d = 3 \/ d = 4 \/ d = 5 \/ d = 6 \/ d = 7 \/
    d = 8 \/ d = 9) as Hd by lia. destruct_or! Hd; by subst.
Qed.

Lemma isdigit_digit d : 0 <= d <= 9 -> isdigit (digit d) = true /\ code (digit d) - 48 = d.
Proof. revert d. apply digit_cases; split; reflexivity. Qed.

Lemma take_digits_cons acc d l :
  0 <= d <= 9 -> take_digits acc (digit d :: l) = take_digits (10 * acc + d) l.
Proof. intros H. simpl. by destruct (isdigit_digit d H) as [-> ->]. Qed.

Lemma take_digits_dec f n l :
  0 <= n < 10 ^ Z.of_nat f -> (0 < f)%nat -> take_digits 0 (dec_digits f n l) = take_digits n l.
Proof.
  revert n l. induction f as [|f IH]; intros n l Hn Hf; [lia|]. cbn [dec_digits].
  pose proof (Z.mod_pos_bound n 10 ltac:(lia)) as Hm.
  assert (0 <= n / 10) by (apply Z.div_pos; lia).
  destruct (n / 10 =? 0) eqn:E; zbool.
  - rewrite take_digits_cons by lia. f_equal. zdm.
  - assert (n / 10 < 10 ^ Z.of_nat f).
    { apply Z.div_lt_upper_bound; [lia|]. rewrite <- Z.pow_succ_r by lia. rewrite <- Nat2Z.inj_succ. lia. }
    destruct f as [|f]; [simpl in *; lia|].
    rewrite IH by lia. rewrite take_digits_cons by lia. f_equal. zdm.
Qed.

Lemma take_digits_pad k l : take_digits 0 (replicate k (digit 0) ++ l) = take_digits 0 l.
Proof. induction k as [|k IH]; [done|]. simpl replicate. rewrite <- app_comm_cons, take_digits_cons by lia. done. Qed.

Lemma dec_digits_app f n l : dec_digits f n l = dec_digits f n [] ++ l.
Proof.
  revert n l. induction f as [|f IH]; intros n l; [done|]. cbn [dec_digits].
  destruct (n / 10 =? 0); [done|]. rewrite IH, (IH _ [_]). by rewrite <- app_assoc.
Qed.

Lemma dec_digits_forall f n : 0 <= n -> Forall (fun c => isdigit c = true) (dec_digits f n []).
Proof.
  revert n. induction f as [|f IH]; intros n Hn; [done|]. cbn [dec_digits].
  pose proof (Z.mod_pos_bound n 10 ltac:(lia)).
  destruct (isdigit_digit (n mod 10)) as [Hd _]; [lia|]. destruct (n / 10 =? 0).
  - by constructor.
  - rewrite dec_digits_app. apply Forall_app. split; [apply IH, Z.div_pos; lia | by constructor].
Qed.

(** Numbers of the widths that the programs print. *)
Lemma fmt_d_value n l : 0 <= n < 2 ^ 64 -> take_digits 0 (fmt_d n ++ l) = take_digits n l.
Proof.
  intros Hn. unfold fmt_d. rewrite <- dec_digits_app. apply take_digits_dec; [|lia].
  split; [lia|]. eapply Z.lt_trans; [apply Hn|]. reflexivity.
Qed.

Lemma fmt_d_digits n : 0 <= n -> Forall (fun c => isdigit c = true) (fmt_d n).
Proof. apply dec_digits_forall. Qed.

Lemma dec_digits_nonempty f n l : (0 < f)%nat -> dec_digits f n l <> [].
Proof.
  destruct f as [|f]; [lia|]. intros _. cbn [dec_digits]. destruct (n / 10 =? 0); [done|].
  rewrite dec_digits_app. by destruct (dec_digits _ _ []).
Qed.

Lemma fmt_d_head n l : 0 <= n -> exists c r, fmt_d n ++ l = c :: r /\ isdigit c = true.
Proof.
  intros Hn. pose proof (fmt_d_digits n Hn) as H. destruct (fmt_d n) as [|c r] eqn:E.
  - by apply dec_digits_nonempty in E; [|lia].
  - apply Forall_cons in H as [Hc _]. by exists c, (r ++ l).
Qed.

Lemma fmt_0d_digits w n : 0 <= n -> Forall (fun c => isdigit c = true) (fmt_0d w n).
Proof.
  intros Hn. unfold fmt_0d. destruct (n <? 0) eqn:E; zbool; [lia|]. apply Forall_app. split.
  - apply Forall_replicate. reflexivity.
  - by apply fmt_d_digits.
Qed.

Lemma fmt_0d_inj w n m : 0 <= n < 2 ^ 64 -> 0 <= m < 2 ^ 64 -> fmt_0d w n = fmt_0d w m -> n = m.
Proof.
  intros Hn Hm H. assert (forall k, 0 <= k < 2 ^ 64 -> take_digits 0 (fmt_0d w k) = (k, [])) as Hv.
  { intros k Hk. unfold fmt_0d. destruct (k <? 0) eqn:E; zbool; [lia|]. rewrite take_digits_pad.
    rewrite <- (app_nil_r (fmt_d k)), fmt_d_value by done. done. }
  pose proof (Hv n Hn). rewrite H, Hv in H0 by done. by simplify_eq.
Qed.

(** Two words that end in digits after the same separator, which is no digit, agree on both
    sides of it. *)
Lemma app_sep_inj (p q d e : cstring) c :
  isdigit c = false -> Forall (fun c => isdigit c = true) d -> Forall (fun c => isdigit c = true) e ->
  p ++ c :: d = q ++ c :: e -> p = q /\ d = e.
Proof.
  intros Hc Hd He. revert q. induction p as [|a p IH]; intros [|b q] H; simpl in H.
  - by simplify_eq.
  - exfalso. simplify_eq. rewrite Forall_app, Forall_cons in Hd. destruct Hd as (_ & Hx & _). congruence.
  - exfalso. simplify_eq. rewrite Forall_app, Forall_cons in He. destruct He as (_ & Hx & _). congruence.
  - injection H as -> H. by destruct (IH _ H) as [-> ->].
Qed.

(** The files of a recording are pairwise different: the name determines the directory and
    the block number. *)
Lemma file_name_inj p q n m :
  0 <= n < 2 ^ 64 -> 0 <= m < 2 ^ 64 -> file_name p n = file_name q m -> p = q /\ n = m.
Proof.
  intros Hn Hm H. unfold file_name, str in H. cbn [String.list_ascii_of_string] in H.
  match type of H with _ ++ [?x; ?y; ?z; ?t; ?u] ++ _ = _ =>
    change (p ++ [x; y; z; t] ++ u :: fmt_0d 5 n = q ++ [x; y; z; t] ++ u :: fmt_0d 5 m) in H end.
  rewrite !(app_assoc _ _ (_ :: _)) in H. apply app_sep_inj in H as [H1 H2];
    [| reflexivity | by apply fmt_0d_digits; lia | by apply fmt_0d_digits; lia].
  apply fmt_0d_inj in H2; [|done..]. by apply app_inv_tail in H1.
Qed.

(** *** What a loaded table guarantees *)
Definition good_path (p : cstring) : Prop :=
  p <> [] /\ zlen p <= 1023 /\ Forall (fun c => isspace c = false) p.

Lemma take_word_nospace l : Forall (fun c => isspace c = false) (take_word l).1.
Proof.
  induction l as [|c l IH]; [done|]. simpl. destruct (isspace c) eqn:E; [done|].
  destruct (take_word l). by constructor.
Qed.

Lemma scan_s_good l w : scan_s l = Some w -> w <> [] /\ Forall (fun c => isspace c = false) w.
Proof.
  unfold scan_s. pose proof (take_word_nospace (skip_space l)) as H. destruct (take_word _) as [[|c v] r]; [done|].
  intros [= <-]. done.
Qed.

Lemma read_paths_good n i stream paths paths' :
  read_paths n i stream paths = inl paths' ->
  forall j, (i <= j < i + Z.of_nat n -> good_path (paths' j)) /\
            (~ (i <= j < i + Z.of_nat n) -> paths' j = paths j).
Proof.
  revert i stream paths. induction n as [|n IH]; intros i stream paths H j; simpl in H.
  { simplify_eq. split; [lia|done]. }
  repeat (case_match; simplify_eq). zbool.
  match goal with H : scan_s _ = Some _ |- _ => apply scan_s_good in H as [? ?] end. subst.
  destruct (IH _ _ _ H j) as [Hj1 Hj2]. destruct (decide (j = z)) as [->|].
  - rewrite Hj2, fn_lookup_insert by lia. split; [|lia]. intros _. unfold good_path, PATH_SIZE in *.
    split_and!; [done|lia|done].
  - split; intros Hj; [apply Hj1; lia|]. rewrite Hj2 by lia. by rewrite fn_lookup_insert_ne by done.
Qed.

Lemma loaded_bounds cfg t : read_disk_table cfg = Loaded t -> num_writers t <= NUM_BUCKETS - 2 /\ 0 < max_blocks t.
Proof.
  intros H. unfold read_disk_table in H. repeat (case_match; simplify_eq). zbool. simpl. lay.
Qed.

(** C14. A table that loads is usable by the writers: at most [NUM_BUCKETS - 2] of them, at
    least one block each, and for every writer a non-empty path without white space that
    fits its array; the other entries are empty. *)
Theorem read_disk_table_valid cfg t :
  read_disk_table cfg = Loaded t ->
  num_writers t <= NUM_BUCKETS - 2 /\ 0 < max_blocks t /\
  (forall i, 0 <= i < num_writers t -> good_path (writer_path t i)) /\
  (forall i, ~ (0 <= i < num_writers t) -> writer_path t i = []).
Proof.
  intros H. unfold read_disk_table in H. repeat (case_match; simplify_eq). zbool. simpl.
  match goal with H : read_paths _ _ _ _ = _ |- _ => pose proof (read_paths_good _ _ _ _ _ H) as Hp end.
  unfold NUM_BUCKETS. split_and!; [lia|lia| |]; intros i Hi; apply Hp; lia.
Qed.

(** *** The table of a well-formed configuration file *)
Definition render_line (i : Z) (path : cstring) : cstring := fmt_d i ++ SPACE :: path ++ [NEWLINE].
Fixpoint render_paths (n : nat) (i : Z) (paths : Z -> cstring) : cstring :=
  match n with O => [] | S n => render_line i (paths i) ++ render_paths n (i + 1) paths end.
Definition render (nw mb : Z) (paths : Z -> cstring) : cstring :=
  (fmt_d nw ++ SPACE :: fmt_d mb ++ [NEWLINE]) ++ render_paths (Z.to_nat nw) 0 paths.

(** Neither a line end nor the end of the string. *)
Definition plain (c : ascii) : Prop := code c <> 10 /\ code c <> 0.

Lemma digit_plain c : isdigit c = true -> plain c /\ isspace c = false.
Proof. unfold isdigit, isspace, plain. intros H. zbool. split; [lia|]. apply orb_false_iff. split; lia. Qed.

Lemma digits_plain l : Forall (fun c => isdigit c = true) l -> Forall plain l.
Proof. intros H. eapply Forall_impl; [exact H|]. intros c Hc. by apply digit_plain. Qed.

Lemma read_line_end room l r :
  Forall plain l -> (length l < room)%nat -> read_line room (l ++ NEWLINE :: r) = (l ++ [NEWLINE], r).
Proof.
  revert room. induction l as [|c l IH]; intros [|room] Hl Hr; simpl in *; try lia; [done|].
  apply Forall_cons in Hl as [[Hc _] Hl]. apply Z.eqb_neq in Hc as ->. by rewrite IH by (done || lia).
Qed.

Lemma c_str_line l : Forall plain l -> c_str (l ++ [NEWLINE]) = l ++ [NEWLINE].
Proof. induction 1 as [|c l [_ Hc] _ IH]; [done|]. simpl. apply Z.eqb_neq in Hc as ->. by rewrite IH. Qed.

Lemma strtol_digits n l : 0 <= n < 2 ^ 63 -> head_digit l = false -> strtol (fmt_d n ++ l) = Some (n, l).
Proof.
  intros Hn Hl. pose proof (fmt_d_value n l ltac:(lia)) as Hv.
  destruct (fmt_d_head n l ltac:(lia)) as (c & r & Hcr & Hc). unfold strtol. rewrite Hcr in *.
  destruct (digit_plain c Hc) as [_ Hs]. simpl. rewrite Hs. unfold isdigit in Hc. zbool.
  rewrite (proj2 (Z.eqb_neq (code c) 45)), (proj2 (Z.eqb_neq (code c) 43)) by lia. simpl.
  assert (isdigit c = true) as -> by (unfold isdigit; apply andb_true_iff; split; lia).
  simpl in Hv. assert (isdigit c = true) as E by (unfold isdigit; apply andb_true_iff; split; lia).
  rewrite E in Hv. rewrite Hv. destruct l as [|d l]; simpl in *; [|rewrite Hl];
    do 2 f_equal; unfold clamp_long; lia.
Qed.

Lemma scan_d_digits n l : 0 <= n < 2 ^ 31 -> head_digit l = false -> scan_d (fmt_d n ++ l) = Some (n, l).
Proof. intros Hn Hl. unfold scan_d. rewrite strtol_digits by (done || lia). by rewrite s32_small by lia. Qed.

Lemma take_word_end p r :
  Forall (fun c => isspace c = false) p -> take_word (p ++ NEWLINE :: r) = (p, NEWLINE :: r).
Proof. induction 1 as [|c p Hc _ IH]; [done|]. simpl. by rewrite Hc, IH. Qed.

Lemma scan_s_word p : p <> [] -> Forall (fun c => isspace c = false) p -> scan_s (SPACE :: p ++ [NEWLINE]) = Some p.
Proof.
  intros Hne Hp. unfold scan_s. destruct p as [|c p]; [done|]. simpl. pose proof (take_word_end _ [] Hp) as Hw.
  apply Forall_cons in Hp as [Hc _]. rewrite Hc. simpl in *. rewrite Hc in *. by rewrite Hw.
Qed.

Lemma fmt_d_length n : (length (fmt_d n) <= 20)%nat.
Proof.
  unfold fmt_d. generalize 20%nat. intros f.
  enough (forall l, length (dec_digits f n l) <= f + length l)%nat as H by (specialize (H []); simpl in *; lia).
  revert n. induction f as [|f IH]; intros n l; [done|]. cbn [dec_digits].
  destruct (n / 10 =? 0); [simpl; lia|]. etrans; [apply IH|]. simpl. lia.
Qed.

Lemma fgets_line l r : Forall plain l -> (length l <= 1197)%nat ->
  fgets BUFFER (l ++ [NEWLINE] ++ r) = Some (l ++ [NEWLINE], r).
Proof.
  intros Hl Hn. unfold fgets. simpl ([NEWLINE] ++ r). rewrite read_line_end by (done || unfold BUFFER; lia). by destruct l.
Qed.

(** A path that a line of the file can carry. *)
Definition clean_path (p : cstring) : Prop := good_path p /\ Forall plain p.

Lemma read_paths_render n i paths tab :
  0 <= i -> i + Z.of_nat n < 2 ^ 31 -> (forall j, i <= j < i + Z.of_nat n -> clean_path (paths j)) ->
  exists tab', read_paths n i (render_paths n i paths) tab = inl tab' /\
    forall j, i <= j < i + Z.of_nat n -> tab' j = paths j.
Proof.
  revert i tab. induction n as [|n IH]; intros i tab Hi Hb Hg; [exists tab; split; [done|lia]|].
  destruct (Hg i ltac:(lia)) as [(Hne & Hlen & Hsp) Hpl].
  assert (Forall plain (fmt_d i ++ SPACE :: paths i)) as Hline.
  { apply Forall_app. split; [by apply digits_plain, fmt_d_digits|]. by constructor; [split|]. }
  cbn [render_paths read_paths]. unfold render_line. rewrite app_comm_cons, app_assoc, <- app_assoc.
  rewrite fgets_line; [|done|pose proof (fmt_d_length i); rewrite length_app; unfold zlen in Hlen; simpl; lia].
  rewrite c_str_line, <- app_assoc, scan_d_digits by (done || lia). rewrite <- app_comm_cons, scan_s_word by done.
  rewrite (proj2 (Z.leb_gt _ _)) by (unfold PATH_SIZE; lia). rewrite Z.eqb_refl. cbn [negb].
  assert ((zlen (paths i) =? 0) || (zlen (paths i) >? 1023) = false) as ->.
  { apply orb_false_iff. split; [apply Z.eqb_neq; unfold zlen; destruct (paths i); simpl; [done|lia]|lia]. }
  destruct (IH (i + 1) (<[i:=paths i]> tab)) as (tab' & Hr & Ht); [lia|lia|intros; apply Hg; lia|].
  exists tab'. split; [done|]. intros j Hj. destruct (decide (j = i)) as [->|]; [|apply Ht; lia].
  destruct (read_paths_good _ _ _ _ _ Hr i) as [_ ->]; [|lia]. by rewrite fn_lookup_insert.
Qed.

Lemma read_table_header nw mb stream :
  0 <= nw <= NUM_BUCKETS - 2 -> 0 < mb < 2 ^ 31 ->
  read_disk_table (Some ((fmt_d nw ++ SPACE :: fmt_d mb ++ [NEWLINE]) ++ stream)) =
  match read_paths (Z.to_nat nw) 0 stream (fun _ => []) with
  | inl paths => Loaded (Table nw mb paths)
  | inr (Some d) => TableExit d
  | inr None => Overflow
  end.
Proof.
  intros Hnw Hmb. unfold NUM_BUCKETS in *. unfold read_disk_table.
  assert (Forall plain (fmt_d nw ++ SPACE :: fmt_d mb)) as Hline.
  { apply Forall_app. split; [apply digits_plain, fmt_d_digits; lia|].
    constructor; [by split|apply digits_plain, fmt_d_digits; lia]. }
  rewrite app_comm_cons, app_assoc, <- app_assoc. rewrite fgets_line;
    [|done|pose proof (fmt_d_length nw); pose proof (fmt_d_length mb); rewrite length_app; simpl; lia].
  rewrite c_str_line, <- app_assoc, scan_d_digits by (done || lay).
  assert (scan_d ((SPACE :: fmt_d mb) ++ [NEWLINE]) = Some (mb, [NEWLINE])) as ->.
  { rewrite <- (scan_d_digits mb [NEWLINE]) by (done || lia). done. }
  rewrite (proj2 (Z.leb_gt _ _)) by lay. destruct (nw + 2 >? _) eqn:E; zbool; [lay|].
  rewrite (proj2 (Z.leb_gt mb 0)) by lia.
  done.
Qed.

(** C15. Configuration round trip: the file that lists [nw] writers with their paths, one per
    line, loads as exactly that table. *)
Theorem writer_table_roundtrip nw mb paths :
  0 <= nw <= NUM_BUCKETS - 2 -> 0 < mb < 2 ^ 31 -> (forall i, 0 <= i < nw -> clean_path (paths i)) ->
  exists t, read_disk_table (Some (render nw mb paths)) = Loaded t /\
    num_writers t = nw /\ max_blocks t = mb /\ forall i, 0 <= i < nw -> writer_path t i = paths i.
Proof.
  intros Hnw Hmb Hp. unfold render. rewrite read_table_header by done.
  destruct (read_paths_render (Z.to_nat nw) 0 paths (fun _ => [])) as (tab & -> & Ht);
    [lia|lay|intros; apply Hp; lia|]. eexists. split; [done|]. simpl. split_and!; [done|done|].
  intros i Hi. apply Ht. lia.
Qed.

(** The check of the path's length comes too late: a line whose path has 1024 characters
    or more, which [fgets] delivers whole, has overflowed [path] when its length is tested. *)
Theorem long_path_overflows nw mb p paths :
  0 < nw <= NUM_BUCKETS - 2 -> 0 < mb < 2 ^ 31 -> Forall (fun c => isspace c = false) p ->
  Forall plain p -> 1024 <= zlen p <= 1190 -> paths 0 = p ->
  read_disk_table (Some (render nw mb paths)) = Overflow.
Proof.
  intros Hnw Hmb Hsp Hpl Hlen Hp. unfold render. rewrite read_table_header by (done || lia).
  replace (Z.to_nat nw) with (S (Z.to_nat (nw - 1))) by lia. cbn [render_paths read_paths]. rewrite Hp.
  unfold render_line. rewrite app_comm_cons, app_assoc, <- app_assoc. change (fmt_d 0) with (str "0").
  rewrite fgets_line; [|by repeat constructor|unfold zlen in Hlen; simpl; lia].
  rewrite c_str_line by (by repeat constructor). change (str "0") with (fmt_d 0).
  rewrite <- app_assoc, scan_d_digits by (done || lia). rewrite <- app_comm_cons, scan_s_word;
    [|intros ->; unfold zlen in Hlen; simpl in Hlen; lia|done].
  rewrite (proj2 (Z.leb_le _ _)) by (unfold PATH_SIZE; lia). done.
Qed.

(** *** Witnesses *)

(** The table that the repository ships as [writer_info.cfg]. *)
Definition shipped_path (i : Z) : cstring :=
  str (match Z.to_nat i with
       | 0 | 4 | 6 | 10 => "/mnt/sda" | 2 | 8 => "/mnt/sdc" | 3 | 9 => "/mnt/sdd"
       | _ => "/home/phongle/sdb" end%nat).
Definition shipped_cfg : cstring := render 12 50 shipped_path.

Lemma read_disk_table_valid_witness :
  exists t, read_disk_table (Some shipped_cfg) = Loaded t /\
    num_writers t <= NUM_BUCKETS - 2 /\ good_path (writer_path t 5).
Proof.
  assert (exists t, read_disk_table (Some shipped_cfg) = Loaded t /\ num_writers t = 12) as (t & Ht & Hn)
    by (eexists; split; [vm_compute; reflexivity | reflexivity]).
  exists t. split; [exact Ht|]. destruct (read_disk_table_valid _ _ Ht) as (H1 & _ & H2 & _).
  split; [exact H1|]. apply H2. rewrite Hn. lia.
Defined.

Lemma clean_sda : clean_path (str "/mnt/sda").
Proof. split; [split; [done|split; [done|]]|]; repeat constructor; try done; split; done. Qed.

Lemma writer_table_roundtrip_witness :
  exists t, read_disk_table (Some (render 2 7 (fun _ => str "/mnt/sda"))) = Loaded t /\
    num_writers t = 2 /\ max_blocks t = 7 /\ forall i, 0 <= i < 2 -> writer_path t i = str "/mnt/sda".
Proof.
  apply (writer_table_roundtrip 2 7 (fun _ => str "/mnt/sda")); [lay | lia |].
  intros _ _. exact clean_sda.
Defined.

Lemma long_path_overflows_witness :
  read_disk_table (Some (render 1 7 (fun _ => replicate 1100 (digit 1)))) = Overflow.
Proof.
  apply (long_path_overflows 1 7 (replicate 1100 (digit 1))); [lay | lia | | | | reflexivity].
  - apply Forall_replicate. reflexivity.
  - apply Forall_replicate. split; discriminate.
  - unfold zlen. rewrite length_replicate. lia.
Defined.
