(* ===== verification/Files.v ===== *)
(** * Files

    Regular files as the programs use them: [open], [read], [write] and [lseek] of the C
    library on byte images, and the image of a bucket that a disk writer produces. A file
    is its size with the byte at each offset. *)
From S2P Require Import Prelude Layout DiskTable.

Record file := File { f_size : Z; f_byte : Z -> Z }.
Abbreviation fsys := (gmap cstring file).
Definition empty_file : file := File 0 (fun _ => 0).

(** [open (name, O_WRONLY | O_CREAT)]: an existing file keeps its content. *)
Definition fs_create (name : cstring) (fs : fsys) : fsys :=
  match fs !! name with Some _ => fs | None => <[name := empty_file]> fs end.

(** [write] of [n] bytes of [buf] at offset [pos]. *)
Definition file_write (pos n : Z) (buf : Z -> Z) (f : file) : file :=
  File (Z.max (f_size f) (pos + n))
    (fun o => if (pos <=? o) && (o <? pos + n) then buf (o - pos) else f_byte f o).
Definition fs_write (name : cstring) (pos n : Z) (buf : Z -> Z) (fs : fsys) : fsys :=
  match fs !! name with Some f => <[name := file_write pos n buf f]> fs | None => fs end.

(** [read] of at most [n] bytes at offset [pos]: how many there are, and the memory after
    they have been stored at [dst]. *)
Definition read_count (f : file) (pos n : Z) : Z := Z.max 0 (Z.min n (f_size f - pos)).
Definition read_into (mem : Z -> Z) (dst : Z) (f : file) (pos n : Z) : Z -> Z :=
  fun a => if (dst <=? a) && (a <? dst + read_count f pos n) then f_byte f (pos + (a - dst)) else mem a.

(** ** The file of a block: the length block, then the packet data *)
Definition IMAGE_SIZE : Z := LEN_BLOCK_SIZE + DATA_SIZE.
Definition image_byte (bi : bucket_info) (data : Z -> Z) (o : Z) : Z :=
  if o <? LEN_BLOCK_SIZE then bucket_byte bi o else data (o - LEN_BLOCK_SIZE).

(** [f] is the file of a block with the header and length table [bi] and the data [data]. *)
Definition block_file (f : file) (bi : bucket_info) (data : Z -> Z) : Prop :=
  f_size f = IMAGE_SIZE /\ forall o, 0 <= o < IMAGE_SIZE -> f_byte f o = image_byte bi data o.

(** ** Lemmas *)
Lemma fs_create_lookup name fs : exists f, fs_create name fs !! name = Some f.
Proof.
  unfold fs_create. destruct (fs !! name) eqn:E; [by eexists|]. exists empty_file. by rewrite lookup_insert_eq.
Qed.

Lemma fs_create_size name fs f :
  (forall f, fs !! name = Some f -> 0 <= f_size f <= IMAGE_SIZE) -> fs_create name fs !! name = Some f ->
  0 <= f_size f <= IMAGE_SIZE.
Proof.
  unfold fs_create. intros H. destruct (fs !! name) as [f0|] eqn:E.
  - rewrite E. intros [= <-]. by apply H.
  - rewrite lookup_insert_eq. intros [= <-]. done.
Qed.

Lemma fs_create_other name name' fs : name <> name' -> fs_create name fs !! name' = fs !! name'.
Proof. intros H. unfold fs_create. destruct (fs !! name); [done|]. by rewrite lookup_insert_ne. Qed.

Lemma fs_write_lookup name pos n buf fs f :
  fs !! name = Some f -> fs_write name pos n buf fs !! name = Some (file_write pos n buf f).
Proof. intros H. unfold fs_write. by rewrite H, lookup_insert_eq. Qed.

Lemma fs_write_other name name' pos n buf fs :
  name <> name' -> fs_write name pos n buf fs !! name' = fs !! name'.
Proof. intros H. unfold fs_write. destruct (fs !! name); [|done]. by rewrite lookup_insert_ne. Qed.

(** What a file holds after part of the image has been written in order. *)
Record image_prefix (f : file) (bi : bucket_info) (data : Z -> Z) (upto : Z) : Prop := {
  ip_size : upto <= f_size f <= IMAGE_SIZE;
  ip_bytes : forall o, 0 <= o < upto -> f_byte f o = image_byte bi data o
}.

Lemma image_prefix_write f bi data upto n buf :
  image_prefix f bi data upto -> 0 <= upto -> 0 <= n -> upto + n <= IMAGE_SIZE ->
  (forall o, 0 <= o < n -> buf o = image_byte bi data (upto + o)) ->
  image_prefix (file_write upto n buf f) bi data (upto + n).
Proof.
  intros [Hs Hb] H0 Hn Hi Hbuf. constructor; cbn [file_write f_size f_byte]; [lia|].
  intros o Ho. destruct ((upto <=? o) && (o <? upto + n)) eqn:E.
  - zbool. rewrite Hbuf by lia. f_equal. lia.
  - apply Hb. apply andb_false_iff in E. destruct E; zbool; lia.
Qed.

Lemma image_prefix_full f bi data : image_prefix f bi data IMAGE_SIZE -> block_file f bi data.
Proof. intros [Hs Hb]. split; [lia|done]. Qed.

(** Reading back: the bytes that [read] stores in memory. *)
Lemma read_into_in mem dst f pos n a :
  0 <= pos -> dst <= a < dst + n -> pos + n <= f_size f -> read_into mem dst f pos n a = f_byte f (pos + (a - dst)).
Proof.
  intros Hp Ha Hs. unfold read_into, read_count.
  destruct ((dst <=? a) && _) eqn:E; [done|]. apply andb_false_iff in E. destruct E; zbool; lia.
Qed.

Lemma read_into_out mem dst f pos n a :
  0 <= n -> ~ (dst <= a < dst + n) -> read_into mem dst f pos n a = mem a.
Proof.
  intros Hn Ha. unfold read_into, read_count.
  destruct ((dst <=? a) && _) eqn:E; [|done]. zbool. lia.
Qed.
