(* ===== verification/ToDisk.v ===== *)
(** * The disk writers ([application_ixgbe/todisk.c])

    [num_writers] copies of [todisk] run beside the capture threads. Writer [id] copies the
    blocks [id], [id + num_writers], ... of the recording, which it finds in the reserved
    buckets in the same order, to the files of its directory. *)
From S2P Require Import Prelude Layout DiskTable Files Capture.

Definition is_magic_ok (g : global_share) : bool := (magic1 g =? MAGIC1) && (magic2 g =? MAGIC2).
Definition read_user_stop (g : global_share) : Z := issue_stop g.

(** What the system answers at one step: whether a call succeeds, how many bytes [write]
    has written, the value of [time]. *)
Record sys := Sys { sys_ok : bool; sys_wrote : Z; sys_now : Z }.

Inductive td_out :=
| OUsage                                (* todisk <writer_ID> [debug] *)
| OTable (d : table_diag)
| OBadId (hi : Z)                       (* writer_ID must be in [0,%d] *)
| OPerror (what : string)
| OStall (id : Z)                       (* writer#%3d detects disk stalling, terminates *)
| OCannotOpen (name : cstring)
| OThroughput (id file_count : Z)
| OLast (id file_count : Z)             (* writer#%3d writes last bucket#%d *)
| OTerminates (id : Z).

Inductive td_pc :=
| TOpenDev | TMapShare | TMagic
| TTop                          (* again0: if (read_user_stop () != 0 && delay_stop++ > 2) *)
| TMapLen
| TPoll                         (* while (num_captured == 0) { sleep_50ms (); end_cnt++; *)
| TPollStop                     (*   if (read_user_stop () != 0 && end_cnt > 40) *)
| TUnmapWait                    (*     munmap; goto again0 *)
| TStall | TStallFlag           (* if (end_cnt == 0 && delay_stop == 0) { .. } *)
| TOpenFile | TStamp | TWriteLen | TReadLast | TClear | TUnmapLen
| TMapData | TWriteData | TUnmapData   (* for (i = 0; i < 31; i++) *)
| TClose | TNext
| TEnd | TUnmapShare | TCloseDev
| TExit (code : Z) | TCrash.    (* TCrash: fname overflows *)

Record writer := Writer {
  w_pc : td_pc; w_table : table; w_debug : bool; w_id : Z; w_cur : Z; w_file_count : Z;
  w_blocks : Z; w_end_cnt : Z; w_delay_stop : Z; w_stalled : Z; w_last : Z; w_i : Z;
  w_pos : Z;                    (* file offset of fout *)
  w_out : list td_out
}.

Definition w_goto pc w := Writer pc (w_table w) (w_debug w) (w_id w) (w_cur w) (w_file_count w)
  (w_blocks w) (w_end_cnt w) (w_delay_stop w) (w_stalled w) (w_last w) (w_i w) (w_pos w) (w_out w).
Definition w_print o w := Writer (w_pc w) (w_table w) (w_debug w) (w_id w) (w_cur w) (w_file_count w)
  (w_blocks w) (w_end_cnt w) (w_delay_stop w) (w_stalled w) (w_last w) (w_i w) (w_pos w) (w_out w ++ [o]).
Definition w_set_end_cnt v w := Writer (w_pc w) (w_table w) (w_debug w) (w_id w) (w_cur w) (w_file_count w)
  (w_blocks w) v (w_delay_stop w) (w_stalled w) (w_last w) (w_i w) (w_pos w) (w_out w).
Definition w_set_delay_stop v w := Writer (w_pc w) (w_table w) (w_debug w) (w_id w) (w_cur w) (w_file_count w)
  (w_blocks w) (w_end_cnt w) v (w_stalled w) (w_last w) (w_i w) (w_pos w) (w_out w).
Definition w_set_stalled v w := Writer (w_pc w) (w_table w) (w_debug w) (w_id w) (w_cur w) (w_file_count w)
  (w_blocks w) (w_end_cnt w) (w_delay_stop w) v (w_last w) (w_i w) (w_pos w) (w_out w).
Definition w_set_last v w := Writer (w_pc w) (w_table w) (w_debug w) (w_id w) (w_cur w) (w_file_count w)
  (w_blocks w) (w_end_cnt w) (w_delay_stop w) (w_stalled w) v (w_i w) (w_pos w) (w_out w).
Definition w_set_i v w := Writer (w_pc w) (w_table w) (w_debug w) (w_id w) (w_cur w) (w_file_count w)
  (w_blocks w) (w_end_cnt w) (w_delay_stop w) (w_stalled w) (w_last w) v (w_pos w) (w_out w).
Definition w_set_pos v w := Writer (w_pc w) (w_table w) (w_debug w) (w_id w) (w_cur w) (w_file_count w)
  (w_blocks w) (w_end_cnt w) (w_delay_stop w) (w_stalled w) (w_last w) (w_i w) v (w_out w).
Definition w_set_blocks v w := Writer (w_pc w) (w_table w) (w_debug w) (w_id w) (w_cur w) (w_file_count w)
  v (w_end_cnt w) (w_delay_stop w) (w_stalled w) (w_last w) (w_i w) (w_pos w) (w_out w).
Definition w_set_block cur fc w := Writer (w_pc w) (w_table w) (w_debug w) (w_id w) cur fc
  (w_blocks w) (w_end_cnt w) (w_delay_stop w) (w_stalled w) (w_last w) (w_i w) (w_pos w) (w_out w).

Definition w_name (w : writer) : cstring := file_name (writer_path (w_table w) (w_id w)) (w_file_count w).
Definition FNAME_SIZE : Z := 1024.   (* char fname [1024] *)

(** [main] up to the first system call: the exit code and the output, or the running
    writer. [args] are the arguments after the program's name. *)
Definition todisk_start (args : list cstring) (cfg : option cstring) : writer + (Z * list td_out) + unit :=
  match args with
  | [] => inl (inr (0, [OUsage]))
  | arg1 :: rest =>
      match read_disk_table cfg with
      | Overflow => inr ()
      | TableExit d => inl (inr (0, [OTable d]))
      | Loaded t =>
          let id := atoi arg1 in
          if (id <? 0) || (id >=? num_writers t) then inl (inr (0, [OBadId (num_writers t - 1)]))
          else
            let debug := match rest with a :: _ => bool_decide (c_str a = str "debug") | [] => false end in
            inl (inl (Writer TOpenDev t debug id 0 0 0 0 0 0 0 0 0 []))
      end
  end.

(** [perror (what); return 1] *)
Definition w_fail (what : string) (w : writer) : writer := w_goto (TExit 1) (w_print (OPerror what) w).

(** [time ((time_t * ) user_stamp)]: the first eight bytes of the stamp. *)
Definition set_time (now : Z) (b : bucket_info) : bucket_info :=
  set_user_stamp (fun i => if (0 <=? i) && (i <? 8) then le_byte now i else user_stamp b i) b.

Definition set_gshare (g : global_share) (s : shared) : shared :=
  Shared (pbm_rx_ring s) (ring s) (rx_tail s) (rx_head s) (dram s) (binfo s) g (next_to_clean s)
    (max_row s) (process_start s) (process_stop s).

(** The bytes that one [write] has appended to the writer's file. *)
Definition w_write (e : sys) (n : Z) (buf : Z -> Z) (fs : fsys) (w : writer) : fsys * writer :=
  let k := Z.max 0 (Z.min (sys_wrote e) n) in
  (fs_write (w_name w) (w_pos w) k buf fs, w_set_pos (w_pos w + k) w).

(** One step of [main]; [None] once the process has ended. *)
Definition td_step (e : sys) (s : shared) (fs : fsys) (w : writer) : option (shared * fsys * writer) :=
  match w_pc w with
  | TOpenDev => Some (s, fs, if sys_ok e then w_goto TMapShare w else w_fail "open" w)
  | TMapShare => Some (s, fs, if sys_ok e then w_goto TMagic w else w_fail "mmap" w)
  | TMagic =>
      if is_magic_ok (gshare s)
      then Some (s, fs, w_goto TTop (w_set_block (START_1G + w_id w) (w_id w) (w_set_stalled 0 w)))
      else Some (s, fs, w)
  | TTop =>
      if truthy (read_user_stop (gshare s)) then
        Some (s, fs, w_goto (if w_delay_stop w >? 2 then TEnd else TMapLen)
                       (w_set_delay_stop (w_delay_stop w + 1) w))
      else Some (s, fs, w_goto TMapLen w)
  | TMapLen => Some (s, fs, if sys_ok e then w_goto TPoll (w_set_end_cnt 0 w) else w_fail "mmap" w)
  | TPoll =>
      if num_captured (binfo s (w_cur w)) =? 0
      then Some (s, fs, w_goto TPollStop (w_set_end_cnt (s32 (w_end_cnt w + 1)) w))
      else Some (s, fs, w_goto TStall w)
  | TPollStop =>
      Some (s, fs, w_goto (if truthy (read_user_stop (gshare s)) && (w_end_cnt w >? 40)
                           then TUnmapWait else TPoll) w)
  | TUnmapWait => Some (s, fs, w_goto (if sys_ok e then TTop else TExit 1) w)
  | TStall =>
      if (w_end_cnt w =? 0) && (w_delay_stop w =? 0)
      then Some (set_gshare (set_issue_stop 1 (gshare s)) s, fs,
                 w_goto TStallFlag (w_print (OStall (w_id w)) w))
      else Some (s, fs, w_goto TOpenFile w)
  | TStallFlag => Some (upd_binfo (w_cur w) (set_stalled 1) s, fs, w_goto TOpenFile (w_set_stalled 1 w))
  | TOpenFile =>
      if FNAME_SIZE <=? zlen (w_name w) then Some (s, fs, w_goto TCrash w)
      else if sys_ok e then Some (s, fs_create (w_name w) fs, w_goto TStamp (w_set_pos 0 w))
      else Some (s, fs, w_goto (TExit 1) (w_print (OCannotOpen (w_name w)) w))
  | TStamp => Some (upd_binfo (w_cur w) (set_time (sys_now e)) s, fs, w_goto TWriteLen w)
  | TWriteLen =>
      let '(fs, w) := w_write e LEN_BLOCK_SIZE (bucket_byte (binfo s (w_cur w))) fs w in
      Some (s, fs, w_goto TReadLast w)
  | TReadLast => Some (s, fs, w_goto TClear (w_set_last (s32 (last (binfo s (w_cur w)))) w))
  | TClear => Some (upd_binfo (w_cur w) (set_num_captured 0) s, fs, w_goto TUnmapLen w)
  | TUnmapLen => Some (s, fs, if sys_ok e then w_goto TMapData (w_set_i 0 w) else w_fail "munmap" w)
  | TMapData =>
      if w_i w <? 31 then Some (s, fs, if sys_ok e then w_goto TWriteData w else w_fail "mmap" w)
      else Some (s, fs, w_goto TClose w)
  | TWriteData =>
      let base := Z.shiftl (w_cur w) 30 + w_i w * 32 * CONST_1M in
      let '(fs, w) := w_write e (32 * CONST_1M) (fun o => dram s (base + o)) fs w in
      Some (s, fs, w_goto TUnmapData w)
  | TUnmapData => Some (s, fs, if sys_ok e then w_goto TMapData (w_set_i (w_i w + 1) w) else w_fail "munmap" w)
  | TClose =>
      Some (s, fs, w_goto TNext (if w_debug w then w_print (OThroughput (w_id w) (w_file_count w)) w else w))
  | TNext =>
      if truthy (w_last w) || truthy (w_stalled w)
      then Some (s, fs, w_goto TEnd (w_print (OLast (w_id w) (w_file_count w)) w))
      else
        let w := w_set_blocks (w_blocks w + 1) w in
        if w_blocks w =? max_blocks (w_table w) then Some (s, fs, w_goto TEnd w)
        else
          let nw := num_writers (w_table w) in
          Some (s, fs, w_goto TTop (w_set_block (START_1G + ((w_cur w - START_1G + nw) %c NUM_BUCKETS))
                                      (s32 (w_file_count w + nw)) w))
  | TEnd => Some (s, fs, w_goto TUnmapShare (w_print (OTerminates (w_id w)) w))
  | TUnmapShare => Some (s, fs, if sys_ok e then w_goto TCloseDev w else w_fail "munmap" w)
  | TCloseDev => Some (s, fs, if sys_ok e then w_goto (TExit 0) w else w_fail "close" w)
  | TExit _ | TCrash => None
  end.

(** ** Theorems *)

(** Split a step of the writer into its branches. *)
Ltac td_cases H :=
  unfold td_step, w_fail, w_write in H;
  repeat (case_match; simplify_eq); simplify_eq/=.

(** Steps that a user program may take. *)
Lemma user_refl s : user_step s s.
Proof. destruct s. by eexists _, _. Qed.
Lemma user_gshare s g : user_step s (set_gshare g s).
Proof. destruct s. by eexists g, _. Qed.
Lemma user_header s i f : (forall b, len (f b) = len b) -> user_step s (upd_binfo i f s).
Proof.
  intros Hf. exists (gshare s), (<[i := f (binfo s i)]> (binfo s)). split; [|by destruct s].
  intros j. rewrite fn_insert_dec. case_decide; [subst; apply Hf|done].
Qed.

(** A writer is one of the user programs that the capture theorems allow for: no step of
    it writes a packet length, packet data, the descriptor ring or a variable of the
    driver. *)
Theorem writer_is_user e s fs w s' fs' w' :
  td_step e s fs w = Some (s', fs', w') -> user_step s s'.
Proof.
  intros H. td_cases H; auto using user_refl, user_gshare; by apply user_header.
Qed.

(** *** Which blocks a writer handles *)

(** The local states that a writer can reach, whatever the system, the driver and the other
    writers do meanwhile. *)
Inductive wreach (args : list cstring) (cfg : option cstring) : writer -> Prop :=
| wreach_start w : todisk_start args cfg = inl (inl w) -> wreach args cfg w
| wreach_step e s fs w s' fs' w' :
    wreach args cfg w -> td_step e s fs w = Some (s', fs', w') -> wreach args cfg w'.

Definition before_loop (pc : td_pc) : bool :=
  match pc with TOpenDev | TMapShare | TMagic => true | _ => false end.
Definition after_loop (pc : td_pc) : bool :=
  match pc with TEnd | TUnmapShare | TCloseDev | TExit _ | TCrash => true | _ => false end.
Definition in_block (pc : td_pc) : bool := negb (before_loop pc) && negb (after_loop pc).

Record writer_inv (t : table) (id : Z) (w : writer) : Prop := {
  wi_table : w_table w = t;
  wi_id : w_id w = id;
  wi_before : before_loop (w_pc w) = true -> w_blocks w = 0;
  wi_block : in_block (w_pc w) = true ->
    0 <= w_blocks w < max_blocks t /\
    w_file_count w = id + w_blocks w * num_writers t /\ w_cur w = bi (w_file_count w)
}.

Section WriterInv.
Context (t : table) (id : Z).
Hypothesis (Hnw : num_writers t <= NUM_BUCKETS - 2) (Hmb : 0 < max_blocks t).
Hypothesis (Hid : 0 <= id < num_writers t).
Hypothesis Hsmall : max_blocks t * num_writers t < 2 ^ 31.

Lemma writer_step_inv e s fs w s' fs' w' :
  writer_inv t id w -> td_step e s fs w = Some (s', fs', w') -> writer_inv t id w'.
Proof using All.
  intros [Ht Hi Hb Hk] H. unfold td_step, w_fail, w_write in H.
  destruct (w_pc w) eqn:Epc; cbn [before_loop in_block after_loop negb andb] in *;
    repeat (case_match; simplify_eq); simplify_eq/=;
    try (constructor; cbn; first [done | congruence | by intros; apply Hk | by intros; apply Hb]).
  - constructor; cbn; [done|done|done|]. intros _. rewrite (Hb eq_refl). split; [lia|]. split; [lia|].
    unfold bi. layout_consts. zdm.
  - by constructor; rewrite ?Epc.
  - constructor; cbn; [done|done|done|]. intros _. destruct (Hk eq_refl) as (Hbl & Hfc & Hcur).
    assert (w_blocks w + 1 < max_blocks (w_table w)) as Hlt by (zbool; lia).
    assert (w_file_count w + num_writers (w_table w)
            = w_id w + (w_blocks w + 1) * num_writers (w_table w)) as Hn by lia.
    assert (0 <= w_file_count w + num_writers (w_table w) < 2 ^ 31) as Hr by nia.
    rewrite s32_small by lia. split; [lia|]. split; [done|]. rewrite Hcur. unfold bi.
    assert (0 <= w_file_count w) by nia. rewrite Z.rem_mod_nonneg by (layout_consts; zdm).
    layout_consts. zdm.
Qed.
End WriterInv.

Lemma todisk_start_inv args cfg w :
  todisk_start args cfg = inl (inl w) ->
  exists t, read_disk_table cfg = Loaded t /\ 0 <= w_id w < num_writers t /\
    w_id w = atoi (hd [] args) /\ writer_inv t (w_id w) w /\ w_pc w = TOpenDev.
Proof.
  unfold todisk_start. intros H. destruct args as [|a rest]; [done|].
  destruct (read_disk_table cfg) as [t| |]; try done. cbv zeta in H.
  destruct ((atoi a <? 0) || (atoi a >=? num_writers t)) eqn:E; [done|]. zbool. simplify_eq.
  exists t. cbn. split_and!; try done; try lia.
Qed.

(** Where a reachable writer stands. *)
Lemma reach_block args cfg t w :
  read_disk_table cfg = Loaded t -> max_blocks t * num_writers t < 2 ^ 31 ->
  wreach args cfg w -> in_block (w_pc w) = true ->
  0 <= atoi (hd [] args) < num_writers t /\ 0 <= w_blocks w < max_blocks t /\
  w_file_count w = atoi (hd [] args) + w_blocks w * num_writers t /\
  w_file_count w mod num_writers t = atoi (hd [] args) /\
  w_cur w = bi (w_file_count w).
Proof.
  intros Ht Hs Hw Hpc. destruct (loaded_bounds _ _ Ht) as [Hnw Hmb].
  assert (0 <= atoi (hd [] args) < num_writers t /\ writer_inv t (atoi (hd [] args)) w) as [Hid Hinv].
  { clear Hpc. induction Hw as [w Hst|e s fs w s' fs' w' _ [Hid IH] Hstep].
    - destruct (todisk_start_inv _ _ _ Hst) as (t' & Ht' & Hid & Heq & Hi & _).
      rewrite Ht in Ht'. injection Ht' as <-. by rewrite <- Heq.
    - split; [done|]. by eapply writer_step_inv. }
  destruct (wi_block _ _ _ Hinv Hpc) as (Hb & Hf & Hc). split_and!; try done; try lia.
  rewrite Hf, Z.mod_add by lia. by apply Z.mod_small.
Qed.

(** The file of the block. *)
Lemma reach_name args cfg t w :
  read_disk_table cfg = Loaded t -> max_blocks t * num_writers t < 2 ^ 31 -> wreach args cfg w -> in_block (w_pc w) = true ->
  w_name w = file_name (writer_path t (w_file_count w mod num_writers t)) (w_file_count w).
Proof.
  intros Ht Hs Hw Hpc. destruct (reach_block _ _ _ _ Ht Hs Hw Hpc) as (_ & _ & _ & Hm & _). unfold w_name. rewrite Hm.
  assert (w_table w = t /\ w_id w = atoi (hd [] args)) as [-> ->]; [|done]. clear Hm Hpc. destruct (loaded_bounds _ _ Ht) as [Hnw Hmb].
  assert (0 <= atoi (hd [] args) < num_writers t /\ writer_inv t (atoi (hd [] args)) w) as [_ [H1 H2 _ _]]; [|done].
  induction Hw as [w Hst|e s fs w s' fs' w' _ [Hid IH] Hstep].
  - destruct (todisk_start_inv _ _ _ Hst) as (t' & Ht' & Hid & Heq & Hi & _). rewrite Ht in Ht'. injection Ht' as <-. by rewrite <- Heq.
  - split; [done|]. by eapply writer_step_inv.
Qed.

(** C11. Which blocks a writer copies.  Writer [id] handles the blocks [id], [id + nw],
    [id + 2 nw], ... in order, fewer than [max_blocks] of them before the current one, and
    looks for block [n] in the memory bucket where the driver puts the [n]-th bucket of a
    capture. *)
Theorem writer_blocks args cfg t w :
  read_disk_table cfg = Loaded t -> max_blocks t * num_writers t < 2 ^ 31 ->
  wreach args cfg w -> in_block (w_pc w) = true ->
  0 <= w_blocks w < max_blocks t /\
  w_file_count w = atoi (hd [] args) + w_blocks w * num_writers t /\
  w_file_count w mod num_writers t = atoi (hd [] args) /\
  w_cur w = bi (w_file_count w).
Proof. intros. by edestruct reach_block. Qed.

(** C10. Writers do not interfere on disk: two writers of one table never have the same file
    open, and a writer never reopens a file for another block. *)
Theorem writers_disjoint args1 args2 cfg t w1 w2 :
  read_disk_table cfg = Loaded t -> max_blocks t * num_writers t < 2 ^ 31 ->
  wreach args1 cfg w1 -> wreach args2 cfg w2 ->
  in_block (w_pc w1) = true -> in_block (w_pc w2) = true -> w_name w1 = w_name w2 ->
  atoi (hd [] args1) = atoi (hd [] args2) /\ w_blocks w1 = w_blocks w2.
Proof.
  intros Ht Hs H1 H2 E1 E2 Hn.
  destruct (reach_block _ _ _ _ Ht Hs H1 E1) as (Hid1 & Hb1 & Hf1 & Hm1 & _).
  destruct (reach_block _ _ _ _ Ht Hs H2 E2) as (Hid2 & Hb2 & Hf2 & Hm2 & _).
  unfold w_name in Hn. apply file_name_inj in Hn as [_ Hc]; [|nia|nia].
  assert (atoi (hd [] args1) = atoi (hd [] args2)) as Heq by congruence. split; [done|]. nia.
Qed.

(** *** The file of a block *)

(** The system call succeeds, and writes everything it is given. *)
Definition full (e : sys) : Prop := sys_ok e = true /\ 32 * CONST_1M <= sys_wrote e.

(** What the driver and the other writers may do while a block is copied: everything but
    touch the bucket [c] and the file [name]. *)
Definition keeps (c : Z) (name : cstring) (s : shared) (fs : fsys) (s' : shared) (fs' : fsys) : Prop :=
  binfo s' c = binfo s c /\
  (forall o, 0 <= o < DATA_SIZE -> dram s' (c * 2 ^ 30 + o) = dram s (c * 2 ^ 30 + o)) /\
  fs' !! name = fs !! name.

(** The copy of one block, from the opening of its file on, with such interference. *)
Inductive block_run (s0 : shared) (fs0 : fsys) (w0 : writer) : shared -> fsys -> writer -> Prop :=
| br_start : block_run s0 fs0 w0 s0 fs0 w0
| br_step e s fs w s' fs' w' :
    block_run s0 fs0 w0 s fs w -> w_pc w <> TNext -> full e ->
    td_step e s fs w = Some (s', fs', w') -> block_run s0 fs0 w0 s' fs' w'
| br_env s fs w s' fs' :
    block_run s0 fs0 w0 s fs w -> keeps (w_cur w0) (w_name w0) s fs s' fs' ->
    block_run s0 fs0 w0 s' fs' w.

Section BlockRun.
Context (s0 : shared) (fs0 : fsys) (w0 : writer).
Hypothesis (Hpc0 : w_pc w0 = TOpenFile).
Hypothesis (Hsz0 : forall f, fs0 !! w_name w0 = Some f -> 0 <= f_size f <= IMAGE_SIZE).
Let c := w_cur w0.
Let name := w_name w0.
Let b0 := binfo s0 c.
Let data := fun o => dram s0 (c * 2 ^ 30 + o).

Definition on_disk (fs : fsys) (b : bucket_info) (upto : Z) : Prop :=
  exists f, fs !! name = Some f /\ image_prefix f b data upto.
Definition M32 : Z := 32 * CONST_1M.

(** What holds at each point of the copy; [b] is the header with its time stamp. *)
Definition copied (s : shared) (fs : fsys) (w : writer) (b : bucket_info) : Prop :=
  match w_pc w with
  | TWriteLen => binfo s c = b /\ w_pos w = 0 /\ on_disk fs b 0
  | TReadLast => binfo s c = b /\ w_pos w = LEN_BLOCK_SIZE /\ on_disk fs b LEN_BLOCK_SIZE
  | TClear => binfo s c = b /\ w_last w = s32 (last b) /\ w_pos w = LEN_BLOCK_SIZE /\
              on_disk fs b LEN_BLOCK_SIZE
  | TUnmapLen => num_captured (binfo s c) = 0 /\ w_last w = s32 (last b) /\
                 w_pos w = LEN_BLOCK_SIZE /\ on_disk fs b LEN_BLOCK_SIZE
  | TMapData => num_captured (binfo s c) = 0 /\ w_last w = s32 (last b) /\ 0 <= w_i w <= 31 /\
                w_pos w = LEN_BLOCK_SIZE + w_i w * M32 /\ on_disk fs b (w_pos w)
  | TWriteData => num_captured (binfo s c) = 0 /\ w_last w = s32 (last b) /\ 0 <= w_i w < 31 /\
                  w_pos w = LEN_BLOCK_SIZE + w_i w * M32 /\ on_disk fs b (w_pos w)
  | TUnmapData => num_captured (binfo s c) = 0 /\ w_last w = s32 (last b) /\ 0 <= w_i w < 31 /\
                  w_pos w = LEN_BLOCK_SIZE + (w_i w + 1) * M32 /\ on_disk fs b (w_pos w)
  | TClose | TNext => num_captured (binfo s c) = 0 /\ w_last w = s32 (last b) /\ on_disk fs b IMAGE_SIZE
  | _ => False
  end.

Record copying (s : shared) (fs : fsys) (w : writer) : Prop := {
  cp_cur : w_cur w = c;
  cp_name : w_name w = name;
  cp_data : forall o, 0 <= o < DATA_SIZE -> dram s (c * 2 ^ 30 + o) = data o;
  cp_phase : (w_pc w = TOpenFile /\ binfo s c = b0 /\ fs !! name = fs0 !! name) \/
             (w_pc w = TStamp /\ binfo s c = b0 /\ w_pos w = 0 /\
              exists f, fs !! name = Some f /\ 0 <= f_size f <= IMAGE_SIZE) \/
             (exists now, copied s fs w (set_time now b0)) \/ w_pc w = TCrash
}.

Lemma on_disk_write fs b pos n buf :
  on_disk fs b pos -> 0 <= pos -> 0 <= n -> pos + n <= IMAGE_SIZE ->
  (forall o, 0 <= o < n -> buf o = image_byte b data (pos + o)) ->
  on_disk (fs_write name pos n buf fs) b (pos + n).
Proof.
  intros (f & Hf & Hp) ? ? ? Hb. exists (file_write pos n buf f).
  split; [by apply fs_write_lookup|]. by apply image_prefix_write.
Qed.

Lemma copying_env s fs w s' fs' : copying s fs w -> keeps c name s fs s' fs' -> copying s' fs' w.
Proof.
  intros [Hc Hn Hd Hp] (Hb & Hm & Hf). constructor; try done.
  - intros o Ho. by rewrite Hm, Hd.
  - rewrite Hb, Hf. destruct Hp as [?|[?|[(now & H)|?]]]; [by left| |right; right; left|by do 3 right].
    + right. left. done.
    + exists now. unfold copied, on_disk in *. by rewrite Hb, Hf.
Qed.

Ltac split_phase := right; right; left; eexists; unfold copied; cbn.

Lemma copying_step e s fs w s' fs' w' :
  copying s fs w -> w_pc w <> TNext -> full e -> td_step e s fs w = Some (s', fs', w') -> copying s' fs' w'.
Proof using Hsz0.
  intros [Hc Hn Hd Hp] Hne [Hok Hwr] H. unfold td_step, w_write in H. rewrite Hok, Hc, Hn in H.
  destruct Hp as [(Epc & Hb & Hf)|[(Epc & Hb & Hp0 & Hf)|[(now & Hcp)|Epc]]].
  - rewrite Epc in H. case_match; simplify_eq.
    + constructor; cbn; try done. by do 3 right.
    + constructor; cbn; try done. right. left. split_and!; try done.
      destruct (fs_create_lookup name fs) as [f Hfl]. exists f. split; [done|].
      eapply fs_create_size; [|exact Hfl]. by rewrite Hf.
  - rewrite Epc in H. simplify_eq. constructor; cbn; try done. split_phase.
    rewrite fn_lookup_insert, Hb. split_and!; [done|done|]. destruct Hf as (f & Hf & Hs).
    exists f. split; [done|]. split; [lia|]. intros; lia.
  - unfold copied in Hcp. destruct (w_pc w) eqn:Epc; try done; simplify_eq.
    + destruct Hcp as (Hb & Hw & Hdk). constructor; cbn; try done. split_phase. rewrite Hw, Hb.
      replace (Z.max 0 _) with LEN_BLOCK_SIZE by lay. split_and!; [done|lia|].
      apply on_disk_write; [done|lia|lay|unfold IMAGE_SIZE, DATA_SIZE; lay|].
      intros o Ho. unfold image_byte. rewrite (proj2 (Z.ltb_lt _ _)) by lia. done.
    + destruct Hcp as (Hb & Hw & Hdk). constructor; cbn; try done. split_phase. rewrite Hb. done.
    + destruct Hcp as (Hb & Hl & Hw & Hdk). constructor; cbn; try done. split_phase.
      by rewrite fn_lookup_insert.
    + destruct Hcp as (Hb & Hl & Hw & Hdk). constructor; cbn; try done. split_phase.
      split_and!; try done; try lia. rewrite Hw. done.
    + destruct Hcp as (Hb & Hl & Hi & Hw & Hdk). case_match; simplify_eq; zbool; constructor; cbn; try done; split_phase.
      * split_and!; try done; lia.
      * split_and!; try done. rewrite Hw in Hdk. replace (w_i w) with 31 in Hdk by lia. done.
    + destruct Hcp as (Hb & Hl & Hi & Hw & Hdk). constructor; cbn; try done. split_phase.
      replace (Z.max 0 _) with M32 by (unfold M32; lay). split_and!; try done; [lia|lia|rewrite Hw; lia|].
      apply on_disk_write; [done|rewrite Hw; unfold M32; lay|unfold M32; lay|
        rewrite Hw; unfold M32, IMAGE_SIZE, DATA_SIZE; lay|].
      intros o Ho. unfold image_byte, M32 in *. rewrite (proj2 (Z.ltb_ge _ _)) by lay.
      rewrite Z.shiftl_mul_pow2 by lia. rewrite <- Hd by (unfold DATA_SIZE; lay). f_equal. lay.
    + destruct Hcp as (Hb & Hl & Hi & Hw & Hdk). constructor; cbn; try done. split_phase.
      split_and!; try done; lia.
    + destruct Hcp as (Hb & Hl & Hdk). destruct (w_debug w); constructor; cbn; try done; by split_phase.
  - by rewrite Epc in H.
Qed.
End BlockRun.

(** The file at the end of the copy. *)
Lemma block_copied s0 fs0 w0 s fs w :
  w_pc w0 = TOpenFile ->
  (forall f, fs0 !! w_name w0 = Some f -> 0 <= f_size f <= IMAGE_SIZE) ->
  block_run s0 fs0 w0 s fs w -> w_pc w = TNext ->
  exists now f, fs !! w_name w0 = Some f /\
    block_file f (set_time now (binfo s0 (w_cur w0))) (fun o => dram s0 (w_cur w0 * 2 ^ 30 + o)) /\
    num_captured (binfo s (w_cur w0)) = 0 /\ w_last w = s32 (last (binfo s0 (w_cur w0))).
Proof.
  intros Hpc0 Hsz Hrun Hpc. assert (copying s0 fs0 w0 s fs w) as [_ _ _ Hp].
  { clear Hpc. induction Hrun as [|e s fs w s' fs' w' _ IH Hne He Hs|s fs w s' fs' _ IH Hk].
    - constructor; try done. by left.
    - by eapply copying_step.
    - by eapply copying_env. }
  destruct Hp as [[? _]|[[? _]|[(now & H)|?]]]; try congruence.
  unfold copied in H. rewrite Hpc in H. destruct H as (Hn & Hl & f & Hf & Hi).
  exists now, f. split_and!; try done. by apply image_prefix_full.
Qed.

(** C5. The file of a block.  When the system calls succeed and every [write] takes all that it
    is given, when nobody else touches the bucket and the file during the copy (the driver
    may do so when it publishes the bucket early, see [captured_published_early]), and when
    an older file of that name is not longer than the image (it is not truncated): at the
    end of the copy the file of the block is exactly the bucket, the length block (with the
    time of the copy) followed by the 992 MB of packet data; the bucket is marked free
    again and the end flag has been noted. *)
Theorem block_written s0 fs0 w0 s fs w :
  w_pc w0 = TOpenFile ->
  (forall f, fs0 !! w_name w0 = Some f -> 0 <= f_size f <= IMAGE_SIZE) ->
  block_run s0 fs0 w0 s fs w -> w_pc w = TNext ->
  exists now f, fs !! w_name w0 = Some f /\
    block_file f (set_time now (binfo s0 (w_cur w0))) (fun o => dram s0 (w_cur w0 * 2 ^ 30 + o)) /\
    num_captured (binfo s (w_cur w0)) = 0 /\ w_last w = s32 (last (binfo s0 (w_cur w0))).
Proof. apply block_copied. Qed.

(** *** Stopping *)

Definition exited (w : writer) : bool :=
  match w_pc w with TExit _ | TCrash => true | _ => false end.

(** The writer after [n] steps; [env k] is what the system answers at step [k] and the memory
    and files it finds. *)
Fixpoint w_run (env : nat -> sys * shared * fsys) (n : nat) (w : writer) : writer :=
  match n with
  | O => w
  | S n => let '(e, s, fs) := env O in
           match td_step e s fs w with
           | Some (_, _, w') => w_run (fun k => env (S k)) n w'
           | None => w
           end
  end.

(** Steps left inside one pass of the outer loop, when [stop] has been issued. *)
Definition polls_left (end_cnt : Z) : Z := Z.max 0 (41 - end_cnt).
Definition pass_left (w : writer) : Z :=
  match w_pc w with
  | TTop => 0 | TMagic => 1 | TMapShare => 2 | TOpenDev => 3
  | TUnmapWait => 1 | TNext => 1 | TClose => 2
  | TMapData => 3 + 3 * Z.max 0 (31 - w_i w)
  | TWriteData => 2 + 3 * Z.max 0 (31 - w_i w)
  | TUnmapData => 1 + 3 * Z.max 0 (31 - w_i w)
  | TUnmapLen => 97 | TClear => 98 | TReadLast => 99 | TWriteLen => 100 | TStamp => 101
  | TOpenFile => 102 | TStallFlag => 103 | TStall => 104
  | TPoll => 107 + 2 * polls_left (w_end_cnt w)
  | TPollStop => if w_end_cnt w >? 40 then 106 else 108 + 2 * polls_left (w_end_cnt w)
  | TMapLen => 190
  | TEnd | TUnmapShare | TCloseDev | TExit _ | TCrash => 0
  end.
Definition steps_left (w : writer) : Z :=
  match w_pc w with
  | TExit _ | TCrash => 0 | TCloseDev => 1 | TUnmapShare => 2 | TEnd => 3
  | _ => 4 + 191 * Z.max 0 (3 - w_delay_stop w) + pass_left w
  end.

Record sane (w : writer) : Prop := {
  sane_delay : 0 <= w_delay_stop w;
  sane_cnt : 0 <= w_end_cnt w < 2 ^ 31;
  sane_poll : w_pc w = TPoll -> w_end_cnt w < 2 ^ 31 - 1;
  sane_i : 0 <= w_i w;
  sane_data : w_pc w = TUnmapData \/ w_pc w = TWriteData -> w_i w < 31
}.

Lemma steps_left_step e s fs w s' fs' w' :
  sane w -> truthy (issue_stop (gshare s)) = true -> is_magic_ok (gshare s) = true ->
  td_step e s fs w = Some (s', fs', w') -> sane w' /\ 0 <= steps_left w' < steps_left w.
Proof.
  intros [Hd Hc Hp Hi Hdt] Hst Hm H. unfold td_step, read_user_stop, w_fail, w_write in H. rewrite Hst, Hm in H.
  destruct (w_pc w) eqn:Epc; simplify_eq/=; try specialize (Hp eq_refl);
    try specialize (Hdt (or_introl eq_refl)); try specialize (Hdt (or_intror eq_refl));
    repeat (case_match; simplify_eq/=); rewrite ?s32_small by lia;
    (split; [constructor; cbn; try done; try lia; try (intros _; zbool; lia); try (intros [?|?]; done) |
      unfold steps_left, pass_left, polls_left; cbn; rewrite ?Epc; zbool; rewrite ?s32_small by lia; split_ifs; try lia]).
Qed.

Lemma td_step_total e s fs w : td_step e s fs w = None -> exited w = true.
Proof. unfold td_step, exited. intros H. by repeat case_match. Qed.

Lemma w_run_exits n w env :
  sane w -> (forall k, truthy (issue_stop (gshare (env k).1.2)) = true /\ is_magic_ok (gshare (env k).1.2) = true) ->
  steps_left w <= Z.of_nat n -> exited (w_run env n w) = true.
Proof.
  revert w env. induction n as [|n IH]; intros w env Hw He Hn; cbn [w_run].
  - unfold steps_left, exited in *. unfold pass_left, polls_left in Hn. destruct Hw.
    repeat case_match; try done; lia.
  - pose proof (He O) as [H1 H2]. destruct (env O) as [[e s] fs]; simpl in *.
    destruct (td_step e s fs w) as [[[s' fs'] w']|] eqn:E; [|by apply td_step_total in E].
    destruct (steps_left_step _ _ _ _ _ _ _ Hw H1 H2 E) as [Hw' Hlt]. apply IH; [done| |lia].
    intros k. apply (He (S k)).
Qed.

(** C12. Stopping terminates every writer.  From any point of a writer's execution, once
    [stop] has been issued the writer has ended after 767 steps of its own, whatever the
    system answers and whatever the driver and the other writers do. *)
Theorem writer_stops w env :
  sane w -> (forall k, truthy (issue_stop (gshare (env k).1.2)) = true /\ is_magic_ok (gshare (env k).1.2) = true) ->
  exited (w_run env 767 w) = true.
Proof.
  intros Hw He. apply w_run_exits; [done|done|]. destruct Hw. unfold steps_left, pass_left, polls_left.
  repeat case_match; lia.
Qed.

(** *** Witnesses *)

Fixpoint td_n (e : sys) (n : nat) (s : shared) (fs : fsys) (w : writer) : option (shared * fsys * writer) :=
  match n with
  | O => Some (s, fs, w)
  | S n => match td_step e s fs w with Some (s, fs, w) => td_n e n s fs w | None => None end
  end.

Definition sys_good : sys := Sys true (32 * CONST_1M) 1400000000.
Definition cfg2 : cstring := render 2 7 (fun _ => str "/mnt/sda").
Definition table2 : table := Table 2 7 (fun i => if (0 <=? i) && (i <? 2) then str "/mnt/sda" else []).

(** A memory in which the first bucket has been captured. *)
Definition mem_captured : shared :=
  Shared true (fun _ => RxDesc 0 0) 0 0 (fun a => a mod 251)
    (fun _ => BucketInfo (fun _ => 0) 5 1 0 4096 (fun _ => 0) (fun i => 60 + i mod 7))
    (GlobalShare MAGIC1 MAGIC2 1 0) 0 0 0 0.
(** Writer 0 right before it opens the file of block 0, after one poll. *)
Definition w_open (cnt : Z) : writer := Writer TOpenFile table2 false 0 START_1G 0 0 cnt 0 0 0 0 0 [].

Lemma td_n_block_run n s0 fs0 w0 s fs w s' fs' w' :
  block_run s0 fs0 w0 s fs w -> td_n sys_good n s fs w = Some (s', fs', w') ->
  (forall k s1 fs1 w1, (k < n)%nat -> td_n sys_good k s fs w = Some (s1, fs1, w1) -> w_pc w1 <> TNext) ->
  block_run s0 fs0 w0 s' fs' w'.
Proof.
  revert s fs w. induction n as [|n IH]; intros s fs w Hr H Hne; simpl in H; [by simplify_eq|].
  destruct (td_step sys_good s fs w) as [[[s1 fs1] w1]|] eqn:E; [|done].
  apply (IH s1 fs1 w1); [|done|].
  - eapply br_step; [exact Hr | | | exact E]; [by apply (Hne O s fs w); [lia|] | split; [done|apply Z.le_refl]].
  - intros k s2 fs2 w2 Hk H2. apply (Hne (S k) s2 fs2 w2); [lia|]. simpl. by rewrite E.
Qed.

(** The program counter after [k] of the steps of the copy. *)
Definition pc_after (k : nat) : option td_pc :=
  match td_n sys_good k mem_captured empty (w_open 1) with Some (_, _, w) => Some (w_pc w) | None => None end.

Lemma pc_after_some k pc :
  pc_after k = Some pc -> exists s fs w,
    td_n sys_good k mem_captured empty (w_open 1) = Some (s, fs, w) /\ w_pc w = pc.
Proof.
  unfold pc_after. destruct (td_n _ k _ _ _) as [[[s fs] w]|]; [|done]. intros [= <-]. by exists s, fs, w.
Qed.

#[export] Instance td_pc_eq_dec : EqDecision td_pc.
Proof. solve_decision. Defined.

Lemma copy_run_pc :
  pc_after 101 = Some TNext /\ forallb (fun k => bool_decide (pc_after k <> Some TNext)) (seq 0 101) = true.
Proof. split; vm_compute; reflexivity. Qed.

Lemma block_written_witness :
  exists s fs w now f,
    block_run mem_captured empty (w_open 1) s fs w /\ w_pc w = TNext /\
    fs !! w_name (w_open 1) = Some f /\
    block_file f (set_time now (binfo mem_captured START_1G)) (fun o => dram mem_captured (START_1G * 2 ^ 30 + o)) /\
    w_last w = 1.
Proof.
  destruct copy_run_pc as [Hend Hne]. apply pc_after_some in Hend as (s & fs & w & E & Hpc).
  exists s, fs, w.
  assert (block_run mem_captured empty (w_open 1) s fs w) as Hr.
  { refine (td_n_block_run 101 _ _ _ _ _ _ _ _ _ (br_start _ _ _) E _).
    intros k s1 fs1 w1 Hk H1 Hpc1. rewrite forallb_forall in Hne.
    specialize (Hne k ltac:(apply in_seq; lia)). apply bool_decide_eq_true in Hne. apply Hne.
    unfold pc_after. by rewrite H1, Hpc1. }
  destruct (block_written mem_captured empty (w_open 1) s fs w) as (now & f & Hf & Hb & _ & Hl);
    [reflexivity | intros f Hf; by rewrite lookup_empty in Hf | exact Hr | exact Hpc |].
  exists now, f. split; [exact Hr|]. split; [exact Hpc|]. split; [exact Hf|]. split; [exact Hb|].
  rewrite Hl. reflexivity.
Defined.

Lemma writer_is_user_witness :
  exists s' fs' w', td_step sys_good mem_captured empty (w_open 1) = Some (s', fs', w') /\
    user_step mem_captured s'.
Proof.
  eexists _, _, _. split; [reflexivity|].
  exact (writer_is_user sys_good mem_captured empty (w_open 1) _ _ _ eq_refl).
Defined.

(** Writer 1, polling for block 1. *)
Definition mem_idle : shared :=
  Shared true (fun _ => RxDesc 0 0) 0 0 (fun _ => 0) (fun _ => BucketInfo (fun _ => 0) 0 0 0 4096 (fun _ => 0) (fun _ => 0))
    (GlobalShare MAGIC1 MAGIC2 1 0) 0 0 0 0.
(** The writer with the argument [arg] after five steps: it polls for its first block. *)
Definition w_polling (arg : cstring) : option writer :=
  match todisk_start [arg] (Some cfg2) with
  | inl (inl w) => match td_n sys_good 5 mem_idle empty w with Some (_, _, w) => Some w | None => None end
  | _ => None
  end.

Lemma td_n_wreach n args cfg s fs w s' fs' w' :
  wreach args cfg w -> td_n sys_good n s fs w = Some (s', fs', w') -> wreach args cfg w'.
Proof.
  revert s fs w. induction n as [|n IH]; intros s fs w Hr H; simpl in H; [by simplify_eq|].
  destruct (td_step sys_good s fs w) as [[[s1 fs1] w1]|] eqn:E; [|done].
  apply (IH s1 fs1 w1); [|done]. by eapply wreach_step.
Qed.

Lemma w_polling_reach arg w : w_polling arg = Some w -> wreach [arg] (Some cfg2) w.
Proof.
  unfold w_polling. destruct (todisk_start _ _) as [[w0|]|] eqn:E; try done.
  destruct (td_n sys_good 5 mem_idle empty w0) as [[[s fs] w1]|] eqn:E1; [|done]. intros [= <-].
  eapply td_n_wreach; [|exact E1]. by apply wreach_start.
Qed.

Lemma cfg2_loads : exists t, read_disk_table (Some cfg2) = Loaded t /\ num_writers t = 2 /\ max_blocks t = 7.
Proof. eexists. split; [vm_compute; reflexivity | split; reflexivity]. Qed.

Lemma writer_blocks_witness :
  exists w, wreach [str "1"] (Some cfg2) w /\ w_pc w = TPoll /\ w_file_count w mod 2 = 1 /\
    w_cur w = bi (w_file_count w).
Proof.
  destruct cfg2_loads as (t & Ht & Hn & Hm).
  assert (exists w, w_polling (str "1") = Some w /\ w_pc w = TPoll) as (w & Hw & Hpc)
    by (eexists; split; [vm_compute; reflexivity | reflexivity]).
  exists w. split; [by apply w_polling_reach|]. split; [exact Hpc|].
  destruct (writer_blocks [str "1"] (Some cfg2) t w) as (_ & _ & H1 & H2);
    [exact Ht | rewrite Hn, Hm; lia | by apply w_polling_reach | by rewrite Hpc |].
  split; [|exact H2]. rewrite <- Hn. rewrite H1. reflexivity.
Defined.

Lemma writers_disjoint_witness :
  exists w1 w2, wreach [str "1"] (Some cfg2) w1 /\ wreach [str " +1"] (Some cfg2) w2 /\
    w_name w1 = w_name w2 /\ atoi (str "1") = atoi (str " +1") /\ w_blocks w1 = w_blocks w2.
Proof.
  destruct cfg2_loads as (t & Ht & Hn & Hm).
  assert (exists w1 w2, w_polling (str "1") = Some w1 /\ w_polling (str " +1") = Some w2 /\
    w_pc w1 = TPoll /\ w_pc w2 = TPoll /\ w_name w1 = w_name w2) as (w1 & w2 & H1 & H2 & P1 & P2 & Hnm)
    by (eexists _, _; split; [vm_compute; reflexivity |
          split; [vm_compute; reflexivity | split; [reflexivity | split; [reflexivity | vm_compute; reflexivity]]]]).
  exists w1, w2. split; [by apply w_polling_reach|]. split; [by apply w_polling_reach|]. split; [exact Hnm|].
  apply (writers_disjoint [str "1"] [str " +1"] (Some cfg2) t w1 w2 Ht);
    [rewrite Hn, Hm; lia | by apply w_polling_reach | by apply w_polling_reach |
     by rewrite P1 | by rewrite P2 | exact Hnm].
Defined.

Lemma writer_stops_witness :
  exited (w_run (fun _ => (sys_good, set_gshare (GlobalShare MAGIC1 MAGIC2 1 1) mem_idle, empty)) 767
            (w_open 1)) = true.
Proof.
  apply writer_stops; [constructor; cbn; [lia | lia | lia | lia | intros [?|?]; discriminate] |].
  intros k. split; reflexivity.
Defined.
