(* ===== verification/Readers.v ===== *)
(** * Reading a recording ([to_libpcap.c], [block2libpcap.c], [dump_packet.c])

    These three programs walk through the files of a recording in the order of the blocks,
    skip the packets before the requested one and hand the following [count] packets to
    [dump_one_packet], which writes them to a libpcap file or prints them. The three copies
    of [dump_packet] and of the loop of [main] differ only in [dump_one_packet] and in the
    first block, so they are instances of one definition here. *)
From S2P Require Import Prelude Layout DiskTable Files.

(** ** Effects and outcomes *)
Inductive event :=
| EUsage
| ETable (d : table_diag)
| EInvalidStart (v : Z) | EInvalidCount (v : Z) | EInvalidBlock (v : Z)
| EPerror (what : string)
| EWrite (bytes : list Z)                (* write (f_pcap, ..) *)
| EBlock (file_count captured total : Z) (* block#%05d  packets=%8d  accum=%12lld *)
| ECannotOpenStore                       (* can not open store.dat *)
| EDumpError | EDumpDone                 (* error: / done: dumping packets *)
| EEndStalled | EEndNormal               (* end of file code=.. *)
| EPacket (num len : Z)                  (* packet# %12ld  len = %d ==> *)
| EHexRow (i : Z) | EHexByte (b : Z) | EEol
| ECannotOpen (name : cstring)           (* count_recorded, block_info *)
| ETime (file_count stamp : Z)
| ECaptured (captured : Z) | EAccum (captured total : Z)
| EThisStalled | EThisNormal.

(** How a program ends. [Crash] stands for undefined behaviour: a division by zero or a
    write past the end of an array. *)
Inductive outcome := Exit (code : Z) | Crash | OutOfFuel.

(** The structure that [bucket_info] points to, 992 MB above [data_ptr]. *)
Definition header (mem : Z -> Z) : bucket_info := bucket_of_bytes (fun o => mem (DATA_SIZE + o)).

(** ** [dump_packet] *)
Definition LOCAL_LEN : Z := 32768.
Definition SLOT_240K : Z := 240 * 1024.

Definition zero_local (n : Z) (local : Z -> Z) : Z -> Z :=
  foldl (fun loc i => <[i := 0]> loc) local (seqZ 0 n).
(** [for (j = 0; j < n; j++) local_len [j] += bucket_info->len [row][j];] *)
Definition add_row (lens : Z -> Z) (row n : Z) (local : Z -> Z) : Z -> Z :=
  foldl (fun loc j => <[j := u32 (loc j + lens (row * NUM_RX_SLOTS + j))]> loc) local (seqZ 0 n).
Definition add_rows (lens : Z -> Z) (rows n : Z) (local : Z -> Z) : Z -> Z :=
  foldl (fun loc i => add_row lens i n loc) local (seqZ 0 rows).

Record dump_st := DumpSt {
  d_local : Z -> Z; d_row : Z; d_partial : Z; d_count : Z; d_processed : Z; d_out : list event
}.
Inductive dump_result := Dumped (processed : Z) (out : list event) | DumpFault | DumpFuel.

(** [emit num_rx_slots data len base cur_row cur_partial] is [dump_one_packet]. *)
Definition emitter : Type := Z -> (Z -> Z) -> Z -> Z -> Z -> Z -> list event.

Section Dump.
Context (emit : emitter) (data : Z -> Z) (b : bucket_info) (nrs base : Z).

(** The body of [while (1)]; [inl] when it returns. *)
Definition dump_body (max_row max_partial : Z) (st : dump_st) : dump_st + dump_st :=
  if (d_row st =? max_row) && (d_partial st =? max_partial) then inl st
  else if d_count st =? 0 then inl st
  else
    let p := d_partial st in
    let l := len b (d_row st * NUM_RX_SLOTS + p) in
    let out := emit nrs (fun i => data (s32 (SLOT_240K * p) + d_local st p + i)) l base (d_row st) p in
    let local := <[p := u32 (d_local st p + l)]> (d_local st) in
    let '(row, partial) := if p + 1 =? nrs then (d_row st + 1, 0) else (d_row st, p + 1) in
    inr (DumpSt local row partial (d_count st - 1) (d_processed st + 1) (d_out st ++ out)).

Fixpoint dump_loop (fuel : nat) (max_row max_partial : Z) (st : dump_st) : option dump_st :=
  match fuel with
  | O => None
  | S fuel => match dump_body max_row max_partial st with
              | inl st => Some st
              | inr st => dump_loop fuel max_row max_partial st
              end
  end.

(** [count] is decremented by each iteration and the callers pass no negative one, so
    [count + 1] iterations are enough. *)
Definition dump_packet (start count : Z) : dump_result :=
  if nrs =? 0 then DumpFault
  else if LOCAL_LEN <? nrs then DumpFault
  else
    let max_row := s32 (num_captured b / u32 nrs) in
    let max_partial := s32 (num_captured b mod u32 nrs) in
    let local := zero_local nrs (fun _ => 0) in
    let cur_row := s32 (start /c nrs) in
    let cur_partial := s32 (start %c nrs) in
    let local := add_rows (len b) cur_row nrs local in
    let local := add_row (len b) cur_row cur_partial local in
    match dump_loop (S (Z.to_nat count)) max_row max_partial
            (DumpSt local cur_row cur_partial count 0 []) with
    | Some st => Dumped (d_processed st) (d_out st)
    | None => DumpFuel
    end.
End Dump.

(** ** [dump_one_packet] *)
Definition bytes_at (data : Z -> Z) (n : Z) : list Z := map data (seqZ 0 n).
Definition le_bytes (n v : Z) : list Z := map (le_byte v) (seqZ 0 n).

(** [struct pcap_hdr_s hdr] and [struct pcaprec_hdr_s] with zero time stamps. *)
Definition pcap_hdr : list Z :=
  le_bytes 4 0xa1b2c3d4 ++ le_bytes 2 0x0002 ++ le_bytes 2 0x0004 ++ le_bytes 4 0 ++
  le_bytes 4 0 ++ le_bytes 4 0x0000ffff ++ le_bytes 4 0x00000001.
Definition pcaprec_hdr (l : Z) : list Z :=
  le_bytes 4 0 ++ le_bytes 4 0 ++ le_bytes 4 l ++ le_bytes 4 l.

Definition pcap_one_packet : emitter := fun _ data l _ _ _ =>
  [EWrite (pcaprec_hdr l); EWrite (bytes_at data l)].

(** [dump_packet.c] prints the packet's number, then 16 bytes to a row. *)
Definition text_one_packet : emitter := fun nrs data l base cur_row cur_partial =>
  EPacket (base + s32 (cur_row * nrs + cur_partial)) l ::
  concat (map (fun i => (if i mod 16 =? 0 then [EHexRow (i / 16)] else []) ++ [EHexByte (data i)]) (seqZ 0 l))
  ++ [EEol].

(** ** The loop of [main] over the files *)
Record scan_st := ScanSt {
  r_mem : Z -> Z; r_file_count : Z; r_writer : Z; r_offs : Z; r_start : Z; r_count : Z; r_total : Z
}.
(** [SNext]: another iteration; [SBreak]: leave the loop; [SReturn]: return from [main]. *)
Inductive scan_next := SNext (st : scan_st) (ev : list event) | SBreak (ev : list event)
| SReturn (code : Z) (ev : list event) | SCrash (ev : list event) | SFuel.

Definition FNAME_SIZE : Z := 256.   (* char fname [256] *)

Section Scan.
Context (emit : emitter) (fs : fsys) (t : table).

Definition scan_step (st : scan_st) : scan_next :=
  let name := file_name (writer_path t (r_writer st)) (r_file_count st) in
  if FNAME_SIZE <=? zlen name then SCrash []
  else if num_writers t =? 0 then SCrash []
  else
    let writer_num := (r_writer st + 1) %c num_writers t in
    match fs !! name with
    | None => SReturn 1 [ECannotOpenStore]
    | Some f =>
        let mem := read_into (r_mem st) DATA_SIZE f 0 CONST_1K in
        let b := header mem in
        let nrs := s32 (num_rx_slots b) in
        let total := s64 (r_total st + num_captured b) in
        let ev := [EBlock (r_file_count st) (num_captured b) total] in
        let file_count := s32 (r_file_count st + 1) in
        if r_start st >=? num_captured b then
          SNext (ScanSt mem file_count writer_num (s64 (r_offs st + num_captured b))
                   (r_start st - num_captured b) (r_count st) total) ev
        else
          let mem := read_into mem DATA_SIZE f 0 LEN_BLOCK_SIZE in
          let mem := read_into mem 0 f (read_count f 0 LEN_BLOCK_SIZE) DATA_SIZE in
          let b := header mem in
          match dump_packet emit mem b nrs (r_offs st) (r_start st) (r_count st) with
          | DumpFault => SCrash ev
          | DumpFuel => SFuel
          | Dumped processed out =>
              let ev := ev ++ out in
              if processed <=? 0 then SBreak (ev ++ [EDumpError])
              else if r_count st =? processed then SBreak (ev ++ [EDumpDone])
              else if truthy (stalled b) then SBreak (ev ++ [EEndStalled])
              else if truthy (last b) then SBreak (ev ++ [EEndNormal])
              else SNext (ScanSt mem file_count writer_num (s64 (r_offs st + num_captured b))
                            (r_start st + processed - num_captured b) (r_count st - processed) total) ev
          end
    end.

Inductive scan_end := LoopBreak | LoopReturn (code : Z) | LoopCrash | LoopFuel.

(** [fuel] bounds the number of files. *)
Fixpoint scan_loop (fuel : nat) (st : scan_st) : scan_end * list event :=
  match fuel with
  | O => (LoopFuel, [])
  | S fuel =>
      match scan_step st with
      | SNext st ev => let '(r, ev') := scan_loop fuel st in (r, ev ++ ev')
      | SBreak ev => (LoopBreak, ev)
      | SReturn code ev => (LoopReturn code, ev)
      | SCrash ev => (LoopCrash, ev)
      | SFuel => (LoopFuel, [])
      end
  end.
End Scan.

(** ** [main] *)

(** What the system answers to the programs' calls. *)
Record os := Os {
  os_dev : bool; os_pcap : bool; os_mmap : bool; os_close_pcap : bool; os_munmap : bool; os_close : bool
}.

(** [munmap (data_ptr, CONST_1G)] and [close (fd)] at the end of [main]. *)
Definition finish (o : os) : outcome * list event :=
  if negb (os_munmap o) then (Exit 1, [EPerror "munmap"])
  else if negb (os_close o) then (Exit 1, [EPerror "close"])
  else (Exit 0, []).

(** [munmap] and [close], after [f_pcap] has been closed. *)
Definition finish_pcap (o : os) : outcome * list event :=
  if negb (os_close_pcap o) then (Exit 1, [EPerror "close"]) else finish o.

(** The end of [main] after its loop. *)
Definition after_loop (fin : outcome * list event) (r : scan_end * list event) : outcome * list event :=
  match r with
  | (LoopBreak, ev) => (fin.1, ev ++ fin.2)
  | (LoopReturn code, ev) => (Exit code, ev)
  | (LoopCrash, ev) => (Crash, ev)
  | (LoopFuel, ev) => (OutOfFuel, ev)
  end.

Definition put (ev : list event) (r : outcome * list event) : outcome * list event := (r.1, ev ++ r.2).

(** What [main] does once the table is loaded and the arguments are known: [body] is its
    loop, from the mapping of [data_ptr] on. *)
Definition open_pcap (o : os) (body : outcome * list event) : outcome * list event :=
  if negb (os_dev o) then (Exit 1, [EPerror "open"])
  else if negb (os_pcap o) then (Exit 1, [EPerror "open"])
  else put [EWrite pcap_hdr] (if negb (os_mmap o) then (Exit 1, [EPerror "mmap"]) else body).

Module ToLibpcap.
Definition read_disk_table := DiskTable.read_disk_table.
Definition dump_one_packet := pcap_one_packet.
Definition dump_packet := dump_packet dump_one_packet.
(** [mem] is the content of the first bucket when the program starts. *)
Definition main (o : os) (args : list cstring) (cfg : option cstring) (fs : fsys) (mem : Z -> Z)
    (fuel : nat) : outcome * list event :=
  match args with
  | [a1; a2; _] =>
      match read_disk_table cfg with
      | Overflow => (Crash, [])
      | TableExit d => (Exit 0, [ETable d])
      | Loaded t =>
          let start := atol a1 in
          if start <? 0 then (Exit 0, [EInvalidStart start])
          else let count := atol a2 in
          if count <? 0 then (Exit 0, [EInvalidCount count])
          else open_pcap o (after_loop (finish_pcap o)
                 (scan_loop dump_one_packet fs t fuel (ScanSt mem 0 0 0 start count 0)))
      end
  | _ => (Exit 0, [EUsage])
  end.
End ToLibpcap.

Module Block2Libpcap.
Definition read_disk_table := DiskTable.read_disk_table.
Definition dump_one_packet := pcap_one_packet.
Definition dump_packet := dump_packet dump_one_packet.
Definition main (o : os) (args : list cstring) (cfg : option cstring) (fs : fsys) (mem : Z -> Z)
    (fuel : nat) : outcome * list event :=
  match args with
  | [a1; a2; _] =>
      match read_disk_table cfg with
      | Overflow => (Crash, [])
      | TableExit d => (Exit 0, [ETable d])
      | Loaded t =>
          let file_count := s32 (atol a1) in
          if file_count <? 0 then (Exit 0, [EInvalidBlock file_count])
          else let count := atol a2 in
          if count <? 0 then (Exit 0, [EInvalidCount count])
          else open_pcap o
                 (if num_writers t =? 0 then (Crash, [])
                  else after_loop (finish_pcap o)
                         (scan_loop dump_one_packet fs t fuel
                            (ScanSt mem file_count (file_count %c num_writers t) 0 0 count 0)))
      end
  | _ => (Exit 0, [EUsage])
  end.
End Block2Libpcap.

Module DumpPacket.
Definition read_disk_table := DiskTable.read_disk_table.
Definition dump_one_packet := text_one_packet.
Definition dump_packet := dump_packet dump_one_packet.
Definition main (o : os) (args : list cstring) (cfg : option cstring) (fs : fsys) (mem : Z -> Z)
    (fuel : nat) : outcome * list event :=
  match args with
  | [a1; a2] =>
      match read_disk_table cfg with
      | Overflow => (Crash, [])
      | TableExit d => (Exit 0, [ETable d])
      | Loaded t =>
          let start := atol a1 in
          if start <? 0 then (Exit 0, [EInvalidStart start])
          else let count := atol a2 in
          if count <? 0 then (Exit 0, [EInvalidCount count])
          else if negb (os_dev o) then (Exit 1, [EPerror "open"])
          else if negb (os_mmap o) then (Exit 1, [EPerror "mmap"])
          else after_loop (finish o)
                 (scan_loop dump_one_packet fs t fuel (ScanSt mem 0 0 0 start count 0))
      end
  | _ => (Exit 0, [EUsage])
  end.
End DumpPacket.

(** ** Theorems *)

(** *** [dump_packet] *)
Lemma seqZ_snoc n : 0 <= n -> seqZ 0 (n + 1) = seqZ 0 n ++ [n].
Proof. intros. rewrite seqZ_app by lia. by rewrite Z.add_0_l. Qed.

Lemma zero_local_spec n local j : 0 <= n -> 0 <= j < n -> zero_local n local j = 0.
Proof.
  intros Hn. revert n Hn j. refine (zsum_ind _ _ _); [lia|]. intros n Hn IH j Hj. unfold zero_local in *.
  rewrite seqZ_snoc, foldl_app by done. simpl. rewrite fn_insert_dec. case_decide; [done|]. apply IH. lia.
Qed.

Lemma add_row_spec lens row n local j :
  0 <= n -> add_row lens row n local j =
    if decide (0 <= j < n) then u32 (local j + lens (row * NUM_RX_SLOTS + j)) else local j.
Proof.
  intros Hn. revert n Hn j. refine (zsum_ind _ _ _); [intros j; by rewrite decide_False by lia|].
  intros n Hn IH j. unfold add_row in *. rewrite seqZ_snoc, foldl_app by done. simpl.
  rewrite fn_insert_dec. destruct (decide (n = j)) as [->|].
  - rewrite IH, decide_False, decide_True by lia. done.
  - rewrite IH. destruct (decide (0 <= j < n)); [rewrite decide_True by lia|rewrite decide_False by lia]; done.
Qed.

Section DumpSpec.
Context (lens : Z -> Z) (n : Z).
Hypothesis Hlens : forall i, 0 <= i < n -> 0 <= lens i < 2 ^ 16.
Hypothesis Hrows : n <= MAX_ROWS * NUM_RX_SLOTS.

(** Row [row] of slot [j] is recorded, and so is every row before it. *)
Lemma slot_offset_small row j :
  0 <= j < NUM_RX_SLOTS -> 0 <= row -> (0 < row -> (row - 1) * NUM_RX_SLOTS + j < n) ->
  0 <= slot_offset lens row j < 2 ^ 32.
Proof using Hlens Hrows.
  intros Hj Hr Hn. unfold slot_offset.
  destruct (decide (row = 0)) as [->|]; [rewrite zsum_0; lia|]. specialize (Hn ltac:(lia)).
  pose proof (zsum_bounds (fun i => lens (i * NUM_RX_SLOTS + j)) row 0 65535 Hr) as Hb.
  destruct Hb as [H1 H2]; [|unfold MAX_ROWS in *; layout_consts; nia].
  intros i Hi. pose proof (Hlens (i * NUM_RX_SLOTS + j)). layout_consts. lia.
Qed.

Lemma slot_offset_next row j :
  0 <= j < NUM_RX_SLOTS -> 0 <= row -> row * NUM_RX_SLOTS + j < n ->
  u32 (slot_offset lens row j + lens (row * NUM_RX_SLOTS + j)) = slot_offset lens (row + 1) j.
Proof using Hlens Hrows.
  intros Hj Hr Hn. rewrite u32_small.
  - unfold slot_offset. by rewrite zsum_succ.
  - assert (slot_offset lens row j + lens (row * NUM_RX_SLOTS + j) = slot_offset lens (row + 1) j) as ->
      by (unfold slot_offset; by rewrite zsum_succ).
    apply slot_offset_small; [done|lia|]. replace (row + 1 - 1) with row by lia. done.
Qed.

Lemma add_rows_spec rows local j :
  0 <= rows -> rows * NUM_RX_SLOTS <= n -> 0 <= j < NUM_RX_SLOTS -> local j = 0 ->
  add_rows lens rows NUM_RX_SLOTS local j = slot_offset lens rows j.
Proof using Hlens Hrows.
  intros Hr. revert rows Hr. refine (zsum_ind _ _ _).
  - intros _ Hj H0. unfold slot_offset. rewrite zsum_0 by lia. exact H0.
  - intros r Hr IH Hn Hj H0. unfold add_rows in *. rewrite seqZ_snoc, foldl_app by done. cbn [foldl].
    rewrite add_row_spec by lay. rewrite decide_True by done.
    rewrite IH by (done || layout_consts; lia). apply slot_offset_next; [done|done|layout_consts; lia].
Qed.
End DumpSpec.

(** What the programs do with packet number [k] (counted from the first block read) whose
    bytes are [p]. *)
Definition emits (emit : emitter) (emit_at : Z -> list Z -> list event) : Prop :=
  forall data l base row partial,
    0 <= l -> 0 <= row * NUM_RX_SLOTS + partial < 2 ^ 31 ->
    emit NUM_RX_SLOTS data l base row partial
    = emit_at (base + (row * NUM_RX_SLOTS + partial)) (bytes_at data l).

Fixpoint emit_all (emit_at : Z -> list Z -> list event) (k : Z) (ps : list packet) : list event :=
  match ps with [] => [] | p :: ps => emit_at k p ++ emit_all emit_at (k + 1) ps end.

Lemma emit_all_app f k ps qs : emit_all f k (ps ++ qs) = emit_all f k ps ++ emit_all f (k + zlen ps) qs.
Proof.
  revert k. induction ps as [|p ps IH]; intros k; unfold zlen; simpl; [by rewrite Z.add_0_r|].
  rewrite IH, app_assoc. do 2 f_equal. unfold zlen. lia.
Qed.

Lemma bytes_at_eq data p : (forall i b, p !! i = Some b -> data (Z.of_nat i) = b) -> bytes_at data (plen p) = p.
Proof.
  intros H. unfold bytes_at. apply list_eq. intros i. rewrite list_lookup_fmap.
  destruct (decide (Z.of_nat i < plen p)) as [Hi|Hi].
  - rewrite lookup_seqZ_lt by lia. simpl. rewrite Z.add_0_l. unfold plen in Hi.
    destruct (p !! i) as [b|] eqn:E; [by rewrite (H _ _ E)|]. apply lookup_ge_None in E. lia.
  - rewrite lookup_seqZ_ge by lia. simpl. unfold plen in Hi. symmetry. apply lookup_ge_None. lia.
Qed.

(** A block as the readers rely on it: its header, its data and the packets recorded there. *)
Record block := Block { k_info : bucket_info; k_data : Z -> Z; k_pkts : list packet }.

Section DumpCorrect.
Context (emit : emitter) (emit_at : Z -> list Z -> list event) (Hemit : emits emit emit_at).
Context (data : Z -> Z) (b : bucket_info) (base : Z) (pkts : list packet).
Let n := zlen pkts.
Hypothesis Hlens : forall i, 0 <= i < n -> 0 <= len b i < 2 ^ 16.
Hypothesis Hrows : n <= MAX_ROWS * NUM_RX_SLOTS.
Hypothesis Hcap : num_captured b = n.
Hypothesis Hholds : holds data (len b) pkts.

(** [k] packets of the block are behind the reader. *)
Record at_packet (k : Z) (st : dump_st) : Prop := {
  at_pos : d_row st * NUM_RX_SLOTS + d_partial st = k;
  at_partial : 0 <= d_partial st < NUM_RX_SLOTS;
  at_local : forall j, 0 <= j < NUM_RX_SLOTS ->
    d_local st j = slot_offset (len b) (d_row st + if decide (j < d_partial st) then 1 else 0) j
}.

Lemma dump_body_end k st :
  at_packet k st -> 0 <= k <= n -> k = n \/ d_count st = 0 ->
  dump_body emit data b NUM_RX_SLOTS base (n / NUM_RX_SLOTS) (n mod NUM_RX_SLOTS) st = inl st.
Proof using.
  intros [Hp Hpp _] Hk He. unfold dump_body. destruct ((d_row st =? _) && _) eqn:E; [done|].
  destruct He as [-> | ->]; [|done]. exfalso. apply andb_false_iff in E.
  clear - E Hp Hpp. layout_consts. destruct E; zbool; zdm.
Qed.

Lemma dump_body_packet k st p :
  at_packet k st -> 0 <= k -> pkts !! Z.to_nat k = Some p -> 0 < d_count st ->
  exists st', dump_body emit data b NUM_RX_SLOTS base (n / NUM_RX_SLOTS) (n mod NUM_RX_SLOTS) st = inr st' /\
    at_packet (k + 1) st' /\ d_count st' = d_count st - 1 /\ d_processed st' = d_processed st + 1 /\
    d_out st' = d_out st ++ emit_at (base + k) p.
Proof using Hlens Hrows Hholds Hemit.
  intros [Hp Hpp Hl] Hk Hpk Hc. pose proof (lookup_lt_Some _ _ _ Hpk) as Hlt.
  assert (k < n) as Hkn by (unfold n, zlen; lia).
  destruct (Hholds _ _ Hpk) as (Hlen & Hmax & Hroom & Hbytes). rewrite Z2Nat.id in * by lia.
  assert (0 <= d_row st) as Hr by (clear - Hp Hpp Hk; layout_consts; lia).
  assert (k / NUM_RX_SLOTS = d_row st /\ k mod NUM_RX_SLOTS = d_partial st) as [Hdiv Hmod]
    by (clear - Hp Hpp; layout_consts; zdm).
  unfold dump_body. destruct ((d_row st =? _) && _) eqn:E.
  { exfalso. zbool. clear - H H0 Hp Hkn Hpp. layout_consts. zdm. }
  destruct (d_count st =? 0) eqn:E0; zbool; [lia|].
  rewrite Hp, Hlen. set (local' := <[_ := _]> _).
  assert (forall j, 0 <= j < NUM_RX_SLOTS ->
    local' j = slot_offset (len b) (d_row st + if decide (j <= d_partial st) then 1 else 0) j) as Hl'.
  { intros j Hj. unfold local'. rewrite fn_insert_dec. destruct (decide (d_partial st = j)) as [<-|].
    - rewrite decide_True by lia. rewrite Hl, decide_False, Z.add_0_r by lia.
      rewrite <- Hlen, <- Hp. apply (slot_offset_next (len b) n Hlens Hrows); [done|done|lia].
    - rewrite Hl by done. do 2 f_equal. repeat case_decide; lia. }
  assert (emit NUM_RX_SLOTS (fun i => data (s32 (SLOT_240K * d_partial st) + d_local st (d_partial st) + i))
    (plen p) base (d_row st) (d_partial st) = emit_at (base + k) p) as ->.
  { rewrite Hemit, Hp; [|unfold plen; lia|unfold MAX_ROWS in Hrows; clear - Hp Hk Hkn Hrows; lay].
    f_equal. apply bytes_at_eq. intros i x Hi. rewrite <- (Hbytes _ _ Hi). f_equal.
    rewrite s32_small by (clear - Hpp; unfold SLOT_240K; lay).
    rewrite Hl, decide_False, Z.add_0_r by lia. unfold packet_offset. rewrite Hdiv, Hmod. reflexivity. }
  destruct (d_partial st + 1 =? NUM_RX_SLOTS) eqn:Ew; zbool; eexists; (split; [reflexivity|]); cbn;
    (split; [|done]); constructor; cbn; try (clear - Hp Hpp Ew; layout_consts; lia);
    intros j Hj; rewrite Hl' by done; f_equal; clear - Hj Hpp Ew; layout_consts; repeat case_decide; lia.
Qed.

Lemma dump_loop_correct fuel k st :
  at_packet k st -> 0 <= k <= n -> 0 <= d_count st < Z.of_nat fuel ->
  let sel := take (Z.to_nat (d_count st)) (drop (Z.to_nat k) pkts) in
  exists st', dump_loop emit data b NUM_RX_SLOTS base fuel (n / NUM_RX_SLOTS) (n mod NUM_RX_SLOTS) st = Some st' /\
    d_processed st' = d_processed st + zlen sel /\ d_out st' = d_out st ++ emit_all emit_at (base + k) sel.
Proof using Hlens Hrows Hholds Hemit.
  revert k st. induction fuel as [|fuel IH]; intros k st Hat Hk Hf; [lia|]. cbv zeta. cbn [dump_loop].
  destruct (decide (k = n \/ d_count st = 0)) as [He|He].
  - rewrite (dump_body_end k) by done. exists st. split; [done|].
    assert (take (Z.to_nat (d_count st)) (drop (Z.to_nat k) pkts) = []) as ->.
    { destruct He as [->| ->]; [|done]. rewrite drop_ge; [by rewrite take_nil|]. unfold n, zlen. lia. }
    unfold zlen. simpl. split; [lia|by rewrite app_nil_r].
  - assert (exists p, pkts !! Z.to_nat k = Some p) as [p Hp].
    { apply lookup_lt_is_Some. unfold n, zlen in *. lia. }
    destruct (dump_body_packet k st p Hat) as (st1 & -> & Hat1 & Hc1 & Hp1 & Ho1); [lia|done|lia|].
    destruct (IH (k + 1) st1 Hat1) as (st2 & -> & Hp2 & Ho2); [lia|lia|].
    exists st2. split; [done|]. rewrite Hc1 in *.
    rewrite (drop_S _ _ _ Hp). replace (Z.to_nat (d_count st)) with (S (Z.to_nat (d_count st - 1))) by lia.
    rewrite firstn_cons. replace (S (Z.to_nat k)) with (Z.to_nat (k + 1)) by lia. split.
    + rewrite Hp2, Hp1. unfold zlen. simpl. lia.
    + rewrite Ho2, Ho1, <- app_assoc. do 2 f_equal. cbn [emit_all]. do 2 f_equal. lia.
Qed.

(** [dump_packet] returns, and emits exactly the packets asked for. *)
Lemma dump_packet_correct start count :
  0 <= start <= n -> 0 <= count ->
  let sel := take (Z.to_nat count) (drop (Z.to_nat start) pkts) in
  dump_packet emit data b NUM_RX_SLOTS base start count
  = Dumped (zlen sel) (emit_all emit_at (base + start) sel).
Proof using Hlens Hrows Hcap Hholds Hemit.
  intros Hs Hc. cbv zeta. unfold dump_packet.
  change (NUM_RX_SLOTS =? 0) with false. change (LOCAL_LEN <? NUM_RX_SLOTS) with false.
  rewrite Hcap, (u32_small NUM_RX_SLOTS) by lay.
  assert (0 <= start / NUM_RX_SLOTS /\ start / NUM_RX_SLOTS < 2 ^ 31 /\ 0 <= start mod NUM_RX_SLOTS < 4096 /\
    0 <= n / NUM_RX_SLOTS < 2 ^ 31 /\ 0 <= n mod NUM_RX_SLOTS < 4096) as (? & ? & ? & ? & ?)
    by (unfold MAX_ROWS in Hrows; clear - Hs Hrows; layout_consts; zdm).
  rewrite Z.quot_div_nonneg, Z.rem_mod_nonneg by lay. rewrite !s32_small by lia.
  set (st := DumpSt _ _ _ count 0 []).
  destruct (dump_loop_correct (S (Z.to_nat count)) start st) as (st' & -> & -> & ->); [|done|cbn; lia|cbn].
  - constructor; cbn; [clear; layout_consts; zdm | clear - H1; lay |]. intros j Hj.
    rewrite add_row_spec by lia.
    assert (add_rows (len b) (start / NUM_RX_SLOTS) NUM_RX_SLOTS (zero_local NUM_RX_SLOTS (fun _ => 0)) j
            = slot_offset (len b) (start / NUM_RX_SLOTS) j) as Ha.
    { apply (add_rows_spec (len b) n Hlens Hrows); [done| clear - Hs; layout_consts; zdm | done |].
      by apply zero_local_spec. }
    rewrite Ha. destruct (decide (0 <= j < start mod NUM_RX_SLOTS)) as [Hj'|Hj'].
    + rewrite decide_True by lia. apply (slot_offset_next (len b) n Hlens Hrows); [done|done|].
      clear - Hj' Hs. layout_consts. zdm.
    + rewrite decide_False by lia. by rewrite Z.add_0_r.
  - reflexivity.
Qed.
End DumpCorrect.

(** *** What a program sees of a block that it has read back *)
Lemma header_fields g b L :
  bucket_info_ok b -> off_real_end <= L -> (forall o, 0 <= o < L -> g o = bucket_byte b o) ->
  let b' := bucket_of_bytes g in
  num_captured b' = num_captured b /\ last b' = last b /\ stalled b' = stalled b /\
  num_rx_slots b' = num_rx_slots b /\
  (forall i, 0 <= i -> off_len + 2 * i + 2 <= L -> len b' i = len b i).
Proof.
  intros Hok HL Hg. destruct (bucket_image_fields b Hok) as (H1 & H2 & H3 & H4 & _ & H6). cbv zeta.
  unfold off_real_end, off_len in *.
  split_and!; [rewrite <- H1|rewrite <- H2|rewrite <- H3|rewrite <- H4|intros i Hi Hb; rewrite <- (H6 i Hi)];
    cbn; apply le_load_ext; intros j Hj; apply Hg;
    unfold off_num_captured, off_last, off_stalled, off_num_rx_slots, off_len; lia.
Qed.

Lemma holds_nonneg data lens pkts i :
  holds data lens pkts -> 0 <= i < zlen pkts -> 0 <= lens i < 2 ^ 16.
Proof.
  intros H Hi. destruct (lookup_lt_is_Some_2 pkts (Z.to_nat i)) as [p Hp]; [unfold zlen in Hi; lia|].
  destruct (H _ _ Hp) as (H1 & H2 & _). rewrite Z2Nat.id in H1 by lia. rewrite H1. unfold plen in *. lay.
Qed.

Lemma holds_ext data lens data' lens' pkts :
  holds data lens pkts -> (forall o, 0 <= o < DATA_SIZE -> data' o = data o) ->
  (forall i, 0 <= i < zlen pkts -> lens' i = lens i) -> holds data' lens' pkts.
Proof.
  intros H Hd Hl k p Hp. pose proof (lookup_lt_Some _ _ _ Hp) as Hk.
  destruct (H _ _ Hp) as (H1 & H2 & H3 & H4).
  assert (slot_offset lens' (Z.of_nat k / NUM_RX_SLOTS) (Z.of_nat k mod NUM_RX_SLOTS)
    = slot_offset lens (Z.of_nat k / NUM_RX_SLOTS) (Z.of_nat k mod NUM_RX_SLOTS)) as Ho.
  { apply zsum_ext. intros i Hi. apply Hl. unfold zlen. layout_consts. zdm. }
  split; [rewrite Hl by (unfold zlen; lia); done|]. split; [done|]. split; [by rewrite Ho|].
  intros i x Hi. rewrite <- (H4 _ _ Hi). unfold packet_offset at 1. rewrite Ho.
  fold (packet_offset lens (Z.of_nat k)). apply Hd.
  assert (0 <= slot_offset lens (Z.of_nat k / NUM_RX_SLOTS) (Z.of_nat k mod NUM_RX_SLOTS)) as H0.
  { unfold slot_offset.
    pose proof (zsum_bounds (fun i => lens (i * NUM_RX_SLOTS + Z.of_nat k mod NUM_RX_SLOTS))
      (Z.of_nat k / NUM_RX_SLOTS) 0 65535) as Hb.
    destruct Hb as [Hb _]; [layout_consts; zdm | | lia]. intros j Hj.
    pose proof (holds_nonneg _ _ _ (j * NUM_RX_SLOTS + Z.of_nat k mod NUM_RX_SLOTS) H) as Hx.
    unfold zlen in Hx. layout_consts. zdm. }
  pose proof (packet_offset_bounds lens (Z.of_nat k) ltac:(lia) H0 H3).
  apply lookup_lt_Some in Hi. unfold plen in H2. lia.
Qed.

(** A block that the capture side has recorded completely. *)
Record good_block (k : block) : Prop := {
  gb_ok : bucket_info_ok (k_info k);
  gb_count : num_captured (k_info k) = zlen (k_pkts k);
  gb_slots : num_rx_slots (k_info k) = NUM_RX_SLOTS;
  gb_size : 0 < zlen (k_pkts k) <= MAX_ROWS * NUM_RX_SLOTS;
  gb_holds : holds (k_data k) (len (k_info k)) (k_pkts k)
}.
Definition final (k : block) : bool := truthy (stalled (k_info k)) || truthy (last (k_info k)).

Section ReadBlock.
Context (k : block) (f : file) (Hk : good_block k) (Hf : block_file f (k_info k) (k_data k)).

Lemma read_header mem :
  let b := header (read_into mem DATA_SIZE f 0 CONST_1K) in
  num_captured b = zlen (k_pkts k) /\ s32 (num_rx_slots b) = NUM_RX_SLOTS.
Proof using Hk Hf.
  destruct Hk as [Hok Hc Hs _ _]. destruct Hf as [Hsz Hb]. cbv zeta. unfold header.
  edestruct (header_fields (fun o => read_into mem DATA_SIZE f 0 CONST_1K (DATA_SIZE + o)) (k_info k) CONST_1K Hok)
    as (H1 & _ & _ & H4 & _).
  - unfold off_real_end. lay.
  - intros o Ho. rewrite read_into_in by (rewrite ?Hsz; unfold IMAGE_SIZE, DATA_SIZE; lay).
    rewrite Hb by (unfold IMAGE_SIZE, DATA_SIZE; lay). unfold image_byte.
    rewrite (proj2 (Z.ltb_lt _ _)) by lay. f_equal. lia.
  - rewrite H1, H4, Hc, Hs. split; [done|]. apply s32_small. lay.
Qed.

Lemma read_block mem :
  let mem' := read_into (read_into mem DATA_SIZE f 0 LEN_BLOCK_SIZE) 0 f (read_count f 0 LEN_BLOCK_SIZE) DATA_SIZE in
  let b := header mem' in
  num_captured b = zlen (k_pkts k) /\ truthy (stalled b) || truthy (last b) = final k /\
  (forall i, 0 <= i < zlen (k_pkts k) -> 0 <= len b i < 2 ^ 16) /\ holds mem' (len b) (k_pkts k).
Proof using Hk Hf.
  destruct Hk as [Hok Hc Hs Hn Hh]. destruct Hf as [Hsz Hb]. cbv zeta.
  assert (read_count f 0 LEN_BLOCK_SIZE = LEN_BLOCK_SIZE) as ->
    by (unfold read_count; rewrite Hsz; unfold IMAGE_SIZE, DATA_SIZE; lay).
  set (mem' := read_into _ 0 f _ _).
  assert (forall o, 0 <= o < LEN_BLOCK_SIZE -> mem' (DATA_SIZE + o) = bucket_byte (k_info k) o) as Hhd.
  { intros o Ho. unfold mem'. rewrite read_into_out by (unfold DATA_SIZE; lay).
    rewrite read_into_in by (rewrite ?Hsz; unfold IMAGE_SIZE, DATA_SIZE; lay).
    rewrite Hb by (unfold IMAGE_SIZE, DATA_SIZE; lay). unfold image_byte.
    rewrite (proj2 (Z.ltb_lt _ _)) by lay. f_equal. lia. }
  assert (forall o, 0 <= o < DATA_SIZE -> mem' o = k_data k o) as Hdt.
  { intros o Ho. unfold mem'. rewrite read_into_in by (rewrite ?Hsz; unfold IMAGE_SIZE; lay).
    rewrite Hb by (unfold IMAGE_SIZE; lay). unfold image_byte.
    rewrite (proj2 (Z.ltb_ge _ _)) by lay. f_equal. lia. }
  unfold header. destruct (header_fields (fun o => mem' (DATA_SIZE + o)) (k_info k) LEN_BLOCK_SIZE Hok)
    as (H1 & H2 & H3 & _ & H5); [unfold off_real_end; lay|done|].
  assert (forall i, 0 <= i < zlen (k_pkts k) -> len (bucket_of_bytes (fun o => mem' (DATA_SIZE + o))) i
    = len (k_info k) i) as Hl.
  { intros i Hi. apply H5; [lia|]. unfold off_len, MAX_ROWS in *. lay. }
  rewrite H1, H2, H3, Hc. split_and!; [done|done| |].
  - intros i Hi. rewrite Hl by done. apply (holds_nonneg _ _ _ _ Hh Hi).
  - eapply holds_ext; [exact Hh|exact Hdt|exact Hl].
Qed.
End ReadBlock.

(** *** Recordings *)

(** The file of block number [i]. *)
Definition stored (t : table) (fs : fsys) (i : Z) (k : block) : Prop :=
  exists f, fs !! file_name (writer_path t (i mod num_writers t)) i = Some f /\
    block_file f (k_info k) (k_data k).

(** The blocks [ks] from number [i] on are the rest of a recording: complete, on disk, and
    only the last one carries an end flag. *)
Fixpoint recording (t : table) (fs : fsys) (i : Z) (ks : list block) : Prop :=
  match ks with
  | [] => False
  | k :: ks => good_block k /\ stored t fs i k /\ (if final k then ks = [] else recording t fs (i + 1) ks)
  end.
Definition all_packets (ks : list block) : list packet := concat (map k_pkts ks).

(** The paths of the table leave room for the file name in [fname]. *)
Definition short_paths (t : table) : Prop :=
  0 < num_writers t /\ forall i, 0 <= i < num_writers t -> zlen (writer_path t i) <= 230.

Lemma file_name_short t i : short_paths t -> 0 <= i ->
  (FNAME_SIZE <=? zlen (file_name (writer_path t (i mod num_writers t)) i)) = false.
Proof.
  intros [Hn Hp] Hi. apply Z.leb_gt. specialize (Hp (i mod num_writers t) ltac:(apply Z.mod_pos_bound; lia)).
  unfold file_name, zlen, fmt_0d, FNAME_SIZE in *. destruct (i <? 0) eqn:E; zbool; [lia|].
  pose proof (fmt_d_length i). rewrite !length_app, length_replicate. simpl length. lia.
Qed.

Definition payload (e : event) : bool :=
  match e with EWrite _ | EPacket _ _ | EHexRow _ | EHexByte _ | EEol => true | _ => false end.

Section ScanCorrect.
Context (emit : emitter) (emit_at : Z -> list Z -> list event) (Hemit : emits emit emit_at).
Hypothesis Hpay : forall k p, forallb payload (emit_at k p) = true.
Context (fs : fsys) (t : table) (Hshort : short_paths t).

Lemma emit_all_payload k ps : List.filter payload (emit_all emit_at k ps) = emit_all emit_at k ps.
Proof using Hpay.
  revert k. induction ps as [|p ps IH]; intros k; [done|]. cbn [emit_all].
  rewrite List.filter_app, IH. f_equal. specialize (Hpay k p). revert Hpay.
  induction (emit_at k p) as [|e l IHl]; [done|]. simpl. intros [-> H]%andb_true_iff. by rewrite IHl.
Qed.

(** The reader is about to open block [i]. *)
Record at_block (i : Z) (st : scan_st) : Prop := {
  ab_count : r_file_count st = i;
  ab_writer : r_writer st = i mod num_writers t;
  ab_range : 0 <= i;
  ab_totals : 0 <= r_offs st <= i * 2 ^ 24 /\ 0 <= r_total st <= i * 2 ^ 24
}.

(** One block: skipped, or dumped from the first packet asked for. *)
Lemma scan_step_block i st k :
  at_block i st -> i < 2 ^ 31 - 1 -> good_block k -> stored t fs i k -> 0 <= r_start st -> 0 < r_count st ->
  let n := zlen (k_pkts k) in
  let sel := take (Z.to_nat (r_count st)) (drop (Z.to_nat (r_start st)) (k_pkts k)) in
  exists ev, List.filter payload ev = emit_all emit_at (r_offs st + r_start st) sel /\
    ((scan_step emit fs t st = SBreak ev /\ (r_count st = zlen sel \/ final k = true /\ r_start st < n)) \/
     exists st', scan_step emit fs t st = SNext st' ev /\ at_block (i + 1) st' /\
       (r_start st < n -> final k = false /\ zlen sel < r_count st) /\
       r_count st' = r_count st - zlen sel /\ r_start st' = Z.max 0 (r_start st - n) /\
       r_offs st' = r_offs st + n).
Proof using Hemit Hpay Hshort.
  intros [Hfc Hw Hi [Ho Htot]] Hi2 Hk (f & Hf & Hb) Hs Hc. cbv zeta.
  pose proof (gb_size _ Hk) as Hsize. assert (zlen (k_pkts k) < 2 ^ 24) as Hn24 by (unfold MAX_ROWS in Hsize; lay).
  destruct (read_header k f Hk Hb (r_mem st)) as [Hcap Hslots].
  unfold scan_step. rewrite Hfc, Hw, file_name_short, Hf, Hcap, Hslots by done. destruct Hshort as [Hnw _].
  rewrite (proj2 (Z.eqb_neq (num_writers t) 0)) by lia.
  assert (at_block (i + 1) (ScanSt (r_mem st) (s32 (i + 1)) ((i mod num_writers t + 1) %c num_writers t)
     (s64 (r_offs st + zlen (k_pkts k))) 0 0 (s64 (r_total st + zlen (k_pkts k))))) as [A1 A2 A3 A4].
  { constructor; cbn; [apply s32_small; lia| |lia|rewrite !s64_small by lia; lia].
    rewrite Z.rem_mod_nonneg by (pose proof (Z.mod_pos_bound i (num_writers t)); lia).
    by rewrite Zplus_mod_idemp_l. }
  cbn in A1, A2, A4. destruct (r_start st >=? zlen (k_pkts k)) eqn:Es; zbool.
  { eexists. split; [|right; eexists; split; [done|]].
    - rewrite drop_ge by (unfold zlen in Es; lia). by rewrite take_nil.
    - rewrite drop_ge, take_nil by (unfold zlen in Es; lia). split; [by constructor|]. cbn.
      rewrite s64_small by lia. unfold zlen in *. simpl. split_and!; lia. }
  destruct (read_block k f Hk Hb (read_into (r_mem st) DATA_SIZE f 0 CONST_1K)) as (Bc & Bf & Bl & Bh).
  set (mem' := read_into _ 0 f _ _) in *. set (sel := take _ _).
  rewrite (dump_packet_correct emit emit_at Hemit mem' (header mem') (r_offs st) (k_pkts k) Bl
    ltac:(lia) Bc Bh (r_start st) (r_count st)) by lia. fold sel.
  assert (zlen sel = Z.min (r_count st) (zlen (k_pkts k) - r_start st)) as Hsel
    by (unfold sel, zlen; rewrite length_take, length_drop; unfold zlen in *; lia).
  rewrite (proj2 (Z.leb_gt _ _)) by lia.
  assert (forall e, payload e = false -> List.filter payload ((EBlock i (zlen (k_pkts k)) (s64 (r_total st + zlen (k_pkts k)))
    :: emit_all emit_at (r_offs st + r_start st) sel) ++ [e]) = emit_all emit_at (r_offs st + r_start st) sel) as Hfil.
  { intros e He. rewrite List.filter_app. simpl. rewrite He, emit_all_payload, app_nil_r. done. }
  destruct (r_count st =? zlen sel) eqn:Ec; zbool; [eexists; split; [|left; split; [done|by left]]; by apply Hfil|].
  destruct (truthy (stalled (header mem'))) eqn:E1.
  { eexists. split; [|left; split; [done|]]; [by apply Hfil|]. right. rewrite <- Bf. done. }
  destruct (truthy (last (header mem'))) eqn:E2.
  { eexists. split; [|left; split; [done|]]; [by apply Hfil|]. right. rewrite <- Bf. done. }
  eexists. split; [|right; eexists; split; [done|]].
  - simpl. apply emit_all_payload.
  - rewrite Bc. split; [by constructor|]. cbn. rewrite s64_small by lia. split_and!; try done; try lia.
    intros _. split; [by rewrite <- Bf|lia].
Qed.

Lemma scan_loop_correct ks i st :
  recording t fs i ks -> at_block i st -> i + zlen ks < 2 ^ 31 -> 0 < r_count st ->
  0 <= r_start st < zlen (all_packets ks) ->
  exists ev, scan_loop emit fs t (length ks) st = (LoopBreak, ev) /\
    List.filter payload ev = emit_all emit_at (r_offs st + r_start st)
      (take (Z.to_nat (r_count st)) (drop (Z.to_nat (r_start st)) (all_packets ks))).
Proof using Hemit Hpay Hshort.
  revert i st. induction ks as [|k ks IH]; intros i st Hrec Hat Hi Hc Hs; [done|].
  destruct Hrec as (Hk & Hst & Hrest). unfold zlen in Hi. cbn [length] in *.
  destruct (scan_step_block i st k Hat ltac:(lia) Hk Hst ltac:(lia) Hc) as (ev & Hev & Hcase). cbn [scan_loop].
  unfold all_packets in *. cbn [map concat] in *. unfold zlen in *. rewrite length_app in Hs.
  rewrite drop_app, take_app, length_drop.
  destruct Hcase as [[-> Hend]|(st' & -> & Hat' & Hfin & Hc' & Hs' & Ho')].
  - exists ev. split; [done|]. rewrite Hev. destruct Hend as [Heq|[Hf Hlt]].
    + rewrite length_take, length_drop in Heq.
      replace (_ - (length (k_pkts k) - _))%nat with O by lia. by rewrite take_0, app_nil_r.
    + rewrite Hf in Hrest. subst ks. simpl. by rewrite drop_nil, take_nil, app_nil_r.
  - rewrite length_take, length_drop in *.
    assert (recording t fs (i + 1) ks) as Hrest'.
    { destruct (final k) eqn:Ef; [|done]. subst ks. simpl in Hs. destruct Hfin as [? _]; [lia|done]. }
    destruct (IH (i + 1) st' Hrest' Hat') as (ev' & -> & Hev'); [lia|lia| |].
    { rewrite Hs'. destruct (decide (r_start st < Z.of_nat (length (k_pkts k)))); [|lia].
      split; [lia|]. destruct ks as [|k' ks]; [done|]. destruct Hrest' as (Hk' & _ & _).
      pose proof (gb_size _ Hk') as [Hz _]. unfold zlen in Hz. cbn [map concat]. rewrite length_app. lia. }
    exists (ev ++ ev'). split; [done|]. rewrite List.filter_app, Hev, Hev', emit_all_app. f_equal.
    unfold zlen. rewrite length_take, length_drop. rewrite Hs', Ho', Hc'. f_equal; [lia|]. f_equal; [lia|f_equal; lia].
Qed.
End ScanCorrect.

(** *** libpcap files *)

(** What the program has written to its output file. *)
Definition written (ev : list event) : list Z :=
  concat (map (fun e => match e with EWrite bs => bs | _ => [] end) ev).

(** The packets of a little-endian libpcap file (24-byte file header, then 16-byte record
    headers with the length at offset 8). *)
Definition le_value (l : list Z) : Z := le_load (fun i => nth (Z.to_nat i) l 0) (zlen l).
Fixpoint parse_records (fuel : nat) (l : list Z) : option (list packet) :=
  match fuel, l with
  | _, [] => Some []
  | O, _ => None
  | S fuel, _ =>
      if zlen l <? 16 then None
      else
        let n := Z.to_nat (le_value (take 4 (drop 8 l))) in
        let rest := drop 16 l in
        if (length rest <? n)%nat then None
        else match parse_records fuel (drop n rest) with
             | Some ps => Some (take n rest :: ps)
             | None => None
             end
  end.
Definition parse_pcap (l : list Z) : option (list packet) :=
  if le_value (take 4 l) =? 0xa1b2c3d4 then parse_records (length l) (drop 24 l) else None.

Lemma le_value_bytes n v m : 0 <= n -> m = 2 ^ (8 * n) -> 0 <= v < m -> le_value (le_bytes n v) = v.
Proof.
  intros Hn -> Hv. unfold le_value, le_bytes, zlen. rewrite length_map, length_seqZ, Z2Nat.id by lia.
  transitivity (v mod 2 ^ (8 * n)); [|by apply Z.mod_small]. rewrite <- le_load_byte by done. apply le_load_ext. intros i Hi.
  rewrite nth_lookup, list_lookup_fmap, lookup_seqZ_lt by lia. simpl. f_equal. lia.
Qed.

Lemma parse_records_step fuel l :
  l <> [] -> parse_records (S fuel) l =
    if zlen l <? 16 then None
    else
      let n := Z.to_nat (le_value (take 4 (drop 8 l))) in
      let rest := drop 16 l in
      if (length rest <? n)%nat then None
      else match parse_records fuel (drop n rest) with
           | Some ps => Some (take n rest :: ps)
           | None => None
           end.
Proof. by destruct l. Qed.

Definition pcap_record (p : packet) : list Z := pcaprec_hdr (plen p) ++ p.

Lemma parse_records_app ps fuel :
  Forall (fun p => plen p < 2 ^ 32) ps -> (length ps <= fuel)%nat ->
  parse_records fuel (concat (map pcap_record ps)) = Some ps.
Proof.
  revert fuel. induction ps as [|p ps IH]; intros fuel Hp Hf; [by destruct fuel|].
  apply Forall_cons in Hp as [Hp Hps]. destruct fuel as [|fuel]; [simpl in Hf; lia|].
  cbn [map concat]. unfold pcap_record at 1. rewrite <- app_assoc.
  assert (length (pcaprec_hdr (plen p)) = 16%nat) as H16 by done.
  set (tail := concat (map pcap_record ps)) in *.
  assert (take 4 (drop 8 (pcaprec_hdr (plen p) ++ p ++ tail)) = le_bytes 4 (plen p)) as Ht by reflexivity.
  assert (drop 16 (pcaprec_hdr (plen p) ++ p ++ tail) = p ++ tail) as Hd by reflexivity.
  rewrite parse_records_step by done. cbv zeta. rewrite Ht, Hd, (le_value_bytes 4 _ (2 ^ 32)) by (done || (unfold plen in *; lia)).
  rewrite (proj2 (Z.ltb_ge _ _)) by (unfold zlen; rewrite length_app, H16; lia).
  unfold plen. rewrite Nat2Z.id. rewrite (proj2 (Nat.ltb_ge _ _)) by (rewrite length_app; lia).
  rewrite drop_app_length, take_app_length. by rewrite IH by (done || simpl in Hf; lia).
Qed.

Lemma parse_pcap_written ps :
  Forall (fun p => plen p < 2 ^ 32) ps -> parse_pcap (pcap_hdr ++ concat (map pcap_record ps)) = Some ps.
Proof.
  intros Hp. unfold parse_pcap. change (take 4 (pcap_hdr ++ ?l)) with (le_bytes 4 0xa1b2c3d4).
  rewrite (le_value_bytes 4 _ (2 ^ 32)) by (done || lia). rewrite Z.eqb_refl.
  change (drop 24 (pcap_hdr ++ ?l)) with l. apply parse_records_app; [done|].
  rewrite length_app. enough (length ps <= length (concat (map pcap_record ps)))%nat by lia.
  clear Hp. induction ps as [|p ps IH]; [done|]. cbn [map concat length]. unfold pcap_record at 1.
  rewrite length_app, length_app. change (length (pcaprec_hdr (plen p))) with 16%nat. lia.
Qed.

Definition pcap_at (_ : Z) (p : list Z) : list event := [EWrite (pcaprec_hdr (plen p)); EWrite p].

Lemma pcap_emits : emits pcap_one_packet pcap_at.
Proof.
  intros data l base row partial Hl _. unfold pcap_one_packet, pcap_at, plen, bytes_at.
  by rewrite length_map, length_seqZ, Z2Nat.id.
Qed.

Lemma written_payload ev : written (List.filter payload ev) = written ev.
Proof. induction ev as [|e ev IH]; [done|]. destruct e; simpl; unfold written in *; simpl; by rewrite ?IH. Qed.

Lemma written_app e1 e2 : written (e1 ++ e2) = written e1 ++ written e2.
Proof. unfold written. by rewrite map_app, concat_app. Qed.

Lemma written_pcap k ps : written (emit_all pcap_at k ps) = concat (map pcap_record ps).
Proof.
  revert k. induction ps as [|p ps IH]; intros k; [done|]. cbn [emit_all map concat]. rewrite written_app, IH.
  f_equal. unfold written, pcap_at, pcap_record. simpl. by rewrite app_nil_r.
Qed.

(** Every call of the system succeeds. *)
Definition os_good : os := Os true true true true true true.

Lemma recording_frames t fs i ks : recording t fs i ks -> Forall (fun p => plen p < 2 ^ 32) (all_packets ks).
Proof.
  revert i. induction ks as [|k ks IH]; intros i; [done|]. intros (Hk & _ & Hr). unfold all_packets. cbn [map concat].
  apply Forall_app. split.
  - apply Forall_forall. intros p Hp. apply list_elem_of_lookup in Hp as [j Hj].
    destruct (gb_holds _ Hk _ _ Hj) as (_ & Hl & _). lay.
  - destruct (final k); [by subst ks|]. by eapply IH.
Qed.

(** The packets that a call with [start] and [count] asks for. *)
Definition select (start count : Z) (ps : list packet) : list packet :=
  take (Z.to_nat count) (drop (Z.to_nat start) ps).

(** The common part of the two programs that write libpcap files. *)
Lemma pcap_scan t fs i ks mem start count :
  short_paths t -> recording t fs i ks -> 0 <= i -> i + zlen ks < 2 ^ 31 ->
  0 <= start < zlen (all_packets ks) -> 0 < count ->
  exists ev, open_pcap os_good (after_loop (finish_pcap os_good)
      (scan_loop pcap_one_packet fs t (length ks) (ScanSt mem i (i mod num_writers t) 0 start count 0))) = (Exit 0, ev) /\
    parse_pcap (written ev) = Some (select start count (all_packets ks)).
Proof.
  intros Hsh Hrec Hi Hb Hs Hc.
  destruct (scan_loop_correct _ _ pcap_emits ltac:(done) fs t Hsh ks i (ScanSt mem i (i mod num_writers t) 0 start count 0))
    as (ev & -> & Hev); [done|by constructor; cbn; lia|lia|done|done|].
  exists ([EWrite pcap_hdr] ++ ev). split; [unfold open_pcap, put; simpl; by rewrite app_nil_r|].
  rewrite written_app, <- (written_payload ev), Hev, written_pcap.
  change (written [EWrite pcap_hdr]) with (pcap_hdr ++ []). rewrite !app_nil_r. apply parse_pcap_written.
  eapply Forall_take, Forall_drop. by eapply recording_frames.
Qed.

Lemma to_libpcap_main a1 a2 a3 cfg t fs ks mem :
  read_disk_table cfg = Loaded t -> short_paths t -> recording t fs 0 ks -> zlen ks < 2 ^ 31 ->
  0 <= atol a1 < zlen (all_packets ks) -> 0 < atol a2 ->
  exists ev, ToLibpcap.main os_good [a1; a2; a3] cfg fs mem (length ks) = (Exit 0, ev) /\
    parse_pcap (written ev) = Some (select (atol a1) (atol a2) (all_packets ks)).
Proof.
  intros Ht Hsh Hrec Hk Hs Hc. unfold ToLibpcap.main, ToLibpcap.read_disk_table. rewrite Ht.
  rewrite !(proj2 (Z.ltb_ge _ _)) by lia.
  destruct (pcap_scan t fs 0 ks mem (atol a1) (atol a2) Hsh Hrec) as (ev & He & Hp); [lia|lia|done|done|].
  rewrite Zmod_0_l in He. by exists ev.
Qed.

(** C4. On a recording whose files are all there and complete, with system calls that succeed,
    for a [start] that is the number of a packet of the recording (past the end the program
    exits with 1, see [to_libpcap_past_end]) and a positive [count]: [to_libpcap start count
    file] ends normally, and the bytes that it writes, from the start of the output file on,
    form a libpcap file whose packets are exactly the [count] packets of the recording from
    number [start] on, in order (fewer when the recording ends before).  The output file is
    not truncated: when it existed and was longer, its tail stays behind these bytes. *)
Theorem to_libpcap_correct a1 a2 a3 cfg t fs ks mem :
  read_disk_table cfg = Loaded t -> short_paths t -> recording t fs 0 ks -> zlen ks < 2 ^ 31 ->
  0 <= atol a1 < zlen (all_packets ks) -> 0 < atol a2 ->
  exists ev, ToLibpcap.main os_good [a1; a2; a3] cfg fs mem (length ks) = (Exit 0, ev) /\
    parse_pcap (written ev) = Some (select (atol a1) (atol a2) (all_packets ks)).
Proof. apply to_libpcap_main. Qed.

(** [block2libpcap block count file] writes the first [count] packets from the given
    block on. *)
Theorem block2libpcap_correct a1 a2 a3 cfg t fs ks mem :
  read_disk_table cfg = Loaded t -> short_paths t -> 0 <= atol a1 -> atol a1 + zlen ks < 2 ^ 31 ->
  recording t fs (atol a1) ks -> 0 < atol a2 ->
  exists ev, Block2Libpcap.main os_good [a1; a2; a3] cfg fs mem (length ks) = (Exit 0, ev) /\
    parse_pcap (written ev) = Some (take (Z.to_nat (atol a2)) (all_packets ks)).
Proof.
  intros Ht Hsh Hi Hk Hrec Hc. unfold Block2Libpcap.main, Block2Libpcap.read_disk_table. rewrite Ht.
  assert (0 <= zlen ks) by (unfold zlen; lia). destruct (Hsh) as [Hnw _].
  rewrite s32_small, !(proj2 (Z.ltb_ge _ _)), (proj2 (Z.eqb_neq (num_writers t) 0)), Z.rem_mod_nonneg by lia.
  destruct (pcap_scan t fs (atol a1) ks mem 0 (atol a2) Hsh Hrec) as (ev & He & Hp); [lia|lia| |done|by exists ev].
  split; [lia|]. destruct ks as [|k ks]; [done|]. destruct Hrec as (Hg & _ & _). pose proof (gb_size _ Hg).
  unfold all_packets, zlen in *. cbn [map concat]. rewrite length_app. lia.
Qed.

(** What [dump_packet] prints for packet number [k]. *)
Definition text_at (k : Z) (p : list Z) : list event :=
  EPacket k (plen p) ::
  concat (map (fun i => (if i mod 16 =? 0 then [EHexRow (i / 16)] else []) ++ [EHexByte (nth (Z.to_nat i) p 0)])
    (seqZ 0 (plen p))) ++ [EEol].

Lemma text_emits : emits text_one_packet text_at.
Proof.
  intros data l base row partial Hl Hr. unfold text_one_packet, text_at.
  assert (plen (bytes_at data l) = l) as -> by (unfold plen, bytes_at; by rewrite length_map, length_seqZ, Z2Nat.id).
  rewrite s32_small by lia. do 3 f_equal. apply map_ext_in. intros i Hi. do 3 f_equal.
  apply list_elem_of_In, elem_of_seqZ in Hi. unfold bytes_at.
  rewrite nth_lookup, list_lookup_fmap, lookup_seqZ_lt by lia. simpl. f_equal. lia.
Qed.

Lemma text_payload k p : forallb payload (text_at k p) = true.
Proof.
  unfold text_at. simpl. rewrite forallb_app. apply andb_true_iff. split; [|done].
  induction (seqZ 0 (plen p)) as [|i l IH]; [done|]. cbn [map concat]. rewrite forallb_app, IH.
  by destruct (i mod 16 =? 0).
Qed.

(** C13. [dump_packet start count] prints exactly the packets asked for, each under its number
    in the recording and with all its bytes. *)
Theorem dump_packet_main_correct a1 a2 cfg t fs ks mem :
  read_disk_table cfg = Loaded t -> short_paths t -> recording t fs 0 ks -> zlen ks < 2 ^ 31 ->
  0 <= atol a1 < zlen (all_packets ks) -> 0 < atol a2 ->
  exists ev, DumpPacket.main os_good [a1; a2] cfg fs mem (length ks) = (Exit 0, ev) /\
    List.filter payload ev = emit_all text_at (atol a1) (select (atol a1) (atol a2) (all_packets ks)).
Proof.
  intros Ht Hsh Hrec Hk Hs Hc. unfold DumpPacket.main, DumpPacket.read_disk_table. rewrite Ht.
  rewrite !(proj2 (Z.ltb_ge _ _)) by lia.
  destruct (scan_loop_correct _ _ text_emits text_payload fs t Hsh ks 0 (ScanSt mem 0 0 0 (atol a1) (atol a2) 0))
    as (ev & He & Hev); [done|constructor; cbn; rewrite ?Zmod_0_l; lia|lia|done|done|].
  exists ev. split; [|exact Hev]. unfold DumpPacket.dump_one_packet, after_loop. simpl. rewrite He. by rewrite app_nil_r.
Qed.

(** Past the end.  The loop skips blocks without looking at their end flags: when
    [start] lies behind the last packet, the program runs into the missing file after the
    last block and fails. *)
Theorem to_libpcap_past_end a1 a2 a3 cfg t fs ks mem :
  read_disk_table cfg = Loaded t -> short_paths t -> recording t fs 0 ks -> zlen ks < 2 ^ 31 - 1 ->
  fs !! file_name (writer_path t (zlen ks mod num_writers t)) (zlen ks) = None ->
  zlen (all_packets ks) <= atol a1 -> 0 < atol a2 ->
  exists ev, ToLibpcap.main os_good [a1; a2; a3] cfg fs mem (S (length ks)) = (Exit 1, ev) /\
    In ECannotOpenStore ev /\ parse_pcap (written ev) = Some [].
Proof.
  intros Ht Hsh Hrec Hk Hnone Hs Hc. unfold ToLibpcap.main, ToLibpcap.read_disk_table. rewrite Ht.
  assert (0 <= zlen (all_packets ks)) by (unfold zlen; lia). rewrite !(proj2 (Z.ltb_ge _ _)) by lia.
  assert (forall js i st, (js = [] \/ recording t fs i js) -> at_block t i st -> i + zlen js = zlen ks ->
    0 < r_count st -> zlen (all_packets js) <= r_start st ->
    exists ev, scan_loop pcap_one_packet fs t (S (length js)) st = (LoopReturn 1, ev) /\
      In ECannotOpenStore ev /\ List.filter payload ev = []) as Hloop.
  { clear Hrec. induction js as [|k js IH]; intros i st Hrec Hat Hi Hct Hst.
    - exists [ECannotOpenStore]. split; [|split; [by left|done]]. cbn [scan_loop]. unfold scan_step.
      rewrite (ab_count _ _ _ Hat), (ab_writer _ _ _ Hat).
      rewrite file_name_short by (done || apply (ab_range _ _ _ Hat)).
      destruct Hsh as [Hnw _]. rewrite (proj2 (Z.eqb_neq (num_writers t) 0)) by lia.
      replace i with (zlen ks) by (unfold zlen in *; simpl in Hi; lia). by rewrite Hnone.
    - destruct Hrec as [?|(Hk' & Hstd & Hr)]; [done|]. unfold all_packets in *. unfold zlen in Hst, Hi. cbn [map concat length] in *.
      rewrite length_app in Hst.
      destruct (scan_step_block _ _ pcap_emits ltac:(done) fs t Hsh i st k Hat ltac:(unfold zlen in *; lia) Hk' Hstd ltac:(lia) Hct)
        as (ev & Hev & Hcase).
      rewrite drop_ge, take_nil in * by (unfold zlen in *; lia). unfold zlen in Hcase. simpl length in Hcase.
      destruct Hcase as [[_ [?|[_ ?]]]|(st' & Hstep & Hat' & _ & Hc' & Hs' & Ho')]; [lia|lia|].
      destruct (IH (i + 1) st') as (ev' & Hl' & Hin & Hp'); [|done|unfold zlen in *; lia|lia|unfold zlen; lia|].
      { destruct (final k); [by left|by right]. }
      exists (ev ++ ev'). cbn [scan_loop] in *. rewrite Hstep, Hl'. split; [done|]. split; [apply in_app_iff; by right|].
      by rewrite List.filter_app, Hev, Hp'. }
  destruct (Hloop ks 0 (ScanSt mem 0 0 0 (atol a1) (atol a2) 0)) as (ev & He & Hin & Hp);
    [by right|constructor; cbn; rewrite ?Zmod_0_l; lia|lia|done|done|].
  exists ([EWrite pcap_hdr] ++ ev). unfold ToLibpcap.dump_one_packet. rewrite He. split; [done|]. split; [by right|].
  rewrite written_app, <- (written_payload ev), Hp. reflexivity.
Qed.

(** *** Witnesses *)

(** A recording of one block with one packet. *)
Definition pkt1 : packet := [1; 2; 3].
Definition info1 : bucket_info :=
  BucketInfo (fun _ => 0) 1 1 0 NUM_RX_SLOTS (fun _ => 0) (fun i => if i =? 0 then 3 else 0).
Definition data1 (o : Z) : Z := if (0 <=? o) && (o <? 3) then o + 1 else 0.
Definition block1 : block := Block info1 data1 [pkt1].
Definition fs1 : fsys := {[ file_name (str "/mnt/sda") 0 := File IMAGE_SIZE (image_byte info1 data1) ]}.
Definition table1 : table := Table 1 7 (fun i => if i =? 0 then str "/mnt/sda" else []).
Definition cfg1 : cstring := render 1 7 (fun _ => str "/mnt/sda").

Lemma block1_good : good_block block1.
Proof.
  constructor; cbn; try done.
  - constructor; cbn; try lia; [lay|]. intros i. destruct (i =? 0); lia.
  - intros [|k] p Hp; [|done]. simpl in Hp. simplify_eq. split; [done|]. split; [done|]. split; [done|].
    intros [|[|[|i]]] b Hb; by simplify_eq/=.
Qed.

Lemma cfg1_loads : exists t, read_disk_table (Some cfg1) = Loaded t /\ num_writers t = 1 /\ writer_path t 0 = str "/mnt/sda".
Proof. eexists. split; [vm_compute; reflexivity | split; reflexivity]. Qed.

Lemma recording1 t : num_writers t = 1 -> writer_path t 0 = str "/mnt/sda" -> recording t fs1 0 [block1] /\ short_paths t.
Proof.
  intros Hn Hw. split.
  - split; [exact block1_good|]. split; [|done]. exists (File IMAGE_SIZE (image_byte info1 data1)).
    rewrite Hn. change (0 mod 1) with 0. rewrite Hw. split; [apply lookup_singleton_eq|]. by split.
  - split; [lia|]. intros i Hi. replace i with 0 by lia. rewrite Hw. done.
Qed.

Lemma to_libpcap_correct_witness :
  exists ev, ToLibpcap.main os_good [str "0"; str "5"; str "out.pcap"] (Some cfg1) fs1 (fun _ => 0) 1 = (Exit 0, ev) /\
    parse_pcap (written ev) = Some [pkt1].
Proof.
  destruct cfg1_loads as (t & Ht & Hn & Hw). destruct (recording1 t Hn Hw) as [Hr Hs].
  exact (to_libpcap_correct (str "0") (str "5") (str "out.pcap") (Some cfg1) t fs1 [block1] (fun _ => 0) Ht Hs Hr
    ltac:(done) ltac:(done) ltac:(done)).
Defined.

Lemma block2libpcap_correct_witness :
  exists ev, Block2Libpcap.main os_good [str "0"; str "1"; str "out.pcap"] (Some cfg1) fs1 (fun _ => 0) 1 = (Exit 0, ev) /\
    parse_pcap (written ev) = Some [pkt1].
Proof.
  destruct cfg1_loads as (t & Ht & Hn & Hw). destruct (recording1 t Hn Hw) as [Hr Hs].
  exact (block2libpcap_correct (str "0") (str "1") (str "out.pcap") (Some cfg1) t fs1 [block1] (fun _ => 0) Ht Hs
    ltac:(done) ltac:(done) Hr ltac:(done)).
Defined.

Lemma dump_packet_main_correct_witness :
  exists ev, DumpPacket.main os_good [str "0"; str "1"] (Some cfg1) fs1 (fun _ => 0) 1 = (Exit 0, ev) /\
    List.filter payload ev = [EPacket 0 3; EHexRow 0; EHexByte 1; EHexByte 2; EHexByte 3; EEol].
Proof.
  destruct cfg1_loads as (t & Ht & Hn & Hw). destruct (recording1 t Hn Hw) as [Hr Hs].
  exact (dump_packet_main_correct (str "0") (str "1") (Some cfg1) t fs1 [block1] (fun _ => 0) Ht Hs Hr
    ltac:(done) ltac:(done) ltac:(done)).
Defined.

Lemma to_libpcap_past_end_witness :
  exists ev, ToLibpcap.main os_good [str "1"; str "5"; str "out.pcap"] (Some cfg1) fs1 (fun _ => 0) 2 = (Exit 1, ev) /\
    In ECannotOpenStore ev /\ parse_pcap (written ev) = Some [].
Proof.
  destruct cfg1_loads as (t & Ht & Hn & Hw). destruct (recording1 t Hn Hw) as [Hr Hs].
  refine (to_libpcap_past_end (str "1") (str "5") (str "out.pcap") (Some cfg1) t fs1 [block1] (fun _ => 0) Ht Hs Hr
    ltac:(done) _ ltac:(done) ltac:(done)).
  rewrite Hn. change (zlen [block1] mod 1) with 0. rewrite Hw. reflexivity.
Defined.
