(* ===== verification/Counts.v ===== *)
(** * Summaries of a recording ([count_recorded.c], [block_info.c])

    [count_recorded] prints the time stamp and the number of packets of every block with a
    running total, [block_info] those of one block. Both read only the first kilobyte of a
    file. *)
From S2P Require Import Prelude Layout DiskTable Files Readers.

(** [*(time_t * ) user_stamp], which [ctime] prints. *)
Definition stamp (b : bucket_info) : Z := s64 (le_load (user_stamp b) 8).

Module CountRecorded.
Definition read_disk_table := DiskTable.read_disk_table.

Section Loop.
Context (fs : fsys) (t : table).

(** [while (1)] of [main]; [fuel] bounds the number of files. *)
Fixpoint loop (fuel : nat) (mem : Z -> Z) (file_count writer_num total : Z) : scan_end * list event :=
  match fuel with
  | O => (LoopFuel, [])
  | S fuel =>
      let name := file_name (writer_path t writer_num) file_count in
      if FNAME_SIZE <=? zlen name then (LoopCrash, [])
      else if num_writers t =? 0 then (LoopCrash, [])
      else
        let writer_num := (writer_num + 1) %c num_writers t in
        match fs !! name with
        | None => (LoopReturn 1, [ECannotOpen name])
        | Some f =>
            let mem := read_into mem DATA_SIZE f 0 CONST_1K in
            let b := header mem in
            let total := s64 (total + num_captured b) in
            let ev := [ETime file_count (stamp b); EAccum (num_captured b) total] in
            let file_count := s32 (file_count + 1) in
            if truthy (stalled b) then (LoopBreak, ev ++ [EEndStalled])
            else if truthy (last b) then (LoopBreak, ev ++ [EEndNormal])
            else let '(r, ev') := loop fuel mem file_count writer_num total in (r, ev ++ ev')
        end
  end.
End Loop.

Definition main (o : os) (args : list cstring) (cfg : option cstring) (fs : fsys) (mem : Z -> Z)
    (fuel : nat) : outcome * list event :=
  match args with
  | [] =>
      match read_disk_table cfg with
      | Overflow => (Crash, [])
      | TableExit d => (Exit 0, [ETable d])
      | Loaded t =>
          if negb (os_dev o) then (Exit 1, [EPerror "open"])
          else if negb (os_mmap o) then (Exit 1, [EPerror "mmap"])
          else after_loop (finish o) (loop fs t fuel mem 0 0 0)
      end
  | _ => (Exit 0, [EUsage])
  end.
End CountRecorded.

Module BlockInfo.
Definition read_disk_table := DiskTable.read_disk_table.

Definition main (o : os) (args : list cstring) (cfg : option cstring) (fs : fsys) (mem : Z -> Z)
    : outcome * list event :=
  match args with
  | [a1] =>
      let file_count := s32 (atol a1) in
      if file_count <? 0 then (Exit 0, [EInvalidBlock file_count])
      else
        match read_disk_table cfg with
        | Overflow => (Crash, [])
        | TableExit d => (Exit 0, [ETable d])
        | Loaded t =>
            if negb (os_dev o) then (Exit 1, [EPerror "open"])
            else if negb (os_mmap o) then (Exit 1, [EPerror "mmap"])
            else if num_writers t =? 0 then (Crash, [])
            else
              let name := file_name (writer_path t (file_count %c num_writers t)) file_count in
              if FNAME_SIZE <=? zlen name then (Crash, [])
              else
                match fs !! name with
                | None => (Exit 1, [ECannotOpen name])
                | Some f =>
                    let b := header (read_into mem DATA_SIZE f 0 CONST_1K) in
                    put ([ETime file_count (stamp b); ECaptured (num_captured b)]
                           ++ (if truthy (stalled b) then [EThisStalled] else [])
                           ++ (if truthy (last b) then [EThisNormal] else []))
                      (finish o)
                end
        end
  | _ => (Exit 0, [EUsage])
  end.
End BlockInfo.

(** ** Theorems *)

(** The first kilobyte of a block's file carries all that the two programs look at. *)
Lemma read_summary k f mem :
  good_block k -> block_file f (k_info k) (k_data k) ->
  let b := header (read_into mem DATA_SIZE f 0 CONST_1K) in
  num_captured b = zlen (k_pkts k) /\ stalled b = stalled (k_info k) /\ last b = last (k_info k) /\
  stamp b = stamp (k_info k).
Proof.
  intros [Hok Hc _ _ _] [Hsz Hb]. cbv zeta.
  assert (forall o, 0 <= o < CONST_1K ->
    read_into mem DATA_SIZE f 0 CONST_1K (DATA_SIZE + o) = bucket_byte (k_info k) o) as Hg.
  { intros o Ho. rewrite read_into_in by (rewrite ?Hsz; unfold IMAGE_SIZE, DATA_SIZE; lay).
    rewrite Hb by (unfold IMAGE_SIZE, DATA_SIZE; lay). unfold image_byte.
    rewrite (proj2 (Z.ltb_lt _ _)) by lay. f_equal. lia. }
  unfold header.
  destruct (header_fields (fun o => read_into mem DATA_SIZE f 0 CONST_1K (DATA_SIZE + o)) (k_info k) CONST_1K Hok)
    as (H1 & H2 & H3 & _); [unfold off_real_end; lay | done |].
  rewrite H1, H2, H3, Hc. split_and!; try done. unfold stamp. f_equal. apply le_load_ext. intros i Hi.
  cbn [user_stamp bucket_of_bytes]. rewrite Hg by lay. unfold bucket_byte, off_num_captured.
  by rewrite (proj2 (Z.ltb_lt _ _)) by lia.
Qed.

(** The lines that [count_recorded] prints for the blocks [ks] from number [i] on. *)
Fixpoint summary (i total : Z) (ks : list block) : list event :=
  match ks with
  | [] => []
  | k :: ks =>
      let total := total + zlen (k_pkts k) in
      [ETime i (stamp (k_info k)); EAccum (zlen (k_pkts k)) total]
        ++ (if truthy (stalled (k_info k)) then [EEndStalled]
            else if truthy (last (k_info k)) then [EEndNormal] else summary (i + 1) total ks)
  end.

Lemma count_loop fs t ks i mem total :
  short_paths t -> recording t fs i ks -> 0 <= i -> i + zlen ks < 2 ^ 31 -> 0 <= total <= i * 2 ^ 24 ->
  CountRecorded.loop fs t (length ks) mem i (i mod num_writers t) total = (LoopBreak, summary i total ks).
Proof.
  intros Hsh. revert i mem total. induction ks as [|k ks IH]; intros i mem total Hrec Hi Hb Ht; [done|].
  destruct Hrec as (Hk & (f & Hf & Hfb) & Hr). unfold zlen in Hb. cbn [length] in *. cbn [CountRecorded.loop summary].
  rewrite file_name_short, Hf by done. pose proof Hsh as [Hnw _]. rewrite (proj2 (Z.eqb_neq (num_writers t) 0)) by lia.
  destruct (read_summary k f mem Hk Hfb) as (-> & -> & -> & ->).
  pose proof (gb_size _ Hk) as Hsz. assert (zlen (k_pkts k) < 2 ^ 24) by (unfold MAX_ROWS in Hsz; lay).
  rewrite (s64_small (total + _)) by lia. unfold final in Hr.
  destruct (truthy (stalled (k_info k))); [done|]. destruct (truthy (last (k_info k))); [done|]. simpl in Hr.
  rewrite s32_small, Z.rem_mod_nonneg by (pose proof (Z.mod_pos_bound i (num_writers t)); lia).
  rewrite Zplus_mod_idemp_l, IH by (done || unfold zlen in *; lia). done.
Qed.

(** [count_recorded] ends normally on every recording and prints for each block its time
    stamp, its number of packets and the running total. *)
Theorem count_recorded_correct cfg t fs ks mem :
  read_disk_table cfg = Loaded t -> short_paths t -> recording t fs 0 ks -> zlen ks < 2 ^ 31 ->
  CountRecorded.main os_good [] cfg fs mem (length ks) = (Exit 0, summary 0 0 ks).
Proof.
  intros Ht Hsh Hrec Hk. unfold CountRecorded.main, CountRecorded.read_disk_table. rewrite Ht. simpl negb. cbv iota.
  pose proof (count_loop fs t ks 0 mem 0 Hsh Hrec ltac:(lia) ltac:(lia) ltac:(lia)) as Hl.
  rewrite Zmod_0_l in Hl. rewrite Hl. unfold after_loop. simpl. by rewrite app_nil_r.
Qed.

(** [block_info n] prints the summary of block [n]. *)
Theorem block_info_correct a1 cfg t fs k mem :
  read_disk_table cfg = Loaded t -> short_paths t -> 0 <= atol a1 < 2 ^ 31 -> good_block k ->
  stored t fs (atol a1) k ->
  BlockInfo.main os_good [a1] cfg fs mem =
  (Exit 0, [ETime (atol a1) (stamp (k_info k)); ECaptured (zlen (k_pkts k))]
           ++ (if truthy (stalled (k_info k)) then [EThisStalled] else [])
           ++ (if truthy (last (k_info k)) then [EThisNormal] else [])).
Proof.
  intros Ht Hsh Ha Hk (f & Hf & Hfb). unfold BlockInfo.main, BlockInfo.read_disk_table. rewrite Ht.
  pose proof Hsh as [Hnw _].
  rewrite s32_small, (proj2 (Z.ltb_ge _ _)), (proj2 (Z.eqb_neq (num_writers t) 0)), Z.rem_mod_nonneg by lia. simpl negb. cbv iota.
  rewrite file_name_short, Hf by (done || lia). destruct (read_summary k f mem Hk Hfb) as (-> & -> & -> & ->).
  unfold put. simpl. by rewrite app_nil_r.
Qed.

Lemma count_recorded_correct_witness :
  CountRecorded.main os_good [] (Some cfg1) fs1 (fun _ => 0) 1 = (Exit 0, [ETime 0 0; EAccum 1 1; EEndNormal]).
Proof.
  destruct cfg1_loads as (t & Ht & Hn & Hw). destruct (recording1 t Hn Hw) as [Hr Hs].
  exact (count_recorded_correct (Some cfg1) t fs1 [block1] (fun _ => 0) Ht Hs Hr ltac:(done)).
Defined.

Lemma block_info_correct_witness :
  BlockInfo.main os_good [str "0"] (Some cfg1) fs1 (fun _ => 0) = (Exit 0, [ETime 0 0; ECaptured 1; EThisNormal]).
Proof.
  destruct cfg1_loads as (t & Ht & Hn & Hw). destruct (recording1 t Hn Hw) as [Hr Hs].
  destruct Hr as (Hk & Hst & _).
  exact (block_info_correct (str "0") (Some cfg1) t fs1 block1 (fun _ => 0) Ht Hs ltac:(done) Hk Hst).
Defined.
