(* ===== verification/Control.v ===== *)
(** * Control programs ([start.c], [stop.c], [status.c]) and [count_then_discard.c]

    The programs that set or show the start and stop bytes of the shared page, and the
    program that consumes captured buckets without writing them to disk. As for the disk
    writers, one step of a program performs at most one access to shared memory. *)
From S2P Require Import Prelude Layout DiskTable Files Capture Readers ToDisk.

(** ** [start], [stop] and [status] *)
Inductive ctl_out :=
| CWait                           (* wait for magic *)
| CMagicIs (m1 m2 : Z)            (* magic1=%08x  magic2=%08x, status only *)
| CMagicOk
| CIssueStart | CIssueStop
| CShowStart (v : Z) | CShowStop (v : Z)
| CPerror (what : string).
Inductive ctl_pc := COpen | CMap | CMagic | CAct | CAct2 | CUnmap | CClose | CExit (code : Z).
Record ctl := Ctl { c_pc : ctl_pc; c_out : list ctl_out }.
Definition ctl_init : ctl := Ctl COpen [].
Definition c_go (pc : ctl_pc) (out : list ctl_out) (c : ctl) : ctl := Ctl pc (c_out c ++ out).
Definition c_fail (what : string) (c : ctl) : ctl := c_go (CExit 1) [CPerror what] c.

Module Start.
(** One step of [main]. *)
Definition step (e : sys) (s : shared) (c : ctl) : option (shared * ctl) :=
  match c_pc c with
  | COpen => Some (s, if sys_ok e then c_go CMap [] c else c_fail "open" c)
  | CMap => Some (s, if sys_ok e then c_go CMagic [] c else c_fail "mmap" c)
  | CMagic => Some (s, if is_magic_ok (gshare s) then c_go CAct [CMagicOk] c else c_go CMagic [CWait] c)
  | CAct | CAct2 => Some (set_gshare (set_issue_start 1 (gshare s)) s, c_go CUnmap [CIssueStart] c)
  | CUnmap => Some (s, if sys_ok e then c_go CClose [] c else c_fail "munmap" c)
  | CClose => Some (s, if sys_ok e then c_go (CExit 0) [] c else c_fail "close" c)
  | CExit _ => None
  end.
End Start.

Module Stop.
Definition issue_user_stop (s : shared) : shared := set_gshare (set_issue_stop 1 (gshare s)) s.
Definition step (e : sys) (s : shared) (c : ctl) : option (shared * ctl) :=
  match c_pc c with
  | COpen => Some (s, if sys_ok e then c_go CMap [] c else c_fail "open" c)
  | CMap => Some (s, if sys_ok e then c_go CMagic [] c else c_fail "mmap" c)
  | CMagic => Some (s, if is_magic_ok (gshare s) then c_go CAct [CMagicOk] c else c_go CMagic [CWait] c)
  | CAct | CAct2 => Some (issue_user_stop s, c_go CUnmap [CIssueStop] c)
  | CUnmap => Some (s, if sys_ok e then c_go CClose [] c else c_fail "munmap" c)
  | CClose => Some (s, if sys_ok e then c_go (CExit 0) [] c else c_fail "close" c)
  | CExit _ => None
  end.
End Stop.

Module Status.
Definition step (e : sys) (s : shared) (c : ctl) : option (shared * ctl) :=
  match c_pc c with
  | COpen => Some (s, if sys_ok e then c_go CMap [] c else c_fail "open" c)
  | CMap => Some (s, if sys_ok e then c_go CMagic [] c else c_fail "mmap" c)
  | CMagic =>
      Some (s, if is_magic_ok (gshare s) then c_go CAct [CMagicOk] c
               else c_go CMagic [CMagicIs (magic1 (gshare s)) (magic2 (gshare s)); CWait] c)
  | CAct => Some (s, c_go CAct2 [CShowStart (issue_start (gshare s))] c)
  | CAct2 => Some (s, c_go CUnmap [CShowStop (issue_stop (gshare s))] c)
  | CUnmap => Some (s, if sys_ok e then c_go CClose [] c else c_fail "munmap" c)
  | CClose => Some (s, if sys_ok e then c_go (CExit 0) [] c else c_fail "close" c)
  | CExit _ => None
  end.
End Status.

(** ** [count_then_discard] *)
Module Discard.
Inductive pc :=
| QOpen | QMapShare | QMagic
| QTop                    (* again0: if (read_user_stop () != 0 && delay_stop++ > 2) *)
| QMap
| QPoll | QPollStop | QUnmapWait
| QTake                   (* packets = num_captured; total_packets += packets *)
| QLast                   (* driver_stop = last *)
| QClear                  (* memset (&u.real, 0, ..) *)
| QUnmap                  (* munmap; cur++ *)
| QEnd | QClose | QExit (code : Z)
| QCrash.                 (* the unchecked result of mmap is dereferenced *)
Inductive out := DUsage | DPerror (what : string) | DWait | DMagicOk
| DBucket (cur : Z) | DCount (packets total : Z).

Record prog := Prog {
  q_pc : pc; q_cur : Z; q_end_cnt : Z; q_delay_stop : Z; q_driver_stop : Z; q_total : Z; q_out : list out
}.
Definition go p q := Prog p (q_cur q) (q_end_cnt q) (q_delay_stop q) (q_driver_stop q) (q_total q) (q_out q).
Definition print o q := Prog (q_pc q) (q_cur q) (q_end_cnt q) (q_delay_stop q) (q_driver_stop q) (q_total q) (q_out q ++ o).
Definition fail what q := go (QExit 1) (print [DPerror what] q).
Definition set_end_cnt v q := Prog (q_pc q) (q_cur q) v (q_delay_stop q) (q_driver_stop q) (q_total q) (q_out q).
Definition set_delay_stop v q := Prog (q_pc q) (q_cur q) (q_end_cnt q) v (q_driver_stop q) (q_total q) (q_out q).
Definition set_driver_stop v q := Prog (q_pc q) (q_cur q) (q_end_cnt q) (q_delay_stop q) v (q_total q) (q_out q).
Definition set_cur v q := Prog (q_pc q) v (q_end_cnt q) (q_delay_stop q) (q_driver_stop q) (q_total q) (q_out q).
Definition set_total v q := Prog (q_pc q) (q_cur q) (q_end_cnt q) (q_delay_stop q) (q_driver_stop q) v (q_out q).

Definition start (args : list cstring) : prog + (Z * list out) :=
  match args with [] => inl (Prog QOpen 0 0 0 0 0 []) | _ => inr (0, [DUsage]) end.

(** [memset (&bucket_info->u.real, 0, sizeof (..))] *)
Definition clear_real (b : bucket_info) : bucket_info :=
  BucketInfo (fun i => if (0 <=? i) && (i <? 64) then 0 else user_stamp b i) 0 0 0 0 (pad1 b) (len b).

Definition step (e : sys) (s : shared) (q : prog) : option (shared * prog) :=
  match q_pc q with
  | QOpen => Some (s, if sys_ok e then go QMapShare q else fail "open" q)
  | QMapShare => Some (s, if sys_ok e then go QMagic q else fail "mmap" q)
  | QMagic => Some (s, if is_magic_ok (gshare s) then go QTop (set_cur START_1G (print [DMagicOk] q))
                       else print [DWait] q)
  | QTop =>
      if truthy (read_user_stop (gshare s)) then
        Some (s, go (if q_delay_stop q >? 2 then QEnd else QMap) (set_delay_stop (q_delay_stop q + 1) q))
      else Some (s, go QMap q)
  | QMap => Some (s, if sys_ok e then go QPoll (set_end_cnt 0 q) else go QCrash q)
  | QPoll =>
      if num_captured (binfo s (q_cur q)) =? 0
      then Some (s, go QPollStop (set_end_cnt (s32 (q_end_cnt q + 1)) q))
      else Some (s, go QTake (print [DBucket (q_cur q)] q))
  | QPollStop =>
      Some (s, go (if truthy (read_user_stop (gshare s)) && (q_end_cnt q >? 20) then QUnmapWait else QPoll) q)
  | QUnmapWait => Some (s, if sys_ok e then go QTop q else fail "munmap" q)
  | QTake =>
      let packets := num_captured (binfo s (q_cur q)) in
      let total := u64 (q_total q + packets) in
      Some (s, go QLast (print [DCount packets total] (set_total total q)))
  | QLast => Some (s, go QClear (set_driver_stop (s32 (last (binfo s (q_cur q)))) q))
  | QClear => Some (upd_binfo (q_cur q) clear_real s, go QUnmap q)
  | QUnmap =>
      if sys_ok e then
        let cur := if q_cur q + 1 >? END_1G then START_1G else q_cur q + 1 in
        Some (s, go (if q_driver_stop q =? 0 then QTop else QEnd) (set_cur cur q))
      else Some (s, fail "munmap" q)
  | QEnd => Some (s, if sys_ok e then go QClose q else fail "munmap" q)
  | QClose => Some (s, if sys_ok e then go (QExit 0) q else fail "close" q)
  | QExit _ | QCrash => None
  end.
End Discard.

(** ** Theorems *)

(** Any of the four programs; [P] is its state. *)
Definition changes_flags_only {P} (step : sys -> shared -> P -> option (shared * P)) : Prop :=
  forall e s p s' p', step e s p = Some (s', p') -> user_step s s'.

(** [start], [stop], [status] and [count_then_discard] are user programs in the sense of
    the capture theorems: they write neither packet data nor lengths nor driver state. *)
Theorem control_is_user :
  changes_flags_only Start.step /\ changes_flags_only Stop.step /\ changes_flags_only Status.step /\
  changes_flags_only Discard.step.
Proof.
  split_and!; intros e s p s' p' H;
    unfold Start.step, Stop.step, Stop.issue_user_stop, Status.step, Discard.step in H;
    repeat (case_match; simplify_eq); auto using user_refl, user_gshare; by apply user_header.
Qed.

(** [n] steps of a program that runs alone. *)
Fixpoint alone {P} (step : sys -> shared -> P -> option (shared * P)) (e : sys) (n : nat) (s : shared) (p : P)
    : option (shared * P) :=
  match n with
  | O => Some (s, p)
  | S n => match step e s p with Some (s, p) => alone step e n s p | None => None end
  end.

#[local] Arguments is_magic_ok : simpl never.

(** Start and stop take effect.  Run on a page that carries the magic numbers, [start]
    ([stop]) ends successfully after six steps of its own and has set exactly the start (the
    stop) byte; [status] shows both bytes and changes nothing. *)
Theorem start_stop_effect s e :
  is_magic_ok (gshare s) = true -> sys_ok e = true ->
  alone Start.step e 6 s ctl_init
    = Some (set_gshare (set_issue_start 1 (gshare s)) s, Ctl (CExit 0) [CMagicOk; CIssueStart]) /\
  alone Stop.step e 6 s ctl_init
    = Some (set_gshare (set_issue_stop 1 (gshare s)) s, Ctl (CExit 0) [CMagicOk; CIssueStop]) /\
  alone Status.step e 7 s ctl_init
    = Some (s, Ctl (CExit 0) [CMagicOk; CShowStart (issue_start (gshare s)); CShowStop (issue_stop (gshare s))]).
Proof.
  intros Hm He. split_and!; cbn; rewrite He; cbn; rewrite He; cbn; rewrite Hm; cbn; rewrite He; cbn; by rewrite He.
Qed.

(** *** What [count_then_discard] counts *)

Definition counts (o : list Discard.out) : list Z :=
  omap (fun x => match x with Discard.DCount packets _ => Some packets | _ => None end) o.
Definition zsuml (l : list Z) : Z := foldr Z.add 0 l.

Inductive qreach : Discard.prog -> Prop :=
| qreach_start q : Discard.start [] = inl q -> qreach q
| qreach_step e s q s' q' : qreach q -> Discard.step e s q = Some (s', q') -> qreach q'.

(** The bucket of the next, or of the current, count. *)
Definition bucket_now (q : Discard.prog) : option Z :=
  let n := zlen (counts (Discard.q_out q)) in
  match Discard.q_pc q with
  | Discard.QTop | Discard.QMap | Discard.QPoll | Discard.QPollStop | Discard.QUnmapWait | Discard.QTake => Some n
  | Discard.QLast | Discard.QClear | Discard.QUnmap => Some (n - 1)
  | _ => None
  end.

Record counting (q : Discard.prog) : Prop := {
  ct_total : Discard.q_total q = u64 (zsuml (counts (Discard.q_out q)));
  ct_first : Discard.q_pc q = Discard.QOpen \/ Discard.q_pc q = Discard.QMapShare \/
             Discard.q_pc q = Discard.QMagic -> counts (Discard.q_out q) = [];
  ct_cur : forall n, bucket_now q = Some n -> 0 <= n /\ Discard.q_cur q = bi n
}.

Lemma counts_app o1 o2 : counts (o1 ++ o2) = counts o1 ++ counts o2.
Proof. apply omap_app. Qed.
Lemma zsuml_app l1 l2 : zsuml (l1 ++ l2) = zsuml l1 + zsuml l2.
Proof. apply foldr_add_app. Qed.

Lemma bi_wrap n : 0 <= n -> (if bi n + 1 >? END_1G then START_1G else bi n + 1) = bi (n + 1).
Proof. intros Hn. unfold bi. layout_consts. split_ifs; zdm. Qed.

Lemma counting_step e s q s' q' : counting q -> Discard.step e s q = Some (s', q') -> counting q'.
Proof.
  intros [Ht Hf Hc] H. unfold bucket_now in Hc. unfold Discard.step in H.
  destruct (Discard.q_pc q) eqn:Epc; repeat (case_match; simplify_eq); simplify_eq/=;
    constructor; unfold bucket_now, Discard.fail in *; cbn; rewrite ?counts_app, ?app_nil_r; cbn; rewrite ?app_nil_r;
    try (exact Ht); try (intros [?|[?|?]]; congruence || discriminate);
    try (by intros; apply Hf; auto); try (by intros n [= <-]; apply Hc);
    try (intros n; rewrite ?Epc; by try case_match); try done.
  - intros n [= <-]. rewrite Hf by auto. split; reflexivity.
  - change (foldr Z.add 0 ?l) with (zsuml l). rewrite zsuml_app, Ht. unfold u64.
    rewrite Zplus_mod_idemp_l. simpl. f_equal. lia.
  - intros n [= <-]. destruct (Hc _ eq_refl) as [Hn ->]. unfold zlen in *. rewrite length_app. simpl.
    split; [lia|]. f_equal. lia.
  - intros n [= <-]. destruct (Hc _ eq_refl) as [Hn Hq]. unfold counts in *. split; [lia|].
    pose proof (bi_wrap _ Hn) as Hw. rewrite <- Hq, H1 in Hw. rewrite Hw. f_equal. lia.
  - intros n [= <-]. destruct (Hc _ eq_refl) as [Hn Hq]. unfold counts in *. split; [lia|].
    pose proof (bi_wrap _ Hn) as Hw. rewrite <- Hq, H1 in Hw. rewrite Hw. f_equal. lia.
Qed.

(** [count_then_discard] takes the buckets in the order of the capture, and its total is
    the sum of the counts it has printed (modulo [2^64]). *)
Theorem discard_counts q :
  qreach q ->
  Discard.q_total q = u64 (zsuml (counts (Discard.q_out q))) /\
  (forall n, bucket_now q = Some n -> 0 <= n /\ Discard.q_cur q = bi n).
Proof.
  intros Hq. assert (counting q) as [? _ ?]; [|done].
  induction Hq as [q Hq|e s q s' q' _ IH Hs]; [|by eapply counting_step].
  injection Hq as <-. by constructor.
Qed.

(** A discarded bucket is no longer readable: clearing its header also clears
    [num_rx_slots], which only the driver sets, at load time. When that bucket is filled and
    written to disk later, [dump_packet] divides by zero. *)
Theorem discard_breaks_readers e s q s' q' :
  Discard.step e s q = Some (s', q') -> Discard.q_pc q = Discard.QClear ->
  num_captured (binfo s' (Discard.q_cur q)) = 0 /\ num_rx_slots (binfo s' (Discard.q_cur q)) = 0 /\
  forall emit data base start count,
    dump_packet emit data (binfo s' (Discard.q_cur q)) (s32 (num_rx_slots (binfo s' (Discard.q_cur q)))) base start count
    = DumpFault.
Proof.
  intros H Hpc. unfold Discard.step in H. rewrite Hpc in H. simplify_eq/=.
  rewrite fn_lookup_insert. done.
Qed.

(** *** Witnesses *)
Lemma start_stop_effect_witness :
  exists s, is_magic_ok (gshare s) = true /\
    alone Start.step sys_good 6 s ctl_init
      = Some (set_gshare (set_issue_start 1 (gshare s)) s, Ctl (CExit 0) [CMagicOk; CIssueStart]).
Proof.
  exists mem_idle. split; [reflexivity|]. apply (start_stop_effect mem_idle sys_good); reflexivity.
Defined.

(** The program after it has looked at a captured bucket. *)
Definition q_take (n : nat) : option (shared * Discard.prog) :=
  alone Discard.step sys_good n mem_captured (Discard.Prog Discard.QOpen 0 0 0 0 0 []).

Lemma alone_qreach n s q s' q' :
  qreach q -> alone Discard.step sys_good n s q = Some (s', q') -> qreach q'.
Proof.
  revert s q. induction n as [|n IH]; intros s q Hq H; simpl in H; [by simplify_eq|].
  destruct (Discard.step sys_good s q) as [[s1 q1]|] eqn:E; [|done]. eapply IH; [|exact H]. by eapply qreach_step.
Qed.

Lemma discard_counts_witness :
  exists q, qreach q /\ counts (Discard.q_out q) = [5] /\ Discard.q_total q = 5 /\ Discard.q_cur q = bi 0.
Proof.
  assert (exists s q, q_take 7 = Some (s, q) /\ Discard.q_pc q = Discard.QLast /\ counts (Discard.q_out q) = [5])
    as (s & q & E & Hpc & Hc) by (eexists _, _; split; [vm_compute; reflexivity | split; reflexivity]).
  assert (qreach q) as Hq by (eapply alone_qreach; [apply qreach_start; reflexivity | exact E]).
  exists q. destruct (discard_counts q Hq) as [H1 H2]. rewrite Hc in H1.
  split; [exact Hq|]. split; [exact Hc|]. split; [exact H1|].
  apply H2. unfold bucket_now. rewrite Hpc, Hc. reflexivity.
Defined.

Lemma discard_breaks_readers_witness :
  exists s' q', Discard.step sys_good mem_captured (Discard.Prog Discard.QClear START_1G 0 0 0 5 []) = Some (s', q') /\
    num_captured (binfo s' START_1G) = 0.
Proof.
  eexists _, _. split; [reflexivity|].
  exact (proj1 (discard_breaks_readers sys_good mem_captured (Discard.Prog Discard.QClear START_1G 0 0 0 5 []) _ _
    eq_refl eq_refl)).
Defined.
