(* ===== verification/EndToEnd.v ===== *)
(** * From the wire to the libpcap file

    The capture threads, the disk writers and the readers together: the packets that the
    adapter has received are the packets that [to_libpcap] finds. The capture side's promise
    ([recorded], proved from the threads) meets what the readers rely on ([recording]). *)
From S2P Require Import Prelude Layout DiskTable Files Capture CaptureInv CaptureSpec CaptureRun ToDisk Readers.

(** The block that a writer makes at time [now] of the packets [c] in the memory bucket [n]. *)
Definition snapshot (s : shared) (now n : Z) (c : list packet) : block :=
  Block (set_time now (binfo s n)) (bucket_data s n) c.

(** The header that goes with these packets. *)
Record header_ready (b : bucket_info) (c : list packet) : Prop := {
  hr_ok : bucket_info_ok b;
  hr_count : num_captured b = zlen c;
  hr_slots : num_rx_slots b = NUM_RX_SLOTS
}.

Lemma snapshot_good s now n c :
  bucket_holds s n c -> header_ready (binfo s n) c -> 0 < zlen c <= MAX_ROWS * NUM_RX_SLOTS ->
  good_block (snapshot s now n c).
Proof. intros Hh [[] Hc Hs] Hz. by constructor. Qed.

(** The buckets of a log in order, the one being filled last. *)
Definition buckets (l : log) : list (list packet) := log_full l ++ [log_cur l].

(** The packets of bucket [n] are the same in both memories; the header may differ. *)
Definition same_bucket (s s' : shared) (n : Z) : Prop :=
  (forall o, 0 <= o < DATA_SIZE -> bucket_data s' n o = bucket_data s n o) /\ forall i, len (binfo s' n) i = len (binfo s n) i.
(** A writer of the table, however it got to this block, has copied the bucket of block [i] of the capture to its file, from a memory [s0] in which the
    bucket held the packets that it holds in [s] and its header was complete, [b] telling whether it carried an end flag. Nobody touched the file after the copy. *)
Definition copied_out (cfg : option cstring) (fs : fsys) (s : shared) (i : Z) (c : list packet) (b : bool) : Prop :=
  exists args w0 s0 fs0 s1 fs1 w1,
    wreach args cfg w0 /\ w_pc w0 = TOpenFile /\ w_file_count w0 = i /\
    (forall f, fs0 !! w_name w0 = Some f -> 0 <= f_size f <= IMAGE_SIZE) /\
    block_run s0 fs0 w0 s1 fs1 w1 /\ w_pc w1 = TNext /\ fs !! w_name w0 = fs1 !! w_name w0 /\
    same_bucket s s0 (bi i) /\ header_ready (binfo s0 (bi i)) c /\ truthy (stalled (binfo s0 (bi i))) || truthy (last (binfo s0 (bi i))) = b.
(** The capture is on disk: at most [NUM_BUCKETS - 2] buckets have been filled, so that none was used twice; something has been recorded in the last one; and every
    bucket has been copied by a writer, the last one alone with an end flag. *)
Record on_disk_complete (cfg : option cstring) (fs : fsys) (s : shared) (l : log) : Prop := {
  od_fits : Z.of_nat (length (log_full l)) <= NUM_BUCKETS - 2;
  od_last : log_cur l <> [];
  od_copied : forall i c, buckets l !! i = Some c -> copied_out cfg fs s (Z.of_nat i) c (bool_decide (i = length (log_full l)))
}.

(** A list of good blocks of which only the last is final is a recording. *)
Lemma recording_intro t fs ks j :
  ks <> [] ->
  (forall i k, ks !! i = Some k -> good_block k /\ stored t fs (j + Z.of_nat i) k /\
    final k = bool_decide (S i = length ks)) ->
  recording t fs j ks.
Proof.
  revert j. induction ks as [|k ks IH]; intros j Hne H; [done|]. cbn [recording].
  destruct (H O k eq_refl) as (Hg & Hs & Hf). split; [done|]. split; [by rewrite Z.add_0_r in Hs|].
  rewrite Hf. destruct ks as [|k' ks]; [by rewrite bool_decide_true|].
  rewrite bool_decide_false by (simpl; lia). apply IH; [done|]. intros i x Hx.
  destruct (H (S i) x Hx) as (Hg' & Hs' & Hf'). split; [done|].
  split; [by replace (j + 1 + Z.of_nat i) with (j + Z.of_nat (S i)) by lia|].
  rewrite Hf'. apply bool_decide_ext. simpl. lia.
Qed.

(** The block in the file that a writer has copied. *)
Lemma copied_block cfg t fs s i c b : read_disk_table cfg = Loaded t -> max_blocks t * num_writers t < 2 ^ 31 ->
  copied_out cfg fs s i c b -> bucket_holds s (bi i) c -> 0 < zlen c <= MAX_ROWS * NUM_RX_SLOTS ->
  exists k, k_pkts k = c /\ good_block k /\ stored t fs i k /\ final k = b.
Proof.
  intros Ht Hmb (args & w0 & s0 & fs0 & s1 & fs1 & w1 & Hw & Hpc & Hi & Hsz & Hrun & Hend & Hfs & [Hd Hl] & Hh & Hb) Hold Hz.
  assert (in_block (w_pc w0) = true) as Hin by (by rewrite Hpc). destruct (reach_block _ _ _ _ Ht Hmb Hw Hin) as (_ & _ & _ & _ & Hcur). rewrite Hi in Hcur.
  destruct (block_copied s0 fs0 w0 s1 fs1 w1 Hpc Hsz Hrun Hend) as (now & f & Hf & Himg & _). rewrite Hcur in Himg.
  exists (snapshot s0 now (bi i) c). split_and!; [done| | |done].
  - apply snapshot_good; [|done|done]. by apply (holds_ext _ _ _ _ _ Hold).
  - exists f. split; [|exact Himg]. pose proof (reach_name _ _ _ _ Ht Hmb Hw Hin) as Hn. rewrite Hi in Hn. by rewrite <- Hn, Hfs.
Qed.
(** One value for each element of a list. *)
Lemma list_choice {A B} (P : nat -> A -> B -> Prop) l : (forall i x, l !! i = Some x -> exists y, P i x y) ->
  exists ys, length ys = length l /\ forall i x y, l !! i = Some x -> ys !! i = Some y -> P i x y.
Proof.
  revert P. induction l as [|x l IH]; intros P H; [by exists []|]. destruct (H O x eq_refl) as [y Hy]. destruct (IH (fun i => P (S i))) as (ys & Hl & Hys); [intros i; apply (H (S i))|].
  exists (y :: ys). split; [cbn; by rewrite Hl|]. intros [|i]; cbn; [by intros ? ? [= <-] [= <-]|apply Hys].
Qed.
Lemma recorded_recording cfg t fs st l : read_disk_table cfg = Loaded t -> max_blocks t * num_writers t < 2 ^ 31 -> recorded st l -> on_disk_complete cfg fs (sh st) l ->
  exists ks, recording t fs 0 ks /\ length ks = S (length (log_full l)) /\ all_packets ks = concat (buckets l).
Proof.
  intros Ht Hmb [[Hp Hcur] Hc Hfull Hrows Hcr _] [Hfits Hlast Hcopied].
  assert (length (buckets l) = S (length (log_full l))) as Hlen by (unfold buckets; rewrite length_app; simpl; lia).
  assert (forall i c, buckets l !! i = Some c -> bucket_holds (sh st) (bi (Z.of_nat i)) c /\ 0 < zlen c <= MAX_ROWS * NUM_RX_SLOTS) as Hb.
  { intros i c Ec. unfold buckets in Ec. apply lookup_app_Some in Ec as [Ec|[Hi Ec]].
    - split; [apply Hfull; [done|]; apply lookup_lt_Some in Ec; lia|]. rewrite Forall_lookup in Hrows. unfold zlen. by apply (Hrows i c).
    - apply list_lookup_singleton_Some in Ec as [Hi0 <-]. split; [replace i with (length (log_full l)) by lia; by rewrite <- Hcur|]. unfold zlen. split; [|done]. destruct (log_cur l); [done|simpl; lia]. }
  destruct (list_choice (fun i c k => k_pkts k = c /\ good_block k /\ stored t fs (Z.of_nat i) k /\ final k = bool_decide (i = length (log_full l))) (buckets l)) as (ks & Hl & Hks).
  { intros i c Ec. destruct (Hb i c Ec) as [H1 H2]. by apply (copied_block cfg t fs (sh st) _ c _ Ht Hmb (Hcopied i c Ec)). }
  assert (map k_pkts ks = buckets l) as Hmap.
  { apply list_eq. intros i. rewrite list_lookup_fmap. destruct (ks !! i) as [k|] eqn:Ek.
    - destruct (lookup_lt_is_Some_2 (buckets l) i) as [c Ec]; [apply lookup_lt_Some in Ek; lia|]. rewrite Ec. cbn. f_equal. by apply (Hks i c k).
    - apply lookup_ge_None in Ek. symmetry. apply lookup_ge_None. lia. }
  exists ks. split_and!; [|lia|unfold all_packets; by rewrite Hmap]. apply recording_intro; [intros ->; by rewrite Hlen in Hl|]. intros i k Ek.
  destruct (lookup_lt_is_Some_2 (buckets l) i) as [c Ec]; [apply lookup_lt_Some in Ek; lia|]. destruct (Hks i c k Ec Ek) as (_ & Hg & Hs & Hf). rewrite Z.add_0_l. split_and!; [done|done|].
  rewrite Hf. apply bool_decide_ext. lia.
Qed.

(** C2. End to end, from the adapter through the writers to [to_libpcap].  In a run in which the receive ring stays fed (the adapter never uses its last
    descriptor), the packets received, up to the fewer than [NUM_RX_SLOTS] ones that the driver had not yet recorded ([log_pending]), are what [to_libpcap]
    delivers: when at most 13 buckets are full, so that none has been reused, and every bucket has been copied to its file by a writer of [pbm_todisk], all of
    whose system calls succeed, from a memory where its packets were as at the end and its header was complete, the last one alone carrying an end flag, and
    when a packet number [start] exists and [count] is positive, then [to_libpcap start count] ends normally, and the bytes that it has written form a libpcap
    file with exactly the packets number [start], [start + 1], ... of those received, at most [count]. (The output file is not truncated: of a longer older
    file the tail stays behind these bytes.) *)
Theorem capture_to_libpcap (rx : shared -> packet -> shared -> Prop) `{!Nic rx} tr st :
  run rx fed tr st ->
  exists l, log_packets l = tr /\ recorded st l /\
    forall t fs cfg a1 a2 a3 mem,
      read_disk_table cfg = Loaded t -> short_paths t -> max_blocks t * num_writers t < 2 ^ 31 -> on_disk_complete cfg fs (sh st) l ->
      0 <= atol a1 < zlen (concat (buckets l)) -> 0 < atol a2 ->
      exists ev, ToLibpcap.main os_good [a1; a2; a3] cfg fs mem (S (length (log_full l))) = (Exit 0, ev) /\
        parse_pcap (written ev) = Some (select (atol a1) (atol a2) (concat (buckets l))).
Proof.
  intros Hrun. destruct (run_recorded rx _ _ Hrun) as (l & Htr & Hrec). exists l. split; [done|]. split; [done|]. intros t fs cfg a1 a2 a3 mem Ht Hsh Hmb Hod Ha1 Ha2.
  destruct (recorded_recording cfg t fs st l Ht Hmb Hrec Hod) as (ks & Hr & Hlen & Hall). rewrite <- Hall, <- Hlen in *.
  destruct (to_libpcap_main a1 a2 a3 cfg t fs ks mem Ht Hsh Hr) as (ev & H1 & H2); try done.
  - unfold zlen. pose proof (od_fits _ _ _ _ Hod). lay.
  - by exists ev.
Qed.

(** *** Witness: one frame, recorded, stopped, written and read back *)
Definition st_done : state := after_proc 2 st_stopped.
Definition info_done : bucket_info := set_last 1 (set_num_captured 1 (set_len 0 60 empty_header)).
Lemma done_pos : cur_partial (pr st_done) = 1.
Proof. vm_compute. reflexivity. Qed.
Lemma done_header : binfo (sh st_done) START_1G = info_done.
Proof. vm_compute. reflexivity. Qed.
Lemma run_done : run nic_model fed [frame0] st_done.
Proof. apply run_after_proc, run_stopped. Qed.
#[global] Opaque st_done.

(** Fewer than one row of packets: they are all in the bucket being filled. *)
Lemma single_bucket l p :
  log_packets l = [p] -> recorded st_done l -> log_full l = [] /\ log_cur l = [p] /\ log_pending l = [].
Proof.
  intros Hp [[H1 _] _ _ Hr _ _]. rewrite done_pos in H1. unfold log_packets in Hp.
  assert (length (concat (log_full l) ++ log_cur l ++ log_pending l) = 1%nat) as Hl by (by rewrite Hp).
  rewrite !length_app in Hl.
  destruct (log_full l) as [|c full] eqn:Ef.
  - split; [done|]. simpl in Hp, Hl. destruct (log_cur l) as [|x [|]]; simpl in *; try lia.
    destruct (log_pending l); simpl in *; [|lia]. by simplify_eq.
  - exfalso. apply Forall_cons in Hr as [[Hc Hm] _]. cbn [concat] in Hl. rewrite length_app in Hl.
    layout_consts. assert (Z.of_nat (length c) = 1) as E by lia. by rewrite E in Hm.
Qed.

Lemma info_done_ready : header_ready info_done [frame0].
Proof.
  constructor; [|reflexivity|reflexivity]. constructor; cbn; try lia; [lay|]. intros i.
  rewrite fn_insert_dec. case_decide; lia.
Qed.

(** The copy by the one writer, from a memory with the packets of [s] when the stop has been issued. *)
Section SingleBlock.
Context (s : shared) (Hs : binfo s START_1G = info_done).
Definition mem_done : shared := Shared true (fun _ => RxDesc 0 0) 0 0 (dram s) (fun _ => info_done) (GlobalShare MAGIC1 MAGIC2 0 1) 0 0 0 0.
(** The writer before it opens the file of block 0, and the program counter after [k] more steps. *)
Definition writer_at (pc : td_pc) : writer := Writer pc (match read_disk_table (Some cfg1) with Loaded t => t | _ => Table 0 0 (fun _ => []) end) false 0 START_1G 0 0 0 1 0 0 0 0 [].
Definition pc_done (k : nat) : option td_pc := match td_n sys_good k mem_done empty (writer_at TOpenFile) with Some (_, _, w) => Some (w_pc w) | None => None end.
Definition fs_after (k : nat) : fsys := match td_n sys_good k mem_done empty (writer_at TOpenFile) with Some (_, fs, _) => fs | None => empty end.
Definition fs_done : fsys := fs_after 101.
Lemma pc_done_some k pc : pc_done k = Some pc -> exists s1 w1, td_n sys_good k mem_done empty (writer_at TOpenFile) = Some (s1, fs_after k, w1) /\ w_pc w1 = pc.
Proof using s. unfold pc_done, fs_after. destruct (td_n sys_good k mem_done empty (writer_at TOpenFile)) as [[[s1 fs1] w1]|]; [|done]. intros [= <-]. by exists s1, w1. Qed.
Lemma writer_reached : wreach [str "0"] (Some cfg1) (writer_at TOpenFile).
Proof using s.
  assert (exists w, todisk_start [str "0"] (Some cfg1) = inl (inl w) /\ td_n sys_good 7 mem_done empty w = Some (mem_done, empty, writer_at TOpenFile)) as (w & Hst & H7).
  { eexists. split; [vm_compute; reflexivity|]. vm_compute. reflexivity. }
  eapply td_n_wreach; [by apply wreach_start|exact H7].
Qed.
Lemma copy_done_pc : pc_done 101 = Some TNext /\ forallb (fun k => bool_decide (pc_done k <> Some TNext)) (seq 0 101) = true.
Proof using s. split; vm_compute; reflexivity. Qed.
Lemma block_done : exists s1 w1, block_run mem_done empty (writer_at TOpenFile) s1 fs_done w1 /\ w_pc w1 = TNext.
Proof using s.
  destruct copy_done_pc as [Hend Hne]. apply pc_done_some in Hend as (s1 & w1 & E & Hpc).
  exists s1, w1. split; [|done]. refine (td_n_block_run 101 _ _ _ _ _ _ _ _ _ (br_start _ _ _) E _). intros k s2 fs2 w2 Hk H2 Hpc2. rewrite forallb_forall in Hne.
  specialize (Hne k ltac:(apply in_seq; lia)). apply bool_decide_eq_true in Hne. apply Hne. unfold pc_done. by rewrite H2, Hpc2.
Qed.
Lemma single_on_disk l : log_full l = [] -> log_cur l = [frame0] -> on_disk_complete (Some cfg1) fs_done s l.
Proof using Hs.
  intros Ef Ec. assert (buckets l = [[frame0]]) as Hb by (unfold buckets; by rewrite Ef, Ec). constructor; [rewrite Ef; simpl; lay|by rewrite Ec|].
  intros i c Hi. rewrite Hb in Hi. destruct i; [|done]. simpl in Hi. simplify_eq. rewrite Ef. destruct block_done as (s1 & w1 & Hr & Hpc).
  exists [str "0"], (writer_at TOpenFile), mem_done, empty, s1, fs_done, w1. split_and!; try done.
  - apply writer_reached.
  - split; [done|]. intros i. change (bi (Z.of_nat 0)) with START_1G. by rewrite Hs.
  - apply info_done_ready.
Qed.
End SingleBlock.

Lemma cfg1_table : exists t, read_disk_table (Some cfg1) = Loaded t /\ num_writers t = 1 /\ writer_path t 0 = str "/mnt/sda" /\ max_blocks t = 7.
Proof. eexists. split; [vm_compute; reflexivity | split_and!; reflexivity]. Qed.
Lemma capture_to_libpcap_witness :
  exists ev, ToLibpcap.main os_good [str "0"; str "9"; str "out.pcap"] (Some cfg1) (fs_done (sh st_done)) (fun _ => 0) 1
    = (Exit 0, ev) /\ parse_pcap (written ev) = Some [frame0].
Proof.
  destruct (capture_to_libpcap nic_model [frame0] st_done run_done) as (l & Htr & Hrec & H).
  destruct (single_bucket l frame0 Htr Hrec) as (Ef & Ec & _).
  destruct cfg1_table as (t & Ht & Hn & Hw & Hmax). destruct (recording1 t Hn Hw) as [_ Hs].
  assert (buckets l = [[frame0]]) as Hb by (unfold buckets; by rewrite Ef, Ec). assert (max_blocks t * num_writers t < 2 ^ 31) as Hmb by (by rewrite Hn, Hmax).
  pose proof (single_on_disk (sh st_done) done_header l Ef Ec) as Hod.
  rewrite Ef, Hb in H. revert Hod H. generalize (sh st_done). intros s Hod H.
  apply (H t (fs_done s) (Some cfg1) (str "0") (str "9") (str "out.pcap") (fun _ => 0));
    [exact Ht | exact Hs | exact Hmb | exact Hod | split; reflexivity | reflexivity].
Defined.
