(* ===== verification/MapUser.v ===== *)
(** * The memory device ([map_user/map_nlsim.c])

    [/dev/nlsim] gives user programs physical memory: [mmap] maps the address that the
    program asks for onto the same physical address, [read] and [write] copy page by page.
    The kernel's [copy_to_user] and [copy_from_user] are a parameter: how many bytes of a
    chunk they leave uncopied. *)
From S2P Require Import Prelude Layout.

Definition PAGE_SIZE : Z := 4096.
Definition EFAULT : Z := 14.
Definition EINVAL : Z := 22.
Definition EPERM : Z := 1.
Definition EAGAIN : Z := 11.
Definition O_SYNC : Z := 0x101000.

(** On x86-64. *)
Definition uncached_access (f_flags : Z) : Z := if truthy (Z.land f_flags O_SYNC) then 1 else 0.

Section Device.
(** [__pa (high_memory)]: the end of the memory that the kernel knows. *)
Context (high_memory : Z).

Definition valid_phys_addr_range (addr count : Z) : bool :=
  if u64 (addr + count) >? high_memory then false else true.
Definition valid_mmap_phys_addr_range (pfn size : Z) : Z := 1.

(** [sz]: to the end of the page, at most [count]. *)
Definition chunk (p count : Z) : Z :=
  let off := Z.land (u64 (- p)) (PAGE_SIZE - 1) in
  Z.min (if truthy off then off else PAGE_SIZE) count.

(** [n] bytes of [src] from [soff] copied to [dst] at [doff]. *)
Definition copy (dst : Z -> Z) (doff : Z) (src : Z -> Z) (soff n : Z) : Z -> Z :=
  fun a => if (doff <=? a) && (a <? doff + n) then src (soff + (a - doff)) else dst a.

(** The return value, the memory copied to, and the new file position. *)
Record io := Io { io_ret : Z; io_mem : Z -> Z; io_pos : Z }.

Context (uncopied : Z -> Z -> Z).

(** [while (count > 0)] of [read_mem]; [off] is the offset in the user's buffer [ub].
    Every iteration copies at least one byte, so [count] iterations are enough. *)
Fixpoint read_loop (fuel : nat) (phys ub : Z -> Z) (p off count read : Z) : option (Z * (Z -> Z)) :=
  if count <=? 0 then Some (read, ub)
  else match fuel with
  | O => None
  | S fuel =>
      let sz := chunk p count in
      let left := uncopied off sz in
      let ub := copy ub off phys p (sz - left) in
      if truthy left then Some (- EFAULT, ub)
      else read_loop fuel phys ub (u64 (p + sz)) (off + sz) (count - sz) (read + sz)
  end.

Definition read_mem (phys ub : Z -> Z) (count ppos : Z) : option io :=
  let p := u64 ppos in
  if negb (valid_phys_addr_range p count) then Some (Io (- EFAULT) ub ppos)
  else match read_loop (Z.to_nat count) phys ub p 0 count 0 with
       | None => None
       | Some (r, ub) => Some (Io r ub (if r <? 0 then ppos else s64 (ppos + r)))
       end.

Fixpoint write_loop (fuel : nat) (phys ub : Z -> Z) (p off count written : Z) : option (Z * (Z -> Z)) :=
  if count <=? 0 then Some (written, phys)
  else match fuel with
  | O => None
  | S fuel =>
      let sz := chunk p count in
      let copied := uncopied off sz in
      let phys := copy phys p ub off (sz - copied) in
      if truthy copied then
        let written := written + (sz - copied) in
        if truthy written then Some (written, phys) else Some (- EFAULT, phys)
      else write_loop fuel phys ub (u64 (p + sz)) (off + sz) (count - sz) (written + sz)
  end.

Definition write_mem (phys ub : Z -> Z) (count ppos : Z) : option io :=
  let p := u64 ppos in
  if negb (valid_phys_addr_range p count) then Some (Io (- EFAULT) phys ppos)
  else match write_loop (Z.to_nat count) phys ub p 0 count 0 with
       | None => None
       | Some (r, phys) => Some (Io r phys (if r <? 0 then ppos else s64 (ppos + r)))
       end.
End Device.

(** [mmap_mem]: the return value and the physical address of each mapped address;
    [remap_ok] tells whether [remap_pfn_range] succeeds. *)
Definition mmap_mem (remap_ok : bool) (vm_start vm_end : Z) : Z * (Z -> option Z) :=
  let size := vm_end - vm_start in
  let physical := vm_start in
  if remap_ok
  then (0, fun va => if (vm_start <=? va) && (va <? vm_start + size)
                     then Some (Z.shiftl (Z.shiftr physical 12) 12 + (va - vm_start)) else None)
  else (- EAGAIN, fun _ => None).

(** [memory_lseek]: the return value and the new [f_pos]. *)
Definition memory_lseek (f_pos offset orig : Z) : Z * Z :=
  if orig =? 0 then (offset, offset)
  else if orig =? 1 then (s64 (f_pos + offset), s64 (f_pos + offset))
  else (- EINVAL, f_pos).

(** [open_port], which [memory_open] calls through [mem_fops]; [rawio] is
    [capable (CAP_SYS_RAWIO)]. *)
Definition open_port (rawio : bool) : Z := if rawio then 0 else - EPERM.
Definition memory_open (rawio : bool) : Z := open_port rawio.

(** [nlsim_init] and [nlsim_exit] on the table of character devices; registering fails when
    the major number is taken, which [nlsim_init] only reports. *)
Definition nlsim_init (chrdevs : gset Z) : Z * gset Z * bool :=
  if decide (NLSIM_MAJOR ∈ chrdevs) then (0, chrdevs, false) else (0, {[NLSIM_MAJOR]} ∪ chrdevs, true).
Definition nlsim_exit (chrdevs : gset Z) : gset Z := chrdevs ∖ {[NLSIM_MAJOR]}.

(** ** Theorems *)
Lemma chunk_bounds p count : 0 < count -> 0 < chunk p count <= count /\ chunk p count <= PAGE_SIZE.
Proof.
  intros Hc. unfold chunk. change (PAGE_SIZE - 1) with (2 ^ 12 - 1). rewrite land_ones_mod by lia.
  pose proof (Z.mod_pos_bound (u64 (- p)) (2 ^ 12) ltac:(lia)). unfold PAGE_SIZE, truthy. split_ifs; lia.
Qed.

(** A chunk never crosses a page boundary. *)
Lemma chunk_in_page p count :
  0 <= p -> 0 < count -> p / PAGE_SIZE = (p + chunk p count - 1) / PAGE_SIZE.
Proof.
  intros Hp Hc. pose proof (chunk_bounds p count Hc) as Hb. unfold chunk in *. change (PAGE_SIZE - 1) with (2 ^ 12 - 1) in *.
  rewrite land_ones_mod in * by lia.
  assert (u64 (- p) mod 2 ^ 12 = (- p) mod 4096) as Hm
    by (unfold u64; apply mod_mod_divide; [lia | exists (2 ^ 52); lia | lia]).
  rewrite Hm in *. unfold PAGE_SIZE, truthy in *. split_ifs; zdm.
Qed.

(** Copying a prefix and then the rest is copying the whole. *)
Lemma copy_split dst doff src soff n m :
  0 <= n -> 0 <= m -> forall a,
  copy (copy dst doff src soff n) (doff + n) src (soff + n) m a = copy dst doff src soff (n + m) a.
Proof.
  intros Hn Hm a. unfold copy.
  destruct ((doff + n <=? a) && _) eqn:E1, ((doff <=? a) && (a <? doff + n)) eqn:E2,
    ((doff <=? a) && (a <? doff + (n + m))) eqn:E3; try (f_equal; lia);
    repeat match goal with H : (_ && _) = false |- _ => apply andb_false_iff in H; destruct H end; zbool; lia || done.
Qed.

Lemma copy_0 dst doff src soff a : copy dst doff src soff 0 a = dst a.
Proof. unfold copy. split_ifs; [lia|done]. Qed.

Lemma copy_in dst doff src soff n a : doff <= a < doff + n -> copy dst doff src soff n a = src (soff + (a - doff)).
Proof. intros H. unfold copy. rewrite (proj2 (Z.leb_le _ _)), (proj2 (Z.ltb_lt _ _)) by lia. done. Qed.

Section DeviceSpec.
Context (high_memory : Z) (uncopied : Z -> Z -> Z).
Hypothesis Hcopy : forall off sz, uncopied off sz = 0.

Lemma read_loop_correct fuel phys ub p off count read :
  0 <= p -> 0 <= count <= Z.of_nat fuel -> p + count < 2 ^ 64 ->
  exists ub', read_loop uncopied fuel phys ub p off count read = Some (read + count, ub') /\
    forall a, ub' a = copy ub off phys p count a.
Proof using Hcopy.
  revert ub p off count read. induction fuel as [|fuel IH]; intros ub p off count read Hp Hf Hb; cbn [read_loop];
    destruct (count <=? 0) eqn:E; zbool; try lia.
  1, 2: replace count with 0 by lia; exists ub; split; [by rewrite Z.add_0_r|intros a; by rewrite copy_0].
  destruct (chunk_bounds p count E) as [Hc _]. rewrite Hcopy, Z.sub_0_r. simpl truthy. cbv iota. rewrite u64_small by lia.
  edestruct (IH (copy ub off phys p (chunk p count)) (p + chunk p count) (off + chunk p count)
    (count - chunk p count) (read + chunk p count)) as (ub' & -> & Hu); [lia|lia|lia|].
  exists ub'. split; [f_equal; f_equal; lia|]. intros a. rewrite Hu, copy_split by lia. f_equal. lia.
Qed.

Lemma write_loop_correct fuel phys ub p off count written :
  0 <= p -> 0 <= count <= Z.of_nat fuel -> p + count < 2 ^ 64 ->
  exists phys', write_loop uncopied fuel phys ub p off count written = Some (written + count, phys') /\
    forall a, phys' a = copy phys p ub off count a.
Proof using Hcopy.
  revert phys p off count written. induction fuel as [|fuel IH]; intros phys p off count written Hp Hf Hb; cbn [write_loop];
    destruct (count <=? 0) eqn:E; zbool; try lia.
  1, 2: replace count with 0 by lia; exists phys; split; [by rewrite Z.add_0_r|intros a; by rewrite copy_0].
  destruct (chunk_bounds p count E) as [Hc _]. rewrite Hcopy, Z.sub_0_r. simpl truthy. cbv iota. rewrite u64_small by lia.
  edestruct (IH (copy phys p ub off (chunk p count)) (p + chunk p count) (off + chunk p count)
    (count - chunk p count) (written + chunk p count)) as (phys' & -> & Hu); [lia|lia|lia|].
  exists phys'. split; [f_equal; f_equal; lia|]. intros a. rewrite Hu, copy_split by lia. f_equal. lia.
Qed.

Lemma valid_range p count : 0 <= p -> 0 <= count -> p + count <= high_memory -> high_memory < 2 ^ 63 ->
  valid_phys_addr_range high_memory p count = true.
Proof using. intros. unfold valid_phys_addr_range. rewrite u64_small by lia. split_ifs; [lia|done]. Qed.

Context (p count : Z) (Hp : 0 <= p) (Hc : 0 <= count).
Hypothesis (Hr : p + count <= high_memory) (Hh : high_memory < 2 ^ 63).

Lemma read_mem_correct phys ub :
  exists ub', read_mem high_memory uncopied phys ub count p = Some (Io count ub' (p + count)) /\
    forall a, ub' a = copy ub 0 phys p count a.
Proof using All.
  unfold read_mem. rewrite u64_small, valid_range by lia. cbn [negb].
  destruct (read_loop_correct (Z.to_nat count) phys ub p 0 count 0) as (ub' & -> & Hu); [lia|lia|lia|].
  exists ub'. split; [|done]. rewrite Z.add_0_l, (proj2 (Z.ltb_ge _ _)), s64_small by lia. done.
Qed.

Lemma write_mem_correct phys ub :
  exists phys', write_mem high_memory uncopied phys ub count p = Some (Io count phys' (p + count)) /\
    forall a, phys' a = copy phys p ub 0 count a.
Proof using All.
  unfold write_mem. rewrite u64_small, valid_range by lia. cbn [negb].
  destruct (write_loop_correct (Z.to_nat count) phys ub p 0 count 0) as (phys' & -> & Hu); [lia|lia|lia|].
  exists phys'. split; [|done]. rewrite Z.add_0_l, (proj2 (Z.ltb_ge _ _)), s64_small by lia. done.
Qed.
End DeviceSpec.

(** Write and read back.  Within the memory that the kernel knows, writing [count] bytes
    at [p] and reading them again returns all of them and leaves the rest of memory alone;
    both calls return [count], advance the file position by it, and copy page by page. *)
Theorem write_read_mem high_memory uncopied p count phys ub ub2 :
  (forall off sz, uncopied off sz = 0) -> 0 <= p -> 0 <= count -> p + count <= high_memory ->
  high_memory < 2 ^ 63 ->
  exists phys' ub2',
    write_mem high_memory uncopied phys ub count p = Some (Io count phys' (p + count)) /\
    read_mem high_memory uncopied phys' ub2 count p = Some (Io count ub2' (p + count)) /\
    (forall i, 0 <= i < count -> ub2' i = ub i) /\
    (forall a, ~ (p <= a < p + count) -> phys' a = phys a).
Proof.
  intros Hu Hp Hc Hr Hh.
  destruct (write_mem_correct high_memory uncopied Hu p count Hp Hc Hr Hh phys ub) as (phys' & Hw1 & Hw).
  destruct (read_mem_correct high_memory uncopied Hu p count Hp Hc Hr Hh phys' ub2) as (ub2' & Hr1 & Hrd).
  exists phys', ub2'. split_and!; try done.
  - intros i Hi. rewrite Hrd. rewrite copy_in, Hw, copy_in by lia. f_equal. lia.
  - intros a Ha. rewrite Hw. unfold copy. split_ifs; [lia|done].
Qed.

(** The range check can be passed from above: the sum of the address and the length is
    computed in 64 bits, so a request that wraps around is accepted although it starts above
    every address the kernel knows. *)
Theorem phys_range_wraps high_memory addr count :
  0 <= high_memory < addr -> addr < 2 ^ 64 -> 2 ^ 64 <= addr + count <= 2 ^ 64 + high_memory ->
  valid_phys_addr_range high_memory addr count = true.
Proof.
  intros Hh Ha Hc. unfold valid_phys_addr_range, u64. split_ifs; [|done]. revert E. change (2 ^ 64) with 18446744073709551616 in *. zdm.
Qed.

(** [mmap] is the identity on page-aligned requests: the address that a program uses is
    the physical address, which is what every program of the recorder relies on. *)
Theorem mmap_identity vm_start vm_end :
  0 <= vm_start -> vm_start mod PAGE_SIZE = 0 ->
  let '(r, phys) := mmap_mem true vm_start vm_end in
  r = 0 /\ forall va, vm_start <= va < vm_end -> phys va = Some va.
Proof.
  intros H0 Ha. unfold mmap_mem. split; [done|]. intros va Hva.
  rewrite Z.shiftr_div_pow2, Z.shiftl_mul_pow2 by lia. change (2 ^ 12) with 4096. unfold PAGE_SIZE in Ha.
  split_ifs; [f_equal; zdm|]. apply andb_false_iff in E. destruct E; zbool; lia.
Qed.

(** The addresses that the programs map are page-aligned. *)
Lemma mapped_addresses_aligned n :
  (n * 2 ^ 30) mod PAGE_SIZE = 0 /\ (n * 2 ^ 30 + DATA_SIZE) mod PAGE_SIZE = 0 /\ GLOBAL_ADDR mod PAGE_SIZE = 0.
Proof. unfold PAGE_SIZE, DATA_SIZE. layout_consts. change (2 ^ 30) with 1073741824. zdm. Qed.

(** *** Witnesses *)
Lemma write_read_mem_witness :
  exists phys' ub2',
    write_mem (2 ^ 34) (fun _ _ => 0) (fun _ => 0) (fun i => i mod 256) 10000 5000 = Some (Io 10000 phys' 15000) /\
    read_mem (2 ^ 34) (fun _ _ => 0) phys' (fun _ => 0) 10000 5000 = Some (Io 10000 ub2' 15000) /\
    ub2' 9999 = 15.
Proof.
  destruct (write_read_mem (2 ^ 34) (fun _ _ => 0) 5000 10000 (fun _ => 0) (fun i => i mod 256) (fun _ => 0))
    as (phys' & ub2' & H1 & H2 & H3 & _); [reflexivity | lia | lia | lia | lia |].
  exists phys', ub2'. split; [exact H1|]. split; [exact H2|]. rewrite H3 by lia. reflexivity.
Defined.

Lemma phys_range_wraps_witness : valid_phys_addr_range (2 ^ 34) (2 ^ 64 - 4096) 8192 = true.
Proof. apply (phys_range_wraps (2 ^ 34) (2 ^ 64 - 4096) 8192); lia. Defined.

Lemma mmap_identity_witness :
  forall va, GLOBAL_ADDR <= va < GLOBAL_ADDR + 4096 -> (mmap_mem true GLOBAL_ADDR (GLOBAL_ADDR + 4096)).2 va = Some va.
Proof.
  destruct (mmap_identity GLOBAL_ADDR (GLOBAL_ADDR + 4096)) as [_ H]; [lay | reflexivity | exact H].
Defined.
