(* ===== verification/PbmInit.v ===== *)
(** * Setting up the capture ([nlsim_pbm.c] and its hooks in [ixgbe_main.c])

    [pbm_init_all] reserves and maps the buckets, clears their headers, initialises the
    shared page and creates the two threads; [ixgbe_probe] calls it for one port, and
    [ixgbe_setup_all_rx_resources] publishes the receive ring that the threads wait for.
    The kernel's services are parameters. *)
From S2P Require Import Prelude Layout DiskTable Capture.

Inductive thread := NlsimAlloc | NlsimProcess.
#[export] Instance thread_eq_dec : EqDecision thread.
Proof. solve_decision. Defined.

(** [char name [128][32]]: "buc000" .. "buc127". *)
Definition name (i : Z) : cstring := str "buc" ++ fmt_0d 3 i.

(** The file-scope variables that the setup writes, the kernel resources it holds, and the
    memory it reaches through the mappings. A NULL pointer is [None]. *)
Record pbm := Pbm {
  len_array_phys : Z -> Z;
  base_ptr : Z -> Z;
  len_array_kvirt : Z -> option Z;
  global_phys : Z;
  global_kvirt : option Z;
  regions : list (Z * Z * cstring);     (* start, size, name *)
  mappings : list Z;                    (* virtual addresses returned by ioremap *)
  headers : Z -> bucket_info;
  page : global_share;
  threads : list (thread * Z)           (* running, with the processor it is bound to *)
}.
Definition set_tables v w m := Pbm v w (len_array_kvirt m) (global_phys m) (global_kvirt m) (regions m) (mappings m)
  (headers m) (page m) (threads m).
Definition set_global v w m := Pbm (len_array_phys m) (base_ptr m) (len_array_kvirt m) v w (regions m) (mappings m)
  (headers m) (page m) (threads m).
Definition set_kvirt v m := Pbm (len_array_phys m) (base_ptr m) v (global_phys m) (global_kvirt m) (regions m)
  (mappings m) (headers m) (page m) (threads m).
Definition set_resources v w m := Pbm (len_array_phys m) (base_ptr m) (len_array_kvirt m) (global_phys m)
  (global_kvirt m) v w (headers m) (page m) (threads m).
Definition set_headers v m := Pbm (len_array_phys m) (base_ptr m) (len_array_kvirt m) (global_phys m) (global_kvirt m)
  (regions m) (mappings m) v (page m) (threads m).
Definition set_page v m := Pbm (len_array_phys m) (base_ptr m) (len_array_kvirt m) (global_phys m) (global_kvirt m)
  (regions m) (mappings m) (headers m) v (threads m).
Definition add_thread t m := Pbm (len_array_phys m) (base_ptr m) (len_array_kvirt m) (global_phys m) (global_kvirt m)
  (regions m) (mappings m) (headers m) (page m) (threads m ++ [t]).

(** [memset (&u.real, 0, sizeof (u.real)); u.real.num_rx_slots = NUM_RX_SLOTS;] *)
Definition init_header (b : bucket_info) : bucket_info :=
  set_num_rx_slots NUM_RX_SLOTS
    (BucketInfo (fun i => if (0 <=? i) && (i <? 64) then 0 else user_stamp b i) 0 0 0 0 (pad1 b) (len b)).

Section Init.
Context (request_mem_region : Z -> Z -> cstring -> bool).
Context (ioremap : Z -> Z -> option Z).
(** [inr err] when the thread cannot be created. *)
Context (kthread_create : thread -> unit + Z).

(** The body of [for (i = START_1G; i <= END_1G; i++)]; [inr] when it returns. *)
Definition init_bucket (i : Z) (m : pbm) : pbm + Z * pbm :=
  let phys := base_ptr m i + 992 * CONST_1M in
  let m := set_tables (<[i := phys]> (len_array_phys m)) (base_ptr m) m in
  let m := if request_mem_region (base_ptr m i) CONST_1G (name i)
           then set_resources (regions m ++ [(base_ptr m i, CONST_1G, name i)]) (mappings m) m else m in
  match ioremap phys (32 * CONST_1M) with
  | None => inr (-1, set_kvirt (<[i := None]> (len_array_kvirt m)) m)
  | Some v =>
      let m := set_resources (regions m) (mappings m ++ [v]) (set_kvirt (<[i := Some v]> (len_array_kvirt m)) m) in
      inl (set_headers (<[i := init_header (headers m i)]> (headers m)) m)
  end.

Fixpoint init_buckets (n : nat) (i : Z) (m : pbm) : pbm + Z * pbm :=
  match n with
  | O => inl m
  | S n => match init_bucket i m with inl m => init_buckets n (i + 1) m | inr r => inr r end
  end.

(** The second half: the shared page and the threads. *)
Definition init_threads (m : pbm) : Z * pbm :=
  let m := set_global GLOBAL_ADDR
             (match len_array_kvirt m START_1G with Some v => Some (v + 32 * CONST_1M - 4096) | None => None end) m in
  let m := set_page (GlobalShare MAGIC1 MAGIC2 0 0) m in
  match kthread_create NlsimAlloc with
  | inr err => (err, m)
  | inl _ =>
      let m := add_thread (NlsimAlloc, 5) m in
      match kthread_create NlsimProcess with
      | inr err => (err, m)
      | inl _ => (0, add_thread (NlsimProcess, 4) m)
      end
  end.

Definition pbm_init_all (m : pbm) : Z * pbm :=
  let m := set_tables (fun i => if (0 <=? i) && (i <? 128) then 0 else len_array_phys m i)
             (fun i => if (0 <=? i) && (i <? 128) then u64 (Z.shiftl i 30) else base_ptr m i) m in
  match init_buckets (Z.to_nat (END_1G - START_1G + 1)) START_1G m with
  | inr r => r
  | inl m => init_threads m
  end.
End Init.

(** [iounmap] and [release_mem_region] of bucket [i]. *)
Definition release_bucket (i : Z) (m : pbm) : pbm :=
  set_resources (List.filter (fun r => negb (r.1.1 =? base_ptr m i)) (regions m))
    (List.filter (fun v => match len_array_kvirt m i with Some w => negb (v =? w) | None => true end) (mappings m)) m.

Definition pbm_destroy_all (m : pbm) : Z * pbm :=
  let m := set_page (GlobalShare (u32 (Z.lnot MAGIC1)) (u32 (Z.lnot MAGIC2)) (issue_start (page m)) (issue_stop (page m))) m in
  (0, foldl (fun m i => release_bucket i m) m (seqZ START_1G (END_1G - START_1G + 1))).

(** ** The hooks in [ixgbe_main.c] *)

(** [ixgbe_probe]: the first port probed ([NLSIM_PORT_USE]) becomes the capture port; the
    result of [pbm_init_all] is not looked at. Adapters are numbered. *)
Record driver := Driver {
  pbm_dev_count : Z; pbm_adapter : option Z; d_pbm : pbm;
  d_pbm_rx_ring : option (Z * Z)        (* adapter and queue of the published ring *)
}.
Definition probe_hook (init : pbm -> Z * pbm) (adapter : Z) (d : driver) : driver :=
  let d := if pbm_dev_count d =? NLSIM_PORT_USE
           then Driver (pbm_dev_count d) (Some adapter) (init (d_pbm d)).2 (d_pbm_rx_ring d) else d in
  Driver (u16 (pbm_dev_count d + 1)) (pbm_adapter d) (d_pbm d) (d_pbm_rx_ring d).

(** [ixgbe_setup_all_rx_resources] with [num_rx_queues] rings: [setup i] is the result of
    [ixgbe_setup_rx_resources] of ring [i] (0 or an error), [fcoe] that of
    [ixgbe_setup_fcoe_ddp_resources]. The rings that hold memory are listed. *)
Fixpoint setup_rings (setup : Z -> Z) (adapter : Z) (n : nat) (i : Z) (d : driver) (held : list Z)
    : Z * Z * driver * list Z :=
  match n with
  | O => (0, i, d, held)
  | S n =>
      let err := setup i in
      let held := if err =? 0 then held ++ [i] else held in
      let d := if bool_decide (pbm_adapter d = Some adapter) && (i =? 0)
               then Driver (pbm_dev_count d) (pbm_adapter d) (d_pbm d) (Some (adapter, 0)) else d in
      if err =? 0 then setup_rings setup adapter n (i + 1) d held else (err, i, d, held)
  end.
Definition ixgbe_setup_all_rx_resources (setup : Z -> Z) (fcoe : Z) (adapter num_rx_queues : Z) (d : driver)
    : Z * driver * list Z :=
  let '(err, i, d, held) := setup_rings setup adapter (Z.to_nat num_rx_queues) 0 d [] in
  let err := if err =? 0 then fcoe else err in
  if err =? 0 then (0, d, held)
  else (err, d, List.filter (fun r => negb ((0 <=? r) && (r <? i))) held).

(** [ixgbe_alloc_rx_buffers], [ixgbe_clean_rx_irq] and [ixgbe_clean_rx_ring] leave the
    published ring alone; [ixgbe_xmit_frame] drops what is sent through the capture port. *)
Definition hook_skips_ring (d : driver) (ring : Z * Z) : bool := bool_decide (d_pbm_rx_ring d = Some ring).
Definition clean_rx_irq_hook (d : driver) (ring : Z * Z) (budget : Z) : option Z :=
  if hook_skips_ring d ring then Some budget else None.
Definition xmit_hook (d : driver) (adapter : Z) : option Z :=
  if bool_decide (pbm_adapter d = Some adapter) then Some 0 (* NETDEV_TX_OK, the packet is freed *) else None.

(** ** Theorems *)

(** What the buckets [i .. i + n - 1] look like once they have been set up. *)
Record buckets_ready (ioremap : Z -> Z -> option Z) (i n : Z) (m m' : pbm) : Prop := {
  br_base : base_ptr m' = base_ptr m;
  br_same : page m' = page m /\ threads m' = threads m /\ global_kvirt m' = global_kvirt m;
  br_phys : forall j, i <= j < i + n -> len_array_phys m' j = base_ptr m j + 992 * CONST_1M;
  br_kvirt : forall j, i <= j < i + n -> len_array_kvirt m' j = ioremap (base_ptr m j + 992 * CONST_1M) (32 * CONST_1M);
  br_header : forall j, i <= j < i + n -> headers m' j = init_header (headers m j);
  br_regions : forall r, In r (regions m') -> In r (regions m) \/ exists j, i <= j < i + n /\ r.1.1 = base_ptr m j;
  br_mappings : forall v, In v (mappings m') ->
    In v (mappings m) \/ exists j, i <= j < i + n /\ len_array_kvirt m' j = Some v;
  br_other : forall j, ~ (i <= j < i + n) ->
    len_array_phys m' j = len_array_phys m j /\ len_array_kvirt m' j = len_array_kvirt m j /\ headers m' j = headers m j
}.

Lemma buckets_ready_trans ioremap i n m m1 m2 :
  0 <= n -> buckets_ready ioremap i 1 m m1 -> buckets_ready ioremap (i + 1) n m1 m2 ->
  buckets_ready ioremap i (n + 1) m m2.
Proof.
  intros Hn [A1 A2 A3 A4 A5 A6 A7 A8] [B1 B2 B3 B4 B5 B6 B7 B8]. constructor.
  - congruence.
  - destruct A2 as (<- & <- & <-). exact B2.
  - intros j Hj. destruct (decide (j = i)) as [->|]; [|rewrite B3 by lia; by rewrite A1].
    destruct (B8 i) as [-> _]; [lia|]. apply A3. lia.
  - intros j Hj. destruct (decide (j = i)) as [->|]; [|rewrite B4 by lia; by rewrite A1].
    destruct (B8 i) as (_ & -> & _); [lia|]. apply A4. lia.
  - intros j Hj. destruct (decide (j = i)) as [->|].
    + destruct (B8 i) as (_ & _ & ->); [lia|]. apply A5. lia.
    + rewrite B5 by lia. by destruct (A8 j) as (_ & _ & ->); [lia|].
  - intros r Hr. destruct (B6 r Hr) as [Hr1|(j & Hj & Hr1)].
    + destruct (A6 r Hr1) as [?|(j & Hj & ?)]; [by left|]. right. exists j. split; [lia|done].
    + right. exists j. split; [lia|]. by rewrite <- A1.
  - intros v Hv. destruct (B7 v Hv) as [Hv1|(j & Hj & Hv1)]; [|right; exists j; split; [lia|done]].
    destruct (A7 v Hv1) as [?|(j & Hj & Hj1)]; [by left|]. right. exists j. split; [lia|].
    destruct (B8 j) as (_ & -> & _); [lia|done].
  - intros j Hj. destruct (B8 j) as (-> & -> & ->); [lia|]. apply A8. lia.
Qed.

Section InitSpec.
Context (request : Z -> Z -> cstring -> bool) (ioremap : Z -> Z -> option Z).

Lemma init_bucket_ok i m v :
  ioremap (base_ptr m i + 992 * CONST_1M) (32 * CONST_1M) = Some v ->
  exists m', init_bucket request ioremap i m = inl m' /\ buckets_ready ioremap i 1 m m'.
Proof using.
  intros Hv. unfold init_bucket. cbv zeta. rewrite Hv.
  destruct (request (base_ptr (set_tables _ _ m) i) CONST_1G (name i)); eexists; (split; [reflexivity|]);
    constructor; cbn; try done; try (intros j Hj; replace j with i by lia; by rewrite fn_lookup_insert);
    try (intros j Hj; by rewrite !fn_lookup_insert_ne by lia);
    intros r Hr; try (apply in_app_iff in Hr as [Hr|[<-|[]]]); auto; right; exists i; (split; [lia|]);
    by rewrite ?fn_lookup_insert.
Qed.

Lemma init_buckets_ok n i m :
  (forall j, i <= j < i + Z.of_nat n -> is_Some (ioremap (base_ptr m j + 992 * CONST_1M) (32 * CONST_1M))) ->
  exists m', init_buckets request ioremap n i m = inl m' /\ buckets_ready ioremap i (Z.of_nat n) m m'.
Proof using.
  revert i m. induction n as [|n IH]; intros i m Hok; cbn [init_buckets].
  - exists m. split; [done|]. constructor; try done; intros; try lia; by left.
  - destruct (Hok i) as [v Hv]; [lia|]. destruct (init_bucket_ok i m v Hv) as (m1 & -> & H1).
    destruct (IH (i + 1) m1) as (m2 & -> & H2).
    { intros j Hj. rewrite (br_base _ _ _ _ _ H1). apply Hok. lia. }
    exists m2. split; [done|]. replace (Z.of_nat (S n)) with (Z.of_nat n + 1) by lia.
    eapply buckets_ready_trans; [lia|done|done].
Qed.
End InitSpec.

Definition bucket_base (i : Z) : Z := i * 2 ^ 30.

Lemma base_small i : 0 <= i < 128 -> u64 (Z.shiftl i 30) = bucket_base i.
Proof. intros Hi. unfold bucket_base. rewrite Z.shiftl_mul_pow2, u64_small by lia. done. Qed.

(** The table that [pbm_init_all] starts from. *)
Definition init_tables (m : pbm) : pbm :=
  set_tables (fun i => if (0 <=? i) && (i <? 128) then 0 else len_array_phys m i)
    (fun i => if (0 <=? i) && (i <? 128) then u64 (Z.shiftl i 30) else base_ptr m i) m.

Lemma init_tables_base m i : START_1G <= i <= END_1G -> base_ptr (init_tables m) i = bucket_base i.
Proof.
  intros Hi. cbn. rewrite (proj2 (Z.leb_le _ _)), (proj2 (Z.ltb_lt _ _)) by lay. apply base_small. lay.
Qed.

(** All resources are available. *)
Definition services_ok (ioremap : Z -> Z -> option Z) (kthread_create : thread -> unit + Z) : Prop :=
  (forall i, START_1G <= i <= END_1G -> is_Some (ioremap (bucket_base i + DATA_SIZE) (32 * CONST_1M))) /\
  forall t, kthread_create t = inl ().

Lemma init_all_ready request ioremap kthread_create m :
  services_ok ioremap kthread_create ->
  exists m1, buckets_ready ioremap START_1G NUM_BUCKETS (init_tables m) m1 /\
    pbm_init_all request ioremap kthread_create m =
    (0, add_thread (NlsimProcess, 4) (add_thread (NlsimAlloc, 5) (set_page (GlobalShare MAGIC1 MAGIC2 0 0)
      (set_global GLOBAL_ADDR (match len_array_kvirt m1 START_1G with Some v => Some (v + 32 * CONST_1M - 4096) | None => None end) m1)))).
Proof.
  intros [Hio Hth]. unfold pbm_init_all. fold (init_tables m).
  destruct (init_buckets_ok request ioremap (Z.to_nat (END_1G - START_1G + 1)) START_1G (init_tables m)) as (m1 & -> & H1).
  - intros j Hj. rewrite init_tables_base by lay. apply Hio. lay.
  - exists m1. split; [by replace NUM_BUCKETS with (Z.of_nat (Z.to_nat (END_1G - START_1G + 1)))|].
    unfold init_threads. rewrite !Hth. done.
Qed.

(** C16. Initialisation.  When the kernel grants everything, [pbm_init_all] returns 0 with
    every bucket of the configuration mapped at its length block and its header cleared: the
    counters [num_captured], [last] and [stalled] and the 64 bytes of the user's stamp are 0,
    [num_rx_slots] is the size of the ring, and the padding and the length table are as they
    were; the shared page reachable at [GLOBAL_ADDR] with its magic
    numbers and both flags clear, and the two threads running on their processors. *)
Theorem pbm_init_all_ok request ioremap kthread_create m :
  services_ok ioremap kthread_create -> threads m = [] ->
  exists m', pbm_init_all request ioremap kthread_create m = (0, m') /\
    (forall i, START_1G <= i <= END_1G ->
      len_array_phys m' i = bucket_base i + DATA_SIZE /\
      len_array_kvirt m' i = ioremap (len_array_phys m' i) (32 * CONST_1M) /\
      num_captured (headers m' i) = 0 /\ last (headers m' i) = 0 /\ stalled (headers m' i) = 0 /\ num_rx_slots (headers m' i) = NUM_RX_SLOTS /\
      (forall k, 0 <= k < 64 -> user_stamp (headers m' i) k = 0) /\
      pad1 (headers m' i) = pad1 (headers m i) /\ len (headers m' i) = len (headers m i)) /\
    page m' = GlobalShare MAGIC1 MAGIC2 0 0 /\
    global_phys m' = len_array_phys m' START_1G + 32 * CONST_1M - 4096 /\
    (exists v, len_array_kvirt m' START_1G = Some v /\ global_kvirt m' = Some (v + 32 * CONST_1M - 4096)) /\
    threads m' = [(NlsimAlloc, 5); (NlsimProcess, 4)].
Proof.
  intros Hok Hth. destruct (init_all_ready request ioremap kthread_create m Hok) as (m1 & H1 & ->).
  destruct H1 as [_ (_ & Ht & _) Hp Hk Hh _ _ _]. eexists. split; [done|]. cbn.
  assert (forall i, START_1G <= i <= END_1G -> len_array_phys m1 i = bucket_base i + DATA_SIZE) as Hphys.
  { intros i Hi. rewrite Hp by lay. by rewrite init_tables_base. }
  split; [|split; [done|split]].
  - intros i Hi. rewrite Hphys, Hk, Hh, init_tables_base by lay. split_and!; try done.
    intros k Hk'. cbn. by rewrite (proj2 (Z.leb_le 0 k)), (proj2 (Z.ltb_lt k 64)) by lia.
  - rewrite Hphys by lay. reflexivity.
  - split; [|rewrite Ht; cbn; by rewrite Hth]. destruct Hok as [Hio _]. destruct (Hio START_1G) as [v Hv]; [lay|].
    exists v. rewrite Hk, init_tables_base by lay. unfold DATA_SIZE in Hv. by rewrite Hv.
Qed.

(** *** Teardown *)
Lemma release_in js m :
  base_ptr (foldl (fun m i => release_bucket i m) m js) = base_ptr m /\
  len_array_kvirt (foldl (fun m i => release_bucket i m) m js) = len_array_kvirt m /\
  (forall r, In r (regions (foldl (fun m i => release_bucket i m) m js)) ->
    In r (regions m) /\ forall j, In j js -> r.1.1 <> base_ptr m j) /\
  (forall v, In v (mappings (foldl (fun m i => release_bucket i m) m js)) ->
    In v (mappings m) /\ forall j, In j js -> len_array_kvirt m j <> Some v).
Proof.
  revert m. induction js as [|i js IH]; intros m; cbn [foldl]; [by split_and!|].
  destruct (IH (release_bucket i m)) as (-> & -> & Hr & Hv). cbn. split_and!; try done.
  - intros r Hin. destruct (Hr r Hin) as [H1 H2]. apply filter_In in H1 as [H1 Hb]. zbool.
    split; [done|]. intros j [<-|Hj]; [done|by apply H2].
  - intros v Hin. destruct (Hv v Hin) as [H1 H2]. apply filter_In in H1 as [H1 Hb].
    split; [done|]. intros j [<-|Hj]; [|by apply H2]. intros E. rewrite E in Hb. zbool. done.
Qed.

(** Teardown undoes the setup: after [pbm_init_all] from a state that held nothing,
    [pbm_destroy_all] leaves no region reserved and no mapping, and the magic numbers of the
    shared page are gone. *)
Theorem pbm_destroy_all_ok request ioremap kthread_create m :
  services_ok ioremap kthread_create -> regions m = [] -> mappings m = [] ->
  let m' := (pbm_destroy_all (pbm_init_all request ioremap kthread_create m).2).2 in
  regions m' = [] /\ mappings m' = [] /\ magic1 (page m') <> MAGIC1 /\ magic2 (page m') <> MAGIC2.
Proof.
  intros Hok Hr0 Hm0. destruct (init_all_ready request ioremap kthread_create m Hok) as (m1 & H1 & ->). cbv zeta.
  destruct H1 as [Hb _ _ _ _ Hr Hv _]. unfold pbm_destroy_all. cbn [snd].
  set (m2 := set_page _ _). destruct (release_in (seqZ START_1G (END_1G - START_1G + 1)) m2) as (_ & _ & Rr & Rv).
  assert (forall j, START_1G <= j < START_1G + NUM_BUCKETS -> In j (seqZ START_1G (END_1G - START_1G + 1))) as Hin
    by (intros j Hj; apply list_elem_of_In, elem_of_seqZ; lay).
  split; [|split].
  - destruct (regions (foldl _ m2 _)) as [|r l] eqn:E; [done|]. exfalso.
    destruct (Rr r (or_introl eq_refl)) as [H1 H2]. destruct (Hr r H1) as [H3|(j & Hj & H3)];
      [cbn in H3; by rewrite Hr0 in H3|]. apply (H2 j (Hin j Hj)). rewrite H3. cbn. by rewrite Hb.
  - destruct (mappings (foldl _ m2 _)) as [|v l] eqn:E; [done|]. exfalso.
    destruct (Rv v (or_introl eq_refl)) as [H1 H2]. destruct (Hv v H1) as [H3|(j & Hj & H3)];
      [cbn in H3; by rewrite Hm0 in H3|]. by apply (H2 j (Hin j Hj)).
  - assert (forall js x, page (foldl (fun m i => release_bucket i m) x js) = page x) as Hpg.
    { induction js as [|j js IH]; intros x; [done|]. cbn [foldl]. by rewrite IH. }
    rewrite !Hpg. split; discriminate.
Qed.

(** A failing setup keeps what it has taken: when the length block of a bucket cannot be
    mapped, [pbm_init_all] returns -1 without threads and without magic numbers, but the
    memory regions reserved so far, the one of the failing bucket included, stay reserved. *)
Theorem pbm_init_all_fails request ioremap kthread_create m j :
  START_1G <= j <= END_1G -> (forall i, START_1G <= i < j -> is_Some (ioremap (bucket_base i + DATA_SIZE) (32 * CONST_1M))) ->
  ioremap (bucket_base j + DATA_SIZE) (32 * CONST_1M) = None ->
  request (bucket_base j) CONST_1G (name j) = true ->
  exists m', pbm_init_all request ioremap kthread_create m = (-1, m') /\ threads m' = threads m /\ page m' = page m /\
    len_array_kvirt m' j = None /\ In (bucket_base j, CONST_1G, name j) (regions m').
Proof.
  intros Hj Hio Hnone Hreq. unfold pbm_init_all. fold (init_tables m).
  destruct (init_buckets_ok request ioremap (Z.to_nat (j - START_1G)) START_1G (init_tables m)) as (m1 & Hm1 & H1).
  { intros i Hi. rewrite init_tables_base by lay. apply Hio. lay. }
  assert (forall n k i x x', init_buckets request ioremap n i x = inl x' ->
    init_buckets request ioremap (n + k) i x = init_buckets request ioremap k (i + Z.of_nat n) x') as Happ.
  { induction n as [|n IH]; intros k i x x' H; cbn [init_buckets Nat.add] in *.
    - simplify_eq. f_equal. lia.
    - destruct (init_bucket request ioremap i x); [|done]. rewrite (IH _ _ _ _ H). f_equal. lia. }
  replace (Z.to_nat (END_1G - START_1G + 1)) with (Z.to_nat (j - START_1G) + S (Z.to_nat (END_1G - j)))%nat by lay.
  rewrite (Happ _ _ _ _ _ Hm1). rewrite Z2Nat.id by lia. replace (START_1G + (j - START_1G)) with j by lia.
  cbn [init_buckets]. unfold init_bucket. cbv zeta. cbn [base_ptr set_tables].
  rewrite (br_base _ _ _ _ _ H1), init_tables_base by lay. rewrite Hreq.
  change (bucket_base j + 992 * CONST_1M) with (bucket_base j + DATA_SIZE). rewrite Hnone.
  destruct (br_same _ _ _ _ _ H1) as (Hp & Ht & _). eexists. split; [done|]. cbn.
  rewrite fn_lookup_insert, Hp, Ht. split_and!; try done. apply in_app_iff. right. by left.
Qed.

(** Publishing the ring.  On success all rings are set up and the threads get ring 0 of
    the capture port; but when the allocation of ring 0 fails, the ring is published all the
    same, although it has no descriptors. *)
Theorem ring_published setup fcoe adapter nq d :
  pbm_adapter d = Some adapter -> 0 < nq ->
  (setup 0 <> 0 ->
    ixgbe_setup_all_rx_resources setup fcoe adapter nq d
    = (setup 0, Driver (pbm_dev_count d) (Some adapter) (d_pbm d) (Some (adapter, 0)), [])) /\
  ((forall i, setup i = 0) -> fcoe = 0 ->
    ixgbe_setup_all_rx_resources setup fcoe adapter nq d
    = (0, Driver (pbm_dev_count d) (Some adapter) (d_pbm d) (Some (adapter, 0)), seqZ 0 nq)).
Proof.
  intros Ha Hq. split.
  - intros He. unfold ixgbe_setup_all_rx_resources. replace (Z.to_nat nq) with (S (Z.to_nat (nq - 1))) by lia.
    cbn [setup_rings]. rewrite (proj2 (Z.eqb_neq _ _) He), Ha, bool_decide_true by done. cbn.
    by rewrite !(proj2 (Z.eqb_neq _ _) He).
  - intros Hs ->. unfold ixgbe_setup_all_rx_resources.
    set (d' := Driver (pbm_dev_count d) (Some adapter) (d_pbm d) (Some (adapter, 0))).
    assert (forall n i held, 0 < i -> setup_rings setup adapter n i d' held = (0, i + Z.of_nat n, d', held ++ seqZ i (Z.of_nat n))) as Hloop.
    { induction n as [|n IH]; intros i held Hi; cbn [setup_rings].
      - by rewrite Z.add_0_r, app_nil_r.
      - rewrite Hs, (proj2 (Z.eqb_neq i 0)), andb_false_r by lia. cbn. rewrite IH by lia.
        replace (Z.of_nat (S n)) with (1 + Z.of_nat n) by lia. rewrite seqZ_app by lia. cbn.
        rewrite <- app_assoc. simpl. f_equal. f_equal. f_equal. lia. }
    replace (Z.to_nat nq) with (S (Z.to_nat (nq - 1))) by lia. cbn [setup_rings].
    rewrite Hs, Ha, bool_decide_true by done. cbn. fold d'. rewrite (Hloop _ 1) by lia. cbn.
    f_equal. replace nq with (1 + (nq - 1)) at 2 by lia. rewrite seqZ_app by lia. cbn. by rewrite Z2Nat.id by lia.
Qed.

(** *** Witnesses *)
Definition kernel0 : pbm :=
  Pbm (fun _ => 7) (fun _ => 7) (fun _ => None) 0 None [] [] (fun _ => BucketInfo (fun _ => 9) 3 1 1 0 (fun _ => 9) (fun _ => 5))
    (GlobalShare 0 0 0 0) [].
Definition ioremap0 (a _ : Z) : option Z := Some (a + 2 ^ 46).
Definition grant (_ _ : Z) (_ : cstring) : bool := true.

Lemma services0 : services_ok ioremap0 (fun _ => inl ()).
Proof. split; [intros i _; by eexists|done]. Qed.

Lemma pbm_init_all_ok_witness :
  exists m', pbm_init_all grant ioremap0 (fun _ => inl ()) kernel0 = (0, m') /\ page m' = GlobalShare MAGIC1 MAGIC2 0 0 /\
    threads m' = [(NlsimAlloc, 5); (NlsimProcess, 4)].
Proof.
  destruct (pbm_init_all_ok grant ioremap0 (fun _ => inl ()) kernel0 services0 eq_refl) as (m' & H1 & _ & H2 & _ & _ & H3).
  exists m'. split; [exact H1|]. split; [exact H2|exact H3].
Defined.

Lemma pbm_destroy_all_ok_witness :
  regions (pbm_destroy_all (pbm_init_all grant ioremap0 (fun _ => inl ()) kernel0).2).2 = [].
Proof. exact (proj1 (pbm_destroy_all_ok grant ioremap0 (fun _ => inl ()) kernel0 services0 eq_refl eq_refl)). Defined.

Definition ioremap_fails (a n : Z) : option Z := if a =? bucket_base 12 + DATA_SIZE then None else ioremap0 a n.
Lemma pbm_init_all_fails_witness :
  exists m', pbm_init_all grant ioremap_fails (fun _ => inl ()) kernel0 = (-1, m') /\ threads m' = [] /\
    In (bucket_base 12, CONST_1G, name 12) (regions m').
Proof.
  destruct (pbm_init_all_fails grant ioremap_fails (fun _ => inl ()) kernel0 12) as (m' & H1 & H2 & _ & _ & H3);
    [lay | | reflexivity | reflexivity | exists m'; split; [exact H1|]; split; [exact H2|exact H3]].
  intros i Hi. unfold ioremap_fails. destruct (_ =? _) eqn:E; [|by eexists]. apply Z.eqb_eq in E. unfold bucket_base in E. lia.
Defined.

Definition driver0 : driver := Driver 1 (Some 4) kernel0 None.
Lemma ring_published_witness :
  ixgbe_setup_all_rx_resources (fun _ => -12) 0 4 8 driver0
  = (-12, Driver 1 (Some 4) kernel0 (Some (4, 0)), []).
Proof. apply (ring_published (fun _ => -12) 0 4 8 driver0); [reflexivity | lia | discriminate]. Defined.
