(* ===== verification/IrqScript.v ===== *)
(** * Keeping interrupts off the capture processors ([arrange_irq/make_irq_script.c])

    The program reads interrupt affinity files and masks line by line and writes a script
    that moves every interrupt away from processors 4 and 5, which run the two capture
    threads. *)
From S2P Require Import Prelude Layout DiskTable.

(** [%x] of [sscanf]: optional sign and [0x], then hexadecimal digits. *)
Definition hex_digit (c : ascii) : option Z :=
  let n := code c in
  if (48 <=? n) && (n <=? 57) then Some (n - 48)
  else if (97 <=? n) && (n <=? 102) then Some (n - 87)
  else if (65 <=? n) && (n <=? 70) then Some (n - 55)
  else None.
Fixpoint take_hex (acc : Z) (l : cstring) : Z :=
  match l with
  | c :: l' => match hex_digit c with Some d => take_hex (16 * acc + d) l' | None => acc end
  | [] => acc
  end.
Definition drop_0x (l : cstring) : cstring :=
  match l with
  | z :: x :: d :: l' =>
      if (code z =? 48) && ((code x =? 120) || (code x =? 88)) && bool_decide (is_Some (hex_digit d))
      then d :: l' else l
  | _ => l
  end.
Definition scan_x (l : cstring) : option Z :=
  let l := skip_space l in
  let '(sign, l) := match l with
                    | c :: l' => if code c =? 45 then (-1, l') else if code c =? 43 then (1, l') else (1, l)
                    | [] => (1, l)
                    end in
  let l := drop_0x l in
  match l with
  | c :: _ => match hex_digit c with Some _ => Some (u32 (sign * Z.min (take_hex 0 l) (2 ^ 64 - 1))) | None => None end
  | [] => None
  end.

(** [%x] of [fprintf]. *)
Definition hex_char (d : Z) : ascii := if d <? 10 then digit d else ascii_of_N (Z.to_N (87 + d)).
Fixpoint hex_digits (fuel : nat) (n : Z) (acc : cstring) : cstring :=
  match fuel with
  | O => acc
  | S fuel =>
      let acc := hex_char (n mod 16) :: acc in
      if n / 16 =? 0 then acc else hex_digits fuel (n / 16) acc
  end.
Definition fmt_x (n : Z) : cstring := hex_digits 16 n [].

(** "avoid mask 0x30, assume quad core" *)
Definition avoid_capture_cpus (irq_mask : Z) : Z :=
  let extract_mask := Z.land irq_mask 0x30 in
  if extract_mask =? 0 then irq_mask
  else
    let irq_mask := Z.lxor irq_mask extract_mask in
    Z.lor irq_mask (Z.shiftr extract_mask 2).

(** The loop of [main]: [irq_mask] is [None] until the first number has been read; using it
    before is undefined behaviour, for which the result is [None]. *)
Definition IRQ_BUF : nat := 255.
Fixpoint irq_loop (fuel : nat) (f_list f_val : cstring) (irq_mask : option Z) : option cstring :=
  match fuel with
  | O => Some []
  | S fuel =>
      match fgets IRQ_BUF f_list with
      | None => Some []
      | Some (buf1, f_list) =>
          match fgets IRQ_BUF f_val with
          | None => Some []
          | Some (buf2, f_val) =>
              let irq_mask := match scan_x (c_str buf2) with Some m => Some m | None => irq_mask end in
              match irq_mask with
              | None => None
              | Some m =>
                  let m := avoid_capture_cpus m in
                  match irq_loop fuel f_list f_val (Some m) with
                  | Some rest => Some (str "echo " ++ fmt_x m ++ str " > " ++ c_str buf1 ++ rest)
                  | None => None
                  end
              end
          end
      end
  end.

Inductive irq_out := IUsage | IOpenFailed (arg : nat) | IScript (text : cstring) | IUndefined.
(** [main]; [f_list] and [f_val] are the contents of the two input files, [can_write] tells
    whether the output file can be opened. Each iteration consumes a line of [f_list]. *)
Definition irq_main (argc : Z) (f_list f_val : option cstring) (can_write : bool) : irq_out :=
  if negb (argc =? 4) then IUsage
  else match f_list with
  | None => IOpenFailed 1
  | Some l =>
      match f_val with
      | None => IOpenFailed 2
      | Some v =>
          if negb can_write then IOpenFailed 3
          else match irq_loop (S (length l)) l v None with Some text => IScript text | None => IUndefined end
      end
  end.

(** ** Theorems *)

(** The masks of the script.  Every mask written to the script leaves processors 4 and 5
    free of interrupts; an interrupt that was allowed on processor 4 (5) is moved to
    processor 2 (3), every other bit is kept, and rearranging twice changes nothing. *)
Theorem capture_cpus_free m :
  0 <= m < 2 ^ 32 ->
  let m' := avoid_capture_cpus m in
  0 <= m' < 2 ^ 32 /\ Z.land m' 0x30 = 0 /\
  (forall i, 0 <= i -> i <> 2 -> i <> 3 -> i <> 4 -> i <> 5 -> Z.testbit m' i = Z.testbit m i) /\
  (Z.testbit m' 2 = Z.testbit m 2 || Z.testbit m 4) /\ (Z.testbit m' 3 = Z.testbit m 3 || Z.testbit m 5) /\
  avoid_capture_cpus m' = m'.
Proof.
  intros Hm.
  assert (avoid_capture_cpus m = Z.lor (Z.lxor m (Z.land m 0x30)) (Z.shiftr (Z.land m 0x30) 2)) as Heq.
  { unfold avoid_capture_cpus. cbv zeta. destruct (Z.land m 48 =? 0) eqn:E; [|done]. zbool. rewrite E.
    by rewrite Z.lxor_0_r, Z.shiftr_0_l, Z.lor_0_r. }
  cbv zeta. rewrite Heq. set (m' := Z.lor _ _).
  assert (forall i, 0 <= i -> Z.testbit m' i =
    xorb (Z.testbit m i) (Z.testbit m i && Z.testbit 48 i) || (Z.testbit m (i + 2) && Z.testbit 48 (i + 2))) as Hbit.
  { intros i Hi. unfold m'. by rewrite Z.lor_spec, Z.lxor_spec, Z.shiftr_spec, !Z.land_spec by lia. }
  assert (forall i, 0 <= i -> i <> 4 -> i <> 5 -> Z.testbit 48 i = false) as H48.
  { intros i Hi H4 H5. destruct (decide (i < 6)) as [Hlt|].
    - assert (i = 0 \/ i = 1 \/ i = 2 \/ i = 3) as Hc by lia. by destruct Hc as [->|[->|[->| ->]]].
    - apply Z.bits_above_log2; [lia|]. change (Z.log2 48) with 5. lia. }
  assert (Z.land m' 48 = 0) as Hland.
  { apply Z.bits_inj'. intros i Hi. rewrite Z.land_spec, Z.bits_0.
    destruct (decide (i = 4)) as [->|]; [|destruct (decide (i = 5)) as [->|]; [|by rewrite H48, andb_false_r by lia]].
    - rewrite Hbit by lia. change (Z.testbit 48 4) with true. change (Z.testbit 48 (4 + 2)) with false.
      by destruct (Z.testbit m 4), (Z.testbit m (4 + 2)).
    - rewrite Hbit by lia. change (Z.testbit 48 5) with true. change (Z.testbit 48 (5 + 2)) with false.
      by destruct (Z.testbit m 5), (Z.testbit m (5 + 2)). }
  split_and!; [| | done | | | |].
  - unfold m'. apply Z.lor_nonneg. split; [apply Z.lxor_nonneg|apply Z.shiftr_nonneg, Z.land_nonneg; lia].
    rewrite Z.land_nonneg. lia.
  - destruct (decide (m' = 0)) as [->|Hz]; [lia|].
    assert (0 <= m') by (unfold m'; apply Z.lor_nonneg; split;
      [apply Z.lxor_nonneg; rewrite Z.land_nonneg; lia|apply Z.shiftr_nonneg, Z.land_nonneg; lia]).
    apply Z.log2_lt_pow2; [lia|]. apply Z.nle_gt. intros Hlog.
    pose proof (Z.bit_log2 m' ltac:(lia)) as Hb. rewrite Hbit in Hb by lia.
    assert (forall j, 32 <= j -> Z.testbit m j = false) as Hhigh.
    { intros j Hj. rewrite <- (Z.mod_small m (2 ^ 32)) by lia. apply Z.mod_pow2_bits_high. lia. }
    by rewrite !Hhigh in Hb by lia.
  - intros i Hi H2 H3 H4 H5. rewrite Hbit, (H48 i), (H48 (i + 2)) by lia. by destruct (Z.testbit m i), (Z.testbit m (i + 2)).
  - rewrite Hbit by lia. change (Z.testbit 48 2) with false. change (Z.testbit 48 (2 + 2)) with true. change (2 + 2) with 4.
    by destruct (Z.testbit m 2), (Z.testbit m 4).
  - rewrite Hbit by lia. change (Z.testbit 48 3) with false. change (Z.testbit 48 (3 + 2)) with true. change (3 + 2) with 5.
    by destruct (Z.testbit m 3), (Z.testbit m 5).
  - unfold avoid_capture_cpus. by rewrite Hland.
Qed.

Lemma capture_cpus_free_witness :
  Z.land (avoid_capture_cpus 0x3f) 0x30 = 0 /\ avoid_capture_cpus (avoid_capture_cpus 0x3f) = avoid_capture_cpus 0x3f.
Proof.
  destruct (capture_cpus_free 0x3f) as (_ & H1 & _ & _ & _ & H2); [lia|]. split; [exact H1|exact H2].
Defined.
