(* ===== verification/Hw.v ===== *)
(** * The driver's view of the adapter

    The part of [struct ixgbe_hw] that the mailbox ([ixgbe_mbx.c]) and the bandwidth code
    ([ixgbe_dcb*.c]) use, and the state monad in which their functions run. The adapter itself
    is not part of the sources: [dev] records every register access in order and answers
    reads by an arbitrary function of the accesses so far, so the theorems hold for every
    behaviour of the hardware. *)
From S2P Require Import Prelude.

(** ** Registers *)
Inductive access := Rd (reg val : Z) | Wr (reg val : Z).
Record dev := Dev { trace : list access; answer : list access -> Z -> Z }.

(** ** [struct ixgbe_hw], the parts that the mailbox and the bandwidth code use *)
Inductive mac_type := ixgbe_mac_82598EB | ixgbe_mac_82599EB | ixgbe_mac_X540 | ixgbe_mac_other.
#[export] Instance mac_type_eq_dec : EqDecision mac_type.
Proof. solve_decision. Defined.

(** Which implementation a function pointer holds; NULL is [None]. *)
Inductive side := VF | PF.
Record mbx_operations := MbxOps {
  op_read : option side; op_write : option side; op_read_posted : bool; op_write_posted : bool;
  op_check_for_msg : option side; op_check_for_ack : option side; op_check_for_rst : option side
}.
Record mbx_stats := MbxStats { msgs_tx : Z; msgs_rx : Z; acks : Z; reqs : Z; rsts : Z }.
(** [enum ixgbe_fc_mode]; the values above [ixgbe_fc_default] are "invalid" to the code. *)
Inductive ixgbe_fc_mode := ixgbe_fc_none | ixgbe_fc_rx_pause | ixgbe_fc_tx_pause | ixgbe_fc_full | ixgbe_fc_default | ixgbe_fc_other (v : Z).
#[export] Instance fc_mode_eq_dec : EqDecision ixgbe_fc_mode.
Proof. solve_decision. Defined.
Record fc_info := Fc {
  high_water : Z -> Z; low_water : Z -> Z; pause_time : Z; send_xon : bool; strict_ieee : bool; disable_fc_autoneg : bool;
  fc_was_autonegged : bool; current_mode : ixgbe_fc_mode; requested_mode : ixgbe_fc_mode
}.
Definition set_fc_result was mode f :=
  Fc (high_water f) (low_water f) (pause_time f) (send_xon f) (strict_ieee f) (disable_fc_autoneg f) was mode (requested_mode f).
Definition set_requested mode f :=
  Fc (high_water f) (low_water f) (pause_time f) (send_xon f) (strict_ieee f) (disable_fc_autoneg f) (fc_was_autonegged f) (current_mode f) mode.

Inductive ixgbe_media_type :=
| ixgbe_media_type_unknown | ixgbe_media_type_fiber | ixgbe_media_type_fiber_qsfp | ixgbe_media_type_fiber_lco
| ixgbe_media_type_copper | ixgbe_media_type_backplane | ixgbe_media_type_cx4 | ixgbe_media_type_virtual.
#[export] Instance media_type_eq_dec : EqDecision ixgbe_media_type.
Proof. solve_decision. Defined.

Inductive ixgbe_eeprom_type := ixgbe_eeprom_uninitialized | ixgbe_eeprom_spi | ixgbe_flash | ixgbe_eeprom_none.
#[export] Instance eeprom_type_eq_dec : EqDecision ixgbe_eeprom_type.
Proof. solve_decision. Defined.
Record ixgbe_eeprom_info := Eeprom {
  ee_type : ixgbe_eeprom_type; semaphore_delay : Z; word_size : Z; address_bits : Z; word_page_size : Z
}.
Definition set_page_size v e := Eeprom (ee_type e) (semaphore_delay e) (word_size e) (address_bits e) v.

(** The fields of [struct ixgbe_mac_info] that the address and VLAN filters use. *)
Record ixgbe_mac_info := Mac {
  mac_addr : list Z; mac_perm_addr : list Z; mta_shadow : list Z; mc_filter_type : Z; mcft_size : Z; vft_size : Z;
  num_rar_entries : Z; rar_highwater : Z; san_mac_rar_index : Z
}.
Definition set_mac_addr v m :=
  Mac v (mac_perm_addr m) (mta_shadow m) (mc_filter_type m) (mcft_size m) (vft_size m) (num_rar_entries m) (rar_highwater m) (san_mac_rar_index m).
Definition set_mta_shadow v m :=
  Mac (mac_addr m) (mac_perm_addr m) v (mc_filter_type m) (mcft_size m) (vft_size m) (num_rar_entries m) (rar_highwater m) (san_mac_rar_index m).
Definition set_rar_highwater v m :=
  Mac (mac_addr m) (mac_perm_addr m) (mta_shadow m) (mc_filter_type m) (mcft_size m) (vft_size m) (num_rar_entries m) v (san_mac_rar_index m).

Record ixgbe_addr_filter_info := AddrCtrl {
  num_mc_addrs : Z; rar_used_count : Z; mta_in_use : Z; overflow_promisc : Z; user_set_promisc : bool
}.

Record ixgbe_hw := Hw {
  hw_mac : mac_type; ops : mbx_operations; stats : mbx_stats; timeout : Z; mbx_udelay : Z;
  v2p_mailbox : Z; mbx_size : Z; fc : fc_info; media_type : ixgbe_media_type; eeprom : ixgbe_eeprom_info;
  mac : ixgbe_mac_info; addr_ctrl : ixgbe_addr_filter_info; hw_dev : dev
}.
Definition set_ops v h :=
  Hw (hw_mac h) v (stats h) (timeout h) (mbx_udelay h) (v2p_mailbox h) (mbx_size h) (fc h) (media_type h) (eeprom h) (mac h) (addr_ctrl h) (hw_dev h).
Definition set_stats v h :=
  Hw (hw_mac h) (ops h) v (timeout h) (mbx_udelay h) (v2p_mailbox h) (mbx_size h) (fc h) (media_type h) (eeprom h) (mac h) (addr_ctrl h) (hw_dev h).
Definition set_timeouts v w h :=
  Hw (hw_mac h) (ops h) (stats h) v w (v2p_mailbox h) (mbx_size h) (fc h) (media_type h) (eeprom h) (mac h) (addr_ctrl h) (hw_dev h).
Definition set_v2p v h :=
  Hw (hw_mac h) (ops h) (stats h) (timeout h) (mbx_udelay h) v (mbx_size h) (fc h) (media_type h) (eeprom h) (mac h) (addr_ctrl h) (hw_dev h).
Definition set_size v h :=
  Hw (hw_mac h) (ops h) (stats h) (timeout h) (mbx_udelay h) (v2p_mailbox h) v (fc h) (media_type h) (eeprom h) (mac h) (addr_ctrl h) (hw_dev h).
Definition set_fc v h :=
  Hw (hw_mac h) (ops h) (stats h) (timeout h) (mbx_udelay h) (v2p_mailbox h) (mbx_size h) v (media_type h) (eeprom h) (mac h) (addr_ctrl h) (hw_dev h).
Definition set_eeprom v h :=
  Hw (hw_mac h) (ops h) (stats h) (timeout h) (mbx_udelay h) (v2p_mailbox h) (mbx_size h) (fc h) (media_type h) v (mac h) (addr_ctrl h) (hw_dev h).
Definition set_mac v h :=
  Hw (hw_mac h) (ops h) (stats h) (timeout h) (mbx_udelay h) (v2p_mailbox h) (mbx_size h) (fc h) (media_type h) (eeprom h) v (addr_ctrl h) (hw_dev h).
Definition set_addr_ctrl v h :=
  Hw (hw_mac h) (ops h) (stats h) (timeout h) (mbx_udelay h) (v2p_mailbox h) (mbx_size h) (fc h) (media_type h) (eeprom h) (mac h) v (hw_dev h).
Definition set_dev v h :=
  Hw (hw_mac h) (ops h) (stats h) (timeout h) (mbx_udelay h) (v2p_mailbox h) (mbx_size h) (fc h) (media_type h) (eeprom h) (mac h) (addr_ctrl h) v.

(** Settings of an adapter out of reset, for examples. *)
Definition fc0 (hi lo : Z -> Z) (pause : Z) : fc_info := Fc hi lo pause true false false false ixgbe_fc_none ixgbe_fc_full.
Definition eeprom0 : ixgbe_eeprom_info := Eeprom ixgbe_eeprom_uninitialized 0 0 0 0.
Definition mac0 : ixgbe_mac_info := Mac (repeat 0 6) (repeat 0 6) (repeat 0 128) 0 128 128 128 0 0.
Definition addr_ctrl0 : ixgbe_addr_filter_info := AddrCtrl 0 0 0 0 false.

Definition hw_init (m : mac_type) (answers : list access -> Z -> Z) : ixgbe_hw :=
  Hw m (MbxOps None None false false None None None) (MbxStats 0 0 0 0 0) 0 0 0 0 (fc0 (fun _ => 0) (fun _ => 0) 0xFFFF)
    ixgbe_media_type_fiber eeprom0 mac0 addr_ctrl0 (Dev [] answers).

Definition inc_msgs_tx s := MbxStats (u32 (msgs_tx s + 1)) (msgs_rx s) (acks s) (reqs s) (rsts s).
Definition inc_msgs_rx s := MbxStats (msgs_tx s) (u32 (msgs_rx s + 1)) (acks s) (reqs s) (rsts s).
Definition inc_acks s := MbxStats (msgs_tx s) (msgs_rx s) (u32 (acks s + 1)) (reqs s) (rsts s).
Definition inc_reqs s := MbxStats (msgs_tx s) (msgs_rx s) (acks s) (u32 (reqs s + 1)) (rsts s).
Definition inc_rsts s := MbxStats (msgs_tx s) (msgs_rx s) (acks s) (reqs s) (u32 (rsts s + 1)).

(** ** The monad *)
Definition M (A : Type) : Type := ixgbe_hw -> A * ixgbe_hw.
#[export] Instance M_ret : MRet M := fun A a h => (a, h).
#[export] Instance M_bind : MBind M := fun A B k m h => let '(a, h') := m h in k a h'.
Definition get : M ixgbe_hw := fun h => (h, h).
Definition modify (f : ixgbe_hw -> ixgbe_hw) : M () := fun h => ((), f h).

Definition IXGBE_READ_REG (reg : Z) : M Z := fun h =>
  let d := hw_dev h in
  let v := answer d (trace d) reg in
  (v, set_dev (Dev (trace d ++ [Rd reg v]) (answer d)) h).
Definition IXGBE_WRITE_REG (reg val : Z) : M () := fun h =>
  let d := hw_dev h in ((), set_dev (Dev (trace d ++ [Wr reg val]) (answer d)) h).
Definition IXGBE_READ_REG_ARRAY (reg i : Z) : M Z := IXGBE_READ_REG (reg + Z.shiftl i 2).
Definition IXGBE_WRITE_REG_ARRAY (reg i val : Z) : M () := IXGBE_WRITE_REG (reg + Z.shiftl i 2) val.

(** [for (i ...) body] *)
Fixpoint for_each (l : list Z) (body : Z -> M ()) : M () :=
  match l with [] => mret () | i :: l => _ ← body i; for_each l body end.

(** [for (i = 0; i < n; i++) { v = IXGBE_READ_REG (reg); if (ok (v)) break; delay; }]: the last value
    read ([v] when [n] is zero), and whether the loop broke out. *)
Fixpoint poll_last (n : nat) (reg : Z) (ok : Z -> bool) (v : Z) : M (Z * bool) :=
  match n with
  | O => mret (v, false)
  | S n => v ← IXGBE_READ_REG reg; if ok v then mret (v, true) else poll_last n reg ok v
  end.
Definition poll_reg (n : nat) (reg : Z) (ok : Z -> bool) : M bool := r ← poll_last n reg ok 0; mret r.2.

(** ** Reasoning about runs *)

(** Run the monadic code of a goal. *)
Ltac mrun :=
  unfold mbind, mret, M_bind, M_ret, get, modify, IXGBE_READ_REG, IXGBE_WRITE_REG; cbv beta iota zeta.

(** *** Access traces *)
Definition tr (h : ixgbe_hw) : list access := trace (hw_dev h).
Definition ans (h : ixgbe_hw) : list access -> Z -> Z := answer (hw_dev h).

(** [m] extends the trace of [h] by accesses that satisfy [P], and the hardware stays the
    same function of the trace. *)
Definition touches {A} (P : access -> Prop) (m : M A) : Prop :=
  forall h, exists t, tr (m h).2 = tr h ++ t /\ Forall P t /\ ans (m h).2 = ans h.

Definition reg_of (a : access) : Z := match a with Rd r _ | Wr r _ => r end.

(** The value last written to a register. *)
Definition last_write (t : list access) (r : Z) : Z :=
  foldl (fun acc a => match a with Wr r' v => if r' =? r then v else acc | Rd _ _ => acc end) 0 t.

Definition no_write (r : Z) (a : access) : Prop := match a with Wr r' _ => r' <> r | Rd _ _ => True end.

Lemma last_write_skip t t' r : Forall (no_write r) t' -> last_write (t ++ t') r = last_write t r.
Proof.
  intros H. unfold last_write. rewrite foldl_app. generalize (foldl (fun acc a => match a with
    Wr r' v => if r' =? r then v else acc | Rd _ _ => acc end) 0 t).
  induction H as [|[r' v|r' v] t' Ha _ IH]; intros z; cbn; [done|apply IH|].
  rewrite (proj2 (Z.eqb_neq _ _) Ha). apply IH.
Qed.

Lemma last_write_last t r v : last_write (t ++ [Wr r v]) r = v.
Proof. unfold last_write. rewrite foldl_app. cbn. by rewrite Z.eqb_refl. Qed.


(** *** Final register contents

    [ends m h r v]: after running [m] from [h], the last value written to [r] is [v]
    ([ends_with]: satisfies [P]). [keeps m]: [m] leaves the hardware the same function.
    [avoids m r]: [m] does not write [r]. The rules follow the shape of the code, so the
    hint database [regs] and the tactic [regs] find the last write. *)
Definition ends_with {A} (m : M A) (h : ixgbe_hw) (r : Z) (P : Z -> Prop) : Prop := P (last_write (tr (m h).2) r).
Notation ends m h r v := (ends_with m h r (fun x => x = v)).
Definition keeps {A} (m : M A) : Prop := forall h, ans (m h).2 = ans h.
Definition avoids {A} (m : M A) (r : Z) : Prop := forall h, last_write (tr (m h).2) r = last_write (tr h) r.

Section Rules.
Context (r : Z).

Lemma avoids_ret {A} (a : A) : avoids (mret a) r.
Proof. done. Qed.
Lemma avoids_get : avoids get r.
Proof. done. Qed.
Lemma avoids_read r' : avoids (IXGBE_READ_REG r') r.
Proof. intros h. unfold IXGBE_READ_REG, tr. cbn. apply (last_write_skip _ [_]). by repeat constructor. Qed.
Lemma avoids_write r' v : r' <> r -> avoids (IXGBE_WRITE_REG r' v) r.
Proof. intros Hr h. unfold IXGBE_WRITE_REG, tr. cbn. apply (last_write_skip _ [_]). by repeat constructor. Qed.
Lemma avoids_bind {A B} (m : M A) (k : A -> M B) : avoids m r -> (forall a, avoids (k a) r) -> avoids (a ← m; k a) r.
Proof. intros Hm Hk h. mrun. specialize (Hm h). destruct (m h) as [a h1]. by rewrite Hk. Qed.
Lemma avoids_if {A} (b : bool) (m1 m2 : M A) : avoids m1 r -> avoids m2 r -> avoids (if b then m1 else m2) r.
Proof. by destruct b. Qed.
Lemma avoids_for_each l body : (forall i, In i l -> avoids (body i) r) -> avoids (for_each l body) r.
Proof.
  induction l as [|i l IH]; intros H; cbn [for_each]; [apply avoids_ret|].
  apply avoids_bind; [apply H; by left|]. intros _. apply IH. intros j Hj. apply H. by right.
Qed.

Lemma keeps_ret {A} (a : A) : keeps (mret a).
Proof. done. Qed.
Lemma keeps_read r' : keeps (IXGBE_READ_REG r').
Proof. done. Qed.
Lemma keeps_write r' v : keeps (IXGBE_WRITE_REG r' v).
Proof. done. Qed.
Lemma keeps_bind {A B} (m : M A) (k : A -> M B) : keeps m -> (forall a, keeps (k a)) -> keeps (a ← m; k a).
Proof. intros Hm Hk h. mrun. specialize (Hm h). destruct (m h) as [a h1]. by rewrite Hk. Qed.
Lemma keeps_if {A} (b : bool) (m1 m2 : M A) : keeps m1 -> keeps m2 -> keeps (if b then m1 else m2).
Proof. by destruct b. Qed.

Lemma ends_write (P : Z -> Prop) v h : P v -> ends_with (IXGBE_WRITE_REG r v) h r P.
Proof. intros. change (P (last_write (tr h ++ [Wr r v]) r)). by rewrite last_write_last. Qed.
Lemma ends_read {B} r' (k : Z -> M B) h P :
  (forall h', ans h' = ans h -> ends_with (k (ans h (tr h) r')) h' r P) -> ends_with (a ← IXGBE_READ_REG r'; k a) h r P.
Proof. intros Hk. by apply Hk. Qed.
Lemma ends_later {A B} (m : M A) (k : A -> M B) P h :
  (forall a h', ends_with (k a) h' r P) -> ends_with (a ← m; k a) h r P.
Proof. intros Hk. unfold ends_with. mrun. destruct (m h) as [a h1]. apply Hk. Qed.
Lemma ends_later_ans {A B} (m : M A) (k : A -> M B) P h :
  keeps m -> (forall a h', ans h' = ans h -> ends_with (k a) h' r P) -> ends_with (a ← m; k a) h r P.
Proof. intros Hm Hk. unfold ends_with. mrun. specialize (Hm h). destruct (m h) as [a h1]. by apply Hk. Qed.
Lemma ends_now {A B} (m : M A) (k : A -> M B) P h :
  ends_with m h r P -> (forall a, avoids (k a) r) -> ends_with (a ← m; k a) h r P.
Proof. intros Hm Hk. unfold ends_with in *. mrun. destruct (m h) as [a h1]. by rewrite Hk. Qed.
Lemma ends_for_each_ans l body P h i :
  In i l -> (forall j, keeps (body j)) -> (forall h', ans h' = ans h -> ends_with (body i) h' r P) ->
  (forall j, In j l -> j <> i -> avoids (body j) r) -> ends_with (for_each l body) h r P.
Proof.
  intros Hi Hk. revert h. induction l as [|j l IH]; intros h Hw Ha; [done|]. cbn [for_each].
  destruct (in_dec Z.eq_dec i l) as [Hl|Hl].
  - apply ends_later_ans; [apply Hk|]. intros _ h' Hh. apply IH; [done|intros h2 H2; apply Hw; congruence|].
    intros k Hkl. apply Ha. by right.
  - destruct Hi as [->|?]; [|done]. apply ends_now; [by apply Hw|]. intros _. apply avoids_for_each.
    intros k Hkl. apply Ha; [by right|]. by intros ->.
Qed.
Lemma ends_for_each l body P h i :
  In i l -> (forall h', ends_with (body i) h' r P) -> (forall j, In j l -> j <> i -> avoids (body j) r) ->
  ends_with (for_each l body) h r P.
Proof.
  revert h. induction l as [|j l IH]; intros h Hi Hw Ha; [done|]. cbn [for_each].
  destruct (in_dec Z.eq_dec i l) as [Hl|Hl].
  - apply ends_later. intros _ h'. apply IH; [done|done|]. intros k Hk. apply Ha. by right.
  - destruct Hi as [->|?]; [|done]. apply ends_now; [apply Hw|]. intros _. apply avoids_for_each.
    intros k Hk. apply Ha; [by right|]. by intros ->.
Qed.
End Rules.

(** Code that writes a fixed sequence of registers and reads none. *)
Definition emit (w : list access) (h : ixgbe_hw) : ixgbe_hw := set_dev (Dev (tr h ++ w) (ans h)) h.
Definition emits_writes {A} (m : M A) (a : A) (w : list access) : Prop := forall h, m h = (a, emit w h).

Lemma emit_app w w' h : emit w' (emit w h) = emit (w ++ w') h.
Proof. unfold emit, set_dev, tr, ans. cbn. by rewrite <- app_assoc. Qed.
Lemma emit_nil h : emit [] h = h.
Proof. destruct h as [? ? ? ? ? ? ? ? ? ? ? ? [? ?]]. unfold emit, tr, ans, set_dev. cbn. by rewrite app_nil_r. Qed.
Lemma emits_ret {A} (a : A) : emits_writes (mret a) a [].
Proof. intros h. by rewrite emit_nil. Qed.
Lemma emits_write r v : emits_writes (IXGBE_WRITE_REG r v) () [Wr r v].
Proof. done. Qed.
Lemma emits_bind {A B} (m : M A) (k : A -> M B) a b w w' :
  emits_writes m a w -> emits_writes (k a) b w' -> emits_writes (x ← m; k x) b (w ++ w').
Proof. intros Hm Hk h. mrun. by rewrite Hm, Hk, emit_app. Qed.
Lemma emits_if {A} (b : bool) (m1 m2 : M A) a w1 w2 :
  emits_writes m1 a w1 -> emits_writes m2 a w2 -> emits_writes (if b then m1 else m2) a (if b then w1 else w2).
Proof. by destruct b. Qed.
Lemma emits_for_each l body w :
  (forall i, emits_writes (body i) () (w i)) -> emits_writes (for_each l body) () (concat (List.map w l)).
Proof.
  intros H. induction l as [|i l IH]; cbn [for_each concat List.map]; [apply emits_ret|].
  by eapply emits_bind.
Qed.

(** A later write hides what was there before. *)
Lemma last_write_app t t' r :
  existsb (fun a => match a with Wr r' _ => r' =? r | Rd _ _ => false end) t' = true ->
  last_write (t ++ t') r = last_write t' r.
Proof.
  intros H. unfold last_write. rewrite foldl_app. set (f := fun acc a => match a with Wr r' v => if r' =? r then v else acc | Rd _ _ => acc end).
  generalize (foldl f 0 t), 0. induction t' as [|[r' v|r' v] t' IH]; intros x y; cbn in H |- *; [done|by apply IH|].
  destruct (r' =? r); [done|by apply IH].
Qed.

Create HintDb regs discriminated.
#[export] Hint Resolve avoids_ret avoids_get avoids_read avoids_write avoids_bind avoids_if avoids_for_each
  keeps_ret keeps_read keeps_write keeps_bind keeps_if : regs.

(** *** The writes of a run

    [wlog t]: the writes of a trace, in order. [performs m a w]: from every state [m] returns [a] and
    writes exactly [w], whatever it reads meanwhile. [quiet m]: [m] writes nothing. *)
Definition wlog (t : list access) : list (Z * Z) := omap (fun a => match a with Wr r v => Some (r, v) | Rd _ _ => None end) t.
Definition performs {A} (m : M A) (a : A) (w : list (Z * Z)) : Prop :=
  forall h, (m h).1 = a /\ wlog (tr (m h).2) = wlog (tr h) ++ w.
Definition quiet {A} (m : M A) : Prop := forall h, wlog (tr (m h).2) = wlog (tr h).
Definition IXGBE_STATUS : Z := 0x00008.
Definition IXGBE_WRITE_FLUSH : M () := _ ← IXGBE_READ_REG IXGBE_STATUS; mret ().

Lemma wlog_app t t' : wlog (t ++ t') = wlog t ++ wlog t'.
Proof. apply omap_app. Qed.
Lemma wlog_read r h : wlog (tr (IXGBE_READ_REG r h).2) = wlog (tr h).
Proof. unfold IXGBE_READ_REG, tr. cbn. rewrite wlog_app. apply app_nil_r. Qed.
Lemma quiet_read r : quiet (IXGBE_READ_REG r).
Proof. intros h. apply wlog_read. Qed.
Lemma quiet_ret {A} (a : A) : quiet (mret a).
Proof. done. Qed.
Lemma quiet_bind {A B} (m : M A) (k : A -> M B) : quiet m -> (forall a, quiet (k a)) -> quiet (a ← m; k a).
Proof. intros Hm Hk h. mrun. specialize (Hm h). destruct (m h) as [a h1]. by rewrite Hk. Qed.
Lemma quiet_flush : quiet IXGBE_WRITE_FLUSH.
Proof. apply quiet_bind; [apply quiet_read|done]. Qed.

Lemma performs_ret {A} (a : A) : performs (mret a) a [].
Proof. intros h. split; [done|]. by rewrite app_nil_r. Qed.
Lemma performs_write r v : performs (IXGBE_WRITE_REG r v) () [(r, v)].
Proof. intros h. split; [done|]. unfold IXGBE_WRITE_REG, tr. cbn. by rewrite wlog_app. Qed.
Lemma performs_bind {A B} (m : M A) (k : A -> M B) a b w w' :
  performs m a w -> performs (k a) b w' -> performs (x ← m; k x) b (w ++ w').
Proof.
  intros Hm Hk h. mrun. destruct (Hm h) as [Ha Hw]. destruct (m h) as [a' h1]. cbn in *. subst a'.
  destruct (Hk h1) as [Hb Hw']. split; [done|]. by rewrite Hw', Hw, app_assoc.
Qed.
Lemma performs_quiet {A B} (m : M A) (k : A -> M B) b w :
  quiet m -> (forall a, performs (k a) b w) -> performs (x ← m; k x) b w.
Proof.
  intros Hm Hk h. mrun. specialize (Hm h). destruct (m h) as [a h1]. cbn in *. destruct (Hk a h1) as [Hb Hw].
  split; [done|]. by rewrite Hw, Hm.
Qed.

(** The final contents of a register depend on the writes only. *)
Definition last_wlog (w : list (Z * Z)) (r : Z) : Z := foldl (fun acc p => if p.1 =? r then p.2 else acc) 0 w.
Lemma last_write_wlog t r : last_write t r = last_wlog (wlog t) r.
Proof.
  unfold last_write, last_wlog. generalize 0. induction t as [|[r' v|r' v] t IH]; intros z; cbn; [done|apply IH|apply IH].
Qed.

(** *** Postconditions

    [wlp m h Q]: [Q] holds of the result and the final state of [m] run from [h]. *)
Definition wlp {A} (m : M A) (h : ixgbe_hw) (Q : A -> ixgbe_hw -> Prop) : Prop := Q (m h).1 (m h).2.

Lemma wlp_run {A} (m : M A) h (Q : A -> ixgbe_hw -> Prop) : wlp m h Q -> let '(a, h') := m h in Q a h'.
Proof. unfold wlp. by destruct (m h). Qed.
Lemma wlp_fst {A} (m : M A) h a : wlp m h (fun r _ => r = a) -> (m h).1 = a.
Proof. done. Qed.
Lemma wlp_mono {A} (m : M A) h (P Q : A -> ixgbe_hw -> Prop) : wlp m h P -> (forall a h', P a h' -> Q a h') -> wlp m h Q.
Proof. unfold wlp. auto. Qed.
Lemma wlp_ret {A} (a : A) h (Q : A -> ixgbe_hw -> Prop) : Q a h -> wlp (mret a) h Q.
Proof. done. Qed.
Lemma wlp_bind {A B} (m : M A) (k : A -> M B) h Q : wlp m h (fun a h' => wlp (k a) h' Q) -> wlp (a ← m; k a) h Q.
Proof. unfold wlp. mrun. by destruct (m h). Qed.
Lemma wlp_write r v h (Q : () -> ixgbe_hw -> Prop) : Q () (emit [Wr r v] h) -> wlp (IXGBE_WRITE_REG r v) h Q.
Proof. done. Qed.
Lemma wlp_read r h (Q : Z -> ixgbe_hw -> Prop) :
  Q (ans h (tr h) r) (emit [Rd r (ans h (tr h) r)] h) -> wlp (IXGBE_READ_REG r) h Q.
Proof. done. Qed.
Lemma wlp_get h (Q : ixgbe_hw -> ixgbe_hw -> Prop) : Q h h -> wlp get h Q.
Proof. done. Qed.
Lemma wlp_modify f h (Q : () -> ixgbe_hw -> Prop) : Q () (f h) -> wlp (modify f) h Q.
Proof. done. Qed.
Lemma wlp_quiet {A} (m : M A) h (Q : A -> ixgbe_hw -> Prop) :
  quiet m -> (forall a h', wlog (tr h') = wlog (tr h) -> Q a h') -> wlp m h Q.
Proof. intros Hm HQ. apply HQ, Hm. Qed.
Lemma wlp_performs {A} (m : M A) h a w (Q : A -> ixgbe_hw -> Prop) :
  performs m a w -> (forall h', wlog (tr h') = wlog (tr h) ++ w -> Q a h') -> wlp m h Q.
Proof. intros Hm HQ. destruct (Hm h) as [Ha Hw]. unfold wlp. rewrite Ha. by apply HQ. Qed.

Lemma quiet_poll_last n r ok v : quiet (poll_last n r ok v).
Proof.
  revert v. induction n as [|n IH]; intros v; cbn; [apply quiet_ret|]. apply quiet_bind; [apply quiet_read|].
  intros c. destruct (ok c); [apply quiet_ret|apply IH].
Qed.
