(* ===== verification/Mailbox.v ===== *)
(** * The mailbox between physical and virtual functions ([ixgbe_mbx.c])

    Messages travel through a small buffer in the adapter that one side at a time owns. The
    functions run in the monad of [Hw] over the driver's [struct ixgbe_hw]. *)
From S2P Require Import Prelude Hw.

(** ** Constants *)
Definition IXGBE_VFMAILBOX_SIZE : Z := 16.
Definition IXGBE_ERR_MBX : Z := -100.
Definition IXGBE_VFMAILBOX : Z := 0x002FC.
Definition IXGBE_VFMBMEM : Z := 0x00200.
Definition IXGBE_VFMAILBOX_REQ : Z := 0x01.
Definition IXGBE_VFMAILBOX_ACK : Z := 0x02.
Definition IXGBE_VFMAILBOX_VFU : Z := 0x04.
Definition IXGBE_VFMAILBOX_PFSTS : Z := 0x10.
Definition IXGBE_VFMAILBOX_PFACK : Z := 0x20.
Definition IXGBE_VFMAILBOX_RSTI : Z := 0x40.
Definition IXGBE_VFMAILBOX_RSTD : Z := 0x80.
Definition IXGBE_VFMAILBOX_R2C_BITS : Z := 0xB0.
Definition IXGBE_PFMAILBOX_STS : Z := 0x01.
Definition IXGBE_PFMAILBOX_ACK : Z := 0x02.
Definition IXGBE_PFMAILBOX_PFU : Z := 0x08.
Definition IXGBE_MBVFICR_VFREQ_VF1 : Z := 0x00000001.
Definition IXGBE_MBVFICR_VFACK_VF1 : Z := 0x00010000.
Definition IXGBE_VF_MBX_INIT_DELAY : Z := 500.
Definition IXGBE_PFMAILBOX (i : Z) : Z := 0x04B00 + 4 * i.
Definition IXGBE_PFMBMEM (i : Z) : Z := 0x13000 + 64 * i.
Definition IXGBE_MBVFICR_INDEX (vf : Z) : Z := Z.shiftr vf 4.
Definition IXGBE_MBVFICR (i : Z) : Z := 0x00710 + i * 4.
Definition IXGBE_VFLRE (i : Z) : Z := if truthy (Z.land i 1) then 0x001C0 else 0x00600.
Definition IXGBE_VFLREC (i : Z) : Z := 0x00700 + i * 4.

(** ** The virtual function's side *)
Definition ixgbe_read_v2p_mailbox : M Z :=
  v ← IXGBE_READ_REG IXGBE_VFMAILBOX; h ← get;
  let v := Z.lor v (v2p_mailbox h) in
  _ ← modify (fun h => set_v2p (Z.lor (v2p_mailbox h) (Z.land v IXGBE_VFMAILBOX_R2C_BITS)) h);
  mret v.

Definition ixgbe_check_for_bit_vf (mask : Z) : M Z :=
  v ← ixgbe_read_v2p_mailbox;
  let ret_val := if truthy (Z.land v mask) then 0 else IXGBE_ERR_MBX in
  _ ← modify (fun h => set_v2p (Z.ldiff (v2p_mailbox h) mask) h);
  mret ret_val.

Definition ixgbe_check_for_msg_vf (mbx_id : Z) : M Z :=
  r ← ixgbe_check_for_bit_vf IXGBE_VFMAILBOX_PFSTS;
  if r =? 0 then _ ← modify (fun h => set_stats (inc_reqs (stats h)) h); mret 0 else mret IXGBE_ERR_MBX.
Definition ixgbe_check_for_ack_vf (mbx_id : Z) : M Z :=
  r ← ixgbe_check_for_bit_vf IXGBE_VFMAILBOX_PFACK;
  if r =? 0 then _ ← modify (fun h => set_stats (inc_acks (stats h)) h); mret 0 else mret IXGBE_ERR_MBX.
Definition ixgbe_check_for_rst_vf (mbx_id : Z) : M Z :=
  r ← ixgbe_check_for_bit_vf (Z.lor IXGBE_VFMAILBOX_RSTD IXGBE_VFMAILBOX_RSTI);
  if r =? 0 then _ ← modify (fun h => set_stats (inc_rsts (stats h)) h); mret 0 else mret IXGBE_ERR_MBX.

Definition ixgbe_obtain_mbx_lock_vf : M Z :=
  _ ← IXGBE_WRITE_REG IXGBE_VFMAILBOX IXGBE_VFMAILBOX_VFU;
  v ← ixgbe_read_v2p_mailbox;
  mret (if truthy (Z.land v IXGBE_VFMAILBOX_VFU) then 0 else IXGBE_ERR_MBX).

(** [for (i = 0; i < size; i++) IXGBE_WRITE_REG_ARRAY (hw, reg, i, msg[i])]; the caller's
    buffer is the list of its words. *)
Fixpoint write_words (reg i : Z) (msg : list Z) : M () :=
  match msg with
  | [] => mret ()
  | w :: msg => _ ← IXGBE_WRITE_REG_ARRAY reg i w; write_words reg (i + 1) msg
  end.
Fixpoint read_words (reg i : Z) (n : nat) : M (list Z) :=
  match n with
  | O => mret []
  | S n => w ← IXGBE_READ_REG_ARRAY reg i; ws ← read_words reg (i + 1) n; mret (w :: ws)
  end.

Definition ixgbe_write_mbx_vf (msg : list Z) (size mbx_id : Z) : M Z :=
  ret_val ← ixgbe_obtain_mbx_lock_vf;
  if truthy ret_val then mret ret_val
  else
    _ ← ixgbe_check_for_msg_vf 0;
    _ ← ixgbe_check_for_ack_vf 0;
    _ ← write_words IXGBE_VFMBMEM 0 (take (Z.to_nat size) msg);
    _ ← modify (fun h => set_stats (inc_msgs_tx (stats h)) h);
    _ ← IXGBE_WRITE_REG IXGBE_VFMAILBOX IXGBE_VFMAILBOX_REQ;
    mret ret_val.

(** The result code with the words read; none when the lock is not obtained. *)
Definition ixgbe_read_mbx_vf (size mbx_id : Z) : M (Z * list Z) :=
  ret_val ← ixgbe_obtain_mbx_lock_vf;
  if truthy ret_val then mret (ret_val, [])
  else
    msg ← read_words IXGBE_VFMBMEM 0 (Z.to_nat size);
    _ ← IXGBE_WRITE_REG IXGBE_VFMAILBOX IXGBE_VFMAILBOX_ACK;
    _ ← modify (fun h => set_stats (inc_msgs_rx (stats h)) h);
    mret (ret_val, msg).

Definition stats0 : mbx_stats := MbxStats 0 0 0 0 0.
Definition ixgbe_init_mbx_params_vf : M () :=
  modify (fun h =>
    set_stats stats0 (set_ops (MbxOps (Some VF) (Some VF) true true (Some VF) (Some VF) (Some VF))
      (set_size IXGBE_VFMAILBOX_SIZE (set_timeouts 0 IXGBE_VF_MBX_INIT_DELAY h)))).

(** ** The physical function's side *)
Definition ixgbe_check_for_bit_pf (mask index : Z) : M Z :=
  mbvficr ← IXGBE_READ_REG (IXGBE_MBVFICR index);
  if truthy (Z.land mbvficr mask) then _ ← IXGBE_WRITE_REG (IXGBE_MBVFICR index) mask; mret 0
  else mret IXGBE_ERR_MBX.

Definition ixgbe_check_for_msg_pf (vf_number : Z) : M Z :=
  let index := IXGBE_MBVFICR_INDEX vf_number in
  let vf_bit := vf_number mod 16 in
  r ← ixgbe_check_for_bit_pf (u32 (Z.shiftl IXGBE_MBVFICR_VFREQ_VF1 vf_bit)) index;
  if r =? 0 then _ ← modify (fun h => set_stats (inc_reqs (stats h)) h); mret 0 else mret IXGBE_ERR_MBX.
Definition ixgbe_check_for_ack_pf (vf_number : Z) : M Z :=
  let index := IXGBE_MBVFICR_INDEX vf_number in
  let vf_bit := vf_number mod 16 in
  r ← ixgbe_check_for_bit_pf (u32 (Z.shiftl IXGBE_MBVFICR_VFACK_VF1 vf_bit)) index;
  if r =? 0 then _ ← modify (fun h => set_stats (inc_acks (stats h)) h); mret 0 else mret IXGBE_ERR_MBX.
Definition ixgbe_check_for_rst_pf (vf_number : Z) : M Z :=
  let reg_offset := if vf_number <? 32 then 0 else 1 in
  let vf_shift := vf_number mod 32 in
  h ← get;
  vflre ← match hw_mac h with
          | ixgbe_mac_82599EB => IXGBE_READ_REG (IXGBE_VFLRE reg_offset)
          | ixgbe_mac_X540 => IXGBE_READ_REG (IXGBE_VFLREC reg_offset)
          | _ => mret 0
          end;
  if truthy (Z.land vflre (u32 (Z.shiftl 1 vf_shift))) then
    _ ← IXGBE_WRITE_REG (IXGBE_VFLREC reg_offset) (u32 (Z.shiftl 1 vf_shift));
    _ ← modify (fun h => set_stats (inc_rsts (stats h)) h);
    mret 0
  else mret IXGBE_ERR_MBX.

Definition ixgbe_obtain_mbx_lock_pf (vf_number : Z) : M Z :=
  _ ← IXGBE_WRITE_REG (IXGBE_PFMAILBOX vf_number) IXGBE_PFMAILBOX_PFU;
  p2v_mailbox ← IXGBE_READ_REG (IXGBE_PFMAILBOX vf_number);
  mret (if truthy (Z.land p2v_mailbox IXGBE_PFMAILBOX_PFU) then 0 else IXGBE_ERR_MBX).

Definition ixgbe_write_mbx_pf (msg : list Z) (size vf_number : Z) : M Z :=
  ret_val ← ixgbe_obtain_mbx_lock_pf vf_number;
  if truthy ret_val then mret ret_val
  else
    _ ← ixgbe_check_for_msg_pf vf_number;
    _ ← ixgbe_check_for_ack_pf vf_number;
    _ ← write_words (IXGBE_PFMBMEM vf_number) 0 (take (Z.to_nat size) msg);
    _ ← IXGBE_WRITE_REG (IXGBE_PFMAILBOX vf_number) IXGBE_PFMAILBOX_STS;
    _ ← modify (fun h => set_stats (inc_msgs_tx (stats h)) h);
    mret ret_val.

Definition ixgbe_read_mbx_pf (size vf_number : Z) : M (Z * list Z) :=
  ret_val ← ixgbe_obtain_mbx_lock_pf vf_number;
  if truthy ret_val then mret (ret_val, [])
  else
    msg ← read_words (IXGBE_PFMBMEM vf_number) 0 (Z.to_nat size);
    _ ← IXGBE_WRITE_REG (IXGBE_PFMAILBOX vf_number) IXGBE_PFMAILBOX_ACK;
    _ ← modify (fun h => set_stats (inc_msgs_rx (stats h)) h);
    mret (ret_val, msg).

Definition ixgbe_init_mbx_params_pf : M () :=
  modify (fun h =>
    if bool_decide (hw_mac h = ixgbe_mac_82599EB) || bool_decide (hw_mac h = ixgbe_mac_X540) then
      set_stats stats0 (set_ops (MbxOps (Some PF) (Some PF) true true (Some PF) (Some PF) (Some PF))
        (set_size IXGBE_VFMAILBOX_SIZE (set_timeouts 0 0 h)))
    else h).

(** ** The generic entry points, through the function pointers *)
Definition call_check_for_msg (s : side) (id : Z) : M Z :=
  match s with VF => ixgbe_check_for_msg_vf id | PF => ixgbe_check_for_msg_pf id end.
Definition call_check_for_ack (s : side) (id : Z) : M Z :=
  match s with VF => ixgbe_check_for_ack_vf id | PF => ixgbe_check_for_ack_pf id end.
Definition call_check_for_rst (s : side) (id : Z) : M Z :=
  match s with VF => ixgbe_check_for_rst_vf id | PF => ixgbe_check_for_rst_pf id end.
Definition call_read (s : side) (size id : Z) : M (Z * list Z) :=
  match s with VF => ixgbe_read_mbx_vf size id | PF => ixgbe_read_mbx_pf size id end.
Definition call_write (s : side) (msg : list Z) (size id : Z) : M Z :=
  match s with VF => ixgbe_write_mbx_vf msg size id | PF => ixgbe_write_mbx_pf msg size id end.

Definition ixgbe_read_mbx (size mbx_id : Z) : M (Z * list Z) :=
  h ← get;
  let size := if size >? mbx_size h then mbx_size h else size in
  match op_read (ops h) with Some s => call_read s size mbx_id | None => mret (IXGBE_ERR_MBX, []) end.
Definition ixgbe_write_mbx (msg : list Z) (size mbx_id : Z) : M Z :=
  h ← get;
  if size >? mbx_size h then mret IXGBE_ERR_MBX
  else match op_write (ops h) with Some s => call_write s msg size mbx_id | None => mret 0 end.
Definition ixgbe_check_for_msg (mbx_id : Z) : M Z :=
  h ← get; match op_check_for_msg (ops h) with Some s => call_check_for_msg s mbx_id | None => mret IXGBE_ERR_MBX end.
Definition ixgbe_check_for_ack (mbx_id : Z) : M Z :=
  h ← get; match op_check_for_ack (ops h) with Some s => call_check_for_ack s mbx_id | None => mret IXGBE_ERR_MBX end.
Definition ixgbe_check_for_rst (mbx_id : Z) : M Z :=
  h ← get; match op_check_for_rst (ops h) with Some s => call_check_for_rst s mbx_id | None => mret IXGBE_ERR_MBX end.

(** [while (countdown && check ()) { countdown--; if (!countdown) break; udelay (..); }]: the
    value of [countdown] after the loop. *)
Fixpoint poll_loop (check : M Z) (countdown : nat) : M nat :=
  match countdown with
  | O => mret O
  | S n => r ← check; if truthy r then poll_loop check n else mret (S n)
  end.
(** [countdown] is an [int]: timeouts are below [2^31]. *)
Definition poll (check : option (M Z)) : M Z :=
  h ← get;
  let countdown := Z.to_nat (timeout h) in
  match countdown, check with
  | O, _ => mret IXGBE_ERR_MBX
  | S _, None => mret 0
  | S _, Some c => left ← poll_loop c countdown; mret (match left with O => IXGBE_ERR_MBX | S _ => 0 end)
  end.
Definition ixgbe_poll_for_msg (mbx_id : Z) : M Z :=
  h ← get; poll (option_map (fun s => call_check_for_msg s mbx_id) (op_check_for_msg (ops h))).
Definition ixgbe_poll_for_ack (mbx_id : Z) : M Z :=
  h ← get; poll (option_map (fun s => call_check_for_ack s mbx_id) (op_check_for_ack (ops h))).

Definition ixgbe_read_posted_mbx (size mbx_id : Z) : M (Z * list Z) :=
  h ← get;
  match op_read (ops h) with
  | None => mret (IXGBE_ERR_MBX, [])
  | Some s =>
      ret_val ← ixgbe_poll_for_msg mbx_id;
      if truthy ret_val then mret (ret_val, []) else call_read s size mbx_id
  end.
Definition ixgbe_write_posted_mbx (msg : list Z) (size mbx_id : Z) : M Z :=
  h ← get;
  match op_write (ops h) with
  | None => mret IXGBE_ERR_MBX
  | Some s =>
      if timeout h =? 0 then mret IXGBE_ERR_MBX
      else
        ret_val ← call_write s msg size mbx_id;
        if truthy ret_val then mret ret_val else ixgbe_poll_for_ack mbx_id
  end.
Definition ixgbe_init_mbx_ops_generic : M () :=
  modify (fun h => set_ops (MbxOps (op_read (ops h)) (op_write (ops h)) true true (op_check_for_msg (ops h))
    (op_check_for_ack (ops h)) (op_check_for_rst (ops h))) h).

(** ** Theorems *)

(** Status bits are not lost.  The status register clears some bits when it is read;
    checking for [mask] succeeds exactly when one of its bits is in the register or was seen
    earlier, and afterwards every other read-to-clear bit that the register showed is still
    remembered. *)
Theorem v2p_bits_kept mask h :
  let v := answer (hw_dev h) (trace (hw_dev h)) IXGBE_VFMAILBOX in
  let '(r, h') := ixgbe_check_for_bit_vf mask h in
  (r = 0 <-> Z.land (Z.lor v (v2p_mailbox h)) mask <> 0) /\
  forall i, 0 <= i -> Z.testbit (v2p_mailbox h') i =
    (Z.testbit (v2p_mailbox h) i || (Z.testbit v i && Z.testbit IXGBE_VFMAILBOX_R2C_BITS i))
    && negb (Z.testbit mask i).
Proof.
  unfold ixgbe_check_for_bit_vf, ixgbe_read_v2p_mailbox. mrun. cbn. split.
  - unfold truthy. split_ifs; split; try done; lia.
  - intros i Hi. unfold set_v2p, set_dev. cbn [v2p_mailbox hw_dev]. rewrite Z.ldiff_spec, !Z.lor_spec, Z.land_spec, Z.lor_spec.
    by destruct (Z.testbit (v2p_mailbox h) i), (Z.testbit _ i), (Z.testbit IXGBE_VFMAILBOX_R2C_BITS i), (Z.testbit mask i).
Qed.

Lemma touches_check_bit_pf mask index :
  touches (fun a => reg_of a = IXGBE_MBVFICR index) (ixgbe_check_for_bit_pf mask index).
Proof.
  intros h. unfold ixgbe_check_for_bit_pf. mrun. case_match; cbn.
  - eexists [_; _]. unfold tr. cbn. rewrite <- app_assoc. split; [done|]. split; [by repeat constructor|done].
  - eexists [_]. unfold tr. cbn. split; [done|]. split; [by repeat constructor|done].
Qed.

Lemma touches_stats {A} P (m : M Z) f (x y : A) :
  touches P m -> touches P (r ← m; if r =? 0 then _ ← modify (fun h => set_stats (f (stats h)) h); mret x else mret y).
Proof.
  intros H h. destruct (H h) as (t & Ht & HP & Ha). exists t. mrun. destruct (m h) as [r h1]. cbn in *.
  destruct (r =? 0); cbn; done.
Qed.

Lemma touches_msg_pf vf : touches (fun a => reg_of a = IXGBE_MBVFICR (IXGBE_MBVFICR_INDEX vf)) (ixgbe_check_for_msg_pf vf).
Proof. apply (touches_stats _ _ inc_reqs), touches_check_bit_pf. Qed.
Lemma touches_ack_pf vf : touches (fun a => reg_of a = IXGBE_MBVFICR (IXGBE_MBVFICR_INDEX vf)) (ixgbe_check_for_ack_pf vf).
Proof. apply (touches_stats _ _ inc_acks), touches_check_bit_pf. Qed.

(** The writes of a message. *)
Fixpoint word_writes (reg i : Z) (msg : list Z) : list access :=
  match msg with [] => [] | w :: msg => Wr (reg + Z.shiftl i 2) w :: word_writes reg (i + 1) msg end.

Lemma write_words_trace reg i msg h :
  tr (write_words reg i msg h).2 = tr h ++ word_writes reg i msg /\ ans (write_words reg i msg h).2 = ans h /\
  stats (write_words reg i msg h).2 = stats h.
Proof.
  revert i h. induction msg as [|w msg IH]; intros i h; cbn [write_words word_writes]; mrun; [by rewrite app_nil_r|].
  unfold IXGBE_WRITE_REG_ARRAY. mrun. cbn. destruct (IH (i + 1) (set_dev (Dev (trace (hw_dev h) ++ [Wr (reg + Z.shiftl i 2) w]) (answer (hw_dev h))) h))
    as (-> & -> & ->). unfold tr. cbn. by rewrite <- app_assoc.
Qed.

(** The two accesses that take the lock, and the value read. *)
Definition lock_value (h : ixgbe_hw) (vf : Z) : Z :=
  ans h (tr h ++ [Wr (IXGBE_PFMAILBOX vf) IXGBE_PFMAILBOX_PFU]) (IXGBE_PFMAILBOX vf).
Definition lock_trace (h : ixgbe_hw) (vf : Z) : list access :=
  [Wr (IXGBE_PFMAILBOX vf) IXGBE_PFMAILBOX_PFU; Rd (IXGBE_PFMAILBOX vf) (lock_value h vf)].

Lemma lock_pf_run vf h :
  exists h1, ixgbe_obtain_mbx_lock_pf vf h
    = ((if truthy (Z.land (lock_value h vf) IXGBE_PFMAILBOX_PFU) then 0 else IXGBE_ERR_MBX), h1) /\
    tr h1 = tr h ++ lock_trace h vf /\ ans h1 = ans h /\ stats h1 = stats h.
Proof.
  unfold ixgbe_obtain_mbx_lock_pf. mrun. cbn. eexists. split; [done|]. unfold tr, lock_trace, lock_value, ans. cbn.
  by rewrite <- app_assoc.
Qed.

Lemma write_mbx_pf_run msg size vf h :
  let lock := truthy (Z.land (lock_value h vf) IXGBE_PFMAILBOX_PFU) in
  let '(r, h') := ixgbe_write_mbx_pf msg size vf h in
  if lock then
    r = 0 /\ ans h' = ans h /\ exists flush, Forall (fun a => reg_of a = IXGBE_MBVFICR (IXGBE_MBVFICR_INDEX vf)) flush /\
      tr h' = tr h ++ lock_trace h vf ++ flush ++ word_writes (IXGBE_PFMBMEM vf) 0 (take (Z.to_nat size) msg)
                ++ [Wr (IXGBE_PFMAILBOX vf) IXGBE_PFMAILBOX_STS]
  else r = IXGBE_ERR_MBX /\ tr h' = tr h ++ lock_trace h vf /\ stats h' = stats h.
Proof.
  cbv zeta. unfold ixgbe_write_mbx_pf. destruct (lock_pf_run vf h) as (h1 & Hl & Ht & Ha & Hs). mrun. rewrite Hl.
  destruct (truthy (Z.land (lock_value h vf) IXGBE_PFMAILBOX_PFU)); cbn [truthy negb Z.eqb IXGBE_ERR_MBX].
  - destruct (touches_msg_pf vf h1) as (t1 & E1 & P1 & A1). destruct (ixgbe_check_for_msg_pf vf h1) as [r1 h2]. cbn in E1, A1.
    destruct (touches_ack_pf vf h2) as (t2 & E2 & P2 & A2). destruct (ixgbe_check_for_ack_pf vf h2) as [r2 h3]. cbn in E2, A2.
    destruct (write_words_trace (IXGBE_PFMBMEM vf) 0 (take (Z.to_nat size) msg) h3) as (E3 & A3 & _).
    destruct (write_words _ _ _ h3) as [[] h4]. cbn in E3, A3 |- *. split; [done|]. split; [unfold ans in *; cbn; congruence|]. exists (t1 ++ t2).
    split; [by apply Forall_app|]. unfold tr in *. cbn. rewrite E3, E2, E1, Ht. by rewrite <- !app_assoc.
  - cbn. done.
Qed.

(** Sending from the physical function.  The message words go to the buffer only after
    the lock has been obtained, all of them before the virtual function is notified; between
    them only the request and acknowledge bits are flushed. Without the lock nothing is
    written and the error is returned. *)
Theorem write_mbx_pf_protocol msg size vf h :
  let lock := truthy (Z.land (lock_value h vf) IXGBE_PFMAILBOX_PFU) in
  let '(r, h') := ixgbe_write_mbx_pf msg size vf h in
  if lock then
    r = 0 /\ exists flush, Forall (fun a => reg_of a = IXGBE_MBVFICR (IXGBE_MBVFICR_INDEX vf)) flush /\
      tr h' = tr h ++ lock_trace h vf ++ flush ++ word_writes (IXGBE_PFMBMEM vf) 0 (take (Z.to_nat size) msg)
                ++ [Wr (IXGBE_PFMAILBOX vf) IXGBE_PFMAILBOX_STS]
  else r = IXGBE_ERR_MBX /\ tr h' = tr h ++ lock_trace h vf /\ stats h' = stats h.
Proof.
  pose proof (write_mbx_pf_run msg size vf h) as H. cbv zeta in *. destruct (ixgbe_write_mbx_pf msg size vf h).
  case_match; [|done]. by destruct H as (? & _ & ?).
Qed.

(** *** Reading back what was sent *)
(** The buffer of [vf] is memory and the virtual function does not own the mailbox. *)
Definition quiet_mailbox (a : list access -> Z -> Z) (vf : Z) : Prop :=
  (forall t, truthy (Z.land (a t (IXGBE_PFMAILBOX vf)) IXGBE_PFMAILBOX_PFU) = true) /\
  forall t i, 0 <= i < IXGBE_VFMAILBOX_SIZE -> a t (IXGBE_PFMBMEM vf + Z.shiftl i 2) = last_write t (IXGBE_PFMBMEM vf + Z.shiftl i 2).

Lemma word_writes_skip reg i msg r :
  (forall k, 0 <= k < Z.of_nat (length msg) -> reg + Z.shiftl (i + k) 2 <> r) -> Forall (no_write r) (word_writes reg i msg).
Proof.
  revert i. induction msg as [|w msg IH]; intros i H; cbn [word_writes]; [constructor|]. constructor.
  - cbn. specialize (H 0 ltac:(simpl; lia)). by rewrite Z.add_0_r in H.
  - apply IH. intros k Hk. specialize (H (k + 1) ltac:(simpl; lia)). by replace (i + 1 + k) with (i + (k + 1)) by lia.
Qed.

(** The buffer holds the message after it has been written. *)
Lemma word_writes_value t reg i msg k w :
  msg !! k = Some w -> last_write (t ++ word_writes reg i msg) (reg + Z.shiftl (i + Z.of_nat k) 2) = w.
Proof.
  revert t i k. induction msg as [|x msg IH]; intros t i k Hk; [done|]. cbn [word_writes].
  change (t ++ ?a :: ?l) with (t ++ [a] ++ l). rewrite app_assoc. destruct k as [|k].
  - simpl in Hk. simplify_eq. rewrite Z.add_0_r, last_write_skip, last_write_last; [done|].
    apply word_writes_skip. intros j Hj. rewrite !Z.shiftl_mul_pow2 by lia. lia.
  - replace (i + Z.of_nat (S k)) with (i + 1 + Z.of_nat k) by lia. by apply IH.
Qed.

(** Reading words that are not written meanwhile. *)
Lemma read_words_value reg i n h (f : Z -> Z) :
  (forall t k, i <= k < i + Z.of_nat n -> Forall (no_write (reg + Z.shiftl k 2)) t ->
    ans h (tr h ++ t) (reg + Z.shiftl k 2) = f k) ->
  exists h', read_words reg i n h = (map f (seqZ i (Z.of_nat n)), h') /\ ans h' = ans h.
Proof.
  revert i h. induction n as [|n IH]; intros i h Hf; cbn [read_words]; [by exists h|].
  mrun. unfold IXGBE_READ_REG_ARRAY. mrun. set (v := answer _ _ _).
  destruct (IH (i + 1) (set_dev (Dev (trace (hw_dev h) ++ [Rd (reg + Z.shiftl i 2) v]) (answer (hw_dev h))) h)) as (h' & -> & Ha).
  - intros t k Hk Ht. unfold ans, tr in *. cbn. rewrite <- app_assoc. apply Hf; [lia|]. by constructor.
  - exists h'. split; [|exact Ha]. rewrite (seqZ_cons i (Z.of_nat (S n))) by lia. cbn [map]. f_equal. f_equal.
    + unfold v. specialize (Hf [] i ltac:(lia) ltac:(constructor)). unfold ans, tr in Hf. by rewrite app_nil_r in Hf.
    + do 2 f_equal; lia.
Qed.

Lemma mailbox_regs_apart vf k :
  0 <= vf < 64 -> 0 <= k < IXGBE_VFMAILBOX_SIZE ->
  IXGBE_PFMAILBOX vf <> IXGBE_PFMBMEM vf + Z.shiftl k 2.
Proof.
  unfold IXGBE_VFMAILBOX_SIZE, IXGBE_PFMAILBOX, IXGBE_PFMBMEM. intros. rewrite Z.shiftl_mul_pow2 by lia. lia.
Qed.

(** Mailbox round trip: on a mailbox that the virtual function does not own, a message of
    up to 16 words written by [ixgbe_write_mbx_pf] is what [ixgbe_read_mbx_pf] of the same
    size returns. *)
Theorem mbx_pf_roundtrip msg vf h :
  0 <= vf < 64 -> Z.of_nat (length msg) <= IXGBE_VFMAILBOX_SIZE -> quiet_mailbox (ans h) vf ->
  let '(r, h1) := ixgbe_write_mbx_pf msg (Z.of_nat (length msg)) vf h in
  r = 0 /\ (ixgbe_read_mbx_pf (Z.of_nat (length msg)) vf h1).1 = (0, msg).
Proof.
  intros Hvf Hlen [Hlock Hmem]. pose proof (write_mbx_pf_run msg (Z.of_nat (length msg)) vf h) as Hw.
  destruct (ixgbe_write_mbx_pf msg (Z.of_nat (length msg)) vf h) as [r h1].
  unfold lock_value in Hw. rewrite Hlock in Hw. destruct Hw as (-> & Ha & flush & _ & Ht). split; [done|].
  rewrite Nat2Z.id, take_ge in Ht by lia.
  unfold ixgbe_read_mbx_pf. destruct (lock_pf_run vf h1) as (h2 & Hl & Ht2 & Ha2 & _). mrun. rewrite Hl.
  unfold lock_value. rewrite Ha, Hlock. cbn [truthy negb Z.eqb].
  destruct (read_words_value (IXGBE_PFMBMEM vf) 0 (Z.to_nat (Z.of_nat (length msg))) h2 (fun k => nth (Z.to_nat k) msg 0))
    as (h3 & -> & _).
  - intros t k Hk Hnw. rewrite Ha2, Ha, Hmem by (unfold IXGBE_VFMAILBOX_SIZE in *; lia).
    assert (IXGBE_PFMAILBOX vf <> IXGBE_PFMBMEM vf + Z.shiftl k 2) as Hne
      by (apply mailbox_regs_apart; [done|unfold IXGBE_VFMAILBOX_SIZE in *; lia]).
    rewrite last_write_skip by done. rewrite Ht2, last_write_skip by (repeat constructor; exact Hne). rewrite Ht.
    rewrite !app_assoc, last_write_skip by (repeat constructor; exact Hne).
    destruct (lookup_lt_is_Some_2 msg (Z.to_nat k)) as [w Hk']; [lia|].
    replace k with (0 + Z.of_nat (Z.to_nat k)) at 1 by lia. rewrite (word_writes_value _ _ _ _ _ _ Hk').
    symmetry. by apply nth_lookup_Some.
  - cbn. f_equal. rewrite Nat2Z.id. apply list_eq. intros j. rewrite list_lookup_fmap.
    destruct (decide (j < length msg)%nat).
    + rewrite lookup_seqZ_lt by lia. cbn. rewrite nth_lookup. replace (Z.to_nat (0 + Z.of_nat j)) with j by lia.
      by destruct (lookup_lt_is_Some_2 msg j) as [w ->].
    + rewrite lookup_seqZ_ge by lia. symmetry. apply lookup_ge_None. lia.
Qed.

(** *** Waiting *)

(** [k] unsuccessful checks lead from [h] to [h']. *)
Inductive nfail (check : M Z) : nat -> ixgbe_hw -> ixgbe_hw -> Prop :=
| nfail_0 h : nfail check 0 h h
| nfail_S k h r h1 h2 : check h = (r, h1) -> r <> 0 -> nfail check k h1 h2 -> nfail check (S k) h h2.

Lemma poll_loop_spec check n h m h' :
  poll_loop check n h = (m, h') ->
  (m = O /\ nfail check n h h') \/
  (exists k h1, (k < n)%nat /\ m = (n - k)%nat /\ nfail check k h h1 /\ check h1 = (0, h')).
Proof.
  revert h. induction n as [|n IH]; intros h H; cbn [poll_loop] in H.
  - injection H as <- <-. left. split; [done|constructor].
  - revert H. mrun. destruct (check h) as [r h1] eqn:E. unfold truthy. destruct (r =? 0) eqn:Er; cbn [negb]; intros H; zbool.
    + injection H as <- <-. subst r. right. exists O, h. split; [lia|]. split; [lia|]. split; [constructor|done].
    + destruct (IH _ H) as [[-> Hf]|(k & h2 & Hk & -> & Hf & Hc)].
      * left. split; [done|]. by econstructor.
      * right. exists (S k), h2. split; [lia|]. split; [lia|]. split; [by econstructor|done].
Qed.

(** Waiting for an acknowledgement.  With a timeout, [ixgbe_poll_for_ack] checks at most
    [timeout] times; it succeeds exactly when one of these checks does, right after the first
    one that does, and otherwise reports the error after [timeout] unsuccessful checks. *)
Theorem poll_for_ack_spec id s h r h' :
  0 < timeout h -> op_check_for_ack (ops h) = Some s -> ixgbe_poll_for_ack id h = (r, h') ->
  (r = IXGBE_ERR_MBX /\ nfail (call_check_for_ack s id) (Z.to_nat (timeout h)) h h') \/
  (r = 0 /\ exists k h1, Z.of_nat k < timeout h /\ nfail (call_check_for_ack s id) k h h1 /\
     call_check_for_ack s id h1 = (0, h')).
Proof.
  intros Ht Hop. unfold ixgbe_poll_for_ack, poll. mrun. rewrite Hop. cbn [option_map].
  destruct (Z.to_nat (timeout h)) as [|n] eqn:En; [lia|].
  destruct (poll_loop (call_check_for_ack s id) (S n) h) as [m h1] eqn:E. intros [= <- <-].
  destruct (poll_loop_spec _ _ _ _ _ E) as [[-> Hf]|(k & h2 & Hk & -> & Hf & Hc)].
  - by left.
  - right. destruct (S n - k)%nat eqn:Ek; [lia|]. split; [done|]. exists k, h2. split; [lia|done].
Qed.

(** Sizes.  A message longer than the mailbox is refused without touching a register,
    and reading never returns more words than the mailbox has. *)
Theorem mbx_sizes h msg size id :
  0 <= size -> 0 <= mbx_size h ->
  (mbx_size h < size -> ixgbe_write_mbx msg size id h = (IXGBE_ERR_MBX, h)) /\
  Z.of_nat (length (ixgbe_read_mbx size id h).1.2) <= Z.min size (mbx_size h).
Proof.
  intros Hs Hm. split.
  - intros Hlt. unfold ixgbe_write_mbx. mrun. destruct (size >? mbx_size h) eqn:E; [done|]. zbool. lia.
  - assert (forall reg i n h, length (read_words reg i n h).1 = n) as Hrw.
    { intros reg i n. revert i. induction n as [|n IH]; intros i h0; cbn [read_words]; [done|]. mrun.
      unfold IXGBE_READ_REG_ARRAY. mrun. specialize (IH (i + 1) (set_dev (Dev (trace (hw_dev h0)
        ++ [Rd (reg + Z.shiftl i 2) (answer (hw_dev h0) (trace (hw_dev h0)) (reg + Z.shiftl i 2))]) (answer (hw_dev h0))) h0)).
      destruct (read_words reg (i + 1) n _) as [ws h1]. cbn in *. by rewrite IH. }
    assert (forall s k i h, 0 <= k -> Z.of_nat (length (call_read s k i h).1.2) <= k) as Hcall.
    { intros [] k i h0 Hk; cbn [call_read]; unfold ixgbe_read_mbx_vf, ixgbe_read_mbx_pf; mrun.
      - destruct (ixgbe_obtain_mbx_lock_vf h0) as [r h1]. destruct (truthy r); [cbn; lia|].
        specialize (Hrw IXGBE_VFMBMEM 0 (Z.to_nat k) h1). destruct (read_words _ _ _ h1). cbn in *. lia.
      - destruct (ixgbe_obtain_mbx_lock_pf i h0) as [r h1]. destruct (truthy r); [cbn; lia|].
        specialize (Hrw (IXGBE_PFMBMEM i) 0 (Z.to_nat k) h1). destruct (read_words _ _ _ h1). cbn in *. lia. }
    unfold ixgbe_read_mbx. mrun. destruct (op_read (ops h)) as [s|]; [|cbn; lia].
    destruct (size >? mbx_size h) eqn:E; zbool; [specialize (Hcall s (mbx_size h) id h Hm)|specialize (Hcall s size id h Hs)]; lia.
Qed.

(** A pointer that was never set counts as success: with a timeout but no function to check
    for messages, [ixgbe_poll_for_msg] reports a message without looking for one. *)
Lemma poll_without_check id h :
  0 < timeout h -> op_check_for_msg (ops h) = None -> ixgbe_poll_for_msg id h = (0, h).
Proof.
  intros Ht Hop. unfold ixgbe_poll_for_msg, poll. mrun. rewrite Hop. cbn [option_map].
  destruct (Z.to_nat (timeout h)) eqn:E; [lia|done].
Qed.

(** *** Witnesses *)

(** An adapter whose mailbox of function 3 is free. *)
Definition quiet_answer (t : list access) (r : Z) : Z :=
  if r =? IXGBE_PFMAILBOX 3 then IXGBE_PFMAILBOX_PFU else last_write t r.
Definition hw0 : ixgbe_hw :=
  Hw ixgbe_mac_82599EB (MbxOps (Some PF) (Some PF) true true (Some PF) (Some PF) (Some PF)) stats0 5 0 0 16 (fc0 (fun _ => 0) (fun _ => 0) 0) ixgbe_media_type_fiber eeprom0 mac0 addr_ctrl0
    (Dev [] quiet_answer).

Lemma mbx_pf_roundtrip_witness :
  (ixgbe_read_mbx_pf 3 3 (ixgbe_write_mbx_pf [7; 8; 9] 3 3 hw0).2).1 = (0, [7; 8; 9]).
Proof.
  pose proof (mbx_pf_roundtrip [7; 8; 9] 3 hw0) as H. change (Z.of_nat (length [7; 8; 9])) with 3 in H.
  destruct (ixgbe_write_mbx_pf [7; 8; 9] 3 3 hw0) as [r h1]. apply H; [lia | unfold IXGBE_VFMAILBOX_SIZE; lia |].
  split; [intros t; reflexivity|]. intros t i Hi. change (ans hw0) with quiet_answer. unfold quiet_answer.
  rewrite (proj2 (Z.eqb_neq _ _)); [reflexivity|]. apply not_eq_sym, mailbox_regs_apart; [lia|exact Hi].
Defined.

Lemma poll_for_ack_spec_witness :
  exists h', ixgbe_poll_for_ack 3 hw0 = (IXGBE_ERR_MBX, h') /\ nfail (call_check_for_ack PF 3) 5 hw0 h'.
Proof.
  destruct (ixgbe_poll_for_ack 3 hw0) as [r h'] eqn:E. exists h'.
  assert (r = IXGBE_ERR_MBX) as -> by (apply (f_equal fst) in E; exact (eq_sym E)). split; [reflexivity|].
  destruct (poll_for_ack_spec 3 PF hw0 IXGBE_ERR_MBX h') as [[_ H]|[H _]];
    [reflexivity | reflexivity | exact E | exact H | discriminate].
Defined.

Lemma mbx_sizes_witness : ixgbe_write_mbx [] 17 3 hw0 = (IXGBE_ERR_MBX, hw0).
Proof. apply (mbx_sizes hw0 [] 17 3); cbn; lia. Defined.
