(* ===== verification/Dcb.v ===== *)
(** * Data centre bridging: rules and credits ([ixgbe_dcb.c])

    The hardware-independent part of the bandwidth configuration of the adapter: checking
    the rules of a configuration, computing the credits of the traffic classes, and unpacking
    a configuration into the arrays that the register-level code takes. *)
From S2P Require Import Prelude.

(** ** Data ([ixgbe_dcb.h]) *)
Definition IXGBE_DCB_CREDIT_QUANTUM : Z := 64.
Definition IXGBE_DCB_MAX_CREDIT_REFILL : Z := 200.
Definition IXGBE_DCB_MAX_TSO_SIZE : Z := 32 * 1024.
Definition IXGBE_DCB_MAX_CREDIT : Z := 2 * IXGBE_DCB_MAX_CREDIT_REFILL.
Definition IXGBE_DCB_MIN_TSO_CREDIT : Z := IXGBE_DCB_MAX_TSO_SIZE /c IXGBE_DCB_CREDIT_QUANTUM + 1.
Definition IXGBE_DCB_MAX_USER_PRIORITY : Z := 8.
Definition IXGBE_DCB_MAX_BW_GROUP : Z := 8.
Definition IXGBE_DCB_MAX_TRAFFIC_CLASS : Z := 8.
Definition IXGBE_DCB_BW_PERCENT : Z := 100.
Definition IXGBE_DCB_TX_CONFIG : Z := 0.
Definition IXGBE_DCB_RX_CONFIG : Z := 1.
Definition IXGBE_ERR_CONFIG : Z := -4.

Inductive dcb_tsa := tsa_ets | tsa_group_strict_cee | tsa_strict.
Inductive dcb_pfc := pfc_disabled | pfc_enabled | pfc_enabled_txonly | pfc_enabled_rxonly.
#[export] Instance dcb_tsa_eq_dec : EqDecision dcb_tsa.
Proof. solve_decision. Defined.
#[export] Instance dcb_pfc_eq_dec : EqDecision dcb_pfc.
Proof. solve_decision. Defined.

Record tc_path := TcPath {
  bwg_id : Z; bwg_percent : Z; link_percent : Z; up_to_tc_bitmap : Z;
  data_credits_refill : Z; data_credits_max : Z; tsa : dcb_tsa
}.
Record tc_config := TcConfig { path : Z -> tc_path; pfc : dcb_pfc; desc_credits_max : Z }.
Record dcb_config := DcbConfig {
  tcs : Z -> tc_config;               (* tc_config [8] *)
  pg_tcs : Z; pfc_tcs : Z;            (* num_tcs *)
  bw_percentage : Z -> Z -> Z;        (* [2][8] *)
  pfc_mode_enable : bool; vt_mode : bool
}.

(** [for (i = 0; i < 8; i++)] *)
Definition eight : list Z := seqZ 0 8.

(** ** IEEE credits *)
Definition min_credit_of (max_frame_size : Z) : Z :=
  ((max_frame_size /c 2) + IXGBE_DCB_CREDIT_QUANTUM - 1) /c IXGBE_DCB_CREDIT_QUANTUM.

Definition min_percent_of (bw : Z -> Z) : Z :=
  foldl (fun m i => if (bw i <? m) && truthy (bw i) then bw i else m) 100 eight.

(** The arrays [refill] and [max]. *)
Definition ixgbe_dcb_calculate_tc_credits (bw : Z -> Z) (max_frame_size : Z) : (Z -> Z) * (Z -> Z) :=
  let min_credit := min_credit_of max_frame_size in
  let multiplier := min_credit /c min_percent_of bw + 1 in
  (fun i => let val := Z.min (bw i * multiplier) IXGBE_DCB_MAX_CREDIT_REFILL in
            u16 (if val <? min_credit then min_credit else val),
   fun i => u16 (if truthy (bw i) then (bw i * IXGBE_DCB_MAX_CREDIT) /c 100 else min_credit)).

(** ** CEE credits *)
Definition set_path (i dir : Z) (p : tc_path) (c : dcb_config) : dcb_config :=
  DcbConfig (<[i := TcConfig (<[dir := p]> (path (tcs c i))) (pfc (tcs c i)) (desc_credits_max (tcs c i))]> (tcs c))
    (pg_tcs c) (pfc_tcs c) (bw_percentage c) (pfc_mode_enable c) (vt_mode c).
Definition set_desc_credits_max (i v : Z) (c : dcb_config) : dcb_config :=
  DcbConfig (<[i := TcConfig (path (tcs c i)) (pfc (tcs c i)) v]> (tcs c))
    (pg_tcs c) (pfc_tcs c) (bw_percentage c) (pfc_mode_enable c) (vt_mode c).

Definition link_percentage_of (c : dcb_config) (dir i : Z) : Z :=
  let p := path (tcs c i) dir in
  u16 (bwg_percent p * bw_percentage c dir (bwg_id p) /c 100).

Definition min_percent_cee (c : dcb_config) (dir : Z) : Z :=
  foldl (fun m i => let l := link_percentage_of c dir i in if truthy l && (l <? m) then l else m) 100 eight.

Definition min_credit_cee (max_frame_size : Z) : Z :=
  u32 (max_frame_size / 2 + IXGBE_DCB_CREDIT_QUANTUM - 1) / IXGBE_DCB_CREDIT_QUANTUM.

(** The body of the second loop; [is_82598] is [hw->mac.type == ixgbe_mac_82598EB]. *)
Definition credit_tc (is_82598 : bool) (min_credit min_multiplier dir : Z) (c : dcb_config) (i : Z) : dcb_config :=
  let p := path (tcs c i) dir in
  let l := link_percentage_of c dir i in
  let l := if (bwg_percent p >? 0) && (l =? 0) then 1 else l in
  let credit_refill := Z.min (u32 (l * min_multiplier)) IXGBE_DCB_MAX_CREDIT_REFILL in
  let credit_max := u32 (l * IXGBE_DCB_MAX_CREDIT) / 100 in
  let credit_max := if truthy credit_max && (credit_max <? min_credit) then min_credit else credit_max in
  let credit_max := if (dir =? IXGBE_DCB_TX_CONFIG) && truthy credit_max && (credit_max <? IXGBE_DCB_MIN_TSO_CREDIT) && is_82598
                    then IXGBE_DCB_MIN_TSO_CREDIT else credit_max in
  let c := if dir =? IXGBE_DCB_TX_CONFIG then set_desc_credits_max i (u16 credit_max) c else c in
  set_path i dir (TcPath (bwg_id p) (bwg_percent p) (u8 l) (up_to_tc_bitmap p) (u16 credit_refill) (u16 credit_max) (tsa p)) c.

(** The return value and the configuration, [None] for a NULL pointer. *)
Definition ixgbe_dcb_calculate_tc_credits_cee (is_82598 : bool) (c : option dcb_config) (max_frame_size dir : Z)
    : Z * option dcb_config :=
  match c with
  | None => (IXGBE_ERR_CONFIG, None)
  | Some c =>
      let min_credit := min_credit_cee max_frame_size in
      let min_multiplier := min_credit / min_percent_cee c dir + 1 in
      (0, Some (foldl (credit_tc is_82598 min_credit min_multiplier dir) c eight))
  end.

(** ** Unpacking *)
Definition ixgbe_dcb_unpack_pfc_cee (c : dcb_config) (map : Z -> Z) : Z :=
  foldl (fun m up => if bool_decide (pfc (tcs c (map up)) <> pfc_disabled) then Z.lor m (Z.shiftl 1 up) else m) 0 eight.
Definition ixgbe_dcb_unpack_refill_cee (c : dcb_config) (dir tc : Z) : Z := data_credits_refill (path (tcs c tc) dir).
Definition ixgbe_dcb_unpack_max_cee (c : dcb_config) (tc : Z) : Z := desc_credits_max (tcs c tc).
Definition ixgbe_dcb_unpack_bwgid_cee (c : dcb_config) (dir tc : Z) : Z := bwg_id (path (tcs c tc) dir).
Definition ixgbe_dcb_unpack_tsa_cee (c : dcb_config) (dir tc : Z) : dcb_tsa := tsa (path (tcs c tc) dir).

(** [for (tc--; tc; tc--) if (prio_mask & ..) break;] *)
Fixpoint find_tc (c : dcb_config) (dir prio_mask : Z) (tc : nat) : Z :=
  match tc with
  | O => 0
  | S n => if truthy (Z.land prio_mask (up_to_tc_bitmap (path (tcs c (Z.of_nat tc)) dir))) then Z.of_nat tc
           else find_tc c dir prio_mask n
  end.
Definition ixgbe_dcb_get_tc_from_up (c : dcb_config) (dir up : Z) : Z :=
  let prio_mask := u8 (Z.shiftl 1 up) in
  if pg_tcs c =? 0 then 0 else find_tc c dir prio_mask (Z.to_nat (pg_tcs c - 1)).
Definition ixgbe_dcb_unpack_map_cee (c : dcb_config) (dir up : Z) : Z := ixgbe_dcb_get_tc_from_up c dir up.

(** ** Rules *)
Record sums := Sums { bw_sum : Z -> Z; link_strict : Z -> bool }.

(** One traffic class; [None] when a rule is violated. *)
Definition check_class (c : dcb_config) (dir : Z) (s : sums) (j : Z) : option sums :=
  let p := path (tcs c j) dir in
  let bw := bwg_percent p in
  let bw_id := bwg_id p in
  if bw_id >=? IXGBE_DCB_MAX_BW_GROUP then None
  else if bool_decide (tsa p = tsa_strict) then
    if truthy bw then None
    else Some (Sums (<[bw_id := u8 (bw_sum s bw_id + bw)]> (bw_sum s)) (<[bw_id := true]> (link_strict s)))
  else if negb (truthy bw) then None
  else Some (Sums (<[bw_id := u8 (bw_sum s bw_id + bw)]> (bw_sum s)) (link_strict s)).

(** One bandwidth group; [bw] is the running sum. *)
Definition check_group (c : dcb_config) (dir : Z) (s : sums) (bw j : Z) : option Z :=
  let bw := u8 (bw + bw_percentage c dir j) in
  if link_strict s j then (if truthy (bw_sum s j) then None else Some bw)
  else if negb (bw_sum s j =? IXGBE_DCB_BW_PERCENT) && negb (bw_sum s j =? 0) then None
  else Some bw.

Fixpoint fold_opt {A B} (f : A -> B -> option A) (a : A) (l : list B) : option A :=
  match l with [] => Some a | b :: l => match f a b with Some a => fold_opt f a l | None => None end end.

Definition check_direction (c : dcb_config) (dir : Z) : bool :=
  match fold_opt (check_class c dir) (Sums (fun _ => 0) (fun _ => false)) eight with
  | None => false
  | Some s => match fold_opt (check_group c dir s) 0 eight with
              | None => false
              | Some bw => bw =? IXGBE_DCB_BW_PERCENT
              end
  end.
(** First Tx, then Rx. *)
Definition ixgbe_dcb_check_config_cee (c : dcb_config) : Z :=
  if check_direction c IXGBE_DCB_TX_CONFIG && check_direction c IXGBE_DCB_RX_CONFIG then 0 else IXGBE_ERR_CONFIG.

(** ** Theorems *)
Lemma fold_min_bounds (f : Z -> bool) (g : Z -> Z) l m :
  0 < m -> (forall i, In i l -> f i = true -> 0 < g i) ->
  0 < foldl (fun m i => if (g i <? m) && f i then g i else m) m l <= m /\
  forall i, In i l -> f i = true -> foldl (fun m i => if (g i <? m) && f i then g i else m) m l <= g i.
Proof.
  revert m. induction l as [|x l IH]; intros m Hm Hg; [split; [simpl; lia|intros i []]|]. cbn [foldl].
  destruct ((g x <? m) && f x) eqn:E.
  - zbool. destruct (IH (g x)) as [H1 H2]; [apply Hg; [by left|done]|intros; apply Hg; [by right|done]|].
    split; [lia|]. intros i [<-|Hi] Hf; [lia|by apply H2].
  - destruct (IH m Hm) as [H1 H2]; [intros; apply Hg; [by right|done]|]. split; [done|].
    intros i [<-|Hi] Hf; [|by apply H2]. rewrite Hf, andb_true_r in E. zbool. lia.
Qed.

Lemma in_eight i : 0 <= i < 8 -> In i eight.
Proof. intros. apply list_elem_of_In, elem_of_seqZ. lia. Qed.

(** IEEE credits.  For bandwidth percentages and the adapter's frame sizes, the refill
    credit of every class pays for at least half a maximal frame and stays below the hardware
    limit, larger shares get no smaller credits, and the maximum credit stays in range. *)
Theorem ieee_credits bw mfs :
  (forall i, 0 <= i < 8 -> 0 <= bw i <= 100) -> 64 <= mfs <= 15872 ->
  let '(refill, max) := ixgbe_dcb_calculate_tc_credits bw mfs in
  (forall i, 0 <= i < 8 -> mfs / 2 <= refill i * IXGBE_DCB_CREDIT_QUANTUM /\
     refill i <= IXGBE_DCB_MAX_CREDIT_REFILL /\ 0 < max i <= IXGBE_DCB_MAX_CREDIT) /\
  (forall i j, 0 <= i < 8 -> 0 <= j < 8 -> bw i <= bw j -> refill i <= refill j).
Proof.
  intros Hbw Hm. unfold ixgbe_dcb_calculate_tc_credits. cbv zeta.
  assert (0 < min_credit_of mfs <= 124 /\ mfs / 2 <= min_credit_of mfs * 64) as [Hc Hh].
  { unfold min_credit_of, IXGBE_DCB_CREDIT_QUANTUM. rewrite (Z.quot_div_nonneg mfs 2) by lia.
    rewrite Z.quot_div_nonneg by zdm. zdm. }
  destruct (fold_min_bounds (fun i => truthy (bw i)) bw eight 100 ltac:(lia)) as [Hp _].
  { intros i Hi Ht. apply list_elem_of_In, elem_of_seqZ in Hi. unfold truthy in Ht. specialize (Hbw i ltac:(lia)). zbool. lia. }
  fold (min_percent_of bw) in Hp. set (k := min_credit_of mfs /c min_percent_of bw + 1).
  assert (0 < k) as Hk by (unfold k; rewrite Z.quot_div_nonneg by lia; pose proof (Z.div_pos (min_credit_of mfs) (min_percent_of bw)); lia).
  assert (forall i, 0 <= i < 8 -> 0 <= bw i * k) as Hbk by (intros i Hi; specialize (Hbw i Hi); nia).
  unfold IXGBE_DCB_MAX_CREDIT_REFILL, IXGBE_DCB_MAX_CREDIT, IXGBE_DCB_MAX_CREDIT_REFILL, IXGBE_DCB_CREDIT_QUANTUM, truthy. split.
  - intros i Hi. specialize (Hbw i Hi). specialize (Hbk i Hi).
    assert (bw i = 0 \/ 0 < bw i * (2 * 200) / 100 <= 400) as Hmx by zdm.
    rewrite Z.quot_div_nonneg by lia. rewrite !u16_small by (split_ifs; zdm). split_ifs; try lia; zdm.
  - intros i j Hi Hj Hij. pose proof (Hbk i Hi). pose proof (Hbk j Hj).
    assert (bw i * k <= bw j * k) by nia. rewrite !u16_small by (split_ifs; lia). split_ifs; lia.
Qed.

(** Priorities.  [ixgbe_dcb_get_tc_from_up] returns the highest configured traffic class
    above 0 whose bitmap contains the priority, and 0 when there is none. *)
Theorem tc_from_up_spec c dir up :
  0 <= up < 8 -> 0 <= pg_tcs c <= 8 ->
  let tc := ixgbe_dcb_get_tc_from_up c dir up in
  let has k := Z.testbit (up_to_tc_bitmap (path (tcs c k) dir)) up in
  (forall k, tc < k < pg_tcs c -> 0 < k -> has k = false) /\
  (tc = 0 \/ 0 < tc < pg_tcs c /\ has tc = true).
Proof.
  intros Hup Hn. cbv zeta. unfold ixgbe_dcb_get_tc_from_up.
  assert (u8 (Z.shiftl 1 up) = 2 ^ up) as Hmask.
  { rewrite Z.shiftl_mul_pow2, Z.mul_1_l by lia. apply u8_small. split; [apply Z.pow_nonneg; lia|]. apply Z.pow_lt_mono_r; lia. }
  assert (forall b, truthy (Z.land (2 ^ up) b) = Z.testbit b up) as Hbit
    by (intros b; rewrite Z.land_comm, <- Z.shiftl_1_l; apply truthy_land_bit; lia).
  rewrite Hmask. destruct (pg_tcs c =? 0) eqn:E0; zbool; [split; [lia|by left]|].
  assert (forall n, let tc := find_tc c dir (2 ^ up) n in
    (forall k, tc < k <= Z.of_nat n -> Z.testbit (up_to_tc_bitmap (path (tcs c k) dir)) up = false) /\
    (tc = 0 \/ 0 < tc <= Z.of_nat n /\ Z.testbit (up_to_tc_bitmap (path (tcs c tc) dir)) up = true)) as Hf.
  { cbv zeta. induction n as [|n [IH1 IH2]]; cbn [find_tc]; [split; [lia|by left]|]. rewrite Hbit.
    destruct (Z.testbit (up_to_tc_bitmap (path (tcs c (Z.of_nat (S n))) dir)) up) eqn:E.
    - split; [lia|]. right. split; [lia|done].
    - split; [|destruct IH2 as [?|[? ?]]; [by left|right; split; [lia|done]]].
      intros k Hk. destruct (decide (k = Z.of_nat (S n))) as [->|]; [done|]. apply IH1. lia. }
  destruct (Hf (Z.to_nat (pg_tcs c - 1))) as [H1 H2]. split.
  - intros k Hk _. apply H1. lia.
  - destruct H2 as [?|[? ?]]; [by left|right; split; [lia|done]].
Qed.

(** *** The rules *)
Definition zsumf (f : Z -> Z) (l : list Z) : Z := foldr (fun j s => f j + s) 0 l.
(** What the classes of [l] take of group [g]. *)
Definition group_sum (c : dcb_config) (dir g : Z) (l : list Z) : Z :=
  zsumf (fun j => if bwg_id (path (tcs c j) dir) =? g then bwg_percent (path (tcs c j) dir) else 0) l.

Definition class_ok (c : dcb_config) (dir j : Z) : Prop :=
  bwg_id (path (tcs c j) dir) < IXGBE_DCB_MAX_BW_GROUP /\
  (tsa (path (tcs c j) dir) = tsa_strict <-> bwg_percent (path (tcs c j) dir) = 0).

Lemma check_class_some c dir s j s' :
  check_class c dir s j = Some s' ->
  class_ok c dir j /\ bw_sum s' = <[bwg_id (path (tcs c j) dir) :=
    u8 (bw_sum s (bwg_id (path (tcs c j) dir)) + bwg_percent (path (tcs c j) dir))]> (bw_sum s).
Proof.
  unfold check_class, class_ok, truthy. cbv zeta. destruct (_ >=? _) eqn:E1; [done|]. zbool.
  case_bool_decide as Ht; destruct (_ =? 0) eqn:E2; cbn; intros [= <-]; zbool; cbn; (split; [split; [lia|by split]|done]).
Qed.

Lemma check_classes c dir l s s' :
  (forall g, 0 <= bw_sum s g < 256) -> fold_opt (check_class c dir) s l = Some s' ->
  (forall j, In j l -> class_ok c dir j) /\ (forall g, bw_sum s' g = u8 (bw_sum s g + group_sum c dir g l)).
Proof.
  revert s. induction l as [|j l IH]; intros s Hs H; cbn [fold_opt] in H.
  { injection H as <-. split; [intros j []|]. intros g. unfold group_sum. cbn. rewrite Z.add_0_r, u8_small; [done|apply Hs]. }
  destruct (check_class c dir s j) as [s1|] eqn:E; [|done].
  assert (class_ok c dir j /\ bw_sum s1 = <[bwg_id (path (tcs c j) dir) :=
    u8 (bw_sum s (bwg_id (path (tcs c j) dir)) + bwg_percent (path (tcs c j) dir))]> (bw_sum s)) as [Hj Hs1].
  { by apply check_class_some. }
  destruct (IH s1) as [H1 H2]; [|done|].
  { intros g. rewrite Hs1, fn_insert_dec. case_decide; [apply u8_range|apply Hs]. }
  split; [intros i [<-|Hi]; [done|by apply H1]|]. intros g. rewrite H2, Hs1, fn_insert_dec. unfold group_sum, zsumf. cbn.
  case_decide as Hg; [subst g; rewrite Z.eqb_refl|by rewrite (proj2 (Z.eqb_neq _ _) Hg)].
  unfold u8. rewrite Zplus_mod_idemp_l. f_equal. lia.
Qed.

Lemma check_groups c dir s l bw bw' :
  0 <= bw < 256 -> fold_opt (check_group c dir s) bw l = Some bw' ->
  bw' = u8 (bw + zsumf (bw_percentage c dir) l) /\
  forall g, In g l -> bw_sum s g = 0 \/ bw_sum s g = IXGBE_DCB_BW_PERCENT.
Proof.
  revert bw. induction l as [|j l IH]; intros bw Hb H; cbn [fold_opt] in H.
  { injection H as <-. split; [cbn; rewrite Z.add_0_r, u8_small by lia; done|intros g []]. }
  destruct (check_group c dir s bw j) as [bw1|] eqn:E; [|done].
  assert (bw1 = u8 (bw + bw_percentage c dir j) /\ (bw_sum s j = 0 \/ bw_sum s j = IXGBE_DCB_BW_PERCENT)) as [-> Hj].
  { unfold check_group, truthy in E. repeat (case_match; simplify_eq); zbool; [by auto|].
    split; [done|]. match goal with H : negb _ && negb _ = false |- _ => apply andb_false_iff in H; destruct H end; zbool; auto. }
  destruct (IH (u8 (bw + bw_percentage c dir j)) (u8_range _) H) as [-> H2]. split.
  - unfold u8. rewrite Zplus_mod_idemp_l. by rewrite <- Z.add_assoc.
  - intros g [<-|Hg]; [done|by apply H2].
Qed.

(** Rules, as the code checks them.  A configuration that passes obeys the rules for the
    classes in both directions, and the percentages of the groups, and of the classes of each
    group, sum to 100 (or 0 for an unused or link-strict group) modulo 256: the sums are kept
    in 8 bits. *)
Theorem check_config_sound c dir :
  ixgbe_dcb_check_config_cee c = 0 -> dir = IXGBE_DCB_TX_CONFIG \/ dir = IXGBE_DCB_RX_CONFIG ->
  (forall j, 0 <= j < 8 -> class_ok c dir j) /\
  u8 (zsumf (bw_percentage c dir) eight) = IXGBE_DCB_BW_PERCENT /\
  (forall g, 0 <= g < 8 -> u8 (group_sum c dir g eight) = 0 \/ u8 (group_sum c dir g eight) = IXGBE_DCB_BW_PERCENT).
Proof.
  intros H Hdir. assert (check_direction c dir = true) as Hd.
  { unfold ixgbe_dcb_check_config_cee in H. destruct (_ && _) eqn:E; [|done]. apply andb_true_iff in E as [? ?].
    by destruct Hdir as [-> | ->]. }
  unfold check_direction in Hd. destruct (fold_opt (check_class c dir) _ eight) as [s|] eqn:E1; [|done].
  destruct (fold_opt (check_group c dir s) 0 eight) as [bw|] eqn:E2; [|done]. zbool. subst bw.
  apply check_classes in E1 as [H1 H2]; [|cbn; lia].
  apply check_groups in E2 as [H3 H4]; [|lia]. split_and!.
  - intros j Hj. apply H1, in_eight, Hj.
  - by rewrite H3.
  - intros g Hg. specialize (H4 g (in_eight g Hg)). rewrite H2 in H4. cbn in H4. exact H4.
Qed.

(** A configuration of eight classes, all in group 0, with the given group percentages. *)
Definition all_in_group0 (percent : Z -> Z) : dcb_config :=
  DcbConfig (fun j => TcConfig (fun _ => TcPath 0 (if j =? 7 then 16 else 12) 0 (Z.shiftl 1 j) 0 0 tsa_ets) pfc_enabled 0)
    8 8 (fun _ => percent) false false.

(** The 8-bit sum accepts too much: group percentages that total 356 pass the check that
    they "must total 100%". *)
Theorem percent_sum_wraps :
  exists c, ixgbe_dcb_check_config_cee c = 0 /\ zsumf (bw_percentage c IXGBE_DCB_TX_CONFIG) eight = 356.
Proof. exists (all_in_group0 (fun g => if g <? 2 then 178 else 0)). split; vm_compute; reflexivity. Qed.

(** *** CEE credits *)

(** The fields that the computation of the credits reads. *)
Definition same_input (c c' : dcb_config) (dir : Z) : Prop :=
  bw_percentage c' = bw_percentage c /\
  forall i, bwg_id (path (tcs c' i) dir) = bwg_id (path (tcs c i) dir) /\
            bwg_percent (path (tcs c' i) dir) = bwg_percent (path (tcs c i) dir).

Section Credits.
Context (b : bool) (mc mm dir : Z).

Lemma credit_tc_path c i j :
  path (tcs (credit_tc b mc mm dir c i) j) dir =
  if decide (i = j) then path (tcs (credit_tc b mc mm dir c i) i) dir else path (tcs c j) dir.
Proof using.
  case_decide as Hij; [by subst|]. unfold credit_tc, set_path, set_desc_credits_max. cbv zeta.
  destruct (dir =? IXGBE_DCB_TX_CONFIG); cbn; by rewrite !fn_lookup_insert_ne by done.
Qed.

Lemma credit_tc_input c i : same_input c (credit_tc b mc mm dir c i) dir.
Proof using.
  split; [unfold credit_tc, set_path, set_desc_credits_max; by destruct (dir =? _)|]. intros j.
  rewrite credit_tc_path. case_decide as Hij; [subst j|done]. unfold credit_tc, set_path, set_desc_credits_max. cbv zeta.
  destruct (dir =? IXGBE_DCB_TX_CONFIG); repeat (cbn; rewrite fn_lookup_insert); done.
Qed.

(** The refill credit of class [i], from the input fields. *)
Definition refill_value (c : dcb_config) (i : Z) : Z :=
  let l := link_percentage_of c dir i in
  let l := if (bwg_percent (path (tcs c i) dir) >? 0) && (l =? 0) then 1 else l in
  u16 (Z.min (u32 (l * mm)) IXGBE_DCB_MAX_CREDIT_REFILL).

Lemma refill_value_input c c' i : same_input c c' dir -> refill_value c' i = refill_value c i.
Proof using.
  intros [Hb Hp]. destruct (Hp i) as [H1 H2]. unfold refill_value, link_percentage_of. by rewrite H1, H2, Hb.
Qed.

Lemma credit_tc_refill c i : data_credits_refill (path (tcs (credit_tc b mc mm dir c i) i) dir) = refill_value c i.
Proof using.
  unfold credit_tc, set_path, set_desc_credits_max, refill_value. cbv zeta.
  destruct (dir =? IXGBE_DCB_TX_CONFIG); repeat (cbn; rewrite fn_lookup_insert); done.
Qed.

Lemma credits_refill l c i :
  In i l -> data_credits_refill (path (tcs (foldl (credit_tc b mc mm dir) c l) i) dir) = refill_value c i.
Proof using.
  intros Hin. assert (forall l c, (data_credits_refill (path (tcs c i) dir) = refill_value c i \/ In i l) ->
    data_credits_refill (path (tcs (foldl (credit_tc b mc mm dir) c l) i) dir) = refill_value c i) as Hgen; [|by apply Hgen; right].
  clear. induction l as [|j l IH]; intros c H; cbn [foldl]; [by destruct H|].
  rewrite IH; [apply refill_value_input, credit_tc_input|].
  rewrite (refill_value_input _ _ _ (credit_tc_input c j)), credit_tc_path.
  destruct (decide (j = i)) as [->|]; [left; apply credit_tc_refill|]. destruct H as [?|[?|?]]; [by left|done|by right].
Qed.
End Credits.

(** CEE credits.  A class whose share of the link does not round to zero gets refill
    credits for at least half a maximal frame, up to the hardware limit. *)
Theorem cee_refill_enough is_82598 c mfs dir i :
  0 <= i < 8 -> (forall j, 0 <= j < 8 -> 0 <= link_percentage_of c dir j <= 100) -> 0 < link_percentage_of c dir i ->
  64 <= mfs <= 15872 ->
  exists c', ixgbe_dcb_calculate_tc_credits_cee is_82598 (Some c) mfs dir = (0, Some c') /\
    Z.min (min_credit_cee mfs) IXGBE_DCB_MAX_CREDIT_REFILL <= data_credits_refill (path (tcs c' i) dir) /\
    mfs / 2 <= min_credit_cee mfs * IXGBE_DCB_CREDIT_QUANTUM.
Proof.
  intros Hi Hl Hpos Hm. eexists. split; [reflexivity|]. rewrite credits_refill by (by apply in_eight).
  assert (0 < min_credit_cee mfs <= 124 /\ mfs / 2 <= min_credit_cee mfs * 64) as [Hc Hh].
  { unfold min_credit_cee, IXGBE_DCB_CREDIT_QUANTUM. rewrite u32_small by zdm. zdm. }
  split; [|done]. unfold refill_value. cbv zeta. rewrite (proj2 (Z.eqb_neq (link_percentage_of c dir i) 0)), andb_false_r by lia.
  destruct (fold_min_bounds (fun i => truthy (link_percentage_of c dir i)) (link_percentage_of c dir) eight 100 ltac:(lia)) as [Hp Hle].
  { intros j Hj Ht. apply list_elem_of_In, elem_of_seqZ in Hj. unfold truthy in Ht. specialize (Hl j ltac:(lia)). zbool. lia. }
  assert (min_percent_cee c dir = foldl (fun m i => if (link_percentage_of c dir i <? m) && truthy (link_percentage_of c dir i)
    then link_percentage_of c dir i else m) 100 eight) as Hmp.
  { unfold min_percent_cee. generalize 100, eight. intros m l. revert m. induction l as [|x l IH]; intros m; [done|]. cbn [foldl]. cbv zeta.
    rewrite andb_comm. apply IH. }
  rewrite <- Hmp in *. specialize (Hle i (in_eight i Hi)). unfold truthy in Hle at 1. rewrite (proj2 (Z.eqb_neq _ 0)) in Hle by lia.
  specialize (Hle eq_refl). specialize (Hl i Hi). set (p := min_percent_cee c dir) in *. set (m := min_credit_cee mfs) in *.
  set (k := link_percentage_of c dir i) in *.
  assert (m <= k * (m / p + 1) <= 12500) as [H1 H2].
  { pose proof (Z.div_mod m p ltac:(lia)). pose proof (Z.mod_pos_bound m p ltac:(lia)).
    assert (0 <= m / p <= 124) by (split; [apply Z.div_pos; lia|]; transitivity (m / 1); [apply Z.div_le_compat_l; lia|rewrite Z.div_1_r; lia]). nia. }
  rewrite u32_small, u16_small; unfold IXGBE_DCB_MAX_CREDIT_REFILL; lia.
Qed.

(** Two classes share a group of 1 percent. *)
Definition thin_group : dcb_config :=
  DcbConfig (fun j => TcConfig (fun _ => TcPath (if j <? 6 then 0 else 1)
      (if j <? 4 then 17 else if j <? 6 then 16 else 50) 0 (Z.shiftl 1 j) 0 0 tsa_ets) pfc_disabled 0)
    8 8 (fun _ g => if g =? 0 then 99 else if g =? 1 then 1 else 0) false false.

(** Shares that round to zero are left out of the multiplier: for a valid configuration
    the refill credits of such a class stay below what the comment requires (and what the
    IEEE variant enforces). *)
Theorem cee_refill_too_small :
  ixgbe_dcb_check_config_cee thin_group = 0 /\
  exists c', ixgbe_dcb_calculate_tc_credits_cee false (Some thin_group) 9728 IXGBE_DCB_TX_CONFIG = (0, Some c') /\
    data_credits_refill (path (tcs c' 7) IXGBE_DCB_TX_CONFIG) = 6 /\ min_credit_cee 9728 = 76.
Proof.
  split; [vm_compute; reflexivity|]. eexists. split; [reflexivity|].
  rewrite credits_refill by (by apply in_eight). split; vm_compute; reflexivity.
Qed.

(** *** Witnesses *)
Definition even (i : Z) : Z := if i <? 4 then 13 else 12.
Lemma ieee_credits_witness :
  2 * 12 <= 2 * (ixgbe_dcb_calculate_tc_credits even 1518).1 3 /\
  (ixgbe_dcb_calculate_tc_credits even 1518).1 5 <= (ixgbe_dcb_calculate_tc_credits even 1518).1 3.
Proof.
  pose proof (ieee_credits even 1518) as H. destruct (ixgbe_dcb_calculate_tc_credits even 1518) as [r m]. cbn [fst].
  destruct H as [H1 H2]; [intros i Hi; unfold even; destruct (i <? 4); lia | lia |].
  destruct (H1 3 ltac:(lia)) as (Ha & _ & _). split; [unfold IXGBE_DCB_CREDIT_QUANTUM in Ha; zdm|].
  apply H2; [lia | lia | vm_compute; discriminate].
Defined.

Lemma tc_from_up_spec_witness :
  ixgbe_dcb_get_tc_from_up thin_group 0 5 = 5 /\
  Z.testbit (up_to_tc_bitmap (path (tcs thin_group (ixgbe_dcb_get_tc_from_up thin_group 0 5)) 0)) 5 = true.
Proof.
  split; [reflexivity|]. destruct (tc_from_up_spec thin_group 0 5) as [_ [H|[_ H]]]; [lia | cbn; lia | discriminate H | exact H].
Defined.

Lemma check_config_sound_witness :
  ixgbe_dcb_check_config_cee thin_group = 0 /\ class_ok thin_group IXGBE_DCB_RX_CONFIG 7.
Proof.
  assert (ixgbe_dcb_check_config_cee thin_group = 0) as H by (vm_compute; reflexivity). split; [exact H|].
  apply (check_config_sound thin_group IXGBE_DCB_RX_CONFIG H); [right; reflexivity | lia].
Defined.

Lemma cee_refill_enough_witness :
  exists c', ixgbe_dcb_calculate_tc_credits_cee false (Some thin_group) 1518 0 = (0, Some c') /\
    12 <= data_credits_refill (path (tcs c' 0) 0).
Proof.
  destruct (cee_refill_enough false thin_group 1518 0 0) as (c' & H1 & H2 & _); [lia | | | lia |].
  - intros j Hj.
    assert (forallb (fun j => (0 <=? link_percentage_of thin_group 0 j) && (link_percentage_of thin_group 0 j <=? 100)) eight = true)
      as Hall by (vm_compute; reflexivity).
    rewrite forallb_forall in Hall. specialize (Hall j (in_eight j Hj)). apply andb_true_iff in Hall as [Ha Hb].
    apply Z.leb_le in Ha, Hb. lia.
  - vm_compute. reflexivity.
  - exists c'. split; [exact H1|]. transitivity (Z.min (min_credit_cee 1518) IXGBE_DCB_MAX_CREDIT_REFILL); [vm_compute; discriminate|exact H2].
Defined.
