(* ===== verification/DcbHw.v ===== *)
(** * Data centre bridging: programming the adapter

    The register-level half of the bandwidth configuration ([ixgbe_dcb_82598.c],
    [ixgbe_dcb_82599.c]) and the functions of [ixgbe_dcb.c] that choose between the two by
    the type of the adapter. The arrays [refill], [max], [bwg_id], [tsa] (by traffic class) and
    [map] (by priority) are functions; the functions return the C result. *)
From S2P Require Import Prelude Hw Dcb.

Definition IXGBE_ERR_PARAM : Z := -5.
Definition IXGBE_NOT_IMPLEMENTED : Z := 0x7FFFFFFF.

(** ** Registers ([ixgbe_type.h], [ixgbe_dcb_82598.h], [ixgbe_dcb_82599.h]) *)
Definition IXGBE_QPTC (i : Z) : Z := 0x06030 + i * 0x40.
Definition IXGBE_QBTC (i : Z) : Z := 0x06034 + i * 0x40.
Definition IXGBE_QPRC (i : Z) : Z := 0x01030 + i * 0x40.
Definition IXGBE_QBRC (i : Z) : Z := 0x01034 + i * 0x40.
Definition IXGBE_QBTC_L (i : Z) : Z := 0x08700 + i * 0x8.
Definition IXGBE_QBTC_H (i : Z) : Z := 0x08704 + i * 0x8.
Definition IXGBE_QBRC_L (i : Z) : Z := 0x01034 + i * 0x40.
Definition IXGBE_QBRC_H (i : Z) : Z := 0x01038 + i * 0x40.
Definition IXGBE_QPRDC (i : Z) : Z := 0x01430 + i * 0x40.
Definition IXGBE_PXOFFTXC (i : Z) : Z := 0x03F20 + i * 4.
Definition IXGBE_PXOFFRXC (i : Z) : Z := 0x0CF20 + i * 4.
Definition IXGBE_PXOFFRXCNT (i : Z) : Z := 0x04160 + i * 4.
Definition IXGBE_RUPPBMR : Z := 0x050A0.
Definition IXGBE_RUPPBMR_MQA : Z := 0x80000000.
Definition IXGBE_RMCS : Z := 0x03D00.
Definition IXGBE_RMCS_ARBDIS : Z := 0x40.
Definition IXGBE_RMCS_RRM : Z := 0x2.
Definition IXGBE_RMCS_DFP : Z := 0x4.
Definition IXGBE_RMCS_TFCE_802_3X : Z := 0x8.
Definition IXGBE_RMCS_TFCE_PRIORITY : Z := 0x10.
Definition IXGBE_RT2CR (i : Z) : Z := 0x03C20 + i * 4.
Definition IXGBE_RDRXCTL : Z := 0x02F00.
Definition IXGBE_RDRXCTL_RDMTS_1_2 : Z := 0.
Definition IXGBE_RDRXCTL_MPBEN : Z := 0x10.
Definition IXGBE_RDRXCTL_MCEN : Z := 0x40.
Definition IXGBE_RXCTRL : Z := 0x03000.
Definition IXGBE_RXCTRL_DMBYPS : Z := 0x2.
Definition IXGBE_DPMCS : Z := 0x07F40.
Definition IXGBE_DPMCS_ARBDIS : Z := 0x40.
Definition IXGBE_DPMCS_TSOEF : Z := 0x80000.
Definition IXGBE_DPMCS_MTSOS_SHIFT : Z := 16.
Definition IXGBE_TDTQ2TCCR (i : Z) : Z := 0x0602C + i * 0x40.
Definition IXGBE_PDPMCS : Z := 0x0CD00.
Definition IXGBE_PDPMCS_ARBDIS : Z := 0x40.
Definition IXGBE_PDPMCS_TPPAC : Z := 0x20.
Definition IXGBE_PDPMCS_TRM : Z := 0x100.
Definition IXGBE_TDPT2TCCR (i : Z) : Z := 0x0CD20 + i * 4.
Definition IXGBE_DTXCTL : Z := 0x07E00.
Definition IXGBE_DTXCTL_ENDBUBD : Z := 0x4.
Definition IXGBE_FCTRL : Z := 0x05080.
Definition IXGBE_FCTRL_RPFCE : Z := 0x4000.
Definition IXGBE_FCTRL_RFCE : Z := 0x8000.
Definition IXGBE_FCRTL (i : Z) : Z := 0x03220 + i * 8.
Definition IXGBE_FCRTH (i : Z) : Z := 0x03260 + i * 8.
Definition IXGBE_FCRTL_XONE : Z := 0x80000000.
Definition IXGBE_FCRTH_FCEN : Z := 0x80000000.
Definition IXGBE_FCTTV (i : Z) : Z := 0x03200 + i * 4.
Definition IXGBE_FCRTV : Z := 0x032A0.
Definition IXGBE_RQSMR (i : Z) : Z := 0x02300 + i * 4.
Definition IXGBE_TQSMR (i : Z) : Z := if i <=? 7 then 0x07300 + i * 4 else 0x08600 + i * 4.
Definition IXGBE_TQSM (i : Z) : Z := 0x08600 + i * 4.
Definition IXGBE_RTRPCS : Z := 0x02430.
Definition IXGBE_RTRPCS_RRM : Z := 0x2.
Definition IXGBE_RTRPCS_RAC : Z := 0x4.
Definition IXGBE_RTRPCS_ARBDIS : Z := 0x40.
Definition IXGBE_RTRUP2TC : Z := 0x03020.
Definition IXGBE_RTRUP2TC_UP_SHIFT : Z := 3.
Definition IXGBE_RTRPT4C (i : Z) : Z := 0x02140 + i * 4.
Definition IXGBE_RTTDQSEL : Z := 0x04904.
Definition IXGBE_RTTDT1C : Z := 0x04908.
Definition IXGBE_RTTDT2C (i : Z) : Z := 0x04910 + i * 4.
Definition IXGBE_RTTDCS : Z := 0x04900.
Definition IXGBE_RTTDCS_TDPAC : Z := 0x1.
Definition IXGBE_RTTDCS_TDRM : Z := 0x10.
Definition IXGBE_RTTDCS_ARBDIS : Z := 0x40.
Definition IXGBE_RTTPCS : Z := 0x0CD00.
Definition IXGBE_RTTPCS_TPPAC : Z := 0x20.
Definition IXGBE_RTTPCS_TPRM : Z := 0x100.
Definition IXGBE_RTTPCS_ARBD_DCB : Z := 0x4.
Definition IXGBE_RTTPCS_ARBD_SHIFT : Z := 22.
Definition IXGBE_RTTPCS_ARBDIS : Z := 0x40.
Definition IXGBE_RTTUP2TC : Z := 0x0C800.
Definition IXGBE_RTTUP2TC_UP_SHIFT : Z := 3.
Definition IXGBE_RTTPT2C (i : Z) : Z := 0x0CD20 + i * 4.
(** The fields of the credit registers are at the same places in all of them. *)
Definition MCL_SHIFT : Z := 12.
Definition BWG_SHIFT : Z := 9.
Definition GSP : Z := 0x40000000.
Definition LSP : Z := 0x80000000.
Definition IXGBE_FCCFG : Z := 0x03D00.
Definition IXGBE_FCCFG_TFCE_PRIORITY : Z := 0x10.
Definition IXGBE_MFLCN : Z := 0x04294.
Definition IXGBE_MFLCN_DPF : Z := 0x2.
Definition IXGBE_MFLCN_RPFCE_MASK : Z := 0xFF4.
Definition IXGBE_MFLCN_RFCE : Z := 0x8.
Definition IXGBE_MFLCN_RPFCE_SHIFT : Z := 4.
Definition IXGBE_MFLCN_RPFCE : Z := 0x4.
Definition IXGBE_FCRTL_82599 (i : Z) : Z := 0x03220 + i * 4.
Definition IXGBE_FCRTH_82599 (i : Z) : Z := 0x03260 + i * 4.
Definition IXGBE_RXPBSIZE (i : Z) : Z := 0x03C00 + i * 4.
Definition IXGBE_MRQC : Z := 0x05818.
Definition IXGBE_MRQC_MRQE_MASK : Z := 0xF.
Definition IXGBE_MRQC_RSSEN : Z := 0x1.
Definition IXGBE_MRQC_RT8TCEN : Z := 0x2.
Definition IXGBE_MRQC_RT4TCEN : Z := 0x3.
Definition IXGBE_MRQC_RTRSS8TCEN : Z := 0x4.
Definition IXGBE_MRQC_RTRSS4TCEN : Z := 0x5.
Definition IXGBE_MRQC_VMDQRT4TCEN : Z := 0xD.
Definition IXGBE_MTQC : Z := 0x08120.
Definition IXGBE_MTQC_RT_ENA : Z := 0x1.
Definition IXGBE_MTQC_VT_ENA : Z := 0x2.
Definition IXGBE_MTQC_4TC_4TQ : Z := 0x8.
Definition IXGBE_MTQC_8TC_8TQ : Z := 0xC.
Definition IXGBE_QDE : Z := 0x2F04.
Definition IXGBE_QDE_WRITE : Z := 0x10000.
Definition IXGBE_QDE_IDX_SHIFT : Z := 8.
Definition IXGBE_SECTXMINIFG : Z := 0x08810.
Definition IXGBE_SECTX_DCB : Z := 0x1F00.

(** [reg = READ(r); reg &= ~clear; reg |= set; WRITE(r, reg)] *)
Definition update_reg (r clear set : Z) : M () :=
  reg ← IXGBE_READ_REG r; IXGBE_WRITE_REG r (Z.lor (Z.ldiff reg clear) set).

(** ** Statistics *)

(** The counters of [struct ixgbe_hw_stats] that the functions below add to. *)
Record hw_stats := HwStats {
  qptc : Z -> Z; qbtc : Z -> Z; qprc : Z -> Z; qbrc : Z -> Z; qprdc : Z -> Z;
  pxofftxc : Z -> Z; pxoffrxc : Z -> Z
}.
(** [a[i] += v] on 64 bits. *)
Definition add_at (i v : Z) (a : Z -> Z) : Z -> Z := <[i := u64 (a i + v)]> a.

Fixpoint fold_tc {S} (l : list Z) (body : Z -> S -> M S) (s : S) : M S :=
  match l with [] => mret s | i :: l => s ← body i s; fold_tc l body s end.

Definition ixgbe_dcb_get_tc_stats_82598 (s : hw_stats) (tc_count : Z) : M (Z * hw_stats) :=
  if tc_count >? IXGBE_DCB_MAX_TRAFFIC_CLASS then mret (IXGBE_ERR_PARAM, s)
  else
    s ← fold_tc (seqZ 0 tc_count) (fun tc s =>
      a ← IXGBE_READ_REG (IXGBE_QPTC tc);
      b ← IXGBE_READ_REG (IXGBE_QBTC tc);
      c ← IXGBE_READ_REG (IXGBE_QPRC tc);
      d ← IXGBE_READ_REG (IXGBE_QBRC tc);
      mret (HwStats (add_at tc a (qptc s)) (add_at tc b (qbtc s)) (add_at tc c (qprc s)) (add_at tc d (qbrc s))
              (qprdc s) (pxofftxc s) (pxoffrxc s))) s;
    mret (0, s).

Definition ixgbe_dcb_get_pfc_stats_82598 (s : hw_stats) (tc_count : Z) : M (Z * hw_stats) :=
  if tc_count >? IXGBE_DCB_MAX_TRAFFIC_CLASS then mret (IXGBE_ERR_PARAM, s)
  else
    s ← fold_tc (seqZ 0 tc_count) (fun tc s =>
      a ← IXGBE_READ_REG (IXGBE_PXOFFTXC tc);
      b ← IXGBE_READ_REG (IXGBE_PXOFFRXC tc);
      mret (HwStats (qptc s) (qbtc s) (qprc s) (qbrc s) (qprdc s)
              (add_at tc a (pxofftxc s)) (add_at tc b (pxoffrxc s)))) s;
    mret (0, s).

Definition ixgbe_dcb_get_tc_stats_82599 (s : hw_stats) (tc_count : Z) : M (Z * hw_stats) :=
  if tc_count >? IXGBE_DCB_MAX_TRAFFIC_CLASS then mret (IXGBE_ERR_PARAM, s)
  else
    s ← fold_tc (seqZ 0 tc_count) (fun tc s =>
      a ← IXGBE_READ_REG (IXGBE_QPTC tc);
      bl ← IXGBE_READ_REG (IXGBE_QBTC_L tc);
      bh ← IXGBE_READ_REG (IXGBE_QBTC_H tc);
      c ← IXGBE_READ_REG (IXGBE_QPRC tc);
      dl ← IXGBE_READ_REG (IXGBE_QBRC_L tc);
      dh ← IXGBE_READ_REG (IXGBE_QBRC_H tc);
      e ← IXGBE_READ_REG (IXGBE_QPRDC tc);
      mret (HwStats (add_at tc a (qptc s)) (add_at tc (Z.shiftl bh 32) (add_at tc bl (qbtc s)))
              (add_at tc c (qprc s)) (add_at tc (Z.shiftl dh 32) (add_at tc dl (qbrc s)))
              (add_at tc e (qprdc s)) (pxofftxc s) (pxoffrxc s))) s;
    mret (0, s).

Definition ixgbe_dcb_get_pfc_stats_82599 (s : hw_stats) (tc_count : Z) : M (Z * hw_stats) :=
  if tc_count >? IXGBE_DCB_MAX_TRAFFIC_CLASS then mret (IXGBE_ERR_PARAM, s)
  else
    s ← fold_tc (seqZ 0 tc_count) (fun tc s =>
      a ← IXGBE_READ_REG (IXGBE_PXOFFTXC tc);
      b ← IXGBE_READ_REG (IXGBE_PXOFFRXCNT tc);
      mret (HwStats (qptc s) (qbtc s) (qprc s) (qbrc s) (qprdc s)
              (add_at tc a (pxofftxc s)) (add_at tc b (pxoffrxc s)))) s;
    mret (0, s).

(** ** The 82598 *)
Section Arrays.
Context (refill max bwg_id : Z -> Z) (tsa : Z -> dcb_tsa) (map : Z -> Z).

Definition strict_bit (i : Z) : Z := if bool_decide (tsa i = tsa_strict) then LSP else 0.
Definition group_strict_bit (i : Z) : Z := if bool_decide (tsa i = tsa_group_strict_cee) then GSP else 0.
(** The value of a credit register; the receive registers have no group-strict bit. *)
Definition credit_reg (i : Z) : Z :=
  Z.lor (Z.lor (Z.lor (Z.shiftl (max i) MCL_SHIFT) (refill i)) (Z.shiftl (bwg_id i) BWG_SHIFT))
    (Z.lor (group_strict_bit i) (strict_bit i)).

Definition ixgbe_dcb_config_rx_arbiter_82598 : M Z :=
  _ ← update_reg IXGBE_RUPPBMR 0 IXGBE_RUPPBMR_MQA;
  _ ← update_reg IXGBE_RMCS IXGBE_RMCS_ARBDIS (Z.lor IXGBE_RMCS_RRM IXGBE_RMCS_DFP);
  _ ← for_each eight (fun i =>
        IXGBE_WRITE_REG (IXGBE_RT2CR i) (Z.lor (Z.lor (refill i) (Z.shiftl (max i) MCL_SHIFT)) (strict_bit i)));
  _ ← update_reg IXGBE_RDRXCTL 0 (Z.lor IXGBE_RDRXCTL_RDMTS_1_2 (Z.lor IXGBE_RDRXCTL_MPBEN IXGBE_RDRXCTL_MCEN));
  _ ← update_reg IXGBE_RXCTRL IXGBE_RXCTRL_DMBYPS 0;
  mret 0.

Definition ixgbe_dcb_config_tx_desc_arbiter_82598 : M Z :=
  _ ← update_reg IXGBE_DPMCS IXGBE_DPMCS_ARBDIS (Z.lor IXGBE_DPMCS_TSOEF (Z.shiftl 0x4 IXGBE_DPMCS_MTSOS_SHIFT));
  _ ← for_each eight (fun i => IXGBE_WRITE_REG (IXGBE_TDTQ2TCCR i) (credit_reg i));
  mret 0.

Definition ixgbe_dcb_config_tx_data_arbiter_82598 : M Z :=
  _ ← update_reg IXGBE_PDPMCS IXGBE_PDPMCS_ARBDIS (Z.lor IXGBE_PDPMCS_TPPAC IXGBE_PDPMCS_TRM);
  _ ← for_each eight (fun i => IXGBE_WRITE_REG (IXGBE_TDPT2TCCR i) (credit_reg i));
  _ ← update_reg IXGBE_DTXCTL 0 IXGBE_DTXCTL_ENDBUBD;
  mret 0.

(** [pause_time] in both halves of the registers, which serve two classes each. *)
Definition config_pause_time : M () :=
  h ← get;
  _ ← for_each (seqZ 0 4) (fun i =>
        IXGBE_WRITE_REG (IXGBE_FCTTV i) (u32 (Z.lor (pause_time (fc h)) (Z.shiftl (pause_time (fc h)) 16))));
  IXGBE_WRITE_REG IXGBE_FCRTV (pause_time (fc h) / 2).

Definition xoff_reg (h : ixgbe_hw) (i : Z) : Z := Z.lor (u32 (Z.shiftl (high_water (fc h) i) 10)) IXGBE_FCRTH_FCEN.
Definition xon_reg (h : ixgbe_hw) (i : Z) : Z := Z.lor (u32 (Z.shiftl (low_water (fc h) i) 10)) IXGBE_FCRTL_XONE.

Definition ixgbe_dcb_config_pfc_82598 (pfc_en : Z) : M Z :=
  h ← get;
  _ ← update_reg IXGBE_RMCS IXGBE_RMCS_TFCE_802_3X IXGBE_RMCS_TFCE_PRIORITY;
  _ ← update_reg IXGBE_FCTRL (Z.lor IXGBE_FCTRL_RPFCE IXGBE_FCTRL_RFCE) (if truthy pfc_en then IXGBE_FCTRL_RPFCE else 0);
  _ ← for_each eight (fun i =>
        if negb (truthy (Z.land pfc_en (Z.shiftl 1 i))) then
          _ ← IXGBE_WRITE_REG (IXGBE_FCRTL i) 0;
          IXGBE_WRITE_REG (IXGBE_FCRTH i) 0
        else
          _ ← IXGBE_WRITE_REG (IXGBE_FCRTL i) (xon_reg h i);
          IXGBE_WRITE_REG (IXGBE_FCRTH i) (xoff_reg h i));
  _ ← config_pause_time;
  mret 0.

Definition ixgbe_dcb_config_tc_stats_82598 : M Z :=
  _ ← for_each eight (fun j =>
        _ ← update_reg (IXGBE_RQSMR (2 * j)) 0 (0x1010101 * j);
        update_reg (IXGBE_RQSMR (2 * j + 1)) 0 (0x1010101 * j));
  _ ← for_each eight (fun i => update_reg (IXGBE_TQSMR i) 0 (0x1010101 * i));
  mret 0.

Definition ixgbe_dcb_hw_config_82598 : M Z :=
  _ ← ixgbe_dcb_config_rx_arbiter_82598;
  _ ← ixgbe_dcb_config_tx_desc_arbiter_82598;
  _ ← ixgbe_dcb_config_tx_data_arbiter_82598;
  _ ← ixgbe_dcb_config_tc_stats_82598;
  mret 0.

(** ** The 82599 and the X540 *)

(** [for (i = 0; i < 8; i++) reg |= map[i] << (i * 3)] *)
Definition up2tc_reg : Z := foldl (fun reg i => Z.lor reg (Z.shiftl (map i) (i * IXGBE_RTRUP2TC_UP_SHIFT))) 0 eight.

Definition ixgbe_dcb_config_rx_arbiter_82599 : M Z :=
  let on := Z.lor IXGBE_RTRPCS_RRM IXGBE_RTRPCS_RAC in
  _ ← IXGBE_WRITE_REG IXGBE_RTRPCS (Z.lor on IXGBE_RTRPCS_ARBDIS);
  _ ← IXGBE_WRITE_REG IXGBE_RTRUP2TC up2tc_reg;
  _ ← for_each eight (fun i =>
        IXGBE_WRITE_REG (IXGBE_RTRPT4C i)
          (Z.lor (Z.lor (Z.lor (refill i) (Z.shiftl (max i) MCL_SHIFT)) (Z.shiftl (bwg_id i) BWG_SHIFT)) (strict_bit i)));
  _ ← IXGBE_WRITE_REG IXGBE_RTRPCS on;
  mret 0.

Definition ixgbe_dcb_config_tx_desc_arbiter_82599 : M Z :=
  _ ← for_each (seqZ 0 128) (fun i =>
        _ ← IXGBE_WRITE_REG IXGBE_RTTDQSEL i;
        IXGBE_WRITE_REG IXGBE_RTTDT1C 0);
  _ ← for_each eight (fun i => IXGBE_WRITE_REG (IXGBE_RTTDT2C i) (credit_reg i));
  _ ← IXGBE_WRITE_REG IXGBE_RTTDCS (Z.lor IXGBE_RTTDCS_TDPAC IXGBE_RTTDCS_TDRM);
  mret 0.

Definition ixgbe_dcb_config_tx_data_arbiter_82599 : M Z :=
  let on := Z.lor (Z.lor IXGBE_RTTPCS_TPPAC IXGBE_RTTPCS_TPRM) (Z.shiftl IXGBE_RTTPCS_ARBD_DCB IXGBE_RTTPCS_ARBD_SHIFT) in
  _ ← IXGBE_WRITE_REG IXGBE_RTTPCS (Z.lor on IXGBE_RTTPCS_ARBDIS);
  _ ← IXGBE_WRITE_REG IXGBE_RTTUP2TC up2tc_reg;
  _ ← for_each eight (fun i => IXGBE_WRITE_REG (IXGBE_RTTPT2C i) (credit_reg i));
  _ ← IXGBE_WRITE_REG IXGBE_RTTPCS on;
  mret 0.

(** [enabled]: some priority of class [i] has flow control. *)
Definition pfc_enabled_tc (pfc_en i : Z) : bool :=
  existsb (fun j => (map j =? i) && truthy (Z.land pfc_en (Z.shiftl 1 j))) eight.

Definition ixgbe_dcb_config_pfc_82599 (pfc_en : Z) : M Z :=
  h ← get;
  _ ← IXGBE_WRITE_REG IXGBE_FCCFG IXGBE_FCCFG_TFCE_PRIORITY;
  reg ← IXGBE_READ_REG IXGBE_MFLCN;
  let reg := Z.ldiff (Z.lor reg IXGBE_MFLCN_DPF) (Z.lor IXGBE_MFLCN_RPFCE_MASK IXGBE_MFLCN_RFCE) in
  let reg := if bool_decide (hw_mac h = ixgbe_mac_X540) then Z.lor reg (Z.shiftl pfc_en IXGBE_MFLCN_RPFCE_SHIFT) else reg in
  let reg := if truthy pfc_en then Z.lor reg IXGBE_MFLCN_RPFCE else reg in
  _ ← IXGBE_WRITE_REG IXGBE_MFLCN reg;
  let max_tc := foldl (fun m i => if map i >? m then map i else m) 0 eight in
  _ ← for_each (seqZ 0 (max_tc + 1)) (fun i =>
        if pfc_enabled_tc pfc_en i then
          _ ← IXGBE_WRITE_REG (IXGBE_FCRTL_82599 i) (xon_reg h i);
          IXGBE_WRITE_REG (IXGBE_FCRTH_82599 i) (xoff_reg h i)
        else
          size ← IXGBE_READ_REG (IXGBE_RXPBSIZE i);
          _ ← IXGBE_WRITE_REG (IXGBE_FCRTL_82599 i) 0;
          IXGBE_WRITE_REG (IXGBE_FCRTH_82599 i) (u32 (size - 32)));
  _ ← for_each (seqZ (max_tc + 1) (7 - max_tc)) (fun i =>
        _ ← IXGBE_WRITE_REG (IXGBE_FCRTL_82599 i) 0;
        IXGBE_WRITE_REG (IXGBE_FCRTH_82599 i) 0);
  _ ← config_pause_time;
  mret 0.

Definition tqsm_8tc (i : Z) : Z :=
  if i <? 8 then 0 else if i <? 16 then 0x01010101 else if i <? 20 then 0x02020202 else if i <? 24 then 0x03030303
  else if i <? 26 then 0x04040404 else if i <? 28 then 0x05050505 else if i <? 30 then 0x06060606 else 0x07070707.
Definition tqsm_4tc (i : Z) : Z :=
  if i <? 16 then 0 else if i <? 24 then 0x01010101 else if i <? 28 then 0x02020202 else 0x03030303.

(** [None] is a NULL configuration. *)
Definition ixgbe_dcb_config_tc_stats_82599 (c : option dcb_config) : M Z :=
  let tc_count := match c with Some c => pg_tcs c | None => 8 end in
  let vt := match c with Some c => vt_mode c | None => false end in
  if negb ((tc_count =? 8) && negb vt || (tc_count =? 4)) then mret IXGBE_ERR_PARAM
  else if (tc_count =? 8) && negb vt then
    _ ← for_each (seqZ 0 32) (fun i => IXGBE_WRITE_REG (IXGBE_RQSMR i) (0x01010101 * (i / 4)));
    _ ← for_each (seqZ 0 32) (fun i => IXGBE_WRITE_REG (IXGBE_TQSM i) (tqsm_8tc i));
    mret 0
  else if (tc_count =? 4) && negb vt then
    _ ← for_each (seqZ 0 32) (fun i =>
          if i mod 8 >? 3 then mret () else IXGBE_WRITE_REG (IXGBE_RQSMR i) (0x01010101 * (i / 8)));
    _ ← for_each (seqZ 0 32) (fun i => IXGBE_WRITE_REG (IXGBE_TQSM i) (tqsm_4tc i));
    mret 0
  else
    _ ← for_each (seqZ 0 32) (fun i => IXGBE_WRITE_REG (IXGBE_RQSMR i) 0x03020100);
    _ ← for_each (seqZ 0 32) (fun i => IXGBE_WRITE_REG (IXGBE_TQSM i) 0x03020100);
    mret 0.

(** The receive mode of [MRQC]: eight classes with or without RSS by the mode found there, four
    classes by [vt_mode]. *)
Definition mrqc_value (c : dcb_config) (reg : Z) : Z :=
  let mode := Z.land reg IXGBE_MRQC_MRQE_MASK in
  let keep := Z.ldiff reg IXGBE_MRQC_MRQE_MASK in
  if pg_tcs c =? 8 then
    Z.lor keep (if (mode =? 0) || (mode =? IXGBE_MRQC_RT4TCEN) then IXGBE_MRQC_RT8TCEN
                else if (mode =? IXGBE_MRQC_RSSEN) || (mode =? IXGBE_MRQC_RTRSS4TCEN) then IXGBE_MRQC_RTRSS8TCEN
                else IXGBE_MRQC_RT8TCEN)
  else if pg_tcs c =? 4 then
    Z.lor keep (if vt_mode c then IXGBE_MRQC_VMDQRT4TCEN else IXGBE_MRQC_RTRSS4TCEN)
  else reg.

Definition ixgbe_dcb_config_82599 (c : dcb_config) : M Z :=
  _ ← update_reg IXGBE_RTTDCS 0 IXGBE_RTTDCS_ARBDIS;
  reg ← IXGBE_READ_REG IXGBE_MRQC;
  _ ← IXGBE_WRITE_REG IXGBE_MRQC (mrqc_value c reg);
  _ ← IXGBE_WRITE_REG IXGBE_MTQC
        (if pg_tcs c =? 8 then Z.lor IXGBE_MTQC_RT_ENA IXGBE_MTQC_8TC_8TQ
         else Z.lor (Z.lor IXGBE_MTQC_RT_ENA IXGBE_MTQC_4TC_4TQ) (if vt_mode c then IXGBE_MTQC_VT_ENA else 0));
  _ ← for_each (seqZ 0 128) (fun q =>
        IXGBE_WRITE_REG IXGBE_QDE (Z.lor IXGBE_QDE_WRITE (Z.shiftl q IXGBE_QDE_IDX_SHIFT)));
  _ ← update_reg IXGBE_RTTDCS IXGBE_RTTDCS_ARBDIS 0;
  _ ← update_reg IXGBE_SECTXMINIFG 0 IXGBE_SECTX_DCB;
  mret 0.

Definition ixgbe_dcb_hw_config_82599 : M Z :=
  _ ← ixgbe_dcb_config_rx_arbiter_82599;
  _ ← ixgbe_dcb_config_tx_desc_arbiter_82599;
  _ ← ixgbe_dcb_config_tx_data_arbiter_82599;
  mret 0.

(** ** Helper routines of [ixgbe_dcb.c] *)
Definition ixgbe_dcb_config_pfc (pfc_en : Z) : M Z :=
  h ← get;
  match hw_mac h with
  | ixgbe_mac_82598EB => ixgbe_dcb_config_pfc_82598 pfc_en
  | ixgbe_mac_82599EB | ixgbe_mac_X540 => ixgbe_dcb_config_pfc_82599 pfc_en
  | ixgbe_mac_other => mret IXGBE_ERR_PARAM
  end.

Definition ixgbe_dcb_hw_config : M Z :=
  h ← get;
  match hw_mac h with
  | ixgbe_mac_82598EB =>
      _ ← ixgbe_dcb_config_rx_arbiter_82598;
      _ ← ixgbe_dcb_config_tx_desc_arbiter_82598;
      _ ← ixgbe_dcb_config_tx_data_arbiter_82598;
      mret 0
  | ixgbe_mac_82599EB | ixgbe_mac_X540 =>
      _ ← ixgbe_dcb_config_rx_arbiter_82599;
      _ ← ixgbe_dcb_config_tx_desc_arbiter_82599;
      _ ← ixgbe_dcb_config_tx_data_arbiter_82599;
      mret 0
  | ixgbe_mac_other => mret 0
  end.
End Arrays.

(** ** The functions of [ixgbe_dcb.c] that choose by the adapter *)
Definition by_mac {A} (m82598 m82599 other : M A) : M A :=
  h ← get;
  match hw_mac h with
  | ixgbe_mac_82598EB => m82598
  | ixgbe_mac_82599EB | ixgbe_mac_X540 => m82599
  | ixgbe_mac_other => other
  end.

Definition ixgbe_dcb_get_tc_stats (s : hw_stats) (tc_count : Z) : M (Z * hw_stats) :=
  by_mac (ixgbe_dcb_get_tc_stats_82598 s tc_count) (ixgbe_dcb_get_tc_stats_82599 s tc_count)
    (mret (IXGBE_NOT_IMPLEMENTED, s)).

Definition ixgbe_dcb_get_pfc_stats (s : hw_stats) (tc_count : Z) : M (Z * hw_stats) :=
  by_mac (ixgbe_dcb_get_pfc_stats_82598 s tc_count) (ixgbe_dcb_get_pfc_stats_82599 s tc_count)
    (mret (IXGBE_NOT_IMPLEMENTED, s)).

Definition ixgbe_dcb_config_tc_stats : M Z :=
  by_mac ixgbe_dcb_config_tc_stats_82598 (ixgbe_dcb_config_tc_stats_82599 None) (mret IXGBE_NOT_IMPLEMENTED).

Section Cee.
Context (c : dcb_config).
Let refill := ixgbe_dcb_unpack_refill_cee c IXGBE_DCB_TX_CONFIG.
Let max := ixgbe_dcb_unpack_max_cee c.
Let bwgid := ixgbe_dcb_unpack_bwgid_cee c IXGBE_DCB_TX_CONFIG.
Let tsas := ixgbe_dcb_unpack_tsa_cee c IXGBE_DCB_TX_CONFIG.
Let up_map := ixgbe_dcb_unpack_map_cee c IXGBE_DCB_TX_CONFIG.

Definition ixgbe_dcb_config_rx_arbiter_cee : M Z :=
  by_mac (ixgbe_dcb_config_rx_arbiter_82598 refill max tsas)
    (ixgbe_dcb_config_rx_arbiter_82599 refill max bwgid tsas up_map) (mret IXGBE_NOT_IMPLEMENTED).

Definition ixgbe_dcb_config_tx_desc_arbiter_cee : M Z :=
  by_mac (ixgbe_dcb_config_tx_desc_arbiter_82598 refill max bwgid tsas)
    (ixgbe_dcb_config_tx_desc_arbiter_82599 refill max bwgid tsas) (mret IXGBE_NOT_IMPLEMENTED).

Definition ixgbe_dcb_config_tx_data_arbiter_cee : M Z :=
  by_mac (ixgbe_dcb_config_tx_data_arbiter_82598 refill max bwgid tsas)
    (ixgbe_dcb_config_tx_data_arbiter_82599 refill max bwgid tsas up_map) (mret IXGBE_NOT_IMPLEMENTED).

Definition ixgbe_dcb_config_pfc_cee : M Z :=
  let pfc_en := ixgbe_dcb_unpack_pfc_cee c up_map in
  by_mac (ixgbe_dcb_config_pfc_82598 pfc_en) (ixgbe_dcb_config_pfc_82599 up_map pfc_en) (mret IXGBE_NOT_IMPLEMENTED).

Definition ixgbe_dcb_hw_config_cee : M Z :=
  ret ← by_mac (ixgbe_dcb_hw_config_82598 refill max bwgid tsas)
          (_ ← ixgbe_dcb_config_82599 c;
           ret ← ixgbe_dcb_hw_config_82599 refill max bwgid tsas up_map;
           _ ← ixgbe_dcb_config_tc_stats_82599 (Some c);
           mret ret)
          (mret IXGBE_NOT_IMPLEMENTED);
  if (ret =? 0) && pfc_mode_enable c then
    ixgbe_dcb_config_pfc up_map (ixgbe_dcb_unpack_pfc_cee c up_map)
  else mret ret.
End Cee.

(** ** Theorems *)

Lemma eight_range i : In i eight -> 0 <= i < 8.
Proof. intros H. apply list_elem_of_In, elem_of_seqZ in H. lia. Qed.
Lemma seqZ_range i m n : In i (seqZ m n) -> m <= i < m + n.
Proof. intros H. apply list_elem_of_In, elem_of_seqZ in H. lia. Qed.

(** Two registers are different: unfold the addresses. *)
Ltac reg_neq :=
  repeat match goal with
  | H : In _ eight |- _ => apply eight_range in H
  | H : In _ (seqZ _ _) |- _ => apply seqZ_range in H
  end;
  cbv [IXGBE_RUPPBMR IXGBE_RMCS IXGBE_RT2CR IXGBE_RDRXCTL IXGBE_RXCTRL IXGBE_DPMCS IXGBE_TDTQ2TCCR IXGBE_PDPMCS
       IXGBE_TDPT2TCCR IXGBE_DTXCTL IXGBE_FCTRL IXGBE_FCRTL IXGBE_FCRTH IXGBE_FCTTV IXGBE_FCRTV IXGBE_RQSMR
       IXGBE_TQSMR IXGBE_TQSM IXGBE_RTRPCS IXGBE_RTRUP2TC IXGBE_RTRPT4C IXGBE_RTTDQSEL IXGBE_RTTDT1C IXGBE_RTTDT2C
       IXGBE_RTTDCS IXGBE_RTTPCS IXGBE_RTTUP2TC IXGBE_RTTPT2C IXGBE_FCCFG IXGBE_MFLCN IXGBE_FCRTL_82599
       IXGBE_FCRTH_82599 IXGBE_MRQC IXGBE_MTQC IXGBE_QDE IXGBE_SECTXMINIFG] in *;
  split_ifs; lia.

Lemma avoids_update r' clear set r : r' <> r -> avoids (update_reg r' clear set) r.
Proof. intros. unfold update_reg. eauto with regs. Qed.
#[export] Hint Resolve avoids_update : regs.

(** The code does not write the register. *)
Ltac avoid :=
  lazymatch goal with
  | |- avoids (mret _) _ => apply avoids_ret
  | |- avoids get _ => apply avoids_get
  | |- avoids (IXGBE_READ_REG _) _ => apply avoids_read
  | |- avoids (update_reg _ _ _) _ => apply avoids_update; reg_neq
  | |- avoids (IXGBE_WRITE_REG _ _) _ => apply avoids_write; reg_neq
  | |- avoids (mbind _ _) _ => apply avoids_bind; [avoid|intros; avoid]
  | |- avoids (if _ then _ else _) _ => apply avoids_if; avoid
  | |- avoids (for_each _ _) _ => apply avoids_for_each; intros; avoid
  | |- avoids (match ?x with _ => _ end) _ => destruct x; avoid
  | |- avoids _ _ => progress autounfold with dcb; cbv zeta; avoid
  end.

(** The fields of a credit register: refill, bandwidth group, maximum, group strict, link strict. *)
Definition credit_fields (v : Z) : Z * Z * Z * bool * bool :=
  (v mod 2 ^ 9, (v / 2 ^ 9) mod 2 ^ 3, (v / 2 ^ 12) mod 2 ^ 18, Z.odd (v / 2 ^ 30), Z.odd (v / 2 ^ 31)).

Definition is_tsa (t u : dcb_tsa) : bool := bool_decide (t = u).

Section Registers.
Context (refill max bwg_id : Z -> Z) (i : Z).
Context (Hr : 0 <= refill i < 2 ^ 9) (Hm : 0 <= max i < 2 ^ 18) (Hb : 0 <= bwg_id i < 2 ^ 3).

Lemma credit_fields_sum g l :
  credit_fields (Z.lor (Z.shiftl ((if l : bool then 2 else 0) + (if g : bool then 1 else 0)) 30)
    (Z.lor (Z.shiftl (max i) 12) (Z.lor (Z.shiftl (bwg_id i) 9) (refill i)))) = (refill i, bwg_id i, max i, g, l).
Proof using Hr Hm Hb.
  assert (bwg_id i * 2 ^ 9 + refill i < 2 ^ 12) by lia.
  rewrite (lor_shiftl_add (bwg_id i)), (lor_shiftl_add (max i)), lor_shiftl_add by lia.
  set (x := (if l then 2 else 0) + (if g then 1 else 0)).
  set (v := x * 2 ^ 30 + (max i * 2 ^ 12 + (bwg_id i * 2 ^ 9 + refill i))).
  assert (v / 2 ^ 30 = x) as Hx by (unfold v; symmetry; apply (Z.div_unique _ _ _ (max i * 2 ^ 12 + (bwg_id i * 2 ^ 9 + refill i))); lia).
  assert (v / 2 ^ 31 = x / 2) as Hx2 by (change (2 ^ 31) with (2 ^ 30 * 2); rewrite <- Z.div_div by lia; by rewrite Hx).
  unfold credit_fields. rewrite Hx, Hx2. unfold v, x. repeat f_equal; [zdm|zdm|zdm|by destruct l, g|by destruct l, g].
Qed.

Context (tsa : Z -> dcb_tsa).

Lemma credit_reg_fields :
  credit_fields (credit_reg refill max bwg_id tsa i)
    = (refill i, bwg_id i, max i, is_tsa (tsa i) tsa_group_strict_cee, is_tsa (tsa i) tsa_strict).
Proof using Hr Hm Hb.
  rewrite <- credit_fields_sum. f_equal. unfold credit_reg, group_strict_bit, strict_bit, is_tsa, MCL_SHIFT, BWG_SHIFT.
  rewrite Z.lor_comm. f_equal.
  - destruct (tsa i); reflexivity.
  - rewrite <- Z.lor_assoc. f_equal. apply Z.lor_comm.
Qed.

Lemma rx_credit_fields :
  credit_fields (Z.lor (Z.lor (Z.lor (refill i) (Z.shiftl (max i) MCL_SHIFT)) (Z.shiftl (bwg_id i) BWG_SHIFT)) (strict_bit tsa i))
    = (refill i, bwg_id i, max i, false, is_tsa (tsa i) tsa_strict).
Proof using Hr Hm Hb.
  rewrite <- credit_fields_sum. f_equal. unfold strict_bit, is_tsa, MCL_SHIFT, BWG_SHIFT.
  rewrite Z.lor_comm. f_equal.
  - destruct (tsa i); reflexivity.
  - rewrite (Z.lor_comm (refill i)), <- Z.lor_assoc. f_equal. apply Z.lor_comm.
Qed.
End Registers.
(** Without a bandwidth group. *)
Lemma no_group_fields refill max tsa i : 0 <= refill i < 2 ^ 9 -> 0 <= max i < 2 ^ 18 ->
  credit_fields (Z.lor (Z.lor (refill i) (Z.shiftl (max i) MCL_SHIFT)) (strict_bit tsa i)) = (refill i, 0, max i, false, is_tsa (tsa i) tsa_strict).
Proof.
  intros Hr Hm. rewrite <- (rx_credit_fields refill max (fun _ => 0) i Hr Hm ltac:(lia) tsa). f_equal. f_equal. by rewrite Z.shiftl_0_l, Z.lor_0_r.
Qed.

Lemma up2tc_fields map up :
  (forall k, 0 <= k < 8 -> 0 <= map k < 8) -> 0 <= up < 8 -> (up2tc_reg map / 2 ^ (3 * up)) mod 8 = map up.
Proof.
  intros Hm Hup. unfold up2tc_reg. change eight with [0; 1; 2; 3; 4; 5; 6; 7]. cbn [foldl].
  pose proof (Hm 0 ltac:(lia)). pose proof (Hm 1 ltac:(lia)). pose proof (Hm 2 ltac:(lia)). pose proof (Hm 3 ltac:(lia)).
  pose proof (Hm 4 ltac:(lia)). pose proof (Hm 5 ltac:(lia)). pose proof (Hm 6 ltac:(lia)). pose proof (Hm 7 ltac:(lia)).
  unfold IXGBE_RTRUP2TC_UP_SHIFT. rewrite Z.lor_0_l, Z.shiftl_0_r.
  assert (forall a b n, 0 <= n -> 0 <= a < 2 ^ n -> Z.lor a (Z.shiftl b n) = b * 2 ^ n + a) as Hadd
    by (intros a b n Hn Ha; rewrite Z.lor_comm; by apply lor_shiftl_add).
  rewrite (Hadd _ (map 1)), (Hadd _ (map 2)), (Hadd _ (map 3)), (Hadd _ (map 4)), (Hadd _ (map 5)), (Hadd _ (map 6)),
    (Hadd _ (map 7)) by lia.
  assert (up = 0 \/ up = 1 \/ up = 2 \/ up = 3 \/ up = 4 \/ up = 5 \/ up = 6 \/ up = 7) as Hc by lia.
  destruct Hc as [-> | [-> | [-> | [-> | [-> | [-> | [-> | ->]]]]]]]; zdm.
Qed.

Create HintDb dcb discriminated.
#[export] Hint Unfold ixgbe_dcb_config_rx_arbiter_82598 ixgbe_dcb_config_tx_desc_arbiter_82598
  ixgbe_dcb_config_tx_data_arbiter_82598 config_pause_time ixgbe_dcb_config_pfc_82598 ixgbe_dcb_config_tc_stats_82598
  ixgbe_dcb_hw_config_82598 ixgbe_dcb_config_rx_arbiter_82599 ixgbe_dcb_config_tx_desc_arbiter_82599
  ixgbe_dcb_config_tx_data_arbiter_82599 ixgbe_dcb_config_pfc_82599 ixgbe_dcb_config_tc_stats_82599
  ixgbe_dcb_config_82599 ixgbe_dcb_hw_config_82599 : dcb.

(** The code ends with the register holding the value. *)
Ltac finish :=
  lazymatch goal with
  | |- ends_with (IXGBE_WRITE_REG _ _) _ _ _ => apply ends_write; try reflexivity
  | |- ends_with (for_each _ _) _ (_ ?i) _ =>
      apply (ends_for_each _ _ _ _ _ i); [by apply in_eight|intros; finish|intros; avoid]
  | |- ends_with (mbind _ _) _ _ _ => first [apply ends_now; [finish|intros; avoid] | apply ends_later; intros; finish]
  | |- ends_with (update_reg _ _ _) _ _ _ => fail
  | |- ends_with (mret _) _ _ _ => fail
  | |- ends_with _ _ _ _ => progress autounfold with dcb; cbv zeta; finish
  end.

(** The highest class in use. *)
Definition max_tc (map : Z -> Z) : Z := foldl (fun m i => if map i >? m then map i else m) 0 eight.

Lemma fold_max_bounds (f : Z -> Z) l m :
  m <= foldl (fun m i => if f i >? m then f i else m) m l /\
  (forall i, In i l -> f i <= foldl (fun m i => if f i >? m then f i else m) m l) /\
  forall b, m <= b -> (forall i, In i l -> f i <= b) -> foldl (fun m i => if f i >? m then f i else m) m l <= b.
Proof.
  revert m. induction l as [|x l IH]; intros m; cbn [foldl]; [split; [lia|split; [intros i []|lia]]|].
  destruct (IH (if f x >? m then f x else m)) as (H1 & H2 & H3). split; [split_ifs; lia|]. split.
  - intros i [<-|Hi]; [split_ifs; lia|by apply H2].
  - intros b Hm Hb. apply H3; [|intros i Hi; apply Hb; by right]. specialize (Hb x (or_introl eq_refl)). split_ifs; lia.
Qed.

Lemma max_tc_bounds map :
  (forall k, 0 <= k < 8 -> 0 <= map k < 8) -> 0 <= max_tc map < 8 /\ forall k, 0 <= k < 8 -> map k <= max_tc map.
Proof.
  intros Hm. destruct (fold_max_bounds map eight 0) as (H1 & H2 & H3). fold (max_tc map) in *. split.
  - split; [done|]. enough (max_tc map <= 7) by lia. apply H3; [lia|]. intros i Hi. apply eight_range in Hi. specialize (Hm i Hi). lia.
  - intros k Hk. by apply H2, in_eight.
Qed.

(** Flow control leaves the credit and mapping registers alone. *)
Lemma pfc_82599_avoids map pfc_en r :
  (forall k, 0 <= k < 8 -> 0 <= map k < 8) -> ~ (0x3200 <= r < 0x3300) -> r <> IXGBE_FCCFG -> r <> IXGBE_MFLCN ->
  avoids (ixgbe_dcb_config_pfc_82599 map pfc_en) r.
Proof.
  intros Hm Hr H1 H2. destruct (max_tc_bounds map Hm) as [Hb _]. unfold ixgbe_dcb_config_pfc_82599. fold (max_tc map). avoid.
Qed.
Lemma pfc_82598_avoids pfc_en r :
  ~ (0x3200 <= r < 0x3300) -> r <> IXGBE_RMCS -> r <> IXGBE_FCTRL -> avoids (ixgbe_dcb_config_pfc_82598 pfc_en) r.
Proof. intros. avoid. Qed.




Lemma ends_get {A} (k : ixgbe_hw -> M A) h r P : ends_with (k h) h r P -> ends_with (x ← get; k x) h r P.
Proof. done. Qed.

Section Finals.
Context (c : dcb_config) (h : ixgbe_hw).
Context (Htc : 0 <= pg_tcs c <= 8).

Lemma map_range k : 0 <= k < 8 -> 0 <= ixgbe_dcb_unpack_map_cee c IXGBE_DCB_TX_CONFIG k < 8.
Proof using Htc. intros Hk. destruct (tc_from_up_spec c IXGBE_DCB_TX_CONFIG k Hk Htc) as [_ [H|[H _]]];
  unfold ixgbe_dcb_unpack_map_cee; lia. Qed.

(** Registers outside the flow control ranges. *)
Definition not_fc (r : Z) : Prop :=
  ~ (0x3200 <= r < 0x3300) /\ r <> IXGBE_FCCFG /\ r <> IXGBE_MFLCN /\ r <> IXGBE_FCTRL.

Lemma config_pfc_avoids pfc_en r : not_fc r -> avoids (ixgbe_dcb_config_pfc (ixgbe_dcb_unpack_map_cee c IXGBE_DCB_TX_CONFIG) pfc_en) r.
Proof using Htc.
  intros (H1 & H2 & H3 & H4). unfold ixgbe_dcb_config_pfc. apply avoids_bind; [apply avoids_get|].
  intros h1. destruct (hw_mac h1); [by apply pfc_82598_avoids|..|apply avoids_ret].
  all: apply pfc_82599_avoids; [apply map_range|done..].
Qed.

Let refill := ixgbe_dcb_unpack_refill_cee c IXGBE_DCB_TX_CONFIG.
Let max := ixgbe_dcb_unpack_max_cee c.
Let bwgid := ixgbe_dcb_unpack_bwgid_cee c IXGBE_DCB_TX_CONFIG.
Let tsas := ixgbe_dcb_unpack_tsa_cee c IXGBE_DCB_TX_CONFIG.
Let up_map := ixgbe_dcb_unpack_map_cee c IXGBE_DCB_TX_CONFIG.

Lemma cee_ends_82599 r v :
  hw_mac h = ixgbe_mac_82599EB \/ hw_mac h = ixgbe_mac_X540 ->
  (forall h', ends (ixgbe_dcb_hw_config_82599 refill max bwgid tsas up_map) h' r v) ->
  not_fc r -> ~ (0x2300 <= r < 0x2380) -> ~ (0x8600 <= r < 0x8680) ->
  ends (ixgbe_dcb_hw_config_cee c) h r v.
Proof using Htc.
  intros Hmac Hv Hr H5 H6. unfold ixgbe_dcb_hw_config_cee. apply ends_now.
  - unfold by_mac. apply ends_get. destruct Hmac as [-> | ->].
    all: apply ends_later; intros _ h1; apply ends_now; [apply Hv|intros; avoid].
  - intros ret. apply avoids_if; [by apply config_pfc_avoids|apply avoids_ret].
Qed.

Lemma cee_ends_82598 r v :
  hw_mac h = ixgbe_mac_82598EB -> (forall h', ends (ixgbe_dcb_hw_config_82598 refill max bwgid tsas) h' r v) ->
  not_fc r -> ends (ixgbe_dcb_hw_config_cee c) h r v.
Proof using Htc.
  intros Hmac Hv Hr. unfold ixgbe_dcb_hw_config_cee. apply ends_now.
  - unfold by_mac. apply ends_get. rewrite Hmac. apply Hv.
  - intros ret. apply avoids_if; [by apply config_pfc_avoids|apply avoids_ret].
Qed.

Ltac cee_finish :=
  intros; first [apply cee_ends_82598; [done| |] | apply cee_ends_82599; [tauto| |..]];
  [intros; finish|try (unfold not_fc; split_and!); reg_neq..].

Lemma cee_final_82598 i :
  hw_mac h = ixgbe_mac_82598EB -> 0 <= i < 8 ->
  ends (ixgbe_dcb_hw_config_cee c) h (IXGBE_TDTQ2TCCR i) (credit_reg refill max bwgid tsas i) /\
  ends (ixgbe_dcb_hw_config_cee c) h (IXGBE_TDPT2TCCR i) (credit_reg refill max bwgid tsas i) /\
  ends (ixgbe_dcb_hw_config_cee c) h (IXGBE_RT2CR i) (Z.lor (Z.lor (refill i) (Z.shiftl (max i) MCL_SHIFT)) (strict_bit tsas i)).
Proof using Htc. intros Hmac Hi. split_and!; cee_finish. Qed.

Lemma cee_final_82599 i :
  hw_mac h = ixgbe_mac_82599EB \/ hw_mac h = ixgbe_mac_X540 -> 0 <= i < 8 ->
  ends (ixgbe_dcb_hw_config_cee c) h (IXGBE_RTTDT2C i) (credit_reg refill max bwgid tsas i) /\
  ends (ixgbe_dcb_hw_config_cee c) h (IXGBE_RTTPT2C i) (credit_reg refill max bwgid tsas i) /\
  ends (ixgbe_dcb_hw_config_cee c) h (IXGBE_RTRPT4C i)
    (Z.lor (Z.lor (Z.lor (refill i) (Z.shiftl (max i) MCL_SHIFT)) (Z.shiftl (bwgid i) BWG_SHIFT)) (strict_bit tsas i)) /\
  ends (ixgbe_dcb_hw_config_cee c) h IXGBE_RTRUP2TC (up2tc_reg up_map) /\
  ends (ixgbe_dcb_hw_config_cee c) h IXGBE_RTTUP2TC (up2tc_reg up_map).
Proof using Htc. intros Hmac Hi. split_and!; cee_finish. Qed.
End Finals.

(** The credits fit their fields. *)
Definition credits_fit (c : dcb_config) : Prop :=
  forall i, 0 <= i < 8 -> 0 <= data_credits_refill (path (tcs c i) IXGBE_DCB_TX_CONFIG) < 2 ^ 9 /\
    0 <= desc_credits_max (tcs c i) < 2 ^ 18 /\ 0 <= bwg_id (path (tcs c i) IXGBE_DCB_TX_CONFIG) < 2 ^ 3.

(** What the registers of class [i] must say; [rx] registers have no group-strict bit. *)
Definition class_fields (c : dcb_config) (rx : bool) (i : Z) : Z * Z * Z * bool * bool :=
  let p := path (tcs c i) IXGBE_DCB_TX_CONFIG in
  (data_credits_refill p, bwg_id p, desc_credits_max (tcs c i),
   negb rx && is_tsa (tsa p) tsa_group_strict_cee, is_tsa (tsa p) tsa_strict).

(** C40. The registers hold the configuration.  When the credits fit their fields, after
    [ixgbe_dcb_hw_config_cee] the transmit credit registers of every traffic class (two sets
    on the 82598, 82599 and X540) decode to the refill credits, the maximum, the bandwidth
    group and the strictness of the class.  The receive credit registers decode to the refill
    credits, the maximum and the strictness, with the bandwidth group on the 82599 and X540
    (RTRPT4C) and with group 0 on the 82598, where the code writes none (RT2CR).  On the 82599
    and X540 the two mapping registers send every priority to the class that
    [ixgbe_dcb_get_tc_from_up] chooses for it; the 82598 has none.  All this whether or not flow
    control is configured afterwards.  On any other adapter no register is touched. *)
Theorem hw_config_cee_registers c h :
  credits_fit c -> 0 <= pg_tcs c <= 8 ->
  let '(r, h') := ixgbe_dcb_hw_config_cee c h in
  let holds rx reg := forall i, 0 <= i < 8 -> credit_fields (last_write (tr h') (reg i)) = class_fields c rx i in
  let maps reg := forall up, 0 <= up < 8 ->
    (last_write (tr h') reg / 2 ^ (3 * up)) mod 8 = ixgbe_dcb_get_tc_from_up c IXGBE_DCB_TX_CONFIG up in
  match hw_mac h with
  | ixgbe_mac_82598EB =>
      holds false IXGBE_TDTQ2TCCR /\ holds false IXGBE_TDPT2TCCR /\
      forall i, 0 <= i < 8 -> let p := path (tcs c i) IXGBE_DCB_TX_CONFIG in
        credit_fields (last_write (tr h') (IXGBE_RT2CR i)) = (data_credits_refill p, 0, desc_credits_max (tcs c i), false, is_tsa (tsa p) tsa_strict)
  | ixgbe_mac_82599EB | ixgbe_mac_X540 =>
      holds true IXGBE_RTRPT4C /\ holds false IXGBE_RTTDT2C /\ holds false IXGBE_RTTPT2C /\
      maps IXGBE_RTRUP2TC /\ maps IXGBE_RTTUP2TC
  | ixgbe_mac_other => r = IXGBE_NOT_IMPLEMENTED /\ tr h' = tr h
  end.
Proof.
  intros Hfit Htc. destruct (ixgbe_dcb_hw_config_cee c h) as [r h'] eqn:E. cbv zeta.
  assert (forall reg v, ends (ixgbe_dcb_hw_config_cee c) h reg v -> last_write (tr h') reg = v) as Hend
    by (intros reg v Hv; unfold ends_with in Hv; by rewrite E in Hv).
  assert (hw_mac h = ixgbe_mac_82599EB \/ hw_mac h = ixgbe_mac_X540 ->
    (forall i, 0 <= i < 8 -> credit_fields (last_write (tr h') (IXGBE_RTRPT4C i)) = class_fields c true i /\
      credit_fields (last_write (tr h') (IXGBE_RTTDT2C i)) = class_fields c false i /\
      credit_fields (last_write (tr h') (IXGBE_RTTPT2C i)) = class_fields c false i) /\
    last_write (tr h') IXGBE_RTRUP2TC = up2tc_reg (ixgbe_dcb_unpack_map_cee c IXGBE_DCB_TX_CONFIG) /\
    last_write (tr h') IXGBE_RTTUP2TC = up2tc_reg (ixgbe_dcb_unpack_map_cee c IXGBE_DCB_TX_CONFIG)) as H99.
  { intros Hmac. split.
    - intros i Hi. destruct (Hfit i Hi) as (? & ? & ?). destruct (cee_final_82599 c h Htc i Hmac Hi) as (F1 & F2 & F3 & _).
      apply Hend in F1 as ->, F2 as ->, F3 as ->. split_and!; [by apply rx_credit_fields|by apply credit_reg_fields..].
    - destruct (cee_final_82599 c h Htc 0 Hmac ltac:(lia)) as (_ & _ & _ & F4 & F5). by apply Hend in F4, F5. }
  destruct (hw_mac h) eqn:Hmac.
  2, 3: (destruct H99 as (H1 & H2 & H3); [by auto|]; rewrite H2, H3; split_and!; try (intros i Hi; by apply (H1 i Hi));
    intros up Hup; apply up2tc_fields; auto using map_range).
  - split_and!; intros i Hi; destruct (Hfit i Hi) as (? & ? & ?); destruct (cee_final_82598 c h Htc i Hmac Hi) as (F1 & F2 & F3);
      apply Hend in F1, F2, F3; [rewrite F1; by apply credit_reg_fields|rewrite F2; by apply credit_reg_fields|rewrite F3; by apply no_group_fields].
  - unfold ixgbe_dcb_hw_config_cee, by_mac in E. revert E. mrun. rewrite Hmac. cbn. by intros [= <- <-].
Qed.

(** *** The order of the writes

    [paused ctl reg off t]: every write of [t] to one of the registers [reg] happens while the
    arbiter is off, that is, after a write to its control register with the disable bit and
    before the next one without. *)
Fixpoint paused (ctl : Z) (reg : Z -> bool) (off : bool) (t : list access) : bool :=
  match t with
  | [] => true
  | Rd _ _ :: t => paused ctl reg off t
  | Wr r v :: t =>
      if r =? ctl then paused ctl reg (Z.testbit v 6) t
      else implb (reg r) off && paused ctl reg off t
  end.

Definition rx_packet_regs (r : Z) : bool := (r =? IXGBE_RTRUP2TC) || existsb (fun i => r =? IXGBE_RTRPT4C i) eight.
Definition tx_packet_regs (r : Z) : bool := (r =? IXGBE_RTTUP2TC) || existsb (fun i => r =? IXGBE_RTTPT2C i) eight.

(** Follow code that only writes. *)
Ltac emits :=
  lazymatch goal with
  | |- emits_writes (mret _) _ _ => apply emits_ret
  | |- emits_writes (IXGBE_WRITE_REG _ _) _ _ => apply emits_write
  | |- emits_writes (if _ then _ else _) _ _ => apply emits_if; emits
  | |- emits_writes (for_each _ _) _ _ => apply emits_for_each; intros; emits
  | |- emits_writes (mbind _ _) _ _ => eapply emits_bind; [emits|cbv beta; emits]
  | |- emits_writes _ _ _ => progress autounfold with dcb; cbv zeta; emits
  end.

(** The packet arbiters are off while they change.  [ixgbe_dcb_hw_config_82599] reads
    nothing; it writes the credits and the mapping of each packet plane only while the
    arbiter of that plane is disabled, and leaves both arbiters enabled. *)
Theorem arbiters_paused refill max bwg_id tsa map h :
  exists w, ixgbe_dcb_hw_config_82599 refill max bwg_id tsa map h = (0, emit w h) /\
    paused IXGBE_RTRPCS rx_packet_regs false w = true /\ paused IXGBE_RTTPCS tx_packet_regs false w = true /\
    Z.testbit (last_write (tr (emit w h)) IXGBE_RTRPCS) 6 = false /\
    Z.testbit (last_write (tr (emit w h)) IXGBE_RTTPCS) 6 = false.
Proof.
  evar (w : list access). assert (emits_writes (ixgbe_dcb_hw_config_82599 refill max bwg_id tsa map) 0 w) as Hw
    by (subst w; emits).
  exists w. split; [apply Hw|]. subst w. unfold emit, tr, set_dev. cbn [hw_dev trace].
  rewrite (last_write_app _ _ IXGBE_RTRPCS), (last_write_app _ _ IXGBE_RTTPCS) by (vm_compute; reflexivity).
  split_and!; vm_compute; reflexivity.
Qed.

(** *** Statistics of the traffic classes *)

(** The counter that queue [q] is assigned to: four queues per register. *)
Definition queue_stat (t : list access) (reg : Z -> Z) (q : Z) : Z := (last_write t (reg (q / 4)) / 2 ^ (8 * (q mod 4))) mod 2 ^ 8.

(** The class of transmit queue [q] when the classes have [sizes] queues. *)
Fixpoint tc_of_queue (sizes : list Z) (q : Z) : Z :=
  match sizes with [] => 0 | s :: sizes => if q <? s then 0 else 1 + tc_of_queue sizes (q - s) end.

Definition rx_queue_tc (c : dcb_config) (q : Z) : option Z :=
  if vt_mode c then Some (q mod 4) else if pg_tcs c =? 8 then Some (q / 16)
  else if q mod 32 <? 16 then Some (q / 32) else None.
Definition tx_queue_tc (c : dcb_config) (q : Z) : Z :=
  if vt_mode c then q mod 4 else if pg_tcs c =? 8 then tc_of_queue [32; 32; 16; 16; 8; 8; 8; 8] q
  else tc_of_queue [64; 32; 16; 16] q.

Definition writes (r : Z) (t : list access) : bool :=
  existsb (fun a => match a with Wr r' _ => r' =? r | Rd _ _ => false end) t.
(** The check of all 128 queues, on the writes of the function alone. *)
Definition stats_ok (w : list access) (rx : Z -> option Z) (tx : Z -> Z) : bool :=
  forallb (fun q =>
    match rx q with
    | Some tc => writes (IXGBE_RQSMR (q / 4)) w && (queue_stat w IXGBE_RQSMR q =? tc)
    | None => negb (writes (IXGBE_RQSMR (q / 4)) w)
    end && writes (IXGBE_TQSM (q / 4)) w && (queue_stat w IXGBE_TQSM q =? tx q)) (seqZ 0 128).

Lemma stats_ok_spec w rx tx h q :
  stats_ok w rx tx = true -> 0 <= q < 128 ->
  match rx q with Some tc => queue_stat (tr (emit w h)) IXGBE_RQSMR q = tc | None => True end /\
  queue_stat (tr (emit w h)) IXGBE_TQSM q = tx q.
Proof.
  intros H Hq. unfold stats_ok in H. rewrite forallb_forall in H.
  specialize (H q ltac:(apply list_elem_of_In, elem_of_seqZ; lia)). unfold emit, set_dev, tr. cbn [hw_dev trace].
  apply andb_true_iff in H as [H H3]. apply andb_true_iff in H as [H1 H2]. unfold queue_stat in *.
  rewrite (last_write_app _ _ _ H2). split; [|by apply Z.eqb_eq]. destruct (rx q); [|done].
  apply andb_true_iff in H1 as [H1 H4]. rewrite (last_write_app _ _ _ H1). by apply Z.eqb_eq.
Qed.

Definition assigns (m : M Z) (rx : Z -> option Z) (tx : Z -> Z) : Prop :=
  exists w, emits_writes m 0 w /\ stats_ok w rx tx = true.

Lemma assigns_spec m rx tx h :
  assigns m rx tx ->
  let '(r, h') := m h in
  r = 0 /\ forall q, 0 <= q < 128 ->
    match rx q with Some tc => queue_stat (tr h') IXGBE_RQSMR q = tc | None => True end /\
    queue_stat (tr h') IXGBE_TQSM q = tx q.
Proof. intros (w & Hw & Hok). rewrite Hw. split; [done|]. intros q Hq. by apply stats_ok_spec. Qed.

(** Class statistics.  For eight classes without and four classes with or without
    virtualisation, [ixgbe_dcb_config_tc_stats_82599] assigns every receive and transmit
    queue in use to the counter of the class it belongs to; for any other configuration it
    returns an error and touches nothing. *)
Theorem tc_stats_assignment c h :
  let '(r, h') := ixgbe_dcb_config_tc_stats_82599 (Some c) h in
  if (pg_tcs c =? 8) && negb (vt_mode c) || (pg_tcs c =? 4) then
    r = 0 /\ forall q, 0 <= q < 128 ->
      match rx_queue_tc c q with Some tc => queue_stat (tr h') IXGBE_RQSMR q = tc | None => True end /\
      queue_stat (tr h') IXGBE_TQSM q = tx_queue_tc c q
  else r = IXGBE_ERR_PARAM /\ h' = h.
Proof.
  unfold ixgbe_dcb_config_tc_stats_82599. cbv zeta.
  assert ((pg_tcs c =? 8) = true -> (pg_tcs c =? 4) = false) as H84 by (intros H; zbool; lia).
  destruct (pg_tcs c =? 8) eqn:E8; [rewrite H84 by reflexivity; clear H84|clear H84; destruct (pg_tcs c =? 4)].
  all: destruct (vt_mode c) eqn:Ev; cbn [negb andb orb].
  all: lazymatch goal with |- context [mret IXGBE_ERR_PARAM] => split; reflexivity | _ => idtac end.
  all: apply assigns_spec; unfold assigns, rx_queue_tc, tx_queue_tc; rewrite Ev, ?E8; eexists; split; [emits|vm_compute; reflexivity].
Qed.

(** *** Flow control per class *)

Lemma unpack_pfc_bit c map j : 0 <= j < 8 ->
  Z.testbit (ixgbe_dcb_unpack_pfc_cee c map) j = bool_decide (pfc (tcs c (map j)) <> pfc_disabled).
Proof.
  intros Hj. unfold ixgbe_dcb_unpack_pfc_cee.
  set (on := fun up => bool_decide (pfc (tcs c (map up)) <> pfc_disabled)).
  assert (forall l m, Forall (fun x => 0 <= x) l ->
    Z.testbit (foldl (fun m up => if on up then Z.lor m (Z.shiftl 1 up) else m) m l) j = Z.testbit m j || (existsb (Z.eqb j) l && on j)) as H.
  { intros l m Hl. revert m. induction Hl as [|x l Hx _ IH]; intros m; cbn [foldl existsb]; [by rewrite orb_false_r|]. rewrite IH.
    destruct (Z.eqb_spec j x) as [->|Hne]; cbn.
    - destruct (on x); [|by rewrite !andb_false_r]. rewrite Z.lor_spec, Z.shiftl_1_l, Z.pow2_bits_true by lia.
      by destruct (Z.testbit m x), (existsb _ l).
    - destruct (on x); [|done]. by rewrite Z.lor_spec, Z.shiftl_1_l, Z.pow2_bits_false, orb_false_r by lia. }
  rewrite H by (apply Forall_forall; intros x Hx; apply list_elem_of_In, eight_range in Hx; lia).
  rewrite Z.bits_0. cbn [orb]. replace (existsb (Z.eqb j) eight) with true; [done|].
  symmetry. apply existsb_exists. exists j. split; [by apply in_eight|apply Z.eqb_refl].
Qed.

Lemma pfc_enabled_tc_spec c map i :
  pfc_enabled_tc map (ixgbe_dcb_unpack_pfc_cee c map) i = true <->
  pfc (tcs c i) <> pfc_disabled /\ exists up, 0 <= up < 8 /\ map up = i.
Proof.
  unfold pfc_enabled_tc. rewrite existsb_exists. split.
  - intros (j & Hj & H). apply eight_range in Hj. apply andb_true_iff in H as [H1 H2]. apply Z.eqb_eq in H1.
    rewrite truthy_land_bit, unpack_pfc_bit, bool_decide_eq_true in H2 by lia. subst i. split; [done|by exists j].
  - intros (Hp & j & Hj & <-). exists j. split; [by apply in_eight|]. rewrite Z.eqb_refl.
    rewrite truthy_land_bit, unpack_pfc_bit by lia. by apply bool_decide_eq_true.
Qed.

Lemma small_bit31 v : 0 <= v < 2 ^ 31 -> Z.testbit v 31 = false.
Proof. intros. rewrite <- (Z.mod_small v (2 ^ 31)) by done. by apply Z.mod_pow2_bits_high. Qed.

Section Pfc.
Context (map : Z -> Z) (pfc_en : Z) (h : ixgbe_hw) (i : Z).
Context (Hmap : forall k, 0 <= k < 8 -> 0 <= map k < 8) (Hi : 0 <= i < 8).
Context (Hsize : forall t j, 0 <= j < 8 -> 32 <= ans h t (IXGBE_RXPBSIZE j) < 2 ^ 31).

(** A class above the highest one in use has no priority. *)
Lemma above_max_tc : max_tc map < i -> pfc_enabled_tc map pfc_en i = false.
Proof using Hmap.
  intros Hlt. destruct (pfc_enabled_tc map pfc_en i) eqn:E; [|done]. unfold pfc_enabled_tc in E.
  apply existsb_exists in E as (j & Hj & E). apply andb_true_iff in E as [E _]. apply Z.eqb_eq in E.
  apply eight_range in Hj. destruct (max_tc_bounds map Hmap) as [_ Hle]. specialize (Hle j Hj). lia.
Qed.

Lemma pfc_82599_threshold :
  ends_with (ixgbe_dcb_config_pfc_82599 map pfc_en) h (IXGBE_FCRTH_82599 i)
    (fun v => Z.testbit v 31 = pfc_enabled_tc map pfc_en i).
Proof using Hmap Hi Hsize.
  destruct (max_tc_bounds map Hmap) as [Hb _]. unfold ixgbe_dcb_config_pfc_82599. fold (max_tc map). apply ends_get. cbv zeta.
  do 3 (apply ends_later_ans; [eauto with regs|]; intros ? ? ?).
  destruct (decide (i <= max_tc map)) as [Hle|Hgt].
  - apply ends_now; [|intros; avoid].
    apply (ends_for_each_ans _ _ _ _ _ i); [apply list_elem_of_In, elem_of_seqZ; lia|intros; eauto 10 with regs| |intros; avoid].
    intros h4 Hh. destruct (pfc_enabled_tc map pfc_en i).
    + apply ends_later. intros _ h2. apply ends_write. unfold xoff_reg. by rewrite Z.lor_spec, orb_true_r.
    + apply ends_read. intros h2 _. apply ends_later. intros _ h3. apply ends_write.
      rewrite Hh. replace (ans _) with (ans h) by congruence. specialize (Hsize (tr h4) i Hi).
      rewrite u32_small by lia. apply small_bit31. lia.
  - apply ends_later. intros _ h1. apply ends_now; [|intros; avoid].
    apply (ends_for_each _ _ _ _ _ i); [apply list_elem_of_In, elem_of_seqZ; lia| |intros; avoid].
    intros h2. apply ends_later. intros _ h3. apply ends_write. by rewrite above_max_tc by lia.
Qed.
End Pfc.

(** Priority flow control.  [ixgbe_dcb_config_pfc_cee] arms the transmit threshold of a
    class exactly when flow control is not disabled for the class and some priority is sent
    to it. The buffer sizes that the adapter reports must be sensible. *)
Theorem pfc_cee_classes c h :
  hw_mac h = ixgbe_mac_82599EB \/ hw_mac h = ixgbe_mac_X540 -> 0 <= pg_tcs c <= 8 ->
  (forall t j, 0 <= j < 8 -> 32 <= ans h t (IXGBE_RXPBSIZE j) < 2 ^ 31) ->
  let '(r, h') := ixgbe_dcb_config_pfc_cee c h in
  r = 0 /\ forall i, 0 <= i < 8 ->
    (Z.testbit (last_write (tr h') (IXGBE_FCRTH_82599 i)) 31 = true <->
     pfc (tcs c i) <> pfc_disabled /\ exists up, 0 <= up < 8 /\ ixgbe_dcb_get_tc_from_up c IXGBE_DCB_TX_CONFIG up = i).
Proof.
  intros Hmac Htc Hsize.
  set (map := ixgbe_dcb_unpack_map_cee c IXGBE_DCB_TX_CONFIG). set (en := ixgbe_dcb_unpack_pfc_cee c map).
  assert (ixgbe_dcb_config_pfc_cee c h = ixgbe_dcb_config_pfc_82599 map en h) as ->
    by (unfold ixgbe_dcb_config_pfc_cee, by_mac; mrun; by destruct Hmac as [-> | ->]).
  pose proof (pfc_82599_threshold map en h) as Hth.
  assert ((ixgbe_dcb_config_pfc_82599 map en h).1 = 0) as Hret by (unfold ixgbe_dcb_config_pfc_82599; mrun; by repeat case_match).
  unfold ends_with in Hth. destruct (ixgbe_dcb_config_pfc_82599 map en h) as [r h']. split; [done|]. intros i Hi.
  specialize (Hth i (map_range c Htc) Hi Hsize). cbn [snd] in Hth. rewrite Hth. apply pfc_enabled_tc_spec.
Qed.

(** *** Witnesses *)
Definition quiet_adapter (mac : mac_type) : ixgbe_hw :=
  Hw mac (MbxOps None None false false None None None) (MbxStats 0 0 0 0 0) 0 0 0 0 (fc0 (fun _ => 128) (fun _ => 64) 0xFFFF) ixgbe_media_type_fiber eeprom0 mac0 addr_ctrl0
    (Dev [] (fun _ _ => 512 * 1024)).

Lemma hw_config_cee_registers_witness :
  let '(_, h') := ixgbe_dcb_hw_config_cee thin_group (quiet_adapter ixgbe_mac_82599EB) in
  credit_fields (last_write (tr h') (IXGBE_RTTPT2C 7)) = (0, 1, 0, false, false) /\
  (last_write (tr h') IXGBE_RTRUP2TC / 2 ^ 15) mod 8 = 5.
Proof.
  pose proof (hw_config_cee_registers thin_group (quiet_adapter ixgbe_mac_82599EB)) as H.
  destruct (ixgbe_dcb_hw_config_cee thin_group _) as [r h']. destruct H as (_ & _ & H & Hm & _).
  - intros i Hi. cbn. split; [lia|]. split; [lia|]. destruct (i <? 6); lia.
  - cbn. lia.
  - split; [apply (H 7); lia|apply (Hm 5); lia].
Defined.

Lemma pfc_cee_classes_witness :
  let '(_, h') := ixgbe_dcb_config_pfc_cee (all_in_group0 (fun _ => 0)) (quiet_adapter ixgbe_mac_X540) in
  Z.testbit (last_write (tr h') (IXGBE_FCRTH_82599 3)) 31 = true.
Proof.
  pose proof (pfc_cee_classes (all_in_group0 (fun _ => 0)) (quiet_adapter ixgbe_mac_X540)) as H.
  destruct (ixgbe_dcb_config_pfc_cee _ _) as [r h']. destruct H as [_ H].
  - right. reflexivity.
  - cbn. lia.
  - intros t j Hj. cbn. lia.
  - apply (H 3); [lia|]. split; [discriminate|]. exists 3. split; [lia|reflexivity].
Defined.
