(* ===== verification/Bits.v ===== *)
(** * Words as vectors of bits

    Byte order conversions of a little-endian host, and functions on words that are linear over
    exclusive or: two such functions that agree on the powers of two agree everywhere
    ([linear_ext]), so hash functions are compared by evaluating them on single bits. *)
From S2P Require Import Prelude.

(** ** Byte order ([htonl], [ntohl], [htons], [ntohs] on a little-endian host) *)
Definition bswap32 (x : Z) : Z :=
  Z.lor (Z.lor (Z.land (Z.shiftl x 24) 0xFF000000) (Z.land (Z.shiftl x 8) 0x00FF0000))
        (Z.lor (Z.land (Z.shiftr x 8) 0x0000FF00) (Z.land (Z.shiftr x 24) 0x000000FF)).
Definition bswap16 (x : Z) : Z := Z.lor (Z.land (Z.shiftl x 8) 0xFF00) (Z.land (Z.shiftr x 8) 0x00FF).
Definition ntohl : Z -> Z := bswap32.
Definition ntohs : Z -> Z := bswap16.
Definition htons : Z -> Z := bswap16.

(** ** Linear functions *)
Definition linear (f : Z -> Z) : Prop := forall x y, f (Z.lxor x y) = Z.lxor (f x) (f y).

Section Linear.
Context (f g : Z -> Z).

Lemma linear_id : linear (fun x => x).
Proof. done. Qed.
Lemma linear_0 : linear (fun _ => 0).
Proof. done. Qed.
Lemma linear_lxor : linear f -> linear g -> linear (fun x => Z.lxor (f x) (g x)).
Proof.
  intros Hf Hg x y. rewrite Hf, Hg, !Z.lxor_assoc. f_equal.
  rewrite <- !Z.lxor_assoc. f_equal. apply Z.lxor_comm.
Qed.
Lemma linear_land c : linear f -> linear (fun x => Z.land (f x) c).
Proof.
  intros Hf x y. rewrite Hf. apply Z.bits_inj'. intros i Hi.
  rewrite !Z.land_spec, !Z.lxor_spec, !Z.land_spec.
  by destruct (Z.testbit (f x) i), (Z.testbit (f y) i), (Z.testbit c i).
Qed.
Lemma linear_shiftl n : linear f -> linear (fun x => Z.shiftl (f x) n).
Proof. intros Hf x y. by rewrite Hf, Z.shiftl_lxor. Qed.
Lemma linear_shiftr n : linear f -> linear (fun x => Z.shiftr (f x) n).
Proof. intros Hf x y. by rewrite Hf, Z.shiftr_lxor. Qed.
Lemma linear_if (b : bool) : linear f -> linear g -> linear (fun x => if b then f x else g x).
Proof. by destruct b. Qed.
(** A disjunction of words without common bits. *)
Lemma linear_lor : linear f -> linear g -> (forall x, Z.land (f x) (g x) = 0) -> linear (fun x => Z.lor (f x) (g x)).
Proof. intros Hf Hg Hd x y. rewrite <- !Z.lxor_lor by apply Hd. by apply linear_lxor. Qed.
Lemma linear_mod n : 0 <= n -> linear f -> linear (fun x => f x mod 2 ^ n).
Proof. intros Hn Hf x y. rewrite <- !Z.land_ones by done. by apply linear_land. Qed.
Lemma linear_comp : linear f -> linear g -> linear (fun x => f (g x)).
Proof. intros Hf Hg x y. by rewrite Hg, Hf. Qed.
End Linear.

Lemma linear_u32 f : linear f -> linear (fun x => u32 (f x)).
Proof. by apply (linear_mod f 32). Qed.

Lemma linear_at_0 f : linear f -> f 0 = 0.
Proof. intros Hf. specialize (Hf 0 0). rewrite !Z.lxor_nilpotent in Hf. done. Qed.

(** Words are sums of single bits. *)
Lemma word_top n x : 0 <= n -> 0 <= x < 2 ^ (n + 1) ->
  x = Z.lxor (x mod 2 ^ n) (if Z.testbit x n then 2 ^ n else 0).
Proof.
  intros Hn Hx. apply Z.bits_inj'. intros i Hi. rewrite Z.lxor_spec.
  assert (Hp : forall b : bool, Z.testbit (if b then 2 ^ n else 0) i = b && (n =? i)%Z).
  { intros []; [rewrite Z.pow2_bits_eqb by done; done|apply Z.bits_0]. }
  rewrite Hp. destruct (Z.eqb_spec n i) as [->|Hni].
  - rewrite Z.mod_pow2_bits_high by lia. by destruct (Z.testbit x i).
  - rewrite andb_false_r, xorb_false_r. destruct (decide (i < n)); [by rewrite Z.mod_pow2_bits_low|].
    rewrite Z.mod_pow2_bits_high by lia. rewrite <- (Z.mod_small x (2 ^ (n + 1))) by done.
    apply Z.mod_pow2_bits_high. lia.
Qed.

Definition agree_on_bits (f g : Z -> Z) (n : nat) : bool :=
  forallb (fun i => f (2 ^ Z.of_nat i) =? g (2 ^ Z.of_nat i)) (seq 0 n).

Lemma linear_ext f g n x :
  linear f -> linear g -> agree_on_bits f g n = true -> 0 <= x < 2 ^ Z.of_nat n -> f x = g x.
Proof.
  intros Hf Hg. revert x. induction n as [|n IH]; intros x Ha Hx.
  - replace x with 0 by (simpl in Hx; lia). by rewrite !linear_at_0.
  - unfold agree_on_bits in Ha, IH. rewrite seq_S, forallb_app in Ha. apply andb_true_iff in Ha as [Ha Hn].
    rewrite (word_top (Z.of_nat n) x), Hf, Hg by (rewrite ?Nat2Z.inj_succ in *; lia). f_equal.
    + apply IH; [done|]. apply Z.mod_pos_bound. lia.
    + destruct (Z.testbit x (Z.of_nat n)); [|by rewrite !linear_at_0].
      simpl in Hn. rewrite andb_true_r in Hn. by apply Z.eqb_eq in Hn.
Qed.

(** ** Masks *)
Lemma land_disjoint a b c d : Z.land c d = 0 -> Z.land (Z.land a c) (Z.land b d) = 0.
Proof.
  intros H. apply Z.bits_inj'. intros i Hi. apply (f_equal (fun z => Z.testbit z i)) in H.
  rewrite !Z.land_spec, Z.bits_0 in *. destruct (Z.testbit c i), (Z.testbit d i); [done| | |];
    by rewrite ?andb_false_r.
Qed.

Lemma land_bounds a c n : 0 <= n -> 0 <= c < 2 ^ n -> 0 <= Z.land a c < 2 ^ n.
Proof.
  intros Hn Hc. rewrite <- (Z.mod_small c (2 ^ n)), <- Z.land_ones, Z.land_assoc, Z.land_ones by done.
  apply Z.mod_pos_bound. lia.
Qed.
Lemma lor_bounds a b n : 0 <= n -> 0 <= a < 2 ^ n -> 0 <= b < 2 ^ n -> 0 <= Z.lor a b < 2 ^ n.
Proof.
  intros Hn Ha Hb. replace (Z.lor a b) with (Z.lor a b mod 2 ^ n); [apply Z.mod_pos_bound; lia|].
  rewrite <- Z.land_ones, Z.land_lor_distr_l, !Z.land_ones, !Z.mod_small by lia. done.
Qed.
Lemma lxor_bounds a b n : 0 <= n -> 0 <= a < 2 ^ n -> 0 <= b < 2 ^ n -> 0 <= Z.lxor a b < 2 ^ n.
Proof.
  intros Hn Ha Hb. replace (Z.lxor a b) with (Z.lxor a b mod 2 ^ n); [apply Z.mod_pos_bound; lia|].
  rewrite (linear_mod (fun x => x) n Hn linear_id a b), !Z.mod_small by lia. done.
Qed.

Create HintDb bits discriminated.
#[export] Hint Resolve linear_id linear_0 linear_lxor linear_land linear_shiftl linear_shiftr linear_if linear_u32 linear_mod : bits.
#[export] Hint Extern 5 (_ <= _) => lia : bits.

Lemma bswap32_linear : linear bswap32.
Proof.
  unfold bswap32. apply linear_lor; [apply linear_lor|apply linear_lor|]; auto with bits.
  1,2: intros x; by apply land_disjoint.
  intros x. rewrite !Z.land_lor_distr_l, !Z.land_lor_distr_r, !land_disjoint by done. done.
Qed.
Lemma bswap16_linear : linear bswap16.
Proof. unfold bswap16. apply linear_lor; auto with bits. intros x. by apply land_disjoint. Qed.

Lemma bswap32_range x : 0 <= bswap32 x < 2 ^ 32.
Proof. unfold bswap32. repeat apply lor_bounds; try lia; apply land_bounds; lia. Qed.
Lemma bswap16_range x : 0 <= bswap16 x < 2 ^ 16.
Proof. unfold bswap16. apply lor_bounds; try lia; apply land_bounds; lia. Qed.

(** Converting twice gives the word back. *)
Lemma bswap32_involutive x : 0 <= x < 2 ^ 32 -> bswap32 (bswap32 x) = x.
Proof.
  intros Hx. apply (linear_ext (fun x => bswap32 (bswap32 x)) (fun x => x) 32);
    [apply linear_comp; apply bswap32_linear|done|by vm_compute|done].
Qed.
Lemma bswap16_involutive x : 0 <= x < 2 ^ 16 -> bswap16 (bswap16 x) = x.
Proof.
  intros Hx. apply (linear_ext (fun x => bswap16 (bswap16 x)) (fun x => x) 16);
    [apply linear_comp; apply bswap16_linear|done|by vm_compute|done].
Qed.

(** ** Functions that commute with disjunction

    Shifts, masks and disjunctions of them; they too are determined by single bits. *)
Definition orlinear (f : Z -> Z) : Prop := f 0 = 0 /\ forall x y, f (Z.lor x y) = Z.lor (f x) (f y).

Section Orlinear.
Context (f g : Z -> Z).
Lemma orlinear_id : orlinear (fun x => x).
Proof. done. Qed.
Lemma orlinear_lor : orlinear f -> orlinear g -> orlinear (fun x => Z.lor (f x) (g x)).
Proof.
  intros [Hf0 Hf] [Hg0 Hg]. split; [by rewrite Hf0, Hg0|]. intros x y. rewrite Hf, Hg, !Z.lor_assoc. f_equal.
  rewrite <- !Z.lor_assoc. f_equal. apply Z.lor_comm.
Qed.
Lemma orlinear_land c : orlinear f -> orlinear (fun x => Z.land (f x) c).
Proof. intros [Hf0 Hf]. split; [by rewrite Hf0|]. intros x y. by rewrite Hf, Z.land_lor_distr_l. Qed.
Lemma orlinear_shiftl n : orlinear f -> orlinear (fun x => Z.shiftl (f x) n).
Proof. intros [Hf0 Hf]. split; [by rewrite Hf0, Z.shiftl_0_l|]. intros x y. by rewrite Hf, Z.shiftl_lor. Qed.
Lemma orlinear_shiftr n : orlinear f -> orlinear (fun x => Z.shiftr (f x) n).
Proof. intros [Hf0 Hf]. split; [by rewrite Hf0, Z.shiftr_0_l|]. intros x y. by rewrite Hf, Z.shiftr_lor. Qed.
Lemma orlinear_mod n : 0 <= n -> orlinear f -> orlinear (fun x => f x mod 2 ^ n).
Proof.
  intros Hn [Hf0 Hf]. split; [by rewrite Hf0|]. intros x y. rewrite Hf, <- !Z.land_ones by done. apply Z.land_lor_distr_l.
Qed.
Lemma orlinear_comp : orlinear f -> orlinear g -> orlinear (fun x => f (g x)).
Proof. intros [Hf0 Hf] [Hg0 Hg]. split; [by rewrite Hg0|]. intros x y. by rewrite Hg, Hf. Qed.
End Orlinear.

Lemma orlinear_u32 f : orlinear f -> orlinear (fun x => u32 (f x)).
Proof. by apply (orlinear_mod f 32). Qed.
Lemma orlinear_u16 f : orlinear f -> orlinear (fun x => u16 (f x)).
Proof. by apply (orlinear_mod f 16). Qed.

Lemma orlinear_ext f g n x :
  orlinear f -> orlinear g -> agree_on_bits f g n = true -> 0 <= x < 2 ^ Z.of_nat n -> f x = g x.
Proof.
  intros [Hf0 Hf] [Hg0 Hg]. revert x. induction n as [|n IH]; intros x Ha Hx.
  - replace x with 0 by (simpl in Hx; lia). congruence.
  - unfold agree_on_bits in Ha, IH. rewrite seq_S, forallb_app in Ha. apply andb_true_iff in Ha as [Ha Hn].
    rewrite (word_top (Z.of_nat n) x), Z.lxor_lor, Hf, Hg.
    2:{ apply Z.bits_inj'. intros i Hi. rewrite Z.land_spec, Z.bits_0. destruct (Z.testbit x _); [|by rewrite Z.bits_0, andb_false_r].
        rewrite Z.pow2_bits_eqb by lia. destruct (Z.eqb_spec (Z.of_nat n) i) as [<-|]; [|apply andb_false_r].
        by rewrite Z.mod_pow2_bits_high by lia. }
    2,3: rewrite ?Nat2Z.inj_succ in *; lia.
    f_equal.
    + apply IH; [done|]. apply Z.mod_pos_bound. lia.
    + destruct (Z.testbit x (Z.of_nat n)); [|congruence].
      simpl in Hn. rewrite andb_true_r in Hn. by apply Z.eqb_eq in Hn.
Qed.

#[export] Hint Resolve orlinear_id orlinear_lor orlinear_land orlinear_shiftl orlinear_shiftr orlinear_u32 orlinear_u16 : bits.

Lemma orlinear_bswap16 f : orlinear f -> orlinear (fun x => bswap16 (f x)).
Proof. intros Hf. unfold bswap16. auto 6 with bits. Qed.
Lemma orlinear_bswap32 f : orlinear f -> orlinear (fun x => bswap32 (f x)).
Proof. intros Hf. unfold bswap32. auto 8 with bits. Qed.
#[export] Hint Resolve orlinear_bswap16 orlinear_bswap32 : bits.

(** Decide an equation between two such functions of a word. *)
Ltac by_bits n f g :=
  apply (orlinear_ext f g n); [autounfold with bits; auto 20 with bits|autounfold with bits; auto 20 with bits|by vm_compute|done].
#[export] Hint Unfold ntohl ntohs htons : bits.

(** Words in separate halves. *)
Lemma lxor_shiftl_lor a x n : 0 <= n -> 0 <= x < 2 ^ n -> Z.lxor (Z.shiftl a n) x = Z.lor (Z.shiftl a n) x.
Proof.
  intros Hn Hx. apply Z.lxor_lor, Z.bits_inj'. intros i Hi. rewrite Z.land_spec, Z.bits_0.
  destruct (decide (i < n)); [by rewrite Z.shiftl_spec_low|].
  rewrite <- (Z.mod_small x (2 ^ n)), Z.mod_pow2_bits_high by lia. apply andb_false_r.
Qed.
