(* ===== verification/FlowDir.v ===== *)
(** * Flow director: hashes and filters ([ixgbe_82599.c], [ixgbe_atr] of [ixgbe_main.c])

    The adapter steers packets by filters whose place in its table is a hash of the packet's
    addresses. The driver computes the same hash in software, unrolled and with both keys at
    once; [ref_hash] is the plain definition, bit by bit over the whole input, and
    [sig_hash_correct] and [perfect_hash_correct] show that the optimised code computes it. *)
From S2P Require Import Prelude Bits Hw.

(** ** Constants *)
Definition IXGBE_ATR_BUCKET_HASH_KEY : Z := 0x3DAD14E2.
Definition IXGBE_ATR_SIGNATURE_HASH_KEY : Z := 0x174D3614.
Definition IXGBE_ATR_HASH_MASK : Z := 0x7fff.
Definition IXGBE_ATR_L4TYPE_MASK : Z := 0x3.
Definition IXGBE_ATR_L4TYPE_IPV6_MASK : Z := 0x4.
Definition IXGBE_ATR_FLOW_TYPE_IPV4 : Z := 0x0.
Definition IXGBE_ATR_FLOW_TYPE_UDPV4 : Z := 0x1.
Definition IXGBE_ATR_FLOW_TYPE_TCPV4 : Z := 0x2.
Definition IXGBE_ATR_FLOW_TYPE_SCTPV4 : Z := 0x3.
Definition IXGBE_ATR_FLOW_TYPE_IPV6 : Z := 0x4.
Definition IXGBE_ATR_FLOW_TYPE_UDPV6 : Z := 0x5.
Definition IXGBE_ATR_FLOW_TYPE_TCPV6 : Z := 0x6.
Definition IXGBE_ATR_FLOW_TYPE_SCTPV6 : Z := 0x7.

(** ** [union ixgbe_atr_input]: eleven dwords of memory, read on a little-endian host *)
Definition atr_input := list Z.
Definition dword (i : nat) (d : atr_input) : Z := nth i d 0.
Definition vm_pool (d : atr_input) : Z := Z.land (dword 0 d) 0xFF.
Definition flow_type (d : atr_input) : Z := Z.land (Z.shiftr (dword 0 d) 8) 0xFF.
Definition vlan_id (d : atr_input) : Z := Z.shiftr (dword 0 d) 16.
Definition dst_ip (i : nat) (d : atr_input) : Z := dword (1 + i) d.
Definition src_ip (i : nat) (d : atr_input) : Z := dword (5 + i) d.
Definition src_port (d : atr_input) : Z := Z.land (dword 9 d) 0xFFFF.
Definition dst_port (d : atr_input) : Z := Z.shiftr (dword 9 d) 16.
Definition flex_bytes (d : atr_input) : Z := Z.land (dword 10 d) 0xFFFF.
Definition bkt_hash (d : atr_input) : Z := Z.shiftr (dword 10 d) 16.
Definition set_bkt_hash (v : Z) (d : atr_input) : atr_input := <[10%nat := flex_bytes d + v * 2 ^ 16]> d.
Definition set_flow_type (v : Z) (d : atr_input) : atr_input :=
  <[0%nat := vm_pool d + v * 2 ^ 8 + vlan_id d * 2 ^ 16]> d.

(** Eleven 32-bit words. *)
Definition atr_ok (d : atr_input) : Prop := length d = 11%nat /\ Forall (fun w => 0 <= w < 2 ^ 32) d.

(** ** The signature hash *)
Definition IXGBE_ATR_COMMON_HASH_KEY : Z := Z.land IXGBE_ATR_BUCKET_HASH_KEY IXGBE_ATR_SIGNATURE_HASH_KEY.

(** [(common_hash, bucket_hash, sig_hash)] *)
Definition IXGBE_COMPUTE_SIG_HASH_ITERATION (n lo_hash_dword hi_hash_dword : Z) (st : Z * Z * Z) : Z * Z * Z :=
  let '(common_hash, bucket_hash, sig_hash) := st in
  let '(common_hash, bucket_hash, sig_hash) :=
    if truthy (Z.land IXGBE_ATR_COMMON_HASH_KEY (u32 (Z.shiftl 0x01 n))) then
      (Z.lxor common_hash (Z.shiftr lo_hash_dword n), bucket_hash, sig_hash)
    else if truthy (Z.land IXGBE_ATR_BUCKET_HASH_KEY (u32 (Z.shiftl 0x01 n))) then
      (common_hash, Z.lxor bucket_hash (Z.shiftr lo_hash_dword n), sig_hash)
    else if truthy (Z.land IXGBE_ATR_SIGNATURE_HASH_KEY (u32 (Z.shiftl 0x01 n))) then
      (common_hash, bucket_hash, Z.lxor sig_hash (u32 (Z.shiftl lo_hash_dword (16 - n))))
    else (common_hash, bucket_hash, sig_hash) in
  if truthy (Z.land IXGBE_ATR_COMMON_HASH_KEY (u32 (Z.shiftl 0x01 (n + 16)))) then
    (Z.lxor common_hash (Z.shiftr hi_hash_dword n), bucket_hash, sig_hash)
  else if truthy (Z.land IXGBE_ATR_BUCKET_HASH_KEY (u32 (Z.shiftl 0x01 (n + 16)))) then
    (common_hash, Z.lxor bucket_hash (Z.shiftr hi_hash_dword n), sig_hash)
  else if truthy (Z.land IXGBE_ATR_SIGNATURE_HASH_KEY (u32 (Z.shiftl 0x01 (n + 16)))) then
    (common_hash, bucket_hash, Z.lxor sig_hash (u32 (Z.shiftl hi_hash_dword (16 - n))))
  else (common_hash, bucket_hash, sig_hash).

Definition remaining_bits : list Z := [1; 2; 3; 4; 5; 6; 7; 8; 9; 10; 11; 12; 13; 14; 15].

Definition ixgbe_atr_compute_sig_hash_82599 (input common : Z) : Z :=
  let flow_vm_vlan := ntohl input in
  let hi_hash_dword := ntohl common in
  let lo_hash_dword := Z.lor (Z.shiftr hi_hash_dword 16) (u32 (Z.shiftl hi_hash_dword 16)) in
  let hi_hash_dword := Z.lxor hi_hash_dword (Z.lxor flow_vm_vlan (Z.shiftr flow_vm_vlan 16)) in
  let st := IXGBE_COMPUTE_SIG_HASH_ITERATION 0 lo_hash_dword hi_hash_dword (0, 0, 0) in
  let lo_hash_dword := Z.lxor lo_hash_dword (Z.lxor flow_vm_vlan (u32 (Z.shiftl flow_vm_vlan 16))) in
  let '(common_hash, bucket_hash, sig_hash) :=
    foldl (fun st n => IXGBE_COMPUTE_SIG_HASH_ITERATION n lo_hash_dword hi_hash_dword st) st remaining_bits in
  let bucket_hash := Z.land (Z.lxor bucket_hash common_hash) IXGBE_ATR_HASH_MASK in
  let sig_hash := Z.land (Z.lxor sig_hash (u32 (Z.shiftl common_hash 16))) (Z.shiftl IXGBE_ATR_HASH_MASK 16) in
  Z.lxor sig_hash bucket_hash.

(** ** The perfect-match hash *)
Definition IXGBE_COMPUTE_BKT_HASH_ITERATION (n lo_hash_dword hi_hash_dword bucket_hash : Z) : Z :=
  let bucket_hash :=
    if truthy (Z.land IXGBE_ATR_BUCKET_HASH_KEY (u32 (Z.shiftl 0x01 n))) then Z.lxor bucket_hash (Z.shiftr lo_hash_dword n)
    else bucket_hash in
  if truthy (Z.land IXGBE_ATR_BUCKET_HASH_KEY (u32 (Z.shiftl 0x01 (n + 16)))) then
    Z.lxor bucket_hash (Z.shiftr hi_hash_dword n)
  else bucket_hash.

(** The dwords 1 to 10 combined. *)
Definition xor_dwords (d : atr_input) : Z :=
  Z.lxor (Z.lxor (Z.lxor (Z.lxor (Z.lxor (Z.lxor (Z.lxor (Z.lxor (Z.lxor (dword 1 d) (dword 2 d)) (dword 3 d))
    (dword 4 d)) (dword 5 d)) (dword 6 d)) (dword 7 d)) (dword 8 d)) (dword 9 d)) (dword 10 d).

Definition ixgbe_atr_compute_perfect_hash_82599 (input input_mask : atr_input) : atr_input :=
  let input := zip_with Z.land input input_mask in
  let flow_vm_vlan := ntohl (dword 0 input) in
  let hi_hash_dword := ntohl (xor_dwords input) in
  let lo_hash_dword := Z.lor (Z.shiftr hi_hash_dword 16) (u32 (Z.shiftl hi_hash_dword 16)) in
  let hi_hash_dword := Z.lxor hi_hash_dword (Z.lxor flow_vm_vlan (Z.shiftr flow_vm_vlan 16)) in
  let bucket_hash := IXGBE_COMPUTE_BKT_HASH_ITERATION 0 lo_hash_dword hi_hash_dword 0 in
  let lo_hash_dword := Z.lxor lo_hash_dword (Z.lxor flow_vm_vlan (u32 (Z.shiftl flow_vm_vlan 16))) in
  let bucket_hash :=
    foldl (fun b n => IXGBE_COMPUTE_BKT_HASH_ITERATION n lo_hash_dword hi_hash_dword b) bucket_hash remaining_bits in
  set_bkt_hash (Z.land bucket_hash 0x1FFF) input.

(** ** The hash defined bit by bit

    The input is one 336-bit number [S]: the dwords 0 to 10 in network order, most significant
    first, without the 16 bits of [bkt_hash]. The hash runs over [S] with a copy of dword 0 below it:
    a window of 15 bits slides upwards from bit 1, and the window at position [p] counts when bit [p]
    of the repeated key is set. *)
Definition be_number (ws : list Z) : Z := foldl (fun acc w => acc * 2 ^ 32 + w) 0 ws.
Definition hash_stream (d : atr_input) : Z :=
  ntohl (dword 0 d) + Z.shiftr (be_number (map ntohl d)) 16 * 2 ^ 32.
Fixpoint ref_windows (key : Z) (windows : nat) (p stream : Z) : Z :=
  match windows with
  | O => 0
  | S w =>
      let rest := ref_windows key w (p + 1) (Z.shiftr stream 1) in
      if Z.testbit key (p mod 32) then Z.lxor (Z.land stream 0x7FFF) rest else rest
  end.
Definition ref_hash (key stream : Z) : Z := ref_windows key 351 1 (Z.shiftr stream 1).

(** ** The optimised hashes are linear *)
Section Hashes.

Definition tlxor (s t : Z * Z * Z) : Z * Z * Z := (Z.lxor s.1.1 t.1.1, Z.lxor s.1.2 t.1.2, Z.lxor s.2 t.2).

Lemma lxor_swap a b c d : Z.lxor (Z.lxor a b) (Z.lxor c d) = Z.lxor (Z.lxor a c) (Z.lxor b d).
Proof. rewrite !Z.lxor_assoc. f_equal. rewrite <- !Z.lxor_assoc. f_equal. apply Z.lxor_comm. Qed.

Lemma lxor_swap3 a b c d e f :
  Z.lxor (Z.lxor (Z.lxor a b) (Z.lxor c d)) (Z.lxor e f) = Z.lxor (Z.lxor (Z.lxor a c) e) (Z.lxor (Z.lxor b d) f).
Proof. by rewrite (lxor_swap a), (lxor_swap (Z.lxor a c)). Qed.

Lemma u32_lxor a b : u32 (Z.lxor a b) = Z.lxor (u32 a) (u32 b).
Proof. apply (linear_u32 (fun x => x)). done. Qed.

Lemma sig_iteration_linear n lo lo' hi hi' s t :
  IXGBE_COMPUTE_SIG_HASH_ITERATION n (Z.lxor lo lo') (Z.lxor hi hi') (tlxor s t) =
  tlxor (IXGBE_COMPUTE_SIG_HASH_ITERATION n lo hi s) (IXGBE_COMPUTE_SIG_HASH_ITERATION n lo' hi' t).
Proof.
  destruct s as [[c b] g], t as [[c' b'] g']. unfold IXGBE_COMPUTE_SIG_HASH_ITERATION, tlxor. cbn.
  split_ifs; cbn; rewrite ?Z.shiftr_lxor, ?Z.shiftl_lxor, ?u32_lxor;
    repeat match goal with |- (_, _) = (_, _) => apply f_equal2 end; try done; first [apply lxor_swap3|apply lxor_swap].
Qed.

Lemma bkt_iteration_linear n lo lo' hi hi' b b' :
  IXGBE_COMPUTE_BKT_HASH_ITERATION n (Z.lxor lo lo') (Z.lxor hi hi') (Z.lxor b b') =
  Z.lxor (IXGBE_COMPUTE_BKT_HASH_ITERATION n lo hi b) (IXGBE_COMPUTE_BKT_HASH_ITERATION n lo' hi' b').
Proof.
  unfold IXGBE_COMPUTE_BKT_HASH_ITERATION. split_ifs; rewrite ?Z.shiftr_lxor; try done; first [apply lxor_swap3|apply lxor_swap].
Qed.

(** The two functions after the byte order conversions, on [flow_vm_vlan] and the combined dword. *)
Definition word_swap (c : Z) : Z := Z.lxor (Z.shiftr c 16) (u32 (Z.shiftl c 16)).
Definition lo_words (f c : Z) : Z := Z.lxor (word_swap c) (Z.lxor f (u32 (Z.shiftl f 16))).
Definition hi_words (f c : Z) : Z := Z.lxor c (Z.lxor f (Z.shiftr f 16)).
Definition sig_words (f c : Z) : Z * Z * Z :=
  foldl (fun st n => IXGBE_COMPUTE_SIG_HASH_ITERATION n (lo_words f c) (hi_words f c) st)
    (IXGBE_COMPUTE_SIG_HASH_ITERATION 0 (word_swap c) (hi_words f c) (0, 0, 0)) remaining_bits.
Definition sig_result (st : Z * Z * Z) : Z :=
  Z.lxor (Z.land (Z.lxor st.2 (u32 (Z.shiftl st.1.1 16))) (Z.shiftl IXGBE_ATR_HASH_MASK 16))
         (Z.land (Z.lxor st.1.2 st.1.1) IXGBE_ATR_HASH_MASK).
Definition sig_fun (f c : Z) : Z := sig_result (sig_words f c).
Definition bkt_fun (f c : Z) : Z :=
  Z.land (foldl (fun b n => IXGBE_COMPUTE_BKT_HASH_ITERATION n (lo_words f c) (hi_words f c) b)
    (IXGBE_COMPUTE_BKT_HASH_ITERATION 0 (word_swap c) (hi_words f c) 0) remaining_bits) 0x1FFF.

Lemma word_swap_linear : linear word_swap.
Proof. unfold word_swap. auto 6 with bits. Qed.
Lemma lo_words_linear f f' c c' : lo_words (Z.lxor f f') (Z.lxor c c') = Z.lxor (lo_words f c) (lo_words f' c').
Proof. unfold lo_words. rewrite word_swap_linear, Z.shiftl_lxor, u32_lxor, (lxor_swap f). apply lxor_swap. Qed.
Lemma hi_words_linear f f' c c' : hi_words (Z.lxor f f') (Z.lxor c c') = Z.lxor (hi_words f c) (hi_words f' c').
Proof. unfold hi_words. rewrite Z.shiftr_lxor, (lxor_swap f). apply lxor_swap. Qed.

Lemma fold_linear {A} (op : A -> A -> A) (F F1 F2 : A -> Z -> A) l s t :
  (forall n s t, F (op s t) n = op (F1 s n) (F2 t n)) -> foldl F (op s t) l = op (foldl F1 s l) (foldl F2 t l).
Proof. intros H. revert s t. induction l as [|n l IH]; intros s t; cbn; [done|]. rewrite H. apply IH. Qed.

Lemma sig_fun_linear f f' c c' : sig_fun (Z.lxor f f') (Z.lxor c c') = Z.lxor (sig_fun f c) (sig_fun f' c').
Proof.
  unfold sig_fun, sig_words. rewrite lo_words_linear, hi_words_linear, word_swap_linear.
  change (0, 0, 0) with (tlxor (0, 0, 0) (0, 0, 0)) at 1. rewrite sig_iteration_linear, (fold_linear tlxor _ _ _ _ _ _
    (fun n s t => sig_iteration_linear n _ _ _ _ s t)).
  generalize (foldl (fun st n => IXGBE_COMPUTE_SIG_HASH_ITERATION n (lo_words f c) (hi_words f c) st)
    (IXGBE_COMPUTE_SIG_HASH_ITERATION 0 (word_swap c) (hi_words f c) (0, 0, 0)) remaining_bits).
  intros [[a b] g]. destruct (foldl _ _ _) as [[a' b'] g']. unfold sig_result, tlxor. cbn.
  rewrite Z.shiftl_lxor, u32_lxor, (lxor_swap g), (lxor_swap b), !(linear_land (fun x => x) _ linear_id). apply lxor_swap.
Qed.

Lemma bkt_fun_linear f f' c c' : bkt_fun (Z.lxor f f') (Z.lxor c c') = Z.lxor (bkt_fun f c) (bkt_fun f' c').
Proof.
  unfold bkt_fun. rewrite lo_words_linear, hi_words_linear, word_swap_linear.
  rewrite (bkt_iteration_linear 0 _ _ _ _ 0 0 : IXGBE_COMPUTE_BKT_HASH_ITERATION 0 _ _ 0 = _), (fold_linear Z.lxor _ _ _ _ _ _
    (fun n s t => bkt_iteration_linear n _ _ _ _ s t)).
  by rewrite (linear_land (fun x => x) _ linear_id).
Qed.
End Hashes.

(** ** The optimised hashes against the definition *)
Section Reference.

Lemma ref_windows_linear key w p : linear (ref_windows key w p).
Proof.
  revert p. induction w as [|w IH]; intros p s t; cbn; [done|]. rewrite Z.shiftr_lxor, !(IH (p + 1)).
  destruct (Z.testbit key _); [|done]. rewrite (linear_land (fun x => x) _ linear_id). apply lxor_swap.
Qed.
Lemma ref_hash_linear key : linear (ref_hash key).
Proof. apply (linear_comp _ (fun s => Z.shiftr s 1)); [apply ref_windows_linear|]. by apply linear_shiftr. Qed.

(** Word [k] from the end of the stream, alone. *)
Definition place (k : nat) (w : Z) : Z := Z.shiftl (Z.shiftr (Nat.iter k (fun a => Z.shiftl a 32) w) 16) 32.
Definition be_xor (ws : list Z) : Z := foldl (fun acc w => Z.lxor (Z.shiftl acc 32) w) 0 ws.

Lemma iter_shift_linear k : linear (Nat.iter k (fun a => Z.shiftl a 32)).
Proof. induction k as [|k IH]; [apply linear_id|]. cbn. by apply (linear_shiftl _ 32). Qed.
Lemma place_linear k : linear (place k).
Proof. apply (linear_shiftl (fun w => Z.shiftr _ 16) 32), (linear_shiftr _ 16), iter_shift_linear. Qed.

Lemma be_xor_cons w ws : be_xor (w :: ws) = Z.lxor (Nat.iter (length ws) (fun a => Z.shiftl a 32) w) (be_xor ws).
Proof.
  unfold be_xor. cbn [foldl]. rewrite Z.shiftl_0_l, Z.lxor_0_l. revert w.
  induction ws as [|v ws IH] using rev_ind; intros w; cbn; [by rewrite Z.lxor_0_r|].
  rewrite !foldl_app, length_app, Nat.add_comm. cbn. rewrite IH, Z.shiftl_lxor. apply Z.lxor_assoc.
Qed.

Lemma be_number_xor ws : Forall (fun w => 0 <= w < 2 ^ 32) ws -> be_number ws = be_xor ws.
Proof.
  unfold be_number, be_xor. intros H. generalize 0 at 1 2. induction H as [|w ws Hw H IH]; intros acc; cbn; [done|].
  rewrite IH. f_equal.
  by rewrite <- lor_shiftl_add, lxor_shiftl_lor by lia.
Qed.

(** A hash [R] of the stream and a function [G] of dword 0 and the combined others, both
    linear, agree when they agree on single bits. *)
Context (R : Z -> Z) (G : Z -> Z -> Z).
Context (HR : linear R) (HG : forall f f' c c', G (Z.lxor f f') (Z.lxor c c') = Z.lxor (G f c) (G f' c')).

Definition agree_on_words : bool :=
  forallb (fun k => agree_on_bits (fun x => R (place k (bswap32 x))) (fun x => G 0 (bswap32 x)) (if (k =? 0)%nat then 16 else 32)) (seq 0 10)
  && agree_on_bits (fun x => Z.lxor (R x) (R (place 10 x))) (fun x => G x 0) 32.
Context (Hcheck : agree_on_words = true).

Lemma G0_linear : linear (G 0).
Proof. intros x y. rewrite <- (HG 0 0). done. Qed.

Lemma agree_word k x :
  (k < 10)%nat -> 0 <= x < 2 ^ (if (k =? 0)%nat then 16 else 32) -> R (place k (bswap32 x)) = G 0 (bswap32 x).
Proof.
  intros Hk Hx. apply andb_true_iff in Hcheck as [Hc _]. rewrite forallb_forall in Hc.
  specialize (Hc k). eapply (linear_ext (fun x => R (place k (bswap32 x))) (fun x => G 0 (bswap32 x))).
  - apply (linear_comp R); [done|]. apply (linear_comp (place k)); [apply place_linear|apply bswap32_linear].
  - apply (linear_comp (G 0)); [apply G0_linear|apply bswap32_linear].
  - apply Hc, in_seq. lia.
  - by destruct (k =? 0)%nat.
Qed.

Lemma agree_tail ws :
  (length ws <= 10)%nat -> Forall (fun w => 0 <= w < 2 ^ 32) ws -> (forall x, last ws = Some x -> x < 2 ^ 16) ->
  R (Z.shiftl (Z.shiftr (be_xor (map ntohl ws)) 16) 32) = G 0 (ntohl (foldr Z.lxor 0 ws)).
Proof.
  induction ws as [|w ws IH]; intros Hl Hw Hlast; cbn [map foldr].
  - transitivity 0; [apply (linear_at_0 R HR)|]. symmetry. apply (linear_at_0 (G 0)), G0_linear.
  - apply Forall_cons in Hw as [Hw Hws]. cbn in Hl.
    rewrite be_xor_cons, Z.shiftr_lxor, Z.shiftl_lxor, HR, IH; [|lia|done|].
    2:{ intros x Hx. apply Hlast. destruct ws; [done|]. by rewrite last_cons_cons. }
    rewrite length_map. change (Z.shiftl _ _) with (place (length ws) (ntohl w)). unfold ntohl.
    rewrite agree_word by (lia || (destruct ws; [specialize (Hlast w eq_refl); cbn; lia|done])).
    by rewrite <- G0_linear, <- bswap32_linear.
Qed.

Lemma hash_agrees d : atr_ok d -> bkt_hash d = 0 -> R (hash_stream d) = G (ntohl (dword 0 d)) (ntohl (xor_dwords d)).
Proof.
  intros [Hl Hd] Hb. destruct d as [|w d]; [done|]. unfold hash_stream. cbn [map dword nth].
  assert (Hr : forall l, Forall (fun w => 0 <= w < 2 ^ 32) (map ntohl l)).
  { intros l. apply List.Forall_map, Forall_true. intros x. apply bswap32_range. }
  rewrite be_number_xor by (constructor; [apply bswap32_range|apply Hr]).
  rewrite Z.add_comm, <- lor_shiftl_add, <- lxor_shiftl_lor, Z.lxor_comm by (lia || apply bswap32_range).
  cbn in Hl. rewrite be_xor_cons, Z.shiftr_lxor, Z.shiftl_lxor, !HR, length_map.
  rewrite agree_tail; [|lia|by apply Forall_cons in Hd as [_ ?]|].
  2:{ intros x Hx. do 10 (destruct d as [|? d]; [done|]). destruct d; [|done]. injection Hx as <-.
      unfold bkt_hash in Hb. cbn in Hb. rewrite Z.shiftr_div_pow2 in Hb by lia.
      rewrite !Forall_cons in Hd. zdm. }
  replace (length d) with 10%nat by lia. fold (place 10 (ntohl w)). rewrite <- Z.lxor_assoc.
  assert (Hw : Z.lxor (R (ntohl w)) (R (place 10 (ntohl w))) = G (ntohl w) 0).
  { apply andb_true_iff in Hcheck as [_ Hc].
    apply (linear_ext (fun x => Z.lxor (R x) (R (place 10 x))) (fun x => G x 0) 32); [|intros x y; by rewrite <- HG|done|apply bswap32_range].
    apply linear_lxor; [done|]. apply (linear_comp R); [done|apply place_linear]. }
  rewrite Hw, <- HG, Z.lxor_0_r, Z.lxor_0_l. do 2 f_equal.
  do 10 (destruct d as [|? d]; [done|]). destruct d; [|done]. unfold xor_dwords. cbn. by rewrite Z.lxor_0_r, !Z.lxor_assoc.
Qed.
End Reference.

(** ** The two hashes *)
Lemma word_swap_lor c : 0 <= c < 2 ^ 32 -> Z.lor (Z.shiftr c 16) (u32 (Z.shiftl c 16)) = word_swap c.
Proof.
  intros Hc. symmetry. apply Z.lxor_lor, Z.bits_inj'. intros i Hi. rewrite Z.land_spec, Z.bits_0.
  unfold u32. destruct (decide (i < 16)).
  - rewrite Z.mod_pow2_bits_low, Z.shiftl_spec_low by lia. apply andb_false_r.
  - rewrite Z.shiftr_spec, <- (Z.mod_small c (2 ^ 32)), Z.mod_pow2_bits_high by lia. done.
Qed.

Lemma sig_hash_words input common :
  ixgbe_atr_compute_sig_hash_82599 input common = sig_fun (ntohl input) (ntohl common).
Proof.
  unfold ixgbe_atr_compute_sig_hash_82599. cbv zeta. rewrite word_swap_lor by apply bswap32_range.
  unfold sig_fun, sig_words, lo_words, hi_words. by destruct (foldl _ _ _) as [[a b] g].
Qed.

Lemma perfect_hash_words input mask :
  let m := zip_with Z.land input mask in
  ixgbe_atr_compute_perfect_hash_82599 input mask = set_bkt_hash (bkt_fun (ntohl (dword 0 m)) (ntohl (xor_dwords m))) m.
Proof.
  cbv zeta. unfold ixgbe_atr_compute_perfect_hash_82599. cbv zeta. rewrite word_swap_lor by apply bswap32_range.
  unfold bkt_fun, lo_words, hi_words. reflexivity.
Qed.

Lemma ref_hash_range key s : 0 <= ref_hash key s < 2 ^ 15.
Proof.
  unfold ref_hash. generalize (Z.shiftr s 1). generalize 1. generalize 351%nat. intros w. induction w as [|w IH]; intros p t; cbn; [lia|].
  destruct (Z.testbit key _); [|apply IH]. apply lxor_bounds; [lia| |apply IH]. apply land_bounds; lia.
Qed.

Lemma masked_ok d m : atr_ok d -> atr_ok m -> atr_ok (zip_with Z.land d m).
Proof.
  intros [Hd1 Hd] [Hm1 Hm]. split; [rewrite length_zip_with; lia|].
  apply Forall_zip_with_snd with (P := fun w => 0 <= w < 2 ^ 32) (Q := fun w => 0 <= w < 2 ^ 32); [|done].
  apply Forall_true. intros x y Hy. by apply land_bounds.
Qed.
Lemma masked_bkt_hash d m : atr_ok d -> atr_ok m -> bkt_hash m = 0 -> bkt_hash (zip_with Z.land d m) = 0.
Proof.
  intros [Hd1 Hd] [Hm1 Hm]. do 11 (destruct d as [|? d]; [done|]). do 11 (destruct m as [|? m]; [done|]).
  unfold bkt_hash. cbn. rewrite Z.shiftr_land. intros ->. apply Z.land_0_r.
Qed.

(** C27. The driver's signature hash of an input is the adapter's: the hash with the signature key in
    the upper half, with the bucket key in the lower half. *)
Theorem sig_hash_correct d :
  atr_ok d -> bkt_hash d = 0 ->
  ixgbe_atr_compute_sig_hash_82599 (dword 0 d) (xor_dwords d) =
  ref_hash IXGBE_ATR_SIGNATURE_HASH_KEY (hash_stream d) * 2 ^ 16 + ref_hash IXGBE_ATR_BUCKET_HASH_KEY (hash_stream d).
Proof.
  intros Hd Hb. pose proof (ref_hash_range IXGBE_ATR_BUCKET_HASH_KEY (hash_stream d)).
  rewrite <- lor_shiftl_add, <- lxor_shiftl_lor, sig_hash_words by lia. symmetry.
  apply (hash_agrees (fun s => Z.lxor (Z.shiftl (ref_hash IXGBE_ATR_SIGNATURE_HASH_KEY s) 16) (ref_hash IXGBE_ATR_BUCKET_HASH_KEY s)) sig_fun);
    [|apply sig_fun_linear|by vm_compute|done|done].
  apply linear_lxor; [apply (linear_shiftl _ 16)|]; apply ref_hash_linear.
Qed.

(** The perfect-match hash stored in the input is the adapter's bucket hash of the masked input,
    cut to the 13 bits of the largest table. *)
Theorem perfect_hash_correct input mask :
  atr_ok input -> atr_ok mask -> bkt_hash mask = 0 ->
  let m := zip_with Z.land input mask in
  ixgbe_atr_compute_perfect_hash_82599 input mask =
  set_bkt_hash (ref_hash IXGBE_ATR_BUCKET_HASH_KEY (hash_stream m) mod 2 ^ 13) m.
Proof.
  intros Hi Hm Hb m. rewrite perfect_hash_words. fold m. f_equal. symmetry.
  rewrite <- (land_ones_mod _ 13) by lia.
  apply (hash_agrees (fun s => Z.land (ref_hash IXGBE_ATR_BUCKET_HASH_KEY s) 0x1FFF) bkt_fun);
    [|apply bkt_fun_linear|by vm_compute|by apply masked_ok|by apply masked_bkt_hash].
  apply linear_land, ref_hash_linear.
Qed.

(** *** Examples *)
Definition example_input : atr_input :=
  [0x64000200; 0x0100000A; 0; 0; 0; 0x0200000A; 0; 0; 0; 0x5000D204; 0x0008].
Definition example_mask : atr_input := [0xFF0F0700; 0xFFFFFFFF; 0; 0; 0; 0xFFFFFFFF; 0; 0; 0; 0xFFFFFFFF; 0xFFFF].
Lemma example_input_ok : atr_ok example_input.
Proof. split; [reflexivity|]. repeat (constructor; [lia|]). constructor. Qed.
Lemma example_mask_ok : atr_ok example_mask.
Proof. split; [reflexivity|]. repeat (constructor; [lia|]). constructor. Qed.

Lemma sig_hash_correct_witness :
  ixgbe_atr_compute_sig_hash_82599 (dword 0 example_input) (xor_dwords example_input) =
  ref_hash IXGBE_ATR_SIGNATURE_HASH_KEY (hash_stream example_input) * 2 ^ 16 + ref_hash IXGBE_ATR_BUCKET_HASH_KEY (hash_stream example_input).
Proof. apply sig_hash_correct; [exact example_input_ok|reflexivity]. Defined.

Lemma perfect_hash_correct_witness :
  ixgbe_atr_compute_perfect_hash_82599 example_input example_mask =
  set_bkt_hash (ref_hash IXGBE_ATR_BUCKET_HASH_KEY (hash_stream (zip_with Z.land example_input example_mask)) mod 2 ^ 13)
    (zip_with Z.land example_input example_mask).
Proof. apply perfect_hash_correct; [exact example_input_ok|exact example_mask_ok|reflexivity]. Defined.
