(* ===== verification/FlowFilters.v ===== *)
(** * Flow director filters ([ixgbe_82599.c] and [ixgbe_atr] of [ixgbe_main.c])

    Programming of signature and perfect-match filters, in the monad of [Hw]. [atr_matches_replies]:
    the filter that a sampled packet programs is the one that replies to it hash to. *)
From Stdlib Require Import Btauto.
From S2P Require Import Prelude Bits Hw FlowDir.

(** ** Registers *)
Definition IXGBE_FDIRCTRL : Z := 0x0EE00.
Definition IXGBE_FDIRHKEY : Z := 0x0EE68.
Definition IXGBE_FDIRSKEY : Z := 0x0EE6C.
Definition IXGBE_FDIRDIP4M : Z := 0x0EE3C.
Definition IXGBE_FDIRSIP4M : Z := 0x0EE40.
Definition IXGBE_FDIRTCPM : Z := 0x0EE44.
Definition IXGBE_FDIRUDPM : Z := 0x0EE48.
Definition IXGBE_FDIRM : Z := 0x0EE70.
Definition IXGBE_FDIRFREE : Z := 0x0EE38.
Definition IXGBE_FDIRLEN : Z := 0x0EE4C.
Definition IXGBE_FDIRUSTAT : Z := 0x0EE50.
Definition IXGBE_FDIRFSTAT : Z := 0x0EE54.
Definition IXGBE_FDIRMATCH : Z := 0x0EE58.
Definition IXGBE_FDIRMISS : Z := 0x0EE5C.
Definition IXGBE_FDIRSIPv6 (i : Z) : Z := 0x0EE0C + i * 4.
Definition IXGBE_FDIRIPSA : Z := 0x0EE18.
Definition IXGBE_FDIRIPDA : Z := 0x0EE1C.
Definition IXGBE_FDIRPORT : Z := 0x0EE20.
Definition IXGBE_FDIRVLAN : Z := 0x0EE24.
Definition IXGBE_FDIRHASH : Z := 0x0EE28.
Definition IXGBE_FDIRCMD : Z := 0x0EE2C.
Definition IXGBE_FDIRCTRL_INIT_DONE : Z := 0x00000008.
Definition IXGBE_FDIRCTRL_PERFECT_MATCH : Z := 0x00000010.
Definition IXGBE_FDIRCTRL_REPORT_STATUS : Z := 0x00000020.
Definition IXGBE_FDIRCTRL_DROP_Q_SHIFT : Z := 8.
Definition IXGBE_FDIRCTRL_FLEX_SHIFT : Z := 16.
Definition IXGBE_FDIRCTRL_MAX_LENGTH_SHIFT : Z := 24.
Definition IXGBE_FDIRCTRL_FULL_THRESH_SHIFT : Z := 28.
Definition IXGBE_FDIRTCPM_DPORTM_SHIFT : Z := 16.
Definition IXGBE_FDIRM_VLANID : Z := 0x00000001.
Definition IXGBE_FDIRM_VLANP : Z := 0x00000002.
Definition IXGBE_FDIRM_POOL : Z := 0x00000004.
Definition IXGBE_FDIRM_L4P : Z := 0x00000008.
Definition IXGBE_FDIRM_FLEX : Z := 0x00000010.
Definition IXGBE_FDIRM_DIPv6 : Z := 0x00000020.
Definition IXGBE_FDIRPORT_DESTINATION_SHIFT : Z := 16.
Definition IXGBE_FDIRVLAN_FLEX_SHIFT : Z := 16.
Definition IXGBE_FDIRHASH_SIG_SW_INDEX_SHIFT : Z := 16.
Definition IXGBE_FDIRCMD_CMD_MASK : Z := 0x00000003.
Definition IXGBE_FDIRCMD_CMD_ADD_FLOW : Z := 0x00000001.
Definition IXGBE_FDIRCMD_CMD_REMOVE_FLOW : Z := 0x00000002.
Definition IXGBE_FDIRCMD_CMD_QUERY_REM_FILT : Z := 0x00000003.
Definition IXGBE_FDIRCMD_FILTER_VALID : Z := 0x00000004.
Definition IXGBE_FDIRCMD_FILTER_UPDATE : Z := 0x00000008.
Definition IXGBE_FDIRCMD_CLEARHT : Z := 0x00000100.
Definition IXGBE_FDIRCMD_DROP : Z := 0x00000200.
Definition IXGBE_FDIRCMD_LAST : Z := 0x00000800.
Definition IXGBE_FDIRCMD_QUEUE_EN : Z := 0x00008000.
Definition IXGBE_FDIRCMD_FLOW_TYPE_SHIFT : Z := 5.
Definition IXGBE_FDIRCMD_RX_QUEUE_SHIFT : Z := 16.
Definition IXGBE_FDIRCMD_VT_POOL_SHIFT : Z := 24.
Definition IXGBE_FDIR_INIT_DONE_POLL : nat := 10.
Definition IXGBE_FDIRCMD_CMD_POLL : nat := 10.
Definition IXGBE_FDIR_DROP_QUEUE : Z := 127.
Definition IXGBE_ERR_CONFIG : Z := -4.
Definition IXGBE_ERR_FDIR_REINIT_FAILED : Z := -23.

(** One 64-bit write: the lower half to [reg], the upper half to [reg + 4]. *)
Definition IXGBE_WRITE_REG64 (reg val : Z) : M () := IXGBE_WRITE_REG reg val.

(** ** Initialisation *)

Definition ixgbe_reinit_fdir_tables_82599 : M Z :=
  v ← IXGBE_READ_REG IXGBE_FDIRCTRL;
  let fdirctrl := Z.ldiff v IXGBE_FDIRCTRL_INIT_DONE in
  idle ← poll_reg IXGBE_FDIRCMD_CMD_POLL IXGBE_FDIRCMD (fun v => negb (truthy (Z.land v IXGBE_FDIRCMD_CMD_MASK)));
  if negb idle then mret IXGBE_ERR_FDIR_REINIT_FAILED
  else
    _ ← IXGBE_WRITE_REG IXGBE_FDIRFREE 0;
    _ ← IXGBE_WRITE_FLUSH;
    v ← IXGBE_READ_REG IXGBE_FDIRCMD;
    _ ← IXGBE_WRITE_REG IXGBE_FDIRCMD (Z.lor v IXGBE_FDIRCMD_CLEARHT);
    _ ← IXGBE_WRITE_FLUSH;
    v ← IXGBE_READ_REG IXGBE_FDIRCMD;
    _ ← IXGBE_WRITE_REG IXGBE_FDIRCMD (Z.ldiff v IXGBE_FDIRCMD_CLEARHT);
    _ ← IXGBE_WRITE_FLUSH;
    _ ← IXGBE_WRITE_REG IXGBE_FDIRHASH 0x00;
    _ ← IXGBE_WRITE_FLUSH;
    _ ← IXGBE_WRITE_REG IXGBE_FDIRCTRL fdirctrl;
    _ ← IXGBE_WRITE_FLUSH;
    inited ← poll_reg IXGBE_FDIR_INIT_DONE_POLL IXGBE_FDIRCTRL (fun v => truthy (Z.land v IXGBE_FDIRCTRL_INIT_DONE));
    if negb inited then mret IXGBE_ERR_FDIR_REINIT_FAILED
    else
      _ ← IXGBE_READ_REG IXGBE_FDIRUSTAT;
      _ ← IXGBE_READ_REG IXGBE_FDIRFSTAT;
      _ ← IXGBE_READ_REG IXGBE_FDIRMATCH;
      _ ← IXGBE_READ_REG IXGBE_FDIRMISS;
      _ ← IXGBE_READ_REG IXGBE_FDIRLEN;
      mret 0.

Definition ixgbe_fdir_enable_82599 (fdirctrl : Z) : M () :=
  _ ← IXGBE_WRITE_REG IXGBE_FDIRHKEY IXGBE_ATR_BUCKET_HASH_KEY;
  _ ← IXGBE_WRITE_REG IXGBE_FDIRSKEY IXGBE_ATR_SIGNATURE_HASH_KEY;
  _ ← IXGBE_WRITE_REG IXGBE_FDIRCTRL fdirctrl;
  _ ← IXGBE_WRITE_FLUSH;
  _ ← poll_reg IXGBE_FDIR_INIT_DONE_POLL IXGBE_FDIRCTRL (fun v => truthy (Z.land v IXGBE_FDIRCTRL_INIT_DONE));
  mret ().

Definition ixgbe_init_fdir_signature_82599 (fdirctrl : Z) : M Z :=
  let fdirctrl := Z.lor fdirctrl (Z.lor (Z.lor (Z.shiftl 0x6 IXGBE_FDIRCTRL_FLEX_SHIFT)
    (Z.shiftl 0xA IXGBE_FDIRCTRL_MAX_LENGTH_SHIFT)) (Z.shiftl 4 IXGBE_FDIRCTRL_FULL_THRESH_SHIFT)) in
  _ ← ixgbe_fdir_enable_82599 fdirctrl;
  mret 0.

Definition ixgbe_init_fdir_perfect_82599 (fdirctrl : Z) : M Z :=
  let fdirctrl := Z.lor fdirctrl (Z.lor (Z.lor (Z.lor (Z.lor (Z.lor IXGBE_FDIRCTRL_PERFECT_MATCH IXGBE_FDIRCTRL_REPORT_STATUS)
    (Z.shiftl IXGBE_FDIR_DROP_QUEUE IXGBE_FDIRCTRL_DROP_Q_SHIFT)) (Z.shiftl 0x6 IXGBE_FDIRCTRL_FLEX_SHIFT))
    (Z.shiftl 0xA IXGBE_FDIRCTRL_MAX_LENGTH_SHIFT)) (Z.shiftl 4 IXGBE_FDIRCTRL_FULL_THRESH_SHIFT)) in
  _ ← ixgbe_fdir_enable_82599 fdirctrl;
  mret 0.

(** ** Signature filters *)
Definition ixgbe_fdir_add_signature_filter_82599 (input common queue : Z) : M Z :=
  let ft := Z.land (Z.shiftr input 8) 0xFF in
  if existsb (Z.eqb ft) [IXGBE_ATR_FLOW_TYPE_TCPV4; IXGBE_ATR_FLOW_TYPE_UDPV4; IXGBE_ATR_FLOW_TYPE_SCTPV4;
                         IXGBE_ATR_FLOW_TYPE_TCPV6; IXGBE_ATR_FLOW_TYPE_UDPV6; IXGBE_ATR_FLOW_TYPE_SCTPV6] then
    let fdircmd := Z.lor (Z.lor (Z.lor IXGBE_FDIRCMD_CMD_ADD_FLOW IXGBE_FDIRCMD_FILTER_UPDATE)
                     IXGBE_FDIRCMD_LAST) IXGBE_FDIRCMD_QUEUE_EN in
    let fdircmd := Z.lor fdircmd (Z.shiftl ft IXGBE_FDIRCMD_FLOW_TYPE_SHIFT) in
    let fdircmd := Z.lor fdircmd (u32 (Z.shiftl queue IXGBE_FDIRCMD_RX_QUEUE_SHIFT)) in
    let fdirhashcmd := u64 (Z.shiftl fdircmd 32) in
    let fdirhashcmd := Z.lor fdirhashcmd (ixgbe_atr_compute_sig_hash_82599 input common) in
    _ ← IXGBE_WRITE_REG64 IXGBE_FDIRHASH fdirhashcmd;
    mret 0
  else mret IXGBE_ERR_CONFIG.

(** ** Perfect-match filters *)
Definition ixgbe_get_fdirtcpm_82599 (input_mask : atr_input) : Z :=
  let mask := ntohs (dst_port input_mask) in
  let mask := u32 (Z.shiftl mask IXGBE_FDIRTCPM_DPORTM_SHIFT) in
  let mask := Z.lor mask (ntohs (src_port input_mask)) in
  let mask := Z.lor (u32 (Z.shiftl (Z.land mask 0x55555555) 1)) (Z.shiftr (Z.land mask 0xAAAAAAAA) 1) in
  let mask := Z.lor (u32 (Z.shiftl (Z.land mask 0x33333333) 2)) (Z.shiftr (Z.land mask 0xCCCCCCCC) 2) in
  let mask := Z.lor (u32 (Z.shiftl (Z.land mask 0x0F0F0F0F) 4)) (Z.shiftr (Z.land mask 0xF0F0F0F0) 4) in
  Z.lor (u32 (Z.shiftl (Z.land mask 0x00FF00FF) 8)) (Z.shiftr (Z.land mask 0xFF00FF00) 8).

Definition IXGBE_STORE_AS_BE32 (v : Z) : Z :=
  Z.lor (Z.lor (Z.lor (Z.shiftr (u32 v) 24) (Z.shiftr (Z.land (u32 v) 0x00FF0000) 8))
    (Z.shiftl (Z.land (u32 v) 0x0000FF00) 8)) (u32 (Z.shiftl (u32 v) 24)).
Definition IXGBE_WRITE_REG_BE32 (reg value : Z) : M () := IXGBE_WRITE_REG reg (IXGBE_STORE_AS_BE32 (ntohl value)).
Definition IXGBE_STORE_AS_BE16 (v : Z) : Z := ntohs (u16 (Z.lor (Z.shiftr (u16 v) 8) (Z.shiftl (u16 v) 8))).

(** The value of [fdirm], or [None] where the code returns [IXGBE_ERR_CONFIG]. *)
Definition fdirm_of (input_mask : atr_input) : option Z :=
  let fdirm := IXGBE_FDIRM_DIPv6 in
  fdirm ← match Z.land (vm_pool input_mask) 0x7F with
          | 0x0 => Some (Z.lor fdirm IXGBE_FDIRM_POOL)
          | 0x7F => Some fdirm
          | _ => None
          end;
  fdirm ← match Z.land (flow_type input_mask) IXGBE_ATR_L4TYPE_MASK with
          | 0x0 =>
              if truthy (dst_port input_mask) || truthy (src_port input_mask) then None
              else Some (Z.lor fdirm IXGBE_FDIRM_L4P)
          | 0x3 => Some fdirm
          | _ => None
          end;
  fdirm ← match Z.land (ntohs (vlan_id input_mask)) 0xEFFF with
          | 0x0000 => Some (Z.lor (Z.lor fdirm IXGBE_FDIRM_VLANID) IXGBE_FDIRM_VLANP)
          | 0x0FFF => Some (Z.lor fdirm IXGBE_FDIRM_VLANP)
          | 0xE000 => Some (Z.lor fdirm IXGBE_FDIRM_VLANID)
          | 0xEFFF => Some fdirm
          | _ => None
          end;
  match Z.land (flex_bytes input_mask) 0xFFFF with
  | 0x0000 => Some (Z.lor fdirm IXGBE_FDIRM_FLEX)
  | 0xFFFF => Some fdirm
  | _ => None
  end.

Definition not32 (x : Z) : Z := u32 (Z.lnot x).

Definition ixgbe_fdir_set_input_mask_82599 (input_mask : atr_input) : M Z :=
  match fdirm_of input_mask with
  | None => mret IXGBE_ERR_CONFIG
  | Some fdirm =>
      _ ← IXGBE_WRITE_REG IXGBE_FDIRM fdirm;
      let fdirtcpm := ixgbe_get_fdirtcpm_82599 input_mask in
      _ ← IXGBE_WRITE_REG IXGBE_FDIRTCPM (not32 fdirtcpm);
      _ ← IXGBE_WRITE_REG IXGBE_FDIRUDPM (not32 fdirtcpm);
      _ ← IXGBE_WRITE_REG_BE32 IXGBE_FDIRSIP4M (not32 (src_ip 0 input_mask));
      _ ← IXGBE_WRITE_REG_BE32 IXGBE_FDIRDIP4M (not32 (dst_ip 0 input_mask));
      mret 0
  end.

Definition ixgbe_fdir_write_perfect_filter_82599 (input : atr_input) (soft_id queue : Z) : M Z :=
  _ ← IXGBE_WRITE_REG_BE32 (IXGBE_FDIRSIPv6 0) (src_ip 0 input);
  _ ← IXGBE_WRITE_REG_BE32 (IXGBE_FDIRSIPv6 1) (src_ip 1 input);
  _ ← IXGBE_WRITE_REG_BE32 (IXGBE_FDIRSIPv6 2) (src_ip 2 input);
  _ ← IXGBE_WRITE_REG_BE32 IXGBE_FDIRIPSA (src_ip 0 input);
  _ ← IXGBE_WRITE_REG_BE32 IXGBE_FDIRIPDA (dst_ip 0 input);
  let fdirport := ntohs (dst_port input) in
  let fdirport := u32 (Z.shiftl fdirport IXGBE_FDIRPORT_DESTINATION_SHIFT) in
  let fdirport := Z.lor fdirport (ntohs (src_port input)) in
  _ ← IXGBE_WRITE_REG IXGBE_FDIRPORT fdirport;
  let fdirvlan := IXGBE_STORE_AS_BE16 (flex_bytes input) in
  let fdirvlan := u32 (Z.shiftl fdirvlan IXGBE_FDIRVLAN_FLEX_SHIFT) in
  let fdirvlan := Z.lor fdirvlan (ntohs (vlan_id input)) in
  _ ← IXGBE_WRITE_REG IXGBE_FDIRVLAN fdirvlan;
  let fdirhash := Z.lor (bkt_hash input) (u32 (Z.shiftl soft_id IXGBE_FDIRHASH_SIG_SW_INDEX_SHIFT)) in
  _ ← IXGBE_WRITE_REG IXGBE_FDIRHASH fdirhash;
  _ ← IXGBE_WRITE_FLUSH;
  let fdircmd := Z.lor (Z.lor (Z.lor IXGBE_FDIRCMD_CMD_ADD_FLOW IXGBE_FDIRCMD_FILTER_UPDATE)
                   IXGBE_FDIRCMD_LAST) IXGBE_FDIRCMD_QUEUE_EN in
  let fdircmd := if queue =? IXGBE_FDIR_DROP_QUEUE then Z.lor fdircmd IXGBE_FDIRCMD_DROP else fdircmd in
  let fdircmd := Z.lor fdircmd (Z.shiftl (flow_type input) IXGBE_FDIRCMD_FLOW_TYPE_SHIFT) in
  let fdircmd := Z.lor fdircmd (u32 (Z.shiftl queue IXGBE_FDIRCMD_RX_QUEUE_SHIFT)) in
  let fdircmd := Z.lor fdircmd (u32 (Z.shiftl (vm_pool input) IXGBE_FDIRCMD_VT_POOL_SHIFT)) in
  _ ← IXGBE_WRITE_REG IXGBE_FDIRCMD fdircmd;
  mret 0.

(** [for (retry_count = 10; retry_count; retry_count--)]: the last value of [fdircmd] and
    [retry_count]. *)
Fixpoint query_loop (retry_count : nat) (fdircmd : Z) : M (Z * nat) :=
  match retry_count with
  | O => mret (fdircmd, O)
  | S n =>
      fdircmd ← IXGBE_READ_REG IXGBE_FDIRCMD;
      if negb (truthy (Z.land fdircmd IXGBE_FDIRCMD_CMD_MASK)) then mret (fdircmd, retry_count) else query_loop n fdircmd
  end.

Definition ixgbe_fdir_erase_perfect_filter_82599 (input : atr_input) (soft_id : Z) : M Z :=
  let fdirhash := Z.lor (bkt_hash input) (u32 (Z.shiftl soft_id IXGBE_FDIRHASH_SIG_SW_INDEX_SHIFT)) in
  _ ← IXGBE_WRITE_REG IXGBE_FDIRHASH fdirhash;
  _ ← IXGBE_WRITE_FLUSH;
  _ ← IXGBE_WRITE_REG IXGBE_FDIRCMD IXGBE_FDIRCMD_CMD_QUERY_REM_FILT;
  q ← query_loop 10 0;
  let '(fdircmd, retry_count) := q in
  let err := match retry_count with O => IXGBE_ERR_FDIR_REINIT_FAILED | S _ => 0 end in
  _ ← (if truthy (Z.land fdircmd IXGBE_FDIRCMD_FILTER_VALID) then
         _ ← IXGBE_WRITE_REG IXGBE_FDIRHASH fdirhash;
         _ ← IXGBE_WRITE_FLUSH;
         IXGBE_WRITE_REG IXGBE_FDIRCMD IXGBE_FDIRCMD_CMD_REMOVE_FLOW
       else mret ());
  mret err.

(** The return value, and the contents of [*input] and [*input_mask] afterwards. *)
Definition ixgbe_fdir_add_perfect_filter_82599 (input input_mask : atr_input) (soft_id queue : Z) : M (Z * atr_input * atr_input) :=
  let ports := truthy (dst_port input) || truthy (src_port input) in
  let go input_mask :=
    err ← ixgbe_fdir_set_input_mask_82599 input_mask;
    if truthy err then mret (err, input, input_mask)
    else
      let input := ixgbe_atr_compute_perfect_hash_82599 input input_mask in
      err ← ixgbe_fdir_write_perfect_filter_82599 input soft_id queue;
      mret (err, input, input_mask) in
  let ft := flow_type input in
  if ft =? IXGBE_ATR_FLOW_TYPE_IPV4 then
    let input_mask := set_flow_type IXGBE_ATR_L4TYPE_IPV6_MASK input_mask in
    if ports then mret (IXGBE_ERR_CONFIG, input, input_mask) else go input_mask
  else if (ft =? IXGBE_ATR_FLOW_TYPE_SCTPV4) && ports then mret (IXGBE_ERR_CONFIG, input, input_mask)
  else if existsb (Z.eqb ft) [IXGBE_ATR_FLOW_TYPE_SCTPV4; IXGBE_ATR_FLOW_TYPE_TCPV4; IXGBE_ATR_FLOW_TYPE_UDPV4] then
    go (set_flow_type (Z.lor IXGBE_ATR_L4TYPE_IPV6_MASK IXGBE_ATR_L4TYPE_MASK) input_mask)
  else mret (IXGBE_ERR_CONFIG, input, input_mask).

(** ** Sampling of transmitted packets ([ixgbe_atr]) *)
Definition ETH_P_IP : Z := 0x0800.
Definition ETH_P_IPV6 : Z := 0x86DD.
Definition ETH_P_8021Q : Z := 0x8100.
Definition IPPROTO_TCP : Z := 6.
Definition IXGBE_TX_FLAGS_HW_VLAN : Z := 0x01.
Definition IXGBE_TX_FLAGS_SW_VLAN : Z := 0x40.
Definition IXGBE_TX_FLAGS_VLAN_SHIFT : Z := 16.

(** The fields of [struct ixgbe_ring] and [struct ixgbe_tx_buffer] that the function uses; the packet
    is the bytes from its network header on. *)
Record atr_ring := AtrRing { q_vector : bool; atr_sample_rate : Z; atr_count : Z; queue_index : Z }.
Record tx_first := TxFirst { network : Z -> Z; protocol : Z; tx_flags : Z }.
Definition set_atr_count v r := AtrRing (q_vector r) (atr_sample_rate r) v (queue_index r).

Definition load16 (b : Z -> Z) (off : Z) : Z := le_load (fun i => b (off + i)) 2.
Definition load32 (b : Z -> Z) (off : Z) : Z := le_load (fun i => b (off + i)) 4.

(** [struct iphdr]: [protocol] at 9, [saddr] at 12, [daddr] at 16; [struct ipv6hdr]: [nexthdr] at 6,
    [saddr] at 8, [daddr] at 24, 40 bytes; [struct tcphdr]: [source] at 0, [dest] at 2, [fin] and [syn]
    are bits 0 and 1 of byte 13. The length of the header before TCP, or [None] where the code returns. *)
Definition atr_hlen (first : tx_first) : option Z :=
  if protocol first =? htons ETH_P_IP then
    if negb (network first 9 =? IPPROTO_TCP) then None else Some (Z.shiftl (Z.land (network first 0) 0x0F) 2)
  else if protocol first =? htons ETH_P_IPV6 then
    if negb (network first 6 =? IPPROTO_TCP) then None else Some 40
  else None.

(** [union ixgbe_atr_hash_dword]: the stored dword after assignments to its fields. *)
Definition hash_dword_formatted (vm_pool flow_type vlan_id : Z) : Z := vm_pool + flow_type * 2 ^ 8 + vlan_id * 2 ^ 16.
Definition hash_dword_port (src dst : Z) : Z := src + dst * 2 ^ 16.

Definition xor_load32 (b : Z -> Z) (offs : list Z) : Z := foldl (fun acc o => Z.lxor acc (load32 b o)) 0 offs.

(** The input and common dwords of a packet whose TCP header starts at [hlen]. *)
Definition atr_dwords (first : tx_first) (hlen : Z) : Z * Z :=
  let th o := load16 (network first) (hlen + o) in
  let vlan_id := htons (Z.shiftr (tx_flags first) IXGBE_TX_FLAGS_VLAN_SHIFT) in
  let src :=
    if truthy (Z.land (tx_flags first) (Z.lor IXGBE_TX_FLAGS_SW_VLAN IXGBE_TX_FLAGS_HW_VLAN)) then
      Z.lxor 0 (Z.lxor (th 2) (htons ETH_P_8021Q))
    else Z.lxor 0 (Z.lxor (th 2) (protocol first)) in
  let dst := Z.lxor 0 (th 0) in
  let common := hash_dword_port src dst in
  if protocol first =? htons ETH_P_IP then
    (hash_dword_formatted 0 IXGBE_ATR_FLOW_TYPE_TCPV4 vlan_id,
     Z.lxor common (xor_load32 (network first) [12; 16]))
  else
    (hash_dword_formatted 0 IXGBE_ATR_FLOW_TYPE_TCPV6 vlan_id,
     Z.lxor common (xor_load32 (network first) [8; 12; 16; 20; 24; 28; 32; 36])).

Definition ixgbe_atr (ring : atr_ring) (first : tx_first) : M atr_ring :=
  if negb (q_vector ring) then mret ring
  else if negb (truthy (atr_sample_rate ring)) then mret ring
  else
    let ring := set_atr_count (u8 (atr_count ring + 1)) ring in
    match atr_hlen first with
    | None => mret ring
    | Some hlen =>
        let flags := network first (hlen + 13) in
        if Z.testbit flags 0 then mret ring
        else if negb (Z.testbit flags 1) && (atr_count ring <? atr_sample_rate ring) then mret ring
        else
          let ring := set_atr_count 0 ring in
          let '(input, common) := atr_dwords first hlen in
          _ ← ixgbe_fdir_add_signature_filter_82599 input common (u8 (queue_index ring));
          mret ring
    end.

(** ** Fields and registers *)
#[export] Hint Unfold IXGBE_STORE_AS_BE32 IXGBE_STORE_AS_BE16 : bits.
Lemma store_as_be32 v : 0 <= v < 2 ^ 32 -> IXGBE_STORE_AS_BE32 (ntohl v) = v.
Proof. intros Hv. by_bits 32%nat (fun v => IXGBE_STORE_AS_BE32 (ntohl v)) (fun v : Z => v). Qed.
Lemma store_as_be16 v : 0 <= v < 2 ^ 16 -> IXGBE_STORE_AS_BE16 v = v.
Proof. intros Hv. by_bits 16%nat (fun v => IXGBE_STORE_AS_BE16 v) (fun v : Z => v). Qed.

(** *** The port mask *)
Section PortMask.
Definition swap_bits (mask : Z) : Z :=
  let mask := Z.lor (u32 (Z.shiftl (Z.land mask 0x55555555) 1)) (Z.shiftr (Z.land mask 0xAAAAAAAA) 1) in
  let mask := Z.lor (u32 (Z.shiftl (Z.land mask 0x33333333) 2)) (Z.shiftr (Z.land mask 0xCCCCCCCC) 2) in
  let mask := Z.lor (u32 (Z.shiftl (Z.land mask 0x0F0F0F0F) 4)) (Z.shiftr (Z.land mask 0xF0F0F0F0) 4) in
  Z.lor (u32 (Z.shiftl (Z.land mask 0x00FF00FF) 8)) (Z.shiftr (Z.land mask 0xFF00FF00) 8).
Definition reversed_in_half (i : Z) : Z := if i <? 16 then 15 - i else 47 - i.
Definition bit_of (f : Z -> Z) (i : Z) (m : Z) : Z := Z.land (Z.shiftr (f m) i) 1.

Lemma swap_bits_orlinear : orlinear swap_bits.
Proof.
  assert (step : forall a b k, orlinear (fun m => Z.lor (u32 (Z.shiftl (Z.land m a) k)) (Z.shiftr (Z.land m b) k)))
    by auto 8 with bits.
  unfold swap_bits. cbv zeta.
  apply (orlinear_comp (fun m => Z.lor _ (Z.shiftr (Z.land m _) _)) (fun m => Z.lor _ _) (step _ _ _)).
  apply (orlinear_comp (fun m => Z.lor _ (Z.shiftr (Z.land m _) _)) (fun m => Z.lor _ _) (step _ _ _)).
  apply (orlinear_comp (fun m => Z.lor _ (Z.shiftr (Z.land m _) _)) (fun m => Z.lor _ _) (step _ _ _)), step.
Qed.

Lemma bit_of_testbit f i m : 0 <= i -> bit_of f i m = Z.b2z (Z.testbit (f m) i).
Proof. intros Hi. unfold bit_of. rewrite (land_ones_mod _ 1), Z.shiftr_div_pow2, <- Z.testbit_spec' by lia. done. Qed.

Lemma swap_bits_spec m i : 0 <= m < 2 ^ 32 -> 0 <= i < 32 -> Z.testbit (swap_bits m) i = Z.testbit m (reversed_in_half i).
Proof.
  intros Hm Hi. apply Z.b2z_inj. rewrite <- bit_of_testbit by lia.
  rewrite <- (bit_of_testbit (fun m => m) (reversed_in_half i)) by (unfold reversed_in_half; destruct (Z.ltb_spec i 16); lia).
  assert (Hc : forallb (fun j => agree_on_bits (bit_of swap_bits (Z.of_nat j)) (bit_of (fun m => m) (reversed_in_half (Z.of_nat j))) 32)
    (seq 0 32) = true) by by vm_compute.
  rewrite forallb_forall in Hc. specialize (Hc (Z.to_nat i)). rewrite Z2Nat.id in Hc by lia.
  eapply orlinear_ext; [| |apply Hc, in_seq; lia|done]; unfold bit_of.
  - apply orlinear_land, orlinear_shiftr, swap_bits_orlinear.
  - auto with bits.
Qed.

Lemma ports_combined p q i :
  0 <= p < 2 ^ 16 -> 0 <= q < 2 ^ 16 -> 0 <= i ->
  Z.testbit (Z.lor (u32 (Z.shiftl p 16)) q) i = if i <? 16 then Z.testbit q i else Z.testbit p (i - 16).
Proof.
  intros Hp Hq Hi. rewrite u32_small by (rewrite Z.shiftl_mul_pow2 by lia; lia). rewrite Z.lor_spec.
  destruct (Z.ltb_spec i 16); [by rewrite Z.shiftl_spec_low|].
  rewrite Z.shiftl_spec_high by lia. rewrite <- (Z.mod_small q (2 ^ 16)), Z.mod_pow2_bits_high by lia. apply orb_false_r.
Qed.

Lemma fdirtcpm_swap m :
  ixgbe_get_fdirtcpm_82599 m = swap_bits (Z.lor (u32 (Z.shiftl (ntohs (dst_port m)) 16)) (ntohs (src_port m))).
Proof. unfold ixgbe_get_fdirtcpm_82599, swap_bits, IXGBE_FDIRTCPM_DPORTM_SHIFT. reflexivity. Qed.

(** The port masks are written with the bits of each port reversed: bit [i] of the source port's
    half is bit [15 - i] of the source port mask, and likewise for the destination port. *)
Theorem fdirtcpm_reversed m i :
  0 <= i < 16 ->
  Z.testbit (ixgbe_get_fdirtcpm_82599 m) i = Z.testbit (ntohs (src_port m)) (15 - i) /\
  Z.testbit (ixgbe_get_fdirtcpm_82599 m) (16 + i) = Z.testbit (ntohs (dst_port m)) (15 - i).
Proof.
  intros Hi. pose proof (bswap16_range (dst_port m)). pose proof (bswap16_range (src_port m)).
  assert (Hr : 0 <= Z.lor (u32 (Z.shiftl (ntohs (dst_port m)) 16)) (ntohs (src_port m)) < 2 ^ 32)
    by (apply lor_bounds; [lia|apply u32_range|unfold ntohs; lia]).
  rewrite fdirtcpm_swap, !swap_bits_spec by (done || lia). unfold reversed_in_half.
  rewrite (proj2 (Z.ltb_lt i 16)), (proj2 (Z.ltb_ge (16 + i) 16)), !ports_combined by (done || lia).
  rewrite (proj2 (Z.ltb_lt (15 - i) 16)), (proj2 (Z.ltb_ge (47 - (16 + i)) 16)) by lia. split; f_equal; lia.
Qed.
End PortMask.

(** ** Signature filters of sampled packets *)
Lemma load_range b off n : 0 <= n -> (forall i, 0 <= b i < 256) -> 0 <= le_load (fun i => b (off + i)) n < 2 ^ (8 * n).
Proof.
  intros Hn Hb. rewrite (le_load_ext _ (fun i => u8 (b (off + i)))) by (intros; symmetry; by apply u8_small).
  revert n Hn. refine (zsum_ind _ _ _); unfold le_load; [rewrite zsum_0; lia|].
  intros n Hn IH. rewrite zsum_succ by done. pose proof (u8_range (b (off + n))).
  replace (8 * (n + 1)) with (8 * n + 8) by lia. rewrite Z.pow_add_r by lia. nia.
Qed.
Lemma load16_range b off : (forall i, 0 <= b i < 256) -> 0 <= load16 b off < 2 ^ 16.
Proof. by apply (load_range b off 2). Qed.
Lemma load32_range b off : (forall i, 0 <= b i < 256) -> 0 <= load32 b off < 2 ^ 32.
Proof. by apply (load_range b off 4). Qed.

Lemma hash_dword_port_lxor a b c : 0 <= a < 2 ^ 16 -> 0 <= b < 2 ^ 16 -> hash_dword_port (Z.lxor a b) c = Z.lxor (hash_dword_port a c) (hash_dword_port b 0).
Proof.
  intros Ha Hb. unfold hash_dword_port. pose proof (lxor_bounds a b 16 ltac:(lia) Ha Hb).
  rewrite !(Z.add_comm _ (_ * 2 ^ 16)), <- !lor_shiftl_add, <- !lxor_shiftl_lor, Z.shiftl_0_l, Z.lxor_0_l by lia.
  by rewrite Z.lxor_assoc.
Qed.

(** What the adapter sees of a reply to the packet: addresses and ports exchanged, the Ethernet type
    (or that of the VLAN tag) as flexible bytes, no pool. *)
Definition reply_input (first : tx_first) (hlen : Z) : atr_input :=
  let w := load32 (network first) in
  let th o := load16 (network first) (hlen + o) in
  let ipv4 := protocol first =? htons ETH_P_IP in
  let tagged := truthy (Z.land (tx_flags first) (Z.lor IXGBE_TX_FLAGS_SW_VLAN IXGBE_TX_FLAGS_HW_VLAN)) in
  [hash_dword_formatted 0 (if ipv4 then IXGBE_ATR_FLOW_TYPE_TCPV4 else IXGBE_ATR_FLOW_TYPE_TCPV6)
     (htons (Z.shiftr (tx_flags first) IXGBE_TX_FLAGS_VLAN_SHIFT))] ++
  (if ipv4 then [w 12; 0; 0; 0] else [w 8; w 12; w 16; w 20]) ++
  (if ipv4 then [w 16; 0; 0; 0] else [w 24; w 28; w 32; w 36]) ++
  [hash_dword_port (th 2) (th 0); hash_dword_port (if tagged then htons ETH_P_8021Q else protocol first) 0].

(** A packet in memory. *)
Definition tx_ok (first : tx_first) : Prop := (forall i, 0 <= network first i < 256) /\ 0 <= protocol first < 2 ^ 16.

Section Atr.
Context (first : tx_first) (hlen : Z) (Hok : tx_ok first).

Lemma reply_ok : atr_ok (reply_input first hlen) /\ bkt_hash (reply_input first hlen) = 0.
Proof using Hok.
  destruct Hok as [Hb Hp]. unfold atr_ok. assert (He : 0 <= (if truthy (Z.land (tx_flags first)
    (Z.lor IXGBE_TX_FLAGS_SW_VLAN IXGBE_TX_FLAGS_HW_VLAN)) then htons ETH_P_8021Q else protocol first) < 2 ^ 16).
  { destruct (truthy _); [apply bswap16_range|done]. }
  pose proof (load16_range _ (hlen + 0) Hb). pose proof (load16_range _ (hlen + 2) Hb).
  pose proof (fun o => load32_range _ o Hb). pose proof (bswap16_range (Z.shiftr (tx_flags first) IXGBE_TX_FLAGS_VLAN_SHIFT)).
  unfold reply_input, hash_dword_formatted, hash_dword_port, bkt_hash, IXGBE_ATR_FLOW_TYPE_TCPV4, IXGBE_ATR_FLOW_TYPE_TCPV6, htons in *.
  destruct (protocol first =? _); (split; [split; [done|cbn [app]; rewrite !Forall_cons, Forall_nil; split_and!; first [done|apply H1|lia]]|]);
    cbn [app nth]; unfold dword; cbn [nth]; rewrite Z.shiftr_div_pow2 by lia; zdm.
Qed.

Lemma atr_dwords_reply :
  atr_dwords first hlen = (dword 0 (reply_input first hlen), xor_dwords (reply_input first hlen)).
Proof using Hok.
  destruct Hok as [Hb Hp]. unfold atr_dwords, reply_input, xor_dwords. rewrite !Z.lxor_0_l.
  pose proof (load16_range _ (hlen + 2) Hb). pose proof (bswap16_range ETH_P_8021Q).
  destruct (truthy _), (protocol first =? _); unfold dword; cbn [app nth xor_load32 foldl];
    rewrite hash_dword_port_lxor by done; f_equal;
    apply Z.bits_inj'; intros i _; rewrite !Z.lxor_spec, ?Z.bits_0; btauto.
Qed.
End Atr.

(** The command of a signature filter. *)
Definition sig_command (ft queue : Z) : Z :=
  Z.lor (Z.lor (Z.lor (Z.lor (Z.lor IXGBE_FDIRCMD_CMD_ADD_FLOW IXGBE_FDIRCMD_FILTER_UPDATE) IXGBE_FDIRCMD_LAST)
    IXGBE_FDIRCMD_QUEUE_EN) (Z.shiftl ft IXGBE_FDIRCMD_FLOW_TYPE_SHIFT)) (Z.shiftl queue IXGBE_FDIRCMD_RX_QUEUE_SHIFT).
Definition sig_flow_types : list Z :=
  [IXGBE_ATR_FLOW_TYPE_TCPV4; IXGBE_ATR_FLOW_TYPE_UDPV4; IXGBE_ATR_FLOW_TYPE_SCTPV4;
   IXGBE_ATR_FLOW_TYPE_TCPV6; IXGBE_ATR_FLOW_TYPE_UDPV6; IXGBE_ATR_FLOW_TYPE_SCTPV6].

Lemma sig_command_range ft queue : 0 <= ft < 2 ^ 8 -> 0 <= queue < 2 ^ 8 -> 0 <= sig_command ft queue < 2 ^ 32.
Proof.
  intros Hf Hq. unfold sig_command, IXGBE_FDIRCMD_FLOW_TYPE_SHIFT, IXGBE_FDIRCMD_RX_QUEUE_SHIFT.
  apply lor_bounds; [lia|apply lor_bounds; [lia|by vm_compute|]|]; rewrite Z.shiftl_mul_pow2 by lia; lia.
Qed.
(** The queue is what the command says. *)
Lemma sig_command_queue ft queue : 0 <= ft < 2 ^ 8 -> 0 <= queue < 2 ^ 8 -> sig_command ft queue / 2 ^ 16 = queue.
Proof.
  intros Hf Hq. unfold sig_command, IXGBE_FDIRCMD_FLOW_TYPE_SHIFT, IXGBE_FDIRCMD_RX_QUEUE_SHIFT.
  rewrite Z.lor_comm, lor_shiftl_add, Z.div_add_l, Z.div_small by (lia || (apply lor_bounds; [lia|by vm_compute|rewrite Z.shiftl_mul_pow2 by lia; lia])).
  lia.
Qed.

Lemma sig_hash_range input common : 0 <= ixgbe_atr_compute_sig_hash_82599 input common < 2 ^ 32.
Proof.
  unfold ixgbe_atr_compute_sig_hash_82599. cbv zeta. destruct (foldl _ _ _) as [[a b] g].
  apply lxor_bounds; [lia| |]; apply land_bounds; (lia || by vm_compute).
Qed.

Lemma add_signature_performs input common queue :
  0 <= queue < 2 ^ 8 ->
  let ft := Z.land (Z.shiftr input 8) 0xFF in
  performs (ixgbe_fdir_add_signature_filter_82599 input common queue)
    (if existsb (Z.eqb ft) sig_flow_types then 0 else IXGBE_ERR_CONFIG)
    (if existsb (Z.eqb ft) sig_flow_types then
       [(IXGBE_FDIRHASH, sig_command ft queue * 2 ^ 32 + ixgbe_atr_compute_sig_hash_82599 input common)] else []).
Proof.
  intros Hq ft. unfold ixgbe_fdir_add_signature_filter_82599. cbv zeta. fold ft sig_flow_types.
  assert (Hf : 0 <= ft < 2 ^ 8) by (apply land_bounds; lia). pose proof (sig_command_range ft queue Hf Hq).
  destruct (existsb _ _); [|apply performs_ret].
  eapply (performs_bind _ _ _ _ [_] []); [|apply performs_ret]. unfold IXGBE_WRITE_REG64.
  rewrite (u32_small (Z.shiftl queue _)) by (unfold IXGBE_FDIRCMD_RX_QUEUE_SHIFT; rewrite Z.shiftl_mul_pow2 by lia; lia).
  fold (sig_command ft queue). rewrite u64_small by (rewrite Z.shiftl_mul_pow2 by lia; lia).
  rewrite lor_shiftl_add by (lia || apply sig_hash_range). apply performs_write.
Qed.

Lemma formatted_flow_type ft v : 0 <= ft < 2 ^ 8 -> Z.land (Z.shiftr (hash_dword_formatted 0 ft v) 8) 0xFF = ft.
Proof.
  intros Hf. unfold hash_dword_formatted. rewrite (land_ones_mod _ 8), Z.shiftr_div_pow2 by lia.
  replace (0 + ft * 2 ^ 8 + v * 2 ^ 16) with ((ft + v * 2 ^ 8) * 2 ^ 8) by lia.
  rewrite Z.div_mul, Z.mod_add, Z.mod_small by lia. done.
Qed.

(** When [ixgbe_atr] samples a packet. *)
Definition atr_samples (ring : atr_ring) (first : tx_first) (hlen : Z) : Prop :=
  q_vector ring = true /\ atr_sample_rate ring <> 0 /\ atr_hlen first = Some hlen /\
  Z.testbit (network first (hlen + 13)) 0 = false /\
  (Z.testbit (network first (hlen + 13)) 1 = true \/ atr_sample_rate ring <= u8 (atr_count ring + 1)).

(** Sampling steers replies.  For a transmitted TCP packet that is sampled, [ixgbe_atr] restarts the
    sample count and writes exactly one filter: its signature and bucket hashes are those that the
    adapter computes for a reply to the packet (addresses and ports exchanged, same VLAN), and its
    queue is the queue the packet was sent from. *)
Theorem atr_matches_replies ring first hlen h :
  tx_ok first -> atr_samples ring first hlen -> 0 <= queue_index ring < 2 ^ 8 ->
  let stream := hash_stream (reply_input first hlen) in
  let '(ring', h') := ixgbe_atr ring first h in
  ring' = set_atr_count 0 ring /\
  exists v, wlog (tr h') = wlog (tr h) ++ [(IXGBE_FDIRHASH, v)] /\
    v mod 2 ^ 32 = ref_hash IXGBE_ATR_SIGNATURE_HASH_KEY stream * 2 ^ 16 + ref_hash IXGBE_ATR_BUCKET_HASH_KEY stream /\
    v / 2 ^ 48 = queue_index ring.
Proof.
  intros Hok (Hq & Hr & Hh & Hfin & Hs) Hqi stream. destruct (reply_ok first hlen Hok) as [Hd Hb].
  assert (Hft : existsb (Z.eqb (Z.land (Z.shiftr (dword 0 (reply_input first hlen)) 8) 0xFF)) sig_flow_types = true).
  { unfold reply_input, dword. cbn [app nth]. rewrite formatted_flow_type; by destruct (protocol first =? _). }
  pose proof (add_signature_performs (dword 0 (reply_input first hlen)) (xor_dwords (reply_input first hlen)) (queue_index ring) Hqi) as Hp.
  cbv zeta in Hp. rewrite Hft in Hp. unfold ixgbe_atr. rewrite Hq, Hh, Hfin. cbn [negb].
  replace (truthy (atr_sample_rate ring)) with true by (symmetry; unfold truthy; by apply negb_true_iff, Z.eqb_neq).
  cbn [negb]. cbn [atr_count set_atr_count atr_sample_rate queue_index].
  replace (negb (Z.testbit (network first (hlen + 13)) 1) && _) with false.
  2:{ symmetry. destruct Hs as [-> | Hs]; [done|]. by rewrite (proj2 (Z.ltb_ge _ _) Hs), andb_false_r. }
  rewrite atr_dwords_reply, (u8_small (queue_index ring)) by done. mrun. specialize (Hp h). destruct (ixgbe_fdir_add_signature_filter_82599 _ _ _ h) as [e h'].
  destruct Hp as [_ Hw]. cbn [snd] in Hw. split; [done|]. eexists. split; [exact Hw|].
  rewrite sig_hash_correct by done. fold stream.
  pose proof (ref_hash_range IXGBE_ATR_SIGNATURE_HASH_KEY stream). pose proof (ref_hash_range IXGBE_ATR_BUCKET_HASH_KEY stream).
  set (ft := Z.land _ 0xFF). assert (Hf : 0 <= ft < 2 ^ 8) by (apply land_bounds; lia).
  pose proof (sig_command_queue ft _ Hf Hqi) as Hc.
  set (hash := ref_hash _ stream * 2 ^ 16 + _) in *. assert (Hh' : 0 <= hash < 2 ^ 32) by (unfold hash; lia). clearbody hash.
  split; [by rewrite Z.add_comm, Z.mod_add, Z.mod_small by lia|].
  change (2 ^ 48) with (2 ^ 32 * 2 ^ 16). rewrite <- Z.div_div, Z.div_add_l, (Z.div_small hash), Z.add_0_r by lia. exact Hc.
Qed.

(** ** Perfect-match filters *)
Section Perfect.

Lemma dword_range d i : atr_ok d -> 0 <= dword i d < 2 ^ 32.
Proof.
  intros [Hl Hd]. unfold dword. destruct (decide (i < 11)%nat) as [Hi|Hi]; [|rewrite nth_overflow by lia; lia].
  apply (proj1 (List.Forall_forall _ _) Hd), nth_In. lia.
Qed.
Lemma bkt_hash_range d : atr_ok d -> 0 <= bkt_hash d < 2 ^ 16.
Proof. intros Hd. pose proof (dword_range d 10 Hd). unfold bkt_hash. rewrite Z.shiftr_div_pow2 by lia. zdm. Qed.
Lemma dword_insert d i j w : atr_ok d -> (i < 11)%nat -> dword j (<[i := w]> d) = if decide (i = j) then w else dword j d.
Proof.
  intros [Hl _] Hi. unfold dword, atr_input in *. rewrite !nth_lookup. destruct (decide (i = j)) as [->|].
  - by rewrite list_lookup_insert_eq by lia.
  - by rewrite list_lookup_insert_ne.
Qed.
Lemma atr_ok_insert d i w : atr_ok d -> 0 <= w < 2 ^ 32 -> atr_ok (<[i := w]> d).
Proof. unfold atr_ok, atr_input in *. intros [Hl Hd] Hw. split; [by rewrite length_insert|]. by apply Forall_insert. Qed.

Lemma set_flow_type_ok v d : atr_ok d -> 0 <= v < 2 ^ 8 -> atr_ok (set_flow_type v d).
Proof.
  intros Hd Hv. apply atr_ok_insert; [done|]. pose proof (dword_range d 0 Hd).
  unfold vm_pool, vlan_id. rewrite (land_ones_mod _ 8), Z.shiftr_div_pow2 by lia. zdm.
Qed.
Lemma set_flow_type_bkt_hash v d : atr_ok d -> bkt_hash (set_flow_type v d) = bkt_hash d.
Proof. intros Hd. unfold bkt_hash, set_flow_type. by rewrite dword_insert by (done || lia). Qed.

(** The fields of an input with its hash stored. *)
Lemma set_bkt_hash_fields v d :
  atr_ok d -> 0 <= v < 2 ^ 16 ->
  atr_ok (set_bkt_hash v d) /\ bkt_hash (set_bkt_hash v d) = v /\ flex_bytes (set_bkt_hash v d) = flex_bytes d /\
  forall i, (i < 10)%nat -> dword i (set_bkt_hash v d) = dword i d.
Proof.
  intros Hd Hv. unfold set_bkt_hash. assert (Hf : 0 <= flex_bytes d < 2 ^ 16) by (apply land_bounds; lia). split_and!.
  - apply atr_ok_insert; [done|lia].
  - unfold bkt_hash. rewrite dword_insert, decide_True, Z.shiftr_div_pow2, Z.div_add, Z.div_small by (done || lia). lia.
  - unfold flex_bytes at 1. rewrite dword_insert, decide_True, (land_ones_mod _ 16), Z.mod_add, Z.mod_small by (done || lia). done.
  - intros i Hi. rewrite dword_insert by (done || lia). by rewrite decide_False by lia.
Qed.

Definition perfect_command (d : atr_input) (queue : Z) : Z :=
  let fdircmd := Z.lor (Z.lor (Z.lor IXGBE_FDIRCMD_CMD_ADD_FLOW IXGBE_FDIRCMD_FILTER_UPDATE)
                   IXGBE_FDIRCMD_LAST) IXGBE_FDIRCMD_QUEUE_EN in
  let fdircmd := if queue =? IXGBE_FDIR_DROP_QUEUE then Z.lor fdircmd IXGBE_FDIRCMD_DROP else fdircmd in
  Z.lor (Z.lor (Z.lor fdircmd (Z.shiftl (flow_type d) IXGBE_FDIRCMD_FLOW_TYPE_SHIFT))
    (u32 (Z.shiftl queue IXGBE_FDIRCMD_RX_QUEUE_SHIFT))) (u32 (Z.shiftl (vm_pool d) IXGBE_FDIRCMD_VT_POOL_SHIFT)).

(** The writes that program filter [d] under index [soft_id]: addresses as they are in the packet,
    ports and VLAN as numbers, the hash with the index above it, and the command last. *)
Definition filter_writes (d : atr_input) (soft_id queue : Z) : list (Z * Z) :=
  [(IXGBE_FDIRSIPv6 0, src_ip 0 d); (IXGBE_FDIRSIPv6 1, src_ip 1 d); (IXGBE_FDIRSIPv6 2, src_ip 2 d);
   (IXGBE_FDIRIPSA, src_ip 0 d); (IXGBE_FDIRIPDA, dst_ip 0 d);
   (IXGBE_FDIRPORT, ntohs (dst_port d) * 2 ^ 16 + ntohs (src_port d));
   (IXGBE_FDIRVLAN, flex_bytes d * 2 ^ 16 + ntohs (vlan_id d));
   (IXGBE_FDIRHASH, soft_id * 2 ^ 16 + bkt_hash d); (IXGBE_FDIRCMD, perfect_command d queue)].
(** The writes of an input mask: the registers hold the complements. *)
Definition mask_writes (fdirm : Z) (m : atr_input) : list (Z * Z) :=
  [(IXGBE_FDIRM, fdirm); (IXGBE_FDIRTCPM, not32 (ixgbe_get_fdirtcpm_82599 m)); (IXGBE_FDIRUDPM, not32 (ixgbe_get_fdirtcpm_82599 m));
   (IXGBE_FDIRSIP4M, not32 (src_ip 0 m)); (IXGBE_FDIRDIP4M, not32 (dst_ip 0 m))].

Lemma performs_write_then {B} r v v' (k : () -> M B) b w :
  v = v' -> performs (k ()) b w -> performs (x ← IXGBE_WRITE_REG r v; k x) b ((r, v') :: w).
Proof. intros -> Hk. apply (performs_bind _ _ () b [_] w); [apply performs_write|done]. Qed.

Lemma write_perfect_performs d soft_id queue :
  atr_ok d -> 0 <= soft_id < 2 ^ 16 ->
  performs (ixgbe_fdir_write_perfect_filter_82599 d soft_id queue) 0 (filter_writes d soft_id queue).
Proof.
  intros Hd Hs. unfold ixgbe_fdir_write_perfect_filter_82599, filter_writes, IXGBE_WRITE_REG_BE32. cbv zeta.
  pose proof (bswap16_range (dst_port d)) as Hp. pose proof (bswap16_range (src_port d)) as Hq. pose proof (bswap16_range (vlan_id d)) as Hv.
  assert (Hf : 0 <= flex_bytes d < 2 ^ 16) by (apply land_bounds; lia). pose proof (bkt_hash_range d Hd) as Hb.
  assert (Hu : forall a, 0 <= a < 2 ^ 16 -> u32 (Z.shiftl a 16) = Z.shiftl a 16)
    by (intros a Ha; rewrite u32_small; [done|rewrite Z.shiftl_mul_pow2; lia]).
  do 5 (apply performs_write_then; [apply store_as_be32, dword_range, Hd|]).
  apply performs_write_then; [unfold ntohs; by rewrite Hu, lor_shiftl_add by lia|].
  apply performs_write_then; [rewrite store_as_be16 by done; unfold ntohs; by rewrite Hu, lor_shiftl_add by lia|].
  apply performs_write_then; [rewrite Z.lor_comm; by rewrite Hu, lor_shiftl_add by lia|].
  apply performs_quiet; [apply quiet_flush|]. intros _.
  apply performs_write_then; [done|apply performs_ret].
Qed.

Lemma set_input_mask_performs m :
  atr_ok m ->
  performs (ixgbe_fdir_set_input_mask_82599 m) (match fdirm_of m with Some _ => 0 | None => IXGBE_ERR_CONFIG end)
    (match fdirm_of m with Some fdirm => mask_writes fdirm m | None => [] end).
Proof.
  intros Hm. unfold ixgbe_fdir_set_input_mask_82599, mask_writes, IXGBE_WRITE_REG_BE32. cbv zeta.
  destruct (fdirm_of m); [|apply performs_ret].
  repeat first [apply performs_ret|apply performs_write_then; [first [apply store_as_be32, u32_range|reflexivity]|]].
Qed.

(** The mask that goes with an input, unless its type or ports are refused. *)
Definition filter_mask (input mask : atr_input) : option atr_input :=
  let ports := truthy (dst_port input) || truthy (src_port input) in
  if flow_type input =? IXGBE_ATR_FLOW_TYPE_IPV4 then
    if ports then None else Some (set_flow_type 4 mask)
  else if flow_type input =? IXGBE_ATR_FLOW_TYPE_SCTPV4 then
    if ports then None else Some (set_flow_type 7 mask)
  else if (flow_type input =? IXGBE_ATR_FLOW_TYPE_TCPV4) || (flow_type input =? IXGBE_ATR_FLOW_TYPE_UDPV4) then
    Some (set_flow_type 7 mask)
  else None.

Definition input_masked (input m : atr_input) : atr_input := zip_with Z.land input m.
Definition with_hash (d : atr_input) : atr_input :=
  set_bkt_hash (ref_hash IXGBE_ATR_BUCKET_HASH_KEY (hash_stream d) mod 2 ^ 13) d.

Lemma add_perfect_go input m soft_id queue h :
  atr_ok input -> atr_ok m -> bkt_hash m = 0 -> 0 <= soft_id < 2 ^ 16 ->
  let '((e, input', mask'), h') :=
    (err ← ixgbe_fdir_set_input_mask_82599 m;
     if truthy err then mret (err, input, m)
     else
       let input := ixgbe_atr_compute_perfect_hash_82599 input m in
       err ← ixgbe_fdir_write_perfect_filter_82599 input soft_id queue;
       mret (err, input, m)) h in
  match fdirm_of m with
  | Some fdirm =>
      let d := with_hash (input_masked input m) in
      e = 0 /\ input' = d /\ wlog (tr h') = wlog (tr h) ++ mask_writes fdirm m ++ filter_writes d soft_id queue
  | None => e = IXGBE_ERR_CONFIG /\ wlog (tr h') = wlog (tr h)
  end.
Proof.
  intros Hi Hm Hb Hs. pose proof (set_input_mask_performs m Hm h) as [He Hw]. mrun.
  destruct (ixgbe_fdir_set_input_mask_82599 m h) as [err h1]. cbn in He, Hw. subst err.
  destruct (fdirm_of m) as [fdirm|]; cbn [truthy Z.eqb negb IXGBE_ERR_CONFIG].
  2:{ split; [done|]. by rewrite app_nil_r in Hw. }
  pose proof (perfect_hash_correct input m Hi Hm Hb) as Hd. cbv zeta in Hd.
  fold (input_masked input m) (with_hash (input_masked input m)) in Hd. cbv zeta. rewrite Hd.
  assert (Hok : atr_ok (with_hash (input_masked input m))).
  { apply set_bkt_hash_fields; [by apply masked_ok|]. pose proof (Z.mod_pos_bound (ref_hash IXGBE_ATR_BUCKET_HASH_KEY
      (hash_stream (input_masked input m))) (2 ^ 13) ltac:(lia)). lia. }
  pose proof (write_perfect_performs _ soft_id queue Hok Hs h1) as [He Hw'].
  destruct (ixgbe_fdir_write_perfect_filter_82599 _ _ _ h1) as [e h2]. cbn in He, Hw'. subst e.
  split_and!; [done|done|]. by rewrite Hw', Hw, app_assoc.
Qed.

(** Perfect filters are programmed as asked or not at all.  For an input whose type and ports are
    accepted and a mask that the adapter supports, the function writes the complemented masks, then
    the masked addresses, ports and VLAN, the hash that the adapter computes for them under the
    given index, and the add command last; otherwise it returns [IXGBE_ERR_CONFIG] and writes no
    register. *)
Theorem add_perfect_filter_correct input mask soft_id queue h :
  atr_ok input -> atr_ok mask -> bkt_hash mask = 0 -> 0 <= soft_id < 2 ^ 16 ->
  let '((e, input', _), h') := ixgbe_fdir_add_perfect_filter_82599 input mask soft_id queue h in
  match m ← filter_mask input mask; fdirm ← fdirm_of m; Some (m, fdirm) with
  | Some (m, fdirm) =>
      let d := with_hash (input_masked input m) in
      e = 0 /\ input' = d /\ wlog (tr h') = wlog (tr h) ++ mask_writes fdirm m ++ filter_writes d soft_id queue
  | None => e = IXGBE_ERR_CONFIG /\ wlog (tr h') = wlog (tr h)
  end.
Proof.
  intros Hi Hm Hb Hs.
  assert (Hgo : forall v, 0 <= v < 2 ^ 8 -> atr_ok (set_flow_type v mask) /\ bkt_hash (set_flow_type v mask) = 0)
    by (intros v Hv; split; [by apply set_flow_type_ok|by rewrite set_flow_type_bkt_hash]).
  unfold ixgbe_fdir_add_perfect_filter_82599, filter_mask. cbv zeta.
  change (Z.lor IXGBE_ATR_L4TYPE_IPV6_MASK IXGBE_ATR_L4TYPE_MASK) with 7. change IXGBE_ATR_L4TYPE_IPV6_MASK with 4.
  cbn [existsb]. rewrite orb_false_r.
  destruct (flow_type input =? IXGBE_ATR_FLOW_TYPE_IPV4), (flow_type input =? IXGBE_ATR_FLOW_TYPE_SCTPV4),
    (truthy (dst_port input) || truthy (src_port input)),
    ((flow_type input =? IXGBE_ATR_FLOW_TYPE_TCPV4) || (flow_type input =? IXGBE_ATR_FLOW_TYPE_UDPV4)); cbn [andb orb];
    lazymatch goal with
    | |- context [mret (IXGBE_ERR_CONFIG, _, _) h] => by split
    | |- context [set_flow_type ?v mask] =>
        destruct (Hgo v ltac:(lia)) as [Hok Hz]; pose proof (add_perfect_go input _ soft_id queue h Hi Hok Hz Hs) as H;
        match type of H with context [@mbind M M_bind ?A ?B ?k ?x h] => destruct (@mbind M M_bind A B k x h) as [[[e i'] m'] h'] end;
        cbn [mbind option_bind]; destruct (fdirm_of (set_flow_type v mask)); exact H
    | |- _ => done
    end.
Qed.
End Perfect.

(** ** Removing a filter *)
Lemma query_loop_quiet n v : quiet (query_loop n v).
Proof.
  revert v. induction n as [|n IH]; intros v; cbn; [apply quiet_ret|]. apply quiet_bind; [apply quiet_read|].
  intros c. destruct (negb _); [apply quiet_ret|apply IH].
Qed.
Lemma query_loop_done n v h (Q : Z * nat -> ixgbe_hw -> Prop) :
  (n <> O) -> (forall c h', wlog (tr h') = wlog (tr h) -> Q (c, if Z.land c IXGBE_FDIRCMD_CMD_MASK =? 0 then 1%nat else 0%nat) h') ->
  wlp (query_loop n v) h (fun q => Q (q.1, Nat.min q.2 1)).
Proof.
  revert v h. induction n as [|n IH]; intros v h Hn HQ; [done|]. cbn [query_loop]. apply wlp_bind, wlp_read.
  set (c := ans h _ _). assert (Hw : wlog (tr (emit [Rd IXGBE_FDIRCMD c] h)) = wlog (tr h)) by apply wlog_read.
  specialize (HQ c _ Hw) as HQ'. unfold truthy. rewrite negb_involutive. destruct (Z.land c _ =? 0) eqn:Ec.
  { apply wlp_ret. cbn. by rewrite Nat.min_0_r. }
  destruct n as [|n]; [done|]. apply IH; [done|]. intros c' h' Hh. apply HQ. congruence.
Qed.

(** The removal is commanded only after the adapter reported the filter, and the result says whether
    the adapter finished the query. *)
Lemma erase_perfect_spec d soft_id h :
  let hash := Z.lor (bkt_hash d) (u32 (Z.shiftl soft_id IXGBE_FDIRHASH_SIG_SW_INDEX_SHIFT)) in
  wlp (ixgbe_fdir_erase_perfect_filter_82599 d soft_id) h (fun e h' => exists c,
    e = (if Z.land c IXGBE_FDIRCMD_CMD_MASK =? 0 then 0 else IXGBE_ERR_FDIR_REINIT_FAILED) /\
    wlog (tr h') = wlog (tr h) ++ [(IXGBE_FDIRHASH, hash); (IXGBE_FDIRCMD, IXGBE_FDIRCMD_CMD_QUERY_REM_FILT)] ++
      (if truthy (Z.land c IXGBE_FDIRCMD_FILTER_VALID) then [(IXGBE_FDIRHASH, hash); (IXGBE_FDIRCMD, IXGBE_FDIRCMD_CMD_REMOVE_FLOW)] else [])).
Proof.
  intros hash. unfold ixgbe_fdir_erase_perfect_filter_82599. cbv zeta. fold hash.
  apply wlp_bind. eapply wlp_performs; [apply performs_write|]. intros h1 H1.
  apply wlp_bind, wlp_quiet; [apply quiet_flush|]. intros _ h2 H2.
  apply wlp_bind. eapply wlp_performs; [apply performs_write|]. intros h3 H3.
  apply wlp_bind. eapply wlp_mono; [apply (query_loop_done 10 0 h3 (fun q h' => wlog (tr h') = wlog (tr h3) /\
    q.2 = if Z.land q.1 IXGBE_FDIRCMD_CMD_MASK =? 0 then 1%nat else 0%nat)); [done|by split]|].
  intros [c k] h4 [H4 Hk]. cbn [fst snd] in H4, Hk. apply wlp_bind. rewrite H1 in H2. rewrite H2, <- app_assoc in H3. rewrite H3 in H4.
  set (rm := if truthy (Z.land c IXGBE_FDIRCMD_FILTER_VALID) then [(IXGBE_FDIRHASH, hash); (IXGBE_FDIRCMD, IXGBE_FDIRCMD_CMD_REMOVE_FLOW)] else []).
  assert (Hrm : performs (if truthy (Z.land c IXGBE_FDIRCMD_FILTER_VALID) then
         _ ← IXGBE_WRITE_REG IXGBE_FDIRHASH hash; _ ← IXGBE_WRITE_FLUSH; IXGBE_WRITE_REG IXGBE_FDIRCMD IXGBE_FDIRCMD_CMD_REMOVE_FLOW
         else mret ()) () rm).
  { unfold rm. destruct (truthy _); [|apply performs_ret]. apply performs_write_then; [done|].
    apply performs_quiet; [apply quiet_flush|]. intros _. apply performs_write. }
  eapply wlp_performs; [exact Hrm|]. intros h5 H5. apply wlp_ret. exists c. split.
  - destruct (_ =? 0), k; done.
  - rewrite H5, H4, <- app_assoc. done.
Qed.

(** ** Examples *)
Definition idle_hw : ixgbe_hw := hw_init ixgbe_mac_82599EB (fun _ _ => 0).

Lemma fdirtcpm_reversed_witness :
  Z.testbit (ixgbe_get_fdirtcpm_82599 example_mask) 3 = Z.testbit (ntohs (src_port example_mask)) (15 - 3) /\
  Z.testbit (ixgbe_get_fdirtcpm_82599 example_mask) (16 + 3) = Z.testbit (ntohs (dst_port example_mask)) (15 - 3).
Proof. apply fdirtcpm_reversed. lia. Defined.

(** A TCP SYN from 10.0.0.1:1234 to 10.0.0.2:80. *)
Definition syn_packet : Z -> Z := fun i =>
  if 0 <=? i then nth (Z.to_nat i) [0x45; 0; 0; 40; 0; 0; 0; 0; 64; 6; 0; 0; 10; 0; 0; 1; 10; 0; 0; 2; 0x04; 0xD2; 0; 80; 0; 0; 0; 0; 0; 0; 0; 0; 0x50; 2] 0 else 0.
Definition syn_first : tx_first := TxFirst syn_packet (htons ETH_P_IP) 0.
Lemma syn_first_ok : tx_ok syn_first.
Proof.
  split; [|cbn; split; vm_compute; congruence]. intros i. cbn. unfold syn_packet. destruct (0 <=? i); [|lia].
  destruct (nth_in_or_default (Z.to_nat i) [0x45; 0; 0; 40; 0; 0; 0; 0; 64; 6; 0; 0; 10; 0; 0; 1; 10; 0; 0; 2; 0x04; 0xD2; 0; 80; 0; 0; 0; 0; 0; 0; 0; 0; 0x50; 2] 0) as [Hin|Hd]; [|rewrite Hd; lia].
  revert Hin. generalize (nth (Z.to_nat i) [0x45; 0; 0; 40; 0; 0; 0; 0; 64; 6; 0; 0; 10; 0; 0; 1; 10; 0; 0; 2; 0x04; 0xD2; 0; 80; 0; 0; 0; 0; 0; 0; 0; 0; 0x50; 2] 0).
  intros z Hin. cbn in Hin. lia.
Qed.
Definition example_ring : atr_ring := AtrRing true 20 7 5.

Lemma atr_matches_replies_witness :
  exists v, wlog (tr (ixgbe_atr example_ring syn_first idle_hw).2) = [(IXGBE_FDIRHASH, v)] /\
    v mod 2 ^ 32 = ref_hash IXGBE_ATR_SIGNATURE_HASH_KEY (hash_stream (reply_input syn_first 20)) * 2 ^ 16 +
                   ref_hash IXGBE_ATR_BUCKET_HASH_KEY (hash_stream (reply_input syn_first 20)).
Proof.
  pose proof (atr_matches_replies example_ring syn_first 20 idle_hw syn_first_ok) as H. cbv zeta in H.
  destruct (ixgbe_atr example_ring syn_first idle_hw) as [r h']. destruct H as (_ & v & Hw & Hv & _).
  - unfold atr_samples. split_and!; [reflexivity|cbn; lia|reflexivity|reflexivity|left; reflexivity].
  - cbn. lia.
  - exists v. split; [exact Hw|exact Hv].
Defined.

Lemma add_perfect_filter_correct_witness :
  let m := set_flow_type 7 example_mask in
  let d := with_hash (input_masked example_input m) in
  wlog (tr (ixgbe_fdir_add_perfect_filter_82599 example_input example_mask 3 5 idle_hw).2) = mask_writes 0x26 m ++ filter_writes d 3 5.
Proof.
  pose proof (add_perfect_filter_correct example_input example_mask 3 5 idle_hw example_input_ok example_mask_ok) as H.
  destruct (ixgbe_fdir_add_perfect_filter_82599 _ _ _ _ _) as [[[e i] mk] h'].
  destruct H as (_ & _ & H); [reflexivity|lia|exact H].
Defined.
