(* ===== verification/FdirRules.v ===== *)
(** * The table of flow director rules ([ixgbe_ethtool.c], [ixgbe_main.c])

    The user's perfect-match rules live in a list that the code means to keep sorted by location. The
    list is walked with [hlist_for_each_entry_safe] of [kcompat.h], whose cursor [node] is the
    entry after the current one, and [ixgbe_update_ethtool_fdir_entry] takes that cursor for the
    predecessor of the new rule. *)
From Stdlib Require Import Sorted.
From S2P Require Import Prelude Bits Hw FlowDir FlowFilters.

(** ** Data *)
Record ixgbe_fdir_filter := FdirFilter { filter : atr_input; sw_idx : Z; action : Z }.

(** An entry of the list: its address and its contents. *)
Definition entry : Type := Z * ixgbe_fdir_filter.

Record fdir_adapter := FdirAdapter {
  fdir_filter_list : list entry; fdir_filter_count : Z; fdir_mask : atr_input; fdir_pballoc : Z;
  perfect_capable : bool; num_rx_queues : Z; reg_idx : Z -> Z
}.
Definition set_rules l n a :=
  FdirAdapter l n (fdir_mask a) (fdir_pballoc a) (perfect_capable a) (num_rx_queues a) (reg_idx a).
Definition set_fdir_mask m a :=
  FdirAdapter (fdir_filter_list a) (fdir_filter_count a) m (fdir_pballoc a) (perfect_capable a) (num_rx_queues a) (reg_idx a).

(** The part of [struct ethtool_rx_flow_spec] that the code reads; [h_] fields are values, [m_] fields
    masks. *)
Record flow_spec := FlowSpec {
  fs_flow_type : Z; fs_proto : Z; fs_m_proto : Z;
  h_ip4src : Z; m_ip4src : Z; h_ip4dst : Z; m_ip4dst : Z; h_psrc : Z; m_psrc : Z; h_pdst : Z; m_pdst : Z;
  h_pool : Z; m_pool : Z; h_vlan_tci : Z; m_vlan_tci : Z; h_vlan_etype : Z; m_vlan_etype : Z;
  ring_cookie : Z; location : Z
}.

(** Constants of the kernel's [ethtool.h], [in.h] and [errno.h]. *)
Definition TCP_V4_FLOW : Z := 0x01.
Definition UDP_V4_FLOW : Z := 0x02.
Definition SCTP_V4_FLOW : Z := 0x03.
Definition IP_USER_FLOW : Z := 0x0d.
Definition FLOW_EXT : Z := 0x80000000.
Definition RX_CLS_FLOW_DISC : Z := 2 ^ 64 - 1.
Definition IPPROTO_UDP : Z := 17.
Definition IPPROTO_SCTP : Z := 132.
Definition EINVAL : Z := 22.
Definition ENOMEM : Z := 12.
Definition EOPNOTSUPP : Z := 95.
Definition EMSGSIZE : Z := 90.

(** ** The list operations *)

(** [hlist_for_each_entry_safe (rule, node, ..) { if (rule->sw_idx >= idx) break; parent = node; }]:
    [node] is [rule]'s successor. The result is [parent] and [rule] after the loop. *)
Fixpoint find_rule (idx : Z) (l : list entry) (parent : option Z) : option Z * option entry :=
  match l with
  | [] => (parent, None)
  | rule :: rest => if sw_idx rule.2 >=? idx then (parent, Some rule) else find_rule idx rest (fst <$> head rest)
  end.

Definition hlist_del (p : Z) (l : list entry) : list entry := List.filter (fun e => negb (e.1 =? p)) l.
(** Insertion after the entry at [p]; [None] when no entry is there any more (it was freed). *)
Fixpoint hlist_add_after (p : Z) (n : entry) (l : list entry) : option (list entry) :=
  match l with
  | [] => None
  | e :: l => if e.1 =? p then Some (e :: n :: l) else cons e <$> hlist_add_after p n l
  end.

(** The return value and the adapter, or [None] when freed memory is used. *)
Definition ixgbe_update_ethtool_fdir_entry (input : option entry) (idx : Z) (a : fdir_adapter) : M (option (Z * fdir_adapter)) :=
  let '(parent, rule) := find_rule idx (fdir_filter_list a) None in
  r ← match rule with
      | Some rule =>
          if sw_idx rule.2 =? idx then
            err ← match input with
                  | Some i =>
                      if negb (bkt_hash (filter rule.2) =? bkt_hash (filter i.2)) then
                        ixgbe_fdir_erase_perfect_filter_82599 (filter rule.2) idx
                      else mret (- EINVAL)
                  | None => ixgbe_fdir_erase_perfect_filter_82599 (filter rule.2) idx
                  end;
            mret (err, set_rules (hlist_del rule.1 (fdir_filter_list a)) (s32 (fdir_filter_count a - 1)) a)
          else mret (- EINVAL, a)
      | None => mret (- EINVAL, a)
      end;
  let '(err, a) := r in
  match input with
  | None => mret (Some (err, a))
  | Some i =>
      match parent with
      | Some p =>
          match hlist_add_after p i (fdir_filter_list a) with
          | Some l => mret (Some (0, set_rules l (s32 (fdir_filter_count a + 1)) a))
          | None => mret None
          end
      | None => mret (Some (0, set_rules (i :: fdir_filter_list a) (s32 (fdir_filter_count a + 1)) a))
      end
  end.

Definition ixgbe_del_ethtool_fdir_entry (loc : Z) (a : fdir_adapter) : M (option (Z * fdir_adapter)) :=
  ixgbe_update_ethtool_fdir_entry None (u16 loc) a.

(** [hlist_for_each_entry_safe (rule, ..) if (fsp->location <= rule->sw_idx) break;] *)
Fixpoint seek_rule (loc : Z) (l : list entry) : option ixgbe_fdir_filter :=
  match l with
  | [] => None
  | rule :: rest => if loc <=? sw_idx rule.2 then Some rule.2 else seek_rule loc rest
  end.

(** The type that the flow specification gets, or [None] for a type that is refused. *)
Definition ethtool_flow_type (ft : Z) : option Z :=
  if ft =? IXGBE_ATR_FLOW_TYPE_TCPV4 then Some TCP_V4_FLOW
  else if ft =? IXGBE_ATR_FLOW_TYPE_UDPV4 then Some UDP_V4_FLOW
  else if ft =? IXGBE_ATR_FLOW_TYPE_SCTPV4 then Some SCTP_V4_FLOW
  else if ft =? IXGBE_ATR_FLOW_TYPE_IPV4 then Some IP_USER_FLOW
  else None.

Definition htonl : Z -> Z := bswap32.

(** The error, or the caller's specification filled in. *)
Definition ixgbe_get_ethtool_fdir_entry (fsp : flow_spec) (a : fdir_adapter) : Z + flow_spec :=
  let loc := location fsp in
  let mask := fdir_mask a in
  match seek_rule loc (fdir_filter_list a) with
  | None => inl (- EINVAL)
  | Some rule =>
      if negb (loc =? sw_idx rule) then inl (- EINVAL)
      else
        let f := filter rule in
        match ethtool_flow_type (flow_type f) with
        | None => inl (- EINVAL)
        | Some ft =>
            inr {| fs_flow_type := Z.lor ft FLOW_EXT; fs_proto := if ft =? IP_USER_FLOW then 0 else fs_proto fsp;
                   fs_m_proto := if ft =? IP_USER_FLOW then 0 else fs_m_proto fsp;
                   h_ip4src := src_ip 0 f; m_ip4src := src_ip 0 mask; h_ip4dst := dst_ip 0 f; m_ip4dst := dst_ip 0 mask;
                   h_psrc := src_port f; m_psrc := src_port mask; h_pdst := dst_port f; m_pdst := dst_port mask;
                   h_pool := htonl (vm_pool f); m_pool := htonl (vm_pool mask);
                   h_vlan_tci := vlan_id f; m_vlan_tci := vlan_id mask;
                   h_vlan_etype := flex_bytes f; m_vlan_etype := flex_bytes mask;
                   ring_cookie := if action rule =? IXGBE_FDIR_DROP_QUEUE then RX_CLS_FLOW_DISC else action rule;
                   location := loc |}
        end
  end.

(** The locations stored in the caller's array of [rule_cnt] entries, or the error. *)
Definition ixgbe_get_ethtool_fdir_all (rule_cnt : Z) (a : fdir_adapter) : Z + list Z :=
  let l := fdir_filter_list a in
  if Z.of_nat (length l) >? rule_cnt then inl (- EMSGSIZE) else inr (map (fun e => sw_idx e.2) l).

Definition ixgbe_flowspec_to_flow_type (fsp : flow_spec) : option Z :=
  let ft := Z.ldiff (fs_flow_type fsp) FLOW_EXT in
  if ft =? TCP_V4_FLOW then Some IXGBE_ATR_FLOW_TYPE_TCPV4
  else if ft =? UDP_V4_FLOW then Some IXGBE_ATR_FLOW_TYPE_UDPV4
  else if ft =? SCTP_V4_FLOW then Some IXGBE_ATR_FLOW_TYPE_SCTPV4
  else if ft =? IP_USER_FLOW then
    if fs_proto fsp =? IPPROTO_TCP then Some IXGBE_ATR_FLOW_TYPE_TCPV4
    else if fs_proto fsp =? IPPROTO_UDP then Some IXGBE_ATR_FLOW_TYPE_UDPV4
    else if fs_proto fsp =? IPPROTO_SCTP then Some IXGBE_ATR_FLOW_TYPE_SCTPV4
    else if (fs_proto fsp =? 0) && negb (truthy (fs_m_proto fsp)) then Some IXGBE_ATR_FLOW_TYPE_IPV4
    else None
  else None.

(** A zeroed [union ixgbe_atr_input] with the fields set that the code sets. *)
Definition make_input (pool ft vlan dst src sport dport flex : Z) : atr_input :=
  [pool + ft * 2 ^ 8 + vlan * 2 ^ 16; dst; 0; 0; 0; src; 0; 0; 0; sport + dport * 2 ^ 16; flex].

(** [alloc] is the address that [kzalloc] returns. The caller allows the configuration at all
    through [perfect_capable]. *)
Definition ixgbe_add_ethtool_fdir_entry (fsp : flow_spec) (alloc : option Z) (a : fdir_adapter) : M (option (Z * fdir_adapter)) :=
  if negb (perfect_capable a) then mret (Some (- EOPNOTSUPP, a))
  else if negb (ring_cookie fsp =? RX_CLS_FLOW_DISC) && (ring_cookie fsp >=? num_rx_queues a) then mret (Some (- EINVAL, a))
  else if location fsp >=? Z.shiftl 1024 (fdir_pballoc a) - 2 then mret (Some (- EINVAL, a))
  else
    match alloc with
    | None => mret (Some (- ENOMEM, a))
    | Some p =>
        match ixgbe_flowspec_to_flow_type fsp with
        | None => mret (Some (- EINVAL, a))
        | Some ft =>
            let mft := Z.lor IXGBE_ATR_L4TYPE_IPV6_MASK IXGBE_ATR_L4TYPE_MASK in
            let mft := if ft =? IXGBE_ATR_FLOW_TYPE_IPV4 then Z.land mft IXGBE_ATR_L4TYPE_IPV6_MASK else mft in
            let ext := truthy (Z.land (fs_flow_type fsp) FLOW_EXT) in
            let opt v := if ext then v else 0 in
            let input := make_input (opt (u8 (ntohl (h_pool fsp)))) ft (opt (h_vlan_tci fsp)) (h_ip4dst fsp) (h_ip4src fsp)
                           (h_psrc fsp) (h_pdst fsp) (opt (h_vlan_etype fsp)) in
            let mask := make_input (opt (u8 (ntohl (m_pool fsp)))) mft (opt (m_vlan_tci fsp)) (m_ip4dst fsp) (m_ip4src fsp)
                          (m_psrc fsp) (m_pdst fsp) (opt (m_vlan_etype fsp)) in
            let act := if ring_cookie fsp =? RX_CLS_FLOW_DISC then IXGBE_FDIR_DROP_QUEUE else u16 (ring_cookie fsp) in
            (* the mask: programmed with the first rule, and the same for all *)
            r ← match fdir_filter_list a with
                | [] => err ← ixgbe_fdir_set_input_mask_82599 mask; mret (negb (truthy err), set_fdir_mask mask a)
                | _ => mret (bool_decide (fdir_mask a = mask), a)
                end;
            let '(ok, a) := r in
            if negb ok then mret (Some (- EINVAL, a))
            else
              let input := ixgbe_atr_compute_perfect_hash_82599 input mask in
              let queue := if act =? IXGBE_FDIR_DROP_QUEUE then IXGBE_FDIR_DROP_QUEUE else u8 (reg_idx a act) in
              err ← ixgbe_fdir_write_perfect_filter_82599 input (u16 (location fsp)) queue;
              if truthy err then mret (Some (- EINVAL, a))
              else
                r ← ixgbe_update_ethtool_fdir_entry (Some (p, FdirFilter input (u16 (location fsp)) act)) (u16 (location fsp)) a;
                mret (match r with Some (_, a) => Some (err, a) | None => None end)
        end
    end.

(** Rules are written back after a reset, and all freed when the device goes. *)
Fixpoint restore_rules (a : fdir_adapter) (l : list entry) : M () :=
  match l with
  | [] => mret ()
  | (_, r) :: l =>
      _ ← ixgbe_fdir_write_perfect_filter_82599 (filter r) (sw_idx r)
            (if action r =? IXGBE_FDIR_DROP_QUEUE then IXGBE_FDIR_DROP_QUEUE else u8 (reg_idx a (action r)));
      restore_rules a l
  end.
Definition ixgbe_fdir_filter_restore (a : fdir_adapter) : M () :=
  _ ← match fdir_filter_list a with [] => mret 0 | _ => ixgbe_fdir_set_input_mask_82599 (fdir_mask a) end;
  restore_rules a (fdir_filter_list a).
Definition ixgbe_fdir_filter_exit (a : fdir_adapter) : fdir_adapter := set_rules [] 0 a.

(** ** The list *)
Definition idx_sorted (l : list entry) : Prop := StronglySorted (fun x y => sw_idx x.2 < sw_idx y.2) l.
Definition below (idx : Z) (l : list entry) : Prop := Forall (fun e => sw_idx e.2 < idx) l.
(** The rules from [idx] on, in a sorted list. *)
Definition from (idx : Z) (l : list entry) : Prop := Forall (fun e => idx <= sw_idx e.2) l.
(** Entries have different addresses. *)
Definition distinct (l : list entry) : Prop := NoDup (map fst l).

Lemma sorted_split idx l : idx_sorted l -> exists l1 l2, l = l1 ++ l2 /\ below idx l1 /\ from idx l2.
Proof.
  induction 1 as [|e l Hs IH Hall]; [exists [], []; split_and!; by try apply Forall_nil|]. destruct IH as (l1 & l2 & -> & H1 & H2).
  destruct (decide (sw_idx e.2 < idx)).
  - exists (e :: l1), l2. split_and!; [done|by apply Forall_cons|done].
  - exists [], (e :: l1 ++ l2). split_and!; [done|by apply Forall_nil|]. apply Forall_cons. split; [lia|].
    eapply Forall_impl; [exact Hall|]. cbn. lia.
Qed.

Lemma find_rule_split idx l1 l2 parent :
  below idx l1 -> from idx l2 ->
  find_rule idx (l1 ++ l2) parent = (match l1 with [] => parent | _ => fst <$> head l2 end, head l2).
Proof.
  intros H1 H2. revert parent. induction H1 as [|e l1 He H1 IH]; intros parent; cbn.
  - destruct l2 as [|e l2]; [done|]. apply Forall_cons in H2 as [He _]. cbn. by rewrite (proj2 (Z.geb_le _ _)).
  - destruct (Z.geb_spec (sw_idx e.2) idx); [lia|]. rewrite IH. by destruct l1.
Qed.

Lemma seek_rule_split loc l1 l2 : below loc l1 -> from loc l2 -> seek_rule loc (l1 ++ l2) = snd <$> head l2.
Proof.
  intros H1 H2. induction H1 as [|e l1 He H1 IH]; cbn.
  - destruct l2 as [|e l2]; [done|]. apply Forall_cons in H2 as [He _]. cbn. by rewrite (proj2 (Z.leb_le _ _)).
  - by destruct (Z.leb_spec loc (sw_idx e.2)); [lia|].
Qed.

Lemma hlist_del_head e l1 l2 : distinct (l1 ++ e :: l2) -> hlist_del e.1 (l1 ++ e :: l2) = l1 ++ l2.
Proof.
  intros Hd. unfold hlist_del. rewrite List.filter_app. cbn [List.filter]. rewrite Z.eqb_refl. cbn [negb].
  unfold distinct in Hd. rewrite map_app in Hd. cbn in Hd. apply NoDup_app in Hd as (_ & Hn1 & Hd2). apply NoDup_cons in Hd2 as [Hn2 _].
  assert (Hf : forall l, ~ In e.1 (map fst l) -> List.filter (fun x : entry => negb (x.1 =? e.1)) l = l).
  { induction l as [|x l IH]; [done|]. cbn. intros Hx. destruct (Z.eqb_spec x.1 e.1); [tauto|]. cbn. f_equal. apply IH. tauto. }
  rewrite !Hf; [done| |]; intros Hin; apply list_elem_of_In in Hin; [by apply Hn2|].
  apply (Hn1 _ Hin). by left.
Qed.

Lemma add_after_gone p n l : ~ In p (map fst l) -> hlist_add_after p n l = None.
Proof.
  induction l as [|e l IH]; [done|]. cbn. intros H. destruct (Z.eqb_spec e.1 p); [tauto|]. rewrite IH; [done|tauto].
Qed.
Lemma add_after_at e n l1 l2 : distinct (l1 ++ e :: l2) -> hlist_add_after e.1 n (l1 ++ e :: l2) = Some (l1 ++ e :: n :: l2).
Proof.
  unfold distinct. rewrite map_app. intros Hd. apply NoDup_app in Hd as (_ & Hn & _).
  induction l1 as [|x l1 IH]; cbn; [by rewrite Z.eqb_refl|].
  destruct (Z.eqb_spec x.1 e.1) as [Hx|]; [exfalso; apply (Hn x.1); cbn; rewrite ?Hx; by left|].
  rewrite IH; [done|]. intros y Hy. apply Hn. by right.
Qed.

(** ** What an update does *)
Section Update.
Context (a : fdir_adapter) (l1 l2 : list entry).
Context (Hl : fdir_filter_list a = l1 ++ l2) (Hd : distinct (l1 ++ l2)).

(** The old rule at [idx], if any, is out. *)
Definition without_head (idx : Z) (l2 : list entry) : list entry :=
  match l2 with e :: l => if sw_idx e.2 =? idx then l else l2 | [] => [] end.
Definition has_head (idx : Z) (l2 : list entry) : bool := match l2 with e :: _ => sw_idx e.2 =? idx | [] => false end.

Lemma delete_split idx h :
  below idx l1 -> from idx l2 ->
  wlp (ixgbe_update_ethtool_fdir_entry None idx a) h (fun r _ => exists e,
    r = Some (e, if has_head idx l2 then set_rules (l1 ++ without_head idx l2) (s32 (fdir_filter_count a - 1)) a else a) /\
    (if has_head idx l2 then e = 0 \/ e = IXGBE_ERR_FDIR_REINIT_FAILED else e = - EINVAL)).
Proof using Hl Hd.
  intros H1 H2. unfold ixgbe_update_ethtool_fdir_entry. rewrite Hl, find_rule_split by done.
  destruct l2 as [|e l2']; cbn [head has_head without_head]; [by eexists|].
  destruct (sw_idx e.2 =? idx) eqn:Ee; [|by eexists].
  apply wlp_bind, wlp_bind. eapply wlp_mono; [apply erase_perfect_spec|]. intros err h' (c & -> & _). apply wlp_ret, wlp_ret.
  rewrite hlist_del_head by done. eexists. split; [done|]. destruct (_ =? 0); auto.
Qed.

Lemma add_split i h :
  below (sw_idx i.2) l1 -> from (sw_idx i.2) l2 ->
  wlp (ixgbe_update_ethtool_fdir_entry (Some i) (sw_idx i.2) a) h (fun r _ =>
    match l1, l2 with
    | [], _ => exists n, r = Some (0, set_rules (i :: without_head (sw_idx i.2) l2) n a)
    | _, [] => exists n, r = Some (0, set_rules (i :: l1) n a)
    | _, e :: l => if sw_idx e.2 =? sw_idx i.2 then r = None else exists n, r = Some (0, set_rules (l1 ++ e :: i :: l) n a)
    end).
Proof using Hl Hd.
  intros H1 H2. unfold ixgbe_update_ethtool_fdir_entry. rewrite Hl, find_rule_split by done.
  destruct l2 as [|e l2']; cbn [head fmap option_fmap option_map without_head].
  { apply wlp_bind, wlp_ret. rewrite Hl, app_nil_r. destruct l1; apply wlp_ret; by eexists. }
  destruct (sw_idx e.2 =? sw_idx i.2) eqn:Ee.
  2:{ apply wlp_bind, wlp_ret. rewrite Hl. destruct l1 as [|e1 l1']; [apply wlp_ret; by eexists|].
      rewrite add_after_at by done. apply wlp_ret. by eexists. }
  apply wlp_bind, wlp_bind. assert (Hgone : ~ In e.1 (map fst (l1 ++ l2'))).
  { unfold distinct in Hd. rewrite map_app in *. cbn in Hd. apply NoDup_app in Hd as (_ & Hn & Hn2). apply NoDup_cons in Hn2 as [Hn2 _].
    rewrite in_app_iff. intros [Hin|Hin]; apply list_elem_of_In in Hin; [|done]. apply (Hn _ Hin). by left. }
  set (Q := fun _ _ => _). enough (HQ : forall err h', Q err h').
  { destruct (negb _); [|apply HQ]. unfold wlp at 1. apply HQ. }
  intros err h'. unfold Q. apply wlp_ret. cbn [fdir_filter_list set_rules]. rewrite hlist_del_head by done.
  destruct l1 as [|e1 l1']; [apply wlp_ret; by eexists|]. rewrite add_after_gone by done. by apply wlp_ret.
Qed.
End Update.

Lemma sorted_app_inv l1 l2 : idx_sorted (l1 ++ l2) -> idx_sorted l1 /\ idx_sorted l2 /\ forall x y, In x l1 -> In y l2 -> sw_idx x.2 < sw_idx y.2.
Proof.
  induction l1 as [|e l1 IH]; cbn; intros H; [split_and!; [constructor|done|done]|].
  inversion H as [|? ? Hs Hall]; subst. destruct (IH Hs) as (? & ? & Hc). apply Forall_app in Hall as [Ha1 Ha2].
  split_and!; [by constructor|done|]. intros x y [<-|Hx] Hy; [|by apply Hc].
  by apply (proj1 (List.Forall_forall _ _) Ha2).
Qed.

Lemma sorted_app l1 l2 :
  idx_sorted l1 -> idx_sorted l2 -> (forall x y, In x l1 -> In y l2 -> sw_idx x.2 < sw_idx y.2) -> idx_sorted (l1 ++ l2).
Proof.
  induction 1 as [|e l1 Hs IH Hall]; intros H2 Hc; [done|]. cbn. constructor; [apply IH; [done|]; intros; apply Hc; [by right|done]|].
  apply Forall_app. split; [done|]. apply List.Forall_forall. intros y Hy. apply Hc; [by left|done].
Qed.

Lemma without_head_sorted idx l : idx_sorted l -> idx_sorted (without_head idx l).
Proof. destruct 1 as [|e l Hs Hall]; cbn; [constructor|]. destruct (_ =? _); [done|by constructor]. Qed.
Lemma without_head_In idx l x : idx_sorted l -> from idx l -> In x (without_head idx l) <-> In x l /\ sw_idx x.2 <> idx.
Proof.
  intros Hs Hf. destruct l as [|e l]; cbn; [tauto|]. inversion Hs as [|? ? Hs' Hall]; subst.
  apply Forall_cons in Hf as [He Hf]. rewrite List.Forall_forall in Hall. split.
  - intros Hx. destruct (Z.eqb_spec (sw_idx e.2) idx); [split; [by right|]; specialize (Hall x Hx); lia|].
    split; [done|]. destruct Hx as [<-|Hx]; [done|]. specialize (Hall x Hx). lia.
  - intros [[<-|Hx] Hn]; destruct (Z.eqb_spec (sw_idx e.2) idx); [done|by left|done|by right].
Qed.
Lemma has_head_In idx l : idx_sorted l -> from idx l -> has_head idx l = true <-> exists x, In x l /\ sw_idx x.2 = idx.
Proof.
  intros Hs Hf. destruct l as [|e l]; cbn; [split; [done|]; by intros (x & [] & _)|].
  inversion Hs as [|? ? Hs' Hall]; subst. apply Forall_cons in Hf as [He Hf]. rewrite List.Forall_forall in Hall. split.
  - intros H%Z.eqb_eq. exists e. by split; [left|].
  - intros (x & [<-|Hx] & Hi); [by apply Z.eqb_eq|]. specialize (Hall x Hx). lia.
Qed.

(** Deletion is right on a sorted table.  If the table is sorted, deleting a location removes
    exactly the rule there, keeps the order and lowers the count by one, and reports whether the adapter
    finished; without a rule at the location it returns [-EINVAL] and changes nothing. *)
Theorem delete_rule_correct a loc h :
  idx_sorted (fdir_filter_list a) -> distinct (fdir_filter_list a) -> 0 <= loc < 2 ^ 16 ->
  let '(r, _) := ixgbe_del_ethtool_fdir_entry loc a h in
  exists e a', r = Some (e, a') /\ idx_sorted (fdir_filter_list a') /\
    (forall x, In x (fdir_filter_list a') <-> In x (fdir_filter_list a) /\ sw_idx x.2 <> loc) /\
    ((exists x, In x (fdir_filter_list a) /\ sw_idx x.2 = loc) ->
       fdir_filter_count a' = s32 (fdir_filter_count a - 1) /\ (e = 0 \/ e = IXGBE_ERR_FDIR_REINIT_FAILED)) /\
    ((forall x, In x (fdir_filter_list a) -> sw_idx x.2 <> loc) -> a' = a /\ e = - EINVAL).
Proof.
  intros Hs Hd Hloc. unfold ixgbe_del_ethtool_fdir_entry. rewrite u16_small by done. apply wlp_run.
  destruct (sorted_split loc _ Hs) as (l1 & l2 & Hl & H1 & H2). rewrite Hl in Hd, Hs.
  eapply wlp_mono; [by apply (delete_split a l1 l2 Hl Hd loc h)|]. intros r _ (e & -> & He).
  destruct (sorted_app_inv l1 l2 Hs) as (Hs1 & Hs2 & Hc). pose proof (has_head_In loc l2 Hs2 H2) as Hhas.
  pose proof (fun x => without_head_In loc l2 x Hs2 H2) as Hwo. unfold below in H1. rewrite List.Forall_forall in H1.
  exists e. rewrite Hl. destruct (has_head loc l2) eqn:Eh; eexists; (split; [reflexivity|]); cbn [fdir_filter_list set_rules fdir_filter_count].
  - split_and!.
    + apply sorted_app; [done|by apply without_head_sorted|]. intros x y Hx Hy. apply Hc; [done|]. by apply Hwo.
    + intros x. rewrite !in_app_iff, Hwo. split; [|tauto]. intros [Hx|?]; [|tauto]. specialize (H1 x Hx). split; [tauto|lia].
    + done.
    + intros Hno. destruct (proj1 Hhas eq_refl) as (x & Hx & Hi). destruct (Hno x); [apply in_app_iff; tauto|done].
  - rewrite Hl. split_and!; [done| | |done].
    + intros x. split; [|tauto]. intros Hx. split; [done|]. intros Hi. apply in_app_iff in Hx as [Hx|Hx]; [specialize (H1 x Hx); lia|].
      assert (false = true) by (apply Hhas; eauto). done.
    + intros (x & Hx & Hi). apply in_app_iff in Hx as [Hx|Hx]; [specialize (H1 x Hx); lia|].
      assert (false = true) by (apply Hhas; eauto). done.
Qed.

(** Adding keeps the order only below the smallest.  On a sorted table, adding or replacing
    a rule leaves a sorted table that contains it exactly when no rule has a smaller location than the new
    one: the new rule's place is taken from the cursor after the current entry. *)
Theorem add_rule_order a i h :
  idx_sorted (fdir_filter_list a) -> distinct (fdir_filter_list a) ->
  let '(r, _) := ixgbe_update_ethtool_fdir_entry (Some i) (sw_idx i.2) a h in
  (exists a', r = Some (0, a') /\ idx_sorted (fdir_filter_list a')) <-> from (sw_idx i.2) (fdir_filter_list a).
Proof.
  intros Hs Hd. apply wlp_run. destruct (sorted_split (sw_idx i.2) _ Hs) as (l1 & l2 & Hl & H1 & H2). rewrite Hl in Hd, Hs.
  eapply wlp_mono; [by apply (add_split a l1 l2 Hl Hd i h)|]. intros r hw Hr. cbv beta in *. rewrite Hl.
  destruct (sorted_app_inv l1 l2 Hs) as (Hs1 & Hs2 & Hc). destruct l1 as [|e1 l1]; cbn [app].
  - destruct Hr as [n ->]. split; [done|]. intros _. eexists. split; [done|]. cbn.
    constructor; [by apply without_head_sorted|]. apply List.Forall_forall. intros x Hx.
    apply without_head_In in Hx as [Hx Hn]; [|done|done]. unfold from in H2. rewrite List.Forall_forall in H2. specialize (H2 x Hx). cbv beta in H2. lia.
  - apply Forall_cons in H1 as [He1 H1]. split; [|intros Hf; apply Forall_cons in Hf as [Hf _]; lia].
    intros (a' & -> & Ha). exfalso. destruct l2 as [|e l2].
    + destruct Hr as [n [= ->]]. cbn in Ha. inversion Ha as [|? ? _ Hall]; subst. apply Forall_cons in Hall as [Hx _]. lia.
    + destruct (Z.eqb_spec (sw_idx e.2) (sw_idx i.2)); [done|]. destruct Hr as [k [= ->]]. cbn [fdir_filter_list set_rules] in Ha.
      apply Forall_cons in H2 as [He _]. apply (sorted_app_inv (e1 :: l1) (e :: i :: l2)) in Ha as (_ & Ha & _).
      inversion Ha as [|? ? _ Hall]; subst. apply Forall_cons in Hall as [Hx _]. lia.
Qed.

(** Replacing a rule that is not the first uses freed memory: the entry whose successor the new one
    is to become is the one that was just freed. *)
Theorem replace_rule_uses_freed a l1 e l2 i h :
  fdir_filter_list a = l1 ++ e :: l2 -> idx_sorted (fdir_filter_list a) -> distinct (fdir_filter_list a) ->
  l1 <> [] -> sw_idx i.2 = sw_idx e.2 ->
  (ixgbe_update_ethtool_fdir_entry (Some i) (sw_idx i.2) a h).1 = None.
Proof.
  intros Hl Hs Hd Hne Hi. rewrite Hl in Hs, Hd. destruct (sorted_app_inv _ _ Hs) as (_ & Hs2 & Hc).
  apply wlp_fst. apply (wlp_mono (ixgbe_update_ethtool_fdir_entry (Some i) (sw_idx i.2) a) h _ (fun r _ => r = None) (add_split a l1 (e :: l2) Hl Hd i h
    ltac:(unfold below; apply List.Forall_forall; intros x Hx; rewrite Hi; apply Hc; [done|by left])
    ltac:(unfold from; inversion Hs2 as [|? ? _ Hall]; subst; apply Forall_cons; split; [lia|]; eapply Forall_impl; [exact Hall|]; cbn; lia))).
  intros r _. destruct l1; [done|]. by rewrite Hi, Z.eqb_refl.
Qed.

(** The second rule hides the first.  With one rule in the table, adding a second one at a greater
    location succeeds, but from then on the first can be neither shown nor deleted. *)
Theorem second_rule_hides_first a e i fsp h h' :
  fdir_filter_list a = [e] -> 0 <= sw_idx e.2 < 2 ^ 16 -> sw_idx e.2 < sw_idx i.2 -> location fsp = sw_idx e.2 ->
  exists a', (ixgbe_update_ethtool_fdir_entry (Some i) (sw_idx i.2) a h).1 = Some (0, a') /\
    In e (fdir_filter_list a') /\ ixgbe_get_ethtool_fdir_entry fsp a' = inl (- EINVAL) /\
    (ixgbe_del_ethtool_fdir_entry (sw_idx e.2) a' h').1 = Some (- EINVAL, a').
Proof.
  intros Hl He Hi Hloc. exists (set_rules [i; e] (s32 (fdir_filter_count a + 1)) a).
  assert (Hge : (sw_idx i.2 >=? sw_idx e.2) = true) by (apply Z.geb_le; lia).
  assert (Hne : (sw_idx i.2 =? sw_idx e.2) = false) by (apply Z.eqb_neq; lia).
  split_and!; [|by right; left| |].
  - unfold ixgbe_update_ethtool_fdir_entry. rewrite Hl. cbn [find_rule]. destruct (Z.geb_spec (sw_idx e.2) (sw_idx i.2)); [lia|].
    cbn. unfold mbind, M_bind. cbn. by rewrite Hl.
  - unfold ixgbe_get_ethtool_fdir_entry. rewrite Hloc. cbn. rewrite (proj2 (Z.leb_le _ _)) by lia.
    rewrite (proj2 (Z.eqb_neq (sw_idx e.2) _)) by lia. done.
  - unfold ixgbe_del_ethtool_fdir_entry, ixgbe_update_ethtool_fdir_entry. rewrite u16_small by done. cbn. rewrite Hge, Hne. done.
Qed.

(** ** A rule is shown as it was given *)
Section Show.

Definition spec_ok (fsp : flow_spec) : Prop :=
  Forall (fun v => 0 <= v < 2 ^ 32) [h_ip4src fsp; m_ip4src fsp; h_ip4dst fsp; m_ip4dst fsp] /\
  Forall (fun v => 0 <= v < 2 ^ 16) [h_psrc fsp; m_psrc fsp; h_pdst fsp; m_pdst fsp; h_vlan_tci fsp; m_vlan_tci fsp; h_vlan_etype fsp; m_vlan_etype fsp].

Record input_fields (d : atr_input) (pool ft vlan dst src sport dport flex : Z) : Prop := InputFields {
  if_ok : atr_ok d; if_pool : vm_pool d = pool; if_ft : flow_type d = ft; if_vlan : vlan_id d = vlan;
  if_dst : dst_ip 0 d = dst; if_src : src_ip 0 d = src; if_sport : src_port d = sport; if_dport : dst_port d = dport;
  if_flex : flex_bytes d = flex
}.

Lemma make_input_fields pool ft vlan dst src sport dport flex :
  0 <= pool < 2 ^ 8 -> 0 <= ft < 2 ^ 8 -> 0 <= vlan < 2 ^ 16 -> 0 <= dst < 2 ^ 32 -> 0 <= src < 2 ^ 32 ->
  0 <= sport < 2 ^ 16 -> 0 <= dport < 2 ^ 16 -> 0 <= flex < 2 ^ 16 ->
  input_fields (make_input pool ft vlan dst src sport dport flex) pool ft vlan dst src sport dport flex /\
  bkt_hash (make_input pool ft vlan dst src sport dport flex) = 0.
Proof.
  intros. split; [split|]; try done; unfold make_input.
  - split; [done|]. rewrite !Forall_cons, Forall_nil. split_and!; (done || lia).
  - unfold vm_pool, dword. cbn [nth]. rewrite (land_ones_mod _ 8) by lia. zdm.
  - unfold flow_type, dword. cbn [nth]. rewrite (land_ones_mod _ 8), Z.shiftr_div_pow2 by lia. zdm.
  - unfold vlan_id, dword. cbn [nth]. rewrite Z.shiftr_div_pow2 by lia. zdm.
  - unfold src_port, dword. cbn [nth]. rewrite (land_ones_mod _ 16) by lia. zdm.
  - unfold dst_port, dword. cbn [nth]. rewrite Z.shiftr_div_pow2 by lia. zdm.
  - unfold flex_bytes, dword. cbn [nth]. rewrite (land_ones_mod _ 16) by lia. zdm.
  - unfold bkt_hash, dword. cbn [nth]. rewrite Z.shiftr_div_pow2 by lia. zdm.
Qed.

Lemma dword_masked i d m : atr_ok d -> atr_ok m -> (i < 11)%nat -> dword i (input_masked d m) = Z.land (dword i d) (dword i m).
Proof.
  intros [Hd _] [Hm _] Hi. unfold dword, input_masked, atr_input in *. rewrite !nth_lookup, lookup_zip_with.
  destruct (lookup_lt_is_Some_2 d i) as [x Hx]; [lia|]. destruct (lookup_lt_is_Some_2 m i) as [y Hy]; [lia|].
  by rewrite Hx, Hy.
Qed.

Lemma land_land_mask x y c : Z.land (Z.land x y) c = Z.land (Z.land x c) (Z.land y c).
Proof. apply Z.bits_inj'. intros i _. rewrite !Z.land_spec. by destruct (Z.testbit x i), (Z.testbit y i), (Z.testbit c i). Qed.

Lemma with_hash_fields d m pool ft vlan dst src sport dport flex pool' ft' vlan' dst' src' sport' dport' flex' :
  input_fields d pool ft vlan dst src sport dport flex -> input_fields m pool' ft' vlan' dst' src' sport' dport' flex' ->
  input_fields (with_hash (input_masked d m)) (Z.land pool pool') (Z.land ft ft') (Z.land vlan vlan') (Z.land dst dst') (Z.land src src')
    (Z.land sport sport') (Z.land dport dport') (Z.land flex flex').
Proof.
  intros [Hd <- <- <- <- <- <- <- <-] [Hm <- <- <- <- <- <- <- <-].
  pose proof (masked_ok d m Hd Hm) as Hok. fold (input_masked d m) in Hok.
  pose proof (Z.mod_pos_bound (ref_hash IXGBE_ATR_BUCKET_HASH_KEY (hash_stream (input_masked d m))) (2 ^ 13) ltac:(lia)) as Hh.
  assert (Hs : atr_ok (with_hash (input_masked d m)) /\ flex_bytes (with_hash (input_masked d m)) = flex_bytes (input_masked d m) /\
    forall i, (i < 10)%nat -> dword i (with_hash (input_masked d m)) = dword i (input_masked d m)).
  { unfold with_hash. set (v := _ mod 2 ^ 13) in *. clearbody v. destruct (set_bkt_hash_fields v _ Hok ltac:(lia)) as (? & _ & ? & ?). auto. }
  destruct Hs as (Hok' & Hflex & Hdw). clear Hh. set (D := with_hash _) in *. clearbody D.
  split; [exact Hok'| | | | | | | |rewrite Hflex];
    unfold vm_pool, flow_type, vlan_id, dst_ip, src_ip, src_port, dst_port, flex_bytes; rewrite ?Hdw by lia;
    rewrite dword_masked by (assumption || lia); rewrite ?Z.shiftr_land; try apply land_land_mask; reflexivity.
Qed.

(** The mask and the input that a specification stands for. *)
Definition spec_input (fsp : flow_spec) (ft : Z) : atr_input :=
  let opt v := if truthy (Z.land (fs_flow_type fsp) FLOW_EXT) then v else 0 in
  make_input (opt (u8 (ntohl (h_pool fsp)))) ft (opt (h_vlan_tci fsp)) (h_ip4dst fsp) (h_ip4src fsp) (h_psrc fsp) (h_pdst fsp)
    (opt (h_vlan_etype fsp)).
Definition spec_mask (fsp : flow_spec) (ft : Z) : atr_input :=
  let opt v := if truthy (Z.land (fs_flow_type fsp) FLOW_EXT) then v else 0 in
  let mft := if ft =? IXGBE_ATR_FLOW_TYPE_IPV4 then 4 else 7 in
  make_input (opt (u8 (ntohl (m_pool fsp)))) mft (opt (m_vlan_tci fsp)) (m_ip4dst fsp) (m_ip4src fsp) (m_psrc fsp) (m_pdst fsp)
    (opt (m_vlan_etype fsp)).

(** What is shown of a rule: the values under their masks, and the masks. *)
Definition shown (fsp : flow_spec) (ft eft : Z) : flow_spec :=
  let opt v := if truthy (Z.land (fs_flow_type fsp) FLOW_EXT) then v else 0 in
  {| fs_flow_type := Z.lor eft FLOW_EXT;
     fs_proto := if eft =? IP_USER_FLOW then 0 else fs_proto fsp; fs_m_proto := if eft =? IP_USER_FLOW then 0 else fs_m_proto fsp;
     h_ip4src := Z.land (h_ip4src fsp) (m_ip4src fsp); m_ip4src := m_ip4src fsp;
     h_ip4dst := Z.land (h_ip4dst fsp) (m_ip4dst fsp); m_ip4dst := m_ip4dst fsp;
     h_psrc := Z.land (h_psrc fsp) (m_psrc fsp); m_psrc := m_psrc fsp; h_pdst := Z.land (h_pdst fsp) (m_pdst fsp); m_pdst := m_pdst fsp;
     h_pool := htonl (Z.land (opt (u8 (ntohl (h_pool fsp)))) (opt (u8 (ntohl (m_pool fsp))))); m_pool := htonl (opt (u8 (ntohl (m_pool fsp))));
     h_vlan_tci := Z.land (opt (h_vlan_tci fsp)) (opt (m_vlan_tci fsp)); m_vlan_tci := opt (m_vlan_tci fsp);
     h_vlan_etype := Z.land (opt (h_vlan_etype fsp)) (opt (m_vlan_etype fsp)); m_vlan_etype := opt (m_vlan_etype fsp);
     ring_cookie := ring_cookie fsp; location := location fsp |}.

(** The checks that a new rule must pass. *)
Definition rule_allowed (a : fdir_adapter) (fsp : flow_spec) : Prop :=
  perfect_capable a = true /\ (ring_cookie fsp = RX_CLS_FLOW_DISC \/ 0 <= ring_cookie fsp < num_rx_queues a) /\
  0 <= location fsp < Z.shiftl 1024 (fdir_pballoc a) - 2.

Lemma flow_type_cases fsp ft :
  ixgbe_flowspec_to_flow_type fsp = Some ft ->
  0 <= ft < 4 /\ Z.land ft (if ft =? IXGBE_ATR_FLOW_TYPE_IPV4 then 4 else 7) = ft /\ exists eft, ethtool_flow_type ft = Some eft.
Proof. unfold ixgbe_flowspec_to_flow_type. split_ifs; intros [= <-]; (split_and!; [done|done|done|by eexists]). Qed.

Lemma spec_fields fsp ft :
  spec_ok fsp -> 0 <= ft < 4 ->
  let opt v := if truthy (Z.land (fs_flow_type fsp) FLOW_EXT) then v else 0 in
  (input_fields (spec_input fsp ft) (opt (u8 (ntohl (h_pool fsp)))) ft (opt (h_vlan_tci fsp)) (h_ip4dst fsp) (h_ip4src fsp)
    (h_psrc fsp) (h_pdst fsp) (opt (h_vlan_etype fsp))) /\
  (input_fields (spec_mask fsp ft) (opt (u8 (ntohl (m_pool fsp)))) (if ft =? IXGBE_ATR_FLOW_TYPE_IPV4 then 4 else 7) (opt (m_vlan_tci fsp))
    (m_ip4dst fsp) (m_ip4src fsp) (m_psrc fsp) (m_pdst fsp) (opt (m_vlan_etype fsp))) /\
  bkt_hash (spec_mask fsp ft) = 0.
Proof.
  intros [H32 H16] Hft opt. rewrite !Forall_cons in H32. rewrite !Forall_cons in H16. pose proof (u8_range (ntohl (h_pool fsp))). pose proof (u8_range (ntohl (m_pool fsp))).
  destruct_and!. split; apply make_input_fields; unfold opt; split_ifs; lia.
Qed.

(** A rule is shown as it was given.  The first rule that passes the checks is stored, its mask becomes
    the port's, and asking for its location returns the rule: every value under its mask, every mask, the
    type and the queue as they were given. *)
Theorem first_rule_roundtrip a fsp p ft h :
  fdir_filter_list a = [] -> rule_allowed a fsp -> spec_ok fsp -> location fsp < 2 ^ 16 ->
  ring_cookie fsp <> IXGBE_FDIR_DROP_QUEUE -> num_rx_queues a <= 2 ^ 16 ->
  ixgbe_flowspec_to_flow_type fsp = Some ft -> is_Some (fdirm_of (spec_mask fsp ft)) ->
  exists a' eft, (ixgbe_add_ethtool_fdir_entry fsp (Some p) a h).1 = Some (0, a') /\
    ethtool_flow_type ft = Some eft /\ ixgbe_get_ethtool_fdir_entry fsp a' = inr (shown fsp ft eft).
Proof.
  intros Hl (Hcap & Hrc & Hloc) Hok Hloc16 Hdrop Hnq Hft [fdirm Hm].
  destruct (flow_type_cases fsp ft Hft) as (Hft4 & Hland & eft & Heft).
  destruct (spec_fields fsp ft Hok Hft4) as (Hi & Hmf & Hb0).
  pose proof (with_hash_fields _ _ _ _ _ _ _ _ _ _ _ _ _ _ _ _ _ _ Hi Hmf) as [Hdok Hpool Hftd Hvlan Hdst Hsrc Hsp Hdp Hflex].
  rewrite Hland in Hftd.
  set (act := if ring_cookie fsp =? RX_CLS_FLOW_DISC then IXGBE_FDIR_DROP_QUEUE else u16 (ring_cookie fsp)).
  set (d := with_hash (input_masked (spec_input fsp ft) (spec_mask fsp ft))) in *.
  assert (Hd : ixgbe_atr_compute_perfect_hash_82599 (spec_input fsp ft) (spec_mask fsp ft) = d)
    by (apply perfect_hash_correct; [apply Hi|apply Hmf|done]).
  exists (set_rules [(p, FdirFilter d (location fsp) act)] (s32 (fdir_filter_count a + 1)) (set_fdir_mask (spec_mask fsp ft) a)), eft.
  split_and!; [|done|].
  - apply wlp_fst. unfold ixgbe_add_ethtool_fdir_entry. rewrite Hcap, Hft. cbn [negb].
    replace (negb (ring_cookie fsp =? RX_CLS_FLOW_DISC) && (ring_cookie fsp >=? num_rx_queues a)) with false.
    2:{ symmetry. destruct Hrc as [->|Hrc]; [by rewrite Z.eqb_refl|]. destruct (Z.geb_spec (ring_cookie fsp) (num_rx_queues a)); [lia|apply andb_false_r]. }
    destruct (Z.geb_spec (location fsp) (Z.shiftl 1024 (fdir_pballoc a) - 2)); [lia|]. cbv zeta.
    change (Z.lor IXGBE_ATR_L4TYPE_IPV6_MASK IXGBE_ATR_L4TYPE_MASK) with 7. change (Z.land 7 IXGBE_ATR_L4TYPE_IPV6_MASK) with 4.
    fold (spec_input fsp ft) (spec_mask fsp ft) act. rewrite Hl, Hd. apply wlp_bind, wlp_bind.
    eapply wlp_performs; [apply set_input_mask_performs, Hmf|]. intros h1 _. rewrite Hm. apply wlp_ret. cbn [truthy Z.eqb negb].
    apply wlp_bind. rewrite u16_small by lia. eapply wlp_performs; [apply write_perfect_performs; [done|lia]|]. intros h2 _. cbn [truthy Z.eqb negb].
    apply wlp_bind. unfold ixgbe_update_ethtool_fdir_entry. cbn [fdir_filter_list set_fdir_mask]. rewrite Hl. cbn [find_rule].
    apply wlp_bind, wlp_ret, wlp_ret, wlp_ret. cbn [fdir_filter_list set_fdir_mask]. by rewrite Hl.
  - unfold ixgbe_get_ethtool_fdir_entry. cbn [fdir_filter_list set_rules seek_rule sw_idx snd]. rewrite Z.leb_refl. cbn [sw_idx filter fdir_mask set_rules set_fdir_mask action].
    rewrite Z.eqb_refl. cbn [negb]. rewrite Hftd, Heft, Hpool, Hvlan, Hdst, Hsrc, Hsp, Hdp, Hflex. destruct Hmf as [_ -> _ -> -> -> -> -> ->].
    unfold shown. do 2 f_equal. unfold act. destruct (Z.eqb_spec (ring_cookie fsp) RX_CLS_FLOW_DISC) as [->|Hr]; [done|].
    rewrite u16_small, (proj2 (Z.eqb_neq _ _) Hdrop) by lia. done.
Qed.
End Show.

(** ** Examples *)
Definition rule_at (p idx : Z) : entry := (p, FdirFilter example_input idx 5).
Definition adapter_of (l : list entry) : fdir_adapter :=
  FdirAdapter l (Z.of_nat (length l)) example_mask 1 true 8 (fun i => i).
Definition example_spec : flow_spec :=
  FlowSpec (Z.lor TCP_V4_FLOW FLOW_EXT) 0 0 0x0200000A 0xFFFFFFFF 0x0100000A 0xFFFFFFFF 0xD204 0xFFFF 0x5000 0xFFFF 0 0 0x6400 0xFFFF 0 0 5 40.

Lemma two_rules_sorted : idx_sorted [rule_at 100 1; rule_at 200 7].
Proof. repeat constructor; cbn; lia. Qed.
Lemma two_rules_distinct : distinct [rule_at 100 1; rule_at 200 7].
Proof. unfold distinct. cbn. rewrite !NoDup_cons, !not_elem_of_cons. split_and!; try apply not_elem_of_nil; [lia|apply NoDup_nil_2]. Qed.

Lemma delete_rule_correct_witness :
  exists e a', (ixgbe_del_ethtool_fdir_entry 7 (adapter_of [rule_at 100 1; rule_at 200 7]) idle_hw).1 = Some (e, a') /\
    idx_sorted (fdir_filter_list a') /\ forall x, In x (fdir_filter_list a') <-> In x [rule_at 100 1; rule_at 200 7] /\ sw_idx x.2 <> 7.
Proof.
  pose proof (delete_rule_correct (adapter_of [rule_at 100 1; rule_at 200 7]) 7 idle_hw two_rules_sorted two_rules_distinct) as H.
  destruct (ixgbe_del_ethtool_fdir_entry _ _ _) as [r h']. destruct H as (e & a' & H1 & H2 & H3 & _); [lia|].
  exists e, a'. split; [exact H1|split; [exact H2|exact H3]].
Defined.

Lemma add_rule_order_witness :
  let '(r, _) := ixgbe_update_ethtool_fdir_entry (Some (rule_at 300 5)) 5 (adapter_of [rule_at 100 1; rule_at 200 7]) idle_hw in
  (exists a', r = Some (0, a') /\ idx_sorted (fdir_filter_list a')) <-> from 5 [rule_at 100 1; rule_at 200 7].
Proof. apply (add_rule_order (adapter_of [rule_at 100 1; rule_at 200 7]) (rule_at 300 5)); [exact two_rules_sorted|exact two_rules_distinct]. Defined.

Lemma replace_rule_uses_freed_witness :
  (ixgbe_update_ethtool_fdir_entry (Some (rule_at 300 7)) 7 (adapter_of [rule_at 100 1; rule_at 200 7]) idle_hw).1 = None.
Proof.
  apply (replace_rule_uses_freed (adapter_of [rule_at 100 1; rule_at 200 7]) [rule_at 100 1] (rule_at 200 7) [] (rule_at 300 7) idle_hw);
    [reflexivity|exact two_rules_sorted|exact two_rules_distinct|discriminate|reflexivity].
Defined.

Lemma second_rule_hides_first_witness :
  exists a', (ixgbe_update_ethtool_fdir_entry (Some (rule_at 200 41)) 41 (adapter_of [rule_at 100 40]) idle_hw).1 = Some (0, a') /\
    ixgbe_get_ethtool_fdir_entry example_spec a' = inl (- EINVAL).
Proof.
  destruct (second_rule_hides_first (adapter_of [rule_at 100 40]) (rule_at 100 40) (rule_at 200 41) example_spec idle_hw idle_hw)
    as (a' & H1 & _ & H2 & _); [reflexivity|cbn; lia|cbn; lia|reflexivity|]. exists a'. split; [exact H1|exact H2].
Defined.

Lemma first_rule_roundtrip_witness :
  exists a', (ixgbe_add_ethtool_fdir_entry example_spec (Some 100) (adapter_of []) idle_hw).1 = Some (0, a') /\
    ixgbe_get_ethtool_fdir_entry example_spec a' = inr (shown example_spec IXGBE_ATR_FLOW_TYPE_TCPV4 TCP_V4_FLOW).
Proof.
  destruct (first_rule_roundtrip (adapter_of []) example_spec 100 IXGBE_ATR_FLOW_TYPE_TCPV4 idle_hw) as (a' & eft & H1 & H2 & H3).
  - reflexivity.
  - split; [reflexivity|]. split; [right; cbn; lia|split; vm_compute; congruence].
  - split; repeat (constructor; [cbn; lia|]); constructor.
  - cbn. lia.
  - cbn. unfold IXGBE_FDIR_DROP_QUEUE. lia.
  - cbn. lia.
  - reflexivity.
  - eexists. vm_compute. reflexivity.
  - exists a'. injection H2 as <-. split; [exact H1|exact H3].
Defined.
