(* ===== verification/Eeprom.v ===== *)
(** * The EEPROM ([ixgbe_common.c])

    Word access through the EERD and EEWR registers and bit by bit over SPI, the semaphores that
    guard it, and the checksum. The functions reach the EEPROM through the pointers of
    [hw->eeprom.ops]: the class [EepromOps] is that interface, the checksum functions are written against
    it. *)
From S2P Require Import Prelude Bits Hw.

(** ** Constants *)
Definition IXGBE_EEC : Z := 0x10010.
Definition IXGBE_EERD : Z := 0x10014.
Definition IXGBE_EEWR : Z := 0x10018.
Definition IXGBE_SWSM : Z := 0x10140.
Definition IXGBE_GSSR : Z := 0x10160.
Definition IXGBE_SWSM_SMBI : Z := 0x00000001.
Definition IXGBE_SWSM_SWESMBI : Z := 0x00000002.
Definition IXGBE_GSSR_EEP_SM : Z := 0x0001.
Definition IXGBE_EEC_SK : Z := 0x00000001.
Definition IXGBE_EEC_CS : Z := 0x00000002.
Definition IXGBE_EEC_DI : Z := 0x00000004.
Definition IXGBE_EEC_DO : Z := 0x00000008.
Definition IXGBE_EEC_REQ : Z := 0x00000040.
Definition IXGBE_EEC_GNT : Z := 0x00000080.
Definition IXGBE_EEC_PRES : Z := 0x00000100.
Definition IXGBE_EEC_ADDR_SIZE : Z := 0x00000400.
Definition IXGBE_EEC_SIZE : Z := 0x00007800.
Definition IXGBE_EEC_SIZE_SHIFT : Z := 11.
Definition IXGBE_EEPROM_WORD_SIZE_SHIFT : Z := 6.
Definition IXGBE_EEPROM_OPCODE_BITS : Z := 8.
Definition IXGBE_EEPROM_CHECKSUM : Z := 0x3F.
Definition IXGBE_EEPROM_SUM : Z := 0xBABA.
Definition IXGBE_PCIE_ANALOG_PTR : Z := 0x03.
Definition IXGBE_FW_PTR : Z := 0x0F.
Definition IXGBE_EEPROM_MAX_RETRY_SPI : Z := 5000.
Definition IXGBE_EEPROM_STATUS_RDY_SPI : Z := 0x01.
Definition IXGBE_EEPROM_READ_OPCODE_SPI : Z := 0x03.
Definition IXGBE_EEPROM_WRITE_OPCODE_SPI : Z := 0x02.
Definition IXGBE_EEPROM_A8_OPCODE_SPI : Z := 0x08.
Definition IXGBE_EEPROM_WREN_OPCODE_SPI : Z := 0x06.
Definition IXGBE_EEPROM_RDSR_OPCODE_SPI : Z := 0x05.
Definition IXGBE_EEPROM_RW_REG_DATA : Z := 16.
Definition IXGBE_EEPROM_RW_REG_DONE : Z := 2.
Definition IXGBE_EEPROM_RW_REG_START : Z := 1.
Definition IXGBE_EEPROM_RW_ADDR_SHIFT : Z := 2.
Definition IXGBE_NVM_POLL_WRITE : Z := 1.
Definition IXGBE_NVM_POLL_READ : Z := 0.
Definition IXGBE_EEPROM_PAGE_SIZE_MAX : Z := 128.
Definition IXGBE_EEPROM_RD_BUFFER_MAX_COUNT : Z := 256.
Definition IXGBE_EEPROM_GRANT_ATTEMPTS : nat := Z.to_nat 1000.
Definition IXGBE_EERD_EEWR_ATTEMPTS : nat := Z.to_nat 100000.
Definition IXGBE_ERR_EEPROM : Z := -1.
Definition IXGBE_ERR_EEPROM_CHECKSUM : Z := -2.
Definition IXGBE_ERR_SWFW_SYNC : Z := -16.
Definition IXGBE_ERR_INVALID_ARGUMENT : Z := -32.

(** ** Parameters *)
Definition ixgbe_init_eeprom_params_generic : M Z :=
  h ← get;
  if bool_decide (ee_type (eeprom h) = ixgbe_eeprom_uninitialized) then
    eec ← IXGBE_READ_REG IXGBE_EEC;
    let pres := truthy (Z.land eec IXGBE_EEC_PRES) in
    let eeprom_size := u16 (Z.shiftr (Z.land eec IXGBE_EEC_SIZE) IXGBE_EEC_SIZE_SHIFT) in
    _ ← modify (fun h =>
      set_eeprom (Eeprom (if pres then ixgbe_eeprom_spi else ixgbe_eeprom_none) 10
        (if pres then u16 (Z.shiftl 1 (eeprom_size + IXGBE_EEPROM_WORD_SIZE_SHIFT)) else word_size (eeprom h))
        (if truthy (Z.land eec IXGBE_EEC_ADDR_SIZE) then 16 else 8) 0) h);
    mret 0
  else mret 0.

(** ** Semaphores *)
Definition ixgbe_release_eeprom_semaphore : M () :=
  swsm ← IXGBE_READ_REG IXGBE_SWSM;
  _ ← IXGBE_WRITE_REG IXGBE_SWSM (Z.ldiff swsm (Z.lor IXGBE_SWSM_SWESMBI IXGBE_SWSM_SMBI));
  IXGBE_WRITE_FLUSH.

(** The loop that sets SWESMBI: whether it was granted within [timeout] attempts. *)
Fixpoint get_swesmbi (timeout : nat) : M bool :=
  match timeout with
  | O => mret false
  | S n =>
      swsm ← IXGBE_READ_REG IXGBE_SWSM;
      _ ← IXGBE_WRITE_REG IXGBE_SWSM (Z.lor swsm IXGBE_SWSM_SWESMBI);
      swsm ← IXGBE_READ_REG IXGBE_SWSM;
      if truthy (Z.land swsm IXGBE_SWSM_SWESMBI) then mret true else get_swesmbi n
  end.

Definition semaphore_timeout : nat := Z.to_nat 2000.
Definition ixgbe_get_eeprom_semaphore : M Z :=
  got ← poll_reg semaphore_timeout IXGBE_SWSM (fun swsm => negb (truthy (Z.land swsm IXGBE_SWSM_SMBI)));
  got ← (if got : bool then mret true
         else
           _ ← ixgbe_release_eeprom_semaphore;
           swsm ← IXGBE_READ_REG IXGBE_SWSM;
           mret (negb (truthy (Z.land swsm IXGBE_SWSM_SMBI))));
  if got : bool then
    granted ← get_swesmbi semaphore_timeout;
    if granted : bool then mret 0 else _ ← ixgbe_release_eeprom_semaphore; mret IXGBE_ERR_EEPROM
  else mret IXGBE_ERR_EEPROM.

Definition ixgbe_release_swfw_sync (mask : Z) : M () :=
  _ ← ixgbe_get_eeprom_semaphore;
  gssr ← IXGBE_READ_REG IXGBE_GSSR;
  _ ← IXGBE_WRITE_REG IXGBE_GSSR (Z.ldiff gssr mask);
  ixgbe_release_eeprom_semaphore.

(** The attempts of [ixgbe_acquire_swfw_sync]: [inl] a result to return, [inr] the last value of
    [gssr] when the time is up. *)
Fixpoint swfw_loop (timeout : nat) (both swmask gssr : Z) : M (Z + Z) :=
  match timeout with
  | O => mret (inr gssr)
  | S n =>
      e ← ixgbe_get_eeprom_semaphore;
      if truthy e then mret (inl IXGBE_ERR_SWFW_SYNC)
      else
        gssr ← IXGBE_READ_REG IXGBE_GSSR;
        if negb (truthy (Z.land gssr both)) then
          _ ← IXGBE_WRITE_REG IXGBE_GSSR (Z.lor gssr swmask);
          _ ← ixgbe_release_eeprom_semaphore;
          mret (inl 0)
        else
          _ ← ixgbe_release_eeprom_semaphore;
          swfw_loop n both swmask gssr
  end.

Definition ixgbe_acquire_swfw_sync (mask : Z) : M Z :=
  let swmask := mask in
  let fwmask := u32 (Z.shiftl mask 5) in
  r ← swfw_loop 200 (Z.lor fwmask swmask) swmask 0;
  match r with
  | inl status => mret status
  | inr gssr =>
      _ ← (if truthy (Z.land gssr (Z.lor fwmask swmask)) then
             ixgbe_release_swfw_sync (u16 (Z.land gssr (Z.lor fwmask swmask)))
           else mret ());
      mret IXGBE_ERR_SWFW_SYNC
  end.

(** ** Bit by bit access *)
Definition ixgbe_raise_eeprom_clk (eec : Z) : M Z :=
  let eec := Z.lor eec IXGBE_EEC_SK in
  _ ← IXGBE_WRITE_REG IXGBE_EEC eec; _ ← IXGBE_WRITE_FLUSH; mret eec.
Definition ixgbe_lower_eeprom_clk (eec : Z) : M Z :=
  let eec := Z.ldiff eec IXGBE_EEC_SK in
  _ ← IXGBE_WRITE_REG IXGBE_EEC eec; _ ← IXGBE_WRITE_FLUSH; mret eec.

(** The loop of [ixgbe_shift_out_eeprom_bits]; [mask] is halved in every round. *)
Fixpoint shift_out_loop (count : nat) (data mask eec : Z) : M Z :=
  match count with
  | O => mret eec
  | S n =>
      let eec := if truthy (Z.land data mask) then Z.lor eec IXGBE_EEC_DI else Z.ldiff eec IXGBE_EEC_DI in
      _ ← IXGBE_WRITE_REG IXGBE_EEC eec;
      _ ← IXGBE_WRITE_FLUSH;
      eec ← ixgbe_raise_eeprom_clk eec;
      eec ← ixgbe_lower_eeprom_clk eec;
      shift_out_loop n data (Z.shiftr mask 1) eec
  end.
Definition ixgbe_shift_out_eeprom_bits (data count : Z) : M () :=
  eec ← IXGBE_READ_REG IXGBE_EEC;
  eec ← shift_out_loop (Z.to_nat count) data (u32 (Z.shiftl 0x01 (count - 1))) eec;
  _ ← IXGBE_WRITE_REG IXGBE_EEC (Z.ldiff eec IXGBE_EEC_DI);
  IXGBE_WRITE_FLUSH.

Fixpoint shift_in_loop (count : nat) (data eec : Z) : M Z :=
  match count with
  | O => mret data
  | S n =>
      let data := u16 (Z.shiftl data 1) in
      eec ← ixgbe_raise_eeprom_clk eec;
      eec ← IXGBE_READ_REG IXGBE_EEC;
      let eec := Z.ldiff eec IXGBE_EEC_DI in
      let data := if truthy (Z.land eec IXGBE_EEC_DO) then Z.lor data 1 else data in
      eec ← ixgbe_lower_eeprom_clk eec;
      shift_in_loop n data eec
  end.
Definition ixgbe_shift_in_eeprom_bits (count : Z) : M Z :=
  eec ← IXGBE_READ_REG IXGBE_EEC;
  shift_in_loop (Z.to_nat count) 0 (Z.ldiff eec (Z.lor IXGBE_EEC_DO IXGBE_EEC_DI)).

Definition ixgbe_standby_eeprom : M () :=
  eec ← IXGBE_READ_REG IXGBE_EEC;
  let eec := Z.lor eec IXGBE_EEC_CS in
  _ ← IXGBE_WRITE_REG IXGBE_EEC eec;
  _ ← IXGBE_WRITE_FLUSH;
  let eec := Z.ldiff eec IXGBE_EEC_CS in
  _ ← IXGBE_WRITE_REG IXGBE_EEC eec;
  IXGBE_WRITE_FLUSH.

(** [for (i = 0; i < IXGBE_EEPROM_MAX_RETRY_SPI; i += 5)]: one round per [n]. *)
Fixpoint ready_loop (n : nat) : M Z :=
  match n with
  | O => mret IXGBE_ERR_EEPROM
  | S n =>
      _ ← ixgbe_shift_out_eeprom_bits IXGBE_EEPROM_RDSR_OPCODE_SPI IXGBE_EEPROM_OPCODE_BITS;
      v ← ixgbe_shift_in_eeprom_bits 8;
      if negb (truthy (Z.land (u8 v) IXGBE_EEPROM_STATUS_RDY_SPI)) then mret 0
      else _ ← ixgbe_standby_eeprom; ready_loop n
  end.
Definition ixgbe_ready_eeprom : M Z := ready_loop (Z.to_nat (IXGBE_EEPROM_MAX_RETRY_SPI / 5)).

Definition ixgbe_acquire_eeprom : M Z :=
  e ← ixgbe_acquire_swfw_sync IXGBE_GSSR_EEP_SM;
  if truthy e then mret IXGBE_ERR_SWFW_SYNC
  else
    eec ← IXGBE_READ_REG IXGBE_EEC;
    let eec := Z.lor eec IXGBE_EEC_REQ in
    _ ← IXGBE_WRITE_REG IXGBE_EEC eec;
    r ← poll_last IXGBE_EEPROM_GRANT_ATTEMPTS IXGBE_EEC (fun eec => truthy (Z.land eec IXGBE_EEC_GNT)) eec;
    let eec := r.1 in
    if negb (truthy (Z.land eec IXGBE_EEC_GNT)) then
      let eec := Z.ldiff eec IXGBE_EEC_REQ in
      _ ← IXGBE_WRITE_REG IXGBE_EEC eec;
      _ ← ixgbe_release_swfw_sync IXGBE_GSSR_EEP_SM;
      mret IXGBE_ERR_EEPROM
    else
      let eec := Z.ldiff eec (Z.lor IXGBE_EEC_CS IXGBE_EEC_SK) in
      _ ← IXGBE_WRITE_REG IXGBE_EEC eec;
      _ ← IXGBE_WRITE_FLUSH;
      mret 0.

Definition ixgbe_release_eeprom : M () :=
  eec ← IXGBE_READ_REG IXGBE_EEC;
  let eec := Z.lor eec IXGBE_EEC_CS in
  let eec := Z.ldiff eec IXGBE_EEC_SK in
  _ ← IXGBE_WRITE_REG IXGBE_EEC eec;
  _ ← IXGBE_WRITE_FLUSH;
  let eec := Z.ldiff eec IXGBE_EEC_REQ in
  _ ← IXGBE_WRITE_REG IXGBE_EEC eec;
  ixgbe_release_swfw_sync IXGBE_GSSR_EEP_SM.

(** [(word >> 8) | (word << 8)] in a [u16] *)
Definition swap_word (w : Z) : Z := u16 (Z.lor (Z.shiftr w 8) (Z.shiftl w 8)).

(** The [do]-loop that sends words in a burst: the index of the last word sent, or [words] when the
    loop ran off the end. [data] are the words from index [i] on. *)
Fixpoint burst_loop (offset words page_size i : Z) (data : list Z) : M Z :=
  match data with
  | [] => mret i
  | word :: data =>
      _ ← ixgbe_shift_out_eeprom_bits (swap_word word) 16;
      if page_size =? 0 then mret i
      else if Z.land (offset + i) (page_size - 1) =? page_size - 1 then mret i
      else if i + 1 <? words then burst_loop offset words page_size (i + 1) data else mret (i + 1)
  end.

(** [for (i = 0; i < words; i++)]; every round sends at least one word, so [words] rounds of fuel are
    enough. *)
Fixpoint write_loop (fuel : nat) (offset words i write_opcode : Z) (data : list Z) : M () :=
  match fuel with
  | O => mret ()
  | S fuel =>
      if i <? words then
        _ ← ixgbe_standby_eeprom;
        _ ← ixgbe_shift_out_eeprom_bits IXGBE_EEPROM_WREN_OPCODE_SPI IXGBE_EEPROM_OPCODE_BITS;
        _ ← ixgbe_standby_eeprom;
        h ← get;
        let write_opcode :=
          if (address_bits (eeprom h) =? 8) && (offset + i >=? 128) then Z.lor write_opcode IXGBE_EEPROM_A8_OPCODE_SPI
          else write_opcode in
        _ ← ixgbe_shift_out_eeprom_bits write_opcode IXGBE_EEPROM_OPCODE_BITS;
        _ ← ixgbe_shift_out_eeprom_bits (u16 ((offset + i) * 2)) (address_bits (eeprom h));
        last ← burst_loop offset words (word_page_size (eeprom h)) i (drop (Z.to_nat i) data);
        _ ← ixgbe_standby_eeprom;
        write_loop fuel offset words (last + 1) write_opcode data
      else mret ()
  end.

Definition ixgbe_write_eeprom_buffer_bit_bang (offset words : Z) (data : list Z) : M Z :=
  status ← ixgbe_acquire_eeprom;
  if truthy status then mret status
  else
    r ← ixgbe_ready_eeprom;
    if truthy r then _ ← ixgbe_release_eeprom; mret IXGBE_ERR_EEPROM
    else
      _ ← write_loop (Z.to_nat words) offset words 0 IXGBE_EEPROM_WRITE_OPCODE_SPI data;
      _ ← ixgbe_release_eeprom;
      mret 0.

Fixpoint read_loop (n : nat) (offset i read_opcode : Z) : M (list Z) :=
  match n with
  | O => mret []
  | S n =>
      _ ← ixgbe_standby_eeprom;
      h ← get;
      let read_opcode :=
        if (address_bits (eeprom h) =? 8) && (offset + i >=? 128) then Z.lor read_opcode IXGBE_EEPROM_A8_OPCODE_SPI
        else read_opcode in
      _ ← ixgbe_shift_out_eeprom_bits read_opcode IXGBE_EEPROM_OPCODE_BITS;
      _ ← ixgbe_shift_out_eeprom_bits (u16 ((offset + i) * 2)) (address_bits (eeprom h));
      word_in ← ixgbe_shift_in_eeprom_bits 16;
      rest ← read_loop n offset (i + 1) read_opcode;
      mret (swap_word word_in :: rest)
  end.

(** The status and the words stored in [data]. *)
Definition ixgbe_read_eeprom_buffer_bit_bang (offset words : Z) : M (Z * list Z) :=
  status ← ixgbe_acquire_eeprom;
  if truthy status then mret (status, [])
  else
    r ← ixgbe_ready_eeprom;
    if truthy r then _ ← ixgbe_release_eeprom; mret (IXGBE_ERR_EEPROM, [])
    else
      data ← read_loop (Z.to_nat words) offset 0 IXGBE_EEPROM_READ_OPCODE_SPI;
      _ ← ixgbe_release_eeprom;
      mret (0, data).

Definition ixgbe_detect_eeprom_page_size_generic (offset : Z) : M Z :=
  let data := map Z.of_nat (seq 0 128) in
  _ ← modify (fun h => set_eeprom (set_page_size IXGBE_EEPROM_PAGE_SIZE_MAX (eeprom h)) h);
  status ← ixgbe_write_eeprom_buffer_bit_bang offset IXGBE_EEPROM_PAGE_SIZE_MAX data;
  _ ← modify (fun h => set_eeprom (set_page_size 0 (eeprom h)) h);
  if truthy status then mret status
  else
    r ← ixgbe_read_eeprom_buffer_bit_bang offset 1;
    if truthy r.1 then mret r.1
    else
      _ ← modify (fun h => set_eeprom (set_page_size (u16 (IXGBE_EEPROM_PAGE_SIZE_MAX - nth 0 r.2 0)) (eeprom h)) h);
      mret 0.

(** [for (i = 0; i < words; i += IXGBE_EEPROM_RD_BUFFER_MAX_COUNT)]: bursts of at most 256 words. *)
Definition burst_count (words i : Z) : Z :=
  if (words - i) / IXGBE_EEPROM_RD_BUFFER_MAX_COUNT >? 0 then IXGBE_EEPROM_RD_BUFFER_MAX_COUNT else words - i.
Fixpoint write_bursts (fuel : nat) (offset words i : Z) (data : list Z) : M Z :=
  match fuel with
  | O => mret 0
  | S fuel =>
      if i <? words then
        let count := burst_count words i in
        status ← ixgbe_write_eeprom_buffer_bit_bang (offset + i) count (drop (Z.to_nat i) data);
        if truthy status then mret status
        else write_bursts fuel offset words (i + IXGBE_EEPROM_RD_BUFFER_MAX_COUNT) data
      else mret 0
  end.
Definition ixgbe_write_eeprom_buffer_bit_bang_generic (offset words : Z) (data : list Z) : M Z :=
  _ ← ixgbe_init_eeprom_params_generic;
  h ← get;
  if words =? 0 then mret IXGBE_ERR_INVALID_ARGUMENT
  else if offset + words >? word_size (eeprom h) then mret IXGBE_ERR_EEPROM
  else
    _ ← (if (word_page_size (eeprom h) =? 0) && (words >? IXGBE_EEPROM_PAGE_SIZE_MAX) then
           ixgbe_detect_eeprom_page_size_generic offset
         else mret 0);
    write_bursts (Z.to_nat (words / 256 + 1)) offset words 0 data.

Fixpoint read_bursts (fuel : nat) (offset words i : Z) : M (Z * list Z) :=
  match fuel with
  | O => mret (0, [])
  | S fuel =>
      if i <? words then
        let count := burst_count words i in
        r ← ixgbe_read_eeprom_buffer_bit_bang (offset + i) count;
        if truthy r.1 then mret r
        else
          rest ← read_bursts fuel offset words (i + IXGBE_EEPROM_RD_BUFFER_MAX_COUNT);
          mret (rest.1, r.2 ++ rest.2)
      else mret (0, [])
  end.
Definition ixgbe_read_eeprom_buffer_bit_bang_generic (offset words : Z) : M (Z * list Z) :=
  _ ← ixgbe_init_eeprom_params_generic;
  h ← get;
  if words =? 0 then mret (IXGBE_ERR_INVALID_ARGUMENT, [])
  else if offset + words >? word_size (eeprom h) then mret (IXGBE_ERR_EEPROM, [])
  else read_bursts (Z.to_nat (words / 256 + 1)) offset words 0.

Definition ixgbe_write_eeprom_generic (offset data : Z) : M Z :=
  _ ← ixgbe_init_eeprom_params_generic;
  h ← get;
  if offset >=? word_size (eeprom h) then mret IXGBE_ERR_EEPROM
  else ixgbe_write_eeprom_buffer_bit_bang offset 1 [data].
Definition ixgbe_read_eeprom_bit_bang_generic (offset : Z) : M (Z * list Z) :=
  _ ← ixgbe_init_eeprom_params_generic;
  h ← get;
  if offset >=? word_size (eeprom h) then mret (IXGBE_ERR_EEPROM, [])
  else ixgbe_read_eeprom_buffer_bit_bang offset 1.

(** ** Access through EERD and EEWR *)
Definition ixgbe_poll_eerd_eewr_done (ee_reg : Z) : M Z :=
  ok ← poll_reg IXGBE_EERD_EEWR_ATTEMPTS (if ee_reg =? IXGBE_NVM_POLL_READ then IXGBE_EERD else IXGBE_EEWR)
         (fun reg => truthy (Z.land reg IXGBE_EEPROM_RW_REG_DONE));
  mret (if ok : bool then 0 else IXGBE_ERR_EEPROM).

Definition eerd_word (offset i : Z) : Z :=
  Z.lor (u32 (Z.shiftl (offset + i) IXGBE_EEPROM_RW_ADDR_SHIFT)) IXGBE_EEPROM_RW_REG_START.
Fixpoint eerd_loop (n : nat) (offset i : Z) : M (Z * list Z) :=
  match n with
  | O => mret (0, [])
  | S n =>
      _ ← IXGBE_WRITE_REG IXGBE_EERD (eerd_word offset i);
      status ← ixgbe_poll_eerd_eewr_done IXGBE_NVM_POLL_READ;
      if truthy status then mret (status, [])
      else
        v ← IXGBE_READ_REG IXGBE_EERD;
        rest ← eerd_loop n offset (i + 1);
        mret (rest.1, u16 (Z.shiftr v IXGBE_EEPROM_RW_REG_DATA) :: rest.2)
  end.
Definition ixgbe_read_eerd_buffer_generic (offset words : Z) : M (Z * list Z) :=
  _ ← ixgbe_init_eeprom_params_generic;
  h ← get;
  if words =? 0 then mret (IXGBE_ERR_INVALID_ARGUMENT, [])
  else if offset >=? word_size (eeprom h) then mret (IXGBE_ERR_EEPROM, [])
  else eerd_loop (Z.to_nat words) offset 0.
Definition ixgbe_read_eerd_generic (offset : Z) : M (Z * list Z) := ixgbe_read_eerd_buffer_generic offset 1.

Definition eewr_word (offset i data : Z) : Z :=
  Z.lor (Z.lor (u32 (Z.shiftl (offset + i) IXGBE_EEPROM_RW_ADDR_SHIFT)) (u32 (Z.shiftl data IXGBE_EEPROM_RW_REG_DATA)))
    IXGBE_EEPROM_RW_REG_START.
Fixpoint eewr_loop (offset i : Z) (data : list Z) : M Z :=
  match data with
  | [] => mret 0
  | w :: data =>
      status ← ixgbe_poll_eerd_eewr_done IXGBE_NVM_POLL_WRITE;
      if truthy status then mret status
      else
        _ ← IXGBE_WRITE_REG IXGBE_EEWR (eewr_word offset i w);
        status ← ixgbe_poll_eerd_eewr_done IXGBE_NVM_POLL_WRITE;
        if truthy status then mret status else eewr_loop offset (i + 1) data
  end.
Definition ixgbe_write_eewr_buffer_generic (offset words : Z) (data : list Z) : M Z :=
  _ ← ixgbe_init_eeprom_params_generic;
  h ← get;
  if words =? 0 then mret IXGBE_ERR_INVALID_ARGUMENT
  else if offset >=? word_size (eeprom h) then mret IXGBE_ERR_EEPROM
  else eewr_loop offset 0 (take (Z.to_nat words) data).
Definition ixgbe_write_eewr_generic (offset data : Z) : M Z := ixgbe_write_eewr_buffer_generic offset 1 [data].

(** ** The checksum, over the operations of [hw->eeprom.ops] *)
Class EepromOps := {
  ee_read : Z -> M (Z * option Z);  (* the status, and what is stored in [*data] *)
  ee_write : Z -> Z -> M Z
}.

Section Checksum.
Context `{EepromOps}.

(** A read into [*data]: a failed read leaves the old value. *)
Definition read_into (offset old : Z) : M (Z * Z) := r ← ee_read offset; mret (r.1, default old r.2).

(** [for (i = 0; i < IXGBE_EEPROM_CHECKSUM; i++)]: the sum, and [word] after the loop. *)
Fixpoint sum_words (n : nat) (i checksum word : Z) : M (Z * Z) :=
  match n with
  | O => mret (checksum, word)
  | S n =>
      r ← read_into i word;
      if truthy r.1 then mret (checksum, r.2) else sum_words n (i + 1) (u16 (checksum + r.2)) r.2
  end.

(** [for (j = pointer+1; j <= pointer+length; j++)] with a [u16 j] against an [int] bound; [None] when the
    fuel is used up. *)
Fixpoint sum_block (fuel : nat) (j bound checksum word : Z) : M (option (Z * Z)) :=
  match fuel with
  | O => mret None
  | S fuel =>
      if j <=? bound then
        r ← read_into j word;
        sum_block fuel (u16 (j + 1)) bound (u16 (checksum + r.2)) r.2
      else mret (Some (checksum, word))
  end.

(** [for (i = IXGBE_PCIE_ANALOG_PTR; i < IXGBE_FW_PTR; i++)] *)
Fixpoint sum_pointers (fuel n : nat) (i checksum pointer length word : Z) : M (option Z) :=
  match n with
  | O => mret (Some checksum)
  | S n =>
      r ← read_into i pointer;
      let pointer := r.2 in
      if negb (pointer =? 0xFFFF) && negb (pointer =? 0) then
        r ← read_into pointer length;
        let length := r.2 in
        if negb (length =? 0xFFFF) && negb (length =? 0) then
          r ← sum_block fuel (u16 (pointer + 1)) (pointer + length) checksum word;
          match r with
          | Some (checksum, word) => sum_pointers fuel n (i + 1) checksum pointer length word
          | None => mret None
          end
        else sum_pointers fuel n (i + 1) checksum pointer length word
      else sum_pointers fuel n (i + 1) checksum pointer length word
  end.

Definition ixgbe_calc_eeprom_checksum_generic (fuel : nat) : M (option Z) :=
  r ← sum_words (Z.to_nat IXGBE_EEPROM_CHECKSUM) 0 0 0;
  c ← sum_pointers fuel (Z.to_nat (IXGBE_FW_PTR - IXGBE_PCIE_ANALOG_PTR)) IXGBE_PCIE_ANALOG_PTR r.1 0 0 r.2;
  mret (match c with Some checksum => Some (u16 (IXGBE_EEPROM_SUM - checksum)) | None => None end).

(** The status and [*checksum_val]; [None] when the fuel is used up. *)
Definition ixgbe_validate_eeprom_checksum_generic (fuel : nat) : M (option (Z * option Z)) :=
  r ← ee_read 0;
  if truthy r.1 then mret (Some (r.1, None))
  else
    c ← ixgbe_calc_eeprom_checksum_generic fuel;
    match c with
    | None => mret None
    | Some checksum =>
        r ← read_into IXGBE_EEPROM_CHECKSUM 0;
        mret (Some (if negb (r.2 =? checksum) then IXGBE_ERR_EEPROM_CHECKSUM else 0, Some checksum))
    end.

Definition ixgbe_update_eeprom_checksum_generic (fuel : nat) : M (option Z) :=
  r ← ee_read 0;
  if truthy r.1 then mret (Some r.1)
  else
    c ← ixgbe_calc_eeprom_checksum_generic fuel;
    match c with
    | None => mret None
    | Some checksum => status ← ee_write IXGBE_EEPROM_CHECKSUM checksum; mret (Some status)
    end.
End Checksum.

(** ** The checksum of the contents *)
Definition valid_ptr (p : Z) : bool := negb (p =? 0xFFFF) && negb (p =? 0).
(** The words summed for the pointer at [i]. *)
Definition block_sum (c : Z -> Z) (i : Z) : Z :=
  if valid_ptr (c i) && valid_ptr (c (c i)) then zsum (fun j => c (c i + 1 + j)) (c (c i)) else 0.
Definition image_sum (c : Z -> Z) : Z := zsum c 0x3F + zsum (fun k => block_sum c (3 + k)) 12.

(** What the checksum code relies on, in states that satisfy [wf]: reads below [nvm_words] return the
    contents, writes change them. *)
Class EepromLaws `{EepromOps} (wf : ixgbe_hw -> Prop) (content : ixgbe_hw -> Z -> Z) (nvm_words : Z) := {
  read_law h off : wf h -> 0 <= off < nvm_words ->
    wlp (ee_read off) h (fun r h' => r = (0, Some (content h off)) /\ wf h' /\ forall x, 0 <= x < nvm_words -> content h' x = content h x);
  write_law h off v : wf h -> 0 <= off < nvm_words -> 0 <= v < 2 ^ 16 ->
    wlp (ee_write off v) h (fun s h' => s = 0 /\ wf h' /\ forall x, 0 <= x < nvm_words -> content h' x = if x =? off then v else content h x);
  content_u16 h x : 0 <= content h x < 2 ^ 16
}.

Section ChecksumSpec.
Context `{L : EepromLaws wf content nvm_words}.
Context (Hsize : 0x40 <= nvm_words < 2 ^ 16).

(** Blocks lie in the EEPROM and do not cover the checksum word. *)
Definition block_ok (c : Z -> Z) (i : Z) : Prop :=
  valid_ptr (c i) = true -> c i < nvm_words /\ c i <> 0x3F /\
    (valid_ptr (c (c i)) = true -> c i + c (c i) < nvm_words /\ ~ (c i < 0x3F <= c i + c (c i))).
Definition image_ok (c : Z -> Z) : Prop := forall i, 3 <= i < 0x0F -> block_ok c i.

(** [c] is what the code will read. *)
Definition reads (c : Z -> Z) (h : ixgbe_hw) : Prop := wf h /\ forall x, 0 <= x < nvm_words -> content h x = c x.

Lemma read_into_law c h off old (Q : Z * Z -> ixgbe_hw -> Prop) :
  reads c h -> 0 <= off < nvm_words -> (forall h', reads c h' -> Q (0, c off) h') -> wlp (read_into off old) h Q.
Proof using L.
  intros [Hwf Hr] Ho HQ. unfold read_into. apply wlp_bind. eapply wlp_mono; [by apply read_law|]. intros r h' (-> & Hwf' & Hc).
  apply wlp_ret. cbn. rewrite Hr by done. apply HQ. split; [done|]. intros x Hx. rewrite Hc by done. by apply Hr.
Qed.

Lemma u16_u16 a : u16 (u16 a) = u16 a.
Proof. unfold u16. by rewrite Z.mod_mod by lia. Qed.
Lemma u16_add_l a b : u16 (u16 a + b) = u16 (a + b).
Proof. unfold u16. apply Zplus_mod_idemp_l. Qed.

Lemma sum_words_law c n i s w h (Q : Z * Z -> ixgbe_hw -> Prop) :
  reads c h -> 0 <= i -> i + Z.of_nat n <= nvm_words -> u16 s = s ->
  (forall w' h', reads c h' -> Q (u16 (s + zsum (fun k => c (i + k)) (Z.of_nat n)), w') h') -> wlp (sum_words n i s w) h Q.
Proof using L.
  revert i s w h. induction n as [|n IH]; intros i s w h Hr Hi Hn Hs HQ; cbn [sum_words].
  { apply wlp_ret. specialize (HQ w h Hr). rewrite zsum_0, Z.add_0_r, Hs in HQ by lia. done. }
  apply wlp_bind. eapply (read_into_law c); [done|lia|]. intros h' Hr'. cbn [fst snd truthy Z.eqb negb].
  apply IH; [done|lia|lia|apply u16_u16|]. intros w' h'' Hr''. specialize (HQ w' h'' Hr'').
  rewrite u16_add_l, <- Z.add_assoc. replace (Z.of_nat (S n)) with (Z.of_nat n + 1) in HQ by lia.
  rewrite zsum_head, Z.add_0_r in HQ by lia. erewrite (zsum_ext (fun k => c (i + 1 + k))); [exact HQ|].
  intros k _. cbv beta. f_equal. lia.
Qed.

(** The loop over a block ends when its last word is below 0xFFFF; one round per word and one to see the end. *)
Lemma sum_block_law c fuel j bound s w h (Q : option (Z * Z) -> ixgbe_hw -> Prop) :
  reads c h -> 0 <= j -> j <= bound + 1 -> bound < nvm_words -> u16 s = s -> bound + 1 - j < Z.of_nat fuel ->
  (forall w' h', reads c h' -> Q (Some (u16 (s + zsum (fun k => c (j + k)) (bound + 1 - j)), w')) h') ->
  wlp (sum_block fuel j bound s w) h Q.
Proof using L Hsize.
  revert j s w h. induction fuel as [|fuel IH]; intros j s w h Hr Hj Hjb Hb Hs Hf HQ; [lia|]. cbn [sum_block].
  destruct (Z.leb_spec j bound) as [Hle|Hgt].
  2:{ apply wlp_ret. specialize (HQ w h Hr). rewrite zsum_0, Z.add_0_r, Hs in HQ by lia. done. }
  apply wlp_bind. eapply (read_into_law c); [done|lia|]. intros h' Hr'. cbn [fst snd].
  rewrite (u16_small (j + 1)) by lia. apply IH; [done|lia|lia|done|apply u16_u16|lia|].
  intros w' h'' Hr''. specialize (HQ w' h'' Hr''). rewrite u16_add_l, <- Z.add_assoc.
  replace (bound + 1 - j) with (bound + 1 - (j + 1) + 1) in HQ by lia.
  rewrite zsum_head, Z.add_0_r in HQ by lia. erewrite (zsum_ext (fun k => c (j + 1 + k))); [exact HQ|].
  intros k _. cbv beta. f_equal. lia.
Qed.

Lemma sum_pointers_law c fuel n i s p l w h (Q : option Z -> ixgbe_hw -> Prop) :
  reads c h -> (forall x, 0 <= c x < 2 ^ 16) -> 3 <= i -> i + Z.of_nat n <= 0x0F -> image_ok c -> u16 s = s -> 2 ^ 16 < Z.of_nat fuel ->
  (forall h', reads c h' -> Q (Some (u16 (s + zsum (fun k => block_sum c (i + k)) (Z.of_nat n)))) h') ->
  wlp (sum_pointers fuel n i s p l w) h Q.
Proof using L Hsize.
  revert i s p l w h. induction n as [|n IH]; intros i s p l w h Hr Hc Hi Hn Hok Hs Hf HQ; cbn [sum_pointers].
  { apply wlp_ret. specialize (HQ h Hr). rewrite zsum_0, Z.add_0_r, Hs in HQ by lia. done. }
  assert (Hnext : forall b h' p' l' w', reads c h' -> block_sum c i = b -> wlp (sum_pointers fuel n (i + 1) (u16 (s + b)) p' l' w') h' Q).
  { intros b h' p' l' w' Hr' Hb. apply IH; [done|done|lia|lia|done|apply u16_u16|done|]. intros h'' Hr''.
    specialize (HQ h'' Hr''). rewrite u16_add_l, <- Z.add_assoc, <- Hb. replace (Z.of_nat (S n)) with (Z.of_nat n + 1) in HQ by lia.
    rewrite zsum_head, Z.add_0_r in HQ by lia. erewrite (zsum_ext (fun k => block_sum c (i + 1 + k))); [exact HQ|].
    intros k _. cbv beta. f_equal. lia. }
  apply wlp_bind. eapply (read_into_law c); [done|lia|]. intros h1 H1. cbn [snd]. fold (valid_ptr (c i)).
  pose proof (Hok i ltac:(lia)) as Hblk. unfold block_ok in Hblk. unfold block_sum in Hnext. destruct (valid_ptr (c i)) eqn:Ep.
  2:{ specialize (Hnext 0 h1 (c i) l w H1 eq_refl). by rewrite Z.add_0_r, Hs in Hnext. }
  destruct (Hblk eq_refl) as (Hpsz & _ & Hb). apply wlp_bind. eapply (read_into_law c); [done|pose proof (Hc i); lia|]. intros h2 H2. cbn [snd].
  fold (valid_ptr (c (c i))). destruct (valid_ptr (c (c i))) eqn:El.
  2:{ specialize (Hnext 0 h2 (c i) (c (c i)) w H2 eq_refl). by rewrite Z.add_0_r, Hs in Hnext. }
  destruct (Hb eq_refl) as [Hend _]. pose proof (Hc i). pose proof (Hc (c i)). rewrite (u16_small (c i + 1)) by lia. apply wlp_bind.
  apply (sum_block_law c); [done|lia|lia|lia|done|lia|]. intros w' h3 Hr3. apply Hnext; [done|].
  replace (c i + c (c i) + 1 - (c i + 1)) with (c (c i)) by lia. done.
Qed.

Lemma calc_checksum_law c fuel h (Q : option Z -> ixgbe_hw -> Prop) :
  reads c h -> (forall x, 0 <= c x < 2 ^ 16) -> image_ok c -> 2 ^ 16 < Z.of_nat fuel ->
  (forall h', reads c h' -> Q (Some (u16 (IXGBE_EEPROM_SUM - image_sum c))) h') ->
  wlp (ixgbe_calc_eeprom_checksum_generic fuel) h Q.
Proof using L Hsize.
  intros Hr Hc Hok Hf HQ. unfold ixgbe_calc_eeprom_checksum_generic. apply wlp_bind.
  assert (Hn1 : Z.of_nat (Z.to_nat IXGBE_EEPROM_CHECKSUM) = 63) by done.
  assert (Hn2 : Z.of_nat (Z.to_nat (IXGBE_FW_PTR - IXGBE_PCIE_ANALOG_PTR)) = 12) by done.
  apply (sum_words_law c); [done|lia|lia|done|]. intros w h1 H1. cbn [fst snd]. apply wlp_bind.
  apply (sum_pointers_law c); [done|done|done|rewrite Hn2; done|done|apply u16_u16|done|]. intros h2 H2. apply wlp_ret.
  rewrite Hn1, Hn2, u16_add_l. specialize (HQ h2 H2). unfold image_sum in HQ.
  set (total := 0 + _ + _). replace (u16 (IXGBE_EEPROM_SUM - u16 total)) with (u16 (IXGBE_EEPROM_SUM - total)); [exact HQ|].
  unfold u16. by rewrite Zminus_mod_idemp_r.
Qed.

(** Writing the checksum word changes neither the blocks nor their sum. *)
Lemma image_insert c c' :
  image_ok c -> (forall x, 0 <= c x < 2 ^ 16) -> (forall x, 0 <= x < nvm_words -> x <> 0x3F -> c' x = c x) ->
  image_ok c' /\ image_sum c' = image_sum c.
Proof using Hsize.
  intros Hok Hc He.
  assert (Hb : forall i, 3 <= i < 0x0F -> c' i = c i /\ (valid_ptr (c i) = true -> c' (c i) = c (c i))).
  { intros i Hi. split; [apply He; lia|]. intros Hv. destruct (Hok i Hi Hv) as (? & ? & _). pose proof (Hc i). apply He; lia. }
  split.
  - intros i Hi. destruct (Hb i Hi) as [Hi1 Hi2]. unfold block_ok. rewrite Hi1. intros Hv. rewrite Hi2 by done. by apply Hok.
  - unfold image_sum. f_equal; apply zsum_ext; [intros i Hi; apply He; lia|]. intros k Hk. unfold block_sum.
    destruct (Hb (3 + k) ltac:(lia)) as [Hi1 Hi2]. rewrite Hi1. destruct (valid_ptr (c (3 + k))) eqn:Ev; [|done].
    rewrite Hi2 by done. destruct (valid_ptr (c (c (3 + k)))) eqn:El; [|done]. cbn [andb].
    destruct (Hok (3 + k) ltac:(lia) Ev) as (_ & _ & Hend). destruct (Hend El) as [Hend1 Hend2].
    pose proof (Hc (3 + k)). pose proof (Hc (c (3 + k))). apply zsum_ext. intros j Hj. apply He; lia.
Qed.

Lemma sum_fixed total v : 0 <= v < 2 ^ 16 -> (v = u16 (IXGBE_EEPROM_SUM - total)) <-> (total + v) mod 2 ^ 16 = IXGBE_EEPROM_SUM.
Proof.
  intros Hv. unfold u16, IXGBE_EEPROM_SUM. split.
  - intros ->. rewrite Zplus_mod_idemp_r. by replace (total + (0xBABA - total)) with 0xBABA by lia.
  - intros Hm. rewrite <- Hm, Zminus_mod_idemp_l. replace (total + v - total) with v by lia. by rewrite Z.mod_small.
Qed.

Lemma validate_law h fuel (Q : option (Z * option Z) -> ixgbe_hw -> Prop) :
  wf h -> image_ok (content h) -> 2 ^ 16 < Z.of_nat fuel ->
  (forall h', Q (Some (if (image_sum (content h) + content h 0x3F) mod 2 ^ 16 =? IXGBE_EEPROM_SUM then 0 else IXGBE_ERR_EEPROM_CHECKSUM,
             Some (u16 (IXGBE_EEPROM_SUM - image_sum (content h))))) h') ->
  wlp (ixgbe_validate_eeprom_checksum_generic fuel) h Q.
Proof using L Hsize.
  intros Hwf Hok Hf HQ. unfold ixgbe_validate_eeprom_checksum_generic. apply wlp_bind. eapply wlp_mono; [apply read_law; [done|lia]|].
  intros r h1 (-> & Hwf1 & H1). cbn [fst snd truthy Z.eqb negb]. apply wlp_bind.
  apply (calc_checksum_law (content h)); [split; [done|intros x Hx; by apply H1]|apply content_u16|done|done|]. intros h2 H2.
  apply wlp_bind. apply (read_into_law (content h)); [done|unfold IXGBE_EEPROM_CHECKSUM; lia|]. intros h3 H3. apply wlp_ret. cbn [snd].
  specialize (HQ h3). change IXGBE_EEPROM_CHECKSUM with 0x3F. pose proof (sum_fixed (image_sum (content h)) _ (content_u16 h 0x3F)) as Hs.
  destruct (Z.eqb_spec (content h 0x3F) (u16 (IXGBE_EEPROM_SUM - image_sum (content h)))) as [He|He],
    (Z.eqb_spec ((image_sum (content h) + content h 0x3F) mod 2 ^ 16) IXGBE_EEPROM_SUM) as [Hm|Hm]; try done; tauto.
Qed.
End ChecksumSpec.

(** C32. The checksum is validated exactly.  On an EEPROM whose blocks lie inside it, the calculation ends, and
    validation succeeds if and only if the covered words and the checksum word add up to 0xBABA. *)
Theorem validate_checksum_exact `{EepromLaws wf content nvm_words} h fuel :
  wf h -> 0x40 <= nvm_words < 2 ^ 16 -> image_ok (nvm_words := nvm_words) (content h) -> 2 ^ 16 < Z.of_nat fuel ->
  exists v, (ixgbe_validate_eeprom_checksum_generic fuel h).1 =
    Some (if (image_sum (content h) + content h 0x3F) mod 2 ^ 16 =? IXGBE_EEPROM_SUM then 0 else IXGBE_ERR_EEPROM_CHECKSUM, Some v).
Proof.
  intros Hwf Hs Hok Hf. eexists. apply wlp_fst, (validate_law Hs); done.
Qed.

(** An updated checksum validates.  After [ixgbe_update_eeprom_checksum_generic] returns success, which it
    does on such an EEPROM, the covered words and the checksum word add up to 0xBABA and validation
    succeeds with the stored checksum. *)
Theorem checksum_roundtrip `{EepromLaws wf content nvm_words} h fuel :
  wf h -> 0x40 <= nvm_words < 2 ^ 16 -> image_ok (nvm_words := nvm_words) (content h) -> 2 ^ 16 < Z.of_nat fuel ->
  let '(r, h') := ixgbe_update_eeprom_checksum_generic fuel h in
  r = Some 0 /\ (forall x, 0 <= x < nvm_words -> x <> 0x3F -> content h' x = content h x) /\
  (image_sum (content h') + content h' 0x3F) mod 2 ^ 16 = IXGBE_EEPROM_SUM /\
  (ixgbe_validate_eeprom_checksum_generic fuel h').1 = Some (0, Some (content h' 0x3F)).
Proof.
  intros Hwf Hs Hok Hf. apply wlp_run. unfold ixgbe_update_eeprom_checksum_generic. apply wlp_bind.
  eapply wlp_mono; [apply read_law; [done|lia]|]. intros r h1 (-> & Hwf1 & H1). cbn [fst snd truthy Z.eqb negb]. apply wlp_bind.
  apply (calc_checksum_law Hs (content h)); [split; [done|intros x Hx; by apply H1]|apply content_u16|done|done|]. intros h2 [Hwf2 H2]. apply wlp_bind.
  eapply wlp_mono; [apply write_law; [done|unfold IXGBE_EEPROM_CHECKSUM; lia|apply u16_range]|]. intros st h3 (-> & Hwf3 & H3). apply wlp_ret.
  assert (He : forall x, 0 <= x < nvm_words -> x <> 0x3F -> content h3 x = content h x).
  { intros x Hx Hn. rewrite H3, (proj2 (Z.eqb_neq _ _)) by done. by apply H2. }
  assert (Hv : content h3 0x3F = u16 (IXGBE_EEPROM_SUM - image_sum (content h))) by (rewrite H3 by lia; done).
  destruct (image_insert Hs (content h) (content h3) Hok (content_u16 h) He) as [Hok3 Hsum].
  assert (Hm : (image_sum (content h3) + content h3 0x3F) mod 2 ^ 16 = IXGBE_EEPROM_SUM).
  { apply sum_fixed; [apply content_u16|]. by rewrite Hsum. }
  split_and!; [done|done|done|]. apply wlp_fst, (validate_law Hs); [done|done|done|]. intros h'. rewrite Hm, Z.eqb_refl. by rewrite Hsum, Hv.
Qed.

(** *** Blocks that reach the end of the address space *)
Lemma sum_block_hangs `{EepromOps} fuel j bound s w h :
  0 <= j < 2 ^ 16 -> 0xFFFF <= bound -> wlp (sum_block fuel j bound s w) h (fun r _ => r = None).
Proof.
  intros Hj Hb. revert j s w h Hj. induction fuel as [|fuel IH]; intros j s w h Hj; cbn [sum_block]; [by apply wlp_ret|].
  rewrite (proj2 (Z.leb_le _ _)) by lia. apply wlp_bind. unfold wlp at 1. apply IH, u16_range.
Qed.

(** A block that ends at 0xFFFF or beyond is summed for ever.  The 16-bit counter never exceeds the
    bound, so no number of rounds completes the checksum. *)
Theorem checksum_hangs `{EepromLaws wf content nvm_words} h fuel :
  wf h -> 0x40 <= nvm_words -> valid_ptr (content h 3) = true -> content h 3 < nvm_words ->
  valid_ptr (content h (content h 3)) = true -> 0xFFFF <= content h 3 + content h (content h 3) ->
  (ixgbe_calc_eeprom_checksum_generic fuel h).1 = None.
Proof.
  intros Hwf Hs Hp Hpn Hl Hend. apply wlp_fst. unfold ixgbe_calc_eeprom_checksum_generic. apply wlp_bind.
  apply (sum_words_law (nvm_words := nvm_words) (content h)); [done|lia| |done|].
  { change (Z.of_nat (Z.to_nat IXGBE_EEPROM_CHECKSUM)) with 63. lia. }
  intros w h1 H1. apply wlp_bind. change (Z.to_nat (IXGBE_FW_PTR - IXGBE_PCIE_ANALOG_PTR)) with 12%nat. generalize 11%nat. intros n.
  cbn [sum_pointers]. change IXGBE_PCIE_ANALOG_PTR with 3. unfold valid_ptr in Hp, Hl.
  apply wlp_bind. apply (read_into_law (nvm_words := nvm_words) (content h)); [done|lia|]. intros h2 H2. cbn [snd]. rewrite Hp.
  apply wlp_bind. pose proof (content_u16 h 3). apply (read_into_law (nvm_words := nvm_words) (content h)); [done|lia|]. intros h3 Hr3.
  cbn [snd]. rewrite Hl. apply wlp_bind.
  eapply wlp_mono; [apply sum_block_hangs; [apply u16_range|done]|]. intros r h4 ->. by apply wlp_ret, wlp_ret.
Qed.

(** ** The registers implement the interface

    The adapter's part: EERD and EEWR are always done, EERD returns the word at the address last written
    to it, and a write to EEWR stores a word. [nvm c t]: the contents after the accesses [t]. *)
Definition nvm (c : Z -> Z) (t : list access) : Z -> Z :=
  foldl (fun c a => match a with
                    | Wr r v => if r =? IXGBE_EEWR then <[Z.land (Z.shiftr v 2) 0x3FFF := u16 (Z.shiftr v 16)]> c else c
                    | Rd _ _ => c
                    end) c t.
Record nvm_device (c : Z -> Z) (A : list access -> Z -> Z) : Prop := {
  eerd_done t : Z.land (A t IXGBE_EERD) IXGBE_EEPROM_RW_REG_DONE <> 0;
  eewr_done t : Z.land (A t IXGBE_EEWR) IXGBE_EEPROM_RW_REG_DONE <> 0;
  eerd_data t : Z.shiftr (A t IXGBE_EERD) 16 = nvm c t (Z.land (Z.shiftr (last_write t IXGBE_EERD) 2) 0x3FFF)
}.

#[export] Instance eerd_eewr_ops : EepromOps := {
  ee_read off := r ← ixgbe_read_eerd_generic off; mret (r.1, head r.2);
  ee_write off v := ixgbe_write_eewr_generic off v
}.

Section Registers.
Context (c : Z -> Z) (A : list access -> Z -> Z) (nvm_words : Z).
Context (Hc : forall x, 0 <= c x < 2 ^ 16) (HA : nvm_device c A) (Hn : 0 <= nvm_words <= 0x4000).

Definition nvm_wf (h : ixgbe_hw) : Prop :=
  ans h = A /\ ee_type (eeprom h) <> ixgbe_eeprom_uninitialized /\ word_size (eeprom h) = nvm_words.
Definition nvm_content (h : ixgbe_hw) : Z -> Z := nvm c (tr h).

Lemma nvm_u16 t x : 0 <= nvm c t x < 2 ^ 16.
Proof using Hc.
  unfold nvm. revert x. induction t as [|[r v|r v] t IH] using rev_ind; intros x; [apply Hc| |]; rewrite foldl_app; cbn; [apply IH|].
  destruct (r =? IXGBE_EEWR); [|apply IH]. rewrite fn_insert_dec. destruct (decide _); [apply u16_range|apply IH].
Qed.
Lemma nvm_read t r v : nvm c (t ++ [Rd r v]) = nvm c t.
Proof. unfold nvm. by rewrite foldl_app. Qed.
Lemma nvm_write_other t r v : r <> IXGBE_EEWR -> nvm c (t ++ [Wr r v]) = nvm c t.
Proof. intros Hr. unfold nvm. rewrite foldl_app. cbn. by rewrite (proj2 (Z.eqb_neq _ _) Hr). Qed.

Lemma init_params_wf h (Q : Z -> ixgbe_hw -> Prop) : nvm_wf h -> Q 0 h -> wlp ixgbe_init_eeprom_params_generic h Q.
Proof. intros (_ & Ht & _) HQ. unfold ixgbe_init_eeprom_params_generic. apply wlp_bind, wlp_get. by rewrite bool_decide_eq_false_2. Qed.

Lemma poll_done reg h (Q : Z -> ixgbe_hw -> Prop) :
  nvm_wf h -> let r := if reg =? IXGBE_NVM_POLL_READ then IXGBE_EERD else IXGBE_EEWR in
  Q 0 (emit [Rd r (A (tr h) r)] h) -> wlp (ixgbe_poll_eerd_eewr_done reg) h Q.
Proof using HA.
  intros (Ha & _) r HQ. unfold ixgbe_poll_eerd_eewr_done, poll_reg. fold r.
  replace IXGBE_EERD_EEWR_ATTEMPTS with (S (Z.to_nat 99999)) by (unfold IXGBE_EERD_EEWR_ATTEMPTS; lia).
  apply wlp_bind, wlp_bind. cbn [poll_last]. apply wlp_bind, wlp_read. rewrite Ha. replace (truthy _) with true; [done|].
  symmetry. apply negb_true_iff, Z.eqb_neq. unfold r. destruct (reg =? _); apply HA.
Qed.

Lemma wf_emit w h : nvm_wf h -> nvm_wf (emit w h).
Proof. intros (? & ? & ?). by split_and!. Qed.

(** The fields of the two registers. *)
Lemma eewr_word_value off data : 0 <= off < 0x4000 -> 0 <= data < 2 ^ 16 -> eewr_word off 0 data = data * 2 ^ 16 + (off * 2 ^ 2 + 1).
Proof.
  intros Ho Hd. unfold eewr_word, IXGBE_EEPROM_RW_ADDR_SHIFT, IXGBE_EEPROM_RW_REG_DATA, IXGBE_EEPROM_RW_REG_START. rewrite Z.add_0_r.
  rewrite !u32_small by (rewrite Z.shiftl_mul_pow2 by lia; lia). rewrite (Z.lor_comm (Z.shiftl off 2)), <- Z.lor_assoc.
  by rewrite (lor_shiftl_add off), lor_shiftl_add by lia.
Qed.
Lemma eerd_word_value off : 0 <= off < 0x4000 -> eerd_word off 0 = off * 2 ^ 2 + 1.
Proof.
  intros Ho. unfold eerd_word, IXGBE_EEPROM_RW_ADDR_SHIFT, IXGBE_EEPROM_RW_REG_START. rewrite Z.add_0_r.
  rewrite u32_small by (rewrite Z.shiftl_mul_pow2 by lia; lia). by rewrite lor_shiftl_add by lia.
Qed.
Lemma address_field off data : 0 <= off < 0x4000 -> 0 <= data -> Z.land (Z.shiftr (data * 2 ^ 16 + (off * 2 ^ 2 + 1)) 2) 0x3FFF = off.
Proof. intros Ho Hd. rewrite (land_ones_mod _ 14), Z.shiftr_div_pow2 by lia. zdm. Qed.

Lemma read_eerd_law h off : nvm_wf h -> 0 <= off < nvm_words ->
  wlp (ixgbe_read_eerd_generic off) h (fun r h' => r = (0, [nvm c (tr h) off]) /\ nvm_wf h' /\ nvm c (tr h') = nvm c (tr h)).
Proof using Hc HA Hn.
  intros Hwf Ho. unfold ixgbe_read_eerd_generic, ixgbe_read_eerd_buffer_generic. apply wlp_bind, init_params_wf; [done|].
  apply wlp_bind, wlp_get. cbn [Z.eqb]. destruct Hwf as (Ha & Ht & Hw). rewrite Hw. destruct (Z.geb_spec off nvm_words); [lia|].
  change (Z.to_nat 1) with 1%nat. cbn [eerd_loop]. apply wlp_bind, wlp_write. set (h1 := emit _ h). assert (Hwf1 : nvm_wf h1) by by split_and!.
  apply wlp_bind, poll_done; [done|]. change (IXGBE_NVM_POLL_READ =? IXGBE_NVM_POLL_READ) with true. cbv iota. set (h2 := emit _ h1).
  cbn [truthy Z.eqb negb]. apply wlp_bind, wlp_read, wlp_bind, wlp_ret, wlp_ret. cbn [fst snd].
  assert (Ht2 : tr h2 = (tr h ++ [Wr IXGBE_EERD (eerd_word off 0)]) ++ [Rd IXGBE_EERD (A (tr h1) IXGBE_EERD)]) by done.
  assert (Hnv : nvm c (tr h2) = nvm c (tr h)) by (rewrite Ht2, nvm_read, nvm_write_other; done).
  split_and!.
  - f_equal. f_equal. change (ans h2) with (ans h). rewrite Ha, (eerd_data c A HA), Hnv, Ht2, last_write_skip, last_write_last by by repeat constructor.
    rewrite eerd_word_value by lia. rewrite (address_field off 0 : _ -> _ -> Z.land (Z.shiftr (off * 2 ^ 2 + 1) 2) 0x3FFF = off) by lia. apply u16_small, nvm_u16.
  - by split_and!.
  - change (tr (emit _ h2)) with (tr h2 ++ [Rd IXGBE_EERD (ans h2 (tr h2) IXGBE_EERD)]). by rewrite nvm_read.
Qed.

Lemma write_eewr_law h off v : nvm_wf h -> 0 <= off < nvm_words -> 0 <= v < 2 ^ 16 ->
  wlp (ixgbe_write_eewr_generic off v) h (fun r h' => r = 0 /\ nvm_wf h' /\ nvm c (tr h') = <[off := v]> (nvm c (tr h))).
Proof using HA Hn.
  intros Hwf Ho Hv. unfold ixgbe_write_eewr_generic, ixgbe_write_eewr_buffer_generic. apply wlp_bind, init_params_wf; [done|].
  apply wlp_bind, wlp_get. cbn [Z.eqb]. destruct Hwf as (Ha & Ht & Hw). rewrite Hw. destruct (Z.geb_spec off nvm_words); [lia|].
  change (take (Z.to_nat 1) [v]) with [v]. cbn [eewr_loop]. apply wlp_bind, poll_done; [done|].
  change (IXGBE_NVM_POLL_WRITE =? IXGBE_NVM_POLL_READ) with false. cbv iota. set (h1 := emit _ h).
  cbn [truthy Z.eqb negb]. apply wlp_bind, wlp_write. set (h2 := emit _ h1). apply wlp_bind, poll_done; [done|].
  change (IXGBE_NVM_POLL_WRITE =? IXGBE_NVM_POLL_READ) with false. cbv iota. cbn [truthy Z.eqb negb]. apply wlp_ret.
  split_and!; [done|by split_and!|].
  assert (Htr : tr (emit [Rd IXGBE_EEWR (A (tr h2) IXGBE_EEWR)] h2) =
    ((tr h ++ [Rd IXGBE_EEWR (A (tr h) IXGBE_EEWR)]) ++ [Wr IXGBE_EEWR (eewr_word off 0 v)]) ++ [Rd IXGBE_EEWR (A (tr h2) IXGBE_EEWR)]) by done.
  rewrite Htr, nvm_read. unfold nvm at 1. rewrite !foldl_app. cbn [foldl]. rewrite Z.eqb_refl, eewr_word_value, address_field by lia.
  f_equal. rewrite Z.shiftr_div_pow2 by lia. rewrite u16_small; zdm.
Qed.

(** The interface that the checksum needs, from the registers. *)
#[local] Instance registers_laws : EepromLaws nvm_wf nvm_content nvm_words.
Proof using Hc HA Hn.
  split.
  - intros h off Hwf Ho. apply wlp_bind. eapply wlp_mono; [by apply read_eerd_law|]. intros r h' (-> & Hwf' & He). apply wlp_ret.
    unfold nvm_content. by rewrite He.
  - intros h off v Hwf Ho Hv. eapply wlp_mono; [by apply write_eewr_law|]. intros r h' (-> & Hwf' & He). split_and!; [done|done|].
    intros x Hx. unfold nvm_content. rewrite He, fn_insert_dec. destruct (decide (off = x)) as [->|Hne]; [by rewrite Z.eqb_refl|].
    by rewrite (proj2 (Z.eqb_neq x off)) by congruence.
  - intros h x. apply nvm_u16.
Qed.
End Registers.

(** *** Examples: an adapter with 0x100 words; a block of [len] words follows the pointer at 3 *)
Definition example_image (len x : Z) : Z := if x =? 3 then 0x50 else if x =? 0x50 then len else if x =? 0x51 then 7 else 0.
Definition nvm_adapter (c : Z -> Z) (t : list access) (r : Z) : Z :=
  if r =? IXGBE_EERD then nvm c t (Z.land (Z.shiftr (last_write t IXGBE_EERD) 2) 0x3FFF) * 2 ^ 16 + 2
  else if r =? IXGBE_EEWR then 2 else 0.
Definition example_nvm (len : Z) : ixgbe_hw :=
  set_eeprom (Eeprom ixgbe_eeprom_spi 10 0x100 8 0) (hw_init ixgbe_mac_82599EB (nvm_adapter (example_image len))).

Lemma nvm_adapter_device c : nvm_device c (nvm_adapter c).
Proof.
  split; intros t; unfold nvm_adapter; cbn [Z.eqb IXGBE_EERD IXGBE_EEWR Pos.eqb].
  - change IXGBE_EEPROM_RW_REG_DONE with (2 ^ 1). intros H. apply (f_equal (fun v => Z.testbit v 1)) in H. revert H.
    rewrite Z.land_spec, Z.pow2_bits_eqb, Z.bits_0 by lia. change (1 =? 1) with true. rewrite andb_true_r.
    set (x := nvm _ _ _). rewrite Z.testbit_false by lia. zdm.
  - done.
  - rewrite Z.shiftr_div_pow2 by lia. zdm.
Qed.
Lemma example_image_u16 len x : 0 <= len < 2 ^ 16 -> 0 <= example_image len x < 2 ^ 16.
Proof. intros. unfold example_image. repeat destruct (_ =? _); lia. Qed.
Lemma example_image_ok : image_ok (nvm_words := 0x100) (example_image 2).
Proof.
  intros i Hi. unfold block_ok, example_image. destruct (Z.eqb_spec i 3) as [->|]; [vm_compute; intuition congruence|].
  rewrite !(proj2 (Z.eqb_neq _ _)) by lia. vm_compute. intuition congruence.
Qed.
Lemma example_laws len : 0 <= len < 2 ^ 16 ->
  EepromLaws (nvm_wf (nvm_adapter (example_image len)) 0x100) (nvm_content (example_image len)) 0x100.
Proof. intros Hl. apply registers_laws; [intros x; by apply example_image_u16|apply nvm_adapter_device|lia]. Qed.

Lemma example_wf len : nvm_wf (nvm_adapter (example_image len)) 0x100 (example_nvm len).
Proof. by split_and!. Qed.
Lemma example_ok : image_ok (nvm_words := 0x100) (nvm_content (example_image 2) (example_nvm 2)).
Proof. exact example_image_ok. Qed.
Definition example_fuel : nat := Z.to_nat 65537.
Lemma example_fuel_enough : 2 ^ 16 < Z.of_nat example_fuel.
Proof. unfold example_fuel. lia. Qed.
#[global] Opaque example_fuel.

Lemma validate_checksum_exact_witness : exists v,
  (ixgbe_validate_eeprom_checksum_generic example_fuel (example_nvm 2)).1 = Some (IXGBE_ERR_EEPROM_CHECKSUM, Some v).
Proof.
  destruct (validate_checksum_exact (H0 := example_laws 2 ltac:(lia)) (example_nvm 2) example_fuel
    (example_wf _) ltac:(lia) example_ok example_fuel_enough) as [v Hv]. exists v. rewrite Hv.
  replace (_ =? _) with false by (by vm_compute). reflexivity.
Defined.
Lemma checksum_roundtrip_witness :
  (ixgbe_update_eeprom_checksum_generic example_fuel (example_nvm 2)).1 = Some 0 /\
  let h' := (ixgbe_update_eeprom_checksum_generic example_fuel (example_nvm 2)).2 in
  (ixgbe_validate_eeprom_checksum_generic example_fuel h').1 = Some (0, Some (nvm_content (example_image 2) h' 0x3F)).
Proof.
  pose proof (checksum_roundtrip (H0 := example_laws 2 ltac:(lia)) (example_nvm 2) example_fuel
    (example_wf _) ltac:(lia) example_ok example_fuel_enough) as R.
  revert R. destruct (ixgbe_update_eeprom_checksum_generic _ _) as [r h']. intros (Hr & _ & _ & Hv). exact (conj Hr Hv).
Defined.
Lemma checksum_hangs_witness : (ixgbe_calc_eeprom_checksum_generic 1000 (example_nvm 0xFFFE)).1 = None.
Proof.
  apply (checksum_hangs (H0 := example_laws 0xFFFE ltac:(lia))); [apply example_wf|lia|done|done|done|done].
Defined.
