(* ===== verification/Spi.v ===== *)
(** * What the EEPROM sees ([ixgbe_common.c], bit by bit access)

    The driver drives the clock, select and data lines of the EEPROM through the EEC register. [spi]
    decodes the register accesses into what a serial EEPROM takes from the lines: a bit at every
    rising clock edge while it is selected, and the end of the command when it is deselected. The theorems
    say which commands the access functions send, and that reading returns the stored words. *)
From S2P Require Import Prelude Bits Hw Eeprom.

(** ** Decoding *)
Inductive spi_event := Deselect | Bit (b : bool).

(** Select is active low. *)
Definition spi_step (before after : Z) : list spi_event :=
  if Z.testbit after 1 then (if Z.testbit before 1 then [] else [Deselect])
  else if Z.testbit after 0 && negb (Z.testbit before 0) then [Bit (Z.testbit after 2)] else [].

(** The events of a trace and the value of EEC at its end. *)
Definition spi_run (t : list access) : list spi_event * Z :=
  foldl (fun s a => match a with
                    | Wr r v => if r =? IXGBE_EEC then (s.1 ++ spi_step s.2 v, v) else s
                    | Rd _ _ => s
                    end) ([], 0) t.
Definition spi (t : list access) : list spi_event := (spi_run t).1.

(** The bits of a number, most significant first. *)
Definition bits_of (v : Z) (count : nat) : list bool := map (fun i => Z.testbit v (Z.of_nat i)) (rev (seq 0 count)).
Definition send (v : Z) (count : nat) : list spi_event := map Bit (bits_of v count).

(** Reading the status register. *)
Definition ready_frame : list spi_event := send IXGBE_EEPROM_RDSR_OPCODE_SPI 8 ++ repeat (Bit false) 8.

(** The adapter: the lines read back as they were written, and DO is what the EEPROM puts out after
    the events so far. *)
Record eec_device (chip : list spi_event -> bool) (A : list access -> Z -> Z) : Prop := {
  lines_read_back t i : 0 <= i < 3 -> Z.testbit (A t IXGBE_EEC) i = Z.testbit (spi_run t).2 i;
  do_line t : Z.testbit (A t IXGBE_EEC) 3 = chip (spi t)
}.

(** Setting and clearing single lines. *)
Lemma set_line v k i : 0 <= k -> 0 <= i -> Z.testbit (Z.lor v (2 ^ k)) i = Z.testbit v i || (k =? i).
Proof. intros. by rewrite Z.lor_spec, Z.pow2_bits_eqb. Qed.
Lemma clear_line v k i : 0 <= k -> 0 <= i -> Z.testbit (Z.ldiff v (2 ^ k)) i = Z.testbit v i && negb (k =? i).
Proof. intros. by rewrite Z.ldiff_spec, Z.pow2_bits_eqb. Qed.
Lemma set_SK v i : 0 <= i -> Z.testbit (Z.lor v IXGBE_EEC_SK) i = Z.testbit v i || (0 =? i).
Proof. by apply (set_line v 0). Qed.
Lemma clear_SK v i : 0 <= i -> Z.testbit (Z.ldiff v IXGBE_EEC_SK) i = Z.testbit v i && negb (0 =? i).
Proof. by apply (clear_line v 0). Qed.
Lemma set_CS v i : 0 <= i -> Z.testbit (Z.lor v IXGBE_EEC_CS) i = Z.testbit v i || (1 =? i).
Proof. by apply (set_line v 1). Qed.
Lemma clear_CS v i : 0 <= i -> Z.testbit (Z.ldiff v IXGBE_EEC_CS) i = Z.testbit v i && negb (1 =? i).
Proof. by apply (clear_line v 1). Qed.
Lemma set_DI v i : 0 <= i -> Z.testbit (Z.lor v IXGBE_EEC_DI) i = Z.testbit v i || (2 =? i).
Proof. by apply (set_line v 2). Qed.
Lemma clear_DI v i : 0 <= i -> Z.testbit (Z.ldiff v IXGBE_EEC_DI) i = Z.testbit v i && negb (2 =? i).
Proof. by apply (clear_line v 2). Qed.
Create Rewrite HintDb lines.
#[export] Hint Rewrite set_SK clear_SK set_CS clear_CS set_DI clear_DI using done : lines.
(** Compute the lines of a value from the lines it was made from. *)
Ltac lines := autorewrite with lines; cbn [Z.eqb Pos.eqb negb orb andb]; rewrite ?orb_false_r, ?andb_true_r, ?orb_true_r, ?andb_false_r.

Section Lines.
Context (chip : list spi_event -> bool) (A : list access -> Z -> Z) (HA : eec_device chip A) (E : ixgbe_eeprom_info).

(** After the events [evs] the lines are as in [p]. *)
Definition at_line (evs : list spi_event) (p : Z) (h : ixgbe_hw) : Prop := ans h = A /\ spi_run (tr h) = (evs, p) /\ eeprom h = E.
(** Selected, with the clock low. *)
Definition selected (p : Z) : Prop := Z.testbit p 0 = false /\ Z.testbit p 1 = false.

Lemma spi_run_app t a : spi_run (t ++ [a]) = match a with
  | Wr r v => if r =? IXGBE_EEC then ((spi_run t).1 ++ spi_step (spi_run t).2 v, v) else spi_run t
  | Rd _ _ => spi_run t end.
Proof. unfold spi_run. by rewrite foldl_app. Qed.

Lemma line_write evs p v h (Q : () -> ixgbe_hw -> Prop) :
  at_line evs p h -> (forall h', at_line (evs ++ spi_step p v) v h' -> Q () h') -> wlp (IXGBE_WRITE_REG IXGBE_EEC v) h Q.
Proof.
  intros (Ha & Hs & He) HQ. apply wlp_write, HQ. split_and!; [done| |done].
  change (tr (emit _ h)) with (tr h ++ [Wr IXGBE_EEC v]). by rewrite spi_run_app, Z.eqb_refl, Hs.
Qed.
Lemma line_any_read evs p r h : at_line evs p h -> at_line evs p (emit [Rd r (ans h (tr h) r)] h).
Proof.
  intros (Ha & Hs & He). split_and!; [done| |done]. change (tr (emit _ h)) with (tr h ++ [Rd r (ans h (tr h) r)]). by rewrite spi_run_app.
Qed.
Lemma line_flush evs p h (Q : () -> ixgbe_hw -> Prop) :
  at_line evs p h -> (forall h', at_line evs p h' -> Q () h') -> wlp IXGBE_WRITE_FLUSH h Q.
Proof. intros Hh HQ. apply wlp_bind, wlp_read, wlp_ret, HQ. by apply line_any_read. Qed.
Lemma line_read evs p h (Q : Z -> ixgbe_hw -> Prop) :
  at_line evs p h ->
  (forall v h', at_line evs p h' -> (forall i, 0 <= i < 3 -> Z.testbit v i = Z.testbit p i) -> Z.testbit v 3 = chip evs -> Q v h') ->
  wlp (IXGBE_READ_REG IXGBE_EEC) h Q.
Proof using HA.
  intros Hh HQ. apply wlp_read, HQ; [by apply line_any_read| |]; destruct Hh as (-> & Hs & _).
  - intros i Hi. by rewrite (lines_read_back chip A HA), Hs.
  - rewrite (do_line chip A HA). unfold spi. by rewrite Hs.
Qed.


Lemma raise_clk evs p v h (Q : Z -> ixgbe_hw -> Prop) :
  at_line evs p h -> selected p -> selected v ->
  (forall h', at_line (evs ++ [Bit (Z.testbit v 2)]) (Z.lor v IXGBE_EEC_SK) h' -> Q (Z.lor v IXGBE_EEC_SK) h') ->
  wlp (ixgbe_raise_eeprom_clk v) h Q.
Proof.
  intros Hh [Hp0 Hp1] [Hv0 Hv1] HQ. apply wlp_bind. eapply line_write; [done|]. intros h1 H1.
  apply wlp_bind. eapply line_flush; [done|]. intros h2 H2. apply wlp_ret, HQ.
  replace (spi_step p (Z.lor v IXGBE_EEC_SK)) with [Bit (Z.testbit v 2)] in H2; [done|].
  unfold spi_step. lines. by rewrite Hv1, Hp0.
Qed.
Lemma lower_clk evs p v h (Q : Z -> ixgbe_hw -> Prop) :
  at_line evs p h -> Z.testbit v 1 = false ->
  (forall h', at_line evs (Z.ldiff v IXGBE_EEC_SK) h' -> Q (Z.ldiff v IXGBE_EEC_SK) h') -> wlp (ixgbe_lower_eeprom_clk v) h Q.
Proof.
  intros Hh Hv1 HQ. apply wlp_bind. eapply line_write; [done|]. intros h1 H1.
  apply wlp_bind. eapply line_flush; [done|]. intros h2 H2. apply wlp_ret, HQ.
  replace (spi_step p (Z.ldiff v IXGBE_EEC_SK)) with (@nil spi_event) in H2; [by rewrite app_nil_r in H2|].
  unfold spi_step. lines. by rewrite Hv1.
Qed.

(** Sending a number. *)
Lemma bits_of_S v n : bits_of v (S n) = Z.testbit v (Z.of_nat n) :: bits_of v n.
Proof. unfold bits_of. rewrite seq_S, rev_app_distr. done. Qed.

Lemma shift_out_loop_spec n data mask evs p v h (Q : Z -> ixgbe_hw -> Prop) :
  at_line evs p h -> selected p -> selected v -> (forall k, n = S k -> mask = 2 ^ Z.of_nat k) ->
  (forall v' p' h', at_line (evs ++ send data n) p' h' -> selected p' -> selected v' -> Q v' h') -> wlp (shift_out_loop n data mask v) h Q.
Proof.
  revert mask evs p v h. induction n as [|n IH]; intros mask evs p v h Hh Hp Hv Hm HQ; cbn [shift_out_loop].
  { apply wlp_ret. eapply HQ; [|exact Hp|done]. unfold send, bits_of. cbn. by rewrite app_nil_r. }
  rewrite (Hm n eq_refl). rewrite <- (Z.shiftl_1_l (Z.of_nat n)), truthy_land_bit, Z.shiftl_1_l by lia.
  set (b := Z.testbit data (Z.of_nat n)). set (v1 := if b then _ else _).
  assert (Hv1 : selected v1 /\ Z.testbit v1 2 = b).
  { unfold selected in *. unfold v1. destruct b; lines; tauto. }
  destruct Hv1 as [Hv1 Hb]. apply wlp_bind. eapply line_write; [done|]. intros h1 H1.
  replace (spi_step p v1) with (@nil spi_event) in H1; [rewrite app_nil_r in H1|].
  2:{ unfold spi_step. destruct Hv1 as [-> ->]. done. }
  apply wlp_bind. eapply line_flush; [done|]. intros h2 H2. apply wlp_bind. eapply raise_clk; [done|done|done|]. intros h3 H3.
  rewrite Hb in H3. apply wlp_bind. eapply lower_clk; [done|destruct Hv1; lines; done|]. intros h4 H4.
  assert (Hv3 : selected (Z.ldiff (Z.lor v1 IXGBE_EEC_SK) IXGBE_EEC_SK)) by (destruct Hv1; split; lines; done).
  eapply IH; [done|done|done| |].
  - intros k ->. rewrite Nat2Z.inj_succ, Z.pow_succ_r, Z.shiftr_div_pow2, Z.mul_comm by lia. apply Z.div_mul. lia.
  - intros v' p' h' Hh'. apply HQ. unfold send in *. rewrite bits_of_S. cbn [map]. by rewrite <- app_assoc in Hh'.
Qed.

Lemma shift_out_spec data count evs p h (Q : () -> ixgbe_hw -> Prop) :
  at_line evs p h -> selected p -> 0 < count <= 16 ->
  (forall p' h', at_line (evs ++ send data (Z.to_nat count)) p' h' -> selected p' -> Q () h') ->
  wlp (ixgbe_shift_out_eeprom_bits data count) h Q.
Proof using HA.
  intros Hh Hp Hc HQ. apply wlp_bind. eapply line_read; [done|]. intros v h1 H1 Hv _. apply wlp_bind.
  assert (Hsv : selected v) by (destruct Hp; split; by rewrite Hv by lia).
  eapply shift_out_loop_spec; [done|done|done| |].
  { intros k Hk. rewrite Z.shiftl_1_l, u32_small; [f_equal; lia|]. split; [lia|]. apply Z.pow_lt_mono_r; lia. }
  intros v' p' h2 H2 Hp' Hv'. apply wlp_bind. eapply line_write; [done|]. intros h3 H3. eapply line_flush; [done|]. intros h4 H4.
  assert (Hd : selected (Z.ldiff v' IXGBE_EEC_DI)) by (destruct Hv'; split; lines; done).
  eapply HQ; [|exact Hd]. replace (spi_step p' _) with (@nil spi_event) in H4; [by rewrite app_nil_r in H4|].
  unfold spi_step. destruct Hd as [-> ->]. done.
Qed.

(** Reading a number: zeros are sent, and the data are what the EEPROM puts out. *)
Fixpoint received (evs : list spi_event) (n : nat) (data : Z) : Z :=
  match n with
  | O => data
  | S n => received (evs ++ [Bit false]) n (u16 (Z.shiftl data 1 + Z.b2z (chip (evs ++ [Bit false]))))
  end.

Lemma shift_in_loop_spec n data evs p v h (Q : Z -> ixgbe_hw -> Prop) :
  at_line evs p h -> selected p -> selected v -> Z.testbit v 2 = false -> u16 data = data ->
  (forall p' h', at_line (evs ++ repeat (Bit false) n) p' h' -> selected p' -> Q (received evs n data) h') ->
  wlp (shift_in_loop n data v) h Q.
Proof using HA.
  revert data evs p v h. induction n as [|n IH]; intros data evs p v h Hh Hp Hv Hv2 Hd HQ; cbn [shift_in_loop].
  { apply wlp_ret. eapply HQ; [|exact Hp]. by rewrite app_nil_r. }
  apply wlp_bind. eapply raise_clk; [done|done|done|]. intros h1 H1. rewrite Hv2 in H1.
  apply wlp_bind. eapply line_read; [done|]. intros w h2 H2 Hw Hdo. apply wlp_bind.
  assert (Hw1 : Z.testbit (Z.ldiff w IXGBE_EEC_DI) 1 = false) by (destruct Hv; lines; rewrite Hw by lia; lines; done).
  eapply lower_clk; [done|done|]. intros h3 H3.
  set (d := if truthy _ then _ else _).
  assert (Hdd : d = u16 (Z.shiftl data 1 + Z.b2z (chip (evs ++ [Bit false])))).
  { unfold d. change IXGBE_EEC_DO with (Z.shiftl 1 3). rewrite truthy_land_bit by lia. lines. rewrite Hdo.
    assert (Hsh : u16 (Z.shiftl data 1) = Z.shiftl (data mod 2 ^ 15) 1).
    { unfold u16. rewrite !Z.shiftl_mul_pow2 by lia. change (2 ^ 16) with (2 ^ 15 * 2 ^ 1). by rewrite Z.mul_mod_distr_r. }
    destruct (chip _); [|by rewrite Z.add_0_r]. rewrite Hsh, lor_shiftl_add by lia. unfold u16. rewrite Z.shiftl_mul_pow2 by lia. cbn [Z.b2z].
    pose proof (Z.mod_pos_bound data (2 ^ 15) ltac:(lia)). rewrite (Z.div_mod data (2 ^ 15)) at 2 by lia.
    replace ((2 ^ 15 * (data / 2 ^ 15) + data mod 2 ^ 15) * 2 ^ 1 + 1) with (data mod 2 ^ 15 * 2 ^ 1 + 1 + data / 2 ^ 15 * 2 ^ 16) by lia.
    rewrite Z.mod_add by lia. symmetry. apply Z.mod_small. lia. }
  rewrite Hdd. eapply IH; [done| | | | |].
  - split; lines; [done|rewrite Hw by lia; destruct Hv; lines; done].
  - split; lines; [done|rewrite Hw by lia; destruct Hv; lines; done].
  - lines. done.
  - apply u16_u16.
  - intros p' h' Hh'. apply HQ. cbn [repeat]. by rewrite <- app_assoc in Hh'.
Qed.

Lemma clear_DO_DI v i : 0 <= i < 2 -> Z.testbit (Z.ldiff v (Z.lor IXGBE_EEC_DO IXGBE_EEC_DI)) i = Z.testbit v i.
Proof.
  intros Hi. rewrite Z.ldiff_spec. assert (Hb : i = 0 \/ i = 1) by lia. destruct Hb as [-> | ->]; apply andb_true_r.
Qed.

Lemma shift_in_spec count evs p h (Q : Z -> ixgbe_hw -> Prop) :
  at_line evs p h -> selected p ->
  (forall p' h', at_line (evs ++ repeat (Bit false) (Z.to_nat count)) p' h' -> selected p' -> Q (received evs (Z.to_nat count) 0) h') ->
  wlp (ixgbe_shift_in_eeprom_bits count) h Q.
Proof using HA.
  intros Hh Hp HQ. apply wlp_bind. eapply line_read; [done|]. intros v h1 H1 Hv _.
  eapply shift_in_loop_spec; [done|done| | |done|done].
  - destruct Hp. split; rewrite clear_DO_DI, Hv by lia; done.
  - rewrite Z.ldiff_spec. apply andb_false_r.
Qed.

Lemma standby_spec evs p h (Q : () -> ixgbe_hw -> Prop) :
  at_line evs p h -> selected p -> (forall p' h', at_line (evs ++ [Deselect]) p' h' -> selected p' -> Q () h') ->
  wlp ixgbe_standby_eeprom h Q.
Proof using HA.
  intros Hh [Hp0 Hp1] HQ. apply wlp_bind. eapply line_read; [done|]. intros v h1 H1 Hv _.
  apply wlp_bind. eapply line_write; [done|]. intros h2 H2. apply wlp_bind. eapply line_flush; [done|]. intros h3 H3.
  apply wlp_bind. eapply line_write; [done|]. intros h4 H4. eapply line_flush; [done|]. intros h5 H5.
  pose proof (Hv 0 ltac:(lia)) as Hv0. pose proof (Hv 1 ltac:(lia)) as Hv1.
  apply (HQ (Z.ldiff (Z.lor v IXGBE_EEC_CS) IXGBE_EEC_CS)); [|split; lines; congruence].
  assert (Hs1 : spi_step p (Z.lor v IXGBE_EEC_CS) = [Deselect]) by (unfold spi_step; lines; by rewrite Hp1).
  assert (Hs2 : spi_step (Z.lor v IXGBE_EEC_CS) (Z.ldiff (Z.lor v IXGBE_EEC_CS) IXGBE_EEC_CS) = [])
    by (unfold spi_step; lines; by rewrite Hv0, Hp0).
  by rewrite Hs1, Hs2, app_nil_r in H5.
Qed.

(** *** Reading words *)

(** What a serial EEPROM of the 25 series puts out: after a read command and an address of [ab] bits, the bytes
    from that address on, most significant bit first; the opcode's bit 3 is the ninth address bit of small
    parts. *)
Definition byte_address (ab op addr : Z) : Z := if ab =? 8 then addr mod 2 ^ 8 + Z.b2z (Z.testbit op 3) * 2 ^ 8 else addr.
Definition chip_reads (mem : Z -> Z) (ab : Z) : Prop := forall evs op addr k,
  Z.ldiff op IXGBE_EEPROM_A8_OPCODE_SPI = IXGBE_EEPROM_READ_OPCODE_SPI -> 0 <= addr < 2 ^ 16 -> (k < 16)%nat ->
  chip (evs ++ [Deselect] ++ send op 8 ++ send addr (Z.to_nat ab) ++ repeat (Bit false) (S k)) =
  Z.testbit (mem (byte_address ab op addr) * 2 ^ 8 + mem (byte_address ab op addr + 1)) (15 - Z.of_nat k).

(** Words are stored low byte first. *)
Definition word_at (mem : Z -> Z) (w : Z) : Z := mem (2 * w) + mem (2 * w + 1) * 2 ^ 8.

Lemma received_word evs n x d :
  0 <= x -> (forall k, (k < n)%nat -> chip (evs ++ repeat (Bit false) (S k)) = Z.testbit x (Z.of_nat n - 1 - Z.of_nat k)) -> u16 d = d ->
  received evs n d = u16 (d * 2 ^ Z.of_nat n + x mod 2 ^ Z.of_nat n).
Proof.
  intros Hx. revert evs d. induction n as [|n IH]; intros evs d Hk Hd; cbn [received].
  { change (2 ^ Z.of_nat 0) with 1. by rewrite Z.mod_1_r, Z.mul_1_r, Z.add_0_r. }
  rewrite IH; [| |apply u16_u16].
  2:{ intros k Hkn. specialize (Hk (S k) ltac:(lia)). rewrite <- app_assoc. cbn [app]. cbn [repeat] in *. rewrite Hk. f_equal. lia. }
  specialize (Hk O ltac:(lia)). cbn [repeat] in Hk. rewrite Hk. replace (Z.of_nat (S n) - 1 - Z.of_nat 0) with (Z.of_nat n) by lia.
  rewrite Nat2Z.inj_succ. replace (Z.succ (Z.of_nat n)) with (Z.of_nat n + 1) by lia. rewrite Z.pow_add_r, Z.rem_mul_r by lia.
  rewrite Z.shiftl_mul_pow2, <- Z.testbit_spec' by lia. unfold u16.
  rewrite <- (Zplus_mod_idemp_l (_ * 2 ^ Z.of_nat n)), Z.mul_mod_idemp_l, Zplus_mod_idemp_l by lia. f_equal. lia.
Qed.

Lemma swap_word_spec a b : 0 <= a < 2 ^ 8 -> 0 <= b < 2 ^ 8 -> swap_word (a * 2 ^ 8 + b) = a + b * 2 ^ 8.
Proof.
  intros Ha Hb. unfold swap_word. rewrite Z.shiftr_div_pow2, Z.div_add_l, (Z.div_small b), Z.add_0_r, Z.lor_comm by lia.
  rewrite lor_shiftl_add by lia. unfold u16. replace ((a * 2 ^ 8 + b) * 2 ^ 8 + a) with (a + b * 2 ^ 8 + a * 2 ^ 16) by lia.
  rewrite Z.mod_add by lia. apply Z.mod_small. lia.
Qed.

(** The opcode with the ninth address bit; [op0] is the plain opcode. *)
Definition opcode_ok (op0 op ab w : Z) : Prop :=
  Z.ldiff op IXGBE_EEPROM_A8_OPCODE_SPI = op0 /\ (ab = 8 -> Z.testbit op 3 = true -> 128 <= w).
Definition next_opcode (op ab w : Z) : Z := if (ab =? 8) && (w >=? 128) then Z.lor op IXGBE_EEPROM_A8_OPCODE_SPI else op.

Lemma next_opcode_ok op0 op ab w w' : opcode_ok op0 op ab w -> w <= w' -> opcode_ok op0 (next_opcode op ab w) ab w'.
Proof.
  intros [H1 H2] Hw. unfold next_opcode. destruct (Z.eqb_spec ab 8) as [->|]; cbn [andb]; [|by split].
  destruct (Z.geb_spec w 128); split; [|lia|done|intros _ Hb; specialize (H2 eq_refl Hb); lia].
  rewrite <- H1. apply Z.bits_inj'. intros i Hi. rewrite !Z.ldiff_spec, Z.lor_spec. change IXGBE_EEPROM_A8_OPCODE_SPI with (2 ^ 3).
  rewrite Z.pow2_bits_eqb by lia. by destruct (Z.testbit op i), (3 =? i).
Qed.

(** The largest word that [ab] address bits and the opcode reach. *)
Definition reach (ab : Z) : Z := if ab =? 8 then 2 ^ 8 else 2 ^ 15.
Lemma reach_max ab : reach ab <= 2 ^ 15.
Proof. unfold reach. destruct (ab =? 8); lia. Qed.

Lemma word_address op0 op ab w :
  opcode_ok op0 op ab w -> 0 <= w < reach ab -> byte_address ab (next_opcode op ab w) (u16 (w * 2)) = 2 * w.
Proof.
  intros [_ Ho] Hw. pose proof (reach_max ab). unfold byte_address, next_opcode, reach in *. rewrite u16_small by lia.
  destruct (Z.eqb_spec ab 8) as [->|]; [|lia]. cbn [andb]. destruct (Z.geb_spec w 128) as [Hge|Hlt].
  - change IXGBE_EEPROM_A8_OPCODE_SPI with (2 ^ 3). rewrite set_line, orb_true_r by lia. cbn [Z.b2z]. zdm.
  - replace (Z.testbit op 3) with false; [cbn [Z.b2z]; zdm|]. destruct (Z.testbit op 3); [specialize (Ho eq_refl eq_refl); lia|done].
Qed.

(** The commands that read [n] words from word [w] on. *)
Fixpoint read_frames (n : nat) (w op : Z) : list spi_event :=
  match n with
  | O => []
  | S n =>
      let op := next_opcode op (address_bits E) w in
      [Deselect] ++ send op 8 ++ send (u16 (w * 2)) (Z.to_nat (address_bits E)) ++ repeat (Bit false) 16 ++ read_frames n (w + 1) op
  end.

Lemma read_loop_spec mem n offset i op evs p h (Q : list Z -> ixgbe_hw -> Prop) :
  chip_reads mem (address_bits E) -> (forall a, 0 <= mem a < 2 ^ 8) -> address_bits E = 8 \/ address_bits E = 16 ->
  at_line evs p h -> selected p -> opcode_ok IXGBE_EEPROM_READ_OPCODE_SPI op (address_bits E) (offset + i) ->
  0 <= offset + i -> offset + i + Z.of_nat n <= reach (address_bits E) ->
  (forall p' h', at_line (evs ++ read_frames n (offset + i) op) p' h' -> selected p' ->
     Q (map (fun k => word_at mem (offset + i + Z.of_nat k)) (seq 0 n)) h') ->
  wlp (read_loop n offset i op) h Q.
Proof using HA.
  intros Hchip Hmem Hab. revert i op evs p h Q. induction n as [|n IH]; intros i op evs p h Q Hh Hp Hop Hoff Hr HQ; cbn [read_loop].
  { apply wlp_ret. eapply HQ; [|exact Hp]. cbn. by rewrite app_nil_r. }
  apply wlp_bind. eapply standby_spec; [done|done|]. intros p1 h1 H1 Hp1. apply wlp_bind, wlp_get.
  replace (eeprom h1) with E by (symmetry; apply H1). fold (next_opcode op (address_bits E) (offset + i)). set (op' := next_opcode _ _ _).
  apply wlp_bind. eapply shift_out_spec; [done|done|by vm_compute|]. intros p2 h2 H2 Hp2.
  apply wlp_bind. eapply shift_out_spec; [done|done|lia|]. intros p3 h3 H3 Hp3.
  apply wlp_bind. eapply shift_in_spec; [done|done|]. intros p4 h4 H4 Hp4. apply wlp_bind.
  assert (Hop' : opcode_ok IXGBE_EEPROM_READ_OPCODE_SPI op' (address_bits E) (offset + (i + 1)))
    by (apply next_opcode_ok; [done|lia]).
  eapply IH; [done|done|done|lia|lia|]. intros p5 h5 H5 Hp5. apply wlp_ret.
  assert (Hw : swap_word (received (((evs ++ [Deselect]) ++ send op' (Z.to_nat IXGBE_EEPROM_OPCODE_BITS)) ++
      send (u16 ((offset + i) * 2)) (Z.to_nat (address_bits E))) (Z.to_nat 16) 0) = word_at mem (offset + i)).
  { pose proof (reach_max (address_bits E)). pose proof (word_address _ op _ _ Hop ltac:(lia)) as Ha. fold op' in Ha.
    pose proof (Hmem (2 * (offset + i))). pose proof (Hmem (2 * (offset + i) + 1)).
    rewrite (received_word _ _ (mem (2 * (offset + i)) * 2 ^ 8 + mem (2 * (offset + i) + 1))); [|lia| |done].
    - change (Z.of_nat (Z.to_nat 16)) with 16. rewrite Z.mul_0_l, Z.add_0_l. unfold u16. rewrite Z.mod_mod, Z.mod_small by lia. by apply swap_word_spec.
    - intros k Hk. rewrite <- !app_assoc. change (Z.to_nat IXGBE_EEPROM_OPCODE_BITS) with 8%nat.
      rewrite (Hchip evs op' (u16 ((offset + i) * 2)) k); [|apply Hop'|apply u16_range|done]. rewrite Ha. done. }
  rewrite Hw. assert (Hl : word_at mem (offset + i) :: map (fun k => word_at mem (offset + (i + 1) + Z.of_nat k)) (seq 0 n) =
    map (fun k => word_at mem (offset + i + Z.of_nat k)) (seq 0 (S n))).
  { cbn [seq map]. rewrite Z.add_0_r. f_equal. rewrite <- seq_shift, map_map. apply map_ext. intros k. f_equal. lia. }
  rewrite Hl. eapply HQ; [|exact Hp5].
  cbn [read_frames]. fold op'. rewrite <- !app_assoc in H5. replace (offset + (i + 1)) with (offset + i + 1) in H5 by lia. exact H5.
Qed.

(** *** Code that leaves the lines alone: the semaphores *)
Definition keeps_line {B} (m : M B) : Prop := forall evs p h, at_line evs p h -> at_line evs p (m h).2.
Lemma keeps_line_ret {B} (b : B) : keeps_line (mret b).
Proof. by intros evs p h. Qed.
Lemma keeps_line_bind {B D} (m : M B) (k : B -> M D) : keeps_line m -> (forall b, keeps_line (k b)) -> keeps_line (b ← m; k b).
Proof. intros Hm Hk evs p h Hh. mrun. specialize (Hm evs p h Hh). destruct (m h) as [b h1]. by apply Hk. Qed.
Lemma keeps_line_read r : keeps_line (IXGBE_READ_REG r).
Proof. intros evs p h Hh. by apply line_any_read. Qed.
Lemma keeps_line_write r v : r <> IXGBE_EEC -> keeps_line (IXGBE_WRITE_REG r v).
Proof.
  intros Hr evs p h (Ha & Hs & He). split_and!; [done| |done]. change (tr (IXGBE_WRITE_REG r v h).2) with (tr h ++ [Wr r v]).
  by rewrite spi_run_app, (proj2 (Z.eqb_neq _ _) Hr).
Qed.
Lemma keeps_line_if {B} (b : bool) (m1 m2 : M B) : keeps_line m1 -> keeps_line m2 -> keeps_line (if b then m1 else m2).
Proof. by destruct b. Qed.
Lemma keeps_line_flush : keeps_line IXGBE_WRITE_FLUSH.
Proof. apply keeps_line_bind; [apply keeps_line_read|intros; apply keeps_line_ret]. Qed.
Lemma keeps_line_poll n r ok v : keeps_line (poll_last n r ok v).
Proof.
  revert v. induction n as [|n IH]; intros v; cbn [poll_last]; [apply keeps_line_ret|].
  apply keeps_line_bind; [apply keeps_line_read|]. intros w. apply keeps_line_if; [apply keeps_line_ret|apply IH].
Qed.
Lemma wlp_keeps {B} (m : M B) evs p h (Q : B -> ixgbe_hw -> Prop) :
  keeps_line m -> at_line evs p h -> (forall b h', at_line evs p h' -> Q b h') -> wlp m h Q.
Proof. intros Hm Hh HQ. apply HQ. by apply Hm. Qed.

Ltac keeps_line :=
  lazymatch goal with
  | |- keeps_line (mret _) => apply keeps_line_ret
  | |- keeps_line (IXGBE_READ_REG _) => apply keeps_line_read
  | |- keeps_line (IXGBE_WRITE_REG _ _) => apply keeps_line_write; by vm_compute
  | |- keeps_line IXGBE_WRITE_FLUSH => apply keeps_line_flush
  | |- keeps_line (poll_last _ _ _ _) => apply keeps_line_poll
  | |- keeps_line (mbind _ _) => apply keeps_line_bind; [keeps_line|intros; keeps_line]
  | |- keeps_line (if _ then _ else _) => apply keeps_line_if; keeps_line
  | |- keeps_line (match ?x with _ => _ end) => destruct x; keeps_line
  | |- _ => idtac
  end.

Lemma keeps_line_release_semaphore : keeps_line ixgbe_release_eeprom_semaphore.
Proof. unfold ixgbe_release_eeprom_semaphore. keeps_line. Qed.
Lemma keeps_line_get_semaphore : keeps_line ixgbe_get_eeprom_semaphore.
Proof.
  unfold ixgbe_get_eeprom_semaphore, poll_reg. generalize semaphore_timeout. intros n. keeps_line;
    try apply keeps_line_release_semaphore.
  induction n as [|n IH]; cbn [get_swesmbi]; keeps_line. apply IH.
Qed.
Lemma keeps_line_release_swfw mask : keeps_line (ixgbe_release_swfw_sync mask).
Proof. unfold ixgbe_release_swfw_sync. keeps_line; [apply keeps_line_get_semaphore|apply keeps_line_release_semaphore]. Qed.
Lemma keeps_line_acquire_swfw mask : keeps_line (ixgbe_acquire_swfw_sync mask).
Proof.
  unfold ixgbe_acquire_swfw_sync. generalize 200%nat (Z.lor (u32 (Z.shiftl mask 5)) mask) 0. intros n both gssr.
  keeps_line; [|apply keeps_line_release_swfw].
  revert gssr. induction n as [|n IH]; intros gssr; cbn [swfw_loop]; keeps_line;
    first [apply keeps_line_get_semaphore|apply keeps_line_release_semaphore|apply IH].
Qed.

(** *** Acquiring the EEPROM

    The adapter's part: reading SMBI as 0 sets it, SWESMBI and the bits of GSSR read back as written, and
    a request for the EEPROM is granted. *)
Definition smbi (t : list access) : bool :=
  foldl (fun s a => match a with
                    | Rd r _ => (r =? IXGBE_SWSM) || s
                    | Wr r v => if r =? IXGBE_SWSM then Z.testbit v 0 else s
                    end) false t.
Record grants : Prop := {
  smbi_bit t : Z.testbit (A t IXGBE_SWSM) 0 = smbi t;
  swesmbi_bit t : Z.testbit (A t IXGBE_SWSM) 1 = Z.testbit (last_write t IXGBE_SWSM) 1;
  gssr_bits t : Z.land (A t IXGBE_GSSR) 0x21 = Z.land (last_write t IXGBE_GSSR) 0x21;
  gnt_bit t : Z.testbit (A t IXGBE_EEC) 7 = Z.testbit (spi_run t).2 6
}.
(** Neither software nor firmware holds the EEPROM. *)
Definition free (h : ixgbe_hw) : Prop := smbi (tr h) = false /\ Z.land (last_write (tr h) IXGBE_GSSR) 0x21 = 0.

Lemma get_semaphore_free h (Q : Z -> ixgbe_hw -> Prop) :
  grants -> ans h = A -> smbi (tr h) = false ->
  (forall h', ans h' = A -> last_write (tr h') IXGBE_GSSR = last_write (tr h) IXGBE_GSSR -> Q 0 h') ->
  wlp ixgbe_get_eeprom_semaphore h Q.
Proof.
  intros HG Ha Hs HQ. unfold ixgbe_get_eeprom_semaphore, poll_reg, semaphore_timeout.
  replace (Z.to_nat 2000) with (S (Z.to_nat 1999)) by lia. generalize (Z.to_nat 1999). intros n.
  apply wlp_bind, wlp_bind. cbn [poll_last]. apply wlp_bind, wlp_read. rewrite Ha. change IXGBE_SWSM_SMBI with (Z.shiftl 1 0).
  rewrite truthy_land_bit, (smbi_bit HG), Hs by lia. cbn [negb]. apply wlp_ret, wlp_ret, wlp_bind, wlp_ret. cbn [snd].
  apply wlp_bind. cbn [get_swesmbi]. apply wlp_bind, wlp_read, wlp_bind, wlp_write, wlp_bind, wlp_read.
  set (h1 := emit [Wr _ _] _). change (ans h1) with (ans h). rewrite Ha. change IXGBE_SWSM_SWESMBI with (Z.shiftl 1 1).
  rewrite truthy_land_bit, (swesmbi_bit HG) by lia. unfold h1. change (tr (emit [Wr ?r ?v] ?h)) with (tr h ++ [Wr r v]).
  rewrite last_write_last, Z.lor_spec, orb_true_r. apply wlp_ret, wlp_ret, HQ; [done|].
  rewrite !emit_app. apply last_write_skip. by repeat constructor.
Qed.

Lemma acquire_swfw_free h (Q : Z -> ixgbe_hw -> Prop) :
  grants -> ans h = A -> free h -> (forall h', ans h' = A -> Q 0 h') -> wlp (ixgbe_acquire_swfw_sync IXGBE_GSSR_EEP_SM) h Q.
Proof.
  intros HG Ha [Hs Hg] HQ. unfold ixgbe_acquire_swfw_sync. generalize 199%nat. intros n. apply wlp_bind. cbn [swfw_loop].
  apply wlp_bind, get_semaphore_free; [done|done|done|]. intros h1 Ha1 Hg1. change (truthy 0) with false. cbv iota.
  apply wlp_bind, wlp_read. rewrite Ha1. change (Z.lor (u32 _) IXGBE_GSSR_EEP_SM) with 0x21. rewrite (gssr_bits HG), Hg1, Hg.
  change (negb (truthy 0)) with true. cbv iota. apply wlp_bind, wlp_write, wlp_bind. unfold wlp at 1. apply wlp_ret, wlp_ret. apply HQ.
  exact Ha1.
Qed.

(** Requesting the EEPROM does not move the lines, and it ends selected with the clock low. *)
Lemma acquire_spec evs p h (Q : Z -> ixgbe_hw -> Prop) :
  grants -> at_line evs p h -> free h -> (forall p' h', at_line evs p' h' -> selected p' -> Q 0 h') -> wlp ixgbe_acquire_eeprom h Q.
Proof using HA.
  intros HG Hh Hf HQ. unfold ixgbe_acquire_eeprom. apply wlp_bind.
  assert (H1 : wlp (ixgbe_acquire_swfw_sync IXGBE_GSSR_EEP_SM) h (fun e h' => e = 0 /\ at_line evs p h')).
  { split; [|by apply keeps_line_acquire_swfw]. apply (acquire_swfw_free h (fun e _ => e = 0)); [done|apply Hh|done|done]. }
  eapply wlp_mono; [exact H1|]. clear h Hh Hf H1. intros e h [-> Hh]. change (truthy 0) with false. cbv iota.
  apply wlp_bind. eapply line_read; [done|]. intros v h2 H2 Hv _.
  apply wlp_bind. eapply line_write; [done|]. intros h3 H3.
  replace (spi_step p (Z.lor v IXGBE_EEC_REQ)) with (@nil spi_event) in H3.
  2:{ unfold spi_step. change IXGBE_EEC_REQ with (2 ^ 6). rewrite !set_line, !Hv by lia. cbn [Z.eqb Pos.eqb]. rewrite !orb_false_r.
      by destruct (Z.testbit p 1), (Z.testbit p 0). }
  rewrite app_nil_r in H3. unfold IXGBE_EEPROM_GRANT_ATTEMPTS. replace (Z.to_nat 1000) with (S (Z.to_nat 999)) by lia.
  generalize (Z.to_nat 999). intros n. apply wlp_bind. cbn [poll_last]. apply wlp_bind, wlp_read.
  replace (ans h3) with A by (symmetry; apply H3). set (eec := A (tr h3) IXGBE_EEC).
  assert (Hg : truthy (Z.land eec IXGBE_EEC_GNT) = true).
  { change IXGBE_EEC_GNT with (Z.shiftl 1 7). rewrite truthy_land_bit by lia. unfold eec. rewrite (gnt_bit HG).
    destruct H3 as (_ & -> & _). cbn [snd]. change IXGBE_EEC_REQ with (2 ^ 6). rewrite set_line by lia. apply orb_true_r. }
  rewrite Hg. apply wlp_ret. cbn [fst]. rewrite Hg. cbn [negb]. apply wlp_bind.
  eapply line_write; [unfold eec; destruct H3 as (<- & ? & ?); by apply line_any_read|]. intros h5 H5. apply wlp_bind.
  eapply line_flush; [done|]. intros h6 H6. apply wlp_ret.
  assert (Hl : selected (Z.ldiff eec (Z.lor IXGBE_EEC_CS IXGBE_EEC_SK))) by (split; rewrite Z.ldiff_spec; apply andb_false_r).
  apply (HQ (Z.ldiff eec (Z.lor IXGBE_EEC_CS IXGBE_EEC_SK))); [|done]. unfold spi_step in H6. destruct Hl as [Hl0 Hl1].
  by rewrite Hl0, Hl1, app_nil_r in H6.
Qed.

(** Between commands: nothing sent yet, or deselected since. *)
Definition between (evs : list spi_event) : Prop := evs = [] \/ last evs = Some Deselect.
(** The EEPROM is not busy: the last bit of its status register is clear. *)
Definition chip_ready : Prop := forall evs, between evs -> chip (evs ++ ready_frame) = false.

Lemma received_last evs n d : Z.testbit (received evs (S n) d) 0 = chip (evs ++ repeat (Bit false) (S n)).
Proof.
  revert evs d. induction n as [|n IH]; intros evs d.
  - cbn [received repeat]. unfold u16. rewrite Z.mod_pow2_bits_low, Z.shiftl_mul_pow2 by lia.
    rewrite Z.bit0_odd, Z.odd_add, Z.odd_mul, andb_false_r. by destruct (chip _).
  - change (received evs (S (S n)) d) with (received (evs ++ [Bit false]) (S n) (u16 (Z.shiftl d 1 + Z.b2z (chip (evs ++ [Bit false]))))).
    rewrite IH. by rewrite <- app_assoc.
Qed.

Lemma ready_spec evs p h (Q : Z -> ixgbe_hw -> Prop) :
  chip_ready -> at_line evs p h -> selected p -> between evs ->
  (forall p' h', at_line (evs ++ ready_frame) p' h' -> selected p' -> Q 0 h') -> wlp ixgbe_ready_eeprom h Q.
Proof using HA.
  intros Hc Hh Hp He HQ. unfold ixgbe_ready_eeprom. replace (Z.to_nat _) with (S (Z.to_nat 999)) by done. generalize (Z.to_nat 999). intros n.
  cbn [ready_loop]. apply wlp_bind. eapply shift_out_spec; [done|done|by vm_compute|]. intros p1 h1 H1 Hp1.
  apply wlp_bind. eapply shift_in_spec; [done|done|]. intros p2 h2 H2 Hp2.
  change (Z.to_nat IXGBE_EEPROM_OPCODE_BITS) with 8%nat in *. change (Z.to_nat 8) with 8%nat in *. rewrite <- app_assoc in H2.
  replace (truthy _) with false; [cbn [negb]; apply wlp_ret; by eapply HQ|].
  change IXGBE_EEPROM_STATUS_RDY_SPI with (Z.shiftl 1 0). rewrite truthy_land_bit by lia. unfold u8.
  rewrite Z.mod_pow2_bits_low, received_last, <- app_assoc by lia. symmetry. by apply Hc.
Qed.

(** *** Writing words *)

(** The commands that write the words of [bursts], one burst after the other, from word [w] on. *)
Fixpoint write_frames (op w : Z) (bursts : list (list Z)) : list spi_event :=
  match bursts with
  | [] => []
  | b :: bursts =>
      let op := next_opcode op (address_bits E) w in
      [Deselect] ++ send IXGBE_EEPROM_WREN_OPCODE_SPI 8 ++ [Deselect] ++ send op 8 ++ send (u16 (w * 2)) (Z.to_nat (address_bits E)) ++
      concat (map (fun x => send (swap_word x) 16) b) ++ [Deselect] ++ write_frames op (w + Z.of_nat (length b)) bursts
  end.

(** A burst from word [w] on goes no further than the end of its page. *)
Definition in_page (page w : Z) (b : list Z) : Prop :=
  b <> [] /\ forall k, 0 <= k < Z.of_nat (length b) - 1 -> page <> 0 /\ Z.land (w + k) (page - 1) <> page - 1.
Fixpoint in_pages (page w : Z) (bursts : list (list Z)) : Prop :=
  match bursts with [] => True | b :: bursts => in_page page w b /\ in_pages page (w + Z.of_nat (length b)) bursts end.

Lemma burst_loop_spec offset words page i data evs p h (Q : Z -> ixgbe_hw -> Prop) :
  at_line evs p h -> selected p -> data <> [] -> i + Z.of_nat (length data) = words ->
  (forall b rest last p' h', data = b ++ rest -> in_page page (offset + i) b ->
     last = i + Z.of_nat (length b) - 1 \/ (rest = [] /\ last = words) ->
     at_line (evs ++ concat (map (fun x => send (swap_word x) 16) b)) p' h' -> selected p' -> Q last h') ->
  wlp (burst_loop offset words page i data) h Q.
Proof using HA.
  revert i evs p h. induction data as [|w data IH]; intros i evs p h Hh Hp Hne Hlen HQ; [done|]. cbn [burst_loop length] in *.
  apply wlp_bind. eapply shift_out_spec; [done|done|lia|]. intros p1 h1 H1 Hp1. change (Z.to_nat 16) with 16%nat in H1.
  assert (Hone : forall last, last = i \/ (data = [] /\ last = words) -> Q last h1).
  { intros last Hlast. apply (HQ [w] data last p1); [done|split; [done|cbn; lia]|cbn; destruct Hlast as [->|?]; [left; lia|by right]| |done].
    cbn [map concat]. by rewrite app_nil_r. }
  destruct (Z.eqb_spec page 0) as [|Hpg]; [apply wlp_ret, Hone; by left|].
  destruct (Z.eqb_spec (Z.land (offset + i) (page - 1)) (page - 1)) as [|Hend]; [apply wlp_ret, Hone; by left|].
  destruct (Z.ltb_spec (i + 1) words) as [Hlt|Hge].
  2:{ apply wlp_ret, Hone. right. destruct data; [|cbn in Hlen; lia]. split; [done|cbn in Hlen; lia]. }
  eapply IH; [done|done|by intros ->; cbn in Hlen; lia|lia|]. intros b rest last p' h' -> [Hb Hpage] Hlast H' Hp'.
  apply (HQ (w :: b) rest last p'); [done| | | |done].
  - split; [done|]. cbn [length]. intros k Hk. destruct (decide (k = 0)) as [->|]; [by rewrite Z.add_0_r|].
    destruct (Hpage (k - 1) ltac:(lia)) as [_ H]. split; [done|]. by replace (offset + i + k) with (offset + (i + 1) + (k - 1)) by lia.
  - cbn [length]. destruct Hlast as [->|?]; [left; lia|by right].
  - cbn [map concat]. by rewrite <- app_assoc in H'.
Qed.

Lemma write_loop_spec fuel offset words i op data evs p h (Q : () -> ixgbe_hw -> Prop) :
  at_line evs p h -> selected p -> address_bits E = 8 \/ address_bits E = 16 -> Z.of_nat (length data) = words -> 0 <= i ->
  words - i <= Z.of_nat fuel ->
  (forall bursts p' h', concat bursts = drop (Z.to_nat i) data -> in_pages (word_page_size E) (offset + i) bursts ->
     at_line (evs ++ write_frames op (offset + i) bursts) p' h' -> selected p' -> Q () h') ->
  wlp (write_loop fuel offset words i op data) h Q.
Proof using HA.
  intros Hh Hp Hab Hlen. revert i op evs p h Q Hh Hp.
  assert (Hdone : forall i op evs p h (Q : () -> ixgbe_hw -> Prop), at_line evs p h -> selected p -> words <= i ->
    (forall bursts p' h', concat bursts = drop (Z.to_nat i) data -> in_pages (word_page_size E) (offset + i) bursts ->
       at_line (evs ++ write_frames op (offset + i) bursts) p' h' -> selected p' -> Q () h') -> Q () h).
  { intros i op evs p h Q Hh Hp Hi HQ. apply (HQ [] p h); [|done| |done]; [|cbn; by rewrite app_nil_r]. cbn. symmetry. apply drop_ge. lia. }
  induction fuel as [|fuel IH]; intros i op evs p h Q Hh Hp Hi Hf HQ; cbn [write_loop].
  { apply wlp_ret. apply (Hdone i op evs p h Q); [done|done|lia|done]. }
  destruct (Z.ltb_spec i words) as [Hlt|]; [|apply wlp_ret; by apply (Hdone i op evs p h Q)].
  apply wlp_bind. eapply standby_spec; [done|done|]. intros p1 h1 H1 Hp1.
  apply wlp_bind. eapply shift_out_spec; [done|done|by vm_compute|]. intros p2 h2 H2 Hp2.
  apply wlp_bind. eapply standby_spec; [done|done|]. intros p3 h3 H3 Hp3. apply wlp_bind, wlp_get.
  replace (eeprom h3) with E by (symmetry; apply H3). fold (next_opcode op (address_bits E) (offset + i)). set (op' := next_opcode _ _ _).
  apply wlp_bind. eapply shift_out_spec; [done|done|by vm_compute|]. intros p4 h4 H4 Hp4.
  apply wlp_bind. eapply shift_out_spec; [done|done|lia|]. intros p5 h5 H5 Hp5.
  apply wlp_bind. assert (Hdl : length (drop (Z.to_nat i) data) = Z.to_nat (words - i)) by (rewrite length_drop; lia).
  eapply burst_loop_spec; [done|done|intros Hnil; rewrite Hnil in Hdl; cbn in Hdl; lia|lia|].
  intros b rest last p6 h6 Hsplit Hpage Hlast H6 Hp6. apply wlp_bind. eapply standby_spec; [done|done|]. intros p7 h7 H7 Hp7.
  assert (Hb : (0 < length b)%nat) by (destruct Hpage as [Hb _]; destruct b; [done|cbn; lia]).
  assert (Hbl : (length b + length rest = Z.to_nat (words - i))%nat) by (rewrite <- Hdl, Hsplit; by rewrite length_app).
  eapply IH; [done|done|destruct Hlast as [->|[? ->]]; lia|destruct Hlast as [->|[? ->]]; lia|].
  intros bursts p8 h8 Hconc Hpages H8 Hp8. change (Z.to_nat IXGBE_EEPROM_OPCODE_BITS) with 8%nat in H8. rewrite <- !app_assoc in H8.
  assert (Hnext : concat bursts = rest /\ in_pages (word_page_size E) (offset + i + Z.of_nat (length b)) bursts /\
    write_frames op' (offset + (last + 1)) bursts = write_frames op' (offset + i + Z.of_nat (length b)) bursts).
  { destruct Hlast as [->|[-> ->]].
    - replace (offset + (i + Z.of_nat (length b) - 1 + 1)) with (offset + i + Z.of_nat (length b)) in * by lia. split_and!; [|done|done].
      rewrite Hconc. replace (Z.to_nat (i + Z.of_nat (length b) - 1 + 1)) with (Z.to_nat i + length b)%nat by lia.
      rewrite <- drop_drop, Hsplit. apply drop_app_length.
    - rewrite drop_ge in Hconc by lia. destruct bursts as [|b' bursts]; [done|]. destruct Hpages as [[Hb' _] _].
      cbn in Hconc. apply app_eq_nil in Hconc as [-> _]. done. }
  destruct Hnext as (Hc & Hpg & Hfr). apply (HQ (b :: bursts) p8 h8); [cbn; by rewrite Hc, Hsplit|by split| |done].
  cbn [write_frames]. fold op'. rewrite <- Hfr. exact H8.
Qed.

(** Releasing the EEPROM deselects it. *)
Lemma release_spec evs p h (Q : () -> ixgbe_hw -> Prop) :
  at_line evs p h -> selected p -> (forall p' h', at_line (evs ++ [Deselect]) p' h' -> Q () h') -> wlp ixgbe_release_eeprom h Q.
Proof using HA.
  intros Hh [Hp0 Hp1] HQ. apply wlp_bind. eapply line_read; [done|]. intros v h1 H1 _ _. apply wlp_bind. eapply line_write; [done|]. intros h2 H2.
  apply wlp_bind. eapply line_flush; [done|]. intros h3 H3. apply wlp_bind. eapply line_write; [done|]. intros h4 H4.
  eapply wlp_keeps; [apply keeps_line_release_swfw|exact H4|]. intros [] h5 H5. eapply HQ.
  set (w := Z.ldiff (Z.lor v IXGBE_EEC_CS) IXGBE_EEC_SK) in *.
  assert (Hw : Z.testbit w 1 = true) by (unfold w; by lines). unfold spi_step in H5.
  change IXGBE_EEC_REQ with (2 ^ 6) in H5. rewrite clear_line, Hw, Hp1, app_nil_r in H5 by lia. exact H5.
Qed.
End Lines.

(** Reading bit by bit returns the stored words.  With an adapter that reads back the lines and grants a free
    EEPROM, and a serial EEPROM with the contents [mem], [ixgbe_read_eeprom_buffer_bit_bang] succeeds and
    stores the words at [offset] and after it. *)
Theorem bit_bang_reads chip A mem offset words h :
  eec_device chip A -> grants A -> chip_ready chip -> chip_reads chip mem (address_bits (eeprom h)) -> (forall a, 0 <= mem a < 2 ^ 8) ->
  ans h = A -> free h -> between (spi (tr h)) ->
  address_bits (eeprom h) = 8 \/ address_bits (eeprom h) = 16 -> 0 <= offset -> 0 <= words ->
  offset + words <= reach (address_bits (eeprom h)) ->
  (ixgbe_read_eeprom_buffer_bit_bang offset words h).1 =
  (0, map (fun k => word_at mem (offset + Z.of_nat k)) (seq 0 (Z.to_nat words))).
Proof.
  intros HA HG Hready Hchip Hmem Ha Hf Hb Hab Ho Hw Hr. apply wlp_fst.
  unfold ixgbe_read_eeprom_buffer_bit_bang. apply wlp_bind.
  assert (Hh : at_line A (eeprom h) (spi (tr h)) (spi_run (tr h)).2 h) by (split_and!; [done|apply surjective_pairing|done]).
  eapply (acquire_spec chip A HA (eeprom h)); [done|done|done|]. intros p1 h1 H1 Hp1. change (truthy 0) with false. cbv iota. apply wlp_bind.
  eapply (ready_spec chip A HA (eeprom h)); [done|done|done|done|]. intros p2 h2 H2 Hp2. change (truthy 0) with false. cbv iota.
  apply wlp_bind. eapply (read_loop_spec chip A HA (eeprom h) mem); [done|done|done|done|done| |lia|lia|].
  { split; [done|]. intros _ Hbit. by vm_compute in Hbit. }
  intros p3 h3 H3 Hp3. apply wlp_bind. unfold wlp at 1. apply wlp_ret. f_equal.
  apply map_ext. intros k. f_equal. lia.
Qed.

(** Writing bit by bit sends the words page by page.  On a free EEPROM [ixgbe_write_eeprom_buffer_bit_bang]
    succeeds, and what the EEPROM sees is a status read and, for each of the bursts that the data is cut
    into, a write enable and one write command with the address of the burst's first word; no burst runs
    past the end of a page. *)
Theorem bit_bang_writes chip A offset words data h :
  eec_device chip A -> grants A -> chip_ready chip -> ans h = A -> free h -> between (spi (tr h)) ->
  address_bits (eeprom h) = 8 \/ address_bits (eeprom h) = 16 -> Z.of_nat (length data) = words ->
  let '(status, h') := ixgbe_write_eeprom_buffer_bit_bang offset words data h in
  status = 0 /\ exists bursts, concat bursts = data /\ in_pages (word_page_size (eeprom h)) offset bursts /\
    spi (tr h') = spi (tr h) ++ ready_frame ++ write_frames (eeprom h) IXGBE_EEPROM_WRITE_OPCODE_SPI offset bursts ++ [Deselect].
Proof.
  intros HA HG Hready Ha Hf Hb Hab Hw. apply wlp_run.
  unfold ixgbe_write_eeprom_buffer_bit_bang. apply wlp_bind.
  assert (Hh : at_line A (eeprom h) (spi (tr h)) (spi_run (tr h)).2 h) by (split_and!; [done|apply surjective_pairing|done]).
  eapply (acquire_spec chip A HA (eeprom h)); [done|done|done|]. intros p1 h1 H1 Hp1. change (truthy 0) with false. cbv iota. apply wlp_bind.
  eapply (ready_spec chip A HA (eeprom h)); [done|done|done|done|]. intros p2 h2 H2 Hp2. change (truthy 0) with false. cbv iota.
  apply wlp_bind. eapply (write_loop_spec chip A HA (eeprom h)); [done|done|done|done|lia|lia|].
  intros bursts p3 h3 Hc Hin H3 Hp3. rewrite Z.add_0_r in *. cbn [Z.to_nat drop] in Hc. apply wlp_bind.
  eapply (release_spec chip A HA (eeprom h)); [done|done|]. intros p4 h4 H4. apply wlp_ret. split; [done|]. exists bursts. split_and!; [done|done|].
  unfold spi at 1. destruct H4 as (_ & -> & _). cbn [fst]. by rewrite <- !app_assoc.
Qed.

(** ** A serial EEPROM and its adapter *)

(** The bits since the EEPROM was last deselected, and the number they make. *)
Definition command (evs : list spi_event) : list bool :=
  foldl (fun c e => match e with Deselect => [] | Bit b => c ++ [b] end) [] evs.
Definition of_bits (l : list bool) : Z := foldl (fun a b => 2 * a + Z.b2z b) 0 l.

(** A part with 16 address bits that is never busy. *)
Definition chip25 (mem : Z -> Z) (evs : list spi_event) : bool :=
  let c := command evs in
  let addr := of_bits (take 16 (drop 8 c)) in
  (Z.ldiff (of_bits (take 8 c)) 8 =? IXGBE_EEPROM_READ_OPCODE_SPI) && (24 <? length c)%nat &&
  Z.testbit (mem addr * 2 ^ 8 + mem (addr + 1)) (15 - (Z.of_nat (length c) - 25)).
Definition adapter (chip : list spi_event -> bool) (t : list access) (r : Z) : Z :=
  let bit n (b : bool) := if b then 2 ^ n else 0 in
  if r =? IXGBE_EEC then
    let p := (spi_run t).2 in
    Z.lor (Z.land p 7) (Z.lor (bit 3 (chip (spi t))) (bit 7 (Z.testbit p 6)))
  else if r =? IXGBE_SWSM then Z.lor (bit 0 (smbi t)) (bit 1 (Z.testbit (last_write t IXGBE_SWSM) 1))
  else if r =? IXGBE_GSSR then last_write t IXGBE_GSSR else 0.

Lemma adapter_device chip : eec_device chip (adapter chip).
Proof.
  split; intros t; unfold adapter; rewrite Z.eqb_refl; cbv zeta.
  - intros i Hi. rewrite !Z.lor_spec, Z.land_spec. assert (Hb : i = 0 \/ i = 1 \/ i = 2) by lia.
    destruct Hb as [->|[->| ->]]; destruct (chip _), (Z.testbit _ 6), (Z.testbit (spi_run t).2 _); done.
  - rewrite !Z.lor_spec, Z.land_spec. destruct (chip _), (Z.testbit _ 6), (Z.testbit (spi_run t).2 _); done.
Qed.
Lemma adapter_grants chip : grants (adapter chip).
Proof.
  split; intros t; unfold adapter; cbn [Z.eqb IXGBE_SWSM IXGBE_EEC IXGBE_GSSR Pos.eqb]; [| |done|].
  - rewrite Z.lor_spec. by destruct (smbi t), (Z.testbit (last_write t _) 1).
  - rewrite Z.lor_spec. by destruct (smbi t), (Z.testbit (last_write t _) 1).
  - rewrite !Z.lor_spec, Z.land_spec. by destruct (chip _), (Z.testbit (spi_run t).2 6), (Z.testbit (spi_run t).2 7).
Qed.

Lemma foldl_command l c : foldl (fun c e => match e with Deselect => [] | Bit b => c ++ [b] end) c (map Bit l) = c ++ l.
Proof. revert c. induction l as [|b l IH]; intros c; cbn; [by rewrite app_nil_r|]. by rewrite IH, <- app_assoc. Qed.
Lemma command_app evs l : command (evs ++ map Bit l) = command evs ++ l.
Proof. unfold command. by rewrite foldl_app, foldl_command. Qed.
Lemma command_between evs : between evs -> command evs = [].
Proof.
  intros [->|Hl]; [done|]. destruct evs as [|e evs _] using rev_ind; [done|]. rewrite last_snoc in Hl. injection Hl as ->.
  unfold command. by rewrite foldl_app.
Qed.
Lemma length_bits_of v n : length (bits_of v n) = n.
Proof. unfold bits_of. by rewrite length_map, length_rev, length_seq. Qed.
Lemma of_bits_of v n : 0 <= v < 2 ^ Z.of_nat n -> of_bits (bits_of v n) = v.
Proof.
  intros Hv. rewrite <- (Z.mod_small v (2 ^ Z.of_nat n)) at 2 by done. clear Hv. unfold of_bits.
  enough (H : forall a, foldl (fun a b => 2 * a + Z.b2z b) a (bits_of v n) = a * 2 ^ Z.of_nat n + v mod 2 ^ Z.of_nat n) by by rewrite H.
  induction n as [|n IH]; intros a; [cbn; rewrite Z.mod_1_r; lia|]. rewrite bits_of_S. cbn [foldl]. rewrite IH, Nat2Z.inj_succ, Z.pow_succ_r by lia.
  rewrite (Z.mul_comm 2 (2 ^ _)), Z.rem_mul_r, Z.testbit_spec' by lia. lia.
Qed.
Lemma repeat_bits n : repeat (Bit false) n = map Bit (repeat false n).
Proof. induction n as [|n IH]; cbn; [done|by rewrite IH]. Qed.

Lemma chip25_ready mem : chip_ready (chip25 mem).
Proof.
  intros evs He. unfold ready_frame, send, chip25. rewrite repeat_bits, <- map_app, command_app, command_between by done. done.
Qed.
Lemma chip25_reads mem : chip_reads (chip25 mem) mem 16.
Proof.
  intros evs op addr k Hop Haddr Hk. unfold send, chip25. rewrite repeat_bits, <- !map_app, !app_assoc, command_app.
  rewrite (command_between (evs ++ [Deselect])) by (right; apply last_snoc). cbn [app].
  change (Z.to_nat 16) with 16%nat. assert (Hop' : 0 <= op < 2 ^ Z.of_nat 8).
  { assert (op = 3 \/ op = 11) as [-> | ->]; [|lia..].
    assert (Hd : op = Z.lor (Z.ldiff op 8) (Z.land op 8)).
    { apply Z.bits_inj'. intros i Hi. rewrite Z.lor_spec, Z.ldiff_spec, Z.land_spec. by destruct (Z.testbit op i), (Z.testbit 8 i). }
    assert (Hl : Z.land op 8 = if Z.testbit op 3 then 8 else 0).
    { apply Z.bits_inj'. intros i Hi. rewrite Z.land_spec. change 8 with (2 ^ 3). rewrite Z.pow2_bits_eqb by lia.
      destruct (Z.eqb_spec 3 i) as [<-|Hne]; [by destruct (Z.testbit op 3)|]. rewrite andb_false_r.
      destruct (Z.testbit op 3); [|by rewrite Z.bits_0]. by rewrite Z.pow2_bits_eqb, (proj2 (Z.eqb_neq _ _) Hne) by lia. }
    rewrite Hd, Hl. change (Z.ldiff op 8) with (Z.ldiff op IXGBE_EEPROM_A8_OPCODE_SPI). rewrite Hop.
    destruct (Z.testbit op 3); [by right|by left]. }
  rewrite <- app_assoc, take_app_length', drop_app_length', take_app_length' by (by rewrite length_bits_of).
  rewrite !of_bits_of by (done || lia). change (Z.ldiff op 8) with (Z.ldiff op IXGBE_EEPROM_A8_OPCODE_SPI). rewrite Hop, Z.eqb_refl. rewrite !length_app, !length_bits_of, repeat_length.
  rewrite (proj2 (Nat.ltb_lt _ _)) by lia. cbn [andb]. unfold byte_address. change (16 =? 8) with false. cbv iota. f_equal. lia.
Qed.

(** An adapter with an EEPROM of 16 address bits and pages of 4 words whose bytes hold their addresses. *)
Definition example_mem (a : Z) : Z := a mod 2 ^ 8.
Definition example_hw : ixgbe_hw := set_eeprom (Eeprom ixgbe_eeprom_spi 10 2048 16 4) (hw_init ixgbe_mac_82599EB (adapter (chip25 example_mem))).

Lemma bit_bang_reads_witness : (ixgbe_read_eeprom_buffer_bit_bang 5 3 example_hw).1 = (0, [0x0B0A; 0x0D0C; 0x0F0E]).
Proof.
  rewrite (bit_bang_reads (chip25 example_mem) (adapter (chip25 example_mem)) example_mem 5 3 example_hw
    (adapter_device _) (adapter_grants _) (chip25_ready _) (chip25_reads _) (fun a => Z.mod_pos_bound a (2 ^ 8) eq_refl) eq_refl
    (conj eq_refl eq_refl) (or_introl eq_refl) (or_intror eq_refl)); [reflexivity|lia|lia|].
  change (address_bits (eeprom example_hw)) with 16. unfold reach. cbn. lia.
Defined.

Lemma bit_bang_writes_witness : exists bursts, concat bursts = [1; 2; 3; 4; 5; 6] /\ in_pages 4 2 bursts /\
  spi (tr (ixgbe_write_eeprom_buffer_bit_bang 2 6 [1; 2; 3; 4; 5; 6] example_hw).2) =
  [] ++ ready_frame ++ write_frames (eeprom example_hw) IXGBE_EEPROM_WRITE_OPCODE_SPI 2 bursts ++ [Deselect].
Proof.
  pose proof (bit_bang_writes (chip25 example_mem) (adapter (chip25 example_mem)) 2 6 [1; 2; 3; 4; 5; 6] example_hw
    (adapter_device _) (adapter_grants _) (chip25_ready _) eq_refl (conj eq_refl eq_refl) (or_introl eq_refl) (or_intror eq_refl) eq_refl) as H.
  revert H. destruct (ixgbe_write_eeprom_buffer_bit_bang 2 6 [1; 2; 3; 4; 5; 6] example_hw) as [status h']. intros [_ H]. exact H.
Defined.
