(* ===== verification/RegFile.v ===== *)
(** * Registers that keep what is written

    The filter tables of the adapter (VLANs, multicast hash, receive addresses) are plain storage: a read returns
    what was last written. [at_regs f m a h] says that the tables of [h] hold [f], and gives the
    rules for reading and writing them. *)
From S2P Require Import Prelude Hw.

(** The contents after the accesses [t] when the registers held [init]. *)
Definition regs (init : Z -> Z) (t : list access) : Z -> Z :=
  foldl (fun f a => match a with Wr r v => <[r := v]> f | Rd _ _ => f end) init t.

(** The registers that satisfy [T] are plain storage. *)
Definition reg_file (T : Z -> Prop) (init : Z -> Z) (A : list access -> Z -> Z) : Prop := forall t r, T r -> A t r = regs init t r.

Section Rules.
Context {T : Z -> Prop} {init : Z -> Z} {A : list access -> Z -> Z}.

Definition at_regs (f : Z -> Z) (m : ixgbe_mac_info) (a : ixgbe_addr_filter_info) (h : ixgbe_hw) : Prop :=
  reg_file T init A /\ ans h = A /\ regs init (tr h) = f /\ mac h = m /\ addr_ctrl h = a.

Lemma regs_read r f m a h (Q : Z -> ixgbe_hw -> Prop) :
  at_regs f m a h -> T r -> (forall h', at_regs f m a h' -> Q (f r) h') -> wlp (IXGBE_READ_REG r) h Q.
Proof.
  intros (HA & Ha & Hf & Hm & Hc) Hr HQ. apply wlp_read. rewrite Ha, (HA _ _ Hr), Hf. apply HQ. split_and!; [done|done| |done|done].
  change (tr (emit ?w h)) with (tr h ++ w). unfold regs. rewrite foldl_app. exact Hf.
Qed.
Lemma regs_any_read r f m a h (Q : Z -> ixgbe_hw -> Prop) :
  at_regs f m a h -> (forall v h', at_regs f m a h' -> Q v h') -> wlp (IXGBE_READ_REG r) h Q.
Proof.
  intros (HA & Ha & Hf & Hm & Hc) HQ. apply wlp_read, HQ. split_and!; [done|done| |done|done].
  change (tr (emit ?w h)) with (tr h ++ w). unfold regs. rewrite foldl_app. exact Hf.
Qed.
Lemma regs_write r v f m a h (Q : () -> ixgbe_hw -> Prop) :
  at_regs f m a h -> (forall h', at_regs (<[r := v]> f) m a h' -> Q () h') -> wlp (IXGBE_WRITE_REG r v) h Q.
Proof.
  intros (HA & Ha & Hf & Hm & Hc) HQ. apply wlp_write, HQ. split_and!; [done|done| |done|done].
  change (tr (emit ?w h)) with (tr h ++ w). unfold regs. rewrite foldl_app. cbn [foldl]. by fold (regs init (tr h)); rewrite Hf.
Qed.
Lemma regs_mac f m a h : at_regs f m a h -> mac h = m.
Proof. intros (_ & _ & _ & Hm & _). exact Hm. Qed.
Lemma regs_addr f m a h : at_regs f m a h -> addr_ctrl h = a.
Proof. intros (_ & _ & _ & _ & Hm). exact Hm. Qed.
Lemma regs_set_mac f m a m' h (Q : () -> ixgbe_hw -> Prop) :
  at_regs f m a h -> (forall h', at_regs f m' a h' -> Q () h') -> wlp (modify (set_mac m')) h Q.
Proof. intros (HA & Ha & Hf & Hm & Hc) HQ. apply HQ. by split_and!. Qed.
Lemma regs_set_addr f m a a' h (Q : () -> ixgbe_hw -> Prop) :
  at_regs f m a h -> (forall h', at_regs f m a' h' -> Q () h') -> wlp (modify (set_addr_ctrl a')) h Q.
Proof. intros (HA & Ha & Hf & Hm & Hc) HQ. apply HQ. by split_and!. Qed.

(** [for (i ...) body]: an invariant of the tables. *)
Lemma regs_for_each (I : list Z -> (Z -> Z) -> Prop) m a l body f h (Q : () -> ixgbe_hw -> Prop) :
  at_regs f m a h -> I [] f ->
  (forall done i todo f h (Q : () -> ixgbe_hw -> Prop), l = done ++ i :: todo -> at_regs f m a h -> I done f ->
     (forall f' h', at_regs f' m a h' -> I (done ++ [i]) f' -> Q () h') -> wlp (body i) h Q) ->
  (forall f' h', at_regs f' m a h' -> I l f' -> Q () h') -> wlp (for_each l body) h Q.
Proof.
  intros Hh H0 Hbody HQ. enough (Hgen : forall todo done f h, l = done ++ todo -> at_regs f m a h -> I done f -> wlp (for_each todo body) h Q)
    by by apply (Hgen l []  f).
  clear f h Hh H0. induction todo as [|i todo IH]; intros done f h Hl Hh HI; cbn [for_each].
  - apply wlp_ret. rewrite app_nil_r in Hl. subst done. by apply (HQ f).
  - apply wlp_bind. eapply Hbody; [done|done|done|]. intros f' h' Hh' HI'. apply (IH (done ++ [i]) f'); [|done|done]. by rewrite <- app_assoc.
Qed.
End Rules.
Arguments at_regs : clear implicits.

(** Reading a table after a write: the registers are told apart by arithmetic. *)
Ltac regs_decide :=
  rewrite ?fn_insert_dec; repeat (destruct (decide _) as [?|?]; try lia).

(** ** Sets of 64 pools in two registers *)
Lemma truthy_lor_bit x p : 0 <= p -> truthy (Z.lor x (2 ^ p)) = true.
Proof.
  intros Hp. apply negb_true_iff, Z.eqb_neq. intros H. apply Z.lor_eq_0_iff in H as [_ H]. pose proof (Z.pow_pos_nonneg 2 p). lia.
Qed.
Lemma truthy_halves a b : truthy (Z.lor a b) = truthy (Z.lor a (Z.shiftl b 32)).
Proof.
  unfold truthy. f_equal. apply eq_true_iff_eq. rewrite !Z.eqb_eq, !Z.lor_eq_0_iff, Z.shiftl_eq_0_iff by lia. done.
Qed.

(** Changing one pool bit in the two halves. *)
Lemma pool_on lo hi p : 0 <= p < 64 ->
  (if p <? 32 then Z.lor (Z.lor lo (Z.shiftl 1 p)) (Z.shiftl hi 32) else Z.lor lo (Z.shiftl (Z.lor hi (Z.shiftl 1 (p - 32))) 32)) =
  Z.lor (Z.lor lo (Z.shiftl hi 32)) (2 ^ p).
Proof.
  intros Hp. destruct (Z.ltb_spec p 32); rewrite Z.shiftl_1_l.
  - by rewrite <- !Z.lor_assoc, (Z.lor_comm (2 ^ p)).
  - rewrite Z.shiftl_lor, (Z.shiftl_mul_pow2 (2 ^ _)), <- Z.pow_add_r, Z.lor_assoc by lia. by replace (p - 32 + 32) with p by lia.
Qed.
Lemma pool_off lo hi p : 0 <= p < 64 -> 0 <= lo < 2 ^ 32 ->
  (if p <? 32 then Z.lor (Z.ldiff lo (Z.shiftl 1 p)) (Z.shiftl hi 32) else Z.lor lo (Z.shiftl (Z.ldiff hi (Z.shiftl 1 (p - 32))) 32)) =
  Z.ldiff (Z.lor lo (Z.shiftl hi 32)) (2 ^ p).
Proof.
  intros Hp Hlo. destruct (Z.ltb_spec p 32); rewrite Z.shiftl_1_l; apply Z.bits_inj'; intros i Hi;
    rewrite !Z.ldiff_spec, !Z.lor_spec, ?Z.ldiff_spec, !Z.shiftl_spec, ?Z.ldiff_spec, ?Z.pow2_bits_eqb by lia.
  - destruct (Z.eqb_spec p i) as [->|]; [|by rewrite !andb_true_r]. rewrite (Z.testbit_neg_r hi) by lia. by destruct (Z.testbit lo i).
  - destruct (Z.eqb_spec p i) as [->|].
    + replace (Z.testbit lo i) with false; [|symmetry; apply Z.bits_above_log2; [lia|]].
      * rewrite Z.eqb_refl. cbn. by rewrite !andb_false_r.
      * destruct (decide (lo = 0)) as [->|]; [cbn; lia|]. assert (Z.log2 lo < 32); [|lia]. apply Z.log2_lt_pow2; lia.
    + rewrite (proj2 (Z.eqb_neq (p - 32) (i - 32))) by lia. by rewrite !andb_true_r.
Qed.
