(* ===== verification/Vlan.v ===== *)
(** * VLAN filters ([ixgbe_common.c])

    A VLAN is let in by its bit of the VLAN filter table (VFTA). With virtual functions, a second table gives
    the pools that receive it: 64 slots of an id (VLVF) and 64 pool bits (VLVFB). The functions keep both
    tables in step. [vlan_tables S f] says that the registers [f] represent the sets [S] of pools, and the theorems say that
    the functions implement the operations on these sets. *)
From S2P Require Import Prelude Bits Hw RegFile.

Definition IXGBE_VFTA (i : Z) : Z := 0x0A000 + i * 4.
Definition IXGBE_VLVF (i : Z) : Z := 0x0F100 + i * 4.
Definition IXGBE_VLVFB (i : Z) : Z := 0x0F200 + i * 4.
Definition IXGBE_VT_CTL : Z := 0x051B0.
Definition IXGBE_VT_CTL_VT_ENABLE : Z := 0x00000001.
Definition IXGBE_VLVF_VIEN : Z := 0x80000000.
Definition IXGBE_VLVF_ENTRIES : Z := 64.
Definition IXGBE_ERR_PARAM : Z := -5.
Definition IXGBE_ERR_NO_SPACE : Z := -25.

(** ** The functions *)

(** The search loop of [ixgbe_find_vlvf_slot] from [regindex] on, [n] rounds: the index where it stops and the
    first empty slot. *)
Fixpoint find_loop (n : nat) (vlan regindex first_empty_slot : Z) : M (Z * Z) :=
  match n with
  | O => mret (regindex, first_empty_slot)
  | S n =>
      bits ← IXGBE_READ_REG (IXGBE_VLVF regindex);
      if negb (truthy bits) && negb (truthy first_empty_slot) then find_loop n vlan (regindex + 1) regindex
      else if Z.land bits 0x0FFF =? vlan then mret (regindex, first_empty_slot)
      else find_loop n vlan (regindex + 1) first_empty_slot
  end.
Definition ixgbe_find_vlvf_slot (vlan : Z) : M Z :=
  if vlan =? 0 then mret 0
  else
    r ← find_loop (Z.to_nat (IXGBE_VLVF_ENTRIES - 1)) vlan 1 0;
    let '(regindex, first_empty_slot) := r in
    mret (if regindex >=? IXGBE_VLVF_ENTRIES then if truthy first_empty_slot then first_empty_slot else IXGBE_ERR_NO_SPACE else regindex).

(** Setting or clearing the pool bit: the register's new value, or, when clearing, the bits of both halves. *)
Definition vlvf_pool (vlvf_index vind : Z) (vlan_on : bool) : M Z :=
  let lo := IXGBE_VLVFB (vlvf_index * 2) in
  let hi := IXGBE_VLVFB (vlvf_index * 2 + 1) in
  if vlan_on then
    if vind <? 32 then
      bits ← IXGBE_READ_REG lo;
      let bits := Z.lor bits (Z.shiftl 1 vind) in
      _ ← IXGBE_WRITE_REG lo bits; mret bits
    else
      bits ← IXGBE_READ_REG hi;
      let bits := Z.lor bits (Z.shiftl 1 (vind - 32)) in
      _ ← IXGBE_WRITE_REG hi bits; mret bits
  else
    if vind <? 32 then
      bits ← IXGBE_READ_REG lo;
      let bits := Z.ldiff bits (Z.shiftl 1 vind) in
      _ ← IXGBE_WRITE_REG lo bits;
      other ← IXGBE_READ_REG hi;
      mret (Z.lor bits other)
    else
      bits ← IXGBE_READ_REG hi;
      let bits := Z.ldiff bits (Z.shiftl 1 (vind - 32)) in
      _ ← IXGBE_WRITE_REG hi bits;
      other ← IXGBE_READ_REG lo;
      mret (Z.lor bits other).

(** The status and [*vfta_changed]. *)
Definition ixgbe_set_vlvf_generic (vlan vind : Z) (vlan_on vfta_changed : bool) : M (Z * bool) :=
  if vlan >? 4095 then mret (IXGBE_ERR_PARAM, vfta_changed)
  else
    vt ← IXGBE_READ_REG IXGBE_VT_CTL;
    if truthy (Z.land vt IXGBE_VT_CTL_VT_ENABLE) then
      vlvf_index ← ixgbe_find_vlvf_slot vlan;
      if vlvf_index <? 0 then mret (vlvf_index, vfta_changed)
      else
        bits ← vlvf_pool vlvf_index vind vlan_on;
        if truthy bits then
          _ ← IXGBE_WRITE_REG (IXGBE_VLVF vlvf_index) (Z.lor IXGBE_VLVF_VIEN vlan);
          mret (0, if negb vlan_on then false else vfta_changed)
        else
          _ ← IXGBE_WRITE_REG (IXGBE_VLVF vlvf_index) 0;
          mret (0, vfta_changed)
    else mret (0, vfta_changed).

Definition ixgbe_set_vfta_generic (vlan vind : Z) (vlan_on : bool) : M Z :=
  if vlan >? 4095 then mret IXGBE_ERR_PARAM
  else
    let regindex := Z.land (Z.shiftr vlan 5) 0x7F in
    let bitindex := Z.land vlan 0x1F in
    let targetbit := Z.shiftl 1 bitindex in
    vfta ← IXGBE_READ_REG (IXGBE_VFTA regindex);
    let '(vfta, vfta_changed) :=
      if vlan_on then if negb (truthy (Z.land vfta targetbit)) then (Z.lor vfta targetbit, true) else (vfta, false)
      else if truthy (Z.land vfta targetbit) then (Z.ldiff vfta targetbit, true) else (vfta, false) in
    r ← ixgbe_set_vlvf_generic vlan vind vlan_on vfta_changed;
    let '(ret_val, vfta_changed) := r in
    if negb (ret_val =? 0) then mret ret_val
    else if vfta_changed : bool then _ ← IXGBE_WRITE_REG (IXGBE_VFTA regindex) vfta; mret 0
    else mret 0.

Definition ixgbe_clear_vfta_generic : M Z :=
  h ← get;
  _ ← for_each (seqZ 0 (vft_size (mac h))) (fun offset => IXGBE_WRITE_REG (IXGBE_VFTA offset) 0);
  _ ← for_each (seqZ 0 IXGBE_VLVF_ENTRIES) (fun offset =>
        _ ← IXGBE_WRITE_REG (IXGBE_VLVF offset) 0;
        _ ← IXGBE_WRITE_REG (IXGBE_VLVFB (offset * 2)) 0;
        IXGBE_WRITE_REG (IXGBE_VLVFB (offset * 2 + 1)) 0);
  mret 0.

(** ** What the tables represent *)

(** The registers of the two tables, and VT_CTL. *)
Definition vlan_reg (r : Z) : Prop := 0x0A000 <= r < 0x0A200 \/ 0x0F100 <= r < 0x0F400 \/ r = IXGBE_VT_CTL.

Definition vfta_bit (f : Z -> Z) (v : Z) : bool := Z.testbit (f (IXGBE_VFTA (v / 32))) (v mod 32).
(** A slot: its id, and its pools as a set of 64 bits. *)
Definition used (f : Z -> Z) (i : Z) : Prop := f (IXGBE_VLVF i) <> 0.
Definition slot_vlan (f : Z -> Z) (i : Z) : Z := Z.land (f (IXGBE_VLVF i)) 0xFFF.
Definition slot_pools (f : Z -> Z) (i : Z) : Z := Z.lor (f (IXGBE_VLVFB (i * 2))) (Z.shiftl (f (IXGBE_VLVFB (i * 2 + 1))) 32).

(** [S v] is the set of the pools of VLAN [v]. VLAN 0 has slot 0 to itself, the others share the rest; a VLAN has a slot as long
    as it has pools, and is let in as long as it has a slot. *)
Record vlan_tables (S : Z -> Z) (f : Z -> Z) : Prop := {
  slot_range i : 0 <= i < 64 -> 0 <= f (IXGBE_VLVFB (i * 2)) < 2 ^ 32 /\ 0 <= f (IXGBE_VLVFB (i * 2 + 1)) < 2 ^ 32;
  slot_free i : 0 <= i < 64 -> ~ used f i -> slot_pools f i = 0;
  slot_used i : 0 <= i < 64 -> used f i ->
    f (IXGBE_VLVF i) = Z.lor IXGBE_VLVF_VIEN (slot_vlan f i) /\ (i = 0 <-> slot_vlan f i = 0) /\
    slot_pools f i = S (slot_vlan f i) /\ S (slot_vlan f i) <> 0;
  slot_unique i j : 0 <= i < 64 -> 0 <= j < 64 -> used f i -> used f j -> slot_vlan f i = slot_vlan f j -> i = j;
  vlan_slot v : 0 <= v < 4096 -> S v <> 0 -> exists i, 0 <= i < 64 /\ used f i /\ slot_vlan f i = v;
  vlan_let_in v : 0 <= v < 4096 -> vfta_bit f v = truthy (S v)
}.

(** The operations on the sets. *)
Definition set_pool (S : Z -> Z) (v p : Z) (on : bool) : Z -> Z :=
  <[v := if on then Z.lor (S v) (2 ^ p) else Z.ldiff (S v) (2 ^ p)]> S.

(** ** The functions implement the operations *)
Lemma land_VIEN v : 0 <= v < 4096 -> Z.land (Z.lor IXGBE_VLVF_VIEN v) 0xFFF = v.
Proof.
  intros Hv. rewrite Z.land_lor_distr_l. change (Z.land IXGBE_VLVF_VIEN 0xFFF) with 0. rewrite Z.lor_0_l.
  rewrite (land_ones_mod _ 12) by lia. apply Z.mod_small. lia.
Qed.
Lemma VIEN_nonzero v : Z.lor IXGBE_VLVF_VIEN v <> 0.
Proof. intros H. by apply Z.lor_eq_0_iff in H as [H _]. Qed.
Lemma slot_vlan_used f i : slot_vlan f i <> 0 -> used f i.
Proof. intros H H0. apply H. unfold slot_vlan. by rewrite H0. Qed.

Section Vlans.
Context {init : Z -> Z} {A : list access -> Z -> Z} (m : ixgbe_mac_info) (a : ixgbe_addr_filter_info).
Local Notation at_tables f h := (at_regs vlan_reg init A f m a h).

Lemma find_loop_spec f v n k e h (Q : Z * Z -> ixgbe_hw -> Prop) :
  at_tables f h -> v <> 0 -> 1 <= k -> k + Z.of_nat n = 64 -> (forall j, 1 <= j < k -> slot_vlan f j <> v) ->
  (e = 0 /\ (forall j, 1 <= j < k -> used f j)) \/ (1 <= e < k /\ ~ used f e) ->
  (forall r e' h', at_tables f h' ->
     (1 <= r < 64 /\ slot_vlan f r = v) \/
     (r = 64 /\ (forall j, 1 <= j < 64 -> slot_vlan f j <> v) /\
      ((e' = 0 /\ forall j, 1 <= j < 64 -> used f j) \/ (1 <= e' < 64 /\ ~ used f e'))) -> Q (r, e') h') ->
  wlp (find_loop n v k e) h Q.
Proof.
  revert k e h. induction n as [|n IH]; intros k e h Hh Hv Hk Hn Hno He HQ; cbn [find_loop].
  { apply wlp_ret, HQ; [done|]. right. replace 64 with k by lia. done. }
  apply wlp_bind. eapply regs_read; [done|unfold vlan_reg, IXGBE_VLVF; lia|]. intros h1 H1.
  assert (Hstep : forall e', (slot_vlan f k <> v) -> (e' = 0 /\ (forall j, 1 <= j < k + 1 -> used f j)) \/ (1 <= e' < k + 1 /\ ~ used f e') ->
    wlp (find_loop n v (k + 1) e') h1 Q).
  { intros e' Hne He'. apply IH; [done|done|lia|lia| |done|done]. intros j Hj. destruct (decide (j = k)) as [->|]; [done|apply Hno; lia]. }
  assert (Hextend : (forall j, 1 <= j < k -> used f j) -> used f k -> forall j, 1 <= j < k + 1 -> used f j).
  { intros H Huk j Hj. destruct (decide (j = k)) as [->|]; [done|apply H; lia]. }
  unfold truthy. rewrite !negb_involutive. destruct (Z.eqb_spec (f (IXGBE_VLVF k)) 0) as [Hz|Hz].
  - assert (Hsk : slot_vlan f k = 0) by (unfold slot_vlan; by rewrite Hz).
    destruct (Z.eqb_spec e 0) as [->|Hne]; cbn [andb].
    + apply Hstep; [congruence|]. right. split; [lia|]. by intros H.
    + fold (slot_vlan f k). rewrite Hsk, (proj2 (Z.eqb_neq 0 v)) by congruence. apply Hstep; [congruence|]. right. destruct He as [[? _]|[? ?]]; [lia|]. split; [lia|done].
  - cbn [andb]. fold (slot_vlan f k). destruct (Z.eqb_spec (slot_vlan f k) v) as [Hf|Hf].
    + apply wlp_ret, HQ; [done|]. left. split; [lia|done].
    + apply Hstep; [done|]. destruct He as [[-> Hu]|[? ?]]; [left; split; [done|by apply Hextend]|right; split; [lia|done]].
Qed.

(** The slot of a VLAN, or a free one for it. *)
Definition slot_for (f : Z -> Z) (v i : Z) : Prop :=
  0 <= i < 64 /\ (i = 0 <-> v = 0) /\
  ((used f i /\ slot_vlan f i = v) \/ (~ used f i /\ forall j, 0 <= j < 64 -> used f j -> slot_vlan f j <> v)).
(** All slots belong to other VLANs. *)
Definition no_slot (f : Z -> Z) (v : Z) : Prop := v <> 0 /\ forall j, 1 <= j < 64 -> used f j /\ slot_vlan f j <> v.

Lemma find_vlvf_slot_spec S f v h (Q : Z -> ixgbe_hw -> Prop) :
  at_tables f h -> vlan_tables S f -> 0 <= v < 4096 ->
  (forall i h', at_tables f h' -> slot_for f v i \/ (i = IXGBE_ERR_NO_SPACE /\ no_slot f v) -> Q i h') -> wlp (ixgbe_find_vlvf_slot v) h Q.
Proof.
  intros Hh HS Hv HQ. unfold ixgbe_find_vlvf_slot. destruct (Z.eqb_spec v 0) as [->|Hv0].
  { apply wlp_ret, HQ; [done|]. left. split; [lia|]. split; [done|]. destruct (decide (f (IXGBE_VLVF 0) = 0)) as [Hz|Hu].
    - right. split; [by intros H|]. intros j Hj Huj Hs. destruct (slot_used S f HS j Hj Huj) as (_ & Hiff & _). apply Hiff in Hs. by subst j.
    - left. split; [done|]. destruct (slot_used S f HS 0 ltac:(lia) Hu) as (_ & Hiff & _). by apply Hiff. }
  apply wlp_bind. eapply find_loop_spec; [done|done|lia|done|lia|left; split; [done|lia]|].
  intros r e h1 H1 Hr. cbv iota. apply wlp_ret, HQ; [done|]. change IXGBE_VLVF_ENTRIES with 64. destruct (Z.geb_spec r 64) as [Hge|Hlt].
  - destruct Hr as [[? _]|(-> & Hno & He)]; [lia|].
    assert (Hno0 : forall j, 0 <= j < 64 -> used f j -> slot_vlan f j <> v).
    { intros j Hj Hu. destruct (decide (j = 0)) as [->|]; [|apply Hno; lia]. destruct (slot_used S f HS 0 ltac:(lia) Hu) as (_ & Hiff & _).
      rewrite (proj1 Hiff eq_refl). congruence. }
    unfold truthy. destruct (Z.eqb_spec e 0) as [->|Hne]; cbn [negb].
    + right. split; [done|]. split; [done|]. destruct He as [[_ Hu]|[? _]]; [|lia]. intros j Hj. split; [by apply Hu|by apply Hno].
    + left. destruct He as [[? _]|[He Hu]]; [lia|]. split; [lia|]. split; [lia|]. right. done.
  - destruct Hr as [[? Hs]|(-> & _)]; [|lia]. left. split; [lia|]. split; [lia|]. left. split; [|done]. apply slot_vlan_used. congruence.
Qed.


Lemma slot_for_pools S f v i : vlan_tables S f -> 0 <= v < 4096 -> slot_for f v i -> slot_pools f i = S v.
Proof.
  intros HS Hv (Hi & _ & [[Hu Hs]|[Hu Hno]]).
  - destruct (slot_used S f HS i Hi Hu) as (_ & _ & Hp & _). by rewrite Hp, Hs.
  - rewrite (slot_free S f HS i Hi Hu). destruct (decide (S v = 0)) as [->|Hne]; [done|].
    destruct (vlan_slot S f HS v Hv Hne) as (j & Hj & Huj & Hsj). by destruct (Hno j Hj Huj).
Qed.

Lemma vlvf_pool_spec f i p (on : bool) h (Q : Z -> ixgbe_hw -> Prop) :
  at_tables f h -> 0 <= i < 64 -> 0 <= p < 64 ->
  0 <= f (IXGBE_VLVFB (i * 2)) < 2 ^ 32 -> 0 <= f (IXGBE_VLVFB (i * 2 + 1)) < 2 ^ 32 ->
  (forall bits f' h', at_tables f' h' -> (forall r, r <> IXGBE_VLVFB (i * 2) -> r <> IXGBE_VLVFB (i * 2 + 1) -> f' r = f r) ->
     slot_pools f' i = (if on then Z.lor (slot_pools f i) (2 ^ p) else Z.ldiff (slot_pools f i) (2 ^ p)) ->
     0 <= f' (IXGBE_VLVFB (i * 2)) < 2 ^ 32 -> 0 <= f' (IXGBE_VLVFB (i * 2 + 1)) < 2 ^ 32 ->
     truthy bits = truthy (slot_pools f' i) -> Q bits h') ->
  wlp (vlvf_pool i p on) h Q.
Proof.
  intros Hh Hi Hp Hlo Hhi HQ. unfold vlvf_pool. cbv zeta. set (lo := IXGBE_VLVFB (i * 2)) in *. set (hi := IXGBE_VLVFB (i * 2 + 1)) in *.
  assert (Hne : hi <> lo) by (unfold hi, lo, IXGBE_VLVFB; lia).
  assert (Tlo : vlan_reg lo) by (unfold vlan_reg, lo, IXGBE_VLVFB; lia). assert (Thi : vlan_reg hi) by (unfold vlan_reg, hi, IXGBE_VLVFB; lia).
  pose proof (pool_on (f lo) (f hi) p Hp) as Hon. pose proof (pool_off (f lo) (f hi) p Hp Hlo) as Hoff. 
  set (target := if on then Z.lor (slot_pools f i) (2 ^ p) else Z.ldiff (slot_pools f i) (2 ^ p)) in *.
  assert (Qlo : forall x bits h', at_tables (<[lo := x]> f) h' -> 0 <= x < 2 ^ 32 -> Z.lor x (Z.shiftl (f hi) 32) = target ->
    truthy bits = truthy target -> Q bits h').
  { intros x bits h' H' Hx Ht Hb. apply (HQ bits _ _ H'); [intros r Hr _; by apply fn_lookup_insert_ne| |by rewrite fn_lookup_insert| |].
    - unfold slot_pools. fold lo hi. by rewrite fn_lookup_insert, fn_lookup_insert_ne by done.
    - by rewrite fn_lookup_insert_ne by done.
    - unfold slot_pools. fold lo hi. by rewrite fn_lookup_insert, fn_lookup_insert_ne, Ht by done. }
  assert (Qhi : forall x bits h', at_tables (<[hi := x]> f) h' -> 0 <= x < 2 ^ 32 -> Z.lor (f lo) (Z.shiftl x 32) = target ->
    truthy bits = truthy target -> Q bits h').
  { intros x bits h' H' Hx Ht Hb. apply (HQ bits _ _ H'); [intros r _ Hr; by apply fn_lookup_insert_ne| | |by rewrite fn_lookup_insert|].
    - unfold slot_pools. fold lo hi. by rewrite fn_lookup_insert, fn_lookup_insert_ne by done.
    - by rewrite fn_lookup_insert_ne by done.
    - unfold slot_pools. fold lo hi. by rewrite fn_lookup_insert, fn_lookup_insert_ne, Ht by done. }
  clear HQ. assert (Hbit : forall k, 0 <= k < 32 -> 0 <= Z.shiftl 1 k < 2 ^ 32).
  { intros k Hk. rewrite Z.shiftl_1_l. split; [lia|]. apply Z.pow_lt_mono_r; lia. }
  assert (Hdiff : forall x y, 0 <= x < 2 ^ 32 -> 0 <= Z.ldiff x y < 2 ^ 32).
  { intros x y Hx. rewrite Z.ldiff_land, Z.land_comm. apply land_bounds; lia. }
  destruct on; destruct (Z.ltb_spec p 32); apply wlp_bind; (eapply regs_read; [done|done|]); intros h1 H1;
    apply wlp_bind; (eapply regs_write; [done|]); intros h2 H2.
  - apply wlp_ret, (Qlo _ _ _ H2); [apply lor_bounds; [lia|done|apply Hbit; lia]|done|].
    unfold target. by rewrite Z.shiftl_1_l, !truthy_lor_bit by lia.
  - apply wlp_ret, (Qhi _ _ _ H2); [apply lor_bounds; [lia|done|apply Hbit; lia]|done|].
    unfold target. by rewrite Z.shiftl_1_l, !truthy_lor_bit by lia.
  - apply wlp_bind. eapply regs_read; [done|done|]. intros h3 H3. rewrite fn_lookup_insert_ne by done.
    apply wlp_ret, (Qlo _ _ _ H3); [by apply Hdiff|done|]. unfold target. unfold slot_pools. fold lo hi. rewrite <- Hoff. apply truthy_halves.
  - apply wlp_bind. eapply regs_read; [done|done|]. intros h3 H3. rewrite fn_lookup_insert_ne by done.
    apply wlp_ret, (Qhi _ _ _ H3); [by apply Hdiff|done|]. unfold target. unfold slot_pools. fold lo hi. rewrite <- Hoff, Z.lor_comm. apply truthy_halves.
Qed.

(** From [f] to [f'] the slot [i] got the VLAN [v] with the pools [x]. *)
Record slot_set (f f' : Z -> Z) (v i x : Z) : Prop := {
  others_same j : 0 <= j < 64 -> j <> i -> f' (IXGBE_VLVF j) = f (IXGBE_VLVF j) /\
    f' (IXGBE_VLVFB (j * 2)) = f (IXGBE_VLVFB (j * 2)) /\ f' (IXGBE_VLVFB (j * 2 + 1)) = f (IXGBE_VLVFB (j * 2 + 1));
  new_range : 0 <= f' (IXGBE_VLVFB (i * 2)) < 2 ^ 32 /\ 0 <= f' (IXGBE_VLVFB (i * 2 + 1)) < 2 ^ 32;
  new_pools : slot_pools f' i = x;
  new_id : f' (IXGBE_VLVF i) = (if x =? 0 then 0 else Z.lor IXGBE_VLVF_VIEN v)
}.
Lemma slot_set_ext f f1 f2 v i x :
  0 <= i < 64 -> slot_set f f1 v i x -> (forall r, 0x0F100 <= r < 0x0F400 -> f2 r = f1 r) -> slot_set f f2 v i x.
Proof.
  intros Hi [H1 H2 H3 H4] He. unfold slot_pools, IXGBE_VLVF, IXGBE_VLVFB in *. split; [|split|..]; unfold slot_pools, IXGBE_VLVF, IXGBE_VLVFB.
  - intros j Hj. rewrite !He by lia. by apply H1.
  - rewrite He by lia. apply H2.
  - rewrite He by lia. apply H2.
  - by rewrite !He by lia.
  - by rewrite He by lia.
Qed.

Lemma tables_update S f f' v i x :
  vlan_tables S f -> 0 <= v < 4096 -> slot_for f v i -> slot_set f f' v i x ->
  (forall w, 0 <= w < 4096 -> vfta_bit f' w = truthy ((<[v := x]> S) w)) -> vlan_tables (<[v := x]> S) f'.
Proof.
  intros HS Hv (Hi & Hi0 & Hslot) [Hsame [Hlo Hhi] Hx Hid] Hbits.
  assert (Hsv : used f' i -> slot_vlan f' i = v /\ x <> 0).
  { intros Hu. unfold used in Hu. unfold slot_vlan. rewrite Hid in *. destruct (Z.eqb_spec x 0); [done|]. by rewrite land_VIEN. }
  assert (Hoth : forall j, 0 <= j < 64 -> j <> i -> (used f' j <-> used f j) /\ slot_vlan f' j = slot_vlan f j /\ slot_pools f' j = slot_pools f j).
  { intros j Hj Hne. destruct (Hsame j Hj Hne) as (H1 & H2 & H3). unfold used, slot_vlan, slot_pools. by rewrite H1, H2, H3. }
  assert (Hnv : forall j, 0 <= j < 64 -> j <> i -> used f j -> slot_vlan f j <> v).
  { intros j Hj Hne Hu Hs. destruct Hslot as [[Hui Hsi]|[_ Hno]]; [|by apply (Hno j)]. apply Hne, (slot_unique S f HS); congruence. }
  split.
  - intros j Hj. destruct (decide (j = i)) as [->|Hne]; [done|]. destruct (Hsame j Hj Hne) as (_ & -> & ->). by apply (slot_range S f HS).
  - intros j Hj Hu. destruct (decide (j = i)) as [->|Hne].
    + rewrite Hx. destruct (Z.eqb_spec x 0) as [|Hn]; [done|]. destruct Hu. unfold used. rewrite Hid. apply VIEN_nonzero.
    + destruct (Hoth j Hj Hne) as (Hiff & _ & ->). apply (slot_free S f HS); [done|]. by rewrite <- Hiff.
  - intros j Hj Hu. destruct (decide (j = i)) as [->|Hne].
    + destruct (Hsv Hu) as [-> Hn]. rewrite Hid, (proj2 (Z.eqb_neq _ _) Hn), fn_lookup_insert. done.
    + destruct (Hoth j Hj Hne) as (Hiff & Hs & Hp). destruct (Hsame j Hj Hne) as (Hr & _). rewrite Hs, Hp, Hr. apply Hiff in Hu.
      rewrite fn_lookup_insert_ne by (apply not_eq_sym; by apply Hnv). by apply (slot_used S f HS).
  - assert (Hone : forall j, 0 <= j < 64 -> used f' j -> slot_vlan f' j = v -> j = i).
    { intros j Hj Hu Hs. destruct (decide (j = i)) as [->|Hne]; [done|]. destruct (Hoth j Hj Hne) as (Hiff & Hsj & _).
      destruct (Hnv j Hj Hne); [by apply Hiff|congruence]. }
    intros j k Hj Hk Hu Hu' Hs. destruct (decide (j = i)) as [->|Hnj]; [symmetry; apply Hone; [done|done|]; rewrite <- Hs; by apply Hsv|].
    destruct (decide (k = i)) as [->|Hnk]; [apply Hone; [done|done|]; rewrite Hs; by apply Hsv|].
    destruct (Hoth j Hj Hnj) as (Hiff & Hsj & _), (Hoth k Hk Hnk) as (Hiff' & Hsk & _).
    apply (slot_unique S f HS); [done|done|by apply Hiff|by apply Hiff'|congruence].
  - intros w Hw. rewrite fn_insert_dec. destruct (decide (v = w)) as [->|Hne]; intros Hnz.
    + exists i. assert (Hu : used f' i) by (unfold used; rewrite Hid, (proj2 (Z.eqb_neq _ _) Hnz); apply VIEN_nonzero).
      split_and!; [lia|lia|done|by apply Hsv].
    + destruct (vlan_slot S f HS w Hw Hnz) as (j & Hj & Hu & Hs). exists j.
      assert (Hji : j <> i).
      { intros ->. destruct Hslot as [[_ Hsi]|[Hnu _]]; [congruence|done]. }
      destruct (Hoth j Hj Hji) as (Hiff & Hsj & _). split_and!; [lia|lia|by apply Hiff|congruence].
  - exact Hbits.
Qed.

(** The part of VLVF: which slot it sets, and whether VFTA is still to be changed. *)
Lemma set_vlvf_spec S f v p on ch h (Q : Z * bool -> ixgbe_hw -> Prop) :
  at_tables f h -> vlan_tables S f -> Z.land (f IXGBE_VT_CTL) IXGBE_VT_CTL_VT_ENABLE <> 0 -> 0 <= v < 4096 -> 0 <= p < 64 ->
  let x := set_pool S v p on v in
  (forall i f' h', at_tables f' h' -> slot_for f v i -> slot_set f f' v i x -> (forall r, ~ (0x0F100 <= r < 0x0F400) -> f' r = f r) ->
     Q (0, if truthy x && negb on then false else ch) h') ->
  (forall h', at_tables f h' -> no_slot f v -> Q (IXGBE_ERR_NO_SPACE, ch) h') ->
  wlp (ixgbe_set_vlvf_generic v p on ch) h Q.
Proof.
  intros Hh HS Hvt Hv Hp x HQ Hfull. unfold ixgbe_set_vlvf_generic. rewrite Z.gtb_ltb, (proj2 (Z.ltb_ge 4095 v)) by lia.
  apply wlp_bind. eapply regs_read; [done|unfold vlan_reg; lia|]. intros h2 H2. unfold truthy at 1. rewrite (proj2 (Z.eqb_neq _ _) Hvt). cbn [negb].
  apply wlp_bind. eapply find_vlvf_slot_spec; [done|done|done|]. intros i h3 H3 [Hslot|[-> Hno]]; [|apply wlp_ret; by apply Hfull].
  pose proof Hslot as (Hi & _ & _). rewrite (proj2 (Z.ltb_ge i 0)) by lia. apply wlp_bind.
  destruct (slot_range S f HS i Hi) as [Hlo Hhi]. pose proof (slot_for_pools S f v i HS Hv Hslot) as Hpools.
  eapply vlvf_pool_spec; [done|done|done|done|done|]. intros bits f4 h4 H4 Hother Hp4 Hlo4 Hhi4 Hbits. rewrite Hpools in Hp4.
  replace (if on then _ else _) with x in Hp4 by (unfold x, set_pool; by rewrite fn_lookup_insert). rewrite Hbits, Hp4.
  assert (Hfin : forall h5, at_tables (<[IXGBE_VLVF i := if x =? 0 then 0 else Z.lor IXGBE_VLVF_VIEN v]> f4) h5 ->
    Q (0, if truthy x && negb on then false else ch) h5).
  { intros h5 H5. apply (HQ i _ h5 H5 Hslot).
    - split; [|split|..]; unfold slot_pools, IXGBE_VLVF; rewrite ?fn_lookup_insert; rewrite ?fn_lookup_insert_ne by (unfold IXGBE_VLVFB; lia); try done.
      intros j Hj Hne. rewrite !fn_lookup_insert_ne by (unfold IXGBE_VLVFB; lia). rewrite !Hother by (unfold IXGBE_VLVFB; lia). done.
    - intros r Hr. unfold IXGBE_VLVF. rewrite fn_lookup_insert_ne by lia. apply Hother; unfold IXGBE_VLVFB; lia. }
  clear HQ Hfull. unfold truthy in *. destruct (x =? 0); cbn [negb andb] in *; apply wlp_bind; (eapply regs_write; [done|]); intros h5 H5;
    apply wlp_ret, Hfin, H5.
Qed.
End Vlans.

(** *** The bits of VFTA *)
Lemma vfta_index v : 0 <= v < 4096 -> Z.land (Z.shiftr v 5) 0x7F = v / 32 /\ Z.land v 0x1F = v mod 32.
Proof. intros Hv. rewrite (land_ones_mod _ 7), (land_ones_mod _ 5), Z.shiftr_div_pow2 by lia. zdm. Qed.

Lemma vfta_write f v w x (b : bool) :
  0 <= v < 4096 -> 0 <= w < 4096 ->
  x = (if b then Z.lor (f (IXGBE_VFTA (v / 32))) (Z.shiftl 1 (v mod 32)) else Z.ldiff (f (IXGBE_VFTA (v / 32))) (Z.shiftl 1 (v mod 32))) ->
  vfta_bit (<[IXGBE_VFTA (v / 32) := x]> f) w = if v =? w then b else vfta_bit f w.
Proof.
  intros Hv Hw ->. unfold vfta_bit. rewrite fn_insert_dec. destruct (decide _) as [Heq|Hne].
  - assert (Hd : v / 32 = w / 32) by (unfold IXGBE_VFTA in Heq; lia). rewrite Z.shiftl_1_l.
    assert (Hm : 0 <= v mod 32 < 32 /\ 0 <= w mod 32 < 32) by zdm.
    replace (v =? w) with (v mod 32 =? w mod 32); [|apply eq_true_iff_eq; rewrite !Z.eqb_eq; zdm]. rewrite <- Hd.
    destruct b; rewrite ?Z.lor_spec, ?Z.ldiff_spec, Z.pow2_bits_eqb by lia; destruct (_ =? _);
      by rewrite ?orb_true_r, ?orb_false_r, ?andb_true_r, ?andb_false_r.
  - rewrite (proj2 (Z.eqb_neq v w)); [done|]. by intros ->.
Qed.

(** Whether the bit changes is decided right. *)
Lemma vfta_decision S v p (on : bool) :
  0 <= p -> let x := set_pool S v p on v in let ch := if on then negb (truthy (S v)) else truthy (S v) in
  (if (if truthy x && negb on then false else ch) then on else truthy (S v)) = truthy x.
Proof.
  intros Hp. cbv zeta. unfold set_pool. rewrite fn_lookup_insert. destruct on; cbn [negb].
  - rewrite truthy_lor_bit by lia. by destruct (truthy (S v)).
  - destruct (truthy (Z.ldiff _ _)) eqn:Hx; cbn [andb]; [|by destruct (truthy (S v))]. unfold truthy in *.
    destruct (Z.eqb_spec (S v) 0) as [Hz|]; [|done]. by rewrite Hz, Z.ldiff_0_l in Hx.
Qed.

(** C28. Pools join and leave VLANs.  In virtualisation mode, on tables that represent the sets [S],
    [ixgbe_set_vfta_generic] adds the pool to the VLAN's set or removes it from it, and both tables represent the result:
    a VLAN is let in exactly while some pool is in its set. It fails only when the VLAN has no slot and all slots are
    taken by others; then nothing is changed. *)
Theorem set_vfta_refines init A S vlan vind vlan_on h :
  reg_file vlan_reg init A -> ans h = A -> vlan_tables S (regs init (tr h)) ->
  Z.land (regs init (tr h) IXGBE_VT_CTL) IXGBE_VT_CTL_VT_ENABLE <> 0 -> 0 <= vlan < 4096 -> 0 <= vind < 64 ->
  let '(r, h') := ixgbe_set_vfta_generic vlan vind vlan_on h in
  (r = 0 /\ vlan_tables (set_pool S vlan vind vlan_on) (regs init (tr h'))) \/
  (r = IXGBE_ERR_NO_SPACE /\ no_slot (regs init (tr h)) vlan /\ regs init (tr h') = regs init (tr h)).
Proof.
  intros HA Ha HS Hvt Hv Hp. apply wlp_run. set (f := regs init (tr h)) in *.
  assert (Hh : at_regs vlan_reg init A f (mac h) (addr_ctrl h) h) by by split_and!.
  unfold ixgbe_set_vfta_generic. rewrite Z.gtb_ltb, (proj2 (Z.ltb_ge 4095 vlan)) by lia. cbv zeta.
  destruct (vfta_index vlan Hv) as [-> ->]. set (reg := IXGBE_VFTA (vlan / 32)). set (bit := Z.shiftl 1 (vlan mod 32)).
  assert (Hreg : 0x0A000 <= reg < 0x0A200) by (unfold reg, IXGBE_VFTA; zdm).
  apply wlp_bind. eapply regs_read; [done|unfold vlan_reg; lia|]. intros h1 H1.
  assert (Hold : truthy (Z.land (f reg) bit) = truthy (S vlan)).
  { unfold bit. rewrite truthy_land_bit by zdm. by apply (vlan_let_in S f HS). }
  rewrite Hold. set (upd := if vlan_on then Z.lor (f reg) bit else Z.ldiff (f reg) bit). set (ch := if vlan_on then negb (truthy (S vlan)) else truthy (S vlan)).
  replace (if vlan_on then _ else _) with (if ch then upd else f reg, ch) by (unfold ch, upd; by destruct vlan_on, (truthy (S vlan))).
  cbv iota beta. apply wlp_bind. eapply set_vlvf_spec; [done|done|done|done|done| |].
  2:{ intros h3 H3 Hno. apply wlp_ret. right. split_and!; [done|done|]. apply H3. }
  intros i f5 h5 H5 Hslot Hset H5o. pose proof Hslot as (Hi & _). set (x := set_pool S vlan vind vlan_on vlan) in *.
  set (ch' := if truthy x && negb vlan_on then false else ch). cbv iota beta. change (negb (0 =? 0)) with false. cbv iota.
  assert (Hbit : forall w, 0 <= w < 4096 -> (if ch' && (vlan =? w) then vlan_on else vfta_bit f5 w) = truthy (set_pool S vlan vind vlan_on w)).
  { intros w Hw. replace (vfta_bit f5 w) with (truthy (S w)) by (rewrite <- (vlan_let_in S f HS w Hw); unfold vfta_bit; rewrite H5o; [done|unfold IXGBE_VFTA; zdm]).
    destruct (Z.eqb_spec vlan w) as [<-|Hne]; [rewrite andb_true_r; apply vfta_decision; lia|].
    rewrite andb_false_r. unfold set_pool. by rewrite fn_lookup_insert_ne. }
  assert (Hfin : forall f' h', at_regs vlan_reg init A f' (mac h) (addr_ctrl h) h' -> (forall r, r <> reg -> f' r = f5 r) ->
    (forall w, 0 <= w < 4096 -> vfta_bit f' w = if ch' && (vlan =? w) then vlan_on else vfta_bit f5 w) ->
    vlan_tables (set_pool S vlan vind vlan_on) (regs init (tr h'))).
  { intros f' h' H' Hf' Hw'. replace (regs init (tr h')) with f' by (symmetry; apply H').
    replace (set_pool S vlan vind vlan_on) with (<[vlan := x]> S) by (unfold x, set_pool; by rewrite fn_lookup_insert).
    apply (tables_update S f f' vlan i x); [done|done|done| |].
    - apply (slot_set_ext f f5); [done|done|]. intros r Hr. apply Hf'. lia.
    - intros w Hw. rewrite Hw', Hbit by done. unfold x, set_pool. by rewrite fn_lookup_insert. }
  destruct ch' eqn:Hch; [|apply wlp_ret; left; split; [done|]; by apply (Hfin f5)].
  replace (if ch then upd else f reg) with upd by (unfold ch' in Hch; destruct (truthy x && negb vlan_on); [done|by rewrite Hch]).
  apply wlp_bind. eapply regs_write; [done|]. intros h6 H6. apply wlp_ret. left. split; [done|]. apply (Hfin _ _ H6).
  - intros r Hr. by apply fn_lookup_insert_ne.
  - intros w Hw. cbn [andb]. apply vfta_write; [done|done|]. unfold upd. rewrite H5o by (unfold IXGBE_VFTA; zdm). done.
Qed.

Lemma empty_tables f :
  (forall i, 0 <= i < 128 -> f (IXGBE_VFTA i) = 0) -> (forall i, 0 <= i < 64 -> f (IXGBE_VLVF i) = 0) ->
  (forall i, 0 <= i < 128 -> f (IXGBE_VLVFB i) = 0) -> vlan_tables (fun _ => 0) f.
Proof.
  intros Hf Hid Hb. split; unfold used, slot_pools.
  - intros i Hi. by rewrite !Hb by lia.
  - intros i Hi _. by rewrite !Hb by lia.
  - intros i Hi Hu. by rewrite Hid in Hu.
  - intros i j Hi Hj Hu. by rewrite Hid in Hu.
  - done.
  - intros v Hv. unfold vfta_bit. rewrite Hf by zdm. apply Z.bits_0.
Qed.

(** Clearing removes every VLAN.  After [ixgbe_clear_vfta_generic], whatever the tables held, they
    represent no VLAN and no pool. *)
Theorem clear_vfta_empties init A h :
  reg_file vlan_reg init A -> ans h = A -> vft_size (mac h) = 128 ->
  let '(r, h') := ixgbe_clear_vfta_generic h in r = 0 /\ vlan_tables (fun _ => 0) (regs init (tr h')).
Proof.
  intros HA Ha Hsize. apply wlp_run. assert (Hh : at_regs vlan_reg init A (regs init (tr h)) (mac h) (addr_ctrl h) h) by by split_and!.
  unfold ixgbe_clear_vfta_generic. apply wlp_bind, wlp_get. rewrite Hsize. apply wlp_bind.
  eapply (regs_for_each (fun l f => forall i, In i l -> f (IXGBE_VFTA i) = 0)); [exact Hh|by intros i []| |].
  { intros l i todo f h1 Q Hl H1 HI HQ. eapply regs_write; [exact H1|]. intros h2 H2. apply (HQ _ _ H2). intros j Hj. rewrite fn_insert_dec.
    destruct (decide _) as [|Hne]; [done|]. apply HI. apply in_app_iff in Hj as [Hj|[->|[]]]; [done|done]. }
  intros f1 h1 H1 HI1. apply wlp_bind.
  eapply (regs_for_each (fun l f => (forall r, f1 r = 0 -> f r = 0) /\
    forall i, In i l -> f (IXGBE_VLVF i) = 0 /\ f (IXGBE_VLVFB (i * 2)) = 0 /\ f (IXGBE_VLVFB (i * 2 + 1)) = 0));
    [exact H1|by split; [|intros i []]| |].
  { intros l i todo f h2 Q Hl H2 [Hlow HI] HQ.
    apply wlp_bind. eapply regs_write; [exact H2|]. intros h3 H3. apply wlp_bind. eapply regs_write; [exact H3|]. intros h4 H4.
    eapply regs_write; [exact H4|]. intros h5 H5. apply (HQ _ _ H5). split.
    - intros r Hr. rewrite !fn_insert_dec. repeat destruct (decide _); [done..|by apply Hlow].
    - intros j Hj. rewrite !fn_insert_dec. apply in_app_iff in Hj as [Hj|[->|[]]].
      + destruct (HI j Hj) as (-> & -> & ->). by repeat destruct (decide _).
      + by repeat destruct (decide _). }
  intros f2 h2 H2 [Hlow HI2]. apply wlp_ret. split; [done|]. replace (regs init (tr h2)) with f2 by (symmetry; apply H2).
  assert (Hslots : forall i, 0 <= i < 64 -> f2 (IXGBE_VLVF i) = 0 /\ f2 (IXGBE_VLVFB (i * 2)) = 0 /\ f2 (IXGBE_VLVFB (i * 2 + 1)) = 0).
  { intros i Hi. apply HI2, list_elem_of_In, elem_of_seqZ. unfold IXGBE_VLVF_ENTRIES. lia. }
  apply empty_tables.
  - intros i Hi. apply Hlow, HI1, list_elem_of_In, elem_of_seqZ. lia.
  - intros i Hi. by apply Hslots.
  - intros i Hi. destruct (Hslots (i / 2) ltac:(zdm)) as (_ & He & Ho). destruct (decide (i mod 2 = 0)).
    + replace i with (i / 2 * 2) by zdm. done.
    + replace i with (i / 2 * 2 + 1) by zdm. done.
Qed.

(** *** Examples: an adapter in virtualisation mode with empty tables *)
Definition vlan_init (r : Z) : Z := if r =? IXGBE_VT_CTL then 1 else 0.
Definition vlan_hw : ixgbe_hw := hw_init ixgbe_mac_82599EB (regs vlan_init).

Lemma set_vfta_refines_witness :
  let '(r, h') := ixgbe_set_vfta_generic 100 40 true vlan_hw in
  (r = 0 /\ vlan_tables (set_pool (fun _ => 0) 100 40 true) (regs vlan_init (tr h'))) \/
  (r = IXGBE_ERR_NO_SPACE /\ no_slot vlan_init 100 /\ regs vlan_init (tr h') = vlan_init).
Proof.
  apply (set_vfta_refines vlan_init (regs vlan_init) (fun _ => 0) 100 40 true vlan_hw); [by intros t r _|done| |done|lia|lia].
  change (regs vlan_init (tr vlan_hw)) with vlan_init.
  apply empty_tables; intros i Hi; unfold vlan_init, IXGBE_VFTA, IXGBE_VLVF, IXGBE_VLVFB, IXGBE_VT_CTL; by rewrite (proj2 (Z.eqb_neq _ _)) by lia.
Defined.
Lemma clear_vfta_empties_witness :
  let '(r, h') := ixgbe_clear_vfta_generic vlan_hw in r = 0 /\ vlan_tables (fun _ => 0) (regs vlan_init (tr h')).
Proof. by apply (clear_vfta_empties vlan_init (regs vlan_init) vlan_hw). Defined.
