(* ===== verification/AddrFilter.v ===== *)
(** * Address filters ([ixgbe_common.c])

    A receive address register (RAR) is a pair of registers with an address and a valid bit, and a pair with
    the set of pools that get its packets. Multicast addresses go through a hash table of 4096
    bits (MTA). The functions that set and clear them, as [hw->mac.ops] names them on the 82599. *)
From S2P Require Import Prelude Bits Hw RegFile.

Definition IXGBE_RAL (i : Z) : Z := if i <=? 15 then 0x05400 + i * 8 else 0x0A200 + i * 8.
Definition IXGBE_RAH (i : Z) : Z := if i <=? 15 then 0x05404 + i * 8 else 0x0A204 + i * 8.
Definition IXGBE_MPSAR_LO (i : Z) : Z := 0x0A600 + i * 8.
Definition IXGBE_MPSAR_HI (i : Z) : Z := 0x0A604 + i * 8.
Definition IXGBE_MTA (i : Z) : Z := 0x05200 + i * 4.
Definition IXGBE_UTA (i : Z) : Z := 0x0F400 + i * 4.
Definition IXGBE_FCTRL : Z := 0x05080.
Definition IXGBE_FCTRL_UPE : Z := 0x00000200.
Definition IXGBE_MCSTCTRL : Z := 0x05090.
Definition IXGBE_MCSTCTRL_MFE : Z := 0x4.
Definition IXGBE_RAH_AV : Z := 0x80000000.
Definition IXGBE_CLEAR_VMDQ_ALL : Z := 0xFFFFFFFF.
Definition IXGBE_ERR_INVALID_MAC_ADDR : Z := -10.
Definition IXGBE_ERR_INVALID_ARGUMENT : Z := -32.

(** ** Addresses *)
Definition byte (addr : list Z) (k : nat) : Z := nth k addr 0.
Definition IXGBE_IS_MULTICAST (addr : list Z) : bool := truthy (Z.land (byte addr 0) 0x01).
Definition IXGBE_IS_BROADCAST (addr : list Z) : bool := (byte addr 0 =? 0xff) && (byte addr 1 =? 0xff).
Definition ixgbe_validate_mac_addr (addr : list Z) : Z :=
  if IXGBE_IS_MULTICAST addr then IXGBE_ERR_INVALID_MAC_ADDR
  else if IXGBE_IS_BROADCAST addr then IXGBE_ERR_INVALID_MAC_ADDR
  else if (byte addr 0 =? 0) && (byte addr 1 =? 0) && (byte addr 2 =? 0) && (byte addr 3 =? 0) && (byte addr 4 =? 0) && (byte addr 5 =? 0)
  then IXGBE_ERR_INVALID_MAC_ADDR
  else 0.

(** The two parts of an address in a RAR. *)
Definition addr_low (addr : list Z) : Z :=
  Z.lor (Z.lor (Z.lor (byte addr 0) (Z.shiftl (byte addr 1) 8)) (Z.shiftl (byte addr 2) 16)) (Z.shiftl (byte addr 3) 24).
Definition addr_high (addr : list Z) : Z := Z.lor (byte addr 4) (Z.shiftl (byte addr 5) 8).

Definition ixgbe_get_mac_addr_generic : M (list Z) :=
  rar_high ← IXGBE_READ_REG (IXGBE_RAH 0);
  rar_low ← IXGBE_READ_REG (IXGBE_RAL 0);
  mret (map (fun i => u8 (Z.shiftr rar_low (i * 8))) (seqZ 0 4) ++ map (fun i => u8 (Z.shiftr rar_high (i * 8))) (seqZ 0 2)).

(** ** Pools *)
Definition ixgbe_set_vmdq_generic (rar vmdq : Z) : M Z :=
  h ← get;
  if rar >=? num_rar_entries (mac h) then mret IXGBE_ERR_INVALID_ARGUMENT
  else
    _ ← (if vmdq <? 32 then
           mpsar ← IXGBE_READ_REG (IXGBE_MPSAR_LO rar);
           IXGBE_WRITE_REG (IXGBE_MPSAR_LO rar) (Z.lor mpsar (Z.shiftl 1 vmdq))
         else
           mpsar ← IXGBE_READ_REG (IXGBE_MPSAR_HI rar);
           IXGBE_WRITE_REG (IXGBE_MPSAR_HI rar) (Z.lor mpsar (Z.shiftl 1 (vmdq - 32))));
    mret 0.

Definition ixgbe_set_vmdq_san_mac_generic (vmdq : Z) : M Z :=
  h ← get;
  let rar := san_mac_rar_index (mac h) in
  _ ← (if vmdq <? 32 then
         _ ← IXGBE_WRITE_REG (IXGBE_MPSAR_LO rar) (Z.shiftl 1 vmdq);
         IXGBE_WRITE_REG (IXGBE_MPSAR_HI rar) 0
       else
         _ ← IXGBE_WRITE_REG (IXGBE_MPSAR_LO rar) 0;
         IXGBE_WRITE_REG (IXGBE_MPSAR_HI rar) (Z.shiftl 1 (vmdq - 32)));
  mret 0.

(** Clearing the last pool of a RAR clears the RAR, which clears its pools: the two functions call each other; [None] when the
    fuel is used up. *)
Fixpoint clear_vmdq (fuel : nat) (rar vmdq : Z) : M (option Z) :=
  match fuel with
  | O => mret None
  | S fuel =>
      h ← get;
      if rar >=? num_rar_entries (mac h) then mret (Some IXGBE_ERR_INVALID_ARGUMENT)
      else
        mpsar_lo ← IXGBE_READ_REG (IXGBE_MPSAR_LO rar);
        mpsar_hi ← IXGBE_READ_REG (IXGBE_MPSAR_HI rar);
        if negb (truthy mpsar_lo) && negb (truthy mpsar_hi) then mret (Some 0)
        else
          r ← (if vmdq =? IXGBE_CLEAR_VMDQ_ALL then
                 _ ← (if truthy mpsar_lo then IXGBE_WRITE_REG (IXGBE_MPSAR_LO rar) 0 else mret ());
                 _ ← (if truthy mpsar_hi then IXGBE_WRITE_REG (IXGBE_MPSAR_HI rar) 0 else mret ());
                 mret (0, 0)
               else if vmdq <? 32 then
                 let mpsar_lo := Z.ldiff mpsar_lo (Z.shiftl 1 vmdq) in
                 _ ← IXGBE_WRITE_REG (IXGBE_MPSAR_LO rar) mpsar_lo; mret (mpsar_lo, mpsar_hi)
               else
                 let mpsar_hi := Z.ldiff mpsar_hi (Z.shiftl 1 (vmdq - 32)) in
                 _ ← IXGBE_WRITE_REG (IXGBE_MPSAR_HI rar) mpsar_hi; mret (mpsar_lo, mpsar_hi));
          if (fst r =? 0) && (snd r =? 0) && negb (rar =? 0) then
            c ← clear_rar fuel rar;
            mret (match c with Some _ => Some 0 | None => None end)
          else mret (Some 0)
  end
with clear_rar (fuel : nat) (index : Z) : M (option Z) :=
  match fuel with
  | O => mret None
  | S fuel =>
      h ← get;
      if index >=? num_rar_entries (mac h) then mret (Some IXGBE_ERR_INVALID_ARGUMENT)
      else
        rar_high ← IXGBE_READ_REG (IXGBE_RAH index);
        let rar_high := Z.ldiff rar_high (Z.lor 0x0000FFFF IXGBE_RAH_AV) in
        _ ← IXGBE_WRITE_REG (IXGBE_RAL index) 0;
        _ ← IXGBE_WRITE_REG (IXGBE_RAH index) rar_high;
        c ← clear_vmdq fuel index IXGBE_CLEAR_VMDQ_ALL;
        mret (match c with Some _ => Some 0 | None => None end)
  end.
(** Four calls deep is enough where the registers keep what is written ([clear_rar_spec]). *)
Definition ixgbe_clear_vmdq_generic : Z -> Z -> M (option Z) := clear_vmdq 4.
Definition ixgbe_clear_rar_generic : Z -> M (option Z) := clear_rar 4.

(** ** Receive address registers *)
Definition ixgbe_set_rar_generic (index : Z) (addr : list Z) (vmdq enable_addr : Z) : M Z :=
  h ← get;
  if index >=? num_rar_entries (mac h) then mret IXGBE_ERR_INVALID_ARGUMENT
  else
    _ ← ixgbe_set_vmdq_generic index vmdq;
    rar_high ← IXGBE_READ_REG (IXGBE_RAH index);
    let rar_high := Z.lor (Z.ldiff rar_high (Z.lor 0x0000FFFF IXGBE_RAH_AV)) (addr_high addr) in
    let rar_high := if negb (enable_addr =? 0) then Z.lor rar_high IXGBE_RAH_AV else rar_high in
    _ ← IXGBE_WRITE_REG (IXGBE_RAL index) (addr_low addr);
    _ ← IXGBE_WRITE_REG (IXGBE_RAH index) rar_high;
    mret 0.

Definition ixgbe_init_uta_tables_generic : M Z :=
  _ ← for_each (seqZ 0 128) (fun i => IXGBE_WRITE_REG (IXGBE_UTA i) 0); mret 0.

Definition set_rar_counts (used in_use promisc : Z) (a : ixgbe_addr_filter_info) : ixgbe_addr_filter_info :=
  AddrCtrl (num_mc_addrs a) used in_use promisc (user_set_promisc a).

Definition ixgbe_init_rx_addrs_generic : M Z :=
  h ← get;
  let rar_entries := num_rar_entries (mac h) in
  _ ← (if ixgbe_validate_mac_addr (mac_addr (mac h)) =? IXGBE_ERR_INVALID_MAC_ADDR then
         addr ← ixgbe_get_mac_addr_generic;
         modify (fun h => set_mac (set_mac_addr addr (mac h)) h)
       else
         _ ← ixgbe_set_rar_generic 0 (mac_addr (mac h)) 0 IXGBE_RAH_AV;
         _ ← ixgbe_clear_vmdq_generic 0 IXGBE_CLEAR_VMDQ_ALL;
         mret ());
  _ ← modify (fun h => set_addr_ctrl (set_rar_counts 1 (mta_in_use (addr_ctrl h)) 0 (addr_ctrl h)) h);
  _ ← for_each (seqZ 1 (rar_entries - 1)) (fun i => _ ← IXGBE_WRITE_REG (IXGBE_RAL i) 0; IXGBE_WRITE_REG (IXGBE_RAH i) 0);
  _ ← modify (fun h => set_addr_ctrl (set_rar_counts (rar_used_count (addr_ctrl h)) 0 (overflow_promisc (addr_ctrl h)) (addr_ctrl h)) h);
  h ← get;
  _ ← IXGBE_WRITE_REG IXGBE_MCSTCTRL (u32 (mc_filter_type (mac h)));
  _ ← for_each (seqZ 0 (mcft_size (mac h))) (fun i => IXGBE_WRITE_REG (IXGBE_MTA i) 0);
  _ ← ixgbe_init_uta_tables_generic;
  mret 0.

Definition ixgbe_add_uc_addr (addr : list Z) (vmdq : Z) : M () :=
  h ← get;
  let rar := rar_used_count (addr_ctrl h) in
  if rar <? num_rar_entries (mac h) then
    _ ← ixgbe_set_rar_generic rar addr vmdq IXGBE_RAH_AV;
    modify (fun h => set_addr_ctrl
      (set_rar_counts (u32 (rar_used_count (addr_ctrl h) + 1)) (mta_in_use (addr_ctrl h)) (overflow_promisc (addr_ctrl h)) (addr_ctrl h)) h)
  else
    modify (fun h => set_addr_ctrl
      (set_rar_counts (rar_used_count (addr_ctrl h)) (mta_in_use (addr_ctrl h)) (u32 (overflow_promisc (addr_ctrl h) + 1)) (addr_ctrl h)) h).

(** The addresses and pools that [next] yields, in order. *)
Fixpoint add_uc_addrs (l : list (list Z * Z)) : M () :=
  match l with [] => mret () | (addr, vmdq) :: l => _ ← ixgbe_add_uc_addr addr vmdq; add_uc_addrs l end.

Definition ixgbe_update_uc_addr_list_generic (addr_list : list (list Z * Z)) : M Z :=
  h ← get;
  let old_promisc_setting := overflow_promisc (addr_ctrl h) in
  let uc_addr_in_use := u32 (rar_used_count (addr_ctrl h) - 1) in
  _ ← modify (fun h => set_addr_ctrl
        (set_rar_counts (u32 (rar_used_count (addr_ctrl h) - uc_addr_in_use)) (mta_in_use (addr_ctrl h)) 0 (addr_ctrl h)) h);
  _ ← for_each (seqZ 0 uc_addr_in_use) (fun i => _ ← IXGBE_WRITE_REG (IXGBE_RAL (1 + i)) 0; IXGBE_WRITE_REG (IXGBE_RAH (1 + i)) 0);
  _ ← add_uc_addrs addr_list;
  h ← get;
  _ ← (if truthy (overflow_promisc (addr_ctrl h)) then
         if negb (truthy old_promisc_setting) && negb (user_set_promisc (addr_ctrl h)) then
           fctrl ← IXGBE_READ_REG IXGBE_FCTRL;
           IXGBE_WRITE_REG IXGBE_FCTRL (Z.lor fctrl IXGBE_FCTRL_UPE)
         else mret ()
       else if truthy old_promisc_setting && negb (user_set_promisc (addr_ctrl h)) then
         fctrl ← IXGBE_READ_REG IXGBE_FCTRL;
         IXGBE_WRITE_REG IXGBE_FCTRL (Z.ldiff fctrl IXGBE_FCTRL_UPE)
       else mret ());
  mret 0.

(** ** Multicast *)
Definition ixgbe_mta_vector (filter_type : Z) (mc_addr : list Z) : Z :=
  let b4 := byte mc_addr 4 in
  let b5 := byte mc_addr 5 in
  let vector :=
    if filter_type =? 0 then Z.lor (Z.shiftr b4 4) (Z.shiftl b5 4)
    else if filter_type =? 1 then Z.lor (Z.shiftr b4 3) (Z.shiftl b5 5)
    else if filter_type =? 2 then Z.lor (Z.shiftr b4 2) (Z.shiftl b5 6)
    else if filter_type =? 3 then Z.lor b4 (Z.shiftl b5 8)
    else 0 in
  Z.land vector 0xFFF.

Definition ixgbe_set_mta (mc_addr : list Z) : M () :=
  modify (fun h =>
    let m := mac h in
    let a := addr_ctrl h in
    let vector := ixgbe_mta_vector (mc_filter_type m) mc_addr in
    let vector_reg := Z.land (Z.shiftr vector 5) 0x7F in
    let vector_bit := Z.land vector 0x1F in
    let shadow := <[Z.to_nat vector_reg := Z.lor (nth (Z.to_nat vector_reg) (mta_shadow m) 0) (Z.shiftl 1 vector_bit)]> (mta_shadow m) in
    set_addr_ctrl (set_rar_counts (rar_used_count a) (u32 (mta_in_use a + 1)) (overflow_promisc a) a) (set_mac (set_mta_shadow shadow m) h)).

Fixpoint set_mtas (l : list (list Z)) : M () :=
  match l with [] => mret () | addr :: l => _ ← ixgbe_set_mta addr; set_mtas l end.

(** [mc_addrs]: the addresses that [next] yields. *)
Definition ixgbe_update_mc_addr_list_generic (mc_addrs : list (list Z)) (clear : bool) : M Z :=
  _ ← modify (fun h =>
        let a := addr_ctrl h in
        set_addr_ctrl (AddrCtrl (Z.of_nat (length mc_addrs)) (rar_used_count a) 0 (overflow_promisc a) (user_set_promisc a)) h);
  _ ← modify (fun h => if clear then set_mac (set_mta_shadow (repeat 0 128) (mac h)) h else h);
  _ ← set_mtas mc_addrs;
  h ← get;
  _ ← for_each (seqZ 0 (mcft_size (mac h))) (fun i => IXGBE_WRITE_REG_ARRAY (IXGBE_MTA 0) i (nth (Z.to_nat i) (mta_shadow (mac h)) 0));
  _ ← (if mta_in_use (addr_ctrl h) >? 0 then
         IXGBE_WRITE_REG IXGBE_MCSTCTRL (u32 (Z.lor IXGBE_MCSTCTRL_MFE (mc_filter_type (mac h))))
       else mret ());
  mret 0.

Definition ixgbe_enable_mc_generic : M Z :=
  h ← get;
  _ ← (if mta_in_use (addr_ctrl h) >? 0 then
         IXGBE_WRITE_REG IXGBE_MCSTCTRL (u32 (Z.lor IXGBE_MCSTCTRL_MFE (mc_filter_type (mac h))))
       else mret ());
  mret 0.
Definition ixgbe_disable_mc_generic : M Z :=
  h ← get;
  _ ← (if mta_in_use (addr_ctrl h) >? 0 then IXGBE_WRITE_REG IXGBE_MCSTCTRL (u32 (mc_filter_type (mac h))) else mret ());
  mret 0.

(** ** Finding a register for an address *)
Definition NO_EMPTY_RAR_FOUND : Z := 0xFFFFFFFF.
(** The search loop from [rar] on, [n] rounds: where it stops and the first empty register. *)
Fixpoint rar_loop (n : nat) (low high rar first_empty_rar : Z) : M (Z * Z) :=
  match n with
  | O => mret (rar, first_empty_rar)
  | S n =>
      rar_high ← IXGBE_READ_REG (IXGBE_RAH rar);
      if (Z.land IXGBE_RAH_AV rar_high =? 0) && (first_empty_rar =? NO_EMPTY_RAR_FOUND) then rar_loop n low high (rar + 1) rar
      else if Z.land rar_high 0xFFFF =? high then
        rar_low ← IXGBE_READ_REG (IXGBE_RAL rar);
        if rar_low =? low then mret (rar, first_empty_rar) else rar_loop n low high (rar + 1) first_empty_rar
      else rar_loop n low high (rar + 1) first_empty_rar
  end.

Definition ixgbe_insert_mac_addr_generic (addr : list Z) (vmdq : Z) : M Z :=
  h ← get;
  let highwater := rar_highwater (mac h) in
  r ← rar_loop (Z.to_nat highwater) (addr_low addr) (addr_high addr) 0 NO_EMPTY_RAR_FOUND;
  let '(rar, first_empty_rar) := r in
  r ← (if rar <? highwater then _ ← ixgbe_set_vmdq_generic rar vmdq; mret (Some rar)
       else if negb (first_empty_rar =? NO_EMPTY_RAR_FOUND) then
         _ ← ixgbe_set_rar_generic first_empty_rar addr vmdq IXGBE_RAH_AV; mret (Some first_empty_rar)
       else if rar =? highwater then
         _ ← ixgbe_set_rar_generic rar addr vmdq IXGBE_RAH_AV;
         _ ← modify (fun h => set_mac (set_rar_highwater (u32 (rar_highwater (mac h) + 1)) (mac h)) h);
         mret (Some rar)
       else if rar >=? num_rar_entries (mac h) then mret None
       else mret (Some rar));
  match r with
  | None => mret IXGBE_ERR_INVALID_MAC_ADDR
  | Some rar => _ ← (if rar =? 0 then _ ← ixgbe_clear_vmdq_generic rar 0; mret () else mret ()); mret rar
  end.

(** ** What the registers hold *)

(** The registers of the filters. *)
Definition addr_reg (r : Z) : Prop :=
  0x05200 <= r < 0x05480 \/ 0x0A280 <= r < 0x0AA00 \/ r = IXGBE_MCSTCTRL.

(** An address as a number. *)
Definition mac48 (addr : list Z) : Z := le_load (fun k => byte addr (Z.to_nat k)) 6.
Definition is_mac (addr : list Z) : Prop := length addr = 6%nat /\ Forall (fun b => 0 <= b < 2 ^ 8) addr.

Definition rar_addr (f : Z -> Z) (i : Z) : Z := f (IXGBE_RAL i) + Z.land (f (IXGBE_RAH i)) 0xFFFF * 2 ^ 32.
Definition rar_valid (f : Z -> Z) (i : Z) : bool := Z.testbit (f (IXGBE_RAH i)) 31.
Definition rar_pools (f : Z -> Z) (i : Z) : Z := Z.lor (f (IXGBE_MPSAR_LO i)) (Z.shiftl (f (IXGBE_MPSAR_HI i)) 32).
(** Only the registers of RAR [i] differ. *)
Definition only_rar (i : Z) (f f' : Z -> Z) : Prop :=
  forall r, r <> IXGBE_RAL i -> r <> IXGBE_RAH i -> r <> IXGBE_MPSAR_LO i -> r <> IXGBE_MPSAR_HI i -> f' r = f r.

Lemma is_mac_byte addr k : is_mac addr -> 0 <= byte addr k < 2 ^ 8.
Proof.
  intros [_ Hb]. unfold byte. destruct (decide (k < length addr)%nat) as [Hk|Hk]; [|rewrite nth_overflow by lia; lia].
  rewrite Forall_forall in Hb. by apply Hb, list_elem_of_In, nth_In.
Qed.
Lemma addr_low_value addr : is_mac addr ->
  addr_low addr = byte addr 0 + byte addr 1 * 2 ^ 8 + byte addr 2 * 2 ^ 16 + byte addr 3 * 2 ^ 24 /\ 0 <= addr_low addr < 2 ^ 32.
Proof.
  intros Ha. pose proof (is_mac_byte addr 0 Ha). pose proof (is_mac_byte addr 1 Ha). pose proof (is_mac_byte addr 2 Ha). pose proof (is_mac_byte addr 3 Ha).
  unfold addr_low. rewrite (Z.lor_comm (byte addr 0)), lor_shiftl_add by lia. rewrite Z.lor_comm, (Z.lor_comm _ (Z.shiftl (byte addr 2) 16)).
  rewrite (lor_shiftl_add (byte addr 2)) by lia. rewrite lor_shiftl_add by lia. lia.
Qed.
Lemma addr_high_value addr : is_mac addr -> addr_high addr = byte addr 4 + byte addr 5 * 2 ^ 8 /\ 0 <= addr_high addr < 2 ^ 16.
Proof.
  intros Ha. pose proof (is_mac_byte addr 4 Ha). pose proof (is_mac_byte addr 5 Ha).
  unfold addr_high. rewrite Z.lor_comm, lor_shiftl_add by lia. lia.
Qed.
Lemma mac48_split addr : is_mac addr -> mac48 addr = addr_low addr + addr_high addr * 2 ^ 32.
Proof.
  intros Ha. destruct (addr_low_value addr Ha) as [-> _], (addr_high_value addr Ha) as [-> _]. unfold mac48, le_load.
  unfold zsum. change (seq 0 (Z.to_nat 6)) with [0; 1; 2; 3; 4; 5]%nat. cbn [map foldr].
  rewrite !Nat2Z.id. change (2 ^ (8 * Z.of_nat 0)) with 1. change (Z.of_nat 1) with 1. change (Z.of_nat 2) with 2.
  change (Z.of_nat 3) with 3. change (Z.of_nat 4) with 4. change (Z.of_nat 5) with 5. lia.
Qed.

(** Tell the registers of the filters apart. *)
Ltac rars := unfold addr_reg, IXGBE_RAL, IXGBE_RAH, IXGBE_MPSAR_LO, IXGBE_MPSAR_HI, IXGBE_MTA, IXGBE_MCSTCTRL in *;
  repeat match goal with |- context [?x <=? ?y] => destruct (Z.leb_spec x y) | H : context [?x <=? ?y] |- _ => destruct (Z.leb_spec x y) end; lia.

Lemma only_rar_other i j f f' : only_rar i f f' -> 0 <= i < 128 -> 0 <= j < 128 -> j <> i ->
  rar_addr f' j = rar_addr f j /\ rar_valid f' j = rar_valid f j /\ rar_pools f' j = rar_pools f j.
Proof.
  intros Ho Hi Hj Hne. unfold rar_addr, rar_valid, rar_pools. rewrite !Ho by rars. done.
Qed.
Lemma only_rar_trans i f f1 f2 : only_rar i f f1 -> only_rar i f1 f2 -> only_rar i f f2.
Proof. intros H1 H2 r Ha Hb Hc Hd. by rewrite H2, H1. Qed.

Lemma clear_high x : Z.land (Z.ldiff x (Z.lor 0x0000FFFF IXGBE_RAH_AV)) 0xFFFF = 0.
Proof.
  apply Z.bits_inj'. intros i Hi. rewrite Z.land_spec, Z.ldiff_spec, Z.lor_spec, Z.bits_0.
  by destruct (Z.testbit x i), (Z.testbit 0xFFFF i), (Z.testbit IXGBE_RAH_AV i).
Qed.
Lemma clear_valid x : Z.testbit (Z.ldiff x (Z.lor 0x0000FFFF IXGBE_RAH_AV)) 31 = false.
Proof. rewrite Z.ldiff_spec. apply andb_false_r. Qed.

Section Rars.
Context {init : Z -> Z} {A : list access -> Z -> Z} (m : ixgbe_mac_info) (Hm : num_rar_entries m <= 128).
Local Notation at_rars f a h := (at_regs addr_reg init A f m a h).

Lemma set_vmdq_spec i q f a h (Q : Z -> ixgbe_hw -> Prop) :
  at_rars f a h -> 0 <= i < num_rar_entries m -> 0 <= q < 64 ->
  (forall f' h', at_rars f' a h' -> (forall r, r <> IXGBE_MPSAR_LO i -> r <> IXGBE_MPSAR_HI i -> f' r = f r) ->
     rar_pools f' i = Z.lor (rar_pools f i) (2 ^ q) -> Q 0 h') -> wlp (ixgbe_set_vmdq_generic i q) h Q.
Proof using Hm.
  intros Hh Hi Hq HQ. unfold ixgbe_set_vmdq_generic. apply wlp_bind, wlp_get. rewrite (regs_mac _ _ _ _ Hh).
  destruct (Z.geb_spec i (num_rar_entries m)); [lia|]. unfold rar_pools in *. rewrite <- (pool_on _ _ _ Hq) in HQ.
  apply wlp_bind. destruct (q <? 32); apply wlp_bind; (eapply regs_read; [exact Hh|rars|]); intros h1 H1; (eapply regs_write; [exact H1|]); intros h2 H2;
    apply wlp_ret, (HQ _ _ H2).
  - intros r Hr _. by apply fn_lookup_insert_ne.
  - by rewrite fn_lookup_insert, fn_lookup_insert_ne by rars.
  - intros r _ Hr. by apply fn_lookup_insert_ne.
  - by rewrite fn_lookup_insert, fn_lookup_insert_ne by rars.
Qed.

Lemma set_rar_spec i addr q en f a h (Q : Z -> ixgbe_hw -> Prop) :
  at_rars f a h -> 0 <= i < num_rar_entries m -> 0 <= q < 64 -> is_mac addr ->
  (forall f' h', at_rars f' a h' -> only_rar i f f' -> rar_addr f' i = mac48 addr -> rar_valid f' i = negb (en =? 0) ->
     rar_pools f' i = Z.lor (rar_pools f i) (2 ^ q) -> Q 0 h') -> wlp (ixgbe_set_rar_generic i addr q en) h Q.
Proof using Hm.
  intros Hh Hi Hq Ha HQ. unfold ixgbe_set_rar_generic. apply wlp_bind, wlp_get. rewrite (regs_mac _ _ _ _ Hh).
  destruct (Z.geb_spec i (num_rar_entries m)); [lia|]. apply wlp_bind. eapply set_vmdq_spec; [exact Hh|done|done|]. intros f1 h1 H1 Hf1 Hp1.
  apply wlp_bind. eapply regs_read; [exact H1|rars|]. intros h2 H2. apply wlp_bind. eapply regs_write; [exact H2|]. intros h3 H3.
  apply wlp_bind. eapply regs_write; [exact H3|]. intros h4 H4. apply wlp_ret.
  destruct (addr_high_value addr Ha) as [_ Hhi]. set (hi := Z.lor _ (addr_high addr)) in *. set (v := if negb (en =? 0) then _ else _) in *.
  assert (Hv : Z.land v 0xFFFF = addr_high addr /\ Z.testbit v 31 = negb (en =? 0)).
  { assert (Hh0 : Z.land hi 0xFFFF = addr_high addr).
    { unfold hi. rewrite Z.land_lor_distr_l, clear_high, Z.lor_0_l, (land_ones_mod _ 16) by lia. by apply Z.mod_small. }
    assert (Hh1 : Z.testbit hi 31 = false).
    { unfold hi. rewrite Z.lor_spec, clear_valid. cbn [orb]. rewrite <- (Z.mod_small (addr_high addr) (2 ^ 16)) by lia. apply Z.mod_pow2_bits_high. lia. }
    unfold v. destruct (negb (en =? 0)); [|done]. rewrite Z.land_lor_distr_l, Hh0, Z.lor_spec, Hh1. change (Z.land IXGBE_RAH_AV 0xFFFF) with 0.
    by rewrite Z.lor_0_r. }
  apply (HQ _ _ H4).
  - intros r Hr1 Hr2 Hr3 Hr4. rewrite !fn_lookup_insert_ne by done. by apply Hf1.
  - unfold rar_addr. rewrite fn_lookup_insert, fn_lookup_insert_ne, fn_lookup_insert by rars. rewrite (proj1 Hv). by rewrite mac48_split.
  - unfold rar_valid. rewrite fn_lookup_insert. apply Hv.
  - unfold rar_pools in *. rewrite !fn_lookup_insert_ne by rars. exact Hp1.
Qed.

(** Clearing all pools, when the recursion is not taken or ends in a RAR without pools. *)
Lemma clear_vmdq_none fuel i q f a h (Q : option Z -> ixgbe_hw -> Prop) :
  at_rars f a h -> 0 <= i < num_rar_entries m -> f (IXGBE_MPSAR_LO i) = 0 -> f (IXGBE_MPSAR_HI i) = 0 ->
  (forall h', at_rars f a h' -> Q (Some 0) h') -> wlp (clear_vmdq (S fuel) i q) h Q.
Proof using Hm.
  intros Hh Hi Hlo Hhi HQ. cbn [clear_vmdq]. apply wlp_bind, wlp_get. rewrite (regs_mac _ _ _ _ Hh).
  destruct (Z.geb_spec i (num_rar_entries m)); [lia|]. apply wlp_bind. eapply regs_read; [exact Hh|rars|]. intros h1 H1.
  apply wlp_bind. eapply regs_read; [exact H1|rars|]. intros h2 H2. rewrite Hlo, Hhi. by apply wlp_ret, HQ.
Qed.

(** A RAR that is out of use. *)
Definition rar_cleared (f : Z -> Z) (i : Z) : Prop :=
  rar_addr f i = 0 /\ rar_valid f i = false /\ f (IXGBE_MPSAR_LO i) = 0 /\ f (IXGBE_MPSAR_HI i) = 0.
Definition rar_blanked (f f' : Z -> Z) (i : Z) : Prop :=
  rar_addr f' i = 0 /\ rar_valid f' i = false /\ forall r, r <> IXGBE_RAL i -> r <> IXGBE_RAH i -> f' r = f r.

Lemma blank_rar fuel i f a h (Q : option Z -> ixgbe_hw -> Prop) :
  at_rars f a h -> 0 <= i < num_rar_entries m ->
  (forall f' h', at_rars f' a h' -> rar_blanked f f' i ->
     wlp (c ← clear_vmdq fuel i IXGBE_CLEAR_VMDQ_ALL; mret (match c with Some _ => Some 0 | None => None end)) h' Q) ->
  wlp (clear_rar (S fuel) i) h Q.
Proof using Hm.
  intros Hh Hi HQ. cbn [clear_rar]. apply wlp_bind, wlp_get. rewrite (regs_mac _ _ _ _ Hh).
  destruct (Z.geb_spec i (num_rar_entries m)); [lia|]. apply wlp_bind. eapply regs_read; [exact Hh|rars|]. intros h1 H1.
  apply wlp_bind. eapply regs_write; [exact H1|]. intros h2 H2. apply wlp_bind. eapply regs_write; [exact H2|]. intros h3 H3.
  apply (HQ _ _ H3). split_and!.
  - unfold rar_addr. rewrite fn_lookup_insert, fn_lookup_insert_ne, fn_lookup_insert, clear_high by rars. done.
  - unfold rar_valid. rewrite fn_lookup_insert. apply clear_valid.
  - intros r Hr1 Hr2. by rewrite !fn_lookup_insert_ne by done.
Qed.

(** Blanking a RAR again, after its pools are gone. *)
Lemma reblank_rar fuel i f a h (Q : option Z -> ixgbe_hw -> Prop) :
  at_rars f a h -> 0 <= i < num_rar_entries m -> f (IXGBE_MPSAR_LO i) = 0 -> f (IXGBE_MPSAR_HI i) = 0 ->
  (forall f' h', at_rars f' a h' -> only_rar i f f' -> rar_cleared f' i -> Q (Some 0) h') -> wlp (clear_rar (S (S fuel)) i) h Q.
Proof using Hm.
  intros Hh Hi Hlo Hhi HQ. eapply blank_rar; [exact Hh|done|]. intros f1 h1 H1 (Ha1 & Hv1 & Ho1). apply wlp_bind.
  assert (Hlo1 : f1 (IXGBE_MPSAR_LO i) = 0) by (rewrite Ho1 by rars; done). assert (Hhi1 : f1 (IXGBE_MPSAR_HI i) = 0) by (rewrite Ho1 by rars; done).
  eapply clear_vmdq_none; [exact H1|done|done|done|]. intros h2 H2. apply wlp_ret, (HQ _ _ H2); [intros r ? ? _ _; by apply Ho1|done].
Qed.

(** Both halves of the pools become 0. *)
Definition pools_zeroed (i : Z) (f f' : Z -> Z) : Prop :=
  (forall r, r <> IXGBE_MPSAR_LO i -> r <> IXGBE_MPSAR_HI i -> f' r = f r) /\ f' (IXGBE_MPSAR_LO i) = 0 /\ f' (IXGBE_MPSAR_HI i) = 0.

Lemma zero_pools i f a h (Q : Z * Z -> ixgbe_hw -> Prop) :
  at_rars f a h -> (forall f' h', at_rars f' a h' -> pools_zeroed i f f' -> Q (0, 0) h') ->
  wlp (_ ← (if truthy (f (IXGBE_MPSAR_LO i)) then IXGBE_WRITE_REG (IXGBE_MPSAR_LO i) 0 else mret ());
       _ ← (if truthy (f (IXGBE_MPSAR_HI i)) then IXGBE_WRITE_REG (IXGBE_MPSAR_HI i) 0 else mret ());
       mret (0, 0)) h Q.
Proof using Hm.
  intros Hh HQ.
  assert (Hwr : forall r (b : bool) f2 h4 (Q : () -> ixgbe_hw -> Prop), at_rars f2 a h4 -> (b = false -> f2 r = 0) ->
     (forall f' h', at_rars f' a h' -> f' r = 0 -> (forall x, x <> r -> f' x = f2 x) -> Q () h') ->
     wlp (if b then IXGBE_WRITE_REG r 0 else mret ()) h4 Q).
  { intros r b f2 h4 Q' H4 Hb Hw. destruct b; [|apply wlp_ret, (Hw f2); [done|by apply Hb|done]].
    eapply regs_write; [exact H4|]. intros h5 H5. apply (Hw _ _ H5); [apply fn_lookup_insert|]. intros x Hx. by apply fn_lookup_insert_ne. }
  assert (Hf : forall r, truthy (f r) = false -> f r = 0) by (intros r Hr; by apply negb_false_iff, Z.eqb_eq in Hr).
  assert (Hlh : IXGBE_MPSAR_LO i <> IXGBE_MPSAR_HI i) by rars.
  apply wlp_bind. eapply Hwr; [exact Hh|apply Hf|]. intros f1 h1 H1 Hlo Ho1.
  apply wlp_bind. eapply Hwr; [exact H1|rewrite Ho1 by done; apply Hf|]. intros f2 h2 H2 Hhi Ho2.
  apply wlp_ret, (HQ _ _ H2). split_and!; [|by rewrite Ho2|done]. intros r Hr1 Hr2. by rewrite Ho2, Ho1.
Qed.

Lemma clear_all_pools fuel i f a h (Q : option Z -> ixgbe_hw -> Prop) :
  at_rars f a h -> 0 <= i < num_rar_entries m ->
  (forall f' h', at_rars f' a h' -> pools_zeroed i f f' -> Q (Some 0) h') ->
  (forall f1 f' h', at_rars f' a h' -> pools_zeroed i f f1 -> only_rar i f1 f' -> rar_cleared f' i -> Q (Some 0) h') ->
  wlp (clear_vmdq (S (S (S fuel))) i IXGBE_CLEAR_VMDQ_ALL) h Q.
Proof using Hm.
  intros Hh Hi HQ HQ'. assert (Hrec := reblank_rar fuel i). revert Hrec. generalize (S (S fuel)). clear fuel. intros fuel Hrec.
  cbn [clear_vmdq]. apply wlp_bind, wlp_get. rewrite (regs_mac _ _ _ _ Hh).
  destruct (Z.geb_spec i (num_rar_entries m)); [lia|]. apply wlp_bind. eapply regs_read; [exact Hh|rars|]. intros h2 H2.
  apply wlp_bind. eapply regs_read; [exact H2|rars|]. intros h3 H3. change (IXGBE_CLEAR_VMDQ_ALL =? IXGBE_CLEAR_VMDQ_ALL) with true. cbv iota.
  destruct (negb (truthy (f (IXGBE_MPSAR_LO i))) && negb (truthy (f (IXGBE_MPSAR_HI i)))) eqn:Hz.
  { apply andb_true_iff in Hz as [Hz1 Hz2]. unfold truthy in *. rewrite negb_involutive, Z.eqb_eq in Hz1, Hz2. by apply wlp_ret, (HQ f). }
  apply wlp_bind. eapply zero_pools; [exact H3|]. intros f4 h4 H4 Hz4. cbn [fst snd Z.eqb andb].
  destruct (negb (i =? 0)); [|apply wlp_ret; by apply (HQ f4)].
  apply wlp_bind. eapply Hrec; [exact H4|done|apply Hz4|apply Hz4|]. intros f5 h5 H5 Ho5 Hc5. apply wlp_ret. by apply (HQ' f4 f5).
Qed.

(** A RAR is cleared together with its pools, at most four calls deep. *)
Lemma clear_rar_spec n i f a h (Q : option Z -> ixgbe_hw -> Prop) :
  at_rars f a h -> 0 <= i < num_rar_entries m ->
  (forall f' h', at_rars f' a h' -> only_rar i f f' -> rar_cleared f' i -> Q (Some 0) h') -> wlp (clear_rar (S (S (S (S n)))) i) h Q.
Proof using Hm.
  intros Hh Hi HQ. eapply blank_rar; [exact Hh|done|]. intros f1 h1 H1 (Ha1 & Hv1 & Ho1). apply wlp_bind.
  assert (Ho : forall f2, pools_zeroed i f1 f2 -> only_rar i f f2) by (intros f2 [H2 _] r ? ? ? ?; by rewrite H2, Ho1).
  eapply clear_all_pools; [exact H1|done| |].
  - intros f2 h2 H2 Hz. apply wlp_ret, (HQ _ _ H2); [by apply Ho|]. destruct Hz as (Hf2 & Hlo & Hhi). unfold rar_cleared, rar_addr, rar_valid in *.
    rewrite !(Hf2 (IXGBE_RAL i)), !(Hf2 (IXGBE_RAH i)) by rars. done.
  - intros f2 f3 h3 H3 Hz Ho3 Hc. apply wlp_ret, (HQ _ _ H3); [|done]. eapply only_rar_trans; [by apply Ho|done].
Qed.
End Rars.

(** ** The multicast table *)

(** The 12 bits of the address that select the entry: [47:36], [46:35], [45:34] or [43:32]. *)
Definition mta_shift (filter_type : Z) : Z := if filter_type =? 3 then 32 else 36 - filter_type.
Definition mta_entry (filter_type : Z) (addr : list Z) : Z := (mac48 addr / 2 ^ mta_shift filter_type) mod 2 ^ 12.
Definition mta_bit (f : Z -> Z) (v : Z) : bool := Z.testbit (f (IXGBE_MTA (v / 32))) (v mod 32).
Definition shadow_bit (s : list Z) (v : Z) : bool := Z.testbit (nth (Z.to_nat (v / 32)) s 0) (v mod 32).

Lemma mta_vector_entry ft addr : is_mac addr -> 0 <= ft <= 3 -> ixgbe_mta_vector ft addr = mta_entry ft addr.
Proof.
  intros Ha Hft. unfold ixgbe_mta_vector, mta_entry. rewrite mac48_split by done.
  destruct (addr_low_value addr Ha) as [_ Hlow], (addr_high_value addr Ha) as [-> _].
  pose proof (is_mac_byte addr 4 Ha). pose proof (is_mac_byte addr 5 Ha). rewrite (land_ones_mod _ 12) by lia.
  assert (Hs : ft = 0 \/ ft = 1 \/ ft = 2 \/ ft = 3) by lia.
  assert (Hlor : forall k, 0 <= k <= 4 -> Z.lor (Z.shiftr (byte addr 4) k) (Z.shiftl (byte addr 5) (8 - k)) = (byte addr 4 + byte addr 5 * 2 ^ 8) / 2 ^ k).
  { intros k Hk. pose proof (Z.pow_pos_nonneg 2 k ltac:(lia) ltac:(lia)) as Hk0. rewrite Z.shiftr_div_pow2 by lia. assert (Hp : 2 ^ 8 = 2 ^ (8 - k) * 2 ^ k) by (rewrite <- Z.pow_add_r by lia; f_equal; lia).
    rewrite Z.lor_comm, lor_shiftl_add; [|lia|].
    - rewrite Hp, Z.mul_assoc, Z.div_add by lia. lia.
    - split; [apply Z.div_pos; lia|]. apply Z.div_lt_upper_bound; lia. }
  assert (Hdiv : forall k, 0 <= k <= 4 -> (addr_low addr + (byte addr 4 + byte addr 5 * 2 ^ 8) * 2 ^ 32) / 2 ^ (32 + k) =
     (byte addr 4 + byte addr 5 * 2 ^ 8) / 2 ^ k).
  { intros k Hk. pose proof (Z.pow_pos_nonneg 2 k ltac:(lia) ltac:(lia)) as Hk0. rewrite Z.pow_add_r, <- Z.div_div, Z.div_add, (Z.div_small (addr_low addr)) by lia. done. }
  pose proof (Hlor 4 ltac:(lia)) as L4. pose proof (Hlor 3 ltac:(lia)) as L3. pose proof (Hlor 2 ltac:(lia)) as L2. pose proof (Hlor 0 ltac:(lia)) as L0.
  pose proof (Hdiv 4 ltac:(lia)) as D4. pose proof (Hdiv 3 ltac:(lia)) as D3. pose proof (Hdiv 2 ltac:(lia)) as D2. pose proof (Hdiv 0 ltac:(lia)) as D0.
  destruct Hs as [->|[->|[->| ->]]].
  - exact (f_equal (fun x => x mod 2 ^ 12) (eq_trans L4 (eq_sym D4))).
  - exact (f_equal (fun x => x mod 2 ^ 12) (eq_trans L3 (eq_sym D3))).
  - exact (f_equal (fun x => x mod 2 ^ 12) (eq_trans L2 (eq_sym D2))).
  - rewrite Z.shiftr_0_r in L0. exact (f_equal (fun x => x mod 2 ^ 12) (eq_trans L0 (eq_sym D0))).
Qed.

Lemma mta_entry_range ft addr : 0 <= mta_entry ft addr < 4096.
Proof. apply Z.mod_pos_bound. lia. Qed.

Lemma shadow_set s w v :
  length s = 128%nat -> 0 <= w < 4096 -> 0 <= v < 4096 ->
  shadow_bit (<[Z.to_nat (Z.land (Z.shiftr w 5) 0x7F) :=
    Z.lor (nth (Z.to_nat (Z.land (Z.shiftr w 5) 0x7F)) s 0) (Z.shiftl 1 (Z.land w 0x1F))]> s) v = shadow_bit s v || (w =? v).
Proof.
  intros Hs Hw Hv. rewrite (land_ones_mod _ 7), (land_ones_mod _ 5), Z.shiftr_div_pow2 by lia.
  replace ((w / 2 ^ 5) mod 2 ^ 7) with (w / 32) by zdm. change (2 ^ 5) with 32. unfold shadow_bit.
  assert (Hr : 0 <= w / 32 < 128 /\ 0 <= v / 32 < 128 /\ 0 <= w mod 32 < 32 /\ 0 <= v mod 32 < 32) by zdm.
  rewrite !nth_lookup. destruct (decide (w / 32 = v / 32)) as [He|He].
  - rewrite <- He, list_lookup_insert_eq by lia. change (default 0 (Some ?x)) with x. rewrite Z.lor_spec, Z.shiftl_1_l, Z.pow2_bits_eqb by lia.
    replace (w =? v) with (w mod 32 =? v mod 32); [done|]. apply eq_true_iff_eq. rewrite !Z.eqb_eq. zdm.
  - rewrite list_lookup_insert_ne by lia. rewrite (proj2 (Z.eqb_neq w v)) by (intros ->; lia). by rewrite orb_false_r.
Qed.

(** What [set_mtas] leaves: the shadow table, the count and everything else. *)
Lemma set_mtas_spec l h (Q : () -> ixgbe_hw -> Prop) :
  Forall is_mac l -> 0 <= mc_filter_type (mac h) <= 3 -> length (mta_shadow (mac h)) = 128%nat ->
  (forall s a, length s = 128%nat ->
     (forall v, 0 <= v < 4096 -> shadow_bit s v = shadow_bit (mta_shadow (mac h)) v || existsb (fun x => mta_entry (mc_filter_type (mac h)) x =? v) l) ->
     (0 <= mta_in_use (addr_ctrl h) -> mta_in_use (addr_ctrl h) + Z.of_nat (length l) < 2 ^ 32 -> mta_in_use a = mta_in_use (addr_ctrl h) + Z.of_nat (length l)) ->
     Q () (set_addr_ctrl a (set_mac (set_mta_shadow s (mac h)) h))) ->
  wlp (set_mtas l) h Q.
Proof.
  intros Hl. revert h Q. induction Hl as [|x l Hx Hl IH]; intros h Q Hft Hlen HQ; cbn [set_mtas].
  - apply wlp_ret. specialize (HQ (mta_shadow (mac h)) (addr_ctrl h)). replace (set_addr_ctrl _ _) with h in HQ.
    + apply HQ; [done|intros v Hv; by rewrite orb_false_r|]. cbn [length]. lia.
    + destruct h as [? ? ? ? ? ? ? ? ? ? [? ? ? ? ? ? ? ? ?] ? ?]. done.
  - apply wlp_bind, wlp_modify. cbv beta zeta. rewrite mta_vector_entry by done. set (s := <[_ := _]> (mta_shadow (mac h))). set (a := set_rar_counts _ _ _ _).
    apply IH; [done| |].
    + cbn. unfold s. by rewrite length_insert.
    + cbn [mac set_mac set_addr_ctrl set_mta_shadow mta_shadow mc_filter_type addr_ctrl].
      intros s' a' Hs' Hbits Hcnt. replace (set_addr_ctrl a' _) with (set_addr_ctrl a' (set_mac (set_mta_shadow s' (mac h)) h)) by done.
      apply HQ; [done| |].
      * intros v Hv. rewrite Hbits by done. unfold s. rewrite shadow_set by (done || apply mta_entry_range). cbn [existsb]. by rewrite <- orb_assoc.
      * intros H0 H1. cbn [length] in *. assert (Ha : mta_in_use a = mta_in_use (addr_ctrl h) + 1) by (unfold a; cbn; apply u32_small; lia).
        rewrite Hcnt; lia.
Qed.

(** The multicast table holds exactly the given addresses.  After [ixgbe_update_mc_addr_list_generic] the bit of
    an entry is set if and only if one of the addresses, or without [clear] an earlier one, has the 12 bits
    that select it; and if there are addresses the filter is on, with the same selection of bits. *)
Theorem mc_list_exact init A mc_addrs clear h :
  reg_file addr_reg init A -> ans h = A -> Forall is_mac mc_addrs -> Z.of_nat (length mc_addrs) < 2 ^ 32 ->
  0 <= mc_filter_type (mac h) <= 3 -> length (mta_shadow (mac h)) = 128%nat -> mcft_size (mac h) = 128 ->
  let '(r, h') := ixgbe_update_mc_addr_list_generic mc_addrs clear h in
  let f' := regs init (tr h') in
  r = 0 /\
  (forall v, 0 <= v < 4096 ->
     mta_bit f' v = (negb clear && shadow_bit (mta_shadow (mac h)) v) || existsb (fun x => mta_entry (mc_filter_type (mac h)) x =? v) mc_addrs) /\
  (mc_addrs <> [] -> f' IXGBE_MCSTCTRL = Z.lor IXGBE_MCSTCTRL_MFE (mc_filter_type (mac h))).
Proof.
  intros HA Ha Hl Hn Hft Hlen Hsize. apply wlp_run. unfold ixgbe_update_mc_addr_list_generic. apply wlp_bind, wlp_modify, wlp_bind, wlp_modify.
  set (a0 := AddrCtrl _ _ _ _ _). set (h0 := if clear then _ else _).
  assert (H0 : ans h0 = A /\ tr h0 = tr h /\ mc_filter_type (mac h0) = mc_filter_type (mac h) /\ mcft_size (mac h0) = 128 /\ addr_ctrl h0 = a0 /\
    mta_shadow (mac h0) = if clear then repeat 0 128 else mta_shadow (mac h)) by (unfold h0; by destruct clear).
  destruct H0 as (H0a & H0t & H0f & H0m & H0c & H0s). apply wlp_bind, set_mtas_spec; [done|by rewrite H0f|rewrite H0s; by destruct clear|].
  rewrite H0f, H0s, H0c. intros s a Hs Hbits Hcnt. apply wlp_bind, wlp_get.
  set (h1 := set_addr_ctrl a _). change (mac h1) with (set_mta_shadow s (mac h0)). change (addr_ctrl h1) with a.
  cbn [mcft_size set_mta_shadow mta_shadow mc_filter_type]. rewrite H0m, H0f.
  assert (H1 : at_regs addr_reg init A (regs init (tr h)) (mac h1) (addr_ctrl h1) h1) by (unfold h1; rewrite <- H0t; by split_and!).
  apply wlp_bind. eapply (regs_for_each (fun l f => forall i, In i l -> f (IXGBE_MTA i) = nth (Z.to_nat i) s 0)); [exact H1|by intros i []| |].
  { intros l i todo f h2 Q _ H2 HI HQ. eapply regs_write; [exact H2|]. intros h3 H3. apply (HQ _ _ H3). intros j Hj.
    replace (IXGBE_MTA 0 + Z.shiftl i 2) with (IXGBE_MTA i) by (unfold IXGBE_MTA; rewrite Z.shiftl_mul_pow2; lia).
    rewrite fn_insert_dec. destruct (decide _) as [He|Hne]; [unfold IXGBE_MTA in He; by replace j with i by lia|].
    apply in_app_iff in Hj as [Hj|[->|[]]]; [by apply HI|done]. }
  intros f2 h2 H2 HI. assert (HI' : forall v, 0 <= v < 4096 -> mta_bit f2 v = shadow_bit s v).
  { intros v Hv. unfold mta_bit, shadow_bit. rewrite HI; [done|]. apply list_elem_of_In, elem_of_seqZ. zdm. }
  assert (Hold : forall v, shadow_bit (if clear then repeat 0 128 else mta_shadow (mac h)) v = negb clear && shadow_bit (mta_shadow (mac h)) v).
  { intros v. destruct clear; [|done]. unfold shadow_bit. rewrite nth_repeat. apply Z.bits_0. }
  apply wlp_bind. cbn [mta_in_use a0] in Hcnt. rewrite Hcnt, Z.add_0_l, Z.gtb_ltb by (cbn; lia).
  destruct (Z.ltb_spec 0 (Z.of_nat (length mc_addrs))) as [Hpos|Hz].
  - eapply regs_write; [exact H2|]. intros h3 H3. apply wlp_ret. replace (regs init (tr h3)) with (<[IXGBE_MCSTCTRL := u32 (Z.lor IXGBE_MCSTCTRL_MFE (mc_filter_type (mac h)))]> f2) by (symmetry; apply H3).
    split_and!; [done| |].
    + intros v Hv. rewrite <- Hold, <- Hbits, <- HI' by done. unfold mta_bit. rewrite fn_lookup_insert_ne; [done|]. unfold IXGBE_MTA, IXGBE_MCSTCTRL. zdm.
    + intros _. rewrite fn_lookup_insert. apply u32_small. apply (lor_bounds _ _ 32); [lia|done|lia].
  - apply wlp_ret, wlp_ret. replace (regs init (tr h2)) with f2 by (symmetry; apply H2). split_and!; [done| |].
    + intros v Hv. by rewrite <- Hold, <- Hbits, <- HI' by done.
    + destruct mc_addrs; [done|]. cbn in Hz. lia.
Qed.

(** ** A full table *)
Lemma rar_loop_full init A m a f addr n k h (Q : Z * Z -> ixgbe_hw -> Prop) :
  at_regs addr_reg init A f m a h -> is_mac addr -> 0 <= k -> k + Z.of_nat n <= 128 ->
  (forall i, k <= i < k + Z.of_nat n -> rar_valid f i = true /\ rar_addr f i <> mac48 addr) ->
  (forall h', at_regs addr_reg init A f m a h' -> Q (k + Z.of_nat n, NO_EMPTY_RAR_FOUND) h') ->
  wlp (rar_loop n (addr_low addr) (addr_high addr) k NO_EMPTY_RAR_FOUND) h Q.
Proof.
  intros Hh Ha. revert k h Hh. induction n as [|n IH]; intros k h Hh Hk Hn Hfull HQ; cbn [rar_loop].
  { apply wlp_ret. rewrite Z.add_0_r in HQ. by apply HQ. }
  destruct (Hfull k ltac:(lia)) as [Hv Hne].
  assert (Hnext : forall h', at_regs addr_reg init A f m a h' -> wlp (rar_loop n (addr_low addr) (addr_high addr) (k + 1) NO_EMPTY_RAR_FOUND) h' Q).
  { intros h' H'. apply IH; [done|lia|lia|intros i Hi; apply Hfull; lia|]. intros h2 H2. replace (k + 1 + Z.of_nat n) with (k + Z.of_nat (S n)) by lia. by apply HQ. }
  apply wlp_bind. eapply regs_read; [exact Hh|rars|]. intros h1 H1.
  replace (Z.land IXGBE_RAH_AV (f (IXGBE_RAH k)) =? 0) with false.
  2:{ symmetry. apply Z.eqb_neq. intros H0. unfold rar_valid in Hv. rewrite <- truthy_land_bit, Z.land_comm in Hv by lia.
      change (Z.shiftl 1 31) with IXGBE_RAH_AV in Hv. by rewrite H0 in Hv. }
  cbn [andb]. destruct (Z.eqb_spec (Z.land (f (IXGBE_RAH k)) 0xFFFF) (addr_high addr)) as [Hhi|]; [|by apply Hnext].
  apply wlp_bind. eapply regs_read; [exact H1|rars|]. intros h2 H2. destruct (Z.eqb_spec (f (IXGBE_RAL k)) (addr_low addr)) as [Hlo|]; [|by apply Hnext].
  destruct Hne. unfold rar_addr. by rewrite mac48_split, Hlo, Hhi.
Qed.

(** A full table is not reported.  When every receive address register is in use by other addresses,
    [ixgbe_insert_mac_addr_generic] changes no register, but returns the number of registers as the index of the
    address instead of an error, and moves the high-water mark past the end of the table. *)
Theorem insert_mac_full init A addr vmdq h :
  reg_file addr_reg init A -> ans h = A -> is_mac addr -> 0 < num_rar_entries (mac h) <= 128 -> rar_highwater (mac h) = num_rar_entries (mac h) ->
  (forall i, 0 <= i < num_rar_entries (mac h) -> rar_valid (regs init (tr h)) i = true /\ rar_addr (regs init (tr h)) i <> mac48 addr) ->
  let '(r, h') := ixgbe_insert_mac_addr_generic addr vmdq h in
  r = num_rar_entries (mac h) /\ regs init (tr h') = regs init (tr h) /\ rar_highwater (mac h') = num_rar_entries (mac h) + 1.
Proof.
  intros HA Hans Ha Hn Hhw Hfull. apply wlp_run. assert (Hh : at_regs addr_reg init A (regs init (tr h)) (mac h) (addr_ctrl h) h) by by split_and!.
  unfold ixgbe_insert_mac_addr_generic. apply wlp_bind, wlp_get. cbv zeta. rewrite Hhw. set (n := num_rar_entries (mac h)) in *.
  apply wlp_bind. eapply rar_loop_full; [exact Hh|done|lia|lia|intros i Hi; apply Hfull; lia|].
  intros h1 H1. rewrite Z2Nat.id, Z.add_0_l by lia. cbv iota beta. rewrite Z.ltb_irrefl, !Z.eqb_refl. cbn [negb]. apply wlp_bind, wlp_bind.
  unfold ixgbe_set_rar_generic. apply wlp_bind, wlp_get. rewrite (regs_mac _ _ _ _ H1). fold n. rewrite Z.geb_leb, Z.leb_refl. apply wlp_ret.
  apply wlp_bind, wlp_modify, wlp_ret. rewrite (proj2 (Z.eqb_neq n 0)) by lia. apply wlp_bind, wlp_ret, wlp_ret.
  split_and!; [done|apply H1|]. cbn [mac set_mac rar_highwater set_rar_highwater]. rewrite (regs_mac _ _ _ _ H1), Hhw. apply u32_small. lia.
Qed.

(** *** Examples *)
Definition example_mac : list Z := [0x02; 0x11; 0x22; 0x33; 0x44; 0x55].
Definition rar_hw (init : Z -> Z) (m : ixgbe_mac_info) : ixgbe_hw := set_mac m (hw_init ixgbe_mac_82599EB (regs init)).
(** Every register pair holds the address 0 and is valid. *)
Definition full_init (r : Z) : Z := if (r =? IXGBE_RAH 0) || (r =? IXGBE_RAH 1) then IXGBE_RAH_AV else 0.
Definition two_rars : ixgbe_mac_info := Mac (repeat 0 6) (repeat 0 6) (repeat 0 128) 0 128 128 2 2 0.

Lemma example_is_mac : is_mac example_mac.
Proof. split; [done|]. repeat constructor; lia. Qed.
Lemma mc_list_exact_witness :
  let '(_, h') := ixgbe_update_mc_addr_list_generic [example_mac] true (rar_hw (fun _ => 0) mac0) in
  forall v, 0 <= v < 4096 -> mta_bit (regs (fun _ => 0) (tr h')) v = (mta_entry 0 example_mac =? v) || false.
Proof.
  pose proof (mc_list_exact (fun _ => 0) (regs (fun _ => 0)) [example_mac] true (rar_hw (fun _ => 0) mac0)
    (fun t r _ => eq_refl) eq_refl (proj2 (Forall_singleton _ _) example_is_mac) ltac:(done) ltac:(done) eq_refl eq_refl) as H.
  revert H. destruct (ixgbe_update_mc_addr_list_generic _ _ _) as [r h']. intros (_ & H & _). exact H.
Defined.
Lemma insert_mac_full_witness : (ixgbe_insert_mac_addr_generic example_mac 1 (rar_hw full_init two_rars)).1 = 2.
Proof.
  pose proof (insert_mac_full full_init (regs full_init) example_mac 1 (rar_hw full_init two_rars)
    (fun t r _ => eq_refl) eq_refl example_is_mac ltac:(done) eq_refl) as H.
  destruct (ixgbe_insert_mac_addr_generic _ _ _) as [r h']. apply H. intros i Hi. assert (Hb : i = 0 \/ i = 1) by (cbn in Hi; lia).
  destruct Hb as [-> | ->]; by split.
Defined.
