(* ===== verification/MacTable.v ===== *)
(** * The table of unicast addresses ([ixgbe_main.c])

    [adapter->mac_table] says which address and pool each receive address register is for; changed
    entries are marked and written out by [ixgbe_sync_mac_table]. The invariant [synced] ties the table to the
    registers, and every operation of the table keeps it. *)
From S2P Require Import Prelude Bits Hw RegFile AddrFilter.

Record ixgbe_mac_addr := MacAddr { me_addr : list Z; me_queue : Z; me_state : Z }.
Definition IXGBE_MAC_STATE_DEFAULT : Z := 0x1.
Definition IXGBE_MAC_STATE_MODIFIED : Z := 0x2.
Definition IXGBE_MAC_STATE_IN_USE : Z := 0x4.
Definition ENOMEM : Z := 12.
Definition EINVAL : Z := 22.

Definition in_use (e : ixgbe_mac_addr) : bool := truthy (Z.land (me_state e) IXGBE_MAC_STATE_IN_USE).
Definition modified (e : ixgbe_mac_addr) : bool := truthy (Z.land (me_state e) IXGBE_MAC_STATE_MODIFIED).
Definition set_state (v : Z) (e : ixgbe_mac_addr) : ixgbe_mac_addr := MacAddr (me_addr e) (me_queue e) v.

(** ** The operations; each returns the table *)

(** Write one entry out. *)
Definition write_entry (i : Z) (e : ixgbe_mac_addr) : M () :=
  if in_use e then _ ← ixgbe_set_rar_generic i (me_addr e) (me_queue e) IXGBE_RAH_AV; mret ()
  else _ ← ixgbe_clear_rar_generic i; mret ().

Fixpoint full_sync_loop (n i : Z) (tbl : list ixgbe_mac_addr) : M () :=
  match tbl with
  | [] => mret ()
  | e :: tbl => if i <? n then _ ← write_entry i e; full_sync_loop n (i + 1) tbl else mret ()
  end.
Definition ixgbe_full_sync_mac_table (tbl : list ixgbe_mac_addr) : M () := h ← get; full_sync_loop (num_rar_entries (mac h)) 0 tbl.

Fixpoint sync_loop (n i : Z) (tbl : list ixgbe_mac_addr) : M (list ixgbe_mac_addr) :=
  match tbl with
  | [] => mret []
  | e :: tbl =>
      if i <? n then
        e ← (if modified e then _ ← write_entry i e; mret (set_state (Z.ldiff (me_state e) IXGBE_MAC_STATE_MODIFIED) e) else mret e);
        tbl ← sync_loop n (i + 1) tbl;
        mret (e :: tbl)
      else mret (e :: tbl)
  end.
Definition ixgbe_sync_mac_table (tbl : list ixgbe_mac_addr) : M (list ixgbe_mac_addr) :=
  h ← get; sync_loop (num_rar_entries (mac h)) 0 tbl.

Definition ixgbe_available_rars (n : Z) (tbl : list ixgbe_mac_addr) : Z :=
  Z.of_nat (length (filter (fun e => me_state e = 0) (take (Z.to_nat n) tbl))).

Definition is_zero_ether_addr (addr : list Z) : bool := forallb (fun b => b =? 0) addr.

(** The first entry below [n] that satisfies [p]. *)
Fixpoint find_entry (p : ixgbe_mac_addr -> bool) (n i : Z) (tbl : list ixgbe_mac_addr) : option Z :=
  match tbl with
  | [] => None
  | e :: tbl => if i <? n then if p e then Some i else find_entry p n (i + 1) tbl else None
  end.

Definition add_entry (addr : list Z) (queue : Z) (e : ixgbe_mac_addr) : ixgbe_mac_addr :=
  MacAddr addr queue (Z.lor (me_state e) (Z.lor IXGBE_MAC_STATE_MODIFIED IXGBE_MAC_STATE_IN_USE)).
Definition ixgbe_add_mac_filter (addr : list Z) (queue : Z) (tbl : list ixgbe_mac_addr) : M (Z * list ixgbe_mac_addr) :=
  if is_zero_ether_addr addr then mret (- EINVAL, tbl)
  else
    h ← get;
    match find_entry (fun e => negb (in_use e)) (num_rar_entries (mac h)) 0 tbl with
    | Some i => tbl ← ixgbe_sync_mac_table (alter (add_entry addr queue) (Z.to_nat i) tbl); mret (i, tbl)
    | None => mret (- ENOMEM, tbl)
    end.

Definition drop_entry (e : ixgbe_mac_addr) : ixgbe_mac_addr :=
  MacAddr (repeat 0 6) 0 (Z.ldiff (Z.lor (me_state e) IXGBE_MAC_STATE_MODIFIED) IXGBE_MAC_STATE_IN_USE).
Definition ixgbe_flush_sw_mac_table (tbl : list ixgbe_mac_addr) : M (list ixgbe_mac_addr) :=
  h ← get;
  let n := Z.to_nat (num_rar_entries (mac h)) in
  ixgbe_sync_mac_table (map drop_entry (take n tbl) ++ drop n tbl).

Definition ixgbe_del_mac_filter (addr : list Z) (queue : Z) (tbl : list ixgbe_mac_addr) : M (Z * list ixgbe_mac_addr) :=
  if is_zero_ether_addr addr then mret (- EINVAL, tbl)
  else
    h ← get;
    match find_entry (fun e => bool_decide (addr = me_addr e) && (me_queue e =? queue)) (num_rar_entries (mac h)) 0 tbl with
    | Some i => tbl ← ixgbe_sync_mac_table (alter drop_entry (Z.to_nat i) tbl); mret (0, tbl)
    | None => mret (- ENOMEM, tbl)
    end.

Fixpoint write_uc_loop (addrs : list (list Z)) (vfn count : Z) (tbl : list ixgbe_mac_addr) : M (Z * list ixgbe_mac_addr) :=
  match addrs with
  | [] => mret (count, tbl)
  | addr :: addrs =>
      r ← ixgbe_del_mac_filter addr vfn tbl;
      r ← ixgbe_add_mac_filter addr vfn (snd r);
      write_uc_loop addrs vfn (count + 1) (snd r)
  end.
(** [addrs]: the unicast addresses of the network device. *)
Definition ixgbe_write_uc_addr_list (addrs : list (list Z)) (vfn : Z) (tbl : list ixgbe_mac_addr) : M (Z * list ixgbe_mac_addr) :=
  h ← get;
  if Z.of_nat (length addrs) >? ixgbe_available_rars (num_rar_entries (mac h)) tbl then mret (- ENOMEM, tbl)
  else write_uc_loop addrs vfn 0 tbl.

(** ** The table and the registers *)

(** Entry [e] is written out in the registers of RAR [i]. *)
Definition written (e : ixgbe_mac_addr) (f : Z -> Z) (i : Z) : Prop :=
  modified e = false /\
  if in_use e then is_mac (me_addr e) /\ 0 <= me_queue e < 64 /\ rar_valid f i = true /\ rar_addr f i = mac48 (me_addr e) /\ rar_pools f i = 2 ^ me_queue e
  else rar_cleared f i.
Definition synced (n : Z) (tbl : list ixgbe_mac_addr) (f : Z -> Z) : Prop :=
  forall i e, tbl !! i = Some e -> Z.of_nat i < n -> written e f (Z.of_nat i).
(** Entry [e] is written out, or will be by the next [ixgbe_sync_mac_table]. *)
Definition pending (e : ixgbe_mac_addr) (f : Z -> Z) (i : Z) : Prop :=
  if modified e then in_use e = true -> is_mac (me_addr e) /\ 0 <= me_queue e < 64 /\ rar_pools f i = 0 else written e f i.
Definition clean (e : ixgbe_mac_addr) : ixgbe_mac_addr :=
  if modified e then set_state (Z.ldiff (me_state e) IXGBE_MAC_STATE_MODIFIED) e else e.

Lemma in_use_bit e : in_use e = Z.testbit (me_state e) 2.
Proof. by apply (truthy_land_bit _ 2). Qed.
Lemma modified_bit e : modified e = Z.testbit (me_state e) 1.
Proof. by apply (truthy_land_bit _ 1). Qed.
Lemma clean_spec e : modified (clean e) = false /\ in_use (clean e) = in_use e /\ me_addr (clean e) = me_addr e /\ me_queue (clean e) = me_queue e.
Proof.
  unfold clean. destruct (modified e) eqn:Hm; [|done]. rewrite !in_use_bit, modified_bit. cbn [set_state me_state me_addr me_queue].
  rewrite !Z.ldiff_spec. cbn. by rewrite andb_false_r, andb_true_r.
Qed.
Lemma add_entry_spec addr q e : modified (add_entry addr q e) = true /\ in_use (add_entry addr q e) = true.
Proof. rewrite in_use_bit, modified_bit. unfold add_entry. cbn [me_state]. by rewrite !Z.lor_spec, !orb_true_r. Qed.
Lemma drop_entry_spec e : modified (drop_entry e) = true /\ in_use (drop_entry e) = false.
Proof.
  rewrite in_use_bit, modified_bit. unfold drop_entry. cbn [me_state]. rewrite !Z.ldiff_spec, !Z.lor_spec. cbn. by rewrite orb_true_r, !andb_false_r.
Qed.

Lemma written_other e f f' i j : written e f j -> only_rar i f f' -> 0 <= i < 128 -> 0 <= j < 128 -> j <> i -> written e f' j.
Proof.
  intros [Hm Hw] Ho Hi Hj Hne. destruct (only_rar_other i j f f' Ho Hi Hj Hne) as (Ha & Hv & Hp). split; [done|].
  destruct (in_use e); [by rewrite Ha, Hv, Hp|]. unfold rar_cleared in *. rewrite Ha, Hv, !Ho by rars. done.
Qed.
Lemma pending_other e f f' i j : pending e f j -> only_rar i f f' -> 0 <= i < 128 -> 0 <= j < 128 -> j <> i -> pending e f' j.
Proof.
  unfold pending. destruct (modified e); [|apply written_other]. intros Hp Ho Hi Hj Hne Hu.
  destruct (only_rar_other i j f f' Ho Hi Hj Hne) as (_ & _ & ->). by apply Hp.
Qed.
Lemma cleared_pools f i : rar_cleared f i -> rar_pools f i = 0.
Proof. intros (_ & _ & Hlo & Hhi). unfold rar_pools. by rewrite Hlo, Hhi. Qed.

Section Sync.
Context {init : Z -> Z} {A : list access -> Z -> Z} (m : ixgbe_mac_info) (a : ixgbe_addr_filter_info).
Local Notation n := (num_rar_entries m).
Context (Hm : num_rar_entries m <= 128).
Local Notation at_rars f h := (at_regs addr_reg init A f m a h).

Lemma write_entry_spec i e f h (Q : () -> ixgbe_hw -> Prop) :
  at_rars f h -> 0 <= i < n -> modified e = true -> pending e f i ->
  (forall f' h', at_rars f' h' -> only_rar i f f' -> written (clean e) f' i -> Q () h') -> wlp (write_entry i e) h Q.
Proof using Hm.
  intros Hh Hi Hmod Hp HQ. unfold pending in Hp. rewrite Hmod in Hp. destruct (clean_spec e) as (Hc1 & Hc2 & Hc3 & Hc4).
  unfold write_entry, written in *. rewrite Hc2, Hc3, Hc4 in HQ. destruct (in_use e).
  - destruct (Hp eq_refl) as (Ha & Hq & Hpools). apply wlp_bind. eapply (set_rar_spec m Hm); [exact Hh|done|done|done|].
    intros f' h' H' Ho Haddr Hv Hpo. apply wlp_ret, (HQ _ _ H' Ho). rewrite Hpools, Z.lor_0_l in Hpo. change (negb _) with true in Hv. done.
  - apply wlp_bind. unfold ixgbe_clear_rar_generic. eapply (clear_rar_spec m Hm 0); [exact Hh|done|]. intros f' h' H' Ho Hc.
    apply wlp_ret, (HQ _ _ H' Ho). by split.
Qed.

Lemma sync_loop_spec tbl k f h (Q : list ixgbe_mac_addr -> ixgbe_hw -> Prop) :
  at_rars f h -> 0 <= k -> (forall j e, tbl !! j = Some e -> k + Z.of_nat j < n -> pending e f (k + Z.of_nat j)) ->
  (forall tbl' f' h', at_rars f' h' -> length tbl' = length tbl ->
     (forall j e, tbl !! j = Some e -> tbl' !! j = Some (if k + Z.of_nat j <? n then clean e else e)) ->
     (forall j e, tbl !! j = Some e -> k + Z.of_nat j < n -> written (clean e) f' (k + Z.of_nat j)) ->
     (forall e i, 0 <= i < k -> i < 128 -> written e f i -> written e f' i) -> Q tbl' h') ->
  wlp (sync_loop n k tbl) h Q.
Proof using Hm.
  revert k f h Q. induction tbl as [|e tbl IH]; intros k f h Q Hh Hk Hpend HQ; cbn [sync_loop].
  { apply wlp_ret. by apply (HQ [] f). }
  destruct (Z.ltb_spec k n) as [Hlt|Hge].
  2:{ apply wlp_ret. apply (HQ (e :: tbl) f); [done|done| |intros j e' _; lia|done].
      intros j e' Hj. rewrite (proj2 (Z.ltb_ge _ _)) by lia. done. }
  assert (Htail : forall f1 h1, at_rars f1 h1 -> written (clean e) f1 k -> (f1 = f \/ only_rar k f f1) ->
    wlp (tbl' ← sync_loop n (k + 1) tbl; mret (clean e :: tbl')) h1 Q).
  { intros f1 h1 H1 Hw Ho. apply wlp_bind. apply (IH (k + 1) f1 h1); [done|lia| |].
    - intros j e' Hj Hlt'. replace (k + 1 + Z.of_nat j) with (k + Z.of_nat (S j)) by lia.
      assert (Hp : pending e' f (k + Z.of_nat (S j))) by (apply Hpend; [done|lia]).
      destruct Ho as [->|Ho]; [done|]. apply (pending_other e' f f1 k); [done|done|lia|lia|lia].
    - intros tbl' f' h' H' Hlen Hlook Hw' Hkeep. apply wlp_ret. apply (HQ (clean e :: tbl') f'); [done|cbn; by f_equal| | |].
      + intros [|j] e' Hj; [injection Hj as ->; by rewrite Z.add_0_r, (proj2 (Z.ltb_lt _ _) Hlt)|].
        change ((clean e :: tbl') !! S j) with (tbl' !! j). rewrite (Hlook j e' Hj). by replace (k + 1 + Z.of_nat j) with (k + Z.of_nat (S j)) by lia.
      + intros [|j] e' Hj Hlt'; cbn in Hj; [injection Hj as <-; rewrite Z.add_0_r; apply Hkeep; [lia|lia|done]|].
        replace (k + Z.of_nat (S j)) with (k + 1 + Z.of_nat j) by lia. apply Hw'; [done|lia].
      + intros e' i Hi H128 Hwi. apply Hkeep; [lia|lia|]. destruct Ho as [->|Ho]; [done|]. apply (written_other e' f f1 k); [done|done|lia|lia|lia]. }
  pose proof (Hpend 0%nat e eq_refl ltac:(lia)) as Hp. rewrite Z.add_0_r in Hp. apply wlp_bind. destruct (modified e) eqn:Hmod.
  - apply wlp_bind. eapply write_entry_spec; [exact Hh|lia|done|done|]. intros f1 h1 H1 Ho Hw. apply wlp_ret.
    specialize (Htail f1 h1 H1 Hw (or_intror Ho)). unfold clean in Htail. rewrite Hmod in Htail. exact Htail.
  - apply wlp_ret. unfold pending in Hp. rewrite Hmod in Hp. assert (Hce : clean e = e) by (unfold clean; by rewrite Hmod). rewrite Hce in Htail.
    apply (Htail f h Hh Hp). by left.
Qed.

Lemma sync_spec tbl f h (Q : list ixgbe_mac_addr -> ixgbe_hw -> Prop) :
  at_rars f h -> (forall j e, tbl !! j = Some e -> Z.of_nat j < n -> pending e f (Z.of_nat j)) ->
  (forall tbl' f' h', at_rars f' h' -> synced n tbl' f' -> length tbl' = length tbl ->
     (forall j e, tbl !! j = Some e -> tbl' !! j = Some (if Z.of_nat j <? n then clean e else e)) -> Q tbl' h') ->
  wlp (ixgbe_sync_mac_table tbl) h Q.
Proof using Hm.
  intros Hh Hpend HQ. apply wlp_bind, wlp_get. rewrite (regs_mac _ _ _ _ Hh).
  eapply sync_loop_spec; [exact Hh|lia|exact Hpend|]. intros tbl' f' h' H' Hlen Hlook Hw _. apply (HQ tbl' f' h' H'); [|done|done].
  intros j e' Hj Hlt. destruct (lookup_lt_is_Some_2 tbl j) as [e He]; [rewrite <- Hlen; by eapply lookup_lt_Some|].
  rewrite (Hlook j e He), Z.add_0_l, (proj2 (Z.ltb_lt _ _) Hlt) in Hj. injection Hj as <-. by apply (Hw j e).
Qed.
End Sync.

Lemma find_entry_spec p n i tbl :
  match find_entry p n i tbl with
  | Some k => exists j e, k = i + Z.of_nat j /\ k < n /\ tbl !! j = Some e /\ p e = true
  | None => forall j e, tbl !! j = Some e -> i + Z.of_nat j < n -> p e = false
  end.
Proof.
  revert i. induction tbl as [|e tbl IH]; intros i; cbn [find_entry]; [done|].
  destruct (Z.ltb_spec i n) as [Hlt|Hge]; [|intros j e' _; lia]. destruct (p e) eqn:Hp.
  - exists 0%nat, e. split_and!; [lia|done|done|done].
  - specialize (IH (i + 1)). destruct (find_entry p n (i + 1) tbl) as [k|].
    + destruct IH as (j & e' & Hk & Hkn & Hj & Hp'). exists (S j), e'. split_and!; [lia|done|done|done].
    + intros [|j] e' Hj Hlt'; [by injection Hj as <-|]. apply (IH j e' Hj). lia.
Qed.

(** What an operation does to a synced table: sync after changing one entry below [n]. *)
Lemma sync_one {init A} m a (g : ixgbe_mac_addr -> ixgbe_mac_addr) i e tbl f h (Q : list ixgbe_mac_addr -> ixgbe_hw -> Prop) :
  num_rar_entries m <= 128 -> at_regs addr_reg init A f m a h -> synced (num_rar_entries m) tbl f ->
  tbl !! i = Some e -> Z.of_nat i < num_rar_entries m -> pending (g e) f (Z.of_nat i) ->
  (forall tbl' f' h', at_regs addr_reg init A f' m a h' -> synced (num_rar_entries m) tbl' f' -> length tbl' = length tbl ->
     tbl' !! i = Some (clean (g e)) -> (forall j, j <> i -> tbl' !! j = tbl !! j) -> Q tbl' h') ->
  wlp (ixgbe_sync_mac_table (alter g i tbl)) h Q.
Proof.
  intros Hm Hh Hsync Hi Hin Hpend HQ. eapply (sync_spec m a Hm); [exact Hh| |].
  - intros j e' Hj Hlt. destruct (decide (j = i)) as [->|Hne].
    + rewrite list_lookup_alter_eq, Hi in Hj. injection Hj as <-. done.
    + rewrite list_lookup_alter_ne in Hj by done. unfold pending. pose proof (Hsync j e' Hj Hlt) as Hw. by rewrite (proj1 Hw).
  - intros tbl' f' h' H' Hs Hlen Hlook. apply (HQ tbl' f' h' H' Hs).
    + rewrite Hlen. apply length_alter.
    + rewrite (Hlook i (g e)); [by rewrite (proj2 (Z.ltb_lt _ _) Hin)|]. by rewrite list_lookup_alter_eq, Hi.
    + intros j Hne. destruct (tbl !! j) as [e'|] eqn:Hj.
      * rewrite (Hlook j e') by (by rewrite list_lookup_alter_ne). destruct (Z.ltb_spec (Z.of_nat j) (num_rar_entries m)) as [Hlt|]; [|done].
        unfold clean. by rewrite (proj1 (Hsync j e' Hj Hlt)).
      * apply lookup_ge_None. rewrite Hlen, length_alter. by apply lookup_ge_None.
Qed.

(** ** Which packets get to which pool *)
Definition accepts (f : Z -> Z) (n x q : Z) : Prop :=
  exists i, 0 <= i < n /\ rar_valid f i = true /\ rar_addr f i = x /\ Z.testbit (rar_pools f i) q = true.
(** An entry of the table is for address [x] and pool [q]. *)
Definition entry_for (x q : Z) (e : ixgbe_mac_addr) : Prop := in_use e = true /\ mac48 (me_addr e) = x /\ me_queue e = q.

Lemma synced_accepts n tbl f x q : synced n tbl f -> n <= Z.of_nat (length tbl) -> 0 <= q ->
  accepts f n x q <-> exists i e, tbl !! i = Some e /\ Z.of_nat i < n /\ entry_for x q e.
Proof.
  intros Hs Hlen Hq. split.
  - intros (i & Hi & Hv & Ha & Hp). destruct (lookup_lt_is_Some_2 tbl (Z.to_nat i)) as [e He]; [lia|]. exists (Z.to_nat i), e.
    destruct (Hs (Z.to_nat i) e He ltac:(lia)) as [_ Hw]. rewrite Z2Nat.id in Hw by lia. unfold entry_for. destruct (in_use e).
    + destruct Hw as (_ & Hqe & _ & Ha' & Hp'). rewrite Hp', Z.pow2_bits_eqb, Z.eqb_eq in Hp by lia. split_and!; [done|lia|done|congruence|done].
    + destruct Hw as (_ & Hv' & _). congruence.
  - intros (i & e & He & Hi & Hu & Ha & Hqe). exists (Z.of_nat i). destruct (Hs i e He Hi) as [_ Hw]. rewrite Hu in Hw.
    destruct Hw as (_ & Hr & Hv & Ha' & Hp). split_and!; [lia|done|done|congruence|]. rewrite Hp, Z.pow2_bits_eqb by lia. by apply Z.eqb_eq.
Qed.

(** Adding a filter.  On a table in step with the registers [ixgbe_add_mac_filter] keeps it in step; if there
    is a free entry, the adapter then accepts the address for the pool and otherwise exactly what it accepted before; if
    there is none, it fails and changes nothing. *)
Theorem add_filter_correct init A addr queue tbl h :
  reg_file addr_reg init A -> ans h = A -> num_rar_entries (mac h) <= 128 -> num_rar_entries (mac h) <= Z.of_nat (length tbl) ->
  is_mac addr -> is_zero_ether_addr addr = false -> 0 <= queue < 64 -> synced (num_rar_entries (mac h)) tbl (regs init (tr h)) ->
  let '((r, tbl'), h') := ixgbe_add_mac_filter addr queue tbl h in
  let n := num_rar_entries (mac h) in
  synced n tbl' (regs init (tr h')) /\
  ((0 <= r < n /\ forall x q, 0 <= q -> accepts (regs init (tr h')) n x q <-> accepts (regs init (tr h)) n x q \/ (x = mac48 addr /\ q = queue)) \/
   (r = - ENOMEM /\ (forall i e, tbl !! i = Some e -> Z.of_nat i < n -> in_use e = true) /\ tbl' = tbl /\ h' = h)).
Proof.
  intros HA Hans Hm Hlen Ha Hz Hq Hs. set (n := num_rar_entries (mac h)) in *.
  enough (Hg : wlp (ixgbe_add_mac_filter addr queue tbl) h (fun r h' => synced n r.2 (regs init (tr h')) /\
    ((0 <= r.1 < n /\ forall x q, 0 <= q -> accepts (regs init (tr h')) n x q <-> accepts (regs init (tr h)) n x q \/ (x = mac48 addr /\ q = queue)) \/
     (r.1 = - ENOMEM /\ (forall i e, tbl !! i = Some e -> Z.of_nat i < n -> in_use e = true) /\ r.2 = tbl /\ h' = h)))).
  { apply wlp_run in Hg. by destruct (ixgbe_add_mac_filter addr queue tbl h) as [[r tbl'] h']. }
  assert (Hh : at_regs addr_reg init A (regs init (tr h)) (mac h) (addr_ctrl h) h) by by split_and!.
  unfold ixgbe_add_mac_filter. rewrite Hz. apply wlp_bind, wlp_get. pose proof (find_entry_spec (fun e => negb (in_use e)) n 0 tbl) as Hf.
  fold n. destruct (find_entry _ n 0 tbl) as [k|].
  2:{ apply wlp_ret. split; [done|]. right. split_and!; [done| |done|done]. intros i e Hi Hin. specialize (Hf i e Hi ltac:(lia)). by apply negb_false_iff. }
  destruct Hf as (i & e & -> & Hin & Hi & Hfree). rewrite Z.add_0_l, Nat2Z.id in *. apply negb_true_iff in Hfree.
  destruct (add_entry_spec addr queue e) as [Hmod Huse].
  apply wlp_bind. eapply (sync_one (mac h) (addr_ctrl h) (add_entry addr queue)); [done|exact Hh|done|exact Hi|done| |].
  { unfold pending. rewrite Hmod. intros _. split; [exact Ha|]. split; [exact Hq|]. destruct (Hs i e Hi Hin) as [_ Hw]. rewrite Hfree in Hw. by apply cleared_pools. }
  intros tbl' f' h' H' Hs' Hlen' Hi' Hoth. apply wlp_ret. replace (regs init (tr h')) with f' by (symmetry; apply H'). cbn [fst snd]. split; [done|]. left. split; [lia|].
  destruct (clean_spec (add_entry addr queue e)) as (_ & Hc2 & Hc3 & Hc4).
  intros x q Hq0. rewrite (synced_accepts n tbl'), (synced_accepts n tbl) by (done || cbn [fst snd]; lia). split.
  - intros (j & e' & Hj & Hjn & Hu & Hx & Hqe). destruct (decide (j = i)) as [->|Hne].
    + right. rewrite Hi' in Hj. injection Hj as <-. rewrite Hc3 in Hx. rewrite Hc4 in Hqe. done.
    + left. exists j, e'. rewrite <- Hoth by done. done.
  - intros [(j & e' & Hj & Hjn & Hu & Hx)|[-> ->]].
    + destruct (decide (j = i)) as [->|Hne]; [congruence|]. exists j, e'. rewrite Hoth by done. done.
    + exists i, (clean (add_entry addr queue e)). unfold entry_for. rewrite Hc2, Hc3, Hc4. done.
Qed.

(** ** Every operation keeps the table in step *)
Inductive mac_op := OpAdd (addr : list Z) (queue : Z) | OpDel (addr : list Z) (queue : Z) | OpFlush | OpFullSync | OpUcList (addrs : list (list Z)) (vfn : Z).
Definition run_op (op : mac_op) (tbl : list ixgbe_mac_addr) : M (list ixgbe_mac_addr) :=
  match op with
  | OpAdd addr queue => r ← ixgbe_add_mac_filter addr queue tbl; mret (snd r)
  | OpDel addr queue => r ← ixgbe_del_mac_filter addr queue tbl; mret (snd r)
  | OpFlush => ixgbe_flush_sw_mac_table tbl
  | OpFullSync => _ ← ixgbe_full_sync_mac_table tbl; mret tbl
  | OpUcList addrs vfn => r ← ixgbe_write_uc_addr_list addrs vfn tbl; mret (snd r)
  end.
Fixpoint run_ops (ops : list mac_op) (tbl : list ixgbe_mac_addr) : M (list ixgbe_mac_addr) :=
  match ops with [] => mret tbl | op :: ops => tbl ← run_op op tbl; run_ops ops tbl end.
(** The addresses are six bytes, the pools exist. *)
Definition op_ok (op : mac_op) : Prop :=
  match op with
  | OpAdd addr q | OpDel addr q => is_mac addr /\ 0 <= q < 64
  | OpUcList addrs q => Forall is_mac addrs /\ 0 <= q < 64
  | _ => True
  end.

Section Keeps.
Context {init : Z -> Z} {A : list access -> Z -> Z} (m : ixgbe_mac_info) (a : ixgbe_addr_filter_info).
Context (Hm : num_rar_entries m <= 128).
Local Notation n := (num_rar_entries m).
Local Notation in_step tbl h := (exists f, at_regs addr_reg init A f m a h /\ synced n tbl f).

Lemma add_keeps addr q tbl h (Q : Z * list ixgbe_mac_addr -> ixgbe_hw -> Prop) :
  in_step tbl h -> is_mac addr -> 0 <= q < 64 -> (forall r tbl' h', in_step tbl' h' -> length tbl' = length tbl -> Q (r, tbl') h') ->
  wlp (ixgbe_add_mac_filter addr q tbl) h Q.
Proof using Hm.
  intros (f & Hh & Hs) Ha Hq HQ. unfold ixgbe_add_mac_filter. destruct (is_zero_ether_addr addr); [apply wlp_ret, HQ; [by exists f|done]|].
  apply wlp_bind, wlp_get. rewrite (regs_mac _ _ _ _ Hh). pose proof (find_entry_spec (fun e => negb (in_use e)) n 0 tbl) as Hf.
  destruct (find_entry _ n 0 tbl) as [k|]; [|apply wlp_ret, HQ; [by exists f|done]].
  destruct Hf as (i & e & -> & Hin & Hi & Hfree). rewrite Z.add_0_l, Nat2Z.id in *. apply negb_true_iff in Hfree.
  apply wlp_bind. eapply (sync_one m a (add_entry addr q)); [done|exact Hh|done|exact Hi|done| |].
  { unfold pending. rewrite (proj1 (add_entry_spec addr q e)). intros _. split; [exact Ha|]. split; [exact Hq|].
    destruct (Hs i e Hi Hin) as [_ Hw]. rewrite Hfree in Hw. by apply cleared_pools. }
  intros tbl' f' h' H' Hs' Hlen _ _. apply wlp_ret, HQ; [by exists f'|done].
Qed.
Lemma drop_pending e f i : pending (drop_entry e) f i.
Proof. destruct (drop_entry_spec e) as [Hm' Hu]. unfold pending. rewrite Hm', Hu. done. Qed.
Lemma del_keeps addr q tbl h (Q : Z * list ixgbe_mac_addr -> ixgbe_hw -> Prop) :
  in_step tbl h -> (forall r tbl' h', in_step tbl' h' -> length tbl' = length tbl -> Q (r, tbl') h') -> wlp (ixgbe_del_mac_filter addr q tbl) h Q.
Proof using Hm.
  intros (f & Hh & Hs) HQ. unfold ixgbe_del_mac_filter. destruct (is_zero_ether_addr addr); [apply wlp_ret, HQ; [by exists f|done]|].
  apply wlp_bind, wlp_get. rewrite (regs_mac _ _ _ _ Hh). set (p := fun e => _ && _). pose proof (find_entry_spec p n 0 tbl) as Hf.
  destruct (find_entry p n 0 tbl) as [k|]; [|apply wlp_ret, HQ; [by exists f|done]].
  destruct Hf as (i & e & -> & Hin & Hi & _). rewrite Z.add_0_l, Nat2Z.id in *.
  apply wlp_bind. eapply (sync_one m a drop_entry); [done|exact Hh|done|exact Hi|done|apply drop_pending|].
  intros tbl' f' h' H' Hs' Hlen _ _. apply wlp_ret, HQ; [by exists f'|done].
Qed.
Lemma flush_keeps tbl h (Q : list ixgbe_mac_addr -> ixgbe_hw -> Prop) :
  in_step tbl h -> (forall tbl' h', in_step tbl' h' -> Q tbl' h') -> wlp (ixgbe_flush_sw_mac_table tbl) h Q.
Proof using Hm.
  intros (f & Hh & Hs) HQ. apply wlp_bind, wlp_get. rewrite (regs_mac _ _ _ _ Hh). eapply (sync_spec m a Hm); [exact Hh| |].
  - intros j e Hj Hlt. assert (Hlen : (j < length (map drop_entry (take (Z.to_nat n) tbl)))%nat).
    { apply lookup_lt_Some in Hj. rewrite length_app, length_map, length_take, length_drop in *. lia. }
    rewrite lookup_app_l in Hj by done. apply list_lookup_fmap_Some in Hj as (e0 & -> & _). apply drop_pending.
  - intros tbl' f' h' H' Hs' _ _. apply HQ. by exists f'.
Qed.
Lemma full_sync_keeps tbl h (Q : () -> ixgbe_hw -> Prop) :
  in_step tbl h -> (forall h', in_step tbl h' -> Q () h') -> wlp (ixgbe_full_sync_mac_table tbl) h Q.
Proof using Hm.
  intros (f & Hh & Hs) HQ. apply wlp_bind, wlp_get. rewrite (regs_mac _ _ _ _ Hh).
  assert (Hgen : forall todo k f h, at_regs addr_reg init A f m a h -> synced n tbl f -> 0 <= k -> (forall j, todo !! j = tbl !! (Z.to_nat k + j)%nat) ->
    wlp (full_sync_loop n k todo) h Q); [|by apply (Hgen tbl 0 f)]. clear f h Hh Hs.
  induction todo as [|e todo IH]; intros k f h Hh Hs Hk Htodo; cbn [full_sync_loop]; [apply wlp_ret, HQ; by exists f|].
  destruct (Z.ltb_spec k n) as [Hlt|]; [|apply wlp_ret, HQ; by exists f].
  pose proof (Htodo 0%nat) as He. rewrite Nat.add_0_r in He. cbn in He. symmetry in He.
  assert (Hnext : forall f' h', at_regs addr_reg init A f' m a h' -> only_rar k f f' -> written e f' k -> wlp (full_sync_loop n (k + 1) todo) h' Q).
  { intros f' h' H' Ho Hw. apply (IH (k + 1) f' h' H'); [|lia|].
    - intros j e' Hj Hjn. destruct (decide (j = Z.to_nat k)) as [->|Hne]; [rewrite He in Hj; injection Hj as <-; by rewrite Z2Nat.id|].
      apply (written_other e' f f' k); [by apply Hs|done|lia|lia|lia].
    - intros j. specialize (Htodo (S j)). change ((e :: todo) !! S j) with (todo !! j) in Htodo. rewrite Htodo. f_equal. lia. }
  pose proof (Hs (Z.to_nat k) e He ltac:(lia)) as [Hmod Hw]. rewrite Z2Nat.id in Hw by lia. apply wlp_bind. unfold write_entry. unfold written in Hnext.
  destruct (in_use e).
  - destruct Hw as (Ha & Hq & _ & _ & Hp). apply wlp_bind. eapply (set_rar_spec m Hm); [exact Hh|lia|done|done|].
    intros f' h' H' Ho Haddr Hv Hpo. apply wlp_ret, (Hnext f' h' H' Ho). rewrite Hp, Z.lor_diag in Hpo. change (negb _) with true in Hv. done.
  - apply wlp_bind. unfold ixgbe_clear_rar_generic. eapply (clear_rar_spec m Hm 0); [exact Hh|lia|]. intros f' h' H' Ho Hc. by apply wlp_ret, (Hnext f' h' H' Ho).
Qed.
Lemma uc_loop_keeps addrs q count tbl h (Q : Z * list ixgbe_mac_addr -> ixgbe_hw -> Prop) :
  in_step tbl h -> Forall is_mac addrs -> 0 <= q < 64 -> (forall r tbl' h', in_step tbl' h' -> Q (r, tbl') h') -> wlp (write_uc_loop addrs q count tbl) h Q.
Proof using Hm.
  intros Hh Hl Hq HQ. revert count tbl h Hh. induction Hl as [|x l Hx Hl IH]; intros count tbl h Hh; cbn [write_uc_loop]; [by apply wlp_ret, HQ|].
  apply wlp_bind, del_keeps; [done|]. intros r tbl1 h1 H1 _. cbn [snd]. apply wlp_bind, add_keeps; [done|done|done|]. intros r' tbl2 h2 H2 _. by apply IH.
Qed.

Lemma op_keeps op tbl h (Q : list ixgbe_mac_addr -> ixgbe_hw -> Prop) :
  in_step tbl h -> op_ok op -> (forall tbl' h', in_step tbl' h' -> Q tbl' h') -> wlp (run_op op tbl) h Q.
Proof using Hm.
  intros Hh Hok HQ. destruct op as [addr q|addr q| | |addrs q]; cbn [run_op op_ok] in *.
  - destruct Hok. apply wlp_bind, add_keeps; [done|done|done|]. intros r tbl' h' H' _. by apply wlp_ret, HQ.
  - apply wlp_bind, del_keeps; [done|]. intros r tbl' h' H' _. by apply wlp_ret, HQ.
  - by apply flush_keeps.
  - apply wlp_bind, (full_sync_keeps tbl); [done|]. intros h' H'. by apply wlp_ret, HQ.
  - destruct Hok. apply wlp_bind, wlp_bind, wlp_get. destruct (_ >? _); [by apply wlp_ret, wlp_ret, HQ|].
    apply uc_loop_keeps; [done|done|done|]. intros r tbl' h' H'. by apply wlp_ret, HQ.
Qed.
End Keeps.

(** C29. The table and the registers stay in step.  Through any sequence of filters added and removed, lists of
    unicast addresses written, flushes and full syncs, every receive address register holds the address and the pool of
    its table entry, and is off, without address or pools, when its entry is free. *)
Theorem mac_table_synced init A ops tbl h :
  reg_file addr_reg init A -> ans h = A -> num_rar_entries (mac h) <= 128 -> Forall op_ok ops ->
  synced (num_rar_entries (mac h)) tbl (regs init (tr h)) ->
  let '(tbl', h') := run_ops ops tbl h in synced (num_rar_entries (mac h)) tbl' (regs init (tr h')).
Proof.
  intros HA Hans Hm Hok Hs. apply wlp_run.
  assert (Hh : exists f, at_regs addr_reg init A f (mac h) (addr_ctrl h) h /\ synced (num_rar_entries (mac h)) tbl f)
    by (exists (regs init (tr h)); split; [by split_and!|done]).
  clear Hs. revert Hm Hh. generalize (mac h), (addr_ctrl h). intros m a Hm. revert tbl h Hans.
  enough (Hgen : forall tbl h, (exists f, at_regs addr_reg init A f m a h /\ synced (num_rar_entries m) tbl f) ->
    wlp (run_ops ops tbl) h (fun tbl' h' => synced (num_rar_entries m) tbl' (regs init (tr h')))) by (intros tbl h _; apply Hgen).
  induction Hok as [|op ops Hop _ IH]; intros tbl h Hh; cbn [run_ops].
  - apply wlp_ret. destruct Hh as (f & (_ & _ & <- & _) & Hs). exact Hs.
  - apply wlp_bind. eapply (op_keeps m a Hm); [exact Hh|done|]. exact IH.
Qed.

(** ** Examples: four receive address registers *)
Definition four_rars : ixgbe_mac_info := Mac (repeat 0 6) (repeat 0 6) (repeat 0 128) 0 128 128 4 1 0.
Definition four_hw : ixgbe_hw := rar_hw (fun _ => 0) four_rars.
Definition free_table : list ixgbe_mac_addr := repeat (MacAddr (repeat 0 6) 0 0) 4.
Definition second_mac : list Z := [0x02; 0x11; 0x22; 0x33; 0x44; 0x56].

Lemma free_synced : synced 4 free_table (fun _ => 0).
Proof.
  intros i e Hi _. assert (He : e = MacAddr (repeat 0 6) 0 0) by (apply list_elem_of_lookup_2, list_elem_of_In in Hi; by apply repeat_spec in Hi). subst e.
  split; [done|]. split_and!; done.
Qed.
Lemma add_filter_correct_witness :
  let '((r, tbl'), h') := ixgbe_add_mac_filter example_mac 3 free_table four_hw in synced 4 tbl' (regs (fun _ => 0) (tr h')).
Proof.
  pose proof (add_filter_correct (fun _ => 0) (regs (fun _ => 0)) example_mac 3 free_table four_hw
    (fun t r _ => eq_refl) eq_refl ltac:(done) ltac:(done) example_is_mac eq_refl ltac:(lia) free_synced) as H.
  revert H. destruct (ixgbe_add_mac_filter _ _ _ _) as [[r tbl'] h']. intros [H _]. exact H.
Defined.
Lemma mac_table_synced_witness :
  let '(tbl', h') := run_ops [OpAdd example_mac 3; OpUcList [second_mac] 0; OpDel example_mac 3; OpFullSync; OpFlush] free_table four_hw in
  synced 4 tbl' (regs (fun _ => 0) (tr h')).
Proof.
  assert (Hs : is_mac second_mac) by (split; [done|]; repeat constructor; lia).
  apply (mac_table_synced (fun _ => 0) (regs (fun _ => 0)) _ free_table four_hw (fun t r _ => eq_refl) eq_refl); [done| |exact free_synced].
  repeat (apply Forall_cons; split); cbn [op_ok]; try done; (split; [|lia]); [exact example_is_mac|by apply Forall_singleton|exact example_is_mac].
Defined.

(** Writing the same list again fails.  A list that fits is written; written again, unchanged, it is refused for want of
    registers, because [ixgbe_write_uc_addr_list] counts only the registers that are still free. *)
Theorem uc_list_twice :
  let addrs := [example_mac; second_mac; [0x02; 0; 0; 0; 0; 1]] in
  let '((r1, tbl1), h1) := ixgbe_write_uc_addr_list addrs 0 free_table four_hw in
  let '((r2, _), _) := ixgbe_write_uc_addr_list addrs 0 tbl1 h1 in
  r1 = 3 /\ r2 = - ENOMEM.
Proof. vm_compute. done. Qed.

(** A removed address is still accepted.  After the device's list has lost an address, [ixgbe_write_uc_addr_list]
    leaves its register valid. *)
Theorem uc_removed_stays :
  let '((_, tbl1), h1) := ixgbe_write_uc_addr_list [example_mac] 0 free_table four_hw in
  let '((_, _), h2) := ixgbe_write_uc_addr_list [] 0 tbl1 h1 in
  accepts (regs (fun _ => 0) (tr h2)) 4 (mac48 example_mac) 0.
Proof. exists 0. vm_compute. done. Qed.
