(* ===== verification/FlowControl.v ===== *)
(** * Link flow control ([ixgbe_common.c], with the PHY access of [ixgbe_phy.c])

    Two link partners advertise which pause frames they send and honour, and each decides from both
    advertisements which mode to use. [ixgbe_setup_fc] advertises, [ixgbe_fc_autoneg] decides, [ixgbe_fc_enable_generic] programs
    the adapter. *)
From S2P Require Import Prelude Bits Hw DcbHw Eeprom.

Definition IXGBE_DEV_ID_82599_T3_LOM : Z := 0x151C.
Definition IXGBE_DEV_ID_X540T : Z := 0x1528.
Definition IXGBE_DEV_ID_X540T1 : Z := 0x1560.
Definition IXGBE_PCS1GLCTL : Z := 0x04208.
Definition IXGBE_PCS1GLSTA : Z := 0x0420C.
Definition IXGBE_PCS1GANA : Z := 0x04218.
Definition IXGBE_PCS1GANLP : Z := 0x0421C.
Definition IXGBE_MSCA : Z := 0x0425C.
Definition IXGBE_MSRWD : Z := 0x04260.
Definition IXGBE_AUTOC : Z := 0x042A0.
Definition IXGBE_LINKS : Z := 0x042A4.
Definition IXGBE_AUTOC2 : Z := 0x042A8.
Definition IXGBE_ANLP1 : Z := 0x042B0.
Definition IXGBE_LINKS2 : Z := 0x04324.
Definition IXGBE_MSCA_DEV_TYPE_SHIFT : Z := 16.
Definition IXGBE_MSCA_PHY_ADDR_SHIFT : Z := 21.
Definition IXGBE_MSCA_ADDR_CYCLE : Z := 0x00000000.
Definition IXGBE_MSCA_WRITE : Z := 0x04000000.
Definition IXGBE_MSCA_READ : Z := 0x0C000000.
Definition IXGBE_MSCA_MDI_COMMAND : Z := 0x40000000.
Definition IXGBE_MSRWD_READ_DATA_SHIFT : Z := 16.
Definition IXGBE_MDIO_AUTO_NEG_DEV_TYPE : Z := 0x7.
Definition IXGBE_MDIO_COMMAND_TIMEOUT : nat := 100.
Definition IXGBE_MDIO_AUTO_NEG_ADVT : Z := 0x10.
Definition IXGBE_MDIO_AUTO_NEG_LP : Z := 0x13.
Definition IXGBE_STATUS_LAN_ID_1 : Z := 0x00000004.
Definition IXGBE_GSSR_PHY0_SM : Z := 0x0002.
Definition IXGBE_GSSR_PHY1_SM : Z := 0x0004.
Definition IXGBE_GSSR_MAC_CSR_SM : Z := 0x0008.
Definition IXGBE_FCCFG_TFCE_802_3X : Z := 0x00000008.
Definition IXGBE_AUTOC_ASM_PAUSE : Z := 0x20000000.
Definition IXGBE_AUTOC_SYM_PAUSE : Z := 0x10000000.
Definition IXGBE_AUTOC_AN_RESTART : Z := 0x00001000.
Definition IXGBE_AUTOC_LMS_1G_AN : Z := Z.shiftl 0x2 13.
Definition IXGBE_AUTOC2_LINK_DISABLE_MASK : Z := 0x70000000.
Definition IXGBE_LINKS_KX_AN_COMP : Z := 0x80000000.
Definition IXGBE_LINKS_UP : Z := 0x40000000.
Definition IXGBE_LINKS_SPEED_82599 : Z := 0x30000000.
Definition IXGBE_LINKS_SPEED_10G_82599 : Z := 0x30000000.
Definition IXGBE_LINKS_SPEED_1G_82599 : Z := 0x20000000.
Definition IXGBE_LINKS_SPEED_100_82599 : Z := 0x10000000.
Definition IXGBE_LINK_UP_TIME : nat := 90.
Definition IXGBE_LINKS2_AN_SUPPORTED : Z := 0x00000040.
Definition IXGBE_PCS1GLSTA_AN_COMPLETE : Z := 0x10000.
Definition IXGBE_PCS1GLSTA_AN_TIMED_OUT : Z := 0x40000.
Definition IXGBE_PCS1GANA_SYM_PAUSE : Z := 0x80.
Definition IXGBE_PCS1GANA_ASM_PAUSE : Z := 0x100.
Definition IXGBE_PCS1GLCTL_AN_1G_TIMEOUT_EN : Z := 0x00040000.
Definition IXGBE_ANLP1_SYM_PAUSE : Z := 0x0400.
Definition IXGBE_ANLP1_ASM_PAUSE : Z := 0x0800.
Definition IXGBE_ANLP1_AN_STATE_MASK : Z := 0x000f0000.
Definition IXGBE_TAF_SYM_PAUSE : Z := 0x400.
Definition IXGBE_TAF_ASM_PAUSE : Z := 0x800.
Definition IXGBE_FW_LESM_PARAMETERS_PTR : Z := 0x2.
Definition IXGBE_FW_LESM_STATE_1 : Z := 0x1.
Definition IXGBE_FW_LESM_STATE_ENABLED : Z := 0x8000.
Definition IXGBE_LINK_SPEED_UNKNOWN : Z := 0.
Definition IXGBE_LINK_SPEED_100_FULL : Z := 0x0008.
Definition IXGBE_LINK_SPEED_1GB_FULL : Z := 0x0020.
Definition IXGBE_LINK_SPEED_10GB_FULL : Z := 0x0080.
Definition IXGBE_ERR_PHY : Z := -3.
Definition IXGBE_ERR_CONFIG : Z := -4.
Definition IXGBE_ERR_INVALID_LINK_SETTINGS : Z := -13.
Definition IXGBE_ERR_RESET_FAILED : Z := -15.
Definition IXGBE_ERR_FC_NOT_NEGOTIATED : Z := -27.

(** The fields of [struct ixgbe_hw] that only this code uses. *)
Class LinkInfo := { device_id : Z; phy_addr : Z; cached_autoc : Z }.

(** ** The PHY *)
Section Phy.
Context `{LinkInfo}.

Definition msca (reg_addr device_type op : Z) : Z :=
  u32 (Z.lor (Z.lor (Z.lor reg_addr (Z.shiftl device_type IXGBE_MSCA_DEV_TYPE_SHIFT)) (Z.shiftl phy_addr IXGBE_MSCA_PHY_ADDR_SHIFT))
    (Z.lor op IXGBE_MSCA_MDI_COMMAND)).
(** Issue a command and wait for the MDI command bit to clear: whether it did. *)
Definition mdi_command (command : Z) : M bool :=
  _ ← IXGBE_WRITE_REG IXGBE_MSCA command;
  r ← poll_last IXGBE_MDIO_COMMAND_TIMEOUT IXGBE_MSCA (fun c => Z.land c IXGBE_MSCA_MDI_COMMAND =? 0) command;
  mret (Z.land r.1 IXGBE_MSCA_MDI_COMMAND =? 0).

(** The status, and what is stored in [*phy_data]. *)
Definition ixgbe_read_phy_reg_mdi (reg_addr device_type : Z) : M (Z * option Z) :=
  ok ← mdi_command (msca reg_addr device_type IXGBE_MSCA_ADDR_CYCLE);
  if negb ok then mret (IXGBE_ERR_PHY, None)
  else
    ok ← mdi_command (msca reg_addr device_type IXGBE_MSCA_READ);
    if negb ok then mret (IXGBE_ERR_PHY, None)
    else
      data ← IXGBE_READ_REG IXGBE_MSRWD;
      mret (0, Some (u16 (Z.shiftr data IXGBE_MSRWD_READ_DATA_SHIFT))).
Definition ixgbe_write_phy_reg_mdi (reg_addr device_type phy_data : Z) : M Z :=
  _ ← IXGBE_WRITE_REG IXGBE_MSRWD phy_data;
  ok ← mdi_command (msca reg_addr device_type IXGBE_MSCA_ADDR_CYCLE);
  if negb ok then mret IXGBE_ERR_PHY
  else
    ok ← mdi_command (msca reg_addr device_type IXGBE_MSCA_WRITE);
    mret (if negb ok then IXGBE_ERR_PHY else 0).

Definition phy_gssr : M Z :=
  status ← IXGBE_READ_REG IXGBE_STATUS;
  mret (if truthy (Z.land status IXGBE_STATUS_LAN_ID_1) then IXGBE_GSSR_PHY1_SM else IXGBE_GSSR_PHY0_SM).
Definition ixgbe_read_phy_reg_generic (reg_addr device_type : Z) : M (Z * option Z) :=
  gssr ← phy_gssr;
  e ← ixgbe_acquire_swfw_sync gssr;
  if e =? 0 then
    r ← ixgbe_read_phy_reg_mdi reg_addr device_type;
    _ ← ixgbe_release_swfw_sync gssr;
    mret r
  else mret (IXGBE_ERR_SWFW_SYNC, None).
Definition ixgbe_write_phy_reg_generic (reg_addr device_type phy_data : Z) : M Z :=
  gssr ← phy_gssr;
  e ← ixgbe_acquire_swfw_sync gssr;
  if e =? 0 then
    r ← ixgbe_write_phy_reg_mdi reg_addr device_type phy_data;
    _ ← ixgbe_release_swfw_sync gssr;
    mret r
  else mret IXGBE_ERR_SWFW_SYNC.
End Phy.

(** ** The link *)

(** [for (i = 0; i < IXGBE_LINK_UP_TIME; i++)]: [*link_up] and the last value of LINKS. *)
Fixpoint wait_link (n : nat) (links_reg : Z) (link_up : bool) : M (bool * Z) :=
  match n with
  | O => mret (link_up, links_reg)
  | S n =>
      if truthy (Z.land links_reg IXGBE_LINKS_UP) then mret (true, links_reg)
      else links_reg ← IXGBE_READ_REG IXGBE_LINKS; wait_link n links_reg false
  end.
(** The speed and [*link_up], which starts as [link_up]. *)
Definition ixgbe_check_mac_link_generic (link_up link_up_wait_to_complete : bool) : M (Z * bool) :=
  links_orig ← IXGBE_READ_REG IXGBE_LINKS;
  links_reg ← IXGBE_READ_REG IXGBE_LINKS;
  r ← (if link_up_wait_to_complete then wait_link IXGBE_LINK_UP_TIME links_reg link_up
       else mret (truthy (Z.land links_reg IXGBE_LINKS_UP), links_reg));
  let '(link_up, links_reg) := r in
  let s := Z.land links_reg IXGBE_LINKS_SPEED_82599 in
  mret (if s =? IXGBE_LINKS_SPEED_10G_82599 then IXGBE_LINK_SPEED_10GB_FULL
        else if s =? IXGBE_LINKS_SPEED_1G_82599 then IXGBE_LINK_SPEED_1GB_FULL
        else if s =? IXGBE_LINKS_SPEED_100_82599 then IXGBE_LINK_SPEED_100_FULL
        else IXGBE_LINK_SPEED_UNKNOWN, link_up).

Section Link.
Context `{LinkInfo} `{EepromOps}.

Definition ixgbe_device_supports_autoneg_fc : M bool :=
  h ← get;
  match media_type h with
  | ixgbe_media_type_fiber =>
      r ← ixgbe_check_mac_link_generic false false;
      mret (if r.2 : bool then r.1 =? IXGBE_LINK_SPEED_1GB_FULL else true)
  | ixgbe_media_type_backplane => mret true
  | ixgbe_media_type_copper =>
      mret ((device_id =? IXGBE_DEV_ID_82599_T3_LOM) || (device_id =? IXGBE_DEV_ID_X540T) || (device_id =? IXGBE_DEV_ID_X540T1))
  | _ => mret false
  end.

Definition ixgbe_verify_lesm_fw_enabled_82599 : M bool :=
  r ← ee_read IXGBE_FW_PTR;
  match r with
  | (status, fw_offset) =>
      let fw_offset := default 0 fw_offset in
      if negb (status =? 0) || (fw_offset =? 0) || (fw_offset =? 0xFFFF) then mret false
      else
        r ← ee_read (u16 (fw_offset + IXGBE_FW_LESM_PARAMETERS_PTR));
        match r with
        | (status, param) =>
            let param := default 0 param in
            if negb (status =? 0) || (param =? 0) || (param =? 0xFFFF) then mret false
            else
              r ← ee_read (u16 (param + IXGBE_FW_LESM_STATE_1));
              mret ((r.1 =? 0) && truthy (Z.land (default 0 (r.2)) IXGBE_FW_LESM_STATE_ENABLED))
        end
  end.

Definition ixgbe_reset_pipeline_82599 : M Z :=
  autoc2_reg ← IXGBE_READ_REG IXGBE_AUTOC2;
  _ ← (if truthy (Z.land autoc2_reg IXGBE_AUTOC2_LINK_DISABLE_MASK) then
         _ ← IXGBE_WRITE_REG IXGBE_AUTOC2 (Z.ldiff autoc2_reg IXGBE_AUTOC2_LINK_DISABLE_MASK);
         IXGBE_WRITE_FLUSH
       else mret ());
  let autoc_reg := Z.lor cached_autoc IXGBE_AUTOC_AN_RESTART in
  _ ← IXGBE_WRITE_REG IXGBE_AUTOC (Z.lxor autoc_reg IXGBE_AUTOC_LMS_1G_AN);
  r ← poll_last 10 IXGBE_ANLP1 (fun a => truthy (Z.land a IXGBE_ANLP1_AN_STATE_MASK)) 0;
  let ret_val := if negb (truthy (Z.land r.1 IXGBE_ANLP1_AN_STATE_MASK)) then IXGBE_ERR_RESET_FAILED else 0 in
  _ ← IXGBE_WRITE_REG IXGBE_AUTOC autoc_reg;
  _ ← IXGBE_WRITE_FLUSH;
  mret ret_val.

(** ** Advertising *)

(** The pause bits for a mode in a register with the bits [sym] and [asm]. *)
Definition fc_advertise (mode : ixgbe_fc_mode) (sym asm reg : Z) : option Z :=
  match mode with
  | ixgbe_fc_none => Some (Z.ldiff reg (Z.lor sym asm))
  | ixgbe_fc_tx_pause => Some (Z.ldiff (Z.lor reg asm) sym)
  | ixgbe_fc_rx_pause | ixgbe_fc_full => Some (Z.lor reg (Z.lor sym asm))
  | _ => None
  end.

(** Writing AUTOC on a backplane. *)
Definition write_autoc (reg_bp : Z) : M Z :=
  h ← get;
  let reg_bp := Z.lor reg_bp IXGBE_AUTOC_AN_RESTART in
  lesm ← (if bool_decide (hw_mac h = ixgbe_mac_82599EB) then ixgbe_verify_lesm_fw_enabled_82599 else mret false);
  e ← (if lesm : bool then ixgbe_acquire_swfw_sync IXGBE_GSSR_MAC_CSR_SM else mret 0);
  if negb (e =? 0) then mret IXGBE_ERR_SWFW_SYNC
  else
    _ ← IXGBE_WRITE_REG IXGBE_AUTOC reg_bp;
    _ ← (if bool_decide (hw_mac h = ixgbe_mac_82599EB) then _ ← ixgbe_reset_pipeline_82599; mret () else mret ());
    _ ← (if lesm : bool then ixgbe_release_swfw_sync IXGBE_GSSR_MAC_CSR_SM else mret ());
    mret 0.

Definition is_media (t : ixgbe_media_type) (h : ixgbe_hw) : bool := bool_decide (media_type h = t).

Definition ixgbe_setup_fc : M Z :=
  h ← get;
  if strict_ieee (fc h) && bool_decide (requested_mode (fc h) = ixgbe_fc_rx_pause) then mret IXGBE_ERR_INVALID_LINK_SETTINGS
  else
    _ ← modify (fun h => if bool_decide (requested_mode (fc h) = ixgbe_fc_default) then set_fc (set_requested ixgbe_fc_full (fc h)) h else h);
    h ← get;
    regs ← (if is_media ixgbe_media_type_fiber h || is_media ixgbe_media_type_backplane h then
              reg ← IXGBE_READ_REG IXGBE_PCS1GANA;
              reg_bp ← IXGBE_READ_REG IXGBE_AUTOC;
              mret (reg, reg_bp, 0)
            else if is_media ixgbe_media_type_copper h then
              r ← ixgbe_read_phy_reg_generic IXGBE_MDIO_AUTO_NEG_ADVT IXGBE_MDIO_AUTO_NEG_DEV_TYPE;
              mret (0, 0, default 0 (r.2))
            else mret (0, 0, 0));
    let '(reg, reg_bp, reg_cu) := regs in
    let mode := requested_mode (fc h) in
    match fc_advertise mode IXGBE_PCS1GANA_SYM_PAUSE IXGBE_PCS1GANA_ASM_PAUSE reg,
          fc_advertise mode IXGBE_AUTOC_SYM_PAUSE IXGBE_AUTOC_ASM_PAUSE reg_bp,
          fc_advertise mode IXGBE_TAF_SYM_PAUSE IXGBE_TAF_ASM_PAUSE reg_cu with
    | Some reg, Some bp, Some cu =>
        let reg_bp := if is_media ixgbe_media_type_backplane h then bp else reg_bp in
        let reg_cu := if is_media ixgbe_media_type_copper h then cu else reg_cu in
        _ ← (if bool_decide (hw_mac h <> ixgbe_mac_X540) then
               _ ← IXGBE_WRITE_REG IXGBE_PCS1GANA reg;
               reg ← IXGBE_READ_REG IXGBE_PCS1GLCTL;
               IXGBE_WRITE_REG IXGBE_PCS1GLCTL (if strict_ieee (fc h) then Z.ldiff reg IXGBE_PCS1GLCTL_AN_1G_TIMEOUT_EN else reg)
             else mret ());
        if is_media ixgbe_media_type_backplane h then write_autoc reg_bp
        else if is_media ixgbe_media_type_copper h then
          supported ← ixgbe_device_supports_autoneg_fc;
          _ ← (if supported : bool then
                 _ ← ixgbe_write_phy_reg_generic IXGBE_MDIO_AUTO_NEG_ADVT IXGBE_MDIO_AUTO_NEG_DEV_TYPE reg_cu; mret ()
               else mret ());
          mret 0
        else mret 0
    | _, _, _ => mret IXGBE_ERR_CONFIG
    end.

(** ** Deciding *)

(** The mode that two advertisements give. *)
Definition resolve (requested : ixgbe_fc_mode) (adv_reg lp_reg adv_sym adv_asm lp_sym lp_asm : Z) : ixgbe_fc_mode :=
  if truthy (Z.land adv_reg adv_sym) && truthy (Z.land lp_reg lp_sym) then
    if bool_decide (requested = ixgbe_fc_full) then ixgbe_fc_full else ixgbe_fc_rx_pause
  else if negb (truthy (Z.land adv_reg adv_sym)) && truthy (Z.land adv_reg adv_asm) && truthy (Z.land lp_reg lp_sym) && truthy (Z.land lp_reg lp_asm)
  then ixgbe_fc_tx_pause
  else if truthy (Z.land adv_reg adv_sym) && truthy (Z.land adv_reg adv_asm) && negb (truthy (Z.land lp_reg lp_sym)) && truthy (Z.land lp_reg lp_asm)
  then ixgbe_fc_rx_pause
  else ixgbe_fc_none.
Definition set_current (mode : ixgbe_fc_mode) (f : fc_info) : fc_info := set_fc_result (fc_was_autonegged f) mode f.

Definition ixgbe_negotiate_fc (adv_reg lp_reg adv_sym adv_asm lp_sym lp_asm : Z) : M Z :=
  if negb (truthy adv_reg) || negb (truthy lp_reg) then mret IXGBE_ERR_FC_NOT_NEGOTIATED
  else
    _ ← modify (fun h => set_fc (set_current (resolve (requested_mode (fc h)) adv_reg lp_reg adv_sym adv_asm lp_sym lp_asm) (fc h)) h);
    mret 0.

Definition ixgbe_fc_autoneg_fiber : M Z :=
  linkstat ← IXGBE_READ_REG IXGBE_PCS1GLSTA;
  if negb (truthy (Z.land linkstat IXGBE_PCS1GLSTA_AN_COMPLETE)) || truthy (Z.land linkstat IXGBE_PCS1GLSTA_AN_TIMED_OUT)
  then mret IXGBE_ERR_FC_NOT_NEGOTIATED
  else
    pcs_anadv_reg ← IXGBE_READ_REG IXGBE_PCS1GANA;
    pcs_lpab_reg ← IXGBE_READ_REG IXGBE_PCS1GANLP;
    ixgbe_negotiate_fc pcs_anadv_reg pcs_lpab_reg IXGBE_PCS1GANA_SYM_PAUSE IXGBE_PCS1GANA_ASM_PAUSE IXGBE_PCS1GANA_SYM_PAUSE IXGBE_PCS1GANA_ASM_PAUSE.

Definition ixgbe_fc_autoneg_backplane : M Z :=
  links ← IXGBE_READ_REG IXGBE_LINKS;
  if Z.land links IXGBE_LINKS_KX_AN_COMP =? 0 then mret IXGBE_ERR_FC_NOT_NEGOTIATED
  else
    h ← get;
    enabled ← (if bool_decide (hw_mac h = ixgbe_mac_82599EB) then
                 links2 ← IXGBE_READ_REG IXGBE_LINKS2;
                 mret (negb (Z.land links2 IXGBE_LINKS2_AN_SUPPORTED =? 0))
               else mret true);
    if negb enabled then mret IXGBE_ERR_FC_NOT_NEGOTIATED
    else
      autoc_reg ← IXGBE_READ_REG IXGBE_AUTOC;
      anlp1_reg ← IXGBE_READ_REG IXGBE_ANLP1;
      ixgbe_negotiate_fc autoc_reg anlp1_reg IXGBE_AUTOC_SYM_PAUSE IXGBE_AUTOC_ASM_PAUSE IXGBE_ANLP1_SYM_PAUSE IXGBE_ANLP1_ASM_PAUSE.

Definition ixgbe_fc_autoneg_copper : M Z :=
  r ← ixgbe_read_phy_reg_generic IXGBE_MDIO_AUTO_NEG_ADVT IXGBE_MDIO_AUTO_NEG_DEV_TYPE;
  lp ← ixgbe_read_phy_reg_generic IXGBE_MDIO_AUTO_NEG_LP IXGBE_MDIO_AUTO_NEG_DEV_TYPE;
  ixgbe_negotiate_fc (default 0 r.2) (default 0 lp.2) IXGBE_TAF_SYM_PAUSE IXGBE_TAF_ASM_PAUSE IXGBE_TAF_SYM_PAUSE IXGBE_TAF_ASM_PAUSE.

Definition ixgbe_fc_autoneg : M () :=
  h ← get;
  ret_val ←
    (if disable_fc_autoneg (fc h) then mret IXGBE_ERR_FC_NOT_NEGOTIATED
     else
       r ← ixgbe_check_mac_link_generic false false;
       let '(speed, link_up) := r in
       if negb link_up then mret IXGBE_ERR_FC_NOT_NEGOTIATED
       else
         match media_type h with
         | ixgbe_media_type_fiber =>
             if speed =? IXGBE_LINK_SPEED_1GB_FULL then ixgbe_fc_autoneg_fiber else mret IXGBE_ERR_FC_NOT_NEGOTIATED
         | ixgbe_media_type_backplane => ixgbe_fc_autoneg_backplane
         | ixgbe_media_type_copper =>
             supported ← ixgbe_device_supports_autoneg_fc;
             if supported : bool then ixgbe_fc_autoneg_copper else mret IXGBE_ERR_FC_NOT_NEGOTIATED
         | _ => mret IXGBE_ERR_FC_NOT_NEGOTIATED
         end);
  modify (fun h =>
    set_fc (if ret_val =? 0 then set_fc_result true (current_mode (fc h)) (fc h)
            else set_fc_result false (requested_mode (fc h)) (fc h)) h).

(** ** Programming *)

(** [mode & ixgbe_fc_tx_pause] *)
Definition tx_bit (mode : ixgbe_fc_mode) : bool :=
  match mode with
  | ixgbe_fc_tx_pause | ixgbe_fc_full => true
  | ixgbe_fc_none | ixgbe_fc_rx_pause | ixgbe_fc_default => false
  | ixgbe_fc_other v => truthy (Z.land v 2)
  end.
(** Class [i] will send pause frames. *)
Definition class_pauses (f : fc_info) (i : Z) : bool := tx_bit (current_mode f) && truthy (high_water f i).
Definition marks_ok (f : fc_info) (i : Z) : bool := truthy (low_water f i) && negb (low_water f i >=? high_water f i).

(** The enables for a mode, from the registers with the old ones cleared. *)
Definition fc_enables (mode : ixgbe_fc_mode) (mflcn_reg fccfg_reg : Z) : option (Z * Z) :=
  match mode with
  | ixgbe_fc_none => Some (mflcn_reg, fccfg_reg)
  | ixgbe_fc_rx_pause => Some (Z.lor mflcn_reg IXGBE_MFLCN_RFCE, fccfg_reg)
  | ixgbe_fc_tx_pause => Some (mflcn_reg, Z.lor fccfg_reg IXGBE_FCCFG_TFCE_802_3X)
  | ixgbe_fc_full => Some (Z.lor mflcn_reg IXGBE_MFLCN_RFCE, Z.lor fccfg_reg IXGBE_FCCFG_TFCE_802_3X)
  | _ => None
  end.

(** The water marks of class [i]; [f] is [hw->fc]. *)
Definition write_marks (f : fc_info) (i : Z) : M () :=
  fcrth ← (if class_pauses f i then
             _ ← IXGBE_WRITE_REG (IXGBE_FCRTL_82599 i) (Z.lor (u32 (Z.shiftl (low_water f i) 10)) IXGBE_FCRTL_XONE);
             mret (Z.lor (u32 (Z.shiftl (high_water f i) 10)) IXGBE_FCRTH_FCEN)
           else
             _ ← IXGBE_WRITE_REG (IXGBE_FCRTL_82599 i) 0;
             size ← IXGBE_READ_REG (IXGBE_RXPBSIZE i);
             mret (u32 (size - 32)));
  IXGBE_WRITE_REG (IXGBE_FCRTH_82599 i) fcrth.

(** [ixgbe_fc_enable_generic] after the negotiation, with the settings [f] that it left. *)
Definition fc_program (f : fc_info) : M Z :=
  mflcn_reg ← IXGBE_READ_REG IXGBE_MFLCN;
  fccfg_reg ← IXGBE_READ_REG IXGBE_FCCFG;
  match fc_enables (current_mode f) (Z.ldiff mflcn_reg (Z.lor IXGBE_MFLCN_RPFCE_MASK IXGBE_MFLCN_RFCE))
          (Z.ldiff fccfg_reg (Z.lor IXGBE_FCCFG_TFCE_802_3X IXGBE_FCCFG_TFCE_PRIORITY)) with
  | None => mret IXGBE_ERR_CONFIG
  | Some (mflcn_reg, fccfg_reg) =>
      _ ← IXGBE_WRITE_REG IXGBE_MFLCN (Z.lor mflcn_reg IXGBE_MFLCN_DPF);
      _ ← IXGBE_WRITE_REG IXGBE_FCCFG fccfg_reg;
      _ ← for_each (seqZ 0 8) (write_marks f);
      let reg := u32 (pause_time f * 0x00010001) in
      _ ← for_each (seqZ 0 4) (fun i => IXGBE_WRITE_REG (IXGBE_FCTTV i) reg);
      _ ← IXGBE_WRITE_REG IXGBE_FCRTV (pause_time f / 2);
      mret 0
  end.

Definition ixgbe_fc_enable_generic : M Z :=
  h ← get;
  if negb (truthy (pause_time (fc h))) then mret IXGBE_ERR_INVALID_LINK_SETTINGS
  else if existsb (fun i => class_pauses (fc h) i && negb (marks_ok (fc h) i)) (seqZ 0 8) then mret IXGBE_ERR_INVALID_LINK_SETTINGS
  else
    _ ← ixgbe_fc_autoneg;
    h ← get;
    fc_program (fc h).
End Link.

(** ** Both ends agree *)
Definition rx_bit (mode : ixgbe_fc_mode) : bool := match mode with ixgbe_fc_rx_pause | ixgbe_fc_full => true | _ => false end.

(** The pause bits of an advertisement. *)
Lemma advertised_bits mode reg v :
  fc_advertise mode IXGBE_PCS1GANA_SYM_PAUSE IXGBE_PCS1GANA_ASM_PAUSE reg = Some v ->
  truthy (Z.land v IXGBE_PCS1GANA_SYM_PAUSE) = rx_bit mode /\ truthy (Z.land v IXGBE_PCS1GANA_ASM_PAUSE) = rx_bit mode || tx_bit mode.
Proof.
  change IXGBE_PCS1GANA_SYM_PAUSE with (Z.shiftl 1 7). change IXGBE_PCS1GANA_ASM_PAUSE with (Z.shiftl 1 8). rewrite !truthy_land_bit by lia.
  intros H. destruct mode; cbn [fc_advertise] in H; try done; injection H as <-; rewrite ?Z.ldiff_spec, ?Z.lor_spec, ?Z.ldiff_spec, ?Z.lor_spec; cbn;
    by rewrite ?andb_false_r, ?orb_true_r.
Qed.

(** Both ends of a link agree on pause frames.  Two adapters that advertise for the modes [r1] and [r2] each
    negotiate from both advertisements. One then sends pause frames exactly if it was asked to and the other was asked to
    honour them, and the other does honour them. *)
Theorem fc_agreement r1 r2 reg1 reg2 a1 a2 h1 h2 :
  let sym := IXGBE_PCS1GANA_SYM_PAUSE in
  let asm := IXGBE_PCS1GANA_ASM_PAUSE in
  fc_advertise r1 sym asm reg1 = Some a1 -> fc_advertise r2 sym asm reg2 = Some a2 -> a1 <> 0 -> a2 <> 0 ->
  requested_mode (fc h1) = r1 -> requested_mode (fc h2) = r2 ->
  let '(s1, h1') := ixgbe_negotiate_fc a1 a2 sym asm sym asm h1 in
  let '(s2, h2') := ixgbe_negotiate_fc a2 a1 sym asm sym asm h2 in
  let m1 := current_mode (fc h1') in
  let m2 := current_mode (fc h2') in
  s1 = 0 /\ s2 = 0 /\ tx_bit m1 = tx_bit r1 && rx_bit r2 /\ tx_bit m2 = tx_bit r2 && rx_bit r1 /\
  (tx_bit m1 = true -> rx_bit m2 = true) /\ (tx_bit m2 = true -> rx_bit m1 = true).
Proof.
  intros sym asm H1 H2 Ha1 Ha2 Hr1 Hr2. unfold ixgbe_negotiate_fc. unfold truthy at 1 2. rewrite (proj2 (Z.eqb_neq _ _) Ha1), (proj2 (Z.eqb_neq _ _) Ha2).
  unfold truthy at 1 2. rewrite (proj2 (Z.eqb_neq _ _) Ha1), (proj2 (Z.eqb_neq _ _) Ha2). cbn [negb orb].
  unfold mbind, M_bind, modify, mret, M_ret. cbn [fc set_fc set_current set_fc_result current_mode]. rewrite Hr1, Hr2. unfold resolve, sym, asm.
  destruct (advertised_bits _ _ _ H1) as [-> ->], (advertised_bits _ _ _ H2) as [-> ->].
  destruct r1; try done; destruct r2; try done; repeat split; done.
Qed.

Lemma fc_agreement_witness :
  let '(_, h1') := ixgbe_negotiate_fc 0x1A0 0x1A0 0x80 0x100 0x80 0x100 (hw_init ixgbe_mac_82599EB (fun _ _ => 0)) in
  tx_bit (current_mode (fc h1')) = true.
Proof.
  pose (h1 := hw_init ixgbe_mac_82599EB (fun _ _ => 0)). pose (h2 := set_fc (set_requested ixgbe_fc_rx_pause (fc h1)) h1).
  pose proof (fc_agreement ixgbe_fc_full ixgbe_fc_rx_pause 0x20 0x20 0x1A0 0x1A0 h1 h2 eq_refl eq_refl ltac:(done) ltac:(done) eq_refl eq_refl) as H.
  cbv zeta in H. fold h1. change IXGBE_PCS1GANA_SYM_PAUSE with 0x80 in H. change IXGBE_PCS1GANA_ASM_PAUSE with 0x100 in H.
  destruct (ixgbe_negotiate_fc 0x1A0 0x1A0 0x80 0x100 0x80 0x100 h1) as [s1 h1']. destruct (ixgbe_negotiate_fc _ _ _ _ _ _ h2) as [s2 h2'].
  exact (proj1 (proj2 (proj2 H))).
Defined.

(** ** The adapter is programmed for the mode *)
Section Program.
Context (f : fc_info).

Lemma write_marks_avoids r i : r <> IXGBE_FCRTL_82599 i -> r <> IXGBE_FCRTH_82599 i -> avoids (write_marks f i) r.
Proof.
  intros H1 H2. unfold write_marks. apply avoids_bind; [|intros v; by apply avoids_write, not_eq_sym].
  apply avoids_if; apply avoids_bind; try (by apply avoids_write, not_eq_sym); intros _; [apply avoids_ret|].
  apply avoids_bind; [apply avoids_read|intros v; apply avoids_ret].
Qed.

(** The registers written last, for a mode that [fc_enables] accepts. *)
Lemma program_tail r :
  (forall i, 0 <= i < 8 -> r <> IXGBE_FCRTL_82599 i /\ r <> IXGBE_FCRTH_82599 i) -> (forall i, 0 <= i < 4 -> r <> IXGBE_FCTTV i) -> r <> IXGBE_FCRTV ->
  avoids (_ ← for_each (seqZ 0 8) (write_marks f);
          _ ← for_each (seqZ 0 4) (fun i => IXGBE_WRITE_REG (IXGBE_FCTTV i) (u32 (pause_time f * 0x00010001)));
          _ ← IXGBE_WRITE_REG IXGBE_FCRTV (pause_time f / 2);
          mret 0) r.
Proof.
  intros H1 H2 H3. apply avoids_bind.
  - apply avoids_for_each. intros i Hi. apply list_elem_of_In, elem_of_seqZ in Hi. apply write_marks_avoids; apply H1; lia.
  - intros _. apply avoids_bind; [apply avoids_for_each; intros i Hi; apply list_elem_of_In, elem_of_seqZ in Hi; apply avoids_write, not_eq_sym, H2; lia|].
    intros _. apply avoids_bind; [by apply avoids_write, not_eq_sym|]. intros _. apply avoids_ret.
Qed.

Definition valid_mode (mode : ixgbe_fc_mode) : Prop := mode = ixgbe_fc_none \/ mode = ixgbe_fc_rx_pause \/ mode = ixgbe_fc_tx_pause \/ mode = ixgbe_fc_full.
Lemma fc_enables_spec mode a b : valid_mode mode ->
  fc_enables mode a b = Some (if rx_bit mode then Z.lor a IXGBE_MFLCN_RFCE else a, if tx_bit mode then Z.lor b IXGBE_FCCFG_TFCE_802_3X else b).
Proof. intros [->|[->|[->| ->]]]; done. Qed.

Lemma program_pause h : valid_mode (current_mode f) ->
  ends_with (fc_program f) h IXGBE_MFLCN (fun v => Z.testbit v 3 = rx_bit (current_mode f)) /\
  ends_with (fc_program f) h IXGBE_FCCFG (fun v => Z.testbit v 3 = tx_bit (current_mode f) /\ Z.testbit v 4 = false).
Proof.
  intros Hm. unfold fc_program. split; apply ends_read; intros h1 _; apply ends_read; intros h2 _; rewrite fc_enables_spec by done; cbv iota beta.
  - apply ends_now; [apply ends_write|].
    + rewrite Z.lor_spec. change (Z.testbit IXGBE_MFLCN_DPF 3) with false. rewrite orb_false_r.
      destruct (rx_bit _); rewrite ?Z.lor_spec, Z.ldiff_spec; cbn; by rewrite ?orb_true_r, ?andb_false_r.
    + intros _. apply avoids_bind; [by apply avoids_write|]. intros _. cbv zeta.
      apply program_tail; unfold IXGBE_FCRTL_82599, IXGBE_FCRTH_82599, IXGBE_FCTTV, IXGBE_MFLCN, IXGBE_FCRTV; lia.
  - apply ends_later. intros _ h3. apply ends_now; [apply ends_write|].
    + destruct (tx_bit _); rewrite ?Z.lor_spec, !Z.ldiff_spec; cbn; by rewrite ?orb_true_r, ?andb_false_r.
    + intros _. cbv zeta. apply program_tail; unfold IXGBE_FCRTL_82599, IXGBE_FCRTH_82599, IXGBE_FCTTV, IXGBE_FCCFG, IXGBE_FCRTV; lia.
Qed.
End Program.

(** *** The flow control settings during a run *)
Definition keeps_fc {B} (m : M B) : Prop := forall h, fc (m h).2 = fc h.
Lemma keeps_fc_ret {B} (b : B) : keeps_fc (mret b).
Proof. done. Qed.
Lemma keeps_fc_get : keeps_fc get.
Proof. done. Qed.
Lemma keeps_fc_bind {B D} (m : M B) (k : B -> M D) : keeps_fc m -> (forall b, keeps_fc (k b)) -> keeps_fc (b ← m; k b).
Proof. intros Hm Hk h. mrun. specialize (Hm h). destruct (m h) as [b h1]. by rewrite Hk. Qed.
Lemma keeps_fc_read r : keeps_fc (IXGBE_READ_REG r).
Proof. done. Qed.
Lemma keeps_fc_write r v : keeps_fc (IXGBE_WRITE_REG r v).
Proof. done. Qed.
Lemma keeps_fc_if {B} (b : bool) (m1 m2 : M B) : keeps_fc m1 -> keeps_fc m2 -> keeps_fc (if b then m1 else m2).
Proof. by destruct b. Qed.
Lemma keeps_fc_poll n r ok v : keeps_fc (poll_last n r ok v).
Proof.
  revert v. induction n as [|n IH]; intros v; cbn [poll_last]; [done|]. apply keeps_fc_bind; [done|]. intros w. apply keeps_fc_if; [done|apply IH].
Qed.
Lemma keeps_fc_for_each l body : (forall i, keeps_fc (body i)) -> keeps_fc (for_each l body).
Proof. intros H. induction l as [|i l IH]; cbn [for_each]; [done|]. by apply keeps_fc_bind. Qed.
Create HintDb fc discriminated.
#[export] Hint Resolve keeps_fc_ret keeps_fc_get keeps_fc_read keeps_fc_write keeps_fc_poll keeps_fc_for_each : fc.
Ltac keeps_fc :=
  lazymatch goal with
  | |- keeps_fc (mbind _ _) => apply keeps_fc_bind; [keeps_fc|intros; keeps_fc]
  | |- keeps_fc (if _ then _ else _) => apply keeps_fc_if; keeps_fc
  | |- keeps_fc (match ?x with _ => _ end) => destruct x; keeps_fc
  | |- keeps_fc _ => auto with fc
  | |- _ => idtac
  end.

Lemma keeps_fc_release_semaphore : keeps_fc ixgbe_release_eeprom_semaphore.
Proof. unfold ixgbe_release_eeprom_semaphore, IXGBE_WRITE_FLUSH. keeps_fc. Qed.
#[local] Hint Resolve keeps_fc_release_semaphore : fc.
Lemma keeps_fc_get_semaphore : keeps_fc ixgbe_get_eeprom_semaphore.
Proof.
  unfold ixgbe_get_eeprom_semaphore, poll_reg. generalize semaphore_timeout. intros n. keeps_fc.
  induction n as [|n IH]; cbn [get_swesmbi]; keeps_fc; apply IH.
Qed.
#[local] Hint Resolve keeps_fc_get_semaphore : fc.
Lemma keeps_fc_release_swfw mask : keeps_fc (ixgbe_release_swfw_sync mask).
Proof. unfold ixgbe_release_swfw_sync. keeps_fc. Qed.
#[local] Hint Resolve keeps_fc_release_swfw : fc.
Lemma keeps_fc_acquire_swfw mask : keeps_fc (ixgbe_acquire_swfw_sync mask).
Proof.
  unfold ixgbe_acquire_swfw_sync. generalize 200%nat (Z.lor (u32 (Z.shiftl mask 5)) mask) 0. intros n both gssr. keeps_fc.
  revert gssr. induction n as [|n IH]; intros gssr; cbn [swfw_loop]; keeps_fc; apply IH.
Qed.
#[local] Hint Resolve keeps_fc_acquire_swfw : fc.
Lemma keeps_fc_read_phy `{LinkInfo} a d : keeps_fc (ixgbe_read_phy_reg_generic a d).
Proof. unfold ixgbe_read_phy_reg_generic, ixgbe_read_phy_reg_mdi, phy_gssr, mdi_command. generalize IXGBE_MDIO_COMMAND_TIMEOUT. intros n. keeps_fc. Qed.
#[local] Hint Resolve keeps_fc_read_phy : fc.
Lemma keeps_fc_check_link u : keeps_fc (ixgbe_check_mac_link_generic u false).
Proof. unfold ixgbe_check_mac_link_generic. keeps_fc. Qed.
#[local] Hint Resolve keeps_fc_check_link : fc.

(** Negotiating leaves a mode that can be programmed, and the water marks. *)
Definition same_marks (f f' : fc_info) : Prop := high_water f' = high_water f /\ low_water f' = low_water f /\ pause_time f' = pause_time f.
Lemma resolve_valid r a b c d e g : valid_mode (resolve r a b c d e g).
Proof. unfold resolve, valid_mode. destruct (_ && _); [destruct (bool_decide _); auto|]. destruct (_ && _ && _ && _); [auto|]. destruct (_ && _ && _ && _); auto. Qed.
Lemma wlp_keeps_fc {B} (m : M B) h (Q : B -> ixgbe_hw -> Prop) : keeps_fc m -> (forall b h', fc h' = fc h -> Q b h') -> wlp m h Q.
Proof. intros Hm HQ. apply HQ, Hm. Qed.

Definition negotiated (f f' : fc_info) (status : Z) : Prop :=
  same_marks f f' /\ requested_mode f' = requested_mode f /\ (status = 0 -> valid_mode (current_mode f')).
Lemma not_negotiated f s : s <> 0 -> negotiated f f s.
Proof. done. Qed.
Lemma negotiate_spec a b c d e g h : wlp (ixgbe_negotiate_fc a b c d e g) h (fun s h' => negotiated (fc h) (fc h') s).
Proof.
  unfold ixgbe_negotiate_fc. destruct (_ || _); [by apply wlp_ret, not_negotiated|]. apply wlp_bind, wlp_modify, wlp_ret.
  split; [done|]. split; [done|]. intros _. apply resolve_valid.
Qed.

Lemma autoneg_spec `{LinkInfo} h : valid_mode (requested_mode (fc h)) ->
  wlp ixgbe_fc_autoneg h (fun _ h' => same_marks (fc h) (fc h') /\ valid_mode (current_mode (fc h'))).
Proof.
  intros Hr. unfold ixgbe_fc_autoneg. apply wlp_bind, wlp_get, wlp_bind.
  assert (Hfin : forall s h', negotiated (fc h) (fc h') s -> wlp (modify (fun h => set_fc (if s =? 0 then set_fc_result true (current_mode (fc h)) (fc h)
      else set_fc_result false (requested_mode (fc h)) (fc h)) h)) h' (fun _ h' => same_marks (fc h) (fc h') /\ valid_mode (current_mode (fc h')))).
  { intros s h' (Hs & Hq & Hv). apply wlp_modify. cbn [fc set_fc]. destruct (Z.eqb_spec s 0) as [->|]; cbn [current_mode set_fc_result].
    - split; [exact Hs|by apply Hv].
    - split; [exact Hs|by rewrite Hq]. }
  assert (Hneg : forall a b c d e g h1, fc h1 = fc h -> wlp (ixgbe_negotiate_fc a b c d e g) h1 (fun s h' => negotiated (fc h) (fc h') s)).
  { intros a b c d e g h1 H1. rewrite <- H1. apply negotiate_spec. }
  eapply wlp_mono; [|exact Hfin]. destruct (disable_fc_autoneg (fc h)); [by apply wlp_ret|].
  apply wlp_bind, wlp_keeps_fc; [apply keeps_fc_check_link|]. intros [speed up] h1 H1. cbv iota.
  assert (Hno : forall h1, fc h1 = fc h -> wlp (mret IXGBE_ERR_FC_NOT_NEGOTIATED) h1 (fun s h' => negotiated (fc h) (fc h') s)).
  { intros h2 H2. apply wlp_ret. rewrite H2. by apply not_negotiated. }
  destruct up; [cbn [negb]|by apply Hno]. destruct (media_type h); try by apply Hno.
  - destruct (_ =? _); [|by apply Hno]. unfold ixgbe_fc_autoneg_fiber. apply wlp_bind, wlp_read. destruct (_ || _); [by apply Hno|].
    apply wlp_bind, wlp_read, wlp_bind, wlp_read. by apply Hneg.
  - unfold ixgbe_fc_autoneg_copper. apply wlp_bind, wlp_keeps_fc; [unfold ixgbe_device_supports_autoneg_fc; keeps_fc|]. intros [] h2 H2; [|apply Hno; congruence].
    apply wlp_bind, wlp_keeps_fc; [apply keeps_fc_read_phy|]. intros r h3 H3. apply wlp_bind, wlp_keeps_fc; [apply keeps_fc_read_phy|]. intros r' h4 H4.
    apply Hneg. congruence.
  - unfold ixgbe_fc_autoneg_backplane. apply wlp_bind, wlp_read. destruct (_ =? _); [by apply Hno|]. apply wlp_bind, wlp_get, wlp_bind.
    apply wlp_keeps_fc; [keeps_fc|]. intros [] h3 H3; cbn [negb]; [|apply Hno; rewrite H3; exact H1].
    apply wlp_bind, wlp_read, wlp_bind, wlp_read. apply Hneg. exact (eq_trans H3 H1).
Qed.

(** *** The registers of a class *)
Definition fcrtl_of (f : fc_info) (i : Z) : Z := if class_pauses f i then Z.lor (u32 (Z.shiftl (low_water f i) 10)) IXGBE_FCRTL_XONE else 0.
Lemma program_marks f h i : valid_mode (current_mode f) -> 0 <= i < 8 ->
  ends (fc_program f) h (IXGBE_FCRTL_82599 i) (fcrtl_of f i) /\
  (class_pauses f i = true -> ends (fc_program f) h (IXGBE_FCRTH_82599 i) (Z.lor (u32 (Z.shiftl (high_water f i) 10)) IXGBE_FCRTH_FCEN)).
Proof.
  intros Hm Hi. assert (Hin : In i (seqZ 0 8)) by (apply list_elem_of_In, elem_of_seqZ; lia).
  assert (Htail : forall r, r = IXGBE_FCRTL_82599 i \/ r = IXGBE_FCRTH_82599 i ->
    avoids (_ ← for_each (seqZ 0 4) (fun i => IXGBE_WRITE_REG (IXGBE_FCTTV i) (u32 (pause_time f * 0x00010001)));
            _ ← IXGBE_WRITE_REG IXGBE_FCRTV (pause_time f / 2); mret 0) r).
  { intros r Hr. unfold IXGBE_FCRTL_82599, IXGBE_FCRTH_82599 in Hr. apply avoids_bind.
    - apply avoids_for_each. intros j Hj. apply list_elem_of_In, elem_of_seqZ in Hj. apply avoids_write. unfold IXGBE_FCTTV. lia.
    - intros _. apply avoids_bind; [apply avoids_write; unfold IXGBE_FCRTV; lia|]. intros _. apply avoids_ret. }
  assert (Hoth : forall r, r = IXGBE_FCRTL_82599 i \/ r = IXGBE_FCRTH_82599 i -> forall j, In j (seqZ 0 8) -> j <> i -> avoids (write_marks f j) r).
  { intros r Hr j Hj Hne. apply list_elem_of_In, elem_of_seqZ in Hj. apply write_marks_avoids; unfold IXGBE_FCRTL_82599, IXGBE_FCRTH_82599 in *; lia. }
  unfold fc_program. split; [|intros Hp]; apply ends_read; intros h1 _; apply ends_read; intros h2 _; rewrite fc_enables_spec by done; cbv iota beta;
    apply ends_later; intros _ h3; apply ends_later; intros _ h4; (apply ends_now; [|intros _; apply Htail; auto]);
    (apply (ends_for_each _ _ _ _ _ i Hin); [|apply Hoth; auto]); intros h5; unfold write_marks.
  - apply ends_now; [|intros v; apply avoids_write; unfold IXGBE_FCRTL_82599, IXGBE_FCRTH_82599; lia]. unfold fcrtl_of.
    destruct (class_pauses f i); (apply ends_now; [by apply ends_write|]); intros _; [apply avoids_ret|].
    apply avoids_bind; [apply avoids_read|]. intros v. apply avoids_ret.
  - rewrite Hp. refine (_ : wlp _ h5 (fun _ h' => last_write (tr h') (IXGBE_FCRTH_82599 i) = _)).
    apply wlp_bind, wlp_bind, wlp_write, wlp_ret, wlp_write. apply last_write_last.
Qed.
Lemma keeps_fc_program f : keeps_fc (fc_program f).
Proof. unfold fc_program. keeps_fc; apply keeps_fc_for_each; intros i; unfold write_marks; keeps_fc. Qed.
Lemma program_status f h : valid_mode (current_mode f) -> (fc_program f h).1 = 0.
Proof.
  intros Hm. apply wlp_fst. unfold fc_program. apply wlp_bind, wlp_read, wlp_bind, wlp_read. rewrite fc_enables_spec by done. cbv iota beta.
  apply wlp_bind, wlp_write, wlp_bind, wlp_write, wlp_bind. unfold wlp at 1. apply wlp_bind. unfold wlp at 1. by apply wlp_bind, wlp_write, wlp_ret.
Qed.

(** Flow control is programmed for the negotiated mode.  With a pause time, water marks that are in order and a mode to fall
    back on, [ixgbe_fc_enable_generic] succeeds; the adapter then honours pause frames exactly in
    the modes with Rx and sends them exactly in the modes with Tx, never by priority, and every class that sends
    them does so at its own water marks. *)
Theorem fc_enable_correct `{LinkInfo} h :
  pause_time (fc h) <> 0 -> (forall i, 0 <= i < 8 -> class_pauses (fc h) i = true -> marks_ok (fc h) i = true) -> valid_mode (requested_mode (fc h)) ->
  let '(r, h') := ixgbe_fc_enable_generic h in
  let mode := current_mode (fc h') in
  r = 0 /\ same_marks (fc h) (fc h') /\ valid_mode mode /\
  Z.testbit (last_write (tr h') IXGBE_MFLCN) 3 = rx_bit mode /\
  Z.testbit (last_write (tr h') IXGBE_FCCFG) 3 = tx_bit mode /\ Z.testbit (last_write (tr h') IXGBE_FCCFG) 4 = false /\
  forall i, 0 <= i < 8 ->
    last_write (tr h') (IXGBE_FCRTL_82599 i) = fcrtl_of (fc h') i /\
    (class_pauses (fc h') i = true -> last_write (tr h') (IXGBE_FCRTH_82599 i) = Z.lor (u32 (Z.shiftl (high_water (fc h) i) 10)) IXGBE_FCRTH_FCEN).
Proof.
  intros Hpt Hmarks Hreq. apply wlp_run. unfold ixgbe_fc_enable_generic. apply wlp_bind, wlp_get. unfold truthy at 1.
  rewrite (proj2 (Z.eqb_neq _ _) Hpt). cbn [negb]. rewrite (proj1 (not_true_iff_false (existsb _ _))).
  2:{ intros Hex. apply existsb_exists in Hex as (i & Hi & Hb). apply list_elem_of_In, elem_of_seqZ in Hi. apply andb_true_iff in Hb as [Hc Hb].
      by rewrite (Hmarks i ltac:(lia) Hc) in Hb. }
  apply wlp_bind. eapply wlp_mono; [by apply autoneg_spec|]. intros _ h1 (Hs & Hv). apply wlp_bind, wlp_get. set (f := fc h1) in *.
  assert (Hfc : fc (fc_program f h1).2 = f) by apply keeps_fc_program. unfold wlp. rewrite Hfc. split; [by apply program_status|]. split; [done|]. split; [done|].
  destruct (program_pause f h1 Hv) as [Hrx [Htx Hpr]]. split; [exact Hrx|]. split; [exact Htx|]. split; [exact Hpr|].
  intros i Hi. destruct (program_marks f h1 i Hv Hi) as [Hl Hhi]. split; [exact Hl|]. destruct Hs as (<- & _). exact Hhi.
Qed.

(** The water marks are checked for the wrong mode.  [ixgbe_fc_enable_generic] checks them in the mode of before
    the negotiation: when flow control was off and comes on, a class with a high but no low water mark is
    programmed to pause, although a low water mark of zero causes XOFF floods. *)
Theorem zero_mark_accepted `{LinkInfo} h :
  pause_time (fc h) <> 0 -> current_mode (fc h) = ixgbe_fc_none -> requested_mode (fc h) = ixgbe_fc_full -> disable_fc_autoneg (fc h) = true ->
  high_water (fc h) 0 <> 0 -> low_water (fc h) 0 = 0 ->
  let '(r, h') := ixgbe_fc_enable_generic h in
  r = 0 /\ last_write (tr h') (IXGBE_FCRTL_82599 0) = IXGBE_FCRTL_XONE /\
  last_write (tr h') (IXGBE_FCRTH_82599 0) = Z.lor (u32 (Z.shiftl (high_water (fc h) 0) 10)) IXGBE_FCRTH_FCEN.
Proof.
  intros Hpt Hcur Hreq Hdis Hhi Hlo. apply wlp_run. unfold ixgbe_fc_enable_generic. apply wlp_bind, wlp_get. unfold truthy at 1.
  rewrite (proj2 (Z.eqb_neq _ _) Hpt). cbn [negb]. rewrite (proj1 (not_true_iff_false (existsb _ _))).
  2:{ intros Hex. apply existsb_exists in Hex as (i & _ & Hb). unfold class_pauses in Hb. by rewrite Hcur in Hb. }
  apply wlp_bind. unfold ixgbe_fc_autoneg. apply wlp_bind, wlp_get. rewrite Hdis. apply wlp_bind, wlp_ret, wlp_modify.
  apply wlp_bind, wlp_get. set (f := fc _). assert (Hf : current_mode f = ixgbe_fc_full) by exact Hreq.
  assert (Hv : valid_mode (current_mode f)) by (right; right; right; exact Hf). set (h1 := set_fc _ h).
  assert (Hp : class_pauses f 0 = true) by (unfold class_pauses; rewrite Hf; apply negb_true_iff, Z.eqb_neq, Hhi).
  split; [by apply program_status|]. destruct (program_marks f h1 0 Hv ltac:(lia)) as [Hl Hh]. split; [|exact (Hh Hp)].
  unfold ends_with in Hl. rewrite Hl. unfold fcrtl_of. rewrite Hp. change (low_water f 0) with (low_water (fc h) 0). by rewrite Hlo.
Qed.

(** ** What a backplane adapter advertises *)
Lemma avoids_poll r n r' ok v : avoids (poll_last n r' ok v) r.
Proof. revert v. induction n as [|n IH]; intros v; cbn [poll_last]; [done|]. apply avoids_bind; [apply avoids_read|]. intros w. apply avoids_if; [apply avoids_ret|apply IH]. Qed.
Ltac avoid :=
  lazymatch goal with
  | |- avoids (mbind _ _) _ => apply avoids_bind; [avoid|intros; avoid]
  | |- avoids (if _ then _ else _) _ => apply avoids_if; avoid
  | |- avoids (mret _) _ => apply avoids_ret
  | |- avoids (IXGBE_READ_REG _) _ => apply avoids_read
  | |- avoids (IXGBE_WRITE_REG _ _) _ => apply avoids_write; by vm_compute
  | |- avoids (poll_last _ _ _ _) _ => apply avoids_poll
  | |- _ => idtac
  end.
Lemma avoids_release_semaphore : avoids ixgbe_release_eeprom_semaphore IXGBE_AUTOC.
Proof. unfold ixgbe_release_eeprom_semaphore, IXGBE_WRITE_FLUSH. avoid. Qed.
Lemma avoids_release_swfw mask : avoids (ixgbe_release_swfw_sync mask) IXGBE_AUTOC.
Proof.
  unfold ixgbe_release_swfw_sync, ixgbe_get_eeprom_semaphore, poll_reg. generalize semaphore_timeout. intros n. avoid; try apply avoids_release_semaphore.
  induction n as [|n IH]; cbn [get_swesmbi]; avoid. apply IH.
Qed.
Lemma reset_pipeline_autoc `{LinkInfo} h : ends ixgbe_reset_pipeline_82599 h IXGBE_AUTOC (Z.lor cached_autoc IXGBE_AUTOC_AN_RESTART).
Proof.
  unfold ixgbe_reset_pipeline_82599. apply ends_later. intros v h1. apply ends_later. intros _ h2. cbv zeta. apply ends_later. intros _ h3.
  apply ends_later. intros r h4. apply ends_now; [by apply ends_write|]. intros _. unfold IXGBE_WRITE_FLUSH. avoid.
Qed.

(** The advertised pause bits are lost on a backplane.  [ixgbe_setup_fc] writes them to AUTOC, but on the 82599 the
    reset of the pipeline that follows writes the cached value of AUTOC, so whatever mode was requested, the
    adapter ends up with the pause bits it had when AUTOC was cached. *)
Theorem backplane_advert_lost `{LinkInfo} `{EepromOps} h :
  hw_mac h = ixgbe_mac_82599EB -> media_type h = ixgbe_media_type_backplane ->
  let '(r, h') := ixgbe_setup_fc h in
  r = 0 -> last_write (tr h') IXGBE_AUTOC = Z.lor cached_autoc IXGBE_AUTOC_AN_RESTART.
Proof.
  intros Hmac Hmedia. apply wlp_run. unfold ixgbe_setup_fc. apply wlp_bind, wlp_get. destruct (_ && _); [by apply wlp_ret|].
  apply wlp_bind, wlp_modify, wlp_bind, wlp_get. set (h1 := if bool_decide _ then _ else _).
  assert (H1 : hw_mac h1 = ixgbe_mac_82599EB /\ media_type h1 = ixgbe_media_type_backplane) by (unfold h1; by destruct (bool_decide _)).
  destruct H1 as [Hmac1 Hmedia1]. clearbody h1. unfold is_media. rewrite Hmedia1. cbn [orb bool_decide].
  assert (Hb : bool_decide (ixgbe_media_type_backplane = ixgbe_media_type_backplane) = true) by by apply bool_decide_eq_true. rewrite !Hb.
  rewrite orb_true_r. apply wlp_bind, wlp_bind, wlp_read, wlp_bind, wlp_read, wlp_ret. cbv iota beta.
  destruct (fc_advertise _ _ _ _); [|by apply wlp_ret]. destruct (fc_advertise _ _ _ _); [|by apply wlp_ret].
  destruct (fc_advertise _ _ _ _); [|by apply wlp_ret]. rewrite Hmac1. apply wlp_bind. rewrite bool_decide_eq_true_2 by done.
  apply wlp_bind, wlp_write, wlp_bind, wlp_read, wlp_write. set (h2 := emit _ _). assert (Hmac2 : hw_mac h2 = ixgbe_mac_82599EB) by exact Hmac1. clearbody h2.
  unfold write_autoc. apply wlp_bind, wlp_get. rewrite Hmac2, bool_decide_eq_true_2 by done. apply wlp_bind. unfold wlp at 1.
  set (lesm := (ixgbe_verify_lesm_fw_enabled_82599 h2).1). clearbody lesm. apply wlp_bind. unfold wlp at 1. destruct (negb _); [by apply wlp_ret|].
  intros _. refine (_ : ends_with _ _ _ (fun v => v = _)). apply ends_later. intros _ h4. apply ends_now; [apply ends_now; [apply reset_pipeline_autoc|]|].
  - intros _. apply avoids_ret.
  - intros _. apply avoids_bind; [destruct lesm; [apply avoids_release_swfw|apply avoids_ret]|]. intros _. apply avoids_ret.
Qed.

(** *** Examples *)
Definition example_link : LinkInfo := {| device_id := IXGBE_DEV_ID_X540T; phy_addr := 0; cached_autoc := 0 |}.
(** Two classes with water marks of 80K and 40K; negotiation is off. *)
Definition example_fc (low : Z) : fc_info :=
  Fc (fun i => if i <? 2 then 80 else 0) (fun i => if i <? 2 then low else 0) 0x680 true false true false ixgbe_fc_none ixgbe_fc_full.
Definition fc_hw (low : Z) : ixgbe_hw := set_fc (example_fc low) (hw_init ixgbe_mac_82599EB (fun _ _ => 0)).

Lemma fc_enable_correct_witness :
  let '(r, h') := @ixgbe_fc_enable_generic example_link (fc_hw 40) in r = 0.
Proof.
  pose proof (@fc_enable_correct example_link (fc_hw 40) ltac:(done)) as H.
  destruct (@ixgbe_fc_enable_generic example_link (fc_hw 40)) as [r h']. apply H; [intros i Hi Hc; by vm_compute in Hc|right; right; right; done].
Defined.
Lemma zero_mark_accepted_witness :
  let '(r, h') := @ixgbe_fc_enable_generic example_link (fc_hw 0) in last_write (tr h') (IXGBE_FCRTL_82599 0) = IXGBE_FCRTL_XONE.
Proof.
  pose proof (@zero_mark_accepted example_link (fc_hw 0) ltac:(done) eq_refl eq_refl eq_refl ltac:(done) eq_refl) as H.
  destruct (@ixgbe_fc_enable_generic example_link (fc_hw 0)) as [r h']. apply H.
Defined.

(** A backplane adapter whose EEPROM has no firmware block. *)
Definition blank_eeprom : EepromOps := {| ee_read _ := mret (0, Some 0); ee_write _ _ := mret 0 |}.
Definition backplane_hw : ixgbe_hw :=
  let h := hw_init ixgbe_mac_82599EB (fun _ _ => 0) in
  Hw (hw_mac h) (ops h) (stats h) (timeout h) (mbx_udelay h) (v2p_mailbox h) (mbx_size h) (fc h) ixgbe_media_type_backplane (eeprom h) (mac h) (addr_ctrl h) (hw_dev h).
Lemma backplane_advert_lost_witness :
  last_write (tr (@ixgbe_setup_fc example_link blank_eeprom backplane_hw).2) IXGBE_AUTOC = IXGBE_AUTOC_AN_RESTART.
Proof.
  pose proof (@backplane_advert_lost example_link blank_eeprom backplane_hw eq_refl eq_refl) as H.
  destruct (@ixgbe_setup_fc example_link blank_eeprom backplane_hw) as [r h'] eqn:E. apply H. by vm_compute in E; injection E as <- _.
Defined.
