(* ===== verification/Sriov.v ===== *)
(** * Virtual functions ([ixgbe_sriov.c], with the receive mode of [ixgbe_main.c])

    A virtual function (VF) configures itself through messages to the physical function (PF). The code keeps
    one record per VF ([vfinfo]), a pool of extra address filters ([vf_mvs]), and shares the table of address
    filters and the VLAN tables with the PF. [SriovSpec] shows what a VF can and cannot reach.

    A computation runs on the adapter's record and on the hardware; [None] is an invalid memory access (an index
    outside [vfinfo], or the list of extra filters before it exists or after it has been freed). The kernel
    configuration is one with [CONFIG_PCI_IOV], [IFLA_VF_MAX], [HAVE_VF_SPOOFCHK_CONFIGURE], [HAVE_SET_RX_MODE] and
    hardware VLAN filters, without [HAVE_VLAN_RX_REGISTER] and [IXGBE_ENABLE_VF_MQ]. *)
From S2P Require Import Prelude Bits Hw Mailbox RegFile Vlan AddrFilter MacTable.

(** ** Constants *)
Definition IXGBE_VT_MSGTYPE_ACK : Z := 0x80000000.
Definition IXGBE_VT_MSGTYPE_NACK : Z := 0x40000000.
Definition IXGBE_VT_MSGTYPE_CTS : Z := 0x20000000.
Definition IXGBE_VT_MSGINFO_SHIFT : Z := 16.
Definition IXGBE_VT_MSGINFO_MASK : Z := Z.shiftl 0xFF IXGBE_VT_MSGINFO_SHIFT.
Definition IXGBE_VF_RESET : Z := 0x01.
Definition IXGBE_VF_SET_MAC_ADDR : Z := 0x02.
Definition IXGBE_VF_SET_MULTICAST : Z := 0x03.
Definition IXGBE_VF_SET_VLAN : Z := 0x04.
Definition IXGBE_VF_SET_LPE : Z := 0x05.
Definition IXGBE_VF_SET_MACVLAN : Z := 0x06.
Definition IXGBE_VF_API_NEGOTIATE : Z := 0x08.
Definition IXGBE_VF_GET_QUEUES : Z := 0x09.
Definition IXGBE_VF_TX_QUEUES : nat := 1.
Definition IXGBE_VF_RX_QUEUES : nat := 2.
Definition IXGBE_VF_TRANS_VLAN : nat := 3.
Definition IXGBE_VF_DEF_QUEUE : nat := 4.
Definition IXGBE_VF_PERMADDR_MSG_LEN : Z := 4.
Definition IXGBE_PF_CONTROL_MSG : Z := 0x0100.
Definition ixgbe_mbox_api_10 : Z := 0.
Definition ixgbe_mbox_api_20 : Z := 1.
Definition ixgbe_mbox_api_11 : Z := 2.
Definition IXGBE_MAX_PF_MACVLANS : Z := 15.
Definition IXGBE_MAX_VF_MC_ENTRIES : Z := 30.
Definition IXGBE_FLAG_VMDQ_ENABLED : Z := Z.shiftl 1 11.
Definition IXGBE_FLAG_SRIOV_ENABLED : Z := Z.shiftl 1 20.
Definition IXGBE_FLAG_SRIOV_REPLICATION_ENABLE : Z := Z.shiftl 1 21.
Definition IXGBE_FLAG_SRIOV_L2SWITCH_ENABLE : Z := Z.shiftl 1 22.
Definition IXGBE_FLAG2_RSC_CAPABLE : Z := Z.shiftl 1 0.
Definition IXGBE_FLAG2_RSC_ENABLED : Z := Z.shiftl 1 1.
Definition IXGBE_DCB_MAX_TRAFFIC_CLASS : Z := 8.
Definition IXGBE_PFDTXGSWC : Z := 0x08220.
Definition IXGBE_PFDTXGSWC_VT_LBEN : Z := 0x1.
Definition IXGBE_GCR_EXT : Z := 0x11050.
Definition IXGBE_GPIE : Z := 0x00898.
Definition IXGBE_GPIE_VTMODE_MASK : Z := 0x0000C000.
Definition IXGBE_VT_CTL_POOL_SHIFT : Z := 7.
Definition IXGBE_VT_CTL_POOL_MASK : Z := Z.shiftl 0x3F IXGBE_VT_CTL_POOL_SHIFT.
Definition IXGBE_VMOLR (i : Z) : Z := 0x0F000 + i * 4.
Definition IXGBE_VMOLR_AUPE : Z := 0x01000000.
Definition IXGBE_VMOLR_ROMPE : Z := 0x02000000.
Definition IXGBE_VMOLR_ROPE : Z := 0x04000000.
Definition IXGBE_VMOLR_BAM : Z := 0x08000000.
Definition IXGBE_VMOLR_MPE : Z := 0x10000000.
Definition IXGBE_VFRE (i : Z) : Z := 0x051E0 + i * 4.
Definition IXGBE_VFTE (i : Z) : Z := 0x08110 + i * 4.
Definition IXGBE_VMECM (i : Z) : Z := 0x08790 + i * 4.
Definition IXGBE_MAXFRS : Z := 0x04268.
Definition IXGBE_MHADD_MFS_MASK : Z := 0xFFFF0000.
Definition IXGBE_MHADD_MFS_SHIFT : Z := 16.
Definition IXGBE_VMVIR (i : Z) : Z := 0x08000 + i * 4.
Definition IXGBE_VMVIR_VLANA_DEFAULT : Z := 0x40000000.
Definition VLAN_PRIO_SHIFT : Z := 13.
Definition VLAN_VID_MASK : Z := 0x0fff.
Definition IXGBE_PVFTDWBAL (P : Z) : Z := 0x06038 + 0x40 * P.
Definition IXGBE_PVFTDWBAH (P : Z) : Z := 0x0603C + 0x40 * P.
Definition IXGBE_PVFTDWBALn (q_per_pool vf_number vf_q_index : Z) : Z := IXGBE_PVFTDWBAL (q_per_pool * vf_number + vf_q_index).
Definition IXGBE_PVFTDWBAHn (q_per_pool vf_number vf_q_index : Z) : Z := IXGBE_PVFTDWBAH (q_per_pool * vf_number + vf_q_index).
Definition IXGBE_VLVF_VLANID_MASK : Z := 0x00000FFF.
Definition IXGBE_MAX_JUMBO_FRAME_SIZE : Z := 9728.
Definition IXGBE_FCOE_JUMBO_FRAME_SIZE : Z := 3072.
Definition IXGBE_RTTDQSEL : Z := 0x04904.
Definition IXGBE_RTTBCNRM : Z := 0x04980.
Definition IXGBE_RTTBCNRC : Z := 0x04984.
Definition IXGBE_RTTBCNRC_RS_ENA : Z := 0x80000000.
Definition IXGBE_RTTBCNRC_RF_DEC_MASK : Z := 0x00003FFF.
Definition IXGBE_RTTBCNRC_RF_INT_SHIFT : Z := 14.
Definition IXGBE_RTTBCNRC_RF_INT_MASK : Z := Z.shiftl IXGBE_RTTBCNRC_RF_DEC_MASK IXGBE_RTTBCNRC_RF_INT_SHIFT.
Definition IXGBE_PFVFSPOOF (i : Z) : Z := 0x08200 + i * 4.
Definition IXGBE_PFVFSPOOF_REG_COUNT : Z := 8.
Definition IXGBE_SPOOF_MACAS_MASK : Z := 0xFF.
Definition IXGBE_SPOOF_VLANAS_SHIFT : Z := 8.
Definition IXGBE_VLNCTRL : Z := 0x05088.
Definition IXGBE_VLNCTRL_VFE : Z := 0x40000000.
Definition IXGBE_VLNCTRL_CFIEN : Z := 0x20000000.
Definition IXGBE_FCTRL_MPE : Z := 0x00000100.
Definition IXGBE_FCTRL_BAM : Z := 0x00000400.
Definition IXGBE_FCTRL_PMCF : Z := 0x00001000.
Definition IXGBE_FCTRL_DPF : Z := 0x00002000.
Definition IXGBE_LINK_SPEED_100_FULL : Z := 0x0008.
Definition IXGBE_LINK_SPEED_1GB_FULL : Z := 0x0020.
Definition IXGBE_LINK_SPEED_10GB_FULL : Z := 0x0080.
Definition ETH_HLEN : Z := 14.
Definition ETH_FRAME_LEN : Z := 1514.
Definition ETH_FCS_LEN : Z := 4.
Definition ENOSPC : Z := 28.

(** ** Data *)
Record vf_data_storage := VfData {
  vf_mac_addresses : list Z; vf_mc_hashes : list Z; num_vf_mc_hashes : Z; clear_to_send : bool; pf_set_mac : bool;
  pf_vlan : Z; pf_qos : Z; tx_rate : Z; vlan_count : Z; spoofchk_enabled : bool; vf_api : Z
}.
Definition set_vf_mac_addresses v d := VfData v (vf_mc_hashes d) (num_vf_mc_hashes d) (clear_to_send d) (pf_set_mac d) (pf_vlan d) (pf_qos d) (tx_rate d) (vlan_count d) (spoofchk_enabled d) (vf_api d).
Definition set_mc_hashes l n d := VfData (vf_mac_addresses d) l n (clear_to_send d) (pf_set_mac d) (pf_vlan d) (pf_qos d) (tx_rate d) (vlan_count d) (spoofchk_enabled d) (vf_api d).
Definition set_clear_to_send v d := VfData (vf_mac_addresses d) (vf_mc_hashes d) (num_vf_mc_hashes d) v (pf_set_mac d) (pf_vlan d) (pf_qos d) (tx_rate d) (vlan_count d) (spoofchk_enabled d) (vf_api d).
Definition set_pf_set_mac v d := VfData (vf_mac_addresses d) (vf_mc_hashes d) (num_vf_mc_hashes d) (clear_to_send d) v (pf_vlan d) (pf_qos d) (tx_rate d) (vlan_count d) (spoofchk_enabled d) (vf_api d).
Definition set_pf_vlan v q d := VfData (vf_mac_addresses d) (vf_mc_hashes d) (num_vf_mc_hashes d) (clear_to_send d) (pf_set_mac d) v q (tx_rate d) (vlan_count d) (spoofchk_enabled d) (vf_api d).
Definition set_tx_rate v d := VfData (vf_mac_addresses d) (vf_mc_hashes d) (num_vf_mc_hashes d) (clear_to_send d) (pf_set_mac d) (pf_vlan d) (pf_qos d) v (vlan_count d) (spoofchk_enabled d) (vf_api d).
Definition set_vlan_count v d := VfData (vf_mac_addresses d) (vf_mc_hashes d) (num_vf_mc_hashes d) (clear_to_send d) (pf_set_mac d) (pf_vlan d) (pf_qos d) (tx_rate d) v (spoofchk_enabled d) (vf_api d).
Definition set_spoofchk v d := VfData (vf_mac_addresses d) (vf_mc_hashes d) (num_vf_mc_hashes d) (clear_to_send d) (pf_set_mac d) (pf_vlan d) (pf_qos d) (tx_rate d) (vlan_count d) v (vf_api d).
Definition set_vf_api v d := VfData (vf_mac_addresses d) (vf_mc_hashes d) (num_vf_mc_hashes d) (clear_to_send d) (pf_set_mac d) (pf_vlan d) (pf_qos d) (tx_rate d) (vlan_count d) (spoofchk_enabled d) v.
(** A zeroed record. *)
Definition vf_data0 : vf_data_storage := VfData (repeat 0 6) (repeat 0 30) 0 false false 0 0 0 0 false ixgbe_mbox_api_10.

Record vf_macvlans := Macvlan { mv_vf : Z; mv_free : bool; is_macvlan : bool; vf_macvlan : list Z }.

(** The parts of [struct ixgbe_adapter] that change here. [vfinfo] is empty while the pointer is NULL; [vf_mvs] is
    [None] while the list of extra filters is not backed by memory. *)
Record sriov := Sriov {
  num_vfs : Z; vfinfo : list vf_data_storage; vf_mvs : option (list vf_macvlans); mac_table : list ixgbe_mac_addr;
  flags : Z; flags2 : Z; vmdq_limit : Z; vmdq_offset : Z; vmdq_mask : Z; rss_limit : Z; pg_tcs : Z; pfc_tcs : Z;
  vt_mode : bool; vf_rate_link_speed : Z
}.
Definition set_vfs n l s := Sriov n l (vf_mvs s) (mac_table s) (flags s) (flags2 s) (vmdq_limit s) (vmdq_offset s) (vmdq_mask s) (rss_limit s) (pg_tcs s) (pfc_tcs s) (vt_mode s) (vf_rate_link_speed s).
Definition set_vfinfo l s := set_vfs (num_vfs s) l s.
Definition set_vf_mvs l s := Sriov (num_vfs s) (vfinfo s) l (mac_table s) (flags s) (flags2 s) (vmdq_limit s) (vmdq_offset s) (vmdq_mask s) (rss_limit s) (pg_tcs s) (pfc_tcs s) (vt_mode s) (vf_rate_link_speed s).
Definition set_mac_table t s := Sriov (num_vfs s) (vfinfo s) (vf_mvs s) t (flags s) (flags2 s) (vmdq_limit s) (vmdq_offset s) (vmdq_mask s) (rss_limit s) (pg_tcs s) (pfc_tcs s) (vt_mode s) (vf_rate_link_speed s).
Definition set_flags f s := Sriov (num_vfs s) (vfinfo s) (vf_mvs s) (mac_table s) f (flags2 s) (vmdq_limit s) (vmdq_offset s) (vmdq_mask s) (rss_limit s) (pg_tcs s) (pfc_tcs s) (vt_mode s) (vf_rate_link_speed s).
Definition set_vmdq l o s := Sriov (num_vfs s) (vfinfo s) (vf_mvs s) (mac_table s) (flags s) (flags2 s) l o (vmdq_mask s) (rss_limit s) (pg_tcs s) (pfc_tcs s) (vt_mode s) (vf_rate_link_speed s).
Definition set_vmdq_mask m s := Sriov (num_vfs s) (vfinfo s) (vf_mvs s) (mac_table s) (flags s) (flags2 s) (vmdq_limit s) (vmdq_offset s) m (rss_limit s) (pg_tcs s) (pfc_tcs s) (vt_mode s) (vf_rate_link_speed s).
Definition set_rss_limit l s := Sriov (num_vfs s) (vfinfo s) (vf_mvs s) (mac_table s) (flags s) (flags2 s) (vmdq_limit s) (vmdq_offset s) (vmdq_mask s) l (pg_tcs s) (pfc_tcs s) (vt_mode s) (vf_rate_link_speed s).
Definition set_tcs_limit n s := Sriov (num_vfs s) (vfinfo s) (vf_mvs s) (mac_table s) (flags s) (flags2 s) (vmdq_limit s) (vmdq_offset s) (vmdq_mask s) (rss_limit s) n n (vt_mode s) (vf_rate_link_speed s).
Definition set_vt f2 rss tcs s := Sriov (num_vfs s) (vfinfo s) (vf_mvs s) (mac_table s) (flags s) f2 (vmdq_limit s) (vmdq_offset s) (vmdq_mask s) rss tcs tcs true (vf_rate_link_speed s).
Definition set_rate_speed v s := Sriov (num_vfs s) (vfinfo s) (vf_mvs s) (mac_table s) (flags s) (flags2 s) (vmdq_limit s) (vmdq_offset s) (vmdq_mask s) (rss_limit s) (pg_tcs s) (pfc_tcs s) (vt_mode s) v.

(** What the code reads of the network device and of the rest of the adapter's record. *)
Class Netdev := {
  mtu : Z; fcoe_mtu : bool; promisc : bool; allmulti : bool; running : bool; uc_addrs : list (list Z); mc_addrs : list (list Z);
  num_tc : Z; prio_tc_map : Z -> Z; default_up : Z; active_vlan : Z -> bool; link_speed : Z; link_up : bool
}.

(** ** The monad *)
Definition VM (A : Type) : Type := sriov -> M (option (A * sriov)).
#[export] Instance VM_ret : MRet VM := fun A a s => mret (Some (a, s)).
#[export] Instance VM_bind : MBind VM := fun A B k m s =>
  r ← m s; match r with Some (a, s') => k a s' | None => mret None end.
Definition lift {A} (m : M A) : VM A := fun s => a ← m; mret (Some (a, s)).
Definition vget : VM sriov := fun s => mret (Some (s, s)).
Definition vmodify (f : sriov -> sriov) : VM () := fun s => mret (Some ((), f s)).
Definition fault {A} : VM A := fun s => mret None.
Fixpoint vfor_each (l : list Z) (body : Z -> VM ()) : VM () :=
  match l with [] => mret () | i :: l => _ ← body i; vfor_each l body end.

(** [adapter->vfinfo[vf]], read and changed *)
Definition vf_read (vf : Z) : VM vf_data_storage :=
  s ← vget; match vfinfo s !! Z.to_nat vf with Some d => mret d | None => fault end.
Definition vf_update (vf : Z) (f : vf_data_storage -> vf_data_storage) : VM () :=
  d ← vf_read vf; vmodify (fun s => set_vfinfo (<[Z.to_nat vf := f d]> (vfinfo s)) s).
Definition with_table {A} (f : list ixgbe_mac_addr -> M (A * list ixgbe_mac_addr)) : VM A :=
  fun s => r ← f (mac_table s); mret (Some (r.1, set_mac_table r.2 s)).
Definition del_filter (addr : list Z) (queue : Z) : VM Z := with_table (ixgbe_del_mac_filter addr queue).
Definition add_filter (addr : list Z) (queue : Z) : VM Z := with_table (ixgbe_add_mac_filter addr queue).
Definition VMDQ_P (p : Z) (s : sriov) : Z := p + vmdq_offset s.

(** ** Anti-spoofing ([ixgbe_common.c]) *)
Definition ixgbe_set_mac_anti_spoofing (enable : bool) (pf : Z) : M () :=
  h ← get;
  if bool_decide (hw_mac h = ixgbe_mac_82598EB) then mret ()
  else
    let pf_target_reg := Z.shiftr pf 3 in
    let pf_target_shift := pf mod 8 in
    let pfvfspoof := if enable then IXGBE_SPOOF_MACAS_MASK else 0 in
    _ ← for_each (seqZ 0 pf_target_reg) (fun j => IXGBE_WRITE_REG (IXGBE_PFVFSPOOF j) pfvfspoof);
    _ ← IXGBE_WRITE_REG (IXGBE_PFVFSPOOF pf_target_reg) (Z.land pfvfspoof (Z.shiftl 1 pf_target_shift - 1));
    for_each (seqZ (pf_target_reg + 1) (IXGBE_PFVFSPOOF_REG_COUNT - (pf_target_reg + 1))) (fun j => IXGBE_WRITE_REG (IXGBE_PFVFSPOOF j) 0).
Definition ixgbe_set_vlan_anti_spoofing (enable : bool) (vf : Z) : M () :=
  h ← get;
  if bool_decide (hw_mac h = ixgbe_mac_82598EB) then mret ()
  else
    let bit := Z.shiftl 1 (vf mod 8 + IXGBE_SPOOF_VLANAS_SHIFT) in
    pfvfspoof ← IXGBE_READ_REG (IXGBE_PFVFSPOOF (Z.shiftr vf 3));
    IXGBE_WRITE_REG (IXGBE_PFVFSPOOF (Z.shiftr vf 3)) (if enable then Z.lor pfvfspoof bit else Z.ldiff pfvfspoof bit).

(** ** Multicast *)

(** Set the bit of a hash value in the multicast table. *)
Definition set_mta_bit (hash : Z) : M () :=
  let vector_reg := Z.land (Z.shiftr hash 5) 0x7F in
  let vector_bit := Z.land hash 0x1F in
  mta_reg ← IXGBE_READ_REG (IXGBE_MTA vector_reg);
  IXGBE_WRITE_REG (IXGBE_MTA vector_reg) (Z.lor mta_reg (Z.shiftl 1 vector_bit)).

(** The message buffer as an array of 16-bit values from word 1 on, and as bytes. *)
Definition word (msgbuf : list Z) (i : nat) : Z := nth i msgbuf 0.
(** A read past the end of the buffer is [None]. *)
Definition hash_list (msgbuf : list Z) (i : Z) : option Z := (fun w => u16 (Z.shiftr w (16 * (i mod 2)))) <$> (msgbuf !! Z.to_nat (1 + i / 2)).
Definition msg_mac (msgbuf : list Z) : list Z :=
  map (fun i => u8 (Z.shiftr (word msgbuf (Z.to_nat (1 + i / 4))) (8 * (i mod 4)))) (seqZ 0 6).
Definition msg_info (msgbuf : list Z) : Z := Z.shiftr (Z.land (word msgbuf 0) IXGBE_VT_MSGINFO_MASK) IXGBE_VT_MSGINFO_SHIFT.

(** [vfinfo->vf_mc_hashes[i]], read and written; the array ends with the list. *)
Definition mc_hash (vf i : Z) : VM Z := d ← vf_read vf; match vf_mc_hashes d !! Z.to_nat i with Some hash => mret hash | None => fault end.
Definition store_hash (msgbuf : list Z) (vf i : Z) : VM () :=
  d ← vf_read vf;
  match hash_list msgbuf i with
  | Some hash =>
      if i <? Z.of_nat (length (vf_mc_hashes d)) then vf_update vf (fun d => set_mc_hashes (<[Z.to_nat i := hash]> (vf_mc_hashes d)) (num_vf_mc_hashes d) d) else fault
  | None => fault
  end.
Definition ixgbe_set_vf_multicasts (msgbuf : list Z) (vf : Z) : VM Z :=
  vmolr ← lift (IXGBE_READ_REG (IXGBE_VMOLR vf));
  let entries := Z.min (msg_info msgbuf) IXGBE_MAX_VF_MC_ENTRIES in
  _ ← vf_update vf (fun d => set_mc_hashes (vf_mc_hashes d) entries d);
  _ ← vfor_each (seqZ 0 entries) (store_hash msgbuf vf);
  d ← vf_read vf;
  _ ← vfor_each (seqZ 0 (num_vf_mc_hashes d)) (fun i => hash ← mc_hash vf i; lift (set_mta_bit hash));
  _ ← lift (IXGBE_WRITE_REG (IXGBE_VMOLR vf) (Z.lor vmolr IXGBE_VMOLR_ROMPE));
  mret 0.

Definition restore_one (i : Z) : VM () :=
  vmolr ← lift (IXGBE_READ_REG (IXGBE_VMOLR i));
  d ← vf_read i;
  _ ← vfor_each (seqZ 0 (num_vf_mc_hashes d)) (fun j =>
        _ ← lift (modify (fun h => let a := addr_ctrl h in
              set_addr_ctrl (set_rar_counts (rar_used_count a) (u32 (mta_in_use a + 1)) (overflow_promisc a) a) h));
        hash ← mc_hash i j;
        lift (set_mta_bit hash));
  lift (IXGBE_WRITE_REG (IXGBE_VMOLR i)
    (if truthy (num_vf_mc_hashes d) then Z.lor vmolr IXGBE_VMOLR_ROMPE else Z.ldiff vmolr IXGBE_VMOLR_ROMPE)).
Definition ixgbe_restore_vf_multicasts : VM () :=
  s ← vget;
  _ ← vfor_each (seqZ 0 (num_vfs s)) restore_one;
  s ← vget;
  lift (ixgbe_full_sync_mac_table (mac_table s)).

(** ** The receive mode ([ixgbe_main.c]) *)
Section Device.
Context `{Netdev}.

(** [update_mc_addr_list] is always set on these adapters. *)
Definition ixgbe_write_mc_addr_list : VM Z :=
  if negb running then mret 0
  else
    _ ← lift (ixgbe_update_mc_addr_list_generic mc_addrs true);
    _ ← ixgbe_restore_vf_multicasts;
    mret (Z.of_nat (length mc_addrs)).

Definition set_user_promisc (b : bool) : M () :=
  modify (fun h => let a := addr_ctrl h in
    set_addr_ctrl (AddrCtrl (num_mc_addrs a) (rar_used_count a) (mta_in_use a) (overflow_promisc a) b) h).

Definition ixgbe_set_rx_mode : VM () :=
  let vmolr := Z.lor IXGBE_VMOLR_BAM IXGBE_VMOLR_AUPE in
  fctrl ← lift (IXGBE_READ_REG IXGBE_FCTRL);
  vlnctrl ← lift (IXGBE_READ_REG IXGBE_VLNCTRL);
  let fctrl := Z.lor (Z.lor (Z.lor fctrl IXGBE_FCTRL_BAM) IXGBE_FCTRL_DPF) IXGBE_FCTRL_PMCF in
  let fctrl := Z.ldiff fctrl (Z.lor IXGBE_FCTRL_UPE IXGBE_FCTRL_MPE) in
  let vlnctrl := Z.ldiff vlnctrl (Z.lor IXGBE_VLNCTRL_VFE IXGBE_VLNCTRL_CFIEN) in
  s ← vget;
  r ← (if promisc then
         _ ← lift (set_user_promisc true);
         mret (Z.lor fctrl (Z.lor IXGBE_FCTRL_UPE IXGBE_FCTRL_MPE), Z.lor vmolr IXGBE_VMOLR_MPE,
               if truthy (Z.land (flags s) (Z.lor IXGBE_FLAG_VMDQ_ENABLED IXGBE_FLAG_SRIOV_ENABLED))
               then Z.lor vlnctrl (Z.lor IXGBE_VLNCTRL_VFE IXGBE_VLNCTRL_CFIEN) else vlnctrl)
       else
         fv ← (if allmulti then mret (Z.lor fctrl IXGBE_FCTRL_MPE, Z.lor vmolr IXGBE_VMOLR_MPE)
               else
                 count ← ixgbe_write_mc_addr_list;
                 mret (if count <? 0 then (Z.lor fctrl IXGBE_FCTRL_MPE, Z.lor vmolr IXGBE_VMOLR_MPE)
                       else (fctrl, if truthy count then Z.lor vmolr IXGBE_VMOLR_ROMPE else vmolr)));
         _ ← lift (set_user_promisc false);
         mret (fv.1, fv.2, Z.lor vlnctrl IXGBE_VLNCTRL_VFE));
  let '(fctrl, vmolr, vlnctrl) := r in
  count ← with_table (ixgbe_write_uc_addr_list uc_addrs (VMDQ_P 0 s));
  let fctrl := if count <? 0 then Z.lor fctrl IXGBE_FCTRL_UPE else fctrl in
  let vmolr := if count <? 0 then Z.lor vmolr IXGBE_VMOLR_ROPE else vmolr in
  h ← lift get;
  _ ← (if bool_decide (hw_mac h <> ixgbe_mac_82598EB) then
         old ← lift (IXGBE_READ_REG (IXGBE_VMOLR (VMDQ_P 0 s)));
         lift (IXGBE_WRITE_REG (IXGBE_VMOLR (VMDQ_P 0 s))
           (Z.lor vmolr (Z.ldiff old (Z.lor (Z.lor IXGBE_VMOLR_MPE IXGBE_VMOLR_ROMPE) IXGBE_VMOLR_ROPE))))
       else mret ());
  _ ← lift (IXGBE_WRITE_REG IXGBE_VLNCTRL vlnctrl);
  lift (IXGBE_WRITE_REG IXGBE_FCTRL fctrl).

(** ** Settings of one VF *)
Definition ixgbe_set_vf_vlan (add : bool) (vid vf : Z) : M Z :=
  if (vid =? 0) && negb add then mret 0 else ixgbe_set_vfta_generic vid vf add.

Definition pf_max_frame : Z :=
  let f := mtu + ETH_HLEN in if fcoe_mtu then Z.max f IXGBE_FCOE_JUMBO_FRAME_SIZE else f.

(** [-EINVAL] where the VF cannot run with this frame size. *)
Definition lpe_error (api max_frame : Z) : Z :=
  if (api =? ixgbe_mbox_api_11) && (pf_max_frame >? ETH_FRAME_LEN) then 0
  else if (pf_max_frame >? ETH_FRAME_LEN) || (max_frame >? ETH_FRAME_LEN + ETH_FCS_LEN) then - EINVAL else 0.

Definition ixgbe_set_vf_lpe (max_frame vf : Z) : VM Z :=
  h ← lift get;
  err ← (if bool_decide (hw_mac h = ixgbe_mac_82599EB) then
           d ← vf_read vf;
           let err := lpe_error (vf_api d) max_frame in
           let bit := Z.shiftl 1 (vf mod 32) in
           vfre ← lift (IXGBE_READ_REG (IXGBE_VFRE (vf / 32)));
           _ ← lift (IXGBE_WRITE_REG (IXGBE_VFRE (vf / 32)) (if truthy err then Z.ldiff vfre bit else Z.lor vfre bit));
           mret err
         else mret 0);
  if truthy err then mret err
  else
    max_frs ← lift (IXGBE_READ_REG IXGBE_MAXFRS);
    let max_frs := Z.shiftr (Z.land max_frs IXGBE_MHADD_MFS_MASK) IXGBE_MHADD_MFS_SHIFT in
    _ ← lift (if max_frs <? max_frame then IXGBE_WRITE_REG IXGBE_MAXFRS (u32 (Z.shiftl max_frame IXGBE_MHADD_MFS_SHIFT)) else mret ());
    mret 0.

Definition ixgbe_set_vmolr (vf : Z) (aupe : bool) : M () :=
  vmolr ← IXGBE_READ_REG (IXGBE_VMOLR vf);
  let vmolr := Z.lor vmolr IXGBE_VMOLR_BAM in
  IXGBE_WRITE_REG (IXGBE_VMOLR vf) (if aupe then Z.lor vmolr IXGBE_VMOLR_AUPE else Z.ldiff vmolr IXGBE_VMOLR_AUPE).
Definition ixgbe_set_vmvir (vid qos vf : Z) : M () :=
  IXGBE_WRITE_REG (IXGBE_VMVIR vf) (Z.lor (Z.lor vid (Z.shiftl qos VLAN_PRIO_SHIFT)) IXGBE_VMVIR_VLANA_DEFAULT).
Definition ixgbe_clear_vmvir (vf : Z) : M () := IXGBE_WRITE_REG (IXGBE_VMVIR vf) 0.

Definition ixgbe_vf_reset_event (vf : Z) : VM () :=
  d ← vf_read vf;
  _ ← lift (ixgbe_set_vf_vlan true (pf_vlan d) vf);
  _ ← lift (ixgbe_set_vmolr vf (negb (truthy (pf_vlan d))));
  _ ← (if negb (truthy (pf_vlan d)) && negb (truthy (pf_qos d)) && negb (truthy num_tc) then lift (ixgbe_clear_vmvir vf)
       else
         _ ← lift (if truthy (pf_qos d) || negb (truthy num_tc) then ixgbe_set_vmvir (pf_vlan d) (pf_qos d) vf
                   else ixgbe_set_vmvir (pf_vlan d) (u16 default_up) vf);
         lift (if spoofchk_enabled d then ixgbe_set_vlan_anti_spoofing true vf else mret ()));
  _ ← vf_update vf (fun d => set_mc_hashes (vf_mc_hashes d) 0 d);
  _ ← ixgbe_set_rx_mode;
  d ← vf_read vf;
  _ ← del_filter (vf_mac_addresses d) vf;
  vf_update vf (set_vf_api ixgbe_mbox_api_10).

Definition ixgbe_set_vf_mac (vf : Z) (mac_addr : list Z) : VM Z :=
  d ← vf_read vf;
  _ ← del_filter (vf_mac_addresses d) vf;
  retval ← add_filter mac_addr vf;
  _ ← vf_update vf (set_vf_mac_addresses (if retval >=? 0 then mac_addr else repeat 0 6));
  mret retval.

Definition ixgbe_negotiate_vf_api (msgbuf : list Z) (vf : Z) : VM Z :=
  let api := s32 (word msgbuf 1) in
  if (api =? ixgbe_mbox_api_10) || (api =? ixgbe_mbox_api_11) then _ ← vf_update vf (set_vf_api api); mret 0
  else mret (-1).

(** [__ALIGN_MASK(1, ~mask)] *)
Definition queues_per_pool (mask : Z) : Z := Z.land (1 + Z.lnot mask) mask.

(** The return value and the message buffer. *)
Definition ixgbe_get_vf_queues (msgbuf : list Z) (vf : Z) : VM (Z * list Z) :=
  d ← vf_read vf;
  if (vf_api d =? ixgbe_mbox_api_20) || (vf_api d =? ixgbe_mbox_api_11) then
    s ← vget;
    let q := u32 (queues_per_pool (vmdq_mask s)) in
    let default_tc := if num_tc >? 1 then prio_tc_map default_up else 0 in
    let trans := if truthy num_tc then num_tc else if truthy (pf_vlan d) || truthy (pf_qos d) then 1 else 0 in
    mret (0, <[IXGBE_VF_DEF_QUEUE := default_tc]> (<[IXGBE_VF_TRANS_VLAN := trans]>
               (<[IXGBE_VF_RX_QUEUES := q]> (<[IXGBE_VF_TX_QUEUES := q]> msgbuf))))
  else mret (-1, msgbuf).

(** The entries that [vf] held, freed; each address is taken out of the table. *)
Fixpoint free_macvlans (vf : Z) (l : list vf_macvlans) : VM (list vf_macvlans) :=
  match l with
  | [] => mret []
  | e :: l =>
      e' ← (if mv_vf e =? vf then
              _ ← del_filter (vf_macvlan e) vf; mret (Macvlan (-1) true false (vf_macvlan e))
            else mret e);
      l' ← free_macvlans vf l;
      mret (e' :: l')
  end.
Fixpoint first_free (l : list vf_macvlans) : option nat :=
  match l with [] => None | e :: l => if mv_free e then Some O else S <$> first_free l end.

(** The list is walked only after it has been initialised. *)
Definition macvlan_list : VM (list vf_macvlans) := s ← vget; match vf_mvs s with Some l => mret l | None => fault end.

Definition ixgbe_set_vf_macvlan (vf index : Z) (mac_addr : list Z) : VM Z :=
  _ ← (if index <=? 1 then
         l ← macvlan_list;
         l ← free_macvlans vf l;
         vmodify (set_vf_mvs (Some l))
       else mret ());
  if index =? 0 then mret 0
  else
    l ← macvlan_list;
    match first_free l with
    | None => mret (- ENOSPC)
    | Some i =>
        retval ← add_filter mac_addr vf;
        _ ← (if retval >=? 0 then vmodify (set_vf_mvs (Some (<[i := Macvlan vf false true mac_addr]> l))) else mret ());
        mret retval
    end.

Definition ixgbe_vf_configuration (event_mask : Z) : VM Z :=
  let vfn := Z.land event_mask 0x3f in
  _ ← (if truthy (Z.land event_mask 0x10000000) then vf_update vfn (set_vf_mac_addresses (repeat 0 6)) else mret ());
  mret 0.

(** ** Messages *)
Definition is_valid_ether_addr (addr : list Z) : bool := negb (Z.odd (nth 0 addr 0)) && negb (is_zero_ether_addr addr).

(** The words 1 and 2 of a zeroed buffer after six bytes have been copied to word 1. *)
Definition mac_words (m : list Z) : list Z :=
  [nth 0 m 0 + nth 1 m 0 * 2 ^ 8 + nth 2 m 0 * 2 ^ 16 + nth 3 m 0 * 2 ^ 24; nth 4 m 0 + nth 5 m 0 * 2 ^ 8].

Definition ixgbe_vf_reset_msg (vf : Z) : VM Z :=
  _ ← ixgbe_vf_reset_event vf;
  d ← vf_read vf;
  _ ← (if negb (is_zero_ether_addr (vf_mac_addresses d)) then _ ← ixgbe_set_vf_mac vf (vf_mac_addresses d); mret () else mret ());
  let bit := Z.shiftl 1 (vf mod 32) in
  reg ← lift (IXGBE_READ_REG (IXGBE_VFTE (vf / 32)));
  _ ← lift (IXGBE_WRITE_REG (IXGBE_VFTE (vf / 32)) (Z.lor reg bit));
  reg ← lift (IXGBE_READ_REG (IXGBE_VFRE (vf / 32)));
  h ← lift get;
  let reg := Z.lor reg bit in
  let reg := if bool_decide (hw_mac h = ixgbe_mac_82599EB) && (pf_max_frame >? ETH_FRAME_LEN) then Z.ldiff reg bit else reg in
  _ ← lift (IXGBE_WRITE_REG (IXGBE_VFRE (vf / 32)) reg);
  _ ← vf_update vf (set_clear_to_send true);
  reg ← lift (IXGBE_READ_REG (IXGBE_VMECM (vf / 32)));
  _ ← lift (IXGBE_WRITE_REG (IXGBE_VMECM (vf / 32)) (Z.lor reg bit));
  _ ← lift (for_each (seqZ 0 2) (fun i =>
        _ ← IXGBE_WRITE_REG (IXGBE_PVFTDWBAHn 2 vf i) 0; IXGBE_WRITE_REG (IXGBE_PVFTDWBALn 2 vf i) 0));
  d ← vf_read vf;
  let mac := vf_mac_addresses d in
  h ← lift get;
  let msgbuf := if negb (is_zero_ether_addr mac) then Z.lor IXGBE_VF_RESET IXGBE_VT_MSGTYPE_ACK :: mac_words mac
                else [Z.lor IXGBE_VF_RESET IXGBE_VT_MSGTYPE_NACK; 0; 0] in
  _ ← lift (ixgbe_write_mbx (msgbuf ++ [u32 (mc_filter_type (Hw.mac h))]) IXGBE_VF_PERMADDR_MSG_LEN vf);
  mret 0.

Definition ixgbe_set_vf_mac_addr (msgbuf : list Z) (vf : Z) : VM Z :=
  let new_mac := msg_mac msgbuf in
  if negb (is_valid_ether_addr new_mac) then mret (-1)
  else
    d ← vf_read vf;
    if pf_set_mac d && negb (bool_decide (vf_mac_addresses d = new_mac)) then mret (-1)
    else r ← ixgbe_set_vf_mac vf new_mac; mret (if r <? 0 then 1 else 0).

Fixpoint find_entry_loop (n : nat) (vlan regindex : Z) : M Z :=
  match n with
  | O => mret regindex
  | S n =>
      vlvf ← IXGBE_READ_REG (IXGBE_VLVF regindex);
      if Z.land vlvf VLAN_VID_MASK =? vlan then mret regindex else find_entry_loop n vlan (regindex + 1)
  end.
Definition ixgbe_find_vlvf_entry (vlan : Z) : M Z :=
  if vlan =? 0 then mret 0
  else r ← find_entry_loop 63 vlan 1; mret (if r >=? IXGBE_VLVF_ENTRIES then -1 else r).

(** Leave the VLAN with the PF's pool too when only promiscuous mode had put it there. [IXGBE_VLVFB(i) + 1] is the
    source's expression. *)
Definition leave_vlan (vid : Z) : VM () :=
  reg_ndx ← lift (ixgbe_find_vlvf_entry vid);
  if reg_ndx <? 0 then mret ()
  else
    s ← vget;
    let pf := VMDQ_P 0 s in
    vlvf ← lift (IXGBE_READ_REG (IXGBE_VLVF reg_ndx));
    bits ← lift (if pf <? 32 then
                   bits ← IXGBE_READ_REG (IXGBE_VLVFB (reg_ndx * 2));
                   hi ← IXGBE_READ_REG (IXGBE_VLVFB (reg_ndx * 2) + 1);
                   mret (Z.lor (Z.ldiff bits (Z.shiftl 1 pf)) hi)
                 else
                   bits ← IXGBE_READ_REG (IXGBE_VLVFB (reg_ndx * 2) + 1);
                   lo ← IXGBE_READ_REG (IXGBE_VLVFB (reg_ndx * 2));
                   mret (Z.lor (Z.ldiff bits (Z.shiftl 1 (pf - 32))) lo));
    if (Z.land vlvf VLAN_VID_MASK =? vid) && negb (active_vlan vid) && negb (truthy bits) then
      _ ← lift (ixgbe_set_vf_vlan false vid pf); mret ()
    else mret ().

Definition ixgbe_set_vf_vlan_msg (msgbuf : list Z) (vf : Z) : VM Z :=
  let add := truthy (msg_info msgbuf) in
  let vid := Z.land (word msgbuf 1) IXGBE_VLVF_VLANID_MASK in
  d ← vf_read vf;
  if truthy (pf_vlan d) || truthy num_tc then mret (-1)
  else
    _ ← vf_update vf (fun d => if add then set_vlan_count (u16 (vlan_count d + 1)) d
                               else if truthy (vlan_count d) then set_vlan_count (u16 (vlan_count d - 1)) d else d);
    s ← vget;
    _ ← lift (if add && promisc then _ ← ixgbe_set_vf_vlan add vid (VMDQ_P 0 s); mret () else mret ());
    err ← lift (ixgbe_set_vf_vlan add vid vf);
    d ← vf_read vf;
    _ ← lift (if (err =? 0) && spoofchk_enabled d then ixgbe_set_vlan_anti_spoofing true vf else mret ());
    _ ← (if negb add && promisc then leave_vlan vid else mret ());
    mret err.

Definition ixgbe_ndo_set_vf_spoofchk (vf : Z) (setting : bool) : VM Z :=
  let reg := IXGBE_PFVFSPOOF (Z.shiftr vf 3) in
  let put (shift : Z) : M () :=
    regval ← IXGBE_READ_REG reg;
    IXGBE_WRITE_REG reg (Z.lor (Z.ldiff regval (Z.shiftl 1 shift)) (Z.shiftl (Z.b2z setting) shift)) in
  _ ← vf_update vf (set_spoofchk setting);
  _ ← lift (put (vf mod 8));
  d ← vf_read vf;
  _ ← lift (if truthy (vlan_count d) then put (vf mod 8 + IXGBE_SPOOF_VLANAS_SHIFT) else mret ());
  mret 0.

Definition ixgbe_set_vf_macvlan_msg (msgbuf : list Z) (vf : Z) : VM Z :=
  let new_mac := msg_mac msgbuf in
  let index := msg_info msgbuf in
  d ← vf_read vf;
  if pf_set_mac d && (index >? 0) then mret (-1)
  else if truthy index && negb (is_valid_ether_addr new_mac) then mret (-1)
  else
    _ ← (if truthy index && spoofchk_enabled d then _ ← ixgbe_ndo_set_vf_spoofchk vf false; mret () else mret ());
    err ← ixgbe_set_vf_macvlan vf index new_mac;
    mret (if err <? 0 then 1 else 0).

(** The handler of a request and the message buffer afterwards; [None]: return [-EINVAL] without an answer. *)
Definition handle_request (msgbuf : list Z) (vf : Z) : VM (option (Z * list Z)) :=
  let answered (m : VM Z) : VM (option (Z * list Z)) := r ← m; mret (Some (r, msgbuf)) in
  let ty := Z.land (word msgbuf 0) 0xFFFF in
  if ty =? IXGBE_VF_SET_MAC_ADDR then answered (ixgbe_set_vf_mac_addr msgbuf vf)
  else if ty =? IXGBE_VF_SET_MULTICAST then answered (ixgbe_set_vf_multicasts msgbuf vf)
  else if ty =? IXGBE_VF_SET_VLAN then answered (ixgbe_set_vf_vlan_msg msgbuf vf)
  else if ty =? IXGBE_VF_SET_LPE then
    if word msgbuf 1 >? IXGBE_MAX_JUMBO_FRAME_SIZE then mret None else answered (ixgbe_set_vf_lpe (word msgbuf 1) vf)
  else if ty =? IXGBE_VF_SET_MACVLAN then answered (ixgbe_set_vf_macvlan_msg msgbuf vf)
  else if ty =? IXGBE_VF_API_NEGOTIATE then answered (ixgbe_negotiate_vf_api msgbuf vf)
  else if ty =? IXGBE_VF_GET_QUEUES then r ← ixgbe_get_vf_queues msgbuf vf; mret (Some r)
  else mret (Some (IXGBE_ERR_MBX, msgbuf)).

(** The message buffer, an array of 16 words, once the words [got] have been read into it; [stack]: what the uninitialised buffer held before. *)
Definition message_buffer (stack got : list Z) : list Z :=
  map (fun i => match got !! i with Some w => w | None => nth i stack 0 end) (seq 0 (Z.to_nat IXGBE_VFMAILBOX_SIZE)).
Definition ixgbe_rcv_msg_from_vf (stack : list Z) (vf : Z) : VM Z :=
  r ← lift (ixgbe_read_mbx IXGBE_VFMAILBOX_SIZE vf);
  let retval := r.1 in
  let msgbuf := message_buffer stack r.2 in
  if truthy (Z.land (word msgbuf 0) (Z.lor IXGBE_VT_MSGTYPE_ACK IXGBE_VT_MSGTYPE_NACK)) then mret retval
  else if word msgbuf 0 =? IXGBE_VF_RESET then ixgbe_vf_reset_msg vf
  else
    d ← vf_read vf;
    if negb (clear_to_send d) then
      _ ← lift (ixgbe_write_mbx (<[O := Z.lor (word msgbuf 0) IXGBE_VT_MSGTYPE_NACK]> msgbuf) 1 vf);
      mret retval
    else
      r ← handle_request msgbuf vf;
      match r with
      | None => mret (- EINVAL)
      | Some (retval, msgbuf) =>
          let word0 := Z.lor (word msgbuf 0) (if truthy retval then IXGBE_VT_MSGTYPE_NACK else IXGBE_VT_MSGTYPE_ACK) in
          _ ← lift (ixgbe_write_mbx (<[O := Z.lor word0 IXGBE_VT_MSGTYPE_CTS]> msgbuf) IXGBE_VFMAILBOX_SIZE vf);
          mret retval
      end.

Definition ixgbe_rcv_ack_from_vf (vf : Z) : VM () :=
  d ← vf_read vf;
  lift (if negb (clear_to_send d) then _ ← ixgbe_write_mbx [IXGBE_VT_MSGTYPE_NACK] 1 vf; mret () else mret ()).

Definition msg_step (stack : Z -> list Z) (vf : Z) : VM () :=
  r ← lift (ixgbe_check_for_rst vf);
  _ ← (if negb (truthy r) then ixgbe_vf_reset_event vf else mret ());
  r ← lift (ixgbe_check_for_msg vf);
  _ ← (if negb (truthy r) then _ ← ixgbe_rcv_msg_from_vf (stack vf) vf; mret () else mret ());
  r ← lift (ixgbe_check_for_ack vf);
  if negb (truthy r) then ixgbe_rcv_ack_from_vf vf else mret ().
Definition ixgbe_msg_task (stack : Z -> list Z) : VM () := s ← vget; vfor_each (seqZ 0 (num_vfs s)) (msg_step stack).

Definition ixgbe_disable_tx_rx : M () :=
  _ ← IXGBE_WRITE_REG (IXGBE_VFTE 0) 0;
  _ ← IXGBE_WRITE_REG (IXGBE_VFTE 1) 0;
  _ ← IXGBE_WRITE_REG (IXGBE_VFRE 0) 0;
  IXGBE_WRITE_REG (IXGBE_VFRE 1) 0.
Definition ixgbe_ping_all_vfs : VM () :=
  s ← vget;
  vfor_each (seqZ 0 (num_vfs s)) (fun i =>
    d ← vf_read i;
    let ping := if clear_to_send d then Z.lor IXGBE_PF_CONTROL_MSG IXGBE_VT_MSGTYPE_CTS else IXGBE_PF_CONTROL_MSG in
    _ ← lift (ixgbe_write_mbx [ping] 1 i); mret ()).

(** ** The administrator's commands *)

(** [vf >= adapter->num_vfs], an unsigned comparison. *)
Definition no_such_vf (vf : Z) (s : sriov) : bool := u32 vf >=? num_vfs s.

Definition ixgbe_ndo_set_vf_mac (vf : Z) (mac : list Z) : VM Z :=
  s ← vget;
  if negb (is_valid_ether_addr mac) || no_such_vf vf s then mret (- EINVAL)
  else
    retval ← ixgbe_set_vf_mac vf mac;
    _ ← (if retval >=? 0 then vf_update vf (set_pf_set_mac true) else mret ());
    mret retval.

Definition ixgbe_enable_port_vlan (vf vlan qos : Z) : VM Z :=
  err ← lift (ixgbe_set_vf_vlan true vlan vf);
  if truthy err then mret err
  else
    _ ← lift (ixgbe_set_vmvir vlan qos vf);
    _ ← lift (ixgbe_set_vmolr vf false);
    d ← vf_read vf;
    _ ← lift (if spoofchk_enabled d then ixgbe_set_vlan_anti_spoofing true vf else mret ());
    _ ← vf_update vf (fun d => set_pf_vlan vlan qos (set_vlan_count (u16 (vlan_count d + 1)) d));
    mret err.
Definition ixgbe_disable_port_vlan (vf : Z) : VM Z :=
  d ← vf_read vf;
  err ← lift (ixgbe_set_vf_vlan false (pf_vlan d) vf);
  _ ← lift (ixgbe_clear_vmvir vf);
  _ ← lift (ixgbe_set_vmolr vf true);
  _ ← lift (ixgbe_set_vlan_anti_spoofing false vf);
  _ ← vf_update vf (fun d => set_pf_vlan 0 0 (if truthy (vlan_count d) then set_vlan_count (u16 (vlan_count d - 1)) d else d));
  mret err.
Definition ixgbe_ndo_set_vf_vlan (vf vlan qos : Z) : VM Z :=
  s ← vget;
  if no_such_vf vf s || (vlan >? VLAN_VID_MASK - 1) || (qos >? 7) then mret (- EINVAL)
  else if truthy vlan || truthy qos then
    d ← vf_read vf;
    err ← (if truthy (pf_vlan d) then ixgbe_disable_port_vlan vf else mret 0);
    if truthy err then mret err else ixgbe_enable_port_vlan vf vlan qos
  else ixgbe_disable_port_vlan vf.

Definition ixgbe_link_mbps : Z :=
  if link_speed =? IXGBE_LINK_SPEED_100_FULL then 100
  else if link_speed =? IXGBE_LINK_SPEED_1GB_FULL then 1000
  else if link_speed =? IXGBE_LINK_SPEED_10GB_FULL then 10000
  else 0.

(** The value of RTTBCNRC for a rate. *)
Definition rate_factor (speed rate : Z) : Z :=
  if truthy rate then
    let bcnrc_val := u32 (Z.shiftl (u32 speed) IXGBE_RTTBCNRC_RF_INT_SHIFT) / rate in
    Z.lor (Z.land bcnrc_val (Z.lor IXGBE_RTTBCNRC_RF_INT_MASK IXGBE_RTTBCNRC_RF_DEC_MASK)) IXGBE_RTTBCNRC_RS_ENA
  else 0.
Definition ixgbe_set_vf_rate_limit (vf : Z) : VM () :=
  d ← vf_read vf;
  s ← vget;
  let bcnrc_val := rate_factor (vf_rate_link_speed s) (tx_rate d) in
  h ← lift get;
  _ ← lift match hw_mac h with
           | ixgbe_mac_82599EB => IXGBE_WRITE_REG IXGBE_RTTBCNRM 0x4
           | ixgbe_mac_X540 => IXGBE_WRITE_REG IXGBE_RTTBCNRM 0x14
           | _ => mret ()
           end;
  let q := u16 (queues_per_pool (vmdq_mask s)) in
  lift (for_each (seqZ 0 q) (fun queue =>
    _ ← IXGBE_WRITE_REG IXGBE_RTTDQSEL (u32 (vf * q + queue)); IXGBE_WRITE_REG IXGBE_RTTBCNRC bcnrc_val)).
Definition ixgbe_check_vf_rate_limit : VM () :=
  s ← vget;
  if negb (truthy (vf_rate_link_speed s)) then mret ()
  else
    _ ← (if negb (ixgbe_link_mbps =? vf_rate_link_speed s) then vmodify (set_rate_speed 0) else mret ());
    vfor_each (seqZ 0 (num_vfs s)) (fun i =>
      s ← vget;
      _ ← (if negb (truthy (vf_rate_link_speed s)) then vf_update i (set_tx_rate 0) else mret ());
      ixgbe_set_vf_rate_limit i).
Definition ixgbe_ndo_set_vf_bw (vf rate : Z) : VM Z :=
  s ← vget;
  if no_such_vf vf s then mret (- EINVAL)
  else if negb link_up then mret (- EINVAL)
  else if negb (ixgbe_link_mbps =? 10000) then mret (- EINVAL)
  else if truthy rate && ((rate <=? 10) || (rate >? ixgbe_link_mbps)) then mret (- EINVAL)
  else
    _ ← vmodify (set_rate_speed ixgbe_link_mbps);
    _ ← vf_update vf (set_tx_rate (u16 rate));
    _ ← ixgbe_set_vf_rate_limit vf;
    mret 0.

(** The address, rate, VLAN, priority and spoof checking of a VF. *)
Definition ixgbe_ndo_get_vf_config (vf : Z) : VM (Z + (list Z * Z * Z * Z * bool)) :=
  s ← vget;
  if no_such_vf vf s then mret (inl (- EINVAL))
  else d ← vf_read vf; mret (inr (vf_mac_addresses d, tx_rate d, pf_vlan d, pf_qos d, spoofchk_enabled d)).

(** ** Switching SR-IOV on and off

    [pci_vfs_assigned], [pci_num_vf], [pci_enable_sriov] and the allocations are the kernel's; their results are arguments. *)
Definition ixgbe_disable_sriov (pci_vfs_assigned : bool) : VM () :=
  s ← vget;
  if negb (truthy (Z.land (flags s) IXGBE_FLAG_SRIOV_ENABLED)) then mret ()
  else
    _ ← vmodify (fun s => set_vf_mvs None (set_vfs 0 [] s));
    if pci_vfs_assigned then mret ()
    else
      _ ← lift (IXGBE_WRITE_REG IXGBE_GCR_EXT 0);
      gpie ← lift (IXGBE_READ_REG IXGBE_GPIE);
      _ ← lift (IXGBE_WRITE_REG IXGBE_GPIE (Z.ldiff gpie IXGBE_GPIE_VTMODE_MASK));
      vmdctl ← lift (IXGBE_READ_REG IXGBE_VT_CTL);
      _ ← lift (IXGBE_WRITE_REG IXGBE_VT_CTL (Z.ldiff vmdctl IXGBE_VT_CTL_POOL_MASK));
      _ ← lift IXGBE_WRITE_FLUSH;
      vmodify (fun s =>
        let f := if vmdq_limit s =? 1 then Z.ldiff (flags s) IXGBE_FLAG_VMDQ_ENABLED else flags s in
        set_flags (Z.ldiff f IXGBE_FLAG_SRIOV_ENABLED) (set_vmdq (vmdq_limit s) 0 s)).

(** Traffic classes available with [n] VFs. *)
Definition tcs_for (mac : mac_type) (n : Z) : Z :=
  if bool_decide (mac = ixgbe_mac_82599EB) && (n <? 16) then IXGBE_DCB_MAX_TRAFFIC_CLASS else if n <? 32 then 4 else 1.

Definition ixgbe_enable_sriov (pci_num_vf : Z) (pci_enable_sriov : Z -> Z) (mv_alloc vf_alloc pci_vfs_assigned : bool) : VM () :=
  s ← vget;
  if negb (truthy pci_num_vf) && negb (truthy (num_vfs s)) then mret ()
  else
    let n := if truthy pci_num_vf then pci_num_vf else Z.min (num_vfs s) 63 in
    if negb (truthy pci_num_vf) && truthy (pci_enable_sriov n) then vmodify (fun s => set_vfs 0 (vfinfo s) s)
    else
      h ← lift get;
      _ ← vmodify (fun s =>
            set_vmdq (if truthy (vmdq_limit s) then vmdq_limit s else 1) (u16 n)
              (set_flags (Z.lor (Z.lor (flags s) IXGBE_FLAG_SRIOV_ENABLED) IXGBE_FLAG_VMDQ_ENABLED) (set_vfs n (vfinfo s) s)));
      let num_vf_macvlans := s32 (num_rar_entries (Hw.mac h) - (IXGBE_MAX_PF_MACVLANS + 1 + n)) in
      _ ← (if mv_alloc then vmodify (set_vf_mvs (Some (repeat (Macvlan (-1) true false (repeat 0 6)) (Z.to_nat num_vf_macvlans))))
           else mret ());
      _ ← lift (IXGBE_WRITE_REG IXGBE_PFDTXGSWC IXGBE_PFDTXGSWC_VT_LBEN);
      if vf_alloc then
        vmodify (fun s =>
          set_vt (Z.ldiff (flags2 s) (Z.lor IXGBE_FLAG2_RSC_CAPABLE IXGBE_FLAG2_RSC_ENABLED)) 1 (tcs_for (hw_mac h) n)
            (set_flags (Z.lor (flags s) (Z.lor IXGBE_FLAG_SRIOV_L2SWITCH_ENABLE IXGBE_FLAG_SRIOV_REPLICATION_ENABLE))
              (set_vfinfo (repeat (set_spoofchk true vf_data0) (Z.to_nat n)) s)))
      else
        _ ← vmodify (set_vfinfo []);
        ixgbe_disable_sriov pci_vfs_assigned.
End Device.
