(* ===== verification/SriovSpec.v ===== *)
(** * What virtual functions can reach

    The messages of a VF are untrusted: their contents, and every register the code reads, are arbitrary here. Handling
    them never accesses memory outside the VF's records, changes no other VF's settings or address filters, and
    cannot replace an address that the administrator has set. *)
From S2P Require Import Prelude Bits Hw Mailbox RegFile Vlan AddrFilter MacTable Sriov.

(** ** Postconditions

    [vwp m s Q]: whatever the hardware does, [m] run from [s] makes no invalid access and ends with a result and an
    adapter that satisfy [Q]. *)
Definition vwp {A} (m : VM A) (s : sriov) (Q : A -> sriov -> Prop) : Prop :=
  forall h, match (m s h).1 with Some (a, s') => Q a s' | None => False end.

Section Rules.
Context {A B : Type}.
Implicit Types (m : VM A) (s : sriov).

Lemma vwp_mono m s (P Q : A -> sriov -> Prop) : vwp m s P -> (forall a s', P a s' -> Q a s') -> vwp m s Q.
Proof. intros Hm HPQ h. specialize (Hm h). destruct ((m s h).1) as [[a s']|]; auto. Qed.
Lemma vwp_ret (a : A) s (Q : A -> sriov -> Prop) : Q a s -> vwp (mret a) s Q.
Proof. by intros HQ h. Qed.
Lemma vwp_bind m (k : A -> VM B) s Q : vwp m s (fun a s' => vwp (k a) s' Q) -> vwp (a ← m; k a) s Q.
Proof.
  intros Hm h. specialize (Hm h). unfold mbind, VM_bind. unfold mbind, M_bind. destruct (m s h) as [[[a s']|] h']; [|done].
  exact (Hm h').
Qed.
Lemma vwp_lift (m : M A) s (Q : A -> sriov -> Prop) : (forall a, Q a s) -> vwp (lift m) s Q.
Proof. intros HQ h. unfold lift, mbind, M_bind. destruct (m h) as [a h']. apply HQ. Qed.
Lemma vwp_table (f : list ixgbe_mac_addr -> M (A * list ixgbe_mac_addr)) s (Q : A -> sriov -> Prop) :
  (forall h, Q (f (mac_table s) h).1.1 (set_mac_table (f (mac_table s) h).1.2 s)) -> vwp (with_table f) s Q.
Proof. intros HQ h. specialize (HQ h). unfold with_table, mbind, M_bind. by destruct (f (mac_table s) h) as [[a t] h']. Qed.
End Rules.

Lemma vwp_get s (Q : sriov -> sriov -> Prop) : Q s s -> vwp vget s Q.
Proof. by intros HQ h. Qed.
Lemma vwp_modify f s (Q : () -> sriov -> Prop) : Q () (f s) -> vwp (vmodify f) s Q.
Proof. by intros HQ h. Qed.
Lemma vwp_read vf s d (Q : vf_data_storage -> sriov -> Prop) : vfinfo s !! Z.to_nat vf = Some d -> Q d s -> vwp (vf_read vf) s Q.
Proof. intros Hd HQ. apply vwp_bind, vwp_get. rewrite Hd. by apply vwp_ret. Qed.
Lemma vwp_update vf f s d (Q : () -> sriov -> Prop) :
  vfinfo s !! Z.to_nat vf = Some d -> Q () (set_vfinfo (<[Z.to_nat vf := f d]> (vfinfo s)) s) -> vwp (vf_update vf f) s Q.
Proof. intros Hd HQ. by eapply vwp_bind, vwp_read, vwp_modify. Qed.

(** [keeps_inv I m]: [m] keeps [I]. *)
Definition keeps_inv {A} (I : sriov -> Prop) (m : VM A) : Prop := forall s, I s -> vwp m s (fun _ s' => I s').

Section Keeps.
Context (I : sriov -> Prop) {A B : Type}.
Lemma ki_ret (a : A) : keeps_inv I (mret a).
Proof. intros s Hs. by apply vwp_ret. Qed.
Lemma ki_bind (m : VM A) (k : A -> VM B) : keeps_inv I m -> (forall a, keeps_inv I (k a)) -> keeps_inv I (a ← m; k a).
Proof. intros Hm Hk s Hs. apply vwp_bind. eapply vwp_mono; [by apply Hm|]. intros a s' Hs'. by apply Hk. Qed.
Lemma ki_lift (m : M A) : keeps_inv I (lift m).
Proof. intros s Hs. by apply vwp_lift. Qed.
Lemma ki_get : keeps_inv I vget.
Proof. intros s Hs. by apply vwp_get. Qed.
Lemma ki_if (b : bool) (m1 m2 : VM A) : keeps_inv I m1 -> keeps_inv I m2 -> keeps_inv I (if b then m1 else m2).
Proof. by destruct b. Qed.
Lemma ki_for_each l body : (forall i, In i l -> keeps_inv I (body i)) -> keeps_inv I (vfor_each l body).
Proof.
  intros Hb. induction l as [|i l IH]; intros s Hs; cbn [vfor_each]; [by apply vwp_ret|].
  apply vwp_bind. eapply vwp_mono; [apply Hb; [by left|done]|]. intros u s' Hs'. apply IH; [|done]. intros j Hj. apply Hb. by right.
Qed.
End Keeps.
Create HintDb vf discriminated.
#[export] Hint Resolve ki_ret ki_bind ki_lift ki_get ki_if ki_for_each : vf.

(** ** The table of address filters *)

(** What an entry does; the mark for rewriting is not part of it. *)
Definition view (e : ixgbe_mac_addr) : bool * list Z * Z := (in_use e, me_addr e, me_queue e).
(** Entries in use for other pools than [mine] are neither changed nor added. *)
Definition entry_kept (mine : Z -> Prop) (e e' : ixgbe_mac_addr) : Prop :=
  (in_use e = true -> ~ mine (me_queue e) -> view e' = view e) /\ (in_use e' = true -> ~ mine (me_queue e') -> view e' = view e).
Definition table_kept (mine : Z -> Prop) : relation (list ixgbe_mac_addr) := Forall2 (entry_kept mine).

#[export] Instance entry_kept_pre mine : PreOrder (entry_kept mine).
Proof.
  split; [by intros e|]. intros e1 e2 e3 [H1 H1'] [H2 H2']. split; intros Hu Hm.
  - specialize (H1 Hu Hm). unfold view in *. injection H1 as Hu2 Ha2 Hq2. rewrite <- Hu2 in Hu. rewrite <- Hq2 in Hm.
    rewrite (H2 Hu Hm). congruence.
  - specialize (H2' Hu Hm). unfold view in *. injection H2' as Hu2 Ha2 Hq2. rewrite Hu2 in Hu. rewrite Hq2 in Hm.
    rewrite <- (H1' Hu Hm). congruence.
Qed.
#[export] Instance table_kept_pre mine : PreOrder (table_kept mine).
Proof. unfold table_kept. apply _. Qed.
Lemma table_kept_mono (P Q : Z -> Prop) t t' : (forall q, P q -> Q q) -> table_kept P t t' -> table_kept Q t t'.
Proof. intros HPQ H. eapply Forall2_impl; [exact H|]. intros e e' [H1 H2]. split; intros Hu Hm; auto. Qed.

Lemma view_clean e : view (clean e) = view e.
Proof. unfold view. destruct (clean_spec e) as (_ & -> & -> & ->). done. Qed.
Lemma view_kept mine e e' : view e' = view e -> entry_kept mine e e'.
Proof. by split. Qed.

Section Table.
Context (mine : Z -> Prop).
Lemma sync_kept n i t h : table_kept mine t (sync_loop n i t h).1.
Proof.
  revert i h. induction t as [|e t IH]; intros i h; cbn [sync_loop]; [constructor|]. destruct (i <? n); [|reflexivity].
  unfold mbind, M_bind, mret, M_ret. destruct (modified e) eqn:Hm.
  - destruct (write_entry i e h) as [u h1]. specialize (IH (i + 1) h1). destruct (sync_loop n (i + 1) t h1) as [t' h2].
    constructor; [|exact IH]. apply view_kept. rewrite <- (view_clean e). unfold clean. by rewrite Hm.
  - specialize (IH (i + 1) h). destruct (sync_loop n (i + 1) t h) as [t' h2]. constructor; [reflexivity|exact IH].
Qed.
Lemma alter_kept f i t : (forall e, t !! i = Some e -> entry_kept mine e (f e)) -> table_kept mine t (alter f i t).
Proof.
  revert i. induction t as [|e t IH]; intros i Hf; [destruct i; constructor|]. destruct i as [|i]; cbn.
  - constructor; [by apply Hf|reflexivity].
  - constructor; [reflexivity|]. apply IH. intros x Hx. by apply Hf.
Qed.
Lemma find_entry_some p n i t k : 0 <= i -> find_entry p n i t = Some k -> exists e, t !! Z.to_nat (k - i) = Some e /\ p e = true /\ i <= k.
Proof.
  revert i. induction t as [|e t IH]; intros i Hi; cbn [find_entry]; [done|]. destruct (i <? n); [|done].
  destruct (p e) eqn:Hp; [intros [= <-]; exists e; by rewrite Z.sub_diag|]. intros Hk.
  destruct (IH (i + 1) ltac:(lia) Hk) as (x & Hx & Hpx & Hik). exists x. split; [|split; [done|lia]].
  replace (Z.to_nat (k - i)) with (S (Z.to_nat (k - (i + 1)))) by lia. done.
Qed.
Lemma del_kept addr q t h : mine q -> table_kept mine t (ixgbe_del_mac_filter addr q t h).1.2.
Proof.
  intros Hq. unfold ixgbe_del_mac_filter. destruct (is_zero_ether_addr addr); [reflexivity|].
  unfold mbind, M_bind, get, mret, M_ret. set (p := fun e => bool_decide (addr = me_addr e) && (me_queue e =? q)).
  destruct (find_entry p _ 0 t) as [i|] eqn:Hf; [|reflexivity].
  unfold ixgbe_sync_mac_table, get, mbind, M_bind.
  destruct (find_entry_some p _ 0 t i ltac:(lia) Hf) as (e & He & Hp & _). rewrite Z.sub_0_r in He.
  apply andb_true_iff in Hp as [_ Hp%Z.eqb_eq].
  pose proof (sync_kept (num_rar_entries (mac h)) 0 (alter drop_entry (Z.to_nat i) t) h) as Hs.
  destruct (sync_loop _ _ _ h) as [t' h']. etrans; [|exact Hs]. apply alter_kept. intros e' He'. rewrite He in He'. injection He' as <-.
  split; [intros _ Hn; by rewrite Hp in Hn|]. intros Hu. by destruct (drop_entry_spec e) as [_ Hd]; rewrite Hd in Hu.
Qed.
Lemma add_kept addr q t h : mine q -> table_kept mine t (ixgbe_add_mac_filter addr q t h).1.2.
Proof.
  intros Hq. unfold ixgbe_add_mac_filter. destruct (is_zero_ether_addr addr); [reflexivity|].
  unfold mbind, M_bind, get, mret, M_ret. set (p := fun e => negb (in_use e)).
  destruct (find_entry p _ 0 t) as [i|] eqn:Hf; [|reflexivity].
  unfold ixgbe_sync_mac_table, get, mbind, M_bind.
  destruct (find_entry_some p _ 0 t i ltac:(lia) Hf) as (e & He & Hp%negb_true_iff & _). rewrite Z.sub_0_r in He.
  pose proof (sync_kept (num_rar_entries (mac h)) 0 (alter (add_entry addr q) (Z.to_nat i) t) h) as Hs.
  destruct (sync_loop _ _ _ h) as [t' h']. etrans; [|exact Hs]. apply alter_kept. intros e' He'. rewrite He in He'. injection He' as <-.
  split; [by rewrite Hp|]. by intros _ Hn.
Qed.
Lemma uc_loop_kept addrs q count t h : mine q -> table_kept mine t (write_uc_loop addrs q count t h).1.2.
Proof.
  intros Hq. revert count t h. induction addrs as [|a addrs IH]; intros count t h; cbn [write_uc_loop]; [reflexivity|].
  unfold mbind, M_bind. pose proof (del_kept a q t h Hq) as Hd. destruct (ixgbe_del_mac_filter a q t h) as [[r1 t1] h1].
  pose proof (add_kept a q t1 h1 Hq) as Ha. cbn [snd] in *. destruct (ixgbe_add_mac_filter a q t1 h1) as [[r2 t2] h2].
  cbn [snd] in *. etrans; [exact Hd|]. etrans; [exact Ha|]. apply IH.
Qed.
Lemma uc_list_kept addrs q t h : mine q -> table_kept mine t (ixgbe_write_uc_addr_list addrs q t h).1.2.
Proof.
  intros Hq. unfold ixgbe_write_uc_addr_list, get, mbind, M_bind. destruct (_ >? _); [reflexivity|]. by apply uc_loop_kept.
Qed.
End Table.

(** ** Isolation *)

(** Extra filters held by other VFs. *)
Definition macvlan_kept (vf : Z) (e e' : vf_macvlans) : Prop :=
  (mv_free e = false -> mv_vf e <> vf -> e' = e) /\ (mv_free e' = false -> mv_vf e' <> vf -> e' = e).
#[export] Instance macvlan_kept_pre vf : PreOrder (macvlan_kept vf).
Proof.
  split; [by intros e|]. intros e1 e2 e3 [H1 H1'] [H2 H2']. split; intros Hf Hv.
  - specialize (H1 Hf Hv). subst e2. by apply H2.
  - specialize (H2' Hf Hv). subst e3. by apply H1'.
Qed.
Definition macvlans_kept (vf : Z) : relation (list vf_macvlans) := Forall2 (macvlan_kept vf).
#[export] Instance macvlans_kept_pre vf : PreOrder (macvlans_kept vf).
Proof. unfold macvlans_kept. apply _. Qed.

(** The array of multicast hashes has its 30 entries, and no more of them are in use. *)
Definition hashes_ok (d : vf_data_storage) : Prop := length (vf_mc_hashes d) = 30%nat /\ 0 <= num_vf_mc_hashes d <= 30.
(** The records exist: one per VF, and the list of extra filters. *)
Definition allocated (s : sriov) : Prop := num_vfs s = Z.of_nat (length (vfinfo s)) /\ Forall hashes_ok (vfinfo s) /\ exists l, vf_mvs s = Some l.

(** What may differ after [vf] has been served: its own record, its own filters and those of the PF's pool. *)
Record others_kept (vf : Z) (s s' : sriov) : Prop := {
  ok_num : num_vfs s' = num_vfs s;
  ok_pool : vmdq_offset s' = vmdq_offset s;
  ok_len : length (vfinfo s') = length (vfinfo s);
  ok_hashes : Forall hashes_ok (vfinfo s) -> Forall hashes_ok (vfinfo s');
  ok_vfs : forall v, v <> Z.to_nat vf -> vfinfo s' !! v = vfinfo s !! v;
  ok_table : table_kept (fun q => q = vf \/ q = vmdq_offset s) (mac_table s) (mac_table s');
  ok_mvs : forall l, vf_mvs s = Some l -> exists l', vf_mvs s' = Some l' /\ macvlans_kept vf l l'
}.
#[export] Instance others_kept_pre vf : PreOrder (others_kept vf).
Proof.
  split.
  - intros s. constructor; try done. intros l Hl. by exists l.
  - intros s1 s2 s3 [] []. constructor; try congruence.
    + auto.
    + intros v Hv. rewrite ok_vfs1, ok_vfs0 by done. done.
    + rewrite ok_pool0 in ok_table1. by etrans.
    + intros l Hl. destruct (ok_mvs0 l Hl) as (l2 & Hl2 & K2). destruct (ok_mvs1 l2 Hl2) as (l3 & Hl3 & K3).
      exists l3. split; [done|]. by etrans.
Qed.
Lemma allocated_kept vf s s' : allocated s -> others_kept vf s s' -> allocated s'.
Proof. intros (Hn & Hh & l & Hl) []. split; [congruence|]. split; [auto|]. destruct (ok_mvs0 l Hl) as (l' & ? & _). by exists l'. Qed.

(** [serves m]: from every adapter whose records exist, with [n] VFs and the PF's pool [o], [m] makes no invalid
    access and leaves the VFs other than [vf] alone. *)
Section Serves.
Context (vf n o : Z).
Definition ready (s : sriov) : Prop := allocated s /\ num_vfs s = n /\ vmdq_offset s = o /\ 0 <= vf < n.
Definition serves {A} (m : VM A) : Prop := forall s, ready s -> vwp m s (fun _ s' => others_kept vf s s').

Lemma ready_kept s s' : ready s -> others_kept vf s s' -> ready s'.
Proof. intros (Ha & Hn & Ho & Hv) Hk. split; [by eapply allocated_kept|]. destruct Hk. split_and!; congruence || lia. Qed.
Lemma ready_vf s i : ready s -> 0 <= i < n -> exists d, vfinfo s !! Z.to_nat i = Some d /\ hashes_ok d.
Proof.
  intros ((Hn & Hh & _) & <- & _) Hi. destruct (lookup_lt_is_Some_2 (vfinfo s) (Z.to_nat i)) as [d Hd]; [lia|]. exists d. split; [done|]. rewrite Forall_lookup in Hh. by eapply Hh.
Qed.

Lemma sv_ret {A} (a : A) : serves (mret a).
Proof. intros s Hs. by apply vwp_ret. Qed.
Lemma sv_bind {A B} (m : VM A) (k : A -> VM B) : serves m -> (forall a, serves (k a)) -> serves (a ← m; k a).
Proof.
  intros Hm Hk s Hs. apply vwp_bind. eapply vwp_mono; [by apply Hm|]. intros a s1 H1. cbn beta in H1.
  eapply vwp_mono; [apply Hk; by eapply ready_kept|]. intros b s2 H2. cbn beta in H2. by etrans.
Qed.
Lemma sv_lift {A} (m : M A) : serves (lift m).
Proof. intros s Hs. by apply vwp_lift. Qed.
Lemma sv_get {B} (k : sriov -> VM B) : (forall s, num_vfs s = n -> vmdq_offset s = o -> serves (k s)) -> serves (s ← vget; k s).
Proof. intros Hk s Hs. apply vwp_bind, vwp_get. by apply Hk; [apply Hs..|]. Qed.
Lemma sv_if {A} (b : bool) (m1 m2 : VM A) : serves m1 -> serves m2 -> serves (if b then m1 else m2).
Proof. by destruct b. Qed.
Lemma sv_read {B} i (k : vf_data_storage -> VM B) : 0 <= i < n -> (forall d, hashes_ok d -> serves (k d)) -> serves (d ← vf_read i; k d).
Proof. intros Hi Hk s Hs. destruct (ready_vf _ i Hs Hi) as (d & Hd & Hok). eapply vwp_bind, vwp_read; [exact Hd|]. by apply Hk. Qed.
Lemma sv_hash i j : 0 <= i < n -> 0 <= j < 30 -> serves (mc_hash i j).
Proof.
  intros Hi Hj. apply sv_read; [done|]. intros d [Hl _]. destruct (lookup_lt_is_Some_2 (vf_mc_hashes d) (Z.to_nat j)) as [x ->]; [lia|]. apply sv_ret.
Qed.
Lemma sv_update f : (forall d, hashes_ok d -> hashes_ok (f d)) -> serves (vf_update vf f).
Proof.
  intros Hf s Hs. destruct (ready_vf _ vf Hs (proj2 (proj2 (proj2 Hs)))) as (d & Hd & Hok). eapply vwp_update; [done|]. constructor; cbn; try done.
  - apply length_insert.
  - intros Hh. apply Forall_insert; auto.
  - intros v Hv. by rewrite list_lookup_insert_ne.
  - intros l Hl. by exists l.
Qed.
Lemma sv_table {A} (f : list ixgbe_mac_addr -> M (A * list ixgbe_mac_addr)) :
  (forall t h, table_kept (fun q => q = vf \/ q = o) t (f t h).1.2) -> serves (with_table f).
Proof.
  intros Hf s Hs. apply vwp_table. intros h. constructor; cbn; try done.
  - destruct Hs as (_ & _ & -> & _). apply Hf.
  - intros l Hl. by exists l.
Qed.
Lemma sv_del addr : serves (del_filter addr vf).
Proof. apply sv_table. intros t h. apply del_kept. by left. Qed.
Lemma sv_add addr : serves (add_filter addr vf).
Proof. apply sv_table. intros t h. apply add_kept. by left. Qed.
Lemma sv_uc addrs s : vmdq_offset s = o -> serves (with_table (ixgbe_write_uc_addr_list addrs (VMDQ_P 0 s))).
Proof. intros Ho. apply sv_table. intros t h. apply uc_list_kept. right. unfold VMDQ_P. lia. Qed.
Lemma sv_for_each l body : (forall i, In i l -> serves (body i)) -> serves (vfor_each l body).
Proof.
  intros Hb. induction l as [|i l IH]; cbn [vfor_each]; [apply sv_ret|]. apply sv_bind; [apply Hb; by left|].
  intros _. apply IH. intros j Hj. apply Hb. by right.
Qed.
(** Whoever is served, the index is in range. *)
Lemma sv_vf {A} (m : VM A) : (0 <= vf < n -> serves m) -> serves m.
Proof. intros Hm s Hs. apply Hm; [apply Hs|done]. Qed.
End Serves.

(** An update that keeps the array of hashes as it is. *)
Ltac hashes := solve [intros [] [? ?]; unfold hashes_ok in *; repeat case_match; cbn in *; (split; [done|lia])].
(** Follow the shape of the code. *)
Ltac serve_step :=
  lazymatch goal with
  | |- serves _ _ _ (let _ := _ in _) => cbv zeta
  | |- serves _ _ _ (mret _) => apply sv_ret
  | |- serves _ _ _ (lift _) => apply sv_lift
  | |- serves _ _ _ (mc_hash _ _) => apply sv_hash; lia
  | |- serves _ _ _ (vf_update _ _) => apply sv_update; hashes
  | |- serves _ _ _ (del_filter _ _) => apply sv_del
  | |- serves _ _ _ (add_filter _ _) => apply sv_add
  | |- serves _ _ _ (with_table (ixgbe_write_uc_addr_list _ _)) => apply sv_uc; done
  | |- serves _ _ _ (mbind _ vget) => apply sv_get; intros ? ? ?
  | |- serves _ _ _ (mbind _ (vf_read _)) => apply sv_read; [lia|intros ? ?]
  | |- serves _ _ _ (mbind _ _) => apply sv_bind; [|intros ?]
  | |- serves _ _ _ (if _ then _ else _) => apply sv_if
  | |- serves _ _ _ (match ?x with _ => _ end) => destruct x
  | |- serves _ _ _ _ => solve [eauto 2 with vf]
  end.
Ltac serve := repeat (cbv beta; serve_step).

(** Thirty hashes of 16 bits fit into the words after the first one. *)
Lemma message_hash msg i : length msg = 16%nat -> 0 <= i < 30 -> exists hash, hash_list msg i = Some hash.
Proof.
  intros Hl Hi. unfold hash_list. destruct (lookup_lt_is_Some_2 msg (Z.to_nat (1 + i / 2))) as [x ->]; [|by eexists]. assert (0 <= i / 2 < 15) by (split; [apply Z.div_pos; lia|apply Z.div_lt_upper_bound; lia]). lia.
Qed.
Lemma msg_info_nonneg msg : 0 <= msg_info msg.
Proof. unfold msg_info. apply Z.shiftr_nonneg. apply Z.land_nonneg. right. done. Qed.
Lemma mc_entries msg : 0 <= Z.min (msg_info msg) IXGBE_MAX_VF_MC_ENTRIES <= 30.
Proof. pose proof (msg_info_nonneg msg). unfold IXGBE_MAX_VF_MC_ENTRIES. lia. Qed.
Lemma message_length stack got : length (message_buffer stack got) = 16%nat.
Proof. unfold message_buffer. by rewrite length_map, length_seq. Qed.

Section Handlers.
Context `{Netdev} (vf n o : Z).
Local Notation serves := (serves vf n o).

Lemma sv_restore : serves ixgbe_restore_vf_multicasts.
Proof.
  unfold ixgbe_restore_vf_multicasts. serve. apply sv_for_each. intros i Hi%list_elem_of_In%elem_of_seqZ. unfold restore_one. serve.
  apply sv_for_each. intros j Hj%list_elem_of_In%elem_of_seqZ. unfold hashes_ok in *. serve.
Qed.
Lemma sv_write_mc : serves ixgbe_write_mc_addr_list.
Proof. unfold ixgbe_write_mc_addr_list. serve. apply sv_restore. Qed.
Hint Resolve sv_write_mc : vf.
Lemma sv_rx_mode : serves ixgbe_set_rx_mode.
Proof. unfold ixgbe_set_rx_mode. serve. Qed.
Hint Resolve sv_rx_mode : vf.
Lemma sv_reset_event : serves (ixgbe_vf_reset_event vf).
Proof. apply sv_vf. intros Hv. unfold ixgbe_vf_reset_event. serve. Qed.
Lemma sv_set_mac m : serves (ixgbe_set_vf_mac vf m).
Proof. apply sv_vf. intros Hv. unfold ixgbe_set_vf_mac. serve. Qed.
Hint Resolve sv_reset_event sv_set_mac : vf.
Lemma sv_reset_msg : serves (ixgbe_vf_reset_msg vf).
Proof. apply sv_vf. intros Hv. unfold ixgbe_vf_reset_msg. serve. Qed.
Lemma sv_mac_addr msg : serves (ixgbe_set_vf_mac_addr msg vf).
Proof. apply sv_vf. intros Hv. unfold ixgbe_set_vf_mac_addr. serve. Qed.
Lemma sv_store_hash msg i : length msg = 16%nat -> 0 <= i < 30 -> serves (store_hash msg vf i).
Proof.
  intros Hl Hi. apply sv_vf. intros Hv. unfold store_hash. apply sv_read; [done|]. intros d [Hd _]. destruct (message_hash msg i Hl Hi) as [x ->]. rewrite Hd. rewrite (proj2 (Z.ltb_lt i (Z.of_nat 30))) by lia.
  apply sv_update. intros d' [Hd' Hn]. split; [cbn; by rewrite length_insert|done].
Qed.
Lemma sv_multicasts msg : length msg = 16%nat -> serves (ixgbe_set_vf_multicasts msg vf).
Proof.
  intros Hl. apply sv_vf. intros Hv. pose proof (mc_entries msg) as He. unfold ixgbe_set_vf_multicasts. serve.
  - apply sv_for_each. intros i Hi%list_elem_of_In%elem_of_seqZ. apply sv_store_hash; [done|lia].
  - apply sv_for_each. intros i Hi%list_elem_of_In%elem_of_seqZ. unfold hashes_ok in *. serve.
Qed.
Lemma sv_leave_vlan vid : serves (leave_vlan vid).
Proof. unfold leave_vlan. serve. Qed.
Hint Resolve sv_leave_vlan : vf.
Lemma sv_vlan_msg msg : serves (ixgbe_set_vf_vlan_msg msg vf).
Proof. apply sv_vf. intros Hv. unfold ixgbe_set_vf_vlan_msg. serve. Qed.
Lemma sv_lpe max : serves (ixgbe_set_vf_lpe max vf).
Proof. apply sv_vf. intros Hv. unfold ixgbe_set_vf_lpe. serve. Qed.
Lemma sv_api msg : serves (ixgbe_negotiate_vf_api msg vf).
Proof. unfold ixgbe_negotiate_vf_api. serve. Qed.
Lemma sv_queues msg : serves (ixgbe_get_vf_queues msg vf).
Proof. apply sv_vf. intros Hv. unfold ixgbe_get_vf_queues. serve. Qed.
Lemma sv_spoofchk b : serves (ixgbe_ndo_set_vf_spoofchk vf b).
Proof. apply sv_vf. intros Hv. unfold ixgbe_ndo_set_vf_spoofchk. serve. Qed.
Hint Resolve sv_reset_msg sv_mac_addr sv_multicasts sv_vlan_msg sv_lpe sv_api sv_queues sv_spoofchk : vf.

(** Extra filters. *)
Lemma free_spec l s : ready vf n o s ->
  vwp (free_macvlans vf l) s (fun l' s' => others_kept vf s s' /\ vf_mvs s' = vf_mvs s /\ macvlans_kept vf l l').
Proof.
  revert s. induction l as [|e l IH]; intros s Hs; cbn [free_macvlans].
  { apply vwp_ret. split_and!; [done..|constructor]. }
  apply vwp_bind.
  eapply (vwp_mono _ _ (fun e' s' => others_kept vf s s' /\ vf_mvs s' = vf_mvs s /\ macvlan_kept vf e e')).
  - destruct (Z.eqb_spec (mv_vf e) vf) as [He|_]; [|by apply vwp_ret].
    apply vwp_bind, vwp_table. intros h. apply vwp_ret. split_and!; [|done|by split].
    constructor; cbn; try done; [apply del_kept; by left|]. intros l' Hl'. by exists l'.
  - intros e' s1 (K1 & M1 & E1). apply vwp_bind. eapply vwp_mono; [apply IH; by eapply ready_kept|].
    intros l' s2 (K2 & M2 & E2). apply vwp_ret. split_and!; [by etrans|congruence|by constructor].
Qed.
Lemma set_mvs_kept s l l' : vf_mvs s = Some l -> macvlans_kept vf l l' -> others_kept vf s (set_vf_mvs (Some l') s).
Proof. intros Hl Hk. constructor; cbn; try done. intros x. rewrite Hl. intros [= <-]. by exists l'. Qed.
Lemma first_free_spec l i : first_free l = Some i -> exists e, l !! i = Some e /\ mv_free e = true.
Proof.
  revert i. induction l as [|e l IH]; intros i; cbn [first_free]; [done|]. destruct (mv_free e) eqn:He; [intros [= <-]; by exists e|].
  destruct (first_free l) as [j|] eqn:Hj; [|done]. intros [= <-]. destruct (IH j eq_refl) as (x & Hx & Hf). by exists x.
Qed.
Lemma hold_kept l i e addr : l !! i = Some e -> mv_free e = true -> macvlans_kept vf l (<[i := Macvlan vf false true addr]> l).
Proof.
  revert i. induction l as [|x l IH]; intros i; [done|]. destruct i as [|i]; cbn.
  - intros [= ->] Hf. constructor; [|reflexivity]. split; [by rewrite Hf|done].
  - intros Hl Hf. constructor; [reflexivity|]. by apply IH.
Qed.
Lemma sv_free : serves (l ← macvlan_list; l ← free_macvlans vf l; vmodify (set_vf_mvs (Some l))).
Proof.
  intros s Hs. pose proof Hs as ((_ & _ & l & Hl) & _). apply vwp_bind. unfold macvlan_list. apply vwp_bind, vwp_get. rewrite Hl.
  apply vwp_ret, vwp_bind. eapply vwp_mono; [by apply free_spec|]. intros l' s' (K & M & E). apply vwp_modify. etrans; [exact K|].
  eapply set_mvs_kept; [|exact E]. by rewrite M.
Qed.
Lemma sv_macvlan index addr : serves (ixgbe_set_vf_macvlan vf index addr).
Proof.
  unfold ixgbe_set_vf_macvlan. apply sv_bind; [apply sv_if; [apply sv_free|apply sv_ret]|]. intros _. apply sv_if; [apply sv_ret|].
  intros s Hs. pose proof Hs as ((_ & _ & l & Hl) & _). apply vwp_bind. unfold macvlan_list. apply vwp_bind, vwp_get. rewrite Hl.
  apply vwp_ret. destruct (first_free l) as [i|] eqn:Hi; [|by apply vwp_ret]. destruct (first_free_spec l i Hi) as (e & He & Hf).
  apply vwp_bind, vwp_table. intros h.
  set (r := (ixgbe_add_mac_filter addr vf (mac_table s) h).1.1). set (t := (ixgbe_add_mac_filter addr vf (mac_table s) h).1.2).
  assert (others_kept vf s (set_mac_table t s)) as K.
  { constructor; cbn; try done; [apply add_kept; by left|]. intros l' Hl'. by exists l'. }
  apply vwp_bind. destruct (r >=? 0); [apply vwp_modify|apply vwp_ret]; apply vwp_ret; [|exact K].
  etrans; [exact K|]. eapply set_mvs_kept; [exact Hl|]. by eapply hold_kept.
Qed.
Hint Resolve sv_macvlan : vf.
Lemma sv_macvlan_msg msg : serves (ixgbe_set_vf_macvlan_msg msg vf).
Proof. apply sv_vf. intros Hv. unfold ixgbe_set_vf_macvlan_msg. serve. Qed.
Hint Resolve sv_macvlan_msg : vf.
Lemma sv_handle msg : length msg = 16%nat -> serves (handle_request msg vf).
Proof. intros Hl. unfold handle_request. serve. Qed.
Hint Resolve sv_handle message_length : vf.
Lemma sv_rcv_msg stack : serves (ixgbe_rcv_msg_from_vf stack vf).
Proof. apply sv_vf. intros Hv. unfold ixgbe_rcv_msg_from_vf. serve. Qed.
Lemma sv_rcv_ack : serves (ixgbe_rcv_ack_from_vf vf).
Proof. apply sv_vf. intros Hv. unfold ixgbe_rcv_ack_from_vf. serve. Qed.
Hint Resolve sv_rcv_msg sv_rcv_ack : vf.
Lemma sv_msg_step stack : serves (msg_step stack vf).
Proof. unfold msg_step. serve. Qed.
End Handlers.

(** ** An address set by the administrator *)

(** The filters of pool [v] let only addresses of [S] through. *)
Definition pool_within (v : Z) (S : list Z -> Prop) : list ixgbe_mac_addr -> Prop :=
  Forall (fun e => in_use e = true -> me_queue e = v -> S (me_addr e)).
(** The addresses that pool [v] receives. *)
Definition in_pool (v : Z) (t : list ixgbe_mac_addr) (x : list Z) : Prop := exists e, In e t /\ in_use e = true /\ me_queue e = v /\ me_addr e = x.
(** VF [v] has the administrator's address [a], or none after a failure to enter it into the table, and its pool receives only addresses of [S]. *)
Definition admin_mac (v : Z) (a : list Z) (S : list Z -> Prop) (s : sriov) : Prop :=
  (exists d, vfinfo s !! Z.to_nat v = Some d /\ pf_set_mac d = true /\ (vf_mac_addresses d = a \/ vf_mac_addresses d = repeat 0 6)) /\
  pool_within v S (mac_table s).

Section Pool.
Context (v : Z) (a : list Z) (S : list Z -> Prop) (Sa : S a).
Lemma pool_kept mine t t' : table_kept mine t t' -> ~ mine v -> pool_within v S t -> pool_within v S t'.
Proof.
  intros Hk Hv. unfold pool_within. induction Hk as [|e e' t t' [_ He] Hk IH]; [done|]. intros [H1 H2]%Forall_cons. constructor; [|by apply IH].
  intros Hu Hq. subst v. specialize (He Hu Hv). unfold view in He. injection He as Hu' Ha' Hq'. rewrite Ha'. apply H1; congruence.
Qed.
Lemma pool_alter f i t : (forall e, in_use (f e) = true -> me_queue (f e) = v -> S (me_addr (f e))) -> pool_within v S t -> pool_within v S (alter f i t).
Proof.
  intros Hf. unfold pool_within. revert i. induction t as [|e t IH]; intros i H; [by destruct i|]. apply Forall_cons in H as [H1 H2].
  destruct i as [|i]; constructor; auto.
Qed.
Lemma pool_sync n i t h : pool_within v S t -> pool_within v S (sync_loop n i t h).1.
Proof. apply (pool_kept (fun _ => False)); [apply sync_kept|tauto]. Qed.
Lemma pool_del addr q t h : pool_within v S t -> pool_within v S (ixgbe_del_mac_filter addr q t h).1.2.
Proof.
  intros Ht. unfold ixgbe_del_mac_filter. destruct (is_zero_ether_addr addr); [exact Ht|].
  unfold mbind, M_bind, get, mret, M_ret. destruct (find_entry _ _ 0 t) as [i|]; [|exact Ht].
  unfold ixgbe_sync_mac_table, get, mbind, M_bind.
  pose proof (pool_sync (num_rar_entries (mac h)) 0 (alter drop_entry (Z.to_nat i) t) h) as Hs.
  destruct (sync_loop _ _ _ h) as [t' h']. apply Hs. apply pool_alter; [|done]. intros e Hu.
  by destruct (drop_entry_spec e) as [_ Hd]; rewrite Hd in Hu.
Qed.
Lemma pool_add q t h : pool_within v S t -> pool_within v S (ixgbe_add_mac_filter a q t h).1.2.
Proof using Sa.
  intros Ht. unfold ixgbe_add_mac_filter. destruct (is_zero_ether_addr a); [exact Ht|].
  unfold mbind, M_bind, get, mret, M_ret. destruct (find_entry _ _ 0 t) as [i|]; [|exact Ht].
  unfold ixgbe_sync_mac_table, get, mbind, M_bind.
  pose proof (pool_sync (num_rar_entries (mac h)) 0 (alter (add_entry a q) (Z.to_nat i) t) h) as Hs.
  destruct (sync_loop _ _ _ h) as [t' h']. apply Hs. by apply pool_alter.
Qed.
End Pool.

(** Handling a message of VF [v] keeps the administrator's address, when the PF's pool [o] is another one. *)
Section Admin.
Context `{Netdev} (v n o : Z) (a : list Z) (S : list Z -> Prop) (Sa : S a).
Definition pinned (s : sriov) : Prop := ready v n o s /\ o <> v /\ admin_mac v a S s.
Local Notation pins := (keeps_inv pinned).

Lemma pinned_table t s : pinned s -> pool_within v S t -> pinned (set_mac_table t s).
Proof. intros (Hr & Ho & Hd & _) Ht. split_and!; done. Qed.
Lemma pi_vf {A} (m : VM A) : (0 <= v < n -> o <> v -> pins m) -> pins m.
Proof. intros Hm s Hs. apply Hm; [apply Hs..|done]. Qed.
Lemma pi_get {B} (k : sriov -> VM B) : (forall s, num_vfs s = n -> vmdq_offset s = o -> pins (k s)) -> pins (s ← vget; k s).
Proof. intros Hk s Hs. apply vwp_bind, vwp_get. by apply Hk; [apply Hs..|]. Qed.
Lemma pi_read {B} i (k : vf_data_storage -> VM B) : 0 <= i < n -> (forall d, hashes_ok d -> pins (k d)) -> pins (d ← vf_read i; k d).
Proof. intros Hi Hk s Hs. destruct (ready_vf _ _ _ _ i (proj1 Hs) Hi) as (d & Hd & Hok). eapply vwp_bind, vwp_read; [exact Hd|]. by apply Hk. Qed.
Lemma pi_hash i j : 0 <= i < n -> 0 <= j < 30 -> pins (mc_hash i j).
Proof.
  intros Hi Hj. apply pi_read; [done|]. intros d [Hl _]. destruct (lookup_lt_is_Some_2 (vf_mc_hashes d) (Z.to_nat j)) as [x ->]; [lia|]. apply ki_ret.
Qed.
Lemma pi_own {B} (k : vf_data_storage -> VM B) :
  (forall d, pf_set_mac d = true -> vf_mac_addresses d = a \/ vf_mac_addresses d = repeat 0 6 -> pins (k d)) -> pins (d ← vf_read v; k d).
Proof.
  intros Hk s Hs. pose proof Hs as (_ & _ & (d & Hd & Hp & Ha) & _). eapply vwp_bind, vwp_read; [exact Hd|]. by apply Hk.
Qed.
Lemma pi_update f : (forall d, hashes_ok d -> hashes_ok (f d)) ->
  (forall d, pf_set_mac (f d) = pf_set_mac d /\
     (vf_mac_addresses (f d) = vf_mac_addresses d \/ vf_mac_addresses (f d) = a \/ vf_mac_addresses (f d) = repeat 0 6)) ->
  pins (vf_update v f).
Proof.
  intros Hh Hf s Hs. pose proof Hs as (((Hn & Hok & Hl) & Hr) & Ho & (d & Hd & Hp & Ha) & Ht). eapply vwp_update; [exact Hd|].
  destruct (Hf d) as [Fp Fa]. split; [|split; [done|split; cbn; [|done]]].
  { split; [split; cbn; [by rewrite length_insert|split; [|done]]|done]. apply Forall_insert; [done|]. rewrite Forall_lookup in Hok. by eapply Hh, Hok. }
  exists (f d). split_and!; [|congruence|].
  - apply list_lookup_insert_eq. by eapply lookup_lt_Some.
  - destruct Fa as [->|[]]; auto.
Qed.
Lemma pi_table {A} (f : list ixgbe_mac_addr -> M (A * list ixgbe_mac_addr)) :
  (forall t h, pool_within v S t -> pool_within v S (f t h).1.2) -> pins (with_table f).
Proof. intros Hf s Hs. apply vwp_table. intros h. apply pinned_table; [done|]. apply Hf, Hs. Qed.
Lemma pi_del addr q : pins (del_filter addr q).
Proof. apply pi_table. intros t h. apply pool_del. Qed.
Lemma pi_add q : pins (add_filter a q).
Proof using Sa. apply pi_table. intros t h. by apply pool_add. Qed.
Lemma pi_uc addrs s : o <> v -> vmdq_offset s = o -> pins (with_table (ixgbe_write_uc_addr_list addrs (VMDQ_P 0 s))).
Proof.
  intros Hv Ho. apply pi_table. intros t h. apply (pool_kept _ _ (fun q => q = o)); [apply uc_list_kept; unfold VMDQ_P; lia|congruence].
Qed.
End Admin.

Ltac pin_step :=
  lazymatch goal with
  | |- keeps_inv _ (let _ := _ in _) => cbv zeta
  | |- keeps_inv _ (mret _) => apply ki_ret
  | |- keeps_inv _ (lift _) => apply ki_lift
  | |- keeps_inv _ (mc_hash _ _) => apply pi_hash; lia
  | |- keeps_inv _ (vf_update _ _) => apply pi_update; [hashes|intros [] ; (split; [|left]); repeat case_match; reflexivity]
  | |- keeps_inv _ (del_filter _ _) => apply pi_del
  | |- keeps_inv _ (with_table (ixgbe_write_uc_addr_list _ _)) => apply pi_uc; done
  | |- keeps_inv _ (mbind _ vget) => apply pi_get; intros ? ? ?
  | |- keeps_inv _ (mbind _ (vf_read _)) => apply pi_read; [lia|intros ? ?]
  | |- keeps_inv _ (mbind _ _) => apply ki_bind; [|intros ?]
  | |- keeps_inv _ (if _ then _ else _) => apply ki_if
  | |- keeps_inv _ (match ?x with _ => _ end) => destruct x
  | |- keeps_inv _ _ => solve [eauto 2 with vf nocore]
  end.
Ltac pin := repeat (cbv beta; pin_step).

Section AdminHandlers.
Context `{Netdev} (v n o : Z) (a : list Z) (S : list Z -> Prop) (Sa : S a).
Local Notation pins := (keeps_inv (pinned v n o a S)).
Lemma pi_restore : pins ixgbe_restore_vf_multicasts.
Proof.
  unfold ixgbe_restore_vf_multicasts. pin. apply ki_for_each. intros i Hi%list_elem_of_In%elem_of_seqZ. unfold restore_one. pin.
  apply ki_for_each. intros j Hj%list_elem_of_In%elem_of_seqZ. unfold hashes_ok in *. pin.
Qed.
Lemma pi_write_mc : pins ixgbe_write_mc_addr_list.
Proof. unfold ixgbe_write_mc_addr_list. pin. apply pi_restore. Qed.
Hint Resolve pi_write_mc : vf.
Lemma pi_rx_mode : pins ixgbe_set_rx_mode.
Proof. apply pi_vf. intros Hv Ho. unfold ixgbe_set_rx_mode. pin. Qed.
Hint Resolve pi_rx_mode : vf.
Lemma pi_reset_event : pins (ixgbe_vf_reset_event v).
Proof. apply pi_vf. intros Hv Ho. unfold ixgbe_vf_reset_event. pin. Qed.
Lemma pi_set_mac : pins (ixgbe_set_vf_mac v a).
Proof using Sa.
  apply pi_vf. intros Hv Ho. unfold ixgbe_set_vf_mac. pin; [by apply pi_add|]. apply pi_update; [hashes|]. intros d0. split; [done|]. cbn. case_match; auto.
Qed.
Hint Resolve pi_reset_event pi_set_mac : vf.
Lemma pi_reset_msg : pins (ixgbe_vf_reset_msg v).
Proof using Sa.
  apply pi_vf. intros Hv Ho. unfold ixgbe_vf_reset_msg. apply ki_bind; [apply pi_reset_event|intros _]. apply pi_own. intros d _ Hd.
  apply ki_bind; [|intros _; pin]. destruct (negb _) eqn:Hz; [|apply ki_ret]. destruct Hd as [->|Hd]; [pin|]. by rewrite Hd in Hz.
Qed.
Lemma pi_mac_addr msg : pins (ixgbe_set_vf_mac_addr msg v).
Proof using Sa.
  unfold ixgbe_set_vf_mac_addr. cbv zeta. destruct (negb (is_valid_ether_addr _)) eqn:Hz; [apply ki_ret|]. apply pi_own. intros d -> Hd.
  destruct (bool_decide_reflect (vf_mac_addresses d = msg_mac msg)) as [Hm|Hm]; [|apply ki_ret]. cbn [negb andb].
  rewrite <- Hm in *. destruct Hd as [->|Hd]; [pin|]. by rewrite Hd in Hz.
Qed.
Hint Resolve pi_reset_msg pi_mac_addr : vf.
Lemma pi_store_hash msg i : length msg = 16%nat -> 0 <= i < 30 -> pins (store_hash msg v i).
Proof.
  intros Hl Hi. apply pi_vf. intros Hv Ho. unfold store_hash. apply pi_read; [done|]. intros d [Hd _]. destruct (message_hash msg i Hl Hi) as [x ->]. rewrite Hd, (proj2 (Z.ltb_lt i (Z.of_nat 30))) by lia.
  apply pi_update; [|by intros d'; split; [|left]]. intros d' [Hd' Hn]. split; [cbn; by rewrite length_insert|done].
Qed.
Lemma pi_multicasts msg : length msg = 16%nat -> pins (ixgbe_set_vf_multicasts msg v).
Proof.
  intros Hl. apply pi_vf. intros Hv Ho. pose proof (mc_entries msg) as He. unfold ixgbe_set_vf_multicasts. pin.
  - apply ki_for_each. intros i Hi%list_elem_of_In%elem_of_seqZ. apply pi_store_hash; [done|lia].
  - apply ki_for_each. intros i Hi%list_elem_of_In%elem_of_seqZ. unfold hashes_ok in *. pin.
Qed.
Lemma pi_leave_vlan vid : pins (leave_vlan vid).
Proof. unfold leave_vlan. pin. Qed.
Hint Resolve pi_leave_vlan : vf.
Lemma pi_vlan_msg msg : pins (ixgbe_set_vf_vlan_msg msg v).
Proof. apply pi_vf. intros Hv Ho. unfold ixgbe_set_vf_vlan_msg. pin. Qed.
Lemma pi_lpe max : pins (ixgbe_set_vf_lpe max v).
Proof. apply pi_vf. intros Hv Ho. unfold ixgbe_set_vf_lpe. pin. Qed.
Lemma pi_api msg : pins (ixgbe_negotiate_vf_api msg v).
Proof. unfold ixgbe_negotiate_vf_api. pin. Qed.
Lemma pi_queues msg : pins (ixgbe_get_vf_queues msg v).
Proof. apply pi_vf. intros Hv Ho. unfold ixgbe_get_vf_queues. pin. Qed.
Hint Resolve pi_multicasts pi_vlan_msg pi_lpe pi_api pi_queues : vf.

Lemma pi_free_list l : pins (free_macvlans v l).
Proof. induction l as [|e l IH]; cbn [free_macvlans]; [apply ki_ret|]. pin. Qed.
Lemma pinned_mvs l s : pinned v n o a S s -> pinned v n o a S (set_vf_mvs (Some l) s).
Proof. intros (((Hn & Hh & _) & Hr) & Ho & Ht). split; [|done]. split; [split; [done|split; [done|by exists l]]|done]. Qed.
(** With index 0 the message only gives extra filters back. *)
Lemma pi_macvlan addr : pins (ixgbe_set_vf_macvlan v 0 addr).
Proof.
  unfold ixgbe_set_vf_macvlan. apply ki_bind; [|intros _; apply ki_ret]. apply ki_bind; [|intros l].
  - intros s Hs. pose proof Hs as (((_ & _ & l & Hl) & _) & _). unfold macvlan_list. apply vwp_bind, vwp_get. rewrite Hl. by apply vwp_ret.
  - apply ki_bind; [apply pi_free_list|]. intros l' s Hs. apply vwp_modify. by apply pinned_mvs.
Qed.
Hint Resolve pi_macvlan : vf.
Lemma pi_macvlan_msg msg : pins (ixgbe_set_vf_macvlan_msg msg v).
Proof.
  unfold ixgbe_set_vf_macvlan_msg. cbv zeta. apply pi_own. intros d -> _. pose proof (msg_info_nonneg msg).
  destruct (msg_info msg >? 0) eqn:Hi; [apply ki_ret|]. replace (msg_info msg) with 0 by lia. change (truthy 0) with false. cbn [andb]. pin.
Qed.
Hint Resolve pi_macvlan_msg : vf.
Lemma pi_handle msg : length msg = 16%nat -> pins (handle_request msg v).
Proof using Sa. intros Hl. unfold handle_request. pin. Qed.
Hint Resolve pi_handle message_length : vf.
Lemma pi_rcv_msg stack : pins (ixgbe_rcv_msg_from_vf stack v).
Proof using Sa. apply pi_vf. intros Hv Ho. unfold ixgbe_rcv_msg_from_vf. pin. Qed.
Lemma pi_rcv_ack : pins (ixgbe_rcv_ack_from_vf v).
Proof. apply pi_vf. intros Hv Ho. unfold ixgbe_rcv_ack_from_vf. pin. Qed.
Hint Resolve pi_rcv_msg pi_rcv_ack : vf.
Lemma pi_msg_step stack : pins (msg_step stack v).
Proof using Sa. unfold msg_step. pin. Qed.
(** The steps of the other VFs leave this one alone. *)
Lemma pi_other stack i : 0 <= i < n -> pins (msg_step stack i).
Proof using Sa.
  intros Hi. destruct (decide (i = v)) as [->|Hne]; [apply pi_msg_step|]. intros s Hs. pose proof Hs as ((Ha & Hn & Ho & Hv) & Hov & (d & Hd & Hp & Hm) & Ht).
  eapply vwp_mono; [by apply (sv_msg_step i n o)|]. intros r s' K. cbn beta in K. split_and!; [|done|].
  - split_and!; [by eapply allocated_kept|destruct K; congruence..|lia|lia].
  - split.
    + exists d. split; [|done]. rewrite (ok_vfs _ _ _ K); [done|lia].
    + eapply (pool_kept _ _ _ _ _ (ok_table _ _ _ K)); [|done]. cbn. lia.
Qed.
End AdminHandlers.

(** ** Theorems *)
Section Theorems.
Context `{Netdev}.
Implicit Types (s : sriov) (stack : Z -> list Z).

Lemma vwp_run {A} (m : VM A) s h (Q : A -> sriov -> Prop) : vwp m s Q -> exists r s', (m s h).1 = Some (r, s') /\ Q r s'.
Proof. intros Hm. specialize (Hm h). destruct ((m s h).1) as [[r s']|]; [|done]. by exists r, s'. Qed.
Lemma ready_of vf s : allocated s -> 0 <= vf < num_vfs s -> ready vf (num_vfs s) (vmdq_offset s) s.
Proof. by intros Ha Hv. Qed.

(** Several rounds of the message task. *)
Fixpoint msg_rounds (stacks : list (Z -> list Z)) : VM () :=
  match stacks with [] => mret () | stack :: stacks => _ ← ixgbe_msg_task stack; msg_rounds stacks end.
Definition same_vfs n o s : Prop := allocated s /\ num_vfs s = n /\ vmdq_offset s = o.
Lemma step_same stack n o i : 0 <= i < n -> keeps_inv (same_vfs n o) (msg_step stack i).
Proof.
  intros Hi s (Ha & Hn & Ho). eapply vwp_mono; [by apply (sv_msg_step i n o)|]. intros r s' K. cbn beta in K.
  split_and!; [by eapply allocated_kept|destruct K; congruence..].
Qed.
Lemma rounds_keep (I : sriov -> Prop) stacks :
  (forall stack s, I s -> vwp (ixgbe_msg_task stack) s (fun _ => I)) -> keeps_inv I (msg_rounds stacks).
Proof.
  intros Hi. induction stacks as [|stack stacks IH]; cbn [msg_rounds]; [apply ki_ret|]. apply ki_bind; [|done]. intros s. apply Hi.
Qed.
Lemma rounds_same stacks n o : keeps_inv (same_vfs n o) (msg_rounds stacks).
Proof.
  apply rounds_keep. intros stack s Hs. apply vwp_bind, vwp_get. eapply vwp_mono; [apply ki_for_each; [|done]|done].
  intros i Hi%list_elem_of_In%elem_of_seqZ. destruct Hs as (_ & <- & _). apply step_same. lia.
Qed.
Lemma rounds_pinned stacks v n o a (S : list Z -> Prop) : S a -> keeps_inv (pinned v n o a S) (msg_rounds stacks).
Proof.
  intros Sa.
  apply rounds_keep. intros stack s Hs. apply vwp_bind, vwp_get. eapply vwp_mono; [apply ki_for_each; [|done]|done].
  intros i Hi%list_elem_of_In%elem_of_seqZ. apply pi_other; [done|]. destruct Hs as ((_ & <- & _) & _). lia.
Qed.

(** The administrator's address, and those that the pool received before. *)
Definition or_before (v : Z) (a : list Z) (t : list ixgbe_mac_addr) (x : list Z) : Prop := x = a \/ in_pool v t x.
Lemma pool_before v a t : pool_within v (or_before v a t) t.
Proof. apply List.Forall_forall. intros e He Hu Hq. right. by exists e. Qed.

Lemma set_mac_admin v a s d : allocated s -> 0 <= v < num_vfs s -> num_vfs s <= vmdq_offset s -> vfinfo s !! Z.to_nat v = Some d ->
  vwp (ixgbe_ndo_set_vf_mac v a) s (fun r s' => same_vfs (num_vfs s) (vmdq_offset s) s' /\
    (0 <= r -> pinned v (num_vfs s) (vmdq_offset s) a (or_before v a (mac_table s)) s')).
Proof.
  intros Ha Hv Ho Hd. set (S := or_before v a (mac_table s)). pose proof (pool_before v a (mac_table s)) as Hp. assert (S a) as Sa by (by left). fold S in Hp. clearbody S.
  unfold ixgbe_ndo_set_vf_mac. apply vwp_bind, vwp_get. destruct (_ || _); [apply vwp_ret; split; [done|unfold EINVAL; lia]|].
  unfold ixgbe_set_vf_mac. do 2 apply vwp_bind. eapply vwp_read; [exact Hd|]. apply vwp_bind, vwp_table. intros h1.
  pose proof (pool_del v S (vf_mac_addresses d) v (mac_table s) h1 Hp) as P1.
  set (t1 := (ixgbe_del_mac_filter (vf_mac_addresses d) v (mac_table s) h1).1.2) in *.
  apply vwp_bind, vwp_table. intros h2. cbn [mac_table set_mac_table]. pose proof (pool_add v a S Sa v t1 h2 P1) as P2.
  set (r := (ixgbe_add_mac_filter a v t1 h2).1.1). set (t2 := (ixgbe_add_mac_filter a v t1 h2).1.2) in *.
  apply vwp_bind. eapply vwp_update; [exact Hd|]. apply vwp_ret, vwp_bind. cbn [vfinfo set_mac_table].
  assert (Z.to_nat v < length (vfinfo s))%nat as Hlt by (by eapply lookup_lt_Some). destruct Ha as (Hn & Hh & Hl). assert (hashes_ok d) as Hok by (rewrite Forall_lookup in Hh; by eapply Hh).
  destruct (r >=? 0) eqn:Hr; [|apply vwp_ret, vwp_ret; split; [|lia]].
  - eapply vwp_update; [cbn; by apply list_lookup_insert_eq|]. apply vwp_ret.
    assert (same_vfs (num_vfs s) (vmdq_offset s) (set_vfinfo (<[Z.to_nat v := set_pf_set_mac true (set_vf_mac_addresses a d)]>
      (<[Z.to_nat v := set_vf_mac_addresses a d]> (vfinfo s))) (set_mac_table t2 (set_mac_table t1 s)))) as HS.
    { split_and!; [split; cbn; [by rewrite !length_insert|split; [apply Forall_insert; [by apply Forall_insert|done]|done]]|done..]. }
    split; [exact HS|]. intros _. split; [|split; [lia|split; cbn; [|done]]]; [split; [apply HS|done]|].
    eexists. split; [apply list_lookup_insert_eq; by rewrite length_insert|]. split; [done|by left].
  - split_and!; [split; cbn; [by rewrite length_insert|split; [by apply Forall_insert|done]]|done..].
Qed.

(** C33. Messages of VFs are isolated. On an adapter whose records are allocated (one per VF, each with its array of 30 multicast hashes, of which no more than 30
    are in use, and the list of extra filters, which the driver runs without when it cannot be allocated): whatever a VF writes into its mailbox and whatever the
    registers hold, handling its message makes no access outside the records of the VFs, the 30 hashes and the 16 words of the message, and ends; the records
    stay allocated, and no record, no address filter and no extra filter of another VF is changed. *)
Theorem vf_msg_isolated (stack : list Z) vf s h : allocated s -> 0 <= vf < num_vfs s ->
  exists r s', (ixgbe_rcv_msg_from_vf stack vf s h).1 = Some (r, s') /\ allocated s' /\ others_kept vf s s'.
Proof.
  intros Ha Hv. apply (vwp_run _ s h (fun _ s' => allocated s' /\ others_kept vf s s')). eapply vwp_mono; [exact (sv_rcv_msg vf _ _ stack s (ready_of vf s Ha Hv))|]. intros r s' K. cbn beta in K.
  split; [by eapply allocated_kept|done].
Qed.


Lemma lookup_repeat {A} (x : A) n i : (i < n)%nat -> repeat x n !! i = Some x.
Proof. revert i. induction n as [|n IH]; intros [|i] Hi; cbn; try lia; [done|]. apply IH. lia. Qed.
(** SR-IOV is on: a record per VF with spoof checking, a list of extra filters, and the PF in the pool after the VFs' pools. *)
Definition sriov_on (n : Z) s : Prop :=
  allocated s /\ num_vfs s = n /\ vmdq_offset s = n /\
  forall vf, 0 <= vf < n -> vfinfo s !! Z.to_nat vf = Some (set_spoofchk true vf_data0).
(** Switching SR-IOV on with the VFs asked for, at most 63 of them. *)
Theorem enable_sriov_ready s h pci_enable_sriov assigned : 0 < num_vfs s -> pci_enable_sriov (Z.min (num_vfs s) 63) = 0 ->
  exists u s', (ixgbe_enable_sriov 0 pci_enable_sriov true true assigned s h).1 = Some (u, s') /\
    sriov_on (Z.min (num_vfs s) 63) s' /\ mac_table s' = mac_table s.
Proof.
  intros Hn Hp. apply (vwp_run _ s h (fun _ s' => sriov_on (Z.min (num_vfs s) 63) s' /\ mac_table s' = mac_table s)).
  unfold ixgbe_enable_sriov. apply vwp_bind, vwp_get. change (truthy 0) with false. cbv zeta. cbn [negb andb].
  replace (truthy (num_vfs s)) with true by (unfold truthy; lia). cbn [negb]. rewrite Hp. change (truthy 0) with false. cbv iota.
  apply vwp_bind, vwp_lift. intros h1. apply vwp_bind, vwp_modify, vwp_bind, vwp_modify.
  apply vwp_bind, vwp_lift. intros []. apply vwp_modify. split; [|done]. split_and!; cbn; [|done|apply u16_small; lia|].
  - split; cbn; [rewrite repeat_length; lia|split; [|by eexists]]. apply List.Forall_forall. by intros x ->%repeat_spec.
  - intros vf Hv. apply lookup_repeat. lia.
Qed.

(** The commands of the administrator that test the number of the VF are safe for every number. *)
Theorem admin_commands_checked s h vf : allocated s -> num_vfs s <= 2 ^ 31 -> - 2 ^ 31 <= vf < 2 ^ 31 -> ~ 0 <= vf < num_vfs s -> forall a vlan qos rate,
  (ixgbe_ndo_set_vf_mac vf a s h).1 = Some (- EINVAL, s) /\ (ixgbe_ndo_set_vf_vlan vf vlan qos s h).1 = Some (- EINVAL, s) /\
  (ixgbe_ndo_set_vf_bw vf rate s h).1 = Some (- EINVAL, s) /\ (ixgbe_ndo_get_vf_config vf s h).1 = Some (inl (- EINVAL), s) /\
  (0 <= vf -> forall b, (ixgbe_ndo_set_vf_spoofchk vf b s h).1 = None).
Proof.
  intros (Hn & _ & Hl) Hb Hr Hv a vlan qos rate. assert (no_such_vf vf s = true) as Hno.
  { unfold no_such_vf, u32. apply Z.geb_le. destruct (decide (0 <= vf)); [rewrite Z.mod_small; lia|].
    rewrite <- (Z.mod_unique_pos vf (2 ^ 32) (-1) (vf + 2 ^ 32)); lia. }
  unfold ixgbe_ndo_set_vf_mac, ixgbe_ndo_set_vf_vlan, ixgbe_ndo_set_vf_bw, ixgbe_ndo_get_vf_config.
  unfold mbind, VM_bind, vget, mret, VM_ret, mbind, M_bind, mret, M_ret. rewrite !Hno, orb_true_r. split_and!; [done..|].
  intros H0 b. unfold ixgbe_ndo_set_vf_spoofchk. cbv zeta. unfold vf_update, vf_read, vget, mbind, VM_bind, mbind, M_bind, mret, M_ret, fault.
  by rewrite lookup_ge_None_2 by lia.
Qed.
End Theorems.

(** The rate factor is the quotient of the link speed and the rate with 14 binary places: no bit of it is cut
    off for the rates the command accepts, and the rate it gives is at least the one asked for and exceeds it by less
    than 1 part in 16000. *)
Theorem rate_factor_exact rate : 10 < rate <= 10000 ->
  exists q, rate_factor 10000 rate = IXGBE_RTTBCNRC_RS_ENA + q /\ 2 ^ 14 <= q < 2 ^ 28 /\
    q * rate <= 10000 * 2 ^ 14 < (q + 1) * rate.
Proof.
  intros Hr. exists (10000 * 2 ^ 14 / rate). unfold rate_factor. unfold truthy. replace (rate =? 0) with false by lia. cbn [negb]. cbv zeta.
  change (u32 (Z.shiftl (u32 10000) IXGBE_RTTBCNRC_RF_INT_SHIFT)) with (10000 * 2 ^ 14).
  change (Z.lor IXGBE_RTTBCNRC_RF_INT_MASK IXGBE_RTTBCNRC_RF_DEC_MASK) with (Z.ones 28).
  pose proof (Z.mul_div_le (10000 * 2 ^ 14) rate ltac:(lia)) as H1. pose proof (Z.mul_succ_div_gt (10000 * 2 ^ 14) rate ltac:(lia)) as H2.
  set (q := 10000 * 2 ^ 14 / rate) in *. assert (2 ^ 14 <= q < 2 ^ 28) as Hq by nia.
  rewrite Z.land_ones, Z.mod_small by lia. split_and!; [|lia..]. rewrite Z.lor_comm. change IXGBE_RTTBCNRC_RS_ENA with (1 * 2 ^ 31).
  rewrite <- Z.shiftl_mul_pow2, lor_shiftl_add by lia. done.
Qed.

(** ** Witnesses *)
#[local] Instance dev0 : Netdev := {|
  mtu := 1500; fcoe_mtu := false; promisc := false; allmulti := false; running := true; uc_addrs := []; mc_addrs := [];
  num_tc := 0; prio_tc_map := fun _ => 0; default_up := 0; active_vlan := fun _ => false; link_speed := IXGBE_LINK_SPEED_10GB_FULL; link_up := true
|}.
(** Three VFs and four free filters. *)
Definition three_vfs : sriov :=
  Sriov 3 (repeat (set_spoofchk true vf_data0) 3) (Some []) (repeat (MacAddr (repeat 0 6) 0 0) 4) 0 0 1 3 0x78 1 0 0 true 0.
Lemma three_allocated : allocated three_vfs.
Proof. split; [done|split; [by repeat constructor|by eexists]]. Qed.

Lemma vf_msg_isolated_witness :
  exists r s', (ixgbe_rcv_msg_from_vf [] 1 three_vfs four_hw).1 = Some (r, s') /\ allocated s' /\ others_kept 1 three_vfs s'.
Proof. apply (vf_msg_isolated [] 1 three_vfs four_hw three_allocated). cbn. lia. Defined.
Lemma admin_commands_checked_witness : (ixgbe_ndo_set_vf_mac 3 [2; 0; 0; 0; 0; 1] three_vfs four_hw).1 = Some (- EINVAL, three_vfs).
Proof. apply (admin_commands_checked three_vfs four_hw 3 three_allocated ltac:(cbn; lia) ltac:(lia) ltac:(cbn; lia) [2; 0; 0; 0; 0; 1] 0 0 0). Defined.
Lemma enable_sriov_ready_witness : exists u s', (ixgbe_enable_sriov 0 (fun _ => 0) true true false three_vfs four_hw).1 = Some (u, s') /\
  sriov_on 3 s' /\ mac_table s' = mac_table three_vfs.
Proof. apply (enable_sriov_ready three_vfs four_hw (fun _ => 0) false); done. Defined.
Lemma rate_factor_exact_witness : exists q, rate_factor 10000 3000 = IXGBE_RTTBCNRC_RS_ENA + q /\ 2 ^ 14 <= q < 2 ^ 28 /\
  q * 3000 <= 10000 * 2 ^ 14 < (q + 1) * 3000.
Proof. apply (rate_factor_exact 3000). lia. Defined.

(** The command does succeed on an adapter with free filters. *)
Example set_mac_succeeds : match (ixgbe_ndo_set_vf_mac 1 [2; 0; 0; 0; 0; 1] three_vfs four_hw).1 with
  | Some (r, s') => 0 <= r /\ map view (mac_table s') !! 0%nat = Some (true, [2; 0; 0; 0; 0; 1], 1)
  | None => False end.
Proof. vm_compute. split; [discriminate|reflexivity]. Qed.
