(* ===== verification/Queues.v ===== *)
(** * Queues, rings and interrupt vectors ([ixgbe_lib.c])

    From the features that are on (traffic classes, VMDq pools, RSS, flow director, FCoE) the driver computes how many
    receive and transmit queues it uses, spreads their rings over the interrupt vectors and gives every ring the
    hardware queue it drives. [QueuesSpec] shows that this gives each ring a hardware queue of its own.

    [None] is an access through a NULL pointer or past the end of [tx_ring], [rx_ring] or [q_vector]. The kernel
    configuration has [HAVE_TX_MQ], [IXGBE_FCOE] and [CONFIG_PCI_IOV]. The number of CPUs, the results of the allocations and of
    [pci_enable_msix] and [pci_enable_msi] are the kernel's and arguments here. *)
From S2P Require Import Prelude Hw Sriov.

(** ** Constants *)
Definition IXGBE_FLAG_MSI_CAPABLE : Z := Z.shiftl 1 0.
Definition IXGBE_FLAG_MSI_ENABLED : Z := Z.shiftl 1 1.
Definition IXGBE_FLAG_MQ_CAPABLE : Z := Z.shiftl 1 9.
Definition IXGBE_FLAG_SRIOV_CAPABLE : Z := Z.shiftl 1 19.
Definition IXGBE_FLAG_MSIX_CAPABLE : Z := Z.shiftl 1 2.
Definition IXGBE_FLAG_MSIX_ENABLED : Z := Z.shiftl 1 3.
Definition IXGBE_FLAG_DCB_ENABLED : Z := Z.shiftl 1 10.
Definition IXGBE_FLAG_FDIR_HASH_CAPABLE : Z := Z.shiftl 1 15.
Definition IXGBE_FLAG_FDIR_PERFECT_CAPABLE : Z := Z.shiftl 1 16.
Definition IXGBE_FLAG_FCOE_ENABLED : Z := Z.shiftl 1 18.
Definition IXGBE_MAX_VMDQ_INDICES : Z := 64.
Definition IXGBE_MAX_FDIR_INDICES : Z := 63.
Definition IXGBE_MAX_FCOE_INDICES : Z := 8.
Definition MAX_RX_QUEUES : Z := IXGBE_MAX_FDIR_INDICES + IXGBE_MAX_FCOE_INDICES.
Definition MAX_TX_QUEUES : Z := IXGBE_MAX_FDIR_INDICES + IXGBE_MAX_FCOE_INDICES.
Definition IXGBE_82599_VMDQ_8Q_MASK : Z := 0x78.
Definition IXGBE_82599_VMDQ_4Q_MASK : Z := 0x7C.
Definition IXGBE_82599_VMDQ_2Q_MASK : Z := 0x7E.
Definition IXGBE_RSS_16Q_MASK : Z := 0xF.
Definition IXGBE_RSS_8Q_MASK : Z := 0x7.
Definition IXGBE_RSS_4Q_MASK : Z := 0x3.
Definition IXGBE_RSS_2Q_MASK : Z := 0x1.
Definition IXGBE_RSS_DISABLED_MASK : Z := 0x0.
Definition NON_Q_VECTORS : Z := 1 + 0.
Definition MAX_MSIX_Q_VECTORS : Z := 64.
Definition MIN_MSIX_COUNT : Z := 1 + NON_Q_VECTORS.
Definition IXGBE_10K_ITR : Z := 400.
Definition IXGBE_20K_ITR : Z := 200.
Definition IXGBE_TXD_CMD_DEXT : Z := 0x20000000.
Definition IXGBE_ADVTXD_DTYP_CTXT : Z := 0x00200000.
Definition ENOMEM : Z := 12.
Definition __ALIGN_MASK (x mask : Z) : Z := Z.land (x + mask) (Z.lnot mask).

(** ** Data *)

(** A ring; [r_vector] is the vector that owns its memory. *)
Record ixgbe_ring := Ring {
  r_vector : Z; r_count : Z; queue_index : Z; reg_idx : Z; dcb_tc : Z; rx_fcoe : bool; rx_csum_udp_zero : bool; next_to_use : Z
}.
Definition set_reg_idx v r := Ring (r_vector r) (r_count r) (queue_index r) v (dcb_tc r) (rx_fcoe r) (rx_csum_udp_zero r) (next_to_use r).
Definition set_dcb_tc v r := Ring (r_vector r) (r_count r) (queue_index r) (reg_idx r) v (rx_fcoe r) (rx_csum_udp_zero r) (next_to_use r).
Definition set_next_to_use v r := Ring (r_vector r) (r_count r) (queue_index r) (reg_idx r) (dcb_tc r) (rx_fcoe r) (rx_csum_udp_zero r) v.

(** The rings of a vector, by queue index, in the order of the linked list. *)
Record ixgbe_q_vector := QVector { v_idx : Z; itr : Z; tx_work : Z; rx_work : Z; tx_list : list Z; rx_list : list Z }.

Record ring_feature := Feature { f_limit : Z; f_indices : Z; f_offset : Z }.
Record counts := Counts { num_rx_queues : Z; num_tx_queues : Z; num_rx_pools : Z; num_rx_queues_per_pool : Z }.
(** The traffic classes of the network device. *)
Record netdev_tc := Tc { num_tcs : Z; prio_map : Z -> Z; tc_to_txq : Z -> Z * Z }.
Record settings := Settings {
  tx_itr_setting : Z; rx_itr_setting : Z; tx_work_limit : Z; rx_work_limit : Z; tx_ring_count : Z; rx_ring_count : Z;
  atr_sample_rate : Z; fcoe_up : Z; dev_num_tx_queues : Z; max_msix_vectors : Z; max_q_vectors : Z; last_lfc_mode : ixgbe_fc_mode
}.

(** The adapter. Flags, the limit, offset and mask of VMDq and the limit of RSS are in the part [ad] that SR-IOV shares. *)
Record adapter := Adapter {
  ad : sriov; vmdq_indices : Z; rss : Z * Z; fdir : Z * Z; fcoe : ring_feature; cnt : counts; tc : netdev_tc; opts : settings;
  num_q_vectors : Z; msix_entries : bool; pfc_mode : bool; temp_pfc_mode : bool; down : bool;
  tx_ring : list (option ixgbe_ring); rx_ring : list (option ixgbe_ring); q_vector : list (option ixgbe_q_vector)
}.
(** [ring_feature[RING_F_RSS]]: indices and mask; [ring_feature[RING_F_FDIR]]: limit and indices. *)
Definition rss_indices a := (rss a).1.
Definition rss_mask a := (rss a).2.
Definition fdir_limit a := (fdir a).1.

Definition set_ad v a := Adapter v (vmdq_indices a) (rss a) (fdir a) (fcoe a) (cnt a) (tc a) (opts a) (num_q_vectors a) (msix_entries a) (pfc_mode a) (temp_pfc_mode a) (down a) (tx_ring a) (rx_ring a) (q_vector a).
Definition set_vmdq_indices v a := Adapter (ad a) v (rss a) (fdir a) (fcoe a) (cnt a) (tc a) (opts a) (num_q_vectors a) (msix_entries a) (pfc_mode a) (temp_pfc_mode a) (down a) (tx_ring a) (rx_ring a) (q_vector a).
Definition set_rss i m a := Adapter (ad a) (vmdq_indices a) (i, m) (fdir a) (fcoe a) (cnt a) (tc a) (opts a) (num_q_vectors a) (msix_entries a) (pfc_mode a) (temp_pfc_mode a) (down a) (tx_ring a) (rx_ring a) (q_vector a).
Definition set_fdir l i a := Adapter (ad a) (vmdq_indices a) (rss a) (l, i) (fcoe a) (cnt a) (tc a) (opts a) (num_q_vectors a) (msix_entries a) (pfc_mode a) (temp_pfc_mode a) (down a) (tx_ring a) (rx_ring a) (q_vector a).
Definition set_fcoe i o a := Adapter (ad a) (vmdq_indices a) (rss a) (fdir a) (Feature (f_limit (fcoe a)) i o) (cnt a) (tc a) (opts a) (num_q_vectors a) (msix_entries a) (pfc_mode a) (temp_pfc_mode a) (down a) (tx_ring a) (rx_ring a) (q_vector a).
Definition set_cnt v a := Adapter (ad a) (vmdq_indices a) (rss a) (fdir a) (fcoe a) v (tc a) (opts a) (num_q_vectors a) (msix_entries a) (pfc_mode a) (temp_pfc_mode a) (down a) (tx_ring a) (rx_ring a) (q_vector a).
Definition set_tc v a := Adapter (ad a) (vmdq_indices a) (rss a) (fdir a) (fcoe a) (cnt a) v (opts a) (num_q_vectors a) (msix_entries a) (pfc_mode a) (temp_pfc_mode a) (down a) (tx_ring a) (rx_ring a) (q_vector a).
Definition set_vectors n m a := Adapter (ad a) (vmdq_indices a) (rss a) (fdir a) (fcoe a) (cnt a) (tc a) (opts a) n m (pfc_mode a) (temp_pfc_mode a) (down a) (tx_ring a) (rx_ring a) (q_vector a).
Definition set_pfc_modes v a := Adapter (ad a) (vmdq_indices a) (rss a) (fdir a) (fcoe a) (cnt a) (tc a) (opts a) (num_q_vectors a) (msix_entries a) v v (down a) (tx_ring a) (rx_ring a) (q_vector a).
Definition set_down v a := Adapter (ad a) (vmdq_indices a) (rss a) (fdir a) (fcoe a) (cnt a) (tc a) (opts a) (num_q_vectors a) (msix_entries a) (pfc_mode a) (temp_pfc_mode a) v (tx_ring a) (rx_ring a) (q_vector a).
Definition set_rings t r a := Adapter (ad a) (vmdq_indices a) (rss a) (fdir a) (fcoe a) (cnt a) (tc a) (opts a) (num_q_vectors a) (msix_entries a) (pfc_mode a) (temp_pfc_mode a) (down a) t r (q_vector a).
Definition set_q_vector v a := Adapter (ad a) (vmdq_indices a) (rss a) (fdir a) (fcoe a) (cnt a) (tc a) (opts a) (num_q_vectors a) (msix_entries a) (pfc_mode a) (temp_pfc_mode a) (down a) (tx_ring a) (rx_ring a) v.

Definition aflag (f : Z) (a : adapter) : bool := truthy (Z.land (flags (ad a)) f).
Definition flag_on (f : Z) (a : adapter) : adapter := set_ad (set_flags (Z.lor (flags (ad a)) f) (ad a)) a.
Definition flag_off (f : Z) (a : adapter) : adapter := set_ad (set_flags (Z.ldiff (flags (ad a)) f) (ad a)) a.
Definition rxq a := num_rx_queues (cnt a).
Definition txq a := num_tx_queues (cnt a).
Definition tcs a := num_tcs (tc a).
(** [ixgbe_fcoe_get_tc] *)
Definition ixgbe_fcoe_get_tc (a : adapter) : Z := prio_map (tc a) (fcoe_up (opts a)).
Definition min_t16 (x y : Z) : Z := Z.min (u16 x) (u16 y).
Definition max_t16 (x y : Z) : Z := Z.max (u16 x) (u16 y).

(** Write through the pointers [rings[i]]. *)
Definition put {A} (rings : list (option A)) (i : Z) (f : A -> A) : option (list (option A)) :=
  match rings !! Z.to_nat i with Some (Some r) => Some (<[Z.to_nat i := Some (f r)]> rings) | _ => None end.
Definition put_reg (rings : list (option ixgbe_ring)) (i v : Z) := put rings i (set_reg_idx (u8 v)).

(** ** Rings and registers *)

(** [reg_idx] runs through the queues of a pool and moves on to the next pool when [(reg_idx & low) >= n]. The loop is left
    at the ring after [stop], when that is not 0. It returns the ring and the register it stopped at. *)
Fixpoint pool_loop (fuel : nat) (low mask n stop : Z) (i reg : Z) (rings : list (option ixgbe_ring)) : option (Z * Z * list (option ixgbe_ring)) :=
  match fuel with
  | O => Some (i, reg, rings)
  | S fuel =>
      if truthy stop && (i >? stop) then Some (i, reg, rings)
      else
        let reg := if Z.land reg low >=? n then u16 (__ALIGN_MASK reg (Z.lnot mask)) else reg in
        rings ← put_reg rings i reg;
        pool_loop fuel low mask n stop (i + 1) (u16 (reg + 1)) rings
  end.
(** [reg(i)] for each of the rings [i], [i + 1], ... *)
Fixpoint each_ring (fuel : nat) (reg : Z -> Z) (i : Z) (rings : list (option ixgbe_ring)) : option (list (option ixgbe_ring)) :=
  match fuel with O => Some rings | S fuel => rings ← put_reg rings i (reg i); each_ring fuel reg (i + 1) rings end.
(** The FCoE rings: queue [fcoe_tc] of one pool after the other. *)
Fixpoint fcoe_loop (fuel : nat) (mask fcoe_tc i reg : Z) (rings : list (option ixgbe_ring)) : option (list (option ixgbe_ring)) :=
  match fuel with
  | O => Some rings
  | S fuel =>
      let reg := u16 (__ALIGN_MASK reg (Z.lnot mask) + fcoe_tc) in
      rings ← put_reg rings i reg;
      fcoe_loop fuel mask fcoe_tc (i + 1) (u16 (reg + 1)) rings
  end.

(** Each of the [cache_ring] functions returns the adapter and whether it applies. *)
Definition ixgbe_cache_ring_dcb_vmdq (mac : mac_type) (a : adapter) : option (bool * adapter) :=
  let mask := vmdq_mask (ad a) in
  let nrx := Z.to_nat (rxq a) in
  let ntx := Z.to_nat (txq a) in
  if tcs a <=? 1 then Some (false, a)
  else if negb (aflag IXGBE_FLAG_VMDQ_ENABLED a) then Some (false, a)
  else
    a ← match mac with
        | ixgbe_mac_82598EB =>
            rx ← each_ring nrx (fun i => Z.land (Z.lor (Z.shiftr i 3) (Z.shiftl i 3)) 0x3F) 0 (rx_ring a);
            tx ← each_ring ntx (fun i => Z.land (Z.lor (Z.shiftr i 4) (Z.shiftl i 2)) 0x1F) 0 (tx_ring a);
            Some (set_rings tx rx a)
        | ixgbe_mac_82599EB | ixgbe_mac_X540 =>
            let reg := u16 (vmdq_offset (ad a) * __ALIGN_MASK 1 (Z.lnot mask)) in
            rx ← pool_loop nrx (Z.lnot mask) mask (tcs a) 0 0 reg (rx_ring a);
            tx ← pool_loop ntx (Z.lnot mask) mask (tcs a) 0 0 reg (tx_ring a);
            Some (set_rings tx.2 rx.2 a)
        | _ => Some a
        end;
    if negb (aflag IXGBE_FLAG_FCOE_ENABLED a) then Some (true, a)
    else if f_offset (fcoe a) <? tcs a then Some (true, a)
    else if truthy (f_indices (fcoe a)) then
      let queues_per_pool := u16 (__ALIGN_MASK 1 (Z.lnot mask)) in
      let fcoe_tc := u8 (ixgbe_fcoe_get_tc a) in
      let reg := u16 ((vmdq_offset (ad a) + vmdq_indices a) * queues_per_pool) in
      rx ← fcoe_loop (Z.to_nat (rxq a - f_offset (fcoe a))) mask fcoe_tc (f_offset (fcoe a)) reg (rx_ring a);
      tx ← fcoe_loop (Z.to_nat (txq a - f_offset (fcoe a))) mask fcoe_tc (f_offset (fcoe a)) reg (tx_ring a);
      Some (true, set_rings tx rx a)
    else Some (true, a).

(** The first transmit and receive registers of a traffic class. *)
Definition ixgbe_get_first_reg_idx (mac : mac_type) (num_tcs tc : Z) : Z * Z :=
  match mac with
  | ixgbe_mac_82598EB => (Z.shiftl tc 2, Z.shiftl tc 3)
  | ixgbe_mac_82599EB | ixgbe_mac_X540 =>
      if num_tcs >? 4 then
        (if tc <? 3 then Z.shiftl tc 5 else if tc <? 5 then Z.shiftl (tc + 2) 4 else Z.shiftl (tc + 8) 3, Z.shiftl tc 4)
      else (if tc <? 2 then Z.shiftl tc 6 else Z.shiftl (tc + 4) 4, Z.shiftl tc 5)
  | _ => (0, 0)
  end.

Fixpoint tc_rings (fuel : nat) (tc i tx_idx rx_idx : Z) (a : adapter) : option adapter :=
  match fuel with
  | O => Some a
  | S fuel =>
      tx ← put (tx_ring a) i (fun r => set_dcb_tc (u8 tc) (set_reg_idx (u8 tx_idx) r));
      rx ← put (rx_ring a) i (fun r => set_dcb_tc (u8 tc) (set_reg_idx (u8 rx_idx) r));
      tc_rings fuel tc (i + 1) (tx_idx + 1) (rx_idx + 1) (set_rings tx rx a)
  end.
Fixpoint tc_loop (fuel : nat) (mac : mac_type) (rss_i tc offset : Z) (a : adapter) : option adapter :=
  match fuel with
  | O => Some a
  | S fuel =>
      let '(tx_idx, rx_idx) := ixgbe_get_first_reg_idx mac (tcs a) (u8 tc) in
      a ← tc_rings (Z.to_nat rss_i) tc offset tx_idx rx_idx a;
      tc_loop fuel mac rss_i (tc + 1) (offset + rss_i) a
  end.
Definition ixgbe_cache_ring_dcb (mac : mac_type) (a : adapter) : option (bool * adapter) :=
  if tcs a <=? 1 then Some (false, a)
  else a ← tc_loop (Z.to_nat (tcs a)) mac (rss_indices a) 0 0 a; Some (true, a).

(** The rings of one direction with VMDq: pools first, then a linear block for FCoE. *)
Definition vmdq_rings (n : Z) (low : Z) (a : adapter) (rings : list (option ixgbe_ring)) : option (list (option ixgbe_ring)) :=
  let mask := vmdq_mask (ad a) in
  let reg := u16 (vmdq_offset (ad a) * __ALIGN_MASK 1 (Z.lnot mask)) in
  r ← pool_loop (Z.to_nat n) low mask (rss_indices a) (f_offset (fcoe a)) 0 reg rings;
  let '(i, reg, rings) := r in
  each_ring (Z.to_nat (n - i)) (fun j => u16 (reg + (j - i))) i rings.
Definition ixgbe_cache_ring_vmdq (a : adapter) : option (bool * adapter) :=
  if negb (aflag IXGBE_FLAG_VMDQ_ENABLED a) then Some (false, a)
  else
    rx ← vmdq_rings (rxq a) (Z.lnot (vmdq_mask (ad a))) a (rx_ring a);
    tx ← vmdq_rings (txq a) (rss_mask a) a (tx_ring a);
    Some (true, set_rings tx rx a).

Definition ixgbe_cache_ring_rss (a : adapter) : option (bool * adapter) :=
  rx ← each_ring (Z.to_nat (rxq a)) (fun i => i) 0 (rx_ring a);
  tx ← each_ring (Z.to_nat (txq a)) (fun i => i) 0 (tx_ring a);
  Some (true, set_rings tx rx a).

Definition ixgbe_cache_ring_register (mac : mac_type) (a : adapter) : option adapter :=
  r ← ixgbe_cache_ring_dcb_vmdq mac a;
  if r.1 : bool then Some r.2
  else
    r ← ixgbe_cache_ring_dcb mac r.2;
    if r.1 : bool then Some r.2
    else
      r ← ixgbe_cache_ring_vmdq r.2;
      if r.1 : bool then Some r.2 else r ← ixgbe_cache_ring_rss r.2; Some r.2.

(** ** Numbers of queues *)

(** The kernel's [netdev_set_tc_queue] *)
Definition netdev_set_tc_queue (a : adapter) (i count offset : Z) : adapter :=
  let t := tc a in
  set_tc (Tc (num_tcs t) (prio_map t) (fun j => if j =? i then (count, offset) else tc_to_txq t j)) a.
Definition set_tc_queues (n count : Z) (offset : Z -> Z) (a : adapter) : adapter :=
  fold_left (fun a i => netdev_set_tc_queue a i count (offset i)) (seqZ 0 n) a.
Definition set_vmdq_feature (i m : Z) (a : adapter) : adapter := set_vmdq_indices i (set_ad (set_vmdq_mask m (ad a)) a).
Definition add_queues (n : Z) (a : adapter) : adapter :=
  set_cnt (Counts (rxq a + n) (txq a + n) (num_rx_pools (cnt a)) (num_rx_queues_per_pool (cnt a))) a.

Section Counts.
Context (mac : mac_type) (num_online_cpus : Z).

(** Pools (offset included), mask, pools left for FCoE and traffic classes of the combined DCB and VMDq mode. *)
Definition dcb_vmdq_layout (a : adapter) : Z * Z * Z * Z :=
  let vmdq_i := vmdq_limit (ad a) in
  match mac with
  | ixgbe_mac_82598EB => (min_t16 vmdq_i 4, 0x7, 0, tcs a)
  | ixgbe_mac_82599EB | ixgbe_mac_X540 =>
      let vmdq_i := u16 (vmdq_i + vmdq_offset (ad a)) in
      let vmdq_i := if tcs a >? 4 then min_t16 vmdq_i 16 else min_t16 vmdq_i 32 in
      let vmdq_m := if tcs a >? 4 then IXGBE_82599_VMDQ_8Q_MASK else IXGBE_82599_VMDQ_4Q_MASK in
      let fcoe_i := u16 (128 /c __ALIGN_MASK 1 (Z.lnot vmdq_m) - vmdq_i) in
      (u16 (vmdq_i - vmdq_offset (ad a)), vmdq_m, fcoe_i, tcs a)
  | _ => (1, 0, 0, 1)
  end.
Definition ixgbe_set_dcb_vmdq_queues (a : adapter) : option adapter :=
  if tcs a <=? 1 then None
  else if negb (aflag IXGBE_FLAG_VMDQ_ENABLED a) then None
  else
    let '(vmdq_i, vmdq_m, fcoe_i, tcs) := dcb_vmdq_layout a in
    let a := set_rss 1 IXGBE_RSS_DISABLED_MASK (set_vmdq_feature vmdq_i vmdq_m a) in
    let a := flag_off IXGBE_FLAG_FDIR_HASH_CAPABLE (set_cnt (Counts (vmdq_i * tcs) (vmdq_i * tcs) vmdq_i tcs) a) in
    let a :=
      if aflag IXGBE_FLAG_FCOE_ENABLED a then
        let fcoe_i := min_t16 fcoe_i (f_limit (fcoe a)) in
        if truthy fcoe_i then add_queues fcoe_i (set_fcoe fcoe_i (u16 (vmdq_i * tcs)) a)
        else if tcs >? 1 then set_fcoe 1 (u8 (ixgbe_fcoe_get_tc a)) a
        else set_fcoe 0 0 (flag_off IXGBE_FLAG_FCOE_ENABLED a)
      else a in
    Some (set_tc_queues tcs 1 (fun i => i) a).

Definition ixgbe_set_dcb_queues (a : adapter) : option adapter :=
  let tcs := tcs a in
  if tcs <=? 1 then None
  else
    let rss_i := dev_num_tx_queues (opts a) /c tcs in
    let '(rss_i, rss_m) :=
      if bool_decide (mac = ixgbe_mac_82598EB) then (min_t16 rss_i 4, IXGBE_RSS_4Q_MASK)
      else if tcs >? 4 then (min_t16 rss_i 8, IXGBE_RSS_8Q_MASK)
      else (min_t16 rss_i 16, IXGBE_RSS_16Q_MASK) in
    let rss_i := min_t16 rss_i (rss_limit (ad a)) in
    let a := flag_off IXGBE_FLAG_FDIR_HASH_CAPABLE (set_rss rss_i rss_m a) in
    let a :=
      if aflag IXGBE_FLAG_FCOE_ENABLED a then
        set_fcoe (min_t16 rss_i (f_limit (fcoe a))) (u16 (rss_i * u8 (ixgbe_fcoe_get_tc a))) a
      else a in
    let a := set_tc_queues tcs rss_i (fun i => rss_i * i) a in
    Some (set_cnt (Counts (rss_i * tcs) (rss_i * tcs) (num_rx_pools (cnt a)) (num_rx_queues_per_pool (cnt a))) a).

(** Pools (without the offset), their mask, RSS queues and mask, and queues left for FCoE. *)
Definition vmdq_layout (a : adapter) : Z * Z * Z * Z * Z :=
  let vmdq_i := vmdq_limit (ad a) in
  let rss_i := rss_limit (ad a) in
  match mac with
  | ixgbe_mac_82598EB =>
      let vmdq_i := min_t16 vmdq_i 16 in
      if (vmdq_i >? 4) || (rss_i =? 1) then (vmdq_i, 0x0F, 1, IXGBE_RSS_DISABLED_MASK, 0)
      else (vmdq_i, 0x18, min_t16 rss_i 8, IXGBE_RSS_8Q_MASK, 0)
  | ixgbe_mac_82599EB | ixgbe_mac_X540 =>
      let vmdq_i := u16 (vmdq_i + vmdq_offset (ad a)) in
      let vmdq_i := min_t16 IXGBE_MAX_VMDQ_INDICES vmdq_i in
      let '(vmdq_m, rss_m, rss_i) :=
        if (vmdq_i >? 32) || (rss_i <? 4) then (IXGBE_82599_VMDQ_2Q_MASK, IXGBE_RSS_2Q_MASK, min_t16 rss_i 2)
        else (IXGBE_82599_VMDQ_4Q_MASK, IXGBE_RSS_4Q_MASK, 4) in
      let fcoe_i := u16 (128 - vmdq_i * __ALIGN_MASK 1 (Z.lnot vmdq_m)) in
      (u16 (vmdq_i - vmdq_offset (ad a)), vmdq_m, rss_i, rss_m, fcoe_i)
  | _ => (1, 0, 1, IXGBE_RSS_DISABLED_MASK, 0)
  end.
Definition ixgbe_set_vmdq_queues (a : adapter) : option adapter :=
  if negb (aflag IXGBE_FLAG_VMDQ_ENABLED a) then None
  else
    let '(vmdq_i, vmdq_m, rss_i, rss_m, fcoe_i) := vmdq_layout a in
    let a := set_rss rss_i rss_m (set_vmdq_feature vmdq_i vmdq_m a) in
    let a := flag_off IXGBE_FLAG_FDIR_HASH_CAPABLE (set_cnt (Counts (vmdq_i * rss_i) (vmdq_i * rss_i) vmdq_i rss_i) a) in
    Some (if aflag IXGBE_FLAG_FCOE_ENABLED a then
            let fcoe_i := min_t16 fcoe_i (f_limit (fcoe a)) in
            if (vmdq_i >? 1) && truthy fcoe_i then add_queues fcoe_i (set_fcoe fcoe_i (u16 (vmdq_i * rss_i)) a)
            else
              let fcoe_i := min_t16 (fcoe_i + rss_i) num_online_cpus in
              let fcoe_i := if negb (aflag IXGBE_FLAG_MSIX_ENABLED a) then rss_i else fcoe_i in
              let indices := min_t16 fcoe_i (f_limit (fcoe a)) in
              add_queues (u16 (fcoe_i - rss_i)) (set_fcoe indices (u16 (fcoe_i - indices)) a)
          else a).

Definition ixgbe_set_rss_queues (a : adapter) : adapter :=
  let rss_i := rss_limit (ad a) in
  let a := flag_off IXGBE_FLAG_FDIR_HASH_CAPABLE (set_rss rss_i IXGBE_RSS_16Q_MASK a) in
  let '(rss_i, a) :=
    if (rss_i >? 1) && truthy (atr_sample_rate (opts a)) then
      let a := set_fdir (fdir_limit a) (fdir_limit a) a in
      (fdir_limit a, if negb (aflag IXGBE_FLAG_FDIR_PERFECT_CAPABLE a) then flag_on IXGBE_FLAG_FDIR_HASH_CAPABLE a else a)
    else (rss_i, a) in
  let '(rss_i, a) :=
    if aflag IXGBE_FLAG_FCOE_ENABLED a then
      let fcoe_i := min_t16 (f_limit (fcoe a) + rss_i) num_online_cpus in
      let fcoe_i := min_t16 fcoe_i (dev_num_tx_queues (opts a)) in
      let fcoe_i := if negb (aflag IXGBE_FLAG_MSIX_ENABLED a) then rss_i else fcoe_i in
      let indices := min_t16 fcoe_i (f_limit (fcoe a)) in
      (max_t16 fcoe_i rss_i, set_fcoe indices (u16 (fcoe_i - indices)) a)
    else (rss_i, a) in
  set_cnt (Counts rss_i rss_i (num_rx_pools (cnt a)) (num_rx_queues_per_pool (cnt a))) a.

Definition ixgbe_set_num_queues (a : adapter) : adapter :=
  let a := set_cnt (Counts 1 1 1 1) a in
  match ixgbe_set_dcb_vmdq_queues a with
  | Some a => a
  | None =>
      match ixgbe_set_dcb_queues a with
      | Some a => a
      | None => match ixgbe_set_vmdq_queues a with Some a => a | None => ixgbe_set_rss_queues a end
      end
  end.
End Counts.

(** ** Interrupt vectors *)

(** The number of vectors [pci_enable_msix] grants: 0 is success, a negative value a failure, another the number to try next. *)
Fixpoint acquire_loop (fuel : nat) (pci_enable_msix : Z -> Z) (vectors : Z) : option Z :=
  if vectors >=? MIN_MSIX_COUNT then
    match fuel with
    | O => None
    | S fuel =>
        let err := pci_enable_msix vectors in
        if err =? 0 then Some vectors else acquire_loop fuel pci_enable_msix (if err <? 0 then 0 else err)
    end
  else Some vectors.
Definition ixgbe_acquire_msix_vectors (pci_enable_msix : Z -> Z) (vectors : Z) (a : adapter) : option adapter :=
  vectors ← acquire_loop (Z.to_nat vectors) pci_enable_msix vectors;
  Some (if vectors <? MIN_MSIX_COUNT then set_vectors (num_q_vectors a) false (flag_off IXGBE_FLAG_MSIX_ENABLED a)
        else set_vectors (Z.min (vectors - NON_Q_VECTORS) (max_q_vectors (opts a))) (msix_entries a) (flag_on IXGBE_FLAG_MSIX_ENABLED a)).

Definition qv_itr (txr_count rxr_count : Z) (a : adapter) : Z :=
  if truthy txr_count && negb (truthy rxr_count)
  then if tx_itr_setting (opts a) =? 1 then IXGBE_10K_ITR else tx_itr_setting (opts a)
  else if rx_itr_setting (opts a) =? 1 then IXGBE_20K_ITR else rx_itr_setting (opts a).

(** [rings[i] = ring] *)
Definition store {A} (rings : list (option A)) (i : Z) (r : option A) : option (list (option A)) :=
  if bool_decide (Z.to_nat i < length rings)%nat then Some (<[Z.to_nat i := r]> rings) else None.
(** The rings of one direction for vector [v]: [count] of them, from [idx] on in steps of [v_count]; [new i] is a
    ring, [linked] the list of the vector (the last ring first). *)
Fixpoint add_rings (count : nat) (v_count idx : Z) (new : Z -> ixgbe_ring) (linked : list Z) (rings : list (option ixgbe_ring)) :
    option (list Z * list (option ixgbe_ring)) :=
  match count with
  | O => Some (linked, rings)
  | S count => rings ← store rings idx (Some (new idx)); add_rings count v_count (idx + v_count) new (u8 idx :: linked) rings
  end.

Section Vectors.
Context (mac : mac_type) (alloc : Z -> bool).
Definition new_tx_ring (v : Z) (a : adapter) (i : Z) : ixgbe_ring := Ring v (u16 (tx_ring_count (opts a))) (u8 i) 0 0 false false 0.
Definition new_rx_ring (v : Z) (a : adapter) (i : Z) : ixgbe_ring :=
  Ring v (u16 (rx_ring_count (opts a))) (u8 i) 0 0
    (aflag IXGBE_FLAG_FCOE_ENABLED a && (i >=? f_offset (fcoe a)) && (i <? f_offset (fcoe a) + f_indices (fcoe a)))
    (bool_decide (mac = ixgbe_mac_82599EB)) 0.

Definition ixgbe_alloc_q_vector (v_count v txr_count txr_idx rxr_count rxr_idx : Z) (a : adapter) : option (Z * adapter) :=
  if negb (alloc v) then Some (- ENOMEM, a)
  else
    tx ← add_rings (Z.to_nat txr_count) v_count txr_idx (new_tx_ring v a) [] (tx_ring a);
    rx ← add_rings (Z.to_nat rxr_count) v_count rxr_idx (new_rx_ring v a) [] (rx_ring a);
    qs ← store (q_vector a) v (Some (QVector v (u16 (qv_itr txr_count rxr_count a)) (tx_work_limit (opts a)) (rx_work_limit (opts a)) tx.1 rx.1));
    Some (0, set_q_vector qs (set_rings tx.2 rx.2 a)).

(** Forget the rings of a list. *)
Fixpoint drop_rings (l : list Z) (rings : list (option ixgbe_ring)) : option (list (option ixgbe_ring)) :=
  match l with [] => Some rings | i :: l => rings ← store rings i None; drop_rings l rings end.
Definition ixgbe_free_q_vector (v : Z) (a : adapter) : option adapter :=
  match q_vector a !! Z.to_nat v with
  | Some (Some qv) =>
      tx ← drop_rings (tx_list qv) (tx_ring a);
      rx ← drop_rings (rx_list qv) (rx_ring a);
      qs ← store (q_vector a) v None;
      Some (set_q_vector qs (set_rings tx rx a))
  | _ => None
  end.
(** [while (v_idx--) ixgbe_free_q_vector (v_idx)] *)
Fixpoint free_loop (v : nat) (a : adapter) : option adapter :=
  match v with O => Some a | S v => a ← ixgbe_free_q_vector (Z.of_nat v) a; free_loop v a end.
Definition no_queues (a : adapter) : adapter :=
  set_vectors 0 (msix_entries a) (set_cnt (Counts 0 0 (num_rx_pools (cnt a)) (num_rx_queues_per_pool (cnt a))) a).
Definition ixgbe_free_q_vectors (a : adapter) : option adapter := free_loop (Z.to_nat (num_q_vectors a)) (no_queues a).

Definition DIV_ROUND_UP (n d : Z) : Z := (n + d - 1) / d.

(** The loops of [ixgbe_alloc_q_vectors]: one vector per receive ring, then vectors with a share of what is left. They stop with
    [(1, v, a)] when vector [v] cannot be allocated. *)
Fixpoint rx_only_loop (fuel : nat) (q_vectors v rxr_idx : Z) (a : adapter) : option (Z * Z * adapter) :=
  match fuel with
  | O => Some (0, v, a)
  | S fuel =>
      r ← ixgbe_alloc_q_vector q_vectors v 0 0 1 rxr_idx a;
      if truthy r.1 then Some (1, v, r.2) else rx_only_loop fuel q_vectors (v + 1) (rxr_idx + 1) r.2
  end.
Fixpoint share_loop (fuel : nat) (q_vectors v txr_idx txr rxr_idx rxr : Z) (a : adapter) : option (Z * Z * adapter) :=
  match fuel with
  | O => Some (0, v, a)
  | S fuel =>
      let rqpv := DIV_ROUND_UP rxr (q_vectors - v) in
      let tqpv := DIV_ROUND_UP txr (q_vectors - v) in
      r ← ixgbe_alloc_q_vector q_vectors v tqpv txr_idx rqpv rxr_idx a;
      if truthy r.1 then Some (1, v, r.2)
      else share_loop fuel q_vectors (v + 1) (txr_idx + 1) (txr - tqpv) (rxr_idx + 1) (rxr - rqpv) r.2
  end.
Definition ixgbe_alloc_q_vectors (a : adapter) : option (Z * adapter) :=
  let q_vectors := num_q_vectors a in
  let rx_only := q_vectors >=? rxq a + txq a in
  r ← (if rx_only then rx_only_loop (Z.to_nat (rxq a)) q_vectors 0 0 a else Some (0, 0, a));
  let '(err, v, a') := r in
  r ← (if truthy err then Some r
       else share_loop (Z.to_nat (q_vectors - v)) q_vectors v 0 (txq a) (if rx_only then rxq a else 0) (if rx_only then 0 else rxq a) a');
  let '(err, v, a') := r in
  if truthy err then a' ← free_loop (Z.to_nat v) (no_queues a'); Some (- ENOMEM, a') else Some (0, a').
End Vectors.

Definition ixgbe_reset_interrupt_capability (a : adapter) : adapter :=
  if aflag IXGBE_FLAG_MSIX_ENABLED a then set_vectors (num_q_vectors a) false (flag_off IXGBE_FLAG_MSIX_ENABLED a)
  else if aflag IXGBE_FLAG_MSI_ENABLED a then flag_off IXGBE_FLAG_MSI_ENABLED a
  else a.
Definition ixgbe_clear_interrupt_scheme (a : adapter) : option adapter :=
  a ← ixgbe_free_q_vectors a; Some (ixgbe_reset_interrupt_capability a).

(** ** The interrupt scheme

    [None] as the result of the hardware computation is an invalid access. *)
Record kernel := Kernel {
  num_online_cpus : Z; pci_enable_msix : Z -> Z; pci_enable_msi : Z; entries_alloc : bool; vector_alloc : Z -> bool; pci_vfs_assigned : bool
}.
Section Scheme.
Context (k : kernel).

(** [try_msi]: traffic classes and VMDq off, then one queue, one vector, and a plain interrupt or MSI. *)
Definition msi_reset (a : adapter) : adapter :=
  let a := if tcs a >? 1 then set_pfc_modes false (flag_off IXGBE_FLAG_DCB_ENABLED (set_tc (Tc 0 (fun _ => 0) (fun _ => (0, 0))) a)) else a in
  flag_off IXGBE_FLAG_VMDQ_ENABLED (set_ad (set_tcs_limit 1 (ad a)) a).
Definition msi_finish (mac : mac_type) (a : adapter) : adapter :=
  let a := ixgbe_set_num_queues mac (num_online_cpus k) (set_ad (set_rss_limit 1 (ad a)) a) in
  let a := set_vectors 1 (msix_entries a) a in
  if negb (aflag IXGBE_FLAG_MSI_CAPABLE a) then a
  else if truthy (pci_enable_msi k) then a else flag_on IXGBE_FLAG_MSI_ENABLED a.
Definition try_msi (a : adapter) : M (option adapter) :=
  h ← get;
  _ ← (if (tcs a >? 1) && bool_decide (hw_mac h = ixgbe_mac_82598EB)
       then modify (fun h => set_fc (set_requested (last_lfc_mode (opts a)) (fc h)) h) else mret ());
  r ← ixgbe_disable_sriov (pci_vfs_assigned k) (ad (msi_reset a));
  mret match r with None => None | Some (_, s) => Some (msi_finish (hw_mac h) (set_ad s (msi_reset a))) end.
Definition v_budget (a : adapter) : Z :=
  Z.min (Z.min (Z.max (rxq a) (txq a)) (num_online_cpus k) + NON_Q_VECTORS) (max_msix_vectors (opts a)).
Definition ixgbe_set_interrupt_capability (a : adapter) : M (option adapter) :=
  if negb (aflag IXGBE_FLAG_MSIX_CAPABLE a) then try_msi a
  else
    let a := set_vectors (num_q_vectors a) (entries_alloc k) a in
    if negb (entries_alloc k) then try_msi a
    else match ixgbe_acquire_msix_vectors (pci_enable_msix k) (v_budget a) a with
         | None => mret None
         | Some a => if aflag IXGBE_FLAG_MSIX_ENABLED a then mret (Some a) else try_msi a
         end.

Definition ixgbe_init_interrupt_scheme (a : adapter) : M (option (Z * adapter)) :=
  h ← get;
  r ← ixgbe_set_interrupt_capability (ixgbe_set_num_queues (hw_mac h) (num_online_cpus k) a);
  mret (a ← r;
        r ← ixgbe_alloc_q_vectors (hw_mac h) (vector_alloc k) a;
        if truthy r.1 then Some (r.1, ixgbe_reset_interrupt_capability r.2)
        else a ← ixgbe_cache_ring_register (hw_mac h) r.2; Some (0, set_down true a)).
End Scheme.

(** ** Context descriptors: the four words of the descriptor at [next_to_use], and the ring afterwards *)
Definition ixgbe_tx_ctxtdesc (r : ixgbe_ring) (vlan_macip_lens fcoe_sof_eof type_tucmd mss_l4len_idx : Z) : list Z * ixgbe_ring :=
  let i := u16 (next_to_use r + 1) in
  ([vlan_macip_lens; fcoe_sof_eof; Z.lor type_tucmd (Z.lor IXGBE_TXD_CMD_DEXT IXGBE_ADVTXD_DTYP_CTXT); mss_l4len_idx],
   set_next_to_use (if i <? r_count r then i else 0) r).
