(* ===== verification/QueuesSpec.v ===== *)
(** * Every ring has a hardware queue of its own

    The rings are spread evenly over the interrupt vectors, and the map from rings to hardware queues is exact in every mode:
    ring [i] of a pool mode is queue [i mod n] of pool [offset + i / n]. *)
From S2P Require Import Prelude Hw Sriov Queues.

(** ** Arrays of rings *)
Definition present (lo n : Z) (rings : list (option ixgbe_ring)) : Prop :=
  forall i, lo <= i < lo + n -> exists r, rings !! Z.to_nat i = Some (Some r).
(** Rings [lo .. lo + n - 1] have been changed by [f i], the others are the same. *)
Definition changed (lo n : Z) (f : Z -> ixgbe_ring -> ixgbe_ring) (rings rings' : list (option ixgbe_ring)) : Prop :=
  length rings' = length rings /\
  forall i, 0 <= i -> rings' !! Z.to_nat i = if bool_decide (lo <= i < lo + n) then fmap (fmap (f i)) (rings !! Z.to_nat i) else rings !! Z.to_nat i.
Definition reg_of (f : Z -> Z) (i : Z) : ixgbe_ring -> ixgbe_ring := set_reg_idx (u8 (f i)).

Lemma changed_0 lo f rings : changed lo 0 f rings rings.
Proof. split; [done|]. intros i Hi. by rewrite bool_decide_false by lia. Qed.
Lemma changed_ext lo n f g rings rings' : (forall i, lo <= i < lo + n -> f i = g i) -> changed lo n f rings rings' -> changed lo n g rings rings'.
Proof. intros E [L C]. split; [done|]. intros i Hi. rewrite C by done. case_bool_decide; [by rewrite E|done]. Qed.
Lemma changed_app lo n m f r1 r2 r3 : 0 <= n -> 0 <= m -> changed lo n f r1 r2 -> changed (lo + n) m f r2 r3 -> changed lo (n + m) f r1 r3.
Proof.
  intros Hn Hm [L1 C1] [L2 C2]. split; [congruence|]. intros i Hi. rewrite C2, C1 by done.
  repeat case_bool_decide; try lia; done.
Qed.
Lemma changed_present lo n f lo' n' r1 r2 : 0 <= lo' -> changed lo n f r1 r2 -> present lo' n' r1 -> present lo' n' r2.
Proof.
  intros Hl [_ C] P i Hi. destruct (P i Hi) as [r Hr]. rewrite C, Hr by lia. case_bool_decide; by eexists.
Qed.
Lemma present_sub lo n lo' n' rings : lo <= lo' -> lo' + n' <= lo + n -> present lo n rings -> present lo' n' rings.
Proof. intros ? ? P i Hi. apply P. lia. Qed.
Lemma put_spec rings i f : 0 <= i -> present i 1 rings -> exists rings', put rings i f = Some rings' /\ changed i 1 (fun _ => f) rings rings'.
Proof.
  intros Hi P. destruct (P i ltac:(lia)) as [r Hr]. exists (<[Z.to_nat i := Some (f r)]> rings). unfold put. rewrite Hr. split; [done|].
  split; [apply length_insert|]. intros j Hj. case_bool_decide.
  - replace j with i by lia. rewrite Hr. cbn. apply list_lookup_insert_eq. by eapply lookup_lt_Some.
  - apply list_lookup_insert_ne. lia.
Qed.
(** One step of a loop over the rings. *)
Lemma changed_step i n f rings rings' rings'' : 0 <= n ->
  changed i 1 (fun _ => f i) rings rings' -> changed (i + 1) n f rings' rings'' -> changed i (n + 1) f rings rings''.
Proof.
  intros Hn H1 H2. replace (n + 1) with (1 + n) by lia. eapply changed_app; [lia|lia| |exact H2].
  eapply changed_ext; [|exact H1]. intros j Hj. by replace j with i by lia.
Qed.

Lemma each_ring_spec fuel f i rings : 0 <= i -> present i (Z.of_nat fuel) rings ->
  exists rings', each_ring fuel f i rings = Some rings' /\ changed i (Z.of_nat fuel) (reg_of f) rings rings'.
Proof.
  revert i rings. induction fuel as [|n IH]; intros i rings Hi P; cbn [each_ring]; [exists rings; split; [done|apply changed_0]|].
  destruct (put_spec rings i (reg_of f i)) as (r1 & H1 & C1); [done|by eapply present_sub; [| |exact P]; lia|].
  unfold put_reg. change (set_reg_idx (u8 (f i))) with (reg_of f i). rewrite H1.
  destruct (IH (i + 1) r1) as (r2 & H2 & C2); [lia|eapply changed_present; [lia|exact C1|]; by eapply present_sub; [| |exact P]; lia|].
  exists r2. split; [exact H2|]. replace (Z.of_nat (S n)) with (Z.of_nat n + 1) by lia. eapply changed_step; [lia|exact C1|exact C2].
Qed.

(** The pool loop, where [R j] is the register before ring [j] and [g j] the one it gets. *)
Lemma pool_loop_run fuel low mask n stop R g i rings : 0 <= i -> present i (Z.of_nat fuel) rings ->
  (forall j, i <= j < i + Z.of_nat fuel -> (truthy stop && (j >? stop)) = false /\
     (if Z.land (R j) low >=? n then u16 (__ALIGN_MASK (R j) (Z.lnot mask)) else R j) = g j /\ u16 (g j + 1) = R (j + 1)) ->
  exists rings', pool_loop fuel low mask n stop i (R i) rings = Some (i + Z.of_nat fuel, R (i + Z.of_nat fuel), rings') /\
    changed i (Z.of_nat fuel) (reg_of g) rings rings'.
Proof.
  revert i rings. induction fuel as [|k IH]; intros i rings Hi P Hs; cbn [pool_loop].
  { exists rings. rewrite Z.add_0_r. split; [done|apply changed_0]. }
  destruct (Hs i ltac:(lia)) as (S1 & S2 & S3). rewrite S1. cbv zeta. rewrite S2.
  destruct (put_spec rings i (reg_of g i)) as (r1 & H1 & C1); [done|by eapply present_sub; [| |exact P]; lia|].
  unfold put_reg. change (set_reg_idx (u8 (g i))) with (reg_of g i). rewrite H1. cbn [mbind option_bind]. rewrite S3.
  destruct (IH (i + 1) r1) as (r2 & H2 & C2);
    [lia|eapply changed_present; [lia|exact C1|]; by eapply present_sub; [| |exact P]; lia|intros j Hj; apply Hs; lia|].
  exists r2. split; [by replace (i + Z.of_nat (S k)) with (i + 1 + Z.of_nat k) by lia|].
  replace (Z.of_nat (S k)) with (Z.of_nat k + 1) by lia. eapply changed_step; [lia|exact C1|exact C2].
Qed.
(** The loop is left at the ring after [stop]. *)
Lemma pool_loop_stop fuel low mask n stop i reg rings : truthy stop = true -> stop < i -> pool_loop fuel low mask n stop i reg rings = Some (i, reg, rings).
Proof. intros Ht Hs. destruct fuel; cbn [pool_loop]; [done|]. rewrite Ht. by replace (i >? stop) with true by lia. Qed.
Lemma pool_loop_app k m low mask n stop i reg rings : (forall j, i <= j < i + Z.of_nat k -> (truthy stop && (j >? stop)) = false) ->
  pool_loop (k + m) low mask n stop i reg rings = r ← pool_loop k low mask n stop i reg rings; pool_loop m low mask n stop r.1.1 r.1.2 r.2.
Proof.
  revert i reg rings. induction k as [|k IH]; intros i reg rings Hs; cbn [pool_loop Nat.add]; [done|].
  rewrite Hs by lia. cbv zeta. unfold mbind at 2 3, option_bind at 2 3. unfold mbind at 1, option_bind at 1.
  destruct (put_reg rings i _) as [r1|]; [|done]. apply IH. intros j Hj. apply Hs. lia.
Qed.

(** ** Pools *)

(** [low] selects the queue inside a pool of [2 ^ k] queues, and aligning with [mask] goes to the next pool, for registers below [size]. *)
Definition pool_mask (k low mask size : Z) : Prop :=
  forall reg, 0 <= reg < size -> Z.land reg low = reg mod 2 ^ k /\
    (reg + 2 ^ k - 1 < size -> __ALIGN_MASK reg (Z.lnot mask) = (reg + 2 ^ k - 1) / 2 ^ k * 2 ^ k).
Definition pool_mask_b (k low mask size : Z) : bool :=
  forallb (fun reg => (Z.land reg low =? reg mod 2 ^ k) &&
    (negb (reg + 2 ^ k - 1 <? size) || (__ALIGN_MASK reg (Z.lnot mask) =? (reg + 2 ^ k - 1) / 2 ^ k * 2 ^ k))) (seqZ 0 size).
Lemma pool_mask_check k low mask size : pool_mask_b k low mask size = true -> pool_mask k low mask size.
Proof.
  unfold pool_mask_b. rewrite forallb_forall. intros Hb reg Hr. specialize (Hb reg). rewrite <- list_elem_of_In, elem_of_seqZ in Hb.
  specialize (Hb ltac:(lia)). apply andb_true_iff in Hb as [H1%Z.eqb_eq H2]. split; [done|]. intros Hlt.
  apply orb_true_iff in H2 as [H2|H2%Z.eqb_eq]; [|done]. apply negb_true_iff, Z.ltb_ge in H2. lia.
Qed.
(** Ring [i] is queue [i mod n] of pool [off + i / n]. *)
Definition pool_reg (k off n i : Z) : Z := (off + i / n) * 2 ^ k + i mod n.
(** The register before ring [i]. *)
Definition before (k off n i : Z) : Z := if i =? 0 then off * 2 ^ k else pool_reg k off n (i - 1) + 1.

Section PoolStep.
Context (k low mask size off n : Z).
Hypotheses (Hk : 0 <= k) (Hm : pool_mask k low mask size) (Hsize : size <= 2 ^ 8) (Hoff : 0 <= off) (Hn : 0 < n <= 2 ^ k).
Lemma pool_reg_bound i : 0 <= i -> (off + i / n + 1) * 2 ^ k <= size -> 0 <= pool_reg k off n i < size.
Proof.
  intros Hi Hb. unfold pool_reg. pose proof (Z.mod_pos_bound i n ltac:(lia)). pose proof (Z.div_pos i n ltac:(lia) ltac:(lia)).
  pose proof (Z.pow_pos_nonneg 2 k ltac:(lia) Hk). nia.
Qed.
Lemma before_step i : 0 <= i -> (off + i / n + 1) * 2 ^ k <= size ->
  (if Z.land (before k off n i) low >=? n then u16 (__ALIGN_MASK (before k off n i) (Z.lnot mask)) else before k off n i) = pool_reg k off n i /\
  u16 (pool_reg k off n i + 1) = before k off n (i + 1).
Proof.
  intros Hi Hb. pose proof (pool_reg_bound i Hi Hb) as Hr. pose proof (Z.pow_pos_nonneg 2 k ltac:(lia) Hk) as Hp. split.
  2:{ unfold before. replace (i + 1 =? 0) with false by lia. replace (i + 1 - 1) with i by lia. apply u16_small. lia. }
  assert (forall p, 0 <= p -> (p + 1) * 2 ^ k <= size -> Z.land (p * 2 ^ k) low = 0) as Hbase.
  { intros p H0 H1. destruct (Hm (p * 2 ^ k) ltac:(nia)) as [-> _]. apply Z.mod_mul. lia. }
  pose proof (Z.div_pos i n ltac:(lia) ltac:(lia)) as Hd.
  unfold before. destruct (Z.eqb_spec i 0) as [->|Hi0].
  { unfold pool_reg. rewrite Z.div_0_l, Z.mod_0_l, !Z.add_0_r in * by lia. rewrite Hbase by lia. by replace (0 >=? n) with false by lia. }
  pose proof (Z.div_mod i n ltac:(lia)) as Hdm. pose proof (Z.mod_pos_bound i n ltac:(lia)) as Hmod.
  destruct (decide (i mod n = 0)) as [Hz|Hz].
  - assert ((i - 1) / n = i / n - 1 /\ (i - 1) mod n = n - 1) as [E1 E2].
    { split; [symmetry; apply (Z.div_unique _ _ _ (n - 1)); nia|symmetry; apply (Z.mod_unique _ _ (i / n - 1)); nia]. }
    unfold pool_reg. rewrite E1, E2, Hz, Z.add_0_r.
    assert (0 < i / n) as Hpos by nia.
    destruct (decide (n = 2 ^ k)) as [->|Hlt].
    + replace ((off + (i / 2 ^ k - 1)) * 2 ^ k + (2 ^ k - 1) + 1) with ((off + i / 2 ^ k) * 2 ^ k) by lia.
      rewrite Hbase by lia. by replace (0 >=? 2 ^ k) with false by lia.
    + replace ((off + (i / n - 1)) * 2 ^ k + (n - 1) + 1) with (n + (off + (i / n - 1)) * 2 ^ k) by lia.
      destruct (Hm (n + (off + (i / n - 1)) * 2 ^ k) ltac:(nia)) as [-> Ha].
      rewrite Z.mod_add, Z.mod_small by lia. replace (n >=? n) with true by lia. rewrite Ha by nia.
      replace (n + (off + (i / n - 1)) * 2 ^ k + 2 ^ k - 1) with ((n - 1) + (off + i / n) * 2 ^ k) by lia.
      rewrite Z.div_add, Z.div_small by lia. apply u16_small. nia.
  - assert ((i - 1) / n = i / n /\ (i - 1) mod n = i mod n - 1) as [E1 E2].
    { split; [symmetry; apply (Z.div_unique _ _ _ (i mod n - 1)); nia|symmetry; apply (Z.mod_unique _ _ (i / n)); nia]. }
    unfold pool_reg. rewrite E1, E2. replace ((off + i / n) * 2 ^ k + (i mod n - 1) + 1) with (i mod n + (off + i / n) * 2 ^ k) by lia.
    destruct (Hm (i mod n + (off + i / n) * 2 ^ k) ltac:(nia)) as [-> _].
    rewrite Z.mod_add, Z.mod_small by lia. replace (i mod n >=? n) with false by lia. lia.
Qed.
End PoolStep.

(** Without a stop, or up to the ring after it, the pool loop gives every ring its queue. *)
Section PoolRings.
Context (k low mask size off n : Z).
Hypotheses (Hk : 0 <= k) (Hm : pool_mask k low mask size) (Hsize : size <= 2 ^ 8) (Hoff : 0 <= off) (Hn : 0 < n <= 2 ^ k).
Lemma pool_rings N stop rings : present 0 (Z.of_nat N) rings -> (truthy stop = true -> Z.of_nat N <= stop + 1) ->
  (forall i, 0 <= i < Z.of_nat N -> (off + i / n + 1) * 2 ^ k <= size) ->
  exists rings', pool_loop N low mask n stop 0 (off * 2 ^ k) rings = Some (Z.of_nat N, before k off n (Z.of_nat N), rings') /\
    changed 0 (Z.of_nat N) (reg_of (pool_reg k off n)) rings rings'.
Proof.
  intros P Hst Hb. apply (pool_loop_run N low mask n stop (before k off n) (pool_reg k off n) 0 rings); [lia|done|].
  intros j Hj. split; [destruct (truthy stop) eqn:Ht; [specialize (Hst eq_refl); cbn; lia|done]|].
  apply (before_step k low mask size); try done; [lia|apply Hb; lia].
Qed.
End PoolRings.

(** Rings after [stop] follow it one by one. *)
Definition vmdq_reg (k off n stop i : Z) : Z :=
  if truthy stop && (i >? stop) then pool_reg k off n stop + (i - stop) else pool_reg k off n i.

Lemma align_one k mask low size : 0 <= k -> 2 ^ k < size -> pool_mask k low mask size -> __ALIGN_MASK 1 (Z.lnot mask) = 2 ^ k.
Proof.
  intros Hk Hs Hm. pose proof (Z.pow_pos_nonneg 2 k ltac:(lia) Hk). destruct (Hm 1 ltac:(lia)) as [_ ->]; [|lia].
  replace (1 + 2 ^ k - 1) with (2 ^ k) by lia. rewrite Z.div_same by lia. lia.
Qed.
Lemma vmdq_rings_spec k low size N a rings : 0 <= k -> pool_mask k low (vmdq_mask (ad a)) size -> 2 ^ k < size <= 2 ^ 8 ->
  let off := vmdq_offset (ad a) in let n := rss_indices a in let stop := f_offset (fcoe a) in
  0 <= off -> 0 < n <= 2 ^ k -> 0 <= stop -> 0 < N -> present 0 N rings ->
  (forall i, 0 <= i < N -> (truthy stop && (i >? stop)) = false -> (off + i / n + 1) * 2 ^ k <= size) ->
  (forall i, 0 <= i < N -> vmdq_reg k off n stop i < size) ->
  exists rings', vmdq_rings N low a rings = Some rings' /\ changed 0 N (reg_of (vmdq_reg k off n stop)) rings rings'.
Proof.
  intros Hk Hm Hs off n stop Hoff Hn Hst HN P Hb Hb2. unfold vmdq_rings. cbv zeta. rewrite (align_one k _ low size) by (done || lia).
  fold off n stop. pose proof (Z.pow_pos_nonneg 2 k ltac:(lia) Hk) as Hp.
  assert ((off + 1) * 2 ^ k <= size) as H0.
  { specialize (Hb 0 ltac:(lia)). rewrite Z.div_0_l, Z.add_0_r in Hb by lia. apply Hb. replace (0 >? stop) with false by lia. apply andb_false_r. }
  rewrite (u16_small (off * 2 ^ k)) by nia.
  destruct (decide (truthy stop = true /\ stop + 1 < N)) as [[Ht HsN]|Hno].
  - replace (Z.to_nat N) with (Z.to_nat (stop + 1) + Z.to_nat (N - (stop + 1)))%nat by lia.
    assert (forall j, 0 <= j < stop + 1 -> (truthy stop && (j >? stop)) = false) as Hpre.
    { intros j Hj. replace (j >? stop) with false by lia. apply andb_false_r. }
    rewrite pool_loop_app by (intros j Hj; apply Hpre; lia).
    destruct (pool_rings k low (vmdq_mask (ad a)) size off n Hk Hm ltac:(lia) Hoff Hn (Z.to_nat (stop + 1)) stop rings) as (r1 & -> & C1);
      [eapply present_sub; [| |exact P]; lia|lia|intros i Hi; apply Hb; [lia|apply Hpre; lia]|].
    cbn [mbind option_bind fst snd]. rewrite pool_loop_stop by (done || lia). rewrite Z2Nat.id in * by lia.
    destruct (each_ring_spec (Z.to_nat (N - (stop + 1))) (fun j => u16 (before k off n (stop + 1) + (j - (stop + 1)))) (stop + 1) r1) as (r2 & H2 & C2);
      [lia|eapply changed_present; [lia|exact C1|]; eapply present_sub; [| |exact P]; lia|].
    exists r2. split; [exact H2|]. rewrite Z2Nat.id in C2 by lia. replace N with ((stop + 1) + (N - (stop + 1))) by lia.
    eapply changed_app; [lia|lia| |].
    + eapply changed_ext; [|exact C1]. intros i Hi. unfold reg_of, vmdq_reg. by rewrite Hpre by lia.
    + eapply changed_ext; [|exact C2]. intros i Hi. unfold reg_of. f_equal. f_equal.
      specialize (Hb2 i ltac:(lia)). unfold vmdq_reg in *. rewrite Ht in *. replace (i >? stop) with true in * by lia. cbn [andb] in *.
      unfold before. replace (stop + 1 =? 0) with false by lia. replace (stop + 1 - 1) with stop by lia.
      pose proof (pool_reg_bound k size off n Hk ltac:(lia) Hoff Hn stop ltac:(lia) ltac:(apply Hb; [lia|apply Hpre; lia])).
      rewrite u16_small; lia.
  - assert (forall j, 0 <= j < N -> (truthy stop && (j >? stop)) = false) as Hpre.
    { intros j Hj. destruct (truthy stop); [|done]. destruct (decide (stop + 1 < N)); [by destruct Hno|]. cbn. lia. }
    destruct (pool_rings k low (vmdq_mask (ad a)) size off n Hk Hm ltac:(lia) Hoff Hn (Z.to_nat N) stop rings) as (r1 & -> & C1).
    { rewrite Z2Nat.id; [done|lia]. }
    { intros Ht. destruct (decide (stop + 1 < N)); [by destruct Hno|lia]. }
    { intros i Hi. apply Hb; [lia|apply Hpre; lia]. }
    cbn [mbind option_bind]. rewrite Z2Nat.id in * by lia. rewrite Z.sub_diag. cbn [Z.to_nat each_ring]. exists r1. split; [done|].
    eapply changed_ext; [|exact C1]. intros i Hi. unfold reg_of, vmdq_reg. by rewrite Hpre by lia.
Qed.

(** The FCoE rings of the combined mode: queue [fcoe_tc] of the pools from [p] on. *)
Definition fcoe_reg (k p lo fcoe_tc i : Z) : Z := (p + (i - lo)) * 2 ^ k + fcoe_tc.
Lemma fcoe_loop_spec k low mask size fcoe_tc fuel lo : 0 <= k -> pool_mask k low mask size -> size <= 2 ^ 8 -> 0 <= fcoe_tc < 2 ^ k ->
  forall p reg i rings, 0 <= p -> lo <= i -> 0 <= lo -> (p + (i - lo) + Z.of_nat fuel) * 2 ^ k <= size ->
  (fuel <> O -> __ALIGN_MASK reg (Z.lnot mask) = (p + (i - lo)) * 2 ^ k) -> present i (Z.of_nat fuel) rings ->
  exists rings', fcoe_loop fuel mask fcoe_tc i reg rings = Some rings' /\ changed i (Z.of_nat fuel) (reg_of (fcoe_reg k p lo fcoe_tc)) rings rings'.
Proof.
  intros Hk Hm Hs Ht p. pose proof (Z.pow_pos_nonneg 2 k ltac:(lia) Hk) as Hp2.
  induction fuel as [|fuel IH]; intros reg i rings Hp Hi Hlo Hb Hreg P; cbn [fcoe_loop]; [exists rings; split; [done|apply changed_0]|].
  rewrite Hreg by done. cbv zeta. fold (fcoe_reg k p lo fcoe_tc i).
  assert (0 <= fcoe_reg k p lo fcoe_tc i /\ fcoe_reg k p lo fcoe_tc i + 1 <= size) as Hf by (unfold fcoe_reg; nia).
  rewrite (u16_small (fcoe_reg k p lo fcoe_tc i)) by lia.
  destruct (put_spec rings i (reg_of (fcoe_reg k p lo fcoe_tc) i)) as (r1 & H1 & C1); [lia|by eapply present_sub; [| |exact P]; lia|].
  unfold put_reg. change (set_reg_idx (u8 (fcoe_reg k p lo fcoe_tc i))) with (reg_of (fcoe_reg k p lo fcoe_tc) i). rewrite H1. cbn [mbind option_bind].
  destruct (IH (u16 (fcoe_reg k p lo fcoe_tc i + 1)) (i + 1) r1) as (r2 & H2 & C2); [lia|lia|lia|nia| | |].
  - intros Hf0. rewrite u16_small by lia. destruct (Hm (fcoe_reg k p lo fcoe_tc i + 1)) as [_ ->]; [unfold fcoe_reg in *; nia| |unfold fcoe_reg in *; nia].
    unfold fcoe_reg. replace ((p + (i - lo)) * 2 ^ k + fcoe_tc + 1 + 2 ^ k - 1) with (fcoe_tc + (p + (i + 1 - lo)) * 2 ^ k) by lia.
    rewrite Z.div_add, Z.div_small by lia. lia.
  - eapply changed_present; [lia|exact C1|]. by eapply present_sub; [| |exact P]; lia.
  - exists r2. split; [exact H2|]. replace (Z.of_nat (S fuel)) with (Z.of_nat fuel + 1) by lia. eapply changed_step; [lia|exact C1|exact C2].
Qed.
(** A second pass over the last rings replaces their registers. *)
Lemma changed_over lo m N f g r1 r2 r3 : 0 <= lo -> lo + m = N -> changed 0 N (reg_of f) r1 r2 -> changed lo m (reg_of g) r2 r3 ->
  changed 0 N (reg_of (fun i => if i <? lo then f i else g i)) r1 r3.
Proof.
  intros Hlo Hm [L1 C1] [L2 C2]. split; [congruence|]. intros i Hi. rewrite C2, C1 by done. unfold reg_of.
  repeat case_bool_decide; try lia; try done.
  - replace (i <? lo) with false by lia. by destruct (r1 !! Z.to_nat i) as [[r|]|].
  - by replace (i <? lo) with true by lia.
Qed.

(** Traffic classes: ring [i] is queue [i mod rss] of class [i / rss]. *)
Definition tc_ring (first : Z -> Z) (rss i : Z) (r : ixgbe_ring) : ixgbe_ring := set_dcb_tc (u8 (i / rss)) (set_reg_idx (u8 (first (i / rss) + i mod rss)) r).
Lemma tc_rings_spec fuel : forall tc i tx rx a rss ft fr, 0 < rss -> 0 <= i -> i / rss = tc -> i mod rss + Z.of_nat fuel <= rss ->
  tx = ft tc + i mod rss -> rx = fr tc + i mod rss ->
  present i (Z.of_nat fuel) (tx_ring a) -> present i (Z.of_nat fuel) (rx_ring a) ->
  exists tx' rx', tc_rings fuel tc i tx rx a = Some (set_rings tx' rx' a) /\
    changed i (Z.of_nat fuel) (tc_ring ft rss) (tx_ring a) tx' /\ changed i (Z.of_nat fuel) (tc_ring fr rss) (rx_ring a) rx'.
Proof.
  induction fuel as [|n IH]; intros tc i tx rx a rss ft fr Hr Hi Htc Hm Etx Erx Pt Pr; cbn [tc_rings].
  { exists (tx_ring a), (rx_ring a). split_and!; [by destruct a|apply changed_0..]. }
  assert (forall P : list (option ixgbe_ring), present i (Z.of_nat (S n)) P -> present i 1 P) as Hone by (intros P HP; eapply present_sub; [| |exact HP]; lia).
  destruct (put_spec (tx_ring a) i (tc_ring ft rss i) Hi (Hone _ Pt)) as (t1 & H1 & C1).
  destruct (put_spec (rx_ring a) i (tc_ring fr rss i) Hi (Hone _ Pr)) as (r1 & H2 & C2).
  assert ((fun r => set_dcb_tc (u8 tc) (set_reg_idx (u8 tx) r)) = tc_ring ft rss i) as -> by (unfold tc_ring; by rewrite Htc, Etx).
  assert ((fun r => set_dcb_tc (u8 tc) (set_reg_idx (u8 rx) r)) = tc_ring fr rss i) as -> by (unfold tc_ring; by rewrite Htc, Erx).
  rewrite H1. cbn [mbind option_bind]. rewrite H2.
  destruct n as [|n]; [exists t1, r1; split_and!; [done|..]; (eapply (changed_step i 0); [lia|done|apply changed_0])|].
  pose proof (Z.div_mod i rss ltac:(lia)) as Hdm. pose proof (Z.mod_pos_bound i rss ltac:(lia)).
  assert ((i + 1) / rss = tc /\ (i + 1) mod rss = i mod rss + 1) as [E1 E2].
  { split; [symmetry; apply (Z.div_unique _ _ _ (i mod rss + 1)); lia|symmetry; apply (Z.mod_unique _ _ (i / rss)); lia]. }
  destruct (IH tc (i + 1) (tx + 1) (rx + 1) (set_rings t1 r1 a) rss ft fr) as (t2 & r2 & H3 & C3 & C4); try lia.
  { eapply changed_present; [lia|exact C1|]. eapply present_sub; [| |exact Pt]; lia. }
  { eapply changed_present; [lia|exact C2|]. eapply present_sub; [| |exact Pr]; lia. }
  exists t2, r2. split_and!; [exact H3|..]; replace (Z.of_nat (S (S n))) with (Z.of_nat (S n) + 1) by lia.
  - eapply changed_step; [lia|exact C1|exact C3].
  - eapply changed_step; [lia|exact C2|exact C4].
Qed.
Lemma tc_loop_spec mac rss fuel : 0 < rss -> forall c a, 0 <= c -> c + Z.of_nat fuel <= 256 ->
  present (c * rss) (Z.of_nat fuel * rss) (tx_ring a) -> present (c * rss) (Z.of_nat fuel * rss) (rx_ring a) ->
  exists tx' rx', tc_loop fuel mac rss c (c * rss) a = Some (set_rings tx' rx' a) /\
    changed (c * rss) (Z.of_nat fuel * rss) (tc_ring (fun t => (ixgbe_get_first_reg_idx mac (tcs a) t).1) rss) (tx_ring a) tx' /\
    changed (c * rss) (Z.of_nat fuel * rss) (tc_ring (fun t => (ixgbe_get_first_reg_idx mac (tcs a) t).2) rss) (rx_ring a) rx'.
Proof.
  intros Hr. induction fuel as [|n IH]; intros c a Hc Hb Pt Pr; cbn [tc_loop].
  { exists (tx_ring a), (rx_ring a). split_and!; [by destruct a|apply changed_0..]. }
  rewrite (u8_small c) by lia. destruct (ixgbe_get_first_reg_idx mac (tcs a) c) as [t0 r0] eqn:E.
  destruct (tc_rings_spec (Z.to_nat rss) c (c * rss) t0 r0 a rss (fun t => (ixgbe_get_first_reg_idx mac (tcs a) t).1)
    (fun t => (ixgbe_get_first_reg_idx mac (tcs a) t).2)) as (t1 & r1 & H1 & C1 & C2); rewrite ?Z.div_mul, ?Z.mod_mul, ?E in * by lia; try (cbn; lia).
  { eapply present_sub; [| |exact Pt]; lia. } { eapply present_sub; [| |exact Pr]; lia. }
  rewrite H1. cbn [mbind option_bind]. rewrite Z2Nat.id in * by lia. replace (c * rss + rss) with ((c + 1) * rss) by lia.
  destruct (IH (c + 1) (set_rings t1 r1 a)) as (t2 & r2 & H2 & C3 & C4); [lia|lia|..].
  { eapply changed_present; [nia|exact C1|]. eapply present_sub; [| |exact Pt]; lia. }
  { eapply changed_present; [nia|exact C2|]. eapply present_sub; [| |exact Pr]; lia. }
  exists t2, r2. split_and!; [exact H2|..]; replace (Z.of_nat (S n) * rss) with (rss + Z.of_nat n * rss) by lia.
  - eapply changed_app; [lia|nia|exact C1|]. replace (c * rss + rss) with ((c + 1) * rss) by lia. exact C3.
  - eapply changed_app; [lia|nia|exact C2|]. replace (c * rss + rss) with ((c + 1) * rss) by lia. exact C4.
Qed.

(** ** Numbers of queues *)
Lemma aflag_off f g a : Z.land g f = 0 -> aflag f (flag_off g a) = aflag f a.
Proof.
  intros E. unfold aflag, flag_off. cbn. f_equal. apply Z.bits_inj'. intros n Hn. rewrite !Z.land_spec, Z.ldiff_spec.
  apply (f_equal (fun z => Z.testbit z n)) in E. rewrite Z.land_spec, Z.bits_0 in E.
  destruct (Z.testbit g n), (Z.testbit f n), (Z.testbit (flags (ad a)) n); done.
Qed.
Lemma aflag_on_self f a : f <> 0 -> aflag f (flag_on f a) = true.
Proof.
  intros Hf. unfold aflag, flag_on. cbn. rewrite Z.land_lor_distr_l, Z.land_diag. apply negb_true_iff, Z.eqb_neq. intros E.
  by apply Z.lor_eq_0_iff in E as [_ ?].
Qed.
Lemma aflag_on f g a : Z.land g f = 0 -> aflag f (flag_on g a) = aflag f a.
Proof.
  intros E. unfold aflag, flag_on. cbn. f_equal. rewrite Z.land_lor_distr_l, E. apply Z.lor_0_r.
Qed.
Lemma tc_queues_spec n c o a : exists t, set_tc_queues n c o a = set_tc t a /\ tcs (set_tc t a) = tcs a /\
  ixgbe_fcoe_get_tc (set_tc t a) = ixgbe_fcoe_get_tc a.
Proof.
  unfold set_tc_queues. generalize (seqZ 0 n). intros l. revert a. induction l as [|i l IH]; intros a; cbn [fold_left].
  { exists (tc a). by destruct a. }
  destruct (IH (netdev_set_tc_queue a i c (o i))) as (t & -> & H1 & H2). exists t. by split_and!.
Qed.
Lemma min16 x y : 0 <= x < 2 ^ 16 -> 0 <= y < 2 ^ 16 -> min_t16 x y = Z.min x y.
Proof. intros Hx Hy. unfold min_t16. by rewrite !u16_small. Qed.

(** A map from the rings [0 .. n - 1] to queues of their own below [size]. *)
Definition one_to_one (n size : Z) (f : Z -> Z) : Prop :=
  (forall i, 0 <= i < n -> 0 <= f i < size) /\ (forall i j, 0 <= i < n -> 0 <= j < n -> f i = f j -> i = j).
Lemma pool_reg_split k off n i : 0 <= k -> 0 < n <= 2 ^ k -> 0 <= i -> pool_reg k off n i / 2 ^ k = off + i / n /\ pool_reg k off n i mod 2 ^ k = i mod n.
Proof.
  intros Hk Hn Hi. pose proof (Z.mod_pos_bound i n ltac:(lia)). unfold pool_reg.
  split; [symmetry; apply (Z.div_unique _ _ _ (i mod n)); lia|symmetry; apply (Z.mod_unique _ _ (off + i / n)); lia].
Qed.
Lemma pool_reg_inj k off n i j : 0 <= k -> 0 < n <= 2 ^ k -> 0 <= i -> 0 <= j -> pool_reg k off n i = pool_reg k off n j -> i = j.
Proof.
  intros Hk Hn Hi Hj E. destruct (pool_reg_split k off n i) as [D1 M1]; [done..|]. destruct (pool_reg_split k off n j) as [D2 M2]; [done..|].
  rewrite E in *. rewrite (Z.div_mod i n), (Z.div_mod j n) by lia. nia.
Qed.
Lemma pool_one_to_one k off n N size : 0 <= k -> 0 <= off -> 0 < n <= 2 ^ k -> size <= 2 ^ 8 ->
  (forall i, 0 <= i < N -> (off + i / n + 1) * 2 ^ k <= size) -> one_to_one N size (pool_reg k off n).
Proof.
  intros Hk Ho Hn Hs Hb. split; [intros i Hi; apply pool_reg_bound; try done; [lia|by apply Hb]|].
  intros i j Hi Hj. apply pool_reg_inj; lia.
Qed.

Lemma pool_reg_mono k off n i j : 0 <= k -> 0 < n <= 2 ^ k -> 0 <= i < j -> pool_reg k off n i < pool_reg k off n j.
Proof.
  intros Hk Hn Hij. unfold pool_reg. pose proof (Z.div_le_mono i j n ltac:(lia) ltac:(lia)). pose proof (Z.mod_pos_bound i n ltac:(lia)).
  pose proof (Z.mod_pos_bound j n ltac:(lia)). pose proof (Z.div_mod i n ltac:(lia)). pose proof (Z.div_mod j n ltac:(lia)).
  destruct (decide (i / n = j / n)) as [E|E]; [rewrite E in *; lia|nia].
Qed.
Lemma vmdq_one_to_one k off n stop N size : 0 <= k -> 0 <= off -> 0 < n <= 2 ^ k -> 0 <= stop -> size <= 2 ^ 8 ->
  (forall i, 0 <= i < N -> (truthy stop && (i >? stop)) = false -> (off + i / n + 1) * 2 ^ k <= size) ->
  (forall i, 0 <= i < N -> vmdq_reg k off n stop i < size) -> one_to_one N size (vmdq_reg k off n stop).
Proof.
  intros Hk Ho Hn Hst Hs Hb Hb2.
  assert (forall i, 0 <= i -> 0 <= pool_reg k off n i) as H0.
  { intros i Hi. unfold pool_reg. pose proof (Z.mod_pos_bound i n ltac:(lia)). pose proof (Z.div_pos i n Hi ltac:(lia)). nia. }
  assert (forall i j, 0 <= i < j -> vmdq_reg k off n stop i < vmdq_reg k off n stop j) as Hmono.
  { intros i j Hij. unfold vmdq_reg. destruct (truthy stop); cbn [andb]; [|by apply pool_reg_mono].
    destruct (Z.gtb_spec i stop), (Z.gtb_spec j stop); try lia; [|by apply pool_reg_mono].
    destruct (decide (i = stop)) as [->|]; [lia|]. pose proof (pool_reg_mono k off n i stop Hk Hn ltac:(lia)). lia. }
  split.
  - intros i Hi. split; [|by apply Hb2]. unfold vmdq_reg. destruct (truthy stop && (i >? stop)) eqn:E; [|apply H0; lia]. specialize (H0 stop Hst). lia.
  - intros i j Hi Hj E. destruct (Z.lt_trichotomy i j) as [L|[L|L]]; [|done|]; [pose proof (Hmono i j ltac:(lia))|pose proof (Hmono j i ltac:(lia))]; lia.
Qed.
Lemma fcoe_one_to_one k off n vi fi t : 0 <= k -> 0 <= off -> 0 < n <= 2 ^ k -> 1 <= vi -> 0 <= fi -> 0 <= t < 2 ^ k -> (off + vi + fi) * 2 ^ k <= 128 ->
  one_to_one (vi * n + fi) 128 (fun i => if i <? vi * n then pool_reg k off n i else fcoe_reg k (off + vi) (vi * n) t i).
Proof.
  intros Hk Ho Hn Hvi Hfi Ht Hb.
  assert (forall i, vi * n <= i -> fcoe_reg k (off + vi) (vi * n) t i / 2 ^ k = off + vi + (i - vi * n)) as Hf.
  { intros i Hi. unfold fcoe_reg. symmetry. apply (Z.div_unique _ _ _ t); lia. }
  assert (forall i, 0 <= i < vi * n -> i / n < vi) as Hd by (intros i Hi; apply Z.div_lt_upper_bound; lia).
  split.
  - intros i Hi. destruct (Z.ltb_spec i (vi * n)).
    + apply pool_reg_bound; try done; [lia..|]. specialize (Hd i ltac:(lia)). nia.
    + unfold fcoe_reg. nia.
  - intros i j Hi Hj. destruct (Z.ltb_spec i (vi * n)), (Z.ltb_spec j (vi * n)).
    + apply pool_reg_inj; lia.
    + intros E%(f_equal (fun z => z / 2 ^ k)). rewrite (proj1 (pool_reg_split k off n i Hk Hn ltac:(lia))), Hf in E by lia. specialize (Hd i ltac:(lia)). lia.
    + intros E%(f_equal (fun z => z / 2 ^ k)). rewrite (proj1 (pool_reg_split k off n j Hk Hn ltac:(lia))), Hf in E by lia. specialize (Hd j ltac:(lia)). lia.
    + unfold fcoe_reg. nia.
Qed.

(** [N] rings fit into the queues below [size]. *)
Definition fits (k n off stop N size : Z) : Prop :=
  (forall i, 0 <= i < N -> (truthy stop && (i >? stop)) = false -> (off + i / n + 1) * 2 ^ k <= size) /\
  (forall i, 0 <= i < N -> vmdq_reg k off n stop i < size).
Lemma fits_pools k n off N size : 0 <= k -> 0 <= off -> 0 < n <= 2 ^ k -> size <= 2 ^ 8 ->
  (forall i, 0 <= i < N -> (off + i / n + 1) * 2 ^ k <= size) -> fits k n off 0 N size.
Proof. intros Hk Ho Hn Hs Hb. split; [auto|]. intros i Hi. unfold vmdq_reg. cbn. apply (pool_reg_bound k size); auto; lia. Qed.
Lemma fits_plain k n off vi size : 0 <= k -> 0 <= off -> 0 < n <= 2 ^ k -> size <= 2 ^ 8 -> (off + vi) * 2 ^ k <= size -> fits k n off 0 (vi * n) size.
Proof.
  intros Hk Ho Hn Hs Hb. apply fits_pools; try done. intros i Hi. assert (i / n < vi) by (apply Z.div_lt_upper_bound; lia). nia.
Qed.
(** FCoE rings after the pools. *)
Lemma fits_separate k n off vi fi : 0 <= k <= 7 -> 0 <= off -> 0 < n <= 2 ^ k -> 1 <= vi -> 1 <= fi -> (off + vi) * 2 ^ k + fi <= 128 ->
  fits k n off (vi * n) (vi * n + fi) 128.
Proof.
  intros Hk Ho Hn Hvi Hfi Hb.
  assert ((off + vi + 1) * 2 ^ k <= 128) as H1.
  { assert (2 ^ k * 2 ^ (7 - k) = 128) as E by (rewrite <- Z.pow_add_r by lia; by replace (k + (7 - k)) with 7 by lia). nia. }
  split.
  - intros i Hi Hst. assert (i <= vi * n) as Hle. { unfold truthy in Hst. replace (vi * n =? 0) with false in Hst by nia. cbn in Hst. lia. }
    assert (i / n <= vi) by (apply Z.div_le_upper_bound; lia). nia.
  - intros i Hi. unfold vmdq_reg, truthy. replace (vi * n =? 0) with false by nia. cbn [negb andb]. destruct (Z.gtb_spec i (vi * n)).
    + unfold pool_reg. rewrite Z.div_mul, Z.mod_mul by lia. lia.
    + apply (pool_reg_bound k 128); try lia. assert (i / n <= vi) by (apply Z.div_le_upper_bound; lia). nia.
Qed.
(** When the pool's queues are all used, the rings are consecutive, wherever the loop is left. *)
Lemma fits_full k off stop N : 0 <= k <= 7 -> 0 <= off -> 0 <= stop -> off * 2 ^ k + N <= 128 -> fits k (2 ^ k) off stop N 128.
Proof.
  intros Hk Ho Hst Hb. pose proof (Z.pow_pos_nonneg 2 k ltac:(lia) ltac:(lia)) as Hp.
  assert (forall i, pool_reg k off (2 ^ k) i = off * 2 ^ k + i) as Hr. { intros i. unfold pool_reg. rewrite (Z.div_mod i (2 ^ k)) at 3 by lia. lia. }
  split.
  - intros i Hi _. pose proof (Z.div_mod i (2 ^ k) ltac:(lia)). pose proof (Z.mod_pos_bound i (2 ^ k) ltac:(lia)).
    assert (2 ^ k * 2 ^ (7 - k) = 128) as E by (rewrite <- Z.pow_add_r by lia; by replace (k + (7 - k)) with 7 by lia).
    assert (off + i / 2 ^ k < 2 ^ (7 - k)) by (apply (Z.mul_lt_mono_pos_l (2 ^ k)); lia). nia.
  - intros i Hi. unfold vmdq_reg. rewrite !Hr. destruct (_ && _); lia.
Qed.

(** What the features and limits of the adapter satisfy. Spelled out for the modes: with traffic classes and pools together, the
    VFs leave a pool free ([tcs_for]); with FCoE, the pools after the PF's first one are enough for the FCoE rings. *)
Record config_ok (mac : mac_type) (cpus : Z) (a : adapter) : Prop := {
  ok_mac : mac = ixgbe_mac_82598EB \/ mac = ixgbe_mac_82599EB \/ mac = ixgbe_mac_X540;
  ok_tcs : 0 <= tcs a <= 8;
  ok_dev : tcs a <= dev_num_tx_queues (opts a) < 2 ^ 16;
  ok_rss : 1 <= rss_limit (ad a) <= 16 /\ rss_limit (ad a) <= cpus < 2 ^ 16;
  ok_pools : aflag IXGBE_FLAG_VMDQ_ENABLED a = true -> 1 <= vmdq_limit (ad a) <= 64;
  ok_offset : 0 <= vmdq_offset (ad a) < if tcs a >? 4 then 16 else if tcs a >? 1 then 32 else 64;
  ok_82598 : mac = ixgbe_mac_82598EB -> vmdq_offset (ad a) = 0 /\ aflag IXGBE_FLAG_FCOE_ENABLED a = false /\
               (tcs a <= 1 \/ aflag IXGBE_FLAG_VMDQ_ENABLED a = false);
  ok_fdir : 1 < rss_limit (ad a) -> atr_sample_rate (opts a) <> 0 -> 1 <= fdir_limit a <= IXGBE_MAX_FDIR_INDICES;
  ok_fcoe : aflag IXGBE_FLAG_FCOE_ENABLED a = true ->
              1 <= f_limit (fcoe a) <= IXGBE_MAX_FCOE_INDICES /\ vmdq_offset (ad a) + f_limit (fcoe a) + 1 <= 64 /\
              0 <= ixgbe_fcoe_get_tc a < Z.max 1 (tcs a);
  ok_no_fcoe : aflag IXGBE_FLAG_FCOE_ENABLED a = false -> f_offset (fcoe a) = 0
}.

Section Modes.
Context (mac : mac_type) (cpus : Z) (a : adapter) (Hok : config_ok mac cpus a).
Local Notation a0 := (set_cnt (Counts 1 1 1 1) a).

(** Pools of [2 ^ k] queues for the traffic classes. *)
Definition tc_pool : Z := if tcs a >? 4 then 3 else 2.
Definition tc_pool_mask : Z := if tcs a >? 4 then IXGBE_82599_VMDQ_8Q_MASK else IXGBE_82599_VMDQ_4Q_MASK.
(** The combined mode: [vi] pools and the FCoE rings, in pools of their own or shared. *)
Record dcb_vmdq_state (a1 : adapter) (vi : Z) : Prop := {
  dv_pools : 1 <= vi /\ (vmdq_offset (ad a) + vi) * 2 ^ tc_pool <= 128;
  dv_ad : vmdq_offset (ad a1) = vmdq_offset (ad a) /\ vmdq_mask (ad a1) = tc_pool_mask /\ vmdq_indices a1 = vi;
  dv_tc : tcs a1 = tcs a /\ ixgbe_fcoe_get_tc a1 = ixgbe_fcoe_get_tc a;
  dv_flags : aflag IXGBE_FLAG_VMDQ_ENABLED a1 = true /\ rxq a1 = txq a1;
  dv_fcoe : (rxq a1 = vi * tcs a /\ (aflag IXGBE_FLAG_FCOE_ENABLED a1 = false \/ f_offset (fcoe a1) < tcs a)) \/
            (exists fi, aflag IXGBE_FLAG_FCOE_ENABLED a1 = true /\ aflag IXGBE_FLAG_FCOE_ENABLED a = true /\ f_offset (fcoe a1) = vi * tcs a /\ f_indices (fcoe a1) = fi /\ 1 <= fi /\
               rxq a1 = vi * tcs a + fi /\ (vmdq_offset (ad a) + vi + fi) * 2 ^ tc_pool <= 128)
}.
Lemma dcb_vmdq_counts : 1 < tcs a -> aflag IXGBE_FLAG_VMDQ_ENABLED a = true -> mac <> ixgbe_mac_82598EB ->
  exists a1 vi, ixgbe_set_dcb_vmdq_queues mac a0 = Some a1 /\ dcb_vmdq_state a1 vi.
Proof.
  intros Ht Hv Hm. destruct Hok. specialize (ok_pools0 Hv).
  set (off := vmdq_offset (ad a)) in *. set (lim := vmdq_limit (ad a)) in *.
  set (cap := if tcs a >? 4 then 16 else 32). set (k := tc_pool).
  assert (cap * 2 ^ k = 128 /\ 0 <= off < cap /\ cap <= 32) as (Hcap & Hoff & Hc32).
  { destruct ok_offset0. unfold cap, k, tc_pool. replace (tcs a >? 1) with true in * by lia. destruct (tcs a >? 4); lia. }
  set (vi := Z.min (lim + off) cap - off).
  assert (1 <= vi /\ off + vi <= cap /\ vi <= 64) as Hvi by (unfold vi; lia).
  assert (dcb_vmdq_layout mac a0 = (vi, tc_pool_mask, cap - (off + vi), tcs a)) as Hlay.
  { unfold dcb_vmdq_layout. change (tcs a0) with (tcs a). change (ad a0) with (ad a). fold off lim. rewrite (u16_small (lim + off)) by lia.
    assert ((if tcs a >? 4 then min_t16 (lim + off) 16 else min_t16 (lim + off) 32) = off + vi) as ->.
    { unfold vi, cap. destruct (tcs a >? 4); rewrite min16 by lia; lia. }
    fold tc_pool_mask. assert (128 /c __ALIGN_MASK 1 (Z.lnot tc_pool_mask) = cap) as ->.
    { unfold tc_pool_mask, cap. by destruct (tcs a >? 4). }
    rewrite (u16_small (off + vi - off)), (u16_small (cap - (off + vi))) by lia.
    replace (off + vi - off) with vi by lia. destruct ok_mac0 as [->|[->| ->]]; done. }
  unfold ixgbe_set_dcb_vmdq_queues. change (tcs a0) with (tcs a). replace (tcs a <=? 1) with false by lia.
  change (aflag IXGBE_FLAG_VMDQ_ENABLED a0) with (aflag IXGBE_FLAG_VMDQ_ENABLED a). rewrite Hv, Hlay. cbn [negb]. cbv iota zeta.
  set (a2 := flag_off IXGBE_FLAG_FDIR_HASH_CAPABLE _).
  assert (forall f, Z.land IXGBE_FLAG_FDIR_HASH_CAPABLE f = 0 -> aflag f a2 = aflag f a) as Hfl by (intros f Hf; etrans; [apply aflag_off; exact Hf|done]).
  rewrite (Hfl IXGBE_FLAG_FCOE_ENABLED) by done. assert (ixgbe_fcoe_get_tc a2 = ixgbe_fcoe_get_tc a) as Hg by done.
  assert (0 <= vi * tcs a < 2 ^ 15) as Hvt by nia.
  destruct (aflag IXGBE_FLAG_FCOE_ENABLED a) eqn:Hf.
  - specialize (ok_fcoe0 eq_refl). change (f_limit (fcoe a2)) with (f_limit (fcoe a)). unfold IXGBE_MAX_FCOE_INDICES in *.
    rewrite min16 by lia. set (fi := Z.min _ _).
    destruct (truthy fi) eqn:Hfi.
    + destruct (tc_queues_spec (tcs a) 1 (fun i => i) (add_queues fi (set_fcoe fi (u16 (vi * tcs a)) a2))) as (t & -> & T1 & T2).
      eexists _, vi. split; [reflexivity|]. split; [split; [lia|unfold k in *; nia]|done|exact (conj T1 T2)|exact (conj (eq_trans (Hfl IXGBE_FLAG_VMDQ_ENABLED eq_refl) Hv) eq_refl)|].
      right. exists fi. apply negb_true_iff, Z.eqb_neq in Hfi. split_and!; [exact (eq_trans (Hfl IXGBE_FLAG_FCOE_ENABLED eq_refl) Hf)|done|apply u16_small; lia|done|unfold fi in *; lia|done|unfold fi, k in *; nia].
    + replace (tcs a >? 1) with true by lia.
      destruct (tc_queues_spec (tcs a) 1 (fun i => i) (set_fcoe 1 (u8 (ixgbe_fcoe_get_tc a2)) a2)) as (t & -> & T1 & T2).
      eexists _, vi. split; [reflexivity|]. split; [split; [lia|unfold k in *; nia]|done|exact (conj T1 T2)|exact (conj (eq_trans (Hfl IXGBE_FLAG_VMDQ_ENABLED eq_refl) Hv) eq_refl)|].
      left. split; [done|]. right. change (u8 (ixgbe_fcoe_get_tc a) < tcs a). rewrite u8_small; lia.
  - destruct (tc_queues_spec (tcs a) 1 (fun i => i) a2) as (t & -> & T1 & T2).
    eexists _, vi. split; [reflexivity|]. split; [split; [lia|unfold k in *; nia]|done|exact (conj T1 T2)|exact (conj (eq_trans (Hfl IXGBE_FLAG_VMDQ_ENABLED eq_refl) Hv) eq_refl)|].
    left. split; [done|]. left. exact (eq_trans (Hfl IXGBE_FLAG_FCOE_ENABLED eq_refl) Hf).
Qed.

Lemma tc_pool_masks : pool_mask tc_pool (Z.lnot tc_pool_mask) tc_pool_mask 128.
Proof. apply pool_mask_check. unfold tc_pool, tc_pool_mask. by destruct (tcs a >? 4); vm_compute. Qed.
Lemma tc_pool_size : 1 < tcs a -> 0 <= tc_pool /\ 0 < tcs a <= 2 ^ tc_pool /\ 2 ^ tc_pool < 128.
Proof. intros Ht. destruct Hok. unfold tc_pool. destruct (Z.gtb_spec (tcs a) 4); cbn; lia. Qed.

(** What is shown of each mode: the registers of the rings. *)
Definition maps_rings (a1 a2 : adapter) : Prop :=
  exists f g, one_to_one (rxq a1) 128 f /\ one_to_one (txq a1) 128 g /\
    exists tx rx, a2 = set_rings tx rx a1 /\
      (forall i, 0 <= i < rxq a1 -> exists r r', rx_ring a1 !! Z.to_nat i = Some (Some r) /\ rx !! Z.to_nat i = Some (Some r') /\
         reg_idx r' = f i /\ queue_index r' = queue_index r /\ r_vector r' = r_vector r) /\
      (forall i, 0 <= i < txq a1 -> exists r r', tx_ring a1 !! Z.to_nat i = Some (Some r) /\ tx !! Z.to_nat i = Some (Some r') /\
         reg_idx r' = g i /\ queue_index r' = queue_index r /\ r_vector r' = r_vector r).
(** [F] sets the register and keeps what identifies the ring. *)
Definition sets_reg (F : Z -> ixgbe_ring -> ixgbe_ring) (f : Z -> Z) : Prop :=
  forall i r, reg_idx (F i r) = u8 (f i) /\ queue_index (F i r) = queue_index r /\ r_vector (F i r) = r_vector r.
Lemma changed_reg n F f rings rings' i : sets_reg F f -> present 0 n rings -> changed 0 n F rings rings' -> one_to_one n 128 f -> 0 <= i < n ->
  exists r r', rings !! Z.to_nat i = Some (Some r) /\ rings' !! Z.to_nat i = Some (Some r') /\
    reg_idx r' = f i /\ queue_index r' = queue_index r /\ r_vector r' = r_vector r.
Proof.
  intros HF P [_ C] [B _] Hi. destruct (P i ltac:(lia)) as [r Hr]. exists r, (F i r). rewrite C, Hr, bool_decide_true by lia.
  destruct (HF i r) as (E1 & E2 & E3). split_and!; try done. rewrite E1. apply u8_small. specialize (B i Hi). lia.
Qed.
Lemma maps_of F G f g a1 tx rx : sets_reg F f -> sets_reg G g -> one_to_one (rxq a1) 128 f -> one_to_one (txq a1) 128 g ->
  present 0 (rxq a1) (rx_ring a1) -> present 0 (txq a1) (tx_ring a1) ->
  changed 0 (rxq a1) F (rx_ring a1) rx -> changed 0 (txq a1) G (tx_ring a1) tx -> maps_rings a1 (set_rings tx rx a1).
Proof.
  intros HF HG Of Og Pr Pt Cr Ct. exists f, g. split_and!; [done..|]. exists tx, rx.
  split_and!; [done|..]; intros i Hi; [exact (changed_reg _ F f _ _ i HF Pr Cr Of Hi)|exact (changed_reg _ G g _ _ i HG Pt Ct Og Hi)].
Qed.
Lemma reg_of_sets f : sets_reg (reg_of f) f.
Proof. by intros i r. Qed.

Lemma dcb_vmdq_maps a1 vi : mac <> ixgbe_mac_82598EB -> 1 < tcs a -> dcb_vmdq_state a1 vi -> present 0 (rxq a1) (rx_ring a1) -> present 0 (txq a1) (tx_ring a1) ->
  exists a2, ixgbe_cache_ring_dcb_vmdq mac a1 = Some (true, a2) /\ maps_rings a1 a2.
Proof.
  intros Hmac Ht [[Hvi Hp] (A1 & A2 & A3) [T1 T2] [F1 F2] HF] Pr Pt. pose proof (tc_pool_size Ht) as (Hk & Hn & Hk2).
  pose proof tc_pool_masks as Hm. set (k := tc_pool) in *. set (off := vmdq_offset (ad a)) in *. set (n := tcs a) in *.
  assert (0 <= off) as Hoff by apply Hok. set (N := rxq a1) in *. pose proof (Z.pow_pos_nonneg 2 k ltac:(lia) Hk) as Hpk.
  assert (1 <= N /\ forall i, 0 <= i < N -> (off + i / n + 1) * 2 ^ k <= 128) as [HN Hb].
  { destruct HF as [[HN _]|(fi & _ & _ & _ & _ & Hfi & HN & Hb)].
    - split; [nia|]. intros i Hi. assert (i / n < vi) by (apply Z.div_lt_upper_bound; lia). nia.
    - split; [nia|]. intros i Hi. assert (i / n < vi + fi) by (apply Z.div_lt_upper_bound; nia). nia. }
  unfold ixgbe_cache_ring_dcb_vmdq. rewrite T1, F1, A1, A2. fold n off N. replace (n <=? 1) with false by lia. cbn [negb]. cbv iota zeta.
  rewrite (align_one k _ (Z.lnot tc_pool_mask) 128) by done. rewrite (u16_small (off * 2 ^ k)) by nia. assert (txq a1 = N) as E by (by rewrite <- F2). rewrite E in Pt |- *.
  destruct (pool_rings k _ tc_pool_mask 128 off n Hk Hm ltac:(lia) Hoff Hn (Z.to_nat N) 0 (rx_ring a1)) as (rx & Hrx & Crx); rewrite ?Z2Nat.id by lia; try done.
  destruct (pool_rings k _ tc_pool_mask 128 off n Hk Hm ltac:(lia) Hoff Hn (Z.to_nat N) 0 (tx_ring a1)) as (tx & Htx & Ctx); rewrite ?Z2Nat.id by lia; try done.
  rewrite Z2Nat.id in * by lia.
  assert (match mac with
          | ixgbe_mac_82598EB => rx ← each_ring (Z.to_nat N) (fun i => Z.land (Z.lor (Z.shiftr i 3) (Z.shiftl i 3)) 0x3F) 0 (rx_ring a1);
              tx ← each_ring (Z.to_nat N) (fun i => Z.land (Z.lor (Z.shiftr i 4) (Z.shiftl i 2)) 0x1F) 0 (tx_ring a1); Some (set_rings tx rx a1)
          | ixgbe_mac_82599EB | ixgbe_mac_X540 => rx ← pool_loop (Z.to_nat N) (Z.lnot tc_pool_mask) tc_pool_mask n 0 0 (off * 2 ^ k) (rx_ring a1);
              tx ← pool_loop (Z.to_nat N) (Z.lnot tc_pool_mask) tc_pool_mask n 0 0 (off * 2 ^ k) (tx_ring a1); Some (set_rings tx.2 rx.2 a1)
          | _ => Some a1 end = Some (set_rings tx rx a1)) as ->.
  { destruct (ok_mac _ _ _ Hok) as [->|[->| ->]]; [done|..]; by rewrite Hrx, Htx. }
  cbn [mbind option_bind]. change (aflag IXGBE_FLAG_FCOE_ENABLED (set_rings tx rx a1)) with (aflag IXGBE_FLAG_FCOE_ENABLED a1).
  change (fcoe (set_rings tx rx a1)) with (fcoe a1). change (tcs (set_rings tx rx a1)) with (tcs a1). rewrite T1. fold n.
  destruct HF as [[HN' HF]|(fi & HF1 & HFa & HF2 & HF3 & Hfi & HN' & Hb3)].
  - exists (set_rings tx rx a1). split.
    + destruct HF as [->|HF%Z.ltb_lt]; [done|]. rewrite HF. by destruct (aflag IXGBE_FLAG_FCOE_ENABLED a1).
    + eapply maps_of; [apply reg_of_sets|apply reg_of_sets|..|exact Crx|rewrite E; exact Ctx]; rewrite ?E; try done; by apply pool_one_to_one.
  - rewrite HF1, HF2, HF3. cbn [negb]. replace (vi * n <? n) with false by nia. replace (truthy fi) with true by (unfold truthy; lia).
    change (ixgbe_fcoe_get_tc (set_rings tx rx a1)) with (ixgbe_fcoe_get_tc a1). change (txq (set_rings tx rx a1)) with (txq a1).
    change (rxq (set_rings tx rx a1)) with N. cbn [ad vmdq_indices rx_ring tx_ring set_rings]. rewrite A1, A3, T2, E. fold off. destruct (ok_fcoe _ _ _ Hok HFa) as (_ & _ & Hft). fold n in Hft.
    rewrite (u16_small (2 ^ k)), (u16_small ((off + vi) * 2 ^ k)), (u8_small (ixgbe_fcoe_get_tc a)) by nia. set (t := ixgbe_fcoe_get_tc a) in *.
    assert (__ALIGN_MASK ((off + vi) * 2 ^ k) (Z.lnot tc_pool_mask) = (off + vi + (vi * n - vi * n)) * 2 ^ k) as Ha.
    { destruct (Hm ((off + vi) * 2 ^ k)) as [_ ->]; [nia| |nia]. replace ((off + vi) * 2 ^ k + 2 ^ k - 1) with ((2 ^ k - 1) + (off + vi) * 2 ^ k) by lia.
      rewrite Z.div_add, Z.div_small by lia. lia. }
    replace (N - vi * n) with fi by lia.
    destruct (fcoe_loop_spec k _ tc_pool_mask 128 t (Z.to_nat fi) (vi * n) Hk Hm ltac:(lia) ltac:(lia) (off + vi) ((off + vi) * 2 ^ k) (vi * n) rx) as (rx2 & -> & C1);
      [lia|lia|nia|nia|done|eapply changed_present; [nia|exact Crx|]; eapply present_sub; [| |exact Pr]; nia|].
    destruct (fcoe_loop_spec k _ tc_pool_mask 128 t (Z.to_nat fi) (vi * n) Hk Hm ltac:(lia) ltac:(lia) (off + vi) ((off + vi) * 2 ^ k) (vi * n) tx) as (tx2 & -> & C2);
      [lia|lia|nia|nia|done|eapply changed_present; [nia|exact Ctx|]; eapply present_sub; [| |exact Pt]; nia|].
    rewrite Z2Nat.id in * by lia. exists (set_rings tx2 rx2 a1). split; [done|].
    set (f := fun i => if i <? vi * n then pool_reg k off n i else fcoe_reg k (off + vi) (vi * n) t i).
    assert (one_to_one N 128 f) as Hf by (rewrite HN'; apply fcoe_one_to_one; lia).
    apply (maps_of (reg_of f) (reg_of f) f f); rewrite ?E; fold N; try done; eapply changed_over; try done; nia.
Qed.

(** Traffic classes without pools. *)
Definition tc_queues_max : Z := if bool_decide (mac = ixgbe_mac_82598EB) then 4 else if tcs a >? 4 then 8 else 16.
Record dcb_state (a1 : adapter) (n : Z) : Prop := {
  ds_rss : rss_indices a1 = n /\ 1 <= n <= tc_queues_max;
  ds_tc : tcs a1 = tcs a;
  ds_flags : aflag IXGBE_FLAG_VMDQ_ENABLED a1 = false;
  ds_count : rxq a1 = tcs a * n /\ txq a1 = tcs a * n
}.
Lemma dcb_counts : 1 < tcs a -> aflag IXGBE_FLAG_VMDQ_ENABLED a = false -> exists a1 n, ixgbe_set_dcb_queues mac a0 = Some a1 /\ dcb_state a1 n.
Proof.
  intros Ht Hv. destruct Hok. set (n := Z.min (Z.min (dev_num_tx_queues (opts a) /c tcs a) tc_queues_max) (rss_limit (ad a))).
  assert (1 <= dev_num_tx_queues (opts a) /c tcs a < 2 ^ 16) as Hq.
  { rewrite Z.quot_div_nonneg by lia. split; [apply Z.div_le_lower_bound; lia|apply Z.div_lt_upper_bound; lia]. }
  assert (4 <= tc_queues_max <= 16) as Hmax by (unfold tc_queues_max; case_bool_decide; [lia|]; destruct (tcs a >? 4); lia).
  unfold ixgbe_set_dcb_queues. change (tcs a0) with (tcs a). change (opts a0) with (opts a). change (ad a0) with (ad a). cbv zeta. replace (tcs a <=? 1) with false by lia.
  set (p := if bool_decide (mac = ixgbe_mac_82598EB) then _ else _).
  assert (p.1 = Z.min (dev_num_tx_queues (opts a) /c tcs a) tc_queues_max) as Hp.
  { unfold p, tc_queues_max in *. case_bool_decide; [cbn; apply min16; lia|]. destruct (tcs a >? 4); cbn; apply min16; lia. }
  destruct p as [q m]. cbn [fst] in Hp. subst q. rewrite (min16 (Z.min _ _)) by lia. fold n.
  set (a2 := if aflag _ _ then _ else _).
  assert (aflag IXGBE_FLAG_VMDQ_ENABLED a2 = false /\ tcs a2 = tcs a /\ rss_indices a2 = n) as (F1 & F2 & F3).
  { assert (aflag IXGBE_FLAG_VMDQ_ENABLED (flag_off IXGBE_FLAG_FDIR_HASH_CAPABLE (set_rss n m a0)) = false) as HV by (etrans; [by apply aflag_off|exact Hv]).
    unfold a2. clear -HV. case_match; (split; [exact HV|done]). }
  destruct (tc_queues_spec (tcs a) n (fun i => n * i) a2) as (t & -> & T1 & T2).
  eexists _, n. split; [reflexivity|]. split; [split; [exact F3|lia]|exact (eq_trans T1 F2)|exact F1|].
  unfold rxq, txq. cbn [cnt set_cnt num_rx_queues num_tx_queues]. split; lia.
Qed.

Definition tc_blocks_b (m : mac_type) (num b : Z) (first : Z -> Z) : bool :=
  forallb (fun t => (0 <=? first t) && (first t + b <=? 128) && forallb (fun t' => negb (t <? t') || (first t + b <=? first t')) (seqZ 0 num)) (seqZ 0 num).
Lemma tc_one_to_one (m : mac_type) num b first n : tc_blocks_b m num b first = true -> 1 <= n <= b -> one_to_one (num * n) 128 (fun i => first (i / n) + i mod n).
Proof.
  intros Hc Hn. unfold tc_blocks_b in Hc. rewrite forallb_forall in Hc.
  assert (forall t, 0 <= t < num -> 0 <= first t /\ first t + b <= 128 /\ forall t', t < t' < num -> first t + b <= first t') as Hb.
  { intros t Ht. specialize (Hc t). rewrite <- list_elem_of_In, elem_of_seqZ in Hc. specialize (Hc ltac:(lia)).
    apply andb_true_iff in Hc as [[H1 H2]%andb_true_iff H3]. split_and!; [lia|lia|]. intros t' Ht'. rewrite forallb_forall in H3. specialize (H3 t').
    rewrite <- list_elem_of_In, elem_of_seqZ in H3. specialize (H3 ltac:(lia)). apply orb_true_iff in H3 as [H3|H3]; lia. }
  assert (forall i, 0 <= i < num * n -> 0 <= i / n < num /\ 0 <= i mod n < n) as Hd.
  { intros i Hi. split; [split; [apply Z.div_pos; lia|apply Z.div_lt_upper_bound; lia]|apply Z.mod_pos_bound; lia]. }
  split.
  - intros i Hi. destruct (Hd i Hi) as [H1 H2]. destruct (Hb _ H1) as (? & ? & _). lia.
  - intros i j Hi Hj E. destruct (Hd i Hi) as [D1 M1], (Hd j Hj) as [D2 M2]. destruct (Hb _ D1) as (_ & _ & B1), (Hb _ D2) as (_ & _ & B2).
    assert (i / n = j / n) as E2.
    { destruct (Z.lt_trichotomy (i / n) (j / n)) as [L|[L|L]]; [specialize (B1 (j / n)); lia|done|specialize (B2 (i / n)); lia]. }
    rewrite (Z.div_mod i n), (Z.div_mod j n) by lia. rewrite E2 in *. lia.
Qed.
Lemma tc_blocks : 1 < tcs a -> tc_blocks_b mac (tcs a) tc_queues_max (fun t => (ixgbe_get_first_reg_idx mac (tcs a) t).1) = true /\
  tc_blocks_b mac (tcs a) tc_queues_max (fun t => (ixgbe_get_first_reg_idx mac (tcs a) t).2) = true.
Proof.
  intros Ht. unfold tc_queues_max. destruct Hok. assert (tcs a = 2 \/ tcs a = 3 \/ tcs a = 4 \/ tcs a = 5 \/ tcs a = 6 \/ tcs a = 7 \/ tcs a = 8) as Hc by lia.
  destruct ok_mac0 as [->|[->| ->]]; destruct Hc as [->|[->|[->|[->|[->|[->| ->]]]]]]; split; vm_compute; reflexivity.
Qed.
Lemma dcb_maps a1 n : 1 < tcs a -> dcb_state a1 n -> present 0 (rxq a1) (rx_ring a1) -> present 0 (txq a1) (tx_ring a1) ->
  exists a2, ixgbe_cache_ring_dcb_vmdq mac a1 = Some (false, a1) /\ ixgbe_cache_ring_dcb mac a1 = Some (true, a2) /\ maps_rings a1 a2.
Proof.
  intros Ht [[R1 Hn] T1 F1 [C1 C2]] Pr Pt. destruct (tc_blocks Ht) as [B1 B2]. assert (0 <= tcs a <= 8) as H8 by apply Hok.
  unfold ixgbe_cache_ring_dcb_vmdq, ixgbe_cache_ring_dcb. rewrite T1, F1, R1. replace (tcs a <=? 1) with false by lia.
  destruct (tc_loop_spec mac n (Z.to_nat (tcs a)) ltac:(lia) 0 a1) as (tx & rx & H1 & Ct & Cr);
    [lia|lia|rewrite Z2Nat.id, Z.mul_0_l, <- C2 by lia; done|rewrite Z2Nat.id, Z.mul_0_l, <- C1 by lia; done|].
  rewrite Z.mul_0_l in H1, Ct, Cr. rewrite Z2Nat.id in Ct, Cr by lia. rewrite T1 in Ct, Cr. rewrite H1. exists (set_rings tx rx a1). split_and!; [done..|].
  eapply maps_of; [| | | |done|done|rewrite C1; exact Cr|rewrite C2; exact Ct]; rewrite ?C1, ?C2; try (by intros i r); by apply (tc_one_to_one mac _ tc_queues_max).
Qed.

(** Pools without traffic classes: [n] rings in each pool of [2 ^ k] queues, then FCoE rings. *)
Record vmdq_state (a1 : adapter) (k n size : Z) : Prop := {
  vs_masks : pool_mask k (Z.lnot (vmdq_mask (ad a1))) (vmdq_mask (ad a1)) size /\ pool_mask k (rss_mask a1) (vmdq_mask (ad a1)) size;
  vs_size : 0 <= k /\ 2 ^ k < size <= 128;
  vs_n : rss_indices a1 = n /\ 0 < n <= 2 ^ k;
  vs_off : vmdq_offset (ad a1) = vmdq_offset (ad a) /\ 0 <= f_offset (fcoe a1);
  vs_flags : aflag IXGBE_FLAG_VMDQ_ENABLED a1 = true /\ tcs a1 = tcs a;
  vs_count : 1 <= rxq a1 /\ txq a1 = rxq a1;
  vs_pools : forall i, 0 <= i < rxq a1 -> (truthy (f_offset (fcoe a1)) && (i >? f_offset (fcoe a1))) = false -> (vmdq_offset (ad a) + i / n + 1) * 2 ^ k <= size;
  vs_regs : forall i, 0 <= i < rxq a1 -> vmdq_reg k (vmdq_offset (ad a)) n (f_offset (fcoe a1)) i < size
}.
Lemma vmdq_maps a1 k n size : tcs a <= 1 -> vmdq_state a1 k n size -> present 0 (rxq a1) (rx_ring a1) -> present 0 (txq a1) (tx_ring a1) ->
  exists a2, ixgbe_cache_ring_dcb_vmdq mac a1 = Some (false, a1) /\ ixgbe_cache_ring_dcb mac a1 = Some (false, a1) /\
    ixgbe_cache_ring_vmdq a1 = Some (true, a2) /\ maps_rings a1 a2.
Proof.
  intros Ht [[M1 M2] [Hk Hs] [R1 Hn] [O1 O2] [F1 T1] [C1 C2] B1 B2] Pr Pt. assert (0 <= vmdq_offset (ad a)) as Hoff by apply Hok.
  rewrite <- R1, <- O1 in *. rewrite C2 in Pt.
  destruct (vmdq_rings_spec k _ size (rxq a1) a1 (rx_ring a1) Hk M1 ltac:(lia) Hoff Hn O2 ltac:(lia) Pr B1 B2) as (rx & Hrx & Crx).
  destruct (vmdq_rings_spec k _ size (rxq a1) a1 (tx_ring a1) Hk M2 ltac:(lia) Hoff Hn O2 ltac:(lia) Pt B1 B2) as (tx & Htx & Ctx).
  exists (set_rings tx rx a1). unfold ixgbe_cache_ring_dcb_vmdq, ixgbe_cache_ring_dcb, ixgbe_cache_ring_vmdq. rewrite T1, F1, C2, Hrx.
  replace (tcs a <=? 1) with true by lia. split_and!; [done|done|cbn [negb mbind option_bind]; by rewrite Htx|].
  pose proof (vmdq_one_to_one k _ _ _ (rxq a1) size Hk Hoff Hn O2 ltac:(lia) B1 B2) as [O3 O4].
  eapply maps_of; [apply reg_of_sets|apply reg_of_sets|..|exact Crx|rewrite C2; exact Ctx]; rewrite ?C2; try done;
    (split; [|exact O4]; intros i Hi; specialize (O3 i Hi); lia).
Qed.

Definition vmdq_split (fi n : Z) (msix : bool) : Z := if msix then Z.min (fi + n) cpus else n.
(** FCoE rings merged with the RSS rings of a single pool, or without room for any. *)
Lemma fits_merged k n off vi fi lim msix : (k = 1 /\ (n = 1 \/ n = 2)) \/ (k = 2 /\ n = 4) -> 0 <= off -> 1 <= vi -> 0 <= fi <= lim -> 1 <= lim -> n <= cpus ->
  (off + vi) * 2 ^ k + fi <= 128 -> off + lim + 1 <= 64 -> (vi = 1 \/ fi = 0) ->
  let F := vmdq_split fi n msix in let stop := F - Z.min F lim in
  n <= F <= fi + n /\ 0 <= stop /\ fits k n off stop (vi * n + (F - n)) 128.
Proof.
  intros Hkn Ho Hvi Hfi Hl Hc Hb Hol Hcase F stop. assert (n <= F <= fi + n) as HF by (unfold F, vmdq_split; destruct msix; lia).
  assert (0 <= stop) as Hst by (unfold stop; lia). split_and!; [lia|lia|done|]. clearbody F.
  destruct Hkn as [[-> [-> | ->]]|[-> ->]].
  - destruct (decide (F <= lim)) as [Hle|Hgt].
    + replace stop with 0 by (unfold stop; lia). apply fits_pools; try lia. intros i Hi. rewrite Z.div_1_r. change (2 ^ 1) with 2 in *. destruct Hcase; nia.
    + assert (F = lim + 1 /\ fi = lim) as [-> ->] by lia. replace stop with 1 by (unfold stop; lia). destruct Hcase as [->|]; [|lia].
      split; intros i Hi; [|unfold vmdq_reg; cbn [truthy Z.eqb negb andb]; destruct (Z.gtb_spec i 1)]; unfold pool_reg; rewrite ?Z.div_1_r, ?Z.mod_1_r; change (2 ^ 1) with 2 in *.
      * cbn. intros Hi1. lia.
      * lia.
      * lia.
  - apply (fits_full 1); [lia|lia|lia|]. change (2 ^ 1) with 2 in *. destruct Hcase; lia.
  - apply (fits_full 2); [lia|lia|lia|]. change (2 ^ 2) with 4 in *. destruct Hcase; lia.
Qed.

(** The layout of the pools: [vi] of them with [n] of [2 ^ k] queues, and [fi] queues left. *)
Record vmdq_layout_ok (vi m n rm fi k size : Z) : Prop := {
  vl_eq : vmdq_layout mac a0 = (vi, m, n, rm, fi);
  vl_masks : pool_mask k (Z.lnot m) m size /\ pool_mask k rm m size;
  vl_size : 0 <= k /\ 2 ^ k < size <= 128;
  vl_n : 0 < n <= 2 ^ k /\ n <= cpus;
  vl_pools : 1 <= vi <= 64 /\ (vmdq_offset (ad a) + vi) * 2 ^ k <= size;
  vl_fcoe : mac <> ixgbe_mac_82598EB -> size = 128 /\ ((k = 1 /\ (n = 1 \/ n = 2)) \/ (k = 2 /\ n = 4)) /\ fi = 128 - (vmdq_offset (ad a) + vi) * 2 ^ k
}.
Ltac masks := split; apply pool_mask_check; vm_compute; reflexivity.
Lemma vmdq_layout_spec : tcs a <= 1 -> aflag IXGBE_FLAG_VMDQ_ENABLED a = true -> exists vi m n rm fi k size, vmdq_layout_ok vi m n rm fi k size.
Proof.
  intros Ht Hv. destruct Hok. specialize (ok_pools0 Hv). set (off := vmdq_offset (ad a)) in *. set (lim := vmdq_limit (ad a)) in *. set (r := rss_limit (ad a)) in *.
  replace (tcs a >? 4) with false in ok_offset0 by lia. replace (tcs a >? 1) with false in ok_offset0 by lia.
  destruct (decide (mac = ixgbe_mac_82598EB)) as [E|E].
  - destruct (ok_82599 E) as (Ho & _). assert (forall x, (x = true) \/ x = false) as Hb by (intros []; auto).
    destruct (Hb ((min_t16 lim 16 >? 4) || (r =? 1))) as [Hc|Hc].
    + exists (Z.min lim 16), 0x0F, 1, 0, 0, 0, 16. split; [|masks|lia|lia|fold off; rewrite Ho; lia|done].
      unfold vmdq_layout. rewrite E. change (ad a0) with (ad a). fold lim r. cbv zeta. rewrite Hc, min16 by lia. done.
    + exists (Z.min lim 16), 0x18, (Z.min r 8), 7, 0, 3, 32. split; [|masks|lia|change (2 ^ 3) with 8; lia| |done].
      * unfold vmdq_layout. rewrite E. change (ad a0) with (ad a). fold lim r. cbv zeta. rewrite Hc, !min16 by lia. done.
      * rewrite min16 in Hc by lia. fold off. rewrite Ho. change (2 ^ 3) with 8. lia.
  - set (V := Z.min 64 (lim + off)). assert (off < V <= 64) as HV by (unfold V; lia).
    assert (vmdq_layout mac a0 = let '(m, rm, n) := if (V >? 32) || (r <? 4) then (IXGBE_82599_VMDQ_2Q_MASK, IXGBE_RSS_2Q_MASK, min_t16 r 2)
              else (IXGBE_82599_VMDQ_4Q_MASK, IXGBE_RSS_4Q_MASK, 4) in (u16 (V - off), m, n, rm, u16 (128 - V * __ALIGN_MASK 1 (Z.lnot m)))) as HL.
    { unfold vmdq_layout. change (ad a0) with (ad a). fold lim r off. rewrite (u16_small (lim + off)) by lia.
      rewrite (min16 IXGBE_MAX_VMDQ_INDICES) by (unfold IXGBE_MAX_VMDQ_INDICES; lia). fold V. destruct ok_mac0 as [->|[->| ->]]; [done|..]; by destruct (_ || _). }
    rewrite (u16_small (V - off)) in HL by lia. replace (off + (V - off)) with V by lia.
    destruct ((V >? 32) || (r <? 4)) eqn:Hc; cbv iota beta in HL.
    + exists (V - off), 0x7E, (Z.min r 2), 1, (128 - V * 2), 1, 128.
      split; fold off; [|masks|lia|change (2 ^ 1) with 2; lia|change (2 ^ 1) with 2; lia|intros _; change (2 ^ 1) with 2; lia].
      rewrite HL, min16 by lia. change (__ALIGN_MASK 1 (Z.lnot IXGBE_82599_VMDQ_2Q_MASK)) with 2. by rewrite u16_small by lia.
    + exists (V - off), 0x7C, 4, 3, (128 - V * 4), 2, 128.
      split; fold off; [|masks|lia|change (2 ^ 2) with 4; lia|change (2 ^ 2) with 4; lia|intros _; change (2 ^ 2) with 4; lia].
      rewrite HL. change (__ALIGN_MASK 1 (Z.lnot IXGBE_82599_VMDQ_4Q_MASK)) with 4. by rewrite u16_small by lia.
Qed.
Lemma vmdq_counts : tcs a <= 1 -> aflag IXGBE_FLAG_VMDQ_ENABLED a = true ->
  exists a1 k n size, ixgbe_set_vmdq_queues mac cpus a0 = Some a1 /\ vmdq_state a1 k n size.
Proof.
  intros Ht Hv. destruct (vmdq_layout_spec Ht Hv) as (vi & m & n & rm & fi & k & size & [HL HM HS HN HP HF]). destruct Hok.
  assert (0 <= vmdq_offset (ad a)) as Hoff by apply ok_offset0. set (off := vmdq_offset (ad a)) in *.
  unfold ixgbe_set_vmdq_queues. change (aflag IXGBE_FLAG_VMDQ_ENABLED a0) with (aflag IXGBE_FLAG_VMDQ_ENABLED a). rewrite Hv, HL. cbn [negb]. cbv iota zeta.
  set (a2 := flag_off IXGBE_FLAG_FDIR_HASH_CAPABLE _).
  assert (forall f, Z.land IXGBE_FLAG_FDIR_HASH_CAPABLE f = 0 -> aflag f a2 = aflag f a) as Hfl by (intros f Hf; etrans; [apply aflag_off; exact Hf|done]).
  rewrite (Hfl IXGBE_FLAG_FCOE_ENABLED) by done.
  assert (2 ^ k <= 128) as Hk7 by lia. assert (0 <= vi * n < 2 ^ 15) as Hvn by nia.
  destruct (aflag IXGBE_FLAG_FCOE_ENABLED a) eqn:Hf.
  2:{ eexists a2, k, n, size. split; [reflexivity|]. pose proof (fits_plain k n off vi size ltac:(lia) Hoff ltac:(lia) ltac:(lia) ltac:(lia)) as [B1 B2].
      assert (f_offset (fcoe a2) = 0) as Hz by (exact (ok_no_fcoe0 eq_refl)).
      split; rewrite ?Hz; [done|done|split; [done|lia]|done|split; [exact (eq_trans (Hfl IXGBE_FLAG_VMDQ_ENABLED eq_refl) Hv)|done]|split; [change (1 <= vi * n); nia|done]|exact B1|exact B2]. }
  specialize (ok_fcoe0 eq_refl). unfold IXGBE_MAX_FCOE_INDICES in *. change (f_limit (fcoe a2)) with (f_limit (fcoe a)). set (fl := f_limit (fcoe a)) in *.
  destruct HF as (-> & Hkn & ->). { intros E. destruct (ok_82599 E) as (_ & ? & _). congruence. }
  rewrite min16 by lia. set (fi := Z.min _ fl). assert (0 <= fi <= fl /\ (off + vi) * 2 ^ k + fi <= 128) as [Hfi Hfb] by (unfold fi; lia).
  assert (0 <= k <= 7) as Hk by lia.
  destruct ((vi >? 1) && truthy fi) eqn:Hc.
  - apply andb_true_iff in Hc as [Hc1 Hc2]. unfold truthy in Hc2. eexists _, k, n, 128. split; [reflexivity|].
    pose proof (fits_separate k n off vi fi Hk Hoff ltac:(lia) ltac:(lia) ltac:(lia) ltac:(lia)) as [B1 B2].
    set (a3 := add_queues fi _). assert (f_offset (fcoe a3) = vi * n) as Hz by (apply u16_small; lia).
    split; rewrite ?Hz; [done|lia|split; [done|lia]|split; [done|lia]|split; [exact (eq_trans (Hfl IXGBE_FLAG_VMDQ_ENABLED eq_refl) Hv)|done]|split; [change (1 <= vi * n + fi); lia|done]|exact B1|exact B2].
  - set (F := if negb _ then n else _). assert (F = vmdq_split fi n (aflag IXGBE_FLAG_MSIX_ENABLED a)) as HFe.
    { unfold F, vmdq_split. rewrite (Hfl IXGBE_FLAG_MSIX_ENABLED) by done. rewrite min16 by lia. by destruct (aflag IXGBE_FLAG_MSIX_ENABLED a). }
    assert (vi = 1 \/ fi = 0) as Hcase by (unfold truthy in Hc; lia).
    destruct (fits_merged k n off vi fi fl (aflag IXGBE_FLAG_MSIX_ENABLED a) Hkn Hoff ltac:(lia) Hfi ltac:(lia) ltac:(lia) Hfb ltac:(lia) Hcase) as (HF & Hst & B1 & B2).
    rewrite <- HFe in *. clearbody F. rewrite min16 by lia. rewrite !u16_small by lia. eexists _, k, n, 128. split; [reflexivity|].
    split; [done|lia|split; [done|lia]|split; [done|exact Hst]|split; [exact (eq_trans (Hfl IXGBE_FLAG_VMDQ_ENABLED eq_refl) Hv)|done]|split; [change (1 <= vi * n + (F - n)); nia|done]|exact B1|exact B2].
Qed.

(** One pool with RSS or flow director queues: the rings are the first queues. *)
Record rss_state (a1 : adapter) : Prop := {
  rs_flags : aflag IXGBE_FLAG_VMDQ_ENABLED a1 = false /\ tcs a1 = tcs a;
  rs_count : 1 <= rxq a1 <= MAX_RX_QUEUES /\ txq a1 = rxq a1
}.
Lemma rss_counts : aflag IXGBE_FLAG_VMDQ_ENABLED a = false -> rss_state (ixgbe_set_rss_queues cpus a0).
Proof.
  intros Hv. destruct Hok. set (r := rss_limit (ad a)) in *.
  unfold ixgbe_set_rss_queues. change (ad a0) with (ad a). fold r. cbv zeta. set (a2 := flag_off IXGBE_FLAG_FDIR_HASH_CAPABLE _).
  assert (forall f, Z.land IXGBE_FLAG_FDIR_HASH_CAPABLE f = 0 -> aflag f a2 = aflag f a) as Hfl by (intros f Hf; etrans; [apply aflag_off; exact Hf|done]).
  set (p := if _ && _ then _ else _).
  assert (1 <= p.1 <= 63 /\ tcs p.2 = tcs a /\ fcoe p.2 = fcoe a /\ opts p.2 = opts a /\
    forall f, Z.land IXGBE_FLAG_FDIR_HASH_CAPABLE f = 0 -> aflag f p.2 = aflag f a) as (P1 & P2 & P3 & P4 & P5).
  { unfold p. destruct ((r >? 1) && truthy (atr_sample_rate (opts a2))) eqn:Hc.
    - apply andb_true_iff in Hc as [Hc1 Hc2]. assert (1 <= fdir_limit a <= IXGBE_MAX_FDIR_INDICES) as Hl.
      { apply ok_fdir0; [lia|]. intros E. change (opts a2) with (opts a) in Hc2. by rewrite E in Hc2. }
      cbn [fst snd]. split_and!; [exact (proj1 Hl)|exact (proj2 Hl)|by destruct (negb _)|by destruct (negb _)|by destruct (negb _)|].
      intros f Hf. destruct (negb _); [etrans; [by apply aflag_on|]|]; by apply Hfl.
    - cbn [fst snd]. split_and!; try done; lia. }
  clearbody p. destruct p as [q b]. cbn [fst snd] in *. rewrite (P5 IXGBE_FLAG_FCOE_ENABLED) by done.
  destruct (aflag IXGBE_FLAG_FCOE_ENABLED a) eqn:Hf.
  2:{ split; [split; [exact (eq_trans (P5 IXGBE_FLAG_VMDQ_ENABLED eq_refl) Hv)|done]|]. split; [change (1 <= q <= 71); lia|done]. }
  specialize (ok_fcoe0 eq_refl). unfold IXGBE_MAX_FCOE_INDICES in *. rewrite P3. set (fl := f_limit (fcoe a)) in *.
  set (F := if negb _ then q else _). assert (0 <= F <= 71) as HF.
  { unfold F. rewrite (P5 IXGBE_FLAG_MSIX_ENABLED), P4 by done. rewrite (min16 (fl + q)), min16 by lia. destruct (aflag IXGBE_FLAG_MSIX_ENABLED a); cbn [negb]; lia. }
  clearbody F. split; [split; [exact (eq_trans (P5 IXGBE_FLAG_VMDQ_ENABLED eq_refl) Hv)|done]|].
  split; [|done]. change (1 <= max_t16 F q <= 71). unfold max_t16. rewrite !u16_small by lia. lia.
Qed.
Lemma rss_maps a1 : tcs a <= 1 -> rss_state a1 -> present 0 (rxq a1) (rx_ring a1) -> present 0 (txq a1) (tx_ring a1) ->
  exists a2, ixgbe_cache_ring_dcb_vmdq mac a1 = Some (false, a1) /\ ixgbe_cache_ring_dcb mac a1 = Some (false, a1) /\
    ixgbe_cache_ring_vmdq a1 = Some (false, a1) /\ ixgbe_cache_ring_rss a1 = Some (true, a2) /\ maps_rings a1 a2.
Proof.
  intros Ht [[F1 T1] [C1 C2]] Pr Pt. unfold ixgbe_cache_ring_dcb_vmdq, ixgbe_cache_ring_dcb, ixgbe_cache_ring_vmdq, ixgbe_cache_ring_rss.
  rewrite T1, F1. replace (tcs a <=? 1) with true by lia. unfold MAX_RX_QUEUES, IXGBE_MAX_FDIR_INDICES, IXGBE_MAX_FCOE_INDICES in *.
  destruct (each_ring_spec (Z.to_nat (rxq a1)) (fun i => i) 0 (rx_ring a1)) as (rx & -> & Cr); [lia|by rewrite Z2Nat.id by lia|].
  destruct (each_ring_spec (Z.to_nat (txq a1)) (fun i => i) 0 (tx_ring a1)) as (tx & Htx & Ct); [lia|by rewrite Z2Nat.id by lia|].
  rewrite Z2Nat.id in Cr, Ct by lia. exists (set_rings tx rx a1). split_and!; [done..|cbn [mbind option_bind]; by rewrite Htx|].
  eapply maps_of; [apply reg_of_sets|apply reg_of_sets|..|exact Cr|exact Ct]; try done; (split; [lia|done]).
Qed.

(** The four modes. *)
Inductive mode_ok (a1 : adapter) : Prop :=
  | mode_dcb_vmdq vi : mac <> ixgbe_mac_82598EB -> 1 < tcs a -> dcb_vmdq_state a1 vi -> mode_ok a1
  | mode_dcb n : 1 < tcs a -> dcb_state a1 n -> mode_ok a1
  | mode_vmdq k n size : tcs a <= 1 -> vmdq_state a1 k n size -> mode_ok a1
  | mode_rss : tcs a <= 1 -> rss_state a1 -> mode_ok a1.
Lemma mode_of : mode_ok (ixgbe_set_num_queues mac cpus a).
Proof.
  unfold ixgbe_set_num_queues. cbv zeta. destruct (decide (1 < tcs a)) as [Ht|Ht].
  - destruct (aflag IXGBE_FLAG_VMDQ_ENABLED a) eqn:Hv.
    + assert (mac <> ixgbe_mac_82598EB) as Hm by (intros E; destruct (ok_82598 _ _ _ Hok E) as (_ & _ & []); [lia|congruence]).
      destruct (dcb_vmdq_counts Ht Hv Hm) as (a1 & vi & -> & HS). by eapply mode_dcb_vmdq.
    + assert (ixgbe_set_dcb_vmdq_queues mac a0 = None) as ->.
      { unfold ixgbe_set_dcb_vmdq_queues. change (aflag IXGBE_FLAG_VMDQ_ENABLED a0) with (aflag IXGBE_FLAG_VMDQ_ENABLED a). rewrite Hv. by destruct (tcs a0 <=? 1). }
      destruct (dcb_counts Ht Hv) as (a1 & n & -> & HS). by eapply mode_dcb.
  - unfold ixgbe_set_dcb_vmdq_queues, ixgbe_set_dcb_queues. change (tcs a0) with (tcs a). replace (tcs a <=? 1) with true by lia.
    destruct (aflag IXGBE_FLAG_VMDQ_ENABLED a) eqn:Hv.
    + destruct (vmdq_counts ltac:(lia) Hv) as (a1 & k & n & size & -> & HS). eapply mode_vmdq; [lia|done].
    + unfold ixgbe_set_vmdq_queues. change (aflag IXGBE_FLAG_VMDQ_ENABLED a0) with (aflag IXGBE_FLAG_VMDQ_ENABLED a). rewrite Hv.
      apply mode_rss; [lia|by apply rss_counts].
Qed.
Lemma mode_maps a1 : mode_ok a1 -> present 0 (rxq a1) (rx_ring a1) -> present 0 (txq a1) (tx_ring a1) ->
  exists a2, ixgbe_cache_ring_register mac a1 = Some a2 /\ maps_rings a1 a2.
Proof.
  intros Hm Pr Pt. unfold ixgbe_cache_ring_register. destruct Hm as [vi Hmac Ht HS|n Ht HS|k n size Ht HS|Ht HS].
  - destruct (dcb_vmdq_maps a1 vi Hmac Ht HS Pr Pt) as (a2 & -> & HM). by exists a2.
  - destruct (dcb_maps a1 n Ht HS Pr Pt) as (a2 & -> & E & HM). exists a2. cbn [mbind option_bind fst snd]. by rewrite E.
  - destruct (vmdq_maps a1 k n size Ht HS Pr Pt) as (a2 & -> & E1 & E2 & HM). exists a2. cbn [mbind option_bind fst snd]. rewrite E1.
    cbn [mbind option_bind fst snd]. by rewrite E2.
  - destruct (rss_maps a1 Ht HS Pr Pt) as (a2 & -> & E1 & E2 & E3 & HM). exists a2. cbn [mbind option_bind fst snd]. rewrite E1.
    cbn [mbind option_bind fst snd]. rewrite E2. cbn [mbind option_bind fst snd]. by rewrite E3.
Qed.
(** What the modes depend on. *)
Definition cfg (a1 : adapter) :=
  (vmdq_offset (ad a1), vmdq_mask (ad a1), aflag IXGBE_FLAG_VMDQ_ENABLED a1, aflag IXGBE_FLAG_FCOE_ENABLED a1, vmdq_indices a1, rss a1, fcoe a1, cnt a1, tc a1, opts a1).
Lemma mode_same a1 a2 : cfg a2 = cfg a1 -> mode_ok a1 -> mode_ok a2.
Proof.
  intros [= E1 E2 E3 E4 E5 E6 E7 E8 E9 E10]. assert (rxq a2 = rxq a1 /\ txq a2 = txq a1) as [E11 E12] by (unfold rxq, txq; by rewrite E8).
  assert (tcs a2 = tcs a1 /\ ixgbe_fcoe_get_tc a2 = ixgbe_fcoe_get_tc a1) as [E13 E14] by (unfold tcs, ixgbe_fcoe_get_tc; by rewrite E9, E10).
  assert (rss_indices a2 = rss_indices a1 /\ rss_mask a2 = rss_mask a1) as [E15 E16] by (unfold rss_indices, rss_mask; by rewrite E6).
  intros [vi Hmac Ht []|n Ht []|k n size Ht []|Ht []].
  - eapply mode_dcb_vmdq; [done..|]. split; rewrite ?E1, ?E2, ?E3, ?E4, ?E5, ?E7, ?E11, ?E12, ?E13, ?E14; done.
  - eapply mode_dcb; [done|]. split; rewrite ?E3, ?E11, ?E12, ?E13, ?E15; done.
  - eapply mode_vmdq; [done|]. split; rewrite ?E1, ?E2, ?E3, ?E7, ?E11, ?E12, ?E13, ?E15, ?E16; done.
  - eapply mode_rss; [done|]. split; rewrite ?E3, ?E11, ?E12, ?E13; done.
Qed.
Lemma mode_count a1 : mode_ok a1 -> 1 <= rxq a1 /\ txq a1 = rxq a1.
Proof.
  intros [vi Hmac Ht [[Hvi _] _ _ [_ E] HF]|n Ht [Hn _ _ [-> ->]]|k n size Ht [? ? ? ? ? Hc ? ?]|Ht [? Hc]]; [|nia|lia|lia].
  split; [|lia]. destruct HF as [[-> _]|(fi & _ & _ & _ & _ & Hfi & -> & _)]; nia.
Qed.
End Modes.
