(* ===== verification/Vectors.v ===== *)
(** * Interrupt vectors and the whole scheme ([ixgbe_lib.c])

    With [q] vectors, ring [i] belongs to vector [i mod q]; an allocation that fails leaves no ring behind; and
    [ixgbe_init_interrupt_scheme] ends with every ring present, on one vector and with a hardware queue of its own. *)
From S2P Require Import Prelude Hw Sriov SriovSpec Queues QueuesSpec.

(** ** The share of a vector *)
Section Share.
Context (q n : Z) (Hq : 0 < q) (Hn : 0 <= n).
(** Rings of vector [v], and rings left for the vectors from [v] on. *)
Definition share (v : Z) : Z := n / q + (if v <? n mod q then 1 else 0).
Definition left_from (v : Z) : Z := (q - v) * (n / q) + Z.max 0 (n mod q - v).
Lemma share_div v : 0 <= v < q -> DIV_ROUND_UP (left_from v) (q - v) = share v.
Proof.
  intros Hv. unfold DIV_ROUND_UP, left_from, share. pose proof (Z.mod_pos_bound n q Hq).
  replace ((q - v) * (n / q) + Z.max 0 (n mod q - v) + (q - v) - 1) with ((Z.max 0 (n mod q - v) + (q - v) - 1) + (n / q) * (q - v)) by lia.
  rewrite Z.div_add by lia. destruct (Z.ltb_spec v (n mod q)).
  - rewrite <- (Z.div_unique (Z.max 0 (n mod q - v) + (q - v) - 1) (q - v) 1 (n mod q - v - 1)) by lia. lia.
  - rewrite Z.div_small by lia. lia.
Qed.
Lemma left_0 : left_from 0 = n.
Proof. unfold left_from. pose proof (Z.mod_pos_bound n q Hq). pose proof (Z.div_mod n q ltac:(lia)). lia. Qed.
Lemma left_next v : left_from (v + 1) = left_from v - share v.
Proof. unfold left_from, share. destruct (Z.ltb_spec v (n mod q)); lia. Qed.
Lemma share_nonneg v : 0 <= share v.
Proof. unfold share. pose proof (Z.div_pos n q Hn Hq). destruct (v <? n mod q); lia. Qed.
(** The rings [v], [v + q], ... of vector [v] are those congruent to [v]. *)
Lemma share_rings v i : 0 <= v < q -> 0 <= i -> (v <= i < v + share v * q /\ (i - v) mod q = 0) <-> (i < n /\ i mod q = v).
Proof.
  intros Hv Hi. pose proof (Z.mod_pos_bound n q Hq) as Hb. pose proof (Z.div_mod n q ltac:(lia)) as Hn'.
  pose proof (Z.div_mod i q ltac:(lia)) as Hi'. pose proof (Z.mod_pos_bound i q Hq). unfold share. split.
  - intros [H1 H2]. assert (i mod q = v) as E.
    { apply Z.mod_divide in H2 as [j Hj]; [|lia]. replace i with (v + j * q) by lia. rewrite Z.mod_add, Z.mod_small by lia. done. }
    split; [|done]. rewrite E in Hi'.
    destruct (Z.ltb_spec v (n mod q)); [assert (i / q < n / q + 1) by nia|assert (i / q < n / q) by nia]; nia.
  - intros [H1 H2]. rewrite H2 in Hi'. pose proof (Z.div_pos i q Hi Hq) as Hd.
    split; [|replace (i - v) with (i / q * q) by lia; apply Z.mod_mul; lia]. split; [nia|].
    destruct (Z.ltb_spec v (n mod q)); [assert (i / q <= n / q) by nia|assert (i / q < n / q) by nia]; nia.
Qed.
End Share.

(** [c] indices from [idx] on in steps of [q]. *)
Fixpoint steps (c : nat) (q idx : Z) : list Z := match c with O => [] | S c => idx :: steps c q (idx + q) end.
Lemma steps_spec c q idx i : 0 < q -> i ∈ steps c q idx <-> idx <= i < idx + Z.of_nat c * q /\ (i - idx) mod q = 0.
Proof.
  intros Hq. revert idx. induction c as [|c IH]; intros idx; cbn [steps]; [split; [by intros ?%elem_of_nil|lia]|].
  rewrite elem_of_cons, IH. split.
  - intros [->|[H1 H2]]; [rewrite Z.sub_diag, Z.mod_0_l by lia; nia|]. split; [nia|].
    replace (i - idx) with ((i - (idx + q)) + 1 * q) by lia. rewrite Z.mod_add by lia. done.
  - intros [H1 H2]. destruct (decide (i = idx)) as [|Hne]; [by left|right].
    apply Z.mod_divide in H2 as [j Hj]; [|lia]. assert (1 <= j) by nia. split; [nia|]. replace (i - (idx + q)) with ((j - 1) * q) by lia. apply Z.mod_mul. lia.
Qed.
Section Steps.
Context (q : Z) (Hq : 0 < q).
Lemma steps_share n v i : 0 <= n -> 0 <= v < q -> 0 <= i -> i ∈ steps (Z.to_nat (share q n v)) q v <-> i < n /\ i mod q = v.
Proof. intros Hn Hv Hi. rewrite steps_spec, Z2Nat.id by (done || by apply share_nonneg). by apply share_rings. Qed.
Lemma steps_low c v i : 0 <= v -> i ∈ steps c q v -> 0 <= i.
Proof. intros Hv Hi%steps_spec; [lia|done]. Qed.
End Steps.
(** The queue indices of vector [v], in the order of its list. *)
Definition ring_list (q n v : Z) : list Z := rev (map u8 (steps (Z.to_nat (share q n v)) q v)).

Lemma store_spec {A} (l : list (option A)) i x : 0 <= i < Z.of_nat (length l) -> store l i x = Some (<[Z.to_nat i := x]> l).
Proof. intros Hi. unfold store. by rewrite bool_decide_true by lia. Qed.
Lemma add_rings_spec c q new : 0 < q -> forall idx linked rings, 0 <= idx -> (forall i, i ∈ steps c q idx -> i < Z.of_nat (length rings)) ->
  exists rings', add_rings c q idx new linked rings = Some (rev (map u8 (steps c q idx)) ++ linked, rings') /\ length rings' = length rings /\
    forall i, 0 <= i -> rings' !! Z.to_nat i = if bool_decide (i ∈ steps c q idx) then Some (Some (new i)) else rings !! Z.to_nat i.
Proof.
  intros Hq. induction c as [|c IH]; intros idx linked rings Hi Hb; cbn [add_rings steps] in *.
  { exists rings. split_and!; [done..|]. intros i H0. by rewrite bool_decide_false by apply not_elem_of_nil. }
  rewrite store_spec by (split; [done|apply Hb; left]). cbn [mbind option_bind].
  destruct (IH (idx + q) (u8 idx :: linked) (<[Z.to_nat idx := Some (new idx)]> rings)) as (r' & -> & L & R).
  { lia. } { intros i Hs. rewrite length_insert. apply Hb. by right. }
  exists r'. split_and!; [cbn [map rev]; by rewrite <- app_assoc|by rewrite L, length_insert|].
  intros i H0. rewrite R by done. repeat case_bool_decide; try done.
  - exfalso. apply H1. by right.
  - apply elem_of_cons in H1 as [->|]; [|done]. apply list_lookup_insert_eq. specialize (Hb idx ltac:(left)). lia.
  - apply list_lookup_insert_ne. intros E. apply H1. apply elem_of_cons. left. lia.
Qed.
Lemma drop_rings_spec l : forall rings, (forall i, i ∈ l -> 0 <= i < Z.of_nat (length rings)) ->
  exists rings', drop_rings l rings = Some rings' /\ length rings' = length rings /\
    forall i, 0 <= i -> rings' !! Z.to_nat i = if bool_decide (i ∈ l) then Some None else rings !! Z.to_nat i.
Proof.
  induction l as [|x l IH]; intros rings Hb; cbn [drop_rings].
  { exists rings. split_and!; [done..|]. intros i H0. by rewrite bool_decide_false by apply not_elem_of_nil. }
  pose proof (Hb x ltac:(left)) as Hx. rewrite store_spec by done. cbn [mbind option_bind].
  destruct (IH (<[Z.to_nat x := None]> rings)) as (r' & -> & L & R).
  { intros i Hi. rewrite length_insert. apply Hb. by right. }
  exists r'. split_and!; [done|by rewrite L, length_insert|]. intros i H0. rewrite R by done. repeat case_bool_decide; try done.
  - exfalso. apply H1. by right.
  - apply elem_of_cons in H1 as [->|]; [|done]. apply list_lookup_insert_eq. lia.
  - apply list_lookup_insert_ne. intros E. apply H1. apply elem_of_cons. left. lia.
Qed.

(** ** Allocation *)

(** The rings of the first [v] of [q] vectors are in place. *)
Definition served (q v n : Z) (new : Z -> Z -> ixgbe_ring) (rings0 rings : list (option ixgbe_ring)) : Prop :=
  length rings = length rings0 /\
  forall i, 0 <= i -> rings !! Z.to_nat i = if bool_decide (i < n /\ i mod q < v) then Some (Some (new (i mod q) i)) else rings0 !! Z.to_nat i.
Definition vector_of (q v : Z) (a : adapter) : ixgbe_q_vector :=
  QVector v (u16 (qv_itr (share q (txq a) v) (share q (rxq a) v) a)) (tx_work_limit (opts a)) (rx_work_limit (opts a)) (ring_list q (txq a) v) (ring_list q (rxq a) v).
Record allocated_to (mac : mac_type) (q v : Z) (a0 a : adapter) : Prop := {
  al_rest : a = set_q_vector (q_vector a) (set_rings (tx_ring a) (rx_ring a) a0);
  al_tx : served q v (txq a0) (fun u => new_tx_ring u a0) (tx_ring a0) (tx_ring a);
  al_rx : served q v (rxq a0) (fun u => new_rx_ring mac u a0) (rx_ring a0) (rx_ring a);
  al_qv : length (q_vector a) = length (q_vector a0) /\
          forall u, 0 <= u -> q_vector a !! Z.to_nat u = if bool_decide (u < v) then Some (Some (vector_of q u a0)) else q_vector a0 !! Z.to_nat u
}.

Lemma served_0 q n new rings : 0 < q -> served q 0 n new rings rings.
Proof. intros Hq. split; [done|]. intros i Hi. rewrite bool_decide_false; [done|]. pose proof (Z.mod_pos_bound i q Hq). lia. Qed.
Section Alloc.
Context (mac : mac_type) (alloc : Z -> bool) (q : Z) (a0 : adapter).
Hypotheses (Hq : 0 < q) (Hqv : q <= Z.of_nat (length (q_vector a0)))
  (Htx : 0 <= txq a0 <= Z.of_nat (length (tx_ring a0))) (Hrx : 0 <= rxq a0 <= Z.of_nat (length (rx_ring a0))).

Lemma served_next n v new rings0 rings : 0 <= n <= Z.of_nat (length rings0) -> 0 <= v < q -> served q v n new rings0 rings ->
  exists rings', add_rings (Z.to_nat (share q n v)) q v (new v) [] rings = Some (ring_list q n v, rings') /\ served q (v + 1) n new rings0 rings'.
Proof.
  intros Hn Hv [L S]. destruct (add_rings_spec (Z.to_nat (share q n v)) q (new v) Hq v [] rings) as (r' & -> & L' & R).
  { lia. } { intros i Hi. pose proof (steps_low q Hq _ v i ltac:(lia) Hi). apply (steps_share q Hq n v) in Hi; lia. }
  exists r'. split; [by rewrite app_nil_r|]. split; [congruence|]. intros i Hi. rewrite R, S by done.
  destruct (decide (i < n /\ i mod q = v)) as [Hy|Hy].
  - rewrite (bool_decide_true (i ∈ _)) by (apply (steps_share q Hq n v); done || lia). rewrite bool_decide_true by lia. by destruct Hy as [_ ->].
  - rewrite (bool_decide_false (i ∈ _)) by (rewrite (steps_share q Hq n v); done || lia). repeat case_bool_decide; try done; lia.
Qed.
Lemma alloc_step v a : alloc v = true -> 0 <= v < q -> allocated_to mac q v a0 a ->
  exists a', ixgbe_alloc_q_vector mac alloc q v (share q (txq a0) v) v (share q (rxq a0) v) v a = Some (0, a') /\ allocated_to mac q (v + 1) a0 a'.
Proof.
  intros Ha Hv [E ST SR [LQ SQ]]. unfold ixgbe_alloc_q_vector. rewrite Ha. cbn [negb].
  assert (new_tx_ring v a = new_tx_ring v a0 /\ new_rx_ring mac v a = new_rx_ring mac v a0 /\ opts a = opts a0 /\
    qv_itr (share q (txq a0) v) (share q (rxq a0) v) a = qv_itr (share q (txq a0) v) (share q (rxq a0) v) a0) as (-> & -> & -> & ->) by (by rewrite E).
  destruct (served_next _ v _ _ _ Htx Hv ST) as (tx & -> & ST'). cbn [mbind option_bind].
  destruct (served_next _ v _ _ _ Hrx Hv SR) as (rx & -> & SR'). cbn [mbind option_bind fst snd].
  rewrite store_spec by (rewrite LQ; lia). cbn [mbind option_bind]. fold (vector_of q v a0). eexists. split; [reflexivity|].
  split; cbn [tx_ring rx_ring q_vector set_q_vector set_rings]; [by rewrite E|done|done|]. split; [by rewrite length_insert|].
  intros u Hu. destruct (decide (u = v)) as [->|Hne].
  - rewrite list_lookup_insert_eq by (rewrite LQ; lia). by rewrite bool_decide_true by lia.
  - rewrite list_lookup_insert_ne, SQ by lia. repeat case_bool_decide; try done; lia.
Qed.
(** The loop stops at the first vector that cannot be allocated, or after the last one. *)
Lemma share_loop_spec fuel : forall v a, 0 <= v -> v + Z.of_nat fuel = q -> allocated_to mac q v a0 a ->
  exists err w a', share_loop mac alloc fuel q v v (left_from q (txq a0) v) v (left_from q (rxq a0) v) a = Some (err, w, a') /\
    v <= w <= q /\ allocated_to mac q w a0 a' /\ (forall u, v <= u < w -> alloc u = true) /\
    ((err = 0 /\ w = q) \/ (err = 1 /\ w < q /\ alloc w = false)).
Proof.
  induction fuel as [|fuel IH]; intros v a Hv Hf HA; cbn [share_loop]. { exists 0, v, a. split_and!; [done|lia|lia|done|lia|left; lia]. }
  rewrite !share_div by lia. destruct (alloc v) eqn:Hal.
  - destruct (alloc_step v a Hal ltac:(lia) HA) as (a1 & -> & HA1). cbn [mbind option_bind fst snd]. rewrite <- !left_next.
    destruct (IH (v + 1) a1) as (err & w & a' & -> & Hw & HA' & Hall & Hend); [lia|lia|done|]. exists err, w, a'. split_and!; try done; try lia.
    intros u Hu. destruct (decide (u = v)) as [->|]; [done|apply Hall; lia].
  - exists 1, v, a. unfold ixgbe_alloc_q_vector. rewrite Hal. split_and!; [done|lia|lia|done|lia|right; split_and!; [done|lia|done]].
Qed.
End Alloc.

(** ** Freeing *)

(** No ring is left, no vector is left. *)
Definition no_entry {A} (l : list (option A)) (i : Z) : Prop := forall x, l !! Z.to_nat i <> Some (Some x).
Definition no_rings (a : adapter) : Prop := forall i, 0 <= i -> no_entry (tx_ring a) i /\ no_entry (rx_ring a) i /\ no_entry (q_vector a) i.

Lemma ring_list_spec q n v i : 0 < q -> 0 <= n <= 256 -> 0 <= v < q -> i ∈ ring_list q n v <-> 0 <= i < n /\ i mod q = v.
Proof.
  intros Hq Hn Hv. unfold ring_list. rewrite list_elem_of_In, <- in_rev, in_map_iff. split.
  - intros (x & <- & Hx%list_elem_of_In). pose proof (steps_low q Hq _ v x ltac:(lia) Hx). apply (steps_share q Hq n v) in Hx; [|lia..].
    rewrite u8_small by lia. lia.
  - intros [Hi Hm]. exists i. split; [apply u8_small; lia|]. apply list_elem_of_In, (steps_share q Hq n v); lia.
Qed.
Section Free.
Context (q nt nr : Z) (Hq : 0 < q) (Hnt : 0 <= nt <= 256) (Hnr : 0 <= nr <= 256).
(** The vectors from [v] on, and their rings, are gone. *)
Record to_free (v : Z) (a : adapter) : Prop := {
  tf_len : nt <= Z.of_nat (length (tx_ring a)) /\ nr <= Z.of_nat (length (rx_ring a)) /\ v <= Z.of_nat (length (q_vector a));
  tf_tx : forall i, 0 <= i -> ~ (i < nt /\ i mod q < v) -> no_entry (tx_ring a) i;
  tf_rx : forall i, 0 <= i -> ~ (i < nr /\ i mod q < v) -> no_entry (rx_ring a) i;
  tf_qv : forall u, 0 <= u < v -> exists qv, q_vector a !! Z.to_nat u = Some (Some qv) /\ tx_list qv = ring_list q nt u /\ rx_list qv = ring_list q nr u;
  tf_no : forall u, v <= u -> no_entry (q_vector a) u
}.
Lemma drop_share n v rings : 0 <= n <= 256 -> n <= Z.of_nat (length rings) -> 0 <= v < q ->
  (forall i, 0 <= i -> ~ (i < n /\ i mod q < v + 1) -> no_entry rings i) ->
  exists rings', drop_rings (ring_list q n v) rings = Some rings' /\ length rings' = length rings /\
    forall i, 0 <= i -> ~ (i < n /\ i mod q < v) -> no_entry rings' i.
Proof.
  intros Hn Hl Hv Hf. destruct (drop_rings_spec (ring_list q n v) rings) as (r' & H1 & L & R). { intros i Hi%ring_list_spec; lia. }
  exists r'. split_and!; [done..|]. intros i Hi Hno x. rewrite R by done. case_bool_decide as Hm; [done|].
  apply Hf; [done|]. rewrite ring_list_spec in Hm by done. lia.
Qed.
Lemma free_step v a : 0 <= v < q -> to_free (v + 1) a ->
  exists a', ixgbe_free_q_vector v a = Some a' /\ to_free v a' /\ a' = set_q_vector (q_vector a') (set_rings (tx_ring a') (rx_ring a') a).
Proof.
  intros Hv [(L1 & L2 & L3) FT FR FQ FN]. unfold ixgbe_free_q_vector. destruct (FQ v ltac:(lia)) as (qv & -> & -> & ->).
  destruct (drop_share nt v (tx_ring a) Hnt L1 Hv FT) as (tx & -> & LT & FT'). destruct (drop_share nr v (rx_ring a) Hnr L2 Hv FR) as (rx & -> & LR & FR').
  cbn [mbind option_bind]. rewrite store_spec by lia. cbn [mbind option_bind]. eexists. split; [reflexivity|]. split; [|done].
  split; cbn [tx_ring rx_ring q_vector set_q_vector set_rings]; [rewrite length_insert; lia|done|done|..].
  - intros u Hu. rewrite list_lookup_insert_ne by lia. apply FQ. lia.
  - intros u Hu x. destruct (decide (u = v)) as [->|Hne]; [by rewrite list_lookup_insert_eq by lia|].
    destruct (decide (Z.to_nat u = Z.to_nat v)) as [E|E]; [lia|]. rewrite list_lookup_insert_ne by lia. apply FN. lia.
Qed.
Lemma free_loop_spec v : forall a, Z.of_nat v <= q -> to_free (Z.of_nat v) a ->
  exists a', free_loop v a = Some a' /\ no_rings a' /\ a' = set_q_vector (q_vector a') (set_rings (tx_ring a') (rx_ring a') a).
Proof.
  induction v as [|v IH]; intros a Hv HF; cbn [free_loop].
  - exists a. split_and!; [done| |by destruct a]. intros i Hi. destruct HF. pose proof (Z.mod_pos_bound i q Hq).
    split_and!; [apply tf_tx0; lia|apply tf_rx0; lia|apply tf_no0; lia].
  - replace (Z.of_nat (S v)) with (Z.of_nat v + 1) in * by lia. destruct (free_step (Z.of_nat v) a ltac:(lia) HF) as (a1 & -> & HF1 & E1).
    cbn [mbind option_bind]. destruct (IH a1 ltac:(lia) HF1) as (a2 & -> & N2 & E2). exists a2. split_and!; [done..|]. rewrite E2 at 1. by rewrite E1.
Qed.
End Free.
Lemma allocated_free mac q v a0 a : 0 < q -> 0 <= txq a0 <= 256 -> 0 <= rxq a0 <= 256 -> txq a0 <= Z.of_nat (length (tx_ring a0)) ->
  rxq a0 <= Z.of_nat (length (rx_ring a0)) -> 0 <= v <= Z.of_nat (length (q_vector a0)) -> no_rings a0 -> allocated_to mac q v a0 a -> to_free q (txq a0) (rxq a0) v a.
Proof.
  intros Hq Ht Hr Lt Lr Hv HN [E [LT ST] [LR SR] [LQ SQ]]. split.
  - rewrite LT, LR, LQ. lia.
  - intros i Hi Hno x. rewrite ST, bool_decide_false by done. apply HN. done.
  - intros i Hi Hno x. rewrite SR, bool_decide_false by done. apply HN. done.
  - intros u Hu. exists (vector_of q u a0). rewrite SQ, bool_decide_true by lia. done.
  - intros u Hu x. rewrite SQ, bool_decide_false by lia. apply HN. lia.
Qed.

(** ** Theorems *)
Section Theorems.
Context (mac : mac_type).
Implicit Types (a : adapter) (alloc : Z -> bool).

(** Room for the rings and vectors in the adapter's arrays; none is in use. *)
Definition room q a : Prop :=
  0 < q <= Z.of_nat (length (q_vector a)) /\ 0 <= txq a <= Z.of_nat (length (tx_ring a)) /\ 0 <= rxq a <= Z.of_nat (length (rx_ring a)) /\
  txq a <= 256 /\ rxq a <= 256 /\ q < rxq a + txq a /\ no_rings a.

Lemma alloc_loop_run alloc a : let q := num_q_vectors a in room q a ->
  exists err w a', share_loop mac alloc (Z.to_nat q) q 0 0 (txq a) 0 (rxq a) a = Some (err, w, a') /\
    0 <= w <= q /\ allocated_to mac q w a a' /\ (forall u, 0 <= u < w -> alloc u = true) /\ ((err = 0 /\ w = q) \/ (err = 1 /\ w < q /\ alloc w = false)).
Proof.
  intros q ([Hq Hl] & Ht & Hr & _ & _ & _ & HN).
  pose proof (share_loop_spec mac alloc q a Hq Hl Ht Hr (Z.to_nat q) 0 a) as H. rewrite !left_0 in H by lia.
  apply H; [lia|lia|]. split; [by destruct a|by apply served_0|by apply served_0|]. split; [done|]. intros u Hu. by rewrite bool_decide_false by lia.
Qed.

(** Vector [v] of [q] lists the rings whose index is [v] modulo [q]. *)
Definition lists_ok (q ntx nrx : Z) (vs : list (option ixgbe_q_vector)) : Prop :=
  forall v, 0 <= v < q -> exists qv, vs !! Z.to_nat v = Some (Some qv) /\ v_idx qv = v /\
    (forall i, i ∈ tx_list qv <-> 0 <= i < ntx /\ i mod q = v) /\ (forall i, i ∈ rx_list qv <-> 0 <= i < nrx /\ i mod q = v).
(** The rings are spread over the vectors: ring [i] belongs to vector [i mod q], and a vector lists exactly its rings. *)
Lemma alloc_q_vectors_run alloc a : let q := num_q_vectors a in room q a -> (forall v, 0 <= v < q -> alloc v = true) ->
  exists a', ixgbe_alloc_q_vectors mac alloc a = Some (0, a') /\ cfg a' = cfg a /\
    (forall i, 0 <= i < txq a -> exists r, tx_ring a' !! Z.to_nat i = Some (Some r) /\ queue_index r = i /\ r_vector r = i mod q) /\
    (forall i, 0 <= i < rxq a -> exists r, rx_ring a' !! Z.to_nat i = Some (Some r) /\ queue_index r = i /\ r_vector r = i mod q) /\
    num_q_vectors a' = q /\ lists_ok q (txq a) (rxq a) (q_vector a').
Proof.
  intros q HR Hal. destruct (alloc_loop_run alloc a HR) as (err & w & a' & Hrun & Hw & HA & _ & Hend). fold q in Hrun, Hw, HA, Hend.
  destruct Hend as [[-> ->]|(_ & Hlt & Hf)]; [|by rewrite Hal in Hf by lia].
  destruct HR as ([Hq Hl] & Ht & Hr & H256t & H256r & Hlt & _). exists a'. split.
  - unfold ixgbe_alloc_q_vectors. fold q. cbv zeta. replace (q >=? rxq a + txq a) with false by lia. cbn [mbind option_bind]. cbv iota beta.
    change (truthy 0) with false. cbv iota. rewrite Z.sub_0_r, Hrun. done.
  - destruct HA as [E [_ ST] [_ SR] [_ SQ]]. split_and!; [by rewrite E|..|by rewrite E|].
    + intros i Hi. pose proof (Z.mod_pos_bound i q Hq). eexists. rewrite ST, bool_decide_true by lia. split_and!; [done|apply u8_small; lia|done].
    + intros i Hi. pose proof (Z.mod_pos_bound i q Hq). eexists. rewrite SR, bool_decide_true by lia. split_and!; [done|apply u8_small; lia|done].
    + intros v Hv. exists (vector_of q v a). rewrite SQ, bool_decide_true by lia. split_and!; [done|done|..]; intros i; apply ring_list_spec; lia.
Qed.

(** A vector that cannot be allocated: the error is returned, and no ring and no vector is left, nor any queue counted. *)
Theorem alloc_q_vectors_fails alloc a v : let q := num_q_vectors a in room q a -> 0 <= v < q -> alloc v = false ->
  exists a', ixgbe_alloc_q_vectors mac alloc a = Some (- ENOMEM, a') /\ no_rings a' /\ rxq a' = 0 /\ txq a' = 0 /\ num_q_vectors a' = 0.
Proof.
  intros q HR Hv Hf. destruct (alloc_loop_run alloc a HR) as (err & w & a1 & Hrun & Hw & HA & Hall & Hend). fold q in Hrun, Hw, HA, Hend.
  destruct Hend as [[-> ->]|(-> & Hlt & _)]; [by rewrite Hall in Hf by lia|].
  destruct HR as ([Hq Hl] & Ht & Hr & H256t & H256r & Hlt' & HN).
  assert (to_free q (txq a) (rxq a) w (no_queues a1)) as HF.
  { destruct (allocated_free mac q w a a1) as []; try done; lia. }
  destruct (free_loop_spec q (txq a) (rxq a) Hq ltac:(lia) ltac:(lia) (Z.to_nat w) (no_queues a1)) as (a2 & H2 & HN2 & E2); [lia|by rewrite Z2Nat.id by lia|].
  exists a2. split.
  - unfold ixgbe_alloc_q_vectors. fold q. cbv zeta. replace (q >=? rxq a + txq a) with false by lia. cbn [mbind option_bind]. cbv iota beta.
    change (truthy 0) with false. cbv iota. rewrite Z.sub_0_r, Hrun. cbn [mbind option_bind]. cbv iota beta. change (truthy 1) with true. cbv iota. by rewrite H2.
  - rewrite E2. split_and!; try done.
Qed.

(** Freeing what has been allocated leaves nothing. *)
Theorem alloc_free_roundtrip alloc a : room (num_q_vectors a) a -> (forall v, 0 <= v < num_q_vectors a -> alloc v = true) ->
  exists a' a'', ixgbe_alloc_q_vectors mac alloc a = Some (0, a') /\ ixgbe_free_q_vectors a' = Some a'' /\ no_rings a''.
Proof.
  set (q := num_q_vectors a). intros HR Hal. destruct (alloc_loop_run alloc a HR) as (err & w & a1 & Hrun & Hw & HA & _ & Hend). fold q in Hrun, Hw, HA, Hend.
  destruct Hend as [[-> ->]|(_ & Hlt & Hf)]; [|by rewrite Hal in Hf by lia].
  destruct HR as ([Hq Hl] & Ht & Hr & H256t & H256r & Hlt' & HN).
  assert (to_free q (txq a) (rxq a) q (no_queues a1)) as HF. { destruct (allocated_free mac q q a a1) as []; try done; lia. }
  assert (num_q_vectors a1 = q) as Hn by (by rewrite (al_rest _ _ _ _ _ HA)).
  destruct (free_loop_spec q (txq a) (rxq a) Hq ltac:(lia) ltac:(lia) (Z.to_nat q) (no_queues a1)) as (a2 & H2 & HN2 & E2); [lia|by rewrite Z2Nat.id by lia|].
  exists a1, a2. split_and!; [|unfold ixgbe_free_q_vectors; by rewrite Hn|done].
  unfold ixgbe_alloc_q_vectors. fold q. cbv zeta. replace (q >=? rxq a + txq a) with false by lia. cbn [mbind option_bind]. cbv iota beta.
  change (truthy 0) with false. cbv iota. rewrite Z.sub_0_r, Hrun. done.
Qed.
End Theorems.

(** ** The whole scheme *)

(** What computing the numbers of queues leaves alone. *)
Definition base a :=
  (vmdq_limit (ad a), vmdq_offset (ad a), rss_limit (ad a), aflag IXGBE_FLAG_VMDQ_ENABLED a, aflag IXGBE_FLAG_FCOE_ENABLED a, tcs a, ixgbe_fcoe_get_tc a, opts a,
   fdir_limit a, f_limit (fcoe a), (tx_ring a, rx_ring a, q_vector a)).
Lemma base_fdir_off a : base (flag_off IXGBE_FLAG_FDIR_HASH_CAPABLE a) = base a.
Proof. unfold base. by rewrite !aflag_off. Qed.
Lemma base_fdir_on a : base (flag_on IXGBE_FLAG_FDIR_HASH_CAPABLE a) = base a.
Proof. unfold base. by rewrite !aflag_on. Qed.
Lemma base_tc n c o a : base (set_tc_queues n c o a) = base a.
Proof. destruct (tc_queues_spec n c o a) as (t & -> & T1 & T2). unfold base. by rewrite T1, T2. Qed.
Section Base.
Context (mac : mac_type) (cpus : Z) (a : adapter) (Hok : config_ok mac cpus a).
Definition based (a1 : adapter) : Prop := base a1 = base a /\ (aflag IXGBE_FLAG_FCOE_ENABLED a = false -> f_offset (fcoe a1) = f_offset (fcoe a)).
Lemma based_fcoe a1 : based a1 -> aflag IXGBE_FLAG_FCOE_ENABLED a1 = aflag IXGBE_FLAG_FCOE_ENABLED a.
Proof. by intros [[= _ _ _ _ -> _ _ _ _ _ _ _] _]. Qed.
Lemma based_tcs a1 : based a1 -> tcs a1 = tcs a.
Proof. by intros [[= _ _ _ _ _ -> _ _ _ _ _ _] _]. Qed.
Lemma based_fdir_off a1 : based a1 -> based (flag_off IXGBE_FLAG_FDIR_HASH_CAPABLE a1).
Proof. intros [E F]. split; [by rewrite base_fdir_off|done]. Qed.
Lemma based_fdir_on a1 : based a1 -> based (flag_on IXGBE_FLAG_FDIR_HASH_CAPABLE a1).
Proof. intros [E F]. split; [by rewrite base_fdir_on|done]. Qed.
Lemma based_tc a1 n c o : based a1 -> based (set_tc_queues n c o a1).
Proof. intros [E F]. split; [by rewrite base_tc|]. intros HF. rewrite <- F by done. by destruct (tc_queues_spec n c o a1) as (t & -> & _). Qed.
Lemma based_cnt a1 c : based a1 -> based (set_cnt c a1).
Proof. done. Qed.
Lemma based_rss a1 i m : based a1 -> based (set_rss i m a1).
Proof. done. Qed.
Lemma based_vmdq a1 i m : based a1 -> based (set_vmdq_feature i m a1).
Proof. done. Qed.
Lemma based_fdir a1 : based a1 -> based (set_fdir (fdir_limit a1) (fdir_limit a1) a1).
Proof. done. Qed.
Lemma based_set_fcoe a1 i o : aflag IXGBE_FLAG_FCOE_ENABLED a1 = true -> based a1 -> based (set_fcoe i o a1).
Proof. intros HF HB. pose proof (based_fcoe _ HB) as E. destruct HB as [E1 _]. split; [exact E1|]. intros HF'. congruence. Qed.
Lemma based_add a1 n : based a1 -> based (add_queues n a1).
Proof. done. Qed.
End Base.
Lemma num_queues_base mac cpus a : config_ok mac cpus a -> based a (ixgbe_set_num_queues mac cpus a).
Proof.
  intros Hok. assert (based a (set_cnt (Counts 1 1 1 1) a)) as H0 by done. unfold ixgbe_set_num_queues. cbv zeta. set (a0 := set_cnt _ a) in *.
  destruct (ixgbe_set_dcb_vmdq_queues mac a0) as [a1|] eqn:E1.
  { unfold ixgbe_set_dcb_vmdq_queues in E1. destruct (tcs a0 <=? 1) eqn:Ht; [done|]. destruct (negb _); [done|].
    destruct (dcb_vmdq_layout mac a0) as [[[vi m] fi] t] eqn:EL. assert (t = tcs a0) as ->.
    { unfold dcb_vmdq_layout in EL. destruct (ok_mac _ _ _ Hok) as [->|[->| ->]]; by simplify_eq/=. }
    simplify_eq/=. apply based_tc. set (a2 := flag_off _ _). assert (based a a2) as H2 by (apply based_fdir_off; exact H0). clearbody a2.
    destruct (aflag IXGBE_FLAG_FCOE_ENABLED a2) eqn:HF; [|done]. destruct (truthy _); [by apply based_add, based_set_fcoe|].
    replace (tcs a0 >? 1) with true by lia. by apply based_set_fcoe. }
  destruct (ixgbe_set_dcb_queues mac a0) as [a1|] eqn:E2.
  { unfold ixgbe_set_dcb_queues in E2. destruct (tcs a0 <=? 1) eqn:Ht; [done|]. destruct (if bool_decide _ then _ else _) as [ri rm]. simplify_eq/=.
    apply based_cnt, based_tc. set (a2 := flag_off _ _). assert (based a a2) as H2 by (apply based_fdir_off; exact H0). clearbody a2.
    destruct (aflag IXGBE_FLAG_FCOE_ENABLED a2) eqn:HF; [|done]. by apply based_set_fcoe. }
  destruct (ixgbe_set_vmdq_queues mac cpus a0) as [a1|] eqn:E3.
  { unfold ixgbe_set_vmdq_queues in E3. destruct (negb _); [done|]. destruct (vmdq_layout mac a0) as [[[[vi m] ri] rm] fi]. simplify_eq/=.
    set (a2 := flag_off _ _). assert (based a a2) as H2 by (apply based_fdir_off; exact H0). clearbody a2.
    destruct (aflag IXGBE_FLAG_FCOE_ENABLED a2) eqn:HF; [|done]. destruct (_ && _); by apply based_add, based_set_fcoe. }
  unfold ixgbe_set_rss_queues. set (a2 := flag_off _ _). assert (based a a2) as H2 by (apply based_fdir_off; exact H0). clearbody a2. cbv zeta.
  destruct (if _ && _ then _ else _) as [q b] eqn:E4. assert (based a b) as Hb.
  { destruct (_ && _); simplify_eq/=; [|done]. destruct (negb _); [by apply based_fdir_on, based_fdir|by apply based_fdir]. }
  destruct (aflag IXGBE_FLAG_FCOE_ENABLED b) eqn:HF; [|by apply based_cnt]. by apply based_cnt, based_set_fcoe.
Qed.

Lemma config_based mac cpus a a1 : config_ok mac cpus a -> based a a1 -> config_ok mac cpus a1.
Proof.
  intros [] [E HF]. unfold base in E. injection E as E1 E2 E3 E4 E5 E6 E7 E8 E9 E10 _ _ _.
  split; rewrite ?E1, ?E2, ?E3, ?E4, ?E5, ?E6, ?E7, ?E8, ?E9, ?E10; try done. intros H. rewrite HF; auto.
Qed.
(** The adapter's arrays before the scheme is set up. *)
Definition arrays_ok a : Prop :=
  length (tx_ring a) = Z.to_nat MAX_TX_QUEUES /\ length (rx_ring a) = Z.to_nat MAX_RX_QUEUES /\ length (q_vector a) = Z.to_nat MAX_MSIX_Q_VECTORS /\ no_rings a.
Lemma arrays_same a a1 : (tx_ring a1, rx_ring a1, q_vector a1) = (tx_ring a, rx_ring a, q_vector a) -> arrays_ok a -> arrays_ok a1.
Proof. unfold arrays_ok, no_rings. by intros [= -> -> ->]. Qed.

(** Number of vectors granted. *)
Lemma acquire_loop_spec f fuel v : (forall n, 0 < f n -> f n < n) -> v <= Z.of_nat fuel -> exists w, acquire_loop fuel f v = Some w /\ w <= Z.max 0 v.
Proof.
  intros Hf. revert v. induction fuel as [|n IH]; intros v Hv; cbn [acquire_loop]; destruct (Z.geb_spec v MIN_MSIX_COUNT) as [Hm|Hm];
    try (exists v; split; [done|lia]); unfold MIN_MSIX_COUNT, NON_Q_VECTORS in *; [lia|].
  destruct (Z.eqb_spec (f v) 0); [exists v; split; [done|lia]|]. destruct (Z.ltb_spec (f v) 0).
  - destruct (IH 0 ltac:(lia)) as (w & -> & Hw). exists w. split; [done|lia].
  - specialize (Hf v ltac:(lia)). destruct (IH (f v) ltac:(lia)) as (w & -> & Hw). exists w. split; [done|lia].
Qed.

(** Switching SR-IOV off keeps the limits and clears flags only. *)
Lemma disable_sriov_spec assigned s : vwp (ixgbe_disable_sriov assigned) s (fun _ s' =>
  (vmdq_offset s' = vmdq_offset s \/ vmdq_offset s' = 0) /\
  exists c, flags s' = Z.ldiff (flags s) c /\ Z.land c (Z.lor IXGBE_FLAG_FCOE_ENABLED IXGBE_FLAG_MSI_CAPABLE) = 0).
Proof.
  unfold ixgbe_disable_sriov. apply vwp_bind, vwp_get. destruct (negb _); [apply vwp_ret; split; [by left|exists 0; by rewrite Z.ldiff_0_r]|].
  apply vwp_bind, vwp_modify. destruct assigned; [apply vwp_ret; split; [by left|exists 0; by rewrite Z.ldiff_0_r]|].
  do 6 (apply vwp_bind, vwp_lift; intros ?). apply vwp_modify. split; [by right|]. cbn.
  destruct (_ =? 1); [exists (Z.lor IXGBE_FLAG_VMDQ_ENABLED IXGBE_FLAG_SRIOV_ENABLED)|exists IXGBE_FLAG_SRIOV_ENABLED]; split; try done.
  apply Z.bits_inj'. intros n Hn. rewrite !Z.ldiff_spec, Z.lor_spec, negb_orb. by destruct (Z.testbit (flags s) n), (Z.testbit IXGBE_FLAG_VMDQ_ENABLED n).
Qed.

Section Scheme.
Context (k : kernel) (mac : mac_type).
Hypotheses (Hmsix : forall n, 0 < pci_enable_msix k n -> pci_enable_msix k n < n) (Halloc : forall v, vector_alloc k v = true).
Local Notation cpus := (num_online_cpus k).

(** Ready for the rings: a mode, vectors and room. *)
Record scheme_ok a0 a1 : Prop := {
  so_mode : mode_ok mac a0 a1;
  so_cfg : config_ok mac cpus a0;
  so_vec : 1 <= num_q_vectors a1 <= MAX_MSIX_Q_VECTORS /\ num_q_vectors a1 <= rxq a1;
  so_rx : rxq a1 <= MAX_RX_QUEUES;
  so_arr : arrays_ok a1
}.
(** All the vectors asked for are granted. *)
Definition msix_granted (a : adapter) : Prop :=
  aflag IXGBE_FLAG_MSIX_CAPABLE a = true /\ entries_alloc k = true /\ (forall n, pci_enable_msix k n = 0) /\ 2 <= max_msix_vectors (opts a).
(** A ring on its vector with a queue of its own. *)
Definition ring_ok (q n : Z) (rings : list (option ixgbe_ring)) : Prop :=
  forall i, 0 <= i < n -> exists r, rings !! Z.to_nat i = Some (Some r) /\ queue_index r = i /\ r_vector r = i mod q /\ 0 <= reg_idx r < 128 /\
    forall j r', 0 <= j < n -> rings !! Z.to_nat j = Some (Some r') -> reg_idx r' = reg_idx r -> j = i.
Lemma ring_ok_of q n f rings : one_to_one n 128 f ->
  (forall i, 0 <= i < n -> exists r, rings !! Z.to_nat i = Some (Some r) /\ reg_idx r = f i /\ queue_index r = i /\ r_vector r = i mod q) -> ring_ok q n rings.
Proof.
  intros [B I] H i Hi. destruct (H i Hi) as (r & Hr & E1 & E2 & E3). exists r. split_and!; try done; [rewrite E1; apply B; done..|].
  intros j r' Hj Hr' E. destruct (H j Hj) as (r2 & Hr2 & F1 & _). rewrite Hr2 in Hr'. simplify_eq. apply I; [done..|congruence].
Qed.
Lemma scheme_rings a0 a1 : scheme_ok a0 a1 ->
  exists a2 a3, ixgbe_alloc_q_vectors mac (vector_alloc k) a1 = Some (0, a2) /\ ixgbe_cache_ring_register mac a2 = Some a3 /\
    num_q_vectors a3 = num_q_vectors a1 /\ cfg a3 = cfg a1 /\ ring_ok (num_q_vectors a1) (rxq a1) (rx_ring a3) /\ ring_ok (num_q_vectors a1) (txq a1) (tx_ring a3) /\
    lists_ok (num_q_vectors a1) (txq a1) (rxq a1) (q_vector a3).
Proof.
  intros [Hm Hc [Hv Hvr] Hr (L1 & L2 & L3 & HN)]. destruct (mode_count mac a0 a1 Hm) as [C1 C2].
  unfold MAX_RX_QUEUES, MAX_TX_QUEUES, IXGBE_MAX_FDIR_INDICES, IXGBE_MAX_FCOE_INDICES, MAX_MSIX_Q_VECTORS in *.
  assert (room (num_q_vectors a1) a1) as HR by (unfold room; rewrite L1, L2, L3; split_and!; try done; lia).
  destruct (alloc_q_vectors_run mac (vector_alloc k) a1 HR (fun v _ => Halloc v)) as (a2 & E2 & EC & ET & ER & EN & EL).
  assert (rxq a2 = rxq a1 /\ txq a2 = txq a1) as [Q1 Q2]. { unfold cfg in EC. injection EC as _ _ _ _ _ _ _ E8 _ _. unfold rxq, txq. by rewrite E8. }
  assert (present 0 (rxq a2) (rx_ring a2)) as Pr. { rewrite Q1. intros i Hi. destruct (ER i ltac:(lia)) as (r & ? & _). by exists r. }
  assert (present 0 (txq a2) (tx_ring a2)) as Pt. { rewrite Q2. intros i Hi. destruct (ET i ltac:(lia)) as (r & ? & _). by exists r. }
  destruct (mode_maps mac cpus a0 Hc a2 (mode_same mac a0 a1 a2 EC Hm) Pr Pt) as (a3 & E3 & f & g & Of & Og & tx & rx & -> & MR & MT).
  exists a2, (set_rings tx rx a2). rewrite Q1 in Of, MR. rewrite Q2 in Og, MT. split_and!; try done.
  - apply (ring_ok_of _ _ f); [done|]. intros i Hi. destruct (MR i Hi) as (r & r' & H1 & H2 & H3 & H4 & H5). destruct (ER i Hi) as (r0 & H6 & H7 & H8).
    exists r'. rewrite H1 in H6. simplify_eq. split_and!; [done|done|congruence|congruence].
  - apply (ring_ok_of _ _ g); [done|]. intros i Hi. destruct (MT i Hi) as (r & r' & H1 & H2 & H3 & H4 & H5). destruct (ET i Hi) as (r0 & H6 & H7 & H8).
    exists r'. rewrite H1 in H6. simplify_eq. split_and!; [done|done|congruence|congruence].
Qed.

(** MSI-X granted. *)
Lemma msix_path a1 v a2 : arrays_ok a1 -> 1 <= max_q_vectors (opts a1) <= MAX_MSIX_Q_VECTORS -> v <= rxq a1 + 1 ->
  ixgbe_acquire_msix_vectors (pci_enable_msix k) v a1 = Some a2 -> aflag IXGBE_FLAG_MSIX_ENABLED a2 = true ->
  cfg a2 = cfg a1 /\ arrays_ok a2 /\ 1 <= num_q_vectors a2 <= MAX_MSIX_Q_VECTORS /\ num_q_vectors a2 <= rxq a1.
Proof.
  intros HA Hmax Hv E HF. unfold ixgbe_acquire_msix_vectors in E. destruct (acquire_loop_spec (pci_enable_msix k) (Z.to_nat v) v Hmsix ltac:(lia)) as (w & Ew & Hw).
  rewrite Ew in E. cbn [mbind option_bind] in E. unfold MIN_MSIX_COUNT, NON_Q_VECTORS in *. destruct (Z.ltb_spec w (1 + (1 + 0))); simplify_eq/=.
  - exfalso. unfold aflag, flag_off in HF. cbn in HF. revert HF. by rewrite Z.land_ldiff.
  - split_and!; try done; try lia. unfold cfg. cbn. change (aflag ?f (set_vectors ?n ?m ?b)) with (aflag f b). by rewrite !aflag_on.
Qed.

(** One queue and one vector. *)
Lemma try_msi_run a h : exists s c,
  (try_msi k a h).1 = Some (msi_finish k (hw_mac h) (set_ad s (msi_reset a))) /\
  (vmdq_offset s = vmdq_offset (ad a) \/ vmdq_offset s = 0) /\
  flags s = Z.ldiff (flags (ad a)) c /\ Z.land c IXGBE_FLAG_FCOE_ENABLED = 0 /\ Z.land (flags s) IXGBE_FLAG_VMDQ_ENABLED = 0.
Proof.
  unfold try_msi, mbind, M_bind, get, mret, M_ret. match goal with |- context [(if ?b then ?x else ?y) h] => destruct ((if b then x else y) h) as [u h1] end.
  set (a2 := msi_reset a). pose proof (disable_sriov_spec (pci_vfs_assigned k) (ad a2) h1) as HD.
  destruct (ixgbe_disable_sriov (pci_vfs_assigned k) (ad a2) h1) as [[[[] s]|] h2]; [|done]. cbn [fst] in HD. destruct HD as (HO & c & HF & HC).
  assert (vmdq_offset (ad a2) = vmdq_offset (ad a)) as Ho by (unfold a2, msi_reset; by destruct (tcs a >? 1)).
  exists s, (Z.lor (if tcs a >? 1 then Z.lor IXGBE_FLAG_DCB_ENABLED IXGBE_FLAG_VMDQ_ENABLED else IXGBE_FLAG_VMDQ_ENABLED) c).
  split_and!; [reflexivity|by rewrite <- Ho|..].
  - rewrite HF. unfold a2, msi_reset. apply Z.bits_inj'. intros n Hn. destruct (tcs a >? 1); cbn; rewrite !Z.ldiff_spec, !Z.lor_spec, !negb_orb, ?andb_assoc; done.
  - rewrite Z.land_lor_distr_l. assert (Z.land c IXGBE_FLAG_FCOE_ENABLED = 0) as ->; [|destruct (tcs a >? 1); done].
    apply (f_equal (fun z => Z.land z IXGBE_FLAG_FCOE_ENABLED)) in HC. rewrite <- Z.land_assoc in HC. exact HC.
  - rewrite HF. unfold a2, msi_reset. cbn. apply Z.bits_inj'. intros n Hn. rewrite Z.land_spec, !Z.ldiff_spec, Z.bits_0.
    destruct (Z.testbit IXGBE_FLAG_VMDQ_ENABLED n); by rewrite !andb_false_r.
Qed.
Lemma msi_finish_cfg a (a1 := ixgbe_set_num_queues mac cpus (set_ad (set_rss_limit 1 (ad a)) a)) :
  num_q_vectors (msi_finish k mac a) = 1 /\ cfg (msi_finish k mac a) = cfg a1 /\
  (tx_ring (msi_finish k mac a), rx_ring (msi_finish k mac a), q_vector (msi_finish k mac a)) = (tx_ring a1, rx_ring a1, q_vector a1).
Proof.
  unfold msi_finish. fold a1. clearbody a1. cbv zeta. destruct (negb _); [done|]. destruct (truthy _); [done|]. split_and!; [done| |done].
  unfold cfg. change (aflag ?f (set_vectors ?x ?y ?b)) with (aflag f b). by rewrite !aflag_on.
Qed.
Lemma try_msi_ok a h : hw_mac h = mac -> config_ok mac cpus a -> arrays_ok a ->
  exists a0 a', (try_msi k a h).1 = Some a' /\ scheme_ok a0 a'.
Proof.
  intros Hm Hc HA. destruct (try_msi_run a h) as (s & c & E & HO & HF & HC & HV). rewrite Hm in E.
  set (b := set_ad s (msi_reset a)) in *. exists (set_ad (set_rss_limit 1 (ad b)) b), (msi_finish k mac b). split; [done|].
  assert (tcs b <= 1 /\ 0 <= tcs b <= tcs a /\ (0 <= ixgbe_fcoe_get_tc a < Z.max 1 (tcs a) -> 0 <= ixgbe_fcoe_get_tc b < Z.max 1 (tcs b))) as (Ht1 & Ht2 & Ht3).
  { assert (0 <= tcs a) by apply Hc. unfold b, msi_reset. destruct (Z.gtb_spec (tcs a) 1).
    - change (0 <= 1 /\ 0 <= 0 <= tcs a /\ (0 <= ixgbe_fcoe_get_tc a < Z.max 1 (tcs a) -> 0 <= 0 < Z.max 1 0)). lia.
    - change (tcs a <= 1 /\ 0 <= tcs a <= tcs a /\ (0 <= ixgbe_fcoe_get_tc a < Z.max 1 (tcs a) -> 0 <= ixgbe_fcoe_get_tc a < Z.max 1 (tcs a))). lia. }
  set (b' := set_ad (set_rss_limit 1 (ad b)) b).
  assert (aflag IXGBE_FLAG_VMDQ_ENABLED b' = false) as HVf by (change (truthy (Z.land (flags s) IXGBE_FLAG_VMDQ_ENABLED) = false); by rewrite HV).
  assert (aflag IXGBE_FLAG_FCOE_ENABLED b' = aflag IXGBE_FLAG_FCOE_ENABLED a) as HFf.
  { change (truthy (Z.land (flags s) IXGBE_FLAG_FCOE_ENABLED) = aflag IXGBE_FLAG_FCOE_ENABLED a). rewrite HF. by apply (aflag_off _ c a). }
  assert (fcoe b' = fcoe a /\ opts b' = opts a) as [Hfc Hop] by (unfold b', b, msi_reset; by destruct (tcs a >? 1)).
  assert ((tx_ring b', rx_ring b', q_vector b') = (tx_ring a, rx_ring a, q_vector a)) as Harr by (unfold b', b, msi_reset; by destruct (tcs a >? 1)).
  assert (config_ok mac cpus b') as Hc'.
  { destruct Hc as [C1 C2 C3 C4 C5 C6 C7 C8 C9 C10].
    assert (0 <= vmdq_offset (ad a) < 64) as Hoa by (destruct (tcs a >? 4), (tcs a >? 1); lia).
    split; change (tcs b') with (tcs b); change (ixgbe_fcoe_get_tc b') with (ixgbe_fcoe_get_tc b); change (rss_limit (ad b')) with 1; change (vmdq_offset (ad b')) with (vmdq_offset s);
      rewrite ?Hfc, ?Hop, ?HFf, ?HVf; try done; try lia.
    - replace (tcs b >? 4) with false by lia. replace (tcs b >? 1) with false by lia. lia.
    - intros E'. destruct (C7 E') as (H1 & H2 & _). split_and!; [lia|done|by left].
    - intros HF'. destruct (C9 HF') as (H1 & H2 & H3). split_and!; try lia; by apply Ht3. }
  destruct (msi_finish_cfg b) as (F1 & F2 & F3). fold b' in F2, F3.
  pose proof (mode_of mac cpus b' Hc') as HM. pose proof (num_queues_base mac cpus b' Hc') as [HB _].
  assert (mode_ok mac b' (msi_finish k mac b)) as HM' by (by apply (mode_same mac b' (ixgbe_set_num_queues mac cpus b'))).
  split; [done|done| | |].
  - rewrite F1. destruct (mode_count _ _ _ HM') as [? _]. unfold MAX_MSIX_Q_VECTORS. lia.
  - destruct HM' as [vi _ Ht _|n Ht _|kk n size Ht [_ _ _ _ [Hv _] _ _ _]|_ [_ [? _]]]; [change (tcs b') with (tcs b) in Ht; lia..| |lia].
    assert (aflag IXGBE_FLAG_VMDQ_ENABLED (msi_finish k mac b) = false) as HX; [|congruence].
    unfold cfg in F2. unfold base in HB. injection F2 as _ _ -> _ _ _ _ _ _ _. injection HB as _ _ _ -> _ _ _ _ _ _ _ _ _. done.
  - apply (arrays_same a); [|done]. rewrite F3. unfold base in HB. injection HB as _ _ _ _ _ _ _ _ _ _ -> -> ->. exact Harr.
Qed.

Lemma granted_enabled a1 (a2 := set_vectors (num_q_vectors a1) (entries_alloc k) a1) (a3 : adapter) : 1 <= rxq a1 -> 1 <= cpus -> msix_granted a1 ->
  ixgbe_acquire_msix_vectors (pci_enable_msix k) (v_budget k a2) a2 = Some a3 -> aflag IXGBE_FLAG_MSIX_ENABLED a3 = true.
Proof.
  intros Hr Hc (_ & _ & Hp & Hm). unfold ixgbe_acquire_msix_vectors. set (v := v_budget k a2).
  assert (2 <= v) as Hv by (unfold v, v_budget, NON_Q_VECTORS; change (rxq a2) with (rxq a1); change (opts a2) with (opts a1); lia). clearbody v.
  destruct (Z.to_nat v) as [|n] eqn:En; [lia|]. cbn [acquire_loop]. unfold MIN_MSIX_COUNT, NON_Q_VECTORS. replace (v >=? 1 + (1 + 0)) with true by lia. cbv zeta. rewrite Hp. cbn [Z.eqb mbind option_bind].
  replace (v <? 1 + (1 + 0)) with false by lia. intros [= <-]. by apply aflag_on_self.
Qed.
Lemma capability_ok a h : hw_mac h = mac -> config_ok mac cpus a -> arrays_ok a -> 1 <= max_q_vectors (opts a) <= MAX_MSIX_Q_VECTORS ->
  rxq (ixgbe_set_num_queues mac cpus a) <= MAX_RX_QUEUES ->
  exists a0 a1, (ixgbe_set_interrupt_capability k (ixgbe_set_num_queues mac cpus a) h).1 = Some a1 /\ scheme_ok a0 a1 /\
    (msix_granted (ixgbe_set_num_queues mac cpus a) -> rxq a1 = rxq (ixgbe_set_num_queues mac cpus a)).
Proof.
  intros Hm Hc HA Hmax Hr. pose proof (mode_of mac cpus a Hc) as HM. pose proof (num_queues_base mac cpus a Hc) as HB.
  set (a1 := ixgbe_set_num_queues mac cpus a) in *. clearbody a1. pose proof (mode_count _ _ _ HM) as [C1 C2].
  assert (arrays_ok a1 /\ opts a1 = opts a) as [HA1 HO].
  { destruct HB as [E _]. unfold base in E. injection E as _ _ _ _ _ _ _ E8 _ _ E11 E12 E13. split; [apply (arrays_same a); [congruence|done]|done]. }
  assert (forall a2, based a a2 -> arrays_ok a2 -> ~ msix_granted a1 -> exists a0 a3, (try_msi k a2 h).1 = Some a3 /\ scheme_ok a0 a3 /\ (msix_granted a1 -> rxq a3 = rxq a1)) as Hmsi.
  { intros a2 H2 H3 H4. destruct (try_msi_ok a2 h) as (b0 & b1 & ? & ?); [done|by eapply config_based|done|]. exists b0, b1. by split_and!. }
  unfold ixgbe_set_interrupt_capability. destruct (negb (aflag IXGBE_FLAG_MSIX_CAPABLE a1)) eqn:HX; [apply Hmsi; try done; intros [G _]; by rewrite G in HX|]. cbv zeta.
  destruct (negb (entries_alloc k)) eqn:HY; [apply Hmsi; try done; intros (_ & G & _); by rewrite G in HY|]. set (a2 := set_vectors (num_q_vectors a1) (entries_alloc k) a1).
  assert (v_budget k a2 <= rxq a1 + 1) as Hvb by (unfold v_budget, NON_Q_VECTORS; change (rxq a2) with (rxq a1); change (txq a2) with (txq a1); lia).
  destruct (ixgbe_acquire_msix_vectors (pci_enable_msix k) (v_budget k a2) a2) as [a3|] eqn:E3.
  - destruct (aflag IXGBE_FLAG_MSIX_ENABLED a3) eqn:HF.
    + destruct (msix_path a2 (v_budget k a2) a3 HA1) as (G1 & G2 & G3 & G4); [by rewrite <- HO in Hmax|done|done|done|].
      exists a, a3. split; [done|]. assert (cfg a3 = cfg a1) as G by done. assert (rxq a3 = rxq a1) as G5 by (unfold cfg in G; injection G as _ _ _ _ _ _ _ E8 _ _; unfold rxq; by rewrite E8).
      split; [|done]. split; [by apply (mode_same mac a a1)|done|rewrite G5; done|by rewrite G5|done].
    + apply Hmsi; [| |intros HG; rewrite (granted_enabled a1 a3) in HF; try done; destruct Hc as [_ _ _ [? ?] _ _ _ _ _ _]; lia]; unfold ixgbe_acquire_msix_vectors in E3; destruct (acquire_loop _ _ _) as [w|]; [|done| |done]; cbn [mbind option_bind] in E3;
        destruct (w <? MIN_MSIX_COUNT); simplify_eq; try done.
      * destruct HB as [E F]. split; [|done]. unfold base in *. change (aflag ?f (set_vectors ?x ?y ?b)) with (aflag f b). by rewrite !aflag_off.
      * exfalso. revert HF. unfold aflag, flag_on. cbn. rewrite Z.land_lor_distr_l, Z.land_diag. intros HF%negb_false_iff%Z.eqb_eq.
        apply Z.lor_eq_0_iff in HF as [_ HF]. done.
  - exfalso. unfold ixgbe_acquire_msix_vectors in E3. destruct (acquire_loop_spec (pci_enable_msix k) (Z.to_nat (v_budget k a2)) (v_budget k a2) Hmsix ltac:(lia)) as (w & Ew & _).
    by rewrite Ew in E3.
Qed.
End Scheme.

Lemma init_scheme_run k a h : config_ok (hw_mac h) (num_online_cpus k) a -> arrays_ok a -> 1 <= max_q_vectors (opts a) <= MAX_MSIX_Q_VECTORS ->
  rxq (ixgbe_set_num_queues (hw_mac h) (num_online_cpus k) a) <= MAX_RX_QUEUES ->
  (forall n, 0 < pci_enable_msix k n -> pci_enable_msix k n < n) -> (forall v, vector_alloc k v = true) ->
  exists a', (ixgbe_init_interrupt_scheme k a h).1 = Some (0, a') /\ 1 <= num_q_vectors a' /\ 1 <= rxq a' /\
    ring_ok (num_q_vectors a') (rxq a') (rx_ring a') /\ ring_ok (num_q_vectors a') (txq a') (tx_ring a') /\
    (msix_granted k (ixgbe_set_num_queues (hw_mac h) (num_online_cpus k) a) -> rxq a' = rxq (ixgbe_set_num_queues (hw_mac h) (num_online_cpus k) a)) /\
    num_q_vectors a' <= MAX_MSIX_Q_VECTORS /\ lists_ok (num_q_vectors a') (txq a') (rxq a') (q_vector a').
Proof.
  intros Hc HA Hmax Hr Hmsix Hal. destruct (capability_ok k (hw_mac h) Hmsix a h eq_refl Hc HA Hmax Hr) as (a0 & a1 & E1 & HS & HG).
  destruct (scheme_rings k (hw_mac h) Hal a0 a1 HS) as (a2 & a3 & E2 & E3 & E4 & E5 & R1 & R2 & R3).
  exists (set_down true a3). unfold ixgbe_init_interrupt_scheme. unfold mbind at 1 2, M_bind, get, mret, M_ret.
  destruct (ixgbe_set_interrupt_capability k _ h) as [r h1]. cbn [fst] in E1. subst r. cbn [fst]. cbn [mbind option_bind]. rewrite E2. cbn [mbind option_bind fst snd].
  change (truthy 0) with false. cbv iota. rewrite E3. split; [done|].
  assert (rxq a3 = rxq a1 /\ txq a3 = txq a1) as [Q1 Q2] by (unfold cfg in E5; injection E5 as _ _ _ _ _ _ _ E8 _ _; unfold rxq, txq; by rewrite E8).
  change (rxq (set_down true a3)) with (rxq a3). change (txq (set_down true a3)) with (txq a3). change (num_q_vectors (set_down true a3)) with (num_q_vectors a3).
  rewrite Q1, Q2, E4. destruct HS as [HM _ HV _ _]. destruct (mode_count _ _ _ HM) as [C1 _]. split_and!; [lia|lia|exact R1|exact R2|exact HG|lia|exact R3].
Qed.

(** The interrupt scheme as a whole, in every mode and with MSI-X, MSI or a plain interrupt: it does not fail, at least one vector
    is set up, and every receive and transmit ring is present, on the vector that its index names and with a hardware queue of its own. When
    MSI-X is granted there are as many rings as the queue counts ask for. *)
Theorem init_scheme_correct k a h : config_ok (hw_mac h) (num_online_cpus k) a -> arrays_ok a -> 1 <= max_q_vectors (opts a) <= MAX_MSIX_Q_VECTORS ->
  rxq (ixgbe_set_num_queues (hw_mac h) (num_online_cpus k) a) <= MAX_RX_QUEUES ->
  (forall n, 0 < pci_enable_msix k n -> pci_enable_msix k n < n) -> (forall v, vector_alloc k v = true) ->
  exists a', (ixgbe_init_interrupt_scheme k a h).1 = Some (0, a') /\ 1 <= num_q_vectors a' /\ 1 <= rxq a' /\
    ring_ok (num_q_vectors a') (rxq a') (rx_ring a') /\ ring_ok (num_q_vectors a') (txq a') (tx_ring a') /\
    (msix_granted k (ixgbe_set_num_queues (hw_mac h) (num_online_cpus k) a) -> rxq a' = rxq (ixgbe_set_num_queues (hw_mac h) (num_online_cpus k) a)).
Proof. intros H1 H2 H3 H4 H5 H6. destruct (init_scheme_run k a h H1 H2 H3 H4 H5 H6) as (a' & E & Hv & Hr & R1 & R2 & HG & _). by exists a'. Qed.


(** ** An adapter at concrete values: an 82599 as [ixgbe_sw_init] leaves it, with the parts that matter here. *)
Definition fresh_sriov (flags rss : Z) : sriov := Sriov 0 [] None [] flags 0 0 0 0 rss 8 8 false 0.
Definition fresh_adapter (rss cpus : Z) : adapter :=
  Adapter (fresh_sriov (Z.lor (Z.lor (Z.lor IXGBE_FLAG_MSI_CAPABLE IXGBE_FLAG_MSIX_CAPABLE) IXGBE_FLAG_MQ_CAPABLE) IXGBE_FLAG_SRIOV_CAPABLE) rss)
    0 (0, 0) (Z.min IXGBE_MAX_FDIR_INDICES cpus, 0) (Feature (Z.min IXGBE_MAX_FCOE_INDICES cpus) 0 0) (Counts 0 0 0 0) (Tc 0 (fun _ => 0) (fun _ => (0, 0)))
    (Settings 0 0 256 256 512 512 0 3 63 64 64 ixgbe_fc_none) 0 false false false true
    (repeat None (Z.to_nat MAX_TX_QUEUES)) (repeat None (Z.to_nat MAX_RX_QUEUES)) (repeat None (Z.to_nat MAX_MSIX_Q_VECTORS)).
Definition eager_kernel (cpus : Z) : kernel := Kernel cpus (fun _ => 0) 0 true (fun _ => true) false.
Definition hw_82599 : ixgbe_hw := hw_init ixgbe_mac_82599EB (fun _ _ => 0).
Lemma fresh_arrays rss cpus : arrays_ok (fresh_adapter rss cpus).
Proof.
  unfold arrays_ok, no_rings, no_entry. split_and!; [done..|]. assert (forall A n i (x : A), repeat None n !! i <> Some (Some x)) as Hno.
  { intros A n i x Hx. apply list_elem_of_lookup_2, list_elem_of_In, repeat_spec in Hx. done. }
  intros i Hi. split_and!; intros x; apply Hno.
Qed.
Lemma init_scheme_correct_witness : exists a', (ixgbe_init_interrupt_scheme (eager_kernel 8) (fresh_adapter 8 8) hw_82599).1 = Some (0, a') /\ rxq a' = 8.
Proof.
  destruct (init_scheme_correct (eager_kernel 8) (fresh_adapter 8 8) hw_82599) as (a' & E & _ & _ & _ & _ & G).
  - split; try done; try (cbn; lia). by right; left.
  - apply fresh_arrays.
  - cbn. unfold MAX_MSIX_Q_VECTORS. lia.
  - vm_compute. discriminate.
  - cbn. lia.
  - reflexivity.
  - exists a'. split; [exact E|]. rewrite G; [vm_compute; reflexivity|]. split_and!; [vm_compute; reflexivity|reflexivity|reflexivity|vm_compute; discriminate].
Defined.
Lemma alloc_q_vectors_fails_witness : let a := set_cnt (Counts 6 6 1 6) (set_vectors 4 true (fresh_adapter 8 8)) in
  exists a', ixgbe_alloc_q_vectors ixgbe_mac_82599EB (fun v => negb (v =? 2)) a = Some (- ENOMEM, a') /\ num_q_vectors a' = 0.
Proof.
  intros a. destruct (alloc_q_vectors_fails ixgbe_mac_82599EB (fun v => negb (v =? 2)) a 2) as (a' & E & _ & _ & _ & H); [|cbn; lia|reflexivity|by exists a'].
  destruct (fresh_arrays 8 8) as (L1 & L2 & L3 & HN). unfold room. change (tx_ring a) with (tx_ring (fresh_adapter 8 8)). change (rx_ring a) with (rx_ring (fresh_adapter 8 8)).
  change (q_vector a) with (q_vector (fresh_adapter 8 8)). rewrite L1, L2, L3. cbn. split_and!; try done; unfold MAX_TX_QUEUES, MAX_RX_QUEUES, MAX_MSIX_Q_VECTORS; try lia.
Defined.

(** ** Where the rings do not have queues of their own *)

(** The registers of the transmit rings after the whole scheme, on a given adapter. *)
Definition tx_registers (mac : mac_type) (a : adapter) : option (list Z) :=
  r ← (ixgbe_init_interrupt_scheme (eager_kernel 8) a (hw_init mac (fun _ _ => 0))).1;
  mapM (fun o => reg_idx <$> o) (take (Z.to_nat (txq r.2)) (tx_ring r.2)).
Definition dcb_pools (tcs pools : Z) : adapter :=
  let a := flag_on IXGBE_FLAG_VMDQ_ENABLED (fresh_adapter 1 8) in
  set_tc (Tc tcs (fun _ => 0) (fun _ => (0, 0))) (set_ad (set_vmdq pools 0 (ad a)) a).
(** On the 82598, with eight traffic classes and two pools, transmit rings [i] and [i + 8] have the same register: the pool number is taken
    from bit 4 of the ring, and the rings of a pool are eight. On the 82599 the same settings give sixteen registers. *)
Theorem tx_registers_82598 : tx_registers ixgbe_mac_82598EB (dcb_pools 8 2) = Some [0; 4; 8; 12; 16; 20; 24; 28; 0; 4; 8; 12; 16; 20; 24; 28] /\
  exists l, tx_registers ixgbe_mac_82599EB (dcb_pools 8 2) = Some l /\ NoDup l /\ length l = 16%nat.
Proof. split; [vm_compute; reflexivity|]. eexists. split; [vm_compute; reflexivity|]. split; [by apply (bool_decide_unpack _); vm_compute|reflexivity]. Qed.
(** With FCoE, MSI-X and 61 VFs, the rings after the last pool continue at register 0, in the pool of VF 0: the alignment keeps seven bits. *)
Definition fcoe_vfs (vfs : Z) : adapter :=
  let a := flag_on (Z.lor (Z.lor IXGBE_FLAG_MSIX_ENABLED IXGBE_FLAG_FCOE_ENABLED) IXGBE_FLAG_VMDQ_ENABLED) (fresh_adapter 1 8) in
  set_ad (set_vmdq 1 vfs (ad a)) a.
Theorem fcoe_registers_wrap : tx_registers ixgbe_mac_82599EB (fcoe_vfs 61) = Some [122; 124; 126; 0; 2] /\
  tx_registers ixgbe_mac_82599EB (fcoe_vfs 8) = Some [16; 18; 20; 22; 24; 26; 28; 30].
Proof. split; vm_compute; reflexivity. Qed.
