(* ===== verification/Params.v ===== *)
(** * Module parameters ([ixgbe_param.c])

    [ixgbe_check_options] validates the parameters given for a board and turns them into limits, flags and settings of the
    adapter. The configuration has [module_param_array], [CONFIG_DCA], [CONFIG_PCI_IOV], [HAVE_TX_MQ] and [IXGBE_FCOE]. Messages are left out. *)
From S2P Require Import Prelude Hw Sriov Queues QueuesSpec Vectors.

(** ** Constants *)
Definition IXGBE_MAX_NIC : Z := 32.
Definition OPTION_UNSET : Z := -1.
Definition OPTION_DISABLED : Z := 0.
Definition OPTION_ENABLED : Z := 1.
Definition IXGBE_INT_LEGACY : Z := 0.
Definition IXGBE_INT_MSI : Z := 1.
Definition IXGBE_INT_MSIX : Z := 2.
Definition IXGBE_DEFAULT_INT : Z := IXGBE_INT_MSIX.
Definition IXGBE_MAX_DCA : Z := 2.
Definition MAX_SRIOV_VFS : Z := 63.
Definition DEFAULT_ITR : Z := 1.
Definition MAX_ITR : Z := 488281.
Definition MIN_ITR : Z := 956.
Definition DEFAULT_LLIPORT : Z := 0.
Definition MAX_LLIPORT : Z := 0xFFFF.
Definition MIN_LLIPORT : Z := 0.
Definition DEFAULT_LLISIZE : Z := 0.
Definition MAX_LLISIZE : Z := 1500.
Definition MIN_LLISIZE : Z := 0.
Definition DEFAULT_LLIETYPE : Z := 0.
Definition MAX_LLIETYPE : Z := 0x8fff.
Definition MIN_LLIETYPE : Z := 0.
Definition DEFAULT_LLIVLANP : Z := 0.
Definition MAX_LLIVLANP : Z := 7.
Definition MIN_LLIVLANP : Z := 0.
Definition IXGBE_FDIR_PBALLOC_NONE : Z := 0.
Definition IXGBE_FDIR_PBALLOC_64K : Z := 1.
Definition IXGBE_FDIR_PBALLOC_128K : Z := 2.
Definition IXGBE_FDIR_PBALLOC_256K : Z := 3.
Definition IXGBE_DEFAULT_FDIR_PBALLOC : Z := IXGBE_FDIR_PBALLOC_64K.
Definition IXGBE_MAX_ATR_SAMPLE_RATE : Z := 255.
Definition IXGBE_ATR_SAMPLE_RATE_OFF : Z := 0.
Definition IXGBE_DEFAULT_ATR_SAMPLE_RATE : Z := 20.
Definition IXGBE_MAX_RSS_INDICES : Z := 16.
Definition IXGBE_FLAG_LLI_PUSH : Z := Z.shiftl 1 4.
Definition IXGBE_FLAG_DCA_ENABLED : Z := Z.shiftl 1 6.
Definition IXGBE_FLAG_DCA_CAPABLE : Z := Z.shiftl 1 7.
Definition IXGBE_FLAG_DCA_ENABLED_DATA : Z := Z.shiftl 1 8.
Definition IXGBE_FLAG_FCOE_CAPABLE : Z := Z.shiftl 1 17.
Definition IXGBE_FLAG_SRIOV_L2LOOPBACK_ENABLE : Z := Z.shiftl 1 23.

(** ** Options *)
Inductive option_type :=
  | enable_option
  | range_option (min max : Z)
  | list_option (p : list Z).
Record ixgbe_option := Opt { opt_type : option_type; opt_def : Z }.

(** The return value and the value afterwards, an unsigned int; the bounds are converted for the comparison. *)
Definition ixgbe_validate_option (value : Z) (opt : ixgbe_option) : Z * Z :=
  if value =? u32 OPTION_UNSET then (0, u32 (opt_def opt))
  else
    let ok := match opt_type opt with
              | enable_option => (value =? OPTION_ENABLED) || (value =? OPTION_DISABLED)
              | range_option min max => (value >=? u32 min) && (value <=? u32 max)
              | list_option p => existsb (fun i => value =? u32 i) p
              end in
    if ok then (0, value) else (-1, u32 (opt_def opt)).

(** A parameter: an array of [IXGBE_MAX_NIC + 1] ints and how many of them were given. *)
Record param := Param { par_num : Z; par_values : list Z }.
Definition param_unset : param := Param 0 (repeat OPTION_UNSET (Z.to_nat (IXGBE_MAX_NIC + 1))).
Record params := Params {
  InterruptType : param; IntMode : param; MQ : param; DCA : param; RSS : param; VMDQ : param; max_vfs : param; L2LBen : param;
  InterruptThrottleRate : param; LLIPort : param; LLIPush : param; LLISize : param; LLIEType : param; LLIVLANP : param;
  FdirPballoc : param; AtrSampleRate : param; FCoE : param; LRO : param; allow_unsupported_sfp : param
}.
Definition params_unset : params :=
  Params param_unset param_unset param_unset param_unset param_unset param_unset param_unset param_unset param_unset param_unset
         param_unset param_unset param_unset param_unset param_unset param_unset param_unset param_unset param_unset.

(** What the options set: the adapter, the low latency interrupts, the flow director's buffer, LRO and the SFP+ check. *)
Record options := Options {
  oa : adapter; lli_port : Z; lli_size : Z; lli_etype : Z; lli_vlan_pri : Z; fdir_pballoc : Z; features_lro : bool; hw_allow_sfp : bool
}.
Definition set_oa v o := Options v (lli_port o) (lli_size o) (lli_etype o) (lli_vlan_pri o) (fdir_pballoc o) (features_lro o) (hw_allow_sfp o).
Definition set_lli_port v o := Options (oa o) v (lli_size o) (lli_etype o) (lli_vlan_pri o) (fdir_pballoc o) (features_lro o) (hw_allow_sfp o).
Definition set_lli_size v o := Options (oa o) (lli_port o) v (lli_etype o) (lli_vlan_pri o) (fdir_pballoc o) (features_lro o) (hw_allow_sfp o).
Definition set_lli_etype v o := Options (oa o) (lli_port o) (lli_size o) v (lli_vlan_pri o) (fdir_pballoc o) (features_lro o) (hw_allow_sfp o).
Definition set_lli_vlan_pri v o := Options (oa o) (lli_port o) (lli_size o) (lli_etype o) v (fdir_pballoc o) (features_lro o) (hw_allow_sfp o).
Definition set_fdir_pballoc v o := Options (oa o) (lli_port o) (lli_size o) (lli_etype o) (lli_vlan_pri o) v (features_lro o) (hw_allow_sfp o).
Definition set_lro v o := Options (oa o) (lli_port o) (lli_size o) (lli_etype o) (lli_vlan_pri o) (fdir_pballoc o) v (hw_allow_sfp o).
Definition set_allow_sfp v o := Options (oa o) (lli_port o) (lli_size o) (lli_etype o) (lli_vlan_pri o) (fdir_pballoc o) (features_lro o) v.
Definition set_itr v a :=
  let p := opts a in
  Adapter (ad a) (vmdq_indices a) (rss a) (fdir a) (fcoe a) (cnt a) (tc a)
    (Settings v v (tx_work_limit p) (rx_work_limit p) (tx_ring_count p) (rx_ring_count p) (atr_sample_rate p) (fcoe_up p) (dev_num_tx_queues p)
       (max_msix_vectors p) (max_q_vectors p) (last_lfc_mode p))
    (num_q_vectors a) (msix_entries a) (pfc_mode a) (temp_pfc_mode a) (down a) (tx_ring a) (rx_ring a) (q_vector a).
Definition set_atr v a :=
  let p := opts a in
  Adapter (ad a) (vmdq_indices a) (rss a) (fdir a) (fcoe a) (cnt a) (tc a)
    (Settings (tx_itr_setting p) (rx_itr_setting p) (tx_work_limit p) (rx_work_limit p) (tx_ring_count p) (rx_ring_count p) v (fcoe_up p) (dev_num_tx_queues p)
       (max_msix_vectors p) (max_q_vectors p) (last_lfc_mode p))
    (num_q_vectors a) (msix_entries a) (pfc_mode a) (temp_pfc_mode a) (down a) (tx_ring a) (rx_ring a) (q_vector a).
Definition set_vmdq_limit v a := set_ad (set_vmdq v (vmdq_offset (ad a)) (ad a)) a.
Definition set_rss_lim v a := set_ad (set_rss_limit v (ad a)) a.
Definition set_num_vfs v a := set_ad (set_vfs v (vfinfo (ad a)) (ad a)) a.
Definition flag_set (f : Z) (b : bool) (a : adapter) : adapter := if b then flag_on f a else flag_off f a.

Definition ixgbe_max_rss_indices (mac : mac_type) : Z :=
  match mac with ixgbe_mac_82598EB | ixgbe_mac_82599EB | ixgbe_mac_X540 => IXGBE_MAX_RSS_INDICES | _ => 0 end.

Section Options.
Context (p : params) (mac : mac_type) (num_online_cpus : Z) (bd : Z).

(** [X[bd]], as an unsigned int; given when [num_X > bd]. *)
Definition value (x : param) : Z := u32 (nth (Z.to_nat bd) (par_values x) 0).
Definition given (x : param) : bool := par_num x >? bd.
(** The value of an option that takes its default when it is not given. *)
Definition validated (x : param) (opt : ixgbe_option) : Z := (ixgbe_validate_option (value x) opt).2.
Definition choose (x : param) (opt : ixgbe_option) : Z := if given x then validated x opt else u32 (opt_def opt).

Definition int_mode (a : adapter) : adapter :=
  let opt := Opt (range_option IXGBE_INT_LEGACY IXGBE_INT_MSIX) IXGBE_DEFAULT_INT in
  if given (IntMode p) || given (InterruptType p) then
    let int_mode := value (IntMode p) in
    let int_mode := if int_mode =? u32 OPTION_UNSET then value (InterruptType p) else int_mode in
    let int_mode := (ixgbe_validate_option int_mode opt).2 in
    if int_mode =? IXGBE_INT_MSIX then a
    else if int_mode =? IXGBE_INT_MSI then
      if negb (aflag IXGBE_FLAG_MSI_CAPABLE a) then a else flag_off IXGBE_FLAG_MSIX_CAPABLE a
    else flag_off IXGBE_FLAG_MSI_CAPABLE (flag_off IXGBE_FLAG_MSIX_CAPABLE a)
  else if (opt_def opt =? IXGBE_INT_MSIX) && aflag IXGBE_FLAG_MSIX_CAPABLE a then
    flag_on IXGBE_FLAG_MSI_CAPABLE (flag_on IXGBE_FLAG_MSIX_CAPABLE a)
  else if (opt_def opt =? IXGBE_INT_MSI) && aflag IXGBE_FLAG_MSI_CAPABLE a then
    flag_on IXGBE_FLAG_MSI_CAPABLE (flag_off IXGBE_FLAG_MSIX_CAPABLE a)
  else flag_off IXGBE_FLAG_MSI_CAPABLE (flag_off IXGBE_FLAG_MSIX_CAPABLE a).

Definition multiple_queues (a : adapter) : adapter :=
  let a := flag_set IXGBE_FLAG_MQ_CAPABLE (truthy (choose (MQ p) (Opt enable_option OPTION_ENABLED))) a in
  if aflag IXGBE_FLAG_MQ_CAPABLE a && negb (aflag IXGBE_FLAG_MSIX_CAPABLE a) then flag_off IXGBE_FLAG_MQ_CAPABLE a else a.

Definition direct_cache_access (a : adapter) : adapter :=
  let opt := Opt (range_option OPTION_DISABLED IXGBE_MAX_DCA) IXGBE_MAX_DCA in
  let dca := choose (DCA p) opt in
  let a :=
    if given (DCA p) then
      let a := if negb (truthy dca) then flag_off IXGBE_FLAG_DCA_CAPABLE a else a in
      let a := if negb (aflag IXGBE_FLAG_DCA_CAPABLE a) then flag_off IXGBE_FLAG_DCA_ENABLED a else a in
      if dca =? IXGBE_MAX_DCA then flag_on IXGBE_FLAG_DCA_ENABLED_DATA a else a
    else a in
  if dca =? IXGBE_MAX_DCA then flag_on IXGBE_FLAG_DCA_ENABLED_DATA a else a.

(** [RSS[bd]] is read before it is known that [bd] has a value. *)
Definition receive_side_scaling (a : adapter) : option adapter :=
  if bd >? IXGBE_MAX_NIC then None
  else
    let max := ixgbe_max_rss_indices mac in
    let '(rss, a) :=
      if given (RSS p) then
        let rss := validated (RSS p) (Opt (range_option 0 max) 0) in
        let '(rss, a) := if negb (truthy rss) then (Z.min max num_online_cpus, a) else (rss, set_fdir (u16 rss) (fdir a).2 a) in
        (rss, set_rss_lim (u16 rss) a)
      else let rss := Z.min max num_online_cpus in (rss, set_rss_lim (u16 rss) a) in
    Some (if (rss >? 1) && negb (aflag IXGBE_FLAG_MQ_CAPABLE a) then set_rss_lim 1 a else a).

Definition vmdq_option (a : adapter) : adapter :=
  let max := match mac with ixgbe_mac_82598EB => 16 | _ => IXGBE_MAX_VMDQ_INDICES end in
  let vmdq := choose (VMDQ p) (Opt (range_option OPTION_DISABLED max) OPTION_DISABLED) in
  let a := set_vmdq_limit (u16 vmdq) (flag_set IXGBE_FLAG_VMDQ_ENABLED (given (VMDQ p) && (vmdq >? 1)) a) in
  if aflag IXGBE_FLAG_VMDQ_ENABLED a && negb (aflag IXGBE_FLAG_MQ_CAPABLE a)
  then set_vmdq_limit 0 (flag_off IXGBE_FLAG_VMDQ_ENABLED a) else a.

Definition sriov_option (a : adapter) : adapter :=
  let opt := Opt (range_option OPTION_DISABLED MAX_SRIOV_VFS) OPTION_DISABLED in
  let vfs := if given (max_vfs p) then let r := ixgbe_validate_option (value (max_vfs p)) opt in if truthy r.1 then 0 else r.2 else opt_def opt in
  let a := flag_set IXGBE_FLAG_SRIOV_ENABLED (truthy vfs) (set_num_vfs vfs a) in
  if aflag IXGBE_FLAG_SRIOV_ENABLED a && (negb (aflag IXGBE_FLAG_SRIOV_CAPABLE a) || negb (aflag IXGBE_FLAG_MQ_CAPABLE a))
  then set_num_vfs 0 (flag_off IXGBE_FLAG_SRIOV_ENABLED a) else a.

Definition l2_loopback (a : adapter) : adapter :=
  if truthy (choose (L2LBen p) (Opt (range_option OPTION_DISABLED OPTION_ENABLED) OPTION_ENABLED)) then flag_on IXGBE_FLAG_SRIOV_L2LOOPBACK_ENABLE a else a.

Definition throttle_rate : Z :=
  let opt := Opt (range_option MIN_ITR MAX_ITR) DEFAULT_ITR in
  if given (InterruptThrottleRate p) then
    let itr := value (InterruptThrottleRate p) in
    if itr =? 0 then 0 else if itr =? 1 then 1
    else u16 (Z.shiftl (1000000 / (ixgbe_validate_option itr opt).2) 2)
  else opt_def opt.

(** The low latency options: 0 switches one off without a check. *)
Definition lli (x : param) (min max def : Z) : Z :=
  if given x then if truthy (value x) then validated x (Opt (range_option min max) def) else 0 else def.
Definition lli_push (a : adapter) : adapter :=
  flag_set IXGBE_FLAG_LLI_PUSH (truthy (choose (LLIPush p) (Opt enable_option OPTION_DISABLED))) a.

Definition pballoc : Z :=
  if bool_decide (mac = ixgbe_mac_82598EB) then IXGBE_FDIR_PBALLOC_NONE
  else if given (FdirPballoc p) then
    let mode := validated (FdirPballoc p) (Opt (range_option IXGBE_FDIR_PBALLOC_64K IXGBE_FDIR_PBALLOC_256K) IXGBE_DEFAULT_FDIR_PBALLOC) in
    if mode =? IXGBE_FDIR_PBALLOC_256K then IXGBE_FDIR_PBALLOC_256K
    else if mode =? IXGBE_FDIR_PBALLOC_128K then IXGBE_FDIR_PBALLOC_128K
    else IXGBE_FDIR_PBALLOC_64K
  else IXGBE_DEFAULT_FDIR_PBALLOC.
Definition sample_rate : Z :=
  if bool_decide (mac = ixgbe_mac_82598EB) then IXGBE_ATR_SAMPLE_RATE_OFF
  else lli (AtrSampleRate p) IXGBE_ATR_SAMPLE_RATE_OFF IXGBE_MAX_ATR_SAMPLE_RATE IXGBE_DEFAULT_ATR_SAMPLE_RATE.
Definition fcoe_option (a : adapter) : adapter :=
  let a := flag_off IXGBE_FLAG_FCOE_CAPABLE a in
  match mac with
  | ixgbe_mac_X540 | ixgbe_mac_82599EB =>
      if truthy (choose (FCoE p) (Opt enable_option OPTION_ENABLED)) then flag_on IXGBE_FLAG_FCOE_CAPABLE a else a
  | _ => a
  end.

Definition ixgbe_check_options (o : options) : option options :=
  let a := direct_cache_access (multiple_queues (int_mode (oa o))) in
  a ← receive_side_scaling a;
  let a := l2_loopback (sriov_option (vmdq_option a)) in
  let a := set_itr throttle_rate a in
  let o := set_lli_port (lli (LLIPort p) MIN_LLIPORT MAX_LLIPORT DEFAULT_LLIPORT) (set_oa a o) in
  let o := set_lli_size (lli (LLISize p) MIN_LLISIZE MAX_LLISIZE DEFAULT_LLISIZE) o in
  let o := set_oa (lli_push (oa o)) o in
  let o := set_lli_etype (lli (LLIEType p) MIN_LLIETYPE MAX_LLIETYPE DEFAULT_LLIETYPE) o in
  let o := set_lli_vlan_pri (lli (LLIVLANP p) MIN_LLIVLANP MAX_LLIVLANP DEFAULT_LLIVLANP) o in
  let o := set_oa (set_atr sample_rate (oa o)) (set_fdir_pballoc pballoc o) in
  let o := set_oa (fcoe_option (oa o)) o in
  let o := set_lro (truthy (choose (LRO p) (Opt enable_option OPTION_ENABLED))) o in
  Some (set_allow_sfp (truthy (choose (allow_unsupported_sfp p) (Opt enable_option OPTION_DISABLED))) o).
End Options.

(** ** Validation *)
(** A value is kept when it is in range; otherwise the default is taken, with an error unless the value is unset. *)
Lemma validate_range v min max def : 0 <= min <= max -> max < 2 ^ 32 - 1 -> 0 <= def < 2 ^ 32 ->
  ixgbe_validate_option v (Opt (range_option min max) def) =
    if bool_decide (min <= v <= max) then (0, v) else (if v =? 2 ^ 32 - 1 then 0 else -1, def).
Proof.
  intros Hm Hmax Hdef. unfold ixgbe_validate_option. cbn [opt_type opt_def]. rewrite (u32_small def), (u32_small min), (u32_small max) by lia.
  change (u32 OPTION_UNSET) with (2 ^ 32 - 1). destruct (Z.eqb_spec v (2 ^ 32 - 1)) as [->|Hne]; [by rewrite bool_decide_false by lia|].
  destruct (decide (min <= v <= max)); [rewrite bool_decide_true by done|rewrite bool_decide_false by done].
  - by replace ((v >=? min) && (v <=? max)) with true by lia.
  - by replace ((v >=? min) && (v <=? max)) with false by lia.
Qed.
Lemma validate_bounds v min max def lo hi : 0 <= min <= max -> max < 2 ^ 32 - 1 -> 0 <= def < 2 ^ 32 -> lo <= min -> max <= hi -> lo <= def <= hi ->
  lo <= (ixgbe_validate_option v (Opt (range_option min max) def)).2 <= hi.
Proof. intros. rewrite validate_range by done. case_bool_decide; cbn; lia. Qed.
Lemma choose_bounds bd x min max def lo hi : 0 <= min <= max -> max < 2 ^ 32 - 1 -> 0 <= def < 2 ^ 32 -> lo <= min -> max <= hi -> lo <= def <= hi ->
  lo <= choose bd x (Opt (range_option min max) def) <= hi.
Proof.
  intros. unfold choose, validated. destruct (given bd x); [by apply validate_bounds|]. cbn [opt_def]. rewrite u32_small by lia. lia.
Qed.
Lemma lli_bounds bd x min max def : 0 <= min <= max -> max < 2 ^ 32 - 1 -> min <= def <= max -> min = 0 -> 0 <= lli bd x min max def <= max.
Proof.
  intros. unfold lli. destruct (given bd x); [|lia]. destruct (truthy _); [|lia]. unfold validated.
  pose proof (validate_bounds (value bd x) min max def 0 max). lia.
Qed.

(** A rate that is out of range is replaced by the default 1, which means dynamic throttling; but the default is then converted
    like a rate. *)
Theorem invalid_rate_setting p bd : given bd (InterruptThrottleRate p) = true -> let itr := value bd (InterruptThrottleRate p) in
  1 < itr -> ~ MIN_ITR <= itr <= MAX_ITR -> throttle_rate p bd = 2304.
Proof.
  intros Hg itr H1 Hr. unfold throttle_rate. rewrite Hg. fold itr. cbv zeta. replace (itr =? 0) with false by lia. replace (itr =? 1) with false by lia.
  rewrite validate_range, bool_decide_false by (done || unfold MIN_ITR, MAX_ITR, DEFAULT_ITR in *; lia). reflexivity.
Qed.

(** ** Consistency of the adapter after validation *)
Lemma aflag_off_self f a : aflag f (flag_off f a) = false.
Proof. unfold aflag, flag_off. cbn. by rewrite Z.land_ldiff. Qed.
Lemma aflag_set_self f b a : f <> 0 -> aflag f (flag_set f b a) = b.
Proof. destruct b; [apply aflag_on_self|intros _; apply aflag_off_self]. Qed.
Lemma aflag_set f g b a : Z.land g f = 0 -> aflag f (flag_set g b a) = aflag f a.
Proof. destruct b; [apply aflag_on|apply aflag_off]. Qed.

(** The options that need several queues are off when there is only one. *)
Record consistent (a : adapter) : Prop := {
  co_rss : 1 <= rss_limit (ad a) <= IXGBE_MAX_RSS_INDICES;
  co_vmdq : 0 <= vmdq_limit (ad a) <= IXGBE_MAX_VMDQ_INDICES;
  co_vfs : 0 <= num_vfs (ad a) <= MAX_SRIOV_VFS;
  co_msix : aflag IXGBE_FLAG_MSIX_CAPABLE a = false -> aflag IXGBE_FLAG_MQ_CAPABLE a = false;
  co_mq : aflag IXGBE_FLAG_MQ_CAPABLE a = false -> rss_limit (ad a) = 1 /\ aflag IXGBE_FLAG_VMDQ_ENABLED a = false /\ num_vfs (ad a) = 0;
  co_pools : aflag IXGBE_FLAG_VMDQ_ENABLED a = true -> 2 <= vmdq_limit (ad a)
}.
Definition core (a : adapter) :=
  (rss_limit (ad a), vmdq_limit (ad a), num_vfs (ad a), aflag IXGBE_FLAG_MSIX_CAPABLE a, aflag IXGBE_FLAG_MQ_CAPABLE a, aflag IXGBE_FLAG_VMDQ_ENABLED a).
Lemma core_set g b a : Z.land g (Z.lor (Z.lor IXGBE_FLAG_MSIX_CAPABLE IXGBE_FLAG_MQ_CAPABLE) IXGBE_FLAG_VMDQ_ENABLED) = 0 -> core (flag_set g b a) = core a.
Proof.
  intros Hg. rewrite !Z.land_lor_distr_r in Hg. apply Z.lor_eq_0_iff in Hg as [[H1 H2]%Z.lor_eq_0_iff H3]. unfold core. rewrite !aflag_set by done. by destruct b.
Qed.
Lemma core_consistent a a' : core a' = core a -> consistent a -> consistent a'.
Proof. unfold core. intros [= E1 E2 E3 E4 E5 E6] []. split; rewrite ?E1, ?E2, ?E3, ?E4, ?E5, ?E6; done. Qed.
Lemma core_loopback p bd a : core (l2_loopback p bd a) = core a.
Proof. unfold l2_loopback. destruct (truthy _); [by apply (core_set _ true)|done]. Qed.
Lemma core_lli_push p bd a : core (lli_push p bd a) = core a.
Proof. unfold lli_push. by apply core_set. Qed.
Lemma core_fcoe p mac bd a : core (fcoe_option p mac bd a) = core a.
Proof.
  assert (core (flag_off IXGBE_FLAG_FCOE_CAPABLE a) = core a) as H by (by apply (core_set _ false)).
  unfold fcoe_option. destruct mac; try done; destruct (truthy _); try done; (etrans; [by apply (core_set _ true)|done]).
Qed.

Section Sound.
Context (p : params) (mac : mac_type) (cpus bd : Z).
Hypotheses (Hmac : mac = ixgbe_mac_82598EB \/ mac = ixgbe_mac_82599EB \/ mac = ixgbe_mac_X540) (Hcpus : 1 <= cpus < 2 ^ 16).

Definition mq_ok (a : adapter) : Prop := aflag IXGBE_FLAG_MSIX_CAPABLE a = false -> aflag IXGBE_FLAG_MQ_CAPABLE a = false.
Lemma multiple_queues_ok a : mq_ok (multiple_queues p bd a).
Proof.
  unfold multiple_queues. cbv zeta. set (a1 := flag_set _ _ a). unfold mq_ok. destruct (aflag IXGBE_FLAG_MQ_CAPABLE a1) eqn:E1; [|cbn [andb]; by rewrite E1].
  destruct (aflag IXGBE_FLAG_MSIX_CAPABLE a1) eqn:E2; cbn [andb negb]; [by rewrite E2|]. by rewrite aflag_off_self.
Qed.
Lemma dca_core a : core (direct_cache_access p bd a) = core a.
Proof.
  unfold direct_cache_access. cbv zeta. assert (forall a, core (flag_off IXGBE_FLAG_DCA_CAPABLE a) = core a /\ core (flag_off IXGBE_FLAG_DCA_ENABLED a) = core a /\
    core (flag_on IXGBE_FLAG_DCA_ENABLED_DATA a) = core a) as H.
  { intros b. split_and!; [by apply (core_set _ false)|by apply (core_set _ false)|by apply (core_set _ true)]. }
  destruct (given bd (DCA p)); repeat (match goal with |- context [if ?b then _ else _] => destruct b end); rewrite ?(proj2 (proj2 (H _))), ?(proj1 (proj2 (H _))), ?(proj1 (H _)); done.
Qed.
Lemma rss_ok a : bd <= IXGBE_MAX_NIC -> mq_ok a ->
  exists a', receive_side_scaling p mac cpus bd a = Some a' /\ mq_ok a' /\ 1 <= rss_limit (ad a') <= IXGBE_MAX_RSS_INDICES /\
    (aflag IXGBE_FLAG_MQ_CAPABLE a' = false -> rss_limit (ad a') = 1).
Proof.
  intros Hbd HM. unfold receive_side_scaling. replace (bd >? IXGBE_MAX_NIC) with false by lia.
  assert (ixgbe_max_rss_indices mac = 16) as -> by (by destruct Hmac as [->|[->| ->]]).
  set (r := if given bd (RSS p) then _ else _).
  assert (1 <= r.1 <= 16 /\ rss_limit (ad r.2) = r.1 /\ flags (ad r.2) = flags (ad a)) as (R1 & R2 & R3).
  { unfold r. destruct (given bd (RSS p)).
    - pose proof (validate_bounds (value bd (RSS p)) 0 16 0 0 16 ltac:(lia) ltac:(lia) ltac:(lia) ltac:(lia) ltac:(lia) ltac:(lia)) as B. fold (validated bd (RSS p) (Opt (range_option 0 16) 0)) in B.
      set (v := validated _ _ _) in *. destruct (truthy v) eqn:Ht; cbn [negb]; cbv iota beta; cbn [fst snd].
      + unfold truthy in Ht. split_and!; [lia|lia|apply u16_small; lia|done].
      + split_and!; [lia|lia|apply u16_small; lia|done].
    - cbv zeta. cbn [fst snd]. split_and!; [lia|lia|apply u16_small; lia|done]. }
  clearbody r. destruct r as [rss a1]. cbn [fst snd] in *. assert (forall f, aflag f a1 = aflag f a) as HF by (intros f; unfold aflag; by rewrite R3).
  eexists. split; [reflexivity|]. destruct ((rss >? 1) && negb (aflag IXGBE_FLAG_MQ_CAPABLE a1)) eqn:E; unfold IXGBE_MAX_RSS_INDICES.
  - change (mq_ok (set_rss_lim 1 a1)) with (mq_ok a1). unfold mq_ok in *. rewrite !HF. cbn. split_and!; try done.
  - unfold mq_ok in *. rewrite !HF, R2. split_and!; try done; try lia. intros Hf. rewrite HF, Hf in E. cbn in E. lia.
Qed.
Lemma vmdq_ok a : mq_ok a -> let a' := vmdq_option p mac bd a in
  mq_ok a' /\ 0 <= vmdq_limit (ad a') <= IXGBE_MAX_VMDQ_INDICES /\ rss_limit (ad a') = rss_limit (ad a) /\ aflag IXGBE_FLAG_MQ_CAPABLE a' = aflag IXGBE_FLAG_MQ_CAPABLE a /\
  (aflag IXGBE_FLAG_MQ_CAPABLE a' = false -> aflag IXGBE_FLAG_VMDQ_ENABLED a' = false) /\ (aflag IXGBE_FLAG_VMDQ_ENABLED a' = true -> 2 <= vmdq_limit (ad a')).
Proof.
  intros HM. unfold vmdq_option, IXGBE_MAX_VMDQ_INDICES in *. set (max := match mac with ixgbe_mac_82598EB => 16 | _ => 64 end). assert (16 <= max <= 64) as Hmax by (unfold max; by destruct mac).
  clearbody max. cbv zeta. pose proof (choose_bounds bd (VMDQ p) OPTION_DISABLED max OPTION_DISABLED 0 64) as B. unfold OPTION_DISABLED in *.
  set (v := choose _ _ _) in *. specialize (B ltac:(lia) ltac:(lia) ltac:(lia) ltac:(lia) ltac:(lia) ltac:(lia)). rewrite (u16_small v) by lia.
  set (g := given bd (VMDQ p) && (v >? 1)). set (a1 := set_vmdq_limit v (flag_set IXGBE_FLAG_VMDQ_ENABLED g a)).
  assert (aflag IXGBE_FLAG_VMDQ_ENABLED a1 = g) as F1 by (by apply aflag_set_self).
  assert (aflag IXGBE_FLAG_MQ_CAPABLE a1 = aflag IXGBE_FLAG_MQ_CAPABLE a) as F2 by (by apply aflag_set).
  assert (aflag IXGBE_FLAG_MSIX_CAPABLE a1 = aflag IXGBE_FLAG_MSIX_CAPABLE a) as F3 by (by apply aflag_set).
  assert (rss_limit (ad a1) = rss_limit (ad a)) as F4 by (unfold a1, flag_set; by destruct g). assert (vmdq_limit (ad a1) = v) as F5 by done.
  destruct (aflag IXGBE_FLAG_VMDQ_ENABLED a1 && negb (aflag IXGBE_FLAG_MQ_CAPABLE a1)) eqn:E.
  - set (a2 := set_vmdq_limit 0 _). assert (forall f, Z.land IXGBE_FLAG_VMDQ_ENABLED f = 0 -> aflag f a2 = aflag f a1) as F6 by (intros f Hf; by apply aflag_off).
    assert (aflag IXGBE_FLAG_VMDQ_ENABLED a2 = false) as F7 by (apply aflag_off_self). unfold mq_ok. rewrite !F6, F7, F2, F3 by done.
    split_and!; try done; cbn; try lia.
  - rewrite F1, F2 in E. unfold mq_ok. rewrite F1, F2, F3, F4, F5. split_and!; try done; try lia; [intros Hf; rewrite Hf in E; by destruct g|unfold g; lia].
Qed.
Lemma sriov_ok a : let a' := sriov_option p bd a in
  core a' = (rss_limit (ad a), vmdq_limit (ad a), num_vfs (ad a'), aflag IXGBE_FLAG_MSIX_CAPABLE a, aflag IXGBE_FLAG_MQ_CAPABLE a, aflag IXGBE_FLAG_VMDQ_ENABLED a) /\
  0 <= num_vfs (ad a') <= MAX_SRIOV_VFS /\ (aflag IXGBE_FLAG_MQ_CAPABLE a' = false -> num_vfs (ad a') = 0).
Proof.
  unfold sriov_option. cbv zeta. set (v := if given bd (max_vfs p) then _ else _). assert (0 <= v <= 63) as Hv.
  { unfold v. destruct (given bd (max_vfs p)); [|cbn; unfold OPTION_DISABLED; lia]. destruct (truthy _); [lia|].
    apply validate_bounds; unfold OPTION_DISABLED, MAX_SRIOV_VFS; lia. }
  clearbody v. set (a1 := flag_set IXGBE_FLAG_SRIOV_ENABLED (truthy v) (set_num_vfs v a)).
  assert (forall f, Z.land IXGBE_FLAG_SRIOV_ENABLED f = 0 -> aflag f a1 = aflag f a) as F1 by (intros f Hf; etrans; [by apply aflag_set|done]).
  assert (aflag IXGBE_FLAG_SRIOV_ENABLED a1 = truthy v) as F2 by (by apply aflag_set_self).
  assert (rss_limit (ad a1) = rss_limit (ad a) /\ vmdq_limit (ad a1) = vmdq_limit (ad a) /\ num_vfs (ad a1) = v) as (F3 & F4 & F5) by (unfold a1, flag_set; by destruct (truthy v)).
  unfold MAX_SRIOV_VFS. destruct (_ && _) eqn:E.
  - set (a2 := set_num_vfs 0 _). assert (forall f, Z.land IXGBE_FLAG_SRIOV_ENABLED f = 0 -> aflag f a2 = aflag f a1) as F6 by (intros f Hf; by apply aflag_off).
    unfold core. rewrite !F6, !F1 by done. change (rss_limit (ad a2)) with (rss_limit (ad a1)). change (vmdq_limit (ad a2)) with (vmdq_limit (ad a1)). rewrite F3, F4. split_and!; done.
  - unfold core. rewrite !F1, F3, F4, F5 by done. split_and!; try done; try lia. intros Hf. rewrite F2, (F1 IXGBE_FLAG_MQ_CAPABLE), Hf, orb_true_r, andb_true_r in E by done.
    unfold truthy in E. lia.
Qed.
End Sound.

(** Whatever parameters are given, the validated settings are in range and consistent: no multiple queues without MSI-X; without multiple
    queues one RSS queue, no VMDq and no VFs. *)
Theorem check_options_sound p mac cpus bd o :
  mac = ixgbe_mac_82598EB \/ mac = ixgbe_mac_82599EB \/ mac = ixgbe_mac_X540 -> 1 <= cpus < 2 ^ 16 -> 0 <= bd <= IXGBE_MAX_NIC ->
  exists o', ixgbe_check_options p mac cpus bd o = Some o' /\ consistent (oa o') /\
    0 <= lli_port o' <= 65535 /\ 0 <= lli_size o' <= 1500 /\ 0 <= lli_etype o' <= MAX_LLIETYPE /\ 0 <= lli_vlan_pri o' <= 7 /\
    0 <= fdir_pballoc o' <= 3 /\ 0 <= atr_sample_rate (opts (oa o')) <= 255.
Proof.
  intros Hmac Hc Hbd. unfold ixgbe_check_options. set (a1 := multiple_queues p bd (int_mode p bd (oa o))). set (a2 := direct_cache_access p bd a1).
  assert (mq_ok a2) as H2. { pose proof (dca_core p bd a1) as E. fold a2 in E. unfold core in E. injection E as _ _ _ E1 E2 _. unfold mq_ok. rewrite E1, E2. apply multiple_queues_ok. }
  destruct (rss_ok p mac cpus bd Hmac Hc a2 ltac:(lia) H2) as (a3 & -> & H3 & R3 & M3). cbn [mbind option_bind]. cbv zeta.
  destruct (vmdq_ok p mac bd Hmac a3 H3) as (H4 & V4 & R4 & M4 & Q4 & P4). set (a4 := vmdq_option p mac bd a3) in *.
  destruct (sriov_ok p bd a4) as (C5 & V5 & M5). set (a5 := sriov_option p bd a4) in *.
  assert (consistent a5) as H5.
  { unfold core in C5. injection C5 as E1 E2 E3 E4 E5. unfold mq_ok in H4. split; rewrite ?E1, ?E2, ?E3, ?E4, ?E5, ?R4 in *; try done.
    intros Hf. split_and!; [apply M3; congruence|auto|auto]. }
  eexists. split; [reflexivity|]. split.
  - eapply core_consistent; [|exact H5]. cbn [oa set_allow_sfp set_lro set_oa set_fdir_pballoc set_lli_vlan_pri set_lli_etype set_lli_size set_lli_port].
    rewrite core_fcoe. change (core (set_atr ?v ?b)) with (core b). rewrite core_lli_push. change (core (set_itr ?v ?b)) with (core b). by rewrite core_loopback.
  - cbn [lli_port lli_size lli_etype lli_vlan_pri fdir_pballoc oa set_allow_sfp set_lro set_oa set_fdir_pballoc set_lli_vlan_pri set_lli_etype set_lli_size set_lli_port].
    assert (0 <= pballoc p mac bd <= 3) as HP by (unfold pballoc; repeat case_match; done).
    assert (0 <= sample_rate p mac bd <= 255) as HS by (unfold sample_rate; case_bool_decide; [done|by apply lli_bounds]).
    assert (atr_sample_rate (opts (fcoe_option p mac bd (set_atr (sample_rate p mac bd) (lli_push p bd (set_itr (throttle_rate p bd) (l2_loopback p bd a5)))))) = sample_rate p mac bd) as ->
      by (unfold fcoe_option; destruct mac; try done; by destruct (truthy _)).
    split_and!; try (apply lli_bounds; done); try (by apply HP); by apply HS.
Qed.

(** ** Parameters and queues together *)

Definition fresh (cpus : Z) : options := Options (fresh_adapter 0 cpus) 0 0 0 0 0 false false.

(** What the defaults are. *)
Record default_settings (cpus : Z) (a : adapter) : Prop := {
  ds_rss : rss_limit (ad a) = Z.min 16 cpus;
  ds_fdir : fdir_limit a = Z.min 63 cpus;
  ds_rest : tcs a = 0 /\ vmdq_offset (ad a) = 0 /\ f_offset (fcoe a) = 0;
  ds_flags : aflag IXGBE_FLAG_VMDQ_ENABLED a = false /\ aflag IXGBE_FLAG_FCOE_ENABLED a = false /\ aflag IXGBE_FLAG_MSIX_CAPABLE a = true;
  ds_opts : opts a = Settings 1 1 256 256 512 512 20 3 63 64 64 ixgbe_fc_none;
  ds_arrays : tx_ring a = repeat None 71 /\ rx_ring a = repeat None 71 /\ q_vector a = repeat None 64
}.
Lemma default_rss cpus a : 1 <= cpus < 2 ^ 16 -> aflag IXGBE_FLAG_MQ_CAPABLE a = true ->
  receive_side_scaling params_unset ixgbe_mac_82599EB cpus 0 a = Some (set_rss_lim (Z.min 16 cpus) a).
Proof.
  intros Hc Ha. unfold receive_side_scaling. change (0 >? IXGBE_MAX_NIC) with false. change (given 0 (RSS params_unset)) with false. cbv iota zeta.
  change (ixgbe_max_rss_indices ixgbe_mac_82599EB) with 16. change (aflag IXGBE_FLAG_MQ_CAPABLE (set_rss_lim ?v a)) with (aflag IXGBE_FLAG_MQ_CAPABLE a).
  by rewrite Ha, andb_false_r, (u16_small (Z.min 16 cpus)) by lia.
Qed.
Lemma default_run cpus : 1 <= cpus < 2 ^ 16 -> exists o, ixgbe_check_options params_unset ixgbe_mac_82599EB cpus 0 (fresh cpus) = Some o /\ default_settings cpus (oa o).
Proof.
  intros Hc. unfold ixgbe_check_options. rewrite default_rss by (done || (vm_compute; reflexivity)). cbn [mbind option_bind].
  eexists. split; [reflexivity|]. split; [vm_compute; reflexivity..| | | |]; repeat split; vm_compute; reflexivity.
Qed.
Lemma default_queues cpus a : 1 <= cpus -> default_settings cpus a ->
  rxq (ixgbe_set_num_queues ixgbe_mac_82599EB cpus a) = (if cpus =? 1 then 1 else Z.min IXGBE_MAX_FDIR_INDICES cpus).
Proof.
  intros Hc [A2 A4 (A1 & _) (F1 & F2 & _) O1 _]. unfold ixgbe_set_num_queues, ixgbe_set_dcb_vmdq_queues, ixgbe_set_dcb_queues, ixgbe_set_vmdq_queues. cbv zeta.
  change (tcs (set_cnt ?c a)) with (tcs a). change (aflag ?f (set_cnt ?c a)) with (aflag f a). rewrite A1, F1. cbn [Z.leb Z.compare negb]. cbv iota.
  unfold ixgbe_set_rss_queues. cbv zeta. set (a2 := flag_off _ _). change (rss_limit (ad (set_cnt ?c a))) with (rss_limit (ad a)). change (opts a2) with (opts a).
  assert (aflag IXGBE_FLAG_FCOE_ENABLED a2 = false) as F3 by (etrans; [by apply aflag_off|exact F2]). rewrite A2, O1. cbn [atr_sample_rate]. change (truthy 20) with true. rewrite andb_true_r.
  destruct (Z.eqb_spec cpus 1) as [->|Hne].
  - change (Z.min 16 1 >? 1) with false. cbv iota beta. by rewrite F3.
  - replace (Z.min 16 cpus >? 1) with true by lia. cbv iota beta. change (fdir_limit (set_fdir ?l ?i a2)) with l. change (fdir_limit a2) with (fdir_limit a). rewrite A4.
    set (a3 := set_fdir _ _ a2). assert (aflag IXGBE_FLAG_FCOE_ENABLED (if negb (aflag IXGBE_FLAG_FDIR_PERFECT_CAPABLE a3) then flag_on IXGBE_FLAG_FDIR_HASH_CAPABLE a3 else a3) = false) as ->; [|done].
    destruct (negb _); [etrans; [by apply aflag_on|]|]; exact F3.
Qed.
Lemma num_queues_msix cpus a : default_settings cpus a ->
  aflag IXGBE_FLAG_MSIX_CAPABLE (ixgbe_set_num_queues ixgbe_mac_82599EB cpus a) = true /\
  max_msix_vectors (opts (ixgbe_set_num_queues ixgbe_mac_82599EB cpus a)) = 64.
Proof.
  intros [_ _ (A1 & _) (F1 & _ & F3) O1 _]. unfold ixgbe_set_num_queues, ixgbe_set_dcb_vmdq_queues, ixgbe_set_dcb_queues, ixgbe_set_vmdq_queues. cbv zeta.
  change (tcs (set_cnt ?c a)) with (tcs a). change (aflag ?f (set_cnt ?c a)) with (aflag f a). rewrite A1, F1. cbn [Z.leb Z.compare negb]. cbv iota.
  unfold ixgbe_set_rss_queues. cbv zeta. set (a2 := flag_off _ _).
  assert (aflag IXGBE_FLAG_MSIX_CAPABLE a2 = true /\ opts a2 = opts a) as [G1 G2] by (split; [etrans; [by apply aflag_off|exact F3]|done]). clearbody a2.
  rewrite <- G2 in O1. clear -G1 O1.
  repeat match goal with |- context [if ?b then _ else _] => destruct b end; cbn [fst snd]; rewrite ?O1; split; try done;
    repeat first [progress change (aflag ?f (set_cnt ?c ?x)) with (aflag f x)|progress change (aflag ?f (set_fcoe ?c ?d ?x)) with (aflag f x)|rewrite aflag_on by done|rewrite aflag_off by done];
    first [exact G1|exact (f_equal max_msix_vectors O1)].
Qed.
Lemma default_config cpus a : 1 <= cpus < 2 ^ 16 -> default_settings cpus a -> config_ok ixgbe_mac_82599EB cpus a /\ arrays_ok a.
Proof.
  intros Hc [A2 A4 (A1 & A3 & A5) (F1 & F2 & _) O1 (R1 & R2 & R3)]. split.
  - split; rewrite ?A1, ?A2, ?A3, ?A4, ?A5, ?F1, ?F2, ?O1; try done; try (cbn; lia); [auto|unfold IXGBE_MAX_FDIR_INDICES; lia].
  - unfold arrays_ok, no_rings, no_entry. rewrite R1, R2, R3. split_and!; [done..|]. assert (forall A n i (x : A), repeat None n !! i <> Some (Some x)) as Hno.
    { intros A n i x Hx. apply list_elem_of_lookup_2, list_elem_of_In, repeat_spec in Hx. done. }
    intros i Hi. split_and!; intros x; apply Hno.
Qed.

(** With no parameter given, on an 82599 with any number of CPUs, every ring the driver sets up is on its vector and has a hardware queue of
    its own; when the kernel grants the vectors, there is one ring per CPU, up to 63. *)
Theorem default_scheme k cpus h : 1 <= cpus < 2 ^ 16 -> hw_mac h = ixgbe_mac_82599EB -> num_online_cpus k = cpus ->
  (forall n, 0 < pci_enable_msix k n -> pci_enable_msix k n < n) -> (forall v, vector_alloc k v = true) ->
  exists o a, ixgbe_check_options params_unset ixgbe_mac_82599EB cpus 0 (fresh cpus) = Some o /\ (ixgbe_init_interrupt_scheme k (oa o) h).1 = Some (0, a) /\
    1 <= num_q_vectors a /\ ring_ok (num_q_vectors a) (rxq a) (rx_ring a) /\ ring_ok (num_q_vectors a) (txq a) (tx_ring a) /\
    (entries_alloc k = true -> (forall n, pci_enable_msix k n = 0) -> rxq a = Z.min 63 cpus).
Proof.
  intros Hc Hm Hk Hmsix Hal. destruct (default_run cpus Hc) as (o & E & HD). destruct (default_config _ _ Hc HD) as [HC HA]. pose proof (ds_opts _ _ HD) as HM. exists o.
  pose proof (default_queues _ _ (proj1 Hc) HD) as HQ. pose proof (num_queues_msix cpus _ HD) as (HX & HY).
  destruct (init_scheme_run k (oa o) h) as (a & HI & HV & _ & R1 & R2 & HG & _); rewrite ?Hm, ?Hk, ?HM; try done.
  { rewrite HQ. unfold MAX_RX_QUEUES, IXGBE_MAX_FDIR_INDICES, IXGBE_MAX_FCOE_INDICES. destruct (cpus =? 1); lia. }
  exists a. split_and!; try done. intros H1 H2. rewrite Hm, Hk, HQ in HG. rewrite HG by (unfold msix_granted; rewrite HY; split_and!; done).
  unfold IXGBE_MAX_FDIR_INDICES. destruct (Z.eqb_spec cpus 1); lia.
Qed.

(** The rings without a valid access: 64 pools, which the parameter allows, need more rings than the adapter has room for. *)
Definition one_given (v : Z) : param := Param 1 (v :: repeat OPTION_UNSET 32).
Definition vmdq_params (n : Z) : params :=
  Params param_unset param_unset param_unset param_unset param_unset (one_given n) param_unset param_unset param_unset param_unset
         param_unset param_unset param_unset param_unset param_unset param_unset param_unset param_unset param_unset.
Definition scheme_of (p : params) (cpus : Z) : option (Z * adapter) :=
  o ← ixgbe_check_options p ixgbe_mac_82599EB cpus 0 (fresh cpus); (ixgbe_init_interrupt_scheme (eager_kernel cpus) (oa o) hw_82599).1.
(** VMDQ=16 works, with 64 rings; VMDQ=36 and VMDQ=64 pass the validation, but setting up their rings writes past the end of [tx_ring]. *)
Theorem vmdq_overflow : (exists a, scheme_of (vmdq_params 16) 8 = Some (0, a) /\ rxq a = 64) /\ scheme_of (vmdq_params 36) 8 = None /\ scheme_of (vmdq_params 64) 8 = None.
Proof. split; [eexists; split; vm_compute; reflexivity|split; vm_compute; reflexivity]. Qed.

(** The parameters of these theorems at concrete values: four VFs asked for with a queue count out of range, and eight CPUs. *)
Definition odd_params : params :=
  Params param_unset param_unset param_unset param_unset (one_given 200) (one_given 64) (one_given 4) (one_given 2) (one_given 7) param_unset
         param_unset param_unset param_unset param_unset param_unset param_unset param_unset param_unset param_unset.
Lemma check_options_sound_witness : exists o', ixgbe_check_options odd_params ixgbe_mac_82599EB 8 0 (fresh 8) = Some o' /\ consistent (oa o') /\ rss_limit (ad (oa o')) <= 16.
Proof.
  destruct (check_options_sound odd_params ixgbe_mac_82599EB 8 0 (fresh 8)) as (o' & E & H & _); [by right; left|lia|unfold IXGBE_MAX_NIC; lia|].
  exists o'. split_and!; [exact E|exact H|]. apply H.
Defined.
Lemma default_scheme_witness : exists o a, ixgbe_check_options params_unset ixgbe_mac_82599EB 8 0 (fresh 8) = Some o /\
  (ixgbe_init_interrupt_scheme (eager_kernel 8) (oa o) hw_82599).1 = Some (0, a) /\ rxq a = 8.
Proof.
  destruct (default_scheme (eager_kernel 8) 8 hw_82599) as (o & a & E & F & _ & _ & _ & G); [lia|reflexivity|reflexivity|cbn; lia|reflexivity|].
  exists o, a. split_and!; [exact E|exact F|apply G; reflexivity].
Defined.
