(* ===== verification/Irq.v ===== *)
(** * Interrupts of the network driver ([ixgbe_main.c])

    Which vector an interrupt cause is sent to (the IVAR table), how often a vector may interrupt (EITR and its adaptation to the traffic), masking, and the
    registration of the handlers with the kernel. The properties are in [IrqSpec], [IrqRate] and [IrqHandlers]; [IrqEvents] has the handlers of the causes that are not queues.

    [hw->mac.type] does not change after the probe and is the argument [mac], as in [Queues]. [None] is an access through a NULL pointer. The configuration has
    [HAVE_IRQ_AFFINITY_HINT], [HAVE_PTP_1588_CLOCK] and [HAVE_TX_MQ]. *)
From S2P Require Import Prelude Hw Sriov Queues.

(** ** Constants *)
Definition IXGBE_EICR : Z := 0x00800.
Definition IXGBE_EICS : Z := 0x00808.
Definition IXGBE_EIMS : Z := 0x00880.
Definition IXGBE_EIMC : Z := 0x00888.
Definition IXGBE_EIAC : Z := 0x00810.
Definition IXGBE_EICS_EX (i : Z) : Z := 0x00A90 + i * 4.
Definition IXGBE_EIMS_EX (i : Z) : Z := 0x00AA0 + i * 4.
Definition IXGBE_EIMC_EX (i : Z) : Z := 0x00AB0 + i * 4.
Definition IXGBE_MAX_EITR : Z := 0x00000FF8.
Definition IXGBE_EITR (i : Z) : Z := if i <=? 23 then 0x00820 + i * 4 else 0x012300 + (i - 24) * 4.
Definition IXGBE_EITR_CNT_WDIS : Z := 0x80000000.
Definition IXGBE_IVAR (i : Z) : Z := 0x00900 + i * 4.
Definition IXGBE_IVAR_MISC : Z := 0x00A00.
Definition IXGBE_EITRSEL : Z := 0x00894.
Definition IXGBE_EICR_RTX_QUEUE : Z := 0x0000FFFF.
Definition IXGBE_EICR_FLOW_DIR : Z := 0x00010000.
Definition IXGBE_EICR_MAILBOX : Z := 0x00080000.
Definition IXGBE_EICR_LSC : Z := 0x00100000.
Definition IXGBE_EICR_TS : Z := 0x00800000.
Definition IXGBE_EICR_TIMESYNC : Z := 0x01000000.
Definition IXGBE_EICR_GPI_SDP0 : Z := 0x01000000.
Definition IXGBE_EICR_GPI_SDP1 : Z := 0x02000000.
Definition IXGBE_EICR_GPI_SDP2 : Z := 0x04000000.
Definition IXGBE_EICR_ECC : Z := 0x10000000.
Definition IXGBE_EICR_TCP_TIMER : Z := 0x40000000.
Definition IXGBE_EICR_OTHER : Z := 0x80000000.
Definition IXGBE_EIMS_RTX_QUEUE : Z := IXGBE_EICR_RTX_QUEUE.
Definition IXGBE_EIMS_FLOW_DIR : Z := IXGBE_EICR_FLOW_DIR.
Definition IXGBE_EIMS_MAILBOX : Z := IXGBE_EICR_MAILBOX.
Definition IXGBE_EIMS_LSC : Z := IXGBE_EICR_LSC.
Definition IXGBE_EIMS_TS : Z := IXGBE_EICR_TS.
Definition IXGBE_EIMS_TIMESYNC : Z := IXGBE_EICR_TIMESYNC.
Definition IXGBE_EIMS_GPI_SDP0 : Z := IXGBE_EICR_GPI_SDP0.
Definition IXGBE_EIMS_GPI_SDP1 : Z := IXGBE_EICR_GPI_SDP1.
Definition IXGBE_EIMS_GPI_SDP2 : Z := IXGBE_EICR_GPI_SDP2.
Definition IXGBE_EIMS_ECC : Z := IXGBE_EICR_ECC.
Definition IXGBE_EIMS_TCP_TIMER : Z := IXGBE_EICR_TCP_TIMER.
Definition IXGBE_EIMS_OTHER : Z := IXGBE_EICR_OTHER.
Definition IXGBE_EIMS_ENABLE_MASK : Z := Z.lor (Z.lor (Z.lor IXGBE_EIMS_RTX_QUEUE IXGBE_EIMS_LSC) IXGBE_EIMS_TCP_TIMER) IXGBE_EIMS_OTHER.
Definition IXGBE_IVAR_OTHER_CAUSES_INDEX : Z := 97.
Definition IXGBE_IVAR_ALLOC_VAL : Z := 0x80.
Definition IXGBE_100K_ITR : Z := 40.
Definition IXGBE_8K_ITR : Z := 500.
Definition IXGBE_FLAG_FAN_FAIL_CAPABLE : Z := Z.shiftl 1 12.
Definition IXGBE_FLAG_NEED_LINK_UPDATE : Z := Z.shiftl 1 13.
Definition IXGBE_FLAG2_TEMP_SENSOR_CAPABLE : Z := Z.shiftl 1 3.
Definition IXGBE_FLAG2_FDIR_REQUIRES_REINIT : Z := Z.shiftl 1 8.

(** ** Causes and vectors *)

(** [direction] is 0 for receive, 1 for transmit and -1 for the other causes; [queue] and [msix_vector] are 8 bits wide. *)
Definition ixgbe_set_ivar (mac : mac_type) (direction queue msix_vector : Z) : M () :=
  match mac with
  | ixgbe_mac_82598EB =>
      let msix_vector := Z.lor msix_vector IXGBE_IVAR_ALLOC_VAL in
      let direction := if direction =? -1 then 0 else direction in
      let index := Z.land (Z.shiftr (direction * 64 + queue) 2) 0x1F in
      ivar ← IXGBE_READ_REG (IXGBE_IVAR index);
      let ivar := Z.ldiff ivar (Z.shiftl 0xFF (8 * Z.land queue 0x3)) in
      let ivar := Z.lor ivar (Z.shiftl msix_vector (8 * Z.land queue 0x3)) in
      IXGBE_WRITE_REG (IXGBE_IVAR index) ivar
  | ixgbe_mac_82599EB | ixgbe_mac_X540 =>
      if direction =? -1 then
        let msix_vector := Z.lor msix_vector IXGBE_IVAR_ALLOC_VAL in
        let index := Z.land queue 1 * 8 in
        ivar ← IXGBE_READ_REG IXGBE_IVAR_MISC;
        let ivar := Z.ldiff ivar (Z.shiftl 0xFF index) in
        let ivar := Z.lor ivar (Z.shiftl msix_vector index) in
        IXGBE_WRITE_REG IXGBE_IVAR_MISC ivar
      else
        let msix_vector := Z.lor msix_vector IXGBE_IVAR_ALLOC_VAL in
        let index := 16 * Z.land queue 1 + 8 * direction in
        ivar ← IXGBE_READ_REG (IXGBE_IVAR (Z.shiftr queue 1));
        let ivar := Z.ldiff ivar (Z.shiftl 0xFF index) in
        let ivar := Z.lor ivar (Z.shiftl msix_vector index) in
        IXGBE_WRITE_REG (IXGBE_IVAR (Z.shiftr queue 1)) ivar
  | ixgbe_mac_other => mret ()
  end.

(** The word that [ixgbe_write_eitr] computes from [q_vector->itr]. *)
Definition eitr_word (mac : mac_type) (itr : Z) : Z :=
  let itr_reg := Z.land itr IXGBE_MAX_EITR in
  match mac with
  | ixgbe_mac_82598EB => Z.lor itr_reg (Z.shiftl itr_reg 16)
  | ixgbe_mac_82599EB | ixgbe_mac_X540 => Z.lor itr_reg IXGBE_EITR_CNT_WDIS
  | ixgbe_mac_other => itr_reg
  end.
Definition ixgbe_write_eitr (mac : mac_type) (v_idx itr : Z) : M () := IXGBE_WRITE_REG (IXGBE_EITR v_idx) (eitr_word mac itr).

(** A loop whose body may follow a NULL pointer. *)
Fixpoint try_each (l : list Z) (body : Z -> M (option ())) : M (option ()) :=
  match l with [] => mret (Some ()) | i :: l => r ← body i; match r with Some _ => try_each l body | None => mret None end end.
(** The body of [ixgbe_for_each_ring]: the ring with index [i], whose vector is [v_idx]. *)
Definition route_ring (mac : mac_type) (rings : list (option ixgbe_ring)) (direction v_idx i : Z) : M (option ()) :=
  match mjoin (rings !! Z.to_nat i) with
  | Some r => _ ← ixgbe_set_ivar mac direction (reg_idx r) (u8 v_idx); mret (Some ())
  | None => mret None
  end.
Definition configure_vector (mac : mac_type) (a : adapter) (v : Z) : M (option ()) :=
  match mjoin (q_vector a !! Z.to_nat v) with
  | None => mret None
  | Some qv =>
      r ← try_each (rx_list qv) (route_ring mac (rx_ring a) 0 v);
      match r with
      | None => mret None
      | Some _ =>
          r ← try_each (tx_list qv) (route_ring mac (tx_ring a) 1 v);
          match r with None => mret None | Some _ => _ ← ixgbe_write_eitr mac (v_idx qv) (itr qv); mret (Some ()) end
      end
  end.
Definition ixgbe_configure_msix (mac : mac_type) (a : adapter) : M (option ()) :=
  _ ← (if num_vfs (ad a) >=? 32 then IXGBE_WRITE_REG IXGBE_EITRSEL (u32 (Z.shiftl 1 (num_vfs (ad a) - 32) - 1)) else mret ());
  r ← try_each (seqZ 0 (num_q_vectors a)) (configure_vector mac a);
  match r with
  | None => mret None
  | Some _ =>
      let v_idx := num_q_vectors a in
      _ ← match mac with
          | ixgbe_mac_82598EB => ixgbe_set_ivar mac (-1) IXGBE_IVAR_OTHER_CAUSES_INDEX (u8 v_idx)
          | ixgbe_mac_82599EB | ixgbe_mac_X540 => ixgbe_set_ivar mac (-1) 1 (u8 v_idx)
          | ixgbe_mac_other => mret ()
          end;
      _ ← IXGBE_WRITE_REG (IXGBE_EITR v_idx) 1950;
      let mask := Z.ldiff IXGBE_EIMS_ENABLE_MASK (Z.lor (Z.lor IXGBE_EIMS_OTHER IXGBE_EIMS_MAILBOX) IXGBE_EIMS_LSC) in
      _ ← IXGBE_WRITE_REG IXGBE_EIAC mask;
      mret (Some ())
  end.
Definition ixgbe_configure_msi_and_legacy (mac : mac_type) (a : adapter) : M (option ()) :=
  match mjoin (q_vector a !! O) with
  | None => mret None
  | Some qv =>
      _ ← ixgbe_write_eitr mac (v_idx qv) (itr qv);
      _ ← ixgbe_set_ivar mac 0 0 0;
      _ ← ixgbe_set_ivar mac 1 0 0;
      mret (Some ())
  end.

(** ** Masks *)
Definition ixgbe_irq_rearm_queues (mac : mac_type) (qmask : Z) : M () :=
  match mac with
  | ixgbe_mac_82598EB => IXGBE_WRITE_REG IXGBE_EICS (Z.land IXGBE_EIMS_RTX_QUEUE qmask)
  | ixgbe_mac_82599EB | ixgbe_mac_X540 =>
      _ ← IXGBE_WRITE_REG (IXGBE_EICS_EX 0) (Z.land qmask 0xFFFFFFFF);
      IXGBE_WRITE_REG (IXGBE_EICS_EX 1) (u32 (Z.shiftr qmask 32))
  | ixgbe_mac_other => mret ()
  end.
Definition ixgbe_irq_enable_queues (mac : mac_type) (qmask : Z) : M () :=
  match mac with
  | ixgbe_mac_82598EB => IXGBE_WRITE_REG IXGBE_EIMS (Z.land IXGBE_EIMS_RTX_QUEUE qmask)
  | ixgbe_mac_82599EB | ixgbe_mac_X540 =>
      let mask := Z.land qmask 0xFFFFFFFF in
      _ ← (if truthy mask then IXGBE_WRITE_REG (IXGBE_EIMS_EX 0) mask else mret ());
      let mask := u32 (Z.shiftr qmask 32) in
      if truthy mask then IXGBE_WRITE_REG (IXGBE_EIMS_EX 1) mask else mret ()
  | ixgbe_mac_other => mret ()
  end.
(** The causes that are not queues and are enabled, from the adapter's [flags] and [flags2]. *)
Definition irq_mask (mac : mac_type) (flags flags2 : Z) : Z :=
  let mask := Z.ldiff IXGBE_EIMS_ENABLE_MASK IXGBE_EIMS_RTX_QUEUE in
  let mask := if truthy (Z.land flags IXGBE_FLAG_NEED_LINK_UPDATE) then Z.ldiff mask IXGBE_EIMS_LSC else mask in
  let mask :=
    if truthy (Z.land flags2 IXGBE_FLAG2_TEMP_SENSOR_CAPABLE) then
      match mac with
      | ixgbe_mac_82599EB => Z.lor mask IXGBE_EIMS_GPI_SDP0
      | ixgbe_mac_X540 => Z.lor mask IXGBE_EIMS_TS
      | _ => mask
      end
    else mask in
  let mask := if truthy (Z.land flags IXGBE_FLAG_FAN_FAIL_CAPABLE) then Z.lor mask IXGBE_EIMS_GPI_SDP1 else mask in
  let x540 mask := Z.lor (Z.lor (Z.lor mask IXGBE_EIMS_ECC) IXGBE_EIMS_MAILBOX) IXGBE_EIMS_TIMESYNC in
  let mask :=
    match mac with
    | ixgbe_mac_82599EB => x540 (Z.lor (Z.lor mask IXGBE_EIMS_GPI_SDP1) IXGBE_EIMS_GPI_SDP2)
    | ixgbe_mac_X540 => x540 mask
    | _ => mask
    end in
  if truthy (Z.land flags IXGBE_FLAG_FDIR_HASH_CAPABLE) && negb (truthy (Z.land flags2 IXGBE_FLAG2_FDIR_REQUIRES_REINIT))
  then Z.lor mask IXGBE_EIMS_FLOW_DIR else mask.
Definition ixgbe_irq_enable (mac : mac_type) (flags flags2 : Z) (queues flush : bool) : M () :=
  _ ← IXGBE_WRITE_REG IXGBE_EIMS (irq_mask mac flags flags2);
  _ ← (if queues then ixgbe_irq_enable_queues mac (2 ^ 64 - 1) else mret ());
  if flush then IXGBE_WRITE_FLUSH else mret ().
(** The part of [ixgbe_irq_disable] that programs the adapter; it then waits with [synchronize_irq] for the handlers that are running. *)
Definition ixgbe_irq_disable (mac : mac_type) : M () :=
  _ ← match mac with
      | ixgbe_mac_82598EB => IXGBE_WRITE_REG IXGBE_EIMC (2 ^ 32 - 1)
      | ixgbe_mac_82599EB | ixgbe_mac_X540 =>
          _ ← IXGBE_WRITE_REG IXGBE_EIMC 0xFFFF0000;
          _ ← IXGBE_WRITE_REG (IXGBE_EIMC_EX 0) (2 ^ 32 - 1);
          IXGBE_WRITE_REG (IXGBE_EIMC_EX 1) (2 ^ 32 - 1)
      | ixgbe_mac_other => mret ()
      end;
  IXGBE_WRITE_FLUSH.

(** ** Moderation *)

(** [struct ixgbe_ring_container]: the work since the last interrupt and the class it belongs to. *)
Record ixgbe_ring_container := Container { total_bytes : Z; total_packets : Z; c_itr : Z }.
(** The part of [struct ixgbe_q_vector] that moderation uses. *)
Record moderation := Moderation { m_idx : Z; m_itr : Z; m_tx : ixgbe_ring_container; m_rx : ixgbe_ring_container }.
Definition set_m_itr v m := Moderation (m_idx m) v (m_tx m) (m_rx m).

Definition lowest_latency : Z := 0.
Definition low_latency : Z := 1.
Definition bulk_latency : Z := 2.

(** [bytes] and [packets] are [int]s, but the first is divided as an unsigned number and the second only compared with zero. *)
Definition ixgbe_update_itr (q_itr : Z) (c : ixgbe_ring_container) : ixgbe_ring_container :=
  if total_packets c =? 0 then c
  else
    let timepassed_us := Z.shiftr q_itr 2 in
    if timepassed_us =? 0 then c
    else
      let bytes_perint := total_bytes c / timepassed_us in
      let itr_setting := c_itr c in
      let itr_setting :=
        if itr_setting =? lowest_latency then if bytes_perint >? 10 then low_latency else itr_setting
        else if itr_setting =? low_latency then
          if bytes_perint >? 20 then bulk_latency else if bytes_perint <=? 10 then lowest_latency else itr_setting
        else if itr_setting =? bulk_latency then if bytes_perint <=? 20 then low_latency else itr_setting
        else itr_setting in
      Container 0 0 itr_setting.
(** The rate of a class; of another value the one in use. *)
Definition class_itr (current_itr old : Z) : Z :=
  if current_itr =? lowest_latency then IXGBE_100K_ITR
  else if current_itr =? low_latency then IXGBE_20K_ITR
  else if current_itr =? bulk_latency then IXGBE_8K_ITR
  else old.
(** The exponential smoothing, in 32 bits; [q_vector->itr] keeps 16 of them. *)
Definition smooth_itr (new_itr old : Z) : Z := u16 (u32 (u32 (10 * new_itr) * old) / u32 (u32 (9 * new_itr) + old)).
Definition ixgbe_set_itr (mac : mac_type) (m : moderation) : M moderation :=
  let tx := ixgbe_update_itr (m_itr m) (m_tx m) in
  let rx := ixgbe_update_itr (m_itr m) (m_rx m) in
  let m := Moderation (m_idx m) (m_itr m) tx rx in
  let new_itr := class_itr (Z.max (c_itr rx) (c_itr tx)) (m_itr m) in
  if negb (new_itr =? m_itr m) then
    let m := set_m_itr (smooth_itr new_itr (m_itr m)) m in
    _ ← ixgbe_write_eitr mac (m_idx m) (m_itr m);
    mret m
  else mret m.

(** ** Handlers *)

(** What the kernel keeps: the handlers by interrupt number, with the [dev_id] they were registered with (the number of a [q_vector] or the adapter), the
    numbers that have an affinity hint, and the calls of [free_irq] it complains about (nothing registered, or a hint left). *)
Inductive dev_id := Vector (v : Z) | TheAdapter.
#[export] Instance dev_id_eq : EqDecision dev_id.
Proof. solve_decision. Defined.
Record irq_table := Irqs { handlers : gmap Z dev_id; hints : gset Z; bad_frees : list Z }.
Definition no_irqs : irq_table := Irqs ∅ ∅ [].

Section Kernel.
(** [msix_entries[v].vector], the line of the device, and the results of [request_irq]. *)
Context (entry : Z -> Z) (pdev_irq : Z) (request : Z -> Z).

Definition request_irq (irq : Z) (dev : dev_id) (t : irq_table) : Z * irq_table :=
  let err := request irq in
  if truthy err then (err, t) else (0, Irqs (<[irq := dev]> (handlers t)) (hints t) (bad_frees t)).
Definition free_irq (irq : Z) (dev : dev_id) (t : irq_table) : irq_table :=
  if bool_decide (handlers t !! irq = Some dev /\ irq ∉ hints t) then Irqs (delete irq (handlers t)) (hints t) (bad_frees t)
  else Irqs (handlers t) (hints t) (bad_frees t ++ [irq]).
Definition irq_set_affinity_hint (irq : Z) (on : bool) (t : irq_table) : irq_table :=
  Irqs (handlers t) (if on then {[irq]} ∪ hints t else hints t ∖ {[irq]}) (bad_frees t).

(** A vector has rings. *)
Definition has_ring (l : list Z) : bool := negb (bool_decide (l = [])).
Definition vector_used (a : adapter) (v : Z) : option bool :=
  qv ← mjoin (q_vector a !! Z.to_nat v); Some (has_ring (tx_list qv) || has_ring (rx_list qv)).

(** The loop that registers the vectors: the error and the vector it stopped at. *)
Fixpoint request_loop (l : list Z) (a : adapter) (t : irq_table) : option (Z * Z * irq_table) :=
  match l with
  | [] => Some (0, num_q_vectors a, t)
  | v :: l =>
      used ← vector_used a v;
      if negb used then request_loop l a t
      else
        let '(err, t) := request_irq (entry v) (Vector v) t in
        if truthy err then Some (err, v, t)
        else request_loop l a (if aflag IXGBE_FLAG_FDIR_HASH_CAPABLE a then irq_set_affinity_hint (entry v) true t else t)
  end.
(** [while (vector) { vector--; ... }] *)
Fixpoint free_queue_irqs (vector : nat) (t : irq_table) : irq_table :=
  match vector with
  | O => t
  | S vector => let v := Z.of_nat vector in free_queue_irqs vector (free_irq (entry v) (Vector v) (irq_set_affinity_hint (entry v) false t))
  end.
Definition request_failed (err vector : Z) (a : adapter) (t : irq_table) : Z * adapter * irq_table :=
  (err, set_vectors (num_q_vectors a) false (flag_off IXGBE_FLAG_MSIX_ENABLED a), free_queue_irqs (Z.to_nat vector) t).
Definition ixgbe_request_msix_irqs (a : adapter) (t : irq_table) : option (Z * adapter * irq_table) :=
  r ← request_loop (seqZ 0 (num_q_vectors a)) a t;
  let '(err, vector, t) := r in
  if truthy err then Some (request_failed err vector a t)
  else
    let '(err, t) := request_irq (entry vector) TheAdapter t in
    if truthy err then Some (request_failed err vector a t) else Some (0, a, t).
Definition ixgbe_request_irq (a : adapter) (t : irq_table) : option (Z * adapter * irq_table) :=
  if aflag IXGBE_FLAG_MSIX_ENABLED a then ixgbe_request_msix_irqs a t
  else let '(err, t) := request_irq pdev_irq TheAdapter t in Some (err, a, t).

Fixpoint free_loop_irqs (l : list Z) (a : adapter) (t : irq_table) : option irq_table :=
  match l with
  | [] => Some t
  | v :: l =>
      used ← vector_used a v;
      if negb used then free_loop_irqs l a t
      else free_loop_irqs l a (free_irq (entry v) (Vector v) (irq_set_affinity_hint (entry v) false t))
  end.
Definition ixgbe_free_irq (a : adapter) (t : irq_table) : option irq_table :=
  if negb (aflag IXGBE_FLAG_MSIX_ENABLED a) then Some (free_irq pdev_irq TheAdapter t)
  else t ← free_loop_irqs (seqZ 0 (num_q_vectors a)) a t; Some (free_irq (entry (num_q_vectors a)) TheAdapter t).
End Kernel.
