(* ===== verification/IrqSpec.v ===== *)
(** * Causes and vectors

    The IVAR registers are one array of bytes, an entry per cause; [ixgbe_configure_msix] is shown to send every ring's cause to the vector that serves the
    ring, on the adapter that [Vectors] shows the interrupt scheme to leave behind. *)
From S2P Require Import Prelude Bits Hw RegFile Sriov Queues QueuesSpec Vectors Irq.

(** ** The table as an array of bytes *)

(** The entry of a queue, and the byte in it. *)
Definition ivar_entry (mac : mac_type) (direction queue : Z) : Z :=
  match mac with ixgbe_mac_82598EB => direction * 64 + queue | _ => 2 * queue + direction end.
Definition byte_of (x k : Z) : Z := Z.land (Z.shiftr x (8 * k)) 0xFF.
Definition ivar_byte (f : Z -> Z) (e : Z) : Z := byte_of (f (IXGBE_IVAR (e / 4))) (e mod 4).
(** The byte of the causes that are not queues. *)
Definition other_byte (mac : mac_type) (f : Z -> Z) : Z :=
  match mac with ixgbe_mac_82598EB => ivar_byte f IXGBE_IVAR_OTHER_CAUSES_INDEX | _ => byte_of (f IXGBE_IVAR_MISC) 1 end.
Definition ivar_regs (r : Z) : Prop := 0x900 <= r <= 0xA00.

Lemma byte_testbit x k i : 0 <= k -> 0 <= i -> Z.testbit (byte_of x k) i = Z.testbit x (i + 8 * k) && (i <? 8).
Proof.
  intros Hk Hi. unfold byte_of. change 0xFF with (Z.ones 8). rewrite Z.land_spec, Z.shiftr_spec by done.
  destruct (Z.ltb_spec i 8); [rewrite Z.ones_spec_low by lia|rewrite Z.ones_spec_high by lia]; done.
Qed.
(** Replacing byte [k]. *)
Definition set_byte (x k v : Z) : Z := Z.lor (Z.ldiff x (Z.shiftl 0xFF (8 * k))) (Z.shiftl v (8 * k)).
Lemma small_testbit v i : 0 <= v < 256 -> 8 <= i -> Z.testbit v i = false.
Proof. intros Hv Hi. destruct (decide (v = 0)) as [->|]; [apply Z.bits_0|]. apply Z.bits_above_log2; [lia|]. assert (Z.log2 v < 8); [apply Z.log2_lt_pow2; lia|lia]. Qed.
Lemma set_byte_spec x k v j : 0 <= k -> 0 <= j -> 0 <= v < 256 -> byte_of (set_byte x k v) j = if j =? k then v else byte_of x j.
Proof.
  intros Hk Hj Hv. apply Z.bits_inj'. intros i Hi. rewrite byte_testbit by done. unfold set_byte. change 0xFF with (Z.ones 8).
  rewrite Z.lor_spec, Z.ldiff_spec, !Z.shiftl_spec by lia. destruct (Z.ltb_spec i 8) as [Hl|Hl].
  - destruct (Z.eqb_spec j k) as [->|Hne].
    + replace (i + 8 * k - 8 * k) with i by lia. rewrite Z.ones_spec_low by lia. by rewrite andb_false_r, andb_true_r.
    + rewrite byte_testbit by done. rewrite (proj2 (Z.ltb_lt i 8) Hl). destruct (Z.lt_ge_cases (i + 8 * j - 8 * k) 0) as [Hn|Hn].
      * rewrite !(Z.testbit_neg_r _ (i + 8 * j - 8 * k)) by done. cbn. by rewrite orb_false_r, !andb_true_r.
      * rewrite Z.ones_spec_high, (small_testbit v) by lia. cbn. by rewrite orb_false_r, !andb_true_r.
  - rewrite andb_false_r. destruct (j =? k); [by rewrite small_testbit|]. rewrite byte_testbit by done. rewrite (proj2 (Z.ltb_ge i 8) Hl). by rewrite andb_false_r.
Qed.

(** Where the registers' arithmetic puts an entry. *)
Definition entry_ok (mac : mac_type) (direction queue : Z) : Prop :=
  0 <= direction <= 1 /\ 0 <= queue < 128 /\ (mac = ixgbe_mac_82598EB -> direction * 64 + queue < 128).
Lemma entry_bounds mac d q : entry_ok mac d q -> 0 <= ivar_entry mac d q < 256.
Proof. intros (Hd & Hq & H8). unfold ivar_entry. destruct mac; lia. Qed.

Lemma entry_82599 d q : 0 <= d <= 1 -> 0 <= q -> Z.shiftr q 1 = (2 * q + d) / 4 /\ 16 * Z.land q 1 + 8 * d = 8 * ((2 * q + d) mod 4).
Proof.
  intros Hd Hq. rewrite Z.shiftr_div_pow2 by lia. change (Z.land q 1) with (Z.land q (2 ^ 1 - 1)). rewrite land_ones_mod by lia. change (2 ^ 1) with 2.
  assert (q = 2 * (q / 2) + q mod 2) by (apply Z.div_mod; lia). pose proof (Z.mod_pos_bound q 2).
  split; [apply (Z.div_unique _ _ _ (2 * (q mod 2) + d)); lia|]. rewrite <- (Z.mod_unique (2 * q + d) 4 (q / 2) (2 * (q mod 2) + d)); lia.
Qed.
Lemma entry_82598 d q : 0 <= d <= 1 -> 0 <= q -> d * 64 + q < 128 -> Z.land (Z.shiftr (d * 64 + q) 2) 0x1F = (d * 64 + q) / 4 /\ Z.land q 0x3 = (d * 64 + q) mod 4.
Proof.
  intros Hd Hq H8. split.
  - rewrite Z.shiftr_div_pow2 by lia. change 0x1F with (2 ^ 5 - 1). rewrite land_ones_mod by lia. apply Z.mod_small. split; [apply Z.div_pos; lia|apply Z.div_lt_upper_bound; lia].
  - change 0x3 with (2 ^ 2 - 1). rewrite land_ones_mod by lia. change (2 ^ 2) with 4. rewrite <- (Z.mod_add q (d * 16) 4) by lia. f_equal. lia.
Qed.
Lemma ivar_reg e : 0 <= e < 256 -> ivar_regs (IXGBE_IVAR (e / 4)).
Proof. intros He. unfold ivar_regs, IXGBE_IVAR. pose proof (Z.div_pos e 4). pose proof (Z.div_lt_upper_bound e 4 64). lia. Qed.

(** A register that the table does not reach. *)
Definition off_table (r : Z) : Prop := r < 0x900 \/ 0xA00 <= r.
(** [f'] is [f] with entry [e] set to [x]. *)
Definition entry_set (e x : Z) (f f' : Z -> Z) : Prop :=
  (forall e', 0 <= e' < 256 -> ivar_byte f' e' = if e' =? e then x else ivar_byte f e') /\ (forall r, off_table r -> f' r = f r).
Lemma entry_set_byte e x f : 0 <= e < 256 -> 0 <= x < 256 -> entry_set e x f (<[IXGBE_IVAR (e / 4) := set_byte (f (IXGBE_IVAR (e / 4))) (e mod 4) x]> f).
Proof.
  intros He Hx. split.
  - intros e' He'. unfold ivar_byte. rewrite fn_insert_dec. pose proof (Z.mod_pos_bound e 4). pose proof (Z.mod_pos_bound e' 4).
    pose proof (Z.div_mod e 4). pose proof (Z.div_mod e' 4). destruct (decide (IXGBE_IVAR (e / 4) = IXGBE_IVAR (e' / 4))) as [E|E]; unfold IXGBE_IVAR in E.
    + assert (e' / 4 = e / 4) as Ed by lia. rewrite Ed, set_byte_spec by lia. destruct (Z.eqb_spec (e' mod 4) (e mod 4)), (Z.eqb_spec e' e); try done; lia.
    + destruct (Z.eqb_spec e' e) as [->|]; [lia|done].
  - intros r Hr. pose proof (ivar_reg e He) as Hi. rewrite fn_insert_dec. destruct (decide _) as [E|E]; [|done]. unfold off_table, ivar_regs, IXGBE_IVAR in *.
    pose proof (Z.div_lt_upper_bound e 4 64). lia.
Qed.

Section Table.
Context {init : Z -> Z} {A : list access -> Z -> Z}.
Local Notation at_ivar := (at_regs ivar_regs init A).

Lemma set_ivar_spec mac d q v f m a h (Q : () -> ixgbe_hw -> Prop) : mac <> ixgbe_mac_other -> entry_ok mac d q -> 0 <= v < 128 -> at_ivar f m a h ->
  (forall f' h', at_ivar f' m a h' -> entry_set (ivar_entry mac d q) (Z.lor v 0x80) f f' -> Q () h') -> wlp (ixgbe_set_ivar mac d q v) h Q.
Proof.
  intros Hm He Hv Hh HQ. pose proof (entry_bounds mac d q He) as Hb. destruct He as (Hd & Hq & H8). unfold ixgbe_set_ivar.
  assert (0 <= Z.lor v 0x80 < 256) as Hx by (by apply (lor_bounds v 0x80 8); lia).
  pose proof (entry_set_byte (ivar_entry mac d q) (Z.lor v 0x80) f Hb Hx) as HS. pose proof (ivar_reg _ Hb) as HT.
  destruct mac; try done; rewrite (proj2 (Z.eqb_neq d (-1))) by lia; cbv iota zeta; cbn [ivar_entry] in *;
    [destruct (entry_82598 d q) as [-> ->]; [lia|lia|by apply H8|]|destruct (entry_82599 d q) as [-> ->]; [lia|lia|]..];
    apply wlp_bind; (eapply regs_read; [exact Hh|exact HT|]); intros h1 H1; (eapply regs_write; [exact H1|]); intros h2 H2; by eapply HQ.
Qed.
(** The other causes: entry 97 of the 82598, a register of its own later. *)
Lemma set_ivar_misc mac v f m a h (Q : () -> ixgbe_hw -> Prop) : mac = ixgbe_mac_82599EB \/ mac = ixgbe_mac_X540 -> 0 <= v < 128 -> at_ivar f m a h ->
  (forall h', at_ivar (<[IXGBE_IVAR_MISC := set_byte (f IXGBE_IVAR_MISC) 1 (Z.lor v 0x80)]> f) m a h' -> Q () h') -> wlp (ixgbe_set_ivar mac (-1) 1 v) h Q.
Proof.
  intros Hm Hv Hh HQ. unfold ixgbe_set_ivar. destruct Hm as [-> | ->]; cbv iota zeta; change (-1 =? -1) with true; cbv iota; apply wlp_bind;
    (eapply regs_read; [exact Hh|by vm_compute|]); intros h1 H1; (eapply regs_write; [exact H1|]); intros h2 H2; by apply HQ.
Qed.
Lemma try_each_spec (I : list Z -> (Z -> Z) -> Prop) m a l body f h (Q : option () -> ixgbe_hw -> Prop) :
  at_ivar f m a h -> I [] f ->
  (forall done i todo f h (Q : option () -> ixgbe_hw -> Prop), l = done ++ i :: todo -> at_ivar f m a h -> I done f ->
     (forall f' h', at_ivar f' m a h' -> I (done ++ [i]) f' -> Q (Some ()) h') -> wlp (body i) h Q) ->
  (forall f' h', at_ivar f' m a h' -> I l f' -> Q (Some ()) h') -> wlp (try_each l body) h Q.
Proof.
  intros Hh H0 Hbody HQ. enough (Hgen : forall todo done f h, l = done ++ todo -> at_ivar f m a h -> I done f -> wlp (try_each todo body) h Q) by by apply (Hgen l [] f).
  clear f h Hh H0. induction todo as [|i todo IH]; intros done f h Hl Hh HI; cbn [try_each].
  - apply wlp_ret. rewrite app_nil_r in Hl. subst done. by apply (HQ f).
  - apply wlp_bind. eapply Hbody; [done|done|done|]. intros f' h' Hh' HI'. apply (IH (done ++ [i]) f'); [|done|done]. by rewrite <- app_assoc.
Qed.
End Table.

(** ** The writes of a configuration *)
Definition ring_write (mac : mac_type) (rings : list (option ixgbe_ring)) (d v i : Z) : option (Z * Z) :=
  r ← mjoin (rings !! Z.to_nat i); Some (ivar_entry mac d (reg_idx r), Z.lor v 0x80).
Definition vector_writes (mac : mac_type) (a : adapter) (v : Z) : list (Z * Z) :=
  match mjoin (q_vector a !! Z.to_nat v) with
  | Some qv => omap (ring_write mac (rx_ring a) 0 v) (rx_list qv) ++ omap (ring_write mac (tx_ring a) 1 v) (tx_list qv)
  | None => []
  end.
Definition eitr_value (mac : mac_type) (a : adapter) (v : Z) : Z :=
  match mjoin (q_vector a !! Z.to_nat v) with
  | Some qv => eitr_word mac (itr qv)
  | None => 0
  end.
(** The table after the writes [ws]. *)
Definition written (ws : list (Z * Z)) (g : Z -> Z) : Z -> Z := foldl (fun g w => <[w.1 := w.2]> g) g ws.
Lemma writes_app ws ws' g : written (ws ++ ws') g = written ws' (written ws g).
Proof. apply foldl_app. Qed.
Lemma written_out ws g e : (forall x, (e, x) ∉ ws) -> written ws g e = g e.
Proof.
  induction ws as [|[e0 x0] ws IH] using rev_ind; [done|]. intros H. rewrite writes_app. cbn. rewrite fn_insert_dec. destruct (decide (e0 = e)) as [->|].
  - exfalso. apply (H x0). rewrite elem_of_app. right. by apply list_elem_of_singleton.
  - apply IH. intros x Hx. apply (H x). rewrite elem_of_app. by left.
Qed.
Lemma written_in ws g e x : (e, x) ∈ ws -> (forall y, (e, y) ∈ ws -> y = x) -> written ws g e = x.
Proof.
  induction ws as [|[e0 x0] ws IH] using rev_ind; [by intros []%not_elem_of_nil|]. intros Hin Huq. rewrite writes_app. cbn. rewrite fn_insert_dec. destruct (decide (e0 = e)) as [->|Hne].
  - apply Huq. rewrite elem_of_app. right. by apply list_elem_of_singleton.
  - apply IH; [|intros y Hy; apply Huq; rewrite elem_of_app; by left]. rewrite elem_of_app, list_elem_of_singleton in Hin. destruct Hin as [Hin|Hin]; [done|congruence].
Qed.

(** What the interrupt scheme hands to the configuration of the hardware: every vector is there and lists its rings, every ring has a queue of its own. *)
Record routed (mac : mac_type) (a : adapter) : Prop := {
  ro_vectors : 1 <= num_q_vectors a <= MAX_MSIX_Q_VECTORS;
  ro_lists : lists_ok (num_q_vectors a) (txq a) (rxq a) (q_vector a);
  ro_rx : ring_ok (num_q_vectors a) (rxq a) (rx_ring a);
  ro_tx : ring_ok (num_q_vectors a) (txq a) (tx_ring a);
  ro_82598 : mac = ixgbe_mac_82598EB ->
    (forall i r, rx_ring a !! i = Some (Some r) -> reg_idx r < 64) /\ (forall i r, tx_ring a !! i = Some (Some r) -> reg_idx r < 32)
}.
Lemma eitr_off u : 0 <= u -> off_table (IXGBE_EITR u).
Proof. intros Hu. unfold off_table, IXGBE_EITR. destruct (Z.leb_spec u 23); lia. Qed.
Lemma eitr_inj u v : 0 <= u -> 0 <= v -> IXGBE_EITR u = IXGBE_EITR v -> u = v.
Proof. intros Hu Hv. unfold IXGBE_EITR. destruct (Z.leb_spec u 23), (Z.leb_spec v 23); lia. Qed.
Lemma eitr_other u : 0 <= u -> IXGBE_EITR u <> IXGBE_IVAR_MISC /\ IXGBE_EITR u <> IXGBE_EIAC.
Proof. intros Hu. unfold IXGBE_EITR, IXGBE_IVAR_MISC, IXGBE_EIAC. destruct (Z.leb_spec u 23); lia. Qed.
Lemma ivar_byte_off f r x e : off_table r -> 0 <= e < 256 -> ivar_byte (<[r := x]> f) e = ivar_byte f e.
Proof.
  intros Hr He. unfold ivar_byte. rewrite fn_insert_dec. destruct (decide _) as [E|]; [|done]. pose proof (ivar_reg e He) as Hi. subst r.
  unfold off_table, ivar_regs, IXGBE_IVAR in *. pose proof (Z.div_lt_upper_bound e 4 64). lia.
Qed.

Section Routes.
Context {init : Z -> Z} {A : list access -> Z -> Z} (mac : mac_type) (a : adapter) (m : ixgbe_mac_info) (c : ixgbe_addr_filter_info) (f0 : Z -> Z).
Hypotheses (Hmac : mac <> ixgbe_mac_other) (HR : routed mac a).
Local Notation at_ivar f h := (at_regs ivar_regs init A f m c h).
Local Notation q := (num_q_vectors a).

(** Halfway: the entries of [ws] are written, and the rates of the first [n] vectors. *)
Definition half (ws : list (Z * Z)) (n : Z) (f : Z -> Z) : Prop :=
  (forall e, 0 <= e < 256 -> ivar_byte f e = written ws (ivar_byte f0) e) /\ (forall u, 0 <= u < n -> f (IXGBE_EITR u) = eitr_value mac a u) /\
  f IXGBE_IVAR_MISC = f0 IXGBE_IVAR_MISC.
Lemma half_set ws n f f' e x : half ws n f -> entry_set e x f f' -> half (ws ++ [(e, x)]) n f'.
Proof.
  intros (H1 & H2 & H3) [S1 S2]. split_and!.
  - intros e' He'. rewrite writes_app. cbn. rewrite S1, fn_insert_dec by done. destruct (Z.eqb_spec e' e) as [->|Hne]; [by rewrite decide_True|]. rewrite decide_False by done. by apply H1.
  - intros u Hu. rewrite S2 by (apply eitr_off; lia). by apply H2.
  - rewrite S2; [done|]. unfold off_table, IXGBE_IVAR_MISC. lia.
Qed.
Lemma half_eitr ws n f : 0 <= n -> half ws n f -> half ws (n + 1) (<[IXGBE_EITR n := eitr_value mac a n]> f).
Proof.
  intros Hn (H1 & H2 & H3). destruct (eitr_other n Hn) as [N1 N2]. split_and!.
  - intros e He. rewrite ivar_byte_off by (done || by apply eitr_off). by apply H1.
  - intros u Hu. rewrite fn_insert_dec. destruct (decide _) as [E%eitr_inj|E]; [by subst u|lia|lia|]. destruct (decide (u = n)) as [->|]; [done|apply H2; lia].
  - by rewrite fn_insert_dec, decide_False.
Qed.

(** The rings of a list, all present and with entries in the table. *)
Lemma route_list rings d v l ws n f h (Q : option () -> ixgbe_hw -> Prop) : 0 <= v < 128 ->
  (forall i, i ∈ l -> exists r, rings !! Z.to_nat i = Some (Some r) /\ entry_ok mac d (reg_idx r)) -> at_ivar f h -> half ws n f ->
  (forall f' h', at_ivar f' h' -> half (ws ++ omap (ring_write mac rings d v) l) n f' -> Q (Some ()) h') -> wlp (try_each l (route_ring mac rings d v)) h Q.
Proof.
  intros Hv Hl Hh H0 HQ. apply (try_each_spec (init := init) (A := A) (fun l f => half (ws ++ omap (ring_write mac rings d v) l) n f) m c l _ f); [done|by rewrite app_nil_r| |done].
  clear f h Q Hh H0 HQ. intros done i todo f h Q El Hh H1 HQ. destruct (Hl i) as (r & Hr & He). { rewrite El, elem_of_app, elem_of_cons. by right; left. }
  unfold route_ring. rewrite Hr. cbn [mjoin option_join]. apply wlp_bind. rewrite u8_small by lia. eapply set_ivar_spec; [done|done|done|exact Hh|].
  intros f' h' Hh' HS. apply wlp_ret. apply (HQ f'); [done|]. rewrite omap_app, app_assoc. cbn [omap list_omap]. unfold ring_write at 2. rewrite Hr. cbn [mjoin option_join mbind option_bind].
  by eapply half_set.
Qed.
Lemma ring_entry_rx i r : 0 <= i < rxq a -> rx_ring a !! Z.to_nat i = Some (Some r) -> entry_ok mac 0 (reg_idx r).
Proof.
  intros Hi Hr. destruct (ro_rx _ _ HR i Hi) as (r' & Hr' & _ & _ & Hb & _). rewrite Hr in Hr'. simplify_eq. split_and!; [lia..|].
  intros E. destruct (ro_82598 _ _ HR E) as [H8 _]. apply H8 in Hr. lia.
Qed.
Lemma ring_entry_tx i r : 0 <= i < txq a -> tx_ring a !! Z.to_nat i = Some (Some r) -> entry_ok mac 1 (reg_idx r).
Proof.
  intros Hi Hr. destruct (ro_tx _ _ HR i Hi) as (r' & Hr' & _ & _ & Hb & _). rewrite Hr in Hr'. simplify_eq. split_and!; [lia..|].
  intros E. destruct (ro_82598 _ _ HR E) as [_ H8]. apply H8 in Hr. lia.
Qed.
Lemma configure_vector_spec v ws f h (Q : option () -> ixgbe_hw -> Prop) : 0 <= v < q -> at_ivar f h -> half ws v f ->
  (forall f' h', at_ivar f' h' -> half (ws ++ vector_writes mac a v) (v + 1) f' -> Q (Some ()) h') -> wlp (configure_vector mac a v) h Q.
Proof.
  intros Hv Hh H0 HQ. destruct (ro_vectors _ _ HR) as [_ Hq]. unfold MAX_MSIX_Q_VECTORS in Hq. destruct (ro_lists _ _ HR v Hv) as (qv & Eqv & Ev & Htx & Hrx).
  unfold configure_vector, vector_writes in *. rewrite Eqv in *. cbn [mjoin option_join] in *. apply wlp_bind. apply (route_list _ _ _ _ ws v f); [lia| |exact Hh|exact H0|].
  { intros i [Hi _]%Hrx. destruct (ro_rx _ _ HR i Hi) as (r & Hr & _). exists r. split; [done|by apply (ring_entry_rx i)]. }
  intros f1 h1 Hh1 H1. cbv iota. apply wlp_bind. eapply (route_list _ _ _ _ _ v f1); [lia| |exact Hh1|exact H1|].
  { intros i [Hi _]%Htx. destruct (ro_tx _ _ HR i Hi) as (r & Hr & _). exists r. split; [done|by apply (ring_entry_tx i)]. }
  intros f2 h2 Hh2 H2. cbv iota. apply wlp_bind. unfold ixgbe_write_eitr. rewrite Ev. eapply regs_write; [exact Hh2|]. intros h3 Hh3. apply wlp_ret.
  eapply HQ; [exact Hh3|]. rewrite <- app_assoc in H2. apply half_eitr in H2; [|lia]. unfold eitr_value in H2. rewrite Eqv in H2. by cbn [mjoin option_join] in H2.
Qed.
Lemma vectors_spec f h (Q : option () -> ixgbe_hw -> Prop) : at_ivar f h -> half [] 0 f ->
  (forall f' h', at_ivar f' h' -> half (seqZ 0 q ≫= vector_writes mac a) q f' -> Q (Some ()) h') -> wlp (try_each (seqZ 0 q) (configure_vector mac a)) h Q.
Proof.
  intros Hh H0 HQ. apply (try_each_spec (init := init) (A := A) (fun l f => half (l ≫= vector_writes mac a) (Z.of_nat (length l)) f) m c _ _ f); [done|done| |].
  - clear f h Q Hh H0 HQ. intros done i todo f h Q El Hh H0 HQ. assert (i = Z.of_nat (length done) /\ i < q) as [-> Hi].
    { assert (seqZ 0 q !! length done = Some i) as E by (rewrite El, lookup_app_r, Nat.sub_diag by lia; done). apply lookup_seqZ in E. lia. }
    eapply configure_vector_spec; [lia|exact Hh|exact H0|]. intros f' h' Hh' H'. eapply HQ; [exact Hh'|]. rewrite length_app, bind_app. cbn [length mbind list_bind].
    rewrite app_nil_r. by replace (Z.of_nat (length done + 1)) with (Z.of_nat (length done) + 1) by lia.
  - intros f' h' Hh' H'. eapply HQ; [exact Hh'|]. rewrite length_seqZ in H'. destruct (ro_vectors _ _ HR). by rewrite Z2Nat.id in H' by lia.
Qed.

(** The entries that are written: one for each ring, with the vector of the ring. *)
Definition rx_entry (e x : Z) : Prop := exists i r, 0 <= i < rxq a /\ rx_ring a !! Z.to_nat i = Some (Some r) /\ e = ivar_entry mac 0 (reg_idx r) /\ x = Z.lor (i mod q) 0x80.
Definition tx_entry (e x : Z) : Prop := exists i r, 0 <= i < txq a /\ tx_ring a !! Z.to_nat i = Some (Some r) /\ e = ivar_entry mac 1 (reg_idx r) /\ x = Z.lor (i mod q) 0x80.
Lemma ring_write_elem rings d v (l : list Z) e x : (e, x) ∈ omap (ring_write mac rings d v) l <->
  exists i r, i ∈ l /\ rings !! Z.to_nat i = Some (Some r) /\ e = ivar_entry mac d (reg_idx r) /\ x = Z.lor v 0x80.
Proof.
  rewrite list_elem_of_omap. unfold ring_write. split.
  - intros (i & Hi & E). exists i. destruct (rings !! Z.to_nat i) as [[r|]|]; cbn in E; try done. injection E as <- <-. by exists r.
  - intros (i & r & Hi & Hr & -> & ->). exists i. by rewrite Hr.
Qed.
Lemma writes_elem e x : (e, x) ∈ (seqZ 0 q ≫= vector_writes mac a) <-> rx_entry e x \/ tx_entry e x.
Proof.
  rewrite list_elem_of_bind. destruct (ro_vectors _ _ HR) as [Hq _]. split.
  - intros (v & Hw & Hv%elem_of_seqZ). destruct (ro_lists _ _ HR v ltac:(lia)) as (qv & Eqv & _ & Htx & Hrx). unfold vector_writes in Hw. rewrite Eqv in Hw. cbn [mjoin option_join] in Hw.
    rewrite elem_of_app, !ring_write_elem in Hw. destruct Hw as [(i & r & [Hi <-]%Hrx & Hw)|(i & r & [Hi <-]%Htx & Hw)]; [left|right]; exists i, r; by destruct_and!.
  - intros H. assert (exists i, 0 <= i mod q < q /\ (e, x) ∈ vector_writes mac a (i mod q)) as (i & Hi & Hw); [|exists (i mod q); split; [done|apply elem_of_seqZ; lia]].
    destruct H as [(i & r & Hi & Hw)|(i & r & Hi & Hw)]; exists i; (assert (0 <= i mod q < q) as Hm by (apply Z.mod_pos_bound; lia)); (split; [done|]);
      destruct (ro_lists _ _ HR _ Hm) as (qv & Eqv & _ & Htx & Hrx); unfold vector_writes; rewrite Eqv; cbn [mjoin option_join]; rewrite elem_of_app, !ring_write_elem; [left|right];
      exists i, r; (split; [by (apply Hrx || apply Htx)|done]).
Qed.
(** No two rings share an entry, and none uses that of the other causes. *)
Lemma rx_uses e x : rx_entry e x -> 0 <= e < 256 /\ (mac = ixgbe_mac_82598EB -> e < 64) /\ (mac <> ixgbe_mac_82598EB -> e mod 2 = 0).
Proof.
  intros (i & r & Hi & Hr & -> & _). pose proof (ring_entry_rx i r Hi Hr) as He. split; [by apply entry_bounds|]. split; intros H.
  - destruct (ro_82598 _ _ HR H) as [H8 _]. apply H8 in Hr. subst mac. cbn. lia.
  - destruct mac; try done; cbn [ivar_entry]; rewrite Z.add_0_r, Z.mul_comm; apply Z.mod_mul; lia.
Qed.
Lemma tx_uses e x : tx_entry e x -> 0 <= e < 256 /\ (mac = ixgbe_mac_82598EB -> 64 <= e < 96) /\ (mac <> ixgbe_mac_82598EB -> e mod 2 = 1).
Proof.
  intros (i & r & Hi & Hr & -> & _). pose proof (ring_entry_tx i r Hi Hr) as He. split; [by apply entry_bounds|]. split; intros H.
  - destruct (ro_82598 _ _ HR H) as [_ H8]. apply H8 in Hr. destruct He as (_ & He & _). subst mac. cbn. lia.
  - destruct mac; try done; cbn [ivar_entry]; rewrite Z.add_comm, Z.mul_comm, Z.mod_add by lia; done.
Qed.
Lemma entry_inj d k k' : ivar_entry mac d k = ivar_entry mac d k' -> k = k'.
Proof. unfold ivar_entry. destruct mac; lia. Qed.
Lemma entries_functional e x y : rx_entry e x \/ tx_entry e x -> rx_entry e y \/ tx_entry e y -> y = x.
Proof.
  assert (forall x y, rx_entry e x -> tx_entry e y -> False) as Hsep.
  { intros x' y' H1%rx_uses H2%tx_uses. destruct (decide (mac = ixgbe_mac_82598EB)) as [E|E]; [destruct H1 as (_ & H1 & _), H2 as (_ & H2 & _)|destruct H1 as (_ & _ & H1), H2 as (_ & _ & H2)];
      specialize (H1 E); specialize (H2 E); lia. }
  intros [Hx|Hx] [Hy|Hy]; try (exfalso; by eapply Hsep); destruct Hx as (i & r & Hi & Hr & -> & ->), Hy as (j & r' & Hj & Hr' & E%entry_inj & ->).
  - destruct (ro_rx _ _ HR i Hi) as (r0 & Hr0 & _ & _ & _ & Hu). rewrite Hr in Hr0. simplify_eq. by rewrite (Hu j r' Hj Hr' (eq_sym E)).
  - destruct (ro_tx _ _ HR i Hi) as (r0 & Hr0 & _ & _ & _ & Hu). rewrite Hr in Hr0. simplify_eq. by rewrite (Hu j r' Hj Hr' (eq_sym E)).
Qed.

(** The table [f] after the configuration, [f0] before. *)
Record table_ok (f : Z -> Z) : Prop := {
  tb_rx : forall i r, 0 <= i < rxq a -> rx_ring a !! Z.to_nat i = Some (Some r) -> ivar_byte f (ivar_entry mac 0 (reg_idx r)) = Z.lor (i mod q) IXGBE_IVAR_ALLOC_VAL;
  tb_tx : forall i r, 0 <= i < txq a -> tx_ring a !! Z.to_nat i = Some (Some r) -> ivar_byte f (ivar_entry mac 1 (reg_idx r)) = Z.lor (i mod q) IXGBE_IVAR_ALLOC_VAL;
  tb_other : other_byte mac f = Z.lor q IXGBE_IVAR_ALLOC_VAL;
  tb_rates : forall v, 0 <= v < q -> f (IXGBE_EITR v) = eitr_value mac a v;
  tb_rest : forall e, 0 <= e < 256 -> (forall x, ~ rx_entry e x) -> (forall x, ~ tx_entry e x) -> (mac = ixgbe_mac_82598EB -> e <> IXGBE_IVAR_OTHER_CAUSES_INDEX) ->
    ivar_byte f e = ivar_byte f0 e
}.
(** The bytes of the queues and of the other causes, from what was written. *)
Lemma table_written ws f : ws = (seqZ 0 q ≫= vector_writes mac a) ++ (if decide (mac = ixgbe_mac_82598EB) then [(97, Z.lor q 0x80)] else []) ->
  (forall e, 0 <= e < 256 -> ivar_byte f e = written ws (ivar_byte f0) e) -> (mac <> ixgbe_mac_82598EB -> byte_of (f IXGBE_IVAR_MISC) 1 = Z.lor q 0x80) ->
  (forall v, 0 <= v < q -> f (IXGBE_EITR v) = eitr_value mac a v) -> table_ok f.
Proof.
  intros Ews Hb Hmisc Hr. unfold IXGBE_IVAR_ALLOC_VAL.
  assert (forall e x, (e, x) ∈ ws <-> (rx_entry e x \/ tx_entry e x) \/ (mac = ixgbe_mac_82598EB /\ e = 97 /\ x = Z.lor q 0x80)) as Hin.
  { intros e x. rewrite Ews, elem_of_app, writes_elem. destruct (decide _) as [E|E]; [rewrite list_elem_of_singleton|rewrite elem_of_nil]; split; try (intuition congruence). }
  assert (forall e x, rx_entry e x \/ tx_entry e x -> ivar_byte f e = x) as Hring.
  { intros e x Hx. rewrite Hb by (destruct Hx as [H%rx_uses|H%tx_uses]; apply H). apply written_in; [apply Hin; by left|]. intros y [Hy|(E & -> & _)]%Hin; [by eapply entries_functional|].
    exfalso. destruct Hx as [H%rx_uses|H%tx_uses]; destruct H as (_ & H & _); specialize (H E); lia. }
  split.
  - intros i r Hi Hri. apply Hring. left. by exists i, r.
  - intros i r Hi Hri. apply Hring. right. by exists i, r.
  - destruct (decide (mac = ixgbe_mac_82598EB)) as [E|E]; [|specialize (Hmisc E); unfold other_byte; by destruct mac].
    unfold other_byte. rewrite E. unfold IXGBE_IVAR_OTHER_CAUSES_INDEX. rewrite Hb by lia. apply written_in; [apply Hin; by right|]. intros y [Hy|(_ & _ & ->)]%Hin; [|done].
    exfalso. destruct Hy as [H%rx_uses|H%tx_uses]; destruct H as (_ & H & _); specialize (H E); lia.
  - done.
  - intros e He N1 N2 N3. rewrite Hb by done. apply written_out. intros x [[Hx|Hx]|(E & -> & _)]%Hin; [by eapply N1|by eapply N2|by apply N3].
Qed.
(** Writes elsewhere keep the table. *)
Lemma table_off r x f : off_table r -> r <> IXGBE_IVAR_MISC -> (forall v, 0 <= v < q -> r <> IXGBE_EITR v) -> table_ok f -> table_ok (<[r := x]> f).
Proof.
  intros Ho Hm Hv [T1 T2 T3 T4 T5]. split.
  - intros i r' Hi Hr. rewrite ivar_byte_off; [by apply (T1 i)|done|apply entry_bounds; by eapply ring_entry_rx].
  - intros i r' Hi Hr. rewrite ivar_byte_off; [by apply (T2 i)|done|apply entry_bounds; by eapply ring_entry_tx].
  - rewrite <- T3. unfold other_byte. destruct mac; [by apply ivar_byte_off|by rewrite fn_insert_dec, decide_False..].
  - intros v Hv'. rewrite fn_insert_dec, decide_False by by apply Hv. by apply T4.
  - intros e He N1 N2 N3. rewrite ivar_byte_off by done. by apply T5.
Qed.
(** The vector of the other causes. *)
Lemma other_causes_spec f h (Q : () -> ixgbe_hw -> Prop) : at_ivar f h -> half (seqZ 0 q ≫= vector_writes mac a) q f ->
  (forall f' h', at_ivar f' h' -> table_ok f' -> Q () h') ->
  wlp (match mac with
       | ixgbe_mac_82598EB => ixgbe_set_ivar mac (-1) IXGBE_IVAR_OTHER_CAUSES_INDEX q
       | ixgbe_mac_82599EB | ixgbe_mac_X540 => ixgbe_set_ivar mac (-1) 1 q
       | ixgbe_mac_other => mret ()
       end) h Q.
Proof.
  intros Hh (B & R & M) HQ. destruct (ro_vectors _ _ HR) as [Hq1 Hq]. unfold MAX_MSIX_Q_VECTORS in Hq. destruct (decide (mac = ixgbe_mac_82598EB)) as [E|E].
  - replace (match mac with ixgbe_mac_82598EB => _ | ixgbe_mac_82599EB | ixgbe_mac_X540 => _ | ixgbe_mac_other => _ end) with (ixgbe_set_ivar mac 0 97 q) by (by rewrite E).
    eapply (set_ivar_spec mac 0 97); [done|split_and!; lia|lia|exact Hh|]. intros f3 h3 Hh3 HS. replace (ivar_entry mac 0 97) with 97 in HS by (by rewrite E). eapply HQ; [exact Hh3|].
    apply half_set with (ws := seqZ 0 q ≫= vector_writes mac a) (n := q) in HS as (B3 & R3 & M3); [|by split_and!]. by eapply table_written; [rewrite decide_True|..].
  - assert (mac = ixgbe_mac_82599EB \/ mac = ixgbe_mac_X540) as E' by (destruct mac; try done; tauto).
    replace (match mac with ixgbe_mac_82598EB => _ | ixgbe_mac_82599EB | ixgbe_mac_X540 => _ | ixgbe_mac_other => _ end) with (ixgbe_set_ivar mac (-1) 1 q) by (by destruct E' as [-> | ->]).
    eapply set_ivar_misc; [done|lia|exact Hh|]. intros h3 Hh3. eapply HQ; [exact Hh3|]. assert (off_table IXGBE_IVAR_MISC) as Hom by (right; unfold IXGBE_IVAR_MISC; lia).
    eapply table_written; [by rewrite decide_False, app_nil_r|..].
    + intros e He. rewrite ivar_byte_off by done. by apply B.
    + intros _. rewrite fn_insert_eq, set_byte_spec by (done || lia || (apply (lor_bounds q 0x80 8); lia)). done.
    + intros v Hv. rewrite fn_insert_dec, decide_False by (apply not_eq_sym, eitr_other; lia). by apply R.
Qed.
Lemma configure_msix_spec h : at_ivar f0 h -> wlp (ixgbe_configure_msix mac a) h (fun r h' => r = Some () /\ exists f, at_ivar f h' /\ table_ok f).
Proof.
  intros Hh. destruct (ro_vectors _ _ HR) as [Hq1 Hq]. unfold MAX_MSIX_Q_VECTORS in Hq. unfold ixgbe_configure_msix. apply wlp_bind.
  assert (forall (Q : () -> ixgbe_hw -> Prop), (forall f h', at_ivar f h' -> half [] 0 f -> Q () h') ->
    wlp (if num_vfs (ad a) >=? 32 then IXGBE_WRITE_REG IXGBE_EITRSEL (u32 (Z.shiftl 1 (num_vfs (ad a) - 32) - 1)) else mret ()) h Q) as Hsel.
  { intros Q HQ. destruct (_ >=? 32); [|apply wlp_ret; eapply HQ; [exact Hh|split_and!; [done|lia|done]]]. eapply regs_write; [exact Hh|]. intros h' Hh'. eapply HQ; [exact Hh'|].
    split_and!; [|lia|done]. intros e He. apply ivar_byte_off; [left; unfold IXGBE_EITRSEL; lia|done]. }
  apply Hsel. intros f1 h1 Hh1 H1. apply wlp_bind. apply (vectors_spec f1); [done..|]. intros f2 h2 Hh2 H2. cbv iota zeta. apply wlp_bind. rewrite u8_small by lia.
  apply (other_causes_spec f2); [done..|]. intros f3 h3 Hh3 H3. apply wlp_bind. eapply regs_write; [exact Hh3|]. intros h4 Hh4. apply wlp_bind. eapply regs_write; [exact Hh4|].
  intros h5 Hh5. apply wlp_ret. split; [done|]. eexists. split; [exact Hh5|]. apply table_off; [left; unfold IXGBE_EIAC; lia|done|intros v Hv; apply not_eq_sym, eitr_other; lia|].
  apply table_off; [apply eitr_off; lia|apply eitr_other; lia|intros v Hv ?%eitr_inj; lia|done].
Qed.
End Routes.

(** On the 82598 the table has 64 entries for receive queues and 32 for transmit queues. *)
Definition queues_82598 (a : adapter) : Prop :=
  (forall i r, rx_ring a !! i = Some (Some r) -> reg_idx r < 64) /\ (forall i r, tx_ring a !! i = Some (Some r) -> reg_idx r < 32).

(** C35. Interrupts reach the vector that serves the ring, in every configuration that is [config_ok]: at most 8 traffic classes; an RSS limit of 1 to 16, not above the
    number of CPUs; at most 64 pools, with the PF's pool among those of the mode; with FCoE, queues that fit behind the pools (no wrap of the register
    numbers, [ixgbe_lib.c:263]); on the 82598 no SR-IOV, no FCoE and not both DCB and VMDq ([ixgbe_lib.c:73]), and queues below 64 for receiving and 32 for
    sending; and no more receive queues than the driver has rings for (VMDQ=64 can exceed this, [ixgbe_param.c:601]). When storage for the vectors is there:
    after the interrupt scheme is set up, whatever number of MSI-X vectors the system grants, and the hardware configured for it, the IVAR entry of every
    receive and transmit ring is valid and names the vector whose list holds the ring, the other causes have the vector behind the last one, each vector has
    its rate, and the entries of queues that no ring uses are as before. *)
Theorem interrupts_routed k a h : hw_mac h <> ixgbe_mac_other ->
  config_ok (hw_mac h) (num_online_cpus k) a -> arrays_ok a -> 1 <= max_q_vectors (opts a) <= MAX_MSIX_Q_VECTORS ->
  rxq (ixgbe_set_num_queues (hw_mac h) (num_online_cpus k) a) <= MAX_RX_QUEUES ->
  (forall n, 0 < pci_enable_msix k n -> pci_enable_msix k n < n) -> (forall v, vector_alloc k v = true) ->
  exists a', (ixgbe_init_interrupt_scheme k a h).1 = Some (0, a') /\
    ring_ok (num_q_vectors a') (rxq a') (rx_ring a') /\ ring_ok (num_q_vectors a') (txq a') (tx_ring a') /\
    forall init h', reg_file ivar_regs init (ans h') -> (hw_mac h = ixgbe_mac_82598EB -> queues_82598 a') ->
      (ixgbe_configure_msix (hw_mac h) a' h').1 = Some () /\
      table_ok (hw_mac h) a' (regs init (tr h')) (regs init (tr (ixgbe_configure_msix (hw_mac h) a' h').2)).
Proof.
  intros Hm H1 H2 H3 H4 H5 H6. destruct (init_scheme_run k a h H1 H2 H3 H4 H5 H6) as (a' & E & Hv & Hr & R1 & R2 & _ & Hx & HL). exists a'. split_and!; [done..|].
  intros init h' HF H8. assert (routed (hw_mac h) a') as HR by by split.
  destruct (configure_msix_spec (init := init) (A := ans h') (hw_mac h) a' (mac h') (addr_ctrl h') (regs init (tr h')) Hm HR h') as (E' & f & (_ & _ & Hf & _ & _) & HT); [by split_and!|].
  split; [exact E'|]. by rewrite Hf.
Qed.
(** An 82599 with eight queues and storage that starts empty. *)
Definition ivar_storage : list access -> Z -> Z := regs (fun _ => 0).
Lemma interrupts_routed_witness : exists a', (ixgbe_init_interrupt_scheme (eager_kernel 8) (fresh_adapter 8 8) hw_82599).1 = Some (0, a') /\
  table_ok ixgbe_mac_82599EB a' (fun _ => 0) (regs (fun _ => 0) (tr (ixgbe_configure_msix ixgbe_mac_82599EB a' (hw_init ixgbe_mac_82599EB ivar_storage)).2)).
Proof.
  destruct (interrupts_routed (eager_kernel 8) (fresh_adapter 8 8) hw_82599) as (a' & E & _ & _ & HT).
  - done.
  - split; try done; try (cbn; lia). by right; left.
  - apply fresh_arrays.
  - cbn. unfold MAX_MSIX_Q_VECTORS. lia.
  - vm_compute. discriminate.
  - cbn. lia.
  - reflexivity.
  - exists a'. split; [exact E|]. apply (HT (fun _ => 0) (hw_init ixgbe_mac_82599EB ivar_storage)); [by intros t r _|done].
Defined.

(** One vector for everything: queue 0 of either direction is sent to it. *)
Theorem legacy_routed mac a h init qv : mac <> ixgbe_mac_other -> q_vector a !! O = Some (Some qv) -> reg_file ivar_regs init (ans h) ->
  let f := regs init (tr (ixgbe_configure_msi_and_legacy mac a h).2) in
  (ixgbe_configure_msi_and_legacy mac a h).1 = Some () /\ forall d, 0 <= d <= 1 -> ivar_byte f (ivar_entry mac d 0) = IXGBE_IVAR_ALLOC_VAL.
Proof.
  intros Hm Hq HF. cut (wlp (ixgbe_configure_msi_and_legacy mac a) h (fun r h' => r = Some () /\ forall d, 0 <= d <= 1 ->
    ivar_byte (regs init (tr h')) (ivar_entry mac d 0) = IXGBE_IVAR_ALLOC_VAL)); [done|].
  assert (at_regs ivar_regs init (ans h) (regs init (tr h)) (Hw.mac h) (addr_ctrl h) h) as Hh by by split_and!.
  assert (forall d, 0 <= d <= 1 -> entry_ok mac d 0) as Hok by (intros d Hd; split_and!; lia).
  unfold ixgbe_configure_msi_and_legacy. rewrite Hq. cbn [mjoin option_join]. apply wlp_bind. unfold ixgbe_write_eitr. eapply regs_write; [exact Hh|]. intros h1 Hh1.
  apply wlp_bind. eapply (set_ivar_spec mac 0 0 0); [done|apply Hok; lia|lia|exact Hh1|]. intros f2 h2 Hh2 [S2 _].
  apply wlp_bind. eapply (set_ivar_spec mac 1 0 0); [done|apply Hok; lia|lia|exact Hh2|]. intros f3 h3 (_ & _ & Ef & _) [S3 _]. apply wlp_ret. split; [done|]. rewrite Ef.
  intros d Hd. pose proof (entry_bounds mac d 0 (Hok d Hd)) as Hb. rewrite S3 by done. destruct (decide (d = 1)) as [->|]; [by rewrite Z.eqb_refl|]. assert (d = 0) as -> by lia.
  replace (_ =? _) with false by (unfold ivar_entry; destruct mac; lia). rewrite S2 by done. by rewrite Z.eqb_refl.
Qed.
