(* ===== verification/IrqRate.v ===== *)
(** * The rate of a vector, the interrupt masks and the handlers

    Moderation drives the interval of a vector towards that of the class of its traffic; the masks follow the driver's enabling and disabling; handlers are
    registered for the vectors that have rings and taken back. *)
From S2P Require Import Prelude Bits Hw Sriov Queues Vectors Irq.

(** ** Smoothing *)
Section Smooth.
Context (t : Z) (Ht : 0 < t <= 500).
Lemma smooth_eq o : 0 <= o < 2 ^ 16 -> smooth_itr t o = u16 (10 * t * o / (9 * t + o)).
Proof.
  intros Ho. unfold smooth_itr. assert (0 <= 10 * t * o < 2 ^ 32) by nia. rewrite (u32_small (10 * t)) by lia. rewrite (u32_small (9 * t)) by lia. by rewrite !u32_small by lia.
Qed.
Lemma smooth_down o : t <= o < 2 ^ 16 -> t <= smooth_itr t o <= o /\ (t < o -> smooth_itr t o < o).
Proof.
  intros Ho. rewrite smooth_eq by lia. assert (t <= 10 * t * o / (9 * t + o)) as H1 by (apply Z.div_le_lower_bound; nia).
  assert (10 * t * o / (9 * t + o) <= o) as H2 by (apply Z.div_le_upper_bound; nia). rewrite u16_small by lia. split; [lia|]. intros Hlt. apply Z.div_lt_upper_bound; nia.
Qed.
Lemma smooth_up o : 0 <= o <= t -> o <= smooth_itr t o <= t /\ (9 * t <= o * (t - o - 1) -> o < smooth_itr t o).
Proof.
  intros Ho. rewrite smooth_eq by lia. assert (o <= 10 * t * o / (9 * t + o)) as H1 by (apply Z.div_le_lower_bound; nia).
  assert (10 * t * o / (9 * t + o) <= t) as H2 by (apply Z.div_le_upper_bound; nia). rewrite u16_small by lia. split; [lia|]. intros Hlt. cut (o + 1 <= 10 * t * o / (9 * t + o)); [lia|].
  apply Z.div_le_lower_bound; nia.
Qed.
End Smooth.

(** The interval after one poll whose traffic belongs to a class with interval [t]. *)
Definition next_itr (t o : Z) : Z := if t =? o then o else smooth_itr t o.
Definition itr_target (t : Z) : Prop := t = IXGBE_100K_ITR \/ t = IXGBE_20K_ITR \/ t = IXGBE_8K_ITR.
Definition settled (t o : Z) : Prop := t - 10 <= o <= t.
Lemma target_pos t : itr_target t -> 40 <= t <= 500.
Proof. unfold itr_target, IXGBE_100K_ITR, IXGBE_20K_ITR, IXGBE_8K_ITR. lia. Qed.
Lemma next_between t o : itr_target t -> 0 <= o < 2 ^ 16 -> Z.min o t <= next_itr t o <= Z.max o t.
Proof.
  intros Ht%target_pos Ho. unfold next_itr. destruct (Z.eqb_spec t o); [lia|]. destruct (Z.le_gt_cases t o); [pose proof (smooth_down t ltac:(lia) o)|pose proof (smooth_up t ltac:(lia) o)]; lia.
Qed.
Lemma next_progress t o : itr_target t -> 40 <= o < 2 ^ 16 -> ~ settled t o -> Z.abs (next_itr t o - t) < Z.abs (o - t).
Proof.
  intros Ht Ho Hs. pose proof (target_pos t Ht) as Hp. unfold next_itr, settled in *. destruct (Z.eqb_spec t o); [lia|]. destruct (Z.le_gt_cases t o) as [H|H].
  - destruct (smooth_down t ltac:(lia) o ltac:(lia)) as [H1 H2]. specialize (H2 ltac:(lia)). lia.
  - destruct (smooth_up t ltac:(lia) o ltac:(lia)) as [H1 H2]. cut (9 * t <= o * (t - o - 1)); [intros H3%H2; lia|].
    destruct Ht as [->|[->| ->]]; unfold IXGBE_100K_ITR, IXGBE_20K_ITR, IXGBE_8K_ITR in *; [lia|pose proof (Z.mul_nonneg_nonneg (o - 40) (189 - o))|pose proof (Z.mul_nonneg_nonneg (o - 40) (489 - o))]; lia.
Qed.
Lemma itr_settles t (f : nat -> Z) : itr_target t -> 40 <= f O < 2 ^ 16 -> (forall n, f (S n) = next_itr t (f n)) -> exists N, forall n, (N <= n)%nat -> settled t (f n).
Proof.
  intros Ht H0 Hf. assert (forall n, 40 <= f n < 2 ^ 16) as HB. { induction n as [|n IH]; [done|]. rewrite Hf. pose proof (next_between t (f n) Ht ltac:(lia)). pose proof (target_pos t Ht). lia. }
  assert (forall n, settled t (f n) -> settled t (f (S n))) as Hkeep. { intros n. unfold settled. rewrite Hf. pose proof (next_between t (f n) Ht ltac:(specialize (HB n); lia)). lia. }
  cut (exists N, settled t (f N)). { intros [N HN]. exists N. intros n. induction 1 as [|n _ IH]; [done|by apply Hkeep]. }
  enough (forall d n, Z.abs (f n - t) < Z.of_nat d -> exists N, settled t (f N)) as Hgo by (apply (Hgo (S (Z.to_nat (Z.abs (f O - t)))) O); lia).
  induction d as [|d IH]; intros n Hd; [lia|]. destruct (decide (t - 10 <= f n <= t)) as [Hs|Hs]; [by exists n|]. apply (IH (S n)). rewrite Hf. pose proof (next_progress t (f n) Ht (HB n) Hs). lia.
Qed.

(** ** Polls *)

(** The work that is counted before a poll ends: bytes and packets of the transmit and of the receive side. *)
Record work := Work { tx_b : Z; tx_p : Z; rx_b : Z; rx_p : Z }.
Definition add_work (w : work) (m : moderation) : moderation :=
  Moderation (m_idx m) (m_itr m) (Container (u32 (total_bytes (m_tx m) + tx_b w)) (u32 (total_packets (m_tx m) + tx_p w)) (c_itr (m_tx m)))
    (Container (u32 (total_bytes (m_rx m) + rx_b w)) (u32 (total_packets (m_rx m) + rx_p w)) (c_itr (m_rx m))).
(** The class of the vector is the slower one of its two sides. *)
Definition vector_class (m : moderation) : Z := Z.max (c_itr (m_rx m)) (c_itr (m_tx m)).
Definition class_ok (c : Z) : Prop := 0 <= c <= 2.
Definition classes_ok (m : moderation) : Prop := class_ok (c_itr (m_tx m)) /\ class_ok (c_itr (m_rx m)).

Lemma update_class q c : class_ok (c_itr c) -> class_ok (c_itr (ixgbe_update_itr q c)) /\ Z.abs (c_itr (ixgbe_update_itr q c) - c_itr c) <= 1.
Proof.
  unfold ixgbe_update_itr, class_ok, lowest_latency, low_latency, bulk_latency. intros Hc. destruct (total_packets c =? 0); [lia|]. destruct (Z.shiftr q 2 =? 0); [lia|].
  cbn [c_itr]. repeat case_match; lia.
Qed.
Lemma class_target c o : class_ok c -> itr_target (class_itr c o).
Proof. intros Hc. unfold class_itr, itr_target, class_ok, lowest_latency, low_latency, bulk_latency in *. repeat case_match; lia || tauto. Qed.
Lemma class_itr_any c o o' : class_ok c -> class_itr c o = class_itr c o'.
Proof. intros Hc. unfold class_itr, class_ok, lowest_latency, low_latency, bulk_latency in *. repeat case_match; lia. Qed.
Lemma set_itr_spec mac m h : let m' := (ixgbe_set_itr mac m h).1 in
  m_idx m' = m_idx m /\ m_tx m' = ixgbe_update_itr (m_itr m) (m_tx m) /\ m_rx m' = ixgbe_update_itr (m_itr m) (m_rx m) /\
  m_itr m' = next_itr (class_itr (vector_class m') (m_itr m)) (m_itr m) /\
  (m_itr m' <> m_itr m -> last_write (tr (ixgbe_set_itr mac m h).2) (IXGBE_EITR (m_idx m)) = eitr_word mac (m_itr m')).
Proof.
  unfold ixgbe_set_itr, next_itr. cbv zeta. cbn [m_itr m_idx]. unfold vector_class. set (rx := ixgbe_update_itr (m_itr m) (m_rx m)). set (tx := ixgbe_update_itr (m_itr m) (m_tx m)).
  destruct (Z.eqb_spec (class_itr (Z.max (c_itr rx) (c_itr tx)) (m_itr m)) (m_itr m)) as [E|E]; cbn [negb].
  - unfold mret, M_ret. cbn [fst snd m_idx m_tx m_rx m_itr]. rewrite (proj2 (Z.eqb_eq _ _) E). by split_and!.
  - unfold ixgbe_write_eitr. mrun. cbn [fst snd m_idx m_tx m_rx m_itr set_m_itr]. rewrite (proj2 (Z.eqb_neq _ _) E). split_and!; try done. intros _. apply last_write_last.
Qed.

(** C38. Moderation, over any sequence of polls with any traffic: the interval of a vector never leaves the range between the shortest one and the larger of the longest
    one and where it started, every change is written to the vector's register, and when the class of the traffic no longer changes, the interval settles within ten
    units below that class's own. *)
Theorem moderation_adapts mac (f : nat -> moderation) (w : nat -> work) (hs : nat -> ixgbe_hw) :
  IXGBE_100K_ITR <= m_itr (f O) < 2 ^ 16 -> classes_ok (f O) -> (forall n, f (S n) = (ixgbe_set_itr mac (add_work (w n) (f n)) (hs n)).1) ->
  (forall n, IXGBE_100K_ITR <= m_itr (f n) <= Z.max IXGBE_8K_ITR (m_itr (f O))) /\
  (forall n, m_itr (f (S n)) <> m_itr (f n) ->
     last_write (tr (ixgbe_set_itr mac (add_work (w n) (f n)) (hs n)).2) (IXGBE_EITR (m_idx (f O))) = eitr_word mac (m_itr (f (S n)))) /\
  (forall c n0, (forall n, (n0 <= n)%nat -> vector_class (f (S n)) = c) -> exists N, forall n, (N <= n)%nat -> settled (class_itr c 0) (m_itr (f n))).
Proof.
  intros H0 HC Hf. unfold IXGBE_100K_ITR, IXGBE_8K_ITR in *.
  assert (forall n, m_idx (f n) = m_idx (f O) /\ classes_ok (f n)) as HK.
  { induction n as [|n [IH1 [IH2 IH3]]]; [done|]. destruct (set_itr_spec mac (add_work (w n) (f n)) (hs n)) as (E1 & E2 & E3 & _). rewrite Hf. split; [by rewrite E1|]. unfold classes_ok. rewrite E2, E3.
    split; by apply update_class. }
  assert (forall n, class_ok (vector_class (f n))) as HV. { intros n. destruct (HK n) as [_ [K1 K2]]. unfold vector_class, class_ok in *. lia. }
  assert (forall n, m_itr (f (S n)) = next_itr (class_itr (vector_class (f (S n))) 0) (m_itr (f n))) as Hn.
  { intros n. destruct (set_itr_spec mac (add_work (w n) (f n)) (hs n)) as (_ & _ & _ & E & _). rewrite <- Hf in E. rewrite E. cbn [m_itr add_work]. f_equal. by apply class_itr_any. }
  assert (forall n, 40 <= m_itr (f n) <= Z.max 500 (m_itr (f O))) as HB.
  { induction n as [|n IH]; [lia|]. rewrite Hn. pose proof (class_target _ 0 (HV (S n))) as Ht. pose proof (next_between _ (m_itr (f n)) Ht ltac:(lia)). pose proof (target_pos _ Ht). lia. }
  split_and!; [done| |].
  - intros n Hne. destruct (set_itr_spec mac (add_work (w n) (f n)) (hs n)) as (_ & _ & _ & _ & E). rewrite <- Hf in E. cbn [m_itr m_idx add_work] in E. by rewrite (proj1 (HK n)) in E; apply E.
  - intros c n0 Hc. assert (class_ok c) as Hok by (rewrite <- (Hc n0) by lia; apply HV).
    destruct (itr_settles (class_itr c 0) (fun n => m_itr (f (n0 + n)%nat)) (class_target _ 0 Hok)) as [N HN]; [specialize (HB (n0 + 0)%nat); lia|..].
    { intros n. rewrite Nat.add_succ_r, Hn, Hc by lia. done. }
    exists (n0 + N)%nat. intros n Hle. specialize (HN (n - n0)%nat ltac:(lia)). cbn beta in HN. by replace (n0 + (n - n0))%nat with n in HN by lia.
Qed.
(** An idle vector in the class of bulk traffic: from 200 the interval settles near 500. *)
Definition hw_idle : ixgbe_hw := hw_init ixgbe_mac_82599EB (fun _ _ => 0).
Definition ex_polls (n : nat) : moderation :=
  Nat.iter n (fun m => (ixgbe_set_itr ixgbe_mac_82599EB (add_work (Work 0 0 0 0) m) hw_idle).1) (Moderation 3 200 (Container 0 0 2) (Container 0 0 2)).
Lemma ex_polls_class n : m_tx (ex_polls n) = Container 0 0 2 /\ m_rx (ex_polls n) = Container 0 0 2.
Proof.
  induction n as [|n [IH1 IH2]]; [done|]. destruct (set_itr_spec ixgbe_mac_82599EB (add_work (Work 0 0 0 0) (ex_polls n)) hw_idle) as (_ & E1 & E2 & _).
  change (ex_polls (S n)) with (ixgbe_set_itr ixgbe_mac_82599EB (add_work (Work 0 0 0 0) (ex_polls n)) hw_idle).1. rewrite E1, E2. cbn [m_tx m_rx add_work]. by rewrite IH1, IH2.
Qed.
Lemma moderation_adapts_witness : exists N, forall n, (N <= n)%nat -> settled IXGBE_8K_ITR (m_itr (ex_polls n)).
Proof.
  destruct (moderation_adapts ixgbe_mac_82599EB ex_polls (fun _ => Work 0 0 0 0) (fun _ => hw_idle)) as (_ & _ & H); [by vm_compute|by vm_compute|done|].
  apply (H 2 O). intros n _. unfold vector_class. destruct (ex_polls_class (S n)) as [-> ->]. reflexivity.
Defined.
(** From below the interval stops short of the target, as the quotient is rounded down. *)
Lemma settles_below : m_itr (ex_polls 60) = 490 /\ m_itr (ex_polls 61) = 490.
Proof. split; vm_compute; reflexivity. Qed.

(** ** Masks *)

(** The interrupts that are enabled: EIMS sets bits and EIMC clears them, for the queues of later devices in two further pairs of registers. *)
Record masks := Masks { eims : Z; ex0 : Z; ex1 : Z }.
Definition mask_step (ms : masks) (x : access) : masks :=
  match x with
  | Rd _ _ => ms
  | Wr r v =>
      if r =? IXGBE_EIMS then Masks (Z.lor (eims ms) v) (ex0 ms) (ex1 ms)
      else if r =? IXGBE_EIMC then Masks (Z.ldiff (eims ms) v) (ex0 ms) (ex1 ms)
      else if r =? IXGBE_EIMS_EX 0 then Masks (eims ms) (Z.lor (ex0 ms) v) (ex1 ms)
      else if r =? IXGBE_EIMC_EX 0 then Masks (eims ms) (Z.ldiff (ex0 ms) v) (ex1 ms)
      else if r =? IXGBE_EIMS_EX 1 then Masks (eims ms) (ex0 ms) (Z.lor (ex1 ms) v)
      else if r =? IXGBE_EIMC_EX 1 then Masks (eims ms) (ex0 ms) (Z.ldiff (ex1 ms) v)
      else ms
  end.
Definition masks_of (t : list access) : masks := foldl mask_step (Masks 0 0 0) t.
(** What the driver does to the masks. *)
Inductive irq_op := Enable (flags flags2 : Z) (queues flush : bool) | Enable_queues (qmask : Z) | Rearm (qmask : Z) | Disable.
Definition run_op (mac : mac_type) (o : irq_op) : M () :=
  match o with
  | Enable flags flags2 queues flush => ixgbe_irq_enable mac flags flags2 queues flush
  | Enable_queues qmask => ixgbe_irq_enable_queues mac qmask
  | Rearm qmask => ixgbe_irq_rearm_queues mac qmask
  | Disable => ixgbe_irq_disable mac
  end.
Fixpoint run_ops (mac : mac_type) (os : list irq_op) : M () := match os with [] => mret () | o :: os => _ ← run_op mac o; run_ops mac os end.

(** The bits that [ixgbe_irq_disable] clears. *)
Definition clearable (mac : mac_type) (ms : masks) : Prop :=
  match mac with
  | ixgbe_mac_82598EB => Z.ldiff (eims ms) (2 ^ 32 - 1) = 0 /\ ex0 ms = 0 /\ ex1 ms = 0
  | _ => Z.ldiff (eims ms) 0xFFFF0000 = 0 /\ Z.ldiff (ex0 ms) (2 ^ 32 - 1) = 0 /\ Z.ldiff (ex1 ms) (2 ^ 32 - 1) = 0
  end.
Lemma ldiff_lor a b c : Z.ldiff (Z.lor a b) c = Z.lor (Z.ldiff a c) (Z.ldiff b c).
Proof. apply Z.bits_inj'. intros i Hi. rewrite !Z.lor_spec, !Z.ldiff_spec, Z.lor_spec. by rewrite andb_orb_distrib_l. Qed.
Lemma ldiff_lor_0 a b c : Z.ldiff a c = 0 -> Z.ldiff b c = 0 -> Z.ldiff (Z.lor a b) c = 0.
Proof. intros Ha Hb. by rewrite ldiff_lor, Ha, Hb. Qed.
Lemma ldiff_low x c : 0 <= x < 2 ^ 32 -> c = 2 ^ 32 - 1 -> Z.ldiff x c = 0.
Proof. intros Hx ->. change (2 ^ 32 - 1) with (Z.ones 32). apply Z.ldiff_ones_r_low; [lia|]. destruct (decide (x = 0)) as [->|]; [cbn; lia|]. apply Z.log2_lt_pow2; lia. Qed.
Lemma irq_mask_range mac flags flags2 : Z.ldiff (irq_mask mac flags flags2) 0xFFFF0000 = 0.
Proof. unfold irq_mask. cbv zeta. destruct mac; repeat (match goal with |- context [if ?b then _ else _] => destruct b end); vm_compute; reflexivity. Qed.

Lemma masks_app t t' : masks_of (t ++ t') = foldl mask_step (masks_of t) t'.
Proof. apply foldl_app. Qed.
(** The masks after a write. *)
Lemma masks_write r v h (Q : () -> ixgbe_hw -> Prop) ms : masks_of (tr h) = ms -> (forall h', masks_of (tr h') = mask_step ms (Wr r v) -> Q () h') -> wlp (IXGBE_WRITE_REG r v) h Q.
Proof. intros E HQ. apply wlp_write, HQ. change (tr (emit ?w h)) with (tr h ++ w). by rewrite masks_app, E. Qed.
Lemma masks_flush h (Q : () -> ixgbe_hw -> Prop) ms : masks_of (tr h) = ms -> (forall h', masks_of (tr h') = ms -> Q () h') -> wlp IXGBE_WRITE_FLUSH h Q.
Proof. intros E HQ. unfold IXGBE_WRITE_FLUSH. apply wlp_bind, wlp_read, wlp_ret, HQ. change (tr (emit ?w h)) with (tr h ++ w). by rewrite masks_app, E. Qed.

(** Sixty-four vectors in two words. *)
Definition on_lo (m : Z) : Z := Z.land m 0xFFFFFFFF.
Definition on_hi (m : Z) : Z := u32 (Z.shiftr m 32).
(** The masks after an operation. *)
Definition op_masks (mac : mac_type) (o : irq_op) (ms : masks) : masks :=
  let queues m ms :=
    match mac with
    | ixgbe_mac_82598EB => Masks (Z.lor (eims ms) (Z.land IXGBE_EIMS_RTX_QUEUE m)) (ex0 ms) (ex1 ms)
    | _ => Masks (eims ms) (Z.lor (ex0 ms) (on_lo m)) (Z.lor (ex1 ms) (on_hi m))
    end in
  match o with
  | Enable flags flags2 q _ => let ms := Masks (Z.lor (eims ms) (irq_mask mac flags flags2)) (ex0 ms) (ex1 ms) in if q then queues (2 ^ 64 - 1) ms else ms
  | Enable_queues m => queues m ms
  | Rearm _ => ms
  | Disable =>
      match mac with
      | ixgbe_mac_82598EB => Masks (Z.ldiff (eims ms) (2 ^ 32 - 1)) (ex0 ms) (ex1 ms)
      | _ => Masks (Z.ldiff (eims ms) 0xFFFF0000) (Z.ldiff (ex0 ms) (2 ^ 32 - 1)) (Z.ldiff (ex1 ms) (2 ^ 32 - 1))
      end
  end.
Lemma lor_untruthy a m : truthy m = false -> Z.lor a m = a.
Proof. intros ->%negb_false_iff%Z.eqb_eq. apply Z.lor_0_r. Qed.
Lemma enable_queues_spec mac m h (Q : () -> ixgbe_hw -> Prop) ms : mac <> ixgbe_mac_other -> masks_of (tr h) = ms ->
  (forall h', masks_of (tr h') = op_masks mac (Enable_queues m) ms -> Q () h') -> wlp (ixgbe_irq_enable_queues mac m) h Q.
Proof.
  intros Hm E HQ. destruct mac; try done; cbn [ixgbe_irq_enable_queues]; [by eapply masks_write|..]; cbv zeta; fold (on_lo m) (on_hi m); cbn [op_masks] in HQ; apply wlp_bind;
    (destruct (truthy (on_lo m)) eqn:E0; [eapply masks_write; [exact E|]; clear E; intros h1 E|apply wlp_ret; rewrite (lor_untruthy _ _ E0) in HQ]);
    (destruct (truthy (on_hi m)) eqn:E1; [eapply masks_write; [exact E|]; intros h2 E2; by apply HQ|apply wlp_ret; rewrite (lor_untruthy _ _ E1) in HQ; apply HQ; rewrite E; by destruct ms]).
Qed.
Lemma run_op_spec mac o h (Q : () -> ixgbe_hw -> Prop) ms : mac <> ixgbe_mac_other -> masks_of (tr h) = ms ->
  (forall h', masks_of (tr h') = op_masks mac o ms -> Q () h') -> wlp (run_op mac o) h Q.
Proof.
  intros Hm E HQ. destruct o as [flags flags2 q fl|m|m|]; cbn [run_op].
  - unfold ixgbe_irq_enable. apply wlp_bind. eapply masks_write; [exact E|]. intros h1 E1. apply wlp_bind.
    assert (forall h', masks_of (tr h') = op_masks mac (Enable flags flags2 q fl) ms -> wlp (if fl then IXGBE_WRITE_FLUSH else mret ()) h' Q) as Hf
      by (intros h' E'; destruct fl; [eapply masks_flush; [exact E'|done]|apply wlp_ret; by apply HQ]).
    destruct q; [eapply (enable_queues_spec mac _ _ _ _ Hm E1)|apply wlp_ret; by apply Hf]. intros h2 E2. apply Hf. rewrite E2. by destruct mac.
  - by eapply enable_queues_spec.
  - destruct mac; try done; cbn [ixgbe_irq_rearm_queues]; [eapply masks_write; [exact E|]; intros h1 E1; by apply HQ|..];
      apply wlp_bind; (eapply masks_write; [exact E|]); intros h1 E1; (eapply masks_write; [exact E1|]); intros h2 E2; by apply HQ.
  - unfold ixgbe_irq_disable. apply wlp_bind. destruct mac; try done; [eapply masks_write; [exact E|]; intros h1 E1; eapply masks_flush; [exact E1|done]|..];
      apply wlp_bind; (eapply masks_write; [exact E|]); intros h1 E1; apply wlp_bind; (eapply masks_write; [exact E1|]); intros h2 E2; (eapply masks_write; [exact E2|]);
      intros h3 E3; (eapply masks_flush; [exact E3|done]).
Qed.
Lemma run_ops_masks mac os : mac <> ixgbe_mac_other -> forall h, masks_of (tr (run_ops mac os h).2) = foldl (fun ms o => op_masks mac o ms) (masks_of (tr h)) os.
Proof.
  intros Hm. induction os as [|o os IH]; intros h; [done|]. change (wlp (run_ops mac (o :: os)) h (fun _ h' => masks_of (tr h') = foldl (fun ms o => op_masks mac o ms) (masks_of (tr h)) (o :: os))).
  cbn [run_ops foldl]. apply wlp_bind. eapply run_op_spec; [done|done|]. intros h1 E1. rewrite <- E1. apply IH.
Qed.
Lemma ldiff_ldiff_0 a b c : Z.ldiff a c = 0 -> Z.ldiff (Z.ldiff a b) c = 0.
Proof.
  intros H. apply Z.bits_inj'. intros i Hi. apply (f_equal (fun x => Z.testbit x i)) in H. rewrite Z.ldiff_spec, Z.bits_0 in H. rewrite !Z.ldiff_spec, Z.bits_0.
  by destruct (Z.testbit a i), (Z.testbit b i), (Z.testbit c i).
Qed.
Lemma ldiff_trans a b c : Z.ldiff a b = 0 -> Z.ldiff b c = 0 -> Z.ldiff a c = 0.
Proof.
  intros H1 H2. apply Z.bits_inj'. intros i Hi. apply (f_equal (fun x => Z.testbit x i)) in H1, H2. rewrite !Z.ldiff_spec, Z.bits_0 in *.
  by destruct (Z.testbit a i), (Z.testbit b i), (Z.testbit c i).
Qed.
Lemma on_lo_range m : Z.ldiff (on_lo m) (2 ^ 32 - 1) = 0.
Proof. apply ldiff_low; [|done]. unfold on_lo. by apply (land_bounds m 0xFFFFFFFF 32). Qed.
Lemma on_hi_range m : Z.ldiff (on_hi m) (2 ^ 32 - 1) = 0.
Proof. apply ldiff_low; [|done]. apply u32_range. Qed.
Lemma clearable_op mac o ms : mac <> ixgbe_mac_other -> clearable mac ms -> clearable mac (op_masks mac o ms).
Proof.
  intros Hm Hc. assert (forall m, Z.ldiff (Z.land IXGBE_EIMS_RTX_QUEUE m) (2 ^ 32 - 1) = 0) as Hq
    by (intros m; apply ldiff_low; [rewrite Z.land_comm; by apply (land_bounds m _ 32)|done]).
  assert (forall mac f f2, Z.ldiff (irq_mask mac f f2) (2 ^ 32 - 1) = 0) as Hw.
  { intros mac' f f2. by apply (ldiff_trans _ _ _ (irq_mask_range mac' f f2)). }
  destruct mac; try done; destruct Hc as (C0 & C1 & C2); destruct o as [f f2 q fl|m|m|]; cbn; try destruct q; cbn; rewrite ?C1, ?C2; split_and!;
    repeat first [apply ldiff_lor_0|apply ldiff_ldiff_0]; try done; auto using irq_mask_range, on_lo_range, on_hi_range.
Qed.

(** Whether vector [v] may interrupt. *)
Definition vector_on (mac : mac_type) (ms : masks) (v : Z) : bool :=
  match mac with ixgbe_mac_82598EB => Z.testbit (eims ms) v | _ => if v <? 32 then Z.testbit (ex0 ms) v else Z.testbit (ex1 ms) (v - 32) end.
Definition vectors_of (mac : mac_type) : Z := match mac with ixgbe_mac_82598EB => 16 | _ => 64 end.
Lemma on_lo_bit m v : 0 <= v < 32 -> Z.testbit (on_lo m) v = Z.testbit m v.
Proof. intros Hv. unfold on_lo. change 0xFFFFFFFF with (Z.ones 32). by rewrite Z.land_spec, Z.ones_spec_low, andb_true_r by lia. Qed.
Lemma on_hi_bit m v : 0 <= v < 32 -> Z.testbit (on_hi m) v = Z.testbit m (v + 32).
Proof. intros Hv. unfold on_hi, u32. by rewrite Z.mod_pow2_bits_low, Z.shiftr_spec by lia. Qed.
Lemma enable_queues_on mac m ms v : mac <> ixgbe_mac_other -> 0 <= v < vectors_of mac ->
  vector_on mac (op_masks mac (Enable_queues m) ms) v = vector_on mac ms v || Z.testbit m v.
Proof.
  intros Hm Hv. destruct mac; try done; cbn in *.
  - rewrite Z.lor_spec, Z.land_spec. change IXGBE_EIMS_RTX_QUEUE with (Z.ones 16). by rewrite Z.ones_spec_low by lia.
  - destruct (Z.ltb_spec v 32); rewrite Z.lor_spec; [by rewrite on_lo_bit by lia|]. rewrite on_hi_bit by lia. by replace (v - 32 + 32) with v by lia.
  - destruct (Z.ltb_spec v 32); rewrite Z.lor_spec; [by rewrite on_lo_bit by lia|]. rewrite on_hi_bit by lia. by replace (v - 32 + 32) with v by lia.
Qed.

(** The interrupt masks after any sequence of enabling, re-arming and disabling, from a masked adapter: [ixgbe_irq_disable] leaves nothing enabled, [ixgbe_irq_enable] with
    queues enables every vector, and enabling the queues of one vector at the end of its poll enables that vector and no other. *)
Theorem masks_follow mac os h : mac <> ixgbe_mac_other -> masks_of (tr h) = Masks 0 0 0 ->
  let after os := masks_of (tr (run_ops mac os h).2) in
  after (os ++ [Disable]) = Masks 0 0 0 /\
  (forall v flags flags2 flush, 0 <= v < vectors_of mac -> vector_on mac (after (os ++ [Enable flags flags2 true flush])) v = true) /\
  (forall u v, 0 <= u < vectors_of mac -> 0 <= v < vectors_of mac -> vector_on mac (after (os ++ [Enable_queues (Z.shiftl 1 v)])) u = vector_on mac (after os) u || (u =? v)).
Proof.
  intros Hm H0. cbv zeta. assert (clearable mac (masks_of (tr (run_ops mac os h).2))) as HC.
  { rewrite run_ops_masks, H0 by done. assert (clearable mac (Masks 0 0 0)) as Hc by by destruct mac. revert Hc. generalize (Masks 0 0 0). clear H0.
    induction os as [|o os IH]; intros ms Hc; [done|]. apply IH. by apply clearable_op. }
  split_and!.
  - rewrite run_ops_masks, foldl_app by done. rewrite <- run_ops_masks by done. cbn [foldl]. destruct mac; try done; destruct HC as (C0 & C1 & C2); cbn [op_masks]; by rewrite C0, C1, C2.
  - intros v f f2 fl Hv. rewrite run_ops_masks, foldl_app by done. cbn [foldl].
    set (ms := foldl _ _ _). change (op_masks mac (Enable f f2 true fl) ms) with (op_masks mac (Enable_queues (2 ^ 64 - 1)) (op_masks mac (Enable f f2 false fl) ms)).
    rewrite enable_queues_on by done. change (2 ^ 64 - 1) with (Z.ones 64). rewrite Z.ones_spec_low, orb_true_r; [done|]. destruct mac; cbn in Hv; lia.
  - intros u v Hu Hv. rewrite !run_ops_masks, foldl_app by done. cbn [foldl]. rewrite enable_queues_on, Z.shiftl_1_l, Z.pow2_bits_eqb by lia || done. by rewrite (Z.eqb_sym v).
Qed.
Lemma masks_follow_witness : let os := [Enable 0 0 true true; Rearm 5; Enable_queues (2 ^ 40)] in
  masks_of (tr (run_ops ixgbe_mac_82599EB os hw_idle).2) <> Masks 0 0 0 /\ masks_of (tr (run_ops ixgbe_mac_82599EB (os ++ [Disable]) hw_idle).2) = Masks 0 0 0.
Proof. intros os. split; [by vm_compute|]. apply (masks_follow ixgbe_mac_82599EB os hw_idle); [done|reflexivity]. Defined.
