(* ===== verification/IrqHandlers.v ===== *)
(** * Registering and freeing the interrupt handlers

    [ixgbe_request_irq] registers a handler for every vector that has rings and one for the other causes; [ixgbe_free_irq] takes back exactly these. *)
From S2P Require Import Prelude Hw Sriov Queues QueuesSpec Vectors Irq.

Section Handlers.
Context (entry : Z -> Z) (a : adapter).
Local Notation q := (num_q_vectors a).
Local Notation hinted := (aflag IXGBE_FLAG_FDIR_HASH_CAPABLE a).
(** Every vector is there; the kernel gave each a number of its own. *)
Hypotheses (Hq : 0 <= q) (Hvec : forall v, 0 <= v < q -> is_Some (vector_used a v)) (Hinj : forall u v, 0 <= u <= q -> 0 <= v <= q -> entry u = entry v -> u = v).
Definition used (v : Z) : Prop := vector_used a v = Some true.

(** The table [t] has the handlers of the vectors in [S] besides those of [t0]. *)
Record registered (t0 : irq_table) (S : Z -> Prop) (t : irq_table) : Prop := {
  rg_in : forall v, S v -> handlers t !! entry v = Some (Vector v);
  rg_out : forall irq, (forall v, S v -> irq <> entry v) -> handlers t !! irq = handlers t0 !! irq;
  rg_hint : forall irq, irq ∈ hints t <-> irq ∈ hints t0 \/ (hinted = true /\ exists v, S v /\ irq = entry v);
  rg_bad : bad_frees t = bad_frees t0
}.
(** The numbers of the vectors are free in [t0]. *)
Definition unused_in (t0 : irq_table) : Prop := forall v, 0 <= v < q -> handlers t0 !! entry v = None /\ entry v ∉ hints t0.

Lemma registered_none t0 t S : (forall v, ~ S v) -> registered t0 S t -> t = t0.
Proof.
  intros HS [H1 H2 H3 H4]. destruct t as [hs ht bf], t0 as [hs0 ht0 bf0]. cbn in *. f_equal; [| |done].
  - apply map_eq. intros irq. apply H2. intros v Hv. by apply HS in Hv.
  - apply set_eq. intros irq. rewrite H3. split; [|by left]. intros [?|(_ & v & Hv & _)]; [done|by apply HS in Hv].
Qed.
Lemma registered_iff t0 t S S' : (forall v, S v <-> S' v) -> registered t0 S t -> registered t0 S' t.
Proof.
  intros HS [H1 H2 H3 H4]. split; [| | |done].
  - intros v Hv. by apply H1, HS.
  - intros irq H. apply H2. intros v Hv. by apply H, HS.
  - intros irq. rewrite H3. by setoid_rewrite HS.
Qed.
Lemma register_step t0 t S v : 0 <= v < q -> (forall u, S u -> 0 <= u < q) -> registered t0 S t ->
  let t' := Irqs (<[entry v := Vector v]> (handlers t)) (hints t) (bad_frees t) in
  registered t0 (fun u => S u \/ u = v) (if hinted then irq_set_affinity_hint (entry v) true t' else t').
Proof.
  intros Hv HS [H1 H2 H3 H4]. cbv zeta.
  assert (forall t', handlers t' = <[entry v := Vector v]> (handlers t) -> bad_frees t' = bad_frees t ->
    (forall irq, irq ∈ hints t' <-> irq ∈ hints t \/ (hinted = true /\ irq = entry v)) -> registered t0 (fun u => S u \/ u = v) t') as HG.
  { intros t' E1 E2 E3. split.
    - intros u Hu. rewrite E1. destruct (decide (u = v)) as [->|Hne]; [apply lookup_insert_eq|]. destruct Hu as [Hu|]; [|done].
      rewrite lookup_insert_ne; [by apply H1|]. intros ?%Hinj; [done|lia|specialize (HS u Hu); lia].
    - intros irq H. rewrite E1, lookup_insert_ne by (apply not_eq_sym, H; by right). apply H2. intros u Hu. apply H. by left.
    - intros irq. rewrite E3, H3. split.
      + intros [[?|(E & u & Hu & ->)]|[E ->]]; [by left|right; split; [done|exists u; tauto]|right; split; [done|exists v; tauto]].
      + intros [?|(E & u & [Hu| ->] & ->)]; [by do 2 left|left; right; split; [done|by exists u]|by right].
    - by rewrite E2. }
  destruct hinted eqn:E; apply HG; try done; cbn [hints irq_set_affinity_hint]; intros irq; [rewrite elem_of_union, elem_of_singleton|]; intuition congruence.
Qed.
Lemma release_step t0 t S v : unused_in t0 -> S v -> (forall u, S u -> 0 <= u < q) -> registered t0 S t ->
  registered t0 (fun u => S u /\ u <> v) (free_irq (entry v) (Vector v) (irq_set_affinity_hint (entry v) false t)).
Proof.
  intros HU Hv HS [H1 H2 H3 H4]. unfold free_irq. cbn [handlers hints irq_set_affinity_hint bad_frees]. rewrite bool_decide_true by (split; [by apply H1|set_solver]).
  destruct (HU v (HS v Hv)) as [U1 U2]. split; cbn [handlers hints bad_frees]; [| | |done].
  - intros u [Hu Hne]. rewrite lookup_delete_ne; [by apply H1|]. intros ?%Hinj; [done|specialize (HS v Hv); lia|specialize (HS u Hu); lia].
  - intros irq H. destruct (decide (irq = entry v)) as [->|Hne]; [by rewrite lookup_delete_eq, U1|]. rewrite lookup_delete_ne by done. apply H2. intros u Hu ->. apply (H u); [|done].
    split; [done|]. by intros ->.
  - intros irq. rewrite elem_of_difference, elem_of_singleton, H3. split.
    + intros [[?|(E & u & Hu & ->)] Hne]; [by left|]. right. split; [done|]. exists u. split; [split; [done|by intros ->]|done].
    + intros [Hi|(E & u & [Hu Hne] & ->)]; [split; [by left|by intros ->]|]. split; [right; split; [done|by exists u]|]. intros ?%Hinj; [done|specialize (HS u Hu); lia|specialize (HS v Hv); lia].
Qed.

(** ** The loops *)
Lemma seq_next k : 0 <= k < q -> seqZ k (q - k) = k :: seqZ (k + 1) (q - (k + 1)).
Proof. intros Hk. rewrite seqZ_cons by lia. f_equal. unfold Z.succ, Z.pred. f_equal; lia. Qed.
Lemma request_loop_run request t0 n : forall k t, 0 <= k -> k + Z.of_nat n = q -> registered t0 (fun v => 0 <= v < k /\ used v) t ->
  exists err w t', request_loop entry request (seqZ k (q - k)) a t = Some (err, w, t') /\ k <= w <= q /\ registered t0 (fun v => 0 <= v < w /\ used v) t' /\
    ((err = 0 /\ w = q) \/ (err <> 0 /\ w < q /\ used w /\ request (entry w) = err)).
Proof using All.
  induction n as [|n IH]; intros k t Hk Hn HR.
  { assert (k = q) as -> by lia. replace (q - q) with 0 by lia. exists 0, q, t. cbn. split_and!; [done|lia|lia|done|by left]. }
  rewrite seq_next by lia. cbn [request_loop]. destruct (Hvec k ltac:(lia)) as [b Eb]. rewrite Eb. cbn [mbind option_bind]. destruct b; cbn [negb].
  - unfold request_irq. destruct (truthy (request (entry k))) eqn:E.
    { rewrite E. exists (request (entry k)), k, t. split_and!; [done|lia|lia|done|]. right. split_and!; [|lia|done|done]. intros E0. by rewrite E0 in E. }
    change (truthy 0) with false. cbv iota. apply register_step with (v := k) in HR; [|lia|lia].
    apply registered_iff with (S' := fun v => 0 <= v < k + 1 /\ used v) in HR.
    2: { intros v. cbn beta. split; [intros [[? ?]| ->]; (split; [lia|done])|]. intros [? ?]. destruct (decide (v = k)); [by right|left; split; [lia|done]]. }
    destruct (IH (k + 1) _ ltac:(lia) ltac:(lia) HR) as (err & w & t' & E' & Hw & HR' & Hend). exists err, w, t'. split_and!; [done|lia|lia|done|done].
  - assert (registered t0 (fun v => 0 <= v < k + 1 /\ used v) t) as HR'.
    { eapply registered_iff; [|exact HR]. intros v. cbn beta. split; intros [? Hu]; (split; [|done]); [lia|]. destruct (decide (v = k)) as [->|]; [|lia]. unfold used in Hu. by rewrite Eb in Hu. }
    destruct (IH (k + 1) t ltac:(lia) ltac:(lia) HR') as (err & w & t' & E' & Hw & HR2 & Hend). exists err, w, t'. split_and!; [done|lia|lia|done|done].
Qed.
Lemma free_loop_run t0 n : unused_in t0 -> forall k t, 0 <= k -> k + Z.of_nat n = q -> registered t0 (fun v => k <= v < q /\ used v) t ->
  free_loop_irqs entry (seqZ k (q - k)) a t = Some t0.
Proof using All.
  intros HU. induction n as [|n IH]; intros k t Hk Hn HR.
  { assert (k = q) as -> by lia. replace (q - q) with 0 by lia. cbn. f_equal. eapply registered_none; [|exact HR]. cbn. lia. }
  rewrite seq_next by lia. cbn [free_loop_irqs]. destruct (Hvec k ltac:(lia)) as [b Eb]. rewrite Eb. cbn [mbind option_bind]. destruct b; cbn [negb]; apply IH; try lia.
  - apply release_step with (v := k) in HR; [|done|split; [lia|done]|lia]. eapply registered_iff; [|exact HR]. intros v. cbn beta. split; [intros [[? ?] ?]|intros [? ?]; split]; try (split; [lia|done]); lia.
  - eapply registered_iff; [|exact HR]. intros v. cbn beta. split; intros [? Hu]; (split; [|done]); [|lia]. destruct (decide (v = k)) as [->|]; [|lia]. unfold used in Hu. by rewrite Eb in Hu.
Qed.
(** The error path frees every vector below the one that failed; when all of them are in use this is what was registered. *)
Lemma free_queue_run t0 n : unused_in t0 -> (forall v, 0 <= v < q -> used v) -> Z.of_nat n <= q -> forall t, registered t0 (fun v => 0 <= v < Z.of_nat n /\ used v) t ->
  free_queue_irqs entry n t = t0.
Proof using All.
  intros HU Hall. induction n as [|n IH]; intros Hn t HR; cbn [free_queue_irqs]; [eapply registered_none; [|exact HR]; cbn; lia|]. apply IH; [lia|].
  apply release_step with (v := Z.of_nat n) in HR; [|done|split; [lia|apply Hall; lia]|lia]. eapply registered_iff; [|exact HR]. intros v. cbn beta.
  split; [intros [[? ?] ?]|intros [? ?]; split]; try (split; [lia|done]); lia.
Qed.
(** The table with the handler of the other causes. *)
Definition with_other (t : irq_table) : irq_table := Irqs (<[entry q := TheAdapter]> (handlers t)) (hints t) (bad_frees t).
Lemma registered_other t0 t S : (forall v, S v -> 0 <= v < q) -> registered t0 S t -> registered (with_other t0) S (with_other t).
Proof using All.
  intros HS [H1 H2 H3 H4]. split; [| |done|done]; cbn [handlers with_other].
  - intros v Hv. rewrite lookup_insert_ne; [by apply H1|]. intros ?%Hinj; [specialize (HS v Hv); lia..].
  - intros irq H. destruct (decide (irq = entry q)) as [->|]; [by rewrite !lookup_insert_eq|]. rewrite !lookup_insert_ne by done. by apply H2.
Qed.
Lemma unused_other t0 : unused_in t0 -> unused_in (with_other t0).
Proof using All. intros HU v Hv. destruct (HU v Hv) as [U1 U2]. split; [|done]. cbn. rewrite lookup_insert_ne; [done|]. intros ?%Hinj; lia. Qed.
End Handlers.

(** Every vector of the interrupt scheme has a receive ring when there are no more vectors than rings. *)
Lemma scheme_used a v : num_q_vectors a <= rxq a -> lists_ok (num_q_vectors a) (txq a) (rxq a) (q_vector a) -> 0 <= v < num_q_vectors a -> vector_used a v = Some true.
Proof.
  intros Hq HL Hv. destruct (HL v Hv) as (qv & E & _ & _ & Hrx). unfold vector_used. rewrite E. cbn [mjoin option_join mbind option_bind]. f_equal.
  assert (v ∈ rx_list qv) as Hin by (apply Hrx; split; [lia|apply Z.mod_small; lia]). unfold has_ring. destruct (rx_list qv); [by apply elem_of_nil in Hin|]. apply orb_true_r.
Qed.
Lemma msix_off a : aflag IXGBE_FLAG_MSIX_ENABLED (flag_off IXGBE_FLAG_MSIX_ENABLED a) = false.
Proof.
  unfold aflag, flag_off, set_ad, set_flags. cbn [ad flags]. apply negb_false_iff, Z.eqb_eq, Z.bits_inj'. intros i Hi. rewrite Z.land_spec, Z.ldiff_spec, Z.bits_0.
  by destruct (Z.testbit _ i), (Z.testbit IXGBE_FLAG_MSIX_ENABLED i).
Qed.

(** C36. The handlers of MSI-X: [ixgbe_request_irq] either registers one for each vector and one for the other causes, and [ixgbe_free_irq] then restores the kernel's table without
    a complaint; or it returns the error of a registration that failed, with the table as it was, no complaint, and MSI-X off. *)
Theorem handlers_roundtrip entry pdev_irq request a t0 (q := num_q_vectors a) : aflag IXGBE_FLAG_MSIX_ENABLED a = true -> 1 <= q <= rxq a ->
  lists_ok q (txq a) (rxq a) (q_vector a) -> (forall u v, 0 <= u <= q -> 0 <= v <= q -> entry u = entry v -> u = v) ->
  (forall v, 0 <= v <= q -> handlers t0 !! entry v = None /\ entry v ∉ hints t0) ->
  exists err a' t, ixgbe_request_irq entry pdev_irq request a t0 = Some (err, a', t) /\
    ((err = 0 /\ a' = a /\ (forall v, 0 <= v < q -> handlers t !! entry v = Some (Vector v)) /\ handlers t !! entry q = Some TheAdapter /\
      (forall irq, (forall v, 0 <= v <= q -> irq <> entry v) -> handlers t !! irq = handlers t0 !! irq) /\ bad_frees t = bad_frees t0 /\
      ixgbe_free_irq entry pdev_irq a t = Some t0) \/
     (err <> 0 /\ (exists v, 0 <= v <= q /\ request (entry v) = err) /\ t = t0 /\ aflag IXGBE_FLAG_MSIX_ENABLED a' = false /\ msix_entries a' = false)).
Proof.
  intros Hmsix Hq HL Hinj HF. assert (forall v, 0 <= v < q -> used a v) as Hall by (intros v Hv; apply scheme_used; [lia|done|done]).
  assert (forall v, 0 <= v < q -> is_Some (vector_used a v)) as Hvec by (intros v Hv; eexists; by apply Hall).
  assert (unused_in entry a t0) as HU by (intros v Hv; apply HF; lia). unfold ixgbe_request_irq. rewrite Hmsix. unfold ixgbe_request_msix_irqs.
  destruct (request_loop_run entry a ltac:(fold q; lia) Hvec Hinj request t0 (Z.to_nat q) 0 t0) as (err & w & t & E & Hw & HR & Hend); [lia|fold q; lia|split; cbn; try done; [lia|intros irq; split; [by left|intros [?|(_ & v & [? _] & _)]; [done|lia]]]|].
  rewrite Z.sub_0_r in E. rewrite E. cbn [mbind option_bind]. clear E. fold q in Hw, Hend. destruct Hend as [[-> ->]|(Herr & Hlt & _ & Eerr)].
  - change (truthy 0) with false. cbv iota. unfold request_irq. destruct (truthy (request (entry q))) eqn:E.
    + rewrite E. do 3 eexists. split; [reflexivity|]. right. split_and!; [intros E0; by rewrite E0 in E|exists q; split; [lia|done]| |apply msix_off|done].
      apply (free_queue_run entry a ltac:(fold q; lia) Hvec Hinj t0); [done|done|lia|]. by rewrite Z2Nat.id by lia.
    + change (truthy 0) with false. cbv iota. do 3 eexists. split; [reflexivity|]. left. change (Irqs _ _ _) with (with_other entry a t).
      apply (registered_other entry a ltac:(fold q; lia) Hvec Hinj) in HR; [|fold q; cbn; lia]. destruct (HF q ltac:(lia)) as [F1 F2]. split_and!; [done|done| |by cbn; rewrite lookup_insert_eq| |by rewrite (rg_bad _ _ _ _ _ HR)|].
      * intros v Hv. apply (rg_in _ _ _ _ _ HR). split; [done|by apply Hall].
      * intros irq Hi. rewrite (rg_out _ _ _ _ _ HR) by (intros v [? _]; apply Hi; lia). cbn. rewrite lookup_insert_ne; [done|]. apply not_eq_sym, Hi. lia.
      * unfold ixgbe_free_irq. rewrite Hmsix. cbn [negb]. fold q. rewrite <- (Z.sub_0_r q) at 1. rewrite (free_loop_run entry a ltac:(fold q; lia) Hvec Hinj (with_other entry a t0) (Z.to_nat q)); [|by apply (unused_other entry a ltac:(fold q; lia) Hvec Hinj)|lia|fold q; lia|done].
        cbn [mbind option_bind]. unfold free_irq, with_other. cbn [handlers hints bad_frees]. fold q. rewrite bool_decide_true by (split; [by rewrite lookup_insert_eq|done]).
        rewrite delete_insert_id by done. by destruct t0.
  - rewrite (proj2 (negb_true_iff _) (proj2 (Z.eqb_neq _ _) Herr) : truthy err = true). do 3 eexists. split; [reflexivity|]. right. split_and!; [done|exists w; split; [lia|done]| |apply msix_off|done].
    apply (free_queue_run entry a ltac:(fold q; lia) Hvec Hinj t0); [done|done|lia|]. by rewrite Z2Nat.id by lia.
Qed.
(** Two vectors with a ring of each kind; the registration of the second fails. *)
Definition ex_vectors (v0 v1 : list Z) : adapter :=
  let a := flag_on (Z.lor IXGBE_FLAG_MSIX_ENABLED IXGBE_FLAG_FDIR_HASH_CAPABLE) (fresh_adapter 2 2) in
  set_q_vector [Some (QVector 0 200 256 256 v0 v0); Some (QVector 1 200 256 256 v1 v1)] (set_cnt (Counts 2 2 1 2) (set_vectors 2 true a)).
Lemma ex_lists : lists_ok 2 2 2 (q_vector (ex_vectors [0] [1])).
Proof.
  intros v Hv. assert (forall i, i = v <-> 0 <= i < 2 /\ i mod 2 = v) as Hi.
  { intros i. split; [intros ->; split; [lia|apply Z.mod_small; lia]|intros [Hi <-]; symmetry; apply Z.mod_small; lia]. }
  assert (v = 0 \/ v = 1) as [-> | ->] by lia; (eexists; split; [reflexivity|]; split; [reflexivity|]; split; intros i; cbn; rewrite list_elem_of_singleton; apply Hi).
Qed.
Lemma handlers_roundtrip_witness : let request irq := if irq =? 41 then 16 else 0 in
  exists err a' t, ixgbe_request_irq (fun v => 40 + v) 9 request (ex_vectors [0] [1]) no_irqs = Some (err, a', t) /\ err = 16 /\ t = no_irqs.
Proof.
  intros request. destruct (handlers_roundtrip (fun v => 40 + v) 9 request (ex_vectors [0] [1]) no_irqs) as (err & a' & t & E & H).
  - reflexivity.
  - cbn. lia.
  - apply ex_lists.
  - intros u v _ _ E. lia.
  - intros v _. split; [reflexivity|apply not_elem_of_empty].
  - exists err, a', t. split; [exact E|]. assert (err = 16) as -> by (vm_compute in E; by injection E as <- _ _). split; [done|]. by destruct H as [[H _]|(_ & _ & H & _)].
Defined.
(** A vector without rings is not registered, but the error path frees it; the scheme has no such vector. *)
Theorem skipped_vector_freed : let request irq := if irq =? 41 then 16 else 0 in
  exists a' t, ixgbe_request_irq (fun v => 40 + v) 9 request (ex_vectors [] [1]) no_irqs = Some (16, a', t) /\ bad_frees t = [40].
Proof. do 2 eexists. split; vm_compute; reflexivity. Qed.
