(* ===== verification/IrqEvents.v ===== *)
(** * The interrupt handlers of the causes that are not queues ([ixgbe_main.c])

    [ixgbe_msix_other] and [ixgbe_intr] turn the causes of an interrupt into flags of the adapter and schedule the service task, which acts on them; messages of VFs are
    handled at once ([Sriov.ixgbe_msg_task]). The adapter's flags are those of [Sriov.sriov]; the further state of the handlers is the record [events]. *)
From S2P Require Import Prelude Bits Hw MacTable Sriov SriovSpec Queues Irq IrqRate.

Definition IXGBE_EIMC_FLOW_DIR : Z := IXGBE_EICR_FLOW_DIR.
Definition IXGBE_EIMC_LSC : Z := IXGBE_EICR_LSC.
Definition IXGBE_IRQ_CLEAR_MASK : Z := 0xFFFFFFFF.
Definition IXGBE_FLAG_NEED_LINK_CONFIG : Z := Z.shiftl 1 14.
Definition IXGBE_FLAG2_TEMP_SENSOR_EVENT : Z := Z.shiftl 1 4.
Definition IXGBE_FLAG2_SFP_NEEDS_RESET : Z := Z.shiftl 1 6.
Definition IXGBE_FLAG2_RESET_REQUESTED : Z := Z.shiftl 1 7.

(** [__IXGBE_DOWN] and [__IXGBE_SERVICE_SCHED] of [adapter->state], how often the service task and NAPI were scheduled, the fields that the handlers write, the
    bit [__IXGBE_TX_FDIR_INIT_DONE] of each transmit ring, and the events passed to the PTP clock. *)
Record events := Events {
  is_down : bool; service_sched : bool; works : Z; napis : Z; lsc_int : Z; link_check_timeout : Z; interrupt_event : Z; fdir_done : list bool; pps : Z
}.
Definition set_sched b w e := Events (is_down e) b w (napis e) (lsc_int e) (link_check_timeout e) (interrupt_event e) (fdir_done e) (pps e).
Definition set_napis n e := Events (is_down e) (service_sched e) (works e) n (lsc_int e) (link_check_timeout e) (interrupt_event e) (fdir_done e) (pps e).
Definition set_link_check n j e := Events (is_down e) (service_sched e) (works e) (napis e) n j (interrupt_event e) (fdir_done e) (pps e).
Definition set_event v e := Events (is_down e) (service_sched e) (works e) (napis e) (lsc_int e) (link_check_timeout e) v (fdir_done e) (pps e).
Definition set_fdir_done l e := Events (is_down e) (service_sched e) (works e) (napis e) (lsc_int e) (link_check_timeout e) (interrupt_event e) l (pps e).
Definition set_pps n e := Events (is_down e) (service_sched e) (works e) (napis e) (lsc_int e) (link_check_timeout e) (interrupt_event e) (fdir_done e) n.

(** [adapter->flags |= f] and [adapter->flags2 |= f] *)
Definition or_flags (f : Z) : VM () := vmodify (fun s => set_flags (Z.lor (flags s) f) s).
Definition set_flags2 (f : Z) (s : sriov) : sriov :=
  Sriov (num_vfs s) (vfinfo s) (vf_mvs s) (mac_table s) (flags s) f (vmdq_limit s) (vmdq_offset s) (vmdq_mask s) (rss_limit s) (pg_tcs s) (pfc_tcs s) (vt_mode s) (vf_rate_link_speed s).
Definition or_flags2 (f : Z) : VM () := vmodify (fun s => set_flags2 (Z.lor (flags2 s) f) s).

Definition ixgbe_service_event_schedule (e : events) : events :=
  if negb (is_down e) && negb (service_sched e) then set_sched true (works e + 1) e else e.

Definition ixgbe_check_lsc (jiffies : Z) (e : events) : VM events :=
  let e := set_link_check (lsc_int e + 1) jiffies e in
  _ ← or_flags IXGBE_FLAG_NEED_LINK_UPDATE;
  if negb (is_down e) then
    _ ← lift (IXGBE_WRITE_REG IXGBE_EIMC IXGBE_EIMC_LSC);
    _ ← lift IXGBE_WRITE_FLUSH;
    mret (ixgbe_service_event_schedule e)
  else mret e.
Definition ixgbe_check_fan_failure (eicr : Z) : VM () :=
  s ← vget;
  if truthy (Z.land (flags s) IXGBE_FLAG_FAN_FAIL_CAPABLE) && truthy (Z.land eicr IXGBE_EICR_GPI_SDP1)
  then lift (IXGBE_WRITE_REG IXGBE_EICR IXGBE_EICR_GPI_SDP1) else mret ().
(** Over-temperature: only the 82599 leaves the decision to the service task; on the X540 a message is logged. *)
Definition ixgbe_check_overtemp_event (mac : mac_type) (eicr : Z) (e : events) : VM events :=
  s ← vget;
  if negb (truthy (Z.land (flags2 s) IXGBE_FLAG2_TEMP_SENSOR_CAPABLE)) then mret e
  else
    match mac with
    | ixgbe_mac_82599EB =>
        if (truthy (Z.land eicr IXGBE_EICR_GPI_SDP0) || truthy (Z.land eicr IXGBE_EICR_LSC)) && negb (is_down e) then
          let e := set_event eicr e in
          _ ← or_flags2 IXGBE_FLAG2_TEMP_SENSOR_EVENT;
          mret (ixgbe_service_event_schedule e)
        else mret e
    | _ => mret e
    end.
Definition ixgbe_check_sfp_event (eicr : Z) (e : events) : VM events :=
  e ← (if truthy (Z.land eicr IXGBE_EICR_GPI_SDP2) then
         _ ← lift (IXGBE_WRITE_REG IXGBE_EICR IXGBE_EICR_GPI_SDP2);
         if negb (is_down e) then _ ← or_flags2 IXGBE_FLAG2_SFP_NEEDS_RESET; mret (ixgbe_service_event_schedule e) else mret e
       else mret e);
  if truthy (Z.land eicr IXGBE_EICR_GPI_SDP1) then
    _ ← lift (IXGBE_WRITE_REG IXGBE_EICR IXGBE_EICR_GPI_SDP1);
    if negb (is_down e) then _ ← or_flags IXGBE_FLAG_NEED_LINK_CONFIG; mret (ixgbe_service_event_schedule e) else mret e
  else mret e.
(** The ECC error, the same in both handlers. *)
Definition check_ecc (eicr : Z) (e : events) : VM events :=
  if truthy (Z.land eicr IXGBE_EICR_ECC) then
    _ ← or_flags2 IXGBE_FLAG2_RESET_REQUESTED;
    let e := ixgbe_service_event_schedule e in
    _ ← lift (IXGBE_WRITE_REG IXGBE_EICR IXGBE_EICR_ECC);
    mret e
  else mret e.
(** The flow director's table is full: [test_and_clear_bit] on every transmit ring. *)
Definition check_fdir (eicr : Z) (e : events) : VM events :=
  if truthy (Z.land eicr IXGBE_EICR_FLOW_DIR) then
    let reinit := existsb id (fdir_done e) in
    let e := set_fdir_done (map (fun _ => false) (fdir_done e)) e in
    if reinit then
      _ ← lift (IXGBE_WRITE_REG IXGBE_EIMC IXGBE_EIMC_FLOW_DIR);
      _ ← or_flags2 IXGBE_FLAG2_FDIR_REQUIRES_REINIT;
      mret (ixgbe_service_event_schedule e)
    else mret e
  else mret e.
(** [ixgbe_ptp_check_pps_event] ([ixgbe_ptp.c]) *)
Definition ixgbe_ptp_check_pps_event (ptp_clock : bool) (mac : mac_type) (e : events) : events :=
  if negb ptp_clock then e else match mac with ixgbe_mac_X540 => set_pps (pps e + 1) e | _ => e end.

Section Handlers.
Context `{Netdev} (ptp_clock : bool) (mac : mac_type).

(** [if (!test_bit(__IXGBE_DOWN, ...)) ixgbe_irq_enable(...)] *)
Definition reenable (queues flush : bool) (e : events) : VM () :=
  if negb (is_down e) then s ← vget; lift (ixgbe_irq_enable mac (flags s) (flags2 s) queues flush) else mret ().
(** [stack]: what the buffer for VF messages on the stack holds. *)
Definition ixgbe_msix_other (stack : Z -> list Z) (jiffies : Z) (e : events) : VM events :=
  eicr ← lift (IXGBE_READ_REG IXGBE_EICS);
  let eicr := Z.land eicr 0xFFFF0000 in
  _ ← lift (IXGBE_WRITE_REG IXGBE_EICR eicr);
  e ← (if truthy (Z.land eicr IXGBE_EICR_LSC) then ixgbe_check_lsc jiffies e else mret e);
  _ ← (if truthy (Z.land eicr IXGBE_EICR_MAILBOX) then ixgbe_msg_task stack else mret ());
  e ← match mac with
      | ixgbe_mac_82599EB | ixgbe_mac_X540 =>
          e ← check_ecc eicr e;
          e ← check_fdir eicr e;
          e ← ixgbe_check_sfp_event eicr e;
          ixgbe_check_overtemp_event mac eicr e
      | _ => mret e
      end;
  _ ← ixgbe_check_fan_failure eicr;
  let e := if truthy (Z.land eicr IXGBE_EICR_TIMESYNC) then ixgbe_ptp_check_pps_event ptp_clock mac e else e in
  _ ← reenable false false e;
  mret e.
(** The handler of MSI and of the shared line; [false] is [IRQ_NONE]. *)
Definition ixgbe_intr (jiffies : Z) (e : events) : VM (bool * events) :=
  _ ← lift (IXGBE_WRITE_REG IXGBE_EIMC IXGBE_IRQ_CLEAR_MASK);
  eicr ← lift (IXGBE_READ_REG IXGBE_EICR);
  if negb (truthy eicr) then
    _ ← reenable true true e;
    mret (false, e)
  else
    e ← (if truthy (Z.land eicr IXGBE_EICR_LSC) then ixgbe_check_lsc jiffies e else mret e);
    e ← match mac with
        | ixgbe_mac_82599EB | ixgbe_mac_X540 =>
            e ← check_ecc eicr e;
            e ← ixgbe_check_sfp_event eicr e;
            ixgbe_check_overtemp_event mac eicr e
        | _ => mret e
        end;
    _ ← ixgbe_check_fan_failure eicr;
    let e := if truthy (Z.land eicr IXGBE_EICR_TIMESYNC) then ixgbe_ptp_check_pps_event ptp_clock mac e else e in
    let e := set_napis (napis e + 1) e in
    _ ← reenable false false e;
    mret (true, e).
End Handlers.

(** ** Runs of a handler *)
Definition ewp {A} (m : VM A) (s : sriov) (h : ixgbe_hw) (Q : A -> sriov -> ixgbe_hw -> Prop) : Prop :=
  match m s h with (Some (a, s'), h') => Q a s' h' | (None, _) => False end.
Section Rules.
Context {A B : Type}.
Implicit Types (s : sriov) (h : ixgbe_hw).
Lemma ewp_ret (a : A) s h (Q : A -> sriov -> ixgbe_hw -> Prop) : Q a s h -> ewp (mret a) s h Q.
Proof. done. Qed.
Lemma ewp_bind (m : VM A) (k : A -> VM B) s h Q : ewp m s h (fun a s' h' => ewp (k a) s' h' Q) -> ewp (a ← m; k a) s h Q.
Proof. unfold ewp, mbind, VM_bind, mbind, M_bind. destruct (m s h) as [[[a s']|] h']; done. Qed.
Lemma ewp_get s h (Q : sriov -> sriov -> ixgbe_hw -> Prop) : Q s s h -> ewp vget s h Q.
Proof. done. Qed.
Lemma ewp_modify f s h (Q : () -> sriov -> ixgbe_hw -> Prop) : Q () (f s) h -> ewp (vmodify f) s h Q.
Proof. done. Qed.
Lemma ewp_lift (m : M A) s h (Q : A -> sriov -> ixgbe_hw -> Prop) : wlp m h (fun a h' => Q a s h') -> ewp (lift m) s h Q.
Proof. unfold ewp, lift, wlp, mbind, M_bind. by destruct (m h). Qed.
End Rules.

(** Accesses that clear no cause of a queue. *)
Definition spares_queues (x : access) : Prop := match x with Wr r v => r = IXGBE_EICR -> Z.land v IXGBE_EICR_RTX_QUEUE = 0 | Rd _ _ => True end.
Definition spared (h h' : ixgbe_hw) : Prop := exists t, tr h' = tr h ++ t /\ Forall spares_queues t.
#[export] Instance spared_preorder : PreOrder spared.
Proof.
  split; [intros h; exists []; by rewrite app_nil_r|]. intros h1 h2 h3 (t & E & Ht) (t' & E' & Ht'). exists (t ++ t'). rewrite E', E, app_assoc. split; [done|by apply Forall_app].
Qed.
Lemma ewp_write r v s h (Q : () -> sriov -> ixgbe_hw -> Prop) : spares_queues (Wr r v) -> (forall h', spared h h' -> Q () s h') -> ewp (lift (IXGBE_WRITE_REG r v)) s h Q.
Proof. intros Hs HQ. apply ewp_lift, wlp_write, HQ. exists [Wr r v]. split; [done|]. by constructor. Qed.
Lemma ewp_flush s h (Q : () -> sriov -> ixgbe_hw -> Prop) : (forall h', spared h h' -> Q () s h') -> ewp (lift IXGBE_WRITE_FLUSH) s h Q.
Proof. intros HQ. apply ewp_lift. unfold IXGBE_WRITE_FLUSH. apply wlp_bind, wlp_read, wlp_ret, HQ. eexists. split; [done|]. by repeat constructor. Qed.

(** A test that raises a flag and schedules the service task. *)
Definition sched_if (b : bool) (e : events) : events := if b then ixgbe_service_event_schedule e else e.
Definition flag_if (b : bool) (f : Z) (s : sriov) : sriov := if b then set_flags (Z.lor (flags s) f) s else s.
Definition flag2_if (b : bool) (f : Z) (s : sriov) : sriov := if b then set_flags2 (Z.lor (flags2 s) f) s else s.
Section Checks.
Context (e : events) (Hup : is_down e = false).
Implicit Types (s : sriov) (h : ixgbe_hw) (Q : events -> sriov -> ixgbe_hw -> Prop).
Lemma lsc_spec (b : bool) jiffies s h Q :
  (forall h', spared h h' -> Q (sched_if b (if b then set_link_check (lsc_int e + 1) jiffies e else e)) (flag_if b IXGBE_FLAG_NEED_LINK_UPDATE s) h') ->
  ewp (if b then ixgbe_check_lsc jiffies e else mret e) s h Q.
Proof.
  intros HQ. destruct b; [|apply ewp_ret; by apply HQ]. unfold ixgbe_check_lsc. apply ewp_bind, ewp_modify. cbn [is_down set_link_check]. rewrite Hup. cbn [negb].
  apply ewp_bind, ewp_write; [done|]. intros h1 H1. apply ewp_bind, ewp_flush. intros h2 H2. apply ewp_ret, HQ. by etrans.
Qed.
Lemma ecc_spec eicr s h Q : let b := truthy (Z.land eicr IXGBE_EICR_ECC) in
  (forall h', spared h h' -> Q (sched_if b e) (flag2_if b IXGBE_FLAG2_RESET_REQUESTED s) h') -> ewp (check_ecc eicr e) s h Q.
Proof.
  intros b HQ. unfold check_ecc. fold b. destruct b; [|apply ewp_ret; by apply HQ]. apply ewp_bind, ewp_modify. apply ewp_bind, ewp_write; [done|]. intros h1 H1. by apply ewp_ret, HQ.
Qed.
Lemma fdir_spec eicr s h Q : let b := truthy (Z.land eicr IXGBE_EICR_FLOW_DIR) in let r := b && existsb id (fdir_done e) in
  (forall h', spared h h' -> Q (sched_if r (if b then set_fdir_done (map (fun _ => false) (fdir_done e)) e else e)) (flag2_if r IXGBE_FLAG2_FDIR_REQUIRES_REINIT s) h') ->
  ewp (check_fdir eicr e) s h Q.
Proof.
  intros b r HQ. unfold check_fdir. subst r. fold b. destruct b; [|apply ewp_ret; by apply HQ]. cbn [andb] in HQ. destruct (existsb id (fdir_done e)); [|apply ewp_ret; by apply HQ].
  apply ewp_bind, ewp_write; [done|]. intros h1 H1. apply ewp_bind, ewp_modify, ewp_ret. by apply HQ.
Qed.
Lemma overtemp_spec mac eicr s h Q :
  let b := truthy (Z.land (flags2 s) IXGBE_FLAG2_TEMP_SENSOR_CAPABLE) && bool_decide (mac = ixgbe_mac_82599EB) && (truthy (Z.land eicr IXGBE_EICR_GPI_SDP0) || truthy (Z.land eicr IXGBE_EICR_LSC)) in
  (Q (sched_if b (if b then set_event eicr e else e)) (flag2_if b IXGBE_FLAG2_TEMP_SENSOR_EVENT s) h) -> ewp (ixgbe_check_overtemp_event mac eicr e) s h Q.
Proof.
  intros b HQ. unfold ixgbe_check_overtemp_event. apply ewp_bind, ewp_get. subst b. destruct (truthy (Z.land (flags2 s) _)); cbn [negb]; [|by apply ewp_ret].
  destruct mac; cbn in HQ; try by apply ewp_ret. rewrite Hup. cbn [negb]. rewrite andb_true_r. destruct (_ || _); [|by apply ewp_ret]. by apply ewp_bind, ewp_modify, ewp_ret.
Qed.
End Checks.
Lemma up_sched b e : is_down (sched_if b e) = is_down e.
Proof. destruct b; [|done]. unfold sched_if, ixgbe_service_event_schedule. by destruct (_ && _). Qed.
Lemma fdir_sched b e : fdir_done (sched_if b e) = fdir_done e.
Proof. destruct b; [|done]. unfold sched_if, ixgbe_service_event_schedule. by destruct (_ && _). Qed.
Lemma sfp_spec e eicr s h (Q : events -> sriov -> ixgbe_hw -> Prop) : is_down e = false ->
  let b2 := truthy (Z.land eicr IXGBE_EICR_GPI_SDP2) in let b1 := truthy (Z.land eicr IXGBE_EICR_GPI_SDP1) in
  (forall h', spared h h' -> Q (sched_if b1 (sched_if b2 e)) (flag_if b1 IXGBE_FLAG_NEED_LINK_CONFIG (flag2_if b2 IXGBE_FLAG2_SFP_NEEDS_RESET s)) h') ->
  ewp (ixgbe_check_sfp_event eicr e) s h Q.
Proof.
  intros Hup b2 b1 HQ. unfold ixgbe_check_sfp_event. fold b2 b1. apply ewp_bind.
  assert (forall h', spared h h' -> ewp (if b1 then _ ← lift (IXGBE_WRITE_REG IXGBE_EICR IXGBE_EICR_GPI_SDP1);
      if negb (is_down (sched_if b2 e)) then _ ← or_flags IXGBE_FLAG_NEED_LINK_CONFIG; mret (ixgbe_service_event_schedule (sched_if b2 e)) else mret (sched_if b2 e)
    else mret (sched_if b2 e)) (flag2_if b2 IXGBE_FLAG2_SFP_NEEDS_RESET s) h' Q) as H1.
  { intros h' Hh. destruct b1; [|apply ewp_ret; by apply HQ]. apply ewp_bind, ewp_write; [done|]. intros h2 H2. rewrite up_sched, Hup. cbn [negb]. apply ewp_bind, ewp_modify, ewp_ret, HQ. by etrans. }
  destruct b2; [|by apply ewp_ret, H1]. apply ewp_bind, ewp_write; [done|]. intros h2 H2. rewrite Hup. cbn [negb]. apply ewp_bind, ewp_modify, ewp_ret. by apply H1.
Qed.
Lemma fan_spec eicr s h (Q : () -> sriov -> ixgbe_hw -> Prop) : (forall h', spared h h' -> Q () s h') -> ewp (ixgbe_check_fan_failure eicr) s h Q.
Proof. intros HQ. unfold ixgbe_check_fan_failure. apply ewp_bind, ewp_get. destruct (_ && _); [by apply ewp_write|by apply ewp_ret, HQ]. Qed.

(** ** What the causes ask for *)
Definition cause (eicr bit : Z) : bool := truthy (Z.land eicr bit).
Definition flag_for (b : bool) (f : Z) : Z := if b then f else 0.
Definition later (mac : mac_type) : bool := match mac with ixgbe_mac_82599EB | ixgbe_mac_X540 => true | _ => false end.
Definition asked_flags (mac : mac_type) (eicr : Z) : Z :=
  Z.lor (flag_for (cause eicr IXGBE_EICR_LSC) IXGBE_FLAG_NEED_LINK_UPDATE) (flag_for (later mac && cause eicr IXGBE_EICR_GPI_SDP1) IXGBE_FLAG_NEED_LINK_CONFIG).
Definition asked_flags2 (mac : mac_type) (eicr : Z) (filters : list bool) (f2 : Z) : Z :=
  Z.lor (Z.lor (Z.lor (flag_for (later mac && cause eicr IXGBE_EICR_ECC) IXGBE_FLAG2_RESET_REQUESTED)
    (flag_for (later mac && (cause eicr IXGBE_EICR_FLOW_DIR && existsb id filters)) IXGBE_FLAG2_FDIR_REQUIRES_REINIT))
    (flag_for (later mac && cause eicr IXGBE_EICR_GPI_SDP2) IXGBE_FLAG2_SFP_NEEDS_RESET))
    (flag_for (cause f2 IXGBE_FLAG2_TEMP_SENSOR_CAPABLE && bool_decide (mac = ixgbe_mac_82599EB) && (cause eicr IXGBE_EICR_GPI_SDP0 || cause eicr IXGBE_EICR_LSC))
       IXGBE_FLAG2_TEMP_SENSOR_EVENT).

Lemma flags_if b f s : flags (flag_if b f s) = Z.lor (flags s) (flag_for b f) /\ flags2 (flag_if b f s) = flags2 s.
Proof. destruct b; cbn; by rewrite ?Z.lor_0_r. Qed.
Lemma flags2_if b f s : flags2 (flag2_if b f s) = Z.lor (flags2 s) (flag_for b f) /\ flags (flag2_if b f s) = flags s.
Proof. destruct b; cbn; by rewrite ?Z.lor_0_r. Qed.
(** What a chain of tests does to the service task. *)
Definition queued (e : events) (b : bool) (e' : events) : Prop :=
  is_down e' = false /\ service_sched e' = service_sched e || b /\ works e' = works e + Z.b2z (b && negb (service_sched e)).
Lemma queued_refl e : is_down e = false -> queued e false e.
Proof. intros H. unfold queued. rewrite orb_false_r. cbn. split_and!; [done|done|lia]. Qed.
Lemma queued_step e b e1 c e2 : queued e b e1 -> is_down e2 = is_down e1 -> service_sched e2 = service_sched e1 -> works e2 = works e1 -> queued e (b || c) (sched_if c e2).
Proof.
  intros (D & S & W) D2 S2 W2. unfold queued, sched_if, ixgbe_service_event_schedule. destruct c.
  - rewrite D2, D, S2, S. cbn [negb andb]. destruct (service_sched e), b; cbn [orb negb andb is_down service_sched works set_sched Z.b2z] in *; rewrite ?D2, ?D, ?S2, ?S, ?W2, ?W; split_and!; cbn; try done; lia.
  - rewrite D2, S2, W2, orb_false_r. by split_and!.
Qed.
Lemma no_lsc mac flags flags2 : truthy (Z.land flags IXGBE_FLAG_NEED_LINK_UPDATE) = true -> Z.land (irq_mask mac flags flags2) IXGBE_EIMS_LSC = 0.
Proof. intros H. unfold irq_mask. rewrite H. cbv zeta. destruct mac; repeat (match goal with |- context [if ?b then _ else _] => destruct b end); vm_compute; reflexivity. Qed.
(** The causes that are to be enabled, by their bits in the mask register: the flow director (16) while it has filters to watch, the mailbox (19), the change of the
    link (20) unless the service task still has to look at it, the temperature of the X540 (23), the time stamps and the 82599's temperature, which share a bit (24), the
    general purpose pins of the 82599 (25, 26), the first of them also where a fan is watched, ECC errors (28), the TCP timer (30) and the other causes (31). *)
Definition to_enable (mac : mac_type) (flags flags2 i : Z) : bool :=
  if i =? 16 then cause flags IXGBE_FLAG_FDIR_HASH_CAPABLE && negb (cause flags2 IXGBE_FLAG2_FDIR_REQUIRES_REINIT)
  else if (i =? 19) || (i =? 24) || (i =? 28) then later mac
  else if i =? 20 then negb (cause flags IXGBE_FLAG_NEED_LINK_UPDATE)
  else if i =? 23 then cause flags2 IXGBE_FLAG2_TEMP_SENSOR_CAPABLE && bool_decide (mac = ixgbe_mac_X540)
  else if i =? 25 then cause flags IXGBE_FLAG_FAN_FAIL_CAPABLE || bool_decide (mac = ixgbe_mac_82599EB)
  else if i =? 26 then bool_decide (mac = ixgbe_mac_82599EB)
  else (i =? 30) || (i =? 31).
Lemma irq_mask_bit mac flags flags2 i : Z.testbit (irq_mask mac flags flags2) i = to_enable mac flags flags2 i.
Proof.
  assert (0 <= irq_mask mac flags flags2 < 2 ^ 32 /\ forallb (fun i => Bool.eqb (Z.testbit (irq_mask mac flags flags2) i) (to_enable mac flags flags2 i)) (seqZ 0 32) = true) as [Hr Hb].
  { unfold irq_mask, to_enable, cause. generalize (truthy (Z.land flags IXGBE_FLAG_NEED_LINK_UPDATE)) (truthy (Z.land flags2 IXGBE_FLAG2_TEMP_SENSOR_CAPABLE)) (truthy (Z.land flags IXGBE_FLAG_FAN_FAIL_CAPABLE))
      (truthy (Z.land flags IXGBE_FLAG_FDIR_HASH_CAPABLE)) (truthy (Z.land flags2 IXGBE_FLAG2_FDIR_REQUIRES_REINIT)). intros [] [] [] [] []; destruct mac; (split; [by vm_compute|vm_compute; reflexivity]). }
  destruct (decide (0 <= i < 32)) as [Hi|Hi].
  - rewrite forallb_forall in Hb. apply Bool.eqb_prop, Hb. by apply list_elem_of_In, elem_of_seqZ.
  - unfold to_enable. rewrite !(proj2 (Z.eqb_neq i _)) by lia. cbn [orb]. destruct (decide (i < 0)); [apply Z.testbit_neg_r; lia|]. rewrite <- (Z.mod_small _ (2 ^ 32)) by done. apply Z.mod_pow2_bits_high. lia.
Qed.
Lemma truthy_lor_r a f m : truthy (Z.land f m) = true -> truthy (Z.land (Z.lor a f) m) = true.
Proof.
  intros H. apply negb_true_iff, Z.eqb_neq. intros E. rewrite Z.land_lor_distr_l in E. apply Z.lor_eq_0_iff in E as [_ E]. by rewrite E in H.
Qed.
Lemma cause_lor f2 g m : Z.land g m = 0 -> cause (Z.lor f2 g) m = cause f2 m.
Proof. intros E. unfold cause. by rewrite Z.land_lor_distr_l, E, Z.lor_0_r. Qed.
Lemma flag_for_land b f m : Z.land f m = 0 -> Z.land (flag_for b f) m = 0.
Proof. by destruct b. Qed.
Lemma reenable_spec mac e s h (Q : () -> sriov -> ixgbe_hw -> Prop) : is_down e = false ->
  (forall h', spared h h' -> last_write (tr h') IXGBE_EIMS = irq_mask mac (flags s) (flags2 s) -> Q () s h') -> ewp (reenable mac false false e) s h Q.
Proof.
  intros He HQ. unfold reenable. rewrite He. cbn [negb]. apply ewp_bind, ewp_get, ewp_lift. unfold ixgbe_irq_enable. apply wlp_bind, wlp_write, wlp_bind, wlp_ret, wlp_ret, HQ.
  - eexists. split; [done|]. by repeat constructor.
  - apply last_write_last.
Qed.
(** The tests of later devices, together. *)
Definition late_checks (mac : mac_type) (fd : bool) (eicr : Z) (e : events) : VM events :=
  if later mac then
    e ← check_ecc eicr e;
    e ← (if fd then check_fdir eicr e else mret e);
    e ← ixgbe_check_sfp_event eicr e;
    ixgbe_check_overtemp_event mac eicr e
  else mret e.
(** Something is asked for when one of the causes is there. *)
Lemma asked_any b c1 c2 s2 s1 t :
  b || truthy (Z.lor (flag_for s1 IXGBE_FLAG_NEED_LINK_CONFIG) (Z.lor (Z.lor (Z.lor (flag_for c1 IXGBE_FLAG2_RESET_REQUESTED) (flag_for c2 IXGBE_FLAG2_FDIR_REQUIRES_REINIT))
    (flag_for s2 IXGBE_FLAG2_SFP_NEEDS_RESET)) (flag_for t IXGBE_FLAG2_TEMP_SENSOR_EVENT))) = b || c1 || c2 || s2 || s1 || t.
Proof. by destruct b, c1, c2, s2, s1, t. Qed.
Lemma late_spec mac (fd : bool) eicr e0 b e s h (Q : events -> sriov -> ixgbe_hw -> Prop) : queued e0 b e ->
  let f := flag_for (later mac && cause eicr IXGBE_EICR_GPI_SDP1) IXGBE_FLAG_NEED_LINK_CONFIG in
  let f2 := asked_flags2 mac eicr (if fd then fdir_done e else []) (flags2 s) in
  (forall e' s' h', spared h h' -> queued e0 (b || truthy (Z.lor f f2)) e' -> flags s' = Z.lor (flags s) f -> flags2 s' = Z.lor (flags2 s) f2 -> Q e' s' h') ->
  ewp (late_checks mac fd eicr e) s h Q.
Proof.
  intros He f f2 HQ. unfold late_checks. subst f f2. unfold asked_flags2 in *. destruct (later mac) eqn:Hl.
  2: { apply ewp_ret. replace (bool_decide (mac = ixgbe_mac_82599EB)) with false in HQ by (by destruct mac). rewrite andb_false_r in HQ. cbn [andb flag_for Z.lor] in HQ. apply HQ; [done| |by rewrite Z.lor_0_r..].
    change (truthy 0) with false. by rewrite orb_false_r. }
  cbn [andb] in HQ. apply ewp_bind, ecc_spec. intros h1 H1. fold (cause eicr IXGBE_EICR_ECC). set (c1 := cause eicr IXGBE_EICR_ECC) in *.
  pose proof (queued_step e0 b e c1 e He eq_refl eq_refl eq_refl) as K1. apply ewp_bind.
  assert (forall c2 e2 s2 h2, c2 = cause eicr IXGBE_EICR_FLOW_DIR && existsb id (if fd then fdir_done e else []) -> spared h h2 -> queued e0 (b || c1 || c2) e2 ->
    s2 = flag2_if c2 IXGBE_FLAG2_FDIR_REQUIRES_REINIT (flag2_if c1 IXGBE_FLAG2_RESET_REQUESTED s) ->
    ewp (e ← ixgbe_check_sfp_event eicr e2; ixgbe_check_overtemp_event mac eicr e) s2 h2 Q) as Hrest.
  { intros c2 e2 s2 h2 E2 Hs K2 ->. apply ewp_bind, sfp_spec; [apply K2|]. intros h3 H3. fold (cause eicr IXGBE_EICR_GPI_SDP2) (cause eicr IXGBE_EICR_GPI_SDP1).
    pose proof (queued_step e0 _ e2 (cause eicr IXGBE_EICR_GPI_SDP2) e2 K2 eq_refl eq_refl eq_refl) as K3.
    pose proof (queued_step e0 _ _ (cause eicr IXGBE_EICR_GPI_SDP1) _ K3 eq_refl eq_refl eq_refl) as K4. apply overtemp_spec; [apply K4|].
    fold (cause eicr IXGBE_EICR_GPI_SDP0) (cause eicr IXGBE_EICR_LSC). rewrite (proj2 (flags_if _ _ _)), !(proj1 (flags2_if _ _ _)).
    match goal with |- context [truthy (Z.land ?x IXGBE_FLAG2_TEMP_SENSOR_CAPABLE)] => change (truthy (Z.land x IXGBE_FLAG2_TEMP_SENSOR_CAPABLE)) with (cause x IXGBE_FLAG2_TEMP_SENSOR_CAPABLE) end.
    do 3 (rewrite cause_lor; [|by apply flag_for_land]). rewrite <- E2 in HQ. apply HQ; [by etrans| | |].
    - match goal with |- queued _ ?z (sched_if ?c ?x) => pose proof (queued_step e0 _ _ c x K4) as K5; assert (z = b || c1 || c2 || cause eicr IXGBE_EICR_GPI_SDP2 || cause eicr IXGBE_EICR_GPI_SDP1 || c) as -> end.
      { apply asked_any. }
      apply K5; by destruct (_ && _ && _).
    - rewrite (proj2 (flags2_if _ _ _)), (proj1 (flags_if _ _ _)), !(proj2 (flags2_if _ _ _)). done.
    - rewrite (proj1 (flags2_if _ _ _)), (proj2 (flags_if _ _ _)), !(proj1 (flags2_if _ _ _)). by rewrite !Z.lor_assoc. }
  destruct fd.
  - apply fdir_spec. intros h2 H2. fold (cause eicr IXGBE_EICR_FLOW_DIR). rewrite fdir_sched.
    eapply Hrest; [done|by etrans| |done]. eapply queued_step; [exact K1|by destruct (cause eicr IXGBE_EICR_FLOW_DIR)..].
  - apply ewp_ret. eapply (Hrest false); [by rewrite andb_false_r|done| |done]. by rewrite orb_false_r.
Qed.

(** ** The handlers *)
Lemma msg_task_safe `{Netdev} stack s : allocated s -> vwp (ixgbe_msg_task stack) s (fun _ => allocated).
Proof.
  intros Ha. apply vwp_bind, vwp_get. eapply vwp_mono; [apply (ki_for_each (same_vfs (num_vfs s) (vmdq_offset s)))|].
  - intros i Hi%list_elem_of_In%elem_of_seqZ. apply step_same. lia.
  - by split_and!.
  - intros u s' (H' & _). exact H'.
Qed.
(** What a handler makes of the causes [eicr]. *)
Definition handled (mac : mac_type) (eicr : Z) (filters : list bool) (e : events) (s : sriov) (h : ixgbe_hw) (e' : events) (s' : sriov) (h' : ixgbe_hw) : Prop :=
  let f := asked_flags mac eicr in let f2 := asked_flags2 mac eicr filters (flags2 s) in
  flags s' = Z.lor (flags s) f /\ flags2 s' = Z.lor (flags2 s) f2 /\ queued e (truthy (Z.lor f f2)) e' /\ spared h h' /\
  (forall i, Z.testbit (last_write (tr h') IXGBE_EIMS) i = to_enable mac (flags s') (flags2 s') i) /\ (cause eicr IXGBE_EICR_LSC = true -> Z.land (last_write (tr h') IXGBE_EIMS) IXGBE_EIMS_LSC = 0).

(** From the link's test to the end, which both handlers share; [fin] is what one of them does besides, [k] returns. *)
Section Body.
Context `{Netdev} (ptp_clock : bool) (mac : mac_type).
Lemma body_spec (fd : bool) (fin : events -> events) {B} (k : events -> VM B) eicr jiffies e s h h0 (Q : B -> sriov -> ixgbe_hw -> Prop) : is_down e = false -> spared h0 h ->
  (forall e, is_down (fin e) = is_down e /\ service_sched (fin e) = service_sched e /\ works (fin e) = works e) ->
  (forall e' s' h', handled mac eicr (if fd then fdir_done e else []) e s h0 e' s' h' -> ewp (k e') s' h' Q) ->
  ewp (e ← (if truthy (Z.land eicr IXGBE_EICR_LSC) then ixgbe_check_lsc jiffies e else mret e);
       e ← late_checks mac fd eicr e;
       _ ← ixgbe_check_fan_failure eicr;
       let e := fin (if truthy (Z.land eicr IXGBE_EICR_TIMESYNC) then ixgbe_ptp_check_pps_event ptp_clock mac e else e) in
       _ ← reenable mac false false e;
       k e) s h Q.
Proof.
  intros Hup H0 Hfin HQ. fold (cause eicr IXGBE_EICR_LSC). set (b := cause eicr IXGBE_EICR_LSC). apply ewp_bind, lsc_spec; [done|]. intros h1 H1. set (e1 := sched_if b _).
  assert (queued e b e1 /\ fdir_done e1 = fdir_done e) as [K1 F1].
  { split; [apply (queued_step e false e b); [by apply queued_refl|by destruct b..]|]. unfold e1. rewrite fdir_sched. by destruct b. }
  apply ewp_bind. eapply late_spec; [exact K1|]. rewrite F1, (proj1 (flags_if _ _ _)), (proj2 (flags_if _ _ _)). intros e2 s2 h2 H2 K2 E2 E2'.
  apply ewp_bind, fan_spec. intros h3 H3. cbv zeta. set (e3 := fin _).
  assert (is_down e3 = is_down e2 /\ service_sched e3 = service_sched e2 /\ works e3 = works e2) as (D3 & S3 & W3).
  { unfold e3. destruct (Hfin (if truthy (Z.land eicr IXGBE_EICR_TIMESYNC) then ixgbe_ptp_check_pps_event ptp_clock mac e2 else e2)) as (-> & -> & ->).
    destruct (truthy (Z.land eicr IXGBE_EICR_TIMESYNC)); [|by split_and!]. unfold ixgbe_ptp_check_pps_event. by destruct ptp_clock, mac. }
  apply ewp_bind, reenable_spec; [rewrite D3; apply K2|]. intros h4 H4 L4. apply HQ.
  assert (spared h0 h4) as Hs by (etrans; [exact H0|]; etrans; [exact H1|]; etrans; [exact H2|]; by etrans). unfold handled. cbv zeta. split_and!; [|done| |done|intros i; rewrite L4; apply irq_mask_bit|].
  - rewrite E2. unfold asked_flags. by rewrite Z.lor_assoc.
  - unfold queued in *. rewrite D3, S3, W3. unfold asked_flags. fold b. clear -K2.
    match goal with |- context [truthy (Z.lor (Z.lor ?x ?f) ?g)] => replace (truthy (Z.lor (Z.lor x f) g)) with (b || truthy (Z.lor f g)); [exact K2|] end.
    destruct b; cbn [flag_for orb]; [|done]. symmetry. apply negb_true_iff, Z.eqb_neq. intros E. apply Z.lor_eq_0_iff in E as [E _]. by apply Z.lor_eq_0_iff in E as [E _].
  - intros Hb. rewrite L4. apply no_lsc. rewrite E2. unfold b. rewrite Hb. cbn [flag_for]. rewrite Z.land_lor_distr_l.
    apply negb_true_iff, Z.eqb_neq. intros E. apply Z.lor_eq_0_iff in E as [E _]. rewrite Z.land_lor_distr_l in E. by apply Z.lor_eq_0_iff in E as [_ E].
Qed.
End Body.

(** C39. No cause is lost. While the adapter is up and no VF has sent a message, [ixgbe_msix_other] raises exactly the flags that the causes in EICS ask for, the service
    task is queued once if any is raised (and not again while it is queued), and no cause of a queue is cleared. The handler then enables, bit by bit, exactly the
    causes that are to be watched with the flags as they are at the end: the TCP timer and OTHER always; the link's change unless the service task still has to
    look at it, which is so if it was among the causes; mailbox, ECC and time stamps on the 82599 and X540; the pins SDP1 and SDP2 on the 82599, SDP1 also where
    a fan is watched; the X540's sensor if it has one; the flow director if it hashes and does not wait to be set up again; and no queue. *)
Theorem other_causes_handled `{Netdev} ptp_clock mac stack jiffies e s h : let eicr := Z.land (ans h (tr h) IXGBE_EICS) 0xFFFF0000 in
  is_down e = false -> cause eicr IXGBE_EICR_MAILBOX = false ->
  exists e' s' h', ixgbe_msix_other ptp_clock mac stack jiffies e s h = (Some (e', s'), h') /\ handled mac eicr (fdir_done e) e s h e' s' h'.
Proof.
  intros eicr Hup Hm. cut (ewp (ixgbe_msix_other ptp_clock mac stack jiffies e) s h (handled mac eicr (fdir_done e) e s h)).
  { unfold ewp. destruct (ixgbe_msix_other _ _ _ _ _ _ _) as [[[e' s']|] h']; [|done]. intros HH. by exists e', s', h'. }
  unfold ixgbe_msix_other. apply ewp_bind, ewp_lift, wlp_read. fold eicr. apply ewp_bind, ewp_write.
  { intros _. unfold eicr, IXGBE_EICR_RTX_QUEUE. by rewrite <- Z.land_assoc, Z.land_0_r. }
  intros h1 H1. fold (cause eicr IXGBE_EICR_MAILBOX). rewrite Hm.
  assert (spared h h1) as H0 by (etrans; [|exact H1]; eexists; split; [done|by repeat constructor]).
  pose proof (body_spec ptp_clock mac true id mret eicr jiffies e s h1 h (handled mac eicr (fdir_done e) e s h) Hup H0 (fun _ => conj eq_refl (conj eq_refl eq_refl)) (fun _ _ _ HH => HH)) as HB.
  unfold late_checks in HB. destruct mac; exact HB.
Qed.
(** The same for the handler of MSI and of the line, when the interrupt is the adapter's: all is masked first, and NAPI polls the queues. *)
Theorem intr_handled `{Netdev} ptp_clock mac jiffies e s h : let eicr := ans h (tr h ++ [Wr IXGBE_EIMC IXGBE_IRQ_CLEAR_MASK]) IXGBE_EICR in
  is_down e = false -> truthy eicr = true ->
  exists e' s' h', ixgbe_intr ptp_clock mac jiffies e s h = (Some (true, e', s'), h') /\ handled mac eicr [] e s h e' s' h'.
Proof.
  intros eicr Hup Ht. cut (ewp (ixgbe_intr ptp_clock mac jiffies e) s h (fun r s' h' => r.1 = true /\ handled mac eicr [] e s h r.2 s' h')).
  { unfold ewp. destruct (ixgbe_intr _ _ _ _ _ _) as [[[[r e'] s']|] h']; [|done]. cbn. intros [-> HH]. by exists e', s', h'. }
  unfold ixgbe_intr. apply ewp_bind, ewp_lift, wlp_write, ewp_bind, ewp_lift, wlp_read.
  change (ans (emit [Wr IXGBE_EIMC IXGBE_IRQ_CLEAR_MASK] h) (tr (emit [Wr IXGBE_EIMC IXGBE_IRQ_CLEAR_MASK] h)) IXGBE_EICR) with eicr. rewrite Ht. cbn [negb]. set (h1 := emit _ (emit _ h)).
  assert (spared h h1) as H0 by (exists [Wr IXGBE_EIMC IXGBE_IRQ_CLEAR_MASK; Rd IXGBE_EICR eicr]; split; [unfold h1; rewrite emit_app; done|by repeat constructor]).
  pose proof (body_spec ptp_clock mac false (fun e => set_napis (napis e + 1) e) (fun e => mret (true, e)) eicr jiffies e s h1 h (fun r s' h' => r.1 = true /\ handled mac eicr [] e s h r.2 s' h') Hup H0
    (fun _ => conj eq_refl (conj eq_refl eq_refl)) (fun _ _ _ HH => conj eq_refl HH)) as HB.
  unfold late_checks in HB. destruct mac; exact HB.
Qed.
(** Follow the code of a handler that keeps the records of the VFs in place. *)
Ltac keep :=
  repeat match goal with
  | |- keeps_inv _ (mbind _ _) => apply ki_bind; [|intros ?]
  | |- keeps_inv _ (if _ then _ else _) => apply ki_if
  | |- keeps_inv _ (mret _) => apply ki_ret
  | |- keeps_inv _ (lift _) => apply ki_lift
  | |- keeps_inv _ vget => apply ki_get
  | |- keeps_inv _ (or_flags _) => intros ? ?; by apply vwp_modify
  | |- keeps_inv _ (or_flags2 _) => intros ? ?; by apply vwp_modify
  | |- keeps_inv _ (ixgbe_msg_task _) => intros ? ?; by apply msg_task_safe
  | |- keeps_inv _ (let _ := _ in _) => cbv zeta
  end.
(** With messages of VFs as well: [ixgbe_msix_other] makes no invalid access, and the records of the VFs stay in place. *)
Theorem other_handler_safe `{Netdev} ptp_clock mac stack jiffies e s h : allocated s ->
  exists e' s' h', ixgbe_msix_other ptp_clock mac stack jiffies e s h = (Some (e', s'), h') /\ allocated s'.
Proof.
  intros Ha. cut (vwp (ixgbe_msix_other ptp_clock mac stack jiffies e) s (fun _ => allocated)).
  { intros Hw. specialize (Hw h). destruct (ixgbe_msix_other _ _ _ _ _ _ _) as [[[e' s']|] h']; [|done]. by exists e', s', h'. }
  revert s Ha. change (keeps_inv allocated (ixgbe_msix_other ptp_clock mac stack jiffies e)).
  unfold ixgbe_msix_other, check_ecc, check_fdir, ixgbe_check_sfp_event, ixgbe_check_overtemp_event, ixgbe_check_fan_failure, reenable, ixgbe_check_lsc. by destruct mac; keep.
Qed.
(** A module was plugged in and the link changed, while two queues wait. *)
#[local] Instance ex_dev : Netdev := {|
  mtu := 1500; fcoe_mtu := false; promisc := false; allmulti := false; running := true; uc_addrs := []; mc_addrs := [];
  num_tc := 0; prio_tc_map := fun _ => 0; default_up := 0; active_vlan := fun _ => false; link_speed := 0; link_up := true
|}.
Definition ex_causes : ixgbe_hw := hw_init ixgbe_mac_82599EB (fun _ r => if r =? IXGBE_EICS then 0x04100003 else 0).
Definition ex_events : events := Events false false 0 0 0 0 0 [true; true] 0.
Definition ex_sriov : sriov := Sriov 0 [] None [] 0 0 0 0 0 0 0 0 false 0.
Lemma other_causes_handled_witness : exists e' s' h', ixgbe_msix_other false ixgbe_mac_82599EB (fun _ => []) 7 ex_events ex_sriov ex_causes = (Some (e', s'), h') /\
  works e' = 1 /\ flags s' = IXGBE_FLAG_NEED_LINK_UPDATE /\ flags2 s' = IXGBE_FLAG2_SFP_NEEDS_RESET.
Proof.
  destruct (other_causes_handled false ixgbe_mac_82599EB (fun _ => []) 7 ex_events ex_sriov ex_causes) as (e' & s' & h' & E & F1 & F2 & (_ & _ & W) & _); [reflexivity|vm_compute; reflexivity|].
  exists e', s', h'. split; [exact E|]. rewrite W, F1, F2. split_and!; vm_compute; reflexivity.
Defined.
