(* ===== verification/Slots.v ===== *)
(** * Positions in a ring

    Positions count the descriptors ever used; position [p] is in slot [p mod N] of a ring of [N] descriptors. Shared by the transmit and the
    receive rings. *)
From S2P Require Import Prelude.
Open Scope Z_scope.

(** ** Slots *)
Section Slots.
Context (N : Z) (HN : 0 < N).
Definition slot (p : Z) : Z := p mod N.
Lemma slot_range p : 0 <= slot p < N.
Proof. apply Z.mod_pos_bound, HN. Qed.
Lemma slot_inj H p q : H <= p < H + N -> H <= q < H + N -> slot p = slot q -> p = q.
Proof.
  unfold slot. intros Hp Hq E. pose proof (Z.div_mod p N ltac:(lia)). pose proof (Z.div_mod q N ltac:(lia)).
  assert (p / N = q / N); [|nia]. nia.
Qed.
Lemma slot_next p : (if slot p + 1 =? N then 0 else slot p + 1) = slot (p + 1).
Proof.
  unfold slot. pose proof (Z.mod_pos_bound p N HN). rewrite <- (Zplus_mod_idemp_l p 1 N).
  destruct (Z.eqb_spec (p mod N + 1) N) as [->|?]; [by rewrite Z_mod_same_full|rewrite (Z.mod_small (p mod N + 1)); lia].
Qed.
Lemma slot_prev p : (if slot p =? 0 then N else slot p) - 1 = slot (p - 1).
Proof.
  pose proof (slot_next (p - 1)) as E. replace (p - 1 + 1) with p in E by lia. pose proof (slot_range (p - 1)).
  destruct (Z.eqb_spec (slot (p - 1) + 1) N); rewrite <- E; [cbn; lia|]. destruct (Z.eqb_spec (slot (p - 1) + 1) 0); lia.
Qed.
Lemma slot_idem p : slot (slot p) = slot p.
Proof. unfold slot. apply Z.mod_mod. lia. Qed.
Lemma slot_small p : 0 <= p < N -> slot p = p.
Proof. apply Z.mod_small. Qed.
End Slots.
Arguments slot_inj {N} HN H p q.
