(* ===== verification/TxRing.v ===== *)
(** * The transmit rings of the base driver ([ixgbe_main.c], with the descriptor formats of [ixgbe_type.h] and FCoE offload of [ixgbe_fcoe.c])

    A ring is an array of descriptors, which the adapter reads, and an array of buffers, which the driver keeps beside it. [ixgbe_xmit_frame_ring]
    takes a packet, [ixgbe_tx_map] maps its pieces for DMA and writes the descriptors, and [ixgbe_clean_tx_irq] releases what the adapter has
    sent. What the code asks of the kernel (mapping, unmapping, freeing) and the writes of the tail register are in the ring's log. *)
From S2P Require Import Prelude Hw Bits FlowDir FlowFilters Sriov Queues.
Open Scope Z_scope.

Definition IXGBE_TX_FLAGS_TSO : Z := 0x02.
Definition IXGBE_TX_FLAGS_TSTAMP : Z := 0x04.
Definition IXGBE_TX_FLAGS_CC : Z := 0x08.
Definition IXGBE_TX_FLAGS_IPV4 : Z := 0x10.
Definition IXGBE_TX_FLAGS_CSUM : Z := 0x20.
Definition IXGBE_TX_FLAGS_FCOE : Z := 0x80.
Definition IXGBE_TX_FLAGS_VLAN_MASK : Z := 0xffff0000.
Definition IXGBE_TX_FLAGS_VLAN_PRIO_MASK : Z := 0xe0000000.
Definition IXGBE_TX_FLAGS_VLAN_PRIO_SHIFT : Z := 29.
Definition IXGBE_MAX_TXD_PWR : Z := 14.
Definition IXGBE_MAX_DATA_PER_TXD : Z := Z.shiftl 1 IXGBE_MAX_TXD_PWR.
Definition TXD_USE_COUNT (s : Z) : Z := DIV_ROUND_UP s IXGBE_MAX_DATA_PER_TXD.
Definition MAX_SKB_FRAGS : Z := 17.
Definition DESC_NEEDED : Z := MAX_SKB_FRAGS + 4.
Definition TX_WAKE_THRESHOLD : Z := DESC_NEEDED * 2.
Definition IXGBE_TXD_CMD_EOP : Z := 0x01000000.
Definition IXGBE_TXD_CMD_IFCS : Z := 0x02000000.
Definition IXGBE_TXD_CMD_RS : Z := 0x08000000.
Definition IXGBE_TXD_CMD_VLE : Z := 0x40000000.
Definition IXGBE_TXD_STAT_DD : Z := 0x00000001.
Definition IXGBE_TXD_CMD : Z := Z.lor IXGBE_TXD_CMD_EOP IXGBE_TXD_CMD_RS.
Definition IXGBE_ADVTXD_MAC_TSTAMP : Z := 0x00080000.
Definition IXGBE_ADVTXD_DTYP_DATA : Z := 0x00300000.
Definition IXGBE_ADVTXD_DCMD_IFCS : Z := IXGBE_TXD_CMD_IFCS.
Definition IXGBE_ADVTXD_DCMD_DEXT : Z := IXGBE_TXD_CMD_DEXT.
Definition IXGBE_ADVTXD_DCMD_VLE : Z := IXGBE_TXD_CMD_VLE.
Definition IXGBE_ADVTXD_DCMD_TSE : Z := 0x80000000.
Definition IXGBE_ADVTXD_CC : Z := 0x00000080.
Definition IXGBE_ADVTXD_POPTS_IXSM : Z := Z.shiftl 0x01 8.
Definition IXGBE_ADVTXD_POPTS_TXSM : Z := Z.shiftl 0x02 8.
Definition IXGBE_ADVTXD_PAYLEN_SHIFT : Z := 14.
Definition IXGBE_ADVTXD_MACLEN_SHIFT : Z := 9.
Definition IXGBE_ADVTXD_TUCMD_IPV4 : Z := 0x00000400.
Definition IXGBE_ADVTXD_TUCMD_L4T_TCP : Z := 0x00000800.
Definition IXGBE_ADVTXD_TUCMD_L4T_SCTP : Z := 0x00001000.
Definition IXGBE_ADVTXT_TUCMD_FCOE : Z := 0x00008000.
Definition IXGBE_ADVTXD_FCOEF_SOF : Z := Z.shiftl (Z.shiftl 1 2) 10.
Definition IXGBE_ADVTXD_FCOEF_PARINC : Z := Z.shiftl (Z.shiftl 1 3) 10.
Definition IXGBE_ADVTXD_FCOEF_ORIE : Z := Z.shiftl (Z.shiftl 1 4) 10.
Definition IXGBE_ADVTXD_FCOEF_ORIS : Z := Z.shiftl (Z.shiftl 1 5) 10.
Definition IXGBE_ADVTXD_FCOEF_EOF_N : Z := Z.shiftl 0x0 10.
Definition IXGBE_ADVTXD_FCOEF_EOF_T : Z := Z.shiftl 0x1 10.
Definition IXGBE_ADVTXD_FCOEF_EOF_NI : Z := Z.shiftl 0x2 10.
Definition IXGBE_ADVTXD_FCOEF_EOF_A : Z := Z.shiftl 0x3 10.
Definition IXGBE_ADVTXD_L4LEN_SHIFT : Z := 8.
Definition IXGBE_ADVTXD_MSS_SHIFT : Z := 16.
Definition IXGBE_TDH (i : Z) : Z := 0x06010 + i * 0x40.
Definition IXGBE_TDT (i : Z) : Z := 0x06018 + i * 0x40.
(** Of the kernel's headers. *)
Definition ETH_P_FCOE : Z := 0x8906.
Definition ETH_P_FIP : Z := 0x8914.
Definition IPPROTO_UDP : Z := 17.
Definition IPPROTO_SCTP : Z := 132.
Definition TC_PRIO_CONTROL : Z := 7.
Definition EBUSY : Z := 16.
Definition EINVAL : Z := 22.
Definition NETDEV_TX_OK : Z := 0.
Definition NETDEV_TX_BUSY : Z := 16.
Definition FC_SOF_I2 : Z := 0x2d.
Definition FC_SOF_I3 : Z := 0x2e.
Definition FC_SOF_N2 : Z := 0x35.
Definition FC_SOF_N3 : Z := 0x36.
Definition FC_EOF_N : Z := 0x41.
Definition FC_EOF_T : Z := 0x42.
Definition FC_EOF_NI : Z := 0x49.
Definition FC_EOF_A : Z := 0x50.
Definition FC_FC_REL_OFF : Z := Z.shiftl 1 3.
Definition fcoe_hdr_size : Z := 14.
Definition fcoe_crc_eof_size : Z := 8.
Definition fc_frame_header_size : Z := 24.

(** ** Data *)

(** A packet: its bytes, of which the first [headlen] are in one piece and the rest in fragments of the given sizes. *)
Record sk_buff := SkBuff {
  sk_id : Z; headlen : Z; frags : list Z; data : Z -> Z; skb_protocol : Z; ip_summed_partial : bool; vlan_tag : option Z; priority : Z;
  gso_size : Z; skb_gso_segs : Z; gso_fcoe : bool; gso_v6 : bool; header_cloned : bool; hw_tstamp : bool;
  mac_len : Z; network_offset : Z; transport_offset : Z; queue_mapping : Z
}.
Definition set_data v s := SkBuff (sk_id s) (headlen s) (frags s) v (skb_protocol s) (ip_summed_partial s) (vlan_tag s) (priority s) (gso_size s) (skb_gso_segs s) (gso_fcoe s) (gso_v6 s) (header_cloned s) (hw_tstamp s) (mac_len s) (network_offset s) (transport_offset s) (queue_mapping s).
Definition set_cloned v s := SkBuff (sk_id s) (headlen s) (frags s) (data s) (skb_protocol s) (ip_summed_partial s) (vlan_tag s) (priority s) (gso_size s) (skb_gso_segs s) (gso_fcoe s) (gso_v6 s) v (hw_tstamp s) (mac_len s) (network_offset s) (transport_offset s) (queue_mapping s).
Definition set_offsets n t s := SkBuff (sk_id s) (headlen s) (frags s) (data s) (skb_protocol s) (ip_summed_partial s) (vlan_tag s) (priority s) (gso_size s) (skb_gso_segs s) (gso_fcoe s) (gso_v6 s) (header_cloned s) (hw_tstamp s) (mac_len s) n t (queue_mapping s).
Definition set_pieces h l v s := SkBuff (sk_id s) h l v (skb_protocol s) (ip_summed_partial s) (vlan_tag s) (priority s) (gso_size s) (skb_gso_segs s) (gso_fcoe s) (gso_v6 s) (header_cloned s) (hw_tstamp s) (mac_len s) (network_offset s) (transport_offset s) (queue_mapping s).

Definition data_len (s : sk_buff) : Z := foldr Z.add 0 (frags s).
Definition skb_len (s : sk_buff) : Z := headlen s + data_len s.
Definition nr_frags (s : sk_buff) : Z := Z.of_nat (length (frags s)).
Definition skb_is_gso (s : sk_buff) : bool := truthy (gso_size s).
Definition skb_network_header_len (s : sk_buff) : Z := transport_offset s - network_offset s.
Definition tcp_hdrlen (s : sk_buff) : Z := Z.shiftr (data s (transport_offset s + 12)) 4 * 4.
(** The network header as bytes. *)
Definition network_header (s : sk_buff) : Z -> Z := fun i => data s (network_offset s + i).
(** Two bytes of the packet, the low one first. *)
Definition put16 (off v : Z) (b : Z -> Z) : Z -> Z := <[off + 1 := Z.shiftr (u16 v) 8]> (<[off := Z.land v 0xFF]> b).

(** [union ixgbe_adv_tx_desc]. The adapter's write-back replaces [olinfo_status]; a context descriptor has two words in [buffer_addr]. *)
Record tx_desc := TxDesc { buffer_addr : Z; cmd_type_len : Z; olinfo_status : Z }.
Definition set_addr v d := TxDesc v (cmd_type_len d) (olinfo_status d).
Definition set_cmd v d := TxDesc (buffer_addr d) v (olinfo_status d).
Definition set_olinfo v d := TxDesc (buffer_addr d) (cmd_type_len d) v.

(** [struct ixgbe_tx_buffer]; [next_to_watch] is the index of a descriptor. *)
Record tx_buffer := TxBuffer {
  next_to_watch : option Z; time_stamp : Z; skb : option sk_buff; bytecount : Z; gso_segs : Z; b_protocol : Z; dma : Z; len : Z; b_flags : Z
}.
Definition set_watch v b := TxBuffer v (time_stamp b) (skb b) (bytecount b) (gso_segs b) (b_protocol b) (dma b) (len b) (b_flags b).
Definition set_time v b := TxBuffer (next_to_watch b) v (skb b) (bytecount b) (gso_segs b) (b_protocol b) (dma b) (len b) (b_flags b).
Definition set_skb v b := TxBuffer (next_to_watch b) (time_stamp b) v (bytecount b) (gso_segs b) (b_protocol b) (dma b) (len b) (b_flags b).
Definition set_bytes v n b := TxBuffer (next_to_watch b) (time_stamp b) (skb b) v n (b_protocol b) (dma b) (len b) (b_flags b).
Definition set_proto v b := TxBuffer (next_to_watch b) (time_stamp b) (skb b) (bytecount b) (gso_segs b) v (dma b) (len b) (b_flags b).
Definition set_dma a l b := TxBuffer (next_to_watch b) (time_stamp b) (skb b) (bytecount b) (gso_segs b) (b_protocol b) a l (b_flags b).
Definition set_bflags v b := TxBuffer (next_to_watch b) (time_stamp b) (skb b) (bytecount b) (gso_segs b) (b_protocol b) (dma b) (len b) v.
Definition or_bflags v b := set_bflags (Z.lor (b_flags b) v) b.
Definition clear_tx : tx_buffer := TxBuffer None 0 None 0 0 0 0 0 0.

(** What is asked of the kernel, and the tail register. *)
Inductive effect :=
| Mapped (a l : Z) | Unmapped (page : bool) (a l : Z) | Freed (s : sk_buff) | Held (s : sk_buff)
| Tail (i : Z) | Sent (bytes : Z) | Completed (packets bytes : Z).

Record queue_stats := QStats { packets : Z; bytes : Z; restart_queue : Z; tx_busy : Z; tx_done_old : Z }.
Definition add_stats p b s := QStats (u64 (packets s + p)) (u64 (bytes s + b)) (restart_queue s) (tx_busy s) (tx_done_old s).
Definition inc_restart s := QStats (packets s) (bytes s) (u64 (restart_queue s + 1)) (tx_busy s) (tx_done_old s).
Definition inc_busy s := QStats (packets s) (bytes s) (restart_queue s) (u64 (tx_busy s + 1)) (tx_done_old s).
Definition set_done_old v s := QStats (packets s) (bytes s) (restart_queue s) (tx_busy s) v.

(** A transmit ring: the part every ring has, the sampling of the flow director, the arrays, and the state bits. *)
Record tx_ring := TxRing {
  base : ixgbe_ring; sampling : atr_ring; desc : Z -> tx_desc; info : Z -> tx_buffer; next_to_clean : Z;
  stats : queue_stats; stopped : bool; detect_hang : bool; hang_armed : bool; fdir_init_done : bool; log : list effect
}.
Definition set_base v r := TxRing v (sampling r) (desc r) (info r) (next_to_clean r) (stats r) (stopped r) (detect_hang r) (hang_armed r) (fdir_init_done r) (log r).
Definition set_sampling v r := TxRing (base r) v (desc r) (info r) (next_to_clean r) (stats r) (stopped r) (detect_hang r) (hang_armed r) (fdir_init_done r) (log r).
Definition set_desc i f r := TxRing (base r) (sampling r) (<[i := f (desc r i)]> (desc r)) (info r) (next_to_clean r) (stats r) (stopped r) (detect_hang r) (hang_armed r) (fdir_init_done r) (log r).
Definition set_info i f r := TxRing (base r) (sampling r) (desc r) (<[i := f (info r i)]> (info r)) (next_to_clean r) (stats r) (stopped r) (detect_hang r) (hang_armed r) (fdir_init_done r) (log r).
Definition set_clean v r := TxRing (base r) (sampling r) (desc r) (info r) v (stats r) (stopped r) (detect_hang r) (hang_armed r) (fdir_init_done r) (log r).
Definition set_qstats f r := TxRing (base r) (sampling r) (desc r) (info r) (next_to_clean r) (f (stats r)) (stopped r) (detect_hang r) (hang_armed r) (fdir_init_done r) (log r).
Definition set_stopped v r := TxRing (base r) (sampling r) (desc r) (info r) (next_to_clean r) (stats r) v (detect_hang r) (hang_armed r) (fdir_init_done r) (log r).
Definition set_hang d a r := TxRing (base r) (sampling r) (desc r) (info r) (next_to_clean r) (stats r) (stopped r) d a (fdir_init_done r) (log r).
Definition do_log e r := TxRing (base r) (sampling r) (desc r) (info r) (next_to_clean r) (stats r) (stopped r) (detect_hang r) (hang_armed r) (fdir_init_done r) (log r ++ e).
Definition set_arrays d b r := TxRing (base r) (sampling r) d b (next_to_clean r) (stats r) (stopped r) (detect_hang r) (hang_armed r) (fdir_init_done r) (log r).
Definition count (r : tx_ring) : Z := r_count (base r).
Definition ntu (r : tx_ring) : Z := next_to_use (base r).
Definition set_ntu (i : Z) (r : tx_ring) : tx_ring := set_base (set_next_to_use i (base r)) r.

(** ** Room in the ring *)
Definition ixgbe_desc_unused (r : tx_ring) : Z :=
  u16 ((if next_to_clean r >? ntu r then 0 else count r) + next_to_clean r - ntu r - 1).
(** [__ixgbe_maybe_stop_tx] *)
Definition maybe_stop_tx (r : tx_ring) (size : Z) : Z * tx_ring :=
  let r := set_stopped true r in
  if ixgbe_desc_unused r <? size then (- EBUSY, r)
  else (0, set_qstats inc_restart (set_stopped false r)).
Definition ixgbe_maybe_stop_tx (r : tx_ring) (size : Z) : Z * tx_ring :=
  if ixgbe_desc_unused r >=? size then (0, r) else maybe_stop_tx r size.

(** ** Releasing *)
Definition ixgbe_unmap_and_free_tx_resource (i : Z) (r : tx_ring) : tx_ring :=
  let b := info r i in
  let unmap page := if truthy (len b) then [Unmapped page (dma b) (len b)] else [] in
  let r := match skb b with
           | Some s => do_log (Freed s :: unmap false) r
           | None => do_log (unmap true) r
           end in
  set_info i (fun b => set_dma (dma b) 0 (set_skb None (set_watch None b))) r.

(** The index after [i]. *)
Definition next (r : tx_ring) (i : Z) : Z := if i + 1 =? count r then 0 else i + 1.

(** ** Descriptor fields *)
Definition IXGBE_SET_FLAG (input flag result : Z) : Z :=
  if flag <=? result then Z.land input flag * (result / flag) else Z.land input flag / (flag / result).
Definition ixgbe_tx_cmd_type (tx_flags : Z) : Z :=
  let cmd_type := Z.lor (Z.lor IXGBE_ADVTXD_DTYP_DATA IXGBE_ADVTXD_DCMD_DEXT) IXGBE_ADVTXD_DCMD_IFCS in
  let cmd_type := Z.lor cmd_type (IXGBE_SET_FLAG tx_flags IXGBE_TX_FLAGS_HW_VLAN IXGBE_ADVTXD_DCMD_VLE) in
  let cmd_type := Z.lor cmd_type (IXGBE_SET_FLAG tx_flags IXGBE_TX_FLAGS_TSO IXGBE_ADVTXD_DCMD_TSE) in
  Z.lor cmd_type (IXGBE_SET_FLAG tx_flags IXGBE_TX_FLAGS_TSTAMP IXGBE_ADVTXD_MAC_TSTAMP).
Definition ixgbe_tx_olinfo_status (tx_flags paylen : Z) : Z :=
  let olinfo_status := u32 (Z.shiftl paylen IXGBE_ADVTXD_PAYLEN_SHIFT) in
  let olinfo_status := Z.lor olinfo_status (IXGBE_SET_FLAG tx_flags IXGBE_TX_FLAGS_CSUM IXGBE_ADVTXD_POPTS_TXSM) in
  let olinfo_status := Z.lor olinfo_status (IXGBE_SET_FLAG tx_flags IXGBE_TX_FLAGS_IPV4 IXGBE_ADVTXD_POPTS_IXSM) in
  Z.lor olinfo_status (IXGBE_SET_FLAG tx_flags IXGBE_TX_FLAGS_CC IXGBE_ADVTXD_CC).

(** The context descriptor, written at [next_to_use]. *)
Definition tx_ctxtdesc (vlan_macip_lens fcoe_sof_eof type_tucmd mss_l4len_idx : Z) (r : tx_ring) : tx_ring :=
  match ixgbe_tx_ctxtdesc (base r) vlan_macip_lens fcoe_sof_eof type_tucmd mss_l4len_idx with
  | ([w0; w1; w2; w3], b) => set_base b (set_desc (ntu r) (fun _ => TxDesc (w0 + w1 * 2 ^ 32) w2 w3) r)
  | (_, b) => set_base b r
  end.

(** ** Offloads *)

(** What the kernel answers during one transmission: the mappings (piece 0 is the header), the results of [pskb_expand_head], the checksums of
    the pseudo headers, and the time. *)
Record xmit_env := XmitEnv {
  dma_map : nat -> option Z; expand_vlan : Z; expand_tso : Z;
  csum_tcpudp_magic : Z -> Z -> Z -> Z -> Z -> Z; csum_ipv6_magic : (Z -> Z) -> (Z -> Z) -> Z -> Z -> Z -> Z; jiffies : Z
}.

(** The headers as [ixgbe_tso] leaves them, with the flags it adds. *)
Definition tso_ipv4 (e : xmit_env) (s : sk_buff) : sk_buff :=
  let net := network_offset s in
  let d := put16 (net + 10) 0 (put16 (net + 2) 0 (data s)) in
  let sum := csum_tcpudp_magic e (load32 d (net + 12)) (load32 d (net + 16)) 0 IPPROTO_TCP 0 in
  set_data (put16 (transport_offset s + 16) (u16 (Z.lnot sum)) d) s.
Definition tso_ipv6 (e : xmit_env) (s : sk_buff) : sk_buff :=
  let net := network_offset s in
  let d := put16 (net + 4) 0 (data s) in
  let sum := csum_ipv6_magic e (fun i => d (net + 8 + i)) (fun i => d (net + 24 + i)) 0 IPPROTO_TCP 0 in
  set_data (put16 (transport_offset s + 16) (u16 (Z.lnot sum)) d) s.

(** [ixgbe_tso]: the result, the length of the headers and the ring. *)
Definition ixgbe_tso (e : xmit_env) (first : Z) (s : sk_buff) (r : tx_ring) : Z * Z * tx_ring :=
  if negb (ip_summed_partial s) then (0, 0, r)
  else if negb (skb_is_gso s) then (0, 0, r)
  else if header_cloned s && truthy (expand_tso e) then (expand_tso e, 0, r)
  else
    let s := set_cloned false s in
    let b := info r first in
    let '(s, type_tucmd, flags) :=
      if b_protocol b =? htons ETH_P_IP then
        (tso_ipv4 e s, Z.lor IXGBE_ADVTXD_TUCMD_L4T_TCP IXGBE_ADVTXD_TUCMD_IPV4,
         Z.lor (Z.lor (Z.lor (b_flags b) IXGBE_TX_FLAGS_TSO) IXGBE_TX_FLAGS_CSUM) IXGBE_TX_FLAGS_IPV4)
      else if gso_v6 s then
        (tso_ipv6 e s, IXGBE_ADVTXD_TUCMD_L4T_TCP, Z.lor (Z.lor (b_flags b) IXGBE_TX_FLAGS_TSO) IXGBE_TX_FLAGS_CSUM)
      else (s, IXGBE_ADVTXD_TUCMD_L4T_TCP, b_flags b) in
    let l4len := tcp_hdrlen s in
    let hdr_len := u8 (transport_offset s + l4len) in
    let segs := u16 (skb_gso_segs s) in
    let r := set_info first (fun b => set_bytes (u32 (bytecount b + (segs - 1) * hdr_len)) segs (set_bflags flags (set_skb (Some s) b))) r in
    let mss_l4len_idx := Z.lor (Z.shiftl l4len IXGBE_ADVTXD_L4LEN_SHIFT) (u32 (Z.shiftl (gso_size s) IXGBE_ADVTXD_MSS_SHIFT)) in
    let vlan_macip_lens := Z.lor (Z.lor (skb_network_header_len s) (Z.shiftl (network_offset s) IXGBE_ADVTXD_MACLEN_SHIFT)) (Z.land flags IXGBE_TX_FLAGS_VLAN_MASK) in
    (1, hdr_len, tx_ctxtdesc vlan_macip_lens 0 type_tucmd mss_l4len_idx r).

Definition ixgbe_tx_csum (first : Z) (s : sk_buff) (r : tx_ring) : tx_ring :=
  let b := info r first in
  let finish flags lens tucmd mss :=
    let lens := Z.lor (Z.lor lens (Z.shiftl (network_offset s) IXGBE_ADVTXD_MACLEN_SHIFT)) (Z.land flags IXGBE_TX_FLAGS_VLAN_MASK) in
    tx_ctxtdesc lens 0 tucmd mss (set_info first (set_bflags flags) r) in
  if negb (ip_summed_partial s) then
    if negb (truthy (Z.land (b_flags b) IXGBE_TX_FLAGS_HW_VLAN)) && negb (truthy (Z.land (b_flags b) IXGBE_TX_FLAGS_CC)) then r
    else finish (b_flags b) 0 0 0
  else
    let '(lens, tucmd, l4_hdr) :=
      if b_protocol b =? htons ETH_P_IP then (skb_network_header_len s, IXGBE_ADVTXD_TUCMD_IPV4, network_header s 9)
      else if b_protocol b =? htons ETH_P_IPV6 then (skb_network_header_len s, 0, network_header s 6)
      else (0, 0, 0) in
    let '(tucmd, mss) :=
      if l4_hdr =? IPPROTO_TCP then (Z.lor tucmd IXGBE_ADVTXD_TUCMD_L4T_TCP, Z.shiftl (tcp_hdrlen s) IXGBE_ADVTXD_L4LEN_SHIFT)
      else if l4_hdr =? IPPROTO_SCTP then (Z.lor tucmd IXGBE_ADVTXD_TUCMD_L4T_SCTP, Z.shiftl 12 IXGBE_ADVTXD_L4LEN_SHIFT)
      else if l4_hdr =? IPPROTO_UDP then (tucmd, Z.shiftl 8 IXGBE_ADVTXD_L4LEN_SHIFT)
      else (tucmd, 0) in
    finish (Z.lor (b_flags b) IXGBE_TX_FLAGS_CSUM) lens tucmd mss.

(** The bits of the frame delimiters in [ixgbe_fso]; [None] where the code refuses them. *)
Definition fso_sof (sof : Z) : option Z :=
  if sof =? FC_SOF_I2 then Some IXGBE_ADVTXD_FCOEF_ORIS
  else if sof =? FC_SOF_I3 then Some (Z.lor IXGBE_ADVTXD_FCOEF_SOF IXGBE_ADVTXD_FCOEF_ORIS)
  else if sof =? FC_SOF_N2 then Some 0
  else if sof =? FC_SOF_N3 then Some IXGBE_ADVTXD_FCOEF_SOF
  else None.
Definition fso_eof (gso : bool) (eof : Z) : option Z :=
  if eof =? FC_EOF_N then Some IXGBE_ADVTXD_FCOEF_EOF_N
  else if eof =? FC_EOF_T then
    Some (if gso then Z.lor IXGBE_ADVTXD_FCOEF_EOF_N IXGBE_ADVTXD_FCOEF_ORIE else IXGBE_ADVTXD_FCOEF_EOF_T)
  else if eof =? FC_EOF_NI then Some IXGBE_ADVTXD_FCOEF_EOF_NI
  else if eof =? FC_EOF_A then Some IXGBE_ADVTXD_FCOEF_EOF_A
  else None.

Definition ixgbe_fso (first : Z) (s : sk_buff) (r : tx_ring) : Z * Z * tx_ring :=
  if skb_is_gso s && negb (gso_fcoe s) then (- EINVAL, 0, r)
  else
    let s := set_offsets (mac_len s) (mac_len s + fcoe_hdr_size) s in
    let r := set_info first (set_skb (Some s)) r in
    match fso_sof (data s (network_offset s + 13)) with
    | None => (- EINVAL, 0, r)
    | Some bits =>
        match fso_eof (skb_is_gso s) (data s (skb_len s - 4)) with
        | None => (- EINVAL, 0, r)
        | Some more =>
            let bits := Z.lor bits more in
            let bits := if truthy (Z.land (data s (transport_offset s + 11)) FC_FC_REL_OFF) then Z.lor bits IXGBE_ADVTXD_FCOEF_PARINC else bits in
            let hdr_len := if skb_is_gso s then u8 (fcoe_crc_eof_size + transport_offset s + fc_frame_header_size) else fcoe_crc_eof_size in
            let r := if skb_is_gso s then
                       let segs := u16 (DIV_ROUND_UP (u32 (skb_len s - hdr_len)) (gso_size s)) in
                       set_info first (fun b => or_bflags IXGBE_TX_FLAGS_TSO (set_bytes (u32 (bytecount b + (segs - 1) * hdr_len)) segs b)) r
                     else r in
            let r := set_info first (or_bflags (Z.lor IXGBE_TX_FLAGS_FCOE IXGBE_TX_FLAGS_CC)) r in
            let mss_l4len_idx := u32 (Z.shiftl (gso_size s) IXGBE_ADVTXD_MSS_SHIFT) in
            let vlan_macip_lens :=
              Z.lor (Z.lor (transport_offset s + fc_frame_header_size) (Z.shiftl (transport_offset s - 4) IXGBE_ADVTXD_MACLEN_SHIFT))
                    (Z.land (b_flags (info r first)) IXGBE_TX_FLAGS_VLAN_MASK) in
            (0, hdr_len, tx_ctxtdesc vlan_macip_lens bits IXGBE_ADVTXT_TUCMD_FCOE mss_l4len_idx r)
        end
    end.

(** ** Mapping a packet *)

(** A piece longer than a descriptor can say: [while (size > IXGBE_MAX_DATA_PER_TXD)]. *)
Fixpoint chunk_loop (fuel : nat) (cmd_type i addr size : Z) (r : tx_ring) : Z * Z * tx_ring :=
  match fuel with
  | O => (i, size, r)
  | S fuel =>
      if size >? IXGBE_MAX_DATA_PER_TXD then
        let r := set_desc i (set_cmd (Z.lxor cmd_type IXGBE_MAX_DATA_PER_TXD)) r in
        let i := next r i in
        let addr := addr + IXGBE_MAX_DATA_PER_TXD in
        chunk_loop fuel cmd_type i addr (size - IXGBE_MAX_DATA_PER_TXD) (set_desc i (fun d => set_addr addr (set_olinfo 0 d)) r)
      else (i, size, r)
  end.
(** Enough for every piece that fits an [unsigned int]. *)
Definition chunk_fuel (size : Z) : nat := Z.to_nat (size / IXGBE_MAX_DATA_PER_TXD).

(** The result of the loop over the pieces: the last descriptor and its size, or the descriptor at which a mapping failed. *)
Inductive map_result := MapDone (i size : Z) (r : tx_ring) | MapFailed (i : Z) (r : tx_ring).

(** The loop over the pieces: [i] is the descriptor, [b] the buffer, [a] the answer to the mapping of the current piece, [k] the number of
    the next. [None]: a fragment that does not exist is read. *)
Fixpoint map_loop (e : xmit_env) (fr : list Z) (k : nat) (cmd_type i b : Z) (a : option Z) (size dlen : Z) (r : tx_ring) : option map_result :=
  match a with
  | None => Some (MapFailed i r)
  | Some addr =>
      let r := set_desc i (set_addr addr) (set_info b (set_dma addr size) (do_log [Mapped addr size] r)) in
      let '(i, size, r) := chunk_loop (chunk_fuel size) cmd_type i addr size r in
      if dlen =? 0 then Some (MapDone i size r)
      else
        match fr with
        | [] => None
        | f :: fr =>
            let r := set_desc i (set_cmd (Z.lxor cmd_type size)) r in
            let i := next r i in
            let r := set_desc i (set_olinfo 0) r in
            let size := Z.min dlen f in
            map_loop e fr (S k) cmd_type i i (dma_map e k) size (dlen - size) r
        end
  end.

(** The [dma_error] loop: from [i] back to the first buffer. *)
Fixpoint unwind_loop (fuel : nat) (first i : Z) (r : tx_ring) : option (Z * tx_ring) :=
  match fuel with
  | O => None
  | S fuel =>
      let r := ixgbe_unmap_and_free_tx_resource i r in
      if i =? first then Some (i, r)
      else unwind_loop fuel first ((if i =? 0 then count r else i) - 1) r
  end.

(** The header's size and the length of the rest; FCoE leaves out the trailer. *)
Definition map_sizes (tx_flags : Z) (s : sk_buff) : Z * Z :=
  let size := headlen s in
  let dlen := data_len s in
  if truthy (Z.land tx_flags IXGBE_TX_FLAGS_FCOE) then
    if dlen <? fcoe_crc_eof_size then (u32 (size - (fcoe_crc_eof_size - dlen)), 0) else (size, dlen - fcoe_crc_eof_size)
  else (size, dlen).

Definition ixgbe_tx_map (e : xmit_env) (first : Z) (s : sk_buff) (hdr_len : Z) (r : tx_ring) : option tx_ring :=
  let tx_flags := b_flags (info r first) in
  let cmd_type := ixgbe_tx_cmd_type tx_flags in
  let i := ntu r in
  let r := set_desc i (set_olinfo (ixgbe_tx_olinfo_status tx_flags (u32 (skb_len s - hdr_len)))) r in
  let '(size, dlen) := map_sizes tx_flags s in
  res ← map_loop e (frags s) 1 cmd_type i first (dma_map e 0) size dlen r;
  match res with
  | MapDone i size r =>
      let r := set_desc i (set_cmd (Z.lor cmd_type (Z.lor size IXGBE_TXD_CMD))) r in
      let r := do_log [Sent (bytecount (info r first))] r in
      let r := set_info first (fun b => set_watch (Some i) (set_time (jiffies e) b)) r in
      let i := next r i in
      Some (do_log [Tail i] (set_ntu i r))
  | MapFailed i r =>
      p ← unwind_loop (Z.to_nat (count r)) first i r;
      Some (set_ntu p.1 p.2)
  end.

(** ** Transmission *)

(** The VLAN tag and the protocol; [None] where the packet is dropped. *)
Definition xmit_vlan (s : sk_buff) : option (Z * Z) :=
  match vlan_tag s with
  | Some tag => Some (Z.lor (u32 (Z.shiftl tag IXGBE_TX_FLAGS_VLAN_SHIFT)) IXGBE_TX_FLAGS_HW_VLAN, skb_protocol s)
  | None =>
      if skb_protocol s =? htons ETH_P_8021Q then
        if skb_len s <? 14 + 4 then None
        else Some (Z.lor (u32 (Z.shiftl (ntohs (load16 (data s) 14)) IXGBE_TX_FLAGS_VLAN_SHIFT)) IXGBE_TX_FLAGS_SW_VLAN, load16 (data s) 16)
      else Some (0, skb_protocol s)
  end.
(** The priority under DCB: flags and packet; [None] where the packet is dropped. *)
Definition xmit_dcb (e : xmit_env) (a : adapter) (protocol tx_flags : Z) (s : sk_buff) : option (Z * sk_buff) :=
  if aflag IXGBE_FLAG_DCB_ENABLED a &&
     (truthy (Z.land tx_flags (Z.lor IXGBE_TX_FLAGS_HW_VLAN IXGBE_TX_FLAGS_SW_VLAN)) || negb (priority s =? TC_PRIO_CONTROL)) then
    let tx_flags := Z.ldiff tx_flags IXGBE_TX_FLAGS_VLAN_PRIO_MASK in
    let prio := if aflag IXGBE_FLAG_FCOE_ENABLED a && ((protocol =? htons ETH_P_FCOE) || (protocol =? htons ETH_P_FIP))
                then fcoe_up (opts a) else priority s in
    let tx_flags := Z.lor tx_flags (u32 (Z.shiftl prio IXGBE_TX_FLAGS_VLAN_PRIO_SHIFT)) in
    if truthy (Z.land tx_flags IXGBE_TX_FLAGS_SW_VLAN) then
      if header_cloned s && truthy (expand_vlan e) then None
      else Some (tx_flags, set_data (put16 14 (htons (u16 (Z.shiftr tx_flags IXGBE_TX_FLAGS_VLAN_SHIFT))) (data s)) (set_cloned false s))
    else Some (Z.lor tx_flags IXGBE_TX_FLAGS_HW_VLAN, s)
  else Some (tx_flags, s).

(** [out_drop] *)
Definition xmit_drop (first : Z) (r : tx_ring) : Z * tx_ring :=
  (NETDEV_TX_OK, set_info first (set_skb None) (do_log (match skb (info r first) with Some s => [Freed s] | None => [] end) r)).

(** [xmit_fcoe]: mapping and the room for the next packet. *)
Definition xmit_finish (e : xmit_env) (first hdr_len : Z) (r : tx_ring) : option (Z * tx_ring) :=
  s ← skb (info r first);
  r ← ixgbe_tx_map e first s hdr_len r;
  Some (NETDEV_TX_OK, (ixgbe_maybe_stop_tx r DESC_NEEDED).2).

(** The sampling of [ixgbe_atr], if it is on. *)
Definition xmit_atr (first : Z) (r : tx_ring) : M tx_ring :=
  if fdir_init_done r then
    match skb (info r first) with
    | Some s => t ← ixgbe_atr (sampling r) (TxFirst (network_header s) (b_protocol (info r first)) (b_flags (info r first))); mret (set_sampling t r)
    | None => mret r
    end
  else mret r.

(** From the offloads on; [fcoe_crc]: the device offers [NETIF_F_FSO] or [NETIF_F_FCOE_CRC]. *)
Definition xmit_offload (e : xmit_env) (fcoe_crc : bool) (first protocol : Z) (s : sk_buff) (r : tx_ring) : M (option (Z * tx_ring)) :=
  if (protocol =? htons ETH_P_FCOE) && fcoe_crc then
    let '(tso, hdr_len, r) := ixgbe_fso first s r in
    mret (if tso <? 0 then Some (xmit_drop first r) else xmit_finish e first hdr_len r)
  else
    let '(tso, hdr_len, r) := ixgbe_tso e first s r in
    if tso <? 0 then mret (Some (xmit_drop first r))
    else
      let r := if tso =? 0 then ixgbe_tx_csum first s r else r in
      r ← xmit_atr first r;
      mret (xmit_finish e first hdr_len r).

Definition ixgbe_xmit_frame_ring (e : xmit_env) (fcoe_crc : bool) (s : sk_buff) (a : adapter) (r : tx_ring) : M (option (Z * tx_ring)) :=
  let count := u16 (u16 (TXD_USE_COUNT (headlen s)) + nr_frags s) in
  let '(full, r) := ixgbe_maybe_stop_tx r (u16 (count + 3)) in
  if truthy full then mret (Some (NETDEV_TX_BUSY, set_qstats inc_busy r))
  else
    let first := ntu r in
    let r := set_info first (fun b => set_bytes (skb_len s) 1 (set_skb (Some s) b)) r in
    match xmit_vlan s with
    | None => mret (Some (xmit_drop first r))
    | Some (tx_flags, protocol) =>
        let '(tx_flags, r) := if hw_tstamp s then (Z.lor tx_flags IXGBE_TX_FLAGS_TSTAMP, do_log [Held s] r) else (tx_flags, r) in
        let tx_flags := if aflag IXGBE_FLAG_SRIOV_L2SWITCH_ENABLE a then Z.lor tx_flags IXGBE_TX_FLAGS_CC else tx_flags in
        match xmit_dcb e a protocol tx_flags s with
        | None => mret (Some (xmit_drop first r))
        | Some (tx_flags, s) =>
            let r := set_info first (fun b => set_proto protocol (set_bflags tx_flags (set_skb (Some s) b))) r in
            xmit_offload e fcoe_crc first protocol s r
        end
    end.

(** [skb_pad] up to 17 bytes: one piece, with zeros at its end. *)
Definition pad_skb (s : sk_buff) : sk_buff := set_pieces 17 [] (fun i => if i <? skb_len s then data s i else 0) s.
(** [ixgbe_xmit_frame]: [pbm] for the capture port, whose packets are dropped; [pad] is the result of [skb_pad]. The rings are given by their index. *)
Definition ixgbe_xmit_frame (e : xmit_env) (fcoe_crc pbm : bool) (pad : Z) (s : sk_buff) (a : adapter) (rings : Z -> tx_ring) : M (option (Z * (Z -> tx_ring) * list effect)) :=
  if pbm then mret (Some (NETDEV_TX_OK, rings, [Freed s]))
  else if (skb_len s <? 17) && truthy pad then mret (Some (NETDEV_TX_OK, rings, [Freed s]))
  else
    let s := if skb_len s <? 17 then pad_skb s else s in
    let r_idx := queue_mapping s in
    if (r_idx >=? txq a) && (txq a =? 0) then mret None
    else
      let r_idx := if r_idx >=? txq a then r_idx mod txq a else r_idx in
      res ← ixgbe_xmit_frame_ring e fcoe_crc s a (rings r_idx);
      mret (p ← res; Some (p.1, <[r_idx := p.2]> rings, [])).

(** ** Completion *)

(** One step of [tx_buffer++, tx_desc++, i++]: the index [k] of both, and [i], which is [k] less the number of descriptors. *)
Definition step_clean (r : tx_ring) (k i : Z) : Z * Z := let i := u32 (i + 1) in if i =? 0 then (0, u32 (i - count r)) else (k + 1, i).

(** The rest of a packet's buffers: [while (tx_desc != eop_desc)]. *)
Fixpoint unmap_loop (fuel : nat) (eop k i : Z) (r : tx_ring) : option (Z * Z * tx_ring) :=
  if k =? eop then Some (k, i, r)
  else match fuel with
       | O => None
       | S fuel =>
           let '(k, i) := step_clean r k i in
           let b := info r k in
           let r := if truthy (len b) then set_info k (fun b => set_dma (dma b) 0 b) (do_log [Unmapped true (dma b) (len b)] r) else r in
           unmap_loop fuel eop k i r
       end.

(** The loop over the packets: totals, budget, index and ring. *)
Fixpoint clean_loop (fuel : nat) (k i total_bytes total_packets budget : Z) (r : tx_ring) : option (Z * Z * Z * Z * tx_ring) :=
  match next_to_watch (info r k) with
  | None => Some (total_bytes, total_packets, budget, i, r)
  | Some eop =>
      if negb (truthy (Z.land (olinfo_status (desc r eop)) IXGBE_TXD_STAT_DD)) then Some (total_bytes, total_packets, budget, i, r)
      else match fuel with
           | O => None
           | S fuel =>
               let b := info r k in
               let r := set_info k (set_watch None) r in
               let r := do_log (match skb b with Some s => [Freed s] | None => [] end) r in
               let r := do_log [Unmapped false (dma b) (len b)] r in
               let r := set_info k (fun b => set_dma (dma b) 0 (set_skb None b)) r in
               p ← unmap_loop (Z.to_nat (count r)) eop k i r;
               let '(k, i, r) := p in
               let '(k, i) := step_clean r k i in
               let total_bytes := u32 (total_bytes + bytecount b) in
               let total_packets := u32 (total_packets + gso_segs b) in
               let budget := u32 (budget - 1) in
               if truthy budget then clean_loop fuel k i total_bytes total_packets budget r
               else Some (total_bytes, total_packets, budget, i, r)
           end
  end.

Definition ixgbe_get_tx_completed (r : tx_ring) : Z := packets (stats r).
Definition ixgbe_get_tx_pending (r : tx_ring) : M Z :=
  head ← IXGBE_READ_REG (IXGBE_TDH (reg_idx (base r)));
  tail ← IXGBE_READ_REG (IXGBE_TDT (reg_idx (base r)));
  mret (u32 ((if head <=? tail then tail else tail + count r) - head)).
Definition ixgbe_check_tx_hang (r : tx_ring) : M (bool * tx_ring) :=
  let tx_done := u32 (ixgbe_get_tx_completed r) in
  let done_old := u32 (tx_done_old (stats r)) in
  tx_pending ← ixgbe_get_tx_pending r;
  let r := set_hang false (hang_armed r) r in
  mret (if (done_old =? tx_done) && truthy tx_pending then (hang_armed r, set_hang false true r)
        else (false, set_hang false false (set_qstats (set_done_old tx_done) r))).

(** Waking the queue. *)
Definition clean_wake (carrier down : bool) (total_packets : Z) (r : tx_ring) : tx_ring :=
  if truthy total_packets && carrier && (ixgbe_desc_unused r >=? TX_WAKE_THRESHOLD) then
    if stopped r && negb down then set_qstats inc_restart (set_stopped false r) else r
  else r.

(** [ixgbe_clean_tx_irq]: whether the work is done, the ring, the totals for the vector, and whether a reset is asked for. *)
Definition ixgbe_clean_tx_irq (work_limit : Z) (carrier down : bool) (r : tx_ring) : M (option (bool * tx_ring * (Z * Z) * bool)) :=
  if down then mret (Some (true, r, (0, 0), false))
  else
    let k := next_to_clean r in
    match clean_loop (Z.to_nat (count r)) k (u32 (k - count r)) 0 0 work_limit r with
    | None => mret None
    | Some (total_bytes, total_packets, budget, i, r) =>
        let r := set_qstats (add_stats total_packets total_bytes) (set_clean (u16 (i + count r)) r) in
        h ← (if detect_hang r then ixgbe_check_tx_hang r else mret (false, r));
        let '(hung, r) := h in
        if hung : bool then
          _ ← IXGBE_READ_REG (IXGBE_TDH (reg_idx (base r)));
          _ ← IXGBE_READ_REG (IXGBE_TDT (reg_idx (base r)));
          mret (Some (true, set_stopped true r, (total_bytes, total_packets), true))
        else
          mret (Some (truthy budget, clean_wake carrier down total_packets (do_log [Completed total_packets total_bytes] r), (total_bytes, total_packets), false))
    end.

(** [ixgbe_clean_tx_ring]: everything is released, whatever its state. *)
Fixpoint free_all (n : nat) (i : Z) (r : tx_ring) : tx_ring :=
  match n with O => r | S n => free_all n (i + 1) (ixgbe_unmap_and_free_tx_resource i r) end.
Definition ixgbe_clean_tx_ring (r : tx_ring) : tx_ring :=
  set_arrays (fun _ => TxDesc 0 0 0) (fun _ => clear_tx) (free_all (Z.to_nat (count r)) 0 r).
