(* ===== verification/TxRingSpec.v ===== *)
(** * Transmit rings: what a ring holds, and that transmission and completion keep it

    Positions count the descriptors ever used; position [p] is in slot [p mod N] of a ring of [N] descriptors. The positions from the head, where
    the next packet is released, up to the tail hold the packets in flight, one after the other; the other slots are clear. *)
From S2P Require Import Prelude Hw Bits FlowDir FlowFilters Sriov Queues Slots TxRing.
From Stdlib Require Import Permutation.
Open Scope Z_scope.

(** What a log says of mappings and packets. *)
Definition mapped (l : list effect) : list (Z * Z) := omap (fun e => match e with Mapped a n => Some (a, n) | _ => None end) l.
Definition unmapped (l : list effect) : list (Z * Z) := omap (fun e => match e with Unmapped _ a n => Some (a, n) | _ => None end) l.
Definition freed (l : list effect) : list Z := omap (fun e => match e with Freed s => Some (sk_id s) | _ => None end) l.
Definition tails (l : list effect) : list Z := omap (fun e => match e with Tail i => Some i | _ => None end) l.
Lemma mapped_app a b : mapped (a ++ b) = mapped a ++ mapped b.
Proof. apply omap_app. Qed.
Lemma unmapped_app a b : unmapped (a ++ b) = unmapped a ++ unmapped b.
Proof. apply omap_app. Qed.
Lemma freed_app a b : freed (a ++ b) = freed a ++ freed b.
Proof. apply omap_app. Qed.
Lemma tails_app a b : tails (a ++ b) = tails a ++ tails b.
Proof. apply omap_app. Qed.

(** All of the ring but the arrays and the log. *)
Definition rest (r : tx_ring) := (base r, next_to_clean r, stats r, stopped r, (detect_hang r, hang_armed r, fdir_init_done r)).

(** ** A window of the ring *)
Section Window.
Context (N H : Z) (HN : 0 < N).
Local Notation slot := (slot N).
Definition D (r : tx_ring) (p : Z) : tx_desc := desc r (slot p).
Definition I (r : tx_ring) (p : Z) : tx_buffer := info r (slot p).
Definition inw (p : Z) : Prop := H <= p < H + N.

Lemma D_set p q f r : inw p -> inw q -> D (set_desc (slot p) f r) q = if decide (q = p) then f (D r p) else D r q.
Proof.
  intros Hp Hq. unfold D. cbn. destruct (decide (q = p)) as [->|Hne]; [apply fn_lookup_insert|].
  apply fn_lookup_insert_ne. intros E. apply Hne. by apply (slot_inj HN H).
Qed.
Lemma I_set p q f r : inw p -> inw q -> I (set_info (slot p) f r) q = if decide (q = p) then f (I r p) else I r q.
Proof.
  intros Hp Hq. unfold I. cbn. destruct (decide (q = p)) as [->|Hne]; [apply fn_lookup_insert|].
  apply fn_lookup_insert_ne. intros E. apply Hne. by apply (slot_inj HN H).
Qed.
Lemma next_slot r p : count r = N -> next r (slot p) = slot (p + 1).
Proof. intros E. unfold next. rewrite E. by apply slot_next. Qed.

(** A slot with nothing in it. *)
Definition empty_buffer (b : tx_buffer) : Prop := skb b = None /\ next_to_watch b = None /\ len b = 0.
(** The mappings in positions [p .. p + n - 1]. *)
Definition maps (r : tx_ring) (p n : Z) : list (Z * Z) :=
  omap (fun q => if truthy (len (I r q)) then Some (dma (I r q), len (I r q)) else None) (seqZ p n).
Lemma maps_split r p n m : 0 <= n -> 0 <= m -> maps r p (n + m) = maps r p n ++ maps r (p + n) m.
Proof. intros. unfold maps. by rewrite seqZ_app, omap_app by lia. Qed.
Lemma maps_ext r r' p n : (forall q, p <= q < p + n -> I r' q = I r q) -> maps r' p n = maps r p n.
Proof.
  intros E. unfold maps. apply list_omap_ext, Forall_Forall2_diag, Forall_forall. intros q Hq%elem_of_seqZ. by rewrite E.
Qed.
Lemma maps_same r r' p n : (forall q, p <= q < p + n -> dma (I r' q) = dma (I r q) /\ len (I r' q) = len (I r q)) -> maps r' p n = maps r p n.
Proof.
  intros E. unfold maps. apply list_omap_ext, Forall_Forall2_diag, Forall_forall. intros q Hq%elem_of_seqZ. by destruct (E q Hq) as [-> ->].
Qed.
Lemma maps_none r p n : (forall q, p <= q < p + n -> len (I r q) = 0) -> maps r p n = [].
Proof.
  intros E. unfold maps. assert (forall l, (forall q, q ∈ l -> len (I r q) = 0) -> omap (fun q => if truthy (len (I r q)) then Some (dma (I r q), len (I r q)) else None) l = []) as G.
  { induction l as [|x l IH]; intros Hl; [done|]. cbn. rewrite Hl by set_solver. cbn. apply IH. set_solver. }
  apply G. intros q Hq%elem_of_seqZ. by apply E.
Qed.
Lemma maps_one r p : len (I r p) <> 0 -> maps r p 1 = [(dma (I r p), len (I r p))].
Proof. intros E. unfold maps. rewrite seqZ_cons by lia. cbn. unfold truthy. by rewrite (proj2 (Z.eqb_neq _ _) E). Qed.

(** ** Pieces and descriptors *)

(** The descriptors of a piece. *)
Fixpoint chunks (fuel : nat) (addr size : Z) : list (Z * Z) :=
  match fuel with
  | O => [(addr, size)]
  | S fuel => if size >? IXGBE_MAX_DATA_PER_TXD then (addr, IXGBE_MAX_DATA_PER_TXD) :: chunks fuel (addr + IXGBE_MAX_DATA_PER_TXD) (size - IXGBE_MAX_DATA_PER_TXD) else [(addr, size)]
  end.
Definition piece_chunks (p : Z * Z) : list (Z * Z) := chunks (chunk_fuel p.2) p.1 p.2.
(** Descriptors from [p] on that are complete and not the last of the packet. *)
Fixpoint described (r : tx_ring) (cmd p : Z) (l : list (Z * Z)) : Prop :=
  match l with
  | [] => True
  | (a, s) :: l => buffer_addr (D r p) = a /\ cmd_type_len (D r p) = Z.lxor cmd s /\ described r cmd (p + 1) l
  end.
Lemma described_ext r r' cmd l : forall p, (forall q, p <= q < p + Z.of_nat (length l) -> D r' q = D r q) -> described r cmd p l -> described r' cmd p l.
Proof.
  induction l as [|[a s] l IH]; intros p E; [done|]. cbn [length] in E. intros (H1 & H2 & H3). cbn. rewrite (E p) by lia. split_and!; [done..|].
  apply IH; [|done]. intros q Hq. apply E. lia.
Qed.
Lemma described_app r cmd l k : forall p, described r cmd p (l ++ k) <-> described r cmd p l /\ described r cmd (p + Z.of_nat (length l)) k.
Proof.
  induction l as [|[a s] l IH]; intros p; cbn [app described length].
  - rewrite Z.add_0_r. tauto.
  - rewrite IH. replace (p + 1 + Z.of_nat (length l)) with (p + Z.of_nat (S (length l))) by lia. tauto.
Qed.

(** The ring with other descriptors. *)
Definition new_desc (r r' : tx_ring) : Prop := r' = set_arrays (desc r') (info r) r.
Lemma new_desc_refl r : new_desc r r.
Proof. by destruct r. Qed.
Lemma new_desc_trans r r1 r2 : new_desc r r1 -> new_desc r1 r2 -> new_desc r r2.
Proof. unfold new_desc. intros -> ->. done. Qed.
Lemma new_desc_set i f r : new_desc r (set_desc i f r).
Proof. done. Qed.

(** One piece: from position [p], with its address written there, up to the descriptor of its last chunk. *)
Lemma chunk_loop_spec cmd fuel : forall p addr size r i' last r', count r = N -> inw p -> p + Z.of_nat (length (chunks fuel addr size)) <= H + N ->
  buffer_addr (D r p) = addr -> chunk_loop fuel cmd (slot p) addr size r = (i', last, r') ->
  exists l a, chunks fuel addr size = l ++ [(a, last)] /\ let q := p + Z.of_nat (length l) in i' = slot q /\ new_desc r r' /\ described r' cmd p l /\ buffer_addr (D r' q) = a /\
    (forall x, inw x -> ~ p <= x <= q -> D r' x = D r x) /\ olinfo_status (D r' p) = olinfo_status (D r p) /\ (forall x, p < x <= q -> olinfo_status (D r' x) = 0).
Proof.
  induction fuel as [|fuel IH]; intros p addr size r i' last r' Hc Hp Hl Ha E.
  { cbn in E. simplify_eq. exists [], (buffer_addr (D r' p)). cbn. rewrite Z.add_0_r. split_and!; try done; [apply new_desc_refl|lia]. }
  cbn [chunk_loop chunks] in *. destruct (Z.gtb_spec size IXGBE_MAX_DATA_PER_TXD) as [Hs|Hs]; cbv zeta in E.
  2: { simplify_eq. exists [], (buffer_addr (D r' p)). cbn. rewrite Z.add_0_r. split_and!; try done; [apply new_desc_refl|lia]. }
  cbn [length] in Hl. set (r1 := set_desc (slot p) _ r) in *.
  assert (0 < Z.of_nat (length (chunks fuel (addr + IXGBE_MAX_DATA_PER_TXD) (size - IXGBE_MAX_DATA_PER_TXD)))) as Hpos by (destruct fuel; cbn; [lia|destruct (_ >? _); cbn; lia]).
  assert (inw (p + 1)) as Hp1 by (unfold inw in *; lia).
  rewrite next_slot in E by done. set (r2 := set_desc (slot (p + 1)) _ r1) in E.
  assert (forall x, inw x -> D r2 x = if decide (x = p + 1) then set_addr (addr + IXGBE_MAX_DATA_PER_TXD) (set_olinfo 0 (D r (p + 1))) else
            if decide (x = p) then set_cmd (Z.lxor cmd IXGBE_MAX_DATA_PER_TXD) (D r p) else D r x) as ED.
  { intros x Hx. unfold r2, r1. rewrite D_set by done. destruct (decide (x = p + 1)) as [->|].
    - by rewrite D_set, decide_False by (done || lia).
    - by apply D_set. }
  eapply IH in E as (l & a & E & Hq); [|done|done|lia|rewrite ED, decide_True by done; done].
  cbv zeta in Hq. destruct Hq as (-> & G1 & G2 & G3 & G4 & G5 & G6).
  exists ((addr, IXGBE_MAX_DATA_PER_TXD) :: l), a. rewrite E. split; [done|]. cbv zeta. cbn [length described].
  assert (length (chunks fuel (addr + IXGBE_MAX_DATA_PER_TXD) (size - IXGBE_MAX_DATA_PER_TXD)) = S (length l)) as El by (rewrite E, length_app; cbn; lia).
  replace (p + Z.of_nat (S (length l))) with (p + 1 + Z.of_nat (length l)) by lia.
  assert (D r' p = set_cmd (Z.lxor cmd IXGBE_MAX_DATA_PER_TXD) (D r p)) as Dp by (rewrite G4, ED by (done || lia); by rewrite decide_False, decide_True by lia).
  split_and!; try done.
  - by rewrite Dp.
  - by rewrite Dp.
  - intros x Hx Hn. rewrite G4, ED by (done || lia). by rewrite !decide_False by lia.
  - by rewrite Dp.
  - intros x Hx. destruct (decide (x = p + 1)) as [->|]; [|apply G6; lia]. rewrite G5, ED by done. by rewrite decide_True by done.
Qed.

(** A piece of a packet, or several: mapped from buffer position [pb] and descriptor position [p] up to position [q]. *)
Record laid (r r' : tx_ring) (pb p q : Z) (P : list (Z * Z)) : Prop := {
  la_rest : rest r' = rest r /\ sampling r' = sampling r /\ log r' = log r ++ map (fun x => Mapped x.1 x.2) P;
  la_pos : pb <= p <= q;
  la_first : I r' pb = match P with [] => I r pb | x :: _ => set_dma x.1 x.2 (I r pb) end;
  la_inner : forall x, pb < x <= q -> skb (I r' x) = None /\ next_to_watch (I r' x) = None;
  la_out : forall x, inw x -> ~ pb <= x <= q -> I r' x = I r x;
  la_maps : maps r' pb (q - pb + 1) = P;
  la_desc : forall x, inw x -> ~ p <= x <= q -> D r' x = D r x;
  la_olinfo : olinfo_status (D r' p) = olinfo_status (D r p)
}.
(** The descriptors of a packet's pieces: all but the last are complete. *)
Record desc_laid (r' : tx_ring) (cmd p q last : Z) (P : list (Z * Z)) : Prop := {
  dl_list : exists l a, concat (map piece_chunks P) = l ++ [(a, last)] /\ q = p + Z.of_nat (length l) /\ described r' cmd p l /\ buffer_addr (D r' q) = a;
  dl_zero : forall x, p < x <= q -> olinfo_status (D r' x) = 0
}.
(** The number of descriptors of a piece. *)
Definition ndesc (size : Z) : Z := Z.of_nat (length (chunks (chunk_fuel size) 0 size)).
Lemma chunks_length fuel : forall a a' size, length (chunks fuel a size) = length (chunks fuel a' size).
Proof. induction fuel as [|fuel IH]; intros a a' size; cbn; [done|]. destruct (_ >? _); cbn; [f_equal; apply IH|done]. Qed.
Lemma piece_length x : Z.of_nat (length (piece_chunks x)) = ndesc x.2.
Proof. unfold piece_chunks, ndesc. by rewrite (chunks_length _ _ 0). Qed.
Lemma ndesc_pos size : 1 <= ndesc size.
Proof. unfold ndesc. destruct (chunk_fuel size); cbn; [lia|]. destruct (_ >? _); cbn; lia. Qed.

Lemma piece_spec cmd pb p addr size r i' last r' (r0 := set_desc (slot p) (set_addr addr) (set_info (slot pb) (set_dma addr size) (do_log [Mapped addr size] r))) :
  count r = N -> inw pb -> pb <= p -> p + ndesc size <= H + N -> 0 < size -> (forall x, pb < x < H + N -> empty_buffer (I r x)) ->
  chunk_loop (chunk_fuel size) cmd (slot p) addr size r0 = (i', last, r') ->
  exists q, i' = slot q /\ q < p + ndesc size /\ laid r r' pb p q [(addr, size)] /\ desc_laid r' cmd p q last [(addr, size)].
Proof.
  intros Hc Hpb Hle Hl Hs He E. pose proof (ndesc_pos size). assert (inw p) as Hp by (unfold inw in *; lia).
  assert (forall x, inw x -> D r0 x = if decide (x = p) then set_addr addr (D r p) else D r x) as ED by (intros x Hx; unfold r0; by rewrite D_set by done).
  eapply chunk_loop_spec in E as (l & a & E & Hq); [|done|done|unfold ndesc in Hl; by rewrite (chunks_length _ _ 0)|rewrite ED, decide_True by done; done].
  cbv zeta in Hq. destruct Hq as (-> & G1 & G2 & G3 & G4 & G5 & G6). set (q := p + Z.of_nat (length l)) in *.
  assert (Z.of_nat (length l) + 1 = ndesc size) as El by (unfold ndesc; rewrite (chunks_length _ _ addr), E, length_app; cbn; lia).
  assert (forall x, inw x -> I r' x = if decide (x = pb) then set_dma addr size (I r pb) else I r x) as EI.
  { intros x Hx. unfold new_desc in G1. rewrite G1. change (I (set_arrays (desc r') (info r0) r0) x) with (I (set_info (slot pb) (set_dma addr size) r) x). by apply I_set. }
  exists q. split_and!; [done|lia| |].
  - split.
    + unfold new_desc in G1. rewrite G1. done.
    + lia.
    + by rewrite EI, decide_True.
    + intros x Hx. rewrite EI, decide_False by (unfold inw in *; lia). destruct (He x) as (? & ? & _); [lia|done].
    + intros x Hx Hn. by rewrite EI, decide_False by (done || lia).
    + replace (q - pb + 1) with (1 + (q - pb)) by lia. rewrite maps_split by lia. rewrite maps_one by (rewrite EI, decide_True by done; cbn; lia).
      rewrite EI, decide_True by done. rewrite maps_none; [done|]. intros x Hx. rewrite EI, decide_False by (unfold inw in *; lia). apply He. unfold inw in *. lia.
    + intros x Hx Hn. rewrite G4, ED by done. by rewrite decide_False by lia.
    + rewrite G5, ED by done. by rewrite decide_True.
  - split; [|done]. exists l, a. cbn. rewrite app_nil_r. unfold piece_chunks. cbn [fst snd]. split_and!; done.
Qed.

(** From one piece to the next. *)
Definition between (cmd q last : Z) (r : tx_ring) : tx_ring := set_desc (slot (q + 1)) (set_olinfo 0) (set_desc (slot q) (set_cmd (Z.lxor cmd last)) r).
Lemma D_between cmd q last r x : inw q -> inw (q + 1) -> inw x ->
  D (between cmd q last r) x = if decide (x = q + 1) then set_olinfo 0 (D r (q + 1)) else if decide (x = q) then set_cmd (Z.lxor cmd last) (D r q) else D r x.
Proof.
  intros H1 H2 H3. unfold between. rewrite D_set by done. destruct (decide (x = q + 1)) as [->|]; rewrite D_set by done; [|done].
  by rewrite decide_False by lia.
Qed.
Lemma laid_trans r r1 r' cmd last pb p q1 q x1 P2 : inw pb -> q1 < q -> q < H + N -> (forall x, pb < x < H + N -> empty_buffer (I r x)) -> laid r r1 pb p q1 [x1] ->
  laid (between cmd q1 last r1) r' (q1 + 1) (q1 + 1) q P2 -> laid r r' pb p q (x1 :: P2).
Proof.
  intros Hpb Hlt Hq He [(A1 & A2 & A3) B C D1 E F G O] [(A1' & A2' & A3') B' C' D1' E' F' G' O'].
  assert (forall x, I (between cmd q1 last r1) x = I r1 x) as EI by done.
  assert (forall x, inw x -> ~ q1 + 1 <= x <= q -> I r' x = I r1 x) as EI' by (intros x Hx Hn; by rewrite E', EI).
  assert (inw q1 /\ inw (q1 + 1)) as [W1 W2] by (unfold inw in *; lia).
  split.
  - split_and!; [by rewrite A1', <- A1|by rewrite A2', <- A2|]. rewrite A3'. change (log (between cmd q1 last r1)) with (log r1). by rewrite A3, <- app_assoc.
  - lia.
  - by rewrite EI' by (done || lia).
  - intros x Hx. destruct (Z_le_gt_dec x q1); [rewrite EI' by (unfold inw in *; lia); apply D1; lia|]. destruct (decide (x = q1 + 1)) as [->|]; [|apply D1'; lia].
    rewrite C'. assert (skb (I r1 (q1 + 1)) = None /\ next_to_watch (I r1 (q1 + 1)) = None); [|by destruct P2].
    rewrite E by (done || lia). destruct (He (q1 + 1)) as (? & ? & _); [unfold inw in *; lia|done].
  - intros x Hx Hn. rewrite EI' by (done || lia). apply E; [done|lia].
  - replace (q - pb + 1) with ((q1 - pb + 1) + (q - (q1 + 1) + 1)) by lia. rewrite maps_split by lia. replace (pb + (q1 - pb + 1)) with (q1 + 1) by lia.
    rewrite F'. change (x1 :: P2) with ([x1] ++ P2). f_equal. rewrite <- F. apply maps_ext. intros x Hx. apply EI'; [unfold inw in *|]; lia.
  - intros x Hx Hn. rewrite G', D_between by (done || lia). rewrite !decide_False by lia. by apply G; [|lia].
  - rewrite G', D_between by (unfold inw in *; lia). rewrite decide_False by lia. destruct (decide (p = q1)) as [->|]; by rewrite <- O.
Qed.
Lemma desc_trans r1 r' cmd last1 last p q1 q P1 P2 : p <= q1 -> inw p -> q1 < q < H + N -> desc_laid r1 cmd p q1 last1 P1 ->
  laid (between cmd q1 last1 r1) r' (q1 + 1) (q1 + 1) q P2 -> desc_laid r' cmd (q1 + 1) q last P2 -> desc_laid r' cmd p q last (P1 ++ P2).
Proof.
  intros Hle Hp Hq [(l1 & a1 & E1 & Q1 & S1 & B1) Z1] [_ _ _ _ _ _ G O] [(l2 & a2 & E2 & Q2 & S2 & B2) Z2].
  assert (inw q1 /\ inw (q1 + 1)) as [W1 W2] by (unfold inw in *; lia).
  assert (forall x, p <= x <= q1 -> D r' x = if decide (x = q1) then set_cmd (Z.lxor cmd last1) (D r1 q1) else D r1 x) as ED.
  { intros x Hx. rewrite G, D_between by (unfold inw in *; lia). by rewrite decide_False by lia. }
  split.
  - exists (l1 ++ (a1, last1) :: l2), a2. rewrite map_app, concat_app, E1, E2. rewrite length_app. cbn [length]. split_and!; [by rewrite <- !app_assoc|lia| |done].
    apply described_app. split; [|cbn; rewrite <- Q1; rewrite ED, decide_True by lia; done].
    eapply described_ext; [|exact S1]. intros x Hx. rewrite ED by lia. by rewrite decide_False by lia.
  - intros x Hx. destruct (Z_le_gt_dec x q1).
    + rewrite ED by lia. destruct (decide (x = q1)) as [->|]; [cbn|]; apply Z1; lia.
    + destruct (decide (x = q1 + 1)) as [->|]; [|apply Z2; lia]. rewrite O, D_between by done. by rewrite decide_True.
Qed.

(** The sizes of the fragments that are mapped when [dlen] bytes are left. *)
Fixpoint cut (dlen : Z) (fr : list Z) : list Z :=
  match fr with [] => [] | f :: fr => if dlen =? 0 then [] else Z.min dlen f :: cut (dlen - Z.min dlen f) fr end.
Definition total_desc (sizes : list Z) : Z := foldr (fun s acc => ndesc s + acc) 0 sizes.
Lemma total_desc_nonneg l : 0 <= total_desc l.
Proof. induction l as [|x l IH]; [done|]. pose proof (ndesc_pos x). change (0 <= ndesc x + total_desc l). lia. Qed.
Lemma total_desc_cons x l : total_desc (x :: l) = ndesc x + total_desc l.
Proof. done. Qed.

Definition map_outcome (r : tx_ring) (cmd pb p : Z) (sizes : list Z) (res : map_result) : Prop :=
  match res with
  | MapDone i last r' => exists q P, i = slot q /\ q < p + total_desc sizes /\ map snd P = sizes /\ laid r r' pb p q P /\ desc_laid r' cmd p q last P
  | MapFailed i r' => exists q P, i = slot q /\ q < p + total_desc sizes /\ laid r r' pb p q P
  end.
Lemma laid_none r pb p : pb <= p -> len (I r pb) = 0 -> (forall x, pb < x < H + N -> empty_buffer (I r x)) -> p < H + N -> laid r r pb p p [].
Proof.
  intros Hle H0 He Hp. split; try done.
  - split_and!; try done. by rewrite app_nil_r.
  - intros x Hx. destruct (He x) as (? & ? & _); [lia|done].
  - apply maps_none. intros x Hx. destruct (decide (x = pb)) as [->|]; [done|]. apply He. lia.
Qed.
Lemma map_loop_spec e cmd fr : forall k p pb a size dlen r, count r = N -> inw pb -> pb <= p -> 0 < size -> 0 <= dlen <= foldr Z.add 0 fr -> Forall (fun f => 0 < f) fr ->
  p + total_desc (size :: cut dlen fr) <= H + N -> len (I r pb) = 0 -> (forall x, pb < x < H + N -> empty_buffer (I r x)) ->
  exists res, map_loop e fr k cmd (slot p) (slot pb) a size dlen r = Some res /\ map_outcome r cmd pb p (size :: cut dlen fr) res /\
    match res with MapFailed _ _ => a = None \/ exists j, dma_map e j = None | _ => True end.
Proof.
  induction fr as [|f fr IH]; intros k p pb a size dlen r Hc Hpb Hle Hs Hd Hf Ht H0 He; pose proof (ndesc_pos size) as Hn; rewrite total_desc_cons in Ht.
  all: match type of Ht with _ + (_ + total_desc ?l) <= _ => pose proof (total_desc_nonneg l) as Hnn end; cbn [map_loop].
  all: destruct a as [addr|]; [|eexists; split; [done|]; split; [|by left]; exists p, []; rewrite total_desc_cons; split_and!; [done|lia|apply laid_none; (done || lia)]].
  all: set (r0 := set_desc (slot p) _ _); destruct (chunk_loop (chunk_fuel size) cmd (slot p) addr size r0) as [[i1 last] r1] eqn:E;
    apply piece_spec with (pb := pb) in E as (q & -> & Hq & L1 & L2); [|done|done|done|lia|done|done].
  - cbn in Hd. replace (dlen =? 0) with true by lia. eexists. split; [done|]. split; [|done]. exists q, [(addr, size)]. rewrite total_desc_cons. split_and!; try done. lia.
  - cbn [cut] in *. destruct (Z.eqb_spec dlen 0) as [->|Hne].
    { eexists. split; [done|]. split; [|done]. exists q, [(addr, size)]. rewrite total_desc_cons. split_and!; try done. lia. }
    apply Forall_cons in Hf as [Hf1 Hf2]. cbn [foldr] in Hd. set (size2 := Z.min dlen f) in *. rewrite !total_desc_cons in *. pose proof (ndesc_pos size2).
    assert (0 <= foldr Z.add 0 fr) as Hsum by (clear -Hf2; induction Hf2; cbn; lia).
    assert (count r1 = N) as Hc1 by (destruct L1 as [(A & _) _ _ _ _ _ _ _]; unfold rest in A; injection A as A _; unfold count in *; by rewrite A).
    rewrite next_slot by done. cbv zeta. change (set_desc (slot (q + 1)) (set_olinfo 0) (set_desc (slot q) (set_cmd (Z.lxor cmd last)) r1)) with (between cmd q last r1).
    pose proof (la_pos _ _ _ _ _ _ L1). pose proof (total_desc_nonneg (cut (dlen - size2) fr)).
    assert (forall x, q < x < H + N -> empty_buffer (I (between cmd q last r1) x)) as He2.
    { intros x Hx. change (empty_buffer (I r1 x)). rewrite (la_out _ _ _ _ _ _ L1) by (unfold inw in *; lia). apply He. lia. }
    destruct (IH (S k) (q + 1) (q + 1) (dma_map e k) size2 (dlen - size2) (between cmd q last r1)) as (res & Er & Ho & Hfail);
      [done|unfold inw in *; lia|lia|unfold size2; lia|unfold size2; lia|done|rewrite total_desc_cons; lia|apply He2; lia|intros x Hx; apply He2; lia|].
    rewrite Er. eexists. split; [done|]. split; [|destruct res; [done|right; destruct Hfail as [?|?]; [by exists k|done]]].
    destruct res as [i last' r'|i r']; cbn [map_outcome] in *.
    + destruct Ho as (q' & P & -> & Hq' & HP & L3 & L4). pose proof (la_pos _ _ _ _ _ _ L3). rewrite total_desc_cons in Hq'.
      exists q', ((addr, size) :: P). rewrite !total_desc_cons. cbn [map]. split_and!; [done|lia|by rewrite HP| |].
      * by eapply (laid_trans r r1 r' cmd last pb p q q' (addr, size)); try done; lia.
      * by eapply (desc_trans r1 r' cmd last last' p q q' [(addr, size)]); try done; unfold inw in *; lia.
    + destruct Ho as (q' & P & -> & Hq' & L3). pose proof (la_pos _ _ _ _ _ _ L3). rewrite total_desc_cons in Hq'.
      exists q', ((addr, size) :: P). rewrite !total_desc_cons. split_and!; [done|lia|].
      by eapply (laid_trans r r1 r' cmd last pb p q q' (addr, size)); try done; lia.
Qed.

(** ** Undoing a failed mapping *)
Definition id_list (b : tx_buffer) : list Z := match skb b with Some s => [sk_id s] | None => [] end.
Definition map_list (b : tx_buffer) : list (Z * Z) := if truthy (len b) then [(dma b, len b)] else [].
Lemma maps_cons r p n : 0 < n -> maps r p n = map_list (I r p) ++ maps r (p + 1) (n - 1).
Proof. intros Hn. unfold maps, map_list. rewrite seqZ_cons by lia. replace (Z.succ p) with (p + 1) by lia. replace (Z.pred n) with (n - 1) by lia. cbn. by destruct (truthy _). Qed.
Lemma maps_snoc r p n : 0 <= n -> maps r p (n + 1) = maps r p n ++ map_list (I r (p + n)).
Proof. intros Hn. rewrite maps_split by lia. f_equal. rewrite maps_cons by lia. by rewrite app_nil_r. Qed.
Lemma free_resource_spec r p : inw p ->
  exists L, log (ixgbe_unmap_and_free_tx_resource (slot p) r) = log r ++ L /\ rest (ixgbe_unmap_and_free_tx_resource (slot p) r) = rest r /\
    sampling (ixgbe_unmap_and_free_tx_resource (slot p) r) = sampling r /\ desc (ixgbe_unmap_and_free_tx_resource (slot p) r) = desc r /\
    mapped L = [] /\ tails L = [] /\ unmapped L = map_list (I r p) /\ freed L = id_list (I r p) /\ empty_buffer (I (ixgbe_unmap_and_free_tx_resource (slot p) r) p) /\
    (forall x, inw x -> x <> p -> I (ixgbe_unmap_and_free_tx_resource (slot p) r) x = I r x).
Proof.
  intros Hp. unfold ixgbe_unmap_and_free_tx_resource. change (info r (slot p)) with (I r p). cbv zeta. unfold map_list, id_list.
  assert (forall L, let r' := set_info (slot p) (fun b => set_dma (dma b) 0 (set_skb None (set_watch None b))) (do_log L r) in
    rest r' = rest r /\ sampling r' = sampling r /\ desc r' = desc r /\ empty_buffer (I r' p) /\ (forall x, inw x -> x <> p -> I r' x = I r x)) as G.
  { intros L r'. split_and!; try done; unfold r'; [rewrite I_set by done; by rewrite decide_True|intros x Hx Hn; rewrite I_set by done; by rewrite decide_False]. }
  destruct (skb (I r p)) as [s|].
  - exists (Freed s :: if truthy (len (I r p)) then [Unmapped false (dma (I r p)) (len (I r p))] else []).
    destruct (G (Freed s :: if truthy (len (I r p)) then [Unmapped false (dma (I r p)) (len (I r p))] else [])) as (? & ? & ? & ? & ?). split_and!; try done; by destruct (truthy _).
  - exists (if truthy (len (I r p)) then [Unmapped true (dma (I r p)) (len (I r p))] else []).
    destruct (G (if truthy (len (I r p)) then [Unmapped true (dma (I r p)) (len (I r p))] else [])) as (? & ? & ? & ? & ?). split_and!; try done; by destruct (truthy _).
Qed.
Record unwound (r r' : tx_ring) (pb q : Z) (L : list effect) : Prop := {
  uw_rest : rest r' = rest r /\ sampling r' = sampling r /\ desc r' = desc r /\ log r' = log r ++ L;
  uw_log : mapped L = [] /\ tails L = [] /\ unmapped L ≡ₚ maps r pb (q - pb + 1) /\ freed L = id_list (I r pb);
  uw_in : forall x, pb <= x <= q -> empty_buffer (I r' x);
  uw_out : forall x, inw x -> ~ pb <= x <= q -> I r' x = I r x
}.
Lemma unwind_spec pb fuel : forall q r, count r = N -> inw pb -> pb <= q < H + N -> q - pb < Z.of_nat fuel -> (forall x, pb < x <= q -> skb (I r x) = None) ->
  exists r' L, unwind_loop fuel (slot pb) (slot q) r = Some (slot pb, r') /\ unwound r r' pb q L.
Proof.
  induction fuel as [|fuel IH]; intros q r Hc Hpb Hq Hfuel Hn; [lia|]. assert (inw q) as Wq by (unfold inw in *; lia).
  destruct (free_resource_spec r q Wq) as (L & E1 & E2 & E3 & E4 & M1 & M2 & M3 & M4 & M5 & M6). cbn [unwind_loop]. set (r1 := ixgbe_unmap_and_free_tx_resource (slot q) r) in *.
  clearbody r1. assert (count r1 = N) as Hc1 by (unfold rest in E2; injection E2 as E2 _; unfold count in *; by rewrite E2).
  destruct (Z.eqb_spec (slot q) (slot pb)) as [E|Hne].
  - apply (slot_inj HN H) in E as ->; [|done|done]. exists r1, L. split; [done|]. split; [done| | |intros x Hx Hnx; apply M6; [done|lia]].
    + split_and!; try done. replace (pb - pb + 1) with 1 by lia. rewrite maps_cons, app_nil_r by lia. by rewrite M3.
    + intros x Hx. by replace x with pb by lia.
  - assert (pb < q) as Hlt by (destruct (decide (q = pb)); [congruence|lia]). rewrite Hc1, slot_prev by done.
    destruct (IH (q - 1) r1) as (r2 & L2 & E & [(U1 & U2 & U3 & U4) (U5 & U6 & U7 & U8) U9 U10]); [done|done|lia|lia|intros x Hx; rewrite M6 by (unfold inw in *; lia); apply Hn; lia|].
    exists r2, (L ++ L2). split; [done|]. split.
    + split_and!; [by rewrite U1|by rewrite U2|by rewrite U3|by rewrite U4, E1, app_assoc].
    + rewrite mapped_app, tails_app, unmapped_app, freed_app, M1, M2, M3, M4, U5, U6, U8. split_and!; try done.
      * replace (q - 1 - pb + 1) with (q - pb) in U7 by lia. rewrite (maps_ext r r1) in U7 by (intros x Hx; apply M6; unfold inw in *; lia).
        rewrite U7, maps_snoc by lia. replace (pb + (q - pb)) with q by lia. apply Permutation_app_comm.
      * unfold id_list at 1. rewrite Hn by lia. by rewrite M6 by (unfold inw in *; lia).
    + intros x Hx. destruct (decide (x = q)) as [->|]; [|apply U9; lia]. rewrite U10 by (unfold inw in *; lia). done.
    + intros x Hx Hnx. rewrite U10, M6 by (done || lia). done.
Qed.
End Window.

(** ** What a ring holds *)

(** A packet in flight: the positions of its buffers and descriptors, the packet as the driver keeps it, and the bytes and segments it counts as. *)
Record flight := Flight { fl_pos : Z; fl_last : Z; fl_skb : sk_buff; fl_bytes : Z; fl_segs : Z }.
Definition fl_id (f : flight) : Z := sk_id (fl_skb f).
(** The packets are next to each other, from [p] up to [t]. *)
Fixpoint chain (p : Z) (Q : list flight) (t : Z) : Prop :=
  match Q with [] => p = t | f :: Q => fl_pos f = p /\ p <= fl_last f /\ chain (fl_last f + 1) Q t end.
Lemma chain_app Q Q' : forall p t, chain p (Q ++ Q') t <-> exists m, chain p Q m /\ chain m Q' t.
Proof.
  induction Q as [|f Q IH]; intros p t; cbn.
  - split; [intros; by exists p|by intros (m & -> & ?)].
  - rewrite IH. split; [intros (? & ? & m & ? & ?); exists m; by split_and!|intros (m & (? & ? & ?) & ?); split_and!; try done; by exists m].
Qed.
Lemma chain_bounds Q : forall p t f, chain p Q t -> f ∈ Q -> p <= fl_pos f /\ fl_pos f <= fl_last f < t.
Proof.
  assert (forall Q p t, chain p Q t -> p <= t) as Hle.
  { clear. induction Q as [|g Q IH]; cbn; [intros; lia|]. intros p t (? & ? & H%IH). lia. }
  induction Q as [|g Q IH]; intros p t f; cbn; [set_solver|]. intros (? & ? & Hc) [->|Hf]%elem_of_cons.
  - apply Hle in Hc. lia.
  - destruct (IH _ _ _ Hc Hf). lia.
Qed.
Lemma chain_le Q p t : chain p Q t -> p <= t.
Proof. revert p. induction Q as [|g Q IH]; cbn; [intros; lia|]. intros p (? & ? & H%IH). lia. Qed.

Definition is_done (d : tx_desc) : bool := truthy (Z.land (olinfo_status d) IXGBE_TXD_STAT_DD).

Section Ring.
Context (N : Z) (HN : 64 <= N < 2 ^ 15).
Local Notation slot := (slot N).
Local Notation D := (D N).
Local Notation I := (I N).
Local Notation maps := (maps N).
Local Notation inw := (inw N).
Local Lemma N_pos : 0 < N.
Proof. lia. Qed.
#[local] Hint Resolve N_pos : core.

Record in_flight (r : tx_ring) (f : flight) : Prop := {
  if_skb : skb (I r (fl_pos f)) = Some (fl_skb f);
  if_watch : next_to_watch (I r (fl_pos f)) = Some (slot (fl_last f));
  if_len : 0 < len (I r (fl_pos f));
  if_count : bytecount (I r (fl_pos f)) = fl_bytes f /\ gso_segs (I r (fl_pos f)) = fl_segs f;
  if_inner : forall x, fl_pos f < x <= fl_last f -> skb (I r x) = None /\ next_to_watch (I r x) = None;
  if_eop : forall x, fl_pos f <= x <= fl_last f -> Z.testbit (cmd_type_len (D r x)) 24 = bool_decide (x = fl_last f)
}.
(** Head [Hd], tail [T], packets [Q] of which the first [d] have been sent. *)
Record ring_ok (r : tx_ring) (Hd T : Z) (Q : list flight) (d : nat) : Prop := {
  ro_count : count r = N;
  ro_clean : next_to_clean r = slot Hd;
  ro_use : ntu r = slot T;
  ro_room : T < Hd + N;
  ro_chain : chain Hd Q T;
  ro_flight : Forall (in_flight r) Q;
  ro_empty : forall x, T <= x < Hd + N -> empty_buffer (I r x);
  ro_done : (d <= length Q)%nat /\ forall k f, Q !! k = Some f -> is_done (D r (fl_last f)) = bool_decide (k < d)%nat;
  ro_maps : mapped (log r) ≡ₚ unmapped (log r) ++ maps r Hd (T - Hd)
}.
Lemma ro_le r Hd T Q d : ring_ok r Hd T Q d -> Hd <= T.
Proof. intros [_ _ _ _ Hc _ _ _ _]. by apply chain_le in Hc. Qed.

(** The free descriptors. *)
Lemma unused_spec r Hd T Q d : ring_ok r Hd T Q d -> ixgbe_desc_unused r = N - (T - Hd) - 1.
Proof.
  intros HR. pose proof (ro_le _ _ _ _ _ HR). destruct HR as [C1 C2 C3 C4 _ _ _ _ _]. unfold ixgbe_desc_unused. rewrite C1, C2, C3.
  unfold Slots.slot. pose proof (Z.div_mod Hd N ltac:(lia)). pose proof (Z.div_mod T N ltac:(lia)). pose proof (Z.mod_pos_bound Hd N ltac:(lia)). pose proof (Z.mod_pos_bound T N ltac:(lia)).
  assert (T / N = Hd / N \/ T / N = Hd / N + 1) as [E|E].
  { assert (Hd / N <= T / N) by (apply Z.div_le_mono; lia). assert (T / N <= (Hd + 1 * N) / N) as G by (apply Z.div_le_mono; lia). rewrite Z.div_add in G by lia. lia. }
  - rewrite E in *. replace (Hd mod N >? T mod N) with false by nia. rewrite u16_small by nia. nia.
  - rewrite E in *. replace (Hd mod N >? T mod N) with true by nia. rewrite u16_small by nia. nia.
Qed.

(** The same packets after a change elsewhere. *)
Lemma in_flight_ext r r' f : (forall x, fl_pos f <= x <= fl_last f -> I r' x = I r x /\ D r' x = D r x) -> fl_pos f <= fl_last f -> in_flight r f -> in_flight r' f.
Proof.
  intros E Hle [F1 F2 F3 F4 F5 F6]. pose proof (proj1 (E (fl_pos f) ltac:(lia))) as E0. split; rewrite ?E0; try done; intros x Hx; [rewrite (proj1 (E x ltac:(lia)))|rewrite (proj2 (E x ltac:(lia)))]; auto.
Qed.
Lemma ring_ok_frame r r' Hd T Q d : ring_ok r Hd T Q d -> count r' = N -> next_to_clean r' = slot Hd -> ntu r' = slot T ->
  (forall x, Hd <= x < T -> I r' x = I r x /\ D r' x = D r x) -> (forall x, T <= x < Hd + N -> empty_buffer (I r' x)) ->
  mapped (log r') ≡ₚ unmapped (log r') ++ maps r Hd (T - Hd) -> ring_ok r' Hd T Q d.
Proof.
  intros [C1 C2 C3 C4 C5 C6 C7 [C8 C9] C10] E1 E2 E3 ED Ee Em. split; try done.
  - apply Forall_forall. intros f Hf. pose proof (chain_bounds _ _ _ _ C5 Hf). eapply in_flight_ext; [|lia|by eapply Forall_forall in C6]. intros x Hx. apply ED. lia.
  - split; [done|]. intros k f Hk. pose proof (chain_bounds _ _ _ _ C5 (list_elem_of_lookup_2 _ _ _ Hk)). rewrite (proj2 (ED (fl_last f) ltac:(lia))). by apply C9.
  - rewrite Em. rewrite (maps_ext N r r'); [done|]. intros x Hx. apply ED. lia.
Qed.
Lemma ring_ok_push r r' Hd T Q d q s b g L : ring_ok r Hd T Q d -> count r' = N -> next_to_clean r' = slot Hd -> ntu r' = slot (q + 1) -> T <= q -> q + 1 < Hd + N ->
  (forall x, Hd <= x < T -> I r' x = I r x /\ D r' x = D r x) -> (forall x, q < x < Hd + N -> empty_buffer (I r' x)) ->
  in_flight r' (Flight T q s b g) -> is_done (D r' q) = false -> log r' = log r ++ L -> mapped L ≡ₚ unmapped L ++ maps r' T (q + 1 - T) ->
  ring_ok r' Hd (q + 1) (Q ++ [Flight T q s b g]) d.
Proof.
  intros HR E1 E2 E3 Hq Hq' ED Ee Hf Hn EL Em. pose proof (ro_le _ _ _ _ _ HR) as Hle. destruct HR as [C1 C2 C3 C4 C5 C6 C7 [C8 C9] C10]. split; try done.
  - apply chain_app. exists T. by split.
  - apply Forall_app. split; [|by apply Forall_singleton]. apply Forall_forall. intros f Hf'. pose proof (chain_bounds _ _ _ _ C5 Hf').
    eapply in_flight_ext; [|lia|by eapply Forall_forall in C6]. intros x Hx. apply ED. lia.
  - intros x Hx. apply Ee. lia.
  - rewrite length_app. cbn. split; [lia|]. intros k f Hk. apply lookup_app_Some in Hk as [Hk|[Hk1 Hk2]].
    + pose proof (chain_bounds _ _ _ _ C5 (list_elem_of_lookup_2 _ _ _ Hk)). rewrite (proj2 (ED (fl_last f) ltac:(lia))). by apply C9.
    + destruct (k - length Q)%nat eqn:Ek; [|done]. cbn in Hk2. simplify_eq. cbn. rewrite Hn. rewrite bool_decide_false; [done|lia].
  - rewrite EL, mapped_app, unmapped_app, C10, Em. replace (q + 1 - Hd) with ((T - Hd) + (q + 1 - T)) by lia. rewrite maps_split by lia. replace (Hd + (T - Hd)) with T by lia.
    rewrite (maps_ext N r r' Hd) by (intros x Hx; apply ED; lia). rewrite <- !app_assoc. apply Permutation_app_head. rewrite !app_assoc. apply Permutation_app_tail, Permutation_app_comm.
Qed.

(** ** Flags and fields of the descriptors *)
Lemma land_pow2 x k : 0 <= k -> Z.land x (2 ^ k) = if Z.testbit x k then 2 ^ k else 0.
Proof.
  intros Hk. apply Z.bits_inj'. intros n Hn. rewrite Z.land_spec. destruct (decide (n = k)) as [->|Hne].
  - rewrite Z.pow2_bits_true by done. destruct (Z.testbit x k) eqn:E; cbn; [by rewrite Z.pow2_bits_true|by rewrite Z.bits_0].
  - rewrite Z.pow2_bits_false, andb_false_r by lia. destruct (Z.testbit x k); [by rewrite Z.pow2_bits_false by lia|by rewrite Z.bits_0].
Qed.
Lemma set_flag_spec x k res : 0 <= k -> (2 ^ k | res) \/ (res | 2 ^ k) -> 0 < res -> IXGBE_SET_FLAG x (2 ^ k) res = if Z.testbit x k then res else 0.
Proof.
  intros Hk Hd Hr. unfold IXGBE_SET_FLAG. rewrite land_pow2 by done. assert (0 < 2 ^ k) as Hm by lia. set (m := 2 ^ k) in *. clearbody m.
  destruct (Z.leb_spec m res), (Z.testbit x k); try done.
  - destruct Hd as [[c ->]|[c Hc]]; [rewrite Z.div_mul by lia; lia|]. assert (c = 1) by nia. subst c. replace res with m by lia. rewrite Z.div_same; lia.
  - destruct Hd as [[c ->]|[c ->]]; [exfalso; assert (0 < c) by nia; nia|]. rewrite Z.div_mul by lia. rewrite Z.mul_comm. apply Z.div_mul. nia.
Qed.
Lemma cmd_type_values f : ixgbe_tx_cmd_type f = Z.lor (Z.lor (Z.lor 0x22300000 (if Z.testbit f 0 then 0x40000000 else 0)) (if Z.testbit f 1 then 0x80000000 else 0)) (if Z.testbit f 2 then 0x00080000 else 0).
Proof.
  unfold ixgbe_tx_cmd_type. pose proof (set_flag_spec f 0 IXGBE_ADVTXD_DCMD_VLE ltac:(lia)) as E0. pose proof (set_flag_spec f 1 IXGBE_ADVTXD_DCMD_TSE ltac:(lia)) as E1.
  pose proof (set_flag_spec f 2 IXGBE_ADVTXD_MAC_TSTAMP ltac:(lia)) as E2. change (2 ^ 0) with IXGBE_TX_FLAGS_HW_VLAN in E0. change (2 ^ 1) with IXGBE_TX_FLAGS_TSO in E1. change (2 ^ 2) with IXGBE_TX_FLAGS_TSTAMP in E2.
  rewrite E0, E1, E2; [done|..]; try done; left; match goal with |- (?a | ?b) => by exists (b / a) end.
Qed.
Lemma olinfo_not_done f paylen : Z.land (ixgbe_tx_olinfo_status f paylen) IXGBE_TXD_STAT_DD = 0.
Proof.
  unfold ixgbe_tx_olinfo_status. pose proof (set_flag_spec f 5 IXGBE_ADVTXD_POPTS_TXSM ltac:(lia)) as E0. pose proof (set_flag_spec f 4 IXGBE_ADVTXD_POPTS_IXSM ltac:(lia)) as E1.
  pose proof (set_flag_spec f 3 IXGBE_ADVTXD_CC ltac:(lia)) as E2. change (2 ^ 5) with IXGBE_TX_FLAGS_CSUM in E0. change (2 ^ 4) with IXGBE_TX_FLAGS_IPV4 in E1. change (2 ^ 3) with IXGBE_TX_FLAGS_CC in E2.
  rewrite E0, E1, E2 by first [done|left; match goal with |- (?a | ?b) => by exists (b / a) end]. rewrite !Z.land_lor_distr_l.
  assert (Z.land (u32 (Z.shiftl paylen IXGBE_ADVTXD_PAYLEN_SHIFT)) IXGBE_TXD_STAT_DD = 0) as ->.
  { unfold u32, IXGBE_ADVTXD_PAYLEN_SHIFT, IXGBE_TXD_STAT_DD. change 1 with (2 ^ 0). rewrite land_pow2 by lia. rewrite Z.mod_pow2_bits_low by lia. rewrite Z.shiftl_spec by lia. by rewrite Z.testbit_neg_r. }
  by destruct (Z.testbit f 5), (Z.testbit f 4), (Z.testbit f 3).
Qed.
(** The length and the end-of-packet bit of a descriptor, as the adapter reads them. *)
Definition read_desc (d : tx_desc) : Z * Z * bool := (buffer_addr d, Z.land (cmd_type_len d) 0xFFFF, Z.testbit (cmd_type_len d) 24).
Definition view (r : tx_ring) (p q : Z) : list (Z * Z * bool) := map (fun x => read_desc (D r x)) (seqZ p (q - p + 1)).
Lemma small_bits s n : 0 <= s < 2 ^ 16 -> 16 <= n -> Z.testbit s n = false.
Proof. intros Hs Hn. destruct (decide (s = 0)) as [->|]; [apply Z.bits_0|]. apply Z.bits_above_log2; [lia|]. assert (Z.log2 s < 16) by (apply Z.log2_lt_pow2; lia). lia. Qed.
Lemma cmd_type_low f n : 0 <= n < 16 -> Z.testbit (ixgbe_tx_cmd_type f) n = false.
Proof.
  intros Hn. rewrite cmd_type_values. assert (forall c, Z.land c 0xFFFF = 0 -> Z.testbit c n = false) as G.
  { intros c Hc. apply (f_equal (fun z => Z.testbit z n)) in Hc. rewrite Z.land_spec, Z.bits_0 in Hc. change 0xFFFF with (Z.ones 16) in Hc. by rewrite Z.ones_spec_low, andb_true_r in Hc by lia. }
  apply G. by destruct (Z.testbit f 0), (Z.testbit f 1), (Z.testbit f 2).
Qed.
Lemma cmd_type_eop f : Z.testbit (ixgbe_tx_cmd_type f) 24 = false.
Proof. rewrite cmd_type_values. by destruct (Z.testbit f 0), (Z.testbit f 1), (Z.testbit f 2). Qed.
Lemma land_low c s : 0 <= s < 2 ^ 16 -> (forall n, 0 <= n < 16 -> Z.testbit c n = Z.testbit s n) -> Z.land c 0xFFFF = s.
Proof.
  intros Hs E. change 0xFFFF with (Z.ones 16). apply Z.bits_inj'. intros n Hn. rewrite Z.land_spec. destruct (Z_lt_le_dec n 16).
  - rewrite Z.ones_spec_low, andb_true_r by lia. apply E. lia.
  - rewrite Z.ones_spec_high, andb_false_r by lia. by rewrite small_bits by lia.
Qed.
Lemma read_inner f d s : cmd_type_len d = Z.lxor (ixgbe_tx_cmd_type f) s -> 0 <= s < 2 ^ 16 -> read_desc d = (buffer_addr d, s, false).
Proof.
  intros E Hs. unfold read_desc. rewrite E. f_equal; [f_equal|].
  - apply land_low; [done|]. intros n Hn. by rewrite Z.lxor_spec, cmd_type_low by lia.
  - by rewrite Z.lxor_spec, cmd_type_eop, small_bits by lia.
Qed.
Lemma read_last f d s : cmd_type_len d = Z.lor (ixgbe_tx_cmd_type f) (Z.lor s IXGBE_TXD_CMD) -> 0 <= s < 2 ^ 16 -> read_desc d = (buffer_addr d, s, true).
Proof.
  intros E Hs. unfold read_desc. rewrite E. f_equal; [f_equal|].
  - apply land_low; [done|]. intros n Hn. rewrite !Z.lor_spec, cmd_type_low by lia. replace (Z.testbit IXGBE_TXD_CMD n) with false; [by rewrite orb_false_r|].
    symmetry. change IXGBE_TXD_CMD with (Z.shiftl 9 24). rewrite Z.shiftl_spec by lia. apply Z.testbit_neg_r. lia.
  - rewrite !Z.lor_spec. change (Z.testbit IXGBE_TXD_CMD 24) with true. by rewrite !orb_true_r.
Qed.
Lemma view_eop r p q l a last : view r p q = map (fun x => (x.1, x.2, false)) l ++ [(a, last, true)] -> q = p + Z.of_nat (length l) ->
  forall x, p <= x <= q -> Z.testbit (cmd_type_len (D r x)) 24 = bool_decide (x = q).
Proof.
  intros E Hq x Hx. assert (view r p q !! Z.to_nat (x - p) = Some (read_desc (D r x))) as E1.
  { unfold view. change (map (fun x => read_desc (D r x)) (seqZ p (q - p + 1))) with ((fun x => read_desc (D r x)) <$> seqZ p (q - p + 1)). rewrite list_lookup_fmap, lookup_seqZ_lt by lia. cbn. do 3 f_equal. lia. }
  rewrite E in E1. destruct (decide (x = q)) as [->|Hne].
  - rewrite lookup_app_r in E1 by (rewrite length_map; lia). rewrite length_map in E1. replace (Z.to_nat (q - p) - length l)%nat with 0%nat in E1 by lia. cbn in E1.
    rewrite bool_decide_true by done. unfold read_desc in E1. by injection E1 as _ _ <-.
  - rewrite lookup_app_l in E1 by (rewrite length_map; lia). rewrite bool_decide_false by done. change (map (fun x => (x.1, x.2, false)) l) with ((fun x : Z * Z => (x.1, x.2, false)) <$> l) in E1.
    rewrite list_lookup_fmap in E1. destruct (l !! _) as [y|]; [|done]. cbn in E1. unfold read_desc in E1. by injection E1 as _ _ <-.
Qed.
Lemma view_described f r l : forall p, described N r (ixgbe_tx_cmd_type f) p l -> Forall (fun x => 0 <= x.2 < 2 ^ 16) l ->
  map (fun x => read_desc (D r x)) (seqZ p (Z.of_nat (length l))) = map (fun x => (x.1, x.2, false)) l.
Proof.
  induction l as [|[a s] l IH]; intros p Hd Hl; [done|]. cbn [length]. rewrite seqZ_cons by lia. destruct Hd as (H1 & H2 & H3). apply Forall_cons in Hl as [Hl1 Hl2].
  cbn [map fst snd]. rewrite (read_inner f _ s) by done. rewrite H1. f_equal. replace (Z.succ p) with (p + 1) by lia. replace (Z.pred (Z.of_nat (S (length l)))) with (Z.of_nat (length l)) by lia. by apply IH.
Qed.

(** A data descriptor, and what the adapter sends of a packet: the buffers of its data descriptors. *)
Definition is_data (d : tx_desc) : bool := Z.testbit (cmd_type_len d) 20.
Definition sent_view (r : tx_ring) (p q : Z) : list (Z * Z) :=
  omap (fun x => if is_data (D r x) then Some (read_desc (D r x)).1 else None) (seqZ p (q - p + 1)).
Lemma cmd_type_data f : Z.testbit (ixgbe_tx_cmd_type f) 20 = true.
Proof. rewrite cmd_type_values. by destruct (Z.testbit f 0), (Z.testbit f 1), (Z.testbit f 2). Qed.
Lemma sent_view_ext r r' p q : (forall x, p <= x <= q -> buffer_addr (D r' x) = buffer_addr (D r x) /\ cmd_type_len (D r' x) = cmd_type_len (D r x)) -> sent_view r' p q = sent_view r p q.
Proof.
  intros E. unfold sent_view. apply list_omap_ext, Forall_Forall2_diag, Forall_forall. intros x Hx%elem_of_seqZ. unfold is_data, read_desc. by destruct (E x ltac:(lia)) as [-> ->].
Qed.
Lemma sent_view_data r p q : (forall x, p <= x <= q -> is_data (D r x) = true) -> sent_view r p q = map fst (view r p q).
Proof.
  intros Hd. unfold sent_view, view. rewrite map_map. assert (forall l, (forall x, x ∈ l -> is_data (D r x) = true) ->
    omap (fun x => if is_data (D r x) then Some (read_desc (D r x)).1 else None) l = map (fun x => (read_desc (D r x)).1) l) as G.
  { induction l as [|x l IH]; intros Hl; [done|]. cbn. rewrite Hl by set_solver. cbn. f_equal. apply IH. set_solver. }
  apply G. intros x Hx%elem_of_seqZ. apply Hd. lia.
Qed.
Lemma sent_view_skip r p q : p <= q -> is_data (D r p) = false -> sent_view r p q = sent_view r (p + 1) q.
Proof. intros Hle Hp. unfold sent_view. rewrite seqZ_cons by lia. cbn. rewrite Hp. do 2 f_equal; lia. Qed.
Lemma described_data f r l : forall p, described N r (ixgbe_tx_cmd_type f) p l -> Forall (fun x => 0 <= x.2 < 2 ^ 16) l -> forall x, p <= x < p + Z.of_nat (length l) -> is_data (D r x) = true.
Proof.
  induction l as [|[a s] l IH]; intros p Hd Hl x Hx; cbn [length] in Hx; [lia|]. destruct Hd as (_ & H2 & H3). apply Forall_cons in Hl as [Hl1 Hl2]. cbn in Hl1.
  destruct (decide (x = p)) as [->|]; [|apply (IH (p + 1)); [done|done|lia]]. unfold is_data. by rewrite H2, Z.lxor_spec, cmd_type_data, small_bits by lia.
Qed.

(** Chunks are not empty, fit a descriptor, and are as many as the driver counts. *)
Lemma chunks_sizes fuel : forall a size, 0 < size <= (Z.of_nat fuel + 1) * IXGBE_MAX_DATA_PER_TXD -> Forall (fun x => 0 < x.2 <= IXGBE_MAX_DATA_PER_TXD) (chunks fuel a size).
Proof.
  change IXGBE_MAX_DATA_PER_TXD with 16384. induction fuel as [|fuel IH]; intros a size Hs; cbn [chunks].
  - apply Forall_singleton. cbn. change IXGBE_MAX_DATA_PER_TXD with 16384. lia.
  - change IXGBE_MAX_DATA_PER_TXD with 16384. destruct (Z.gtb_spec size 16384); [|apply Forall_singleton; cbn; lia]. apply Forall_cons. cbn. split; [lia|]. apply IH. lia.
Qed.
Lemma piece_sizes x : 0 < x.2 -> Forall (fun y => 0 < y.2 <= IXGBE_MAX_DATA_PER_TXD) (piece_chunks x).
Proof.
  intros Hx. apply chunks_sizes. unfold chunk_fuel. change IXGBE_MAX_DATA_PER_TXD with 16384. pose proof (Z.div_mod x.2 16384 ltac:(lia)). pose proof (Z.mod_pos_bound x.2 16384 ltac:(lia)).
  assert (0 <= x.2 / 16384) by (apply Z.div_pos; lia). rewrite Z2Nat.id by lia. lia.
Qed.
Lemma chunks_count fuel : forall a size, 0 < size <= (Z.of_nat fuel + 1) * IXGBE_MAX_DATA_PER_TXD -> Z.of_nat (length (chunks fuel a size)) = TXD_USE_COUNT size.
Proof.
  unfold TXD_USE_COUNT, DIV_ROUND_UP. change IXGBE_MAX_DATA_PER_TXD with 16384. induction fuel as [|fuel IH]; intros a size Hs; cbn [chunks].
  - apply Z.div_unique with (size - 1); cbn; lia.
  - change IXGBE_MAX_DATA_PER_TXD with 16384. destruct (Z.gtb_spec size 16384); cbn [length].
    + rewrite Nat2Z.inj_succ, IH by lia. replace (size + 16384 - 1) with ((size - 16384 + 16384 - 1) + 1 * 16384) by lia. rewrite Z.div_add by lia. lia.
    + apply Z.div_unique with (size - 1); cbn; lia.
Qed.
Lemma ndesc_count size : 0 < size -> ndesc size = TXD_USE_COUNT size.
Proof.
  intros Hs. unfold ndesc. apply chunks_count. unfold chunk_fuel. change IXGBE_MAX_DATA_PER_TXD with 16384. pose proof (Z.div_mod size 16384 ltac:(lia)). pose proof (Z.mod_pos_bound size 16384 ltac:(lia)).
  assert (0 <= size / 16384) by (apply Z.div_pos; lia). rewrite Z2Nat.id by lia. lia.
Qed.
Lemma ndesc_small size : 0 < size <= IXGBE_MAX_DATA_PER_TXD -> ndesc size = 1.
Proof. intros Hs. rewrite ndesc_count by lia. unfold TXD_USE_COUNT, DIV_ROUND_UP. revert Hs. change IXGBE_MAX_DATA_PER_TXD with 16384. intros Hs. symmetry. apply Z.div_unique with (size - 1); lia. Qed.
Lemma cut_desc fr : forall dlen, 0 <= dlen -> Forall (fun f => 0 < f <= IXGBE_MAX_DATA_PER_TXD) fr -> total_desc (cut dlen fr) <= Z.of_nat (length fr).
Proof.
  induction fr as [|f fr IH]; intros dlen Hd Hf; [done|]. apply Forall_cons in Hf as [Hf1 Hf2]. cbn [cut length]. destruct (Z.eqb_spec dlen 0); [cbn; lia|].
  rewrite total_desc_cons, ndesc_small by lia. specialize (IH (dlen - Z.min dlen f) ltac:(lia) Hf2). lia.
Qed.
Lemma cut_pos fr : forall dlen, 0 <= dlen -> Forall (fun f => 0 < f) fr -> Forall (fun f => 0 < f) (cut dlen fr).
Proof.
  induction fr as [|f fr IH]; intros dlen Hd Hf; [constructor|]. apply Forall_cons in Hf as [Hf1 Hf2]. cbn [cut]. destruct (Z.eqb_spec dlen 0); constructor; [lia|apply IH; [lia|done]].
Qed.

(** ** Mapping a packet into the ring *)

(** The ring with a packet's first buffer and its context descriptor, if it has one, set up from [T] on. *)
Record prepared (Hd : Z) (r r1 : tx_ring) (T p : Z) (s : sk_buff) : Prop := {
  pr_count : count r1 = N /\ ntu r1 = slot p /\ next_to_clean r1 = next_to_clean r /\ stopped r1 = stopped r;
  pr_pos : T <= p <= T + 1;
  pr_info : forall x, inw Hd x -> x <> T -> I r1 x = I r x;
  pr_desc : forall x, inw Hd x -> x <> T -> D r1 x = D r x;
  pr_first : skb (I r1 T) = Some s /\ next_to_watch (I r1 T) = None /\ len (I r1 T) = 0;
  pr_ctxt : p = T + 1 -> Z.testbit (cmd_type_len (D r1 T)) 24 = false /\ is_data (D r1 T) = false;
  pr_log : exists L, log r1 = log r ++ L /\ mapped L = [] /\ unmapped L = [] /\ freed L = [] /\ tails L = []
}.
(** The packet is queued: what the adapter reads are the chunks of its pieces, the last with the end-of-packet bit, and the tail register
    is written once, after them. *)
Record queued (Hd : Z) (r r' : tx_ring) (T : Z) (Q : list flight) (d : nat) (s : sk_buff) (sizes : list Z) : Prop := {
  qu_ring : exists p q P l a last bytes segs, ring_ok r' Hd (q + 1) (Q ++ [Flight T q s bytes segs]) d /\ T <= p <= T + 1 /\ map snd P = sizes /\
      concat (map piece_chunks P) = l ++ [(a, last)] /\ view r' p q = map (fun x => (x.1, x.2, false)) l ++ [(a, last, true)] /\ sent_view r' T q = concat (map piece_chunks P) /\
      q + 1 <= T + 1 + total_desc sizes /\
      exists L, log r' = log r ++ L ++ map (fun x => Mapped x.1 x.2) P ++ [Sent bytes; Tail (slot (q + 1))] /\ mapped L = [] /\ unmapped L = [] /\ freed L = [] /\ tails L = [];
  qu_keep : forall x, Hd <= x < T -> D r' x = D r x
}.
(** The packet is dropped: it is freed, what was mapped of it is unmapped, and the adapter is told nothing. *)
Record dropped (Hd : Z) (r r' : tx_ring) (T : Z) (Q : list flight) (d : nat) (s : sk_buff) : Prop := {
  dr_ring : ring_ok r' Hd T Q d;
  dr_log : exists L, log r' = log r ++ L /\ freed L = [sk_id s] /\ mapped L ≡ₚ unmapped L /\ tails L = [];
  dr_keep : forall x, Hd <= x < T -> D r' x = D r x
}.

Lemma log_maps P : mapped (map (fun x => Mapped x.1 x.2) P) = P /\ unmapped (map (fun x => Mapped x.1 x.2) P) = [] /\
  freed (map (fun x => Mapped x.1 x.2) P) = [] /\ tails (map (fun x => Mapped x.1 x.2) P) = [].
Proof. induction P as [|[a l] P (IH1 & IH2 & IH3 & IH4)]; [done|]. cbn. unfold mapped, unmapped, freed, tails in *. cbn. by rewrite IH1, IH2, IH3, IH4. Qed.
Lemma rest_fields r r' : rest r' = rest r -> count r' = count r /\ ntu r' = ntu r /\ next_to_clean r' = next_to_clean r /\ stopped r' = stopped r.
Proof. unfold rest. intros [= E1 E2 _ E4 _]. unfold count, ntu. by rewrite E1, E2, E4. Qed.
Lemma concat_sizes P : Forall (fun x => 0 < x.2) P -> Forall (fun y => 0 <= y.2 < 2 ^ 16) (concat (map piece_chunks P)).
Proof.
  induction 1 as [|x P Hx HP IH]; [constructor|]. cbn. apply Forall_app. split; [|done]. eapply Forall_impl; [by apply piece_sizes|]. change IXGBE_MAX_DATA_PER_TXD with 16384. cbn. lia.
Qed.
Lemma pieces_pos P size dlen fr : map snd P = size :: cut dlen fr -> 0 < size -> 0 <= dlen -> Forall (fun f => 0 < f) fr -> Forall (fun x : Z * Z => 0 < x.2) P.
Proof.
  intros HP Hs Hd Hf. apply (proj1 (Forall_fmap snd (fun z => 0 < z) P)). change (snd <$> P) with (map snd P). rewrite HP. constructor; [done|]. by apply cut_pos.
Qed.

(** After the loop over the pieces: the last descriptor, the watched descriptor and the tail. *)
Definition map_done (e : xmit_env) (first cmd i size : Z) (r : tx_ring) : tx_ring :=
  let r := set_desc i (set_cmd (Z.lor cmd (Z.lor size IXGBE_TXD_CMD))) r in
  let r := do_log [Sent (bytecount (info r first))] r in
  let r := set_info first (fun b => set_watch (Some i) (set_time (jiffies e) b)) r in
  do_log [Tail (next r i)] (set_ntu (next r i) r).
Lemma map_done_queued e r Hd T Q d r1 p s flags ol size dlen q P last r2 : ring_ok r Hd T Q d -> prepared Hd r r1 T p s ->
  Z.land ol IXGBE_TXD_STAT_DD = 0 -> 0 < size -> 0 <= dlen -> Forall (fun f => 0 < f) (frags s) -> p + total_desc (size :: cut dlen (frags s)) < Hd + N ->
  q < p + total_desc (size :: cut dlen (frags s)) -> map snd P = size :: cut dlen (frags s) ->
  laid N Hd (set_desc (slot p) (set_olinfo ol) r1) r2 T p q P -> desc_laid N r2 (ixgbe_tx_cmd_type flags) p q last P ->
  let r' := map_done e (slot T) (ixgbe_tx_cmd_type flags) (slot q) last r2 in queued Hd r r' T Q d s (size :: cut dlen (frags s)) /\ stopped r' = stopped r.
Proof.
  intros HR [(P1 & P2 & P3 & P4) PP PI PD (F1 & F2 & F3) PC (L0 & PL & M1 & M2 & M3 & M4)] Hol Hs Hd' Hf Hroom Hq HP [(A1 & A2 & A3) B C E1 E2 E3 E4 E5] [(l & a & DL1 & DL2 & DL3 & DL4) DZ] r'.
  pose proof (ro_le _ _ _ _ _ HR) as Hle. apply rest_fields in A1 as (R1 & R2 & R3 & R4).
  assert (inw Hd T /\ inw Hd p /\ inw Hd q) as (W1 & W2 & W3) by (unfold TxRingSpec.inw in *; pose proof (ro_room _ _ _ _ _ HR); lia).
  destruct P as [|x0 P0] eqn:EP; [done|]. rewrite <- EP in *. assert (0 < x0.2) as Hx0 by (rewrite EP in HP; cbn in HP; injection HP as -> _; done).
  set (r1' := set_desc (slot p) (set_olinfo ol) r1) in *. assert (forall x, I r1' x = I r1 x) as I1 by done.
  assert (forall x, inw Hd x -> D r1' x = if decide (x = p) then set_olinfo ol (D r1 p) else D r1 x) as D1 by (intros x Hx; by apply (D_set N Hd N_pos)).
  assert (count r2 = N) as Hc by (rewrite R1; exact P1).
  assert (forall x, inw Hd x -> D r' x = if decide (x = q) then set_cmd (Z.lor (ixgbe_tx_cmd_type flags) (Z.lor last IXGBE_TXD_CMD)) (D r2 q) else D r2 x) as DR by (intros x Hx; by apply (D_set N Hd N_pos)).
  assert (forall x, inw Hd x -> I r' x = if decide (x = T) then set_watch (Some (slot q)) (set_time (jiffies e) (I r2 T)) else I r2 x) as IR.
  { intros x Hx. unfold r', map_done. cbv zeta.
    change (I (set_info (slot T) (fun b => set_watch (Some (slot q)) (set_time (jiffies e) b)) r2) x = if decide (x = T) then set_watch (Some (slot q)) (set_time (jiffies e) (I r2 T)) else I r2 x).
    by apply (I_set N Hd N_pos). }
  assert (next r2 (slot q) = slot (q + 1)) as Hnext by (by apply next_slot).
  assert (ntu r' = slot (q + 1) /\ count r' = N /\ next_to_clean r' = slot Hd /\ stopped r' = stopped r) as (Q1 & Q2 & Q3 & Q4).
  { split_and!; [exact Hnext|exact Hc| |].
    - change (next_to_clean r2 = slot Hd). rewrite R3. change (next_to_clean r1' ) with (next_to_clean r1). rewrite P3. apply HR.
    - change (stopped r2 = stopped r). rewrite R4. exact P4. }
  cbn in C.
  set (bytes := bytecount (info (set_desc (slot q) (set_cmd (Z.lor (ixgbe_tx_cmd_type flags) (Z.lor last IXGBE_TXD_CMD))) r2) (slot T))).
  assert (log r' = log r ++ L0 ++ map (fun x => Mapped x.1 x.2) P ++ [Sent bytes; Tail (slot (q + 1))]) as HL.
  { change (log r') with ((log r2 ++ [Sent bytes]) ++ [Tail (next r2 (slot q))]). rewrite Hnext, A3. change (log r1') with (log r1). rewrite PL, <- !app_assoc. done. }
  destruct (log_maps P) as (G1 & G2 & G3 & G4).
  assert (view r' p q = map (fun x => (x.1, x.2, false)) l ++ [(a, last, true)]) as HV.
  { unfold view. assert (Forall (fun x => 0 < x.2) P) as HPpos by (by eapply pieces_pos).
    apply concat_sizes in HPpos. rewrite DL1 in HPpos. apply Forall_app in HPpos as [HP1 [HP2 _]%Forall_cons].
    replace (q - p + 1) with (Z.of_nat (length l) + 1) by lia. rewrite seqZ_app by lia. rewrite map_app. f_equal.
    + apply (view_described flags); [|done]. eapply described_ext; [|exact DL3]. intros x Hx. rewrite DR by (unfold TxRingSpec.inw in *; lia). by rewrite decide_False by lia.
    + rewrite seqZ_cons by lia. cbn [map]. replace (p + Z.of_nat (length l)) with q by lia. rewrite DR, decide_True by done. rewrite (read_last flags _ last); [|done|exact HP2]. change (buffer_addr (set_cmd ?c ?y)) with (buffer_addr y). by rewrite DL4. }
  assert (sent_view r' T q = concat (map piece_chunks P)) as HSV.
  { assert (sent_view r' p q = concat (map piece_chunks P)) as E.
    - rewrite sent_view_data, HV, map_app, map_map, DL1; [f_equal; rewrite <- (map_id l) at 2; apply map_ext; by intros []|].
      intros x Hx. rewrite DR by (unfold TxRingSpec.inw in *; lia). assert (Forall (fun x => 0 < x.2) P) as HPpos%concat_sizes by (by eapply pieces_pos).
      rewrite DL1 in HPpos. apply Forall_app in HPpos as [HP1 [HP2 _]%Forall_cons]. destruct (decide (x = q)) as [->|]; [|apply (described_data flags _ l p); [done|done|lia]].
      unfold is_data. cbn [set_cmd cmd_type_len]. by rewrite Z.lor_spec, cmd_type_data.
    - destruct (decide (p = T)) as [->|]; [done|]. assert (p = T + 1) as -> by lia. rewrite sent_view_skip; [done|lia|].
      rewrite DR, decide_False by (done || lia). rewrite E4, D1, decide_False by (done || lia). by apply PC. }
  assert (forall x, Hd <= x < T -> I r' x = I r x /\ D r' x = D r x) as HK.
  { intros x Hx. assert (inw Hd x) as Wx by (unfold TxRingSpec.inw in *; lia). rewrite IR, DR, !decide_False by (done || lia). split.
    - rewrite E2 by (done || lia). rewrite I1. apply PI; [done|lia].
    - rewrite E4, D1, decide_False by (done || lia). apply PD; [done|lia]. }
  split; [|exact Q4]. split; [|intros x Hx; by apply HK]. exists p, q, P, l, a, last, bytes, (gso_segs (I r1 T)). split_and!; try done; try lia.
  - eapply (ring_ok_push r r' Hd T Q d q s bytes (gso_segs (I r1 T)) (L0 ++ map (fun x => Mapped x.1 x.2) P ++ [Sent bytes; Tail (slot (q + 1))])); try done; try lia.
    + intros x Hx. assert (inw Hd x) as Wx by (unfold TxRingSpec.inw in *; lia). rewrite IR, decide_False by (done || lia). rewrite E2 by (done || lia). rewrite I1, PI by (done || lia). apply HR. lia.
    + split; cbn [fl_pos fl_last fl_skb].
      * rewrite IR, decide_True, C by done. exact F1.
      * by rewrite IR, decide_True by done.
      * rewrite IR, decide_True, C by done. exact Hx0.
      * rewrite IR, decide_True by done. split; [done|]. rewrite C. done.
      * intros x Hx. rewrite IR, decide_False by (unfold TxRingSpec.inw in *; lia). apply E1. lia.
      * intros x Hx. destruct (Z_lt_le_dec x p); [|eapply view_eop; [exact HV|done|lia]]. assert (x = T /\ p = T + 1) as [-> ->] by lia.
        rewrite DR, decide_False by (done || lia). rewrite E4, D1, decide_False by (done || lia). rewrite (proj1 (PC eq_refl)). by rewrite bool_decide_false by lia.
    + unfold is_done. rewrite DR, decide_True by done. cbn [set_cmd olinfo_status]. destruct (decide (p = q)) as [<-|].
      * rewrite E5, D1, decide_True by done. cbn. by rewrite Hol.
      * by rewrite DZ by lia.
    + rewrite !mapped_app, !unmapped_app, M1, M2, G1, G2. cbn. rewrite app_nil_r. rewrite <- E3 at 1. replace (q + 1 - T) with (q - T + 1) by lia.
      rewrite (maps_same N r2 r'); [done|]. intros x Hx. rewrite IR by (unfold TxRingSpec.inw in *; lia). destruct (decide (x = T)) as [->|]; done.
  - exists L0. by split_and!.
Qed.
Lemma map_failed_dropped r Hd T Q d r1 p s ol q P r2 : ring_ok r Hd T Q d -> prepared Hd r r1 T p s -> q < Hd + N ->
  laid N Hd (set_desc (slot p) (set_olinfo ol) r1) r2 T p q P ->
  exists r3, unwind_loop (Z.to_nat (count r2)) (slot T) (slot q) r2 = Some (slot T, r3) /\ dropped Hd r (set_ntu (slot T) r3) T Q d s /\ stopped r3 = stopped r.
Proof.
  intros HR [(P1 & P2 & P3 & P4) PP PI PD (F1 & F2 & F3) _ (L0 & PL & M1 & M2 & M3 & M4)] Hq [(A1 & A2 & A3) B C E1 E2 E3 E4 E5].
  pose proof (ro_le _ _ _ _ _ HR) as Hle. apply rest_fields in A1 as (R1 & R2 & R3 & R4). set (r1' := set_desc (slot p) (set_olinfo ol) r1) in *.
  assert (count r2 = N) as Hc by (rewrite R1; exact P1). assert (inw Hd T /\ inw Hd p) as [W1 W2] by (unfold TxRingSpec.inw; lia).
  assert (forall x, I r1' x = I r1 x) as I1 by done.
  assert (forall x, inw Hd x -> D r1' x = if decide (x = p) then set_olinfo ol (D r1 p) else D r1 x) as D1 by (intros x Hx; by apply (D_set N Hd N_pos)).
  destruct (unwind_spec N Hd N_pos T (Z.to_nat (count r2)) q r2) as (r3 & L & Hu & [(U1 & U2 & U3 & U4) (U5 & U6 & U7 & U8) U9 U10]); [done|done|lia|lia|intros x Hx; by apply E1|].
  exists r3. split; [done|]. apply rest_fields in U1 as (V1 & V2 & V3 & V4). split; [|rewrite V4, R4; exact P4].
  destruct (log_maps P) as (G1 & G2 & G3 & G4).
  assert (skb (I r2 T) = Some s) as Hs by (rewrite C; destruct P; exact F1).
  assert (log r3 = log r ++ L0 ++ map (fun x => Mapped x.1 x.2) P ++ L) as HL by (rewrite U4, A3; change (log r1') with (log r1); by rewrite PL, <- !app_assoc).
  assert (mapped (L0 ++ map (fun x => Mapped x.1 x.2) P ++ L) ≡ₚ unmapped (L0 ++ map (fun x => Mapped x.1 x.2) P ++ L)) as HM
    by (rewrite !mapped_app, !unmapped_app, M1, M2, G1, G2, U5, app_nil_r; cbn; by rewrite U7, E3).
  assert (forall x, Hd <= x < T -> I r3 x = I r x /\ D r3 x = D r x) as HK.
  { intros x Hx. assert (inw Hd x) as Wx by (unfold TxRingSpec.inw in *; lia). split.
    - rewrite U10, E2 by (done || lia). rewrite I1. apply PI; [done|lia].
    - unfold TxRingSpec.D. rewrite U3. change (D r2 x = D r x). rewrite E4, D1, decide_False by (done || lia). apply PD; [done|lia]. }
  split; [| |intros x Hx; by apply HK].
  - apply (ring_ok_frame r); try done.
    + change (count r3 = N). by rewrite V1.
    + change (next_to_clean r3 = slot Hd). rewrite V3, R3. change (next_to_clean r1') with (next_to_clean r1). rewrite P3. apply HR.
    + intros x Hx. change (empty_buffer (I r3 x)). destruct (Z_le_gt_dec x q); [apply U9; lia|]. assert (inw Hd x) as Wx by (unfold TxRingSpec.inw in *; lia).
      rewrite U10, E2 by (done || lia). rewrite I1, PI by (done || lia). apply HR. lia.
    + change (log (set_ntu (slot T) r3)) with (log r3). rewrite HL, mapped_app, unmapped_app, HM, (ro_maps _ _ _ _ _ HR). rewrite <- !app_assoc. apply Permutation_app_head, Permutation_app_comm.
  - exists (L0 ++ map (fun x => Mapped x.1 x.2) P ++ L). split_and!; try done.
    + rewrite !freed_app, M3, G3, U8. unfold id_list. by rewrite Hs.
    + by rewrite !tails_app, M4, G4, U6.
Qed.
Lemma tx_map_spec e r Hd T Q d r1 p s hdr flags size dlen : ring_ok r Hd T Q d -> prepared Hd r r1 T p s -> b_flags (I r1 T) = flags -> map_sizes flags s = (size, dlen) ->
  0 < size -> 0 <= dlen <= data_len s -> Forall (fun f => 0 < f) (frags s) -> p + total_desc (size :: cut dlen (frags s)) < Hd + N ->
  exists r', ixgbe_tx_map e (slot T) s hdr r1 = Some r' /\ stopped r' = stopped r /\
    (queued Hd r r' T Q d s (size :: cut dlen (frags s)) \/ (dropped Hd r r' T Q d s /\ exists j, dma_map e j = None)).
Proof.
  intros HR HP Hfl Hsz Hs Hd' Hf Hroom. pose proof (ro_le _ _ _ _ _ HR) as Hle. unfold ixgbe_tx_map. change (info r1 (slot T)) with (I r1 T). rewrite Hfl, Hsz. cbv zeta.
  destruct HP as [(P1 & P2 & P3 & P4) PP PI PD PF PC PL] eqn:EHP. clear EHP. rewrite P2. set (ol := ixgbe_tx_olinfo_status flags _).
  pose proof (total_desc_nonneg (size :: cut dlen (frags s))).
  destruct (map_loop_spec N Hd N_pos e (ixgbe_tx_cmd_type flags) (frags s) 1 p T (dma_map e 0) size dlen (set_desc (slot p) (set_olinfo ol) r1)) as (res & -> & Ho & Hfail); try done; try lia.
  - unfold TxRingSpec.inw. lia.
  - apply PF.
  - intros x Hx. change (empty_buffer (I r1 x)). rewrite PI by (unfold TxRingSpec.inw; lia). apply HR. lia.
  - cbn [mbind option_bind]. destruct res as [i last r2|i r2]; cbn [map_outcome] in Ho.
    + destruct Ho as (q & P & -> & Hq & HPs & L1 & L2).
      destruct (map_done_queued e r Hd T Q d r1 p s flags ol size dlen q P last r2) as [Hqu Hst]; try done; try lia; [by apply olinfo_not_done|].
      eexists. split; [reflexivity|]. split; [exact Hst|left; exact Hqu].
    + destruct Ho as (q & P & -> & Hq & L1). destruct (map_failed_dropped r Hd T Q d r1 p s ol q P r2) as (r3 & -> & Hdr & Hst); [done|by split|lia|done|].
      eexists. split; [reflexivity|]. split; [exact Hst|]. right. split; [exact Hdr|]. destruct Hfail as [?|?]; [by exists 0%nat|done].
Qed.
End Ring.
