(* ===== verification/TxRingRun.v ===== *)
(** * Transmit rings: transmission, completion, and runs of both

    [TxRingSpec] says what a ring holds and what mapping a packet does to it. Here are the whole of [ixgbe_xmit_frame_ring] and
    [ixgbe_clean_tx_irq], the adapter that sends the packets in between, and what any sequence of them does. *)
From S2P Require Import Prelude Hw Bits FlowDir FlowFilters Sriov Queues Slots TxRing TxRingSpec.
From Stdlib Require Import Permutation.
Open Scope Z_scope.

(** A packet that the driver may be given: a header of more than the trailer of FCoE, and at most 17 fragments, each of which fits a descriptor. *)
Record valid_skb (s : sk_buff) : Prop := {
  vs_head : fcoe_crc_eof_size < headlen s < 2 ^ 16;
  vs_frags : Forall (fun f => 0 < f <= IXGBE_MAX_DATA_PER_TXD) (frags s);
  vs_nr : nr_frags s <= MAX_SKB_FRAGS
}.
(** The same packet, with other headers. *)
Definition same_shape (s s' : sk_buff) : Prop := sk_id s' = sk_id s /\ headlen s' = headlen s /\ frags s' = frags s.
Lemma shape_refl s : same_shape s s.
Proof. done. Qed.
Lemma shape_trans s1 s2 s3 : same_shape s1 s2 -> same_shape s2 s3 -> same_shape s1 s3.
Proof. unfold same_shape. intros (-> & -> & ->) (-> & -> & ->). done. Qed.
#[export] Hint Resolve shape_refl : core.
(** The descriptors that the driver asks for. *)
Definition asked (s : sk_buff) : Z := TXD_USE_COUNT (headlen s) + nr_frags s.
Definition pieces_of (flags : Z) (s : sk_buff) : list Z := (map_sizes flags s).1 :: cut (map_sizes flags s).2 (frags s).

Lemma use_count_mono a b : a <= b -> TXD_USE_COUNT a <= TXD_USE_COUNT b.
Proof. intros Hab. unfold TXD_USE_COUNT, DIV_ROUND_UP. apply Z.div_le_mono; [done|lia]. Qed.
Lemma sum_nonneg l : Forall (fun f => 0 < f) l -> 0 <= foldr Z.add 0 l.
Proof. induction 1; cbn; lia. Qed.
Lemma valid_pos s : valid_skb s -> Forall (fun f => 0 < f) (frags s).
Proof. intros [_ Hf _]. eapply Forall_impl; [done|]. cbn. lia. Qed.
Lemma map_sizes_bounds flags s : valid_skb s -> let '(size, dlen) := map_sizes flags s in 0 < size <= headlen s /\ 0 <= dlen <= data_len s.
Proof.
  intros HV. pose proof (sum_nonneg _ (valid_pos s HV)) as Hn. fold (data_len s) in Hn. destruct HV as [Hh _ _]. unfold map_sizes, fcoe_crc_eof_size in *.
  destruct (truthy _); [|lia]. destruct (Z.ltb_spec (data_len s) 8); [|lia]. rewrite u32_small by lia. lia.
Qed.
Lemma pieces_desc flags s : valid_skb s -> total_desc (pieces_of flags s) <= asked s.
Proof.
  intros HV. pose proof (map_sizes_bounds flags s HV) as B. unfold pieces_of, asked. destruct (map_sizes flags s) as [size dlen]. cbn [fst snd]. destruct B as [B1 B2].
  rewrite total_desc_cons, ndesc_count by lia. pose proof (use_count_mono size (headlen s) ltac:(lia)). pose proof (cut_desc (frags s) dlen ltac:(lia) (vs_frags s HV)). unfold nr_frags. lia.
Qed.
Lemma asked_bounds s : valid_skb s -> 1 <= asked s <= 21.
Proof.
  intros [Hh _ Hn]. unfold asked, MAX_SKB_FRAGS, fcoe_crc_eof_size, nr_frags in *. change (2 ^ 16) with 65536 in Hh.
  assert (TXD_USE_COUNT 1 <= TXD_USE_COUNT (headlen s) <= TXD_USE_COUNT 65536) as B by (split; apply use_count_mono; lia).
  change (TXD_USE_COUNT 1) with 1 in B. change (TXD_USE_COUNT 65536) with 4 in B. lia.
Qed.
Lemma shape_valid s s' : same_shape s s' -> valid_skb s -> valid_skb s'.
Proof. intros (_ & E1 & E2) [H1 H2 H3]. split; unfold nr_frags in *; by rewrite ?E1, ?E2. Qed.
Lemma shape_asked s s' : same_shape s s' -> asked s' = asked s.
Proof. intros (_ & E1 & E2). unfold asked, nr_frags. by rewrite E1, E2. Qed.

Section Run.
Context (N : Z) (HN : 64 <= N < 2 ^ 15).
Local Notation slot := (slot N).
Local Notation D := (D N).
Local Notation I := (I N).
Local Notation maps := (maps N).
Local Notation inw := (inw N).
Local Lemma pos_N : 0 < N.
Proof. lia. Qed.
#[local] Hint Resolve pos_N : core.

(** ** Setting up a packet *)
Lemma prepared_start Hd r T Q d s : ring_ok N r Hd T Q d -> prepared N Hd r (set_info (slot T) (fun b => set_bytes (skb_len s) 1 (set_skb (Some s) b)) r) T T s.
Proof.
  intros HR. pose proof (ro_le _ _ _ _ _ _ HR). assert (inw Hd T) as WT by (unfold TxRingSpec.inw; pose proof (ro_room _ _ _ _ _ _ HR); lia).
  destruct (ro_empty _ _ _ _ _ _ HR T ltac:(unfold TxRingSpec.inw in *; lia)) as (E1 & E2 & E3). split.
  - split_and!; try done; apply HR.
  - lia.
  - intros x Hx Hne. rewrite (I_set N Hd) by done. by rewrite decide_False.
  - done.
  - rewrite (I_set N Hd), decide_True by done. done.
  - lia.
  - exists []. rewrite app_nil_r. done.
Qed.
Lemma prepared_info Hd r r1 T p s s' f : inw Hd T -> prepared N Hd r r1 T p s ->
  (skb (f (I r1 T)) = Some s' /\ next_to_watch (f (I r1 T)) = next_to_watch (I r1 T) /\ len (f (I r1 T)) = len (I r1 T)) -> prepared N Hd r (set_info (slot T) f r1) T p s'.
Proof.
  intros WT [P1 PP PI PD (F1 & F2 & F3) PC PL] (G1 & G2 & G3). split; try done.
  - intros x Hx Hne. rewrite (I_set N Hd), decide_False by done. by apply PI.
  - rewrite (I_set N Hd), decide_True by done. by rewrite G1, G2, G3.
Qed.
Lemma prepared_log Hd r r1 T p s L : mapped L = [] -> unmapped L = [] -> freed L = [] -> tails L = [] -> prepared N Hd r r1 T p s -> prepared N Hd r (do_log L r1) T p s.
Proof.
  intros M1 M2 M3 M4 [P1 PP PI PD PF PC (L0 & E & M5 & M6 & M7 & M8)]. split; try done. exists (L0 ++ L). cbn. rewrite E, app_assoc, mapped_app, unmapped_app, freed_app, tails_app, M1, M2, M3, M4, M5, M6, M7, M8. done.
Qed.
Lemma prepared_ctxt Hd r r1 T s w0 w1 w2 w3 : inw Hd T -> Z.testbit w2 24 = false /\ Z.testbit w2 20 = false -> prepared N Hd r r1 T T s -> prepared N Hd r (tx_ctxtdesc w0 w1 w2 w3 r1) T (T + 1) s.
Proof.
  intros WT Hw [(P1 & P2 & P3 & P4) PP PI PD PF PC PL]. unfold tx_ctxtdesc, ixgbe_tx_ctxtdesc. fold (ntu r1). rewrite P2.
  pose proof (slot_range N pos_N T). rewrite u16_small by lia. fold (count r1). rewrite P1. split; try done; try lia.
  - split_and!; try done. cbn. rewrite <- slot_next by done. destruct (Z.ltb_spec (slot T + 1) N), (Z.eqb_spec (slot T + 1) N); done || lia.
  - intros x Hx Hne. change (D (set_desc (slot T) (fun _ => TxDesc (w0 + w1 * 2 ^ 32) (Z.lor w2 (Z.lor IXGBE_TXD_CMD_DEXT IXGBE_ADVTXD_DTYP_CTXT)) w3) r1) x = D r x).
    rewrite (D_set N Hd), decide_False by done. by apply PD.
  - intros _. unfold is_data. match goal with |- context [D ?y T] => assert (cmd_type_len (D y T) = Z.lor w2 (Z.lor IXGBE_TXD_CMD_DEXT IXGBE_ADVTXD_DTYP_CTXT)) as -> end.
    { change (cmd_type_len (D (set_desc (slot T) (fun _ => TxDesc (w0 + w1 * 2 ^ 32) (Z.lor w2 (Z.lor IXGBE_TXD_CMD_DEXT IXGBE_ADVTXD_DTYP_CTXT)) w3) r1) T) = Z.lor w2 (Z.lor IXGBE_TXD_CMD_DEXT IXGBE_ADVTXD_DTYP_CTXT)).
      by rewrite (D_set N Hd), decide_True by done. }
    destruct Hw as [Hw1 Hw2]. by rewrite !(Z.lor_spec w2), Hw1, Hw2.
Qed.
Lemma tso_prepared e Hd r r1 T s t hdr r2 : inw Hd T -> prepared N Hd r r1 T T s -> ixgbe_tso e (slot T) s r1 = (t, hdr, r2) ->
  (t <= 0 -> r2 = r1) /\ exists p s', prepared N Hd r r2 T p s' /\ same_shape s s'.
Proof.
  intros WT HP. unfold ixgbe_tso. destruct (negb (ip_summed_partial s)); [intros [= <- <- <-]; split; [done|]; by exists T, s|].
  destruct (negb (skb_is_gso s)); [intros [= <- <- <-]; split; [done|]; by exists T, s|].
  destruct (header_cloned s && truthy (expand_tso e)); [intros [= <- <- <-]; split; [done|]; by exists T, s|].
  cbv zeta. change (info r1 (slot T)) with (I r1 T).
  match goal with |- (let '(_, _) := ?x in _) = _ -> _ => assert (same_shape s x.1.1 /\ Z.testbit x.1.2 24 = false /\ Z.testbit x.1.2 20 = false) as [Hs Ht]; [|destruct x as [[s' tucmd] flags]] end.
  { destruct (_ =? _); [done|]. destruct (gso_v6 _); done. }
  cbn [fst snd] in Hs, Ht. intros [= <- <- <-]. split; [done|]. exists (T + 1), s'. split; [|done]. apply prepared_ctxt; [done|done|]. eapply prepared_info; done.
Qed.
Lemma csum_prepared Hd r r1 T s : inw Hd T -> prepared N Hd r r1 T T s -> exists p, prepared N Hd r (ixgbe_tx_csum (slot T) s r1) T p s.
Proof.
  intros WT HP. unfold ixgbe_tx_csum. cbv zeta. change (info r1 (slot T)) with (I r1 T).
  assert (forall flags w0 w1 w2 w3, Z.testbit w2 24 = false /\ Z.testbit w2 20 = false -> prepared N Hd r (tx_ctxtdesc w0 w1 w2 w3 (set_info (slot T) (set_bflags flags) r1)) T (T + 1) s) as G.
  { intros flags w0 w1 w2 w3 Hw. apply prepared_ctxt; [done|done|]. eapply prepared_info; [done|done|]. split_and!; try done. apply HP. }
  destruct (negb (ip_summed_partial s)); [destruct (_ && _); [by exists T|exists (T + 1); by apply G]|].
  match goal with |- context [let '(_, _) := ?x in _] => assert (Z.testbit x.1.2 24 = false /\ Z.testbit x.1.2 20 = false) as H1 by (destruct (_ =? _); [done|]; destruct (_ =? _); done); destruct x as [[lens tucmd] l4] end.
  cbn [fst snd] in H1. match goal with |- context [let '(_, _) := ?x in _] => assert (Z.testbit x.1 24 = false /\ Z.testbit x.1 20 = false) as H2; [|destruct x as [tucmd' mss]] end.
  { destruct H1 as [H1 H1']. repeat (destruct (_ =? _); [cbn [fst]; rewrite ?Z.lor_spec, ?H1, ?H1'; done|]). done. }
  exists (T + 1). by apply G.
Qed.
Lemma fso_prepared Hd r r1 T s t hdr r2 : inw Hd T -> prepared N Hd r r1 T T s -> ixgbe_fso (slot T) s r1 = (t, hdr, r2) ->
  exists p s', prepared N Hd r r2 T p s' /\ same_shape s s' /\ (t < 0 -> p = T).
Proof.
  intros WT HP. unfold ixgbe_fso. destruct (_ && _); [intros [= <- <- <-]; by exists T, s|]. cbv zeta.
  set (s1 := set_offsets _ _ s). assert (same_shape s s1) as Hs by done. clearbody s1. set (r3 := set_info (slot T) (set_skb (Some s1)) r1).
  assert (prepared N Hd r r3 T T s1) as H3 by (eapply prepared_info; done). clearbody r3.
  destruct (fso_sof _); [|intros [= <- <- <-]; by exists T, s1]. destruct (fso_eof _ _); [|intros [= <- <- <-]; by exists T, s1].
  intros [= <- <- <-]. exists (T + 1), s1. split; [|split; [done|lia]]. apply prepared_ctxt; [done|done|]. eapply prepared_info; [done| |].
  - instantiate (1 := s1). destruct (skb_is_gso s1); [|done]. eapply prepared_info; [done|done|]. split_and!; try done. apply H3.
  - split_and!; try done. destruct (skb_is_gso s1); [|apply H3]. rewrite (I_set N Hd), decide_True by done. apply H3.
Qed.
Lemma prepared_flags Hd r r1 T p s : prepared N Hd r r1 T p s -> skb (info r1 (slot T)) = Some s.
Proof. intros [_ _ _ _ (F & _) _ _]. exact F. Qed.

(** ** The end of a transmission *)
Lemma ring_ok_state r r' Hd T Q d : ring_ok N r Hd T Q d -> base r' = base r -> desc r' = desc r -> info r' = info r -> next_to_clean r' = next_to_clean r -> log r' = log r ->
  ring_ok N r' Hd T Q d.
Proof.
  intros HR E1 E2 E3 E4 E5. apply (ring_ok_frame N r); [done| | | | | |].
  - unfold count. rewrite E1. apply HR.
  - rewrite E4. apply HR.
  - unfold ntu. rewrite E1. apply HR.
  - intros x Hx. unfold TxRingSpec.I, TxRingSpec.D. by rewrite E2, E3.
  - intros x Hx. unfold TxRingSpec.I. rewrite E3. by apply HR.
  - rewrite E5. apply HR.
Qed.
Definition same_ring (r r' : tx_ring) : Prop := base r' = base r /\ desc r' = desc r /\ info r' = info r /\ next_to_clean r' = next_to_clean r /\ log r' = log r.
Lemma maybe_stop_same r n : same_ring r (ixgbe_maybe_stop_tx r n).2.
Proof. unfold ixgbe_maybe_stop_tx, maybe_stop_tx. destruct (_ >=? _); [done|]. cbv zeta. destruct (_ <? _); done. Qed.
Lemma queued_same r0 r r' Hd T Q d s sizes : same_ring r r' -> queued N Hd r0 r T Q d s sizes -> queued N Hd r0 r' T Q d s sizes.
Proof.
  intros (E1 & E2 & E3 & E4 & E5) [(p & q & P & l & a & last & b & g & HR & Hp & HP & Hc & Hv & Hsv & Hq & L & HL & M) HK].
  split; [|intros x Hx; unfold TxRingSpec.D; rewrite E2; by apply HK]. exists p, q, P, l, a, last, b, g. split_and!; try done; try lia.
  - by eapply ring_ok_state.
  - unfold view, TxRingSpec.D in *. by rewrite E2.
  - unfold sent_view, TxRingSpec.D in *. by rewrite E2.
  - exists L. by rewrite E5.
Qed.
Lemma dropped_same r0 r r' Hd T Q d s : same_ring r r' -> dropped N Hd r0 r T Q d s -> dropped N Hd r0 r' T Q d s.
Proof. intros (E1 & E2 & E3 & E4 & E5) [HR HL HK]. split; [by eapply ring_ok_state|by rewrite E5|]. intros x Hx. unfold TxRingSpec.D. rewrite E2. by apply HK. Qed.
Lemma drop_dropped Hd r r1 T Q d p s : ring_ok N r Hd T Q d -> prepared N Hd r r1 T p s -> ntu r1 = slot T ->
  dropped N Hd r (xmit_drop (slot T) r1).2 T Q d s.
Proof.
  intros HR HP Hn. pose proof (ro_le _ _ _ _ _ _ HR). assert (inw Hd T) as WT by (unfold TxRingSpec.inw; pose proof (ro_room _ _ _ _ _ _ HR); lia).
  unfold xmit_drop. rewrite (prepared_flags _ _ _ _ _ _ HP). destruct HP as [(P1 & P2 & P3 & P4) PP PI PD (F1 & F2 & F3) PC (L & PL & M1 & M2 & M3 & M4)]. cbn [snd].
  set (r2 := set_info _ _ _). assert (log r2 = log r ++ L ++ [Freed s]) as HL by (cbn; by rewrite PL, app_assoc).
  assert (forall x, inw Hd x -> I r2 x = if decide (x = T) then set_skb None (I r1 T) else I r1 x) as IR
    by (intros x Hx; change (I r2 x) with (I (set_info (slot T) (set_skb None) r1) x); by apply (I_set N Hd)).
  split.
  - apply (ring_ok_frame N r); try done.
    + change (next_to_clean r1 = slot Hd). rewrite P3. apply HR.
    + intros x Hx. assert (inw Hd x) as Wx by (unfold TxRingSpec.inw in *; lia). rewrite IR, decide_False by (done || lia). change (D r2 x) with (D r1 x). split; [apply PI|apply PD]; done || lia.
    + intros x Hx. assert (inw Hd x) as Wx by (unfold TxRingSpec.inw in *; lia). rewrite IR by done. destruct (decide (x = T)) as [->|]; [done|]. rewrite PI by done. apply HR. lia.
    + rewrite HL, !mapped_app, !unmapped_app, M1, M2. cbn. rewrite !app_nil_r. apply HR.
  - exists (L ++ [Freed s]). split_and!; try done; [by rewrite freed_app, M3|by rewrite mapped_app, unmapped_app, M1, M2|by rewrite tails_app, M4].
  - intros x Hx. change (D r2 x) with (D r1 x). apply PD; [unfold TxRingSpec.inw in *|]; lia.
Qed.

(** ** Transmission *)

(** The reasons to drop a packet: a mapping fails, the VLAN header is missing, a shared header cannot be copied, or the FCoE offload is on and
    refuses the frame. *)
Definition may_drop (e : xmit_env) (fcoe_crc : bool) (s : sk_buff) : Prop :=
  (exists j, dma_map e j = None) \/ xmit_vlan s = None \/ (header_cloned s = true /\ (expand_vlan e <> 0 \/ expand_tso e < 0)) \/ fcoe_crc = true.
Definition xmit_outcome (drop : Prop) (r r' : tx_ring) (Hd T : Z) (Q : list flight) (d : nat) (s : sk_buff) : Prop :=
  exists s', same_shape s s' /\ ((exists flags, queued N Hd r r' T Q d s' (pieces_of flags s')) \/ (dropped N Hd r r' T Q d s' /\ drop)).
Lemma maybe_stop_stopped r n : ixgbe_desc_unused (ixgbe_maybe_stop_tx r n).2 < n -> stopped (ixgbe_maybe_stop_tx r n).2 = true.
Proof.
  unfold ixgbe_maybe_stop_tx, maybe_stop_tx. destruct (Z.geb_spec (ixgbe_desc_unused r) n); [cbn; lia|]. cbv zeta. change (ixgbe_desc_unused (set_stopped true r)) with (ixgbe_desc_unused r).
  destruct (Z.ltb_spec (ixgbe_desc_unused r) n); [done|lia].
Qed.
Lemma finish_outcome e Hd r r1 T Q d p s hdr : ring_ok N r Hd T Q d -> prepared N Hd r r1 T p s -> valid_skb s -> T + asked s + 3 < Hd + N ->
  exists r', xmit_finish e (slot T) hdr r1 = Some (NETDEV_TX_OK, r') /\ xmit_outcome (exists j, dma_map e j = None) r r' Hd T Q d s /\ (ixgbe_desc_unused r' < DESC_NEEDED -> stopped r' = true).
Proof.
  intros HR HP HV Hroom. unfold xmit_finish. rewrite (prepared_flags _ _ _ _ _ _ HP). cbn [mbind option_bind].
  set (flags := b_flags (I r1 T)). pose proof (map_sizes_bounds flags s HV) as B. pose proof (pieces_desc flags s HV) as Hpd.
  unfold xmit_outcome, pieces_of in *. destruct (map_sizes flags s) as [size dlen] eqn:Esz. cbn [fst snd] in *. destruct B as [B1 B2]. pose proof (pr_pos _ _ _ _ _ _ _ HP).
  destruct (tx_map_spec N HN e r Hd T Q d r1 p s hdr flags size dlen) as (r2 & -> & Hst & Ho); try done; [lia|by apply valid_pos|lia|].
  cbn [mbind option_bind]. eexists. split; [reflexivity|]. split; [|apply maybe_stop_stopped]. exists s. split; [done|]. destruct Ho as [Ho|[Ho He]].
  - left. exists flags. rewrite Esz. eapply queued_same; [apply maybe_stop_same|exact Ho].
  - right. split; [|done]. eapply dropped_same; [apply maybe_stop_same|exact Ho].
Qed.
Lemma xmit_outcome_shape drop drop' r r' Hd T Q d s s' : same_shape s s' -> (drop -> drop' : Prop) -> xmit_outcome drop r r' Hd T Q d s' -> xmit_outcome drop' r r' Hd T Q d s.
Proof. intros Hs Hd' (s2 & Hs2 & Ho). exists s2. split; [by eapply shape_trans|]. destruct Ho as [Ho|[Ho ?]]; [by left|right; auto]. Qed.

Lemma atr_prepared Hd r r1 T p s h : prepared N Hd r r1 T p s -> prepared N Hd r (xmit_atr (slot T) r1 h).1 T p s.
Proof.
  intros HP. unfold xmit_atr. destruct (fdir_init_done r1); [|done]. rewrite (prepared_flags _ _ _ _ _ _ HP). unfold mbind, M_bind.
  destruct (ixgbe_atr _ _ h) as [t h']. cbn. destruct HP as [P1 PP PI PD PF PC PL]. by split.
Qed.
(** The part from the offloads on. *)
Lemma offload_outcome e fc Hd r r1 T Q d protocol s h : ring_ok N r Hd T Q d -> prepared N Hd r r1 T T s -> valid_skb s -> T + asked s + 3 < Hd + N ->
  exists r', (xmit_offload e fc (slot T) protocol s r1 h).1 = Some (NETDEV_TX_OK, r') /\
    xmit_outcome ((exists j, dma_map e j = None) \/ (header_cloned s = true /\ expand_tso e < 0) \/ fc = true) r r' Hd T Q d s /\
    (ntu r' <> ntu r -> ixgbe_desc_unused r' < DESC_NEEDED -> stopped r' = true).
Proof.
  intros HR HP HV Hroom. pose proof (ro_le _ _ _ _ _ _ HR). assert (inw Hd T) as WT by (unfold TxRingSpec.inw; pose proof (ro_room _ _ _ _ _ _ HR); lia).
  assert (forall r2 p s' hdr, prepared N Hd r r2 T p s' -> same_shape s s' -> exists r', xmit_finish e (slot T) hdr r2 = Some (NETDEV_TX_OK, r') /\
    xmit_outcome ((exists j, dma_map e j = None) \/ (header_cloned s = true /\ expand_tso e < 0) \/ fc = true) r r' Hd T Q d s /\ (ntu r' <> ntu r -> ixgbe_desc_unused r' < DESC_NEEDED -> stopped r' = true)) as G.
  { intros r2 p s' hdr HP2 Hs. destruct (finish_outcome e Hd r r2 T Q d p s' hdr HR HP2) as (r' & E & Ho & Hst); [by eapply shape_valid|by rewrite (shape_asked s)|].
    exists r'. split_and!; [done| |auto]. eapply xmit_outcome_shape; [done| |exact Ho]. auto. }
  assert (forall r2 p s', prepared N Hd r r2 T p s' -> same_shape s s' -> ntu r2 = slot T -> ((header_cloned s = true /\ expand_tso e < 0) \/ fc = true) ->
    exists r', Some (xmit_drop (slot T) r2) = Some (NETDEV_TX_OK, r') /\ xmit_outcome ((exists j, dma_map e j = None) \/ (header_cloned s = true /\ expand_tso e < 0) \/ fc = true) r r' Hd T Q d s /\
    (ntu r' <> ntu r -> ixgbe_desc_unused r' < DESC_NEEDED -> stopped r' = true)) as G'.
  { intros r2 p s' HP2 Hs Hn Hwhy. eexists. split; [reflexivity|]. split.
    - exists s'. split; [done|]. right. split; [by eapply drop_dropped|auto].
    - intros Hne. exfalso. apply Hne. change (ntu r2 = ntu r). rewrite Hn. symmetry. apply HR. }
  unfold xmit_offload. destruct ((protocol =? htons ETH_P_FCOE) && fc) eqn:Efc.
  - destruct (ixgbe_fso (slot T) s r1) as [[t hdr] r2] eqn:E. apply fso_prepared with (Hd := Hd) (r := r) in E as (p & s' & HP2 & Hs & Hneg); [|done|done].
    cbn [mret M_ret fst]. destruct (Z.ltb_spec t 0) as [Ht|]; [|by eapply G]. eapply G'; try done.
    + rewrite (Hneg Ht) in HP2. apply HP2.
    + right. apply andb_true_iff in Efc. tauto.
  - destruct (ixgbe_tso e (slot T) s r1) as [[t hdr] r2] eqn:E. assert (t < 0 -> header_cloned s = true /\ expand_tso e < 0) as Hwhy.
    { intros Ht. revert E. unfold ixgbe_tso. destruct (negb _); [intros [= <- _ _]; lia|]. destruct (negb _); [intros [= <- _ _]; lia|]. destruct (header_cloned s && _) eqn:Ec.
      - intros [= <- _ _]. apply andb_true_iff in Ec. tauto.
      - cbv zeta. match goal with |- (let '(_, _) := ?x in _) = _ -> _ => destruct x as [[s' tucmd] flags] end. intros [= <- _ _]. lia. }
    apply tso_prepared with (Hd := Hd) (r := r) in E as (Heq & p & s' & HP2 & Hs); [|done|done].
    destruct (Z.ltb_spec t 0) as [Ht|Ht].
    + cbn [mret M_ret fst]. rewrite (Heq ltac:(lia)). eapply G'; try done; [apply HP|by left; apply Hwhy].
    + assert (exists p2 s2, prepared N Hd r (if t =? 0 then ixgbe_tx_csum (slot T) s r2 else r2) T p2 s2 /\ same_shape s s2) as (p2 & s2 & HP3 & Hs2).
      { destruct (Z.eqb_spec t 0) as [->|]; [|by exists p, s']. rewrite (Heq ltac:(lia)). destruct (csum_prepared Hd r r1 T s WT HP) as (p2 & HP3). by exists p2, s. }
      pose proof (atr_prepared _ _ _ _ _ _ h HP3) as HP4. unfold mbind, M_bind. destruct (xmit_atr (slot T) _ h) as [r4 h4]. cbn [mret M_ret fst] in *. by eapply G.
Qed.

Lemma asked_u16 s : valid_skb s -> u16 (u16 (u16 (TXD_USE_COUNT (headlen s)) + nr_frags s) + 3) = asked s + 3.
Proof.
  intros HV. pose proof (asked_bounds s HV) as B. unfold asked in *. destruct HV as [Hh _ _]. unfold fcoe_crc_eof_size in Hh. assert (0 <= nr_frags s) by (unfold nr_frags; lia).
  assert (TXD_USE_COUNT 1 <= TXD_USE_COUNT (headlen s)) as B1 by (apply use_count_mono; lia). change (TXD_USE_COUNT 1) with 1 in B1.
  rewrite (u16_small (TXD_USE_COUNT (headlen s))) by lia. rewrite (u16_small (_ + nr_frags s)) by lia. apply u16_small. lia.
Qed.
Lemma dcb_shape e a pr fl s fl' s' : xmit_dcb e a pr fl s = Some (fl', s') -> same_shape s s' /\ (header_cloned s = true -> header_cloned s' = true -> True).
Proof. unfold xmit_dcb. repeat (case_match; [|try done]); intros; simplify_eq; done. Qed.
Lemma dcb_none e a pr fl s : xmit_dcb e a pr fl s = None -> header_cloned s = true /\ expand_vlan e <> 0.
Proof.
  unfold xmit_dcb. destruct (_ && (_ || _)); [|done]. cbv zeta. destruct (truthy (Z.land _ IXGBE_TX_FLAGS_SW_VLAN)); [|done].
  destruct (header_cloned s && truthy (expand_vlan e)) eqn:E; [|done]. intros _. apply andb_true_iff in E as [? E]. split; [done|]. unfold truthy in E. lia.
Qed.
Lemma dcb_cloned e a pr fl s fl' s' : xmit_dcb e a pr fl s = Some (fl', s') -> header_cloned s' = true -> header_cloned s = true.
Proof. unfold xmit_dcb. repeat (case_match; [|try done]); intros; simplify_eq; done. Qed.

Lemma xmit_ring e fc s a r h Hd T Q d : ring_ok N r Hd T Q d -> valid_skb s ->
  exists res r', (ixgbe_xmit_frame_ring e fc s a r h).1 = Some (res, r') /\
    ((res = NETDEV_TX_BUSY /\ N - (T - Hd) - 1 < asked s + 3 /\ stopped r' = true /\ same_ring r r') \/
     (res = NETDEV_TX_OK /\ asked s + 3 <= N - (T - Hd) - 1 /\ xmit_outcome (may_drop e fc s) r r' Hd T Q d s /\
      (ntu r' <> ntu r -> ixgbe_desc_unused r' < DESC_NEEDED -> stopped r' = true))).
Proof.
  intros HR HV. pose proof (ro_le _ _ _ _ _ _ HR). assert (inw Hd T) as WT by (unfold TxRingSpec.inw; pose proof (ro_room _ _ _ _ _ _ HR); lia).
  unfold ixgbe_xmit_frame_ring. cbv zeta. rewrite asked_u16 by done. unfold ixgbe_maybe_stop_tx at 1, maybe_stop_tx. cbv zeta. change (ixgbe_desc_unused (set_stopped true r)) with (ixgbe_desc_unused r).
  rewrite (unused_spec N HN _ _ _ _ _ HR). destruct (Z.geb_spec (N - (T - Hd) - 1) (asked s + 3)) as [Hroom|Hroom].
  2: { replace (N - (T - Hd) - 1 <? asked s + 3) with true by lia. change (truthy (- EBUSY)) with true. eexists _, _. split; [reflexivity|]. left. split_and!; try done; lia. }
  change (truthy 0) with false. cbv iota. rewrite (ro_use _ _ _ _ _ _ HR).
  pose proof (prepared_start Hd r T Q d s HR) as HP. set (r1 := set_info (slot T) _ r) in *. clearbody r1.
  assert (forall drop r2 p s', prepared N Hd r r2 T p s' -> same_shape s s' -> ntu r2 = slot T -> (drop : Prop) ->
    exists res r', Some (xmit_drop (slot T) r2) = Some (res, r') /\ res = NETDEV_TX_OK /\ xmit_outcome drop r r' Hd T Q d s /\ (ntu r' <> slot T -> ixgbe_desc_unused r' < DESC_NEEDED -> stopped r' = true)) as G'.
  { intros drop r2 p s' HP2 Hs Hn Hwhy. eexists _, _. split; [reflexivity|]. split_and!; [done| |].
    - exists s'. split; [done|]. right. split; [by eapply drop_dropped|done].
    - intros Hne. exfalso. apply Hne. exact Hn. }
  destruct (xmit_vlan s) as [[tx_flags protocol]|] eqn:Ev.
  2: { destruct (G' (may_drop e fc s) r1 T s HP) as (res & r' & E & ? & ? & ?); [done|apply HP|right; by left|]. exists res, r'. split; [exact E|]. right. split_and!; done. }
  match goal with |- context [let '(_, _) := ?x in _] => assert (prepared N Hd r x.2 T T s) as HP2; [|destruct x as [fl r2]] end.
  { destruct (hw_tstamp s); [|done]. by apply prepared_log. }
  cbn [snd] in HP2. cbv zeta. set (fl2 := if aflag _ a then _ else fl). clearbody fl2. destruct (xmit_dcb e a protocol fl2 s) as [[fl3 s3]|] eqn:Ed.
  2: { apply dcb_none in Ed. destruct (G' (may_drop e fc s) r2 T s HP2) as (res & r' & E & ? & ? & ?); [done|apply HP2|unfold may_drop; tauto|]. exists res, r'. split; [exact E|]. right. split_and!; done. }
  pose proof (dcb_shape _ _ _ _ _ _ _ Ed) as [Hs3 _]. pose proof (dcb_cloned _ _ _ _ _ _ _ Ed) as Hc3.
  destruct (offload_outcome e fc Hd r (set_info (slot T) (fun b => set_proto protocol (set_bflags fl3 (set_skb (Some s3) b))) r2) T Q d protocol s3 h) as (r' & E & Ho & Hst); [done|..].
  - eapply prepared_info; done.
  - by eapply shape_valid.
  - rewrite (shape_asked s) by done. lia.
  - exists NETDEV_TX_OK, r'. split; [exact E|]. right. rewrite (ro_use _ _ _ _ _ _ HR) in Hst. split_and!; try done. eapply xmit_outcome_shape; [done| |exact Ho]. unfold may_drop. intuition auto.
Qed.

(** ** Completion *)
Lemma slot_shift p : slot (p + N) = slot p.
Proof. unfold Slots.slot. rewrite <- (Z_mod_plus_full p 1 N). f_equal. lia. Qed.
(** The index that [ixgbe_clean_tx_irq] keeps negative, as an unsigned number. *)
Definition neg (p : Z) : Z := u32 (slot p - N).
Lemma step_clean_spec r p : count r = N -> step_clean r (slot p) (neg p) = (slot (p + 1), neg (p + 1)).
Proof.
  intros Hc. pose proof (slot_range N pos_N p). unfold step_clean, neg. rewrite Hc, <- (slot_next N pos_N p).
  assert (u32 (u32 (slot p - N) + 1) = if slot p + 1 =? N then 0 else u32 (slot p + 1 - N)) as ->.
  { unfold u32. rewrite Zplus_mod_idemp_l. destruct (Z.eqb_spec (slot p + 1) N); [replace (slot p - N + 1) with 0 by lia; done|f_equal; lia]. }
  destruct (Z.eqb_spec (slot p + 1) N) as [E|E]; [done|]. replace (u32 (slot p + 1 - N) =? 0) with false; [done|]. symmetry. apply Z.eqb_neq. unfold u32.
  rewrite <- (Z_mod_plus_full _ 1), Z.mod_small; lia.
Qed.
Lemma neg_back p : u16 (neg p + N) = slot p.
Proof.
  pose proof (slot_range N pos_N p). unfold neg, u16, u32. assert ((slot p - N) mod 2 ^ 32 = slot p - N + 2 ^ 32) as -> by (rewrite <- (Z_mod_plus_full _ 1), Z.mod_small; lia).
  replace (slot p - N + 2 ^ 32 + N) with (slot p + 2 ^ 16 * 2 ^ 16) by lia. rewrite Z_mod_plus_full. apply Z.mod_small. lia.
Qed.
(** The buffers after the first are released. *)
Record swept (r r' : tx_ring) (H p q : Z) (L : list effect) : Prop := {
  sw_rest : rest r' = rest r /\ sampling r' = sampling r /\ desc r' = desc r /\ log r' = log r ++ L;
  sw_log : mapped L = [] /\ tails L = [] /\ freed L = [] /\ unmapped L = maps r (p + 1) (q - p);
  sw_in : forall x, p < x <= q -> len (I r' x) = 0 /\ skb (I r' x) = skb (I r x) /\ next_to_watch (I r' x) = next_to_watch (I r x);
  sw_out : forall x, inw H x -> ~ p < x <= q -> I r' x = I r x
}.
Lemma unmap_loop_spec H fuel : forall p q r, count r = N -> inw H p -> p <= q < H + N -> q - p <= Z.of_nat fuel ->
  exists r' L, unmap_loop fuel (slot q) (slot p) (neg p) r = Some (slot q, neg q, r') /\ swept r r' H p q L.
Proof.
  induction fuel as [|fuel IH]; intros p q r Hc Hp Hq Hf; cbn [unmap_loop]; destruct (Z.eqb_spec (slot p) (slot q)) as [E|E].
  1, 3: apply (slot_inj pos_N H) in E as <-; [|done|unfold TxRingSpec.inw in *; lia]; exists r, []; split; [done|]; split;
    [by rewrite app_nil_r|split_and!; try done; by rewrite Z.sub_diag|intros x Hx; lia|done].
  - exfalso. apply E. f_equal. lia.
  - assert (p < q) as Hlt by (destruct (decide (p = q)); [congruence|lia]). rewrite step_clean_spec by done. change (info r (slot (p + 1))) with (I r (p + 1)).
    assert (inw H (p + 1)) as W1 by (unfold TxRingSpec.inw in *; lia).
    set (r1 := if truthy (len (I r (p + 1))) then _ else r).
    assert (swept r r1 H p (p + 1) (if truthy (len (I r (p + 1))) then [Unmapped true (dma (I r (p + 1))) (len (I r (p + 1)))] else [])) as S1.
    { assert (maps r (p + 1) (p + 1 - p) = map_list (I r (p + 1))) as EM by (replace (p + 1 - p) with 1 by lia; rewrite maps_cons by lia; apply app_nil_r).
      unfold r1, map_list in *. destruct (truthy (len (I r (p + 1)))) eqn:Et.
      - split; [done|split_and!; try done; by rewrite EM| |].
        + intros x Hx. replace x with (p + 1) by lia. match goal with |- context [I ?y (p + 1)] => change (I y (p + 1)) with (I (set_info (slot (p + 1)) (fun b => set_dma (dma b) 0 b) r) (p + 1)) end.
          rewrite (I_set N H), decide_True by done. done.
        + intros x Hx Hn. match goal with |- I ?y x = _ => change (I y x) with (I (set_info (slot (p + 1)) (fun b => set_dma (dma b) 0 b) r) x) end.
          rewrite (I_set N H), decide_False by (done || lia). done.
      - split; [by rewrite app_nil_r|split_and!; try done; by rewrite EM| |done]. intros x Hx. replace x with (p + 1) by lia. split_and!; try done. unfold truthy in Et. lia. }
    clearbody r1. destruct S1 as [(A1 & A2 & A3 & A4) (B1 & B2 & B3 & B4) C1 C2].
    assert (count r1 = N) as Hc1 by (apply rest_fields in A1 as (-> & _); done).
    destruct (IH (p + 1) q r1) as (r2 & L2 & E2 & [(A1' & A2' & A3' & A4') (B1' & B2' & B3' & B4') C1' C2']); [done|done|lia|lia|].
    eexists r2, (_ ++ L2). split; [exact E2|]. split.
    + split_and!; [by rewrite A1'|by rewrite A2'|by rewrite A3'|by rewrite A4', A4, app_assoc].
    + rewrite mapped_app, tails_app, freed_app, unmapped_app, B1, B2, B3, B4, B1', B2', B3', B4'. split_and!; try done.
      replace (q - p) with (1 + (q - (p + 1))) by lia. rewrite (maps_split N r) by lia. replace (p + 1 - p) with 1 by lia. f_equal.
      apply maps_ext. intros x Hx. apply C2; [unfold TxRingSpec.inw in *; lia|lia].
    + intros x Hx. destruct (decide (x = p + 1)) as [->|]; [rewrite C2' by (done || lia); apply C1; lia|]. rewrite <- (C2 x) by (unfold TxRingSpec.inw in *; lia). apply C1'. lia.
    + intros x Hx Hn. rewrite C2', C2 by (done || lia). done.
Qed.
Lemma ring_ok_pop r r' Hd T f Q d L : ring_ok N r Hd T (f :: Q) (S d) -> count r' = N -> next_to_clean r' = slot (fl_last f + 1) -> ntu r' = slot T ->
  (forall x, fl_last f < x < T -> I r' x = I r x) -> desc r' = desc r -> (forall x, Hd <= x <= fl_last f \/ T <= x < Hd + N -> empty_buffer (I r' x)) ->
  log r' = log r ++ L -> mapped L = [] -> unmapped L ≡ₚ maps r Hd (fl_last f + 1 - Hd) -> ring_ok N r' (fl_last f + 1) T Q d.
Proof.
  intros HR E1 E2 E3 EI ED Ee EL ML UL. destruct HR as [C1 C2 C3 C4 (C5 & C5' & C5'') C6 C7 [C8 C9] C10]. apply Forall_cons in C6 as [_ C6]. split; try done.
  - lia.
  - apply Forall_forall. intros g Hg. pose proof (chain_bounds _ _ _ _ C5'' Hg). eapply in_flight_ext; [|lia|by eapply Forall_forall in C6]. intros x Hx. split; [apply EI; lia|]. unfold TxRingSpec.D. by rewrite ED.
  - intros x Hx. destruct (Z_lt_le_dec x (Hd + N)); [apply Ee; lia|]. replace x with (x - N + N) by lia. unfold TxRingSpec.I. rewrite slot_shift. apply Ee. lia.
  - cbn in C8. split; [lia|]. intros k g Hk. specialize (C9 (S k) g Hk). unfold TxRingSpec.D in *. rewrite ED, C9. apply bool_decide_ext. lia.
  - pose proof (chain_le _ _ _ C5''). rewrite EL, mapped_app, unmapped_app, ML, app_nil_r, C10, UL. rewrite <- app_assoc. apply Permutation_app_head.
    replace (T - Hd) with ((fl_last f + 1 - Hd) + (T - (fl_last f + 1))) by lia. rewrite maps_split by lia. replace (Hd + (fl_last f + 1 - Hd)) with (fl_last f + 1) by lia.
    apply Permutation_app_head. rewrite (maps_ext N r r'); [done|]. intros x Hx. apply EI. lia.
Qed.

(** The loop over the packets: it takes the first [n] of them, as many as have been sent and the budget allows. *)
Definition sum32 (acc : Z) (l : list Z) : Z := foldl (fun acc x => u32 (acc + x)) acc l.
Lemma clean_loop_spec T : forall Q d Hd r fuel tb tp budget, ring_ok N (set_clean (slot Hd) r) Hd T Q d -> (d <= fuel)%nat -> 0 < budget < 2 ^ 32 ->
  let n := Nat.min d (Z.to_nat budget) in
  exists Hd' r' L, clean_loop fuel (slot Hd) (neg Hd) tb tp budget r =
      Some (sum32 tb (map fl_bytes (take n Q)), sum32 tp (map fl_segs (take n Q)), budget - Z.of_nat n, neg Hd', r') /\
    ring_ok N (set_clean (slot Hd') r') Hd' T (drop n Q) (d - n)%nat /\ rest r' = rest r /\ (sampling r' = sampling r /\ desc r' = desc r) /\
    log r' = log r ++ L /\ freed L = map fl_id (take n Q) /\ mapped L = [] /\ tails L = [].
Proof.
  induction Q as [|f Q IH]; intros d Hd r fuel tb tp budget HR Hf Hb n.
  { assert (d = 0)%nat as -> by (destruct HR as [_ _ _ _ _ _ _ [H8 _] _]; cbn in H8; lia). exists Hd, r, []. unfold n. cbn. rewrite app_nil_r, Z.sub_0_r.
    destruct (ro_empty _ _ _ _ _ _ HR Hd) as (_ & E & _); [destruct HR as [_ _ _ ? Hc _ _ _ _]; cbn in Hc; lia|]. change (next_to_watch (info r (slot Hd)) = None) in E.
    split_and!; try done. destruct fuel; cbn [clean_loop]; by rewrite E. }
  pose proof (ro_le _ _ _ _ _ _ HR) as Hle. pose proof (ro_room _ _ _ _ _ _ HR) as Hroom. destruct (ro_chain _ _ _ _ _ _ HR) as (Hpos & Hlast & Hch). pose proof (chain_le _ _ _ Hch).
  pose proof (ro_flight _ _ _ _ _ _ HR) as [[F1 F2 F3 [F4 F4'] F5 _] HQ]%Forall_cons. rewrite Hpos in *. change (I (set_clean (slot Hd) r)) with (I r) in *.
  pose proof (proj2 (ro_done _ _ _ _ _ _ HR) 0%nat f eq_refl) as Hdone. change (D (set_clean (slot Hd) r)) with (D r) in Hdone. unfold is_done in Hdone.
  assert (clean_loop fuel (slot Hd) (neg Hd) tb tp budget r = if negb (bool_decide (0 < d)%nat) then Some (tb, tp, budget, neg Hd, r) else clean_loop fuel (slot Hd) (neg Hd) tb tp budget r) as Estop.
  { destruct (bool_decide_reflect (0 < d)%nat); [done|]. destruct fuel; cbn [clean_loop]; change (info r (slot Hd)) with (I r Hd); rewrite F2; change (desc r (slot (fl_last f))) with (D r (fl_last f)); by rewrite Hdone. }
  destruct d as [|d].
  { exists Hd, r, []. unfold n. cbn. rewrite app_nil_r, Z.sub_0_r. split_and!; try done. }
  clear Estop. destruct fuel as [|fuel]; [lia|]. cbn [clean_loop]. change (info r (slot Hd)) with (I r Hd). rewrite F2. change (desc r (slot (fl_last f))) with (D r (fl_last f)). rewrite Hdone. cbv iota zeta. cbn [negb bool_decide decide].
  rewrite bool_decide_true by lia. cbn [negb]. rewrite F1, F4, F4'.
  set (r1 := set_info (slot Hd) (fun b => set_dma (dma b) 0 (set_skb None b)) _). assert (inw Hd Hd /\ inw Hd (fl_last f)) as [W1 W2] by (unfold TxRingSpec.inw; lia).
  assert (count r1 = N) as Hc1 by exact (ro_count _ _ _ _ _ _ HR).
  assert (forall x, inw Hd x -> I r1 x = if decide (x = Hd) then set_dma (dma (I r Hd)) 0 (set_skb None (set_watch None (I r Hd))) else I r x) as IR.
  { intros x Hx. unfold r1. rewrite (I_set N Hd) by done. match goal with |- context [I (do_log ?a ?b) ?y] => change (I (do_log a b) y) with (I (set_info (slot Hd) (set_watch None) r) y) end.
    match goal with |- context [I (do_log ?a ?b) x] => change (I (do_log a b) x) with (I (set_info (slot Hd) (set_watch None) r) x) end.
    rewrite !(I_set N Hd) by done. destruct (decide (x = Hd)); [by rewrite decide_True|done]. }
  destruct (unmap_loop_spec Hd (Z.to_nat (count r1)) Hd (fl_last f) r1) as (r2 & L & -> & [(A1 & A2 & A3 & A4) (B1 & B2 & B3 & B4) C1 C2]); [done|done|lia|lia|].
  cbn [mbind option_bind]. assert (count r2 = N) as Hc2 by (apply rest_fields in A1 as (-> & _); done). rewrite step_clean_spec by done.
  assert (unmapped L = maps r (Hd + 1) (fl_last f - Hd)) as UL by (rewrite B4; apply maps_ext; intros x Hx; rewrite IR, decide_False by (unfold TxRingSpec.inw in *; lia); done).
  assert (ring_ok N (set_clean (slot (fl_last f + 1)) r2) (fl_last f + 1) T Q d) as HR2.
  { apply rest_fields in A1 as (R1 & R2 & R3 & R4).
    apply (ring_ok_pop (set_clean (slot Hd) r) _ Hd T f Q d ([Freed (fl_skb f)] ++ [Unmapped false (dma (I r Hd)) (len (I r Hd))] ++ L)); try done.
    - change (ntu r2 = slot T). rewrite R2. exact (ro_use _ _ _ _ _ _ HR).
    - intros x Hx. change (I r2 x = I r x). rewrite C2, IR, decide_False by (unfold TxRingSpec.inw in *; lia). done.
    - intros x Hx. change (empty_buffer (I r2 x)). assert (inw Hd x) as Wx by (unfold TxRingSpec.inw; lia). destruct (decide (Hd < x <= fl_last f)) as [Hin|Hout].
      + destruct (C1 x Hin) as (G1 & G2 & G3). rewrite IR, decide_False in G2, G3 by (done || lia). destruct (F5 x Hin) as [G4 G5]. unfold empty_buffer. by rewrite G1, G2, G3.
      + rewrite C2, IR by done. destruct (decide (x = Hd)) as [->|]; [done|]. apply (ro_empty _ _ _ _ _ _ HR). lia.
    - change (log r2 = log r ++ [Freed (fl_skb f)] ++ [Unmapped false (dma (I r Hd)) (len (I r Hd))] ++ L). rewrite A4. cbn. by rewrite <- !app_assoc.
    - change (unmapped ([Freed (fl_skb f)] ++ [Unmapped false (dma (I r Hd)) (len (I r Hd))] ++ L)) with ((dma (I r Hd), len (I r Hd)) :: unmapped L). rewrite UL.
      change (maps (set_clean (slot Hd) r)) with (maps r). replace (fl_last f + 1 - Hd) with (1 + (fl_last f - Hd)) by lia. rewrite maps_split by lia. rewrite maps_one by lia. done. }
  assert (log r2 = log r ++ [Freed (fl_skb f); Unmapped false (dma (I r Hd)) (len (I r Hd))] ++ L) as HL2 by (rewrite A4; cbn; by rewrite <- !app_assoc).
  assert (rest r2 = rest r /\ sampling r2 = sampling r /\ desc r2 = desc r) as (HRs & HSa & HDe) by (by rewrite A1, A2, A3).
  rewrite (u32_small (budget - 1)) by lia. unfold truthy. destruct (Z.eqb_spec (budget - 1) 0) as [Eb|Eb]; cbn [negb].
  - assert (n = 1)%nat as -> by (unfold n; lia). exists (fl_last f + 1), r2, ([Freed (fl_skb f); Unmapped false (dma (I r Hd)) (len (I r Hd))] ++ L).
    replace (S d - 1)%nat with d by lia. cbn [take drop map]. rewrite take_0. split_and!; try done.
    by rewrite freed_app, B3.
  - destruct (IH d (fl_last f + 1) r2 fuel (u32 (tb + fl_bytes f)) (u32 (tp + fl_segs f)) (budget - 1) HR2 ltac:(lia) ltac:(lia)) as (Hd' & r' & L' & E & H1 & H2 & [H3 H3'] & H4 & H5 & H6 & H7).
    assert (n = S (Nat.min d (Z.to_nat (budget - 1)))) as -> by (unfold n; lia). set (m := Nat.min d (Z.to_nat (budget - 1))) in *.
    exists Hd', r', ([Freed (fl_skb f); Unmapped false (dma (I r Hd)) (len (I r Hd))] ++ L ++ L'). rewrite E. cbn [take drop map sum32 foldl]. split_and!; try done.
    all: first [by replace (budget - Z.of_nat (S m)) with (budget - 1 - Z.of_nat m) by lia|by rewrite H2|by rewrite H3|by rewrite H3'|by rewrite H4, HL2, <- !app_assoc
                |by rewrite !freed_app, B3, H5|by rewrite !mapped_app, B1, H6|by rewrite !tails_app, B2, H7].
Qed.

Lemma chain_length Q : forall p t, chain p Q t -> Z.of_nat (length Q) <= t - p.
Proof. induction Q as [|f Q IH]; intros p t; cbn [chain length]; [intros; lia|]. intros (? & ? & H%IH). lia. Qed.
Lemma check_hang_same r h : same_ring r (ixgbe_check_tx_hang r h).1.2.
Proof. unfold ixgbe_check_tx_hang, mbind, M_bind. destruct (ixgbe_get_tx_pending r h). cbn. by destruct (_ && _). Qed.
Lemma wake_same carrier down tp r : same_ring r (clean_wake carrier down tp r).
Proof. unfold clean_wake. destruct (_ && _); [|done]. by destruct (_ && _). Qed.
Lemma ring_ok_same r r' Hd T Q d : same_ring r r' -> ring_ok N r Hd T Q d -> ring_ok N r' Hd T Q d.
Proof. intros (? & ? & ? & ? & ?) HR. by eapply ring_ok_state. Qed.
Lemma ring_ok_log r L Hd T Q d : mapped L = [] -> unmapped L = [] -> ring_ok N r Hd T Q d -> ring_ok N (do_log L r) Hd T Q d.
Proof.
  intros M U HR. apply (ring_ok_frame N r); try done; try apply HR. change (log (do_log L r)) with (log r ++ L). rewrite mapped_app, unmapped_app, M, U, !app_nil_r. apply HR.
Qed.
Lemma clean_irq wl carrier r h Hd T Q d : ring_ok N r Hd T Q d -> 0 < wl < 2 ^ 32 -> let n := Nat.min d (Z.to_nat wl) in
  exists fin r' reset Hd' L, (ixgbe_clean_tx_irq wl carrier false r h).1 = Some (fin, r', (sum32 0 (map fl_bytes (take n Q)), sum32 0 (map fl_segs (take n Q))), reset) /\
    ring_ok N r' Hd' T (drop n Q) (d - n)%nat /\ desc r' = desc r /\ log r' = log r ++ L /\ freed L = map fl_id (take n Q) /\ mapped L = [] /\ tails L = [] /\
    (reset = false -> fin = negb (wl =? Z.of_nat n)).
Proof.
  intros HR Hw n. assert (ring_ok N (set_clean (slot Hd) r) Hd T Q d) as HR0 by (eapply ring_ok_state; try done; symmetry; apply HR).
  assert (d <= Z.to_nat (count r))%nat as Hf by (rewrite (ro_count _ _ _ _ _ _ HR); pose proof (chain_length _ _ _ (ro_chain _ _ _ _ _ _ HR)); destruct HR as [_ _ _ ? _ _ _ [? _] _]; lia).
  destruct (clean_loop_spec T Q d Hd r (Z.to_nat (count r)) 0 0 wl HR0 Hf Hw) as (Hd' & r1 & L & E & H1 & H2 & [H3 H3'] & H4 & H5 & H6 & H7). fold n in E, H1, H5.
  unfold ixgbe_clean_tx_irq. cbv zeta. rewrite (ro_clean _ _ _ _ _ _ HR). rewrite (ro_count _ _ _ _ _ _ HR) in E |- * . fold (neg Hd). rewrite E. cbv iota beta.
  assert (count r1 = N) as Hc by (apply rest_fields in H2 as (-> & _); apply HR). rewrite Hc, neg_back.
  set (b := sum32 0 (map fl_bytes (take n Q))). set (g := sum32 0 (map fl_segs (take n Q))). set (r2 := set_qstats (add_stats g b) (set_clean (slot Hd') r1)).
  assert (ring_ok N r2 Hd' T (drop n Q) (d - n)) as HR2 by (by eapply ring_ok_state). assert (log r2 = log r ++ L) as HL2 by exact H4. assert (desc r2 = desc r) as HD2 by exact H3'. clearbody r2.
  assert (forall hg h', same_ring r2 hg.2 -> exists fin r' reset Hd' L0, ((let '(hung, r3) := hg in if hung : bool then _ ← IXGBE_READ_REG (IXGBE_TDH (reg_idx (base r3)));
          _ ← IXGBE_READ_REG (IXGBE_TDT (reg_idx (base r3))); mret (Some (true, set_stopped true r3, (b, g), true))
        else mret (Some (truthy (wl - Z.of_nat n), clean_wake carrier false g (do_log [Completed g b] r3), (b, g), false)) : M (option (bool * tx_ring * (Z * Z) * bool))) h').1 = Some (fin, r', (b, g), reset) /\
      ring_ok N r' Hd' T (drop n Q) (d - n)%nat /\ desc r' = desc r /\ log r' = log r ++ L0 /\ freed L0 = map fl_id (take n Q) /\ mapped L0 = [] /\ tails L0 = [] /\ (reset = false -> fin = negb (wl =? Z.of_nat n))) as G.
  { intros [hung r3] h' Hs. cbn [snd] in Hs. destruct hung.
    - unfold mbind, M_bind. destruct (IXGBE_READ_REG _ h') as [x1 h1]. destruct (IXGBE_READ_REG _ h1) as [x2 h2]. exists true, (set_stopped true r3), true, Hd', L. split_and!; try done.
      + by eapply ring_ok_same; [|exact HR2].
      + destruct Hs as (_ & Hs & _). by rewrite <- HD2, <- Hs.
      + destruct Hs as (_ & _ & _ & _ & Hs). change (log r3 = log r ++ L). by rewrite Hs.
    - eexists _, _, false, Hd', (L ++ [Completed g b]). split; [reflexivity|]. split_and!.
      + eapply ring_ok_same; [apply wake_same|]. apply ring_ok_log; [done|done|]. by eapply ring_ok_same.
      + destruct (wake_same carrier false g (do_log [Completed g b] r3)) as (_ & -> & _). destruct Hs as (_ & Hs & _). by rewrite <- HD2, <- Hs.
      + destruct (wake_same carrier false g (do_log [Completed g b] r3)) as (_ & _ & _ & _ & ->). destruct Hs as (_ & _ & _ & _ & Hs). change (log r3 ++ [Completed g b] = log r ++ L ++ [Completed g b]). by rewrite Hs, HL2, app_assoc.
      + by rewrite freed_app, H5, app_nil_r.
      + by rewrite mapped_app, H6.
      + by rewrite tails_app, H7.
      + intros _. unfold truthy. f_equal. destruct (Z.eqb_spec (wl - Z.of_nat n) 0), (Z.eqb_spec wl (Z.of_nat n)); done || lia. }
  unfold mbind at 1, M_bind at 1. destruct (detect_hang r2).
  - pose proof (check_hang_same r2 h) as Hs. destruct (ixgbe_check_tx_hang r2 h) as [hg h']. cbn [fst] in Hs. destruct (G hg h' Hs) as (fin & r' & reset & Hd2 & L0 & X). by exists fin, r', reset, Hd2, L0.
  - destruct (G (false, r2) h ltac:(done)) as (fin & r' & reset & Hd2 & L0 & X). by exists fin, r', reset, Hd2, L0.
Qed.
End Run.
