(* ===== verification/TxFifo.v ===== *)
(** * The transmit ring as a queue

    The driver and the adapter together: the driver transmits and releases, the adapter sends what lies between its own head and the tail
    register. Whatever the order of their steps, the packets leave in the order in which they were queued, none is released before it has been
    sent, and every mapping is undone once. *)
From S2P Require Import Prelude Hw Bits FlowDir FlowFilters Sriov Queues Slots TxRing TxRingSpec TxRingRun.
From Stdlib Require Import Permutation.
Open Scope Z_scope.

(** ** The adapter *)
Definition last_tail (l : list effect) : Z := default 0 (last (tails l)).
(** The adapter reads descriptors from [i] up to the tail, until one has the end-of-packet bit: its index, and the buffers of the data descriptors. *)
Fixpoint hw_read (fuel : nat) (r : tx_ring) (i tail : Z) : option (Z * list (Z * Z)) :=
  match fuel with
  | O => None
  | S fuel =>
      if i =? tail then None
      else
        let d := desc r i in
        let l := if is_data d then [(read_desc d).1] else [] in
        if Z.testbit (cmd_type_len d) 24 then Some (i, l)
        else p ← hw_read fuel r (next r i) tail; Some (p.1, l ++ p.2)
  end.
(** Sending a packet: the status of its last descriptor is written back. *)
Definition hw_send (status head : Z) (r : tx_ring) : option (Z * list (Z * Z) * tx_ring) :=
  p ← hw_read (Z.to_nat (count r)) r head (last_tail (log r));
  Some (next r p.1, p.2, set_desc p.1 (set_olinfo status) r).

(** ** The system *)

(** The ring, the adapter's head, and for the statements what happened so far: the packets that were queued, with the buffers mapped for them;
    the buffers that the adapter has read, packet by packet; the packets released after that; and the packets dropped. *)
Record sys := Sys { s_ring : tx_ring; s_head : Z; s_queued : list (Z * list (Z * Z)); s_wire : list (list (Z * Z)); s_cleaned : list Z; s_dropped : list Z }.
Definition new_log (st : sys) (r : tx_ring) : list effect := drop (length (log (s_ring st))) (log r).
(** A packet was queued exactly when the tail register was written. *)
Definition after_xmit (s : sk_buff) (res : Z) (r : tx_ring) (st : sys) : sys :=
  if bool_decide (tails (new_log st r) = []) then
    Sys r (s_head st) (s_queued st) (s_wire st) (s_cleaned st) (s_dropped st ++ if res =? NETDEV_TX_OK then [sk_id s] else [])
  else Sys r (s_head st) (s_queued st ++ [(sk_id s, mapped (new_log st r))]) (s_wire st) (s_cleaned st) (s_dropped st).
Inductive tx_step : sys -> sys -> Prop :=
| tx_xmit st e fc s a h res r : valid_skb s -> (ixgbe_xmit_frame_ring e fc s a (s_ring st) h).1 = Some (res, r) -> tx_step st (after_xmit s res r st)
| tx_send st status head l r : truthy (Z.land status IXGBE_TXD_STAT_DD) = true -> hw_send status (s_head st) (s_ring st) = Some (head, l, r) ->
    tx_step st (Sys r head (s_queued st) (s_wire st ++ [l]) (s_cleaned st) (s_dropped st))
| tx_clean st wl carrier h fin r totals reset : 0 < wl < 2 ^ 32 -> (ixgbe_clean_tx_irq wl carrier false (s_ring st) h).1 = Some (fin, r, totals, reset) ->
    tx_step st (Sys r (s_head st) (s_queued st) (s_wire st) (s_cleaned st ++ freed (new_log st r)) (s_dropped st)).
(** The descriptors for a queued packet. *)
Definition chunks_of (g : Z * list (Z * Z)) : list (Z * Z) := concat (map piece_chunks g.2).

(** An empty ring. *)
Definition empty_ring (N : Z) : tx_ring :=
  TxRing (Ring 0 N 0 0 0 false false 0) (AtrRing true 0 0 0) (fun _ => TxDesc 0 0 0) (fun _ => clear_tx) 0 (QStats 0 0 0 0 0) false false false false [].
Definition start (N : Z) : sys := Sys (empty_ring N) 0 [] [] [] [].

Section Fifo.
Context (N : Z) (HN : 64 <= N < 2 ^ 15).
Local Notation slot := (slot N).
Local Notation D := (D N).
Local Lemma Npos : 0 < N.
Proof. lia. Qed.
#[local] Hint Resolve Npos : core.

(** The position of the packet that is sent next. *)
Definition at_flight (Q : list flight) (T : Z) (d : nat) : Z := match Q !! d with Some f => fl_pos f | None => T end.
Definition tells (r : tx_ring) (f : flight) (g : Z * list (Z * Z)) : Prop := g.1 = fl_id f /\ sent_view N r (fl_pos f) (fl_last f) = chunks_of g.
(** [G0] are the packets released, [G] those in flight. *)
Record sys_ok (st : sys) (Hd T : Z) (Q : list flight) (d : nat) (G0 G : list (Z * list (Z * Z))) : Prop := {
  so_ring : ring_ok N (s_ring st) Hd T Q d;
  so_head : s_head st = slot (at_flight Q T d);
  so_tail : last_tail (log (s_ring st)) = slot T;
  so_queued : s_queued st = G0 ++ G /\ Forall2 (tells (s_ring st)) Q G;
  so_cleaned : s_cleaned st = map fst G0;
  so_wire : s_wire st = map chunks_of (take (length G0 + d) (G0 ++ G));
  so_freed : freed (log (s_ring st)) ≡ₚ s_cleaned st ++ s_dropped st
}.
Lemma start_ok : sys_ok (start N) 0 0 [] 0 [] [].
Proof. split; try done. Qed.
Lemma tells_ext r r' Q G Hd T : chain Hd Q T -> (forall x, Hd <= x < T -> buffer_addr (D r' x) = buffer_addr (D r x) /\ cmd_type_len (D r' x) = cmd_type_len (D r x)) ->
  Forall2 (tells r) Q G -> Forall2 (tells r') Q G.
Proof.
  intros Hc E HF. revert HF. generalize (fun f Hf => chain_bounds Q Hd T f Hc Hf). clear Hc. intros HB HF. induction HF as [|f g Q G [H1 H2] _ IH]; constructor.
  - split; [done|]. rewrite <- H2. apply sent_view_ext. intros x Hx. apply E. pose proof (HB f ltac:(set_solver)). lia.
  - apply IH. intros h Hh. apply HB. set_solver.
Qed.
Lemma new_log_app st r L : log r = log (s_ring st) ++ L -> new_log st r = L.
Proof. intros E. unfold new_log. by rewrite E, drop_app_length. Qed.
Lemma last_tail_same l L : tails L = [] -> last_tail (l ++ L) = last_tail l.
Proof. intros E. unfold last_tail. by rewrite tails_app, E, app_nil_r. Qed.
Lemma last_tail_snoc l i : last_tail (l ++ [Tail i]) = i.
Proof. unfold last_tail. rewrite tails_app. cbn. by rewrite last_snoc. Qed.
Lemma at_flight_app Q T d f T' : (d <= length Q)%nat -> fl_pos f = T -> at_flight (Q ++ [f]) T' d = at_flight Q T d.
Proof.
  intros Hd Hf. unfold at_flight. destruct (Q !! d) as [g|] eqn:E.
  - by rewrite (lookup_app_l_Some _ _ _ _ E).
  - apply lookup_ge_None in E. replace d with (length Q) by lia. rewrite list_lookup_middle by done. done.
Qed.

Lemma xmit_step st Hd T Q d G0 G e fc s a h res r : sys_ok st Hd T Q d G0 G -> valid_skb s -> (ixgbe_xmit_frame_ring e fc s a (s_ring st) h).1 = Some (res, r) ->
  exists T' Q' G', sys_ok (after_xmit s res r st) Hd T' Q' d G0 G'.
Proof.
  intros [HR H1 H2 [H3 H3'] H4 HW H5] HV E. destruct (xmit_ring N HN e fc s a (s_ring st) h Hd T Q d HR HV) as (res' & r' & E' & Ho). rewrite E in E'. simplify_eq.
  pose proof (ro_chain _ _ _ _ _ _ HR) as Hch. pose proof (proj1 (ro_done _ _ _ _ _ _ HR)) as Hd'. pose proof (Forall2_length _ _ _ H3') as Hlen.
  destruct Ho as [(-> & _ & _ & Hs)|(-> & _ & (s' & (Hid & _) & Ho) & _)].
  - exists T, Q, G. pose proof Hs as (_ & HD & _ & _ & HL). assert (new_log st r' = []) as En by (apply new_log_app; by rewrite app_nil_r). unfold after_xmit. rewrite En. cbn. rewrite app_nil_r. split; cbn; try done.
    + by eapply ring_ok_same.
    + by rewrite HL.
    + split; [done|]. eapply tells_ext; [done| |done]. intros x _. unfold TxRingSpec.D. by rewrite HD.
    + by rewrite HL.
  - destruct Ho as [(flags & [(p & q & P & l & a' & last & b & g & HR' & Hp & _ & _ & _ & HS & _ & L & HL & M1 & M2 & M3 & M4) HK])|[[HR' (L & HL & F & M & TL) HK] _]].
    + destruct (log_maps P) as (G1 & G2 & G3 & G4). exists (q + 1), (Q ++ [Flight T q s' b g]), (G ++ [(sk_id s, P)]). unfold after_xmit. rewrite (new_log_app _ _ _ HL).
      rewrite !mapped_app, !tails_app, M1, M4, G1, G4. cbn. rewrite app_nil_r.
      split; cbn [s_ring s_head s_queued s_wire s_cleaned s_dropped]; try done.
      * rewrite H1. f_equal. symmetry. by apply at_flight_app.
      * rewrite HL. rewrite !app_assoc. change [Sent b; Tail (slot (q + 1))] with ([Sent b] ++ [Tail (slot (q + 1))]). rewrite app_assoc. apply last_tail_snoc.
      * split; [by rewrite H3, app_assoc|]. apply Forall2_app; [|constructor; [|done]; split; [by cbn; rewrite <- Hid|exact HS]]. eapply tells_ext; [done| |done]. intros x Hx. by rewrite HK.
      * rewrite HW, app_assoc, (take_app_le (G0 ++ G)) by (rewrite length_app; lia). done.
      * rewrite HL, !freed_app, M3, G3. cbn. by rewrite app_nil_r.
    + exists T, Q, G. unfold after_xmit. rewrite (new_log_app _ _ _ HL), TL. cbn. split; cbn [s_ring s_head s_queued s_wire s_cleaned s_dropped]; try done.
      * by rewrite HL, last_tail_same.
      * split; [done|]. eapply tells_ext; [done| |done]. intros x Hx. by rewrite HK.
      * rewrite HL, freed_app, F, H5, Hid, <- app_assoc. done.
Qed.

(** ** The adapter sends a packet *)
Lemma hw_read_spec r f : in_flight N r f -> count r = N -> forall fuel x T, fl_pos f <= x <= fl_last f -> fl_last f < T < fl_pos f + N -> fl_last f - x < Z.of_nat fuel ->
  hw_read fuel r (slot x) (slot T) = Some (slot (fl_last f), sent_view N r x (fl_last f)).
Proof.
  intros HF Hc. induction fuel as [|fuel IH]; intros x T Hx HT Hf; [lia|]. cbn [hw_read].
  destruct (Z.eqb_spec (slot x) (slot T)) as [E|_]; [apply (slot_inj Npos (fl_pos f)) in E; lia|].
  change (desc r (slot x)) with (D r x). cbv zeta. rewrite (if_eop _ _ _ HF x Hx). unfold sent_view. rewrite seqZ_cons by lia. destruct (decide (x = fl_last f)) as [->|Hne].
  - rewrite bool_decide_true by done. rewrite seqZ_nil by lia. cbn. by destruct (is_data (D r (fl_last f))).
  - rewrite bool_decide_false, (next_slot N Npos) by done. rewrite IH by lia. cbn. unfold sent_view. replace (Z.pred (fl_last f - x + 1)) with (fl_last f - (x + 1) + 1) by lia.
    change (Z.succ x) with (x + 1). by destruct (is_data (D r x)).
Qed.
Lemma chain_nth Q : forall p t k f, chain p Q t -> Q !! k = Some f -> at_flight Q t (S k) = fl_last f + 1.
Proof.
  induction Q as [|g Q IH]; intros p t k f; [done|]. cbn [chain]. intros (_ & _ & Hc) Hk. destruct k as [|k]; cbn in Hk.
  - simplify_eq. unfold at_flight. cbn. destruct Q as [|g Q]; cbn in *; [done|]. by destruct Hc.
  - unfold at_flight. cbn. by eapply IH.
Qed.
Lemma chain_disjoint Q : forall p t k j f g, chain p Q t -> Q !! k = Some f -> Q !! j = Some g -> (k < j)%nat -> fl_last f < fl_pos g.
Proof.
  induction Q as [|x Q IH]; intros p t k j f g; [done|]. cbn [chain]. intros (_ & _ & Hc) Hk Hj Hlt. destruct j as [|j]; [lia|]. destruct k as [|k]; cbn in *.
  - simplify_eq. apply list_elem_of_lookup_2 in Hj. pose proof (chain_bounds _ _ _ _ Hc Hj). lia.
  - eapply IH; [done..|lia].
Qed.
(** Writing back the status of the packet sent next. *)
Lemma ring_ok_sent r Hd T Q d f status : ring_ok N r Hd T Q d -> Q !! d = Some f -> truthy (Z.land status IXGBE_TXD_STAT_DD) = true ->
  ring_ok N (set_desc (slot (fl_last f)) (set_olinfo status) r) Hd T Q (S d).
Proof.
  intros HR Hf Hs. pose proof (lookup_lt_Some _ _ _ Hf) as Hlt. destruct HR as [C1 C2 C3 C4 C5 C6 C7 [C8 C9] C10]. set (r' := set_desc _ _ r).
  assert (forall g, g ∈ Q -> Hd <= fl_pos g /\ fl_pos g <= fl_last g < T) as HB by (intros g Hg; by apply (chain_bounds _ _ _ _ C5)).
  pose proof (HB f ltac:(by eapply list_elem_of_lookup_2)) as Hbf.
  assert (forall x, inw N Hd x -> D r' x = if decide (x = fl_last f) then set_olinfo status (D r (fl_last f)) else D r x) as ED by (intros x Hx; apply (D_set N Hd Npos); [unfold inw; lia|done]).
  split; try done.
  - apply Forall_forall. intros g Hg. rewrite Forall_forall in C6. destruct (C6 g Hg) as [A1 A2 A3 A4 A5 A6]. pose proof (HB g Hg). split; try done.
    intros x Hx. rewrite ED by (unfold inw; lia). destruct (decide (x = fl_last f)) as [->|]; by apply A6.
  - split; [lia|]. intros k g Hk. pose proof (HB g ltac:(by eapply list_elem_of_lookup_2)) as Hbg. rewrite ED by (unfold inw; lia).
    destruct (decide (fl_last g = fl_last f)) as [E|E].
    + assert (k = d) as ->; [|by rewrite bool_decide_true by lia].
      destruct (lt_eq_lt_dec k d) as [[Hl| ->]|Hl]; [|done|]; [pose proof (chain_disjoint _ _ _ _ _ _ _ C5 Hk Hf Hl)|pose proof (chain_disjoint _ _ _ _ _ _ _ C5 Hf Hk Hl)]; lia.
    + rewrite (C9 k g Hk). apply bool_decide_ext. assert (k <> d); [|lia]. intros ->. by simplify_eq.
Qed.
Lemma hw_send_spec r Hd T Q d status : ring_ok N r Hd T Q d -> last_tail (log r) = slot T ->
  hw_send status (slot (at_flight Q T d)) r =
  match Q !! d with Some f => Some (slot (fl_last f + 1), sent_view N r (fl_pos f) (fl_last f), set_desc (slot (fl_last f)) (set_olinfo status) r) | None => None end.
Proof.
  intros HR Ht. unfold hw_send. rewrite Ht, (ro_count _ _ _ _ _ _ HR). pose proof (ro_room _ _ _ _ _ _ HR). unfold at_flight. destruct (Q !! d) as [f|] eqn:E.
  - pose proof (list_elem_of_lookup_2 _ _ _ E) as Hf. pose proof (chain_bounds _ _ _ _ (ro_chain _ _ _ _ _ _ HR) Hf). pose proof (ro_flight _ _ _ _ _ _ HR) as Hfl. rewrite Forall_forall in Hfl.
    rewrite (hw_read_spec r f) by (apply HR || auto || lia). cbn. by rewrite (next_slot N Npos) by apply HR.
  - destruct (Z.to_nat N) as [|n] eqn:En; [lia|]. cbn [hw_read]. by rewrite Z.eqb_refl.
Qed.
Lemma send_step st Hd T Q d G0 G status head l r : sys_ok st Hd T Q d G0 G -> truthy (Z.land status IXGBE_TXD_STAT_DD) = true -> hw_send status (s_head st) (s_ring st) = Some (head, l, r) ->
  sys_ok (Sys r head (s_queued st) (s_wire st ++ [l]) (s_cleaned st) (s_dropped st)) Hd T Q (S d) G0 G.
Proof.
  intros [HR H1 H2 [H3 H3'] H4 HW H5] Hs. rewrite H1, (hw_send_spec _ _ _ _ _ _ HR H2). destruct (Q !! d) as [f|] eqn:E; [|done]. intros [= <- <- <-].
  destruct (Forall2_lookup_l _ _ _ _ _ H3' E) as (g & Eg & Hg1 & Hg2).
  split; cbn [s_ring s_head s_queued s_wire s_cleaned s_dropped]; try done.
  - by apply ring_ok_sent.
  - f_equal. symmetry. by eapply chain_nth; [apply HR|].
  - split; [done|]. eapply tells_ext; [apply HR| |done]. intros x Hx. unfold TxRingSpec.D. cbn. unfold insert, fn_insert. by destruct (decide (slot (fl_last f) = slot x)) as [->|].
  - rewrite HW, Hg2. replace (length G0 + S d)%nat with (S (length G0 + d)) by lia. rewrite (take_S_r _ _ g), map_app; [done|]. rewrite lookup_app_r by lia. rewrite <- Eg. f_equal. lia.
Qed.

(** ** The driver releases packets *)
Lemma tells_ids r Q G : Forall2 (tells r) Q G -> map fl_id Q = map fst G.
Proof. induction 1 as [|f g Q G [H _] _ IH]; [done|]. cbn. by rewrite H, IH. Qed.
Lemma clean_step st Hd T Q d G0 G wl carrier h fin r totals reset : sys_ok st Hd T Q d G0 G -> 0 < wl < 2 ^ 32 ->
  (ixgbe_clean_tx_irq wl carrier false (s_ring st) h).1 = Some (fin, r, totals, reset) ->
  let n := Nat.min d (Z.to_nat wl) in
  exists Hd', sys_ok (Sys r (s_head st) (s_queued st) (s_wire st) (s_cleaned st ++ freed (new_log st r)) (s_dropped st)) Hd' T (drop n Q) (d - n) (G0 ++ take n G) (drop n G).
Proof.
  intros [HR H1 H2 [H3 H3'] H4 HW H5] Hw E. destruct (clean_irq N HN wl carrier (s_ring st) h Hd T Q d HR Hw) as (fin' & r' & reset' & Hd' & L & E' & HR' & HD & HL & HF & HM & HT & _).
  rewrite E in E'. injection E' as -> -> _ ->. intros n. fold n in HR', HF. exists Hd'. rewrite (new_log_app _ _ _ HL), HF.
  pose proof (proj1 (ro_done _ _ _ _ _ _ HR)). pose proof (Forall2_length _ _ _ H3'). assert (n <= d)%nat by lia. clearbody n.
  split; cbn [s_ring s_head s_queued s_wire s_cleaned s_dropped].
  - done.
  - rewrite H1. f_equal. unfold at_flight. rewrite lookup_drop. by replace (n + (d - n))%nat with d by lia.
  - by rewrite HL, last_tail_same.
  - split; [by rewrite <- app_assoc, take_drop|]. apply Forall2_drop. eapply tells_ext; [apply HR| |done]. intros x Hx. unfold TxRingSpec.D. by rewrite HD.
  - rewrite map_app, H4. f_equal. eapply tells_ids. by apply Forall2_take.
  - rewrite <- app_assoc, take_drop, length_app, length_take, HW. do 2 f_equal. lia.
  - rewrite HL, freed_app, HF, H5, <- !app_assoc. apply Permutation_app_head, Permutation_app_comm.
Qed.
Lemma reachable_ok st : rtc tx_step (start N) st -> exists Hd T Q d G0 G, sys_ok st Hd T Q d G0 G.
Proof.
  intros Hr. refine (rtc_invariant tx_step (fun st => exists Hd T Q d G0 G, sys_ok st Hd T Q d G0 G) _ (start N) st Hr _); [|by exists 0, 0, [], 0%nat, [], []; apply start_ok].
  intros x y (Hd & T & Q & d & G0 & G & Hx) Hy. destruct Hy as [? e fc s a h res r HV E|? status head l r Hs E|? wl carrier h fin r totals reset Hw E].
  - destruct (xmit_step _ _ _ _ _ _ _ _ _ _ _ _ _ _ Hx HV E) as (T' & Q' & G' & ?). by exists Hd, T', Q', d, G0, G'.
  - exists Hd, T, Q, (S d), G0, G. by eapply send_step.
  - destruct (clean_step _ _ _ _ _ _ _ _ _ _ _ _ _ _ Hx Hw E) as (Hd' & ?). by eexists Hd', T, _, _, _, _.
Qed.
End Fifo.

(** ** What the ring promises *)

(** The pieces cover the packet, but for the trailer that FCoE leaves out. *)
Lemma cut_sum fr : forall dlen, 0 <= dlen <= foldr Z.add 0 fr -> Forall (fun f => 0 < f) fr -> foldr Z.add 0 (cut dlen fr) = dlen.
Proof.
  induction fr as [|f fr IH]; intros dlen Hd Hf; cbn in *; [lia|]. apply Forall_cons in Hf as [Hf1 Hf2]. destruct (Z.eqb_spec dlen 0); [cbn; lia|]. pose proof (sum_nonneg _ Hf2). cbn [foldr]. rewrite IH; [lia|lia|done].
Qed.
Lemma pieces_sum flags s : valid_skb s ->
  foldr Z.add 0 (pieces_of flags s) = skb_len s - if truthy (Z.land flags IXGBE_TX_FLAGS_FCOE) then fcoe_crc_eof_size else 0.
Proof.
  intros HV. pose proof (map_sizes_bounds flags s HV) as B. unfold pieces_of. destruct (map_sizes flags s) as [size dlen] eqn:E. cbn [fst snd foldr]. rewrite cut_sum by (apply B || by apply valid_pos).
  pose proof (sum_nonneg _ (valid_pos s HV)) as Hn. fold (data_len s) in Hn. destruct HV as [Hh _ _]. unfold map_sizes, skb_len, fcoe_crc_eof_size in *.
  destruct (truthy _); [|simplify_eq; lia]. destruct (Z.ltb_spec (data_len s) 8); simplify_eq; [|lia]. rewrite u32_small by lia. lia.
Qed.

Section Promises.
Context (N : Z) (HN : 64 <= N < 2 ^ 15).
Lemma wire_length st Hd T Q d G0 G : sys_ok N st Hd T Q d G0 G -> length (s_wire st) = (length G0 + d)%nat /\ (length G0 + d <= length (s_queued st))%nat.
Proof.
  intros [HR _ _ [HQ HF] _ HW _]. pose proof (proj1 (ro_done _ _ _ _ _ _ HR)). pose proof (Forall2_length _ _ _ HF). rewrite HW, HQ, length_map, length_take, length_app. lia.
Qed.
(** With nothing in flight nothing is mapped. *)
Lemma idle_mappings st Hd T d G0 : sys_ok N st Hd T [] d G0 [] -> mapped (log (s_ring st)) ≡ₚ unmapped (log (s_ring st)).
Proof. intros [HR _ _ _ _ _ _]. destruct HR as [_ _ _ _ C5 _ _ _ C10]. cbn in C5. rewrite C10, C5, Z.sub_diag. cbn. by rewrite app_nil_r. Qed.
(** The adapter can send everything that is queued. *)
Lemma send_all n : forall st Hd T Q d G0 G, sys_ok N st Hd T Q d G0 G -> (n = length Q - d)%nat ->
  exists st', rtc tx_step st st' /\ sys_ok N st' Hd T Q (length Q) G0 G /\ s_queued st' = s_queued st /\ s_dropped st' = s_dropped st.
Proof.
  induction n as [|n IH]; intros st Hd T Q d G0 G Hs Hn; pose proof (proj1 (ro_done _ _ _ _ _ _ (so_ring _ _ _ _ _ _ _ _ Hs))) as Hd'.
  - exists st. replace (length Q) with d by lia. by split; [constructor|].
  - destruct (lookup_lt_is_Some_2 Q d ltac:(lia)) as [f Hf]. pose proof (hw_send_spec N HN _ _ _ _ _ IXGBE_TXD_STAT_DD (so_ring _ _ _ _ _ _ _ _ Hs) (so_tail _ _ _ _ _ _ _ _ Hs)) as E.
    rewrite Hf, <- (so_head _ _ _ _ _ _ _ _ Hs) in E. pose proof (send_step N HN _ _ _ _ _ _ _ IXGBE_TXD_STAT_DD _ _ _ Hs eq_refl E) as Hs'.
    destruct (IH _ _ _ _ _ _ _ Hs' ltac:(lia)) as (st' & H1 & H2 & H3 & H4). exists st'. split; [|done]. eapply rtc_l; [by eapply (tx_send st IXGBE_TXD_STAT_DD)|exact H1].
Qed.
End Promises.

(** C17. The driver and the adapter, interleaved in any way from an empty ring of 64 or more descriptors, as long as every packet given to the driver is a [valid_skb]:
    a header of 9 to 65535 bytes and at most 17 fragments of at most 16 KB each, because the driver counts one descriptor per fragment ([large_fragment_overrun]
    shows what happens with larger fragments). What the adapter has read are, packet by packet and in the order of
    queueing, the buffers mapped for the packets, cut into descriptors; packets are released in that order and only after they were sent; a
    packet is freed exactly when it is released or dropped; and when everything is released every mapping has been undone once. *)
Theorem tx_fifo (N : Z) (st : sys) : 64 <= N < 2 ^ 15 -> rtc tx_step (start N) st ->
  s_wire st = map chunks_of (take (length (s_wire st)) (s_queued st)) /\
  s_cleaned st = map fst (take (length (s_cleaned st)) (s_queued st)) /\
  (length (s_cleaned st) <= length (s_wire st) <= length (s_queued st))%nat /\
  freed (log (s_ring st)) ≡ₚ s_cleaned st ++ s_dropped st /\
  (length (s_cleaned st) = length (s_queued st) -> mapped (log (s_ring st)) ≡ₚ unmapped (log (s_ring st))).
Proof.
  intros HN Hr. destruct (reachable_ok N HN st Hr) as (Hd & T & Q & d & G0 & G & Hs). destruct (wire_length N _ _ _ _ _ _ _ Hs) as [Hw Hw'].
  pose proof Hs as [HR _ _ [HQ HF] HC HW HFr]. assert (length (s_cleaned st) = length G0) as Hc by (by rewrite HC, length_map).
  split_and!; [by rewrite Hw, HQ|by rewrite Hc, HQ, take_app_length|lia|lia|done|].
  intros E. assert (G = []) as -> by (apply length_zero_iff_nil; rewrite Hc, HQ, length_app in E; lia). assert (Q = []) as -> by (by inversion HF). by eapply idle_mappings.
Qed.

(** C18. Transmission of a [valid_skb] (at most 17 fragments of at most 16 KB each; larger ones are counted wrongly, [large_fragment_overrun]) in any state that the
    driver and the adapter can reach with such packets: it returns; it answers busy, with the queue stopped and the ring as
    it was, exactly when the descriptors that it counts for the packet, with the gap of three, are not free; otherwise the packet is queued, with
    buffers that add up to its length, or it is freed with all its mappings undone, for one of the reasons of [may_drop]. *)
Theorem xmit_correct (N : Z) (st : sys) (e : xmit_env) (fc : bool) (s : sk_buff) (a : adapter) (h : ixgbe_hw) :
  64 <= N < 2 ^ 15 -> rtc tx_step (start N) st -> valid_skb s ->
  exists res r, (ixgbe_xmit_frame_ring e fc s a (s_ring st) h).1 = Some (res, r) /\
    ((res = NETDEV_TX_BUSY /\ ixgbe_desc_unused (s_ring st) < asked s + 3 /\ stopped r = true /\ same_ring (s_ring st) r) \/
     (res = NETDEV_TX_OK /\ asked s + 3 <= ixgbe_desc_unused (s_ring st) /\
      ((exists P fcoe, s_queued (after_xmit s res r st) = s_queued st ++ [(sk_id s, P)] /\ foldr Z.add 0 (map snd P) = skb_len s - (if fcoe : bool then fcoe_crc_eof_size else 0) /\
          freed (new_log st r) = [] /\ (ixgbe_desc_unused r < DESC_NEEDED -> stopped r = true)) \/
       (freed (new_log st r) = [sk_id s] /\ mapped (new_log st r) ≡ₚ unmapped (new_log st r) /\ tails (new_log st r) = [] /\ may_drop e fc s)))).
Proof.
  intros HN Hr HV. destruct (reachable_ok N HN st Hr) as (Hd & T & Q & d & G0 & G & Hs). pose proof (so_ring _ _ _ _ _ _ _ _ Hs) as HR.
  destruct (xmit_ring N HN e fc s a (s_ring st) h Hd T Q d HR HV) as (res & r & E & Ho). exists res, r. split; [exact E|]. rewrite (unused_spec N HN _ _ _ _ _ HR).
  destruct Ho as [Ho|(-> & Hroom & (s' & Hsh & Ho) & Hst)]; [by left|]. right. split_and!; [done|done|]. pose proof Hsh as (Hid & Hh & Hfr).
  destruct Ho as [(flags & [(p & q & P & l & a' & last & b & g & HR' & Hp & HPs & _ & _ & _ & _ & L & HL & M1 & M2 & M3 & M4) _])|[[HR' (L & HL & F & M & TL) _] Hwhy]].
  - left. destruct (log_maps P) as (G1 & G2 & G3 & G4). exists P, (truthy (Z.land flags IXGBE_TX_FLAGS_FCOE)). unfold after_xmit. rewrite (new_log_app _ _ _ HL).
    rewrite !mapped_app, !tails_app, !freed_app, M1, M3, M4, G1, G3, G4. cbn. rewrite app_nil_r. split_and!; try done.
    + rewrite HPs, pieces_sum by (by eapply shape_valid). unfold skb_len, data_len. by rewrite Hh, Hfr.
    + apply Hst. rewrite (ro_use _ _ _ _ _ _ HR), (ro_use _ _ _ _ _ _ HR'). pose proof (ro_room _ _ _ _ _ _ HR'). pose proof (ro_le _ _ _ _ _ _ HR).
      pose proof (chain_bounds _ _ _ _ (ro_chain _ _ _ _ _ _ HR') (list_elem_of_lookup_2 _ (length Q) (Flight T q s' b g) ltac:(by apply list_lookup_middle))) as HB. cbn in HB.
      intros Eq. apply (slot_inj (N := N) ltac:(lia) Hd) in Eq; lia.
  - right. rewrite (new_log_app _ _ _ HL), F, Hid. by split_and!.
Qed.

(** C19. From every state that the driver and the adapter can reach with packets that are [valid_skb]s (at most 17 fragments of at most 16 KB each), all packets that are queued can be sent and released: the adapter has then
    read all of them, and nothing stays mapped. *)
Theorem tx_drain (N : Z) (st : sys) : 64 <= N < 2 ^ 15 -> rtc tx_step (start N) st ->
  exists st', rtc tx_step st st' /\ s_queued st' = s_queued st /\ s_dropped st' = s_dropped st /\ s_wire st' = map chunks_of (s_queued st) /\ s_cleaned st' = map fst (s_queued st) /\
    mapped (log (s_ring st')) ≡ₚ unmapped (log (s_ring st')) /\ ixgbe_desc_unused (s_ring st') = N - 1.
Proof.
  intros HN Hr. destruct (reachable_ok N HN st Hr) as (Hd & T & Q & d & G0 & G & Hs). destruct (send_all N HN _ _ _ _ _ _ _ _ Hs eq_refl) as (st1 & R1 & Hs1 & Q1 & D1).
  pose proof (so_ring _ _ _ _ _ _ _ _ Hs1) as HR. assert (length Q <= Z.to_nat N)%nat as Hlen.
  { pose proof (chain_length _ _ _ (ro_chain _ _ _ _ _ _ HR)). pose proof (ro_room _ _ _ _ _ _ HR). lia. }
  destruct (clean_irq N HN N true (s_ring st1) (hw_init ixgbe_mac_82599EB (fun _ _ => 0)) Hd T Q (length Q) HR ltac:(lia)) as (fin & r & reset & Hd' & L & E & _).
  pose proof (clean_step N HN _ _ _ _ _ _ _ N _ _ _ _ _ _ Hs1 ltac:(lia) E) as HC. cbv zeta in HC. replace (Nat.min (length Q) (Z.to_nat N)) with (length Q) in HC by lia.
  destruct HC as (Hd2 & Hs2). pose proof (Forall2_length _ _ _ (proj2 (so_queued _ _ _ _ _ _ _ _ Hs1))) as HL. rewrite drop_all, Nat.sub_diag, HL, firstn_all, drop_all in Hs2.
  set (st2 := Sys r _ _ _ _ _) in Hs2. exists st2. pose proof Hs2 as [HR2 _ _ [HQ2 _] HC2 HW2 _]. rewrite app_nil_r in HQ2.
  assert (s_queued st2 = s_queued st) as EQ by exact Q1. split_and!; [| |done| | |by eapply idle_mappings|].
  - eapply rtc_r; [exact R1|]. eapply (tx_clean st1 N); [lia|exact E].
  - done.
  - rewrite HW2, app_nil_r, Nat.add_0_r, firstn_all, <- HQ2, EQ. done.
  - by rewrite HC2, <- HQ2, EQ.
  - rewrite (unused_spec N HN _ _ _ _ _ HR2). pose proof (ro_chain _ _ _ _ _ _ HR2) as Hc. cbn in Hc. lia.
Qed.

(** ** Concrete packets *)
Definition demo_env : xmit_env := XmitEnv (fun k => Some (65536 * (Z.of_nat k + 1))) 0 0 (fun _ _ _ _ _ => 0) (fun _ _ _ _ _ => 0) 0.
Definition demo_skb (id head : Z) (fr : list Z) : sk_buff := SkBuff id head fr (fun _ => 0) 0 false None 0 0 0 false false false false 14 14 34 0.
Definition demo_adapter : adapter :=
  Adapter (Sriov 0 [] None [] 0 0 0 0 0 0 8 8 false 0) 0 (0, 0) (0, 0) (Feature 0 0 0) (Counts 1 1 1 0) (Tc 0 (fun _ => 0) (fun _ => (0, 0)))
    (Settings 0 0 256 256 512 512 0 3 63 64 64 ixgbe_fc_none) 0 false false false true [] [] [].
Definition demo_hw : ixgbe_hw := hw_init ixgbe_mac_82599EB (fun _ _ => 0).
Definition demo_xmit (s : sk_buff) (r : tx_ring) : option (Z * tx_ring) := (ixgbe_xmit_frame_ring demo_env false s demo_adapter r demo_hw).1.
Definition demo_ring (s : sk_buff) (r : tx_ring) : tx_ring := match demo_xmit s r with Some p => p.2 | None => r end.
Definition demo_packet : sk_buff := demo_skb 1 20000 [4096].
Definition demo_state : sys := after_xmit demo_packet 0 (demo_ring demo_packet (empty_ring 64)) (start 64).
Lemma demo_reachable : rtc tx_step (start 64) demo_state.
Proof.
  apply rtc_once. apply (tx_xmit (start 64) demo_env false demo_packet demo_adapter demo_hw).
  - split; [cbn; unfold fcoe_crc_eof_size; lia| |done]. repeat constructor; done.
  - vm_compute. reflexivity.
Qed.
Lemma tx_fifo_witness : s_queued demo_state = [(1, [(65536, 20000); (131072, 4096)])] /\ s_cleaned demo_state = [] /\ (length (s_wire demo_state) <= 1)%nat.
Proof.
  destruct (tx_fifo 64 demo_state ltac:(lia) demo_reachable) as (_ & _ & H & _). split_and!; [vm_compute; reflexivity|vm_compute; reflexivity|apply H].
Defined.
Lemma xmit_correct_witness : exists res r, (ixgbe_xmit_frame_ring demo_env false demo_packet demo_adapter (s_ring demo_state) demo_hw).1 = Some (res, r) /\ res = NETDEV_TX_OK.
Proof.
  destruct (xmit_correct 64 demo_state demo_env false demo_packet demo_adapter demo_hw) as (res & r & E & [(_ & H & _)|(H & _)]).
  - lia.
  - apply demo_reachable.
  - split; [cbn; unfold fcoe_crc_eof_size; lia| |done]. repeat constructor; done.
  - exfalso. revert H. vm_compute. discriminate.
  - exists res, r. split; [exact E|exact H].
Defined.
Lemma tx_drain_witness : exists st', rtc tx_step demo_state st' /\ s_wire st' = [[(65536, 16384); (81920, 3616); (131072, 4096)]] /\ s_cleaned st' = [1].
Proof.
  destruct (tx_drain 64 demo_state ltac:(lia) demo_reachable) as (st' & H1 & _ & _ & H2 & H3 & _). exists st'. split_and!; [done|rewrite H2; vm_compute; reflexivity|rewrite H3; vm_compute; reflexivity].
Defined.

(** Fragments of more than 16 KB are counted as one descriptor each ([count += nr_frags]) but take more. In a ring of 64 descriptors, of which
    none has been released, two packets of one header and 17 fragments of 32 KB are both accepted: 70 descriptors are written, the tail comes
    round to 6, and the first descriptor of the first packet is overwritten before the adapter has read it. *)
Theorem large_fragment_overrun :
  let big id := demo_skb id 100 (repeat 32768 17) in let r1 := demo_ring (big 1) (empty_ring 64) in
  exists r2, demo_xmit (big 1) (empty_ring 64) = Some (NETDEV_TX_OK, r1) /\ demo_xmit (big 2) r1 = Some (NETDEV_TX_OK, r2) /\
    next_to_clean r2 = 0 /\ ntu r2 = 6 /\ read_desc (desc r1 0) = (65536, 100, false) /\ read_desc (desc r2 0) <> (65536, 100, false).
Proof.
  intros big r1. exists (demo_ring (big 2) r1). split_and!; try (vm_compute; reflexivity). vm_compute. discriminate.
Qed.
