(* ===== verification/Lro.v ===== *)
(** * Large receive offload in software ([ixgbe_main.c])

    Received TCP segments of one flow that follow each other are chained to one packet before the stack sees them. The packets held back are in
    [lrolist->active], the most recent flow first; [ixgbe_lro_flush] completes the headers of one and hands it to the stack. The driver is
    built with [CONFIG_IXGBE_DISABLE_PACKET_SPLIT], so the segments are chained in the fragment list of the first. A packet belongs to the
    list alone from [ixgbe_lro_receive] on, so it is a value here. *)
From S2P Require Import Prelude Hw Bits FlowDir FlowFilters.
Open Scope Z_scope.

Definition IXGBE_MAX_RXBUFFER : Z := 16384.
Definition IXGBE_LRO_MAX : Z := 32.
Definition IXGBE_RXDADV_PKTTYPE_IPV4 : Z := 0x00000010.
Definition IXGBE_RXDADV_PKTTYPE_TCP : Z := 0x00000100.
(** Of the kernel's headers. *)
Definition TCPOLEN_TSTAMP_ALIGNED : Z := 12.
Definition TCPOPT_NOP : Z := 1.
Definition TCPOPT_TIMESTAMP : Z := 8.
Definition TCPOLEN_TIMESTAMP : Z := 10.
Definition IP_MF : Z := 0x2000.
Definition IP_OFFSET : Z := 0x1FFF.
Definition sizeof_lrohdr : Z := 40.
Definition sizeof_tcphdr : Z := 20.

(** ** Headers

    The bytes at [skb->data], an IP header of 20 bytes and a TCP header ([struct ixgbe_lrohdr]). *)
Definition iph_tos (b : Z -> Z) : Z := b 1.
Definition iph_tot_len (b : Z -> Z) : Z := ntohs (load16 b 2).
Definition iph_frag_off (b : Z -> Z) : Z := load16 b 6.
Definition iph_protocol (b : Z -> Z) : Z := b 9.
Definition iph_saddr (b : Z -> Z) : Z := load32 b 12.
Definition iph_daddr (b : Z -> Z) : Z := load32 b 16.
Definition th_ports (b : Z -> Z) : Z := load32 b 20.
Definition th_seq (b : Z -> Z) : Z := ntohl (load32 b 24).
Definition th_ack_seq (b : Z -> Z) : Z := load32 b 28.
Definition th_doff (b : Z -> Z) : Z := Z.shiftr (b 32) 4.
Definition th_window (b : Z -> Z) : Z := load16 b 34.
Definition th_fin (b : Z -> Z) : bool := Z.testbit (b 33) 0.
Definition th_syn (b : Z -> Z) : bool := Z.testbit (b 33) 1.
Definition th_rst (b : Z -> Z) : bool := Z.testbit (b 33) 2.
Definition th_psh (b : Z -> Z) : bool := Z.testbit (b 33) 3.
Definition th_ack (b : Z -> Z) : bool := Z.testbit (b 33) 4.
Definition th_urg (b : Z -> Z) : bool := Z.testbit (b 33) 5.
Definition th_ece (b : Z -> Z) : bool := Z.testbit (b 33) 6.
Definition th_cwr (b : Z -> Z) : bool := Z.testbit (b 33) 7.
Definition lro_ts (i : Z) (b : Z -> Z) : Z := load32 b (40 + 4 * i).
(** Stores, the low byte first. *)
Definition store16 (off v : Z) (b : Z -> Z) : Z -> Z := <[off + 1 := Z.land (Z.shiftr v 8) 0xFF]> (<[off := Z.land v 0xFF]> b).
Definition store32 (off v : Z) (b : Z -> Z) : Z -> Z := store16 (off + 2) (Z.shiftr v 16) (store16 off v b).
Definition set_psh (v : bool) (b : Z -> Z) : Z -> Z := if v then <[33 := Z.lor (b 33) 8]> b else b.

(** ** Packets *)

(** A chained segment: its bytes from [pc_off] on. *)
Record piece := Piece { pc_id : Z; pc_bytes : Z -> Z; pc_off : Z; pc_len : Z; pc_truesize : Z }.
(** The LRO part of [struct ixgbe_cb]. *)
Record lro_cb := LroCb { tsecr : Z; tsval : Z; next_seq : Z; free : Z; mss : Z; append_cnt : Z }.
(** A packet. [own_len] is the length of its linear part, [slen] is [skb->len]; [frag_list] are the chained segments. [tail_active]: the last of
    them still points at the head, so its length is not part of the head's. *)
Record lskb := LSkb {
  ls_id : Z; bytes : Z -> Z; slen : Z; data_len : Z; truesize : Z; vlan_tci : Z; csum_unnecessary : bool; sproto : Z;
  frag_list : list piece; has_tail : bool; tail_active : bool; cb : lro_cb; sgso_size : Z
}.
Definition set_bytes v s := LSkb (ls_id s) v (slen s) (data_len s) (truesize s) (vlan_tci s) (csum_unnecessary s) (sproto s) (frag_list s) (has_tail s) (tail_active s) (cb s) (sgso_size s).
Definition set_lens l d t s := LSkb (ls_id s) (bytes s) l d t (vlan_tci s) (csum_unnecessary s) (sproto s) (frag_list s) (has_tail s) (tail_active s) (cb s) (sgso_size s).
Definition set_tail l h a s := LSkb (ls_id s) (bytes s) (slen s) (data_len s) (truesize s) (vlan_tci s) (csum_unnecessary s) (sproto s) l h a (cb s) (sgso_size s).
Definition set_cb v s := LSkb (ls_id s) (bytes s) (slen s) (data_len s) (truesize s) (vlan_tci s) (csum_unnecessary s) (sproto s) (frag_list s) (has_tail s) (tail_active s) v (sgso_size s).
Definition set_gso v s := LSkb (ls_id s) (bytes s) (slen s) (data_len s) (truesize s) (vlan_tci s) (csum_unnecessary s) (sproto s) (frag_list s) (has_tail s) (tail_active s) (cb s) v.
Definition set_ts e v c := LroCb e v (next_seq c) (free c) (mss c) (append_cnt c).
Definition set_seq v c := LroCb (tsecr c) (tsval c) v (free c) (mss c) (append_cnt c).
Definition set_free v c := LroCb (tsecr c) (tsval c) (next_seq c) v (mss c) (append_cnt c).
Definition set_mss v c := LroCb (tsecr c) (tsval c) (next_seq c) (free c) v (append_cnt c).
Definition set_append v c := LroCb (tsecr c) (tsval c) (next_seq c) (free c) (mss c) v.
Definition nop_timestamp : Z :=
  ntohl (Z.lor (Z.lor (Z.lor (Z.shiftl TCPOPT_NOP 24) (Z.shiftl TCPOPT_NOP 16)) (Z.shiftl TCPOPT_TIMESTAMP 8)) TCPOLEN_TIMESTAMP).

(** ** The fragment list *)

(** [ixgbe_merge_active_tail] of the head's tail. *)
Definition merge_active_tail (s : lskb) : lskb :=
  if tail_active s then
    match last (frag_list s) with
    | Some p => set_tail (frag_list s) (has_tail s) false (set_lens (u32 (slen s + pc_len p)) (u32 (data_len s + pc_len p)) (u32 (truesize s + pc_truesize p)) s)
    | None => s
    end
  else s.
Definition add_active_tail (s : lskb) (p : piece) : lskb :=
  if has_tail s then let s := merge_active_tail s in set_tail (frag_list s ++ [p]) true true s
  else set_tail [p] true true s.
Definition close_active_frag_list (s : lskb) : bool * lskb :=
  if has_tail s then let s := merge_active_tail s in (true, set_tail (frag_list s) false (tail_active s) s) else (false, s).

(** ** The list *)
Record lro_list := LroList { active : list lskb; received : list lskb; flushed : Z; coal : Z }.
Definition set_active v q := LroList v (received q) (flushed q) (coal q).
(** [napi_gro_receive] *)
Definition gro_receive (s : lskb) (q : lro_list) : lro_list := LroList (active q) (received q ++ [s]) (flushed q) (coal q).
Definition inc_flushed q := LroList (active q) (received q) (u32 (flushed q + 1)) (coal q).
Definition inc_coal q := LroList (active q) (received q) (flushed q) (u32 (coal q + 1)).

(** Whether a packet can be held back; the ring and device are given by what is asked of them, [may_pull] is the answer of [pskb_may_pull]. *)
Definition ixgbe_can_lro (rsc_enabled feature_lro promisc : bool) (pkt_info : Z) (s : lskb) : bool :=
  if negb (truthy (Z.land pkt_info IXGBE_RXDADV_PKTTYPE_IPV4)) || negb (truthy (Z.land pkt_info IXGBE_RXDADV_PKTTYPE_TCP)) then false
  else if rsc_enabled then false
  else if negb feature_lro then false
  else if promisc then false
  else if slen s <? sizeof_lrohdr then false
  else if negb (sproto s =? htons ETH_P_IP) then false
  else if negb (bytes s 0 =? 0x45) then false
  else if truthy (Z.land (iph_frag_off (bytes s)) (htons (Z.lor IP_MF IP_OFFSET))) then false
  else iph_protocol (bytes s) =? IPPROTO_TCP.

(** The headers of the merged packet; [ip_fast_csum] is the kernel's checksum of the IP header. *)
Definition flush_headers (ip_fast_csum : (Z -> Z) -> Z) (s : lskb) : lskb :=
  let b := store16 2 (ntohs (u16 (slen s))) (bytes s) in
  let b := store16 10 0 b in
  let b := store16 10 (ip_fast_csum b) b in
  let b := store16 36 0 b in
  let b := if truthy (tsecr (cb s)) then store32 44 (ntohl (tsval (cb s))) (store32 48 (tsecr (cb s)) b) else b in
  set_gso (mss (cb s)) (set_bytes b s).
(** [ixgbe_lro_flush] of the packet at position [k]. *)
Definition ixgbe_lro_flush (ip_fast_csum : (Z -> Z) -> Z) (k : nat) (q : lro_list) : lro_list :=
  match active q !! k with
  | None => q
  | Some s =>
      let q := set_active (delete k (active q)) q in
      let s := if truthy (append_cnt (cb s)) then flush_headers ip_fast_csum (close_active_frag_list s).2 else s in
      inc_flushed (gro_receive s q)
  end.
(** From the back of the list to its front. *)
Fixpoint flush_last (ip_fast_csum : (Z -> Z) -> Z) (n : nat) (q : lro_list) : lro_list :=
  match n with O => q | S n => flush_last ip_fast_csum n (ixgbe_lro_flush ip_fast_csum n q) end.
Definition ixgbe_lro_flush_all (ip_fast_csum : (Z -> Z) -> Z) (q : lro_list) : lro_list := flush_last ip_fast_csum (length (active q)) q.

(** [__pskb_trim] of a packet without fragments. *)
Definition pskb_trim (n : Z) (s : lskb) : lskb := if n <? slen s then set_lens n (data_len s) (truesize s) s else s.
(** Is the segment one that can be merged? [mss] is the length of its data, or zero. *)
Definition ixgbe_lro_header_ok (s : lskb) : lskb :=
  let s := set_tail (frag_list s) false (tail_active s) s in
  let s := set_cb (set_mss 0 (set_append 0 (set_ts 0 (tsval (cb s)) (cb s)))) s in
  let b := bytes s in
  if negb (csum_unnecessary s) then s
  else if Z.land (iph_tos b) 3 =? 3 then s
  else if th_fin b || th_syn b || th_rst b || th_urg b || th_ece b || th_cwr b || negb (th_ack b) then s
  else
    let dlen := iph_tot_len b in
    let s := pskb_trim dlen s in
    let dlen := u16 (dlen - sizeof_lrohdr) in
    let opt_bytes := u16 (Z.shiftl (th_doff b) 2 - sizeof_tcphdr) in
    let done s dlen := set_cb (set_seq (th_seq b) (set_mss dlen (cb s))) s in
    if truthy opt_bytes then
      if negb (opt_bytes =? TCPOLEN_TSTAMP_ALIGNED) || (slen s <? sizeof_lrohdr + TCPOLEN_TSTAMP_ALIGNED) ||
         negb (lro_ts 0 b =? nop_timestamp) || (lro_ts 2 b =? 0) then s
      else done (set_cb (set_ts (lro_ts 2 b) (ntohl (lro_ts 1 b)) (cb s)) s) (u16 (dlen - TCPOLEN_TSTAMP_ALIGNED))
    else done s dlen.

(** ** Receiving *)
Definition same_flow (s new : lskb) : bool :=
  (th_ports (bytes s) =? th_ports (bytes new)) && (iph_saddr (bytes s) =? iph_saddr (bytes new)) &&
  (iph_daddr (bytes s) =? iph_daddr (bytes new)) && (vlan_tci s =? vlan_tci new).
(** The first packet of the same flow, with its position. *)
Fixpoint find_flow (new : lskb) (k : nat) (l : list lskb) : option (nat * lskb) :=
  match l with
  | [] => None
  | s :: l => if same_flow s new then Some (k, s) else find_flow new (S k) l
  end.
(** [skb_pull]: the bytes of [new] behind the first [n], or all of them. *)
Definition skb_pull (n : Z) (new : lskb) : piece :=
  if n >? slen new then Piece (ls_id new) (bytes new) 0 (slen new) (truesize new)
  else Piece (ls_id new) (bytes new) n (slen new - n) (truesize new).
(** A segment is chained to [s]. *)
Definition lro_append (s new : lskb) : lskb :=
  let dlen := mss (cb new) in
  let p := skb_pull (u32 (slen new - dlen)) new in
  let c := set_ts (tsecr (cb new)) (tsval (cb new)) (cb s) in
  let c := set_free (u16 (free c - dlen)) (set_seq (u32 (next_seq c + dlen)) c) in
  add_active_tail (set_cb (set_append (u16 (append_cnt c + 1)) c) s) p.
(** The end of [ixgbe_lro_receive]: the packet opens a flow or goes to the stack. *)
Definition lro_finish (ip_fast_csum : (Z -> Z) -> Z) (new : lskb) (q : lro_list) : lro_list :=
  if truthy (mss (cb new)) && negb (th_psh (bytes new)) then
    let q := if Z.of_nat (length (active q)) >=? IXGBE_LRO_MAX then ixgbe_lro_flush ip_fast_csum (pred (length (active q))) q else q in
    let new := set_cb (set_free (u16 (65521 - slen new)) (set_seq (u32 (next_seq (cb new) + mss (cb new))) (cb new))) new in
    inc_coal (set_active (new :: active q) q)
  else gro_receive new q.
Definition ixgbe_lro_receive (ip_fast_csum : (Z -> Z) -> Z) (new : lskb) (q : lro_list) : lro_list :=
  let new := ixgbe_lro_header_ok new in
  match find_flow new 0 (active q) with
  | None => lro_finish ip_fast_csum new q
  | Some (k, s) =>
      let flush := ixgbe_lro_flush ip_fast_csum k q in
      let dlen := mss (cb new) in
      if negb (next_seq (cb s) =? next_seq (cb new)) then lro_finish ip_fast_csum (set_cb (set_mss 0 (cb new)) new) flush
      else if xorb (truthy (tsecr (cb s))) (truthy (tsecr (cb new))) then lro_finish ip_fast_csum new flush
      else if truthy (tsecr (cb s)) && (tsval (cb s) >? tsval (cb new)) then lro_finish ip_fast_csum (set_cb (set_mss 0 (cb new)) new) flush
      else if (dlen =? 0) || (dlen >? mss (cb s)) || (dlen >? free (cb s)) ||
              negb (th_ack_seq (bytes s) =? th_ack_seq (bytes new)) || negb (th_window (bytes s) =? th_window (bytes new))
      then lro_finish ip_fast_csum new flush
      else
        let psh := th_psh (bytes new) in
        let s := lro_append s new in
        let q :=
          if (dlen <? mss (cb s)) || psh then
            ixgbe_lro_flush ip_fast_csum k (set_active (<[k := set_bytes (set_psh psh (bytes s)) s]> (active q)) q)
          else set_active (<[k := s]> (active q)) q in
        inc_coal q
  end.
