(* ===== verification/LroSpec.v ===== *)
(** * Large receive offload: the byte stream is kept

    Each packet that the stack receives is made of one or more of the packets that came in. Per flow these come in their order, none is lost and
    none is repeated; a merged packet has the data of its parts in the order of their sequence numbers, without gap, and headers that say so. *)
From S2P Require Import Prelude Hw Bits FlowDir FlowFilters Lro.
Open Scope Z_scope.

(** ** Loads and stores *)
Lemma store16_ne off v b x : x <> off -> x <> off + 1 -> store16 off v b x = b x.
Proof. intros H1 H2. unfold store16. by rewrite !fn_lookup_insert_ne by lia. Qed.
Lemma store32_ne off v b x : ~ off <= x < off + 4 -> store32 off v b x = b x.
Proof. intros Hx. unfold store32. rewrite !store16_ne; [done|lia..]. Qed.
Lemma load16_bytes b off : load16 b off = b off + 256 * b (off + 1).
Proof. unfold load16, le_load, zsum. change (Z.to_nat 2) with 2%nat. cbn -[Z.mul Z.add]. change (Z.of_nat 0) with 0. change (Z.of_nat 1) with 1. rewrite Z.add_0_r. lia. Qed.
Lemma load16_ext b b' off : b' off = b off -> b' (off + 1) = b (off + 1) -> load16 b' off = load16 b off.
Proof. intros E1 E2. by rewrite !load16_bytes, E1, E2. Qed.
Lemma load32_bytes b off : load32 b off = load16 b off + 65536 * load16 b (off + 2).
Proof.
  rewrite !load16_bytes. unfold load32, le_load, zsum. change (Z.to_nat 4) with 4%nat. cbn -[Z.mul Z.add]. change (Z.of_nat 0) with 0. change (Z.of_nat 1) with 1. change (Z.of_nat 2) with 2. change (Z.of_nat 3) with 3. rewrite Z.add_0_r. replace (off + 2 + 1) with (off + 3) by lia. lia.
Qed.
Lemma load32_ext b b' off : (forall i, off <= i < off + 4 -> b' i = b i) -> load32 b' off = load32 b off.
Proof. intros E. rewrite !load32_bytes. f_equal; [|f_equal]; apply load16_ext; apply E; lia. Qed.
Lemma load_store16 b off v : 0 <= v < 2 ^ 16 -> load16 (store16 off v b) off = v.
Proof.
  intros Hv. rewrite load16_bytes. unfold store16. rewrite fn_lookup_insert_ne, !fn_lookup_insert by lia.
  change 0xFF with (Z.ones 8). rewrite !Z.land_ones by lia. rewrite Z.shiftr_div_pow2 by lia. change (2 ^ 8) with 256. change (2 ^ 16) with (256 * 256) in Hv.
  rewrite (Z.mod_small (v / 256)) by (split; [apply Z.div_pos; lia|apply Z.div_lt_upper_bound; lia]). pose proof (Z.div_mod v 256 ltac:(lia)). lia.
Qed.

(** ** Packets that come in *)
Definition hlen (b : Z -> Z) : Z := 20 + 4 * th_doff b.
Definition dlen (b : Z -> Z) : Z := iph_tot_len b - hlen b.
(** A packet from the ring: no more than a receive buffer holds, no fragments, and if the adapter has verified its checksums the lengths in its headers are not beyond its end. *)
Record fresh_skb (p : lskb) : Prop := {
  fr_bytes : forall i, 0 <= bytes p i < 256;
  fr_len : 0 <= slen p <= IXGBE_MAX_RXBUFFER;
  fr_frags : frag_list p = [] /\ data_len p = 0 /\ tail_active p = false;
  fr_true : 0 <= truesize p;
  fr_csum : csum_unnecessary p = true -> hlen (bytes p) <= iph_tot_len (bytes p) <= slen p
}.
(** What [ixgbe_lro_header_ok] says of it: nothing, or that it can be merged. *)
Record checked (p o : lskb) : Prop := {
  ck_same : ls_id o = ls_id p /\ bytes o = bytes p /\ vlan_tci o = vlan_tci p /\ truesize o = truesize p;
  ck_frags : frag_list o = [] /\ data_len o = 0 /\ has_tail o = false /\ tail_active o = false;
  ck_append : append_cnt (cb o) = 0;
  ck_len : slen o = slen p \/ (slen o = iph_tot_len (bytes p) /\ iph_tot_len (bytes p) <= slen p)
}.
Record mergeable (p o : lskb) : Prop := {
  mg_len : slen o = iph_tot_len (bytes p) /\ 0 < dlen (bytes p);
  mg_mss : mss (cb o) = dlen (bytes p) /\ next_seq (cb o) = th_seq (bytes p);
  mg_ts : hlen (bytes p) = if truthy (tsecr (cb o)) then 52 else 40
}.
Lemma doff_range b : (forall i, 0 <= b i < 256) -> 0 <= th_doff b < 16.
Proof. intros Hb. unfold th_doff. rewrite Z.shiftr_div_pow2 by lia. specialize (Hb 32). change (2 ^ 4) with 16. split; [apply Z.div_pos; lia|apply Z.div_lt_upper_bound; lia]. Qed.
Lemma tot_len_range b : 0 <= iph_tot_len b < 2 ^ 16.
Proof. apply bswap16_range. Qed.
Lemma header_ok_spec p : fresh_skb p -> let o := ixgbe_lro_header_ok p in checked p o /\ (mss (cb o) = 0 \/ mergeable p o).
Proof.
  intros [Hb Hl (F1 & F2 & F3) _ Hc]. unfold ixgbe_lro_header_ok. cbn [set_tail set_cb csum_unnecessary bytes]. set (s0 := set_cb _ (set_tail _ _ _ p)).
  assert (checked p s0 /\ mss (cb s0) = 0) as [C0 M0] by (split; [split; cbn; auto|done]).
  destruct (csum_unnecessary p) eqn:Ecs; cbn [negb]; [|split; [exact C0|by left]]. specialize (Hc eq_refl). destruct (_ =? 3); [split; [exact C0|by left]|]. destruct (_ || _); [split; [exact C0|by left]|]. cbv zeta.
  remember (iph_tot_len (bytes p)) as T eqn:ET. assert (pskb_trim T s0 = set_lens T (data_len s0) (truesize s0) s0) as ->.
  { unfold pskb_trim. change (slen s0) with (slen p). destruct (Z.ltb_spec T (slen p)); [done|]. by replace T with (slen p) by lia. }
  set (s1 := set_lens T _ _ s0). assert (checked p s1 /\ mss (cb s1) = 0) as [C1 M1].
  { split; [|done]. destruct C0 as [A B C D]. split; try done. right. rewrite <- ET. split; [done|lia]. }
  assert (forall c, append_cnt c = 0 -> checked p (set_cb c s1)) as C2 by (intros c Hc0; destruct C1 as [A B C D]; by split).
  pose proof (doff_range _ Hb) as Hd. pose proof (tot_len_range (bytes p)) as HT. rewrite <- ET in HT. unfold hlen in Hc.
  assert (Z.shiftl (th_doff (bytes p)) 2 = 4 * th_doff (bytes p)) as -> by (rewrite Z.shiftl_mul_pow2 by lia; lia).
  unfold sizeof_tcphdr, sizeof_lrohdr, TCPOLEN_TSTAMP_ALIGNED. set (d := th_doff (bytes p)) in *.
  assert (u16 (4 * d - 20) = if d <? 5 then 4 * d - 20 + 2 ^ 16 else 4 * d - 20) as ->.
  { destruct (Z.ltb_spec d 5); [unfold u16; rewrite <- (Z_mod_plus_full _ 1), Z.mod_small; lia|apply u16_small; lia]. }
  assert (forall c, mss c = dlen (bytes p) -> next_seq c = th_seq (bytes p) -> (if truthy (tsecr c) then 52 else 40) = hlen (bytes p) -> mss c = 0 \/ mergeable p (set_cb c s1)) as G.
  { intros c H1 H2 H4. destruct (decide (mss c = 0)) as [|]; [by left|]. right. split; [|done|exact (eq_sym H4)]. split; [by rewrite <- ET|]. unfold dlen, hlen in *. rewrite <- ET in *. lia. }
  destruct (Z.ltb_spec d 5) as [Hd5|Hd5].
  { unfold truthy. replace (4 * d - 20 + 2 ^ 16 =? 0) with false by lia. replace (4 * d - 20 + 2 ^ 16 =? 12) with false by lia. cbn [negb orb]. split; [done|by left]. }
  unfold truthy. destruct (Z.eqb_spec (4 * d - 20) 0) as [E0|E0]; cbn [negb].
  - split; [by apply C2|]. apply G; [|done|]; unfold dlen, hlen; fold d; rewrite <- ?ET; cbn; [rewrite u16_small; lia|lia].
  - destruct (Z.eqb_spec (4 * d - 20) 12) as [E1|E1]; cbn [negb orb]; [|by split; [|left]]. destruct (_ <? _); cbn [orb]; [by split; [|left]|]. destruct (_ =? nop_timestamp); cbn [negb orb]; [|by split; [|left]].
    destruct (Z.eqb_spec (lro_ts 2 (bytes p)) 0) as [E2|E2]; [by split; [|left]|]. split; [by apply C2|]. cbn [cb set_cb].
    match goal with |- context [set_cb ?c (set_cb ?c' s1)] => change (set_cb c (set_cb c' s1)) with (set_cb c s1) end. apply G; [|done|]; unfold dlen, hlen; fold d; rewrite <- ?ET; cbn.
    + rewrite (u16_small (T - 40)) by lia. rewrite u16_small; lia.
    + unfold truthy. rewrite (proj2 (Z.eqb_neq _ _) E2). cbn. lia.
Qed.

(** ** What the list holds *)
Definition payload (b : Z -> Z) : list Z := map b (seqZ (hlen b) (dlen b)).
Definition flow (p : lskb) : Z * Z * Z * Z := (th_ports (bytes p), iph_saddr (bytes p), iph_daddr (bytes p), vlan_tci p).
Definition piece_of (p : lskb) : piece := Piece (ls_id p) (bytes p) (hlen (bytes p)) (dlen (bytes p)) (truesize p).
Definition dsum (l : list lskb) : Z := foldr Z.add 0 (map (fun p => dlen (bytes p)) l).
(** The next segment of the stream, with the same acknowledgement. *)
Definition follows (a b : lskb) : Prop := th_seq (bytes b) = u32 (th_seq (bytes a) + dlen (bytes a)) /\ flow b = flow a /\ th_ack_seq (bytes b) = th_ack_seq (bytes a).
Inductive linked : list lskb -> Prop :=
| linked_one p : linked [p]
| linked_cons a b g : follows a b -> linked (b :: g) -> linked (a :: b :: g).
Lemma linked_snoc g a p : linked (g ++ [a]) -> follows a p -> linked (g ++ [a; p]).
Proof.
  induction g as [|x g IH]; cbn; intros Hl Hf; [constructor; [done|constructor]|]. destruct g as [|y g]; cbn in *; inversion Hl; subst; (constructor; [done|auto]).
Qed.
Lemma linked_flow g : linked g -> forall p q, p ∈ g -> q ∈ g -> flow p = flow q /\ th_ack_seq (bytes p) = th_ack_seq (bytes q).
Proof.
  assert (forall g, linked g -> forall a, head g = Some a -> forall p, p ∈ g -> flow p = flow a /\ th_ack_seq (bytes p) = th_ack_seq (bytes a)) as G.
  { clear. induction 1 as [x|a b g (_ & Hf & Ha) _ IH]; intros y [= <-] p Hp; [by apply list_elem_of_singleton in Hp as ->|].
    apply elem_of_cons in Hp as [->|Hp]; [done|]. destruct (IH b eq_refl p Hp) as [-> ->]. done. }
  intros Hl p q Hp Hq. destruct g as [|a g]; [by apply not_elem_of_nil in Hp|]. destruct (G _ Hl a eq_refl p Hp) as [-> ->]. destruct (G _ Hl a eq_refl q Hq) as [-> ->]. done.
Qed.
Lemma dsum_snoc g p : dsum (g ++ [p]) = dsum g + dlen (bytes p).
Proof. unfold dsum. rewrite map_app, foldr_add_app. cbn. lia. Qed.

(** The length of the last segment while the head does not count it. *)
Definition pending (s : lskb) : Z := if tail_active s then match last (frag_list s) with Some p => pc_len p | None => 0 end else 0.
Record holds (p0 : lskb) (rest : list lskb) (s : lskb) : Prop := {
  ho_same : bytes s = bytes p0 /\ ls_id s = ls_id p0 /\ vlan_tci s = vlan_tci p0;
  ho_frags : frag_list s = map piece_of rest /\ has_tail s = bool_decide (rest <> []) /\ tail_active s = bool_decide (rest <> []);
  ho_len : slen s + pending s = iph_tot_len (bytes p0) + dsum rest /\ data_len s + pending s = dsum rest /\ 0 <= data_len s /\ 0 <= slen s;
  ho_tot : iph_tot_len (bytes p0) <= slen p0;
  ho_cb : append_cnt (cb s) = Z.of_nat (length rest) /\ mss (cb s) = dlen (bytes p0) /\
          free (cb s) = 65521 - (iph_tot_len (bytes p0) + dsum rest) /\ 0 <= free (cb s);
  ho_seq : forall a, last (p0 :: rest) = Some a -> next_seq (cb s) = u32 (th_seq (bytes a) + dlen (bytes a));
  ho_ts : hlen (bytes p0) = if truthy (tsecr (cb s)) then 52 else 40;
  ho_all : Forall (fun p => fresh_skb p /\ 0 < dlen (bytes p)) (p0 :: rest);
  ho_link : linked (p0 :: rest)
}.
Definition opened (o : lskb) : lskb := set_cb (set_free (u16 (65521 - slen o)) (set_seq (u32 (next_seq (cb o) + mss (cb o))) (cb o))) o.
Lemma opened_holds p o : fresh_skb p -> checked p o -> mergeable p o -> holds p [] (opened o).
Proof.
  intros Hp [(A1 & A2 & A3 & A4) (B1 & B2 & B3 & B4) C HL] [[D1 D2] [E1 E2] F]. pose proof (tot_len_range (bytes p)). pose proof (fr_len p Hp).
  assert (iph_tot_len (bytes p) <= 16384) by (unfold IXGBE_MAX_RXBUFFER in *; lia).
  split; cbn; try done.
  - unfold pending. cbn. rewrite B2, B4, D1. cbn. lia.
  - lia.
  - rewrite C, E1, D1. split_and!; [done|done| |]; rewrite u16_small; lia.
  - intros a [= <-]. by rewrite E1, E2.
  - by constructor.
  - constructor.
Qed.
Lemma dsum_nonneg rest : Forall (fun p => fresh_skb p /\ 0 < dlen (bytes p)) rest -> 0 <= dsum rest /\ Z.of_nat (length rest) <= dsum rest.
Proof. induction 1 as [|p l [_ Hp] _ IH]; [done|]. change (dsum (p :: l)) with (dlen (bytes p) + dsum l). cbn [length]. lia. Qed.
Lemma pull_piece p o : checked p o -> mergeable p o -> (forall i, 0 <= bytes p i < 256) -> skb_pull (u32 (slen o - mss (cb o))) o = piece_of p.
Proof.
  intros [(A1 & A2 & A3 & A4) _ _ _] [[D1 D2] [E1 E2] F] Hb. pose proof (tot_len_range (bytes p)). unfold skb_pull, piece_of. rewrite A1, A2, A4, D1, E1.
  assert (0 <= hlen (bytes p)) by (unfold hlen; pose proof (doff_range _ Hb); lia). replace (iph_tot_len (bytes p) - dlen (bytes p)) with (hlen (bytes p)) by (unfold dlen; lia).
  rewrite u32_small by (unfold dlen in *; lia). destruct (Z.gtb_spec (hlen (bytes p)) (iph_tot_len (bytes p))); [unfold dlen in *; lia|done].
Qed.
(** The tail becomes part of the head. *)
Lemma merge_spec p0 rest s : holds p0 rest s -> frag_list (merge_active_tail s) = map piece_of rest /\ slen (merge_active_tail s) = iph_tot_len (bytes p0) + dsum rest /\
  data_len (merge_active_tail s) = dsum rest /\ tail_active (merge_active_tail s) = false /\ has_tail (merge_active_tail s) = has_tail s /\
  bytes (merge_active_tail s) = bytes s /\ ls_id (merge_active_tail s) = ls_id s /\ vlan_tci (merge_active_tail s) = vlan_tci s /\ cb (merge_active_tail s) = cb s.
Proof.
  intros [_ (F1 & F2 & F3) (L1 & L2 & L3 & L4) _ (C1 & C2 & C3 & C4) _ _ HA _]. apply Forall_cons in HA as [_ HA]. apply dsum_nonneg in HA as [HA _]. pose proof (tot_len_range (bytes p0)).
  unfold merge_active_tail, pending in *. destruct (tail_active s) eqn:Et; [|by split_and!; try done; lia].
  destruct (last (frag_list s)) as [p|] eqn:El; cbn; [split_and!; try done; rewrite u32_small; lia|].
  apply last_None in El. rewrite El in F1. symmetry in F1. apply map_eq_nil in F1 as ->. by rewrite bool_decide_false in F3 by auto.
Qed.
Lemma append_holds p0 rest s p o : holds p0 rest s -> fresh_skb p -> checked p o -> mergeable p o -> next_seq (cb s) = next_seq (cb o) ->
  xorb (truthy (tsecr (cb s))) (truthy (tsecr (cb o))) = false -> mss (cb o) <= free (cb s) -> flow p = flow p0 -> th_ack_seq (bytes p) = th_ack_seq (bytes p0) ->
  holds p0 (rest ++ [p]) (lro_append s o).
Proof.
  intros Hs Hp Hck Hmg Hseq Hts Hfree Hfl Hack. unfold lro_append. cbv zeta. rewrite (pull_piece p o) by (done || apply Hp).
  pose proof (merge_spec _ _ _ Hs) as (M1 & M2 & M3 & M4 & M5 & M6 & M7 & M8 & M9).
  destruct Hs as [(S1 & S2 & S3) (F1 & F2 & F3) (L1 & L2 & L3 & L4) Ht0 (C1 & C2 & C3 & C4) HQ HT HA HL]. pose proof Hmg as [[D1 D2] [E1 E2] F].
  apply xorb_eq in Hts. pose proof HA as [_ HA']%Forall_cons. apply dsum_nonneg in HA' as [Hd0 Hd1]. pose proof (tot_len_range (bytes p0)).
  set (c := set_append _ _). assert (add_active_tail (set_cb c s) (piece_of p) =
    set_cb c (set_tail (map piece_of rest ++ [piece_of p]) true true (if has_tail s then merge_active_tail s else s))) as ->.
  { unfold add_active_tail. change (has_tail (set_cb c s)) with (has_tail s). destruct (has_tail s) eqn:Eh.
    - unfold merge_active_tail in *. change (tail_active (set_cb c s)) with (tail_active s). change (frag_list (set_cb c s)) with (frag_list s).
      destruct (tail_active s); [destruct (last (frag_list s))|]; cbn in *; by rewrite ?F1.
    - symmetry in F2. apply bool_decide_eq_false, dec_stable in F2 as ->. done. }
  set (s1 := if has_tail s then _ else s). assert (slen s1 = iph_tot_len (bytes p0) + dsum rest /\ data_len s1 = dsum rest /\ bytes s1 = bytes s /\ ls_id s1 = ls_id s /\ vlan_tci s1 = vlan_tci s) as (N1 & N2 & N3 & N4 & N5).
  { unfold s1. destruct (has_tail s) eqn:Eh; [done|]. unfold pending in *. rewrite F3, <- F2 in L1, L2. cbn in L1, L2. split_and!; try done; lia. }
  clearbody s1. assert (last ((p0 :: rest) ++ [p]) = Some p) as Elast by apply last_snoc.
  assert (exists g a, p0 :: rest = g ++ [a]) as (g & a & Eg) by (destruct (exists_last (l := p0 :: rest)) as (g & a & ->); [done|eauto]).
  split; cbn [bytes ls_id vlan_tci frag_list has_tail tail_active slen data_len cb set_cb set_tail].
  - by rewrite N3, N4, N5.
  - rewrite map_app. by rewrite !bool_decide_true by (by destruct rest).
  - unfold pending. cbn. rewrite last_snoc, N1, N2, dsum_snoc. cbn. lia.
  - done.
  - unfold c. cbn. rewrite length_app, C1, C2, C3, E1, dsum_snoc. cbn [length]. rewrite !u16_small; lia.
  - intros x Hx. rewrite app_comm_cons, Elast in Hx. injection Hx as <-. unfold c. cbn. rewrite E1, Hseq, E2. done.
  - unfold c. cbn. by rewrite HT, Hts.
  - rewrite app_comm_cons. apply Forall_app. split; [done|]. constructor; [done|constructor].
  - rewrite app_comm_cons, Eg, <- app_assoc. apply linked_snoc; [by rewrite <- Eg|]. assert (last (g ++ [a]) = Some a) as Ela by apply last_snoc. rewrite <- Eg in Ela. specialize (HQ a Ela).
    assert (flow a = flow p0 /\ th_ack_seq (bytes a) = th_ack_seq (bytes p0)) as [Hfa Haa] by (apply (linked_flow _ HL); [rewrite Eg; set_solver|set_solver]).
    split_and!; [by rewrite <- HQ, <- E2|by rewrite Hfa|by rewrite Haa].
Qed.

(** ** What the stack receives *)

(** All bytes of a packet. *)
Definition content (s : lskb) : list Z :=
  map (bytes s) (seqZ 0 (slen s - data_len s)) ++ concat (map (fun p => map (pc_bytes p) (seqZ (pc_off p) (pc_len p))) (frag_list s)).
(** The packet [s] is made of [p0], or of [p0] and the segments [rest]. *)
Record delivers (p0 : lskb) (rest : list lskb) (s : lskb) : Prop := {
  de_flow : ls_id s = ls_id p0 /\ flow s = flow p0 /\ th_seq (bytes s) = th_seq (bytes p0) /\ th_ack_seq (bytes s) = th_ack_seq (bytes p0);
  de_psh : th_psh (bytes s) = existsb (fun p => th_psh (bytes p)) (p0 :: rest);
  de_link : linked (p0 :: rest);
  de_one : rest = [] -> bytes s = bytes p0 /\ frag_list s = [] /\ data_len s = 0 /\ (slen s = slen p0 \/ (slen s = iph_tot_len (bytes p0) /\ iph_tot_len (bytes p0) <= slen p0));
  de_merged : rest <> [] -> drop (Z.to_nat (hlen (bytes s))) (content s) = concat (map (fun p => payload (bytes p)) (p0 :: rest)) /\
    iph_tot_len (bytes s) = Z.of_nat (length (content s)) /\ slen s = Z.of_nat (length (content s)) /\ sgso_size s = dlen (bytes p0)
}.
Lemma linked_single p : linked [p].
Proof. constructor. Qed.
Lemma single_delivers p s : ls_id s = ls_id p -> bytes s = bytes p -> vlan_tci s = vlan_tci p -> frag_list s = [] -> data_len s = 0 ->
  (slen s = slen p \/ (slen s = iph_tot_len (bytes p) /\ iph_tot_len (bytes p) <= slen p)) -> delivers p [] s.
Proof. intros H1 H2 H3 H4 H5 H6. split; [unfold flow; by rewrite H1, H2, H3|by rewrite H2; cbn; rewrite orb_false_r|constructor|done|done]. Qed.
Lemma pieces_payload rest : concat (map (fun p => map (pc_bytes p) (seqZ (pc_off p) (pc_len p))) (map piece_of rest)) = concat (map (fun p => payload (bytes p)) rest).
Proof. by rewrite map_map. Qed.
Lemma payload_length b : 0 <= dlen b -> Z.of_nat (length (payload b)) = dlen b.
Proof. intros Hd. unfold payload. rewrite length_map, length_seqZ. lia. Qed.
Lemma payloads_length rest : Forall (fun p => fresh_skb p /\ 0 < dlen (bytes p)) rest -> Z.of_nat (length (concat (map (fun p => payload (bytes p)) rest))) = dsum rest.
Proof.
  induction 1 as [|p l [_ Hp] _ IH]; [done|]. cbn. rewrite length_app, Nat2Z.inj_add, IH, payload_length by lia. done.
Qed.

(** The bytes that [ixgbe_lro_flush] changes. *)
Definition touched (ts : bool) (i : Z) : Prop := i = 2 \/ i = 3 \/ i = 10 \/ i = 11 \/ i = 33 \/ i = 36 \/ i = 37 \/ (ts = true /\ 44 <= i < 52).
Lemma flush_bytes f s i : ~ touched (truthy (tsecr (cb s))) i -> bytes (flush_headers f s) i = bytes s i.
Proof.
  intros Hi. assert (i <> 2 /\ i <> 3 /\ i <> 10 /\ i <> 11 /\ i <> 33 /\ i <> 36 /\ i <> 37 /\ (truthy (tsecr (cb s)) = true -> ~ 44 <= i < 52)) as (? & ? & ? & ? & ? & ? & ? & Ht) by (unfold touched in Hi; tauto).
  clear Hi. unfold flush_headers. cbn [bytes set_gso set_bytes]. destruct (truthy (tsecr (cb s))); [specialize (Ht eq_refl)|].
  - rewrite !store32_ne by lia. rewrite !store16_ne; [done|lia..].
  - rewrite !store16_ne; [done|lia..].
Qed.
Lemma flush_tot_len f s : 0 <= slen s < 2 ^ 16 -> iph_tot_len (bytes (flush_headers f s)) = slen s.
Proof.
  intros Hs. unfold flush_headers, iph_tot_len. cbn [bytes set_gso set_bytes].
  assert (forall b, load16 (if truthy (tsecr (cb s)) then store32 44 (ntohl (tsval (cb s))) (store32 48 (tsecr (cb s)) b) else b) 2 = load16 b 2) as -> by (intros b; destruct (truthy _); [apply load16_ext; by rewrite !store32_ne by lia|done]).
  rewrite (load16_ext (store16 2 (ntohs (u16 (slen s))) (bytes s))) by (by do 3 rewrite store16_ne by lia).
  rewrite load_store16 by apply bswap16_range. rewrite u16_small by lia. apply bswap16_involutive. lia.
Qed.
Lemma set_psh_bytes v b i : i <> 33 -> set_psh v b i = b i.
Proof. intros Hi. unfold set_psh. destruct v; [by apply fn_lookup_insert_ne|done]. Qed.
Lemma set_psh_spec v b : th_psh (set_psh v b) = th_psh b || v.
Proof. unfold th_psh, set_psh. destruct v; [rewrite fn_lookup_insert, Z.lor_spec|by rewrite orb_false_r]. done. Qed.
Definition flushed_skb (f : (Z -> Z) -> Z) (s : lskb) : lskb := if truthy (append_cnt (cb s)) then flush_headers f (close_active_frag_list s).2 else s.

(** The data is not among the bytes that change. *)
Lemma touched_data b (ts : bool) i : hlen b = (if ts then 52 else 40) -> hlen b <= i -> ~ touched ts i.
Proof. unfold touched. intros E Hi. rewrite E in Hi. destruct ts; intuition (try lia; try done). Qed.
Lemma field_same (b b' : Z -> Z) : (forall i, i = 32 \/ 12 <= i < 32 -> b' i = b i) ->
  th_ports b' = th_ports b /\ iph_saddr b' = iph_saddr b /\ iph_daddr b' = iph_daddr b /\ th_seq b' = th_seq b /\ th_ack_seq b' = th_ack_seq b /\ hlen b' = hlen b.
Proof.
  intros E. unfold th_ports, iph_saddr, iph_daddr, th_seq, th_ack_seq, hlen, th_doff. rewrite (E 32) by lia.
  split_and!; try done; [..|f_equal|]; apply load32_ext; intros i Hi; apply E; lia.
Qed.
(** Flushing a packet that has been merged; [psh] is the bit of its last segment. *)
Lemma merged_delivers f p0 rest s psh : holds p0 rest s -> rest <> [] -> existsb (fun p => th_psh (bytes p)) (p0 :: rest) = th_psh (bytes p0) || psh ->
  delivers p0 rest (flushed_skb f (set_bytes (set_psh psh (bytes s)) s)).
Proof.
  intros Hs Hne Hpsh. pose proof (merge_spec _ _ _ Hs) as (M1 & M2 & M3 & M4 & M5 & M6 & M7 & M8 & M9).
  destruct Hs as [(S1 & S2 & S3) (F1 & F2 & F3) (L1 & L2 & L3 & L4) Ht0 (C1 & C2 & C3 & C4) HQ HT HA HL].
  pose proof (tot_len_range (bytes p0)) as HTL. pose proof HA as [[Hp0 Hd0] HA']%Forall_cons. apply dsum_nonneg in HA' as Hds. destruct Hds as [Hds Hdl].
  rewrite bool_decide_true in F2, F3 by done. set (s' := set_bytes (set_psh psh (bytes s)) s).
  unfold flushed_skb. change (cb s') with (cb s). rewrite C1. assert (truthy (Z.of_nat (length rest)) = true) as -> by (unfold truthy; destruct rest; done).
  assert ((close_active_frag_list s').2 = set_tail (map piece_of rest) false false (set_bytes (set_psh psh (bytes s)) (set_tail (map piece_of rest) true false (merge_active_tail s)))) as ->.
  { unfold close_active_frag_list, s'. cbn [has_tail set_bytes]. rewrite F2. unfold merge_active_tail in *. cbn [tail_active set_bytes frag_list] in *. rewrite F3 in *.
    destruct (last (frag_list s)) as [x|] eqn:El; cbn in *; [by rewrite F1|]. by rewrite M4 in F3. }
  set (t := set_tail _ false false _). assert (slen t = iph_tot_len (bytes p0) + dsum rest /\ data_len t = dsum rest /\ bytes t = set_psh psh (bytes p0) /\ frag_list t = map piece_of rest /\
    ls_id t = ls_id p0 /\ vlan_tci t = vlan_tci p0 /\ cb t = cb s) as (T1 & T2 & T3 & T4 & T5 & T6 & T7) by (unfold t; cbn; rewrite M2, M3, M7, M8, M9, S1, S2, S3; done).
  clearbody t s'. set (r := flush_headers f t).
  assert (forall i, ~ touched (truthy (tsecr (cb s))) i -> bytes r i = bytes p0 i) as HB.
  { intros i Hi. unfold r. rewrite flush_bytes by (by rewrite T7). rewrite T3, set_psh_bytes; [done|]. intros ->. apply Hi. unfold touched. tauto. }
  destruct (field_same (bytes p0) (bytes r)) as (W1 & W2 & W3 & W4 & W5 & W6).
  { intros i Hi. apply HB. unfold touched. intuition (try lia). }
  assert (slen r = iph_tot_len (bytes p0) + dsum rest /\ data_len r = dsum rest /\ frag_list r = map piece_of rest /\ ls_id r = ls_id p0 /\ vlan_tci r = vlan_tci p0 /\ sgso_size r = dlen (bytes p0)) as (R1 & R2 & R3 & R4 & R5 & R6)
    by (unfold r; cbn; rewrite T1, T2, T4, T5, T6, T7, C2; done).
  assert (0 <= hlen (bytes p0)) as Hh by (rewrite HT; destruct (truthy _); lia).
  assert (Z.of_nat (length (content r)) = slen r) as Hlen.
  { unfold content. rewrite length_app, length_map, length_seqZ, R3, pieces_payload, Nat2Z.inj_add, payloads_length by done. rewrite R1, R2. lia. }
  split.
  - unfold flow. by rewrite R4, R5, W1, W2, W3, W4, W5.
  - rewrite Hpsh, <- set_psh_spec, <- T3. unfold th_psh. assert (bytes r 33 = bytes t 33) as ->; [|done]. unfold r, flush_headers. cbn [bytes set_gso set_bytes].
    destruct (truthy (tsecr (cb t))); [rewrite !store32_ne by lia|]; by rewrite !store16_ne by lia.
  - done.
  - done.
  - intros _. split_and!; [|rewrite Hlen; unfold r; rewrite flush_tot_len; [done|lia]|done|done].
    rewrite W6. unfold content. rewrite R3, pieces_payload, R1, R2. replace (iph_tot_len (bytes p0) + dsum rest - dsum rest) with (hlen (bytes p0) + dlen (bytes p0)) by (unfold dlen; lia).
    rewrite seqZ_app by lia. rewrite map_app, <- app_assoc, drop_app_length' by (rewrite length_map, length_seqZ; done). cbn [map concat]. f_equal.
    unfold payload. rewrite Z.add_0_l. apply map_ext_in. intros i Hi%list_elem_of_In%elem_of_seqZ. apply HB. eapply touched_data; [exact HT|lia].
Qed.

(** ** The list as a whole *)
Definition members (g : lskb * list lskb) : list lskb := g.1 :: g.2.
Definition of_flow (f : Z * Z * Z * Z) (l : list lskb) : list lskb := filter (fun p => flow p = f) l.
(** [R] are the packets that the stack has received and [G] those held back, each with its parts; [P] are the packets that came in. *)
Record lro_ok (P : list lskb) (q : lro_list) (G R : list (lskb * list lskb)) : Prop := {
  lo_active : Forall2 (fun g s => holds g.1 g.2 s /\ Forall (fun p => th_psh (bytes p) = false) (members g)) G (active q);
  lo_flows : NoDup (map (fun g => flow g.1) G);
  lo_received : Forall2 (fun g s => delivers g.1 g.2 s) R (received q);
  lo_order : forall f, of_flow f (concat (map members R)) ++ of_flow f (concat (map members G)) = of_flow f P
}.
Lemma of_flow_app f a b : of_flow f (a ++ b) = of_flow f a ++ of_flow f b.
Proof. apply filter_app. Qed.
Lemma of_flow_all f l : (forall p, p ∈ l -> flow p = f) -> of_flow f l = l.
Proof. intros Hl. unfold of_flow. induction l as [|p l IH]; [done|]. rewrite filter_cons_True by (apply Hl; set_solver). f_equal. apply IH. set_solver. Qed.
Lemma of_flow_none f l : (forall p, p ∈ l -> flow p <> f) -> of_flow f l = [].
Proof. intros Hl. unfold of_flow. induction l as [|p l IH]; [done|]. rewrite filter_cons_False by (apply Hl; set_solver). apply IH. set_solver. Qed.
Lemma members_flow g : linked (members g) -> forall p, p ∈ members g -> flow p = flow g.1.
Proof. intros Hl p Hp. apply (linked_flow _ Hl); [done|]. unfold members. set_solver. Qed.
Lemma of_flow_members f g : linked (members g) -> of_flow f (members g) = if decide (flow g.1 = f) then members g else [].
Proof.
  intros Hl. destruct (decide (flow g.1 = f)) as [<-|Hne]; [apply of_flow_all; by apply members_flow|].
  apply of_flow_none. intros p Hp E. apply Hne. by rewrite <- (members_flow g Hl p Hp).
Qed.
Lemma of_flow_absent f G : Forall (fun g => linked (members g)) G -> f ∉ map (fun g => flow g.1) G -> of_flow f (concat (map members G)) = [].
Proof.
  induction 1 as [|g G Hg HG IH]; [done|]. cbn [map concat]. intros [H1 H2]%not_elem_of_cons. rewrite of_flow_app, IH, of_flow_members by done. by rewrite decide_False by done.
Qed.
Lemma same_flow_spec s new : same_flow s new = true <-> flow s = flow new.
Proof.
  unfold same_flow, flow. rewrite !andb_true_iff, !Z.eqb_eq. split; [intros [[[-> ->] ->] ->]; done|intros [= -> -> -> ->]; done].
Qed.
Lemma find_flow_spec new l : forall k, match find_flow new k l with
  | Some (j, s) => exists i, j = (k + i)%nat /\ l !! i = Some s /\ flow s = flow new
  | None => forall s, s ∈ l -> flow s <> flow new
  end.
Proof.
  induction l as [|s l IH]; intros k; cbn; [intros s Hs; by apply not_elem_of_nil in Hs|]. destruct (same_flow s new) eqn:E.
  - exists 0%nat. split_and!; [lia|done|by apply same_flow_spec].
  - assert (flow s <> flow new) as Hne by (intros Hf; apply same_flow_spec in Hf; congruence). specialize (IH (S k)). destruct (find_flow new (S k) l) as [[j t]|].
    + destruct IH as (i & -> & Hi & Hf). exists (S i). split_and!; [lia|done|done].
    + intros t [->|Ht]%elem_of_cons; [done|by apply IH].
Qed.
Lemma groups_linked P q G R : lro_ok P q G R -> Forall (fun g => linked (members g)) G.
Proof.
  intros [HA _ _ _]. induction HA as [|g s G l [Hg _] _ IH]; constructor; [apply Hg|done].
Qed.
Lemma delete_middle {A} k (l : list A) x : l !! k = Some x -> l = take k l ++ x :: drop (S k) l /\ delete k l = take k l ++ drop (S k) l.
Proof. intros Hk. split; [by rewrite take_drop_middle|by rewrite delete_take_drop]. Qed.

(** A packet that is held leaves. *)
Lemma holds_delivers f p0 rest s : holds p0 rest s -> Forall (fun p => th_psh (bytes p) = false) (p0 :: rest) -> delivers p0 rest (flushed_skb f s).
Proof.
  intros Hs Hq. destruct (decide (rest = [])) as [->|Hne].
  - destruct Hs as [(S1 & S2 & S3) (F1 & F2 & F3) (L1 & L2 & L3 & L4) Ht0 (C1 & _) _ _ _ _]. unfold flushed_skb. rewrite C1. cbn [length]. unfold pending in *. rewrite F3 in L1, L2. cbn in L1, L2.
    change (truthy (Z.of_nat 0)) with false. cbv iota. apply single_delivers; try done; [lia|]. right. split; [lia|done].
  - replace s with (set_bytes (set_psh false (bytes s)) s) by (by destruct s). apply merged_delivers; [done|done|]. rewrite orb_false_r.
    pose proof Hq as [Hq0 _]%Forall_cons. rewrite Hq0. apply not_true_is_false. intros (p & Hp & Ep)%existsb_exists. rewrite Forall_forall in Hq. rewrite Hq in Ep; [done|by apply list_elem_of_In].
Qed.
(** The packet at [k] leaves, with the segments [x] that have just joined it. *)
Lemma take_one P q G R k g x t : lro_ok P q G R -> G !! k = Some g -> (forall p, p ∈ x -> flow p = flow g.1) -> delivers g.1 (g.2 ++ x) t ->
  forall q', active q' = delete k (active q) -> received q' = received q ++ [t] ->
  lro_ok (P ++ x) q' (delete k G) (R ++ [(g.1, g.2 ++ x)]) /\ flow g.1 ∉ map (fun g => flow g.1) (delete k G).
Proof.
  intros HO Hk Hx Ht q' E1 E2. pose proof (groups_linked _ _ _ _ HO) as HL. destruct HO as [HA HN HR HF]. destruct (delete_middle k G g Hk) as [EG ED].
  rewrite ED. rewrite EG, map_app in HN. cbn in HN. apply NoDup_app in HN as (N1 & N2 & [N3 N4]%NoDup_cons). rewrite EG in HL. apply Forall_app in HL as [HL1 [HLg HL2]%Forall_cons].
  assert (flow g.1 ∉ map (fun g => flow g.1) (take k G)) as N5 by (intros Hin; apply (N2 _ Hin), elem_of_cons; by left).
  assert (flow g.1 ∉ map (fun g => flow g.1) (take k G ++ drop (S k) G)) as N6 by (rewrite map_app, elem_of_app; tauto).
  split; [|done]. split.
  - rewrite E1, <- ED. rewrite !delete_take_drop. apply Forall2_app; [by apply Forall2_take|by apply Forall2_drop].
  - rewrite map_app. apply NoDup_app. split_and!; [done| |done]. intros y Hy Hy'. apply (N2 y Hy), elem_of_cons. by right.
  - rewrite E2. apply Forall2_app; [done|]. constructor; [done|constructor].
  - intros f. rewrite of_flow_app, <- HF. rewrite EG at 3. rewrite !map_app, !concat_app, !of_flow_app. cbn [map concat]. rewrite !of_flow_app.
    change (members (g.1, g.2 ++ x)) with (members g ++ x). rewrite of_flow_app. change (of_flow f []) with (@nil lskb). rewrite !app_nil_r, <- !app_assoc. f_equal.
    rewrite (of_flow_members f g HLg). destruct (decide (flow g.1 = f)) as [<-|Hne].
    + rewrite !of_flow_absent by done. by rewrite app_nil_r.
    + rewrite (of_flow_none f x) by (intros p Hp E; apply Hne; by rewrite <- (Hx p Hp)). by rewrite !app_nil_r.
Qed.

Section Receive.
Context (f : (Z -> Z) -> Z).
Lemma lro_flush_spec k q s : active q !! k = Some s ->
  active (ixgbe_lro_flush f k q) = delete k (active q) /\ received (ixgbe_lro_flush f k q) = received q ++ [flushed_skb f s].
Proof. intros E. unfold ixgbe_lro_flush. by rewrite E. Qed.
Lemma flush_ok P q G R k s : lro_ok P q G R -> active q !! k = Some s ->
  exists g, G !! k = Some g /\ holds g.1 g.2 s /\ lro_ok P (ixgbe_lro_flush f k q) (delete k G) (R ++ [g]) /\ flow g.1 ∉ map (fun g => flow g.1) (delete k G).
Proof.
  intros HO Hk. destruct (Forall2_lookup_r _ _ _ _ _ (lo_active _ _ _ _ HO) Hk) as (g & Hg & Hh & Hq). destruct (lro_flush_spec k q s Hk) as [E1 E2].
  destruct (take_one P q G R k g [] (flushed_skb f s) HO Hg) with (q' := ixgbe_lro_flush f k q) as [HO' Hn]; [by intros p Hp%not_elem_of_nil|rewrite app_nil_r; by apply holds_delivers|done|done|].
  rewrite !app_nil_r in HO'. exists g. split_and!; [done|done|by destruct g|done].
Qed.
(** A packet goes to the stack directly, when none of its flow is held back. *)
Lemma direct_ok P q G R p o : lro_ok P q G R -> flow p ∉ map (fun g => flow g.1) G -> checked p o -> lro_ok (P ++ [p]) (gro_receive o q) G (R ++ [(p, [])]).
Proof.
  intros HO Hn [(A1 & A2 & A3 & A4) (B1 & B2 & B3 & B4) C HL]. pose proof (groups_linked _ _ _ _ HO) as HG. destruct HO as [HA HN HR HF]. split; try done.
  - apply Forall2_app; [done|]. constructor; [|constructor]. by apply single_delivers.
  - intros k. rewrite of_flow_app, <- HF, map_app, concat_app, of_flow_app. change (concat (map members [(p, [])])) with [p]. rewrite <- !app_assoc. f_equal.
    destruct (decide (flow p = k)) as [<-|Hne]; [rewrite (of_flow_absent _ G) by done; by rewrite app_nil_r|].
    assert (of_flow k [p] = []) as -> by (apply of_flow_none; intros x ->%list_elem_of_singleton; done).
    by rewrite app_nil_r.
Qed.
Lemma open_ok P q G R p o : lro_ok P q G R -> flow p ∉ map (fun g => flow g.1) G -> fresh_skb p -> checked p o -> mergeable p o -> th_psh (bytes p) = false ->
  lro_ok (P ++ [p]) (inc_coal (set_active (opened o :: active q) q)) ((p, []) :: G) R.
Proof.
  intros HO Hn Hp Hck Hmg Hpsh. pose proof (groups_linked _ _ _ _ HO) as HG. destruct HO as [HA HN HR HF]. split; try done.
  - constructor; [|done]. split; [by apply opened_holds|]. constructor; [done|constructor].
  - by constructor.
  - intros k. rewrite of_flow_app, <- HF, <- app_assoc. f_equal. change (concat (map members ((p, []) :: G))) with ([p] ++ concat (map members G)). rewrite of_flow_app.
    destruct (decide (flow p = k)) as [<-|Hne]; [rewrite (of_flow_absent _ G) by done; by rewrite app_nil_r|].
    assert (of_flow k [p] = []) as -> by (apply of_flow_none; intros x ->%list_elem_of_singleton; done). by rewrite app_nil_r.
Qed.
Lemma finish_ok P q G R p o : lro_ok P q G R -> flow p ∉ map (fun g => flow g.1) G -> fresh_skb p -> checked p o -> (mss (cb o) = 0 \/ mergeable p o) ->
  exists G' R', lro_ok (P ++ [p]) (lro_finish f o q) G' R'.
Proof.
  intros HO Hn Hp Hck Hm. unfold lro_finish. destruct (truthy (mss (cb o)) && negb (th_psh (bytes o))) eqn:E; [|eexists _, _; by apply direct_ok].
  apply andb_true_iff in E as [E1 E2]. assert (mergeable p o) as Hmg by (destruct Hm as [Hm|]; [by rewrite Hm in E1|done]).
  assert (th_psh (bytes p) = false) as Hpsh by (destruct (ck_same _ _ Hck) as (_ & <- & _); by apply negb_true_iff). fold (opened o).
  destruct (_ >=? _) eqn:El; [|eexists _, _; by apply open_ok].
  destruct (active q !! pred (length (active q))) as [s|] eqn:Ek.
  - destruct (flush_ok _ _ _ _ _ _ HO Ek) as (g & Hg & _ & HO' & _). eexists _, _. apply open_ok; try done. intros Hin. apply Hn.
    rewrite (proj2 (delete_middle _ _ _ Hg)), map_app, elem_of_app in Hin. rewrite (proj1 (delete_middle _ _ _ Hg)), map_app. cbn [map]. rewrite elem_of_app, elem_of_cons. tauto.
  - eexists _, _. unfold ixgbe_lro_flush. rewrite Ek. by apply open_ok.
Qed.
Lemma checked_mss p o v : checked p o -> checked p (set_cb (set_mss v (cb o)) o).
Proof. intros [A B C D]. by split. Qed.
(** A segment joins a packet that is held. *)
Lemma replace_ok P q G R k g p s' : lro_ok P q G R -> G !! k = Some g -> flow p = flow g.1 -> Forall (fun p => th_psh (bytes p) = false) (members g) ->
  holds g.1 (g.2 ++ [p]) s' -> th_psh (bytes p) = false -> lro_ok (P ++ [p]) (set_active (<[k := s']> (active q)) q) (<[k := (g.1, g.2 ++ [p])]> G) R.
Proof.
  intros HO Hk Hf Hq Hh Hp. pose proof (groups_linked _ _ _ _ HO) as HL. destruct HO as [HA HN HR HF]. split; try done.
  - cbn. apply Forall2_insert; [done|]. split; [done|]. change (members (g.1, g.2 ++ [p])) with (members g ++ [p]). apply Forall_app. split; [done|]. constructor; [done|constructor].
  - replace (map (fun g => flow g.1) (<[k:=(g.1, g.2 ++ [p])]> G)) with (map (fun g => flow g.1) G); [done|]. change (map ?h ?l) with (h <$> l). rewrite list_fmap_insert. symmetry. apply list_insert_id.
    rewrite list_lookup_fmap, Hk. done.
  - intros x. rewrite of_flow_app, <- HF. destruct (delete_middle k G g Hk) as [EG ED]. rewrite insert_take_drop by (by eapply lookup_lt_Some). rewrite EG at 3.
    rewrite EG in HL, HN. apply Forall_app in HL as [HL1 [HLg HL2]%Forall_cons]. rewrite map_app in HN. cbn in HN. apply NoDup_app in HN as (N1 & N2 & [N3 N4]%NoDup_cons).
    rewrite !map_app, !concat_app, !of_flow_app. cbn [map concat]. rewrite !of_flow_app. change (members (g.1, g.2 ++ [p])) with (members g ++ [p]). rewrite of_flow_app, <- !app_assoc. do 3 f_equal.
    destruct (decide (flow p = x)) as [<-|Hne]; [rewrite (of_flow_absent _ (drop (S k) G)), app_nil_r by (done || by rewrite Hf); done|].
    assert (of_flow x [p] = []) as -> by (apply of_flow_none; intros y ->%list_elem_of_singleton; done). by rewrite app_nil_r.
Qed.
Lemma holds_flow p0 rest s : holds p0 rest s -> flow s = flow p0.
Proof. intros [(S1 & S2 & S3) _ _ _ _ _ _ _ _]. unfold flow. by rewrite S1, S3. Qed.
Lemma delete_insert_same {A} k (x : A) l : (k < length l)%nat -> delete k (<[k := x]> l) = delete k l.
Proof. intros Hk. rewrite !delete_take_drop, take_insert_ge, drop_insert_lt by lia. done. Qed.
Lemma quiet_psh g p : Forall (fun p => th_psh (bytes p) = false) (members g) ->
  existsb (fun p => th_psh (bytes p)) (g.1 :: g.2 ++ [p]) = th_psh (bytes g.1) || th_psh (bytes p).
Proof.
  intros Hq. change (g.1 :: g.2 ++ [p]) with (members g ++ [p]). rewrite existsb_app. cbn. rewrite orb_false_r. f_equal. unfold members in *. apply Forall_cons in Hq as [Hq0 Hq]. cbn. rewrite Hq0.
  induction Hq as [|x l Hx _ IH]; [done|]. cbn. by rewrite Hx.
Qed.
Lemma join_ok P q G R k g s p o : lro_ok P q G R -> active q !! k = Some s -> G !! k = Some g -> holds g.1 g.2 s -> Forall (fun p => th_psh (bytes p) = false) (members g) ->
  holds g.1 (g.2 ++ [p]) (lro_append s o) -> flow p = flow g.1 ->
  exists G' R', lro_ok (P ++ [p]) (inc_coal (if (mss (cb o) <? mss (cb (lro_append s o))) || th_psh (bytes p) then
      ixgbe_lro_flush f k (set_active (<[k := set_bytes (set_psh (th_psh (bytes p)) (bytes (lro_append s o))) (lro_append s o)]> (active q)) q)
    else set_active (<[k := lro_append s o]> (active q)) q)) G' R'.
Proof.
  intros HO Hk Hg Hh Hq Hh' Hf. set (s' := lro_append s o) in *. clearbody s'. pose proof (lookup_lt_Some _ _ _ Hk) as Hlt.
  destruct ((_ <? _) || th_psh (bytes p)) eqn:E.
  - set (t := set_bytes _ s'). assert (delivers g.1 (g.2 ++ [p]) (flushed_skb f t)) as Hd by (apply merged_delivers; [done|by destruct (g.2)|by apply quiet_psh]).
    set (q1 := set_active _ q). destruct (lro_flush_spec k q1 t) as [E1 E2]; [by apply list_lookup_insert_eq|]. cbn [q1 set_active active received] in E1, E2. rewrite delete_insert_same in E1 by done.
    destruct (take_one P q G R k g [p] (flushed_skb f t) HO Hg) with (q' := inc_coal (ixgbe_lro_flush f k q1)) as [HO' _]; [by intros x ->%list_elem_of_singleton|done|done|done|]. by eexists _, _.
  - apply orb_false_iff in E as [_ E]. exists (<[k := (g.1, g.2 ++ [p])]> G), R. destruct (replace_ok P q G R k g p s' HO Hg Hf Hq Hh' E) as [A B C D]. by split.
Qed.
Lemma receive_ok P q G R p : lro_ok P q G R -> fresh_skb p -> exists G' R', lro_ok (P ++ [p]) (ixgbe_lro_receive f p q) G' R'.
Proof.
  intros HO Hp. unfold ixgbe_lro_receive. cbv zeta. destruct (header_ok_spec p Hp) as [Hck Hm]. set (o := ixgbe_lro_header_ok p) in *. clearbody o.
  assert (flow o = flow p /\ bytes o = bytes p) as [Hfo Hbo] by (destruct (ck_same _ _ Hck) as (_ & E1 & E2 & _); unfold flow; by rewrite E1, E2).
  pose proof (find_flow_spec o (active q) 0) as HF. destruct (find_flow o 0 (active q)) as [[k s]|].
  - destruct HF as (i & -> & Hi & Hfs). change (0 + i)%nat with i. destruct (flush_ok _ _ _ _ _ _ HO Hi) as (g & Hg & Hh & HO' & Hn). pose proof (holds_flow _ _ _ Hh) as Hfg.
    assert (flow p = flow g.1) as Hfp by congruence. rewrite <- Hfp in Hn.
    destruct (Z.eqb_spec (next_seq (cb s)) (next_seq (cb o))) as [E1|]; cbn [negb]; [|apply (finish_ok _ _ _ _ p _ HO' Hn Hp); [by apply checked_mss|by left]].
    destruct (xorb _ _) eqn:E2; [exact (finish_ok _ _ _ _ p _ HO' Hn Hp Hck Hm)|]. destruct (_ && _); [apply (finish_ok _ _ _ _ p _ HO' Hn Hp); [by apply checked_mss|by left]|].
    destruct (_ || negb _) eqn:E3; [exact (finish_ok _ _ _ _ p _ HO' Hn Hp Hck Hm)|]. rewrite !orb_false_iff, !negb_false_iff in E3. destruct E3 as [[[[E3 E4] E5] E6] E7].
    assert (mergeable p o) as Hmg by (destruct Hm as [Hm|]; [by rewrite Hm in E3|done]). rewrite Hbo.
    destruct (Forall2_lookup_l _ _ _ _ _ (lo_active _ _ _ _ HO) Hg) as (s2 & Hs2 & _ & Hq). rewrite Hi in Hs2. injection Hs2 as <-.
    apply (join_ok P q G R i g s p o HO Hi Hg Hh Hq); [|done]. apply append_holds; try done; [lia|]. rewrite Hbo in E6. destruct (ho_same _ _ _ Hh) as (Eb & _). rewrite Eb in E6. lia.
  - apply (finish_ok P q G R); try done. intros (g & Ef & Hg)%list_elem_of_fmap. apply list_elem_of_lookup_1 in Hg as [i Hi].
    destruct (Forall2_lookup_l _ _ _ _ _ (lo_active _ _ _ _ HO) Hi) as (s & Hs & Hh & _). apply (HF s); [by eapply list_elem_of_lookup_2|]. rewrite (holds_flow _ _ _ Hh). congruence.
Qed.
Lemma flush_last_ok P n : forall q G R, lro_ok P q G R -> length (active q) = n -> exists R', lro_ok P (flush_last f n q) [] R' /\ active (flush_last f n q) = [].
Proof.
  induction n as [|n IH]; intros q G R HO Hl; cbn [flush_last].
  - apply length_zero_iff_nil in Hl. exists R. pose proof (lo_active _ _ _ _ HO) as HA. rewrite Hl in HA. by inversion HA; subst.
  - destruct (lookup_lt_is_Some_2 (active q) n ltac:(lia)) as [s Hs]. destruct (flush_ok _ _ _ _ _ _ HO Hs) as (g & _ & _ & HO' & _). apply (IH _ _ _ HO').
    rewrite (proj1 (lro_flush_spec _ _ _ Hs)), length_delete by done. lia.
Qed.
End Receive.

Definition empty_list : lro_list := LroList [] [] 0 0.
Definition lro_run (f : (Z -> Z) -> Z) (P : list lskb) : lro_list := ixgbe_lro_flush_all f (foldl (fun q p => ixgbe_lro_receive f p q) empty_list P).
Lemma run_ok f P : Forall fresh_skb P -> exists G R, lro_ok P (foldl (fun q p => ixgbe_lro_receive f p q) empty_list P) G R.
Proof.
  induction P as [|p P IH] using rev_ind; intros HP.
  - exists [], []. by split; try constructor.
  - apply Forall_app in HP as [HP [Hp _]%Forall_cons]. rewrite foldl_app. cbn. destruct (IH HP) as (G & R & HO). by apply (receive_ok f P _ G R).
Qed.

(** C24. Large receive offload keeps the byte stream. Whatever packets come in, after the final flush nothing is held back, and the packets that the
    stack has received are made of them: for every flow their parts are the packets of the flow in the order in which they came, each once; the
    parts of a packet follow each other without gap; and a packet that was merged carries the data of its parts in that order, with a total
    length that says so, the first sequence number, the push bit of any of its parts, and the segment size of the first. *)
Theorem lro_stream (f : (Z -> Z) -> Z) (P : list lskb) : Forall fresh_skb P ->
  active (lro_run f P) = [] /\
  exists R, Forall2 (fun g s => delivers g.1 g.2 s) R (received (lro_run f P)) /\ forall k, of_flow k (concat (map members R)) = of_flow k P.
Proof.
  intros HP. destruct (run_ok f P HP) as (G & R & HO). destruct (flush_last_ok f P _ _ G R HO eq_refl) as (R' & [_ _ HR HF] & HE). split; [done|]. exists R'. split; [done|].
  intros k. rewrite <- HF. change (of_flow k (concat (map members []))) with (@nil lskb). by rewrite app_nil_r.
Qed.

(** ** Two segments of one connection *)
Definition demo_bytes (l : list Z) (i : Z) : Z := Z.land (default 0 (l !! Z.to_nat i)) 255.
(** A segment with sequence number [seq] (below 256), flags [fl] and the given data. *)
Definition demo_segment (id seq fl : Z) (d : list Z) : lskb :=
  let n := 40 + Z.of_nat (length d) in
  LSkb id (demo_bytes ([0x45; 0; 0; n; 0; 0; 0; 0; 64; 6; 0; 0; 10; 0; 0; 1; 10; 0; 0; 2] ++ [0; 80; 4; 0; 0; 0; 0; seq; 0; 0; 0; 1; 0x50; fl; 1; 0; 0; 0; 0; 0] ++ d)%list)
    n 0 256 0 true (htons ETH_P_IP) [] false false (LroCb 0 0 0 0 0 0) 0.
Lemma demo_fresh id seq fl d : (length d <= 100)%nat -> 0 <= seq < 256 -> fresh_skb (demo_segment id seq fl d).
Proof.
  intros Hd Hs. split.
  - intros i. cbn [demo_segment bytes]. unfold demo_bytes. change 255 with (Z.ones 8). rewrite Z.land_ones by lia. apply Z.mod_pos_bound. lia.
  - cbn [demo_segment slen]. unfold IXGBE_MAX_RXBUFFER. lia.
  - done.
  - cbn. lia.
  - intros _. assert (hlen (bytes (demo_segment id seq fl d)) = 40) as -> by done.
    assert (iph_tot_len (bytes (demo_segment id seq fl d)) = 40 + Z.of_nat (length d)) as ->; [|cbn [demo_segment slen]; lia].
    assert (forall n : nat, (n <= 100)%nat -> iph_tot_len (demo_bytes [0x45; 0; 0; 40 + Z.of_nat n]) = 40 + Z.of_nat n) as G.
    { intros n Hn. do 101 (destruct n as [|n]; [vm_compute; reflexivity|]). lia. }
    rewrite <- (G (length d) Hd). done.
Qed.
Lemma lro_stream_witness : let P := [demo_segment 1 10 0x10 [1; 2; 3]; demo_segment 2 13 0x18 [4; 5]] in
  active (lro_run (fun _ => 0) P) = [] /\ map (fun s => drop 40 (content s)) (received (lro_run (fun _ => 0) P)) = [[1; 2; 3; 4; 5]].
Proof.
  intros P. split; [|vm_compute; reflexivity]. apply (lro_stream (fun _ => 0) P). repeat (constructor; [apply demo_fresh; cbn; lia|]). constructor.
Defined.
