(* ===== verification/Fcoe.v ===== *)
(** * Fibre Channel over Ethernet ([ixgbe_fcoe.c])

    Direct data placement: the upper layer hands the driver the buffers of an exchange, the driver programs a context with their addresses,
    and the adapter stores the data of the exchange there. A context is an entry of [fcoe->ddp]; the list of its buffers, [udl], comes from
    a pool. What is asked of the kernel is in the log. Transmission ([ixgbe_fso]) is in [TxRing]. *)
From S2P Require Import Prelude Hw Bits FlowDir FlowFilters Sriov Queues.
Open Scope Z_scope.

Definition IXGBE_BUFFCNT_MAX : Z := 256.
Definition IXGBE_FCBUFF_4KB : Z := 0x0.
Definition IXGBE_FCBUFF_MIN : Z := 4096.
Definition IXGBE_FCOE_DDP_MAX : Z := 512.
Definition IXGBE_FLAG_FCOE_CAPABLE : Z := Z.shiftl 1 17.
Definition IXGBE_FCERR_BADCRC : Z := 0x00100000.
Definition IXGBE_FCPTRL : Z := 0x02410.
Definition IXGBE_FCPTRH : Z := 0x02414.
Definition IXGBE_FCBUFF : Z := 0x02418.
Definition IXGBE_FCDMARW : Z := 0x02420.
Definition IXGBE_FCBUFF_VALID : Z := Z.shiftl 1 0.
Definition IXGBE_FCBUFF_WRCONTX : Z := Z.shiftl 1 7.
Definition IXGBE_FCBUFF_BUFFSIZE_SHIFT : Z := 3.
Definition IXGBE_FCBUFF_BUFFCNT_SHIFT : Z := 8.
Definition IXGBE_FCBUFF_OFFSET_SHIFT : Z := 16.
Definition IXGBE_FCDMARW_WE : Z := Z.shiftl 1 14.
Definition IXGBE_FCDMARW_RE : Z := Z.shiftl 1 15.
Definition IXGBE_FCDMARW_LASTSIZE_SHIFT : Z := 16.
Definition IXGBE_FCFLT : Z := 0x05108.
Definition IXGBE_FCFLTRW : Z := 0x05110.
Definition IXGBE_FCPARAM : Z := 0x051d8.
Definition IXGBE_FCFLT_VALID : Z := Z.shiftl 1 0.
Definition IXGBE_FCFLTRW_WE : Z := Z.shiftl 1 14.
Definition IXGBE_FCRXCTRL : Z := 0x05100.
Definition IXGBE_FCRXCTRL_LASTSEQH : Z := Z.shiftl 1 3.
Definition IXGBE_FCRXCTRL_FCCRCBO : Z := Z.shiftl 1 7.
Definition IXGBE_FCRXCTRL_FCOEVER_SHIFT : Z := 8.
Definition IXGBE_FCRECTL : Z := 0x0ED00.
Definition IXGBE_FCRETA0 : Z := 0x0ED10.
Definition IXGBE_FCRETA (i : Z) : Z := IXGBE_FCRETA0 + i * 4.
Definition IXGBE_FCRECTL_ENA : Z := 0x1.
Definition IXGBE_FCRETA_SIZE : Z := 8.
Definition IXGBE_FCRETA_ENTRY_MASK : Z := 0x0000007f.
Definition IXGBE_ETQF (i : Z) : Z := 0x05128 + i * 4.
Definition IXGBE_ETQS (i : Z) : Z := 0x0EC00 + i * 4.
Definition IXGBE_ETQF_FCOE : Z := 0x08000000.
Definition IXGBE_ETQF_FILTER_EN : Z := 0x80000000.
Definition IXGBE_ETQF_POOL_ENABLE : Z := Z.shiftl 1 26.
Definition IXGBE_ETQF_POOL_SHIFT : Z := 20.
Definition IXGBE_ETQS_RX_QUEUE_SHIFT : Z := 16.
Definition IXGBE_ETQS_QUEUE_EN : Z := 0x80000000.
Definition IXGBE_ETQF_FILTER_FCOE : Z := 2.
Definition IXGBE_ETQF_FILTER_FIP : Z := 4.
Definition IXGBE_RXDADV_ERR_FCEOFE : Z := 0x80000000.
Definition IXGBE_RXDADV_ERR_FCERR : Z := 0x00700000.
Definition IXGBE_RXDADV_STAT_FCSTAT : Z := 0x00000030.
Definition IXGBE_RXDADV_STAT_FCSTAT_NODDP : Z := 0x00000010.
Definition IXGBE_RXDADV_STAT_FCSTAT_FCPRSP : Z := 0x00000020.
Definition IXGBE_RXDADV_STAT_FCSTAT_DDP : Z := 0x00000030.
(** Of the kernel's headers. *)
Definition FC_FC_EX_CTX : Z := Z.shiftl 1 23.
Definition FC_FC_END_SEQ : Z := Z.shiftl 1 19.
Definition FC_RCTL_DD_SOL_DATA : Z := 0x01.
Definition FC_FCOE_VER : Z := 0.
Definition ETH_P_FCOE : Z := 0x8906.
Definition ETH_P_FIP : Z := 0x8914.
Definition NETDEV_FCOE_WWNN : Z := 0.
Definition NETDEV_FCOE_WWPN : Z := 1.
Definition sizeof_fcoe_hdr : Z := 14.
Definition EINVAL : Z := 22.

(** ** State *)

(** [struct ixgbe_fcoe_ddp]; a scatter list and a pool are given by numbers. *)
Record ixgbe_fcoe_ddp := Ddp { len : Z; err : Z; sgc : Z; sgl : option Z; udp : Z; udl : option (list Z); pool : option Z }.
Inductive fc_effect :=
| SgMapped (sg n : Z) | SgUnmapped (sg n : Z) | SgUnmappedNull (n : Z) | PoolAlloc (p a : Z) | PoolFree (p a : Z)
| PoolCreate (p : Z) | PoolDestroy (p : Z) | BufMapped (a : Z) | BufUnmapped (a : Z) | Kmalloc (b : Z) | Kfree (b : Z).
(** [struct ixgbe_fcoe], with [fcoe_ddp_xid] of the network device. [pools]: per CPU, the pool if there is one, and the two counters. *)
Record fcoe_state := Fcoe {
  ddp : Z -> ixgbe_fcoe_ddp; pools : option (Z -> option Z * Z * Z); extra_buffer : option Z; extra_dma : Z; target : bool; ddp_xid : Z; flog : list fc_effect
}.
Definition set_ddp i v f := Fcoe (<[i := v]> (ddp f)) (pools f) (extra_buffer f) (extra_dma f) (target f) (ddp_xid f) (flog f).
Definition set_pools v f := Fcoe (ddp f) v (extra_buffer f) (extra_dma f) (target f) (ddp_xid f) (flog f).
Definition set_extra b d f := Fcoe (ddp f) (pools f) b d (target f) (ddp_xid f) (flog f).
Definition set_target v f := Fcoe (ddp f) (pools f) (extra_buffer f) (extra_dma f) v (ddp_xid f) (flog f).
Definition set_xid v f := Fcoe (ddp f) (pools f) (extra_buffer f) (extra_dma f) (target f) v (flog f).
Definition fc_log e f := Fcoe (ddp f) (pools f) (extra_buffer f) (extra_dma f) (target f) (ddp_xid f) (flog f ++ e).
Definition set_len v d := Ddp v (err d) (sgc d) (sgl d) (udp d) (udl d) (pool d).
Definition set_err v d := Ddp (len d) v (sgc d) (sgl d) (udp d) (udl d) (pool d).
Definition set_sg n s d := Ddp (len d) (err d) n s (udp d) (udl d) (pool d).
Definition set_udl p l d := Ddp (len d) (err d) (sgc d) (sgl d) p l (pool d).
Definition set_pool v d := Ddp (len d) (err d) (sgc d) (sgl d) (udp d) (udl d) v.
Definition set_percpu cpu v f := set_pools (Some (fun c => if c =? cpu then v else match pools f with Some g => g c | None => (None, 0, 0) end)) f.
Definition percpu (cpu : Z) (f : fcoe_state) : option Z * Z * Z := match pools f with Some g => g cpu | None => (None, 0, 0) end.

(** ** Contexts *)
Definition ixgbe_fcoe_clear_ddp (d : ixgbe_fcoe_ddp) : ixgbe_fcoe_ddp := Ddp 0 1 0 None 0 None (pool d).

Definition ixgbe_fcoe_ddp_put (xid : Z) (f : fcoe_state) : M (Z * fcoe_state) :=
  if xid >? ddp_xid f then mret (0, f)
  else
    let d := ddp f xid in
    match udl d with
    | None => mret (0, f)
    | Some _ =>
        _ ← (if truthy (err d) then
               _ ← IXGBE_WRITE_REG IXGBE_FCFLT 0;
               _ ← IXGBE_WRITE_REG IXGBE_FCFLTRW (Z.lor xid IXGBE_FCFLTRW_WE);
               _ ← IXGBE_WRITE_REG IXGBE_FCBUFF 0;
               _ ← IXGBE_WRITE_REG IXGBE_FCDMARW (Z.lor xid IXGBE_FCDMARW_WE);
               _ ← IXGBE_WRITE_REG IXGBE_FCDMARW (Z.lor xid IXGBE_FCDMARW_RE);
               _ ← IXGBE_READ_REG IXGBE_FCBUFF; (* if it is still valid, a delay *)
               mret tt
             else mret tt);
        let f := fc_log (match sgl d with Some s => [SgUnmapped s (sgc d)] | None => [] end) f in
        let f := fc_log (match pool d with Some p => [PoolFree p (udp d)] | None => [] end) f in
        mret (len d, set_ddp xid (ixgbe_fcoe_clear_ddp (set_pool None d)) f)
    end.

(** The list of buffers: so far, the offset into the first, and the offset and the length of the last. *)
Record udl_state := Udl { bufs : list Z; firstoff : Z; thisoff : Z; thislen : Z }.
(** The loop over one entry of the scatter list, of which [len] bytes at [addr] are left; [inl]: no context, and whether it is counted. *)
Fixpoint sg_entry (fuel : nat) (last : bool) (addr len : Z) (u : udl_state) : bool + udl_state :=
  match fuel with
  | O => inr u
  | S fuel =>
      if len =? 0 then inr u
      else if Z.of_nat (length (bufs u)) >=? IXGBE_BUFFCNT_MAX then inl true
      else
        let off := Z.land addr (IXGBE_FCBUFF_MIN - 1) in
        let n := Z.min (IXGBE_FCBUFF_MIN - off) len in
        let first := match bufs u with [] => true | _ => false end in
        if negb first && truthy off then inl false
        else if (negb last || negb (n =? len)) && negb (n + off =? IXGBE_FCBUFF_MIN) then inl false
        else sg_entry fuel last (addr + n) (len - n) (Udl (bufs u ++ [addr - off]) (if first then off else firstoff u) off n)
  end.
(** Enough for every entry: each turn but the first takes 4 KB. *)
Definition entry_fuel (len : Z) : nat := S (S (Z.to_nat (len / IXGBE_FCBUFF_MIN))).
Fixpoint sg_entries (l : list (Z * Z)) (u : udl_state) : bool + udl_state :=
  match l with
  | [] => inr u
  | (addr, n) :: l =>
      match sg_entry (entry_fuel n) (match l with [] => true | _ => false end) addr n u with
      | inl e => inl e
      | inr u => sg_entries l u
      end
  end.

(** What the kernel answers: the CPU, the entries of the mapped scatter list ([None]: [dma_map_sg] fails), and the address of the list. *)
Record ddp_env := DdpEnv { cpu : Z; dma_map_sg : option (list (Z * Z)); dma_pool_alloc : option Z; down_or_resetting : bool }.

(** [out_noddp_free]: the list goes back, the context is cleared, and the scatter list is unmapped. *)
Definition noddp_free (xid sg n : Z) (f : fcoe_state) : fcoe_state :=
  let d := ddp f xid in
  let f := fc_log (match pool d with Some p => [PoolFree p (udp d)] | None => [] end) f in
  fc_log [SgUnmapped sg n] (set_ddp xid (ixgbe_fcoe_clear_ddp d) f).
Definition inc_noddp (c : Z) (f : fcoe_state) : fcoe_state := let '(p, a, b) := percpu c f in set_percpu c (p, u64 (a + 1), b) f.
Definition inc_noddp_ext (c : Z) (f : fcoe_state) : fcoe_state := let '(p, a, b) := percpu c f in set_percpu c (p, a, u64 (b + 1)) f.

(** Programming a context with [j] buffers. *)
Definition ddp_program (xid j off lastsize : Z) (target_mode : bool) (f : fcoe_state) : M fcoe_state :=
  let fcbuff := u32 (Z.shiftl IXGBE_FCBUFF_4KB IXGBE_FCBUFF_BUFFSIZE_SHIFT) in
  let fcbuff := Z.lor fcbuff (u32 (Z.shiftl (Z.land j 0xff) IXGBE_FCBUFF_BUFFCNT_SHIFT)) in
  let fcbuff := Z.lor fcbuff (u32 (Z.shiftl off IXGBE_FCBUFF_OFFSET_SHIFT)) in
  let fcbuff := if target_mode then Z.lor fcbuff IXGBE_FCBUFF_WRCONTX else fcbuff in
  let fcbuff := Z.lor fcbuff IXGBE_FCBUFF_VALID in
  let fcdmarw := Z.lor (Z.lor xid IXGBE_FCDMARW_WE) (u32 (Z.shiftl lastsize IXGBE_FCDMARW_LASTSIZE_SHIFT)) in
  let fcfltrw := Z.lor xid IXGBE_FCFLTRW_WE in
  f ← (if target_mode && negb (target f) then
         fcrxctl ← IXGBE_READ_REG IXGBE_FCRXCTRL;
         _ ← IXGBE_WRITE_REG IXGBE_FCRXCTRL (Z.lor fcrxctl IXGBE_FCRXCTRL_LASTSEQH);
         mret (set_target true f)
       else mret f);
  let p := udp (ddp f xid) in
  _ ← IXGBE_WRITE_REG IXGBE_FCPTRL (u32 p);
  _ ← IXGBE_WRITE_REG IXGBE_FCPTRH (u32 (Z.shiftr p 32));
  _ ← IXGBE_WRITE_REG IXGBE_FCBUFF fcbuff;
  _ ← IXGBE_WRITE_REG IXGBE_FCDMARW fcdmarw;
  _ ← IXGBE_WRITE_REG IXGBE_FCPARAM 0;
  _ ← IXGBE_WRITE_REG IXGBE_FCFLT IXGBE_FCFLT_VALID;
  _ ← IXGBE_WRITE_REG IXGBE_FCFLTRW fcfltrw;
  mret f.

(** [ixgbe_fcoe_ddp_setup] of scatter list [sg] with [n] entries. *)
Definition ixgbe_fcoe_ddp_setup (e : ddp_env) (xid sg n : Z) (target_mode : bool) (f : fcoe_state) : M (Z * fcoe_state) :=
  if n =? 0 then mret (0, f)
  else if xid >? ddp_xid f then mret (0, f)
  else if down_or_resetting e then mret (0, f)
  else
    match sgl (ddp f xid) with
    | Some _ => mret (0, f)
    | None =>
        let f := set_ddp xid (ixgbe_fcoe_clear_ddp (ddp f xid)) f in
        match pools f with
        | None => mret (0, f)
        | Some _ =>
            match (percpu (cpu e) f).1.1 with
            | None => mret (0, f)
            | Some p =>
                match dma_map_sg e with
                | None => mret (0, f)
                | Some entries =>
                    let f := fc_log [SgMapped sg n] f in
                    match dma_pool_alloc e with
                    | None => mret (0, fc_log [SgUnmapped sg n] f)
                    | Some a =>
                        let f := fc_log [PoolAlloc p a] f in
                        let f := set_ddp xid (set_sg n (Some sg) (set_pool (Some p) (set_udl a (Some []) (ddp f xid)))) f in
                        match sg_entries entries (Udl [] 0 0 0) with
                        | inl counted => mret (0, noddp_free xid sg n (if counted : bool then inc_noddp (cpu e) f else f))
                        | inr u =>
                            let lastsize := thisoff u + thislen u in
                            if lastsize =? IXGBE_FCBUFF_MIN then
                              if Z.of_nat (length (bufs u)) >=? IXGBE_BUFFCNT_MAX then mret (0, noddp_free xid sg n (inc_noddp_ext (cpu e) f))
                              else
                                let b := bufs u ++ [extra_dma f] in
                                f ← ddp_program xid (Z.of_nat (length b)) (firstoff u) 1 target_mode (set_ddp xid (set_udl a (Some b) (ddp f xid)) f);
                                mret (1, f)
                            else
                              f ← ddp_program xid (Z.of_nat (length (bufs u))) (firstoff u) lastsize target_mode (set_ddp xid (set_udl a (Some (bufs u)) (ddp f xid)) f);
                              mret (1, f)
                        end
                    end
                end
            end
        end
    end.
Definition ixgbe_fcoe_ddp_get (e : ddp_env) (xid sg n : Z) (f : fcoe_state) : M (Z * fcoe_state) := ixgbe_fcoe_ddp_setup e xid sg n false f.
Definition ixgbe_fcoe_ddp_target (e : ddp_env) (xid sg n : Z) (f : fcoe_state) : M (Z * fcoe_state) := ixgbe_fcoe_ddp_setup e xid sg n true f.

(** ** Receiving *)

(** A second FCP_RSP finds no scatter list: [dma_unmap_sg] is then called with a NULL list and 0 entries.

    [ixgbe_fcoe_ddp] for a packet with status [staterr], length of placed data [rss], and the bytes [b] at [skb->data]: the result, whether the
    checksum is good, whether a trailer is appended, and the state. *)
Definition ixgbe_fcoe_ddp_rx (staterr rss protocol : Z) (b : Z -> Z) (f : fcoe_state) : Z * bool * bool * fcoe_state :=
  let csum := negb (Z.land staterr IXGBE_RXDADV_ERR_FCERR =? IXGBE_FCERR_BADCRC) in
  let fh := if protocol =? htons ETH_P_8021Q then sizeof_fcoe_hdr + 4 else sizeof_fcoe_hdr in
  let fctl := Z.lor (Z.lor (Z.shiftl (b (fh + 9)) 16) (Z.shiftl (b (fh + 10)) 8)) (b (fh + 11)) in
  let xid := if truthy (Z.land fctl FC_FC_EX_CTX) then ntohs (load16 b (fh + 16)) else ntohs (load16 b (fh + 18)) in
  if xid >=? IXGBE_FCOE_DDP_MAX then (- EINVAL, csum, false, f)
  else
    let d := ddp f xid in
    match udl d with
    | None => (- EINVAL, csum, false, f)
    | Some _ =>
        if truthy (Z.land staterr (Z.lor IXGBE_RXDADV_ERR_FCEOFE IXGBE_RXDADV_ERR_FCERR)) then (- EINVAL, csum, false, f)
        else
          let st := Z.land staterr IXGBE_RXDADV_STAT_FCSTAT in
          let '(rc, f) :=
            if st =? IXGBE_RXDADV_STAT_FCSTAT_DDP then (0, set_ddp xid (set_len (s32 rss) d) f)
            else if st =? IXGBE_RXDADV_STAT_FCSTAT_FCPRSP then
              let f := fc_log [match sgl d with Some s => SgUnmapped s (sgc d) | None => SgUnmappedNull (sgc d) end] f in
              (if truthy (s32 rss) then s32 rss else - EINVAL, set_ddp xid (set_len (s32 rss) (set_sg 0 None (set_err 0 d))) f)
            else if st =? IXGBE_RXDADV_STAT_FCSTAT_NODDP then (if truthy (s32 rss) then s32 rss else - EINVAL, set_ddp xid (set_len (s32 rss) d) f)
            else (- EINVAL, f) in
          (rc, csum, (b fh =? FC_RCTL_DD_SOL_DATA) && truthy (Z.land fctl FC_FC_END_SEQ), f)
    end.

(** ** Pools and start-up *)
Definition ixgbe_fcoe_dma_pool_free (c : Z) (f : fcoe_state) : fcoe_state :=
  let '(p, a, b) := percpu c f in
  set_percpu c (None, a, b) (fc_log (match p with Some p => [PoolDestroy p] | None => [] end) f).
(** [pool]: the answer of [dma_pool_create]. *)
Definition ixgbe_fcoe_dma_pool_alloc (create : option Z) (c : Z) (f : fcoe_state) : Z * fcoe_state :=
  match create with
  | None => (- ENOMEM, f)
  | Some p => (0, set_percpu c (Some p, 0, 0) (fc_log [PoolCreate p] f))
  end.
Fixpoint put_all (n : nat) (i : Z) (f : fcoe_state) : M fcoe_state :=
  match n with
  | O => mret f
  | S n => r ← ixgbe_fcoe_ddp_put i f; put_all n (i + 1) r.2
  end.
Definition ixgbe_free_fcoe_ddp_resources (cpus : list Z) (f : fcoe_state) : M fcoe_state :=
  match pools f with
  | None => mret f
  | Some _ =>
      f ← put_all (Z.to_nat IXGBE_FCOE_DDP_MAX) 0 f;
      let f := foldl (fun f c => ixgbe_fcoe_dma_pool_free c f) f cpus in
      let f := fc_log [BufUnmapped (extra_dma f)] f in
      let f := fc_log (match extra_buffer f with Some b => [Kfree b] | None => [] end) f in
      mret (set_extra None 0 f)
  end.
Fixpoint alloc_pools (create : Z -> option Z) (cpus : list Z) (f : fcoe_state) : bool * fcoe_state :=
  match cpus with
  | [] => (true, f)
  | c :: cpus => let '(e, f) := ixgbe_fcoe_dma_pool_alloc (create c) c f in if e =? 0 then alloc_pools create cpus f else (false, f)
  end.
(** [kmalloc] and [dma_map_single] answer with [buffer] and [dma]. *)
Definition ixgbe_setup_fcoe_ddp_resources (buffer dma : option Z) (create : Z -> option Z) (cpus : list Z) (f : fcoe_state) : M (Z * fcoe_state) :=
  match pools f with
  | None => mret (0, f)
  | Some _ =>
      match buffer with
      | None => mret (- ENOMEM, f)
      | Some b =>
          match dma with
          | None => mret (- ENOMEM, fc_log [Kmalloc b; Kfree b] f)
          | Some a =>
              let f := set_extra (Some b) a (fc_log [Kmalloc b; BufMapped a] f) in
              let '(ok, f) := alloc_pools create cpus f in
              if ok : bool then mret (0, f)
              else f ← ixgbe_free_fcoe_ddp_resources cpus f; mret (- ENOMEM, f)
          end
      end
  end.
(** [alloc]: [alloc_percpu] succeeds. *)
Definition ixgbe_fcoe_ddp_enable (alloc : bool) (a : adapter) (f : fcoe_state) : Z * fcoe_state :=
  if negb (aflag IXGBE_FLAG_FCOE_CAPABLE a) then (- EINVAL, f)
  else if negb alloc then (- ENOMEM, set_pools None f)
  else (0, set_xid (IXGBE_FCOE_DDP_MAX - 1) (set_pools (Some (fun _ => (None, 0, 0))) f)).
Definition ixgbe_fcoe_ddp_disable (f : fcoe_state) : fcoe_state := set_pools None (set_xid 0 f).

(** ** Configuration *)

(** The filter of an Ethernet type: with SR-IOV the frames go to the pool of the physical function. *)
Definition etqf_pool (a : adapter) (etqf : Z) : Z :=
  if aflag IXGBE_FLAG_SRIOV_ENABLED a then Z.lor (Z.lor etqf IXGBE_ETQF_POOL_ENABLE) (u32 (Z.shiftl (vmdq_offset (ad a)) IXGBE_ETQF_POOL_SHIFT)) else etqf.
(** The register of a receive queue; [None]: there is no such ring. *)
Definition rx_reg_idx (a : adapter) (i : Z) : option Z := if i <? 0 then None else r ← rx_ring a !! Z.to_nat i; ring ← r; Some (reg_idx ring).
Fixpoint fcreta_loop (n : nat) (i : Z) (a : adapter) : M (option unit) :=
  match n with
  | O => mret (Some tt)
  | S n =>
      if f_indices (fcoe a) =? 0 then mret None
      else
        match rx_reg_idx a (Z.land (f_offset (fcoe a) + Z.rem i (f_indices (fcoe a))) IXGBE_FCRETA_ENTRY_MASK) with
        | None => mret None
        | Some q => _ ← IXGBE_WRITE_REG (IXGBE_FCRETA i) q; fcreta_loop n (i + 1) a
        end
  end.
(** [fcoe_crc]: the device has [NETIF_F_FCOE_CRC]; [None]: a ring that does not exist, or a remainder by zero. *)
Definition ixgbe_configure_fcoe (fcoe_crc : bool) (a : adapter) : M (option unit) :=
  if negb fcoe_crc then mret (Some tt)
  else
    _ ← IXGBE_WRITE_REG (IXGBE_ETQF IXGBE_ETQF_FILTER_FCOE) (etqf_pool a (Z.lor (Z.lor ETH_P_FCOE IXGBE_ETQF_FCOE) IXGBE_ETQF_FILTER_EN));
    _ ← IXGBE_WRITE_REG (IXGBE_ETQS IXGBE_ETQF_FILTER_FCOE) 0;
    if negb (aflag IXGBE_FLAG_FCOE_ENABLED a) then mret (Some tt)
    else
      r ← fcreta_loop (Z.to_nat IXGBE_FCRETA_SIZE) 0 a;
      match r with
      | None => mret None
      | Some _ =>
          _ ← IXGBE_WRITE_REG IXGBE_FCRECTL IXGBE_FCRECTL_ENA;
          _ ← IXGBE_WRITE_REG (IXGBE_ETQF IXGBE_ETQF_FILTER_FIP) (etqf_pool a (Z.lor ETH_P_FIP IXGBE_ETQF_FILTER_EN));
          match rx_reg_idx a (f_offset (fcoe a)) with
          | None => mret None
          | Some q =>
              _ ← IXGBE_WRITE_REG (IXGBE_ETQS IXGBE_ETQF_FILTER_FIP) (Z.lor IXGBE_ETQS_QUEUE_EN (u32 (Z.shiftl q IXGBE_ETQS_RX_QUEUE_SHIFT)));
              _ ← IXGBE_WRITE_REG IXGBE_FCRXCTRL (Z.lor IXGBE_FCRXCTRL_FCCRCBO (Z.shiftl FC_FCOE_VER IXGBE_FCRXCTRL_FCOEVER_SHIFT));
              mret (Some tt)
          end
      end.
(** The world wide name: a prefix and the storage MAC address. *)
Definition ixgbe_fcoe_get_wwn (wwnn_prefix wwpn_prefix : Z) (san_addr : list Z) (type : Z) : Z + Z :=
  let prefix := if type =? NETDEV_FCOE_WWNN then wwnn_prefix else if type =? NETDEV_FCOE_WWPN then wwpn_prefix else 0xffff in
  if negb (prefix =? 0xffff) && is_valid_ether_addr san_addr then
    inr (foldl (fun acc p => Z.lor acc (Z.shiftl (nth (Z.to_nat p.1) san_addr 0) p.2)) (Z.shiftl prefix 48) [(0, 40); (1, 32); (2, 24); (3, 16); (4, 8); (5, 0)])
  else inl (- EINVAL).
Definition ixgbe_fcoe_getapp (a : adapter) : Z := u8 (Z.shiftl 1 (fcoe_up (opts a))).
