(* ===== verification/FcoeSpec.v ===== *)
(** * Direct data placement: where the data goes, and what is released

    The list of buffers that [ixgbe_fcoe_ddp_setup] programs names exactly the bytes of the scatter list, in their order, and every mapping
    and every list is given back once, apart from the lists of the exchanges that are set up again before they are released: those are lost. *)
From S2P Require Import Prelude Hw Bits FlowDir FlowFilters Sriov Queues Fcoe.
From Stdlib Require Import Permutation.
Open Scope Z_scope.

(** ** The list of buffers *)

(** The addresses of the bytes of a scatter list, and of the pages of a list of buffers. *)
Definition addresses (l : list (Z * Z)) : list Z := concat (map (fun e => seqZ e.1 e.2) l).
Definition pages (b : list Z) : list Z := concat (map (fun a => seqZ a 4096) b).
Lemma pages_app a b : pages (a ++ b) = pages a ++ pages b.
Proof. unfold pages. by rewrite map_app, concat_app. Qed.
Lemma pages_one a : pages [a] = seqZ a 4096.
Proof. unfold pages. cbn [map concat]. apply app_nil_r. Qed.
Lemma pages_length b : Z.of_nat (length (pages b)) = 4096 * Z.of_nat (length b).
Proof. induction b as [|a b IH]; [done|]. change (pages (a :: b)) with (seqZ a 4096 ++ pages b). rewrite length_app, length_seqZ. cbn [length]. lia. Qed.
Lemma take_drop_seqZ a n k m : 0 <= k -> 0 <= m -> k + m <= n -> take (Z.to_nat m) (drop (Z.to_nat k) (seqZ a n)) = seqZ (a + k) m.
Proof.
  intros Hk Hm Hn. replace n with (k + (m + (n - k - m))) by lia. rewrite seqZ_app by lia. rewrite drop_app_length' by (rewrite length_seqZ; lia).
  rewrite seqZ_app by lia. rewrite take_app_length' by (rewrite length_seqZ; lia). done.
Qed.
(** The bytes [A] have been put into the list. *)
Record filled (u : udl_state) (A : list Z) : Prop := {
  fi_none : bufs u = [] -> A = [];
  fi_off : 0 <= firstoff u < 4096;
  fi_bytes : take (length A) (drop (Z.to_nat (firstoff u)) (pages (bufs u))) = A;
  fi_size : bufs u <> [] -> firstoff u + Z.of_nat (length A) = 4096 * (Z.of_nat (length (bufs u)) - 1) + thisoff u + thislen u /\ 0 <= thisoff u /\ 0 < thislen u /\ thisoff u + thislen u <= 4096;
  fi_aligned : Forall (fun b => b mod 4096 = 0) (bufs u);
  fi_count : Z.of_nat (length (bufs u)) <= IXGBE_BUFFCNT_MAX
}.
Definition full (u : udl_state) : Prop := bufs u = [] \/ thisoff u + thislen u = 4096.
Lemma land_page a : Z.land a (IXGBE_FCBUFF_MIN - 1) = a mod 4096.
Proof. change (IXGBE_FCBUFF_MIN - 1) with (Z.ones 12). by rewrite Z.land_ones by lia. Qed.
Lemma filled_step u A addr n (off := addr mod 4096) (first := match bufs u with [] => true | _ => false end) : filled u A -> full u -> 0 < n -> n + off <= 4096 ->
  Z.of_nat (length (bufs u)) < IXGBE_BUFFCNT_MAX -> (first = false -> off = 0) ->
  filled (Udl (bufs u ++ [addr - off]) (if first then off else firstoff u) off n) (A ++ seqZ addr n).
Proof.
  intros [H1 H2 H3 H4 H5 H6] Hfull Hn Hno Hc Hoff. pose proof (Z.mod_pos_bound addr 4096 ltac:(lia)) as Hm. fold off in Hm.
  assert ((addr - off) mod 4096 = 0) as Hal by (unfold off; rewrite Zminus_mod_idemp_r, Z.sub_diag; done).
  assert (length (A ++ seqZ addr n) = length A + Z.to_nat n)%nat as Hlen by (by rewrite length_app, length_seqZ).
  destruct (bufs u) as [|b0 bs] eqn:Eb; cbn [first] in *.
  - specialize (H1 eq_refl) as ->. split; cbn [bufs firstoff thisoff thislen app]; try done.
    + rewrite pages_one. cbn [app length]. rewrite length_seqZ. rewrite take_drop_seqZ by lia. f_equal. lia.
    + intros _. rewrite length_seqZ. cbn. lia.
    + by constructor.
  - specialize (H4 ltac:(done)). specialize (Hoff eq_refl). destruct Hfull as [|Hfull]; [congruence|]. split; cbn [bufs firstoff thisoff thislen]; try done.
    + assert (Z.of_nat (length A) = Z.of_nat (length (pages (b0 :: bs))) - firstoff u) as HA by (rewrite pages_length; lia).
      rewrite pages_app, pages_one, drop_app_le by (pose proof (pages_length (b0 :: bs)); cbn [length] in *; lia).
      assert (drop (Z.to_nat (firstoff u)) (pages (b0 :: bs)) = A) as HD.
      { rewrite <- H3. symmetry. apply take_ge. rewrite length_drop. lia. }
      rewrite HD, Hlen, take_app_add. f_equal. rewrite Hoff, Z.sub_0_r. pose proof (take_drop_seqZ addr 4096 0 n ltac:(lia) ltac:(lia) ltac:(lia)) as Ht. by rewrite drop_0, Z.add_0_r in Ht.
    + intros _. rewrite !length_app, length_seqZ. cbn [length] in *. lia.
    + apply Forall_app. split; [done|]. by constructor.
    + rewrite length_app. cbn [length] in *. lia.
Qed.
Lemma sg_entry_zero fuel last addr u : sg_entry fuel last addr 0 u = inr u.
Proof. by destruct fuel. Qed.
Lemma sg_entry_spec fuel : forall last addr len u A u', 0 <= len -> (addr mod 4096 + len + 4095) / 4096 <= Z.of_nat fuel -> filled u A -> (0 < len -> full u) ->
  sg_entry fuel last addr len u = inr u' -> filled u' (A ++ seqZ addr len) /\ (last = false -> 0 < len -> full u').
Proof.
  induction fuel as [|fuel IH]; intros last addr len u A u' Hl Hf HF Hfull E.
  { assert (len = 0) as -> by (pose proof (Z.mod_pos_bound addr 4096 ltac:(lia)); destruct (decide (len = 0)); [done|]; assert (1 <= (addr mod 4096 + len + 4095) / 4096) by (apply Z.div_le_lower_bound; lia); lia).
    injection E as <-. rewrite seqZ_nil, app_nil_r by lia. split; [done|lia]. }
  cbn [sg_entry] in E. destruct (Z.eqb_spec len 0) as [->|Hne]; [injection E as <-; rewrite seqZ_nil, app_nil_r by lia; split; [done|lia]|].
  destruct (Z.geb_spec (Z.of_nat (length (bufs u))) IXGBE_BUFFCNT_MAX); [done|]. rewrite land_page in E. set (off := addr mod 4096) in *. pose proof (Z.mod_pos_bound addr 4096 ltac:(lia)) as Hm. fold off in Hm.
  change IXGBE_FCBUFF_MIN with 4096 in E. set (n := Z.min (4096 - off) len) in *. assert (0 < n <= len /\ n + off <= 4096) as [Hn Hno] by (unfold n; lia).
  destruct (negb (match bufs u with [] => true | _ => false end) && truthy off) eqn:E1; [done|].
  destruct ((negb last || negb (n =? len)) && negb (n + off =? 4096)) eqn:E2; [done|].
  specialize (Hfull ltac:(lia)). pose proof (filled_step u A addr n HF Hfull ltac:(lia) Hno ltac:(lia)) as HF'. cbv zeta in HF'. fold off in HF'.
  specialize (HF' ltac:(intros Ef; rewrite Ef in E1; unfold truthy in E1; cbn in E1; destruct (Z.eqb_spec off 0); done)).
  set (u1 := Udl _ _ off n) in *. destruct (decide (n = len)) as [En|En].
  - rewrite En, Z.sub_diag in E. rewrite sg_entry_zero in E. injection E as <-. rewrite En in HF'. split; [done|]. intros -> _. right. cbn in E2 |- *. lia.
  - assert (n + off = 4096) as Efull by (replace (n =? len) with false in E2 by lia; rewrite orb_true_r in E2; cbn in E2; lia).
    assert ((addr + n) mod 4096 = 0) as Hnext by (rewrite Zplus_mod; fold off; rewrite (Zplus_mod_idemp_r n off); replace (off + n) with 4096 by lia; done).
    apply (IH last (addr + n) (len - n) u1 (A ++ seqZ addr n)) in E as [E E3]; [|lia| |done|intros _; right; cbn; lia].
    + rewrite <- app_assoc, <- seqZ_app in E by lia. replace (n + (len - n)) with len in E by lia. split; [done|]. intros Hlast _. apply E3; [done|lia].
    + rewrite Hnext. replace (off + len + 4095) with ((0 + (len - n) + 4095) + 1 * 4096) in Hf by lia. rewrite Z.div_add in Hf by lia. lia.
Qed.
(** The loop takes an entry to its end, whatever its length. *)
Lemma entry_fuel_enough addr len : 0 <= len -> (addr mod 4096 + len + 4095) / 4096 <= Z.of_nat (entry_fuel len).
Proof.
  intros Hl. unfold entry_fuel. change IXGBE_FCBUFF_MIN with 4096. pose proof (Z.mod_pos_bound addr 4096 ltac:(lia)). pose proof (Z.div_mod len 4096 ltac:(lia)). pose proof (Z.mod_pos_bound len 4096 ltac:(lia)).
  assert (0 <= len / 4096) by (apply Z.div_pos; lia). assert ((addr mod 4096 + len + 4095) / 4096 < len / 4096 + 3) by (apply Z.div_lt_upper_bound; lia). lia.
Qed.
Lemma sg_entries_spec l : forall u A u', Forall (fun e => 0 < e.2) l -> filled u A -> full u -> sg_entries l u = inr u' -> filled u' (A ++ addresses l).
Proof.
  induction l as [|[addr n] l IH]; intros u A u' Hl HF Hfull E; [injection E as <-; by rewrite app_nil_r|]. apply Forall_cons in Hl as [Hn Hl]. cbn [snd] in Hn.
  cbn [sg_entries] in E. destruct (sg_entry _ _ addr n u) as [|u1] eqn:E1; [done|].
  destruct (sg_entry_spec (entry_fuel n) _ addr n u A u1 ltac:(lia) (entry_fuel_enough addr n ltac:(lia)) HF ltac:(auto) E1) as [HF1 Hfull1].
  change (addresses ((addr, n) :: l)) with (seqZ addr n ++ addresses l). rewrite app_assoc. destruct l as [|e l].
  - injection E as <-. change (addresses []) with (@nil Z). by rewrite app_nil_r.
  - apply (IH u1); [done|done|by apply Hfull1|done].
Qed.
Lemma filled_start : filled (Udl [] 0 0 0) [].
Proof. split; cbn; try done; lia. Qed.
Lemma entries_some entries u : entries <> [] -> Forall (fun e => 0 < e.2) entries -> filled u (addresses entries) -> bufs u <> [].
Proof.
  intros Hne Hpos HF E. pose proof (fi_none _ _ HF E) as HA. destruct entries as [|[x m] ents]; [done|]. apply Forall_cons in Hpos as [Hpos _]. cbn in Hpos.
  change (addresses ((x, m) :: ents)) with (seqZ x m ++ addresses ents) in HA. apply (f_equal length) in HA. rewrite length_app, length_seqZ in HA. cbn in HA. lia.
Qed.

(** ** The registers of a context *)
Lemma last_write_snoc t r v w : last_write (t ++ [Wr r v]) w = if r =? w then v else last_write t w.
Proof. unfold last_write. by rewrite foldl_app. Qed.
Lemma last_write_snoc_read t r v w : last_write (t ++ [Rd r v]) w = last_write t w.
Proof. unfold last_write. by rewrite foldl_app. Qed.
Record programmed (xid j off lastsize p : Z) (tm : bool) (t : list access) : Prop := {
  pg_buff : last_write t IXGBE_FCBUFF = 1 + 128 * Z.b2z tm + 256 * (j mod 256) + 65536 * off;
  pg_dma : last_write t IXGBE_FCDMARW = xid + 2 ^ 14 + 65536 * lastsize;
  pg_ptr : last_write t IXGBE_FCPTRL = u32 p /\ last_write t IXGBE_FCPTRH = u32 (Z.shiftr p 32);
  pg_flt : last_write t IXGBE_FCFLT = IXGBE_FCFLT_VALID /\ last_write t IXGBE_FCFLTRW = xid + 2 ^ 14
}.
Lemma xid_we xid : 0 <= xid < 512 -> Z.lor xid (2 ^ 14) = xid + 2 ^ 14.
Proof. intros Hx. rewrite Z.lor_comm. change (2 ^ 14) with (Z.shiftl 1 14). rewrite lor_shiftl_add by lia. change (Z.shiftl 1 14) with (2 ^ 14). lia. Qed.
Lemma fcbuff_word j off tm : 0 <= j -> 0 <= off < 4096 ->
  let w := Z.lor (Z.lor (u32 (Z.shiftl IXGBE_FCBUFF_4KB IXGBE_FCBUFF_BUFFSIZE_SHIFT)) (u32 (Z.shiftl (Z.land j 0xff) IXGBE_FCBUFF_BUFFCNT_SHIFT))) (u32 (Z.shiftl off IXGBE_FCBUFF_OFFSET_SHIFT)) in
  Z.lor (if tm : bool then Z.lor w IXGBE_FCBUFF_WRCONTX else w) IXGBE_FCBUFF_VALID = 1 + 128 * Z.b2z tm + 256 * (j mod 256) + 65536 * off.
Proof.
  intros Hj Ho. change 0xff with (Z.ones 8). rewrite Z.land_ones by lia. set (c := j mod 2 ^ 8). assert (0 <= c < 256) as Hc by (apply Z.mod_pos_bound; lia).
  unfold IXGBE_FCBUFF_BUFFCNT_SHIFT, IXGBE_FCBUFF_OFFSET_SHIFT. change (u32 (Z.shiftl IXGBE_FCBUFF_4KB IXGBE_FCBUFF_BUFFSIZE_SHIFT)) with 0. rewrite Z.lor_0_l.
  rewrite !(u32_small (Z.shiftl _ _)) by (rewrite Z.shiftl_mul_pow2 by lia; lia). cbv zeta.
  assert (forall lo, 0 <= lo < 256 -> Z.lor (Z.lor (Z.shiftl c 8) (Z.shiftl off 16)) lo = lo + 256 * c + 65536 * off) as G.
  { intros lo Hlo. rewrite (Z.lor_comm (Z.shiftl c 8)), <- Z.lor_assoc, (lor_shiftl_add c) by lia. rewrite lor_shiftl_add by lia. lia. }
  destruct tm; cbn [Z.b2z]; [rewrite <- Z.lor_assoc; change (Z.lor IXGBE_FCBUFF_WRCONTX IXGBE_FCBUFF_VALID) with 129|change IXGBE_FCBUFF_VALID with 1]; rewrite G by lia; change (j mod 256) with c; lia.
Qed.
Lemma ddp_program_spec xid j off lastsize tm f h : 0 <= xid < 512 -> 0 <= j -> 0 <= off < 4096 -> 0 < lastsize < 4096 ->
  exists f' h', ddp_program xid j off lastsize tm f h = (f', h') /\ ddp f' = ddp f /\ flog f' = flog f /\ pools f' = pools f /\ ddp_xid f' = ddp_xid f /\ extra_dma f' = extra_dma f /\ extra_buffer f' = extra_buffer f /\
    programmed xid j off lastsize (udp (ddp f xid)) tm (tr h').
Proof.
  intros Hx Hj Ho Hl. unfold ddp_program. rewrite fcbuff_word by done. set (w := 1 + _ + _ + _).
  assert (Z.lor (Z.lor xid IXGBE_FCDMARW_WE) (u32 (Z.shiftl lastsize IXGBE_FCDMARW_LASTSIZE_SHIFT)) = xid + 2 ^ 14 + 65536 * lastsize) as ->.
  { unfold IXGBE_FCDMARW_LASTSIZE_SHIFT. change IXGBE_FCDMARW_WE with (2 ^ 14). rewrite xid_we by done. rewrite u32_small by (rewrite Z.shiftl_mul_pow2 by lia; lia).
    rewrite Z.lor_comm, lor_shiftl_add by lia. lia. }
  change IXGBE_FCFLTRW_WE with (2 ^ 14). rewrite xid_we by done. set (w2 := xid + 2 ^ 14 + _). set (w3 := xid + 2 ^ 14).
  destruct (tm && negb (target f)); mrun; eexists _, _; (split; [reflexivity|]); split_and!; try done; split; unfold tr; cbn [hw_dev set_dev trace]; rewrite ?last_write_snoc; done.
Qed.

(** ** Setting up a context *)

(** What a context for [entries] holds: the pages of the scatter list, behind them the extra buffer when the last page is full. *)
Record placed (e : Z) (entries : list (Z * Z)) (d : ixgbe_fcoe_ddp) (j off lastsize : Z) (b : list Z) : Prop := {
  pl_udl : udl d = Some (b ++ (if j =? Z.of_nat (length b) then [] else [e]));
  pl_off : 0 <= off < 4096;
  pl_bytes : take (length (addresses entries)) (drop (Z.to_nat off) (pages b)) = addresses entries;
  pl_aligned : Forall (fun a => a mod 4096 = 0) b;
  pl_last : j = Z.of_nat (length b) /\ off + Z.of_nat (length (addresses entries)) = 4096 * (j - 1) + lastsize /\ 0 < lastsize < 4096 \/
            j = Z.of_nat (length b) + 1 /\ off + Z.of_nat (length (addresses entries)) = 4096 * (j - 1) /\ lastsize = 1;
  pl_count : 0 < j <= IXGBE_BUFFCNT_MAX
}.

(** The pools and the extra buffer are the same. *)
Definition same_pools (f f' : fcoe_state) : Prop :=
  ddp_xid f' = ddp_xid f /\ (forall c, (percpu c f').1.1 = (percpu c f).1.1) /\ (pools f' = None <-> pools f = None) /\ extra_buffer f' = extra_buffer f /\ extra_dma f' = extra_dma f.
(** Only context [xid] differs. *)
Definition only_ddp (xid : Z) (f f' : fcoe_state) : Prop := forall i, i <> xid -> ddp f' i = ddp f i.
(** A set-up is refused for an empty scatter list, an exchange out of range, an adapter that is down, and a context that has a scatter list. *)
Definition refused (e : ddp_env) (xid n : Z) (f : fcoe_state) : bool :=
  (n =? 0) || (xid >? ddp_xid f) || down_or_resetting e || (match sgl (ddp f xid) with Some _ => true | None => false end).
(** The ways a set-up ends: refused, given up after some answers of the kernel, or programmed. *)
Inductive setup_result (e : ddp_env) (xid sg n : Z) (tm : bool) (f : fcoe_state) (h : ixgbe_hw) : Z * fcoe_state -> ixgbe_hw -> Prop :=
| SetupRefused : refused e xid n f = true -> setup_result e xid sg n tm f h (0, f) h
| SetupFailed f' l : refused e xid n f = false -> xid <= ddp_xid f -> sgl (ddp f xid) = None -> only_ddp xid f f' -> same_pools f f' -> sgl (ddp f' xid) = None -> udl (ddp f' xid) = None -> flog f' = flog f ++ l ->
    l = [] \/ l = [SgMapped sg n; SgUnmapped sg n] \/ (exists p a, l = [SgMapped sg n; PoolAlloc p a; PoolFree p a; SgUnmapped sg n]) ->
    setup_result e xid sg n tm f h (0, f') h
| SetupDone f' h' p a u b j lastsize entries : refused e xid n f = false -> xid <= ddp_xid f -> sgl (ddp f xid) = None -> only_ddp xid f f' -> same_pools f f' -> dma_map_sg e = Some entries -> sg_entries entries (Udl [] 0 0 0) = inr u ->
    ddp f' xid = Ddp 0 1 n (Some sg) a (Some b) (Some p) -> flog f' = flog f ++ [SgMapped sg n; PoolAlloc p a] ->
    b = (if thisoff u + thislen u =? 4096 then bufs u ++ [extra_dma f] else bufs u) -> lastsize = (if thisoff u + thislen u =? 4096 then 1 else thisoff u + thislen u) ->
    j = Z.of_nat (length b) -> j <= IXGBE_BUFFCNT_MAX -> programmed xid j (firstoff u) lastsize a tm (tr h') ->
    setup_result e xid sg n tm f h (1, f') h'.
Lemma same_pools_refl f : same_pools f f.
Proof. by split_and!. Qed.
Lemma same_pools_trans f g k : same_pools f g -> same_pools g k -> same_pools f k.
Proof. intros (A1 & A2 & A3 & A4 & A5) (B1 & B2 & B3 & B4 & B5). split_and!; try tauto; congruence. Qed.
Lemma same_pools_log l f : same_pools f (fc_log l f).
Proof. by split_and!. Qed.
Lemma same_pools_ddp i d f : same_pools f (set_ddp i d f).
Proof. by split_and!. Qed.
Lemma same_pools_percpu c a b f : pools f <> None -> same_pools f (set_percpu c ((percpu c f).1.1, a, b) f).
Proof.
  intros Hp. split_and!; try done. intros c'. unfold percpu at 1. cbn. destruct (Z.eqb_spec c' c) as [->|]; [done|]. unfold percpu. by destruct (pools f).
Qed.
Lemma same_pools_noddp c f : pools f <> None -> same_pools f (inc_noddp c f).
Proof. intros Hp. unfold inc_noddp. pose proof (same_pools_percpu c) as H. destruct (percpu c f) as [[p x] y] eqn:E. specialize (H (u64 (x + 1)) y f Hp). by rewrite E in H. Qed.
Lemma same_pools_noddp_ext c f : pools f <> None -> same_pools f (inc_noddp_ext c f).
Proof. intros Hp. unfold inc_noddp_ext. pose proof (same_pools_percpu c) as H. destruct (percpu c f) as [[p x] y] eqn:E. specialize (H x (u64 (y + 1)) f Hp). by rewrite E in H. Qed.
Lemma inc_noddp_same c f : ddp (inc_noddp c f) = ddp f /\ flog (inc_noddp c f) = flog f.
Proof. unfold inc_noddp. by destruct (percpu c f) as [[p x] y]. Qed.
Lemma inc_noddp_ext_same c f : ddp (inc_noddp_ext c f) = ddp f /\ flog (inc_noddp_ext c f) = flog f.
Proof. unfold inc_noddp_ext. by destruct (percpu c f) as [[p x] y]. Qed.
Lemma noddp_free_spec xid sg n f p : pool (ddp f xid) = Some p ->
  let f' := noddp_free xid sg n f in only_ddp xid f f' /\ same_pools f f' /\ sgl (ddp f' xid) = None /\ udl (ddp f' xid) = None /\ flog f' = flog f ++ [PoolFree p (udp (ddp f xid)); SgUnmapped sg n].
Proof.
  intros Hp. unfold noddp_free. rewrite Hp. cbn. split_and!; try done.
  - intros i Hi. cbn. by rewrite fn_lookup_insert_ne by done.
  - by rewrite fn_lookup_insert.
  - by rewrite fn_lookup_insert.
  - by rewrite <- app_assoc.
Qed.

Lemma ddp_setup_cases e xid sg n tm f h : 0 <= xid < 512 -> (forall l, dma_map_sg e = Some l -> l <> [] /\ Forall (fun e => 0 < e.2) l) ->
  let '(r, h') := ixgbe_fcoe_ddp_setup e xid sg n tm f h in setup_result e xid sg n tm f h r h'.
Proof.
  intros Hx Hmap. unfold ixgbe_fcoe_ddp_setup. pose proof (eq_refl (refused e xid n f)) as ER. unfold refused in ER at 2. destruct (n =? 0); [by constructor|].
  destruct (Z.gtb_spec xid (ddp_xid f)) as [|Hxid]; [by constructor|]. destruct (down_or_resetting e); [by constructor|]. destruct (sgl (ddp f xid)) eqn:Es; [by constructor|]. cbn [orb] in ER. set (f1 := set_ddp xid _ f). cbv zeta.
  assert (only_ddp xid f f1) as O1 by (intros i Hi; cbn; by rewrite fn_lookup_insert_ne). pose proof (same_pools_ddp xid (ixgbe_fcoe_clear_ddp (ddp f xid)) f) as P1. fold f1 in P1.
  assert (ddp f1 xid = ixgbe_fcoe_clear_ddp (ddp f xid)) as D1 by (cbn; by rewrite fn_lookup_insert). assert (flog f1 = flog f) as L1 by done. clearbody f1.
  assert (forall l f', only_ddp xid f1 f' -> same_pools f1 f' -> sgl (ddp f' xid) = None -> udl (ddp f' xid) = None -> flog f' = flog f ++ l ->
    l = [] \/ l = [SgMapped sg n; SgUnmapped sg n] \/ (exists p a, l = [SgMapped sg n; PoolAlloc p a; PoolFree p a; SgUnmapped sg n]) -> setup_result e xid sg n tm f h (0, f') h) as Hfail.
  { intros l f' H1 H2 H3 H4 H5 H6. apply (SetupFailed e xid sg n tm f h f' l); try done; [intros i Hi; rewrite H1 by done; by apply O1|by eapply same_pools_trans]. }
  destruct (pools f1) as [pl|] eqn:Ep; [|apply (Hfail []); [done|apply same_pools_refl|by rewrite D1|by rewrite D1|by rewrite app_nil_r|by left]].
  assert (pools f1 <> None) as Ep' by congruence. clear Ep.
  destruct ((percpu (cpu e) f1).1.1) as [p|]; [|apply (Hfail []); [done|apply same_pools_refl|by rewrite D1|by rewrite D1|by rewrite app_nil_r|by left]].
  destruct (dma_map_sg e) as [entries|] eqn:Em; [|apply (Hfail []); [done|apply same_pools_refl|by rewrite D1|by rewrite D1|by rewrite app_nil_r|by left]].
  destruct (Hmap entries eq_refl) as [Hne Hpos]. cbv zeta.
  destruct (dma_pool_alloc e) as [a|]; [|apply (Hfail [SgMapped sg n; SgUnmapped sg n]); [done|by split_and!|cbn; by rewrite D1|cbn; by rewrite D1|cbn; by rewrite L1, <- app_assoc|by right; left]].
  match goal with |- context[ddp_program _ _ _ 1 _ (set_ddp _ _ ?g)] => set (f2 := g) end.
  assert (ddp f2 xid = Ddp 0 1 n (Some sg) a (Some []) (Some p)) as D2 by (cbn; rewrite fn_lookup_insert, D1; done).
  assert (only_ddp xid f1 f2) as O2 by (intros i Hi; cbn; by rewrite fn_lookup_insert_ne). assert (same_pools f1 f2) as P2 by by split_and!.
  assert (flog f2 = flog f ++ [SgMapped sg n; PoolAlloc p a]) as L2 by (cbn; by rewrite L1, <- app_assoc). clearbody f2. assert (pools f2 <> None) as Ep2 by (intros E; apply Ep', P2, E).
  assert (forall f3, ddp f3 = ddp f2 /\ flog f3 = flog f2 -> same_pools f2 f3 -> setup_result e xid sg n tm f h (0, noddp_free xid sg n f3) h) as Hfree.
  { intros f3 [D3 L3] P3. destruct (noddp_free_spec xid sg n f3 p) as (G1 & G2 & G3 & G4 & G5); [by rewrite D3, D2|].
    apply (Hfail [SgMapped sg n; PoolAlloc p a; PoolFree p a; SgUnmapped sg n]); [|by eapply same_pools_trans; [|done]; eapply same_pools_trans|done|done| |right; right; eauto].
    - intros i Hi. rewrite G1 by done. rewrite D3. by apply O2.
    - rewrite G5, L3, L2, D3, D2, <- app_assoc. done. }
  destruct (sg_entries entries (Udl [] 0 0 0)) as [[]|u] eqn:Eu; [apply Hfree; [apply inc_noddp_same|by apply same_pools_noddp]|apply Hfree; [done|apply same_pools_refl]|].
  pose proof (sg_entries_spec _ _ _ _ Hpos filled_start (or_introl eq_refl) Eu) as HF. cbn [app] in HF.
  pose proof (entries_some entries u Hne Hpos HF) as Hb.
  destruct (fi_size _ _ HF Hb) as (Hs1 & Hs2 & Hs3 & Hs4). pose proof (fi_off _ _ HF) as Ho.
  assert (forall b lastsize, 0 < lastsize < 4096 -> Z.of_nat (length b) <= IXGBE_BUFFCNT_MAX -> b = (if thisoff u + thislen u =? 4096 then bufs u ++ [extra_dma f] else bufs u) -> lastsize = (if thisoff u + thislen u =? 4096 then 1 else thisoff u + thislen u) ->
    let '(r, h') := (f0 ← ddp_program xid (Z.of_nat (length b)) (firstoff u) lastsize tm (set_ddp xid (set_udl a (Some b) (ddp f2 xid)) f2); mret (1, f0)) h in setup_result e xid sg n tm f h r h') as Hok.
  { intros b lastsize Hl Hc Eb El. destruct (ddp_program_spec xid (Z.of_nat (length b)) (firstoff u) lastsize tm (set_ddp xid (set_udl a (Some b) (ddp f2 xid)) f2) h Hx ltac:(lia) Ho Hl) as (f' & h' & E & G1 & G2 & G3 & G4 & G5 & G6 & G7).
    unfold mbind, mret, M_bind, M_ret. rewrite E. cbn [ddp set_ddp] in G1, G7. rewrite fn_lookup_insert in G7. rewrite D2 in *. cbn [set_udl] in *.
    eapply (SetupDone _ _ _ _ _ _ _ f' h' p a u b); try done.
    - intros i Hi. rewrite G1, fn_lookup_insert_ne by done. rewrite O2 by done. by apply O1.
    - eapply same_pools_trans; [done|]. eapply same_pools_trans; [done|]. split_and!; try done; try (intros c; unfold percpu; by rewrite G3); by rewrite G3.
    - by rewrite G1, fn_lookup_insert.
    - by rewrite G2. }
  change IXGBE_FCBUFF_MIN with 4096. destruct (Z.eqb_spec (thisoff u + thislen u) 4096) as [E4|E4].
  - destruct (Z.geb_spec (Z.of_nat (length (bufs u))) IXGBE_BUFFCNT_MAX); [apply Hfree; [apply inc_noddp_ext_same|by apply same_pools_noddp_ext]|].
    apply Hok; [lia|rewrite length_app; cbn [length]; lia| |done]. destruct P1 as (_ & _ & _ & _ & <-). destruct P2 as (_ & _ & _ & _ & <-). done.
  - apply Hok; [lia|apply (fi_count _ _ HF)|done|done].
Qed.

(** C25. A context that [ixgbe_fcoe_ddp_setup] programs places the data of the exchange in the buffers of the scatter list, byte by byte and in order: the
    list [udl] that the context points to holds page addresses whose bytes, from the programmed offset on, are those of the mapped entries; the programmed
    size of the last buffer ends exactly behind the last of them, and is the single byte of the extra buffer when the last page is full (the adapter has no
    encoding for a full last page). The list has at most 256 buffers, the adapter's registers name this list, the number of buffers modulo 256, the offset
    and the size, and the other contexts are untouched. *)
Theorem ddp_places e xid sg n tm f h f' h' entries : 0 <= xid < 512 -> dma_map_sg e = Some entries -> entries <> [] -> Forall (fun e => 0 < e.2) entries ->
  ixgbe_fcoe_ddp_setup e xid sg n tm f h = ((1, f'), h') ->
  exists j off lastsize b, placed (extra_dma f) entries (ddp f' xid) j off lastsize b /\ programmed xid j off lastsize (udp (ddp f' xid)) tm (tr h') /\
    sgl (ddp f' xid) = Some sg /\ sgc (ddp f' xid) = n /\ only_ddp xid f f'.
Proof.
  intros Hx Em Hne Hpos E. pose proof (ddp_setup_cases e xid sg n tm f h Hx) as H. rewrite E in H. specialize (H ltac:(intros l Hl; rewrite Em in Hl; by injection Hl as <-)).
  inversion H as [| |f0 h0 p a u b j ls ents GR G1 G2 G3 G4 G5 G6 G7 G8 G9 G10 G11 G12 G13]; subst f0 h0. rewrite Em in G5. injection G5 as <-.
  pose proof (sg_entries_spec _ _ _ _ Hpos filled_start (or_introl eq_refl) G6) as HF. cbn [app] in HF. pose proof (entries_some entries u Hne Hpos HF) as Hb.
  destruct (fi_size _ _ HF Hb) as (Hs1 & Hs2 & Hs3 & Hs4). assert (0 < length (bufs u))%nat as Hl by (destruct (bufs u); [done|cbn; lia]).
  exists j, (firstoff u), ls, (bufs u). rewrite G7. split_and!; try done.
  split; [|apply HF..| |].
  - cbn. f_equal. subst j b. destruct (Z.eqb_spec (thisoff u + thislen u) 4096); [rewrite length_app; cbn [length]; by rewrite (proj2 (Z.eqb_neq _ _)) by lia|by rewrite Z.eqb_refl, app_nil_r].
  - subst j b ls. destruct (Z.eqb_spec (thisoff u + thislen u) 4096); [right; rewrite length_app; cbn [length]|left]; lia.
  - subst j b. destruct (Z.eqb_spec (thisoff u + thislen u) 4096); [rewrite length_app in *; cbn [length] in *|]; lia.
Qed.

(** ** What is held and what is given back *)

(** The entries of the log of one kind, and what the contexts hold. *)
Definition sg_mapped (l : list fc_effect) : list (Z * Z) := omap (fun e => match e with SgMapped s n => Some (s, n) | _ => None end) l.
Definition sg_unmapped (l : list fc_effect) : list (Z * Z) := omap (fun e => match e with SgUnmapped s n => Some (s, n) | _ => None end) l.
Definition lists_alloc (l : list fc_effect) : list (Z * Z) := omap (fun e => match e with PoolAlloc p a => Some (p, a) | _ => None end) l.
Definition lists_freed (l : list fc_effect) : list (Z * Z) := omap (fun e => match e with PoolFree p a => Some (p, a) | _ => None end) l.
Definition sg_of (d : ixgbe_fcoe_ddp) : option (Z * Z) := s ← sgl d; Some (s, sgc d).
Definition list_of (d : ixgbe_fcoe_ddp) : option (Z * Z) := _ ← udl d; p ← pool d; Some (p, udp d).
Definition held {A} (g : ixgbe_fcoe_ddp -> option A) (f : fcoe_state) : list A := omap (fun i => g (ddp f i)) (seqZ 0 512).
(** The list that a set-up drops: that of a context which has completed, so that it has no scatter list any more, and which has not been released. *)
Definition lost_by (e : ddp_env) (xid n : Z) (f : fcoe_state) : list (Z * Z) := if refused e xid n f then [] else option_list (list_of (ddp f xid)).
(** Every mapping and every list that was taken has been given back once or is held by one context, apart from the lists in [lost]. *)
Record balanced (lost : list (Z * Z)) (f : fcoe_state) : Prop := {
  ba_sg : sg_mapped (flog f) ≡ₚ sg_unmapped (flog f) ++ held sg_of f;
  ba_list : lists_alloc (flog f) ≡ₚ lists_freed (flog f) ++ held list_of f ++ lost;
  ba_udl : forall i, sgl (ddp f i) <> None -> udl (ddp f i) <> None;
  ba_pool : forall i, udl (ddp f i) <> None -> pool (ddp f i) <> None
}.
Lemma omap_ext' {A B} (g g' : A -> option B) (l : list A) : (forall x, x ∈ l -> g x = g' x) -> omap g l = omap g' l.
Proof. induction l as [|x l IH]; intros H; [done|]. cbn. rewrite (H x), IH; [done| |]; [intros y Hy; apply H, elem_of_cons; by right|apply elem_of_cons; by left]. Qed.
(** What the contexts hold, with context [i] apart. *)
Lemma held_split {A} (g : ixgbe_fcoe_ddp -> option A) i f : 0 <= i < 512 -> held g f ≡ₚ option_list (g (ddp f i)) ++ omap (fun i => g (ddp f i)) (seqZ 0 i ++ seqZ (i + 1) (511 - i)).
Proof.
  intros Hi. unfold held. replace 512 with (i + (1 + (511 - i))) by lia. rewrite !seqZ_app by lia. rewrite !omap_app, Permutation_app_swap_app. replace (seqZ (0 + i) 1) with [i] by (rewrite seqZ_cons, seqZ_nil by lia; f_equal; lia).
  cbn [omap list_omap]. replace (0 + i + 1) with (i + 1) by lia. by destruct (g (ddp f i)).
Qed.
Lemma held_update {A} (g : ixgbe_fcoe_ddp -> option A) i f f' : 0 <= i < 512 -> only_ddp i f f' ->
  exists rest, held g f ≡ₚ option_list (g (ddp f i)) ++ rest /\ held g f' ≡ₚ option_list (g (ddp f' i)) ++ rest.
Proof.
  intros Hi Ho. eexists. split; [by apply held_split|]. rewrite (held_split g i f' Hi). erewrite omap_ext'; [done|]. intros j Hj. cbn. rewrite Ho; [done|].
  apply elem_of_app in Hj as [Hj|Hj]; apply elem_of_seqZ in Hj; lia.
Qed.

Lemma balance_step {A} (taken given old new back rest : list A) : taken ++ old ≡ₚ given ++ new -> (back ++ old ++ rest) ++ taken ≡ₚ (back ++ given) ++ new ++ rest.
Proof.
  intros H. rewrite <- !app_assoc. apply Permutation_app_head. rewrite (app_assoc given), <- H. rewrite (app_assoc old), (Permutation_app_comm (old ++ rest)), app_assoc. done.
Qed.
(** A step at one context keeps the balance when what it takes and what the context held is what it gives back and what the context holds then, and what is lost. *)
Lemma balanced_lost lost more i f f' l : 0 <= i < 512 -> only_ddp i f f' -> flog f' = flog f ++ l ->
  sg_mapped l ++ option_list (sg_of (ddp f i)) ≡ₚ sg_unmapped l ++ option_list (sg_of (ddp f' i)) ->
  lists_alloc l ++ option_list (list_of (ddp f i)) ≡ₚ lists_freed l ++ option_list (list_of (ddp f' i)) ++ more ->
  (sgl (ddp f' i) <> None -> udl (ddp f' i) <> None) -> (udl (ddp f' i) <> None -> pool (ddp f' i) <> None) -> balanced lost f -> balanced (lost ++ more) f'.
Proof.
  intros Hi Ho Hl Hs Hp W1 W2 [B1 B2 B3 B4]. split.
  - rewrite Hl. unfold sg_mapped, sg_unmapped in *. rewrite !omap_app, B1. destruct (held_update sg_of i f f' Hi Ho) as (rest & -> & ->). by apply balance_step.
  - rewrite Hl. unfold lists_alloc, lists_freed in *. rewrite !omap_app, B2. destruct (held_update list_of i f f' Hi Ho) as (rest & -> & ->).
    rewrite <- (app_assoc (option_list (list_of (ddp f i)))). rewrite (balance_step _ _ _ _ _ (rest ++ lost) Hp). rewrite <- !app_assoc. do 3 apply Permutation_app_head. by rewrite (Permutation_app_comm more), <- app_assoc.
  - intros j. destruct (decide (j = i)) as [->|Hj]; [done|]. rewrite Ho by done. apply B3.
  - intros j. destruct (decide (j = i)) as [->|Hj]; [done|]. rewrite Ho by done. apply B4.
Qed.
Lemma balanced_update lost i f f' l : 0 <= i < 512 -> only_ddp i f f' -> flog f' = flog f ++ l ->
  sg_mapped l ++ option_list (sg_of (ddp f i)) ≡ₚ sg_unmapped l ++ option_list (sg_of (ddp f' i)) ->
  lists_alloc l ++ option_list (list_of (ddp f i)) ≡ₚ lists_freed l ++ option_list (list_of (ddp f' i)) ->
  (sgl (ddp f' i) <> None -> udl (ddp f' i) <> None) -> (udl (ddp f' i) <> None -> pool (ddp f' i) <> None) -> balanced lost f -> balanced lost f'.
Proof. intros Hi Ho Hl Hs Hp W1 W2 HB. rewrite <- (app_nil_r lost). eapply balanced_lost; try done. by rewrite app_nil_r. Qed.
Lemma list_of_none d : udl d = None -> list_of d = None.
Proof. unfold list_of. by intros ->. Qed.
Lemma sg_of_none d : sgl d = None -> sg_of d = None.
Proof. unfold sg_of. by intros ->. Qed.

(** ** Operations keep the balance *)
(** The entries of the log that belong to the contexts. *)
Definition of_contexts (e : fc_effect) : Prop := match e with SgMapped _ _ | SgUnmapped _ _ | SgUnmappedNull _ | PoolAlloc _ _ | PoolFree _ _ => True | _ => False end.
(** The contexts may differ, and the log has grown by entries for them. *)
Definition context_step (f f' : fcoe_state) : Prop := same_pools f f' /\ exists l, flog f' = flog f ++ l /\ Forall of_contexts l.
Lemma context_step_refl f : context_step f f.
Proof. split; [apply same_pools_refl|]. exists []. by rewrite app_nil_r. Qed.
Lemma context_step_trans f g k : context_step f g -> context_step g k -> context_step f k.
Proof. intros [A (l & E & F)] [B (l' & E' & F')]. split; [by eapply same_pools_trans|]. exists (l ++ l'). rewrite E', E, <- app_assoc. split; [done|]. by apply Forall_app. Qed.
Lemma setup_balanced lost e xid sg n tm f h : 0 <= xid -> ddp_xid f <= 511 -> (forall l, dma_map_sg e = Some l -> l <> [] /\ Forall (fun e => 0 < e.2) l) ->
  balanced lost f -> let '((_, f'), _) := ixgbe_fcoe_ddp_setup e xid sg n tm f h in balanced (lost ++ lost_by e xid n f) f' /\ context_step f f'.
Proof.
  intros Hx Hd He HB. unfold lost_by. destruct (decide (xid < 512)) as [Hx'|Hx'].
  2: { unfold ixgbe_fcoe_ddp_setup, refused. rewrite (proj2 (Z.gtb_lt xid (ddp_xid f))), orb_true_r by lia. cbn [orb]. rewrite app_nil_r. destruct (n =? 0); (split; [done|apply context_step_refl]). }
  pose proof (ddp_setup_cases e xid sg n tm f h ltac:(lia) He) as H. destruct (ixgbe_fcoe_ddp_setup e xid sg n tm f h) as [[r f'] h'].
  inversion H as [GR|f0 l GR G1 G2 G3 G4 G5 G6 G7 G8|f0 h0 p a u b j ls ents GR G1 G2 G3 G4 G5 G6 G7 G8 G9 G10 G11 G12 G13]; subst; rewrite GR; (split; [|first [apply context_step_refl|split; [done|eexists; split; [done|]]]]).
  - by rewrite app_nil_r.
  - apply (balanced_lost lost _ xid f f' l); try done; try lia.
    + rewrite !sg_of_none by done. destruct G8 as [->|[->|(p & a & ->)]]; done.
    + rewrite (list_of_none (ddp f' xid)) by done. destruct G8 as [->|[->|(p & a & ->)]]; done.
  - destruct G8 as [->|[->|(p & a & ->)]]; repeat constructor.
  - eapply (balanced_lost lost _ xid f f'); try done; try lia; rewrite ?G7; try done. by rewrite sg_of_none.
  - repeat constructor.
Qed.
Lemma ddp_put_spec lost xid f h : 0 <= xid -> ddp_xid f <= 511 -> balanced lost f ->
  let '((_, f'), _) := ixgbe_fcoe_ddp_put xid f h in balanced lost f' /\ context_step f f' /\ only_ddp xid f f' /\ (xid <= ddp_xid f -> udl (ddp f' xid) = None).
Proof.
  intros Hx Hd HB. unfold ixgbe_fcoe_ddp_put. destruct (Z.gtb_spec xid (ddp_xid f)); [split_and!; [done|apply context_step_refl|done|lia]|].
  destruct (udl (ddp f xid)) as [b|] eqn:Eu; [|split_and!; [done|apply context_step_refl|done|done]]. cbv zeta.
  match goal with |- let '(_, _) := (_ ← ?m; mret (?r, ?g)) h in _ => set (w := m); set (f' := g) end.
  unfold mbind, mret, M_bind, M_ret. destruct (w h) as [[] h'].
  assert (only_ddp xid f f') as Ho by (intros i Hi; cbn; by rewrite fn_lookup_insert_ne). split; [|split_and!; [split; [by split_and!|]|done|intros _; cbn; by rewrite fn_lookup_insert]].
  2: { eexists. split; [cbn; by rewrite <- app_assoc|]. destruct (sgl (ddp f xid)), (pool (ddp f xid)); repeat constructor. }
  pose proof (ba_pool lost f HB xid) as Hp. rewrite Eu in Hp. destruct (pool (ddp f xid)) as [p|] eqn:Ep; [|by destruct (Hp ltac:(done))].
  eapply (balanced_update lost xid f f'); [lia|done|cbn; by rewrite <- app_assoc| | |cbn; by rewrite fn_lookup_insert|cbn; by rewrite fn_lookup_insert|done].
  - unfold sg_mapped, sg_unmapped. cbn [ddp set_ddp f']. rewrite fn_lookup_insert, !omap_app. unfold sg_of at 1. by destruct (sgl (ddp f xid)).
  - unfold lists_alloc, lists_freed. cbn [ddp set_ddp f']. rewrite fn_lookup_insert, !omap_app. unfold list_of at 1. rewrite Eu, Ep. by destruct (sgl (ddp f xid)).
Qed.
Lemma rx_balanced lost staterr rss proto b f : balanced lost f -> let '(_, _, _, f') := ixgbe_fcoe_ddp_rx staterr rss proto b f in balanced lost f' /\ context_step f f'.
Proof.
  intros HB. unfold ixgbe_fcoe_ddp_rx. cbv zeta. set (xid := if truthy _ then ntohs _ else _). assert (0 <= xid) as Hx by (subst xid; destruct (truthy _); apply bswap16_range).
  destruct (Z.geb_spec xid IXGBE_FCOE_DDP_MAX) as [|Hx']; [split; [done|apply context_step_refl]|].
  destruct (udl (ddp f xid)) as [l|] eqn:Eu; [|split; [done|apply context_step_refl]]. destruct (truthy (Z.land staterr _)); [split; [done|apply context_step_refl]|].
  pose proof (ba_pool lost f HB xid) as Hp. rewrite Eu in Hp. specialize (Hp ltac:(done)). clearbody xid.
  assert (forall d' l, udl d' = udl (ddp f xid) -> pool d' = pool (ddp f xid) -> udp d' = udp (ddp f xid) -> lists_alloc l = [] -> lists_freed l = [] ->
    sg_mapped l ++ option_list (sg_of (ddp f xid)) ≡ₚ sg_unmapped l ++ option_list (sg_of d') -> Forall of_contexts l -> balanced lost (set_ddp xid d' (fc_log l f)) /\ context_step f (set_ddp xid d' (fc_log l f))) as G.
  { intros d' l' E1 E2 E3 E4 E5 E6 E7. split; [|split; [by split_and!|by exists l']]. apply (balanced_update lost xid f _ l'); try done; cbn [ddp set_ddp fc_log]; rewrite ?fn_lookup_insert; try done; [intros i Hi; cbn; by rewrite fn_lookup_insert_ne| |by rewrite E1, Eu|by rewrite E2].
    rewrite E4, E5. unfold list_of. by rewrite E1, E2, E3. }
  assert (forall d', set_ddp xid d' f = set_ddp xid d' (fc_log [] f)) as Enil by (intros d'; unfold set_ddp, fc_log; cbn; by rewrite app_nil_r).
  repeat case_match; simplify_eq; try (split; [done|apply context_step_refl]).
  all: try (rewrite Enil; apply G; done).
  all: apply G; try done; try (by repeat constructor); unfold sg_of; repeat match goal with H : sgl _ = _ |- _ => rewrite H end; done.
Qed.

(** ** From start-up to release *)
Definition pools_created (l : list fc_effect) : list Z := omap (fun e => match e with PoolCreate p => Some p | _ => None end) l.
Definition pools_destroyed (l : list fc_effect) : list Z := omap (fun e => match e with PoolDestroy p => Some p | _ => None end) l.
Definition buf_mapped (l : list fc_effect) : list Z := omap (fun e => match e with BufMapped a => Some a | _ => None end) l.
Definition buf_unmapped (l : list fc_effect) : list Z := omap (fun e => match e with BufUnmapped a => Some a | _ => None end) l.
Definition kmallocs (l : list fc_effect) : list Z := omap (fun e => match e with Kmalloc b => Some b | _ => None end) l.
Definition kfrees (l : list fc_effect) : list Z := omap (fun e => match e with Kfree b => Some b | _ => None end) l.
(** The contexts are balanced, and the pools and the extra buffer that were taken and not given back are those that [f] names. *)
Record ledger (lost : list (Z * Z)) (cpus : list Z) (f : fcoe_state) : Prop := {
  le_ddp : balanced lost f;
  le_xid : ddp_xid f = IXGBE_FCOE_DDP_MAX - 1;
  le_on : pools f <> None;
  le_pools : pools_created (flog f) ≡ₚ pools_destroyed (flog f) ++ omap (fun c => (percpu c f).1.1) cpus;
  le_map : extra_buffer f <> None -> buf_mapped (flog f) ≡ₚ buf_unmapped (flog f) ++ [extra_dma f];
  le_mem : kmallocs (flog f) ≡ₚ kfrees (flog f) ++ option_list (extra_buffer f)
}.
(** Everything has been given back, apart from the lists in [lost]. *)
Definition settled (lost : list (Z * Z)) (f : fcoe_state) : Prop :=
  sg_mapped (flog f) ≡ₚ sg_unmapped (flog f) /\ lists_alloc (flog f) ≡ₚ lists_freed (flog f) ++ lost /\ pools_created (flog f) ≡ₚ pools_destroyed (flog f) /\
  buf_mapped (flog f) ≡ₚ buf_unmapped (flog f) /\ kmallocs (flog f) ≡ₚ kfrees (flog f).
(** Calls of the upper layer and received packets, in any order, with the lists that have been lost. *)
Inductive fc_step : fcoe_state * ixgbe_hw * list (Z * Z) -> fcoe_state * ixgbe_hw * list (Z * Z) -> Prop :=
| StepSetup e xid sg n tm f h lost r f' h' : 0 <= xid -> (forall l, dma_map_sg e = Some l -> l <> [] /\ Forall (fun e => 0 < e.2) l) ->
    ixgbe_fcoe_ddp_setup e xid sg n tm f h = ((r, f'), h') -> fc_step (f, h, lost) (f', h', lost ++ lost_by e xid n f)
| StepPut xid f h lost r f' h' : 0 <= xid -> ixgbe_fcoe_ddp_put xid f h = ((r, f'), h') -> fc_step (f, h, lost) (f', h', lost)
| StepRx staterr rss proto b f h lost r c t f' : ixgbe_fcoe_ddp_rx staterr rss proto b f = (r, c, t, f') -> fc_step (f, h, lost) (f', h, lost).
Lemma omap_none {A B} (g : A -> option B) (l : list A) : Forall (fun x => g x = None) l -> omap g l = [].
Proof. induction 1 as [|x l Hx _ IH]; [done|]. cbn. by rewrite Hx. Qed.
Lemma omap_contexts {B} (g : fc_effect -> option B) l l' : (forall e, of_contexts e -> g e = None) -> Forall of_contexts l' -> omap g (l ++ l') = omap g l.
Proof. intros Hg Hl. rewrite omap_app, (omap_none g l'), app_nil_r; [done|]. eapply Forall_impl; [done|]. apply Hg. Qed.
(** Steps of the contexts leave the rest of the ledger as it is. *)
Lemma ledger_step lost lost' cpus f f' : ledger lost cpus f -> balanced lost' f' -> context_step f f' -> ledger lost' cpus f'.
Proof.
  intros [L1 L2 L3 L4 L5 L6] HB [(P1 & P2 & P3 & P4 & P5) (l & El & Hl)]. split; try done; try congruence; [tauto|..].
  all: rewrite El; unfold pools_created, pools_destroyed, buf_mapped, buf_unmapped, kmallocs, kfrees in *; rewrite !omap_contexts by (done || by intros []); rewrite ?P4, ?P5; try done.
  rewrite L4. by rewrite (omap_ext' (fun c => (percpu c f').1.1) (fun c => (percpu c f).1.1)).
Qed.
(** A ledger with the extra buffer still there. *)
Definition ledger_on (cpus : list Z) (s : fcoe_state * ixgbe_hw * list (Z * Z)) : Prop := ledger s.2 cpus s.1.1 /\ extra_buffer s.1.1 <> None.
Lemma fc_step_ledger cpus s s' : fc_step s s' -> ledger_on cpus s -> ledger_on cpus s'.
Proof.
  intros [e xid sg n tm f h lost r f' h' Hx He E|xid f h lost r f' h' Hx E|staterr rss proto b f h lost r c t f' E] [HL Hb]; pose proof (le_xid _ _ _ HL) as Hd; pose proof (le_ddp _ _ _ HL) as HB; cbn [fst snd] in *;
    change (IXGBE_FCOE_DDP_MAX - 1) with 511 in Hd.
  all: assert (forall lost', balanced lost' f' -> context_step f f' -> ledger lost' cpus f' /\ extra_buffer f' <> None) as G by (intros lost' H1 H2; split; [by eapply ledger_step|by destruct H2 as [(_ & _ & _ & -> & _) _]]).
  - pose proof (setup_balanced lost e xid sg n tm f h Hx ltac:(lia) He HB) as H. rewrite E in H. destruct H as [H1 H2]. by apply G.
  - pose proof (ddp_put_spec lost xid f h Hx ltac:(lia) HB) as H. rewrite E in H. destruct H as (H1 & H2 & _). by apply G.
  - pose proof (rx_balanced lost staterr rss proto b f HB) as H. rewrite E in H. destruct H as [H1 H2]. by apply G.
Qed.
Lemma put_all_spec lost n : forall i f h, 0 <= i -> i + Z.of_nat n <= 512 -> ddp_xid f = 511 -> balanced lost f -> (forall j, 0 <= j < i -> udl (ddp f j) = None) ->
  let '(f', _) := put_all n i f h in balanced lost f' /\ context_step f f' /\ (forall j, 0 <= j < i + Z.of_nat n -> udl (ddp f' j) = None).
Proof.
  induction n as [|n IH]; intros i f h Hi Hn Hd HB Hf.
  - split_and!; [done|apply context_step_refl|]. intros j Hj. apply Hf. lia.
  - cbn [put_all]. unfold mbind, M_bind. pose proof (ddp_put_spec lost i f h Hi ltac:(lia) HB) as H. destruct (ixgbe_fcoe_ddp_put i f h) as [[r f1] h1]. destruct H as (B1 & C1 & O1 & U1). cbn [snd].
    specialize (IH (i + 1) f1 h1 ltac:(lia) ltac:(lia)). destruct (put_all n (i + 1) f1 h1) as [f2 h2]. destruct IH as (B2 & C2 & U2); [destruct C1 as [[-> _] _]; done|done| |].
    + intros j Hj. destruct (decide (j = i)) as [->|]; [apply U1; lia|]. rewrite O1 by done. apply Hf. lia.
    + split_and!; [done|by eapply context_step_trans|]. intros j Hj. apply U2. lia.
Qed.
Lemma held_none {A} (g : ixgbe_fcoe_ddp -> option A) f : (forall i, 0 <= i < 512 -> g (ddp f i) = None) -> held g f = [].
Proof. intros H. apply omap_none, Forall_forall. intros i Hi. apply H. apply elem_of_seqZ in Hi. lia. Qed.
(** Destroying the pools of the CPUs. *)
Lemma pools_free_spec cpus : forall f, NoDup cpus ->
  let f' := foldl (fun f c => ixgbe_fcoe_dma_pool_free c f) f cpus in
  flog f' = flog f ++ map PoolDestroy (omap (fun c => (percpu c f).1.1) cpus) /\ extra_buffer f' = extra_buffer f /\ extra_dma f' = extra_dma f /\ ddp f' = ddp f.
Proof.
  induction cpus as [|c cpus IH]; intros f HN; cbn [foldl]; [cbn; by rewrite app_nil_r|]. apply NoDup_cons in HN as [Hc HN]. specialize (IH (ixgbe_fcoe_dma_pool_free c f) HN). cbv zeta in *.
  destruct IH as (-> & -> & -> & ->). unfold ixgbe_fcoe_dma_pool_free. destruct (percpu c f) as [[p x] y] eqn:E. cbn [flog set_percpu set_pools fc_log extra_buffer extra_dma ddp omap list_omap]. split_and!; try done. rewrite E. cbn [fst].
  rewrite <- app_assoc. f_equal. rewrite (omap_ext' _ (fun c => (percpu c f).1.1)); [by destruct p|]. intros c' Hc'. unfold percpu at 1. cbn. destruct (Z.eqb_spec c' c) as [->|]; [done|]. unfold percpu. cbn. by destruct (pools f).
Qed.
Lemma omap_map {A B C} (g : B -> option C) (k : A -> B) (l : list A) : omap g (map k l) = omap (fun x => g (k x)) l.
Proof. induction l as [|x l IH]; [done|]. cbn. by rewrite IH. Qed.
Lemma omap_some {A} (l : list A) : omap Some l = l.
Proof. induction l as [|x l IH]; [done|]. cbn. by rewrite IH. Qed.
Lemma omap_nothing {A B} (l : list A) : omap (fun _ => @None B) l = [].
Proof. apply omap_none, Forall_forall. done. Qed.
Lemma free_settles lost cpus f h : NoDup cpus -> ledger lost cpus f -> extra_buffer f <> None -> let '(f', _) := ixgbe_free_fcoe_ddp_resources cpus f h in
  settled lost f' /\ (forall i, 0 <= i < 512 -> udl (ddp f' i) = None) /\ extra_buffer f' = None.
Proof.
  intros HN HL He. unfold ixgbe_free_fcoe_ddp_resources. destruct (pools f) as [pl|] eqn:Ep; [|by destruct (le_on _ _ _ HL)]. unfold mbind, M_bind, mret, M_ret.
  change (Z.to_nat IXGBE_FCOE_DDP_MAX) with 512%nat. pose proof (put_all_spec lost 512 0 f h ltac:(lia) ltac:(lia) (le_xid _ _ _ HL) (le_ddp _ _ _ HL) ltac:(lia)) as H.
  destruct (put_all 512 0 f h) as [f1 h1]. destruct H as (B1 & C1 & U1). pose proof (ledger_step _ _ _ _ _ HL B1 C1) as L1. assert (extra_buffer f1 <> None) as He1 by (destruct C1 as [(_ & _ & _ & -> & _) _]; done).
  pose proof (pools_free_spec cpus f1 HN) as H. cbv zeta in H. set (f2 := foldl _ f1 cpus) in *. destruct H as (EL & EB & ED & EC). clearbody f2. clear C1 HL He Ep pl h f h1.
  split; [|split; [intros i Hi; cbn; rewrite EC; apply U1; lia|done]].
  assert (held sg_of f1 = []) as Hs.
  { apply held_none. intros i Hi. apply sg_of_none. destruct (sgl (ddp f1 i)) eqn:Es; [|done]. destruct (ba_udl lost f1 B1 i); [by rewrite Es|]. apply U1. lia. }
  assert (held list_of f1 = []) as Hl by (apply held_none; intros i Hi; apply list_of_none, U1; lia).
  destruct L1 as [[G1 G2 _ _] _ _ G3 G4 G5]. specialize (G4 He1). rewrite Hs in G1. rewrite Hl in G2. destruct (extra_buffer f1) as [b|]; [|done]. cbn [option_list option_rect] in G5.
  unfold settled, sg_mapped, sg_unmapped, lists_alloc, lists_freed, pools_created, pools_destroyed, buf_mapped, buf_unmapped, kmallocs, kfrees in *.
  cbn [flog set_extra fc_log extra_dma extra_buffer]. rewrite EB, ED, EL. rewrite !omap_app, !omap_map, ?omap_nothing, ?omap_some. cbn [omap list_omap]. rewrite !app_nil_r in *. by split_and!.
Qed.
Lemma alloc_pools_spec create cpus : forall f, pools f <> None -> exists done rest,
  let '(ok, f') := alloc_pools create cpus f in cpus = done ++ rest /\ (ok = true -> rest = []) /\
  ddp f' = ddp f /\ ddp_xid f' = ddp_xid f /\ extra_buffer f' = extra_buffer f /\ extra_dma f' = extra_dma f /\ pools f' <> None /\
  flog f' = flog f ++ map PoolCreate (omap create done) /\ (NoDup cpus -> forall c, (percpu c f').1.1 = if decide (c ∈ done) then create c else (percpu c f).1.1).
Proof.
  induction cpus as [|c cpus IH]; intros f Hp.
  - exists [], []. cbn. rewrite app_nil_r. by split_and!.
  - cbn [alloc_pools]. unfold ixgbe_fcoe_dma_pool_alloc. destruct (create c) as [p|] eqn:Ec; cbn [Z.eqb Z.opp].
    + destruct (IH (set_percpu c (Some p, 0, 0) (fc_log [PoolCreate p] f)) ltac:(done)) as (d & rest & H). exists (c :: d), rest. destruct (alloc_pools _ _ _) as [ok f'].
      destruct H as (-> & H1 & -> & -> & -> & -> & H2 & -> & H3). split_and!; try done.
      * cbn. by rewrite Ec, <- app_assoc.
      * intros [Hc HN]%NoDup_cons c'. rewrite H3 by done. destruct (decide (c' = c)) as [->|Hne].
        { rewrite (decide_True (P := c ∈ c :: d)) by (apply elem_of_cons; by left). rewrite decide_False by (intros Hin; apply Hc, elem_of_app; by left). unfold percpu. cbn. by rewrite Z.eqb_refl. }
        destruct (decide (c' ∈ d)) as [Hin|Hin]; [by rewrite decide_True by (apply elem_of_cons; by right)|]. rewrite decide_False by (rewrite elem_of_cons; tauto).
        unfold percpu. cbn. rewrite (proj2 (Z.eqb_neq c' c)) by done. by destruct (pools f).
    + exists [], (c :: cpus). cbn. rewrite app_nil_r. by split_and!.
Qed.
(** As [ixgbe_fcoe_ddp_enable] leaves it: no context and no pool. *)
Record fcoe_enabled (f : fcoe_state) : Prop := {
  en_log : flog f = []; en_ddp : forall i, udl (ddp f i) = None /\ sgl (ddp f i) = None; en_xid : ddp_xid f = IXGBE_FCOE_DDP_MAX - 1;
  en_on : pools f <> None; en_pools : forall c, (percpu c f).1.1 = None; en_extra : extra_buffer f = None
}.
Lemma enabled_balanced f : fcoe_enabled f -> forall f', ddp f' = ddp f -> Forall (fun e => ~ of_contexts e) (flog f') -> balanced [] f'.
Proof.
  intros HE f' Ed Hl. assert (forall {B} (g : fc_effect -> option B), (forall e, ~ of_contexts e -> g e = None) -> omap g (flog f') = []) as Hn.
  { intros B g Hg. apply omap_none. eapply Forall_impl; [done|]. apply Hg. }
  split.
  - unfold sg_mapped, sg_unmapped. rewrite !Hn by (intros []; naive_solver). rewrite held_none; [done|]. intros i _. rewrite Ed. apply sg_of_none, HE.
  - unfold lists_alloc, lists_freed. rewrite !Hn by (intros []; naive_solver). rewrite held_none; [done|]. intros i _. rewrite Ed. apply list_of_none, HE.
  - intros i. rewrite Ed. by rewrite (proj2 (en_ddp f HE i)).
  - intros i. rewrite Ed. by rewrite (proj1 (en_ddp f HE i)).
Qed.
Lemma setup_ledger cpus buffer a create f : fcoe_enabled f -> NoDup cpus -> let '(ok, f') := alloc_pools create cpus (set_extra (Some buffer) a (fc_log [Kmalloc buffer; BufMapped a] f)) in
  ledger [] cpus f' /\ extra_buffer f' <> None.
Proof.
  intros HE HN. set (f1 := set_extra _ _ _). destruct (alloc_pools_spec create cpus f1 (en_on f HE)) as (d & rest & H). destruct (alloc_pools create cpus f1) as [ok f'].
  destruct H as (Ec & _ & H1 & H2 & H3 & H4 & H5 & H6 & H7). specialize (H7 HN). cbn [ddp ddp_xid extra_buffer extra_dma flog f1 set_extra fc_log] in *. rewrite (en_log f HE) in H6. cbn [app] in H6.
  assert (omap (fun c => (percpu c f').1.1) cpus = omap create d) as Hpl.
  { subst cpus. apply NoDup_app in HN as (_ & HN & _). rewrite omap_app. rewrite (omap_none _ rest), app_nil_r.
    - apply omap_ext'. intros c Hc. by rewrite H7, decide_True.
    - apply Forall_forall. intros c Hc. rewrite H7, decide_False by (intros Hin; by apply (HN c)). apply (en_pools f HE). }
  split; [|by rewrite H3]. split; try done; [|by rewrite H2; apply (en_xid f HE)|..].
  - apply (enabled_balanced f HE f' H1). rewrite H6. apply Forall_cons. split; [by intros []|]. apply Forall_cons. split; [by intros []|]. apply Forall_map, Forall_forall. intros c _ [].
  - unfold pools_created, pools_destroyed. rewrite H6, Hpl. cbn [omap list_omap]. by rewrite !omap_map, omap_some, omap_nothing.
  - intros _. unfold buf_mapped, buf_unmapped. rewrite H6, H4. cbn [omap list_omap]. by rewrite !omap_map, omap_nothing.
  - unfold kmallocs, kfrees. rewrite H6, H3. cbn [omap list_omap]. by rewrite !omap_map, omap_nothing.
Qed.

(** C26. What direct data placement takes is given back, each thing once, with one exception that is exactly described. From the state that
    [ixgbe_fcoe_ddp_enable] leaves, when [ixgbe_setup_fcoe_ddp_resources] succeeds, after any sequence of set-ups (refused, failed or successful), completions and
    received packets the mapped scatter lists are those that have been unmapped and, once each, those of the contexts; the lists taken from the pools are those
    that have been given back, once each those of the contexts, and those that were lost: a set-up of an exchange whose FCP_RSP has arrived and which has not
    been released with [ixgbe_fcoe_ddp_put] is accepted and drops the list of the context. [ixgbe_free_fcoe_ddp_resources] then clears every context and has
    given back every mapping, pool and buffer and every list but the lost ones exactly once. When the set-up of the resources fails, wherever it fails,
    everything it took has been given back. *)
Theorem ddp_balanced buffer dma create cpus f0 h0 : fcoe_enabled f0 -> NoDup cpus ->
  let '((r, f1), h1) := ixgbe_setup_fcoe_ddp_resources buffer dma create cpus f0 h0 in
  (r = 0 -> forall f2 h2 lost, rtc fc_step (f1, h1, []) (f2, h2, lost) -> balanced lost f2 /\
     let '(f3, _) := ixgbe_free_fcoe_ddp_resources cpus f2 h2 in settled lost f3 /\ (forall i, 0 <= i < 512 -> udl (ddp f3 i) = None)) /\
  (r <> 0 -> settled [] f1).
Proof.
  intros HE HN. unfold ixgbe_setup_fcoe_ddp_resources. destruct (pools f0) eqn:Ep; [|by destruct (en_on f0 HE)].
  destruct buffer as [b|]; [|split; [done|]; intros _; unfold settled; by rewrite (en_log f0 HE)]. destruct dma as [a|]; [|split; [done|]; intros _; unfold settled; cbn; by rewrite (en_log f0 HE)].
  pose proof (setup_ledger cpus b a create f0 HE HN) as H. cbv zeta. destruct (alloc_pools _ _ _) as [ok f1]. destruct H as [HL He]. destruct ok.
  - split; [|done]. intros _ f2 h2 lost Hr.
    destruct (rtc_invariant fc_step (ledger_on cpus) ltac:(intros ?? Hi Hs; by eapply fc_step_ledger) _ _ Hr (conj HL He)) as [HL2 He2]. cbn [fst snd] in *.
    split; [apply HL2|]. pose proof (free_settles lost cpus f2 h2 HN HL2 He2) as H. destruct (ixgbe_free_fcoe_ddp_resources cpus f2 h2). tauto.
  - pose proof (free_settles [] cpus f1 h0 HN HL He) as H. unfold mbind, M_bind, mret, M_ret. destruct (ixgbe_free_fcoe_ddp_resources cpus f1 h0). split; [done|]. intros _. tauto.
Qed.

(** ** Witnesses *)

(** A driver with two pools, and an exchange of 10000 bytes in two pieces that end with a full page. *)
Definition fcoe_idle : fcoe_state := Fcoe (fun _ => Ddp 0 1 0 None 0 None None) (Some (fun _ => (None, 0, 0))) None 0 false 511 [].
Definition fcoe_up : fcoe_state := Fcoe (fun _ => Ddp 0 1 0 None 0 None None) (Some (fun c => (if c <? 2 then Some (50 + c) else None, 0, 0))) (Some 7) 0x900000 false 511 [].
Definition fcoe_env : ddp_env := DdpEnv 1 (Some [(0x10200, 0xe00); (0x30000, 0x3000)]) (Some 0x123456780) false.
Lemma ddp_places_witness : exists f' h', ixgbe_fcoe_ddp_setup fcoe_env 5 77 2 false fcoe_up idle_hw = ((1, f'), h') /\
  exists j off lastsize b, placed 0x900000 [(0x10200, 0xe00); (0x30000, 0x3000)] (ddp f' 5) j off lastsize b /\ programmed 5 j off lastsize (udp (ddp f' 5)) false (tr h') /\
    sgl (ddp f' 5) = Some 77 /\ sgc (ddp f' 5) = 2 /\ only_ddp 5 fcoe_up f'.
Proof.
  assert ((ixgbe_fcoe_ddp_setup fcoe_env 5 77 2 false fcoe_up idle_hw).1.1 = 1) as Hr by by vm_compute.
  destruct (ixgbe_fcoe_ddp_setup fcoe_env 5 77 2 false fcoe_up idle_hw) as [[r f'] h'] eqn:E. cbn [fst] in Hr. rewrite Hr in E |- *. clear Hr. exists f', h'. split; [reflexivity|].
  apply (ddp_places fcoe_env 5 77 2 false fcoe_up idle_hw f' h'); [done|reflexivity|done| |exact E]. constructor; [done|constructor; [done|constructor]].
Defined.
Definition two_pools (c : Z) : option Z := Some (50 + c).
Lemma fcoe_idle_enabled : fcoe_enabled fcoe_idle.
Proof. by split. Qed.
Lemma ddp_balanced_witness :
  let '((r, f1), h1) := ixgbe_setup_fcoe_ddp_resources (Some 7) (Some 0x900000) two_pools [0; 1] fcoe_idle idle_hw in
  let '((_, f2), h2) := ixgbe_fcoe_ddp_setup fcoe_env 5 77 2 false f1 h1 in
  r = 0 /\ sg_mapped (flog f2) = [(77, 2)] /\ let '(f3, _) := ixgbe_free_fcoe_ddp_resources [0; 1] f2 h2 in settled [] f3.
Proof.
  pose proof (ddp_balanced (Some 7) (Some 0x900000) two_pools [0; 1] fcoe_idle idle_hw fcoe_idle_enabled ltac:(constructor; [by intros [|[]%elem_of_nil]%elem_of_cons|apply NoDup_singleton])) as H.
  assert ((ixgbe_setup_fcoe_ddp_resources (Some 7) (Some 0x900000) two_pools [0; 1] fcoe_idle idle_hw).1.1 = 0) as Hr by by vm_compute.
  assert (let '((r, f1), h1) := ixgbe_setup_fcoe_ddp_resources (Some 7) (Some 0x900000) two_pools [0; 1] fcoe_idle idle_hw in
    lost_by fcoe_env 5 2 f1 = [] /\ sg_mapped (flog (ixgbe_fcoe_ddp_setup fcoe_env 5 77 2 false f1 h1).1.2) = [(77, 2)]) as Hm by (vm_compute; by split).
  destruct (ixgbe_setup_fcoe_ddp_resources _ _ _ _ _ _) as [[r f1] h1]. destruct Hm as [Hu Hm]. destruct (ixgbe_fcoe_ddp_setup fcoe_env 5 77 2 false f1 h1) as [[r' f2] h2] eqn:E.
  destruct H as [H _]. pose proof (StepSetup fcoe_env 5 77 2 false f1 h1 [] r' f2 h2 ltac:(done) ltac:(by intros l [= <-]; split; [|repeat constructor]) E) as Hs. rewrite Hu in Hs. specialize (H Hr f2 h2 [] (rtc_once _ _ Hs)).
  destruct H as [_ H]. destruct (ixgbe_free_fcoe_ddp_resources [0; 1] f2 h2). split; [done|]. split; [done|apply H].
Defined.
(** An exchange that is set up again after its FCP_RSP and before it is released: the first list is lost. *)
Definition fcp_rsp : fcoe_state -> fcoe_state := fun f => (ixgbe_fcoe_ddp_rx IXGBE_RXDADV_STAT_FCSTAT_FCPRSP 10000 0 (fun i => if i =? 33 then 5 else 0) f).2.
Example list_lost :
  let f1 := fcp_rsp (ixgbe_fcoe_ddp_setup fcoe_env 5 77 2 false fcoe_up idle_hw).1.2 in
  sg_unmapped (flog f1) = [(77, 2)] /\ (ixgbe_fcoe_ddp_setup fcoe_env 5 78 2 false f1 idle_hw).1.1 = 1 /\ lost_by fcoe_env 5 2 f1 = [(51, 0x123456780)].
Proof. split_and!; vm_compute; reflexivity. Qed.
