(* ===== verification/RxRing.v ===== *)
(** * Receive rings ([ixgbe_main.c])

    Receiving on an ordinary port, as the Makefile builds it (without packet split): buffers are handed to the adapter, the received ones are taken
    from the ring, the buffers of one packet are chained, and the packet goes to the stack or to [Lro]. Socket buffers are objects in a store,
    linked by references as in the code: [head] and [tail] of [struct ixgbe_cb] are the same field, here [partner]. Live DMA mappings are part of
    the state. A null pointer, where the code would follow one, is the outcome [None]. Hardware time stamps are off. *)
From S2P Require Import Prelude Hw Bits FlowDir FlowFilters Sriov Queues Lro Fcoe.
Open Scope Z_scope.

Definition IXGBE_RX_BUFFER_WRITE : Z := 16.
Definition IXGBE_RXD_STAT_DD : Z := 0x01.
Definition IXGBE_RXD_STAT_EOP : Z := 0x02.
Definition IXGBE_RXD_STAT_VP : Z := 0x08.
Definition IXGBE_RXD_STAT_L4CS : Z := 0x20.
Definition IXGBE_RXD_STAT_IPCS : Z := 0x40.
Definition IXGBE_RXDADV_NEXTP_MASK : Z := 0x000FFFF0.
Definition IXGBE_RXDADV_NEXTP_SHIFT : Z := 0x00000004.
Definition IXGBE_RXDADV_ERR_CE : Z := 0x01000000.
Definition IXGBE_RXDADV_ERR_LE : Z := 0x02000000.
Definition IXGBE_RXDADV_ERR_PE : Z := 0x08000000.
Definition IXGBE_RXDADV_ERR_OSE : Z := 0x10000000.
Definition IXGBE_RXDADV_ERR_USE : Z := 0x20000000.
Definition IXGBE_RXDADV_ERR_TCPE : Z := 0x40000000.
Definition IXGBE_RXDADV_ERR_IPE : Z := 0x80000000.
Definition IXGBE_RXDADV_ERR_FRAME_ERR_MASK : Z :=
  Z.lor (Z.lor (Z.lor (Z.lor IXGBE_RXDADV_ERR_CE IXGBE_RXDADV_ERR_LE) IXGBE_RXDADV_ERR_PE) IXGBE_RXDADV_ERR_OSE) IXGBE_RXDADV_ERR_USE.
Definition IXGBE_RXDADV_RSCCNT_MASK : Z := 0x001E0000.
Definition IXGBE_RXDADV_RSCCNT_SHIFT : Z := 17.
Definition IXGBE_RXDADV_PKTTYPE_UDP : Z := 0x00000200.
Definition IXGBE_RXDADV_PKTTYPE_ETQF_MASK : Z := 0x00000070.
Definition IXGBE_RXDADV_PKTTYPE_ETQF_SHIFT : Z := 4.
(** Of the kernel's headers. *)
Definition ETH_HLEN : Z := 14.
Definition VLAN_HLEN : Z := 4.
Definition sizeof_iphdr : Z := 20.
Definition sizeof_ipv6hdr : Z := 40.
Definition sizeof_udphdr : Z := 8.
Definition IPPROTO_UDP : Z := 17.
Definition FCOE_HEADER_LEN : Z := 38.
Definition sizeof_fcoe_crc_eof : Z := 8.
Definition sizeof_fc_frame_header : Z := 24.
Definition FC_EOF_T : Z := 0x42.
Definition ETH_P_802_2 : Z := 0x0004.
Definition ETH_P_802_3 : Z := 0x0001.
Definition DIV_ROUND_UP (n d : Z) : Z := (n + d - 1) / d.

(** ** The length of the headers

    [ixgbe_get_headlen]. The lengths of [sizeof] are 64 bits wide and unsigned, so are the differences that the position is compared with. *)
Definition tcp_udp_headlen (data : Z -> Z) (max_len network nexthdr : Z) : Z :=
  let finish network := if network <? max_len then network else max_len in
  if nexthdr =? IPPROTO_TCP then
    if network >? u64 (max_len - sizeof_tcphdr) then max_len
    else
      let hlen := Z.shiftr (Z.land (data (network + 12)) 0xF0) 2 in
      if hlen <? sizeof_tcphdr then network else finish (network + hlen)
  else if nexthdr =? IPPROTO_UDP then
    if network >? u64 (max_len - sizeof_udphdr) then max_len else finish (network + sizeof_udphdr)
  else finish network.
Definition ixgbe_get_headlen (data : Z -> Z) (max_len : Z) : Z :=
  if max_len <? ETH_HLEN then max_len
  else
    let l3 protocol network :=
      if protocol =? htons ETH_P_IP then
        if network >? u64 (max_len - sizeof_iphdr) then max_len
        else
          let hlen := Z.shiftl (Z.land (data network) 0x0F) 2 in
          if hlen <? sizeof_iphdr then network
          else tcp_udp_headlen data max_len (network + hlen) (if truthy (Z.land (load16 data (network + 6)) (htons IP_OFFSET)) then 0 else data (network + 9))
      else if protocol =? htons ETH_P_IPV6 then
        if network >? u64 (max_len - sizeof_ipv6hdr) then max_len
        else tcp_udp_headlen data max_len (network + sizeof_ipv6hdr) (data (network + 6))
      else if protocol =? htons ETH_P_FCOE then
        if network >? u32 (max_len - FCOE_HEADER_LEN) then max_len
        else tcp_udp_headlen data max_len (network + FCOE_HEADER_LEN) 0
      else network in
    let protocol := load16 data 12 in
    if protocol =? htons ETH_P_8021Q then
      if ETH_HLEN >? u32 (max_len - VLAN_HLEN) then max_len else l3 (load16 data (ETH_HLEN + 2)) (ETH_HLEN + VLAN_HLEN)
    else l3 protocol ETH_HLEN.

(** ** State *)

(** The two words of a descriptor: as read by the adapter, the addresses; as written back, information and hash, and status, length and tag. *)
Record rx_desc := RxDesc { pkt_addr : Z; hdr_addr : Z }.
Definition wb_data (d : rx_desc) : Z := u32 (pkt_addr d).
Definition pkt_info (d : rx_desc) : Z := u16 (pkt_addr d).
Definition rss (d : rx_desc) : Z := Z.shiftr (pkt_addr d) 32.
Definition status_error (d : rx_desc) : Z := u32 (hdr_addr d).
Definition wb_length (d : rx_desc) : Z := u16 (Z.shiftr (hdr_addr d) 32).
Definition wb_vlan (d : rx_desc) : Z := Z.shiftr (hdr_addr d) 48.
Definition ixgbe_test_staterr (d : rx_desc) (bits : Z) : Z := Z.land (status_error d) bits.

(** [struct ixgbe_rx_buffer], [struct ixgbe_cb], and the parts of [struct sk_buff] that are used; [m_off] is how far [skb->data] has moved. *)
Record rx_buffer := Buf { bskb : option Z; bdma : Z }.
Record rx_cb := RxCb { partner : option Z; cdma : Z; cappend : Z }.
Record rx_meta := Meta { m_off : Z; m_hash : Z; m_csum : bool; m_vlan : Z; m_proto : Z; m_queue : Z; m_gso : Z }.
Record rx_skb := RxSkb { rbytes : Z -> Z; rlen : Z; rdata_len : Z; rtruesize : Z; rnext : option Z; rfrag : option Z; rcb : rx_cb; rmeta : rx_meta }.
Definition set_rlens l d t s := RxSkb (rbytes s) l d t (rnext s) (rfrag s) (rcb s) (rmeta s).
Definition set_rnext v s := RxSkb (rbytes s) (rlen s) (rdata_len s) (rtruesize s) v (rfrag s) (rcb s) (rmeta s).
Definition set_rfrag v s := RxSkb (rbytes s) (rlen s) (rdata_len s) (rtruesize s) (rnext s) v (rcb s) (rmeta s).
Definition set_rcb v s := RxSkb (rbytes s) (rlen s) (rdata_len s) (rtruesize s) (rnext s) (rfrag s) v (rmeta s).
Definition set_rmeta v s := RxSkb (rbytes s) (rlen s) (rdata_len s) (rtruesize s) (rnext s) (rfrag s) (rcb s) v.
Definition set_rbytes v s := RxSkb v (rlen s) (rdata_len s) (rtruesize s) (rnext s) (rfrag s) (rcb s) (rmeta s).
Definition set_partner v s := set_rcb (RxCb v (cdma (rcb s)) (cappend (rcb s))) s.
Definition set_cdma v s := set_rcb (RxCb (partner (rcb s)) v (cappend (rcb s))) s.
Definition set_cappend v s := set_rcb (RxCb (partner (rcb s)) (cdma (rcb s)) v) s.
Definition set_moff v m := Meta v (m_hash m) (m_csum m) (m_vlan m) (m_proto m) (m_queue m) (m_gso m).
Definition set_mhash v m := Meta (m_off m) v (m_csum m) (m_vlan m) (m_proto m) (m_queue m) (m_gso m).
Definition set_mcsum v m := Meta (m_off m) (m_hash m) v (m_vlan m) (m_proto m) (m_queue m) (m_gso m).
Definition set_mvlan v m := Meta (m_off m) (m_hash m) (m_csum m) v (m_proto m) (m_queue m) (m_gso m).
Definition set_mproto v m := Meta (m_off m) (m_hash m) (m_csum m) (m_vlan m) v (m_queue m) (m_gso m).
Definition set_mqueue v m := Meta (m_off m) (m_hash m) (m_csum m) (m_vlan m) (m_proto m) v (m_gso m).
Definition set_mgso v m := Meta (m_off m) (m_hash m) (m_csum m) (m_vlan m) (m_proto m) (m_queue m) v.

(** Statistics: those of the queue, [packets] and [bytes], and those of the vector. *)
Record rx_stats := RxStats { rsc_count : Z; rsc_flush : Z; non_eop_descs : Z; alloc_rx_buff_failed : Z; csum_err : Z; packets : Z; rbytes_total : Z; qv_packets : Z; qv_bytes : Z }.
Definition add_rsc n st := RxStats (u64 (rsc_count st + n)) (u64 (rsc_flush st + 1)) (non_eop_descs st) (alloc_rx_buff_failed st) (csum_err st) (packets st) (rbytes_total st) (qv_packets st) (qv_bytes st).
Definition inc_non_eop st := RxStats (rsc_count st) (rsc_flush st) (u64 (non_eop_descs st + 1)) (alloc_rx_buff_failed st) (csum_err st) (packets st) (rbytes_total st) (qv_packets st) (qv_bytes st).
Definition inc_failed st := RxStats (rsc_count st) (rsc_flush st) (non_eop_descs st) (u64 (alloc_rx_buff_failed st + 1)) (csum_err st) (packets st) (rbytes_total st) (qv_packets st) (qv_bytes st).
Definition inc_csum_err st := RxStats (rsc_count st) (rsc_flush st) (non_eop_descs st) (alloc_rx_buff_failed st) (u64 (csum_err st + 1)) (packets st) (rbytes_total st) (qv_packets st) (qv_bytes st).
Definition add_totals p b st :=
  RxStats (rsc_count st) (rsc_flush st) (non_eop_descs st) (alloc_rx_buff_failed st) (csum_err st) (u64 (packets st + p)) (u64 (rbytes_total st + b)) (u32 (qv_packets st + p)) (u32 (qv_bytes st + b)).

(** What is asked of the kernel, and the writes to the tail register. *)
Inductive rx_effect := Alloc (s : Z) | Freed (s : Z) | Mapped (a : Z) | Unmapped (a : Z) | Tail (v : Z) | Handed (p : lskb).
(** The ring: descriptors, buffers, indices; the socket buffers, the live DMA mappings (address to socket buffer), the LRO list of the vector and
    the FCoE state. Socket buffers are numbered by [calls], the calls of the kernel's allocators so far. *)
Record rx_ring := RxRing {
  rdesc : Z -> rx_desc; rinfo : Z -> rx_buffer; r_use : Z; r_clean : Z; rstats : rx_stats; skbs : Z -> rx_skb;
  live : Z -> option Z; calls : Z; lro : lro_list; rfcoe : fcoe_state; rlog : list rx_effect
}.
Definition set_rdesc i v r := RxRing (<[i := v]> (rdesc r)) (rinfo r) (r_use r) (r_clean r) (rstats r) (skbs r) (live r) (calls r) (lro r) (rfcoe r) (rlog r).
Definition set_rinfo i v r := RxRing (rdesc r) (<[i := v]> (rinfo r)) (r_use r) (r_clean r) (rstats r) (skbs r) (live r) (calls r) (lro r) (rfcoe r) (rlog r).
Definition set_use v r := RxRing (rdesc r) (rinfo r) v (r_clean r) (rstats r) (skbs r) (live r) (calls r) (lro r) (rfcoe r) (rlog r).
Definition set_rclean v r := RxRing (rdesc r) (rinfo r) (r_use r) v (rstats r) (skbs r) (live r) (calls r) (lro r) (rfcoe r) (rlog r).
Definition set_rstats f r := RxRing (rdesc r) (rinfo r) (r_use r) (r_clean r) (f (rstats r)) (skbs r) (live r) (calls r) (lro r) (rfcoe r) (rlog r).
Definition set_skb i f r := RxRing (rdesc r) (rinfo r) (r_use r) (r_clean r) (rstats r) (<[i := f (skbs r i)]> (skbs r)) (live r) (calls r) (lro r) (rfcoe r) (rlog r).
Definition set_live a v r := RxRing (rdesc r) (rinfo r) (r_use r) (r_clean r) (rstats r) (skbs r) (<[a := v]> (live r)) (calls r) (lro r) (rfcoe r) (rlog r).
Definition inc_calls r := RxRing (rdesc r) (rinfo r) (r_use r) (r_clean r) (rstats r) (skbs r) (live r) (calls r + 1) (lro r) (rfcoe r) (rlog r).
Definition set_lro v r := RxRing (rdesc r) (rinfo r) (r_use r) (r_clean r) (rstats r) (skbs r) (live r) (calls r) v (rfcoe r) (rlog r).
Definition set_rfcoe v r := RxRing (rdesc r) (rinfo r) (r_use r) (r_clean r) (rstats r) (skbs r) (live r) (calls r) (lro r) v (rlog r).
Definition add_log l r := RxRing (rdesc r) (rinfo r) (r_use r) (r_clean r) (rstats r) (skbs r) (live r) (calls r) (lro r) (rfcoe r) (rlog r ++ l).

(** What does not change: [pbm], the ring is the capture port's; flags of the ring; features of the device. *)
Record rx_conf := RxConf {
  rcount : Z; rx_buf_len : Z; pbm : bool; rsc_enabled : bool; ring_fcoe : bool; csum_udp_zero_err : bool; f_rxhash : bool; f_rxcsum : bool;
  f_vlan_rx : bool; f_lro : bool; promisc : bool; queue_index : Z; mtu : Z
}.
(** The kernel: a new socket buffer (its size and what its memory contains) or none; a DMA address, given the live ones, or none; the IP checksum. *)
Record rx_kernel := RxKernel { alloc_skb : Z -> option (Z * (Z -> Z)); map_single : (Z -> option Z) -> Z -> option Z; ip_fast_csum : (Z -> Z) -> Z }.

Section Ring.
Context (C : rx_conf) (K : rx_kernel).

Definition ixgbe_desc_unused (r : rx_ring) : Z := u16 ((if r_clean r >? r_use r then 0 else rcount C) + r_clean r - r_use r - 1).
Definition dma_unmap_single (a : Z) (r : rx_ring) : rx_ring := add_log [Unmapped a] (set_live a None r).
(** The list that begins at [s]; no list is longer than the ring. *)
Fixpoint walk (fuel : nat) (s : option Z) (r : rx_ring) : list Z :=
  match fuel, s with S fuel, Some s => s :: walk fuel (rnext (skbs r s)) r | _, _ => [] end.
Definition chain (s : Z) (r : rx_ring) : list Z := walk (Z.to_nat (rcount C)) (rfrag (skbs r s)) r.
(** [dev_kfree_skb_any]: a socket buffer and those of its fragment list. *)
Definition kfree_skb (s : Z) (r : rx_ring) : rx_ring := add_log (map Freed (s :: chain s r)) r.

(** ** Handing out buffers *)
Definition ixgbe_release_rx_desc (v : Z) (r : rx_ring) : rx_ring := add_log [Tail v] (set_use v r).
Definition new_skb (t : Z) (b : Z -> Z) : rx_skb := RxSkb b 0 0 t None None (RxCb None 0 0) (Meta 0 0 false 0 0 0 0).
Definition netdev_alloc_skb (r : rx_ring) : option Z * rx_ring :=
  let k := calls r in
  match alloc_skb K k with
  | None => (None, inc_calls r)
  | Some (t, b) => (Some k, add_log [Alloc k] (inc_calls (set_skb k (fun _ => new_skb t b) r)))
  end.
Definition dma_map_single (s : Z) (r : rx_ring) : option Z * rx_ring :=
  match map_single K (live r) (calls r) with
  | None => (None, inc_calls r)
  | Some a => (Some a, add_log [Mapped a] (inc_calls (set_live a (Some s) r)))
  end.
Definition ixgbe_alloc_mapped_skb (i : Z) (r : rx_ring) : bool * rx_ring :=
  if truthy (bdma (rinfo r i)) then (true, r)
  else
    let '(s, r) := match bskb (rinfo r i) with Some s => (Some s, r) | None => netdev_alloc_skb r end in
    match s with
    | None => (false, set_rstats inc_failed r)
    | Some s =>
        let r := set_rinfo i (Buf (Some s) (bdma (rinfo r i))) r in
        let '(a, r) := dma_map_single s r in
        match a with
        | None => (false, set_rstats inc_failed (set_rinfo i (Buf None (bdma (rinfo r i))) (kfree_skb s r)))
        | Some a => (true, set_rinfo i (Buf (Some s) a) r)
        end
    end.
(** The loop, with [i] buffers from the beginning of the ring and [neg], the code's [i], which is the same less the size of the ring, in 16 bits. *)
Fixpoint alloc_loop (cleaned_count : nat) (i neg : Z) (r : rx_ring) : Z * rx_ring :=
  match cleaned_count with
  | O => (neg, r)
  | S cleaned_count =>
      let '(ok, r) := ixgbe_alloc_mapped_skb i r in
      if (ok : bool) then
        let r := set_rdesc i (RxDesc (u64 (bdma (rinfo r i))) (hdr_addr (rdesc r i))) r in
        let neg := u16 (neg + 1) in
        let '(i, neg) := if neg =? 0 then (0, u16 (neg - rcount C)) else (i + 1, neg) in
        alloc_loop cleaned_count i neg (set_rdesc i (RxDesc (pkt_addr (rdesc r i)) 0) r)
      else (neg, r)
  end.
Definition ixgbe_alloc_rx_buffers (cleaned_count : Z) (r : rx_ring) : rx_ring :=
  if pbm C then r
  else if cleaned_count =? 0 then r
  else
    let '(neg, r') := alloc_loop (Z.to_nat cleaned_count) (r_use r) (u16 (r_use r - rcount C)) r in
    let i := u16 (neg + rcount C) in
    if negb (r_use r' =? i) then ixgbe_release_rx_desc i r' else r'.

(** ** The fragment list *)
Definition ixgbe_merge_active_tail (tail : Z) (r : rx_ring) : Z * rx_ring :=
  match partner (rcb (skbs r tail)) with
  | None => (tail, r)
  | Some head =>
      let t := skbs r tail in
      let r := set_skb head (fun h => set_rlens (u32 (rlen h + rlen t)) (u32 (rdata_len h + rlen t)) (u32 (rtruesize h + rtruesize t)) h) r in
      (head, set_skb tail (set_partner None) r)
  end.
Definition ixgbe_add_active_tail (head tail : Z) (r : rx_ring) : rx_ring :=
  let r :=
    match partner (rcb (skbs r head)) with
    | Some old_tail => set_skb old_tail (set_rnext (Some tail)) (ixgbe_merge_active_tail old_tail r).2
    | None => set_skb head (set_rfrag (Some tail)) r
    end in
  set_skb head (set_partner (Some tail)) (set_skb tail (set_partner (Some head)) r).
Definition ixgbe_close_active_frag_list (head : Z) (r : rx_ring) : bool * rx_ring :=
  match partner (rcb (skbs r head)) with
  | None => (false, r)
  | Some tail => (true, set_skb head (set_partner None) (ixgbe_merge_active_tail tail r).2)
  end.

(** ** The fields of a packet *)
Definition headlen (s : rx_skb) : Z := rlen s - rdata_len s.
Definition data (s : rx_skb) : Z -> Z := fun i => rbytes s (m_off (rmeta s) + i).
Definition ixgbe_rx_hash (d : rx_desc) (s : rx_skb) : rx_skb := if f_rxhash C then set_rmeta (set_mhash (rss d) (rmeta s)) s else s.
Definition ixgbe_rx_is_fcoe (d : rx_desc) : bool :=
  ring_fcoe C && (Z.land (pkt_info d) IXGBE_RXDADV_PKTTYPE_ETQF_MASK =? Z.shiftl IXGBE_ETQF_FILTER_FCOE IXGBE_RXDADV_PKTTYPE_ETQF_SHIFT).
(** Whether the checksum is good, and whether an error is counted. *)
Definition ixgbe_rx_checksum (d : rx_desc) : bool * bool :=
  if negb (f_rxcsum C) then (false, false)
  else if truthy (ixgbe_test_staterr d IXGBE_RXD_STAT_IPCS) && truthy (ixgbe_test_staterr d IXGBE_RXDADV_ERR_IPE) then (false, true)
  else if negb (truthy (ixgbe_test_staterr d IXGBE_RXD_STAT_L4CS)) then (false, false)
  else if truthy (ixgbe_test_staterr d IXGBE_RXDADV_ERR_TCPE) then
    (false, negb (truthy (Z.land (pkt_info d) IXGBE_RXDADV_PKTTYPE_UDP) && csum_udp_zero_err C))
  else (true, false).
Definition ixgbe_set_rsc_gso_size (s : rx_skb) : rx_skb :=
  let hdr_len := u16 (ixgbe_get_headlen (data s) (headlen s)) in
  set_rmeta (set_mgso (u16 (DIV_ROUND_UP (u32 (rlen s - hdr_len)) (cappend (rcb s)))) (rmeta s)) s.
Definition ixgbe_update_rsc_stats (s : Z) (r : rx_ring) : rx_ring :=
  let n := cappend (rcb (skbs r s)) in
  if n =? 0 then r else set_skb s (fun s => set_cappend 0 (ixgbe_set_rsc_gso_size s)) (set_rstats (add_rsc n) r).
Definition ixgbe_rx_vlan (d : rx_desc) (s : rx_skb) : rx_skb :=
  if f_vlan_rx C && truthy (ixgbe_test_staterr d IXGBE_RXD_STAT_VP) then set_rmeta (set_mvlan (wb_vlan d) (rmeta s)) s else s.
(** The kernel's [eth_type_trans]: the Ethernet header is taken off; its type, or that of a frame with a length. *)
Definition eth_type_trans (s : rx_skb) : rx_skb :=
  let proto := load16 (data s) 12 in
  let proto := if ntohs proto >=? 1536 then proto else if load16 (data s) 14 =? 0xFFFF then htons ETH_P_802_3 else htons ETH_P_802_2 in
  let s := if rlen s <? ETH_HLEN then s else set_rmeta (set_moff (m_off (rmeta s) + ETH_HLEN) (rmeta s)) (set_rlens (rlen s - ETH_HLEN) (rdata_len s) (rtruesize s) s) in
  set_rmeta (set_mproto proto (rmeta s)) s.
Definition ixgbe_process_skb_fields (d : rx_desc) (s : Z) (r : rx_ring) : rx_ring :=
  let r := ixgbe_update_rsc_stats s r in
  let r := set_skb s (ixgbe_rx_hash d) r in
  let '(good, counted) := ixgbe_rx_checksum d in
  let r := set_skb s (fun s => set_rmeta (set_mcsum good (rmeta s)) s) r in
  let r := if counted : bool then set_rstats inc_csum_err r else r in
  let r := set_skb s (ixgbe_rx_vlan d) r in
  let r := set_skb s (fun s => set_rmeta (set_mqueue (queue_index C) (rmeta s)) s) r in
  set_skb s eth_type_trans r.

(** ** Receiving *)

(** A packet as the stack sees it. *)
Definition piece_of_skb (r : rx_ring) (s : Z) : piece := Piece s (rbytes (skbs r s)) 0 (rlen (skbs r s)) (rtruesize (skbs r s)).
Definition lskb_of (s : Z) (r : rx_ring) : lskb :=
  let k := skbs r s in
  LSkb s (data k) (rlen k) (rdata_len k) (rtruesize k) (m_vlan (rmeta k)) (m_csum (rmeta k)) (m_proto (rmeta k)) (map (piece_of_skb r) (chain s r)) false false
    (LroCb 0 0 0 0 0 (cappend (rcb k))) (m_gso (rmeta k)).
Definition ixgbe_rx_skb (d : rx_desc) (s : Z) (r : rx_ring) : rx_ring :=
  let p := lskb_of s r in
  add_log [Handed p]
    (set_lro (if ixgbe_can_lro (rsc_enabled C) (f_lro C) (promisc C) (pkt_info d) p then ixgbe_lro_receive (ip_fast_csum K) p (lro r) else gro_receive p (lro r)) r).

(** [ixgbe_is_non_eop] for descriptor [d] of packet [s]. *)
Definition rsc_cnt (d : rx_desc) : Z := Z.shiftr (Z.land (wb_data d) IXGBE_RXDADV_RSCCNT_MASK) IXGBE_RXDADV_RSCCNT_SHIFT.
Definition nextp (d : rx_desc) : Z := Z.shiftr (Z.land (status_error d) IXGBE_RXDADV_NEXTP_MASK) IXGBE_RXDADV_NEXTP_SHIFT.
Definition ixgbe_is_non_eop (d : rx_desc) (s : Z) (r : rx_ring) : option (bool * rx_ring) :=
  let ntc := u32 (r_clean r + 1) in
  let ntc := if ntc <? rcount C then ntc else 0 in
  let r := set_rclean ntc r in
  let '(ntc, r) :=
    if rsc_enabled C && truthy (Z.land (wb_data d) IXGBE_RXDADV_RSCCNT_MASK) then
      (nextp d, set_skb s (fun k => set_cappend (u16 (cappend (rcb k) + (rsc_cnt d - 1))) k) r)
    else (ntc, r) in
  if truthy (ixgbe_test_staterr d IXGBE_RXD_STAT_EOP) then Some (false, r)
  else
    match bskb (rinfo r ntc) with
    | None => None
    | Some next => Some (true, set_rstats inc_non_eop (set_skb next (set_partner (Some s)) (ixgbe_add_active_tail s next r)))
    end.

(** [skb_linearize]: the fragment list is copied behind the linear part. *)
Definition skb_linearize (s : Z) (r : rx_ring) : rx_ring :=
  match chain s r with
  | [] => r
  | l =>
      let k := skbs r s in
      let tail := concat (map (fun t => map (rbytes (skbs r t)) (seqZ 0 (rlen (skbs r t)))) l) in
      let at_ i := m_off (rmeta k) + headlen k + i in
      let b := fun x => if (x >=? at_ 0) && (x <? at_ (Z.of_nat (length tail))) then nth (Z.to_nat (x - at_ 0)) tail 0 else rbytes k x in
      add_log (map Freed l) (set_skb s (fun k => set_rfrag None (set_rbytes b (set_rlens (rlen k) 0 (rtruesize k) k))) r)
  end.
(** The FCoE part: the bytes placed, and the ring. *)
Definition rx_fcoe (d : rx_desc) (s : Z) (r : rx_ring) : Z * rx_ring :=
  let k := skbs r s in
  let '(rc, csum, trailer, f) := ixgbe_fcoe_ddp_rx (status_error d) (rss d) (m_proto (rmeta k)) (data k) (rfcoe r) in
  let r := set_rfcoe f (set_skb s (fun k => set_rmeta (set_mcsum csum (rmeta k)) k) r) in
  (rc, if trailer then
         let r := skb_linearize s r in
         set_skb s (fun k => set_rbytes (<[m_off (rmeta k) + rlen k + 4 := FC_EOF_T]> (rbytes k)) (set_rlens (rlen k + sizeof_fcoe_crc_eof) (rdata_len k) (rtruesize k) k)) r
       else r).

(** The locals of [ixgbe_clean_rx_irq]. *)
Record rx_poll := Poll { cleaned_count : Z; total_rx_bytes : Z; total_rx_packets : Z; ddp_bytes : Z }.
Definition poll_start (r : rx_ring) : rx_poll := Poll (ixgbe_desc_unused r) 0 0 0.
(** [skb] gets [len] bytes, and joins the packet it belongs to: the packet. *)
Definition rx_take (i len s : Z) (r : rx_ring) : Z * rx_ring :=
  let r := set_skb s (fun k => set_rlens (rlen k + len) (rdata_len k) (rtruesize k) k) r in
  let '(s, r) :=
    match partner (rcb (skbs r s)) with
    | None => (s, set_skb s (set_cdma (bdma (rinfo r i))) r)
    | Some _ => let '(h, r) := ixgbe_merge_active_tail s r in (h, dma_unmap_single (bdma (rinfo r i)) r)
    end in
  (s, set_rinfo i (Buf None 0) r).
(** A complete packet: the locals with the counts, and the ring. *)
Definition rx_packet (d : rx_desc) (s : Z) (p : rx_poll) (r : rx_ring) : rx_poll * rx_ring :=
  let r := set_skb s (set_cdma 0) (dma_unmap_single (cdma (rcb (skbs r s))) r) in
  let '(multi, r) := ixgbe_close_active_frag_list s r in
  if multi && (cappend (rcb (skbs r s)) =? 0) then (p, kfree_skb s r)
  else if truthy (ixgbe_test_staterr d IXGBE_RXDADV_ERR_FRAME_ERR_MASK) then (p, kfree_skb s r)
  else
    let p := Poll (cleaned_count p) (u32 (total_rx_bytes p + rlen (skbs r s))) (total_rx_packets p) (ddp_bytes p) in
    let r := ixgbe_process_skb_fields d s r in
    let '(p, r, keep) :=
      if ixgbe_rx_is_fcoe d then
        let '(n, r) := rx_fcoe d s r in
        (Poll (cleaned_count p) (total_rx_bytes p) (total_rx_packets p) n, r, truthy n)
      else (p, r, true) in
    if negb keep then (p, kfree_skb s r)
    else (Poll (cleaned_count p) (total_rx_bytes p) (u32 (total_rx_packets p + 1)) (ddp_bytes p), ixgbe_rx_skb d s r).
(** One turn of the loop: whether it goes on. *)
Definition rx_turn (budget : Z) (p : rx_poll) (r : rx_ring) : option (bool * rx_poll * rx_ring) :=
  let '(p, r) :=
    if cleaned_count p >=? IXGBE_RX_BUFFER_WRITE then (Poll 0 (total_rx_bytes p) (total_rx_packets p) (ddp_bytes p), ixgbe_alloc_rx_buffers (cleaned_count p) r) else (p, r) in
  let i := r_clean r in
  let d := rdesc r i in
  if negb (truthy (ixgbe_test_staterr d IXGBE_RXD_STAT_DD)) then Some (false, p, r)
  else
    match bskb (rinfo r i) with
    | None => None
    | Some s =>
        let '(s, r) := rx_take i (wb_length d) s r in
        let p := Poll (u16 (cleaned_count p + 1)) (total_rx_bytes p) (total_rx_packets p) (ddp_bytes p) in
        match ixgbe_is_non_eop d s r with
        | None => None
        | Some (true, r) => Some (total_rx_packets p <? budget, p, r)
        | Some (false, r) => let '(p, r) := rx_packet d s p r in Some (total_rx_packets p <? budget, p, r)
        end
    end.
Fixpoint rx_loop (fuel : nat) (budget : Z) (p : rx_poll) (r : rx_ring) : option (rx_poll * rx_ring) :=
  match fuel with
  | O => Some (p, r)
  | S fuel =>
      match rx_turn budget p r with
      | None => None
      | Some (true, p, r) => rx_loop fuel budget p r
      | Some (false, p, r) => Some (p, r)
      end
  end.
(** Behind the loop. *)
Definition rx_finish (p : rx_poll) (r : rx_ring) : Z * rx_ring :=
  let '(bytes, n) :=
    if ddp_bytes p >? 0 then
      let mss := u32 (mtu C - sizeof_fcoe_hdr - sizeof_fc_frame_header - sizeof_fcoe_crc_eof) in
      let mss := if mss >? 512 then Z.land mss (Z.lnot 511) else mss in
      (u32 (total_rx_bytes p + ddp_bytes p), u32 (total_rx_packets p + DIV_ROUND_UP (ddp_bytes p) mss))
    else (total_rx_bytes p, total_rx_packets p) in
  let r := set_rstats (add_totals n bytes) r in
  let r := if truthy (cleaned_count p) then ixgbe_alloc_rx_buffers (cleaned_count p) r else r in
  (s32 n, set_lro (ixgbe_lro_flush_all (ip_fast_csum K) (lro r)) r).
(** Each turn but the last takes a descriptor and at most all but one are filled, so one turn for each is enough while the adapter is quiet. *)
Definition ixgbe_clean_rx_irq (budget : Z) (r : rx_ring) : option (Z * rx_ring) :=
  if pbm C then Some (budget, r)
  else
    match rx_loop (Z.to_nat (rcount C)) budget (poll_start r) r with
    | None => None
    | Some (p, r) => Some (rx_finish p r)
    end.

(** ** Freeing the buffers *)
Definition clean_buffer (i : Z) (r : rx_ring) : rx_ring :=
  let r :=
    match bskb (rinfo r i) with
    | None => r
    | Some s =>
        let '(s, r) := ixgbe_merge_active_tail s r in
        let '(multi, r) := ixgbe_close_active_frag_list s r in
        let r := if (multi : bool) then dma_unmap_single (cdma (rcb (skbs r s))) r else r in
        kfree_skb s (set_skb s (set_cdma 0) r)
    end in
  let a := bdma (rinfo r i) in
  let r := if truthy a then dma_unmap_single a r else r in
  set_rinfo i (Buf None 0) r.
Fixpoint clean_buffers (n : nat) (i : Z) (r : rx_ring) : rx_ring :=
  match n with O => r | S n => clean_buffers n (i + 1) (clean_buffer i r) end.
(** [rx_buffer_info] exists. *)
Definition ixgbe_clean_rx_ring (r : rx_ring) : rx_ring :=
  if pbm C then r
  else
    let r := clean_buffers (Z.to_nat (rcount C)) 0 r in
    RxRing (fun _ => RxDesc 0 0) (fun _ => Buf None 0) (r_use r) (r_clean r) (rstats r) (skbs r) (live r) (calls r) (lro r) (rfcoe r) (rlog r).
End Ring.
