(* ===== verification/RxHead.v ===== *)
(** * The length of the headers of a received packet

    [ixgbe_get_headlen] of [RxRing]: what it reads, what it returns, and what goes wrong for short buffers. *)
From S2P Require Import Prelude Hw Bits FlowDir FlowFilters Lro LroSpec Fcoe RxRing.
Open Scope Z_scope.

Lemma shiftl2_nibble x : 0 <= Z.shiftl (Z.land x 0x0F) 2 <= 60.
Proof. change 0x0F with (Z.ones 4). rewrite Z.land_ones, Z.shiftl_mul_pow2 by lia. pose proof (Z.mod_pos_bound x (2 ^ 4) ltac:(lia)). lia. Qed.
Lemma shiftr2_nibble x : 0 <= Z.shiftr (Z.land x 0xF0) 2 <= 60.
Proof.
  change 0xF0 with (Z.shiftl (Z.ones 4) 4). rewrite Z.shiftr_land. change (Z.shiftr (Z.shiftl (Z.ones 4) 4) 2) with (Z.shiftl (Z.ones 4) 2).
  assert (0 <= Z.land (Z.shiftr x 2) (Z.shiftl (Z.ones 4) 2)) by (apply Z.land_nonneg; right; done).
  split; [done|]. assert (Z.land (Z.shiftr x 2) (Z.shiftl (Z.ones 4) 2) = Z.shiftl (Z.land (Z.shiftr x 4) (Z.ones 4)) 2) as ->.
  { apply Z.bits_inj'. intros i Hi. rewrite Z.land_spec. destruct (decide (i < 2)) as [Hl|Hl]; [rewrite !(Z.shiftl_spec_low _ _ i) by lia; by rewrite andb_false_r|].
    rewrite !Z.shiftl_spec, Z.land_spec, !Z.shiftr_spec by lia. by replace (i - 2 + 4) with (i + 2) by lia. }
  rewrite Z.land_ones, Z.shiftl_mul_pow2 by lia. pose proof (Z.mod_pos_bound (Z.shiftr x 4) (2 ^ 4) ltac:(lia)). lia.
Qed.
Section Headlen.
Context (max_len : Z) (Hmin : 40 <= max_len) (Hmax : max_len < 2 ^ 32).
Lemma diff64 k : 0 <= k <= 40 -> u64 (max_len - k) = max_len - k.
Proof. intros Hk. apply u64_small. lia. Qed.
Lemma diff32 k : 0 <= k <= 40 -> u32 (max_len - k) = max_len - k.
Proof. intros Hk. apply u32_small. lia. Qed.
Lemma l4_bounds data network nexthdr : 0 <= network -> 0 <= tcp_udp_headlen data max_len network nexthdr <= max_len.
Proof.
  intros Hn. unfold tcp_udp_headlen. pose proof (shiftr2_nibble (data (network + 12))). rewrite !diff64 by done. unfold sizeof_tcphdr, sizeof_udphdr in *. split_ifs; lia.
Qed.
Lemma l4_reads data data' network nexthdr : 0 <= network -> (forall i, 0 <= i < max_len -> data' i = data i) -> tcp_udp_headlen data' max_len network nexthdr = tcp_udp_headlen data max_len network nexthdr.
Proof.
  intros Hn Hd. unfold tcp_udp_headlen. rewrite !diff64 by done. destruct (nexthdr =? IPPROTO_TCP); [|done]. unfold sizeof_tcphdr. destruct (Z.gtb_spec network (max_len - 20)); [done|]. by rewrite Hd by lia.
Qed.
Lemma headlen_range data : 0 <= ixgbe_get_headlen data max_len <= max_len.
Proof.
  unfold ixgbe_get_headlen. rewrite !diff64, !diff32 by done. unfold ETH_HLEN, VLAN_HLEN, sizeof_iphdr, sizeof_ipv6hdr, FCOE_HEADER_LEN.
  pose proof (shiftl2_nibble (data 14)). pose proof (shiftl2_nibble (data (14 + 4))). split_ifs; try lia; apply l4_bounds; lia.
Qed.
Lemma headlen_reads data data' : (forall i, 0 <= i < max_len -> data' i = data i) -> ixgbe_get_headlen data' max_len = ixgbe_get_headlen data max_len.
Proof.
  intros Hd. unfold ixgbe_get_headlen. rewrite !diff64, !diff32 by done. unfold ETH_HLEN, VLAN_HLEN, sizeof_iphdr, sizeof_ipv6hdr, FCOE_HEADER_LEN.
  assert (forall off, 0 <= off -> off + 1 < max_len -> load16 data' off = load16 data off) as Hl by (intros off H1 H2; apply load16_ext; apply Hd; lia).
  destruct (Z.ltb_spec max_len 14); [done|]. rewrite (Hl 12) by lia.
  assert (forall protocol network, 0 <= network -> 
    (if protocol =? htons ETH_P_IP then if network >? max_len - 20 then max_len else let hlen := Z.shiftl (Z.land (data' network) 0x0F) 2 in if hlen <? 20 then network
       else tcp_udp_headlen data' max_len (network + hlen) (if truthy (Z.land (load16 data' (network + 6)) (htons IP_OFFSET)) then 0 else data' (network + 9))
     else if protocol =? htons ETH_P_IPV6 then if network >? max_len - 40 then max_len else tcp_udp_headlen data' max_len (network + 40) (data' (network + 6))
     else if protocol =? htons ETH_P_FCOE then if network >? max_len - 38 then max_len else tcp_udp_headlen data' max_len (network + 38) 0 else network) =
    (if protocol =? htons ETH_P_IP then if network >? max_len - 20 then max_len else let hlen := Z.shiftl (Z.land (data network) 0x0F) 2 in if hlen <? 20 then network
       else tcp_udp_headlen data max_len (network + hlen) (if truthy (Z.land (load16 data (network + 6)) (htons IP_OFFSET)) then 0 else data (network + 9))
     else if protocol =? htons ETH_P_IPV6 then if network >? max_len - 40 then max_len else tcp_udp_headlen data max_len (network + 40) (data (network + 6))
     else if protocol =? htons ETH_P_FCOE then if network >? max_len - 38 then max_len else tcp_udp_headlen data max_len (network + 38) 0 else network)) as G.
  { intros protocol network Hn. destruct (protocol =? htons ETH_P_IP); [|destruct (protocol =? htons ETH_P_IPV6); [|destruct (protocol =? htons ETH_P_FCOE); [|done]]].
    - destruct (Z.gtb_spec network (max_len - 20)); [done|]. rewrite (Hd network), (Hd (network + 9)), Hl by lia. cbv zeta. pose proof (shiftl2_nibble (data network)). destruct (_ <? 20); [done|]. apply l4_reads; [lia|done].
    - destruct (Z.gtb_spec network (max_len - 40)); [done|]. rewrite (Hd (network + 6)) by lia. apply l4_reads; [lia|done].
    - destruct (network >? max_len - 38); [done|]. apply l4_reads; [lia|done]. }
  cbv zeta. destruct (_ =? htons ETH_P_8021Q); [destruct (_ >? _); [done|]; rewrite (Hl (14 + 2)) by lia|]; apply G; lia.
Qed.
End Headlen.

(** C37. For a buffer of at least 40 bytes: the length of the headers that [ixgbe_get_headlen] finds is within the buffer, and it depends on the bytes of the
    buffer only, so no byte behind its end has an influence. (For a shorter buffer neither holds, see [headlen_short_buffer]; frames on the wire have 60 bytes or
    more.) *)
Theorem headlen_in_bounds data max_len : 40 <= max_len < 2 ^ 32 -> 0 <= ixgbe_get_headlen data max_len <= max_len /\
  forall data', (forall i, 0 <= i < max_len -> data' i = data i) -> ixgbe_get_headlen data' max_len = ixgbe_get_headlen data max_len.
Proof. intros [H1 H2]. split; [by apply headlen_range|]. intros data' Hd. by apply headlen_reads. Qed.
(** An Ethernet header with the given type, and then the bytes [f]. *)
Definition eth_frame (type : Z) (f : Z -> Z) : Z -> Z := fun i => if i =? 12 then Z.shiftr type 8 else if i =? 13 then Z.land type 255 else if i <? 14 then 0 else f i.
Lemma headlen_in_bounds_witness : 40 <= 66 < 2 ^ 32 /\ 0 <= ixgbe_get_headlen (eth_frame 0x0800 (fun i => if i =? 14 then 0x45 else if i =? 23 then 6 else if i =? 46 then 0x80 else 0)) 66 <= 66.
Proof. split; [done|]. apply (headlen_in_bounds _ 66). done. Defined.
(** For a shorter buffer the difference in the comparison wraps around, and the check lets pass what it should stop: the result is behind the end of the
    buffer and depends on the byte there. *)
Theorem headlen_short_buffer : ixgbe_get_headlen (eth_frame 0x0800 (fun _ => 0x45)) 14 = 14 /\ ixgbe_get_headlen (eth_frame 0x0800 (fun i => if i =? 14 then 0x45 else if i =? 23 then 6 else 0)) 14 = 34.
Proof. by vm_compute. Qed.
