(* ===== verification/RxSpec.v ===== *)
(** * Receive rings: packets reach the stack complete, in order and once

    Positions count the descriptors ever handed out ([Slots]). The adapter writes packets into the buffers it was given, one descriptor after the
    other; a packet may take several descriptors, and with RSC the descriptors of several packets are mixed. [nic] is what the adapter has done. *)
From S2P Require Import Prelude Hw Bits FlowDir FlowFilters Sriov Queues Slots Lro LroSpec Fcoe RxRing RxHead.
From Stdlib Require Import Permutation.
Open Scope Z_scope.

(** ** The adapter *)

(** What is written into one descriptor: the data for its buffer, the two words, and the position where the packet continues. *)
Record seg := Seg { sg_data : list Z; sg_lo : Z; sg_hi : Z; sg_next : option Z }.
Definition seg_desc (g : seg) : rx_desc := RxDesc (sg_lo g) (sg_hi g).
Definition seg_len (g : seg) : Z := Z.of_nat (length (sg_data g)).
(** The positions below [hd] have been written; [pre y]: the positions of the packet that continues at [y], up to [y]. *)
Record nic := Nic { hd : Z; segs : Z -> seg; pre : Z -> list Z }.
Definition nic_next (n : nic) (g : seg) : nic :=
  Nic (hd n + 1) (<[hd n := g]> (segs n)) (match sg_next g with Some y => <[y := pre n (hd n) ++ [hd n]]> (pre n) | None => pre n end).
Definition dma_bytes (d : list Z) (b : Z -> Z) : Z -> Z := fun j => if (0 <=? j) && (j <? Z.of_nat (length d)) then nth (Z.to_nat j) d 0 else b j.
(** The data goes where the descriptor says; [None]: the address is not mapped. *)
Definition nic_write (N : Z) (n : nic) (g : seg) (r : rx_ring) : option rx_ring :=
  let i := slot N (hd n) in
  match live r (pkt_addr (rdesc r i)) with
  | None => None
  | Some s => Some (set_rdesc i (seg_desc g) (set_skb s (fun k => set_rbytes (dma_bytes (sg_data g) (rbytes k)) k) r))
  end.

Section Spec.
Context (C : rx_conf) (K : rx_kernel).
Local Notation N := (rcount C).
Local Notation slot := (slot (rcount C)).
(** An ordinary ring, and a kernel that maps at addresses that are not in use. *)
Record rx_config : Prop := {
  cf_count : 16 < N < 2 ^ 15; cf_len : 60 <= rx_buf_len C < 2 ^ 16; cf_pbm : pbm C = false; cf_fcoe : ring_fcoe C = false;
  cf_map : forall l k a, map_single K l k = Some a -> 0 < a < 2 ^ 64 /\ l a = None
}.
Definition rsc_on (g : seg) : bool := rsc_enabled C && truthy (Z.land (wb_data (seg_desc g)) IXGBE_RXDADV_RSCCNT_MASK).
(** The total length, the data and the RSC count of a packet at positions [P]. *)
Definition total (n : nic) (P : list Z) : Z := foldr (fun p a => seg_len (segs n p) + a) 0 P.
Definition pkt_data (n : nic) (P : list Z) : list Z := concat (map (fun p => sg_data (segs n p)) P).
Definition add_cnt (n : nic) (a p : Z) : Z := if rsc_on (segs n p) then u16 (a + (rsc_cnt (seg_desc (segs n p)) - 1)) else a.
Definition append_of (n : nic) (P : list Z) : Z := foldl (add_cnt n) 0 P.
(** What the adapter may write at position [w], when it owns the positions up to [u]: a status that says what was done, a packet that continues in a
    buffer of its own, frames of at least 60 bytes in the first buffer, packets of less than 64 KB and fewer pieces than the ring has. *)
Record nic_ok (n : nic) (u : Z) (g : seg) : Prop := {
  no_own : hd n < u;
  no_len : seg_len g <= rx_buf_len C;
  no_word : wb_length (seg_desc g) = seg_len g;
  no_dd : truthy (ixgbe_test_staterr (seg_desc g) IXGBE_RXD_STAT_DD) = true;
  no_eop : truthy (ixgbe_test_staterr (seg_desc g) IXGBE_RXD_STAT_EOP) = match sg_next g with None => true | Some _ => false end;
  no_next : forall y, sg_next g = Some y -> hd n < y < u /\ pre n y = [] /\ if rsc_on g then nextp (seg_desc g) = slot y else y = hd n + 1;
  no_first : pre n (hd n) = [] -> 60 <= seg_len g;
  no_total : total n (pre n (hd n)) + seg_len g < 2 ^ 16;
  no_count : Z.of_nat (length (pre n (hd n))) + 1 < N
}.
(** The adapter's history. *)
Record nic_wf (n : nic) (u : Z) : Prop := {
  nw_pre : forall y p, last (pre n y) = Some p -> 0 <= p < hd n /\ p < y < u /\ sg_next (segs n p) = Some y /\ pre n y = pre n p ++ [p];
  nw_next : forall x y, 0 <= x < hd n -> sg_next (segs n x) = Some y -> last (pre n y) = Some x;
  nw_seg : forall x, 0 <= x < hd n -> wb_length (seg_desc (segs n x)) = seg_len (segs n x) /\ truthy (ixgbe_test_staterr (seg_desc (segs n x)) IXGBE_RXD_STAT_DD) = true /\
     truthy (ixgbe_test_staterr (seg_desc (segs n x)) IXGBE_RXD_STAT_EOP) = (match sg_next (segs n x) with None => true | Some _ => false end) /\
     (forall y, sg_next (segs n x) = Some y -> if rsc_on (segs n x) then nextp (seg_desc (segs n x)) = slot y else y = x + 1) /\
     (pre n x = [] -> 60 <= seg_len (segs n x)) /\ total n (pre n x ++ [x]) < 2 ^ 16 /\ Z.of_nat (length (pre n x)) + 1 < N
}.

(** ** Lists of positions *)
Lemma total_cons n x a : total n (x :: a) = seg_len (segs n x) + total n a.
Proof. done. Qed.
Lemma total_app n a b : total n (a ++ b) = total n a + total n b.
Proof. induction a as [|x a IH]; [done|]. rewrite <- app_comm_cons, !total_cons, IH. lia. Qed.
Lemma total_nonneg n P : 0 <= total n P.
Proof. induction P as [|x P IH]; [done|]. rewrite total_cons. unfold seg_len in *. lia. Qed.
Lemma pkt_data_length n P : Z.of_nat (length (pkt_data n P)) = total n P.
Proof. induction P as [|x P IH]; [done|]. unfold pkt_data in *. cbn [map concat]. rewrite length_app, total_cons. unfold seg_len. lia. Qed.
Lemma append_snoc n P p : append_of n (P ++ [p]) = add_cnt n (append_of n P) p.
Proof. unfold append_of. by rewrite foldl_app. Qed.
Lemma nic_wf_mono n u u' : nic_wf n u -> u <= u' -> nic_wf n u'.
Proof. intros [H1 H2 H3] Hu. split; [|done|done]. intros y p Hp. destruct (H1 y p Hp) as (? & ? & ? & ?). split_and!; try done; lia. Qed.

(** The positions of a packet are increasing and each continues at the next. *)
Lemma pre_nil_or n y : pre n y = [] \/ exists p, last (pre n y) = Some p.
Proof. destruct (last (pre n y)) as [p|] eqn:E; [right; by exists p|left]. by apply last_None in E. Qed.
Lemma pre_below n u : nic_wf n u -> forall k y, length (pre n y) = k -> Forall (fun p => 0 <= p < y /\ p < hd n) (pre n y).
Proof.
  intros HW k. induction k as [|k IH]; intros y Hk.
  - apply length_zero_iff_nil in Hk. by rewrite Hk.
  - destruct (pre_nil_or n y) as [E|[p Hp]]; [by rewrite E in Hk|]. destruct (nw_pre _ _ HW y p Hp) as (H1 & H2 & H3 & E). rewrite E, length_app in Hk. cbn in Hk.
    rewrite E. apply Forall_app. split; [|constructor; [lia|constructor]]. eapply Forall_impl; [apply (IH p); lia|]. cbn. lia.
Qed.
Lemma pre_next n u : nic_wf n u -> forall k y p, length (pre n y) = k -> p ∈ pre n y -> exists q, sg_next (segs n p) = Some q /\ (q = y \/ q ∈ pre n y).
Proof.
  intros HW k. induction k as [|k IH]; intros y p Hk Hin.
  - apply length_zero_iff_nil in Hk. rewrite Hk in Hin. by apply elem_of_nil in Hin.
  - destruct (pre_nil_or n y) as [E|[l Hl]]; [by rewrite E in Hk|]. destruct (nw_pre _ _ HW y l Hl) as (H1 & H2 & H3 & E). rewrite E, length_app in Hk. cbn in Hk.
    rewrite E in Hin. apply elem_of_app in Hin as [Hin| ->%list_elem_of_singleton].
    + destruct (IH l p ltac:(lia) Hin) as (q & Hq & [->|Hq']); eexists; (split; [done|]); right; rewrite E; apply elem_of_app; [right; by apply list_elem_of_singleton|by left].
    + exists y. split; [done|]. by left.
Qed.

(** A packet that the driver has begun and that continues at [y]. *)
Definition open (n : nic) (c u y : Z) : Prop := c <= y < u /\ exists p, last (pre n y) = Some p /\ p < c.
Lemma open_pre n u c v y : nic_wf n u -> open n c v y -> Forall (fun p => 0 <= p < c /\ p < hd n) (pre n y) /\ pre n y <> [].
Proof.
  intros HW (Hy & p & Hp & Hc). destruct (nw_pre _ _ HW y p Hp) as (H1 & H2 & H3 & E). rewrite E. split; [|by destruct (pre n p)].
  apply Forall_app. split; [|constructor; [lia|constructor]]. eapply Forall_impl; [apply (pre_below n u HW _ p eq_refl)|]. cbn. lia.
Qed.
Lemma open_disjoint n u c v y y' : nic_wf n u -> open n c v y -> open n c v y' -> forall k p, c - p <= Z.of_nat k -> p ∈ pre n y -> p ∈ pre n y' -> y = y'.
Proof.
  intros HW Ho Ho' k. destruct (open_pre _ _ _ _ _ HW Ho) as [Hb _]. destruct (open_pre _ _ _ _ _ HW Ho') as [Hb' _]. rewrite Forall_forall in Hb, Hb'.
  induction k as [|k IH]; intros p Hk Hin Hin'; destruct (Hb p Hin) as [Hp Hh]; [lia|].
  destruct (pre_next n u HW _ y p eq_refl Hin) as (q & Hq & Hy). destruct (pre_next n u HW _ y' p eq_refl Hin') as (q' & Hq' & Hy'). rewrite Hq in Hq'. injection Hq' as <-.
  destruct Ho as [Ho _], Ho' as [Ho' _]. destruct Hy as [->|Hy], Hy' as [->|Hy']; [done|specialize (Hb' _ Hy'); lia|specialize (Hb _ Hy); lia|].
  apply (IH q); [|done|done]. pose proof (nw_next _ _ HW p q ltac:(lia) Hq) as Hl. destruct (nw_pre _ _ HW q p Hl) as (_ & ? & _). lia.
Qed.
Lemma open_disjoint' n u c v y y' p : nic_wf n u -> open n c v y -> open n c v y' -> p ∈ pre n y -> p ∈ pre n y' -> y = y'.
Proof. intros HW Ho Ho' Hin Hin'. apply (open_disjoint n u c v y y' HW Ho Ho' (Z.to_nat (c - p)) p); [lia|done|done]. Qed.

(** ** Socket buffers *)
Definition zero_meta : rx_meta := Meta 0 0 false 0 0 0 0.
(** Each socket buffer is followed by the next of the list. *)
Fixpoint links (S : Z -> rx_skb) (l : list Z) : Prop := match l with [] => True | s :: l => rnext (S s) = head l /\ links S l end.
Record plain (k : rx_skb) : Prop := { pl_len : rlen k = 0; pl_dlen : rdata_len k = 0; pl_next : rnext k = None; pl_frag : rfrag k = None; pl_cb : rcb k = RxCb None 0 0; pl_meta : rmeta k = zero_meta }.
Record member (n : nic) (p : Z) (k : rx_skb) : Prop := { me_len : rlen k = seg_len (segs n p); me_frag : rfrag k = None; me_partner : partner (rcb k) = None }.
(** The packet at [h :: rest], with the fragments [rest ++ more], [a] packets joined and the field [pa] of its first socket buffer. *)
Record joined (S : Z -> rx_skb) (ids addrs : Z -> Z) (n : nic) (h : Z) (rest more : list Z) (pa : option Z) (a : Z) : Prop := {
  jo_len : rlen (S (ids h)) = total n (h :: rest); jo_dlen : rdata_len (S (ids h)) = total n rest; jo_next : rnext (S (ids h)) = None;
  jo_frag : rfrag (S (ids h)) = head (map ids (rest ++ more)); jo_cb : rcb (S (ids h)) = RxCb pa (addrs h) a; jo_meta : rmeta (S (ids h)) = zero_meta;
  jo_links : links S (map ids (rest ++ more)); jo_members : Forall (fun p => member n p (S (ids p))) rest
}.
(** A packet that waits for its continuation at [y]. *)
Record waiting (S : Z -> rx_skb) (ids addrs : Z -> Z) (n : nic) (y : Z) : Prop := {
  wa_joined : exists h rest, pre n y = h :: rest /\ joined S ids addrs n h rest [y] (Some (ids y)) (append_of n (pre n y)) /\
    rlen (S (ids y)) = 0 /\ rdata_len (S (ids y)) = 0 /\ rfrag (S (ids y)) = None /\ rcb (S (ids y)) = RxCb (Some (ids h)) 0 0 /\ rmeta (S (ids y)) = zero_meta
}.
Definition has_data (S : Z -> rx_skb) (ids : Z -> Z) (n : nic) (p : Z) : Prop := map (rbytes (S (ids p))) (seqZ 0 (seg_len (segs n p))) = sg_data (segs n p).
Lemma dma_bytes_data d b : map (dma_bytes d b) (seqZ 0 (Z.of_nat (length d))) = d.
Proof.
  apply nth_ext with (d := dma_bytes d b 0) (d' := 0); [rewrite length_map, length_seqZ; lia|]. intros i Hi. rewrite length_map, length_seqZ in Hi. rewrite map_nth with (f := dma_bytes d b).
  rewrite (nth_lookup_Some _ i 0 (0 + Z.of_nat i)) by (apply lookup_seqZ; lia). unfold dma_bytes. rewrite (proj2 (Z.leb_le _ _)), (proj2 (Z.ltb_lt _ _)) by lia. cbn. f_equal. lia.
Qed.
Lemma links_ext S S' l : (forall s, s ∈ l -> rnext (S' s) = rnext (S s)) -> links S l -> links S' l.
Proof. induction l as [|s l IH]; intros H; [done|]. cbn. intros [<- HL]. split; [apply H, elem_of_cons; by left|]. apply IH; [|done]. intros t Ht. apply H, elem_of_cons. by right. Qed.
(** The same socket buffer up to its bytes. *)
Definition alike (k k' : rx_skb) : Prop := rlen k' = rlen k /\ rdata_len k' = rdata_len k /\ rnext k' = rnext k /\ rfrag k' = rfrag k /\ rcb k' = rcb k /\ rmeta k' = rmeta k.
Lemma alike_eq k k' : k' = k -> alike k k'.
Proof. by intros ->. Qed.
Lemma alike_plain k k' : alike k k' -> plain k -> plain k'.
Proof. intros (E1 & E2 & E3 & E4 & E5 & E6) [H1 H2 H3 H4 H5 H6]. split; congruence. Qed.
Lemma joined_ext S S' ids ids' addrs addrs' n h rest more pa a : (forall p, p ∈ h :: rest ++ more -> ids' p = ids p /\ alike (S (ids p)) (S' (ids p))) -> addrs' h = addrs h ->
  joined S ids addrs n h rest more pa a -> joined S' ids' addrs' n h rest more pa a.
Proof.
  intros HS Ha [J1 J2 J3 J4 J5 J6 J7 J8]. destruct (HS h ltac:(apply elem_of_cons; by left)) as [Ei (A1 & A2 & A3 & A4 & A5 & A6)].
  assert (map ids' (rest ++ more) = map ids (rest ++ more)) as Em by (apply map_ext_in; intros p Hp%list_elem_of_In; apply HS, elem_of_cons; by right). split; rewrite ?Em, ?Ei, ?Ha; try congruence.
  - eapply links_ext; [|done]. intros s (p & -> & Hp)%list_elem_of_fmap. apply (HS p ltac:(apply elem_of_cons; by right)).
  - apply Forall_forall. intros p Hp. rewrite Forall_forall in J8. destruct (HS p) as [-> (B1 & B2 & B3 & B4 & B5 & B6)]; [apply elem_of_cons; right; apply elem_of_app; by left|]. destruct (J8 p Hp). split; congruence.
Qed.
Lemma waiting_ext S S' ids ids' addrs addrs' n y : (forall p, p ∈ pre n y ++ [y] -> ids' p = ids p /\ addrs' p = addrs p /\ alike (S (ids p)) (S' (ids p))) -> waiting S ids addrs n y -> waiting S' ids' addrs' n y.
Proof.
  intros HS [(h & rest & E & HJ & Hy)]. split. exists h, rest. split; [done|]. rewrite E in HS.
  destruct (HS y) as (-> & _ & (A1 & A2 & A3 & A4 & A5 & A6)); [apply elem_of_app; right; by apply list_elem_of_singleton|]. destruct (HS h) as (-> & Ha & _); [apply elem_of_cons; by left|].
  rewrite A1, A2, A4, A5, A6. split; [|done]. eapply joined_ext; [|exact Ha|exact HJ]. intros p Hp. destruct (HS p Hp) as (? & _ & ?). done.
Qed.
Lemma walk_links r l : forall fuel, (length l <= fuel)%nat -> links (skbs r) l -> walk fuel (head l) r = l.
Proof.
  induction l as [|s l IH]; intros [|fuel] Hf HL; cbn in *; try done; [lia|]. destruct HL as [-> HL]. f_equal. apply IH; [lia|done].
Qed.

(** ** The invariant of the ring *)
Definition mine (n : nic) (c u x : Z) : Prop := c <= x < u \/ exists y, open n c u y /\ x ∈ pre n y.
Definition mapped_at (n : nic) (c u x : Z) : Prop := c <= x < u \/ exists y, open n c u y /\ head (pre n y) = Some x.
(** The driver is at [c] and has handed out the buffers up to [u]; position [x] has socket buffer [ids x], mapped at [addrs x]. *)
Record core (r : rx_ring) (n : nic) (c u : Z) (ids addrs : Z -> Z) : Prop := {
  co_pos : 0 <= c <= hd n /\ hd n <= u < c + N;
  co_wf : nic_wf n u;
  co_clean : r_clean r = slot c;
  co_in : forall x, c <= x < u -> rinfo r (slot x) = Buf (Some (ids x)) (addrs x);
  co_addr : forall x, c <= x < u -> 0 < addrs x < 2 ^ 64;
  co_out : forall x, u <= x < c + N -> rinfo r (slot x) = Buf None 0;
  co_read : forall x, hd n <= x < u -> pkt_addr (rdesc r (slot x)) = addrs x;
  co_clear : forall x, hd n <= x <= u -> hdr_addr (rdesc r (slot x)) = 0;
  co_done : forall x, c <= x < hd n -> rdesc r (slot x) = seg_desc (segs n x);
  co_ids : forall x y, 0 <= x < y -> y < u -> ids x < ids y;
  co_calls : forall x, 0 <= x < u -> ids x < calls r;
  co_live : forall x, mapped_at n c u x -> live r (addrs x) = Some (ids x);
  co_only : forall a s, live r a = Some s -> exists x, mapped_at n c u x /\ a = addrs x;
  co_plain : forall y, c <= y < u -> ~ open n c u y -> plain (skbs r (ids y));
  co_wait : forall y, open n c u y -> waiting (skbs r) ids addrs n y;
  co_data : forall x, mine n c u x -> x < hd n -> has_data (skbs r) ids n x
}.
Lemma mapped_mine n c u x : mapped_at n c u x -> mine n c u x.
Proof. intros [Hx|(y & Ho & Hh)]; [by left|]. right. exists y. split; [done|]. destruct (pre n y); [done|]. injection Hh as ->. apply elem_of_cons. by left. Qed.
Lemma mine_range r n c u ids addrs x : core r n c u ids addrs -> mine n c u x -> 0 <= x < u.
Proof.
  intros HI [Hx|(y & Ho & Hh)]; pose proof (co_pos _ _ _ _ _ _ HI); [lia|]. destruct (open_pre _ _ _ _ _ (co_wf _ _ _ _ _ _ HI) Ho) as [Hb _]. rewrite Forall_forall in Hb. destruct (Hb x Hh). lia.
Qed.
Lemma ids_inj r n c u ids addrs x y : core r n c u ids addrs -> 0 <= x < u -> 0 <= y < u -> ids x = ids y -> x = y.
Proof. intros HI Hx Hy E. destruct (Z.lt_trichotomy x y) as [H|[H|H]]; [|done|]; pose proof (co_ids _ _ _ _ _ _ HI) as Hi; [specialize (Hi x y ltac:(lia) ltac:(lia))|specialize (Hi y x ltac:(lia) ltac:(lia))]; lia. Qed.
Lemma slot_ne (HC : rx_config) c x y : c <= x < c + N -> c <= y < c + N -> x <> y -> slot x <> slot y.
Proof. intros Hx Hy Hne E. apply Hne. apply (slot_inj (N := N) ltac:(pose proof (cf_count HC); lia) c); done. Qed.

(** ** Handing out buffers *)

(** What [ixgbe_alloc_mapped_skb] does with an empty slot [i]. *)
Inductive alloc_result (i : Z) (r : rx_ring) : bool -> rx_ring -> Prop :=
| AllocOk r' t b a : rdesc r' = rdesc r -> r_use r' = r_use r -> r_clean r' = r_clean r -> lro r' = lro r -> calls r < calls r' ->
    (forall j, rinfo r' j = if decide (j = i) then Buf (Some (calls r)) a else rinfo r j) -> skbs r' = <[calls r := new_skb t b]> (skbs r) ->
    live r' = <[a := Some (calls r)]> (live r) -> live r a = None -> 0 < a < 2 ^ 64 -> rlog r' = rlog r ++ [Alloc (calls r); Mapped a] -> alloc_result i r true r'
| AllocFailed r' l : rdesc r' = rdesc r -> r_use r' = r_use r -> r_clean r' = r_clean r -> lro r' = lro r -> calls r < calls r' ->
    (forall j, rinfo r' j = rinfo r j) -> (forall s, s <> calls r -> skbs r' s = skbs r s) -> live r' = live r -> rlog r' = rlog r ++ l -> l = [] \/ l = [Alloc (calls r); Freed (calls r)] ->
    alloc_result i r false r'.
Lemma alloc_mapped_spec (HC : rx_config) i r : rinfo r i = Buf None 0 -> let '(ok, r') := ixgbe_alloc_mapped_skb C K i r in alloc_result i r ok r'.
Proof.
  intros Hi. unfold ixgbe_alloc_mapped_skb. rewrite Hi. cbn [bdma bskb truthy Z.eqb negb]. unfold netdev_alloc_skb. destruct (alloc_skb K (calls r)) as [[t b]|].
  - unfold dma_map_single. cbv zeta. match goal with |- context [map_single K ?l ?k] => destruct (map_single K l k) as [a|] eqn:Em end; cbn in Em.
    + destruct (cf_map HC _ _ _ Em) as [Ha Hl]. eapply (AllocOk _ _ _ t b a); cbn; try done; try lia; [|by rewrite <- app_assoc]. intros j. rewrite !fn_insert_dec. repeat case_decide; congruence.
    + eapply (AllocFailed _ _ _ [Alloc (calls r); Freed (calls r)]); cbn; try done; try lia; [| | |by right].
      * intros j. rewrite !fn_insert_dec. repeat case_decide; subst; try done; by rewrite Hi.
      * intros s Hs. by rewrite fn_lookup_insert_ne.
      * rewrite <- app_assoc. cbn. do 3 f_equal. unfold chain. cbn. rewrite fn_lookup_insert. cbn. by destruct (Z.to_nat N).
  - eapply (AllocFailed _ _ _ []); cbn; try done; try lia; [by rewrite app_nil_r|by left].
Qed.
Lemma open_more n c u u' y : nic_wf n u -> u <= u' -> open n c u' y <-> open n c u y.
Proof. intros HW Hu. split; intros (Hy & p & Hp & Hc); (split; [|by exists p]); destruct (nw_pre _ _ HW y p Hp) as (_ & ? & _); lia. Qed.
Lemma post_step (HC : rx_config) r n c u ids addrs r' t b a (k := calls r) : core r n c u ids addrs -> u + 1 < c + N ->
  rdesc r' = rdesc r -> r_clean r' = r_clean r -> calls r < calls r' -> (forall j, rinfo r' j = if decide (j = slot u) then Buf (Some k) a else rinfo r j) ->
  skbs r' = <[k := new_skb t b]> (skbs r) -> live r' = <[a := Some k]> (live r) -> live r a = None -> 0 < a < 2 ^ 64 ->
  let r1 := set_rdesc (slot u) (RxDesc (u64 (bdma (rinfo r' (slot u)))) (hdr_addr (rdesc r' (slot u)))) r' in
  core (set_rdesc (slot (u + 1)) (RxDesc (pkt_addr (rdesc r1 (slot (u + 1)))) 0) r1) n c (u + 1) (<[u := k]> ids) (<[u := a]> addrs).
Proof.
  intros HI Hu Ed Ec Ek Ei Es El Ha Ha'. set (ids' := <[u := k]> ids). set (addrs' := <[u := a]> addrs). pose proof (co_wf _ _ _ _ _ _ HI) as HW. destruct (co_pos _ _ _ _ _ _ HI) as [P1 P2].
  assert (forall y, open n c (u + 1) y <-> open n c u y) as HO by (intros y; apply open_more; [done|lia]).
  assert (forall x, x <> u -> ids' x = ids x /\ addrs' x = addrs x) as Eo by (intros x Hx; split; by apply fn_lookup_insert_ne).
  assert (ids' u = k /\ addrs' u = a) as [Eu1 Eu2] by (split; apply fn_lookup_insert). clearbody ids' addrs'.
  assert (forall x, 0 <= x < u -> ids x <> k) as Hk by (intros x Hx E; pose proof (co_calls _ _ _ _ _ _ HI x Hx); lia).
  assert (forall x, mine n c u x -> skbs r' (ids' x) = skbs r (ids x)) as Hsk.
  { intros x Hx. pose proof (mine_range _ _ _ _ _ _ x HI Hx) as Hr. rewrite (proj1 (Eo x ltac:(lia))), Es. apply fn_lookup_insert_ne. intros E. by apply (Hk x Hr). }
  assert (forall x, c <= x < c + N -> x <> u -> slot x <> slot u) as Sne by (intros x Hx Hne; apply (slot_ne HC c); lia).
  assert (forall x, c <= x <= u -> slot x <> slot (u + 1)) as Sne' by (intros x Hx; apply (slot_ne HC c); lia).
  cbv zeta. split; try done.
  - lia.
  - by apply (nic_wf_mono n u); [|lia].
  - cbn. rewrite Ec. apply HI.
  - intros x Hx. cbn. rewrite Ei. destruct (decide (x = u)) as [->|Hne]; [by rewrite decide_True, Eu1, Eu2|]. rewrite decide_False by (apply Sne; lia). destruct (Eo x Hne) as [-> ->]. apply HI. lia.
  - intros x Hx. destruct (decide (x = u)) as [->|Hne]; [by rewrite Eu2|]. rewrite (proj2 (Eo x Hne)). apply (co_addr _ _ _ _ _ _ HI). lia.
  - intros x Hx. cbn. rewrite Ei, decide_False by (apply Sne; lia). apply (co_out _ _ _ _ _ _ HI). lia.
  - intros x Hx. cbn. rewrite fn_lookup_insert_ne by (symmetry; apply Sne'; lia). destruct (decide (x = u)) as [->|Hne].
    + rewrite fn_lookup_insert. cbn. rewrite Ei, decide_True, Eu2 by done. cbn. apply u64_small. lia.
    + rewrite fn_lookup_insert_ne by (intros E; by apply (Sne x ltac:(lia) Hne)). rewrite Ed, (proj2 (Eo x Hne)). apply (co_read _ _ _ _ _ _ HI). lia.
  - intros x Hx. cbn. destruct (decide (x = u + 1)) as [->|Hne']; [by rewrite fn_lookup_insert|]. rewrite fn_lookup_insert_ne by (symmetry; apply Sne'; lia). destruct (decide (x = u)) as [->|Hne].
    + rewrite fn_lookup_insert. cbn. rewrite Ed. apply (co_clear _ _ _ _ _ _ HI). lia.
    + rewrite fn_lookup_insert_ne by (intros E; by apply (Sne x ltac:(lia) Hne)). rewrite Ed. apply (co_clear _ _ _ _ _ _ HI). lia.
  - intros x Hx. cbn. rewrite fn_lookup_insert_ne by (symmetry; apply Sne'; lia). rewrite fn_lookup_insert_ne by (intros E; apply (Sne x); lia). rewrite Ed. apply (co_done _ _ _ _ _ _ HI). lia.
  - intros x y Hx Hy. rewrite (proj1 (Eo x ltac:(lia))). destruct (decide (y = u)) as [->|Hne]; [rewrite Eu1; apply (co_calls _ _ _ _ _ _ HI); lia|]. rewrite (proj1 (Eo y Hne)). apply (co_ids _ _ _ _ _ _ HI); lia.
  - intros x Hx. cbn. destruct (decide (x = u)) as [->|Hne]; [by rewrite Eu1|]. rewrite (proj1 (Eo x Hne)). pose proof (co_calls _ _ _ _ _ _ HI x ltac:(lia)). lia.
  - intros x Hx. cbn. rewrite El. destruct (decide (x = u)) as [->|Hne]; [by rewrite Eu1, Eu2, fn_lookup_insert|].
    assert (mapped_at n c u x) as Hm by (destruct Hx as [Hx|(y & Ho & Hh)]; [left; lia|right; exists y; split; [by apply HO|done]]). pose proof (co_live _ _ _ _ _ _ HI x Hm) as Hl. destruct (Eo x Hne) as [-> ->].
    rewrite fn_lookup_insert_ne; [done|]. intros E. rewrite <- E, Ha in Hl. done.
  - intros a' s. cbn. rewrite El, fn_insert_dec. case_decide as E; [intros [= <-]; exists u; split; [left; lia|congruence]|]. intros Hs.
    destruct (co_only _ _ _ _ _ _ HI a' s Hs) as (x & Hm & ->). pose proof (mine_range _ _ _ _ _ _ x HI (mapped_mine _ _ _ _ Hm)). exists x. rewrite (proj2 (Eo x ltac:(lia))). split; [|done].
    destruct Hm as [Hx|(y & Ho & Hh)]; [left; lia|right; exists y; split; [by apply HO|done]].
  - intros y Hy Hno. cbn. rewrite HO in Hno. destruct (decide (y = u)) as [->|Hne]; [rewrite Eu1, Es, fn_lookup_insert; by split|]. rewrite Hsk by (left; lia). apply (co_plain _ _ _ _ _ _ HI); [lia|done].
  - intros y Hy%HO. cbn. pose proof (co_wait _ _ _ _ _ _ HI y Hy) as Hw. apply (waiting_ext (skbs r) _ ids _ addrs); [|done]. intros p Hp.
    assert (mine n c u p) as Hm by (apply elem_of_app in Hp as [Hp| ->%list_elem_of_singleton]; [right; by exists y|left; apply Hy]). pose proof (mine_range _ _ _ _ _ _ p HI Hm).
    destruct (Eo p ltac:(lia)) as [E1 E2]. split; [done|]. split; [done|]. apply alike_eq. rewrite Es. apply fn_lookup_insert_ne. intros E. by apply (Hk p).
  - intros x Hm Hx. cbn. assert (mine n c u x) as Hm' by (destruct Hm as [Hm|(y & Ho%HO & Hh)]; [left; lia|right; by exists y]). unfold has_data. rewrite Hsk by done. by apply (co_data _ _ _ _ _ _ HI).
Qed.
(** The invariant reads only the socket buffers of the ring. *)
Lemma core_frame r r' n c u ids addrs : core r n c u ids addrs -> rdesc r' = rdesc r -> r_clean r' = r_clean r -> calls r <= calls r' -> (forall j, rinfo r' j = rinfo r j) ->
  (forall x, mine n c u x -> skbs r' (ids x) = skbs r (ids x)) -> live r' = live r -> core r' n c u ids addrs.
Proof.
  intros [I1 I2 I3 I4 I5 I6 I7 I8 I9 I10 I11 I12 I13 I14 I15 I16] Ed Ec Ek Ei Es El. split; rewrite ?Ed, ?Ec, ?El; try done.
  - intros x Hx. rewrite Ei. by apply I4.
  - intros x Hx. rewrite Ei. by apply I6.
  - intros x Hx. specialize (I11 x Hx). lia.
  - intros y Hy Ho. rewrite Es by by left. by apply I14.
  - intros y Hy. apply (waiting_ext (skbs r) _ ids _ addrs); [|by apply I15]. intros p Hp. split; [done|]. split; [done|]. apply alike_eq, Es. apply elem_of_app in Hp as [Hp| ->%list_elem_of_singleton]; [right; by exists y|left; apply Hy].
  - intros x Hm Hx. unfold has_data. rewrite Es by done. by apply I16.
Qed.

(** ** What has become of the socket buffers *)
Definition allocs (l : list rx_effect) : list Z := omap (fun e => match e with Alloc s => Some s | _ => None end) l.
Definition freed (l : list rx_effect) : list Z := omap (fun e => match e with Freed s => Some s | _ => None end) l.
Definition handed (l : list rx_effect) : list lskb := omap (fun e => match e with Handed p => Some p | _ => None end) l.
Definition skb_ids (p : lskb) : list Z := ls_id p :: map pc_id (frag_list p).
Definition gone (l : list rx_effect) : list Z := freed l ++ concat (map skb_ids (handed l)).
Definition openb (n : nic) (c y : Z) : bool := match last (pre n y) with Some p => p <? c | None => false end.
Definition owned (n : nic) (c u : Z) : list Z := seqZ c (u - c) ++ concat (map (fun y => if openb n c y then pre n y else []) (seqZ c (u - c))).
Lemma openb_spec n c u y : c <= y < u -> openb n c y = true <-> open n c u y.
Proof. intros Hy. unfold openb, open. destruct (last (pre n y)) as [p|]; split; try naive_solver. - intros H. split; [done|]. exists p. split; [done|lia]. - intros (_ & q & [= ->] & ?). lia. Qed.
(** Every socket buffer is in the ring, or in a packet that has been begun, or has been freed, or handed on, and only one of these. *)
Definition accounted (r : rx_ring) (n : nic) (c u : Z) (ids : Z -> Z) : Prop := allocs (rlog r) ≡ₚ gone (rlog r) ++ map ids (owned n c u).

(** Whether the packet that ends at [x] is passed on, and which of the packets that end below [c] are. *)
Definition good (n : nic) (x : Z) : bool :=
  negb (negb (bool_decide (pre n x = [])) && (append_of n (pre n x ++ [x]) =? 0)) && negb (truthy (ixgbe_test_staterr (seg_desc (segs n x)) IXGBE_RXDADV_ERR_FRAME_ERR_MASK)).
Definition complete (n : nic) (x : Z) : bool := match sg_next (segs n x) with None => good n x | Some _ => false end.
Definition received_at (n : nic) (c : Z) : list Z := List.filter (complete n) (seqZ 0 c).
(** The bytes of the first buffer of a packet, and the type of the frame. *)
Definition first_bytes (n : nic) (x : Z) : Z -> Z := fun i => nth (Z.to_nat i) (sg_data (segs n (default x (head (pre n x))))) 0.
Definition frame_type (b : Z -> Z) : Z := if ntohs (load16 b 12) >=? 1536 then load16 b 12 else if load16 b 14 =? 0xFFFF then htons ETH_P_802_3 else htons ETH_P_802_2.
(** The socket buffer [p] is the packet that ends at [x]: its bytes behind the Ethernet header, and what the descriptor says of it. *)
Record delivered (n : nic) (ids : Z -> Z) (x : Z) (p : lskb) : Prop := {
  dl_ids : skb_ids p = map ids (pre n x ++ [x]);
  dl_content : content p = drop 14 (pkt_data n (pre n x ++ [x]));
  dl_len : slen p = total n (pre n x ++ [x]) - ETH_HLEN;
  dl_type : sproto p = frame_type (first_bytes n x);
  dl_csum : csum_unnecessary p = (ixgbe_rx_checksum C (seg_desc (segs n x))).1;
  dl_vlan : vlan_tci p = if f_vlan_rx C && truthy (ixgbe_test_staterr (seg_desc (segs n x)) IXGBE_RXD_STAT_VP) then wb_vlan (seg_desc (segs n x)) else 0;
  dl_gso : sgso_size p = (let a := append_of n (pre n x ++ [x]) in
    if a =? 0 then 0 else u16 (DIV_ROUND_UP (total n (pre n x ++ [x]) - u16 (ixgbe_get_headlen (first_bytes n x) (seg_len (segs n (default x (head (pre n x))))))) a))
}.
Definition delivered_all (r : rx_ring) (n : nic) (c : Z) (ids : Z -> Z) : Prop := Forall2 (delivered n ids) (received_at n c) (handed (rlog r)).

(** *** The refill loop *)
Lemma gone_app a b : gone (a ++ b) ≡ₚ gone a ++ gone b.
Proof.
  unfold gone, freed, handed. rewrite !omap_app, map_app, concat_app, <- !app_assoc. apply Permutation_app_head. rewrite !app_assoc. apply Permutation_app_tail, Permutation_app_comm.
Qed.
Lemma allocs_app a b : allocs (a ++ b) = allocs a ++ allocs b.
Proof. apply omap_app. Qed.
Lemma handed_app a b : handed (a ++ b) = handed a ++ handed b.
Proof. apply omap_app. Qed.
Lemma map_ids_ext (ids ids' : Z -> Z) l : (forall x, x ∈ l -> ids' x = ids x) -> map ids' l = map ids l.
Proof. intros H. apply map_ext_in. intros x Hx. apply H. by apply list_elem_of_In. Qed.
Lemma owned_range r n c u ids addrs x : core r n c u ids addrs -> x ∈ owned n c u -> 0 <= x < u.
Proof.
  intros HI Hx. apply (mine_range _ _ _ _ _ _ x HI). unfold owned in Hx. apply elem_of_app in Hx as [Hx%elem_of_seqZ|Hx]; [left; lia|].
  apply list_elem_of_In, in_concat in Hx as (l & (y & <- & Hy)%in_map_iff & Hx). apply list_elem_of_In, elem_of_seqZ in Hy. apply list_elem_of_In in Hx. destruct (openb n c y) eqn:Eo; [|by apply elem_of_nil in Hx].
  right. exists y. split; [|done]. apply openb_spec; [lia|done].
Qed.
Lemma owned_more n c u : nic_wf n u -> c <= u -> owned n c (u + 1) ≡ₚ u :: owned n c u.
Proof.
  intros HW Hu. unfold owned. replace (u + 1 - c) with ((u - c) + 1) by lia. rewrite seqZ_app by lia. replace (c + (u - c)) with u by lia. rewrite (seqZ_cons u 1), (seqZ_nil (Z.succ u)) by lia.
  rewrite map_app, concat_app. cbn [map concat]. replace (openb n c u) with false; [cbn; rewrite app_nil_r, <- app_assoc; cbn [app]; by rewrite <- Permutation_middle|].
  unfold openb. destruct (last (pre n u)) as [p|] eqn:E; [|done]. destruct (nw_pre _ _ HW u p E) as (_ & ? & _). lia.
Qed.
Lemma neg_eq (HC : rx_config) v : 0 <= v < N -> u16 (v - N) = v - N + 2 ^ 16.
Proof. intros Hv. pose proof (cf_count HC). unfold u16. rewrite <- (Z.mod_small (v - N + 2 ^ 16) (2 ^ 16)) by lia. rewrite <- (Z_mod_plus_full (v - N) 1 (2 ^ 16)). f_equal. Qed.
Lemma neg_of (HC : rx_config) x : u16 (slot x - N) = slot x - N + 2 ^ 16.
Proof. pose proof (cf_count HC). apply (neg_eq HC), slot_range. lia. Qed.
Lemma alloc_loop_spec (HC : rx_config) n c k : forall r u ids addrs, core r n c u ids addrs -> u + Z.of_nat k < c + N -> accounted r n c u ids ->
  let '(neg, r') := alloc_loop C K k (slot u) (u16 (slot u - N)) r in
  exists u' ids' addrs', core r' n c u' ids' addrs' /\ u <= u' <= u + Z.of_nat k /\ neg = u16 (slot u' - N) /\ r_use r' = r_use r /\ lro r' = lro r /\ accounted r' n c u' ids' /\
    handed (rlog r') = handed (rlog r) /\ (forall x, x < u -> ids' x = ids x).
Proof.
  induction k as [|k IH]; intros r u ids addrs HI Hk HA; cbn [alloc_loop].
  - exists u, ids, addrs. split_and!; try done; lia.
  - destruct (co_pos _ _ _ _ _ _ HI) as [P1 P2]. pose proof (alloc_mapped_spec HC (slot u) r ltac:(apply (co_out _ _ _ _ _ _ HI); lia)) as H.
    destruct (ixgbe_alloc_mapped_skb C K (slot u) r) as [ok r1]. inversion H as [r'' t b a E1 E2 E3 E4 E5 E6 E7 E8 E9 E10 E11|r'' l E1 E2 E3 E4 E5 E6 E7 E8 E9 E10]; subst.
    + pose proof (post_step HC r n c u ids addrs r1 t b a HI ltac:(lia) E1 E3 E5 E6 E7 E8 E9 E10) as HI1. cbv zeta in HI1. cbv zeta.
      assert ((if u16 (u16 (slot u - N) + 1) =? 0 then (0, u16 (u16 (u16 (slot u - N) + 1) - N)) else (slot u + 1, u16 (u16 (slot u - N) + 1))) = (slot (u + 1), u16 (slot (u + 1) - N))) as ->.
      { pose proof (cf_count HC). pose proof (slot_range N ltac:(lia) u). pose proof (slot_next N ltac:(lia) u) as En. rewrite !neg_of by done. rewrite <- En.
        destruct (Z.eqb_spec (slot u + 1) N) as [Es|Es].
        - replace (slot u - N + 2 ^ 16 + 1) with (2 ^ 16) by lia. change (u16 (2 ^ 16)) with 0. cbn [Z.eqb]. f_equal. apply (neg_eq HC). lia.
        - rewrite u16_small by lia. destruct (Z.eqb_spec (slot u - N + 2 ^ 16 + 1) 0); [lia|]. f_equal. lia. }
      set (r2 := set_rdesc _ _ _) in *. specialize (IH r2 (u + 1) _ _ HI1 ltac:(lia)).
      destruct (alloc_loop C K k _ _ r2) as [neg r']. destruct IH as (u' & ids' & addrs' & G1 & G2 & G3 & G4 & G5 & G6 & G7 & G8).
      * unfold accounted in *. unfold r2. cbn [rlog set_rdesc]. rewrite E11, allocs_app, gone_app, HA. change (allocs [Alloc (calls r); Mapped a]) with [calls r]. change (gone [Alloc (calls r); Mapped a]) with (@nil Z). rewrite app_nil_r.
        rewrite owned_more by (done || lia || apply HI). cbn [map]. rewrite fn_lookup_insert. rewrite (map_ids_ext ids (<[u := calls r]> ids)) by (intros x Hx; pose proof (owned_range _ _ _ _ _ _ x HI Hx); apply fn_lookup_insert_ne; lia).
        rewrite (Permutation_app_comm _ [calls r]). cbn [app]. apply Permutation_middle.
      * exists u', ids', addrs'. split_and!; try done; try lia.
        -- rewrite G4. done.
        -- rewrite G5. done.
        -- rewrite G7. unfold r2. cbn [rlog set_rdesc]. rewrite E11, handed_app. apply app_nil_r.
        -- intros x Hx. rewrite G8 by lia. apply fn_lookup_insert_ne. lia.
    + exists u, ids, addrs. split_and!; try done; try lia.
      * apply (core_frame r); try done; try lia. intros x Hx. apply E7. pose proof (co_calls _ _ _ _ _ _ HI x (mine_range _ _ _ _ _ _ x HI Hx)). lia.
      * unfold accounted in *. rewrite E9, allocs_app, gone_app, HA. destruct E10 as [->| ->]; cbn; rewrite ?app_nil_r; [done|]. rewrite <- !app_assoc. apply Permutation_app_head, Permutation_app_comm.
      * rewrite E9, handed_app. destruct E10 as [->| ->]; apply app_nil_r.
Qed.
Lemma gone_freed l : gone (map Freed l) = l /\ allocs (map Freed l) = [] /\ handed (map Freed l) = [].
Proof.
  assert (allocs (map Freed l) = [] /\ handed (map Freed l) = [] /\ freed (map Freed l) = l) as (E1 & E2 & E3) by (induction l as [|s l (IH1 & IH2 & IH3)]; [done|split_and!; cbn; [done|done|f_equal; done]]).
  split_and!; try done. unfold gone. by rewrite E2, E3, app_nil_r.
Qed.
(** Socket buffers are new when they are allocated. *)
Definition fresh_ids (r : rx_ring) : Prop := NoDup (allocs (rlog r)) /\ Forall (fun s => s < calls r) (allocs (rlog r)).
Lemma fresh_same r r' : calls r <= calls r' -> allocs (rlog r') = allocs (rlog r) -> fresh_ids r -> fresh_ids r'.
Proof. intros Hc Ha [F1 F2]. split; rewrite Ha; [done|]. eapply Forall_impl; [done|]. cbn. lia. Qed.
Lemma alloc_loop_fresh (HC : rx_config) k : forall i neg r, fresh_ids r -> fresh_ids (alloc_loop C K k i neg r).2.
Proof.
  induction k as [|k IH]; intros i neg r HF; cbn [alloc_loop]; [done|].
  assert (fresh_ids (ixgbe_alloc_mapped_skb C K i r).2) as HF'.
  { assert (forall s r, fresh_ids r -> fresh_ids (dma_map_single K s r).2) as Hmap.
    { intros s r' Hr. unfold dma_map_single. destruct (map_single _ _ _); (apply (fresh_same r'); [cbn; lia| |done]); [|done]. cbn [snd rlog add_log inc_calls set_live]. rewrite allocs_app. apply app_nil_r. }
    assert (fresh_ids (netdev_alloc_skb K r).2) as Hnew.
    { unfold netdev_alloc_skb. destruct (alloc_skb K (calls r)) as [[t b]|]; [|apply (fresh_same r); [cbn; lia|done|done]]. destruct HF as [F1 F2]. split; cbn [snd rlog add_log inc_calls set_skb calls]; rewrite allocs_app; cbn.
      - apply NoDup_app. split; [done|]. split; [|apply NoDup_singleton]. intros x Hx ->%list_elem_of_singleton. rewrite Forall_forall in F2. specialize (F2 _ Hx). lia.
      - apply Forall_app. split; [eapply Forall_impl; [done|]; cbn; lia|]. constructor; [lia|constructor]. }
    unfold ixgbe_alloc_mapped_skb. destruct (truthy _); [done|].
    destruct (match bskb (rinfo r i) with Some s => (Some s, r) | None => netdev_alloc_skb K r end) as [o r1] eqn:E1. assert (fresh_ids r1) as H1 by (destruct (bskb (rinfo r i)); [by injection E1 as _ <-|by rewrite E1 in Hnew]).
    destruct o as [s0|]; [|done]. cbv zeta. match goal with |- context [dma_map_single K s0 ?x] => specialize (Hmap s0 x H1); destruct (dma_map_single K s0 x) as [[a|] r2] end; [done|]. cbn [snd] in *.
    apply (fresh_same r2); [done| |done]. unfold kfree_skb. cbn [rlog set_rstats set_rinfo add_log]. rewrite allocs_app. by rewrite (proj1 (proj2 (gone_freed _))), app_nil_r. }
  destruct (ixgbe_alloc_mapped_skb C K i r) as [[] r1]; [|done]. cbn [snd] in HF'. cbv zeta. destruct (_ =? 0); apply IH; done.
Qed.
Record ring_inv (r : rx_ring) (n : nic) (c u : Z) (ids addrs : Z -> Z) : Prop := {
  ri_core : core r n c u ids addrs; ri_use : r_use r = slot u; ri_acc : accounted r n c u ids; ri_del : delivered_all r n c ids; ri_fresh : fresh_ids r
}.
Lemma delivered_ext n u c ids ids' l : nic_wf n u -> c <= hd n -> (forall x, x < c -> ids' x = ids x) -> Forall2 (delivered n ids) (received_at n c) l -> Forall2 (delivered n ids') (received_at n c) l.
Proof.
  intros HW Hc Hi H. apply Forall2_same_length_lookup_2; [by eapply Forall2_length|]. intros i x p Hx Hp. destruct (Forall2_lookup_lr _ _ _ _ _ _ H Hx Hp) as [D1 D2 D3 D4 D5 D6 D7]. split; try done.
  rewrite D1. symmetry. apply map_ids_ext. intros q Hq. apply list_elem_of_lookup_2, list_elem_of_In, filter_In in Hx as [Hx _]. apply list_elem_of_In, elem_of_seqZ in Hx. apply Hi.
  apply elem_of_app in Hq as [Hq| ->%list_elem_of_singleton]; [|lia]. pose proof (pre_below n u HW _ x eq_refl) as Hb. rewrite Forall_forall in Hb. destruct (Hb q Hq). lia.
Qed.
Lemma rx_unused_spec (HC : rx_config) r c u : r_clean r = slot c -> r_use r = slot u -> c <= u < c + N -> ixgbe_desc_unused C r = N - 1 - (u - c).
Proof.
  intros Ec Eu Hu. pose proof (cf_count HC). unfold ixgbe_desc_unused. rewrite Ec, Eu. pose proof (slot_range N ltac:(lia) c). pose proof (slot_range N ltac:(lia) u).
  unfold Slots.slot in *. pose proof (Z.div_mod c N ltac:(lia)). pose proof (Z.div_mod u N ltac:(lia)). destruct (Z.gtb_spec (c mod N) (u mod N)).
  - assert (u / N = c / N + 1) by nia. rewrite u16_small; nia.
  - assert (u / N = c / N) by nia. rewrite u16_small; nia.
Qed.
Lemma alloc_rx_buffers_spec (HC : rx_config) r n c u ids addrs k : ring_inv r n c u ids addrs -> 0 <= k <= N - 1 - (u - c) ->
  exists u' ids' addrs', ring_inv (ixgbe_alloc_rx_buffers C K k r) n c u' ids' addrs' /\ u <= u' <= u + k /\ lro (ixgbe_alloc_rx_buffers C K k r) = lro r /\
    (forall x, x < u -> ids' x = ids x).
Proof.
  intros [HI Hu HA HD HF] Hk. unfold ixgbe_alloc_rx_buffers. rewrite (cf_pbm HC). destruct (Z.eqb_spec k 0); [exists u, ids, addrs; split_and!; try done; lia|].
  rewrite Hu. pose proof (alloc_loop_spec HC n c (Z.to_nat k) r u ids addrs HI ltac:(lia) HA) as H. pose proof (alloc_loop_fresh HC (Z.to_nat k) (slot u) (u16 (slot u - N)) r HF) as HF'. destruct (alloc_loop C K _ _ _ r) as [neg r']. destruct H as (u' & ids' & addrs' & G1 & G2 & -> & G4 & G5 & G6 & G7 & G8).
  pose proof (cf_count HC). pose proof (slot_range N ltac:(lia) u'). destruct (co_pos _ _ _ _ _ _ HI) as [P1 P2].
  assert (u16 (u16 (slot u' - N) + N) = slot u') as -> by (rewrite (neg_of HC); unfold u16; replace (slot u' - N + 2 ^ 16 + N) with (slot u' + 1 * 2 ^ 16) by lia; rewrite Z_mod_plus_full; apply Z.mod_small; lia).
  assert (delivered_all r' n c ids') as HD' by (unfold delivered_all; rewrite G7; apply (delivered_ext n u c ids); [apply HI|lia|intros x Hx; apply G8; lia|done]).
  exists u', ids', addrs'. split_and!; try done; try lia; destruct (Z.eqb_spec (r_use r') (slot u')) as [E|E]; cbn [negb]; try done.
  unfold ixgbe_release_rx_desc. split; [by apply (core_frame r')|done| | |apply (fresh_same r'); [done|cbn [rlog add_log set_use]; by rewrite allocs_app, app_nil_r|done]].
  - unfold accounted in *. cbn [rlog add_log set_use]. rewrite allocs_app, gone_app. cbn. by rewrite !app_nil_r.
  - unfold delivered_all in *. cbn [rlog add_log set_use]. by rewrite handed_app, app_nil_r.
Qed.

(** ** The adapter writes a descriptor *)
Lemma total_ext n n' P : (forall p, p ∈ P -> segs n' p = segs n p) -> total n' P = total n P.
Proof. induction P as [|p P IH]; intros H; [done|]. rewrite !total_cons, (H p), IH; [done| |]; [intros q Hq; apply H, elem_of_cons; by right|apply elem_of_cons; by left]. Qed.
Lemma append_ext n n' P : (forall p, p ∈ P -> segs n' p = segs n p) -> append_of n' P = append_of n P.
Proof.
  induction P as [|p P IH] using rev_ind; intros H; [done|]. rewrite !append_snoc, IH by (intros q Hq; apply H, elem_of_app; by left). unfold add_cnt.
  by rewrite (H p) by (apply elem_of_app; right; by apply list_elem_of_singleton).
Qed.
Lemma nic_next_wf n u g : nic_wf n u -> 0 <= hd n -> nic_ok n u g -> nic_wf (nic_next n g) u.
Proof.
  intros HW Hh Ho. pose proof (no_own _ _ _ Ho) as Hown.
  assert (forall x, x < hd n -> segs (nic_next n g) x = segs n x) as Es by (intros x Hx; cbn; apply fn_lookup_insert_ne; lia).
  assert (segs (nic_next n g) (hd n) = g) as Eg by (cbn; apply fn_lookup_insert).
  assert (forall x, Some x <> sg_next g -> pre (nic_next n g) x = pre n x) as Ep by (intros x Hx; cbn; destruct (sg_next g); [apply fn_lookup_insert_ne; congruence|done]).
  assert (forall x, sg_next g = Some x -> pre (nic_next n g) x = pre n (hd n) ++ [hd n]) as Ep' by (intros x Hx; cbn; rewrite Hx; apply fn_lookup_insert).
  assert (forall p, p < hd n + 1 -> Some p <> sg_next g) as Hold by (intros p Hp E; destruct (no_next _ _ _ Ho p ltac:(done)) as (? & _); lia).
  split.
  - intros y p Hl. destruct (decide (Some y = sg_next g)) as [E|E].
    + symmetry in E. rewrite (Ep' y E) in Hl |- *. rewrite last_snoc in Hl. injection Hl as <-. destruct (no_next _ _ _ Ho y E) as (? & _). rewrite Eg, Ep by (apply Hold; lia). cbn. split_and!; try done; lia.
    + rewrite (Ep y E) in Hl |- *. destruct (nw_pre _ _ HW y p Hl) as (H1 & H2 & H3 & H4). rewrite Es, Ep by (lia || apply Hold; lia). cbn. split_and!; try done; lia.
  - intros x y Hx Hn. cbn in Hx. destruct (decide (x = hd n)) as [->|Hne]; [rewrite Eg in Hn; rewrite (Ep' y Hn); apply last_snoc|]. rewrite Es in Hn by lia.
    pose proof (nw_next _ _ HW x y ltac:(lia) Hn) as Hl. rewrite Ep; [done|]. intros E. destruct (no_next _ _ _ Ho y ltac:(done)) as (_ & E' & _). by rewrite E' in Hl.
  - intros x Hx. cbn in Hx. rewrite Ep by (apply Hold; lia). destruct (decide (x = hd n)) as [->|Hne].
    + rewrite Eg. destruct Ho as [O1 O2 O3 O4 O5 O6 O7 O8 O9]. split_and!; try done; [intros y Hy; apply (O6 y Hy)|]. rewrite total_app, total_cons, Eg. change (total (nic_next n g) []) with 0.
      rewrite (total_ext n); [lia|]. intros p Hp. pose proof (pre_below n u HW _ (hd n) eq_refl) as Hb. rewrite Forall_forall in Hb. apply Es. destruct (Hb p Hp). lia.
    + rewrite Es by lia. destruct (nw_seg _ _ HW x ltac:(lia)) as (? & ? & ? & ? & ? & ? & ?). split_and!; try done. rewrite (total_ext n); [done|]. intros p Hp. apply Es.
      apply elem_of_app in Hp as [Hp| ->%list_elem_of_singleton]; [|lia]. pose proof (pre_below n u HW _ x eq_refl) as Hb. rewrite Forall_forall in Hb. destruct (Hb p Hp). lia.
Qed.
(** The history below [c] is the same. *)
Definition same_past (n n' : nic) (c : Z) : Prop := forall x, 0 <= x < c -> segs n' x = segs n x /\ pre n' x = pre n x.
Lemma past_packet n n' u c x : nic_wf n u -> same_past n n' c -> 0 <= x < c -> forall p, p ∈ pre n x ++ [x] -> segs n' p = segs n p.
Proof.
  intros HW Hs Hx p Hp. apply Hs. apply elem_of_app in Hp as [Hp| ->%list_elem_of_singleton]; [|done]. pose proof (pre_below n u HW _ x eq_refl) as Hb. rewrite Forall_forall in Hb. destruct (Hb p Hp). lia.
Qed.
Lemma pkt_data_ext n n' P : (forall p, p ∈ P -> segs n' p = segs n p) -> pkt_data n' P = pkt_data n P.
Proof. intros H. unfold pkt_data. f_equal. apply map_ext_in. intros p Hp%list_elem_of_In. by rewrite H. Qed.
Lemma complete_past n n' u c x : nic_wf n u -> same_past n n' c -> 0 <= x < c -> complete n' x = complete n x.
Proof.
  intros HW Hs Hx. pose proof (past_packet n n' u c x HW Hs Hx) as Hp. destruct (Hs x Hx) as [E1 E2]. unfold complete, good. rewrite E1, E2. by rewrite (append_ext n).
Qed.
Lemma delivered_past n n' u c ids x p : nic_wf n u -> same_past n n' c -> 0 <= x < c -> delivered n ids x p -> delivered n' ids x p.
Proof.
  intros HW Hs Hx [D1 D2 D3 D4 D5 D6 D7]. pose proof (past_packet n n' u c x HW Hs Hx) as Hp. destruct (Hs x Hx) as [E1 E2].
  assert (segs n' (default x (head (pre n x))) = segs n (default x (head (pre n x)))) as Eh by (apply Hp; destruct (pre n x); apply elem_of_cons; by left).
  assert (first_bytes n' x = first_bytes n x) as Ef by (unfold first_bytes; by rewrite E2, Eh).
  split; rewrite ?E1, ?E2, ?Eh, ?Ef, ?(total_ext n), ?(pkt_data_ext n), ?(append_ext n) by done; done.
Qed.
Lemma delivered_all_past r n n' u c ids : nic_wf n u -> same_past n n' c -> delivered_all r n c ids -> delivered_all r n' c ids.
Proof.
  intros HW Hs H. unfold delivered_all in *. assert (received_at n' c = received_at n c) as ->.
  { unfold received_at. apply filter_ext_in. intros x Hx%list_elem_of_In%elem_of_seqZ. apply (complete_past n n' u c); [done|done|lia]. }
  apply Forall2_same_length_lookup_2; [by eapply Forall2_length|]. intros i x p Hx Hp. pose proof (Forall2_lookup_lr _ _ _ _ _ _ H Hx Hp) as HD.
  apply list_elem_of_lookup_2, list_elem_of_In, filter_In in Hx as [Hx _]. apply list_elem_of_In, elem_of_seqZ in Hx. apply (delivered_past n n' u c); [done|done|lia|done].
Qed.
Lemma joined_past S ids addrs n n' h rest more pa a : (forall p, p ∈ h :: rest -> segs n' p = segs n p) -> joined S ids addrs n h rest more pa a -> joined S ids addrs n' h rest more pa a.
Proof.
  intros Hs [J1 J2 J3 J4 J5 J6 J7 J8]. split; rewrite ?(total_ext n) by (intros q Hq; apply Hs; done || (apply elem_of_cons; by right)); try done.
  apply Forall_forall. intros p Hp. rewrite Forall_forall in J8. destruct (J8 p Hp) as [M1 M2 M3]. split; try done. by rewrite Hs by (apply elem_of_cons; by right).
Qed.
Lemma nic_step (HC : rx_config) r n c u ids addrs g : ring_inv r n c u ids addrs -> nic_ok n u g ->
  live r (pkt_addr (rdesc r (slot (hd n)))) = Some (ids (hd n)) /\
  exists r', nic_write N n g r = Some r' /\ ring_inv r' (nic_next n g) c u ids addrs /\ lro r' = lro r /\ r_use r' = r_use r.
Proof.
  intros [HI Hu HA HD HF] Ho. pose proof (co_pos _ _ _ _ _ _ HI) as [P1 P2]. pose proof (no_own _ _ _ Ho) as Hown. pose proof (co_wf _ _ _ _ _ _ HI) as HW.
  assert (live r (pkt_addr (rdesc r (slot (hd n)))) = Some (ids (hd n))) as Hl by (rewrite (co_read _ _ _ _ _ _ HI) by lia; apply (co_live _ _ _ _ _ _ HI); left; lia).
  split; [done|]. unfold nic_write. rewrite Hl. eexists. split; [done|]. split; [|done]. set (n' := nic_next n g). pose proof (nic_next_wf n u g HW ltac:(lia) Ho) as HW'. fold n' in HW'.
  assert (forall x, x < hd n -> segs n' x = segs n x) as Es by (intros x Hx; cbn; apply fn_lookup_insert_ne; lia).
  assert (segs n' (hd n) = g) as Eg by (cbn; apply fn_lookup_insert).
  assert (forall x, Some x <> sg_next g -> pre n' x = pre n x) as Ep by (intros x Hx; cbn; destruct (sg_next g); [apply fn_lookup_insert_ne; congruence|done]).
  assert (forall x, sg_next g = Some x -> pre n' x = pre n (hd n) ++ [hd n] /\ pre n x = [] /\ hd n < x) as Ep' by (intros x Hx; destruct (no_next _ _ _ Ho x Hx) as (? & ? & _); split_and!; [cbn; rewrite Hx; apply fn_lookup_insert|done|lia]).
  assert (hd n' = hd n + 1) as Eh by done. clearbody n'.
  assert (same_past n n' (hd n)) as Hpast by (intros x Hx; split; [apply Es; lia|apply Ep; intros E; destruct (Ep' x ltac:(done)) as (_ & _ & ?); lia]).
  assert (forall y, open n' c u y <-> open n c u y) as HO.
  { intros y. unfold open. destruct (decide (Some y = sg_next g)) as [E|E]; [|by rewrite Ep]. symmetry in E. destruct (Ep' y E) as (-> & -> & _). rewrite last_snoc. split; [intros (_ & p & [= <-] & ?); lia|intros (_ & p & ? & _); done]. }
  assert (forall y, open n c u y -> pre n' y = pre n y) as HOp by (intros y (_ & p & Hp & _); apply Ep; intros E; destruct (Ep' y ltac:(done)) as (_ & E' & _); by rewrite E' in Hp).
  assert (forall x, mine n' c u x <-> mine n c u x) as HM by (intros x; unfold mine; split; (intros [H|(y & H1 & H2)]; [by left|right; exists y]); [apply HO in H1|apply HO in H1 as H1']; rewrite ?HOp in * by done; done).
  assert (forall x, mapped_at n' c u x <-> mapped_at n c u x) as HP by (intros x; unfold mapped_at; split; (intros [H|(y & H1 & H2)]; [by left|right; exists y]); [apply HO in H1|apply HO in H1 as H1']; rewrite ?HOp in * by done; done).
  assert (forall x, mine n c u x -> x <> hd n -> ids x <> ids (hd n)) as Hid by (intros x Hx Hne E; apply Hne; apply (ids_inj _ _ _ _ _ _ _ _ HI); [by eapply mine_range|lia|done]).
  set (S' := <[ids (hd n) := set_rbytes (dma_bytes (sg_data g) (rbytes (skbs r (ids (hd n))))) (skbs r (ids (hd n)))]> (skbs r)).
  assert (forall s, alike (skbs r s) (S' s)) as Hal by (intros s; unfold S'; rewrite fn_insert_dec; case_decide as E; [by rewrite <- E|done]).
  assert (forall x, c <= x < u -> x <> hd n -> slot x <> slot (hd n)) as Sne by (intros x Hx Hne; apply (slot_ne HC c); lia).
  split; [|done| | |done].
  - split; try apply HI; rewrite ?Eh; try done; try lia.
    + intros x Hx. cbn. rewrite fn_lookup_insert_ne by (intros E; apply (Sne x); lia). apply HI. lia.
    + intros x Hx. cbn. rewrite fn_lookup_insert_ne; [apply HI; lia|]. intros E. apply (slot_ne HC c x (hd n)); lia.
    + intros x Hx. cbn. destruct (decide (x = hd n)) as [->|Hne]; [by rewrite fn_lookup_insert, Eg|]. rewrite fn_lookup_insert_ne by (intros E; apply (Sne x); lia). rewrite Es by lia. apply HI. lia.
    + intros x Hx%HP. apply (co_live _ _ _ _ _ _ HI x Hx).
    + intros a s Hs. destruct (co_only _ _ _ _ _ _ HI a s Hs) as (x & Hx & ->). exists x. split; [by apply HP|done].
    + intros y Hy Hno. rewrite HO in Hno. cbn. fold S'. eapply alike_plain; [apply Hal|]. by apply (co_plain _ _ _ _ _ _ HI).
    + intros y Hy%HO. cbn. fold S'. pose proof (co_wait _ _ _ _ _ _ HI y Hy) as Hw. apply (waiting_ext _ S' ids ids addrs addrs) in Hw; [|intros p Hp; split; [done|]; split; [done|apply Hal]].
      destruct Hw as [(h & rest & E & HJ & Hr)]. destruct (open_pre _ _ _ _ _ HW Hy) as [Hb _]. rewrite Forall_forall in Hb. split. exists h, rest. rewrite HOp by done. split; [done|]. split; [|done].
      rewrite (append_ext n) by (intros p Hp; apply Es; apply (Hb p Hp)). apply (joined_past _ _ _ n); [|done]. intros p Hp. apply Es. rewrite <- E in Hp. apply (Hb p Hp).
    + intros x Hx%HM Hlt. cbn. fold S'. unfold has_data. destruct (decide (x = hd n)) as [->|Hne].
      * rewrite Eg. unfold S'. rewrite fn_lookup_insert. apply dma_bytes_data.
      * rewrite Es by lia. unfold S'. rewrite fn_lookup_insert_ne by (intros E; by apply (Hid x)). apply (co_data _ _ _ _ _ _ HI); [done|lia].
  - unfold accounted in *. cbn [rlog set_rdesc set_skb]. rewrite HA. apply Permutation_app_head. unfold owned. rewrite (map_ext_in (fun y => if openb n' c y then pre n' y else []) (fun y => if openb n c y then pre n y else [])); [done|].
    intros y Hy%list_elem_of_In%elem_of_seqZ. destruct (openb n c y) eqn:E.
    + apply (openb_spec n c u) in E; [|lia]. rewrite HOp by done. by rewrite (proj2 (openb_spec n' c u y ltac:(lia)) (proj2 (HO y) E)).
    + destruct (openb n' c y) eqn:E'; [|done]. apply (openb_spec n' c u) in E'; [|lia]. apply HO, (openb_spec n c u) in E'; [congruence|lia].
  - apply (delivered_all_past _ n n' u); [done| |done]. intros x Hx. apply Hpast. lia.
Qed.

(** ** The driver takes a descriptor *)
Lemma pre_nodup n u : nic_wf n u -> forall k y, length (pre n y) = k -> NoDup (pre n y ++ [y]).
Proof.
  intros HW k. induction k as [|k IH]; intros y Hk.
  - apply length_zero_iff_nil in Hk. rewrite Hk. apply NoDup_singleton.
  - destruct (pre_nil_or n y) as [E|[p Hp]]; [by rewrite E in Hk|]. destruct (nw_pre _ _ HW y p Hp) as (H1 & H2 & H3 & E). rewrite E, length_app in Hk. cbn in Hk.
    apply NoDup_app. split; [rewrite E; apply IH; lia|]. split; [|apply NoDup_singleton]. intros q Hq ->%list_elem_of_singleton. pose proof (pre_below n u HW _ y eq_refl) as Hb. rewrite Forall_forall in Hb. destruct (Hb y Hq). lia.
Qed.
(** The fields that the handling of a packet leaves alone. *)
Definition same_ring (r r' : rx_ring) : Prop := rdesc r' = rdesc r /\ r_use r' = r_use r /\ calls r' = calls r /\ lro r' = lro r.
Record take_post (r r1 : rx_ring) (n : nic) (c h : Z) (rest : list Z) (ids addrs : Z -> Z) : Prop := {
  tp_same : same_ring r r1; tp_clean : r_clean r1 = r_clean r;
  tp_info : rinfo r1 = <[slot c := Buf None 0]> (rinfo r);
  tp_live : live r1 = if bool_decide (rest = []) then live r else <[addrs c := None]> (live r);
  tp_log : rlog r1 = rlog r ++ (if bool_decide (rest = []) then [] else [Unmapped (addrs c)]);
  tp_joined : joined (skbs r1) ids addrs n h rest [] (last (map ids rest)) (append_of n (pre n c));
  tp_bytes : forall s, rbytes (skbs r1 s) = rbytes (skbs r s);
  tp_other : forall s, s <> ids h -> s <> ids c -> skbs r1 s = skbs r s
}.
Lemma take_plain r n c u ids addrs : core r n c u ids addrs -> c < hd n -> pre n c = [] ->
  let '(s, r1) := rx_take (slot c) (wb_length (seg_desc (segs n c))) (ids c) r in s = ids c /\ take_post r r1 n c c [] ids addrs.
Proof.
  intros HI Hc Hp. pose proof (co_pos _ _ _ _ _ _ HI) as [P1 P2]. destruct (nw_seg _ _ (co_wf _ _ _ _ _ _ HI) c ltac:(lia)) as (-> & _).
  assert (~ open n c u c) as Hno by (intros (_ & p & Hl & _); by rewrite Hp in Hl). destruct (co_plain _ _ _ _ _ _ HI c ltac:(lia) Hno) as [A1 A2 A3 A4 A5 A6].
  unfold rx_take. cbn [skbs set_skb rinfo]. rewrite fn_lookup_insert. cbn [rcb set_rlens]. rewrite A5. cbn [partner]. rewrite (co_in _ _ _ _ _ _ HI) by lia. cbn [bdma]. split; [done|].
  split; cbn; try done; rewrite ?fn_lookup_insert; cbn; try done.
  - by rewrite app_nil_r.
  - rewrite Hp. split; cbn; rewrite ?fn_lookup_insert; cbn; rewrite ?A1, ?A2, ?A5; try done.
    lia.
  - intros s. rewrite !fn_insert_dec. case_decide as E; [|done]. by rewrite <- E.
  - intros s Hs _. by rewrite !fn_lookup_insert_ne by done.
Qed.
Lemma take_open (HC : rx_config) r n c u ids addrs h rest : core r n c u ids addrs -> c < hd n -> pre n c = h :: rest ->
  let '(s, r1) := rx_take (slot c) (wb_length (seg_desc (segs n c))) (ids c) r in s = ids h /\ take_post r r1 n c h (rest ++ [c]) ids addrs.
Proof.
  intros HI Hc Hp. pose proof (co_pos _ _ _ _ _ _ HI) as [P1 P2]. pose proof (co_wf _ _ _ _ _ _ HI) as HW. destruct (nw_seg _ _ HW c ltac:(lia)) as (-> & _ & _ & _ & _ & Htot & _).
  assert (open n c u c) as Ho.
  { split; [lia|]. destruct (pre_nil_or n c) as [E|[p Hl]]; [by rewrite E in Hp|]. exists p. split; [done|]. destruct (nw_pre _ _ HW c p Hl) as (_ & ? & _). lia. }
  destruct (co_wait _ _ _ _ _ _ HI c Ho) as [(h' & rest' & Eh & [J1 J2 J3 J4 J5 J6 J7 J8] & B1 & B2 & B3 & B4 & B5)]. rewrite Hp in Eh. injection Eh as <- <-.
  pose proof (pre_nodup n u HW _ c eq_refl) as Hnd. rewrite Hp in Hnd, Htot. cbn in Hnd. apply NoDup_cons in Hnd as [Hh Hnd].
  destruct (open_pre _ _ _ _ _ HW Ho) as [Hb _]. rewrite Hp, Forall_forall in Hb.
  assert (forall p q, p ∈ h :: rest ++ [c] -> q ∈ h :: rest ++ [c] -> p <> q -> ids p <> ids q) as Hne.
  { assert (forall p, p ∈ h :: rest ++ [c] -> 0 <= p < u) as Hr by (intros p Hp'; rewrite app_comm_cons in Hp'; apply elem_of_app in Hp' as [Hp'| ->%list_elem_of_singleton]; [destruct (Hb p Hp')|]; lia).
    intros p q H1 H2 Hne E. apply Hne. apply (ids_inj _ _ _ _ _ _ _ _ HI); [by apply Hr|by apply Hr|done]. }
  assert (c ∈ h :: rest ++ [c]) as Hcin by (apply elem_of_cons; right; apply elem_of_app; right; by apply list_elem_of_singleton). assert (h ∈ h :: rest ++ [c]) as Hhin by (apply elem_of_cons; by left).
  assert (ids c <> ids h) as Hch by (apply Hne; [done|done|]; intros ->; apply Hh, elem_of_app; right; by apply list_elem_of_singleton).
  rewrite total_app, !total_cons in Htot. change (total n []) with 0 in Htot. pose proof (total_nonneg n rest). assert (forall g, 0 <= seg_len g) as Hsl by (intros g; unfold seg_len; lia). pose proof (Hsl (segs n h)). pose proof (Hsl (segs n c)).
  rewrite total_cons in J1.
  unfold rx_take, ixgbe_merge_active_tail. cbn [skbs set_skb rinfo]. rewrite fn_lookup_insert. cbn [rcb set_rlens]. rewrite B4. cbn [partner]. cbn [rinfo set_skb]. rewrite (co_in _ _ _ _ _ _ HI) by lia. cbn [bdma]. split; [done|].
  assert (bool_decide (rest ++ [c] = []) = false) as Ebd by (apply bool_decide_eq_false; by destruct rest).
  split; try done; rewrite ?Ebd; try done.
  - cbn [skbs set_rinfo dma_unmap_single add_log set_live set_skb]. set (S1 := <[ids c := set_partner None _]> _).
    assert (S1 (ids h) = set_rlens (u32 (rlen (skbs r (ids h)) + (rlen (skbs r (ids c)) + seg_len (segs n c)))) (u32 (rdata_len (skbs r (ids h)) + (rlen (skbs r (ids c)) + seg_len (segs n c)))) (u32 (rtruesize (skbs r (ids h)) + rtruesize (skbs r (ids c)))) (skbs r (ids h))) as Sh.
    { unfold S1. by repeat first [rewrite fn_lookup_insert|rewrite fn_lookup_insert_ne by done]. }
    assert (S1 (ids c) = set_partner None (set_rlens (rlen (skbs r (ids c)) + seg_len (segs n c)) (rdata_len (skbs r (ids c))) (rtruesize (skbs r (ids c))) (skbs r (ids c)))) as Sc by (unfold S1; by repeat first [rewrite fn_lookup_insert|rewrite fn_lookup_insert_ne by done]).
    assert (forall s, s <> ids h -> s <> ids c -> S1 s = skbs r s) as So by (intros s G1 G2; unfold S1; by rewrite !fn_lookup_insert_ne by done). clearbody S1.
    split.
    + rewrite Sh. cbn [rlen set_rlens]. rewrite J1, B1, total_cons, total_app, total_cons. change (total n []) with 0. rewrite u32_small; lia.
    + rewrite Sh. cbn [rdata_len set_rlens]. rewrite J2, B1, total_app, total_cons. change (total n []) with 0. rewrite u32_small; lia.
    + by rewrite Sh.
    + by rewrite Sh, app_nil_r.
    + rewrite Sh, map_app. cbn [map]. rewrite last_snoc. cbn [rcb set_rlens]. by rewrite J5, Hp.
    + by rewrite Sh.
    + rewrite app_nil_r. apply (links_ext (skbs r)); [|done]. intros s (p & -> & Hp')%list_elem_of_fmap. destruct (decide (p = c)) as [->|Hpc]; [by rewrite Sc|]. rewrite So; [done|apply Hne; [by apply elem_of_cons; right|done|by intros ->]|apply Hne; [by apply elem_of_cons; right|done|done]].
    + apply Forall_app. split; [|constructor; [|constructor]].
      * rewrite Forall_forall in J8. apply Forall_forall. intros p Hp'. assert (p ∈ rest ++ [c]) as Hin by (apply elem_of_app; by left). rewrite So; [by apply J8|apply Hne; [by apply elem_of_cons; right|done|by intros ->]|apply Hne; [by apply elem_of_cons; right|done|]].
        intros ->. apply NoDup_app in Hnd as (_ & Hnd & _). by apply (Hnd c Hp'), list_elem_of_singleton.
      * rewrite Sc. split; cbn; [lia|done|done].
  - intros s. cbn. rewrite !fn_insert_dec. repeat case_decide; subst; done.
  - intros s G1 G2. cbn. by rewrite !fn_lookup_insert_ne by done.
Qed.
Lemma take_spec (HC : rx_config) r n c u ids addrs : core r n c u ids addrs -> c < hd n -> exists h rest, pre n c ++ [c] = h :: rest /\
  let '(s, r1) := rx_take (slot c) (wb_length (seg_desc (segs n c))) (ids c) r in s = ids h /\ take_post r r1 n c h rest ids addrs.
Proof.
  intros HI Hc. destruct (pre n c) as [|h rest] eqn:E.
  - exists c, []. split; [done|]. by apply take_plain with (u := u).
  - exists h, (rest ++ [c]). split; [done|]. by apply (take_open HC r n c u).
Qed.
(** Which packets are open, and what is in use, one descriptor later. *)
Lemma open_step n u c z : nic_wf n u -> 0 <= c < hd n -> open n (c + 1) u z <-> c + 1 <= z < u /\ (open n c u z \/ sg_next (segs n c) = Some z).
Proof.
  intros HW Hc. split.
  - intros (Hz & p & Hp & Hlt). split; [done|]. destruct (decide (p = c)) as [->|Hne]; [right; by destruct (nw_pre _ _ HW z c Hp) as (_ & _ & ? & _)|left; split; [lia|]; exists p; split; [done|lia]].
  - intros [Hz [(_ & p & Hp & Hlt)|Hn]]; (split; [lia|]); [exists p; split; [done|lia]|]. exists c. split; [by apply (nw_next _ _ HW)|lia].
Qed.
Lemma next_pre n u c z : nic_wf n u -> 0 <= c < hd n -> sg_next (segs n c) = Some z -> pre n z = pre n c ++ [c] /\ c < z < u /\ ~ open n c u z.
Proof.
  intros HW Hc Hn. pose proof (nw_next _ _ HW c z Hc Hn) as Hl. destruct (nw_pre _ _ HW z c Hl) as (_ & ? & _ & E). split_and!; [done|lia|lia|]. intros (_ & p & Hp & ?). rewrite Hl in Hp. injection Hp as <-. lia.
Qed.
Lemma packet_apart n u c z p : nic_wf n u -> 0 <= c < hd n -> c < u -> open n c u z -> z <> c -> p ∈ pre n z -> p ∉ pre n c ++ [c].
Proof.
  intros HW Hc Hu Ho Hz Hp Hin. destruct (open_pre _ _ _ _ _ HW Ho) as [Hb _]. rewrite Forall_forall in Hb. destruct (Hb p Hp) as [Hpc _]. apply elem_of_app in Hin as [Hin| ->%list_elem_of_singleton]; [|lia].
  apply Hz. apply (open_disjoint' n u c u z c p HW Ho); [|done|done]. split; [lia|]. destruct (pre_nil_or n c) as [E|[q Hq]]; [rewrite E in Hin; by apply elem_of_nil in Hin|].
  exists q. split; [done|]. destruct (nw_pre _ _ HW c q Hq) as (_ & ? & _). lia.
Qed.
Lemma mine_step n u c x : nic_wf n u -> 0 <= c < hd n -> c < u -> mine n (c + 1) u x -> mine n c u x /\ (x ∉ pre n c ++ [c] \/ exists y, sg_next (segs n c) = Some y).
Proof.
  intros HW Hc Hu [Hx|(y & Ho & Hin)].
  - split; [left; lia|]. left. intros Hin. apply elem_of_app in Hin as [Hin| ->%list_elem_of_singleton]; [|lia]. pose proof (pre_below n u HW _ c eq_refl) as Hb. rewrite Forall_forall in Hb. destruct (Hb x Hin). lia.
  - apply (open_step n u c y HW Hc) in Ho as [Hy [Ho|Hn]].
    + split; [right; by exists y|]. left. apply (packet_apart n u c y); try done; lia.
    + split; [|right; by exists y]. destruct (next_pre n u c y HW Hc Hn) as (E & _). rewrite E in Hin. apply elem_of_app in Hin as [Hin| ->%list_elem_of_singleton]; [|left; lia].
      right. exists c. split; [|done]. split; [lia|]. destruct (pre_nil_or n c) as [E'|[q Hq]]; [rewrite E' in Hin; by apply elem_of_nil in Hin|]. exists q. split; [done|]. destruct (nw_pre _ _ HW c q Hq) as (_ & ? & _). lia.
Qed.
Lemma mapped_step n u c x : nic_wf n u -> 0 <= c < hd n -> c < u -> mapped_at n (c + 1) u x -> mapped_at n c u x.
Proof.
  intros HW Hc Hu [Hx|(y & Ho & Hh)]; [left; lia|]. apply (open_step n u c y HW Hc) in Ho as [Hy [Ho|Hn]]; [right; by exists y|].
  destruct (next_pre n u c y HW Hc Hn) as (E & _). rewrite E in Hh. destruct (pre n c) as [|h l] eqn:Ep; cbn in Hh; injection Hh as <-; [left; lia|]. right. exists c. rewrite Ep. split; [|done].
  split; [lia|]. destruct (pre_nil_or n c) as [E'|[q Hq]]; [by rewrite E' in Ep|]. exists q. split; [done|]. destruct (nw_pre _ _ HW c q Hq) as (_ & ? & _). lia.
Qed.
(** The invariant one descriptor later, when only the packet in hand and the buffer where it continues have changed. *)
Lemma core_next (HC : rx_config) r r2 n c u ids addrs : core r n c u ids addrs -> c < hd n -> rdesc r2 = rdesc r -> r_clean r2 = slot (c + 1) -> calls r2 = calls r ->
  rinfo r2 = <[slot c := Buf None 0]> (rinfo r) -> (forall s, rbytes (skbs r2 s) = rbytes (skbs r s)) ->
  (forall z, mine n c u z -> z ∉ pre n c ++ [c] -> Some z <> sg_next (segs n c) -> skbs r2 (ids z) = skbs r (ids z)) ->
  (forall y, sg_next (segs n c) = Some y -> waiting (skbs r2) ids addrs n y) ->
  (forall x, mapped_at n (c + 1) u x -> live r2 (addrs x) = live r (addrs x)) ->
  (forall a s, live r2 a = Some s -> live r a = Some s /\ forall x, mapped_at n c u x -> a = addrs x -> mapped_at n (c + 1) u x) -> core r2 n (c + 1) u ids addrs.
Proof.
  intros HI Hc Ed Ec Ek Ei Eb Es Hw Hl Hl'. pose proof (co_pos _ _ _ _ _ _ HI) as [P1 P2]. pose proof (co_wf _ _ _ _ _ _ HI) as HW. assert (0 <= c < hd n) as Hc' by lia.
  assert (forall x, c + 1 <= x < c + N -> slot x <> slot c) as Sne by (intros x Hx; apply (slot_ne HC c); lia).
  split; rewrite ?Ed, ?Ek; try apply HI; try done; try lia.
  - intros x Hx. rewrite Ei, fn_lookup_insert_ne by (intros E; apply (Sne x); [lia|done]). apply HI. lia.
  - intros x Hx. apply (co_addr _ _ _ _ _ _ HI). lia.
  - intros x Hx. rewrite Ei. destruct (decide (x = c + N)) as [->|Hne].
    + rewrite fn_insert_dec, decide_True; [done|]. unfold Slots.slot. rewrite <- (Z_mod_plus_full c 1 N). f_equal. lia.
    + rewrite fn_lookup_insert_ne by (intros E; apply (Sne x); [lia|done]). apply HI. lia.
  - intros x Hx. apply (co_done _ _ _ _ _ _ HI). lia.
  - intros x Hx. rewrite Hl by done. apply (co_live _ _ _ _ _ _ HI). apply mapped_step; try done; lia.
  - intros a s Hs. destruct (Hl' a s Hs) as [Hs' Hm]. destruct (co_only _ _ _ _ _ _ HI a s Hs') as (x & Hx & ->). exists x. split; [by apply Hm|done].
  - intros y Hy Hno. assert (Some y <> sg_next (segs n c)) as Hne by (intros E; apply Hno, (open_step n u c y HW Hc'); split; [lia|by right]). rewrite Es; [|by left; lia| |done].
    + apply (co_plain _ _ _ _ _ _ HI); [lia|]. intros Ho. apply Hno, (open_step n u c y HW Hc'). split; [lia|by left].
    + intros Hin. apply elem_of_app in Hin as [Hin| ->%list_elem_of_singleton]; [|lia]. pose proof (pre_below n u HW _ c eq_refl) as Hb. rewrite Forall_forall in Hb. destruct (Hb y Hin). lia.
  - intros y Ho. apply (open_step n u c y HW Hc') in Ho as [Hy [Ho|Hn]]; [|by apply Hw]. apply (waiting_ext (skbs r) _ ids _ addrs); [|by apply (co_wait _ _ _ _ _ _ HI)].
    intros p Hp. split; [done|]. split; [done|]. apply alike_eq, Es.
    + apply elem_of_app in Hp as [Hp| ->%list_elem_of_singleton]; [right; by exists y|left; lia].
    + apply elem_of_app in Hp as [Hp| ->%list_elem_of_singleton]; [by apply (packet_apart n u c y); try done; lia|].
      intros Hin. apply elem_of_app in Hin as [Hin| ->%list_elem_of_singleton]; [|lia]. pose proof (pre_below n u HW _ c eq_refl) as Hb. rewrite Forall_forall in Hb. destruct (Hb y Hin). lia.
    + intros E. symmetry in E. destruct (next_pre n u c p HW Hc' E) as (Ep & Hpu & Hno). apply elem_of_app in Hp as [Hp| ->%list_elem_of_singleton]; [|by apply Hno].
      destruct (open_pre _ _ _ _ _ HW Ho) as [Hb _]. rewrite Forall_forall in Hb. destruct (Hb p Hp). lia.
  - intros x Hm Hx. destruct (mine_step n u c x HW Hc' ltac:(lia) Hm) as [Hm' _]. unfold has_data. rewrite Eb. by apply (co_data _ _ _ _ _ _ HI).
Qed.

(** *** The packet continues *)
Lemma links_snoc S S' l x y : links S (l ++ [x]) -> (forall s, s ∈ l -> rnext (S' s) = rnext (S s)) -> rnext (S' x) = Some y -> rnext (S' y) = None -> links S' (l ++ [x; y]).
Proof.
  intros HL Hl Hx Hy. induction l as [|s l IH]; [by split_and!|]. destruct HL as [Hs HL]. rewrite <- app_comm_cons. split.
  - rewrite Hl by (apply elem_of_cons; by left). rewrite Hs. by destruct l.
  - apply IH; [done|]. intros t Ht. apply Hl, elem_of_cons. by right.
Qed.
(** Behind the packet in hand a new socket buffer is put. *)
Lemma joined_link S S' ids addrs n h rest y a : joined S ids addrs n h rest [] (last (map ids rest)) a -> NoDup (map ids (h :: rest ++ [y])) ->
  rcb (S' (ids h)) = RxCb (Some (ids y)) (addrs h) a -> rlen (S' (ids h)) = rlen (S (ids h)) -> rdata_len (S' (ids h)) = rdata_len (S (ids h)) -> rmeta (S' (ids h)) = rmeta (S (ids h)) -> rnext (S' (ids h)) = rnext (S (ids h)) ->
  rfrag (S' (ids h)) = (if bool_decide (rest = []) then Some (ids y) else rfrag (S (ids h))) ->
  (forall s, s ∈ map ids rest -> rlen (S' s) = rlen (S s) /\ rfrag (S' s) = rfrag (S s) /\ rcb (S' s) = rcb (S s) /\ rnext (S' s) = if decide (last (map ids rest) = Some s) then Some (ids y) else rnext (S s)) ->
  rnext (S' (ids y)) = None -> joined S' ids addrs n h rest [y] (Some (ids y)) a.
Proof.
  intros [J1 J2 J3 J4 J5 J6 J7 J8] Hnd E1 E2 E3 E4 E5 E6 Hm Ey. rewrite app_nil_r in J4, J7. cbn in Hnd. apply NoDup_cons in Hnd as [_ Hnd]. rewrite map_app in Hnd. apply NoDup_app in Hnd as (Hnd & _ & _).
  split; try congruence.
  - rewrite E6. case_bool_decide as Er; [by subst|]. rewrite J4. by destruct rest.
  - rewrite map_app. cbn [map]. destruct rest as [|q l _] using rev_ind; [by split|]. rewrite map_app in *. cbn [map] in *. rewrite last_snoc in Hm. rewrite <- app_assoc. cbn [app]. apply NoDup_app in Hnd as (_ & Hnd & _). apply (links_snoc S); [done| | |done].
    + intros s Hs. destruct (Hm s) as (_ & _ & _ & ->); [apply elem_of_app; by left|]. rewrite decide_False; [done|]. intros [= <-]. apply (Hnd (ids q) Hs). by apply list_elem_of_singleton.
    + destruct (Hm (ids q)) as (_ & _ & _ & ->); [apply elem_of_app; right; by apply list_elem_of_singleton|]. by rewrite decide_True.
  - apply Forall_forall. intros p Hp. rewrite Forall_forall in J8. destruct (J8 p Hp) as [M1 M2 M3]. destruct (Hm (ids p)) as (F1 & F2 & F3 & _); [apply list_elem_of_fmap; by exists p|]. split; congruence.
Qed.
Lemma addr_inj r n c u ids addrs x y : core r n c u ids addrs -> mapped_at n c u x -> mapped_at n c u y -> addrs x = addrs y -> x = y.
Proof.
  intros HI Hx Hy E. apply (ids_inj _ _ _ _ _ _ _ _ HI); [by eapply mine_range, mapped_mine|by eapply mine_range, mapped_mine|].
  pose proof (co_live _ _ _ _ _ _ HI x Hx) as H1. pose proof (co_live _ _ _ _ _ _ HI y Hy) as H2. rewrite E in H1. congruence.
Qed.
Section Taken.
Context (n : nic) (u c h : Z) (rest : list Z) (HW : nic_wf n u) (Hc : 0 <= c < hd n) (Hu : c < u) (HP : pre n c ++ [c] = h :: rest).
Lemma mapped_h : mapped_at n c u h.
Proof.
  destruct (pre n c) as [|q l] eqn:E; cbn in HP; injection HP as <- _; [left; lia|]. right. exists c. rewrite E. split; [|done]. split; [lia|]. destruct (pre_nil_or n c) as [E'|[p Hp]]; [congruence|].
  exists p. split; [done|]. destruct (nw_pre _ _ HW c p Hp) as (_ & ? & _). lia.
Qed.
Lemma mapped_next x : mapped_at n c u x -> x = c \/ x = h \/ mapped_at n (c + 1) u x.
Proof.
  intros [Hx|(z & Ho & Hh)]; [destruct (decide (x = c)); [by left|right; right; left; lia]|]. destruct (decide (z = c)) as [->|Hz].
  - right. left. destruct (pre n c); [done|]. cbn in HP, Hh. congruence.
  - right. right. right. exists z. split; [|done]. apply (open_step n u c z HW Hc). split; [|by left]. destruct Ho as [? _]. lia.
Qed.
Lemma mapped_h_next y : sg_next (segs n c) = Some y -> mapped_at n (c + 1) u h.
Proof. intros Hn. right. exists y. destruct (next_pre n u c y HW Hc Hn) as (E & ? & _). rewrite E, HP. split; [|done]. apply (open_step n u c y HW Hc). split; [lia|by right]. Qed.
(** What is still mapped: not this descriptor, unless its packet begins here and goes on; not the packet, unless it goes on. *)
Lemma mapped_left x : mapped_at n (c + 1) u x -> (x = c -> rest = []) /\ (x = c \/ x = h -> sg_next (segs n c) <> None).
Proof.
  assert (h = c -> rest = []) as Hhc.
  { pose proof (pre_nodup n u HW _ c eq_refl) as Hnd. intros Eh. destruct (pre n c) as [|q l]; cbn in HP; injection HP as E1 E2; [done|]. rewrite E1, Eh in Hnd. cbn in Hnd. apply NoDup_cons in Hnd as [Hnd _]. destruct Hnd. apply elem_of_app. right. by apply list_elem_of_singleton. }
  assert (h <= c) as Hhle.
  { assert (h ∈ pre n c ++ [c]) as Hin by (rewrite HP; apply elem_of_cons; by left). apply elem_of_app in Hin as [Hin| ->%list_elem_of_singleton]; [|done]. pose proof (pre_below n u HW _ c eq_refl) as Hb. rewrite Forall_forall in Hb. destruct (Hb h Hin). lia. }
  intros [Hx|(z & Ho & Hh)]; [split; lia|]. apply (open_step n u c z HW Hc) in Ho as [Hz [Ho|Hn]].
  - assert (x ∈ pre n z) as Hin by (destruct (pre n z); [done|]; injection Hh as ->; apply elem_of_cons; by left). pose proof (packet_apart n u c z x HW Hc Hu Ho ltac:(lia) Hin) as Hni. rewrite HP in Hni.
    assert (c ∈ h :: rest) as Hcin by (rewrite <- HP; apply elem_of_app; right; by apply list_elem_of_singleton). split; [by intros ->|]. intros [->| ->]; [done|]. destruct Hni. apply elem_of_cons. by left.
  - destruct (next_pre n u c z HW Hc Hn) as (E & _). rewrite E, HP in Hh. injection Hh as <-. split; [done|]. intros _. congruence.
Qed.
End Taken.
Lemma joined_cb S S' ids addrs n h rest more pa pa' a a' : joined S ids addrs n h rest more pa a -> (forall p, p ∈ rest ++ more -> S' (ids p) = S (ids p)) ->
  S' (ids h) = set_rcb (RxCb pa' (addrs h) a') (S (ids h)) -> joined S' ids addrs n h rest more pa' a'.
Proof.
  intros [J1 J2 J3 J4 J5 J6 J7 J8] Hp Eh. split; rewrite ?Eh; try done.
  - apply (links_ext S); [|done]. intros s (p & -> & Hin)%list_elem_of_fmap. by rewrite Hp.
  - apply Forall_forall. intros p Hin. rewrite Forall_forall in J8. rewrite Hp by (apply elem_of_app; by left). by apply J8.
Qed.
Lemma packet_ids r n c u ids addrs h rest : core r n c u ids addrs -> 0 <= c < hd n -> c < u -> pre n c ++ [c] = h :: rest -> NoDup (map ids (h :: rest)) /\ forall p, p ∈ h :: rest -> mine n c u p /\ p <= c.
Proof.
  intros HI Hc Hu HP. pose proof (co_wf _ _ _ _ _ _ HI) as HW. rewrite <- HP.
  assert (forall p, p ∈ pre n c ++ [c] -> mine n c u p /\ p <= c) as Hm.
  { intros p Hp. apply elem_of_app in Hp as [Hp| ->%list_elem_of_singleton]; [|split; [left; lia|lia]]. pose proof (pre_below n u HW _ c eq_refl) as Hb. rewrite Forall_forall in Hb. destruct (Hb p Hp). split; [|lia].
    right. exists c. split; [|done]. split; [lia|]. destruct (pre_nil_or n c) as [E|[q Hq]]; [rewrite E in Hp; by apply elem_of_nil in Hp|]. exists q. split; [done|]. destruct (nw_pre _ _ HW c q Hq) as (_ & ? & _). lia. }
  split; [|done]. apply NoDup_fmap_2_strong; [|by eapply pre_nodup]. intros x y Hx Hy E. apply (ids_inj _ _ _ _ _ _ _ _ HI); [apply (mine_range _ _ _ _ _ _ x HI), Hm, Hx|apply (mine_range _ _ _ _ _ _ y HI), Hm, Hy|done].
Qed.
(** [ixgbe_is_non_eop] up to the test of the status. *)
Definition counted (r1 : rx_ring) (n : nic) (c h : Z) (ids : Z -> Z) : rx_ring :=
  if rsc_on (segs n c) then set_skb (ids h) (fun k => set_cappend (u16 (cappend (rcb k) + (rsc_cnt (seg_desc (segs n c)) - 1))) k) (set_rclean (slot (c + 1)) r1) else set_rclean (slot (c + 1)) r1.
Lemma counted_spec (HC : rx_config) r r1 n c u ids addrs h rest (r2 := counted r1 n c h ids) : core r n c u ids addrs -> c < hd n -> pre n c ++ [c] = h :: rest -> take_post r r1 n c h rest ids addrs ->
  joined (skbs r2) ids addrs n h rest [] (last (map ids rest)) (append_of n (h :: rest)) /\ (forall s, rbytes (skbs r2 s) = rbytes (skbs r1 s)) /\ (forall s, s <> ids h -> skbs r2 s = skbs r1 s) /\
  same_ring r1 r2 /\ r_clean r2 = slot (c + 1) /\ rinfo r2 = rinfo r1 /\ live r2 = live r1 /\ rlog r2 = rlog r1 /\
  ixgbe_is_non_eop C (seg_desc (segs n c)) (ids h) r1 =
    match sg_next (segs n c) with
    | None => Some (false, r2)
    | Some y => match bskb (rinfo r2 (slot y)) with
                | None => None
                | Some next => Some (true, set_rstats inc_non_eop (set_skb next (set_partner (Some (ids h))) (ixgbe_add_active_tail (ids h) next r2)))
                end
    end.
Proof.
  intros HI Hc HP [(T1 & T2 & T3 & T4) T5 T6 T7 T8 T9 T10 T11]. pose proof (co_pos _ _ _ _ _ _ HI) as [P1 P2]. pose proof (co_wf _ _ _ _ _ _ HI) as HW. assert (0 <= c < hd n) as Hc' by lia.
  destruct (packet_ids _ _ _ _ _ _ h rest HI Hc' ltac:(lia) HP) as [Hnd _]. cbn in Hnd. apply NoDup_cons in Hnd as [Hh _].
  split_and!; try (unfold r2, counted; by destruct (rsc_on (segs n c))).
  - rewrite <- HP, append_snoc. unfold add_cnt. unfold r2, counted. destruct (rsc_on (segs n c)); [|done]. eapply joined_cb; [exact T9| |].
    + intros p Hp. cbn. apply fn_lookup_insert_ne. intros E. apply Hh. rewrite E. apply list_elem_of_fmap. exists p. split; [done|]. by rewrite app_nil_r in Hp.
    + cbn. rewrite fn_lookup_insert. unfold set_cappend. by rewrite (jo_cb _ _ _ _ _ _ _ _ _ T9).
  - intros s. unfold r2, counted. destruct (rsc_on (segs n c)); [|done]. cbn. rewrite fn_insert_dec. case_decide as E; [by rewrite <- E|done].
  - intros s Hs. unfold r2, counted. destruct (rsc_on (segs n c)); [|done]. cbn. by rewrite fn_lookup_insert_ne.
  - destruct (nw_seg _ _ HW c Hc') as (_ & _ & Heop & Hnx & _). pose proof (cf_count HC) as HN. pose proof (slot_range N ltac:(lia) c) as Hsc.
    unfold ixgbe_is_non_eop. rewrite T5, (co_clean _ _ _ _ _ _ HI). rewrite u32_small by lia.
    assert ((if slot c + 1 <? N then slot c + 1 else 0) = slot (c + 1)) as -> by (rewrite <- (slot_next N ltac:(lia) c); destruct (Z.ltb_spec (slot c + 1) N), (Z.eqb_spec (slot c + 1) N); lia).
    rewrite Heop. unfold r2, counted. destruct (sg_next (segs n c)) as [y|] eqn:Hn.
    + specialize (Hnx y eq_refl). unfold rsc_on in *. destruct (rsc_enabled C && _); [by rewrite Hnx|by rewrite Hnx].
    + unfold rsc_on. by destruct (rsc_enabled C && _).
Qed.
Lemma add_tail_spec r2 ids addrs n h rest y a : joined (skbs r2) ids addrs n h rest [] (last (map ids rest)) a -> NoDup (map ids (h :: rest ++ [y])) -> plain (skbs r2 (ids y)) ->
  let r3 := set_skb (ids y) (set_partner (Some (ids h))) (ixgbe_add_active_tail (ids h) (ids y) r2) in
  joined (skbs r3) ids addrs n h rest [y] (Some (ids y)) a /\
  (rlen (skbs r3 (ids y)) = 0 /\ rdata_len (skbs r3 (ids y)) = 0 /\ rfrag (skbs r3 (ids y)) = None /\ rcb (skbs r3 (ids y)) = RxCb (Some (ids h)) 0 0 /\ rmeta (skbs r3 (ids y)) = zero_meta) /\
  (forall s, s ∉ map ids (h :: rest ++ [y]) -> skbs r3 s = skbs r2 s) /\ (forall s, rbytes (skbs r3 s) = rbytes (skbs r2 s)) /\
  same_ring r2 r3 /\ r_clean r3 = r_clean r2 /\ rinfo r3 = rinfo r2 /\ live r3 = live r2 /\ rlog r3 = rlog r2.
Proof.
  intros HJ Hnd [A1 A2 A3 A4 A5 A6] r3.
  assert (ids h <> ids y) as Hhy by (cbn in Hnd; apply NoDup_cons in Hnd as [Hnd _]; intros E; apply Hnd; rewrite E; apply list_elem_of_fmap; exists y; split; [done|]; apply elem_of_app; right; by apply list_elem_of_singleton).
  assert (forall s, s ∈ map ids rest -> s <> ids h /\ s <> ids y) as Hrest.
  { intros s Hs. cbn in Hnd. rewrite map_app in Hnd. apply NoDup_cons in Hnd as [N1 N2]. apply NoDup_app in N2 as (_ & N3 & _). split; intros ->; [apply N1, elem_of_app; by left|]. apply (N3 _ Hs). cbn. by apply list_elem_of_singleton. }
  pose proof (jo_cb _ _ _ _ _ _ _ _ _ HJ) as Ecb. pose proof (jo_members _ _ _ _ _ _ _ _ _ HJ) as Hmem. rewrite Forall_forall in Hmem.
  set (old := last (map ids rest)) in *.
  assert (forall l, old = Some l -> l ∈ map ids rest /\ partner (rcb (skbs r2 l)) = None) as Hold.
  { intros l Hl. apply last_Some_elem_of in Hl. split; [done|]. apply list_elem_of_fmap in Hl as (p & -> & Hp). apply Hmem, Hp. }
  assert (skbs r3 = <[ids y := set_partner (Some (ids h)) (set_partner (Some (ids h)) (skbs r2 (ids y)))]>
     (<[ids h := set_partner (Some (ids y)) (match old with Some _ => skbs r2 (ids h) | None => set_rfrag (Some (ids y)) (skbs r2 (ids h)) end)]>
     (<[ids y := set_partner (Some (ids h)) (skbs r2 (ids y))]>
     (match old with Some l => <[l := set_rnext (Some (ids y)) (skbs r2 l)]> (skbs r2) | None => <[ids h := set_rfrag (Some (ids y)) (skbs r2 (ids h))]> (skbs r2) end))) /\
     same_ring r2 r3 /\ r_clean r3 = r_clean r2 /\ rinfo r3 = rinfo r2 /\ live r3 = live r2 /\ rlog r3 = rlog r2) as [ES Hsame].
  { unfold r3, ixgbe_add_active_tail. rewrite Ecb. cbn [partner]. fold old. destruct old as [l|].
    - destruct (Hold l eq_refl) as [Hin Hpl]. destruct (Hrest l Hin) as [Hlh Hly]. unfold ixgbe_merge_active_tail. rewrite Hpl. cbn [snd]. split; [|done]. cbn [skbs set_skb]. by repeat first [rewrite fn_lookup_insert|rewrite fn_lookup_insert_ne by done].
    - split; [|done]. cbn [skbs set_skb]. by repeat first [rewrite fn_lookup_insert|rewrite fn_lookup_insert_ne by done]. }
  clearbody r3. set (S3 := skbs r3) in *. clearbody S3. assert (S3 (ids y) = set_partner (Some (ids h)) (set_partner (Some (ids h)) (skbs r2 (ids y)))) as Ey by (rewrite ES; apply fn_lookup_insert).
  assert (S3 (ids h) = set_partner (Some (ids y)) (match old with Some _ => skbs r2 (ids h) | None => set_rfrag (Some (ids y)) (skbs r2 (ids h)) end)) as Eh by (rewrite ES, fn_lookup_insert_ne, fn_lookup_insert by done; done).
  assert (forall s, s <> ids h -> s <> ids y -> S3 s = if decide (old = Some s) then set_rnext (Some (ids y)) (skbs r2 s) else skbs r2 s) as Eo.
  { intros s H1 H2. rewrite ES, !fn_lookup_insert_ne by done. destruct old as [l|]; [|by rewrite fn_lookup_insert_ne]. rewrite fn_insert_dec. destruct (decide (l = s)) as [->|Hne]; [by rewrite decide_True|rewrite decide_False; [done|congruence]]. }
  split_and!; try apply Hsame; try (rewrite Ey; cbn; rewrite ?A5; done).
  - apply (joined_link (skbs r2)); try done; try (rewrite Eh; by destruct old).
    + rewrite Eh. destruct old; cbn; by rewrite Ecb.
    + rewrite Eh. unfold old. destruct rest as [|q l]; [done|]. rewrite bool_decide_eq_false_2 by done. cbn [map]. destruct (last (ids q :: map ids l)) eqn:El; [done|by apply last_None in El].
    + intros s Hs. destruct (Hrest s Hs) as [H1 H2]. rewrite Eo by done. fold old. by destruct (decide (old = Some s)).
    + rewrite Ey. cbn. done.
  - intros s Hs. rewrite map_cons, map_app, elem_of_cons, elem_of_app in Hs. cbn [map] in Hs. rewrite list_elem_of_singleton in Hs. rewrite Eo by tauto. rewrite decide_False; [done|]. intros E. destruct (Hold s E). tauto.
  - intros s. destruct (decide (s = ids y)) as [->|Hy]; [by rewrite Ey|]. destruct (decide (s = ids h)) as [->|Hh]; [rewrite Eh; by destruct old|]. rewrite Eo by done. by destruct (decide (old = Some s)).
Qed.

Lemma packet_next r n c u ids addrs h rest y : core r n c u ids addrs -> 0 <= c < hd n -> c < u -> pre n c ++ [c] = h :: rest -> sg_next (segs n c) = Some y -> NoDup (map ids (h :: rest ++ [y])).
Proof.
  intros HI Hc Hu HP Hn. destruct (packet_ids _ _ _ _ _ _ h rest HI Hc Hu HP) as [Hnd Hin]. destruct (next_pre n u c y (co_wf _ _ _ _ _ _ HI) Hc Hn) as (_ & Hy & _). rewrite app_comm_cons, map_app. apply NoDup_app. split; [done|]. split; [|apply NoDup_singleton].
  intros s (p & -> & Hp)%list_elem_of_fmap Hs. cbn in Hs. apply list_elem_of_singleton in Hs. destruct (Hin p Hp) as [Hm Hpc]. pose proof (mine_range _ _ _ _ _ _ p HI Hm). pose proof (ids_inj _ _ _ _ _ _ p y HI ltac:(lia) ltac:(lia) Hs). lia.
Qed.
Lemma live_taken r r2 n c u ids addrs h rest : core r n c u ids addrs -> 0 <= c < hd n -> c < u -> pre n c ++ [c] = h :: rest -> sg_next (segs n c) <> None ->
  live r2 = (if bool_decide (rest = []) then live r else <[addrs c := None]> (live r)) ->
  (forall x, mapped_at n (c + 1) u x -> live r2 (addrs x) = live r (addrs x)) /\
  (forall a s, live r2 a = Some s -> live r a = Some s /\ forall x, mapped_at n c u x -> a = addrs x -> mapped_at n (c + 1) u x).
Proof.
  intros HI Hc Hu HP Hn El. pose proof (co_wf _ _ _ _ _ _ HI) as HW. destruct (sg_next (segs n c)) as [y|] eqn:En; [|done]. pose proof (mapped_h_next n u c h rest HW Hc HP y En) as Hmh.
  assert (mapped_at n c u c) as Hmc by (left; lia). split.
  - intros x Hx. rewrite El. case_bool_decide as Er; [done|]. apply fn_lookup_insert_ne. intros E. apply Er. destruct (mapped_left n u c h rest HW Hc Hu HP x Hx) as [G _]. apply G. symmetry.
    apply (addr_inj _ _ _ _ _ _ _ _ HI Hmc); [by apply mapped_step|done].
  - intros a s Hs. rewrite El in Hs. assert (live r a = Some s /\ (rest = [] \/ a <> addrs c)) as [Hs' Ha].
    { case_bool_decide as Er; [split; [done|by left]|]. rewrite fn_insert_dec in Hs. case_decide as E; [done|]. split; [done|right; congruence]. }
    split; [done|]. intros x Hx Ea. destruct (mapped_next n u c h rest HW Hc HP x Hx) as [->|[->|Hm]]; [|done|done]. destruct Ha as [->|Ha]; [|done].
    replace c with h at 2; [done|]. destruct (pre n c) as [|q l]; cbn in HP; [by injection HP as ->|]. injection HP as -> E. by destruct l.
Qed.
Lemma non_eop_next (HC : rx_config) r r1 n c u ids addrs h rest y : core r n c u ids addrs -> c < hd n -> pre n c ++ [c] = h :: rest -> take_post r r1 n c h rest ids addrs -> sg_next (segs n c) = Some y ->
  exists r2, ixgbe_is_non_eop C (seg_desc (segs n c)) (ids h) r1 = Some (true, r2) /\ core r2 n (c + 1) u ids addrs /\ same_ring r r2 /\ rlog r2 = rlog r1.
Proof.
  intros HI Hc HP HT Hn. pose proof (co_pos _ _ _ _ _ _ HI) as [P1 P2]. pose proof (co_wf _ _ _ _ _ _ HI) as HW. assert (0 <= c < hd n) as Hc' by lia.
  destruct (counted_spec HC r r1 n c u ids addrs h rest HI Hc HP HT) as (HJ & Hb & Ho & Hsame & Hcl & Hinf & Hliv & Hlog & ->). rewrite Hn. set (r2 := counted r1 n c h ids) in *. clearbody r2.
  destruct HT as [(T1 & T2 & T3 & T4) T5 T6 T7 T8 T9 T10 T11]. destruct (next_pre n u c y HW Hc' Hn) as (Ey & Hy & Hyo).
  pose proof (packet_next _ _ _ _ _ _ h rest y HI Hc' ltac:(lia) HP Hn) as Hnd. destruct (packet_ids _ _ _ _ _ _ h rest HI Hc' ltac:(lia) HP) as [_ Hin].
  rewrite Hinf, T6, fn_lookup_insert_ne by (apply (slot_ne HC c); lia). rewrite (co_in _ _ _ _ _ _ HI) by lia. cbn [bskb].
  assert (skbs r2 (ids y) = skbs r (ids y)) as Esy.
  { assert (forall p, p ∈ h :: rest -> ids y <> ids p) as Hne by (intros p Hp E; destruct (Hin p Hp) as [Hm Hpc]; pose proof (mine_range _ _ _ _ _ _ p HI Hm); pose proof (ids_inj _ _ _ _ _ _ y p HI ltac:(lia) ltac:(lia) E); lia).
    rewrite Ho, T11; [done|apply Hne, elem_of_cons; by left|apply Hne; rewrite <- HP; apply elem_of_app; right; by apply list_elem_of_singleton|apply Hne, elem_of_cons; by left]. }
  pose proof (co_plain _ _ _ _ _ _ HI y ltac:(lia) Hyo) as Hpl. rewrite <- Esy in Hpl. destruct (add_tail_spec r2 ids addrs n h rest y _ HJ Hnd Hpl) as (GJ & Gy & Go & Gb & Gsame & Gcl & Ginf & Gliv & Glog).
  eexists. split; [done|]. set (r3 := set_skb _ _ _) in *. clearbody r3. destruct Hsame as (S1 & S2 & S3 & S4), Gsame as (S1' & S2' & S3' & S4').
  split; [|cbn; split; [split_and!; cbn; congruence|congruence]].
  destruct (live_taken r r3 n c u ids addrs h rest HI Hc' ltac:(lia) HP ltac:(congruence) ltac:(rewrite Gliv, Hliv; exact T7)) as [L1 L2].
  apply (core_next HC r (set_rstats inc_non_eop r3) n c u ids addrs HI Hc); cbn; try done; try congruence.
  - intros z Hz Hni Hne. pose proof (mine_range _ _ _ _ _ _ z HI Hz) as Hzr.
    assert (forall p, 0 <= p < u -> z <> p -> ids z <> ids p) as Hidne by (intros p Hp Hzp E; apply Hzp; by apply (ids_inj _ _ _ _ _ _ _ _ HI)).
    assert (forall p, p ∈ h :: rest -> ids z <> ids p) as Hne' by (intros p Hp; apply Hidne; [apply (mine_range _ _ _ _ _ _ p HI), Hin, Hp|intros ->; apply Hni; by rewrite HP]).
    rewrite Go, Ho, T11; [done|apply Hne', elem_of_cons; by left|apply Hne'; rewrite <- HP; apply elem_of_app; right; by apply list_elem_of_singleton|apply Hne', elem_of_cons; by left|].
    intros (p & Ep & Hp)%list_elem_of_fmap. rewrite app_comm_cons in Hp. apply elem_of_app in Hp as [Hp| ->%list_elem_of_singleton]; [by apply (Hne' p Hp)|]. apply (Hidne y); [lia| |done]. intros ->. congruence.
  - intros y' Hy'. rewrite Hn in Hy'. injection Hy' as <-. split. exists h, rest. rewrite Ey. split; [done|]. rewrite HP. done.
Qed.

(** *** The packet is complete *)
(** What [ixgbe_process_skb_fields] makes of a socket buffer. *)
Definition rsc_fields (k : rx_skb) : rx_skb := if cappend (rcb k) =? 0 then k else set_cappend 0 (ixgbe_set_rsc_gso_size k).
Definition fields (d : rx_desc) (k : rx_skb) : rx_skb :=
  let k := ixgbe_rx_hash C d (rsc_fields k) in
  let k := set_rmeta (set_mcsum (ixgbe_rx_checksum C d).1 (rmeta k)) k in
  let k := ixgbe_rx_vlan C d k in
  eth_type_trans (set_rmeta (set_mqueue (queue_index C) (rmeta k)) k).
Lemma process_fields_spec d s r (r' := ixgbe_process_skb_fields C d s r) :
  (forall s', skbs r' s' = if decide (s' = s) then fields d (skbs r s) else skbs r s') /\ same_ring r r' /\ r_clean r' = r_clean r /\ rinfo r' = rinfo r /\ live r' = live r /\ rlog r' = rlog r.
Proof.
  unfold r', ixgbe_process_skb_fields, ixgbe_update_rsc_stats, fields, rsc_fields. destruct (ixgbe_rx_checksum C d) as [gd cn]. destruct (cappend (rcb (skbs r s)) =? 0), cn; (split; [|done]); intros s'; cbn [skbs set_skb set_rstats]; 
    repeat rewrite fn_lookup_insert; rewrite ?fn_insert_dec; case_decide as E; subst; by rewrite ?decide_True, ?decide_False by done.
Qed.
Lemma fields_spec d k : 60 <= rlen k -> rmeta k = zero_meta ->
  let k' := fields d k in rbytes k' = rbytes k /\ rlen k' = rlen k - 14 /\ rdata_len k' = rdata_len k /\ rfrag k' = rfrag k /\ m_off (rmeta k') = 14 /\
    m_csum (rmeta k') = (ixgbe_rx_checksum C d).1 /\ m_vlan (rmeta k') = (if f_vlan_rx C && truthy (ixgbe_test_staterr d IXGBE_RXD_STAT_VP) then wb_vlan d else 0) /\
    m_proto (rmeta k') = frame_type (rbytes k) /\
    m_gso (rmeta k') = (if cappend (rcb k) =? 0 then 0 else u16 (DIV_ROUND_UP (u32 (rlen k - u16 (ixgbe_get_headlen (rbytes k) (headlen k)))) (cappend (rcb k)))).
Proof.
  intros Hl Hm k'.
  unfold k', fields, rsc_fields, ixgbe_rx_hash, ixgbe_rx_vlan, eth_type_trans, ixgbe_set_rsc_gso_size, frame_type, data, headlen, ETH_HLEN. destruct k as [b l dl t nx fr [pa cd ap] m]. cbn in Hm, Hl. subst m. cbn [rcb cappend rlen rmeta rbytes] in *.
  destruct (ap =? 0), (f_rxhash C), (f_vlan_rx C && truthy (ixgbe_test_staterr d IXGBE_RXD_STAT_VP)); cbn -[load16 ixgbe_get_headlen]; rewrite (proj2 (Z.ltb_ge l 14)) by lia; cbn -[load16 ixgbe_get_headlen]; done.
Qed.

Lemma fields_bytes d k : rbytes (fields d k) = rbytes k.
Proof.
  unfold fields, rsc_fields, ixgbe_rx_hash, ixgbe_rx_vlan, eth_type_trans. cbv zeta. destruct (cappend (rcb k) =? 0), (f_rxhash C), (f_vlan_rx C && truthy (ixgbe_test_staterr d IXGBE_RXD_STAT_VP)); cbn [rbytes rlen set_rmeta set_rlens set_cappend set_rcb ixgbe_set_rsc_gso_size]; by destruct (_ <? ETH_HLEN).
Qed.
Lemma close_spec r2 ids addrs n h rest a : joined (skbs r2) ids addrs n h rest [] (last (map ids rest)) a -> NoDup (map ids (h :: rest)) ->
  let '(multi, r4) := ixgbe_close_active_frag_list (ids h) (set_skb (ids h) (set_cdma 0) (dma_unmap_single (cdma (rcb (skbs r2 (ids h)))) r2)) in
  multi = negb (bool_decide (rest = [])) /\ joined (skbs r4) ids (fun _ => 0) n h rest [] None a /\ (forall s, s <> ids h -> skbs r4 s = skbs r2 s) /\ (forall s, rbytes (skbs r4 s) = rbytes (skbs r2 s)) /\
  same_ring r2 r4 /\ r_clean r4 = r_clean r2 /\ rinfo r4 = rinfo r2 /\ live r4 = <[addrs h := None]> (live r2) /\ rlog r4 = rlog r2 ++ [Unmapped (addrs h)].
Proof.
  intros HJ Hnd. cbn in Hnd. apply NoDup_cons in Hnd as [Hh _]. pose proof (jo_cb _ _ _ _ _ _ _ _ _ HJ) as Ecb. rewrite Ecb. cbn [cdma]. unfold ixgbe_close_active_frag_list. cbn [skbs set_skb dma_unmap_single add_log set_live]. rewrite fn_lookup_insert. unfold set_cdma at 1. cbn [rcb set_rcb partner]. rewrite Ecb. cbn [partner].
  assert (forall S', S' (ids h) = set_rcb (RxCb None 0 a) (skbs r2 (ids h)) -> (forall s, s <> ids h -> S' s = skbs r2 s) -> joined S' ids (fun _ => 0) n h rest [] None a) as G.
  { intros S' E1 E2. assert (forall p, p ∈ rest -> S' (ids p) = skbs r2 (ids p)) as E3 by (intros p Hp; apply E2; intros E; apply Hh; rewrite <- E; apply list_elem_of_fmap; by exists p).
    destruct HJ as [J1 J2 J3 J4 J5 J6 J7 J8]. rewrite app_nil_r in *. split; rewrite ?app_nil_r, ?E1; try done.
    - apply (links_ext (skbs r2)); [|done]. intros s (p & -> & Hp)%list_elem_of_fmap. by rewrite E3.
    - apply Forall_forall. intros p Hp. rewrite Forall_forall in J8. rewrite E3 by done. by apply J8. }
  destruct (last (map ids rest)) as [l|] eqn:El.
  - assert (l ∈ map ids rest) as Hl by by apply last_Some_elem_of. assert (l <> ids h) as Hlh by by intros ->. pose proof (jo_members _ _ _ _ _ _ _ _ _ HJ) as Hmem. rewrite Forall_forall in Hmem.
    assert (partner (rcb (skbs r2 l)) = None) as Hpl by (apply list_elem_of_fmap in Hl as (p & -> & Hp); apply Hmem, Hp).
    unfold ixgbe_merge_active_tail. cbn [skbs set_skb dma_unmap_single add_log set_live]. rewrite fn_lookup_insert_ne by done. rewrite Hpl. cbn [snd]. split_and!; try done.
    + destruct rest; [done|]. by rewrite bool_decide_eq_false_2.
    + apply G; cbn; [rewrite !fn_lookup_insert; unfold set_partner, set_cdma; cbn; by rewrite Ecb|intros s Hs; by rewrite !fn_lookup_insert_ne].
    + intros s Hs. cbn. by rewrite !fn_lookup_insert_ne.
    + intros s. cbn. rewrite !fn_insert_dec. repeat case_decide; subst; done.
  - assert (rest = []) as -> by (apply last_None in El; by destruct rest). split_and!; try done.
    + apply G; cbn; [rewrite fn_lookup_insert; unfold set_cdma; by rewrite Ecb|intros s Hs; by rewrite fn_lookup_insert_ne].
    + intros s Hs. cbn. by rewrite fn_lookup_insert_ne.
    + intros s. cbn. rewrite fn_insert_dec. case_decide; subst; done.
Qed.
Lemma joined_chain (r : rx_ring) ids addrs n h rest pa a : joined (skbs r) ids addrs n h rest [] pa a -> Z.of_nat (length rest) < N -> chain C (ids h) r = map ids rest.
Proof.
  intros [J1 J2 J3 J4 J5 J6 J7 J8] Hl. unfold chain. rewrite app_nil_r in *. rewrite J4. apply walk_links; [rewrite length_map; lia|done].
Qed.
Lemma drop_map_seqZ {A} (f : Z -> A) k m : 0 <= k <= m -> drop (Z.to_nat k) (map f (seqZ 0 m)) = map (fun i => f (k + i)) (seqZ 0 (m - k)).
Proof.
  intros Hk. replace m with (k + (m - k)) at 1 by lia. rewrite seqZ_app by lia. rewrite map_app, drop_app_length' by (rewrite length_map, length_seqZ; done).
  replace (0 + k) with (k + 0) by lia. rewrite <- (fmap_add_seqZ k 0). generalize (seqZ 0 (m - k)). intros l. induction l as [|x l IH]; [done|]. cbn. by f_equal.
Qed.
Lemma has_data_at S ids n p i : has_data S ids n p -> 0 <= i < seg_len (segs n p) -> rbytes (S (ids p)) i = nth (Z.to_nat i) (sg_data (segs n p)) 0.
Proof.
  intros Hd Hi. unfold has_data in Hd. rewrite <- Hd. rewrite (nth_indep _ 0 (rbytes (S (ids p)) 0)) by (rewrite length_map, length_seqZ; lia). rewrite map_nth with (f := rbytes (S (ids p))).
  by rewrite (nth_lookup_Some _ _ 0 i) by (apply lookup_seqZ; lia).
Qed.
(** A packet begins where nothing comes before. *)
Lemma pre_first n u : nic_wf n u -> forall h k y l, length l = k -> pre n y = h :: l -> pre n h = [].
Proof.
  intros HW h k. induction k as [|k IH]; intros y l Hk E; destruct (pre_nil_or n y) as [E'|[p Hp]]; try congruence; destruct (nw_pre _ _ HW y p Hp) as (_ & _ & _ & E2); rewrite E in E2, Hp.
  - destruct l; [|done]. destruct (pre n p) as [|x l2] eqn:E3; [cbn in E2; injection E2 as ->; done|]. injection E2 as _ E2. by destruct l2.
  - destruct (pre n p) as [|x l2] eqn:E3; [cbn in E2; by injection E2 as _ ->|]. injection E2 as <- ->. apply (IH p l2); [rewrite length_app in Hk; cbn in Hk; lia|done].
Qed.
Lemma handed_delivered r4 r5 n u c ids h rest : nic_wf n u -> 0 <= c < hd n -> pre n c ++ [c] = h :: rest -> joined (skbs r4) ids (fun _ => 0) n h rest [] None (append_of n (h :: rest)) -> NoDup (map ids (h :: rest)) ->
  (forall p, p ∈ h :: rest -> has_data (skbs r4) ids n p) -> r5 = ixgbe_process_skb_fields C (seg_desc (segs n c)) (ids h) r4 -> delivered n ids c (lskb_of C (ids h) r5).
Proof.
  intros HW Hc HP HJ Hnd Hdat ->. set (d := seg_desc (segs n c)). destruct (process_fields_spec d (ids h) r4) as [ES _]. set (r5 := ixgbe_process_skb_fields C d (ids h) r4) in *. clearbody r5.
  destruct (nw_seg _ _ HW c Hc) as (_ & _ & _ & _ & Hfirst & Htot & Hcnt). assert (length rest = length (pre n c)) as Hlen by (apply (f_equal length) in HP; rewrite length_app in HP; cbn in HP; lia).
  assert (default c (head (pre n c)) = h) as Eh by (destruct (pre n c); cbn in HP |- *; congruence).
  assert (60 <= seg_len (segs n h)) as Hl60.
  { destruct (pre n c) as [|q l] eqn:Epc; cbn in HP; [injection HP as <- _; by apply Hfirst|]. injection HP as -> _. pose proof (pre_below n u HW _ c eq_refl) as Hb. rewrite Epc in Hb. apply Forall_cons in Hb as [Hb _].
    destruct (nw_seg _ _ HW h ltac:(lia)) as (_ & _ & _ & _ & Hf & _). apply Hf. by apply (pre_first n u HW h (length l) c l). }
  destruct (fields_spec d (skbs r4 (ids h))) as (F1 & F2 & F3 & F4 & F5 & F6 & F7 & F8 & F9); [rewrite (jo_len _ _ _ _ _ _ _ _ _ HJ), total_cons; pose proof (total_nonneg n rest); lia|apply HJ|].
  assert (skbs r5 (ids h) = fields d (skbs r4 (ids h))) as E5 by by rewrite ES, decide_True.
  pose proof HJ as [J1 J2 J3 J4 J5 J6 J7 J8]. rewrite app_nil_r in J4, J7. cbn in Hnd. apply NoDup_cons in Hnd as [Hh Hnd].
  assert (forall p, p ∈ rest -> skbs r5 (ids p) = skbs r4 (ids p)) as Eo by (intros p Hp; rewrite ES, decide_False; [done|]; intros E; apply Hh; rewrite <- E; apply list_elem_of_fmap; by exists p).
  assert (chain C (ids h) r5 = map ids rest) as Ech.
  { unfold chain. rewrite E5, F4, J4. apply walk_links; [rewrite length_map; lia|]. apply (links_ext (skbs r4)); [|done]. intros s (p & -> & Hp)%list_elem_of_fmap. by rewrite Eo. }
  rewrite total_cons in J1. pose proof (total_nonneg n rest) as Htr. assert (has_data (skbs r4) ids n h) as Hdh by (apply Hdat, elem_of_cons; by left).
  assert (forall i, 0 <= i < seg_len (segs n h) -> rbytes (skbs r4 (ids h)) i = first_bytes n c i) as Hfb by (intros i Hi; unfold first_bytes; rewrite Eh; by apply has_data_at).
  rewrite HP, total_cons in Htot.
  unfold lskb_of. rewrite Ech, E5. split; rewrite ?HP, ?Eh.
  - unfold skb_ids. cbn. f_equal. by rewrite !map_map.
  - unfold content. cbn [bytes slen data_len frag_list]. rewrite F2, F3, J1, J2. replace (seg_len (segs n h) + total n rest - 14 - total n rest) with (seg_len (segs n h) - 14) by lia.
    change (pkt_data n (h :: rest)) with (sg_data (segs n h) ++ pkt_data n rest). rewrite drop_app_le by (unfold seg_len in Hl60; lia). f_equal.
    + rewrite <- Hdh. change 14%nat with (Z.to_nat 14). rewrite drop_map_seqZ by lia. apply map_ext. intros i. unfold data. by rewrite F1, F5.
    + unfold pkt_data. f_equal. rewrite !map_map. apply map_ext_in. intros p Hp%list_elem_of_In. cbn. rewrite Eo by done. rewrite Forall_forall in J8. rewrite (me_len _ _ _ (J8 p Hp)). apply Hdat, elem_of_cons. by right.
  - cbn [slen]. rewrite F2, J1, total_cons. unfold ETH_HLEN. lia.
  - cbn [sproto]. rewrite F8. unfold frame_type. rewrite (load16_ext (first_bytes n c) (rbytes (skbs r4 (ids h))) 12), (load16_ext (first_bytes n c) (rbytes (skbs r4 (ids h))) 14) by (apply Hfb; lia). done.
  - cbn [csum_unnecessary]. apply F6.
  - cbn [vlan_tci]. apply F7.
  - cbn [sgso_size]. rewrite F9, J5. cbn [cappend]. destruct (append_of n (h :: rest) =? 0); [done|]. rewrite total_cons. do 2 f_equal.
    unfold headlen. rewrite J1, J2. replace (seg_len (segs n h) + total n rest - total n rest) with (seg_len (segs n h)) by lia.
    rewrite (headlen_reads (seg_len (segs n h)) ltac:(lia) ltac:(lia) (first_bytes n c) (rbytes (skbs r4 (ids h)))) by exact Hfb.
    pose proof (headlen_range (seg_len (segs n h)) ltac:(lia) ltac:(lia) (first_bytes n c)) as Hr. rewrite (u16_small (ixgbe_get_headlen _ _)) by lia. apply u32_small. lia.
Qed.

(** What is owned, one descriptor later. *)
Lemma openb_below n u c : nic_wf n u -> (if openb n c c then pre n c else []) = pre n c.
Proof.
  intros HW. unfold openb. destruct (last (pre n c)) as [p|] eqn:E; [|by apply last_None in E]. destruct (nw_pre _ _ HW c p E) as (_ & ? & _). by rewrite (proj2 (Z.ltb_lt p c)) by lia.
Qed.
Lemma openb_step n u c y : nic_wf n u -> 0 <= c < hd n -> (if openb n (c + 1) y then pre n y else []) = if decide (sg_next (segs n c) = Some y) then pre n c ++ [c] else if openb n c y then pre n y else [].
Proof.
  intros HW Hc. unfold openb. destruct (last (pre n y)) as [p|] eqn:E.
  - destruct (nw_pre _ _ HW y p E) as (_ & _ & Hn & Ep). case_decide as Ed.
    + pose proof (nw_next _ _ HW c y Hc Ed) as E'. rewrite E in E'. injection E' as ->. by rewrite (proj2 (Z.ltb_lt c (c + 1))) by lia.
    + assert (p <> c) as Hne by congruence. destruct (Z.ltb_spec p (c + 1)), (Z.ltb_spec p c); try done; lia.
  - case_decide as Ed; [|done]. by rewrite (nw_next _ _ HW c y Hc Ed) in E.
Qed.
Lemma concat_replace {A} (f g : Z -> list A) (P : list A) y l : NoDup l -> y ∈ l -> f y = [] -> g y = P -> (forall x, x ∈ l -> x <> y -> g x = f x) -> concat (map g l) ≡ₚ P ++ concat (map f l).
Proof.
  intros Hnd Hy Hf Hg He. induction l as [|x l IH]; [by apply elem_of_nil in Hy|]. apply NoDup_cons in Hnd as [Hx Hnd]. cbn [map concat]. apply elem_of_cons in Hy as [<-|Hy].
  - rewrite Hf, Hg. cbn [app]. apply Permutation_app_head. rewrite (map_ext_in g f); [done|]. intros z Hz%list_elem_of_In. apply He; [apply elem_of_cons; by right|by intros ->].
  - rewrite (He x); [|apply elem_of_cons; by left|by intros ->]. rewrite IH; [|done|done|]; [|intros z Hz; apply He, elem_of_cons; by right]. rewrite !app_assoc. apply Permutation_app_tail, Permutation_app_comm.
Qed.
Lemma owned_step n u c : nic_wf n u -> 0 <= c < hd n -> c < u ->
  owned n c u ≡ₚ match sg_next (segs n c) with Some _ => owned n (c + 1) u | None => (pre n c ++ [c]) ++ owned n (c + 1) u end.
Proof.
  intros HW Hc Hu. unfold owned. rewrite (seqZ_cons c (u - c)) by lia. replace (Z.succ c) with (c + 1) by lia. replace (Z.pred (u - c)) with (u - (c + 1)) by lia. cbn [map concat]. rewrite (openb_below n u c HW).
  set (l := seqZ (c + 1) (u - (c + 1))). destruct (sg_next (segs n c)) as [y|] eqn:En.
  - destruct (next_pre n u c y HW Hc En) as (Ey & Hy & Hno). rewrite (concat_replace (fun y => if openb n c y then pre n y else []) (fun y => if openb n (c + 1) y then pre n y else []) (pre n c ++ [c]) y l).
    + rewrite <- app_comm_cons, <- (app_assoc (pre n c)). cbn [app]. rewrite (app_assoc l (pre n c) (c :: _)), <- Permutation_middle, <- app_assoc. done.
    + apply NoDup_seqZ.
    + apply elem_of_seqZ. lia.
    + destruct (openb n c y) eqn:E; [|done]. apply (openb_spec n c u) in E; [done|lia].
    + by rewrite (openb_step n u c y HW Hc), decide_True.
    + intros x _ Hx. rewrite (openb_step n u c x HW Hc), decide_False; [done|congruence].
  - rewrite (map_ext_in (fun y => if openb n (c + 1) y then pre n y else []) (fun y => if openb n c y then pre n y else [])) by (intros x _; rewrite (openb_step n u c x HW Hc), decide_False; [done|congruence]).
    rewrite <- app_comm_cons, <- (app_assoc (pre n c)). cbn [app]. rewrite <- Permutation_middle. constructor. rewrite !app_assoc. apply Permutation_app_tail, Permutation_app_comm.
Qed.
Lemma received_step n c : 0 <= c -> received_at n (c + 1) = received_at n c ++ if complete n c then [c] else [].
Proof. intros Hc. unfold received_at. rewrite seqZ_app by lia. rewrite List.filter_app. rewrite Z.add_0_l, (seqZ_cons c 1), (seqZ_nil (Z.succ c)) by lia. cbn. by destruct (complete n c). Qed.
(** The ring after the last descriptor of a packet, when the packet itself is dealt with by [E], which changes nothing but its first socket buffer. *)
Lemma core_done_packet (HC : rx_config) r r2 r4 n c u ids addrs h rest : core r n c u ids addrs -> c < hd n -> pre n c ++ [c] = h :: rest -> sg_next (segs n c) = None ->
  rdesc r4 = rdesc r -> calls r4 = calls r -> r_clean r4 = slot (c + 1) -> rinfo r4 = <[slot c := Buf None 0]> (rinfo r) ->
  live r2 = (if bool_decide (rest = []) then live r else <[addrs c := None]> (live r)) -> live r4 = <[addrs h := None]> (live r2) ->
  (forall s, s <> ids h -> s <> ids c -> skbs r4 s = skbs r s) -> (forall s, rbytes (skbs r4 s) = rbytes (skbs r s)) -> core r4 n (c + 1) u ids addrs.
Proof.
  intros HI Hc HP Hn Ed Ek Ec Ei El2 El Es Eb. pose proof (co_pos _ _ _ _ _ _ HI) as [P1 P2]. pose proof (co_wf _ _ _ _ _ _ HI) as HW. assert (0 <= c < hd n) as Hc' by lia.
  destruct (packet_ids _ _ _ _ _ _ h rest HI Hc' ltac:(lia) HP) as [_ Hin]. assert (mapped_at n c u c) as Hmc by (left; lia). pose proof (mapped_h n u c h rest HW ltac:(lia) HP) as Hmh.
  assert (c ∈ h :: rest) as Hcin by (rewrite <- HP; apply elem_of_app; right; by apply list_elem_of_singleton).
  apply (core_next HC r r4 n c u ids addrs HI Hc); try done.
  - intros z Hz Hni _. pose proof (mine_range _ _ _ _ _ _ z HI Hz) as Hzr. rewrite HP in Hni.
    assert (forall p, p ∈ h :: rest -> ids z <> ids p) as Hne by (intros p Hp E; apply Hni; rewrite (ids_inj _ _ _ _ _ _ z p HI Hzr); [done|apply (mine_range _ _ _ _ _ _ p HI), Hin, Hp|done]).
    apply Es; apply Hne; [apply elem_of_cons; by left|done].
  - intros y Hy. congruence.
  - intros x Hx. pose proof (mapped_step n u c x HW Hc' ltac:(lia) Hx) as Hx'. destruct (mapped_left n u c h rest HW Hc' ltac:(lia) HP x Hx) as [_ Hne].
    assert (addrs h <> addrs x) as H1 by (intros E; apply Hne; [right; symmetry; by apply (addr_inj _ _ _ _ _ _ _ _ HI Hmh Hx')|done]).
    assert (addrs c <> addrs x) as H2 by (intros E; apply Hne; [left; symmetry; by apply (addr_inj _ _ _ _ _ _ _ _ HI Hmc Hx')|done]).
    rewrite El, El2, fn_lookup_insert_ne by done. case_bool_decide; [done|]. by rewrite fn_lookup_insert_ne.
  - intros a s Hs. rewrite El, El2, fn_insert_dec in Hs. case_decide as E1; [done|].
    assert (live r a = Some s /\ (rest = [] \/ addrs c <> a)) as [Hs' Ha] by (case_bool_decide as Er; [split; [done|by left]|]; rewrite fn_insert_dec in Hs; case_decide; [done|]; split; [done|by right]).
    split; [done|]. intros x Hx ->. destruct (mapped_next n u c h rest HW Hc' HP x Hx) as [->|[->|Hm]]; [|done|done]. destruct Ha as [->|]; [|done].
    destruct (pre n c) as [|q l]; cbn in HP; [injection HP as ->; done|]. injection HP as -> E. by destruct l.
Qed.
Lemma accounted_step r r' n c u ids E : nic_wf n u -> 0 <= c < hd n -> c < u -> sg_next (segs n c) = None -> rlog r' = rlog r ++ E -> allocs E = [] -> gone E ≡ₚ map ids (pre n c ++ [c]) ->
  accounted r n c u ids -> accounted r' n (c + 1) u ids.
Proof.
  intros HW Hc Hu Hn El Ea Eg HA. unfold accounted in *. rewrite El, allocs_app, gone_app, Ea, app_nil_r, HA, Eg, (owned_step n u c HW Hc Hu), Hn, map_app, <- app_assoc. done.
Qed.
Lemma packet_step (HC : rx_config) r r1 n c u ids addrs h rest p : ring_inv r n c u ids addrs -> c < hd n -> pre n c ++ [c] = h :: rest -> take_post r r1 n c h rest ids addrs -> sg_next (segs n c) = None ->
  let '(p', r') := rx_packet C K (seg_desc (segs n c)) (ids h) p (counted r1 n c h ids) in ring_inv r' n (c + 1) u ids addrs /\ cleaned_count p' = cleaned_count p /\ ddp_bytes p' = ddp_bytes p /\
    total_rx_packets p' = if complete n c then u32 (total_rx_packets p + 1) else total_rx_packets p.
Proof.
  intros [HI Hu HA HD HF] Hc HP HT Hn. pose proof (co_pos _ _ _ _ _ _ HI) as [P1 P2]. pose proof (co_wf _ _ _ _ _ _ HI) as HW. assert (0 <= c < hd n) as Hc' by lia.
  destruct (counted_spec HC r r1 n c u ids addrs h rest HI Hc HP HT) as (HJ & Hb & Ho & (Q1 & Q2 & Q3 & Q4) & Hcl & Hinf & Hliv & Hlog & _). set (r2 := counted r1 n c h ids) in *. clearbody r2.
  destruct HT as [(T1 & T2 & T3 & T4) T5 T6 T7 T8 T9 T10 T11]. destruct (packet_ids _ _ _ _ _ _ h rest HI Hc' ltac:(lia) HP) as [Hnd Hin].
  unfold rx_packet. pose proof (close_spec r2 ids addrs n h rest _ HJ Hnd) as H. destruct (ixgbe_close_active_frag_list _ _) as [multi r4]. destruct H as (-> & GJ & Go & Gb & (R1 & R2 & R3 & R4) & Gcl & Ginf & Gliv & Glog).
  assert (Z.of_nat (length rest) < N) as Hlen by (destruct (nw_seg _ _ HW c Hc') as (_ & _ & _ & _ & _ & _ & Hcnt); apply (f_equal length) in HP; rewrite length_app in HP; cbn in HP; lia).
  set (E0 := (if bool_decide (rest = []) then [] else [Unmapped (addrs c)]) ++ [Unmapped (addrs h)]).
  assert (rlog r4 = rlog r ++ E0) as EL by (unfold E0; rewrite Glog, Hlog, T8; by rewrite <- app_assoc).
  assert (allocs E0 = [] /\ gone E0 = [] /\ handed E0 = []) as (EA & EG & EH) by (unfold E0; by case_bool_decide). clearbody E0.
  assert (forall r5 E5, rdesc r5 = rdesc r4 -> calls r5 = calls r4 -> r_clean r5 = r_clean r4 -> rinfo r5 = rinfo r4 -> live r5 = live r4 -> r_use r5 = r_use r4 -> (forall s, s <> ids h -> skbs r5 s = skbs r4 s) -> (forall s, rbytes (skbs r5 s) = rbytes (skbs r4 s)) ->
     rlog r5 = rlog r4 ++ E5 -> allocs E5 = [] -> gone E5 ≡ₚ map ids (h :: rest) -> Forall2 (delivered n ids) (if complete n c then [c] else []) (handed E5) -> ring_inv r5 n (c + 1) u ids addrs) as G.
  { intros r5 E5 V1 V2 V3 V4 V5 V6 V7 V8 V9 V10 V11 V12. split.
    - apply (core_done_packet HC r r2 r5 n c u ids addrs h rest HI Hc HP Hn); try congruence; first [by intros s H1 H2; rewrite V7, Go, Ho, T11|by intros s; rewrite V8, Gb, Hb, T10].
    - by rewrite V6, R2, Q2, T2.
    - apply (accounted_step r r5 n c u ids (E0 ++ E5)); try done; [lia|by rewrite V9, EL, app_assoc|by rewrite allocs_app, EA, V10|by rewrite gone_app, EG, V11, HP].
    - unfold delivered_all in *. rewrite received_step by lia. rewrite V9, EL, !handed_app, EH, app_nil_r. by apply Forall2_app.
    - apply (fresh_same r); [lia| |done]. by rewrite V9, EL, !allocs_app, EA, V10, !app_nil_r. }
  assert (forall q, complete n c = false -> let '(p', r') := (q, kfree_skb C (ids h) r4) in ring_inv r' n (c + 1) u ids addrs /\ cleaned_count p' = cleaned_count q /\ ddp_bytes p' = ddp_bytes q /\ total_rx_packets p' = if complete n c then u32 (total_rx_packets q + 1) else total_rx_packets q) as Gfree.
  { intros q Hcp. split; [|by rewrite Hcp]. unfold kfree_skb. rewrite (joined_chain r4 ids _ n h rest _ _ GJ Hlen). destruct (gone_freed (ids h :: map ids rest)) as (U1 & U2 & U3). eapply G; try done; [by rewrite U1|]. by rewrite U3, Hcp. }
  pose proof (jo_cb _ _ _ _ _ _ _ _ _ GJ) as Ecb. rewrite Ecb. cbn [cappend].
  assert (complete n c = negb (negb (bool_decide (rest = [])) && (append_of n (h :: rest) =? 0)) && negb (truthy (ixgbe_test_staterr (seg_desc (segs n c)) IXGBE_RXDADV_ERR_FRAME_ERR_MASK))) as Hcomp.
  { unfold complete, good. rewrite Hn, HP. do 4 f_equal. apply bool_decide_ext. split; intros E; [rewrite E in HP; cbn in HP; congruence|]. subst rest. destruct (pre n c) as [|q [|]]; cbn in HP; congruence. }
  destruct (negb (bool_decide (rest = [])) && (append_of n (h :: rest) =? 0)); [apply Gfree; by rewrite Hcomp|]. destruct (truthy _) eqn:Eerr; [apply Gfree; by rewrite Hcomp|].
  unfold ixgbe_rx_is_fcoe. rewrite (cf_fcoe HC). cbn [andb negb truthy]. destruct (process_fields_spec (seg_desc (segs n c)) (ids h) r4) as (W1 & (W2 & W3 & W4 & W5) & W6 & W7 & W8 & W9).
  assert (forall q, q ∈ h :: rest -> has_data (skbs r4) ids n q) as Hdat.
  { intros q Hq. destruct (Hin q Hq) as [Hm Hqc]. unfold has_data. rewrite Gb, Hb, T10. apply (co_data _ _ _ _ _ _ HI); [done|lia]. }
  pose proof (handed_delivered r4 _ n u c ids h rest HW Hc' HP GJ Hnd Hdat eq_refl) as Hdel. split; [|by rewrite Hcomp]. unfold ixgbe_rx_skb.
  eapply (G _ [Handed _]); cbn [rdesc calls r_clean rinfo live r_use skbs rlog add_log set_lro]; try done.
  - intros s Hs. by rewrite W1, decide_False.
  - intros s. rewrite W1. case_decide as E; [|done]. subst s. apply fields_bytes.
  - by rewrite W9.
  - unfold gone. cbn [freed handed omap list_omap map concat app]. by rewrite app_nil_r, (dl_ids _ _ _ _ Hdel), HP.
  - rewrite Hcomp. cbn. by constructor.
Qed.

(** ** A turn of the loop *)
Lemma non_eop_inv (HC : rx_config) r r1 n c u ids addrs h rest y : ring_inv r n c u ids addrs -> c < hd n -> pre n c ++ [c] = h :: rest -> take_post r r1 n c h rest ids addrs -> sg_next (segs n c) = Some y ->
  exists r2, ixgbe_is_non_eop C (seg_desc (segs n c)) (ids h) r1 = Some (true, r2) /\ ring_inv r2 n (c + 1) u ids addrs.
Proof.
  intros [HI Hu HA HD HF] Hc HP HT Hn. destruct (non_eop_next HC r r1 n c u ids addrs h rest y HI Hc HP HT Hn) as (r2 & E & HI2 & (S1 & S2 & S3 & S4) & EL). exists r2. split; [done|].
  pose proof (co_pos _ _ _ _ _ _ HI) as [P1 P2]. rewrite (tp_log _ _ _ _ _ _ _ _ HT) in EL. set (E0 := if bool_decide _ then _ else _) in *. assert (allocs E0 = [] /\ gone E0 = [] /\ handed E0 = []) as (EA & EG & EH) by (unfold E0; by case_bool_decide).
  split; [done|congruence| | |].
  - unfold accounted in *. rewrite EL, allocs_app, gone_app, EA, EG, !app_nil_r, HA, (owned_step n u c (co_wf _ _ _ _ _ _ HI) ltac:(lia) ltac:(lia)), Hn. done.
  - unfold delivered_all in *. rewrite received_step by lia. unfold complete at 1. rewrite Hn, EL, handed_app, EH, !app_nil_r. done.
  - apply (fresh_same r); [lia| |done]. by rewrite EL, allocs_app, EA, app_nil_r.
Qed.
Lemma turn_step (HC : rx_config) budget p r n c u ids addrs : ring_inv r n c u ids addrs -> 0 <= cleaned_count p <= N - 1 - (u - c) ->
  exists go p' r' c' u' ids' addrs', rx_turn C K budget p r = Some (go, p', r') /\ ring_inv r' n c' u' ids' addrs' /\ 0 <= cleaned_count p' <= N - 1 - (u' - c') /\ u <= u' /\
    (c < hd n -> c' = c + 1 /\ go = (total_rx_packets p' <? budget) /\ total_rx_packets p' = if complete n c then u32 (total_rx_packets p + 1) else total_rx_packets p) /\
    (c = hd n -> c' = c /\ go = false /\ total_rx_packets p' = total_rx_packets p) /\ ddp_bytes p' = ddp_bytes p.
Proof.
  intros HR Hp. pose proof (cf_count HC) as HN. unfold rx_turn.
  assert (exists u1 ids1 addrs1 p1 r1, (if cleaned_count p >=? IXGBE_RX_BUFFER_WRITE then (Poll 0 (total_rx_bytes p) (total_rx_packets p) (ddp_bytes p), ixgbe_alloc_rx_buffers C K (cleaned_count p) r) else (p, r)) = (p1, r1) /\
    ring_inv r1 n c u1 ids1 addrs1 /\ 0 <= cleaned_count p1 <= N - 1 - (u1 - c) /\ u <= u1 /\ ddp_bytes p1 = ddp_bytes p /\ total_rx_packets p1 = total_rx_packets p) as (u1 & ids1 & addrs1 & p1 & r1 & -> & HR1 & Hp1 & Hu1 & <- & <-).
  { destruct (cleaned_count p >=? IXGBE_RX_BUFFER_WRITE).
    - destruct (alloc_rx_buffers_spec HC r n c u ids addrs (cleaned_count p) HR Hp) as (u1 & ids1 & addrs1 & HR1 & Hu1 & _). eexists u1, ids1, addrs1, _, _. split; [done|]. split; [done|]. cbn.
      pose proof (co_pos _ _ _ _ _ _ (ri_core _ _ _ _ _ _ HR1)) as [Q1 Q2]. split_and!; try done; lia.
    - exists u, ids, addrs, p, r. split_and!; try done; lia. }
  clear HR Hp p r ids addrs. rename u1 into v. pose proof (ri_core _ _ _ _ _ _ HR1) as HI. pose proof (co_pos _ _ _ _ _ _ HI) as [P1 P2]. rewrite (co_clean _ _ _ _ _ _ HI).
  destruct (decide (c = hd n)) as [Eh|Hne].
  - assert (rdesc r1 (slot c) = RxDesc (pkt_addr (rdesc r1 (slot c))) 0) as Ed by (rewrite <- (co_clear _ _ _ _ _ _ HI c) by lia; by destruct (rdesc r1 (slot c))). rewrite Ed.
    exists false, p1, r1, c, v, ids1, addrs1. split_and!; try done; lia.
  - assert (c < hd n) as Hc by lia. rewrite (co_done _ _ _ _ _ _ HI) by lia. destruct (nw_seg _ _ (co_wf _ _ _ _ _ _ HI) c ltac:(lia)) as (_ & Hdd & _). rewrite Hdd. cbn [negb]. rewrite (co_in _ _ _ _ _ _ HI) by lia. cbn [bskb].
    destruct (take_spec HC r1 n c v ids1 addrs1 HI Hc) as (h & rest & HP & HT). destruct (rx_take _ _ _ r1) as [s r2]. destruct HT as [-> HT].
    assert (u16 (cleaned_count p1 + 1) = cleaned_count p1 + 1) as Eu by (apply u16_small; lia).
    destruct (sg_next (segs n c)) as [y|] eqn:En.
    + destruct (non_eop_inv HC r1 r2 n c v ids1 addrs1 h rest y HR1 Hc HP HT En) as (r3 & -> & HR3). eexists _, _, _, (c + 1), v, ids1, addrs1. split; [done|]. split; [done|]. cbn. rewrite Eu. assert (complete n c = false) as -> by (unfold complete; by rewrite En). split_and!; try done; lia.
    + destruct (counted_spec HC r1 r2 n c v ids1 addrs1 h rest HI Hc HP HT) as (_ & _ & _ & _ & _ & _ & _ & _ & ->). rewrite En.
      set (p2 := Poll _ _ _ _). pose proof (packet_step HC r1 r2 n c v ids1 addrs1 h rest p2 HR1 Hc HP HT En) as H. destruct (rx_packet _ _ _ _ p2 _) as [p' r']. destruct H as (HR' & Ecl & Edd & Etot).
      eexists _, p', r', (c + 1), v, ids1, addrs1. split; [done|]. split; [done|]. rewrite Ecl, Edd, Etot. cbn. rewrite Eu. split_and!; try done; lia.
Qed.
Lemma finish_step (HC : rx_config) p r n c u ids addrs : ring_inv r n c u ids addrs -> 0 <= cleaned_count p <= N - 1 - (u - c) ->
  exists u' ids' addrs', ring_inv (rx_finish C K p r).2 n c u' ids' addrs' /\ u <= u'.
Proof.
  intros HR Hp. unfold rx_finish. match goal with |- context [let '(_, _) := ?b in _] => destruct b as [bytes m] end. cbn [snd]. set (r1 := set_rstats _ r).
  assert (ring_inv r1 n c u ids addrs) as HR1 by (destruct HR as [HI Hu HA HD HF]; split; [by apply (core_frame r)|done..]). clearbody r1.
  assert (exists u' ids' addrs', ring_inv (if truthy (cleaned_count p) then ixgbe_alloc_rx_buffers C K (cleaned_count p) r1 else r1) n c u' ids' addrs' /\ u <= u') as (u' & ids' & addrs' & [HI Hu HA HD HF] & Hu').
  { destruct (truthy (cleaned_count p)); [|exists u, ids, addrs; split; [done|lia]]. destruct (alloc_rx_buffers_spec HC r1 n c u ids addrs (cleaned_count p) HR1 Hp) as (u1 & ids1 & addrs1 & G1 & G2 & _). exists u1, ids1, addrs1. split; [done|lia]. }
  exists u', ids', addrs'. split; [|done]. split; [by apply (core_frame (if truthy (cleaned_count p) then ixgbe_alloc_rx_buffers C K (cleaned_count p) r1 else r1))|done..].
Qed.

(** ** Runs *)

(** The ring, the poll in progress with its budget, and the adapter. *)
Record rx_sys := Sys { ring : rx_ring; poll : option (Z * rx_poll); adapter : nic }.
(** The end of the positions that the adapter owns, which it knows from the tail register. *)
Definition tail_pos (r : rx_ring) (n : nic) : Z := hd n + (r_use r - hd n) mod N.
(** The adapter writes a descriptor at any time, also between the turns of the loop. *)
Inductive rx_step : rx_sys -> rx_sys -> Prop :=
| RxWrite r q n g r' : nic_ok n (tail_pos r n) g -> nic_write N n g r = Some r' -> rx_step (Sys r q n) (Sys r' q (nic_next n g))
| RxFill r n : rx_step (Sys r None n) (Sys (ixgbe_alloc_rx_buffers C K (ixgbe_desc_unused C r) r) None n)
| RxEnter r n budget : rx_step (Sys r None n) (Sys r (Some (budget, poll_start C r)) n)
| RxTurn r n budget p p' r' : rx_turn C K budget p r = Some (true, p', r') -> rx_step (Sys r (Some (budget, p)) n) (Sys r' (Some (budget, p')) n)
| RxLeave r n budget p p' r' : rx_turn C K budget p r = Some (false, p', r') -> rx_step (Sys r (Some (budget, p)) n) (Sys (rx_finish C K p' r').2 None n).
(** A ring as [ixgbe_configure_rx_ring] finds it, and an adapter that has received nothing. *)
Record rx_start (s : rx_sys) : Prop := {
  st_desc : hdr_addr (rdesc (ring s) 0) = 0; st_info : forall i, rinfo (ring s) i = Buf None 0; st_idx : r_use (ring s) = 0 /\ r_clean (ring s) = 0;
  st_live : forall a, live (ring s) a = None; st_log : rlog (ring s) = []; st_poll : poll s = None; st_lro : lro (ring s) = empty_list; st_nic : adapter s = Nic 0 (fun _ => Seg [] 0 0 None) (fun _ => [])
}.
Definition sys_inv (s : rx_sys) : Prop := exists c u ids addrs, ring_inv (ring s) (adapter s) c u ids addrs /\ match poll s with None => True | Some (_, p) => 0 <= cleaned_count p <= N - 1 - (u - c) end.
Lemma tail_spec (HC : rx_config) r n c u ids addrs : ring_inv r n c u ids addrs -> tail_pos r n = u.
Proof.
  intros [HI Hu _ _ _]. pose proof (co_pos _ _ _ _ _ _ HI) as [P1 P2]. unfold tail_pos. rewrite Hu. unfold Slots.slot. rewrite Zminus_mod_idemp_l, Z.mod_small by lia. lia.
Qed.
Lemma start_inv (HC : rx_config) s : rx_start s -> sys_inv s.
Proof.
  intros [S1 S2 [S3 S3'] S4 S5 S6 S7 S8]. destruct s as [r q n]. cbn in *. subst q n. pose proof (cf_count HC). exists 0, 0, (fun _ => 0), (fun _ => 0). split; [|done].
  assert (slot 0 = 0) as E0 by (apply Z.mod_small; lia). split; rewrite ?E0; try done.
  - split; cbn; try done; try lia; try (intros x [Hx|(y & (Hy & _) & _)]; lia); try (intros y (Hy & _); lia); try (intros; lia).
    + split; cbn; intros; try done; lia.
    + intros x Hx. assert (x = 0) as -> by lia. by rewrite E0.
    + intros a s Hs. by rewrite S4 in Hs.
  - unfold accounted. cbn [ring]. by rewrite S5.
  - unfold delivered_all. cbn [ring]. rewrite S5. by constructor.
  - unfold fresh_ids. cbn [ring]. rewrite S5. split; constructor.
Qed.
Lemma step_inv (HC : rx_config) s s' : sys_inv s -> rx_step s s' -> sys_inv s'.
Proof.
  intros (c & u & ids & addrs & HR & Hp) Hs. pose proof (tail_spec HC _ _ _ _ _ _ HR) as Ht. destruct Hs as [r q n g r' Ho Hw|r n|r n budget|r n budget p p' r' E|r n budget p p' r' E]; cbn [ring adapter poll] in *.
  - rewrite Ht in Ho. destruct (nic_step HC r n c u ids addrs g HR Ho) as (_ & r2 & E2 & HR2 & _). rewrite Hw in E2. injection E2 as <-. by exists c, u, ids, addrs.
  - pose proof (ri_core _ _ _ _ _ _ HR) as HI. pose proof (co_pos _ _ _ _ _ _ HI) as [P1 P2]. rewrite (rx_unused_spec HC r c u (co_clean _ _ _ _ _ _ HI) (ri_use _ _ _ _ _ _ HR) ltac:(lia)).
    destruct (alloc_rx_buffers_spec HC r n c u ids addrs (N - 1 - (u - c)) HR ltac:(lia)) as (u' & ids' & addrs' & HR' & _). by exists c, u', ids', addrs'.
  - exists c, u, ids, addrs. split; [done|]. pose proof (ri_core _ _ _ _ _ _ HR) as HI. pose proof (co_pos _ _ _ _ _ _ HI) as [P1 P2]. unfold poll_start. cbn [cleaned_count]. rewrite (rx_unused_spec HC r c u (co_clean _ _ _ _ _ _ HI) (ri_use _ _ _ _ _ _ HR) ltac:(lia)). cbn [poll cleaned_count]. lia.
  - destruct (turn_step HC budget p r n c u ids addrs HR Hp) as (go & p2 & r2 & c' & u' & ids' & addrs' & E2 & HR' & Hp' & _). rewrite E in E2. injection E2 as <- <- <-. by exists c', u', ids', addrs'.
  - destruct (turn_step HC budget p r n c u ids addrs HR Hp) as (go & p2 & r2 & c' & u' & ids' & addrs' & E2 & HR' & Hp' & _). rewrite E in E2. injection E2 as <- <- <-.
    destruct (finish_step HC p' r' n c' u' ids' addrs' HR' Hp') as (u2 & ids2 & addrs2 & HR2 & _). by exists c', u2, ids2, addrs2.
Qed.
Lemma run_inv (HC : rx_config) s0 s : rx_start s0 -> rtc rx_step s0 s -> sys_inv s.
Proof. intros H0 Hr. apply (rtc_invariant rx_step sys_inv (fun x y Hx => step_inv HC x y Hx) _ _ Hr). by apply start_inv. Qed.

(** ** A complete poll *)
Lemma received_count n c : 0 <= c -> Z.of_nat (length (received_at n (c + 1))) = Z.of_nat (length (received_at n c)) + Z.b2z (complete n c).
Proof. intros Hc. rewrite received_step, length_app by done. destruct (complete n c); cbn; lia. Qed.
Lemma loop_spec (HC : rx_config) budget n fuel : forall p r c u ids addrs, ring_inv r n c u ids addrs -> 0 <= cleaned_count p <= N - 1 - (u - c) -> hd n - c < Z.of_nat fuel -> 0 <= total_rx_packets p < budget -> budget < 2 ^ 31 ->
  exists p' r' c' u' ids' addrs', rx_loop C K fuel budget p r = Some (p', r') /\ ring_inv r' n c' u' ids' addrs' /\ 0 <= cleaned_count p' <= N - 1 - (u' - c') /\ ddp_bytes p' = ddp_bytes p /\
    total_rx_packets p' = total_rx_packets p + Z.of_nat (length (received_at n c')) - Z.of_nat (length (received_at n c)) /\ 0 <= total_rx_packets p' <= budget /\ (c' = hd n \/ total_rx_packets p' = budget).
Proof.
  induction fuel as [|fuel IH]; intros p r c u ids addrs HR Hp Hf Ht Hb; pose proof (co_pos _ _ _ _ _ _ (ri_core _ _ _ _ _ _ HR)) as [P1 P2]; [lia|]. cbn [rx_loop].
  destruct (turn_step HC budget p r n c u ids addrs HR Hp) as (go & p1 & r1 & c1 & u1 & ids1 & addrs1 & -> & HR1 & Hp1 & _ & Hlt & Heq & Edd). destruct (decide (c = hd n)) as [E|E].
  - destruct (Heq E) as (-> & -> & Et). exists p1, r1, c, u1, ids1, addrs1. split_and!; try done; lia.
  - destruct (Hlt ltac:(lia)) as (-> & -> & Et). pose proof (received_count n c ltac:(lia)) as Hrc. assert (total_rx_packets p1 = total_rx_packets p + Z.b2z (complete n c)) as Et' by (rewrite Et; destruct (complete n c); cbn; [rewrite u32_small|]; lia).
    assert (0 <= Z.b2z (complete n c) <= 1) by (destruct (complete n c); cbn; lia). destruct (Z.ltb_spec (total_rx_packets p1) budget).
    + destruct (IH p1 r1 (c + 1) u1 ids1 addrs1 HR1 Hp1 ltac:(lia) ltac:(lia) Hb) as (p' & r' & c' & u' & ids' & addrs' & G1 & G2 & G3 & G4 & G5 & G6 & G7). exists p', r', c', u', ids', addrs'. split_and!; try done; try congruence; lia.
    + exists p1, r1, (c + 1), u1, ids1, addrs1. split_and!; try done; lia.
Qed.
End Spec.
