(* ===== verification/RxRun.v ===== *)
(** * Receive rings: the theorems

    For every run of [RxSpec], in which the adapter and the driver take their steps in any order. *)
From S2P Require Import Prelude Hw Bits FlowDir FlowFilters Sriov Queues Slots Lro LroSpec Fcoe RxRing RxHead RxSpec.
From Stdlib Require Import Permutation.
Open Scope Z_scope.

(** ** Socket buffers that are gone are not in the ring *)
Lemma account_disjoint C r n c u ids addrs : ring_inv C r n c u ids addrs ->
  NoDup (gone (rlog r)) /\ forall x, mine n c u x -> ids x ∈ allocs (rlog r) /\ ids x ∉ gone (rlog r).
Proof.
  intros [HI Hu HA HD [HF _]]. unfold accounted in HA. rewrite HA in HF. apply NoDup_app in HF as (H1 & H2 & _). split; [done|]. intros x Hx.
  assert (ids x ∈ map ids (owned n c u)) as Hin.
  { apply list_elem_of_fmap. exists x. split; [done|]. unfold owned. apply elem_of_app. destruct Hx as [Hx|(y & Ho & Hin)]; [left; apply elem_of_seqZ; lia|right].
    apply list_elem_of_In, in_concat. exists (pre n y). split; [|by apply list_elem_of_In]. apply in_map_iff. exists y. destruct Ho as [Hy Hp]. rewrite (proj2 (openb_spec n c u y Hy)) by by split. split; [done|]. apply list_elem_of_In, elem_of_seqZ. lia. }
  split; [rewrite HA; apply elem_of_app; by right|]. intros Hg. by apply (H2 _ Hg).
Qed.

(** C20. The stack receives the packets as the adapter received them. In every state that the driver and the adapter can reach, in whatever order they take
    their steps, and although buffers may be missing and, with RSC, the descriptors of several packets are mixed: the packets that have been handed on are
    those that end at a descriptor below the position [c] of the driver, in the order of their ends, without those that are damaged and without frames that
    do not fit a buffer; each of them has exactly the bytes of its buffers, in order, behind the Ethernet header, with the type, checksum state, VLAN tag and
    segment size of its descriptors; and no socket buffer is handed on or freed twice. *)
Theorem rx_stream C K s0 s : rx_config C K -> rx_start s0 -> rtc (rx_step C K) s0 s -> exists c ids,
  0 <= c <= hd (adapter s) /\ r_clean (ring s) = slot (rcount C) c /\
  Forall2 (delivered C (adapter s) ids) (received_at C (adapter s) c) (handed (rlog (ring s))) /\ NoDup (gone (rlog (ring s))).
Proof.
  intros HC H0 Hr. destruct (run_inv C K HC s0 s H0 Hr) as (c & u & ids & addrs & HR & _). exists c, ids. pose proof (ri_core _ _ _ _ _ _ _ HR) as HI. destruct (co_pos _ _ _ _ _ _ _ HI) as [P1 P2].
  split_and!; [lia|lia|apply HI|apply HR|by eapply account_disjoint].
Qed.

(** C21. The adapter never writes to memory that is not its own. In every reachable state, whenever the adapter owns a descriptor, the address in it is mapped
    to a socket buffer that was allocated and has neither been freed nor handed on; every live mapping is of such a socket buffer; and the driver does not
    follow a null pointer. *)
Theorem rx_dma_safe C K s0 s : rx_config C K -> rx_start s0 -> rtc (rx_step C K) s0 s ->
  (forall g, nic_ok C (adapter s) (tail_pos C (ring s) (adapter s)) g -> exists k r', live (ring s) (pkt_addr (rdesc (ring s) (slot (rcount C) (hd (adapter s))))) = Some k /\
     nic_write (rcount C) (adapter s) g (ring s) = Some r') /\
  (forall a k, live (ring s) a = Some k -> k ∈ allocs (rlog (ring s)) /\ k ∉ gone (rlog (ring s))) /\
  (forall budget p, poll s = Some (budget, p) -> rx_turn C K budget p (ring s) <> None).
Proof.
  intros HC H0 Hr. destruct (run_inv C K HC s0 s H0 Hr) as (c & u & ids & addrs & HR & Hp). pose proof (ri_core _ _ _ _ _ _ _ HR) as HI. split_and!.
  - intros g Hg. rewrite (tail_spec C K HC _ _ _ _ _ _ HR) in Hg. destruct (nic_step C K HC _ _ _ _ _ _ g HR Hg) as (Hl & r' & Hw & _). by exists (ids (hd (adapter s))), r'.
  - intros a k Hk. destruct (co_only _ _ _ _ _ _ _ HI a k Hk) as (x & Hx & ->). rewrite (co_live _ _ _ _ _ _ _ HI x Hx) in Hk. injection Hk as <-. apply (account_disjoint C (ring s) (adapter s) c u ids addrs HR). by apply mapped_mine.
  - intros budget p E. rewrite E in Hp. destruct (turn_step C K HC budget p _ _ _ _ _ _ HR Hp) as (? & ? & ? & ? & ? & ? & ? & -> & _). done.
Qed.

(** ** A complete poll *)
Lemma flush_last_empty f k : forall q, length (active q) = k -> active (flush_last f k q) = [].
Proof.
  induction k as [|k IH]; intros q Hk; cbn [flush_last]; [by apply length_zero_iff_nil|]. apply IH. unfold ixgbe_lro_flush. destruct (lookup_lt_is_Some_2 (active q) k ltac:(lia)) as [p Hp]. rewrite Hp. cbn. rewrite length_delete by done. lia.
Qed.
(** C22. A poll ends and does its work: from every reachable state, while the adapter is quiet, [ixgbe_clean_rx_irq] returns without an error, it has handed on
    as many packets as it reports, which are all that were complete or else the whole budget, and LRO holds nothing back. *)
Theorem rx_poll_complete C K s0 s budget : rx_config C K -> rx_start s0 -> rtc (rx_step C K) s0 s -> poll s = None -> 0 < budget < 2 ^ 31 -> exists k r',
  ixgbe_clean_rx_irq C K budget (ring s) = Some (k, r') /\ 0 <= k <= budget /\ active (lro r') = [] /\
  Z.of_nat (length (handed (rlog r'))) = Z.of_nat (length (handed (rlog (ring s)))) + k /\
  (k = budget \/ exists ids, Forall2 (delivered C (adapter s) ids) (received_at C (adapter s) (hd (adapter s))) (handed (rlog r'))).
Proof.
  intros HC H0 Hr Hp Hb. destruct (run_inv C K HC s0 s H0 Hr) as (c & u & ids & addrs & HR & _). pose proof (ri_core _ _ _ _ _ _ _ HR) as HI. destruct (co_pos _ _ _ _ _ _ _ HI) as [P1 P2].
  unfold ixgbe_clean_rx_irq. rewrite (cf_pbm _ _ HC).
  assert (cleaned_count (poll_start C (ring s)) = rcount C - 1 - (u - c)) as Ec by (unfold poll_start; cbn [cleaned_count]; apply (rx_unused_spec C K HC); [apply HI|apply HR|lia]).
  destruct (loop_spec C K HC budget (adapter s) (Z.to_nat (rcount C)) (poll_start C (ring s)) (ring s) c u ids addrs HR ltac:(lia) ltac:(lia) ltac:(cbn; lia) ltac:(lia)) as (p' & r' & c' & u' & ids' & addrs' & -> & HR' & Hc' & Edd & Et & Hk & Hend).
  destruct (finish_step C K HC p' r' (adapter s) c' u' ids' addrs' HR' Hc') as (u2 & ids2 & addrs2 & HR2 & _). cbn [ddp_bytes poll_start] in Edd. cbn [total_rx_packets poll_start] in Et.
  assert (fst (rx_finish C K p' r') = total_rx_packets p') as Ek by (unfold rx_finish; rewrite Edd; cbn; apply s32_small; lia).
  assert (active (lro (rx_finish C K p' r').2) = []) as El by (unfold rx_finish; destruct (if ddp_bytes p' >? 0 then _ else _); cbn [snd lro set_lro]; by apply flush_last_empty).
  destruct (rx_finish C K p' r') as [k r2]. cbn [fst snd] in *. subst k. exists (total_rx_packets p'), r2. pose proof (Forall2_length _ _ _ (ri_del _ _ _ _ _ _ _ HR)) as L1. pose proof (Forall2_length _ _ _ (ri_del _ _ _ _ _ _ _ HR2)) as L2.
  split_and!; try done; try lia. destruct Hend as [->|]; [|by left]. right. exists ids2. apply HR2.
Qed.

(** ** Running the steps

    An executable scheduler of the step relation: a list of choices, each taken if it is a step. *)
Inductive rx_choice := ChWrite (g : seg) | ChFill | ChEnter (budget : Z) | ChTurn.
Definition nic_okb (C : rx_conf) (n : nic) (u : Z) (g : seg) : bool :=
  (hd n <? u) && (seg_len g <=? rx_buf_len C) && (wb_length (seg_desc g) =? seg_len g) && truthy (ixgbe_test_staterr (seg_desc g) IXGBE_RXD_STAT_DD) &&
  Bool.eqb (truthy (ixgbe_test_staterr (seg_desc g) IXGBE_RXD_STAT_EOP)) (match sg_next g with None => true | Some _ => false end) &&
  (match sg_next g with
   | None => true
   | Some y => (hd n <? y) && (y <? u) && bool_decide (pre n y = []) && (if rsc_on C g then nextp (seg_desc g) =? slot (rcount C) y else y =? hd n + 1)
   end) &&
  (negb (bool_decide (pre n (hd n) = [])) || (60 <=? seg_len g)) && (total n (pre n (hd n)) + seg_len g <? 2 ^ 16) && (Z.of_nat (length (pre n (hd n))) + 1 <? rcount C).
Lemma nic_okb_sound C n u g : nic_okb C n u g = true -> nic_ok C n u g.
Proof.
  unfold nic_okb. rewrite !andb_true_iff. intros ((((((((H1 & H2) & H3) & H4) & H5) & H6) & H7) & H8) & H9). apply eqb_prop in H5. split; try done; try lia.
  - intros y E. rewrite E, !andb_true_iff, bool_decide_eq_true in H6. destruct H6 as (((G1 & G2) & G3) & G4). split; [lia|]. split; [done|]. destruct (rsc_on C g); lia.
  - intros E. rewrite (bool_decide_eq_true_2 _ E) in H7. cbn in H7. lia.
Qed.
Definition rx_exec1 (C : rx_conf) (K : rx_kernel) (x : rx_choice) (s : rx_sys) : option rx_sys :=
  let '(Sys r q n) := s in
  match x, q with
  | ChWrite g, _ => if nic_okb C n (tail_pos C r n) g then (fun r' => Sys r' q (nic_next n g)) <$> nic_write (rcount C) n g r else None
  | ChFill, None => Some (Sys (ixgbe_alloc_rx_buffers C K (ixgbe_desc_unused C r) r) None n)
  | ChEnter budget, None => Some (Sys r (Some (budget, poll_start C r)) n)
  | ChTurn, Some (budget, p) =>
      match rx_turn C K budget p r with
      | Some (true, p', r') => Some (Sys r' (Some (budget, p')) n)
      | Some (false, p', r') => Some (Sys (rx_finish C K p' r').2 None n)
      | None => None
      end
  | _, _ => None
  end.
Fixpoint rx_exec (C : rx_conf) (K : rx_kernel) (l : list rx_choice) (s : rx_sys) : option rx_sys :=
  match l with [] => Some s | x :: l => match rx_exec1 C K x s with Some s' => rx_exec C K l s' | None => None end end.
Lemma rx_exec1_sound C K x s s' : rx_exec1 C K x s = Some s' -> rx_step C K s s'.
Proof.
  destruct s as [r q n]. unfold rx_exec1. destruct x as [g| |budget|], q as [[b p]|]; try done.
  1-2: destruct (nic_okb C n (tail_pos C r n) g) eqn:Eo; [|done]; destruct (nic_write (rcount C) n g r) as [r'|] eqn:Ew; [|done]; intros [= <-]; apply RxWrite; [by apply nic_okb_sound|done].
  - intros [= <-]. apply RxFill.
  - intros [= <-]. apply RxEnter.
  - destruct (rx_turn C K b p r) as [[[[] p'] r']|] eqn:E; [| |done]; intros [= <-]; [by apply RxTurn|by apply RxLeave].
Qed.
Lemma rx_exec_sound C K l : forall s, rx_exec C K l s <> None -> rtc (rx_step C K) s (default s (rx_exec C K l s)).
Proof.
  induction l as [|x l IH]; intros s; cbn [rx_exec]; [done|]. destruct (rx_exec1 C K x s) as [s'|] eqn:E; [|done]. intros Hs. apply rx_exec1_sound in E. apply rtc_l with s'; [done|].
  specialize (IH s' Hs). by destruct (rx_exec C K l s').
Qed.

(** A ring of 24 buffers with RSC. The adapter receives a frame, a packet in two buffers and, between these, another frame; then the driver polls. *)
Definition ex_conf : rx_conf := RxConf 24 2048 false true false false true true true false false 0 1500.
Definition ex_map (l : Z -> option Z) (k : Z) : option Z :=
  let a := 4096 * (k + 1) in if (0 <? a) && (a <? 2 ^ 64) && (match l a with None => true | Some _ => false end) then Some a else None.
Definition ex_kernel : rx_kernel := RxKernel (fun _ => Some (2048, fun _ => 0)) ex_map (fun _ => 0).
Definition ex_fcoe : fcoe_state := Fcoe (fun _ => Ddp 0 1 0 None 0 None None) None None 0 false 0 [].
Definition ex_ring : rx_ring :=
  RxRing (fun _ => RxDesc 0 0) (fun _ => Buf None 0) 0 0 (RxStats 0 0 0 0 0 0 0 0 0) (fun _ => new_skb 0 (fun _ => 0)) (fun _ => None) 0 empty_list ex_fcoe [].
Definition ex_sys : rx_sys := Sys ex_ring None (Nic 0 (fun _ => Seg [] 0 0 None) (fun _ => [])).
Definition ex_seg (len rsc next : Z) (to : option Z) : seg :=
  Seg (replicate (Z.to_nat len) 7) (rsc * 2 ^ 17) (len * 2 ^ 32 + next * 2 ^ 4 + (match to with None => 3 | Some _ => 1 end)) to.
Definition ex_received : list rx_choice := [ChFill; ChWrite (ex_seg 60 0 0 None); ChWrite (ex_seg 100 2 3 (Some 3)); ChWrite (ex_seg 64 0 0 None); ChWrite (ex_seg 50 2 0 None)].
Definition ex_polled : list rx_choice := ex_received ++ [ChEnter 64; ChTurn; ChTurn; ChTurn; ChTurn; ChTurn].
Definition ex_state (l : list rx_choice) : rx_sys := default ex_sys (rx_exec ex_conf ex_kernel l ex_sys).
Lemma ex_config : rx_config ex_conf ex_kernel.
Proof.
  split; cbn; try done. intros l k a. unfold ex_map. destruct (0 <? 4096 * (k + 1)) eqn:E1; [|done]. destruct (4096 * (k + 1) <? 2 ^ 64) eqn:E2; [|done]. destruct (l (4096 * (k + 1))) eqn:E; [done|].
  cbn [andb]. intros [= <-]. split; [lia|done].
Qed.
Lemma ex_start : rx_start ex_sys.
Proof. by split. Qed.
Lemma ex_run l : match rx_exec ex_conf ex_kernel l ex_sys with Some _ => true | None => false end = true -> rtc (rx_step ex_conf ex_kernel) ex_sys (ex_state l).
Proof. intros H. apply rx_exec_sound. by destruct (rx_exec ex_conf ex_kernel l ex_sys). Qed.
Lemma ex_received_ok : rtc (rx_step ex_conf ex_kernel) ex_sys (ex_state ex_received).
Proof. apply ex_run. by vm_compute. Qed.
Lemma ex_polled_ok : rtc (rx_step ex_conf ex_kernel) ex_sys (ex_state ex_polled).
Proof. apply ex_run. by vm_compute. Qed.

Lemma rx_stream_witness : rx_config ex_conf ex_kernel /\ rx_start ex_sys /\ rtc (rx_step ex_conf ex_kernel) ex_sys (ex_state ex_polled) /\
  map slen (handed (rlog (ring (ex_state ex_polled)))) = [46; 50; 136] /\ exists c ids,
  0 <= c <= hd (adapter (ex_state ex_polled)) /\ r_clean (ring (ex_state ex_polled)) = slot 24 c /\
  Forall2 (delivered ex_conf (adapter (ex_state ex_polled)) ids) (received_at ex_conf (adapter (ex_state ex_polled)) c) (handed (rlog (ring (ex_state ex_polled)))) /\
  NoDup (gone (rlog (ring (ex_state ex_polled)))).
Proof.
  split; [exact ex_config|]. split; [exact ex_start|]. split; [exact ex_polled_ok|]. split; [vm_compute; reflexivity|]. exact (rx_stream ex_conf ex_kernel ex_sys (ex_state ex_polled) ex_config ex_start ex_polled_ok).
Defined.
Lemma rx_dma_safe_witness : live (ring (ex_state ex_polled)) 49152 = Some 10 /\
  (forall a k, live (ring (ex_state ex_polled)) a = Some k -> k ∈ allocs (rlog (ring (ex_state ex_polled))) /\ k ∉ gone (rlog (ring (ex_state ex_polled)))) /\
  forall budget p, poll (ex_state ex_polled) = Some (budget, p) -> rx_turn ex_conf ex_kernel budget p (ring (ex_state ex_polled)) <> None.
Proof. split; [vm_compute; reflexivity|]. exact (proj2 (rx_dma_safe ex_conf ex_kernel ex_sys (ex_state ex_polled) ex_config ex_start ex_polled_ok)). Defined.
Lemma rx_poll_complete_witness : poll (ex_state ex_received) = None /\ exists k r',
  ixgbe_clean_rx_irq ex_conf ex_kernel 2 (ring (ex_state ex_received)) = Some (k, r') /\ 0 <= k <= 2 /\ active (lro r') = [] /\
  Z.of_nat (length (handed (rlog r'))) = Z.of_nat (length (handed (rlog (ring (ex_state ex_received))))) + k /\
  (k = 2 \/ exists ids, Forall2 (delivered ex_conf (adapter (ex_state ex_received)) ids) (received_at ex_conf (adapter (ex_state ex_received)) (hd (adapter (ex_state ex_received)))) (handed (rlog r'))).
Proof.
  split; [vm_compute; reflexivity|]. apply (rx_poll_complete ex_conf ex_kernel ex_sys (ex_state ex_received) 2 ex_config ex_start ex_received_ok); [vm_compute; reflexivity|done].
Defined.
