(* ===== verification/RxDown.v ===== *)
(** * Receive rings: the release of a ring

    [ixgbe_clean_rx_ring] of [RxRing], from every state the driver and the adapter can reach ([RxSpec]). *)
From S2P Require Import Prelude Hw Bits FlowDir FlowFilters Sriov Queues Slots Lro LroSpec Fcoe RxRing RxHead RxSpec RxRun.
From Stdlib Require Import Permutation.
Open Scope Z_scope.

Section Down.
Context (C : rx_conf) (K : rx_kernel) (HC : rx_config C K).
Context (r0 : rx_ring) (n : nic) (c u : Z) (ids addrs : Z -> Z) (HR : ring_inv C r0 n c u ids addrs).
Local Notation N := (rcount C).
Local Notation slot := (slot (rcount C)).
Let HI : core C r0 n c u ids addrs := ri_core _ _ _ _ _ _ _ HR.

(** The positions whose socket buffers are freed with the buffer of [y]: those of a packet that has been begun. *)
Definition group (y : Z) : list Z := if openb n c y then pre n y ++ [y] else [y].
Lemma group_open y : c <= y < u -> (open n c u y /\ group y = pre n y ++ [y]) \/ (~ open n c u y /\ group y = [y]).
Proof. intros Hy. unfold group. pose proof (openb_spec n c u y Hy) as Ho. destruct (openb n c y); [left|right]; (split; [naive_solver|done]). Qed.
Lemma group_mine y p : c <= y < u -> p ∈ group y -> mine n c u p /\ (p = y \/ open n c u y /\ p ∈ pre n y).
Proof.
  intros Hy Hp. destruct (group_open y Hy) as [[Ho E]|[Ho E]]; rewrite E in Hp.
  - apply elem_of_app in Hp as [Hp| ->%list_elem_of_singleton]; [split; [right; by exists y|by right]|split; [by left|by left]].
  - apply list_elem_of_singleton in Hp as ->. split; [by left|by left].
Qed.
Lemma group_disjoint y y' p p' : c <= y < u -> c <= y' < u -> y <> y' -> p ∈ group y -> p' ∈ group y' -> ids p <> ids p'.
Proof.
  intros Hy Hy' Hne Hp Hp' E. destruct (group_mine y p Hy Hp) as [Hm Hc], (group_mine y' p' Hy' Hp') as [Hm' Hc'].
  apply (ids_inj _ _ _ _ _ _ _ _ _ HI) in E; [|by eapply mine_range..]. subst p'. pose proof (co_wf _ _ _ _ _ _ _ HI) as HW.
  destruct Hc as [->|[Ho Hin]], Hc' as [->|[Ho' Hin']]; [done| | |].
  - destruct (open_pre _ _ _ _ _ _ HW Ho') as [Hb _]. rewrite Forall_forall in Hb. destruct (Hb _ Hin'). lia.
  - destruct (open_pre _ _ _ _ _ _ HW Ho) as [Hb _]. rewrite Forall_forall in Hb. destruct (Hb _ Hin). lia.
  - apply Hne. by apply (open_disjoint' C n u c u y y' p).
Qed.
Lemma owned_groups : owned n c u ≡ₚ concat (map group (seqZ c (u - c))).
Proof.
  unfold owned. induction (seqZ c (u - c)) as [|y l IH]; [done|]. cbn [map concat]. rewrite <- IH. unfold group. destruct (openb n c y).
  - rewrite <- !app_assoc. cbn [app]. rewrite <- Permutation_middle. constructor. rewrite !app_assoc. apply Permutation_app_tail, Permutation_app_comm.
  - done.
Qed.

(** One buffer: its socket buffers are freed and its mappings removed. *)
Record cleaned (i y : Z) (r r' : rx_ring) : Prop := {
  cl_info : forall j, rinfo r' j = if decide (j = i) then Buf None 0 else rinfo r j;
  cl_skbs : forall s, s ∉ map ids (group y) -> skbs r' s = skbs r s;
  cl_live : forall a k, live r' a = Some k -> live r a = Some k /\ a <> addrs y /\ (open n c u y -> forall h, head (pre n y) = Some h -> a <> addrs h);
  cl_allocs : allocs (rlog r') = allocs (rlog r);
  cl_gone : gone (rlog r') ≡ₚ gone (rlog r) ++ map ids (group y)
}.
Lemma clean_plain i y r : c <= y < u -> rinfo r i = Buf (Some (ids y)) (addrs y) -> ~ open n c u y -> plain (skbs r (ids y)) -> cleaned i y r (clean_buffer C i r).
Proof.
  intros Hy Hi Ho [P1 P2 P3 P4 P5 P6]. destruct (group_open y Hy) as [[? _]|[_ Eg]]; [done|]. pose proof (co_addr _ _ _ _ _ _ _ HI y Hy) as Ha.
  unfold clean_buffer. rewrite Hi. cbn [bskb]. unfold ixgbe_merge_active_tail. rewrite P5. cbn [partner]. unfold ixgbe_close_active_frag_list. rewrite P5. cbn [partner].
  assert (chain C (ids y) (set_skb (ids y) (set_cdma 0) r) = []) as Ec.
  { unfold chain. cbn [skbs set_skb]. rewrite fn_lookup_insert. cbn [rfrag set_cdma set_rcb]. rewrite P4. by destruct (Z.to_nat N). }
  unfold kfree_skb. rewrite Ec. cbn [rinfo add_log set_skb]. rewrite Hi. cbn [bdma]. replace (truthy (addrs y)) with true by (symmetry; unfold truthy; destruct (Z.eqb_spec (addrs y) 0); [lia|done]).
  split; cbn [rinfo skbs live rlog set_rinfo dma_unmap_single add_log set_live set_skb].
  - intros j. rewrite fn_insert_dec. repeat case_decide; congruence.
  - rewrite Eg. intros s Hs. apply fn_lookup_insert_ne. intros <-. apply Hs. cbn. apply elem_of_cons. by left.
  - intros a k. rewrite fn_insert_dec. case_decide; [done|]. intros Hl. split_and!; [done|congruence|done].
  - rewrite !allocs_app. cbn. by rewrite !app_nil_r.
  - rewrite !gone_app, Eg. cbn. by rewrite app_nil_r.
Qed.
(** The two steps that close a packet that waits in [t] for its continuation. *)
Lemma merge_close r h t b b' : rcb (skbs r t) = RxCb (Some h) 0 0 -> rcb (skbs r h) = RxCb (Some t) b b' -> h <> t -> exists r1 r2,
  ixgbe_merge_active_tail t r = (h, r1) /\ ixgbe_close_active_frag_list h r1 = (true, r2) /\ rcb (skbs r2 h) = RxCb None b b' /\ (forall s, s <> h -> s <> t -> skbs r2 s = skbs r s) /\
  (forall s, rfrag (skbs r2 s) = rfrag (skbs r s) /\ rnext (skbs r2 s) = rnext (skbs r s)) /\ rinfo r2 = rinfo r /\ live r2 = live r /\ rlog r2 = rlog r.
Proof.
  intros Ht Hh Hne. unfold ixgbe_merge_active_tail at 1. rewrite Ht. cbn [partner]. match goal with |- exists _ _, (h, ?x) = _ /\ _ => set (r1 := x) end. exists r1.
  assert (rcb (skbs r1 h) = RxCb (Some t) b b') as E1 by (unfold r1; cbn [skbs set_skb]; rewrite (fn_lookup_insert_ne _ t), fn_lookup_insert by done; done).
  assert (partner (rcb (skbs r1 t)) = None) as E2 by (unfold r1; cbn [skbs set_skb]; rewrite fn_lookup_insert; done).
  assert (forall s, rfrag (skbs r1 s) = rfrag (skbs r s) /\ rnext (skbs r1 s) = rnext (skbs r s)) as E3.
  { intros s. unfold r1. cbn [skbs set_skb]. rewrite !fn_insert_dec. repeat case_decide; subst; done. }
  assert (forall s, s <> h -> s <> t -> skbs r1 s = skbs r s) as E4 by (intros s H1 H2; unfold r1; cbn [skbs set_skb]; by rewrite !fn_lookup_insert_ne).
  assert (rinfo r1 = rinfo r /\ live r1 = live r /\ rlog r1 = rlog r) as (E5 & E6 & E7) by done. clearbody r1.
  unfold ixgbe_close_active_frag_list. rewrite E1. cbn [partner]. unfold ixgbe_merge_active_tail. rewrite E2. cbn [snd]. eexists. split; [done|]. split; [done|]. cbn [skbs set_skb rinfo live rlog]. split_and!; try done.
  - rewrite fn_lookup_insert. cbn [rcb set_partner set_rcb]. by rewrite E1.
  - intros s H1 H2. rewrite fn_lookup_insert_ne by done. by apply E4.
  - intros s. rewrite fn_insert_dec. case_decide; [subst s; apply (E3 h)|apply E3].
Qed.
Lemma clean_waiting i y r : c <= y < u -> rinfo r i = Buf (Some (ids y)) (addrs y) -> open n c u y -> waiting C (skbs r) ids addrs n y -> cleaned i y r (clean_buffer C i r).
Proof.
  intros Hy Hi Ho [(h & rest & Ep & [J1 J2 J3 J4 J5 J6 J7 J8] & W1 & W2 & W3 & W4 & W5)]. destruct (group_open y Hy) as [[_ Eg]|[? _]]; [|done]. pose proof (co_addr _ _ _ _ _ _ _ HI y Hy) as Ha.
  assert (ids h <> ids y) as Hne.
  { intros E. destruct (open_pre _ _ _ _ _ _ (co_wf _ _ _ _ _ _ _ HI) Ho) as [Hb _]. rewrite Ep in Hb. inversion Hb as [|? ? [Hb1 _] _]; subst. apply (ids_inj _ _ _ _ _ _ _ _ _ HI) in E; lia. }
  destruct (merge_close r (ids h) (ids y) _ _ W4 J5 Hne) as (r1 & r2 & E1 & E2 & Eh & Es & Ef & Ei & El & Eg').
  unfold clean_buffer. rewrite Hi. cbn [bskb]. rewrite E1, E2. rewrite Eh. cbn [cdma].
  assert (chain C (ids h) (set_skb (ids h) (set_cdma 0) (dma_unmap_single (addrs h) r2)) = map ids (rest ++ [y])) as Ec.
  { unfold chain. cbn [skbs set_skb dma_unmap_single add_log set_live]. rewrite fn_lookup_insert. cbn [rfrag set_cdma set_rcb]. rewrite (proj1 (Ef (ids h))), J4. apply walk_links.
    - destruct Ho as (_ & p & Hp & _). destruct (nw_pre _ _ _ (co_wf _ _ _ _ _ _ _ HI) y p Hp) as (Hp1 & _ & _ & Hp2). destruct (nw_seg _ _ _ (co_wf _ _ _ _ _ _ _ HI) p Hp1) as (_ & _ & _ & _ & _ & _ & Hcnt).
      apply (f_equal length) in Hp2. rewrite Ep, length_app in Hp2. rewrite length_map, length_app. cbn in *. lia.
    - eapply links_ext; [|exact J7]. intros s _. cbn [skbs set_skb dma_unmap_single add_log set_live]. rewrite fn_insert_dec. case_decide as E; [subst s|]; apply Ef. }
  unfold kfree_skb. rewrite Ec. cbn [rinfo add_log set_skb dma_unmap_single set_live]. rewrite Ei, Hi. cbn [bdma]. replace (truthy (addrs y)) with true by (symmetry; unfold truthy; destruct (Z.eqb_spec (addrs y) 0); [lia|done]).
  assert (group y = h :: rest ++ [y]) as Eg2 by (by rewrite Eg, Ep).
  split; cbn [rinfo skbs live rlog set_rinfo dma_unmap_single add_log set_live set_skb]; rewrite ?Ei, ?El, ?Eg', ?Eg2.
  - intros j. rewrite fn_insert_dec. repeat case_decide; congruence.
  - intros s Hs. assert (s <> ids h /\ s <> ids y) as [H1 H2] by (split; intros E; apply Hs; subst s; apply list_elem_of_fmap; eexists; (split; [done|]); rewrite elem_of_cons, elem_of_app, list_elem_of_singleton; naive_solver).
    rewrite fn_lookup_insert_ne by congruence. by apply Es.
  - intros a k. rewrite !fn_insert_dec. repeat case_decide; try done. intros Hl. split_and!; [done|congruence|]. intros _ h'. rewrite Ep. intros [= <-]. congruence.
  - rewrite !allocs_app, (proj1 (proj2 (gone_freed _))). cbn. by rewrite !app_nil_r.
  - rewrite !gone_app, (proj1 (gone_freed _)). cbn. by rewrite !app_nil_r.
Qed.
(** The loop at buffer [i]: [L] are the positions still to be cleaned. *)
Record down_inv (i : Z) (L : list Z) (r : rx_ring) : Prop := {
  dn_dup : NoDup L;
  dn_list : forall x, x ∈ L <-> c <= x < u /\ i <= slot x;
  dn_in : forall x, x ∈ L -> rinfo r (slot x) = Buf (Some (ids x)) (addrs x);
  dn_out : forall j, i <= j < N -> (forall x, x ∈ L -> slot x <> j) -> rinfo r j = Buf None 0;
  dn_skbs : forall y p, y ∈ L -> p ∈ group y -> skbs r (ids p) = skbs r0 (ids p);
  dn_live : forall a k, live r a = Some k -> exists x y, y ∈ L /\ (x = y \/ open n c u y /\ head (pre n y) = Some x) /\ a = addrs x;
  dn_allocs : allocs (rlog r) = allocs (rlog r0);
  dn_gone : allocs (rlog r0) ≡ₚ gone (rlog r) ++ map ids (concat (map group L))
}.
Lemma down_start : down_inv 0 (seqZ c (u - c)) r0.
Proof.
  pose proof (cf_count _ _ HC) as HN. pose proof (co_pos _ _ _ _ _ _ _ HI) as [P1 P2]. split.
  - apply NoDup_seqZ.
  - intros x. rewrite elem_of_seqZ. pose proof (slot_range N ltac:(lia) x). lia.
  - intros x Hx%elem_of_seqZ. apply (co_in _ _ _ _ _ _ _ HI). lia.
  - intros j Hj Hno. set (x := c + (j - c) mod N). pose proof (Z.mod_pos_bound (j - c) N ltac:(lia)).
    assert (slot x = j) as Ej by (unfold x, Slots.slot; rewrite Zplus_mod_idemp_r; replace (c + (j - c)) with j by lia; by apply Z.mod_small).
    destruct (Z.lt_ge_cases x u); [destruct (Hno x); [apply elem_of_seqZ; lia|done]|]. rewrite <- Ej. apply (co_out _ _ _ _ _ _ _ HI). lia.
  - done.
  - intros a k Ha. destruct (co_only _ _ _ _ _ _ _ HI a k Ha) as (x & [Hx|(y & Ho & Hh)] & ->).
    + exists x, x. split; [apply elem_of_seqZ; lia|]. split; [by left|done].
    + exists x, y. split; [apply elem_of_seqZ; destruct Ho; lia|]. split; [by right|done].
  - done.
  - rewrite <- owned_groups. apply HR.
Qed.
Lemma down_step i L r : 0 <= i < N -> down_inv i L r -> exists L', down_inv (i + 1) L' (clean_buffer C i r).
Proof.
  intros Hi [D1 D2 D3 D4 D5 D6 D7 D8]. destruct (decide (Exists (fun x => slot x = i) L)) as [(x & Hx & Es)%Exists_exists|Hno].
  - pose proof (proj1 (D2 x) Hx) as [Hxr _]. apply elem_of_Permutation in Hx as Hp. destruct Hp as [L' HL]. rewrite HL in D1. apply NoDup_cons in D1 as [Hnin D1].
    assert (cleaned i x r (clean_buffer C i r)) as [C1 C2 C3 C4 C5].
    { rewrite <- Es at 1. assert (forall p, p ∈ group x -> skbs r (ids p) = skbs r0 (ids p)) as Hs by (intros p; by apply D5). destruct (group_open x Hxr) as [[Ho Eg]|[Ho Eg]].
      - rewrite Es. apply clean_waiting; [done|rewrite <- Es; by apply D3|done|]. apply (waiting_ext C (skbs r0) _ ids _ addrs); [|by apply (co_wait _ _ _ _ _ _ _ HI)]. intros p Hp. rewrite <- Eg in Hp. split; [done|]. split; [done|]. apply alike_eq. by apply Hs.
      - rewrite Es. apply clean_plain; [done|rewrite <- Es; by apply D3|done|]. rewrite Hs by (rewrite Eg; by apply list_elem_of_singleton). by apply (co_plain _ _ _ _ _ _ _ HI). }
    assert (forall y, y ∈ L' <-> y ∈ L /\ y <> x) as HL' by (intros y; rewrite HL, elem_of_cons; naive_solver). exists L'. split; try done.
    + intros y. rewrite HL', D2. pose proof (co_pos _ _ _ _ _ _ _ HI) as [P1 P2]. split; [intros [[H1 H2] H3]; split; [done|]|intros [H1 H2]; split_and!; [lia|lia|lia|intros ->; lia]].
      pose proof (slot_ne C K HC c x y ltac:(lia) ltac:(lia) ltac:(done)). lia.
    + intros y Hy. rewrite HL' in Hy. destruct Hy as [Hy Hne]. rewrite C1, D3 by done. case_decide as E; [|done]. pose proof (proj1 (D2 y) Hy). pose proof (co_pos _ _ _ _ _ _ _ HI) as [P1 P2].
      destruct (slot_ne C K HC c x y); [lia|lia|done|congruence].
    + intros j Hj Hno. rewrite C1. case_decide; [done|]. apply D4; [lia|]. intros y Hy. destruct (decide (y = x)) as [->|]; [lia|]. apply Hno. by apply HL'.
    + intros y p Hy Hp. rewrite HL' in Hy. destruct Hy as [Hy Hne]. rewrite C2; [by apply (D5 y)|]. intros (q & E & Hq)%list_elem_of_fmap. pose proof (proj1 (D2 y) Hy) as [Hyr _]. by apply (group_disjoint y x p q Hyr Hxr Hne Hp Hq).
    + intros a k Ha. destruct (C3 a k Ha) as (Ha1 & Ha2 & Ha3). destruct (D6 a k Ha1) as (z & y & Hy & Hz & ->). exists z, y. split; [|done]. apply HL'. split; [done|]. intros ->. destruct Hz as [->|[Ho Hh]]; [done|]. by apply (Ha3 Ho z Hh).
    + by rewrite C4.
    + rewrite D8, C5, HL. cbn [map concat]. by rewrite map_app, app_assoc.
  - assert (forall x, x ∈ L -> slot x <> i) as Hne by (intros x Hx E; apply Hno, Exists_exists; by exists x). pose proof (D4 i ltac:(lia) Hne) as Ei.
    assert (clean_buffer C i r = set_rinfo i (Buf None 0) r) as -> by (unfold clean_buffer; rewrite Ei; cbn [bskb]; rewrite Ei; done).
    exists L. split; try done; cbn [rinfo set_rinfo].
    + intros x. rewrite D2. split; [intros [H1 H2]; split; [done|]|lia]. specialize (Hne x ltac:(by apply D2)). lia.
    + intros x Hx. rewrite fn_lookup_insert_ne; [by apply D3|]. specialize (Hne x Hx). congruence.
    + intros j Hj Hn. rewrite fn_lookup_insert_ne by lia. apply D4; [lia|done].
Qed.
Lemma down_loop k : forall i L r, 0 <= i -> i + Z.of_nat k = N -> down_inv i L r -> exists L', down_inv N L' (clean_buffers C k i r).
Proof.
  induction k as [|k IH]; intros i L r Hi Hk HD; cbn [clean_buffers].
  - exists L. by replace N with i by lia.
  - destruct (down_step i L r ltac:(lia) HD) as [L' HD']. apply (IH (i + 1) L'); [lia|lia|done].
Qed.
Lemma down_end : let r := ixgbe_clean_rx_ring C r0 in (forall a, live r a = None) /\ (forall i, rinfo r i = Buf None 0) /\ allocs (rlog r) ≡ₚ gone (rlog r) /\ NoDup (gone (rlog r)).
Proof.
  cbv zeta. unfold ixgbe_clean_rx_ring. rewrite (cf_pbm _ _ HC). pose proof (cf_count _ _ HC) as HN. destruct (down_loop (Z.to_nat N) 0 _ r0 ltac:(lia) ltac:(lia) down_start) as [L [D1 D2 D3 D4 D5 D6 D7 D8]].
  assert (L = []) as -> by (destruct L as [|x L]; [done|]; destruct (proj1 (D2 x) ltac:(apply elem_of_cons; by left)); pose proof (slot_range N ltac:(lia) x); lia).
  cbn [map concat] in D8. rewrite app_nil_r in D8. cbn [live rinfo rlog]. split_and!.
  - intros a. destruct (live _ a) as [k|] eqn:E; [|done]. destruct (D6 a k E) as (? & y & Hy & _). by apply elem_of_nil in Hy.
  - done.
  - by rewrite D7.
  - rewrite <- D8. apply HR.
Qed.
End Down.

(** C23. Releasing a receive ring leaves nothing behind. From every state that the driver and the adapter can reach, also while packets
    have been received in part: [ixgbe_clean_rx_ring] removes every DMA mapping and empties every buffer, and each socket buffer that was ever allocated
    has then been freed or handed to the stack, exactly once. *)
Theorem rx_release C K s0 s : rx_config C K -> rx_start s0 -> rtc (rx_step C K) s0 s -> let r := ixgbe_clean_rx_ring C (ring s) in
  (forall a, live r a = None) /\ (forall i, rinfo r i = Buf None 0) /\ allocs (rlog r) ≡ₚ gone (rlog r) /\ NoDup (gone (rlog r)).
Proof. intros HC H0 Hr. destruct (run_inv C K HC s0 s H0 Hr) as (c & u & ids & addrs & HR & _). by apply (down_end C K HC (ring s) (adapter s) c u ids addrs). Qed.

(** The adapter has written the first part of a packet, the driver has taken it and waits for the rest. *)
Definition ex_partial : list rx_choice := [ChFill; ChWrite (ex_seg 60 0 0 None); ChWrite (ex_seg 100 2 3 (Some 3)); ChEnter 64; ChTurn; ChTurn; ChTurn].
Lemma ex_partial_ok : rtc (rx_step ex_conf ex_kernel) ex_sys (ex_state ex_partial).
Proof. apply ex_run. by vm_compute. Qed.
Lemma rx_release_witness : length (handed (rlog (ring (ex_state ex_partial)))) = 1%nat /\ let r := ixgbe_clean_rx_ring ex_conf (ring (ex_state ex_partial)) in
  (forall a, live r a = None) /\ (forall i, rinfo r i = Buf None 0) /\ allocs (rlog r) ≡ₚ gone (rlog r) /\ NoDup (gone (rlog r)).
Proof.
  split; [vm_compute; reflexivity|]. exact (rx_release ex_conf ex_kernel ex_sys (ex_state ex_partial) ex_config ex_start ex_partial_ok).
Defined.
