(* ===== verification/I2c.v ===== *)
(** * The I2C bus of the SFP module ([ixgbe_phy.c])

    The driver moves the clock and data lines through the register I2CCTL. A pointer argument [i2cctl] of the code is the argument and part of the result here.
    Waiting times are left out. [acquire_swfw_sync] and [release_swfw_sync] are those of [Eeprom], as on the adapters with SFP modules. *)
From S2P Require Import Prelude Bits Hw Eeprom FlowControl.

Definition IXGBE_I2CCTL : Z := 0x00028.
Definition IXGBE_I2C_CLK_IN : Z := 0x00000001.
Definition IXGBE_I2C_CLK_OUT : Z := 0x00000002.
Definition IXGBE_I2C_DATA_IN : Z := 0x00000004.
Definition IXGBE_I2C_DATA_OUT : Z := 0x00000008.
Definition IXGBE_I2C_CLOCK_STRETCHING_TIMEOUT : Z := 500.
Definition IXGBE_I2C_EEPROM_DEV_ADDR : Z := 0xA0.
Definition IXGBE_I2C_EEPROM_DEV_ADDR2 : Z := 0xA2.
Definition IXGBE_ERR_I2C : Z := -18.

(** ** The lines *)
Fixpoint raise_loop (timeout : nat) (i2cctl : Z) : M Z :=
  match timeout with
  | O => mret i2cctl
  | S n =>
      let i2cctl := Z.lor i2cctl IXGBE_I2C_CLK_OUT in
      _ ← IXGBE_WRITE_REG IXGBE_I2CCTL i2cctl;
      _ ← IXGBE_WRITE_FLUSH;
      i2cctl_r ← IXGBE_READ_REG IXGBE_I2CCTL;
      if truthy (Z.land i2cctl_r IXGBE_I2C_CLK_IN) then mret i2cctl else raise_loop n i2cctl
  end.
Definition ixgbe_raise_i2c_clk (i2cctl : Z) : M Z := raise_loop (Z.to_nat IXGBE_I2C_CLOCK_STRETCHING_TIMEOUT) i2cctl.
Definition ixgbe_lower_i2c_clk (i2cctl : Z) : M Z :=
  let i2cctl := Z.ldiff i2cctl IXGBE_I2C_CLK_OUT in
  _ ← IXGBE_WRITE_REG IXGBE_I2CCTL i2cctl;
  _ ← IXGBE_WRITE_FLUSH;
  mret i2cctl.
Definition ixgbe_get_i2c_data (i2cctl : Z) : bool := truthy (Z.land i2cctl IXGBE_I2C_DATA_IN).
(** The status and the value of the register. *)
Definition ixgbe_set_i2c_data (i2cctl : Z) (data : bool) : M (Z * Z) :=
  let i2cctl := if data then Z.lor i2cctl IXGBE_I2C_DATA_OUT else Z.ldiff i2cctl IXGBE_I2C_DATA_OUT in
  _ ← IXGBE_WRITE_REG IXGBE_I2CCTL i2cctl;
  _ ← IXGBE_WRITE_FLUSH;
  i2cctl ← IXGBE_READ_REG IXGBE_I2CCTL;
  mret (if Bool.eqb data (ixgbe_get_i2c_data i2cctl) then 0 else IXGBE_ERR_I2C, i2cctl).

(** ** Bits and bytes *)
Definition ixgbe_i2c_start : M () :=
  i2cctl ← IXGBE_READ_REG IXGBE_I2CCTL;
  r ← ixgbe_set_i2c_data i2cctl true;
  i2cctl ← ixgbe_raise_i2c_clk r.2;
  r ← ixgbe_set_i2c_data i2cctl false;
  _ ← ixgbe_lower_i2c_clk r.2;
  mret ().
Definition ixgbe_i2c_stop : M () :=
  i2cctl ← IXGBE_READ_REG IXGBE_I2CCTL;
  r ← ixgbe_set_i2c_data i2cctl false;
  i2cctl ← ixgbe_raise_i2c_clk r.2;
  _ ← ixgbe_set_i2c_data i2cctl true;
  mret ().
Definition ixgbe_clock_in_i2c_bit : M bool :=
  i2cctl ← IXGBE_READ_REG IXGBE_I2CCTL;
  _ ← ixgbe_raise_i2c_clk i2cctl;
  i2cctl ← IXGBE_READ_REG IXGBE_I2CCTL;
  let data := ixgbe_get_i2c_data i2cctl in
  _ ← ixgbe_lower_i2c_clk i2cctl;
  mret data.
Definition ixgbe_clock_out_i2c_bit (data : bool) : M Z :=
  i2cctl ← IXGBE_READ_REG IXGBE_I2CCTL;
  r ← ixgbe_set_i2c_data i2cctl data;
  if r.1 =? 0 then
    i2cctl ← ixgbe_raise_i2c_clk r.2;
    _ ← ixgbe_lower_i2c_clk i2cctl;
    mret 0
  else mret IXGBE_ERR_I2C.
(** The loops of the next two functions have [i + 1] turns left, for bits [i] to 0. *)
Fixpoint clock_in_loop (n : nat) (data : Z) : M Z :=
  match n with
  | O => mret data
  | S i => bit ← ixgbe_clock_in_i2c_bit; clock_in_loop i (Z.lor data (Z.shiftl (Z.b2z bit) (Z.of_nat i)))
  end.
Definition ixgbe_clock_in_i2c_byte (data : Z) : M Z := clock_in_loop 8 data.
Fixpoint clock_out_loop (n : nat) (data : Z) : M Z :=
  match n with
  | O => mret 0
  | S i =>
      status ← ixgbe_clock_out_i2c_bit (truthy (Z.land (Z.shiftr data (Z.of_nat i)) 0x1));
      if truthy status then mret status else clock_out_loop i data
  end.
Definition ixgbe_clock_out_i2c_byte (data : Z) : M Z :=
  status ← clock_out_loop 8 data;
  i2cctl ← IXGBE_READ_REG IXGBE_I2CCTL;
  _ ← IXGBE_WRITE_REG IXGBE_I2CCTL (Z.lor i2cctl IXGBE_I2C_DATA_OUT);
  _ ← IXGBE_WRITE_FLUSH;
  mret status.
(** The last value of the register, and whether the acknowledgement was seen. *)
Definition ixgbe_get_i2c_ack : M Z :=
  i2cctl ← IXGBE_READ_REG IXGBE_I2CCTL;
  _ ← ixgbe_raise_i2c_clk i2cctl;
  r ← poll_last 10 IXGBE_I2CCTL (fun v => negb (ixgbe_get_i2c_data v)) i2cctl;
  _ ← ixgbe_lower_i2c_clk r.1;
  mret (if (r.2 : bool) then 0 else IXGBE_ERR_I2C).
Fixpoint clear_loop (n : nat) (i2cctl : Z) : M Z :=
  match n with
  | O => mret i2cctl
  | S n => i2cctl ← ixgbe_raise_i2c_clk i2cctl; i2cctl ← ixgbe_lower_i2c_clk i2cctl; clear_loop n i2cctl
  end.
Definition ixgbe_i2c_bus_clear : M () :=
  i2cctl ← IXGBE_READ_REG IXGBE_I2CCTL;
  _ ← ixgbe_i2c_start;
  r ← ixgbe_set_i2c_data i2cctl true;
  _ ← clear_loop 9 r.2;
  _ ← ixgbe_i2c_start;
  ixgbe_i2c_stop.

(** ** Reading and writing a byte of the module *)

(** A step that may fail, and what follows if it does not: [goto fail] of the code. *)
Definition or_fail (m k : M Z) : M Z := status ← m; if truthy status then mret status else k.
Definition send_byte (b : Z) (k : M Z) : M Z := or_fail (ixgbe_clock_out_i2c_byte b) (or_fail ixgbe_get_i2c_ack k).
(** One attempt, up to the failure or the end of the transfer: its status and the byte. *)
Definition i2c_read_try (byte_offset dev_addr data : Z) : M (Z * Z) :=
  _ ← ixgbe_i2c_start;
  status ← send_byte dev_addr (send_byte byte_offset (_ ← ixgbe_i2c_start; send_byte (Z.lor dev_addr 0x1) (mret 0)));
  if truthy status then mret (status, data)
  else
    data ← ixgbe_clock_in_i2c_byte data;
    status ← or_fail (ixgbe_clock_out_i2c_bit true) (_ ← ixgbe_i2c_stop; mret 0);
    mret (status, data).
Fixpoint i2c_read_loop (attempts : nat) (swfw_mask byte_offset dev_addr status data : Z) : M (Z * Z) :=
  match attempts with
  | O => _ ← ixgbe_release_swfw_sync swfw_mask; mret (status, data)
  | S attempts =>
      e ← ixgbe_acquire_swfw_sync swfw_mask;
      if truthy e then mret (IXGBE_ERR_SWFW_SYNC, data)
      else
        r ← i2c_read_try byte_offset dev_addr data;
        if truthy r.1 then
          _ ← ixgbe_i2c_bus_clear;
          _ ← ixgbe_release_swfw_sync swfw_mask;
          i2c_read_loop attempts swfw_mask byte_offset dev_addr r.1 r.2
        else _ ← ixgbe_release_swfw_sync swfw_mask; mret r
  end.
(** The status and the byte. *)
Definition ixgbe_read_i2c_byte_generic (byte_offset dev_addr : Z) : M (Z * Z) :=
  swfw_mask ← phy_gssr;
  i2c_read_loop 10 swfw_mask byte_offset dev_addr 0 0.
(** [max_retry] is 1: there is no second attempt. *)
Definition ixgbe_write_i2c_byte_generic (byte_offset dev_addr data : Z) : M Z :=
  swfw_mask ← phy_gssr;
  e ← ixgbe_acquire_swfw_sync swfw_mask;
  if truthy e then mret IXGBE_ERR_SWFW_SYNC
  else
    _ ← ixgbe_i2c_start;
    status ← send_byte dev_addr (send_byte byte_offset (send_byte data (_ ← ixgbe_i2c_stop; mret 0)));
    _ ← (if truthy status then ixgbe_i2c_bus_clear else mret ());
    _ ← ixgbe_release_swfw_sync swfw_mask;
    mret status.
Definition ixgbe_read_i2c_eeprom_generic (byte_offset : Z) : M (Z * Z) := ixgbe_read_i2c_byte_generic byte_offset IXGBE_I2C_EEPROM_DEV_ADDR.
Definition ixgbe_read_i2c_sff8472_generic (byte_offset : Z) : M (Z * Z) := ixgbe_read_i2c_byte_generic byte_offset IXGBE_I2C_EEPROM_DEV_ADDR2.
Definition ixgbe_write_i2c_eeprom_generic (byte_offset eeprom_data : Z) : M Z := ixgbe_write_i2c_byte_generic byte_offset IXGBE_I2C_EEPROM_DEV_ADDR eeprom_data.
