(* ===== verification/I2cSpec.v ===== *)
(** * The I2C bus: a module that is read and written

    The lines of the bus, a module with 256 bytes at an I2C address (as a state machine that sees starts, stops and clock edges), and the proof that [I2c]
    reads and writes its bytes. *)
From S2P Require Import Prelude Bits Hw Eeprom Spi FlowControl I2c.

(** ** The module *)

(** What the module sees on the bus: the data line falls or rises while the clock is high, and the edges of the clock with the data at the rising edge. *)
Inductive i2c_event := Start | Stop | Rise (b : bool) | Fall.
Inductive expected := EAddress | EOffset | EData.
Inductive answered := ARead | AWrite | AOffset | AData.
Inductive i2c_phase := Idle | Receives (k : expected) (bits : list bool) | Acks (a : answered) | Sends (b : Z) (i : nat) | AwaitsAck.
Record sfp_module := Module_ { phase : i2c_phase; pointer : Z; contents : Z -> Z }.
Definition set_phase p m := Module_ p (pointer m) (contents m).
Definition value (bits : list bool) : Z := foldl (fun a b => 2 * a + Z.b2z b) 0 bits.
(** The next byte goes out. *)
Definition send_next (m : sfp_module) : sfp_module := Module_ (Sends (contents m (pointer m)) 7) ((pointer m + 1) mod 2 ^ 8) (contents m).
Definition take_byte (dev : Z) (k : expected) (v : Z) (m : sfp_module) : sfp_module :=
  match k with
  | EAddress => set_phase (if v =? dev then Acks AWrite else if v =? dev + 1 then Acks ARead else Idle) m
  | EOffset => Module_ (Acks AOffset) v (contents m)
  | EData => Module_ (Acks AData) ((pointer m + 1) mod 2 ^ 8) (<[pointer m := v]> (contents m))
  end.
Definition module_step (dev : Z) (e : i2c_event) (m : sfp_module) : sfp_module :=
  match e, phase m with
  | Start, _ => set_phase (Receives EAddress []) m
  | Stop, _ => set_phase Idle m
  | Rise b, Receives k bits => set_phase (Receives k (bits ++ [b])) m
  | Rise b, AwaitsAck => if b then set_phase Idle m else m
  | Rise _, _ => m
  | Fall, Receives k bits => if (length bits =? 8)%nat then take_byte dev k (value bits) m else m
  | Fall, Acks ARead => send_next m
  | Fall, Acks AWrite => set_phase (Receives EOffset []) m
  | Fall, Acks _ => set_phase (Receives EData []) m
  | Fall, Sends b (S i) => set_phase (Sends b i) m
  | Fall, Sends b O => set_phase AwaitsAck m
  | Fall, AwaitsAck => send_next m
  | Fall, Idle => m
  end.
(** Whether the module leaves the data line high. *)
Definition released (m : sfp_module) : bool := match phase m with Acks _ => false | Sends b i => Z.testbit b (Z.of_nat i) | _ => true end.

(** ** The bus *)

(** The lines; the data line as the driver drives it, it is low if either side pulls it down. *)
Record bus := Bus { scl : bool; sda : bool; sfp : sfp_module }.
(** The lines become [s] and [d]: what the module sees of it. *)
Definition drive (dev : Z) (s d : bool) (B : bus) : bus :=
  let e :=
    if scl B then
      if s then
        if (sda B && released (sfp B)) && negb (d && released (sfp B)) then Some Start
        else if negb (sda B && released (sfp B)) && (d && released (sfp B)) then Some Stop else None
      else Some Fall
    else if s then Some (Rise (d && released (sfp B))) else None in
  Bus s d (match e with Some e => module_step dev e (sfp B) | None => sfp B end).

(** The clock line is high when the driver has let it go and the module does not hold it: the module stretches the clock pulse [n] for [stretch n] polls of the
    register. [wanted] is what the driver drives, [holding] how many more polls the module holds the clock, [pulses] counts the pulses. *)
Record wires := Wires { lines : bus; wanted : bool; holding : nat; pulses : nat; stretch : nat -> nat }.
(** The driver writes the register with the clock low or high and the data [d]. *)
Definition pull_clock (dev : Z) (d : bool) (W : wires) : wires := Wires (drive dev false d (lines W)) false 0 (pulses W) (stretch W).
Definition release_clock (dev : Z) (d : bool) (W : wires) : wires :=
  if scl (lines W) then Wires (drive dev true d (lines W)) true 0 (pulses W) (stretch W)
  else if wanted W then Wires (drive dev false d (lines W)) true (holding W) (pulses W) (stretch W)
  else
    match stretch W (pulses W) with
    | O => Wires (drive dev true d (lines W)) true 0 (S (pulses W)) (stretch W)
    | n => Wires (drive dev false d (lines W)) true n (S (pulses W)) (stretch W)
    end.
(** The driver reads the register: time passes, and the module lets the clock go at the last of the polls. *)
Definition poll_clock (dev : Z) (W : wires) : wires :=
  if wanted W && negb (scl (lines W)) then
    match holding W with
    | S (S n) => Wires (lines W) true (S n) (pulses W) (stretch W)
    | _ => Wires (drive dev true (sda (lines W)) (lines W)) true 0 (pulses W) (stretch W)
    end
  else W.
Definition bus_step (dev : Z) (W : wires) (a : access) : wires :=
  match a with
  | Wr r v => if r =? IXGBE_I2CCTL then if Z.testbit v 1 then release_clock dev (Z.testbit v 3) W else pull_clock dev (Z.testbit v 3) W else W
  | Rd r _ => if r =? IXGBE_I2CCTL then poll_clock dev W else W
  end.
Definition bus_run (dev : Z) (B0 : wires) (t : list access) : wires := foldl (bus_step dev) B0 t.
(** The adapter, with the module [dev] on a bus that was [B0]. The module never stretches the clock for as long as the driver waits. *)
Record i2c_adapter (dev : Z) (B0 : wires) (A : list access -> Z -> Z) : Prop := {
  clk_line t : Z.testbit (A t IXGBE_I2CCTL) 0 = scl (lines (bus_run dev B0 t));
  clk_reads_back t : Z.testbit (A t IXGBE_I2CCTL) 1 = wanted (bus_run dev B0 t);
  data_line t : Z.testbit (A t IXGBE_I2CCTL) 2 = sda (lines (bus_run dev B0 t)) && released (sfp (lines (bus_run dev B0 t)));
  data_reads_back t : Z.testbit (A t IXGBE_I2CCTL) 3 = sda (lines (bus_run dev B0 t));
  short_stretch n : Z.of_nat (stretch B0 n) < IXGBE_I2C_CLOCK_STRETCHING_TIMEOUT
}.

(** *** The module by itself *)
Section Module_steps.
Context (dev : Z).
Lemma drive_same s d B : drive dev s d (drive dev s d B) = drive dev s d B.
Proof.
  assert (scl (drive dev s d B) = s /\ sda (drive dev s d B) = d) as [E1 E2] by done. destruct (drive dev s d B) as [s' d' m]. cbn in E1, E2. subst s' d'. unfold drive. cbn [scl sda sfp]. by destruct s, d, (released m).
Qed.
Lemma rise_released b m : released m = true -> released (module_step dev (Rise b) m) = true.
Proof. destruct m as [[] ? ?]; cbn; try done. by destruct b. Qed.
Definition same_memory (m m' : sfp_module) : Prop := contents m' = contents m /\ pointer m' = pointer m.
Lemma quiet_memory e m : e <> Fall -> same_memory m (module_step dev e m).
Proof. destruct m as [p ? ?], e as [| |b|]; try done; intros _; destruct p; try done. by destruct b. Qed.
(** A start condition, from any state of the lines. *)
Lemma drive_start s d m : released m = true ->
  drive dev false false (drive dev true false (drive dev true true (drive dev s true (Bus s d m)))) = Bus false false (set_phase (Receives EAddress []) m).
Proof.
  intros Hr. assert (exists m1, drive dev true true (drive dev s true (Bus s d m)) = Bus true true m1 /\ released m1 = true /\ same_memory m m1) as (m1 & -> & Hr1 & E1 & E2).
  { destruct s; [|unfold drive; cbn [scl sda sfp andb]; rewrite Hr; eexists; split; [done|]; split; [by apply rise_released|by apply quiet_memory]].
    rewrite drive_same. unfold drive. cbn [scl sda sfp]. rewrite Hr. destruct d; cbn [andb negb]; eexists; (split; [done|]); [done|]. split; [done|by apply quiet_memory]. }
  unfold drive. cbn [scl sda sfp]. rewrite Hr1. cbn. destruct m, m1. cbn in *. by subst.
Qed.
Lemma rise_receives k bits b m : phase m = Receives k bits -> module_step dev (Rise b) m = set_phase (Receives k (bits ++ [b])) m.
Proof. intros Hp. cbn. by rewrite Hp. Qed.
Lemma fall_partial k bits m : (length bits < 8)%nat -> module_step dev Fall (set_phase (Receives k bits) m) = set_phase (Receives k bits) m.
Proof. intros Hl. cbn. by rewrite (proj2 (Nat.eqb_neq _ _)) by lia. Qed.
End Module_steps.
Lemma set_phase_twice p q m : set_phase p (set_phase q m) = set_phase p m.
Proof. done. Qed.
Lemma shifted_bit v i : 0 <= i -> truthy (Z.land (Z.shiftr v i) 0x1) = Z.testbit v i.
Proof. intros Hi. change 0x1 with (Z.shiftl 1 0). rewrite truthy_land_bit, Z.shiftr_spec by lia. by rewrite Z.add_0_l. Qed.
Lemma value_bits v : 0 <= v < 2 ^ 8 -> value (bits_of v 8) = v.
Proof.
  intros Hv. assert (Forall (fun v => value (bits_of v 8) = v) (seqZ 0 256)) as H by (by apply (bool_decide_unpack _); vm_compute).
  rewrite Forall_forall in H. apply H, elem_of_seqZ. lia.
Qed.

(** ** Code that leaves the bus alone *)
Section Touches.
Context (P : access -> Prop).
Lemma touches_ret {A} (a : A) : touches P (mret a).
Proof. intros h. exists []. rewrite app_nil_r. by split_and!. Qed.
Lemma touches_read r : (forall v, P (Rd r v)) -> touches P (IXGBE_READ_REG r).
Proof. intros HP h. exists [Rd r (ans h (tr h) r)]. split_and!; [done|by repeat constructor|done]. Qed.
Lemma touches_write r v : P (Wr r v) -> touches P (IXGBE_WRITE_REG r v).
Proof. intros HP h. exists [Wr r v]. split_and!; [done|by repeat constructor|done]. Qed.
Lemma touches_bind {A B} (m : M A) (k : A -> M B) : touches P m -> (forall a, touches P (k a)) -> touches P (a ← m; k a).
Proof.
  intros Hm Hk h. destruct (Hm h) as (t1 & E1 & F1 & A1). mrun. destruct (m h) as [a h1]. cbn [fst snd] in *. destruct (Hk a h1) as (t2 & E2 & F2 & A2).
  exists (t1 ++ t2). rewrite E2, E1, A2, A1, app_assoc. split_and!; [done|by apply Forall_app|done].
Qed.
Lemma touches_if {A} (b : bool) (m1 m2 : M A) : touches P m1 -> touches P m2 -> touches P (if b then m1 else m2).
Proof. by destruct b. Qed.
Lemma touches_poll n r ok v : (forall v, P (Rd r v)) -> touches P (poll_last n r ok v).
Proof.
  intros HP. revert v. induction n as [|n IH]; intros v; cbn [poll_last]; [apply touches_ret|]. apply touches_bind; [by apply touches_read|]. intros w. apply touches_if; [apply touches_ret|apply IH].
Qed.
End Touches.
Ltac touches :=
  lazymatch goal with
  | |- touches _ (mret _) => apply touches_ret
  | |- touches _ (IXGBE_READ_REG _) => by apply touches_read
  | |- touches _ (IXGBE_WRITE_REG _ _) => by apply touches_write
  | |- touches _ IXGBE_WRITE_FLUSH => unfold IXGBE_WRITE_FLUSH; touches
  | |- touches _ (poll_last _ _ _ _) => by apply touches_poll
  | |- touches _ (mbind _ _) => apply touches_bind; [touches|intros; touches]
  | |- touches _ (if _ then _ else _) => apply touches_if; touches
  | |- touches _ (match ?x with _ => _ end) => destruct x; touches
  | |- _ => auto with touches
  end.
Create HintDb touches.
Lemma touches_release_semaphore : touches (no_write IXGBE_I2CCTL) ixgbe_release_eeprom_semaphore.
Proof. unfold ixgbe_release_eeprom_semaphore. touches. Qed.
#[export] Hint Resolve touches_release_semaphore : touches.
Lemma touches_get_semaphore : touches (no_write IXGBE_I2CCTL) ixgbe_get_eeprom_semaphore.
Proof. unfold ixgbe_get_eeprom_semaphore, poll_reg. generalize semaphore_timeout. intros n. touches. induction n as [|n IH]; cbn [get_swesmbi]; touches. Qed.
#[export] Hint Resolve touches_get_semaphore : touches.
Lemma touches_release_swfw mask : touches (no_write IXGBE_I2CCTL) (ixgbe_release_swfw_sync mask).
Proof. unfold ixgbe_release_swfw_sync. touches. Qed.
#[export] Hint Resolve touches_release_swfw : touches.
Lemma touches_acquire_swfw mask : touches (no_write IXGBE_I2CCTL) (ixgbe_acquire_swfw_sync mask).
Proof.
  unfold ixgbe_acquire_swfw_sync. generalize 200%nat (Z.lor (u32 (Z.shiftl mask 5)) mask) 0. intros n both gssr. touches.
  revert gssr. induction n as [|n IH]; intros gssr; cbn [swfw_loop]; touches.
Qed.
#[export] Hint Resolve touches_acquire_swfw : touches.

Section Driver.
Context (dev : Z) (B0 : wires) (A : list access -> Z -> Z) (HA : i2c_adapter dev B0 A).
Local Notation drive := (drive dev).
Local Notation step := (module_step dev).
(** The bus is [B], and the clock is as the driver wants it. *)
Definition settled_at (B : bus) (W : wires) : Prop := lines W = B /\ wanted W = scl B.
Definition at_bus (B : bus) (h : ixgbe_hw) : Prop := ans h = A /\ settled_at B (bus_run dev B0 (tr h)).
(** A value of the register with the lines [s] and [d]. *)
Definition carries (v : Z) (s d : bool) : Prop := Z.testbit v 1 = s /\ Z.testbit v 3 = d.
Lemma bus_run_app t w : bus_run dev B0 (t ++ w) = foldl (bus_step dev) (bus_run dev B0 t) w.
Proof. unfold bus_run. apply foldl_app. Qed.
Lemma stretch_kept t : stretch (bus_run dev B0 t) = stretch B0.
Proof.
  induction t as [|a t IH] using rev_ind; [done|]. rewrite bus_run_app. cbn [foldl]. rewrite <- IH. generalize (bus_run dev B0 t). intros W. unfold bus_step, release_clock, pull_clock, poll_clock.
  destruct a as [r v|r v]; repeat (case_match; try done).
Qed.
(** Polls do nothing to a bus that has settled. *)
Lemma poll_settled B W : settled_at B W -> poll_clock dev W = W.
Proof. intros [<- E]. unfold poll_clock. rewrite E. by destruct (scl (lines W)). Qed.
Lemma touches_at {R} (m : M R) B h : touches (no_write IXGBE_I2CCTL) m -> at_bus B h -> at_bus B (m h).2.
Proof.
  intros Hm [Ha Hb]. destruct (Hm h) as (t & Et & Ft & Ea). split; [by rewrite Ea|]. rewrite Et, bus_run_app. clear Et. revert Hb. generalize (bus_run dev B0 (tr h)). induction Ft as [|a t Hn _ IH]; intros W HW; [done|].
  cbn [foldl]. apply IH. destruct a as [r v|r v]; cbn [bus_step]; [|by rewrite (proj2 (Z.eqb_neq _ _) Hn)]. destruct (_ =? _); [|done]. by rewrite (poll_settled B).
Qed.
Lemma wlp_touches {R} (m : M R) B h (Q : R -> ixgbe_hw -> Prop) : touches (no_write IXGBE_I2CCTL) m -> at_bus B h -> (forall h', at_bus B h' -> Q (m h).1 h') -> wlp m h Q.
Proof. intros Hm Hh HQ. apply HQ. by apply touches_at. Qed.
(** A write that does not let a low clock go. *)
Lemma wlp_bus_write v s d B h (Q : () -> ixgbe_hw -> Prop) : at_bus B h -> carries v s d -> s = false \/ scl B = true -> (forall h', at_bus (drive s d B) h' -> Q () h') -> wlp (IXGBE_WRITE_REG IXGBE_I2CCTL v) h Q.
Proof.
  intros [Ha [Hb Hw]] [E1 E2] Hs HQ. apply wlp_write, HQ. split; [done|]. change (tr (emit _ h)) with (tr h ++ [Wr IXGBE_I2CCTL v]). rewrite bus_run_app. cbn [foldl bus_step]. rewrite Z.eqb_refl, E1, E2.
  destruct s; [|by subst B]. destruct Hs as [|Hs]; [done|]. unfold release_clock. rewrite Hb, Hs. by split.
Qed.
Lemma wlp_bus_flush B h (Q : () -> ixgbe_hw -> Prop) : at_bus B h -> (forall h', at_bus B h' -> Q () h') -> wlp IXGBE_WRITE_FLUSH h Q.
Proof. intros Hh HQ. eapply wlp_touches; [touches|done|done]. Qed.
Lemma wlp_bus_read B h (Q : Z -> ixgbe_hw -> Prop) : at_bus B h ->
  (forall v h', at_bus B h' -> carries v (scl B) (sda B) -> ixgbe_get_i2c_data v = sda B && released (sfp B) -> Q v h') -> wlp (IXGBE_READ_REG IXGBE_I2CCTL) h Q.
Proof using HA.
  intros [Ha [Hb Hw]] HQ. apply wlp_read, HQ; rewrite ?Ha.
  - split; [done|]. change (tr (emit ?w h)) with (tr h ++ w). rewrite bus_run_app. cbn [foldl bus_step]. rewrite Z.eqb_refl, (poll_settled B); by split.
  - split; [rewrite (clk_reads_back _ _ _ HA)|rewrite (data_reads_back _ _ _ HA)]; congruence.
  - unfold ixgbe_get_i2c_data. change IXGBE_I2C_DATA_IN with (Z.shiftl 1 2). rewrite truthy_land_bit, (data_line _ _ _ HA) by lia. by rewrite Hb.
Qed.
Lemma carries_set_clk v s d : carries v s d -> carries (Z.lor v IXGBE_I2C_CLK_OUT) true d.
Proof. intros [_ <-]. change IXGBE_I2C_CLK_OUT with (2 ^ 1). split; rewrite set_line by lia; cbn; [apply orb_true_r|apply orb_false_r]. Qed.
Lemma carries_clear_clk v s d : carries v s d -> carries (Z.ldiff v IXGBE_I2C_CLK_OUT) false d.
Proof. intros [_ <-]. change IXGBE_I2C_CLK_OUT with (2 ^ 1). split; rewrite clear_line by lia; cbn; [apply andb_false_r|apply andb_true_r]. Qed.
Lemma carries_data v s d (b : bool) : carries v s d -> carries (if b then Z.lor v IXGBE_I2C_DATA_OUT else Z.ldiff v IXGBE_I2C_DATA_OUT) s b.
Proof.
  intros [<- _]. change IXGBE_I2C_DATA_OUT with (2 ^ 3). destruct b; split; rewrite ?set_line, ?clear_line by lia; cbn; [apply orb_false_r|apply orb_true_r|apply andb_true_r|apply andb_false_r].
Qed.
(** The state of the bus while the module holds the clock for [n] more polls. *)
Definition held_at (B : bus) (n : nat) (h : ixgbe_hw) : Prop := ans h = A /\ let W := bus_run dev B0 (tr h) in lines W = B /\ wanted W = true /\ holding W = n.
Lemma drive_low d B : scl B = false -> drive false d B = Bus false d (sfp B).
Proof. intros E. unfold I2cSpec.drive. by rewrite E. Qed.
(** Letting the clock go. *)
Lemma wlp_release v d B h (Q : () -> ixgbe_hw -> Prop) : at_bus B h -> carries v true d ->
  (forall h', at_bus (drive true d B) h' \/ (scl B = false /\ exists n, (0 < n < 500)%nat /\ held_at (Bus false d (sfp B)) n h') -> Q () h') -> wlp (IXGBE_WRITE_REG IXGBE_I2CCTL v) h Q.
Proof using HA.
  intros [Ha [Hb Hw]] [E1 E2] HQ. apply wlp_write, HQ. change (tr (emit _ h)) with (tr h ++ [Wr IXGBE_I2CCTL v]). unfold at_bus, held_at. change (tr (emit _ h)) with (tr h ++ [Wr IXGBE_I2CCTL v]). rewrite bus_run_app. cbn [foldl bus_step].
  rewrite Z.eqb_refl, E1, E2. unfold release_clock. rewrite Hb. destruct (scl B) eqn:Es; [left; by split|]. rewrite Hw. destruct (stretch _ _) as [|n] eqn:Ek; [left; by split|]. right. split; [done|]. exists (S n).
  pose proof (short_stretch _ _ _ HA (pulses (bus_run dev B0 (tr h)))) as Hst. rewrite stretch_kept in Ek. rewrite Ek in Hst. unfold IXGBE_I2C_CLOCK_STRETCHING_TIMEOUT in Hst. split; [lia|]. by rewrite drive_low.
Qed.
(** The clock is polled until it is high. *)
Lemma wlp_clk_read B h (Q : Z -> ixgbe_hw -> Prop) : at_bus B h -> (forall v h', at_bus B h' -> truthy (Z.land v IXGBE_I2C_CLK_IN) = scl B -> Q v h') -> wlp (IXGBE_READ_REG IXGBE_I2CCTL) h Q.
Proof using HA.
  intros [Ha [Hb Hw]] HQ. apply wlp_read, HQ; rewrite ?Ha.
  - split; [done|]. change (tr (emit ?w h)) with (tr h ++ w). rewrite bus_run_app. cbn [foldl bus_step]. rewrite Z.eqb_refl, (poll_settled B); by split.
  - change IXGBE_I2C_CLK_IN with (Z.shiftl 1 0). rewrite truthy_land_bit, (clk_line _ _ _ HA) by lia. by rewrite Hb.
Qed.
Lemma wlp_held_write v d m n h (Q : () -> ixgbe_hw -> Prop) : held_at (Bus false d m) n h -> carries v true d -> (forall h', held_at (Bus false d m) n h' -> Q () h') -> wlp (IXGBE_WRITE_REG IXGBE_I2CCTL v) h Q.
Proof.
  intros (Ha & E1 & E2 & E3) [V1 V2] HQ. apply wlp_write, HQ. split; [done|]. change (tr (emit _ h)) with (tr h ++ [Wr IXGBE_I2CCTL v]). cbv zeta. rewrite bus_run_app. cbn [foldl bus_step]. rewrite Z.eqb_refl, V1, V2.
  unfold release_clock. rewrite E1. cbn [scl]. rewrite E2. by split_and!.
Qed.
Lemma wlp_held_flush B n h (Q : () -> ixgbe_hw -> Prop) : held_at B n h -> (forall h', held_at B n h' -> Q () h') -> wlp IXGBE_WRITE_FLUSH h Q.
Proof. intros (Ha & E) HQ. unfold IXGBE_WRITE_FLUSH. apply wlp_bind, wlp_read, wlp_ret, HQ. split; [done|]. change (tr (emit ?w h)) with (tr h ++ w). by rewrite bus_run_app. Qed.
Lemma wlp_held_read d m n h (Q : Z -> ixgbe_hw -> Prop) : held_at (Bus false d m) (S n) h ->
  (forall v h', truthy (Z.land v IXGBE_I2C_CLK_IN) = false -> (if n is O then at_bus (drive true d (Bus false d m)) h' else held_at (Bus false d m) n h') -> Q v h') -> wlp (IXGBE_READ_REG IXGBE_I2CCTL) h Q.
Proof using HA.
  intros (Ha & E1 & E2 & E3) HQ. apply wlp_read, HQ; rewrite ?Ha.
  - change IXGBE_I2C_CLK_IN with (Z.shiftl 1 0). rewrite truthy_land_bit, (clk_line _ _ _ HA), E1 by lia. done.
  - unfold at_bus, held_at. change (tr (emit ?w h)) with (tr h ++ w). rewrite bus_run_app. cbn [foldl bus_step]. rewrite Z.eqb_refl. unfold poll_clock. rewrite E1, E2, E3. cbn [negb andb scl sda]. destruct n; by split_and!.
Qed.
Lemma wlp_raise_high k v s d B h (Q : Z -> ixgbe_hw -> Prop) : at_bus B h -> scl B = true -> drive true d B = B -> carries v s d ->
  (forall v' h', at_bus B h' -> carries v' true d -> Q v' h') -> wlp (raise_loop (S k) v) h Q.
Proof using HA.
  intros Hh Es Ed Hv HQ. cbn [raise_loop]. apply wlp_bind. eapply wlp_bus_write; [exact Hh|by eapply carries_set_clk|by right|]. rewrite Ed. intros h4 H4. apply wlp_bind. eapply wlp_bus_flush; [exact H4|]. intros h5 H5.
  apply wlp_bind. eapply wlp_clk_read; [exact H5|]. intros w' h6 H6 E6. rewrite E6, Es. apply wlp_ret, HQ; [done|by eapply carries_set_clk].
Qed.
Lemma wlp_raise_held d m n : forall k v s h (Q : Z -> ixgbe_hw -> Prop), (0 < n <= k)%nat -> held_at (Bus false d m) n h -> carries v s d ->
  (forall v' h', at_bus (drive true d (Bus false d m)) h' -> carries v' true d -> Q v' h') -> wlp (raise_loop (S k) v) h Q.
Proof using HA.
  induction n as [|n IH]; intros k v s h Q Hk Hh Hv HQ; [lia|]. cbn [raise_loop]. assert (carries (Z.lor v IXGBE_I2C_CLK_OUT) true d) as Hv' by by eapply carries_set_clk.
  apply wlp_bind. eapply wlp_held_write; [exact Hh|done|]. intros h1 H1. apply wlp_bind. eapply wlp_held_flush; [exact H1|]. intros h2 H2. apply wlp_bind. eapply wlp_held_read; [exact H2|]. intros w h3 Ew H3. rewrite Ew.
  destruct k as [|k]; [lia|]. destruct n as [|n]; [|by eapply (IH k); [lia|..]].
  eapply wlp_raise_high; [exact H3|done|by rewrite drive_same|exact Hv'|exact HQ].
Qed.
Lemma wlp_raise v s d B h (Q : Z -> ixgbe_hw -> Prop) : at_bus B h -> carries v s d -> (forall v' h', at_bus (drive true d B) h' -> carries v' true d -> Q v' h') -> wlp (ixgbe_raise_i2c_clk v) h Q.
Proof using HA.
  intros Hh Hv HQ. unfold ixgbe_raise_i2c_clk. change (Z.to_nat _) with (S (S 498)). remember (S 498) as k eqn:Ek. cbn [raise_loop]. apply wlp_bind. assert (carries (Z.lor v IXGBE_I2C_CLK_OUT) true d) as Hv' by by eapply carries_set_clk.
  eapply wlp_release; [exact Hh|done|]. intros h1 [H1|(Es & n & Hn & H1)].
  - apply wlp_bind. eapply wlp_bus_flush; [exact H1|]. intros h2 H2. apply wlp_bind. eapply wlp_clk_read; [exact H2|]. intros w h3 H3 E3. rewrite E3. cbn [scl I2cSpec.drive]. apply wlp_ret. by apply HQ.
  - assert (drive true d (Bus false d (sfp B)) = drive true d B) as Ed by (unfold I2cSpec.drive; cbn [scl sda sfp]; by rewrite Es). apply wlp_bind. eapply wlp_held_flush; [exact H1|]. intros h2 H2.
    apply wlp_bind. destruct n as [|n]; [lia|]. eapply wlp_held_read; [exact H2|]. intros w h3 E3 H3. rewrite E3, Ek. destruct n as [|n].
    + rewrite Ed in H3. eapply (wlp_raise_high 498 _ true d (drive true d B)); [exact H3|done|by rewrite drive_same|exact Hv'|exact HQ].
    + eapply (wlp_raise_held d (sfp B) (S n) 498); [lia|exact H3|exact Hv'|]. rewrite Ed. exact HQ.
Qed.
Lemma wlp_lower v s d B h (Q : Z -> ixgbe_hw -> Prop) : at_bus B h -> carries v s d -> (forall v' h', at_bus (drive false d B) h' -> carries v' false d -> Q v' h') -> wlp (ixgbe_lower_i2c_clk v) h Q.
Proof.
  intros Hh Hv HQ. unfold ixgbe_lower_i2c_clk. apply wlp_bind. eapply wlp_bus_write; [done|by eapply carries_clear_clk|by left|]. intros h1 H1. apply wlp_bind. eapply wlp_bus_flush; [done|]. intros h2 H2. apply wlp_ret, HQ; [done|by eapply carries_clear_clk].
Qed.
Lemma wlp_set_data v s d b B h (Q : Z * Z -> ixgbe_hw -> Prop) : at_bus B h -> carries v s d -> s = scl B ->
  (forall v' h', at_bus (drive s b B) h' -> carries v' s b -> Q (if Bool.eqb b (b && released (sfp (drive s b B))) then 0 else IXGBE_ERR_I2C, v') h') -> wlp (ixgbe_set_i2c_data v b) h Q.
Proof using HA.
  intros Hh Hv Es HQ. unfold ixgbe_set_i2c_data. apply wlp_bind. eapply wlp_bus_write; [done|by eapply (carries_data v s d b)|destruct s; [by right|by left]|]. intros h1 H1. apply wlp_bind. eapply wlp_bus_flush; [done|]. intros h2 H2.
  apply wlp_bind. eapply wlp_bus_read; [done|]. intros w h3 H3 Hw Hd. apply wlp_ret. rewrite Hd. by apply HQ.
Qed.
(** *** Conditions, bits and bytes *)
Lemma wlp_start s d m h (Q : () -> ixgbe_hw -> Prop) : at_bus (Bus s d m) h -> released m = true -> (forall h', at_bus (Bus false false (set_phase (Receives EAddress []) m)) h' -> Q () h') -> wlp ixgbe_i2c_start h Q.
Proof using HA.
  intros Hh Hr HQ. unfold ixgbe_i2c_start. apply wlp_bind. eapply wlp_bus_read; [done|]. intros v h1 H1 Hv _. cbn [scl sda] in Hv. apply wlp_bind. eapply wlp_set_data; [done|done|done|]. intros v2 h2 H2 Hv2. cbn [snd].
  apply wlp_bind. eapply wlp_raise; [done|done|]. intros v3 h3 H3 Hv3. apply wlp_bind. eapply wlp_set_data; [done|done|done|]. intros v4 h4 H4 Hv4. cbn [snd]. apply wlp_bind. eapply wlp_lower; [done|done|]. intros v5 h5 H5 _.
  apply wlp_ret, HQ. by rewrite drive_start in H5.
Qed.
(** A stop, with the clock low. *)
Lemma wlp_stop d m h (Q : () -> ixgbe_hw -> Prop) : at_bus (Bus false d m) h -> phase m = Idle \/ (exists k, phase m = Receives k []) -> (forall h', at_bus (Bus true true (set_phase Idle m)) h' -> Q () h') -> wlp ixgbe_i2c_stop h Q.
Proof using HA.
  intros Hh Hp HQ. unfold ixgbe_i2c_stop. apply wlp_bind. eapply wlp_bus_read; [done|]. intros v h1 H1 Hv _. cbn [scl sda] in Hv. apply wlp_bind. eapply wlp_set_data; [done|done|done|]. intros v2 h2 H2 Hv2. cbn [snd].
  apply wlp_bind. eapply wlp_raise; [done|done|]. intros v3 h3 H3 Hv3. apply wlp_bind. eapply wlp_set_data; [done|done|done|]. intros v4 h4 H4 _. apply wlp_ret, HQ.
  replace (Bus true true (set_phase Idle m)) with (drive true true (drive true false (drive false false (Bus false d m)))); [done|]. unfold I2cSpec.drive. cbn [scl sda sfp andb]. destruct m as [p ? ?]. cbn in Hp. by destruct Hp as [->|[k ->]].
Qed.
Lemma wlp_bit_out b d m h (Q : Z -> ixgbe_hw -> Prop) : at_bus (Bus false d m) h -> released m = true -> (forall h', at_bus (Bus false b (step Fall (step (Rise b) m))) h' -> Q 0 h') -> wlp (ixgbe_clock_out_i2c_bit b) h Q.
Proof using HA.
  intros Hh Hr HQ. unfold ixgbe_clock_out_i2c_bit. apply wlp_bind. eapply wlp_bus_read; [done|]. intros v h1 H1 Hv _. cbn [scl sda] in Hv. apply wlp_bind. eapply wlp_set_data; [done|done|done|]. intros v2 h2 H2 Hv2. cbn [fst snd].
  change (sfp (drive false b (Bus false d m))) with m. rewrite Hr, andb_true_r, eqb_reflx. cbn [Z.eqb]. apply wlp_bind. eapply wlp_raise; [done|done|]. intros v3 h3 H3 Hv3. apply wlp_bind. eapply wlp_lower; [done|done|]. intros v4 h4 H4 _.
  apply wlp_ret, HQ. unfold I2cSpec.drive in H4. cbn [scl sda sfp] in H4. by rewrite Hr, andb_true_r in H4.
Qed.
Lemma wlp_bit_in m h (Q : bool -> ixgbe_hw -> Prop) : at_bus (Bus false true m) h -> (forall h', at_bus (Bus false true (step Fall (step (Rise (released m)) m))) h' -> Q (released (step (Rise (released m)) m)) h') -> wlp ixgbe_clock_in_i2c_bit h Q.
Proof using HA.
  intros Hh HQ. unfold ixgbe_clock_in_i2c_bit. apply wlp_bind. eapply wlp_bus_read; [done|]. intros v h1 H1 Hv _. cbn [scl sda] in Hv. apply wlp_bind. eapply wlp_raise; [done|done|]. intros v2 h2 H2 Hv2. apply wlp_bind. eapply wlp_bus_read; [done|].
  intros v3 h3 H3 Hv3 Hd. apply wlp_bind. eapply wlp_lower; [done|done|]. intros v4 h4 H4 _. apply wlp_ret. rewrite Hd. by apply HQ.
Qed.
(** The bits of a number for a module that expects [k]. *)
Lemma wlp_out_loop k n : forall d m bits v h (Q : Z -> ixgbe_hw -> Prop), at_bus (Bus false d m) h -> phase m = Receives k bits -> (length bits + S n = 8)%nat ->
  (forall d' h', at_bus (Bus false d' (step Fall (set_phase (Receives k (bits ++ bits_of v (S n))) m))) h' -> Q 0 h') -> wlp (clock_out_loop (S n) v) h Q.
Proof using HA.
  induction n as [|n IH]; intros d m bits v h Q Hh Hp Hl HQ; cbn [clock_out_loop]; apply wlp_bind; rewrite shifted_bit by lia.
  all: (eapply wlp_bit_out; [exact Hh|by unfold released; rewrite Hp|]); intros h1 H1; change (truthy 0) with false; cbv iota.
  all: rewrite (rise_receives dev k bits) in H1 by done.
  - apply wlp_ret. by apply (HQ (Z.testbit v (Z.of_nat 0))).
  - rewrite fall_partial in H1 by (rewrite length_app; cbn; lia).
    eapply (IH _ _ _ v); [exact H1|done|rewrite length_app; cbn; lia|]. intros d' h' H'. apply (HQ d'). rewrite set_phase_twice, <- app_assoc in H'. by rewrite (bits_of_S v (S n)).
Qed.
Lemma wlp_byte_out k d m v h (Q : Z -> ixgbe_hw -> Prop) : at_bus (Bus false d m) h -> phase m = Receives k [] -> 0 <= v < 2 ^ 8 ->
  (forall h', at_bus (Bus false true (take_byte dev k v m)) h' -> Q 0 h') -> wlp (ixgbe_clock_out_i2c_byte v) h Q.
Proof using HA.
  intros Hh Hp Hv HQ. unfold ixgbe_clock_out_i2c_byte. apply wlp_bind. eapply wlp_out_loop; [done|done|done|]. intros d' h1 H1.
  replace (step Fall _) with (take_byte dev k v m) in H1; [|cbn [module_step phase set_phase]; change (length _ =? 8)%nat with true; cbn [app]; rewrite value_bits by done; by destruct k].
  apply wlp_bind. eapply wlp_bus_read; [done|]. intros w h2 H2 Hw _. cbn [scl sda] in Hw. apply wlp_bind. eapply wlp_bus_write; [done|by apply (carries_data w false d' true)|by left|]. intros h3 H3. apply wlp_bind. eapply wlp_bus_flush; [done|]. intros h4 H4.
  by apply wlp_ret, HQ.
Qed.
Lemma wlp_ack m h (Q : Z -> ixgbe_hw -> Prop) : at_bus (Bus false true m) h -> released (step (Rise (released m)) m) = false -> (forall h', at_bus (Bus false true (step Fall (step (Rise (released m)) m))) h' -> Q 0 h') -> wlp ixgbe_get_i2c_ack h Q.
Proof using HA.
  intros Hh Hr HQ. unfold ixgbe_get_i2c_ack. apply wlp_bind. eapply wlp_bus_read; [done|]. intros v h1 H1 Hv _. cbn [scl sda] in Hv. apply wlp_bind. eapply wlp_raise; [done|done|]. intros v2 h2 H2 Hv2.
  apply wlp_bind. cbn [poll_last]. apply wlp_bind. eapply wlp_bus_read; [done|]. intros v3 h3 H3 Hv3 Hd. change (released (sfp (drive true true (Bus false true m)))) with (released (step (Rise (released m)) m)) in Hd. rewrite Hr in Hd. cbn in Hd. rewrite Hd. cbn [negb]. apply wlp_ret. cbn [fst snd].
  apply wlp_bind. eapply wlp_lower; [done|done|]. intros v4 h4 H4 _. by apply wlp_ret, HQ.
Qed.
(** Nobody answers. *)
Lemma wlp_nack m h (Q : Z -> ixgbe_hw -> Prop) : at_bus (Bus false true m) h -> phase m = Idle -> (forall h', at_bus (Bus false true m) h' -> Q IXGBE_ERR_I2C h') -> wlp ixgbe_get_i2c_ack h Q.
Proof using HA.
  intros Hh Hp HQ. unfold ixgbe_get_i2c_ack. apply wlp_bind. eapply wlp_bus_read; [done|]. intros v h1 H1 Hv _. cbn [scl sda] in Hv. apply wlp_bind. eapply wlp_raise; [done|done|]. intros v2 h2 H2 Hv2. apply wlp_bind.
  assert (drive true true (Bus false true m) = Bus true true m) as E by (unfold I2cSpec.drive; cbn; by rewrite Hp). rewrite E in H2.
  assert (forall n w h', at_bus (Bus true true m) h' -> carries w false true \/ carries w true true -> wlp (poll_last n IXGBE_I2CCTL (fun v => negb (ixgbe_get_i2c_data v)) w) h'
    (fun r h'' => r.2 = false /\ at_bus (Bus true true m) h'' /\ exists s, carries r.1 s true)) as Hpoll.
  { intros n. induction n as [|n IH]; intros w h' Hh' Hw; cbn [poll_last]; [apply wlp_ret; split_and!; [done|done|destruct Hw; by eexists]|]. apply wlp_bind. eapply wlp_bus_read; [done|]. intros w2 h3 H3 Hw2 Hd. cbn [sda sfp] in Hd.
    unfold released in Hd. rewrite Hp in Hd. cbn in Hd. rewrite Hd. cbn [negb]. apply IH; [done|by right]. }
  eapply wlp_mono; [apply Hpoll; [done|by left]|]. intros [w b] h3 (-> & H3 & s & Hw). cbn [fst snd] in *. apply wlp_bind. eapply wlp_lower; [done|done|]. intros v4 h4 H4 _. apply wlp_ret, HQ. unfold I2cSpec.drive in H4. cbn in H4. by rewrite Hp in H4.
Qed.
Lemma wlp_send_byte k d m v a next h (Q : Z -> ixgbe_hw -> Prop) : at_bus (Bus false d m) h -> phase m = Receives k [] -> 0 <= v < 2 ^ 8 -> phase (take_byte dev k v m) = Acks a ->
  (forall h', at_bus (Bus false true (step Fall (take_byte dev k v m))) h' -> wlp next h' Q) -> wlp (send_byte v next) h Q.
Proof using HA.
  intros Hh Hp Hv Ha HQ. unfold send_byte, or_fail. apply wlp_bind. eapply wlp_byte_out; [done|done|done|]. intros h1 H1. change (truthy 0) with false. cbv iota. apply wlp_bind.
  assert (step (Rise (released (take_byte dev k v m))) (take_byte dev k v m) = take_byte dev k v m) as E by (cbn [module_step]; by rewrite Ha).
  eapply wlp_ack; [done|rewrite E; unfold released; by rewrite Ha|]. rewrite E. intros h2 H2. change (truthy 0) with false. cbv iota. by apply HQ.
Qed.
Lemma low_bits b n : Z.lor (Z.shiftl (Z.b2z (Z.testbit b (Z.of_nat n))) (Z.of_nat n)) (Z.land b (Z.ones (Z.of_nat n))) = Z.land b (Z.ones (Z.of_nat (S n))).
Proof.
  apply Z.bits_inj'. intros i Hi. rewrite Z.lor_spec, !Z.land_spec, !Z.testbit_ones_nonneg, Z.shiftl_spec by lia. destruct (Z.lt_trichotomy i (Z.of_nat n)) as [H|[->|H]].
  - rewrite (Z.testbit_neg_r _ (i - _)), !(proj2 (Z.ltb_lt _ _)) by lia. done.
  - rewrite Z.sub_diag, Z.ltb_irrefl, (proj2 (Z.ltb_lt _ _)), andb_false_r, andb_true_r, orb_false_r by lia. by destruct (Z.testbit b _).
  - rewrite !(proj2 (Z.ltb_ge _ _)), !andb_false_r, orb_false_r by lia. destruct (Z.testbit b (Z.of_nat n)); [|by rewrite Z.testbit_0_l]. change (Z.b2z true) with (2 ^ 0). rewrite Z.pow2_bits_false by lia. done.
Qed.
Lemma wlp_in_loop b n : forall m data h (Q : Z -> ixgbe_hw -> Prop), at_bus (Bus false true m) h -> phase m = Sends b n ->
  (forall h', at_bus (Bus false true (set_phase AwaitsAck m)) h' -> Q (Z.lor data (Z.land b (Z.ones (Z.of_nat (S n))))) h') -> wlp (clock_in_loop (S n) data) h Q.
Proof using HA.
  induction n as [|n IH]; intros m data h Q Hh Hp HQ; cbn [clock_in_loop]; apply wlp_bind.
  all: assert (forall x, step (Rise x) m = m) as E by (intros x; cbn; by rewrite Hp).
  all: (eapply wlp_bit_in; [exact Hh|]); rewrite !E; intros h1 H1; unfold released; rewrite Hp.
  - apply wlp_ret. rewrite <- low_bits, Z.lor_assoc in HQ. change (Z.land b (Z.ones (Z.of_nat 0))) with (Z.land b 0) in HQ. rewrite Z.land_0_r, Z.lor_0_r in HQ. apply HQ. cbn [module_step] in H1. by rewrite Hp in H1.
  - cbn [module_step] in H1. rewrite Hp in H1. eapply (IH (set_phase (Sends b n) m)); [done|done|]. intros h2 H2. rewrite <- Z.lor_assoc, low_bits. by apply HQ.
Qed.

(** *** Transfers *)
Context (Hdev : 0 <= dev < 2 ^ 8) (Heven : Z.even dev = true).
Lemma read_address : Z.lor dev 0x1 = dev + 1.
Proof using Hdev Heven. apply Z.even_spec in Heven as [k Hk]. destruct k as [|p|p]; [by rewrite Hk|by rewrite Hk|lia]. Qed.
Lemma read_address_byte : 0 <= dev + 1 < 2 ^ 8.
Proof using Hdev Heven. apply Z.even_spec in Heven as [k Hk]. lia. Qed.
Lemma wlp_read_try off data s d m h (Q : Z * Z -> ixgbe_hw -> Prop) : at_bus (Bus s d m) h -> released m = true -> 0 <= off < 2 ^ 8 -> 0 <= contents m off < 2 ^ 8 ->
  (forall h', at_bus (Bus true true (Module_ Idle ((off + 1) mod 2 ^ 8) (contents m))) h' -> Q (0, Z.lor data (contents m off)) h') -> wlp (i2c_read_try off dev data) h Q.
Proof using HA Hdev Heven.
  intros Hh Hr Ho Hc HQ. unfold i2c_read_try. apply wlp_bind. eapply wlp_start; [done|done|]. intros h1 H1. apply wlp_bind. cbn [take_byte].
  eapply (wlp_send_byte EAddress); [exact H1|done|done|cbn; by rewrite Z.eqb_refl|]. intros h2 H2. cbn [take_byte] in H2. rewrite Z.eqb_refl in H2.
  eapply (wlp_send_byte EOffset); [exact H2|done|done|done|]. intros h3 H3. apply wlp_bind. eapply wlp_start; [exact H3|done|]. intros h4 H4. rewrite read_address.
  eapply (wlp_send_byte EAddress _ _ _ ARead); [exact H4|done|apply read_address_byte|cbn; rewrite (proj2 (Z.eqb_neq _ _)) by lia; by rewrite Z.eqb_refl|]. intros h5 H5. cbn [take_byte] in H5. rewrite (proj2 (Z.eqb_neq (dev + 1) dev)), Z.eqb_refl in H5 by lia.
  apply wlp_ret. change (truthy 0) with false. cbv iota. apply wlp_bind. unfold ixgbe_clock_in_i2c_byte. eapply (wlp_in_loop (contents m off) 7); [exact H5|done|]. intros h6 H6. apply wlp_bind. unfold or_fail. apply wlp_bind.
  eapply wlp_bit_out; [exact H6|done|]. intros h7 H7. change (truthy 0) with false. cbv iota. apply wlp_bind. eapply wlp_stop; [exact H7|by left|]. intros h8 H8. apply wlp_ret, wlp_ret. rewrite Z.land_ones, Z.mod_small by lia. by apply HQ.
Qed.
Lemma wlp_write_try off data m h (Q : Z -> ixgbe_hw -> Prop) : at_bus (Bus false false (set_phase (Receives EAddress []) m)) h -> 0 <= off < 2 ^ 8 -> 0 <= data < 2 ^ 8 ->
  (forall h', at_bus (Bus true true (Module_ Idle ((off + 1) mod 2 ^ 8) (<[off := data]> (contents m)))) h' -> Q 0 h') ->
  wlp (send_byte dev (send_byte off (send_byte data (_ ← ixgbe_i2c_stop; mret 0)))) h Q.
Proof using HA Hdev.
  intros H1 Ho Hc HQ. eapply (wlp_send_byte EAddress); [exact H1|done|done|cbn; by rewrite Z.eqb_refl|]. intros h2 H2. cbn [take_byte] in H2. rewrite Z.eqb_refl in H2.
  eapply (wlp_send_byte EOffset); [exact H2|done|done|done|]. intros h3 H3. eapply (wlp_send_byte EData); [exact H3|done|done|done|]. intros h4 H4. apply wlp_bind. eapply wlp_stop; [exact H4|right; by exists EData|]. intros h5 H5. apply wlp_ret. by apply HQ.
Qed.

(** *** A module that does not answer *)
Lemma wlp_clear_loop n : forall v s m h (Q : Z -> ixgbe_hw -> Prop), at_bus (Bus false true m) h -> carries v s true ->
  (forall v' s' h', at_bus (Bus false true (Nat.iter n (fun m => step Fall (step (Rise (released m)) m)) m)) h' -> carries v' s' true -> Q v' h') -> wlp (clear_loop n v) h Q.
Proof using HA.
  induction n as [|n IH]; intros v s m h Q Hh Hv HQ; cbn [clear_loop]; [by eapply wlp_ret, HQ|]. apply wlp_bind. eapply wlp_raise; [done|done|]. intros v1 h1 H1 Hv1. apply wlp_bind. eapply wlp_lower; [done|done|]. intros v2 h2 H2 Hv2.
  eapply (IH v2 false (step Fall (step (Rise (released m)) m))); [exact H2|done|]. intros v' s' h' H' Hv'. apply (HQ v' s'); [|done]. by rewrite Nat.iter_succ_r.
Qed.
Lemma wlp_bus_clear m h (Q : () -> ixgbe_hw -> Prop) : dev < 254 -> at_bus (Bus false true m) h -> released m = true -> (forall h', at_bus (Bus true true (set_phase Idle m)) h' -> Q () h') -> wlp ixgbe_i2c_bus_clear h Q.
Proof using HA.
  intros Hd Hh Hr HQ. unfold ixgbe_i2c_bus_clear. apply wlp_bind. eapply wlp_bus_read; [done|]. intros v h1 H1 Hv _. cbn [scl sda] in Hv. apply wlp_bind. eapply wlp_start; [done|done|]. intros h2 H2. apply wlp_bind. eapply wlp_set_data; [exact H2|exact Hv|done|]. intros v3 h3 H3 Hv3. cbn [snd].
  apply wlp_bind. eapply wlp_clear_loop; [exact H3|done|]. intros v4 s4 h4 H4 _. replace (Nat.iter _ _ _) with (set_phase Idle m) in H4.
  2:{ assert ((255 =? dev) = false /\ (255 =? dev + 1) = false) as [E1 E2] by lia. cbn -[take_byte]. match goal with |- context [take_byte dev EAddress ?x] => change x with 255 end.
    unfold take_byte. rewrite E1, E2. done. }
  apply wlp_bind. eapply wlp_start; [exact H4|done|]. intros h5 H5. eapply wlp_stop; [exact H5|right; by exists EAddress|]. exact HQ.
Qed.
Lemma wlp_read_absent addr off data s d m h (Q : Z * Z -> ixgbe_hw -> Prop) : 0 <= addr < 2 ^ 8 -> addr <> dev -> addr <> dev + 1 -> at_bus (Bus s d m) h -> released m = true ->
  (forall h', at_bus (Bus false true (set_phase Idle m)) h' -> Q (IXGBE_ERR_I2C, data) h') -> wlp (i2c_read_try off addr data) h Q.
Proof using HA.
  intros Ha Hne Hne' Hh Hr HQ. unfold i2c_read_try. apply wlp_bind. eapply wlp_start; [done|done|]. intros h1 H1. apply wlp_bind. unfold send_byte at 1, or_fail at 1. apply wlp_bind. eapply (wlp_byte_out EAddress); [exact H1|done|done|].
  intros h2 H2. cbn [take_byte] in H2. rewrite !(proj2 (Z.eqb_neq addr _)) in H2 by done. change (truthy 0) with false. cbv iota. unfold or_fail at 1. apply wlp_bind. eapply wlp_nack; [exact H2|done|]. intros h3 H3. change (truthy IXGBE_ERR_I2C) with true. cbv iota. apply wlp_ret, wlp_ret, HQ. exact H3.
Qed.
Lemma wlp_absent_loop addr off mask n : 0 <= addr < 2 ^ 8 -> addr <> dev -> addr <> dev + 1 -> dev < 254 -> forall s d m status data h (Q : Z * Z -> ixgbe_hw -> Prop), at_bus (Bus s d m) h -> released m = true ->
  n <> O \/ status = IXGBE_ERR_I2C -> (forall status' B h', at_bus B h' -> contents (sfp B) = contents m -> status' = IXGBE_ERR_I2C \/ status' = IXGBE_ERR_SWFW_SYNC -> Q (status', data) h') -> wlp (i2c_read_loop n mask off addr status data) h Q.
Proof using HA.
  intros Ha Hne Hne' Hd. induction n as [|n IH]; intros s d m status data h Q Hh Hr Hn HQ; cbn [i2c_read_loop]; apply wlp_bind.
  - eapply wlp_touches; [touches|exact Hh|]. intros h1 H1. apply wlp_ret. destruct Hn as [Hn| ->]; [done|]. by apply (HQ _ _ _ H1); [|left].
  - eapply wlp_touches; [touches|exact Hh|]. intros h1 H1. destruct (truthy _); [apply wlp_ret; by apply (HQ _ _ _ H1); [|right]|]. apply wlp_bind. eapply wlp_read_absent; [done|done|done|exact H1|done|]. intros h2 H2. cbn [fst snd].
    change (truthy IXGBE_ERR_I2C) with true. cbv iota. apply wlp_bind. eapply wlp_bus_clear; [done|exact H2|done|]. intros h3 H3. apply wlp_bind. eapply wlp_touches; [touches|exact H3|]. intros h4 H4.
    eapply IH; [exact H4|done|by right|]. intros status' B h' HB Hc Hs. by apply (HQ _ B).
Qed.
End Driver.

(** ** The theorems *)

(** The state after the choice of the semaphore, and whether the semaphore is then granted. *)
Definition granted (h : ixgbe_hw) : bool := negb (truthy (ixgbe_acquire_swfw_sync (phy_gssr h).1 (phy_gssr h).2).1).
Section Transfers.
Context (dev : Z) (B0 : wires) (A : list access -> Z -> Z) (HA : i2c_adapter dev B0 A) (Hdev : 0 <= dev < 2 ^ 8) (Heven : Z.even dev = true).
Definition module_of (h : ixgbe_hw) : sfp_module := sfp (lines (bus_run dev B0 (tr h))).
(** The module is there and holds neither line down. *)
Definition ready (h : ixgbe_hw) : Prop := ans h = A /\ wanted (bus_run dev B0 (tr h)) = scl (lines (bus_run dev B0 (tr h))) /\ released (module_of h) = true.
Lemma at_ready B h : at_bus dev B0 A B h -> released (sfp B) = true -> ready h /\ module_of h = sfp B.
Proof. intros [Ha [E W]] Hr. unfold ready, module_of. rewrite E. by split_and!. Qed.
Lemma ready_at h : ready h -> at_bus dev B0 A (lines (bus_run dev B0 (tr h))) h.
Proof. by intros (Ha & W & _). Qed.
Lemma phy_gssr_at B h : at_bus dev B0 A B h -> at_bus dev B0 A B (phy_gssr h).2.
Proof. apply touches_at. unfold phy_gssr. touches. Qed.
Lemma acquire_at B h mask : at_bus dev B0 A B h -> at_bus dev B0 A B (ixgbe_acquire_swfw_sync mask h).2.
Proof. apply touches_at. touches. Qed.
Lemma wlp_read_byte off h (Q : Z * Z -> ixgbe_hw -> Prop) : ready h -> 0 <= off < 2 ^ 8 -> 0 <= contents (module_of h) off < 2 ^ 8 ->
  (forall h', ready h' -> contents (module_of h') = contents (module_of h) -> Q (if granted h then (0, contents (module_of h) off) else (IXGBE_ERR_SWFW_SYNC, 0)) h') -> wlp (ixgbe_read_i2c_byte_generic off dev) h Q.
Proof using HA Hdev Heven.
  intros HR Ho Hc HQ. pose proof (ready_at h HR) as Hh. destruct HR as (Ha & _ & Hr). unfold ixgbe_read_i2c_byte_generic. apply wlp_bind. unfold wlp at 1. apply phy_gssr_at in Hh. cbn [i2c_read_loop]. apply wlp_bind. unfold wlp at 1.
  apply (acquire_at _ _ (phy_gssr h).1) in Hh. unfold granted in HQ. unfold module_of in *. destruct (lines (bus_run dev B0 (tr h))) as [s d m]. cbn [sfp] in *. set (e := (ixgbe_acquire_swfw_sync _ _).1) in *. destruct (truthy e); cbn [negb] in HQ.
  - destruct (at_ready _ _ Hh) as [G1 G2]; [done|]. apply wlp_ret, HQ; [done|]. unfold module_of in G2. by rewrite G2.
  - apply wlp_bind. eapply wlp_read_try; [done|done|done|exact Hh|done|done|done|]. intros h1 H1. rewrite Z.lor_0_l. change (truthy (0, contents m off).1) with false. cbv iota. apply wlp_bind. eapply wlp_touches; [touches|exact H1|]. intros h2 H2.
    destruct (at_ready _ _ H2) as [G1 G2]; [done|]. apply wlp_ret, HQ; [done|]. unfold module_of in G2. by rewrite G2.
Qed.
Lemma wlp_write_byte off data h (Q : Z -> ixgbe_hw -> Prop) : ready h -> 0 <= off < 2 ^ 8 -> 0 <= data < 2 ^ 8 ->
  (forall h', ready h' -> contents (module_of h') = (if granted h then <[off := data]> (contents (module_of h)) else contents (module_of h)) -> Q (if granted h then 0 else IXGBE_ERR_SWFW_SYNC) h') ->
  wlp (ixgbe_write_i2c_byte_generic off dev data) h Q.
Proof using HA Hdev.
  intros HR Ho Hc HQ. pose proof (ready_at h HR) as Hh. destruct HR as (Ha & _ & Hr). unfold ixgbe_write_i2c_byte_generic. apply wlp_bind. unfold wlp at 1. apply phy_gssr_at in Hh. apply wlp_bind. unfold wlp at 1.
  apply (acquire_at _ _ (phy_gssr h).1) in Hh. unfold granted in HQ. unfold module_of in *. destruct (lines (bus_run dev B0 (tr h))) as [s d m]. cbn [sfp] in *. set (e := (ixgbe_acquire_swfw_sync _ _).1) in *. destruct (truthy e); cbn [negb] in HQ.
  - destruct (at_ready _ _ Hh) as [G1 G2]; [done|]. apply wlp_ret, HQ; [done|]. unfold module_of in G2. by rewrite G2.
  - apply wlp_bind. eapply wlp_start; [done|exact Hh|done|]. intros h2 H2. apply wlp_bind. eapply wlp_write_try; [done|done|exact H2|done|done|]. intros h3 H3. change (truthy 0) with false. cbv iota.
    apply wlp_bind, wlp_ret, wlp_bind. eapply wlp_touches; [touches|exact H3|]. intros h4 H4. destruct (at_ready _ _ H4) as [G1 G2]; [done|]. apply wlp_ret, HQ; [done|]. unfold module_of in G2. by rewrite G2.
Qed.
End Transfers.

(** C31. A byte that is written to the module is read back. With a module of 256 bytes at the address [dev] that holds neither line down at the start and that
    may stretch any pulse of the clock, each for fewer than the 500 polls that the driver waits for: [ixgbe_write_i2c_byte_generic] changes exactly the byte at
    [off] and reports success if the semaphore is granted, and changes nothing and reports the semaphore otherwise; the next [ixgbe_read_i2c_byte_generic]
    leaves the contents as they are, and it returns the byte at its offset in the first attempt if the semaphore is granted. *)
Theorem i2c_roundtrip dev B0 A off data off' h : i2c_adapter dev B0 A -> 0 <= dev < 2 ^ 8 -> Z.even dev = true -> ready dev B0 A h -> 0 <= off < 2 ^ 8 -> 0 <= data < 2 ^ 8 ->
  0 <= off' < 2 ^ 8 -> (forall i, 0 <= contents (module_of dev B0 h) i < 2 ^ 8) ->
  let before := contents (module_of dev B0 h) in
  let '(w, h1) := ixgbe_write_i2c_byte_generic off dev data h in
  let '(r, h2) := ixgbe_read_i2c_byte_generic off' dev h1 in
  let after := if granted h then <[off := data]> before else before in
  w = (if granted h then 0 else IXGBE_ERR_SWFW_SYNC) /\ contents (module_of dev B0 h2) = after /\ ready dev B0 A h2 /\
  r = (if granted h1 then (0, after off') else (IXGBE_ERR_SWFW_SYNC, 0)).
Proof.
  intros HA Hdev Heven Hh Ho Hd Ho' Hc. cbv zeta. apply wlp_run. eapply wlp_write_byte; [done|done|done|done|done|]. intros h1 H1 E1. apply wlp_run. eapply wlp_read_byte; [done|done|done|done|done| |].
  - rewrite E1. destruct (granted h); [|done]. rewrite fn_insert_dec. by case_decide.
  - intros h2 H2 E2. rewrite E2, E1. by split_and!.
Qed.
(** A module that is not there: when no module has the address [addr], reading ends after ten attempts at the latest with an error, and the module that is there is
    unchanged and ready. *)
Theorem i2c_absent dev B0 A addr off h : i2c_adapter dev B0 A -> 0 <= dev < 254 -> 0 <= addr < 2 ^ 8 -> addr <> dev -> addr <> dev + 1 -> ready dev B0 A h ->
  let '((status, data), h') := ixgbe_read_i2c_byte_generic off addr h in
  (status = IXGBE_ERR_I2C \/ status = IXGBE_ERR_SWFW_SYNC) /\ data = 0 /\ contents (module_of dev B0 h') = contents (module_of dev B0 h).
Proof.
  intros HA Hdev Ha Hne Hne' HR. pose proof (ready_at _ _ _ h HR) as Hh. destruct HR as (Hans & _ & Hr). unfold module_of in *.
  cut (wlp (ixgbe_read_i2c_byte_generic off addr) h (fun r h' => (r.1 = IXGBE_ERR_I2C \/ r.1 = IXGBE_ERR_SWFW_SYNC) /\ r.2 = 0 /\ contents (sfp (lines (bus_run dev B0 (tr h')))) = contents (sfp (lines (bus_run dev B0 (tr h)))))).
  { unfold wlp. by destruct (ixgbe_read_i2c_byte_generic off addr h) as [[status data] h']. }
  unfold ixgbe_read_i2c_byte_generic. apply wlp_bind. eapply wlp_touches; [unfold phy_gssr; touches|exact Hh|]. intros h1 H1.
  destruct (lines (bus_run dev B0 (tr h))) as [s d m]. eapply wlp_absent_loop; [done|done|done|done|lia|exact H1|done|by left|]. intros status' B h2 [_ [H2 _]] Hc Hs. rewrite H2. by split_and!.
Qed.

(** *** A concrete module *)
Definition sfp_adapter (dev : Z) (B0 : wires) (t : list access) (r : Z) : Z :=
  let bit n (b : bool) := if b then 2 ^ n else 0 in
  if r =? IXGBE_I2CCTL then
    let W := bus_run dev B0 t in let B := lines W in
    Z.lor (Z.lor (bit 0 (scl B)) (bit 1 (wanted W))) (Z.lor (bit 2 (sda B && released (sfp B))) (bit 3 (sda B)))
  else Spi.adapter (fun _ => false) t r.
Lemma sfp_adapter_ok dev B0 : (forall n, Z.of_nat (stretch B0 n) < IXGBE_I2C_CLOCK_STRETCHING_TIMEOUT) -> i2c_adapter dev B0 (sfp_adapter dev B0).
Proof. intros Hs. split; [intros t; unfold sfp_adapter; rewrite Z.eqb_refl; cbv zeta; rewrite !Z.lor_spec; by destruct (scl _), (sda _), (released _), (wanted _)..|done]. Qed.
(** A bus at rest; every third pulse is stretched for two polls. *)
Definition bus_at_rest (bytes : Z -> Z) : wires := Wires (Bus true true (Module_ Idle 0 bytes)) true 0 0 (fun n => if (n mod 3 =? 0)%nat then 2%nat else 0%nat).
Lemma rest_stretch bytes n : Z.of_nat (stretch (bus_at_rest bytes) n) < IXGBE_I2C_CLOCK_STRETCHING_TIMEOUT.
Proof. cbn [stretch bus_at_rest]. by destruct (_ =? _)%nat. Qed.
Definition ex_bus : wires := bus_at_rest (fun i => (i * 3) mod 256).
Definition ex_hw : ixgbe_hw := hw_init ixgbe_mac_82599EB (sfp_adapter IXGBE_I2C_EEPROM_DEV_ADDR ex_bus).
Lemma i2c_roundtrip_witness : granted ex_hw = true /\ granted (ixgbe_write_i2c_byte_generic 92 0xA0 0x5A ex_hw).2 = true /\
  let '(w, h1) := ixgbe_write_i2c_byte_generic 92 0xA0 0x5A ex_hw in
  let '(r, h2) := ixgbe_read_i2c_byte_generic 92 0xA0 h1 in
  let after := if granted ex_hw then <[92 := 0x5A]> (fun i => (i * 3) mod 256) else (fun i => (i * 3) mod 256) in
  w = (if granted ex_hw then 0 else IXGBE_ERR_SWFW_SYNC) /\ contents (module_of 0xA0 ex_bus h2) = after /\ ready 0xA0 ex_bus (sfp_adapter 0xA0 ex_bus) h2 /\
  r = (if granted h1 then (0, after 92) else (IXGBE_ERR_SWFW_SYNC, 0)).
Proof.
  split; [vm_compute; reflexivity|]. split; [vm_compute; reflexivity|].
  apply (i2c_roundtrip 0xA0 ex_bus (sfp_adapter 0xA0 ex_bus) 92 0x5A 92 ex_hw (sfp_adapter_ok 0xA0 ex_bus (rest_stretch _))); try done.
  intros i. change (0 <= (i * 3) mod 2 ^ 8 < 2 ^ 8). apply Z.mod_pos_bound. lia.
Defined.
