(* ===== verification/Sfp.v ===== *)
(** * SFP and QSFP modules ([ixgbe_phy.c])

    The identification of the module in the cage, from the bytes of its EEPROM, and the initialisation sequence for it in the adapter's EEPROM. The part of
    [struct ixgbe_phy_info] that is used is passed from call to call. [phy.ops.read_i2c_eeprom] is the interface [SfpBus], [eeprom.ops] is [EepromOps] of
    [Eeprom]; [mac.ops.get_media_type] is the field of [Hw]. *)
From S2P Require Import Prelude Bits Hw Eeprom FlowControl.

Definition IXGBE_SFF_IDENTIFIER : Z := 0x0.
Definition IXGBE_SFF_IDENTIFIER_SFP : Z := 0x3.
Definition IXGBE_SFF_VENDOR_OUI_BYTE0 : Z := 0x25.
Definition IXGBE_SFF_VENDOR_OUI_BYTE1 : Z := 0x26.
Definition IXGBE_SFF_VENDOR_OUI_BYTE2 : Z := 0x27.
Definition IXGBE_SFF_1GBE_COMP_CODES : Z := 0x6.
Definition IXGBE_SFF_10GBE_COMP_CODES : Z := 0x3.
Definition IXGBE_SFF_CABLE_TECHNOLOGY : Z := 0x8.
Definition IXGBE_SFF_CABLE_SPEC_COMP : Z := 0x3C.
Definition IXGBE_SFF_IDENTIFIER_QSFP_PLUS : Z := 0xD.
Definition IXGBE_SFF_QSFP_VENDOR_OUI_BYTE0 : Z := 0xA5.
Definition IXGBE_SFF_QSFP_VENDOR_OUI_BYTE1 : Z := 0xA6.
Definition IXGBE_SFF_QSFP_VENDOR_OUI_BYTE2 : Z := 0xA7.
Definition IXGBE_SFF_QSFP_CONNECTOR : Z := 0x82.
Definition IXGBE_SFF_QSFP_10GBE_COMP : Z := 0x83.
Definition IXGBE_SFF_QSFP_1GBE_COMP : Z := 0x86.
Definition IXGBE_SFF_QSFP_CABLE_LENGTH : Z := 0x92.
Definition IXGBE_SFF_QSFP_DEVICE_TECH : Z := 0x93.
Definition IXGBE_SFF_DA_PASSIVE_CABLE : Z := 0x4.
Definition IXGBE_SFF_DA_ACTIVE_CABLE : Z := 0x8.
Definition IXGBE_SFF_DA_SPEC_ACTIVE_LIMITING : Z := 0x4.
Definition IXGBE_SFF_1GBASESX_CAPABLE : Z := 0x1.
Definition IXGBE_SFF_1GBASELX_CAPABLE : Z := 0x2.
Definition IXGBE_SFF_1GBASET_CAPABLE : Z := 0x8.
Definition IXGBE_SFF_10GBASESR_CAPABLE : Z := 0x10.
Definition IXGBE_SFF_10GBASELR_CAPABLE : Z := 0x20.
Definition IXGBE_SFF_QSFP_DA_ACTIVE_CABLE : Z := 0x1.
Definition IXGBE_SFF_QSFP_DA_PASSIVE_CABLE : Z := 0x8.
Definition IXGBE_SFF_QSFP_CONNECTOR_NOT_SEPARABLE : Z := 0x23.
Definition IXGBE_SFF_QSFP_TRANSMITER_850NM_VCSEL : Z := 0x0.
Definition IXGBE_SFF_VENDOR_OUI_BYTE0_SHIFT : Z := 24.
Definition IXGBE_SFF_VENDOR_OUI_BYTE1_SHIFT : Z := 16.
Definition IXGBE_SFF_VENDOR_OUI_BYTE2_SHIFT : Z := 8.
Definition IXGBE_SFF_VENDOR_OUI_TYCO : Z := 0x00407600.
Definition IXGBE_SFF_VENDOR_OUI_FTL : Z := 0x00906500.
Definition IXGBE_SFF_VENDOR_OUI_AVAGO : Z := 0x00176A00.
Definition IXGBE_SFF_VENDOR_OUI_INTEL : Z := 0x001B2100.
Definition IXGBE_FACTPS : Z := 0x10150.
Definition IXGBE_FACTPS_LFS : Z := 0x40000000.
Definition IXGBE_STATUS_LAN_ID : Z := 0x0000000C.
Definition IXGBE_STATUS_LAN_ID_SHIFT : Z := 2.
Definition IXGBE_DEVICE_CAPS : Z := 0x2C.
Definition IXGBE_DEVICE_CAPS_ALLOW_ANY_SFP : Z := 0x1.
Definition IXGBE_PHY_INIT_OFFSET_NL : Z := 0x002B.
Definition IXGBE_PHY_INIT_END_NL : Z := 0xFFFF.
Definition IXGBE_ERR_SFP_NOT_SUPPORTED : Z := -19.
Definition IXGBE_ERR_SFP_NOT_PRESENT : Z := -20.
Definition IXGBE_ERR_SFP_NO_INIT_SEQ_PRESENT : Z := -21.
Definition IXGBE_DEV_ID_82598_SR_DUAL_PORT_EM : Z := 0x10E1.

(** [enum ixgbe_sfp_type]: the numbers are also those of the EEPROM's list. *)
Definition ixgbe_sfp_type_da_cu : Z := 0.
Definition ixgbe_sfp_type_sr : Z := 1.
Definition ixgbe_sfp_type_lr : Z := 2.
Definition ixgbe_sfp_type_da_cu_core0 : Z := 3.
Definition ixgbe_sfp_type_da_cu_core1 : Z := 4.
Definition ixgbe_sfp_type_srlr_core0 : Z := 5.
Definition ixgbe_sfp_type_srlr_core1 : Z := 6.
Definition ixgbe_sfp_type_da_act_lmt_core0 : Z := 7.
Definition ixgbe_sfp_type_da_act_lmt_core1 : Z := 8.
Definition ixgbe_sfp_type_1g_cu_core0 : Z := 9.
Definition ixgbe_sfp_type_1g_cu_core1 : Z := 10.
Definition ixgbe_sfp_type_1g_sx_core0 : Z := 11.
Definition ixgbe_sfp_type_1g_sx_core1 : Z := 12.
Definition ixgbe_sfp_type_1g_lx_core0 : Z := 13.
Definition ixgbe_sfp_type_1g_lx_core1 : Z := 14.
Definition ixgbe_sfp_type_not_present : Z := 0xFFFE.
Definition ixgbe_sfp_type_unknown : Z := 0xFFFF.
Inductive ixgbe_phy_type :=
| ixgbe_phy_unknown | ixgbe_phy_none | ixgbe_phy_tn | ixgbe_phy_aq | ixgbe_phy_cu_unknown | ixgbe_phy_qt | ixgbe_phy_xaui | ixgbe_phy_nl
| ixgbe_phy_sfp_passive_tyco | ixgbe_phy_sfp_passive_unknown | ixgbe_phy_sfp_active_unknown | ixgbe_phy_sfp_avago | ixgbe_phy_sfp_ftl | ixgbe_phy_sfp_ftl_active
| ixgbe_phy_sfp_unknown | ixgbe_phy_sfp_intel | ixgbe_phy_qsfp_passive_unknown | ixgbe_phy_qsfp_active_unknown | ixgbe_phy_qsfp_intel | ixgbe_phy_qsfp_unknown
| ixgbe_phy_sfp_unsupported | ixgbe_phy_generic.
#[export] Instance phy_type_eq_dec : EqDecision ixgbe_phy_type.
Proof. solve_decision. Defined.
Record ixgbe_phy_info := Phy { phy_type : ixgbe_phy_type; phy_id : Z; sfp_type : Z; sfp_setup_needed : bool; multispeed_fiber : bool }.
Definition set_phy_type v p := Phy v (phy_id p) (sfp_type p) (sfp_setup_needed p) (multispeed_fiber p).
Definition set_phy_id v p := Phy (phy_type p) v (sfp_type p) (sfp_setup_needed p) (multispeed_fiber p).
Definition set_sfp_type v p := Phy (phy_type p) (phy_id p) v (sfp_setup_needed p) (multispeed_fiber p).
Definition set_setup_needed v p := Phy (phy_type p) (phy_id p) (sfp_type p) v (multispeed_fiber p).
Definition set_multispeed v p := Phy (phy_type p) (phy_id p) (sfp_type p) (sfp_setup_needed p) v.

(** ** Interfaces *)

(** [phy.ops.read_i2c_eeprom]: the status and the byte. *)
Class SfpBus := { read_i2c_eeprom : Z -> M (Z * Z) }.
Section Sfp.
Context `{EepromOps, SfpBus}.

(** [bus->func] and [bus->lan_id]. *)
Definition ixgbe_set_lan_id_multi_port_pcie : M (Z * Z) :=
  reg ← IXGBE_READ_REG IXGBE_STATUS;
  let lan_id := u16 (Z.shiftr (Z.land reg IXGBE_STATUS_LAN_ID) IXGBE_STATUS_LAN_ID_SHIFT) in
  reg ← IXGBE_READ_REG IXGBE_FACTPS;
  mret (if truthy (Z.land reg IXGBE_FACTPS_LFS) then Z.lxor lan_id 0x1 else lan_id, lan_id).
(** The word, 0 if it cannot be read; the status is always 0. *)
Definition ixgbe_get_device_caps_generic : M Z := r ← read_into IXGBE_DEVICE_CAPS 0; mret r.2.

(** A read that leads to [err_read_i2c_eeprom] if it fails. *)
Definition read_or {R} (off : Z) (fail : R) (k : Z -> M R) : M R := r ← read_i2c_eeprom off; if truthy r.1 then mret fail else k r.2.
Definition has (v mask : Z) : bool := truthy (Z.land v mask).
Definition core {A} (lan_id : Z) (core0 core1 : A) : A := if lan_id =? 0 then core0 else core1.
Definition is_1g (t : Z) : bool :=
  (t =? ixgbe_sfp_type_1g_cu_core1) || (t =? ixgbe_sfp_type_1g_cu_core0) || (t =? ixgbe_sfp_type_1g_lx_core0) || (t =? ixgbe_sfp_type_1g_lx_core1) ||
  (t =? ixgbe_sfp_type_1g_sx_core0) || (t =? ixgbe_sfp_type_1g_sx_core1).
Definition dual_speed (comp_codes_1g comp_codes_10g : Z) : bool :=
  (has comp_codes_1g IXGBE_SFF_1GBASESX_CAPABLE && has comp_codes_10g IXGBE_SFF_10GBASESR_CAPABLE) ||
  (has comp_codes_1g IXGBE_SFF_1GBASELX_CAPABLE && has comp_codes_10g IXGBE_SFF_10GBASELR_CAPABLE).
Definition oui (b0 b1 b2 : Z) : Z :=
  u32 (Z.lor (Z.lor (Z.shiftl b0 IXGBE_SFF_VENDOR_OUI_BYTE0_SHIFT) (Z.shiftl b1 IXGBE_SFF_VENDOR_OUI_BYTE1_SHIFT)) (Z.shiftl b2 IXGBE_SFF_VENDOR_OUI_BYTE2_SHIFT)).

(** ** SFP modules *)
Definition sfp_type_82598 (comp_codes_10g cable_tech : Z) : Z :=
  if has cable_tech IXGBE_SFF_DA_PASSIVE_CABLE then ixgbe_sfp_type_da_cu
  else if has comp_codes_10g IXGBE_SFF_10GBASESR_CAPABLE then ixgbe_sfp_type_sr
  else if has comp_codes_10g IXGBE_SFF_10GBASELR_CAPABLE then ixgbe_sfp_type_lr else ixgbe_sfp_type_unknown.
Definition sfp_type_82599 (lan_id comp_codes_1g comp_codes_10g cable_tech : Z) : M Z :=
  if has cable_tech IXGBE_SFF_DA_PASSIVE_CABLE then mret (core lan_id ixgbe_sfp_type_da_cu_core0 ixgbe_sfp_type_da_cu_core1)
  else if has cable_tech IXGBE_SFF_DA_ACTIVE_CABLE then
    r ← read_i2c_eeprom IXGBE_SFF_CABLE_SPEC_COMP;
    mret (if has r.2 IXGBE_SFF_DA_SPEC_ACTIVE_LIMITING then core lan_id ixgbe_sfp_type_da_act_lmt_core0 ixgbe_sfp_type_da_act_lmt_core1 else ixgbe_sfp_type_unknown)
  else if has comp_codes_10g (Z.lor IXGBE_SFF_10GBASESR_CAPABLE IXGBE_SFF_10GBASELR_CAPABLE) then mret (core lan_id ixgbe_sfp_type_srlr_core0 ixgbe_sfp_type_srlr_core1)
  else if has comp_codes_1g IXGBE_SFF_1GBASET_CAPABLE then mret (core lan_id ixgbe_sfp_type_1g_cu_core0 ixgbe_sfp_type_1g_cu_core1)
  else if has comp_codes_1g IXGBE_SFF_1GBASESX_CAPABLE then mret (core lan_id ixgbe_sfp_type_1g_sx_core0 ixgbe_sfp_type_1g_sx_core1)
  else if has comp_codes_1g IXGBE_SFF_1GBASELX_CAPABLE then mret (core lan_id ixgbe_sfp_type_1g_lx_core0 ixgbe_sfp_type_1g_lx_core1)
  else mret ixgbe_sfp_type_unknown.
Definition sfp_vendor (vendor_oui cable_tech : Z) (old : ixgbe_phy_type) : ixgbe_phy_type :=
  if vendor_oui =? IXGBE_SFF_VENDOR_OUI_TYCO then (if has cable_tech IXGBE_SFF_DA_PASSIVE_CABLE then ixgbe_phy_sfp_passive_tyco else old)
  else if vendor_oui =? IXGBE_SFF_VENDOR_OUI_FTL then (if has cable_tech IXGBE_SFF_DA_ACTIVE_CABLE then ixgbe_phy_sfp_ftl_active else ixgbe_phy_sfp_ftl)
  else if vendor_oui =? IXGBE_SFF_VENDOR_OUI_AVAGO then ixgbe_phy_sfp_avago
  else if vendor_oui =? IXGBE_SFF_VENDOR_OUI_INTEL then ixgbe_phy_sfp_intel
  else if has cable_tech IXGBE_SFF_DA_PASSIVE_CABLE then ixgbe_phy_sfp_passive_unknown
  else if has cable_tech IXGBE_SFF_DA_ACTIVE_CABLE then ixgbe_phy_sfp_active_unknown else ixgbe_phy_sfp_unknown.
(** [err_read_i2c_eeprom]. *)
Definition sfp_read_error (p : ixgbe_phy_info) : Z * ixgbe_phy_info :=
  let p := set_sfp_type ixgbe_sfp_type_not_present p in
  (IXGBE_ERR_SFP_NOT_PRESENT, if bool_decide (phy_type p = ixgbe_phy_nl) then p else set_phy_type ixgbe_phy_unknown (set_phy_id 0 p)).
(** The last checks, when the type and the vendor are known; [allow] is [hw->allow_unsupported_sfp]. *)
Definition sfp_support (allow : bool) (intel : ixgbe_phy_type) (p : ixgbe_phy_info) : Z * ixgbe_phy_info :=
  if bool_decide (phy_type p = intel) || allow then (0, p) else (IXGBE_ERR_SFP_NOT_SUPPORTED, set_phy_type ixgbe_phy_sfp_unsupported p).
Definition sfp_verify (mac_type : mac_type) (allow : bool) (comp_codes_10g cable_tech : Z) (p : ixgbe_phy_info) : M (Z * ixgbe_phy_info) :=
  if has cable_tech (Z.lor IXGBE_SFF_DA_PASSIVE_CABLE IXGBE_SFF_DA_ACTIVE_CABLE) then mret (0, p)
  else if (comp_codes_10g =? 0) && negb (is_1g (sfp_type p)) then mret (IXGBE_ERR_SFP_NOT_SUPPORTED, set_phy_type ixgbe_phy_sfp_unsupported p)
  else if bool_decide (mac_type = ixgbe_mac_82598EB) then mret (0, p)
  else
    enforce_sfp ← ixgbe_get_device_caps_generic;
    if negb (has enforce_sfp IXGBE_DEVICE_CAPS_ALLOW_ANY_SFP) && negb (is_1g (sfp_type p)) then mret (sfp_support allow ixgbe_phy_sfp_intel p)
    else mret (0, p).
(** The vendor, from three bytes. *)
Definition sfp_read_vendor (identifier cable_tech : Z) (p : ixgbe_phy_info) (k : ixgbe_phy_info -> M (Z * ixgbe_phy_info)) : M (Z * ixgbe_phy_info) :=
  if bool_decide (phy_type p = ixgbe_phy_nl) then k p
  else
    let p := set_phy_id identifier p in
    read_or IXGBE_SFF_VENDOR_OUI_BYTE0 (sfp_read_error p) (fun b0 =>
    read_or IXGBE_SFF_VENDOR_OUI_BYTE1 (sfp_read_error p) (fun b1 =>
    read_or IXGBE_SFF_VENDOR_OUI_BYTE2 (sfp_read_error p) (fun b2 => k (set_phy_type (sfp_vendor (oui b0 b1 b2) cable_tech (phy_type p)) p)))).
Definition ixgbe_identify_sfp_module_generic (allow : bool) (p : ixgbe_phy_info) : M (Z * ixgbe_phy_info) :=
  h ← get;
  if negb (bool_decide (media_type h = ixgbe_media_type_fiber)) then mret (IXGBE_ERR_SFP_NOT_PRESENT, set_sfp_type ixgbe_sfp_type_not_present p)
  else
    read_or IXGBE_SFF_IDENTIFIER (sfp_read_error p) (fun identifier =>
    bus ← ixgbe_set_lan_id_multi_port_pcie;
    if negb (identifier =? IXGBE_SFF_IDENTIFIER_SFP) then mret (IXGBE_ERR_SFP_NOT_SUPPORTED, set_phy_type ixgbe_phy_sfp_unsupported p)
    else
      read_or IXGBE_SFF_1GBE_COMP_CODES (sfp_read_error p) (fun comp_codes_1g =>
      read_or IXGBE_SFF_10GBE_COMP_CODES (sfp_read_error p) (fun comp_codes_10g =>
      read_or IXGBE_SFF_CABLE_TECHNOLOGY (sfp_read_error p) (fun cable_tech =>
      t ← (match hw_mac h with
           | ixgbe_mac_82598EB => mret (sfp_type_82598 comp_codes_10g cable_tech)
           | ixgbe_mac_82599EB => sfp_type_82599 bus.2 comp_codes_1g comp_codes_10g cable_tech
           | _ => mret (sfp_type p)
           end);
      let stored_sfp_type := sfp_type p in
      let p := set_sfp_type t p in
      let p := if negb (t =? stored_sfp_type) then set_setup_needed true p else p in
      let p := set_multispeed (dual_speed comp_codes_1g comp_codes_10g) p in
      sfp_read_vendor identifier cable_tech p (sfp_verify (hw_mac h) allow comp_codes_10g cable_tech))))).

(** ** QSFP modules *)
Definition qsfp_read_error (p : ixgbe_phy_info) : Z * ixgbe_phy_info :=
  (IXGBE_ERR_SFP_NOT_PRESENT, set_phy_type ixgbe_phy_unknown (set_phy_id 0 (set_sfp_type ixgbe_sfp_type_not_present p))).
(** Whether the module is an active cable, also by the rule for older ones. *)
Definition qsfp_active (comp_codes_10g : Z) : M bool :=
  if has comp_codes_10g IXGBE_SFF_QSFP_DA_ACTIVE_CABLE then mret true
  else
    connector ← read_i2c_eeprom IXGBE_SFF_QSFP_CONNECTOR;
    cable_length ← read_i2c_eeprom IXGBE_SFF_QSFP_CABLE_LENGTH;
    device_tech ← read_i2c_eeprom IXGBE_SFF_QSFP_DEVICE_TECH;
    mret ((connector.2 =? IXGBE_SFF_QSFP_CONNECTOR_NOT_SEPARABLE) && (cable_length.2 >? 0) && (Z.shiftr device_tech.2 4 =? IXGBE_SFF_QSFP_TRANSMITER_850NM_VCSEL)).
(** The type: [None] is an unsupported module. *)
Definition qsfp_classify (lan_id comp_codes_10g : Z) (p : ixgbe_phy_info) : M (option ixgbe_phy_info) :=
  if has comp_codes_10g IXGBE_SFF_QSFP_DA_PASSIVE_CABLE then
    mret (Some (set_sfp_type (core lan_id ixgbe_sfp_type_da_cu_core0 ixgbe_sfp_type_da_cu_core1) (set_phy_type ixgbe_phy_qsfp_passive_unknown p)))
  else if has comp_codes_10g (Z.lor IXGBE_SFF_10GBASESR_CAPABLE IXGBE_SFF_10GBASELR_CAPABLE) then
    mret (Some (set_sfp_type (core lan_id ixgbe_sfp_type_srlr_core0 ixgbe_sfp_type_srlr_core1) p))
  else
    active_cable ← qsfp_active comp_codes_10g;
    mret (if (active_cable : bool) then Some (set_sfp_type (core lan_id ixgbe_sfp_type_da_act_lmt_core0 ixgbe_sfp_type_da_act_lmt_core1) (set_phy_type ixgbe_phy_qsfp_active_unknown p)) else None).
Definition ixgbe_identify_qsfp_module_generic (allow : bool) (p : ixgbe_phy_info) : M (Z * ixgbe_phy_info) :=
  h ← get;
  if negb (bool_decide (media_type h = ixgbe_media_type_fiber_qsfp)) then mret (IXGBE_ERR_SFP_NOT_PRESENT, set_sfp_type ixgbe_sfp_type_not_present p)
  else
    read_or IXGBE_SFF_IDENTIFIER (qsfp_read_error p) (fun identifier =>
    if negb (identifier =? IXGBE_SFF_IDENTIFIER_QSFP_PLUS) then mret (IXGBE_ERR_SFP_NOT_SUPPORTED, set_phy_type ixgbe_phy_sfp_unsupported p)
    else
      let stored_sfp_type := sfp_type p in
      let p := set_phy_id identifier p in
      bus ← ixgbe_set_lan_id_multi_port_pcie;
      read_or IXGBE_SFF_QSFP_10GBE_COMP (qsfp_read_error p) (fun comp_codes_10g =>
      read_or IXGBE_SFF_QSFP_1GBE_COMP (qsfp_read_error p) (fun comp_codes_1g =>
      r ← qsfp_classify bus.2 comp_codes_10g p;
      match r with
      | None => mret (IXGBE_ERR_SFP_NOT_SUPPORTED, set_phy_type ixgbe_phy_sfp_unsupported p)
      | Some p =>
          let p := if negb (sfp_type p =? stored_sfp_type) then set_setup_needed true p else p in
          let p := set_multispeed (dual_speed comp_codes_1g comp_codes_10g) p in
          if has comp_codes_10g (Z.lor IXGBE_SFF_10GBASESR_CAPABLE IXGBE_SFF_10GBASELR_CAPABLE) then
            read_or IXGBE_SFF_QSFP_VENDOR_OUI_BYTE0 (qsfp_read_error p) (fun b0 =>
            read_or IXGBE_SFF_QSFP_VENDOR_OUI_BYTE1 (qsfp_read_error p) (fun b1 =>
            read_or IXGBE_SFF_QSFP_VENDOR_OUI_BYTE2 (qsfp_read_error p) (fun b2 =>
            let p := set_phy_type (if oui b0 b1 b2 =? IXGBE_SFF_VENDOR_OUI_INTEL then ixgbe_phy_qsfp_intel else ixgbe_phy_qsfp_unknown) p in
            enforce_sfp ← ixgbe_get_device_caps_generic;
            mret (if negb (has enforce_sfp IXGBE_DEVICE_CAPS_ALLOW_ANY_SFP) then sfp_support allow ixgbe_phy_qsfp_intel p else (0, p)))))
          else mret (0, p)
      end))).
Definition ixgbe_identify_module_generic (allow : bool) (p : ixgbe_phy_info) : M (Z * ixgbe_phy_info) :=
  h ← get;
  match media_type h with
  | ixgbe_media_type_fiber => ixgbe_identify_sfp_module_generic allow p
  | ixgbe_media_type_fiber_qsfp => ixgbe_identify_qsfp_module_generic allow p
  | _ => mret (IXGBE_ERR_SFP_NOT_PRESENT, set_sfp_type ixgbe_sfp_type_not_present p)
  end.

(** ** The initialisation sequence *)

(** The search: the list is at [list_offset]. The code has no bound; [fuel] is the number of entries looked at, [None]: not enough. *)
Fixpoint sfp_list_loop (fuel : nat) (t list_offset sfp_id : Z) : M (option (Z * Z * Z)) :=
  if sfp_id =? IXGBE_PHY_INIT_END_NL then mret (Some (IXGBE_ERR_SFP_NOT_SUPPORTED, list_offset, 0))
  else if sfp_id =? t then
    let list_offset := u16 (list_offset + 1) in
    r ← read_into list_offset 0;
    if truthy r.1 then mret (Some (IXGBE_ERR_PHY, list_offset, r.2))
    else mret (Some (if (r.2 =? 0) || (r.2 =? 0xFFFF) then IXGBE_ERR_SFP_NOT_SUPPORTED else 0, list_offset, r.2))
  else
    match fuel with
    | O => mret None
    | S fuel =>
        let list_offset := u16 (list_offset + 2) in
        r ← read_into list_offset sfp_id;
        if truthy r.1 then mret (Some (IXGBE_ERR_PHY, list_offset, 0)) else sfp_list_loop fuel t list_offset r.2
    end.
Definition sequence_type (t : Z) : Z :=
  if (t =? ixgbe_sfp_type_da_act_lmt_core0) || (t =? ixgbe_sfp_type_1g_lx_core0) || (t =? ixgbe_sfp_type_1g_cu_core0) || (t =? ixgbe_sfp_type_1g_sx_core0) then ixgbe_sfp_type_srlr_core0
  else if (t =? ixgbe_sfp_type_da_act_lmt_core1) || (t =? ixgbe_sfp_type_1g_lx_core1) || (t =? ixgbe_sfp_type_1g_cu_core1) || (t =? ixgbe_sfp_type_1g_sx_core1) then ixgbe_sfp_type_srlr_core1
  else t.
(** The status, [*list_offset] and [*data_offset], 0 where the code does not store them. *)
Definition ixgbe_get_sfp_init_sequence_offsets (fuel : nat) (device_id : Z) (p : ixgbe_phy_info) : M (option (Z * Z * Z)) :=
  let t := sfp_type p in
  if t =? ixgbe_sfp_type_unknown then mret (Some (IXGBE_ERR_SFP_NOT_SUPPORTED, 0, 0))
  else if t =? ixgbe_sfp_type_not_present then mret (Some (IXGBE_ERR_SFP_NOT_PRESENT, 0, 0))
  else if (device_id =? IXGBE_DEV_ID_82598_SR_DUAL_PORT_EM) && (t =? ixgbe_sfp_type_da_cu) then mret (Some (IXGBE_ERR_SFP_NOT_SUPPORTED, 0, 0))
  else
    r ← read_into IXGBE_PHY_INIT_OFFSET_NL 0;
    if truthy r.1 then mret (Some (IXGBE_ERR_SFP_NO_INIT_SEQ_PRESENT, r.2, 0))
    else if (r.2 =? 0) || (r.2 =? 0xFFFF) then mret (Some (IXGBE_ERR_SFP_NO_INIT_SEQ_PRESENT, r.2, 0))
    else
      let list_offset := u16 (r.2 + 1) in
      r ← read_into list_offset 0;
      if truthy r.1 then mret (Some (IXGBE_ERR_PHY, list_offset, 0)) else sfp_list_loop fuel (sequence_type t) list_offset r.2.
End Sfp.
