(* ===== verification/SfpSpec.v ===== *)
(** * SFP modules: which are accepted

    The identification of [Sfp], first against the interface [SfpLaws] (the bytes of the module and the capabilities in the adapter's EEPROM), then with the bus of
    [I2c] and the EEPROM registers of [Eeprom] in its place. *)
From S2P Require Import Prelude Bits Hw Eeprom Spi FlowControl I2c I2cSpec Sfp.

(** What the identification relies on, in states that satisfy [wf]: a byte of the module is read, unless the bus is [denied] in the state of the call, and then
    an error is returned; the number of the port and the word with the capabilities are found, and reading them does not disturb the module. *)
Class SfpLaws `{EepromOps, SfpBus} (wf : ixgbe_hw -> Prop) (denied : ixgbe_hw -> bool) (bytes : Z -> Z) (caps lan : Z) := {
  byte_law h off : wf h -> 0 <= off < 2 ^ 8 -> wlp (read_i2c_eeprom off) h (fun r h' => wf h' /\ if denied h then exists e, e <> 0 /\ r = (e, 0) else r = (0, bytes off));
  lan_law h : wf h -> wlp ixgbe_set_lan_id_multi_port_pcie h (fun r h' => wf h' /\ r.2 = lan);
  caps_law h : wf h -> wlp (read_into IXGBE_DEVICE_CAPS 0) h (fun r h' => wf h' /\ r.2 = caps)
}.

(** ** A read that is denied

    The states between the calls of a run that starts in [h]. *)
Inductive runs `{EepromOps, SfpBus} (h : ixgbe_hw) : ixgbe_hw -> Prop :=
| runs_here : runs h h
| runs_byte g off : runs h g -> runs h (read_i2c_eeprom off g).2
| runs_lan g : runs h g -> runs h (ixgbe_set_lan_id_multi_port_pcie g).2
| runs_caps g : runs h g -> runs h (read_into IXGBE_DEVICE_CAPS 0 g).2.
(** Between [h] and [h'], a byte of the module was asked for in a state in which the bus was denied. *)
Definition read_denied `{EepromOps, SfpBus} (denied : ixgbe_hw -> bool) (h h' : ixgbe_hw) : Prop := exists g off, runs h g /\ denied g = true /\ runs (read_i2c_eeprom off g).2 h'.

(** ** The rules *)
Section Rules.
Context (b : Z -> Z).
Definition is_cable : bool := has (b IXGBE_SFF_CABLE_TECHNOLOGY) 0xC.
Definition is_10g_optical : bool := has (b IXGBE_SFF_10GBE_COMP_CODES) 0x30.
(** A 1G module, by the codes that are looked at when the module is neither a cable nor 10G optical. *)
Definition is_1g_module : bool := negb is_10g_optical && has (b IXGBE_SFF_1GBE_COMP_CODES) 0xB.
Definition vendor : Z := oui (b IXGBE_SFF_VENDOR_OUI_BYTE0) (b IXGBE_SFF_VENDOR_OUI_BYTE1) (b IXGBE_SFF_VENDOR_OUI_BYTE2).
(** A module that passes as Intel's: also Tyco's, when the module before it was Intel's ([stale]), because the type of the PHY is then left as it was. *)
Definition is_intel (stale : bool) : bool := (vendor =? IXGBE_SFF_VENDOR_OUI_INTEL) || stale && (vendor =? IXGBE_SFF_VENDOR_OUI_TYCO).
(** Cables and 1G modules are accepted from every vendor, others if they have a 10G code and pass as Intel's, or every module is allowed. *)
Definition accepted (caps : Z) (allow stale : bool) : bool :=
  (b IXGBE_SFF_IDENTIFIER =? IXGBE_SFF_IDENTIFIER_SFP) &&
  (is_cable || is_1g_module || negb (b IXGBE_SFF_10GBE_COMP_CODES =? 0) && (has caps IXGBE_DEVICE_CAPS_ALLOW_ANY_SFP || is_intel stale || allow)).
(** The type of an accepted module by port, as numbered in the EEPROM; [limiting]: the cable says that it is an active limiting cable. *)
Definition type_for (lan_id : Z) (limiting : bool) : Z :=
  let second := if lan_id =? 0 then 0 else 1 in
  let t := b IXGBE_SFF_CABLE_TECHNOLOGY in
  let g := b IXGBE_SFF_1GBE_COMP_CODES in
  if Z.testbit t 2 then 3 + second
  else if Z.testbit t 3 then if limiting then 7 + second else 0xFFFF
  else if is_10g_optical then 5 + second
  else if Z.testbit g 3 then 9 + second else if Z.testbit g 0 then 11 + second else if Z.testbit g 1 then 13 + second else 0xFFFF.
End Rules.
Lemma has_bit v i : 0 <= i -> has v (2 ^ i) = Z.testbit v i.
Proof. intros Hi. unfold has. rewrite <- Z.shiftl_1_l. by apply truthy_land_bit. Qed.
Lemma truthy_lor a b : truthy (Z.lor a b) = truthy a || truthy b.
Proof.
  unfold truthy. destruct (Z.eqb_spec a 0) as [->|Ha]; [done|]. destruct (Z.eqb_spec (Z.lor a b) 0) as [E|]; [|by destruct (b =? 0)]. apply Z.lor_eq_0_iff in E. tauto.
Qed.
Lemma has_lor v a b : has v (Z.lor a b) = has v a || has v b.
Proof. unfold has. by rewrite Z.land_lor_distr_r, truthy_lor. Qed.
Lemma cable_bits b : is_cable b = Z.testbit (b IXGBE_SFF_CABLE_TECHNOLOGY) 2 || Z.testbit (b IXGBE_SFF_CABLE_TECHNOLOGY) 3.
Proof. unfold is_cable. change 0xC with (Z.lor (2 ^ 2) (2 ^ 3)). by rewrite has_lor, !has_bit by lia. Qed.
Lemma type_1g b lan limiting : is_cable b = false -> is_1g (type_for b lan limiting) = is_1g_module b.
Proof.
  rewrite cable_bits. intros [E1 E2]%orb_false_iff. unfold type_for, is_1g_module. rewrite E1, E2. destruct (is_10g_optical b); [by destruct (lan =? 0)|]. cbn [negb andb].
  change 0xB with (Z.lor (2 ^ 3) (Z.lor (2 ^ 0) (2 ^ 1))) at 2. rewrite !has_lor, !has_bit by lia. generalize (b IXGBE_SFF_1GBE_COMP_CODES). intros g. by destruct (lan =? 0), (Z.testbit g 3), (Z.testbit g 0), (Z.testbit g 1).
Qed.

(** ** The identification against the interface *)

(** What comes of an identification: the module could not be read because the bus was denied ([D]), or it is accepted or refused by the rules. Whether an active
    cable is a limiting one is not known ([ok] is false) only if the bus was denied. *)
Inductive identified (b : Z -> Z) (caps lan : Z) (allow stale : bool) (D : Prop) : Z * ixgbe_phy_info -> Prop :=
| NotRead p : D -> sfp_type p = ixgbe_sfp_type_not_present -> identified b caps lan allow stale D (IXGBE_ERR_SFP_NOT_PRESENT, p)
| Refused p : accepted b caps allow stale = false -> phy_type p = ixgbe_phy_sfp_unsupported -> identified b caps lan allow stale D (IXGBE_ERR_SFP_NOT_SUPPORTED, p)
| Accepted p (ok : bool) : accepted b caps allow stale = true -> (ok = false -> D) -> sfp_type p = type_for b lan (ok && Z.testbit (b IXGBE_SFF_CABLE_SPEC_COMP) 2) ->
    multispeed_fiber p = dual_speed (b IXGBE_SFF_1GBE_COMP_CODES) (b IXGBE_SFF_10GBE_COMP_CODES) -> identified b caps lan allow stale D (0, p).
Section Identify.
Context `{L : SfpLaws wf denied b caps lan} (allow : bool) (h0 : ixgbe_hw).
(** A state of the run from [h0], and whether a read was denied up to it. *)
Definition inside (h : ixgbe_hw) : Prop := wf h /\ runs h0 h.
Local Notation D h := (read_denied denied h0 h).
Lemma runs_trans h h' : runs h0 h -> runs h h' -> runs h0 h'.
Proof. intros H1. induction 1; by try constructor. Qed.
Lemma denied_mono h h' : runs h h' -> D h -> D h'.
Proof. intros H1 (g & off & Hg & Hd & Hr). exists g, off. split_and!; [done|done|]. clear -Hr H1. induction H1; by try constructor. Qed.
Lemma read_error_identified stale h p : D h -> identified b caps lan allow stale (D h) (sfp_read_error p).
Proof. intros Hd. unfold sfp_read_error. apply NotRead; [done|]. by case_bool_decide. Qed.
Lemma byte_inside off h : inside h -> 0 <= off < 2 ^ 8 -> let '(r, h') := read_i2c_eeprom off h in
  inside h' /\ runs h h' /\ (r = (0, b off) \/ D h' /\ exists e, e <> 0 /\ r = (e, 0)).
Proof using L.
  intros [Hh Hr] Ho. pose proof (byte_law h off Hh Ho) as Hw. pose proof (runs_byte h h off (runs_here h)) as Hs. unfold wlp in Hw. destruct (read_i2c_eeprom off h) as [r h'] eqn:E. cbn [fst snd] in *. destruct Hw as [Hw Hv].
  split_and!; [split; [done|by eapply runs_trans]|done|]. destruct (denied h) eqn:Ed; [right; split; [|done]|by left]. exists h, off. split_and!; [done|done|]. rewrite E. apply runs_here.
Qed.
Lemma wlp_read_or {R} off (fail : R) k h (Q : R -> ixgbe_hw -> Prop) : inside h -> 0 <= off < 2 ^ 8 -> (forall h', inside h' -> D h' -> Q fail h') ->
  (forall h', inside h' -> runs h h' -> wlp (k (b off)) h' Q) -> wlp (read_or off fail k) h Q.
Proof using L.
  intros Hh Ho Hf Hk. unfold read_or. apply wlp_bind. pose proof (byte_inside off h Hh Ho) as Hb. unfold wlp at 1. destruct (read_i2c_eeprom off h) as [r h']. destruct Hb as (Hh' & Hr & [->|(Hd & e & He & ->)]); cbn [fst snd].
  - by apply Hk.
  - replace (truthy e) with true by (symmetry; unfold truthy; by rewrite (proj2 (Z.eqb_neq _ _) He)). by apply wlp_ret, Hf.
Qed.
Lemma wlp_type h (Q : Z -> ixgbe_hw -> Prop) : inside h -> (forall (ok : bool) h', inside h' -> (ok = false -> D h') -> Q (type_for b lan (ok && Z.testbit (b IXGBE_SFF_CABLE_SPEC_COMP) 2)) h') ->
  wlp (sfp_type_82599 lan (b IXGBE_SFF_1GBE_COMP_CODES) (b IXGBE_SFF_10GBE_COMP_CODES) (b IXGBE_SFF_CABLE_TECHNOLOGY)) h Q.
Proof using L.
  intros Hh HQ. unfold sfp_type_82599. change IXGBE_SFF_DA_PASSIVE_CABLE with (2 ^ 2). change IXGBE_SFF_DA_ACTIVE_CABLE with (2 ^ 3). change IXGBE_SFF_1GBASET_CAPABLE with (2 ^ 3). change IXGBE_SFF_1GBASESX_CAPABLE with (2 ^ 0).
  change IXGBE_SFF_1GBASELX_CAPABLE with (2 ^ 1). change (Z.lor IXGBE_SFF_10GBASESR_CAPABLE IXGBE_SFF_10GBASELR_CAPABLE) with 0x30. fold (is_10g_optical b). rewrite !has_bit by lia. unfold core.
  unfold type_for in HQ. cbv zeta in HQ. destruct (Z.testbit _ 2); [apply wlp_ret; specialize (HQ true h Hh ltac:(done)); by destruct (lan =? 0)|]. destruct (Z.testbit (b IXGBE_SFF_CABLE_TECHNOLOGY) 3).
  - apply wlp_bind. pose proof (byte_inside IXGBE_SFF_CABLE_SPEC_COMP h Hh ltac:(done)) as Hb. unfold wlp at 1. destruct (read_i2c_eeprom _ h) as [r h']. destruct Hb as (Hh' & _ & Hr). apply wlp_ret. cbn [fst snd].
    change IXGBE_SFF_DA_SPEC_ACTIVE_LIMITING with (2 ^ 2). rewrite has_bit by lia.
    destruct Hr as [->|(Hd & e & He & ->)]; cbn [snd]; [specialize (HQ true h' Hh' ltac:(done)); cbn [andb] in HQ|specialize (HQ false h' Hh' ltac:(done)); cbn [andb] in HQ; rewrite Z.testbit_0_l]; destruct (lan =? 0); (done || by destruct (Z.testbit _ 2)).
  - specialize (HQ true h Hh ltac:(done)). destruct (is_10g_optical b); [apply wlp_ret; by destruct (lan =? 0)|]. revert HQ. generalize (b IXGBE_SFF_1GBE_COMP_CODES). intros g HQ.
    by destruct (lan =? 0), (Z.testbit g 3), (Z.testbit g 0), (Z.testbit g 1); apply wlp_ret.
Qed.
Lemma vendor_intel t old : has t 0xC = false -> (sfp_vendor (vendor b) t old = ixgbe_phy_sfp_intel <-> is_intel b (bool_decide (old = ixgbe_phy_sfp_intel)) = true).
Proof.
  change 0xC with (Z.lor IXGBE_SFF_DA_PASSIVE_CABLE IXGBE_SFF_DA_ACTIVE_CABLE). rewrite has_lor. intros [E1 E2]%orb_false_iff. unfold sfp_vendor, is_intel. rewrite E1, E2. generalize (vendor b). intros v.
  destruct (Z.eqb_spec v IXGBE_SFF_VENDOR_OUI_TYCO) as [->|]; [change (IXGBE_SFF_VENDOR_OUI_TYCO =? IXGBE_SFF_VENDOR_OUI_INTEL) with false; cbn [orb]; rewrite andb_true_r; by rewrite bool_decide_eq_true|]. rewrite andb_false_r, orb_false_r.
  destruct (Z.eqb_spec v IXGBE_SFF_VENDOR_OUI_FTL) as [->|]; [by split|]. destruct (Z.eqb_spec v IXGBE_SFF_VENDOR_OUI_AVAGO) as [->|]; [by split|]. by destruct (Z.eqb_spec v IXGBE_SFF_VENDOR_OUI_INTEL) as [->|]; split.
Qed.
Lemma wlp_verify p h (Q : Z * ixgbe_phy_info -> ixgbe_hw -> Prop) (ok stale : bool) : inside h -> (ok = false -> D h) -> b IXGBE_SFF_IDENTIFIER = IXGBE_SFF_IDENTIFIER_SFP ->
  sfp_type p = type_for b lan (ok && Z.testbit (b IXGBE_SFF_CABLE_SPEC_COMP) 2) -> multispeed_fiber p = dual_speed (b IXGBE_SFF_1GBE_COMP_CODES) (b IXGBE_SFF_10GBE_COMP_CODES) ->
  (is_cable b = false -> phy_type p = ixgbe_phy_sfp_intel <-> is_intel b stale = true) ->
  (forall r h', inside h' -> identified b caps lan allow stale (D h') r -> Q r h') -> wlp (sfp_verify ixgbe_mac_82599EB allow (b IXGBE_SFF_10GBE_COMP_CODES) (b IXGBE_SFF_CABLE_TECHNOLOGY) p) h Q.
Proof using L.
  intros Hh Hok Hi Ht Hm Hv HQ. unfold sfp_verify. change (has (b IXGBE_SFF_CABLE_TECHNOLOGY) (Z.lor _ _)) with (is_cable b). assert (forall x y z, is_cable b = x -> is_1g_module b = y -> (b IXGBE_SFF_10GBE_COMP_CODES =? 0) = z ->
    accepted b caps allow stale = x || y || negb z && (has caps IXGBE_DEVICE_CAPS_ALLOW_ANY_SFP || is_intel b stale || allow)) as Hacc by (intros x y z <- <- <-; unfold accepted; by rewrite Hi).
  destruct (is_cable b) eqn:Ec; [by apply wlp_ret, HQ; [|apply (Accepted _ _ _ _ _ _ p ok); [rewrite (Hacc _ _ _ eq_refl eq_refl eq_refl)|..]]|]. specialize (Hv eq_refl). rewrite Ht, type_1g by done.
  destruct (is_1g_module b) eqn:E1, (b IXGBE_SFF_10GBE_COMP_CODES =? 0) eqn:E0; cbn [andb negb]; rewrite ?bool_decide_eq_false_2 by done; specialize (Hacc _ _ _ eq_refl eq_refl eq_refl); cbn [orb andb negb] in Hacc.
  3: by apply wlp_ret, HQ; [|apply Refused].
  all: assert (inside (read_into IXGBE_DEVICE_CAPS 0 h).2 /\ runs h (read_into IXGBE_DEVICE_CAPS 0 h).2 /\ (read_into IXGBE_DEVICE_CAPS 0 h).1.2 = caps) as (Hh' & Hs & Ecaps)
    by (destruct Hh as [Hh Hr]; destruct (caps_law h Hh) as [Hw Ew]; split_and!; [split; [done|by apply runs_caps]|apply runs_caps, runs_here|done]).
  all: unfold ixgbe_get_device_caps_generic; apply wlp_bind, wlp_bind; unfold wlp at 1; apply wlp_ret; rewrite Ecaps, ?andb_false_r, ?andb_true_r.
  all: assert (ok = false -> D (read_into IXGBE_DEVICE_CAPS 0 h).2) as Hok' by (intros Eo; by apply (denied_mono h), Hok).
  1,2: by apply wlp_ret, HQ; [|apply (Accepted _ _ _ _ _ _ p ok)].
  destruct (has caps IXGBE_DEVICE_CAPS_ALLOW_ANY_SFP); cbn [negb andb orb] in *; [by apply wlp_ret, HQ; [|apply (Accepted _ _ _ _ _ _ p ok)]|]. apply wlp_ret, HQ; [done|]. unfold sfp_support.
  replace (bool_decide (phy_type p = ixgbe_phy_sfp_intel)) with (is_intel b stale) by (case_bool_decide as E; destruct (is_intel b stale); naive_solver). by destruct (is_intel b stale || allow); [apply (Accepted _ _ _ _ _ _ p ok)|apply Refused].
Qed.
(** The identification, for a PHY that has not been identified as one of another kind before. *)
Lemma wlp_identify p (Q : Z * ixgbe_phy_info -> ixgbe_hw -> Prop) : wf h0 -> hw_mac h0 = ixgbe_mac_82599EB -> media_type h0 = ixgbe_media_type_fiber -> phy_type p <> ixgbe_phy_nl ->
  (forall r h', inside h' -> identified b caps lan allow (bool_decide (phy_type p = ixgbe_phy_sfp_intel)) (D h') r -> Q r h') -> wlp (ixgbe_identify_sfp_module_generic allow p) h0 Q.
Proof using L.
  intros Hw Hmac Hmedia Hnl HQ. assert (inside h0) as Hh by (split; [done|apply runs_here]). set (stale := bool_decide _) in HQ. unfold ixgbe_identify_sfp_module_generic. apply wlp_bind, wlp_get. rewrite Hmac, bool_decide_eq_true_2 by done. cbn [negb].
  assert (forall p' h', inside h' -> D h' -> Q (sfp_read_error p') h') as Herr by (intros p' h' Hi Hd; apply HQ; [done|by apply read_error_identified]).
  apply wlp_read_or; [done|done|by apply Herr|]. intros h1 H1 _. apply wlp_bind. unfold wlp at 1. assert (inside (ixgbe_set_lan_id_multi_port_pcie h1).2 /\ (ixgbe_set_lan_id_multi_port_pcie h1).1.2 = lan) as [H2 ->]
    by (destruct H1 as [H1 Hr]; destruct (lan_law h1 H1) as [H2 E2]; split; [split; [done|by apply runs_lan]|done]). set (h2 := (ixgbe_set_lan_id_multi_port_pcie h1).2) in *. clearbody h2.
  destruct (Z.eqb_spec (b IXGBE_SFF_IDENTIFIER) IXGBE_SFF_IDENTIFIER_SFP) as [Ei|Ei]; cbn [negb].
  2:{ apply wlp_ret, HQ; [done|]. apply Refused; [|done]. unfold accepted. by rewrite (proj2 (Z.eqb_neq _ _) Ei). }
  apply wlp_read_or; [done|done|by apply Herr|]; intros h3 H3 _. apply wlp_read_or; [done|done|by apply Herr|]; intros h4 H4 _. apply wlp_read_or; [done|done|by apply Herr|]; intros h5 H5 _. apply wlp_bind, wlp_type; [done|]. intros ok h6 H6 Hok. cbv zeta. set (t := type_for _ _ _).
  set (p1 := set_multispeed _ _). assert (phy_type p1 = phy_type p /\ sfp_type p1 = t /\ multispeed_fiber p1 = dual_speed (b IXGBE_SFF_1GBE_COMP_CODES) (b IXGBE_SFF_10GBE_COMP_CODES)) as (E1 & E2 & E3) by (unfold p1; by destruct (t =? sfp_type p)).
  clearbody p1. unfold sfp_read_vendor. rewrite bool_decide_eq_false_2 by congruence. cbv zeta.
  apply wlp_read_or; [done|done|by apply Herr|]; intros h7 H7 R7. apply wlp_read_or; [done|done|by apply Herr|]; intros h8 H8 R8. apply wlp_read_or; [done|done|by apply Herr|]; intros h9 H9 R9.
  apply wlp_verify with (ok := ok) (stale := stale); try done; [intros Eo; by do 3 (eapply denied_mono; [done|]); apply Hok|]. cbn [phy_type set_phy_type set_phy_id]. intros Hc. unfold stale. rewrite <- E1. by apply (vendor_intel _ (phy_type p1)).
Qed.
End Identify.

(** ** The interface on the adapter

    Code that only accesses registers, and those in [P]. *)
Section Accesses.
Context (P : access -> Prop).
Definition accesses {R} (m : M R) : Prop := forall h, exists t, (m h).2 = emit t h /\ Forall P t.
Lemma accesses_ret {R} (a : R) : accesses (mret a).
Proof. intros h. exists []. by rewrite emit_nil. Qed.
Lemma accesses_read r : (forall v, P (Rd r v)) -> accesses (IXGBE_READ_REG r).
Proof. intros HP h. exists [Rd r (ans h (tr h) r)]. split; [done|by repeat constructor]. Qed.
Lemma accesses_write r v : P (Wr r v) -> accesses (IXGBE_WRITE_REG r v).
Proof. intros HP h. exists [Wr r v]. split; [done|by repeat constructor]. Qed.
Lemma accesses_bind {R S} (m : M R) (k : R -> M S) : accesses m -> (forall a, accesses (k a)) -> accesses (a ← m; k a).
Proof.
  intros Hm Hk h. destruct (Hm h) as (t1 & E1 & F1). mrun. destruct (m h) as [a h1]. cbn [fst snd] in *. subst h1. destruct (Hk a (emit t1 h)) as (t2 & E2 & F2). exists (t1 ++ t2). rewrite E2, emit_app. split; [done|by apply Forall_app].
Qed.
Lemma accesses_if {R} (x : bool) (m1 m2 : M R) : accesses m1 -> accesses m2 -> accesses (if x then m1 else m2).
Proof. by destruct x. Qed.
Lemma accesses_poll n r ok v : (forall v, P (Rd r v)) -> accesses (poll_last n r ok v).
Proof.
  intros HP. revert v. induction n as [|n IH]; intros v; cbn [poll_last]; [apply accesses_ret|]. apply accesses_bind; [by apply accesses_read|]. intros w. apply accesses_if; [apply accesses_ret|apply IH].
Qed.
End Accesses.
Create HintDb accesses.
Ltac accesses :=
  lazymatch goal with
  | |- accesses _ (mret _) => apply accesses_ret
  | |- accesses _ (IXGBE_READ_REG _) => by apply accesses_read
  | |- accesses _ (IXGBE_WRITE_REG _ _) => by apply accesses_write
  | |- accesses _ IXGBE_WRITE_FLUSH => unfold IXGBE_WRITE_FLUSH; accesses
  | |- accesses _ (poll_last _ _ _ _) => by apply accesses_poll
  | |- accesses _ (mbind _ _) => apply accesses_bind; [accesses|intros; accesses]
  | |- accesses _ (if _ then _ else _) => apply accesses_if; accesses
  | |- accesses _ (match ?x with _ => _ end) => destruct x; accesses
  | |- _ => auto with accesses
  end.
#[export] Hint Extern 1 (accesses _ (mbind _ _)) => accesses : accesses.
#[export] Hint Extern 1 (accesses _ (mret _)) => accesses : accesses.
Local Notation no_store := (no_write IXGBE_EEWR).
Lemma accesses_raise v : accesses no_store (ixgbe_raise_i2c_clk v).
Proof. unfold ixgbe_raise_i2c_clk. generalize (Z.to_nat IXGBE_I2C_CLOCK_STRETCHING_TIMEOUT). intros n. revert v. induction n as [|n IH]; intros v; cbn [raise_loop]; accesses. Qed.
#[export] Hint Resolve accesses_raise : accesses.
Lemma accesses_lower v : accesses no_store (ixgbe_lower_i2c_clk v).
Proof. unfold ixgbe_lower_i2c_clk. accesses. Qed.
#[export] Hint Resolve accesses_lower : accesses.
Lemma accesses_set_data v d : accesses no_store (ixgbe_set_i2c_data v d).
Proof. unfold ixgbe_set_i2c_data. accesses. Qed.
#[export] Hint Resolve accesses_set_data : accesses.
Lemma accesses_start : accesses no_store ixgbe_i2c_start.
Proof. unfold ixgbe_i2c_start. accesses. Qed.
Lemma accesses_stop : accesses no_store ixgbe_i2c_stop.
Proof. unfold ixgbe_i2c_stop. accesses. Qed.
Lemma accesses_bit_out d : accesses no_store (ixgbe_clock_out_i2c_bit d).
Proof. unfold ixgbe_clock_out_i2c_bit. accesses. Qed.
#[export] Hint Resolve accesses_start accesses_stop accesses_bit_out : accesses.
Lemma accesses_byte_in d : accesses no_store (ixgbe_clock_in_i2c_byte d).
Proof. unfold ixgbe_clock_in_i2c_byte. generalize 8%nat. intros n. revert d. induction n as [|n IH]; intros d; cbn [clock_in_loop]; unfold ixgbe_clock_in_i2c_bit; accesses. Qed.
Lemma accesses_send b k : accesses no_store k -> accesses no_store (send_byte b k).
Proof.
  intros Hk. unfold send_byte, or_fail, ixgbe_clock_out_i2c_byte, ixgbe_get_i2c_ack. generalize 8%nat. intros n. accesses. induction n as [|n IH]; cbn [clock_out_loop]; accesses.
Qed.
#[export] Hint Resolve accesses_byte_in accesses_send : accesses.
Lemma accesses_clear : accesses no_store ixgbe_i2c_bus_clear.
Proof. unfold ixgbe_i2c_bus_clear. generalize 9%nat. intros n. accesses. match goal with |- accesses _ (clear_loop _ ?v) => generalize v end. induction n as [|n IH]; intros v; cbn [clear_loop]; accesses. Qed.
#[export] Hint Resolve accesses_clear : accesses.
Lemma accesses_release_semaphore : accesses no_store ixgbe_release_eeprom_semaphore.
Proof. unfold ixgbe_release_eeprom_semaphore. accesses. Qed.
#[export] Hint Resolve accesses_release_semaphore : accesses.
Lemma accesses_get_semaphore : accesses no_store ixgbe_get_eeprom_semaphore.
Proof. unfold ixgbe_get_eeprom_semaphore, poll_reg. generalize semaphore_timeout. intros n. accesses. induction n as [|n IH]; cbn [get_swesmbi]; accesses. Qed.
#[export] Hint Resolve accesses_get_semaphore : accesses.
Lemma accesses_release_swfw mask : accesses no_store (ixgbe_release_swfw_sync mask).
Proof. unfold ixgbe_release_swfw_sync. accesses. Qed.
#[export] Hint Resolve accesses_release_swfw : accesses.
Lemma accesses_acquire_swfw mask : accesses no_store (ixgbe_acquire_swfw_sync mask).
Proof.
  unfold ixgbe_acquire_swfw_sync. generalize 200%nat (Z.lor (u32 (Z.shiftl mask 5)) mask) 0. intros n both gssr. accesses.
  revert gssr. induction n as [|n IH]; intros gssr; cbn [swfw_loop]; accesses.
Qed.
#[export] Hint Resolve accesses_acquire_swfw : accesses.
Lemma accesses_read_byte off dev : accesses no_store (ixgbe_read_i2c_byte_generic off dev).
Proof.
  unfold ixgbe_read_i2c_byte_generic, phy_gssr. generalize 10%nat. intros n. accesses. match goal with |- accesses _ (i2c_read_loop _ ?m _ _ _ _) => generalize m end. intros m. generalize 0 at 1. intros s. generalize 0. revert s.
  induction n as [|n IH]; intros s d; cbn [i2c_read_loop]; [accesses|]. unfold i2c_read_try, or_fail. accesses.
Qed.
Lemma touches_read_eerd off : touches (no_write IXGBE_I2CCTL) (ixgbe_read_eerd_generic off).
Proof.
  assert (forall {R} (k : ixgbe_hw -> M R), (forall h, touches (no_write IXGBE_I2CCTL) (k h)) -> touches (no_write IXGBE_I2CCTL) (h ← get; k h)) as Hget by (intros R k Hk h; apply (Hk h h)).
  assert (forall f, touches (no_write IXGBE_I2CCTL) (modify (fun h => set_eeprom (f h) h))) as Hmod by (intros f h; exists []; rewrite app_nil_r; by split_and!).
  unfold ixgbe_read_eerd_generic, ixgbe_read_eerd_buffer_generic, ixgbe_init_eeprom_params_generic, ixgbe_poll_eerd_eewr_done, poll_reg. change (Z.to_nat 1) with 1%nat. cbn [eerd_loop]. unfold ixgbe_poll_eerd_eewr_done, poll_reg. generalize IXGBE_EERD_EEWR_ATTEMPTS. intros n.
  apply touches_bind; [apply Hget; intros h; touches|]. intros _. apply Hget. intros h. touches.
Qed.
Lemma nvm_no_store c h t : Forall no_store t -> nvm c (tr (emit t h)) = nvm c (tr h).
Proof.
  change (tr (emit t h)) with (tr h ++ t). unfold nvm. rewrite foldl_app. intros Ft. set (c' := foldl _ c (tr h)). clearbody c'. induction Ft as [|a t Ha _ IH]; [done|]. cbn. destruct a as [r v|r v]; [done|]. by rewrite (proj2 (Z.eqb_neq _ _) Ha).
Qed.

#[export] Instance i2c_sfp_bus : SfpBus := { read_i2c_eeprom := ixgbe_read_i2c_eeprom_generic }.
(** An 82599 with a module on its bus and an EEPROM of [words] words behind EERD; [lan]: the number of the port in the status register. *)
Record sfp_system (B0 : wires) (c : Z -> Z) (words lan : Z) (A : list access -> Z -> Z) : Prop := {
  sy_bus : i2c_adapter IXGBE_I2C_EEPROM_DEV_ADDR B0 A; sy_nvm : nvm_device c A; sy_words : IXGBE_DEVICE_CAPS < words <= 0x4000; sy_word : forall x, 0 <= c x < 2 ^ 16;
  sy_lan : 0 <= lan < 4; sy_status : forall t, Z.shiftr (Z.land (A t IXGBE_STATUS) IXGBE_STATUS_LAN_ID) IXGBE_STATUS_LAN_ID_SHIFT = lan
}.
Section System.
Context (B0 : wires) (c : Z -> Z) (words lan : Z) (A : list access -> Z -> Z) (HS : sfp_system B0 c words lan A).
Context (bytes : Z -> Z) (Hbytes : forall i, 0 <= bytes i < 2 ^ 8) (caps : Z).
Local Notation module_of := (module_of IXGBE_I2C_EEPROM_DEV_ADDR B0).
Record sfp_wf (h : ixgbe_hw) : Prop := { sw_ready : ready IXGBE_I2C_EEPROM_DEV_ADDR B0 A h; sw_nvm : nvm_wf A words h; sw_bytes : contents (module_of h) = bytes; sw_caps : nvm c (tr h) IXGBE_DEVICE_CAPS = caps }.
Lemma sfp_wf_touches {R} (m : M R) h : touches (no_write IXGBE_I2CCTL) m -> sfp_wf h -> ready IXGBE_I2C_EEPROM_DEV_ADDR B0 A (m h).2 /\ contents (module_of (m h).2) = bytes.
Proof.
  intros Hm [W1 W2 W3 W4]. pose proof (ready_at _ _ _ _ W1) as Hb. destruct (at_ready _ _ _ _ _ (touches_at _ _ _ m _ h Hm Hb)) as [G1 G2]; [apply W1|]. split; [done|]. by rewrite G2, <- W3.
Qed.
Lemma sfp_wf_read h r : sfp_wf h -> sfp_wf (IXGBE_READ_REG r h).2.
Proof.
  intros Hh. destruct (sfp_wf_touches (IXGBE_READ_REG r) h) as [G1 G2]; [touches|done|]. destruct Hh as [W1 W2 W3 W4]. change (IXGBE_READ_REG r h).2 with (emit [Rd r (ans h (tr h) r)] h) in *.
  split; [done|by apply wf_emit|done|]. rewrite nvm_no_store; [done|by repeat constructor].
Qed.
(** A read of the module is denied when the semaphore is not granted. *)
#[export] Instance sfp_laws : SfpLaws sfp_wf (fun h => negb (granted h)) bytes caps lan.
Proof using HS Hbytes.
  split.
  - intros h off Hh Ho. destruct Hh as [W1 W2 W3 W4]. cbn [read_i2c_eeprom i2c_sfp_bus]. unfold ixgbe_read_i2c_eeprom_generic.
    assert (wlp (ixgbe_read_i2c_byte_generic off IXGBE_I2C_EEPROM_DEV_ADDR) h (fun r h' => (ready IXGBE_I2C_EEPROM_DEV_ADDR B0 A h' /\ contents (module_of h') = bytes) /\ if negb (granted h) then exists e, e <> 0 /\ r = (e, 0) else r = (0, bytes off))) as Hw.
    { eapply wlp_read_byte; [apply HS|done|done|done|done|by rewrite W3|]. intros h' Hr Hc. rewrite W3 in *. split; [done|]. destruct (granted h); [done|]. by exists IXGBE_ERR_SWFW_SYNC. }
    destruct (accesses_read_byte off IXGBE_I2C_EEPROM_DEV_ADDR h) as (t & Et & Ft). unfold wlp in *. rewrite Et in *. destruct Hw as [[Hr Hc] Hq]. split; [|done]. split; [done|by apply wf_emit|done|by rewrite nvm_no_store].
  - intros h Hh. pose proof (sfp_wf_read h IXGBE_STATUS Hh) as H1. pose proof (sfp_wf_read _ IXGBE_FACTPS H1) as H2. split; [done|]. cbn [fst snd].
    change (u16 (Z.shiftr (Z.land (ans h (tr h) IXGBE_STATUS) IXGBE_STATUS_LAN_ID) IXGBE_STATUS_LAN_ID_SHIFT) = lan).
    replace (ans h) with A by (symmetry; apply Hh). rewrite (sy_status _ _ _ _ _ HS). apply u16_small. pose proof (sy_lan _ _ _ _ _ HS). lia.
  - intros h Hh. destruct (sfp_wf_touches (ixgbe_read_eerd_generic IXGBE_DEVICE_CAPS) h (touches_read_eerd _) Hh) as [G1 G2]. destruct Hh as [W1 W2 W3 W4]. unfold read_into. cbn [ee_read eerd_eewr_ops]. apply wlp_bind, wlp_bind.
    pose proof (sy_words _ _ _ _ _ HS) as Hw. assert (0 <= IXGBE_DEVICE_CAPS < words) as Hoff by (unfold IXGBE_DEVICE_CAPS in *; lia).
    pose proof (read_eerd_law c A words (sy_word _ _ _ _ _ HS) (sy_nvm _ _ _ _ _ HS) ltac:(lia) h IXGBE_DEVICE_CAPS W2 Hoff) as Hr.
    unfold wlp in *. destruct Hr as (Er & Hn & En). rewrite Er. apply wlp_ret. apply wlp_ret. cbn [fst snd head default]. split; [|done]. split; [done|done|done|by rewrite En].
Qed.
End System.

(** C30. The driver accepts exactly the modules it means to accept. On an 82599 with a fiber port, with the bytes of the module read bit by bit over the I2C bus, from
    a module that may stretch the clock for less than the driver's 500 polls, and the capabilities through EERD, for a PHY that is not known as NetLogic's:
    [ixgbe_identify_sfp_module_generic] reports that no module is present only if the semaphore was not granted for one of its reads; otherwise it accepts the
    module and stores the type and the speeds that its bytes say if the module is an SFP module and a cable, a 1G module, or a 10G module that passes as Intel's
    unless others are allowed, and it reports that the module is not supported if it is none of these. A module passes as Intel's by its vendor bytes, and
    also if they are Tyco's and the PHY was known as Intel's before. An active cable that is limiting is stored as such unless the semaphore was not granted.
    The module is not changed. *)
Theorem sfp_identify_correct B0 c words lan A allow p h : sfp_system B0 c words lan A -> ready IXGBE_I2C_EEPROM_DEV_ADDR B0 A h -> nvm_wf A words h ->
  (forall i, 0 <= contents (module_of IXGBE_I2C_EEPROM_DEV_ADDR B0 h) i < 2 ^ 8) -> hw_mac h = ixgbe_mac_82599EB -> media_type h = ixgbe_media_type_fiber -> phy_type p <> ixgbe_phy_nl ->
  let bytes := contents (module_of IXGBE_I2C_EEPROM_DEV_ADDR B0 h) in
  let '(r, h') := ixgbe_identify_sfp_module_generic allow p h in
  identified bytes (nvm c (tr h) IXGBE_DEVICE_CAPS) lan allow (bool_decide (phy_type p = ixgbe_phy_sfp_intel)) (read_denied (fun g => negb (granted g)) h h') r /\
  contents (module_of IXGBE_I2C_EEPROM_DEV_ADDR B0 h') = bytes.
Proof.
  intros HS Hr Hn Hb Hmac Hmedia Hnl. cbv zeta. set (bytes := contents _). set (caps := nvm c (tr h) IXGBE_DEVICE_CAPS). apply wlp_run.
  eapply (wlp_identify (L := sfp_laws B0 c words lan A HS bytes Hb caps)); [by split|done|done|done|]. intros r h' [Hh' _] Hi. split; [done|apply Hh'].
Qed.

(** *** An Intel SR module, and one of another vendor *)
Definition sr_bytes (v1 v2 i : Z) : Z := if i =? 0 then 3 else if i =? 3 then 0x10 else if i =? 6 then 1 else if i =? 0x26 then v1 else if i =? 0x27 then v2 else 0.
Definition sr_bus (v1 v2 : Z) : wires := bus_at_rest (sr_bytes v1 v2).
Definition sr_adapter (v1 v2 : Z) (t : list access) (r : Z) : Z :=
  if (r =? IXGBE_EERD) || (r =? IXGBE_EEWR) then nvm_adapter (example_image 0) t r else sfp_adapter IXGBE_I2C_EEPROM_DEV_ADDR (sr_bus v1 v2) t r.
Definition sr_hw (v1 v2 : Z) : ixgbe_hw := set_eeprom (Eeprom ixgbe_eeprom_spi 10 0x100 8 0) (hw_init ixgbe_mac_82599EB (sr_adapter v1 v2)).
Definition sr_phy : ixgbe_phy_info := Phy ixgbe_phy_unknown 0 ixgbe_sfp_type_not_present false false.
Lemma sr_system v1 v2 : sfp_system (sr_bus v1 v2) (example_image 0) 0x100 0 (sr_adapter v1 v2).
Proof.
  destruct (sfp_adapter_ok IXGBE_I2C_EEPROM_DEV_ADDR (sr_bus v1 v2) (rest_stretch _)) as [S1 S2 S3 S4 S5]. destruct (nvm_adapter_device (example_image 0)) as [N1 N2 N3]. split; try done; [by split..|intros x; by apply example_image_u16].
Qed.
Lemma sfp_identify_correct_witness : (ixgbe_identify_sfp_module_generic false sr_phy (sr_hw 0x1B 0x21)).1 = (0, Phy ixgbe_phy_sfp_intel 3 ixgbe_sfp_type_srlr_core0 true true) /\
  (ixgbe_identify_sfp_module_generic false sr_phy (sr_hw 0x1B 0x22)).1.1 = IXGBE_ERR_SFP_NOT_SUPPORTED /\
  let '(r, h') := ixgbe_identify_sfp_module_generic false sr_phy (sr_hw 0x1B 0x21) in
  identified (sr_bytes 0x1B 0x21) 0 0 false false (read_denied (fun g => negb (granted g)) (sr_hw 0x1B 0x21) h') r /\ contents (module_of IXGBE_I2C_EEPROM_DEV_ADDR (sr_bus 0x1B 0x21) h') = sr_bytes 0x1B 0x21.
Proof.
  split; [vm_compute; reflexivity|]. split; [vm_compute; reflexivity|].
  apply (sfp_identify_correct (sr_bus 0x1B 0x21) (example_image 0) 0x100 0 (sr_adapter 0x1B 0x21) false sr_phy (sr_hw 0x1B 0x21) (sr_system 0x1B 0x21)); try done.
  intros i. change (0 <= sr_bytes 0x1B 0x21 i < 2 ^ 8). unfold sr_bytes. repeat destruct (_ =? _); lia.
Defined.
(** The code for Tyco leaves the type of a module that is not a passive cable as it was, so a Tyco module that takes the place of an Intel module is accepted as
    Intel's, and refused otherwise. *)
Example tyco_passes_as_intel : (ixgbe_identify_sfp_module_generic false (set_phy_type ixgbe_phy_sfp_intel sr_phy) (sr_hw 0x40 0x76)).1.1 = 0 /\
  (ixgbe_identify_sfp_module_generic false sr_phy (sr_hw 0x40 0x76)).1.1 = IXGBE_ERR_SFP_NOT_SUPPORTED.
Proof. split; vm_compute; reflexivity. Qed.

(** ** The initialisation sequence *)
Section Sequence.
Context `{EL : EepromLaws wf content nvm_words} (Hn : nvm_words < 2 ^ 16).
Local Notation reads := (reads (wf := wf) (content := content) (nvm_words := nvm_words)).
(** At [o] there is the list [l] of identifiers with offsets, and its end. *)
Fixpoint list_at (ct : Z -> Z) (o : Z) (l : list (Z * Z)) : Prop :=
  match l with
  | [] => ct o = IXGBE_PHY_INIT_END_NL /\ o < nvm_words
  | (i, d) :: l => ct o = i /\ i <> IXGBE_PHY_INIT_END_NL /\ ct (o + 1) = d /\ list_at ct (o + 2) l
  end.
(** The first entry for the type decides: its offset, unless it is 0 or 0xFFFF. *)
Definition sequence_of (t : Z) (l : list (Z * Z)) : Z * Z :=
  match List.find (fun e => e.1 =? t) l with
  | Some (_, d) => (if (d =? 0) || (d =? 0xFFFF) then IXGBE_ERR_SFP_NOT_SUPPORTED else 0, d)
  | None => (IXGBE_ERR_SFP_NOT_SUPPORTED, 0)
  end.
Lemma list_at_bound ct l : forall o, list_at ct o l -> o + 2 * Z.of_nat (length l) < nvm_words.
Proof. induction l as [|[i d] l IH]; intros o; cbn; [lia|]. intros (_ & _ & _ & H1). apply IH in H1. lia. Qed.
Lemma list_loop_spec c t l : forall fuel o h (Q : option (Z * Z * Z) -> ixgbe_hw -> Prop), reads c h -> 0 <= o -> list_at c o l -> (length l <= fuel)%nat ->
  (forall o' h', Q (Some ((sequence_of t l).1, o', (sequence_of t l).2)) h') -> wlp (sfp_list_loop fuel t o (c o)) h Q.
Proof using EL Hn.
  induction l as [|[i d] l IH]; intros fuel o h Q Hr Ho Hl Hf HQ; pose proof (list_at_bound _ _ _ Hl) as Hb; cbn [list_at] in Hl.
  - destruct Hl as [-> _]. destruct fuel; cbn [sfp_list_loop]; rewrite Z.eqb_refl; apply wlp_ret, HQ.
  - destruct Hl as (Hi & Hne & Hd & Hl). destruct fuel as [|fuel]; [cbn in Hf; lia|]. cbn [length] in Hb, Hf. cbn [sfp_list_loop]. rewrite (proj2 (Z.eqb_neq _ _)) by congruence. unfold sequence_of in HQ. cbn [List.find fst] in HQ. rewrite <- Hi in HQ.
    destruct (c o =? t); apply wlp_bind; rewrite u16_small by lia; (eapply (read_into_law (nvm_words := nvm_words) c); [done|lia|]); intros h' Hr'; cbn [fst snd]; change (truthy 0) with false; cbv iota.
    + apply wlp_ret. rewrite Hd. apply HQ.
    + apply IH; [done|lia|done|lia|]. intros o' h2. apply HQ.
Qed.
(** The initialisation sequence of a module is found. When the adapter's EEPROM points to a list of sequences, [ixgbe_get_sfp_init_sequence_offsets] ends and returns
    the sequence of the first entry for the module; limiting cables and 1G modules use the entry of the optical modules of their port. *)
Theorem init_sequence_found fuel device_id p l h : wf h -> IXGBE_PHY_INIT_OFFSET_NL < nvm_words -> 0 <= sfp_type p < 15 -> device_id <> IXGBE_DEV_ID_82598_SR_DUAL_PORT_EM ->
  0 < content h IXGBE_PHY_INIT_OFFSET_NL < 0xFFFF -> list_at (content h) (content h IXGBE_PHY_INIT_OFFSET_NL + 1) l -> (length l <= fuel)%nat -> exists o,
  (ixgbe_get_sfp_init_sequence_offsets fuel device_id p h).1 = Some ((sequence_of (sequence_type (sfp_type p)) l).1, o, (sequence_of (sequence_type (sfp_type p)) l).2).
Proof using EL Hn.
  intros Hwf Hw Ht Hd Hp Hl Hf. set (st := sequence_of _ l). cut (wlp (ixgbe_get_sfp_init_sequence_offsets fuel device_id p) h (fun r _ => exists o, r = Some (st.1, o, st.2))); [done|].
  unfold ixgbe_get_sfp_init_sequence_offsets. cbv zeta. rewrite !(proj2 (Z.eqb_neq (sfp_type p) _)) by (unfold ixgbe_sfp_type_unknown, ixgbe_sfp_type_not_present; lia). rewrite (proj2 (Z.eqb_neq _ _) Hd). cbn [andb].
  assert (reads (content h) h) as Hr by done. apply wlp_bind. eapply (read_into_law (nvm_words := nvm_words) (content h)); [done|unfold IXGBE_PHY_INIT_OFFSET_NL in *; lia|]. intros h1 Hr1. cbn [fst snd]. change (truthy 0) with false. cbv iota.
  set (o := content h IXGBE_PHY_INIT_OFFSET_NL) in *. rewrite !(proj2 (Z.eqb_neq o _)) by lia. cbn [orb]. rewrite u16_small by lia. pose proof (list_at_bound _ _ _ Hl) as Hb.
  apply wlp_bind. eapply (read_into_law (nvm_words := nvm_words) (content h)); [done|lia|]. intros h2 Hr2. cbn [fst snd]. change (truthy 0) with false. cbv iota. apply (list_loop_spec _ _ l); [done|lia|done|done|by eexists].
Qed.
End Sequence.
